(* ===== verification/_CoqProject ===== *)
-Q . S2P
Prelude.v
Errors.v
StrSearch.v
Io.v
Serializable.v
Segmented.v
Msg.v
Batch.v
Frame.v
Gzip.v
Connection.v
Assembler.v
HashTable.v
LogBuffer.v
Log.v
Tls.v
Setup.v
RequestPool.v
Backlog.v
Client.v
Timers.v
Sender.v
Multiplexer.v
Server.v
Sessions.v
Service.v
EndToEnd.v
Reply.v
Transport.v
Tcp.v
Pipe.v
Udp.v
DClient.v
StreamClient.v
UdpClient.v
ClientStack.v
ServerStack.v
Conversation.v
