(* ===== verification/Prelude.v ===== *)
(** * Verification of commutil

    Commutil is a C++ library for messaging over TCP, pipes and UDP. A caller
    hands message bodies to a sender; they are framed, given a request id,
    serialized and written to a transport; the other side cuts the received
    bytes into messages again, hands them to worker threads, unpacks the frames
    and answers; the response is matched with its request. This development
    models all of it: the layers between the caller and the transport, the
    clients and servers over libuv, and the containers, the logger, the
    thread-local storage and the string functions they stand on. What is not
    code of the library is a parameter: libuv, zlib, pthreads, the slots of
    Windows, the clock, the allocators and the user's callbacks are classes, or arguments of the definitions that use them.

    ** Conventions

    A function that may run into undefined behaviour, or that may run out of the
    fuel of one of its loops, returns an [outcome]: [Done] with the result,
    [Undef] with the reason, or [NoFuel]. Error codes are values ([ErrorCode]).
    Unsigned integers are in Z, and [u16], [u32], [u64] write out where they wrap.
    Memory is a list of bytes, and reads and writes check its bounds. An object
    behind several pointers lives in a map from pointers to objects ([Heap]).
    Objects are explicit state; a virtual interface is a class of operations over
    a state type, and its documented contract a second class of laws, so that the
    clients are proved against the laws and the implementations discharge them.
    The endpoints run over an environment ([Transport]) that answers each call of
    libuv by a list of results chosen freely, records the calls, and keeps the
    objects that libuv holds until a callback in a heap of its own, so that leaks
    and uses after free are visible.
    Threads are interleaved: a step relation where the order of single atomic
    accesses matters ([HashTable], [RequestPool], [Sessions]), transition systems of
    callbacks for the loops of a server ([Tcp], [Pipe]) and of whole calls for
    the queues of the workers ([Multiplexer]), otherwise a sequence of the events
    that other threads may cause: the answers to a pool entry, and, while a
    transaction waits, what the loop does ([Sender]).

    Libuv keeps hold of a handle from its initialization to its close callback. The
    model reports memory that is freed while its loop still refers to it
    ([UB_handle], in the frees of asynchronous requests and in the shutdown of a loop)
    and a callback that takes an object for what it is not ([UB_cast]). That a handle
    which was never closed is initialized again shows in the trace of the calls
    ([accepted_socket_never_closed]), not in the state.

    ** Files

    - [Prelude]: outcomes, machine integers, lists indexed by Z, tactics.
    - [Errors]: inc/comm_util_err.h, src/commutil_err.cpp.
    - [StrSearch]: src/commutil_common.cpp, the Knuth-Morris-Pratt search.
    - [Io]: the streams of inc/io over a fixed buffer, and the laws of streams.
    - [Serializable]: the macros of inc/io/serializable.h as composable steps.
    - [Segmented]: the input stream over a list of received buffers.
    - [Msg]: message headers and messages (inc/msg/msg_header.h, inc/msg/msg.h).
    - [Batch]: the payload of a batch of messages.
    - [Frame]: msg_frame_writer and msg_frame_reader, over the interface of a
      compression library.
    - [Gzip]: the copy of gzip-hpp in third_party that is this library, over zlib.
    - [Connection]: inc/transport/connection_details.h.
    - [Assembler]: msg_assembler, from received buffers to messages.
    - [HashTable]: inc/transport/concurrent_hash_table.h, sequential and concurrent.
    - [LogBuffer], [Log]: src/log_buffer.cpp and src/commutil_log_imp.cpp.
    - [Tls]: src/commutil_tls.cpp on both systems, and the events of the Windows
      DLL (src/commutil_win32_dll_event.cpp).
    - [Setup]: src/commutil.cpp, the registration of the loggers in src/io, src/msg
      and src/transport, and the log data of a thread behind their key.
    - [RequestPool]: msg_request and msg_request_pool, the entries of requests
      that wait for a response, and the race of threads for a vacant entry.
    - [Backlog]: msg_backlog, the requests that may have to be sent again.
    - [Client]: msg_client, over the interface of a data client.
    - [Timers]: transport/data_loop_listener, over the interface of libuv.
    - [Sender]: msg_sender, on top of [Client], [Backlog], [Frame] and [Timers].
    - [Multiplexer]: msg_multiplexer, the queues, the I/O threads and the workers.
    - [Server]: msg_server and msg_session, over the interface of a data server.
    - [Sessions]: the workers of [Multiplexer] on the sessions of [Server], in steps
      of one access to the table of the sessions.
    - [Service]: [Assembler], [Multiplexer] and [Server] put together.
    - [EndToEnd]: [Client] and [Service] put together.
    - [Reply]: the way back, from the answers of a server to the pool of requests
      of the client, over the promise of a server that writes.
    - [Transport]: the environment of libuv, data_server, data_stream_server,
      data_allocator and the shutdown of a loop (transport/transport.cpp).
    - [Tcp], [Pipe], [Udp]: tcp_server, pipe_server and udp_server.
    - [DClient]: data_client, over the virtual functions of its derived classes.
    - [StreamClient]: data_stream_client, tcp_client and pipe_client.
    - [UdpClient]: udp_client.
    - [ClientStack]: [Client] over [StreamClient], as far as [EndToEnd].
    - [ServerStack]: [Reply] over the servers of [Transport].
    - [Conversation]: [ClientStack] and [ServerStack] put together.

    A definition has the name of its C++ function; where several classes have a
    function of the same name it carries a prefix, as in [pool_initialize],
    [client_initialize] and [sender_initialize] ([dserver_], [tcp_], [udp_],
    [dclient_], [sc_], [tc_], [pc_], [uc_] for the endpoints, [win_] for Windows).

    ** Theorems

    End to end: what a client sends is what the server handles, in order, each
    message once, unchanged but for the request in its header
    ([client_messages_reach_server], for any data client that keeps the promise
    [Wire]; [messages_cross_the_network] for the clients over libuv, from sendMsg
    through the calls of uv_write), on top of [server_receives] for the way from
    bytes to events under any interleaving of connections and workers. Each request that the server
    answers, in whatever order, gets its own response, and nobody else's
    ([every_request_answered], from the replies of the server through the calls of
    uv_write and any cuts of the bytes to the pool of the client). Both ways together:
    each thread that waits returns with the answer to the message it sent
    ([conversation]). Libuv is
    taken to serve the asynchronous requests in the order in which they were made,
    and the network to keep the order of the bytes.

    Wire format: what is serialized is read back ([msg_roundtrip],
    [buffer_roundtrip], [batch_frame_roundtrip], [single_frame_roundtrip]), by any
    input stream that satisfies the laws, in both byte orders; a batch that ends in an
    empty message is handed out up to there and then reported as an error. The segmented
    stream implements a queue of bytes ([segmented_stream_queue]). The assembler
    delivers every message exactly once and in order however the bytes are cut
    into buffers, if no cut leaves a part of a header behind
    ([assembler_delivers]), and gets back in step after a connection is reset
    ([connect_resyncs]). Compression yields a gzip stream within four rounds and
    decompression undoes it ([gzip_roundtrip]), a compressed batch comes back
    message by message ([compressed_batch_roundtrip]), and decompressing ends and
    respects its limit whatever zlib answers ([decompress_ends]).

    The way of the messages needs a payload in each of them: one without is undefined
    behaviour when its header ends the received bytes ([short_messages_break]).

    Requests: the search finds a vacant entry if there is one
    ([getVacantRequest_spec]), no two threads hold the same one
    ([vacant_race_exclusive]), a response reaches the thread that waits for it
    ([response_delivered], [transaction_ends], [transaction_completes]), the
    message that is written carries the id and index of its entry
    ([client_sendMsg_spec]), the backlog keeps its indexes consistent
    ([addPendingRequest_spec], [removePendingRequest_spec],
    [answered_request_completed]).

    Workers and sessions: the events of a connection are handled in the order in
    which they were pushed ([multiplexed_in_order]) and all of them are
    ([multiplexed_all_handled]), the workers end after the last event
    ([stop_after_last_event]). When a worker empties its queue in one step, it does what
    it can do in small steps ([whole_steps_interleave]); in small steps, each session
    is deleted exactly once, at a disconnect or when the server terminates, unless two
    workers use one entry of the table at the same time
    ([sessions_deleted_once]), which they never do when no index connects twice
    ([single_connects_exclusive]).

    Servers: the slots of connections are given out once ([grabConnectionData_spec]),
    the listener is told of a connection, its bytes and its end in this order
    ([listener_told_in_order], [pipe_told_in_order]), datagrams reach the connection of
    their address ([datagrams_routed]), replies are written and their objects given
    back, and if the loop cannot issue the write, exactly these are lost
    ([reply_written]), a call that reports an error either leaves no trace or ran into
    the one failure that frees a live handle
    ([failed_reply_has_no_effect]), and a server goes through its whole life
    ([tcp_server_lifecycle], [pipe_shutdown_spec]).

    Clients: a write reaches uv_write and its objects are given back, or are lost if it
    cannot be issued ([write_delivered], [datagram_delivered],
    [failed_write_has_no_effect]), the
    timer connects again when it is due ([timer_reconnects]), and a client goes
    through its whole life ([stream_client_lifecycle]).

    Containers, text and setup: the hash table behaves as a map and keeps all keys
    that several threads insert ([setItem_as_map], [removeItem_as_map],
    [concurrent_sets_stored]); the search returns the first occurrence
    ([strnstr_first_occurrence]); the log buffer appends texts up to its limit
    ([append_spec]) and the logger delivers the text ([logMsg_delivers]);
    termination undoes initialization ([init_term_roundtrip]); on
    Windows the destructor of a key runs once at the end of a thread, and a
    destroyed key leaves nothing behind ([windows_key_lifecycle]).

    Defects: some theorems state what the code does where it does not do what it
    means to ([expired_request_use_after_free], [answered_out_of_order_dangles],
    [rejected_transaction_dangles], [resend_spins], [fragment_hangs],
    [short_messages_break], [readMsg_overrun], [late_response_leaks_entry],
    [stop_lost], [reconnect_loses_session], [overlapping_disconnects_delete_twice],
    [end_names_next_connection],
    [accepted_socket_never_closed], [reused_slot_misroutes],
    [lost_connection_stays_lost], [restarted_client_crashes],
    [udp_client_never_ready], [logging_without_key_never_returns],
    [failed_init_leaves_logger], [empty_frame_never_read],
    [truncated_stream_accepted], [need_dict_null_message] and others). Each is proved in general, with a
    witness that reaches it.

    ** Fuel

    Loops whose end depends on data take fuel. The callers choose: the length of
    the buffer plus one for a batch ([readMsgFrame_terminates]), the length of the
    texts for the search, the shutdown timeout for the polls of a stopping sender
    ([waitBacklogEmpty_bounded]); [assembler_delivers] needs two units for each
    message and two more; [gzip_roundtrip] needs more units than the data has
    bytes, and [decompress_ends] more than the limit divided by twice the size of
    the input. Where the loop or the recursion of the code does not
    end, the theorem says that no fuel is enough ([fragment_hangs],
    [resend_spins], [empty_frame_never_read], [logging_without_key_never_returns]).

    ** Not modelled

    Libuv itself: the endpoints are modelled up to its calls and from its
    callbacks. The transition systems of [Tcp] and [Pipe] assume that handing a
    socket over and starting to read succeed (the failures are theorems and
    findings of their own), and that a callback is atomic but for the end of a
    connection, whose slot is free before the listener is told. Real time: a clock
    is a sequence of readings. The texts of log messages, apart from the logger's
    own work, and the texts of system errors. Zlib, and the checks of gzip-hpp that are compiled
    with DEBUG only. The macros COMM_DESERIALIZE_ENUM and COMM_DESERIALIZE_STRING,
    which do not expand to valid C++: one uses a macro that does not exist, the
    other passes an integer for a pointer. *)

From Stdlib Require Import ZArith Lia.
From coqutil Require Import Byte.
From coqutil Require Export Word.LittleEndianList.
From stdpp Require Export base list option.
Open Scope Z_scope.

Declare Scope commutil_scope.
Delimit Scope commutil_scope with commutil.

(** ** Outcomes of C++ code

    A C++ function of the model either completes with a value, or executes an
    operation whose behaviour the language leaves undefined (or that ends the
    process), or runs out of the fuel given to one of its loops. *)

Inductive ub : Type :=
| UB_null        (* a null pointer is dereferenced *)
| UB_bounds      (* an access outside an object *)
| UB_uninit      (* an uninitialised object is read *)
| UB_assert      (* an assert() fails *)
| UB_freed       (* a freed object is accessed or freed again *)
| UB_divzero     (* division or modulus by zero *)
| UB_throw       (* an exception that the program does not catch *)
| UB_order       (* a std::set is used while its elements changed their order *)
| UB_handle      (* a handle that its loop still refers to is freed *)
| UB_cast        (* an object is used through a type that it does not have *)
| UB_hang.       (* a wait that nobody can end *)

Inductive outcome (A : Type) : Type :=
| Done (a : A)
| Undef (u : ub)
| NoFuel.

Arguments Done {A} a.
Arguments Undef {A} u.
Arguments NoFuel {A}.

Definition outcome_bind {A B} (m : outcome A) (f : A -> outcome B) : outcome B :=
  match m with
  | Done a => f a
  | Undef u => Undef u
  | NoFuel => NoFuel
  end.

Notation "'let*' x ':=' m 'in' k" := (outcome_bind m (fun x => k))
  (at level 10, x binder, m at level 100, k at level 200)
  : commutil_scope.

Notation "'let*' ' p ':=' m 'in' k" := (outcome_bind m (fun p => k))
  (at level 10, p pattern, m at level 100, k at level 200)
  : commutil_scope.

Open Scope commutil_scope.

Definition is_done {A} (m : outcome A) : bool :=
  match m with Done _ => true | _ => false end.

(** what a run comes to, for witnesses: it is enough to evaluate whether it comes to an end *)
Definition result_of {A} (dflt : A) (m : outcome A) : A := match m with Done a => a | _ => dflt end.

Lemma result_of_done {A} (dflt : A) m : is_done m = true -> m = Done (result_of dflt m).
Proof. by destruct m. Qed.

Definition accepted {A} (m : outcome (bool * A)) : bool := match m with Done (b, _) => b | _ => false end.

Lemma result_of_accepted {A} (dflt : A) (m : outcome (bool * A)) : accepted m = true ->
  m = Done (true, snd (result_of (false, dflt) m)).
Proof. by destruct m as [[[] a]| |]. Qed.

#[export] Instance ub_eq_dec : EqDecision ub.
Proof. solve_decision. Defined.

#[export] Instance outcome_eq_dec {A} `{EqDecision A} : EqDecision (outcome A).
Proof. solve_decision. Defined.

#[export] Instance byte_eq_dec : EqDecision Byte.byte.
Proof. intros x y. unfold Decision. exact (Byte.byte_eq_dec x y). Defined.

Lemma outcome_bind_done {A B} (a : A) (f : A -> outcome B) :
  outcome_bind (Done a) f = f a.
Proof. reflexivity. Qed.

Lemma outcome_bind_assoc {A B C} (m : outcome A) (f : A -> outcome B) (g : B -> outcome C) :
  outcome_bind (outcome_bind m f) g = outcome_bind m (fun a => outcome_bind (f a) g).
Proof. by destruct m. Qed.

Lemma outcome_bind_inv {A B} (m : outcome A) (f : A -> outcome B) b :
  outcome_bind m f = Done b -> exists a, m = Done a /\ f a = Done b.
Proof. destruct m; simpl; naive_solver. Qed.

(** ** Machine integers

    Unsigned integers are [Z] in range, the wrap-around is written out. *)

Definition u8 (x : Z) : Z := x mod 2 ^ 8.
Definition u16 (x : Z) : Z := x mod 2 ^ 16.
Definition u32 (x : Z) : Z := x mod 2 ^ 32.
Definition u64 (x : Z) : Z := x mod 2 ^ 64.

(** conversion to a 32 bit signed integer (two's complement) *)
Definition i32 (x : Z) : Z := (x + 2 ^ 31) mod 2 ^ 32 - 2 ^ 31.

Lemma u16_small x : 0 <= x < 2 ^ 16 -> u16 x = x.
Proof. apply Z.mod_small. Qed.
Lemma u32_small x : 0 <= x < 2 ^ 32 -> u32 x = x.
Proof. apply Z.mod_small. Qed.
Lemma u64_small x : 0 <= x < 2 ^ 64 -> u64 x = x.
Proof. apply Z.mod_small. Qed.
Lemma u16_range x : 0 <= u16 x < 2 ^ 16.
Proof. apply Z.mod_pos_bound. lia. Qed.
Lemma u32_range x : 0 <= u32 x < 2 ^ 32.
Proof. apply Z.mod_pos_bound. lia. Qed.
Lemma u64_range x : 0 <= u64 x < 2 ^ 64.
Proof. apply Z.mod_pos_bound. lia. Qed.
Lemma i32_small x : - 2 ^ 31 <= x < 2 ^ 31 -> i32 x = x.
Proof. intros H. unfold i32. rewrite Z.mod_small; lia. Qed.
Lemma u32_wrap_sub x : - 2 ^ 32 <= x < 0 -> u32 x = x + 2 ^ 32.
Proof.
  intros H. unfold u32. rewrite <- (Z.mod_small (x + 2 ^ 32) (2 ^ 32)) by lia.
  rewrite <- Z.add_mod_idemp_r by lia. by rewrite Z.mod_same, Z.add_0_r by lia.
Qed.

Create HintDb machine.
Create Rewrite HintDb machine_small.
#[export] Hint Resolve u16_range u32_range u64_range : machine.
#[export] Hint Rewrite u16_small u32_small u64_small i32_small using lia : machine_small.

(** ** Buffers

    Lengths and offsets of buffers are [Z], as the code's unsigned integers;
    [zlen], [ztake], [zdrop] and [zget] are the list functions at [Z]. *)

Definition zlen {A} (l : list A) : Z := Z.of_nat (length l).
Definition ztake {A} (n : Z) (l : list A) : list A := take (Z.to_nat n) l.
Definition zdrop {A} (n : Z) (l : list A) : list A := drop (Z.to_nat n) l.
Definition zget {A} (l : list A) (i : Z) : option A :=
  if i <? 0 then None else l !! Z.to_nat i.
Definition zset {A} (l : list A) (i : Z) (a : A) : list A :=
  if i <? 0 then l else <[Z.to_nat i := a]> l.

(** memcpy from [buf + off], [n] bytes *)
Definition mem_read {A} (buf : list A) (off n : Z) : outcome (list A) :=
  if (0 <=? off) && (0 <=? n) && (off + n <=? zlen buf)
  then Done (ztake n (zdrop off buf)) else Undef UB_bounds.

(** memcpy to [buf + off] *)
Definition mem_write {A} (buf : list A) (off : Z) (data : list A) : outcome (list A) :=
  if (0 <=? off) && (off + zlen data <=? zlen buf)
  then Done (ztake off buf ++ data ++ zdrop (off + zlen data) buf) else Undef UB_bounds.

(** [buf[i]] *)
Definition mem_get {A} (buf : list A) (i : Z) : outcome A :=
  match zget buf i with Some a => Done a | None => Undef UB_bounds end.

(** ** List lemmas at [Z] *)

Section ZLists.
Context {A : Type}.
Implicit Types (l : list A) (i n m : Z).

Lemma zlen_nonneg l : 0 <= zlen l.
Proof. unfold zlen. lia. Qed.

Lemma zlen_nil : zlen (@nil A) = 0.
Proof. reflexivity. Qed.

Lemma zlen_cons a l : zlen (a :: l) = 1 + zlen l.
Proof. unfold zlen. simpl length. lia. Qed.

Lemma zlen_app l1 l2 : zlen (l1 ++ l2) = zlen l1 + zlen l2.
Proof. unfold zlen. rewrite length_app. lia. Qed.

Lemma zlen_ztake n l : 0 <= n <= zlen l -> zlen (ztake n l) = n.
Proof. unfold zlen, ztake. rewrite length_take. lia. Qed.

Lemma zlen_zdrop n l : 0 <= n <= zlen l -> zlen (zdrop n l) = zlen l - n.
Proof. unfold zlen, zdrop. rewrite length_drop. lia. Qed.

Lemma zlen_replicate (k : nat) (a : A) : zlen (replicate k a) = Z.of_nat k.
Proof. unfold zlen. by rewrite length_replicate. Qed.

Lemma ztake_0 l : ztake 0 l = [].
Proof. reflexivity. Qed.

Lemma zdrop_0 l : zdrop 0 l = l.
Proof. reflexivity. Qed.

Lemma ztake_all n l : zlen l <= n -> ztake n l = l.
Proof. unfold zlen, ztake. intros H. apply take_ge. lia. Qed.

Lemma zdrop_all n l : zlen l <= n -> zdrop n l = [].
Proof. unfold zlen, zdrop. intros H. apply drop_ge. lia. Qed.

Lemma ztake_zdrop n l : ztake n l ++ zdrop n l = l.
Proof. apply take_drop. Qed.

Lemma zdrop_zdrop n m l : 0 <= n -> 0 <= m -> zdrop n (zdrop m l) = zdrop (m + n) l.
Proof. unfold zdrop. intros. rewrite drop_drop. f_equal. lia. Qed.

Lemma ztake_app_le n l1 l2 : 0 <= n <= zlen l1 -> ztake n (l1 ++ l2) = ztake n l1.
Proof. unfold ztake, zlen. intros. rewrite take_app_le; [done|lia]. Qed.

Lemma zdrop_app_le n l1 l2 : 0 <= n <= zlen l1 -> zdrop n (l1 ++ l2) = zdrop n l1 ++ l2.
Proof. unfold zdrop, zlen. intros. rewrite drop_app_le; [done|lia]. Qed.

Lemma ztake_app_length l1 l2 n : n = zlen l1 -> ztake n (l1 ++ l2) = l1.
Proof. intros ->. unfold ztake, zlen. rewrite Nat2Z.id. by rewrite take_app_length. Qed.

Lemma zdrop_app_length l1 l2 n : n = zlen l1 -> zdrop n (l1 ++ l2) = l2.
Proof. intros ->. unfold zdrop, zlen. rewrite Nat2Z.id. by rewrite drop_app_length. Qed.

Lemma ztake_app_ge n l1 l2 : zlen l1 <= n -> ztake n (l1 ++ l2) = l1 ++ ztake (n - zlen l1) l2.
Proof.
  unfold ztake, zlen. intros. rewrite take_app_ge by lia. do 2 f_equal. lia.
Qed.

Lemma zdrop_app_ge n l1 l2 : zlen l1 <= n -> zdrop n (l1 ++ l2) = zdrop (n - zlen l1) l2.
Proof. unfold zdrop, zlen. intros. rewrite drop_app_ge by lia. f_equal. lia. Qed.

Lemma ztake_split n m l : 0 <= n -> 0 <= m ->
  ztake (n + m) l = ztake n l ++ ztake m (zdrop n l).
Proof.
  unfold ztake, zdrop. intros.
  replace (Z.to_nat (n + m)) with (Z.to_nat n + Z.to_nat m)%nat by lia.
  by rewrite take_take_drop.
Qed.

Lemma zdrop_ztake n m l : 0 <= n <= m -> zdrop n (ztake m l) = ztake (m - n) (zdrop n l).
Proof.
  unfold ztake, zdrop. intros. rewrite skipn_firstn_comm. f_equal. lia.
Qed.

Lemma ztake_ztake n m l : n <= m -> ztake n (ztake m l) = ztake n l.
Proof. unfold ztake. intros. rewrite take_take. f_equal. lia. Qed.

Lemma zget_nil i : zget (@nil A) i = None.
Proof. unfold zget. by destruct (i <? 0). Qed.

Lemma zget_cons a l i : 0 < i -> zget (a :: l) i = zget l (i - 1).
Proof.
  unfold zget. intros. destruct (Z.ltb_spec i 0), (Z.ltb_spec (i - 1) 0); try lia.
  by replace (Z.to_nat i) with (S (Z.to_nat (i - 1))) by lia.
Qed.

Lemma zget_cons_0 a l : zget (a :: l) 0 = Some a.
Proof. reflexivity. Qed.

Lemma zget_Some_range l i a : zget l i = Some a -> 0 <= i < zlen l.
Proof.
  unfold zget, zlen. destruct (Z.ltb_spec i 0); [done|].
  intros Hl%lookup_lt_Some. lia.
Qed.

Lemma zget_is_Some l i : 0 <= i < zlen l -> exists a, zget l i = Some a.
Proof.
  unfold zget, zlen. intros H. destruct (Z.ltb_spec i 0); [lia|].
  apply lookup_lt_is_Some. lia.
Qed.

Lemma zget_None l i : zlen l <= i -> zget l i = None.
Proof.
  unfold zget, zlen. intros H. destruct (Z.ltb_spec i 0); [done|].
  apply lookup_ge_None. lia.
Qed.

Lemma zget_neg l i : i < 0 -> zget l i = None.
Proof. unfold zget. intros H. destruct (Z.ltb_spec i 0); [done|lia]. Qed.

Lemma zget_ztake l n i : i < n -> zget (ztake n l) i = zget l i.
Proof.
  unfold zget, ztake. intros H. destruct (Z.ltb_spec i 0); [done|].
  rewrite lookup_take_lt; [done|lia].
Qed.

Lemma zget_zdrop l n i : 0 <= n -> 0 <= i -> zget (zdrop n l) i = zget l (n + i).
Proof.
  unfold zget, zdrop. intros. destruct (Z.ltb_spec i 0), (Z.ltb_spec (n + i) 0); try lia.
  rewrite lookup_drop. f_equal. lia.
Qed.

Lemma zlen_zset l i a : zlen (zset l i a) = zlen l.
Proof. unfold zset, zlen. destruct (Z.ltb_spec i 0); [done|]. by rewrite length_insert. Qed.

Lemma zget_zset_eq l i a : 0 <= i < zlen l -> zget (zset l i a) i = Some a.
Proof.
  unfold zget, zset, zlen. intros. destruct (Z.ltb_spec i 0); [lia|].
  apply list_lookup_insert_eq. lia.
Qed.

Lemma zget_zset_ne l i j a : i <> j -> zget (zset l i a) j = zget l j.
Proof.
  unfold zget, zset. intros. destruct (Z.ltb_spec j 0), (Z.ltb_spec i 0); try done.
  apply list_lookup_insert_ne. lia.
Qed.

Lemma zset_zset l i a b : zset (zset l i a) i b = zset l i b.
Proof. unfold zset. destruct (i <? 0); [done|]. apply list_insert_insert_eq. Qed.

Lemma zget_app_l l1 l2 i : i < zlen l1 -> zget (l1 ++ l2) i = zget l1 i.
Proof.
  unfold zget, zlen. intros. destruct (Z.ltb_spec i 0); [done|]. apply lookup_app_l. lia.
Qed.

Lemma zget_app_r l1 l2 i : zlen l1 <= i -> zget (l1 ++ l2) i = zget l2 (i - zlen l1).
Proof.
  unfold zget, zlen. intros. destruct (Z.ltb_spec i 0), (Z.ltb_spec (i - Z.of_nat (length l1)) 0);
    try lia.
  rewrite lookup_app_r by lia. f_equal. lia.
Qed.

Lemma zget_one (a : A) t b : zget [a] t = Some b -> b = a.
Proof.
  intros Ht. pose proof (zget_Some_range _ _ _ Ht) as Hr. change (zlen [a]) with 1 in Hr.
  replace t with 0 in Ht by lia. by injection Ht as <-.
Qed.

Lemma zget_ext l1 l2 : (forall i, 0 <= i -> zget l1 i = zget l2 i) -> l1 = l2.
Proof.
  intros H. apply list_eq. intros i. specialize (H (Z.of_nat i) ltac:(lia)).
  unfold zget in H. destruct (Z.ltb_spec (Z.of_nat i) 0); [lia|]. by rewrite Nat2Z.id in H.
Qed.

Lemma mem_read_ok l off n : 0 <= off -> 0 <= n -> off + n <= zlen l ->
  mem_read l off n = Done (ztake n (zdrop off l)).
Proof.
  intros. unfold mem_read.
  by rewrite (proj2 (Z.leb_le 0 off)), (proj2 (Z.leb_le 0 n)), (proj2 (Z.leb_le _ (zlen l))) by lia.
Qed.

Lemma mem_write_ok l off d : 0 <= off -> off + zlen d <= zlen l ->
  mem_write l off d = Done (ztake off l ++ d ++ zdrop (off + zlen d) l).
Proof.
  intros. unfold mem_write.
  by rewrite (proj2 (Z.leb_le 0 off)), (proj2 (Z.leb_le _ (zlen l))) by lia.
Qed.

Lemma mem_write_length l off d l' : mem_write l off d = Done l' -> zlen l' = zlen l.
Proof.
  unfold mem_write. destruct (Z.leb_spec 0 off), (Z.leb_spec (off + zlen d) (zlen l));
    simpl; intros [=<-].
  pose proof (zlen_nonneg d).
  rewrite !zlen_app, zlen_ztake, zlen_zdrop by lia. lia.
Qed.

Lemma mem_get_ok l i a : zget l i = Some a -> mem_get l i = Done a.
Proof. unfold mem_get. by intros ->. Qed.
End ZLists.

#[export] Hint Resolve zlen_nonneg : machine.
Create Rewrite HintDb zlist.
#[export] Hint Rewrite @zlen_nil @zlen_cons @zlen_app @zlen_zset @zlen_replicate : zlist.
#[export] Hint Rewrite @zlen_ztake @zlen_zdrop using lia : zlist.

(** ** Tactics *)

(** case analysis on the boolean comparisons of the goal or of a hypothesis *)
Ltac zbool :=
  repeat match goal with
  | |- context [?a <? ?b] => destruct (Z.ltb_spec a b)
  | |- context [?a <=? ?b] => destruct (Z.leb_spec a b)
  | |- context [?a =? ?b] => destruct (Z.eqb_spec a b)
  | H : context [?a <? ?b] |- _ => destruct (Z.ltb_spec a b)
  | H : context [?a <=? ?b] |- _ => destruct (Z.leb_spec a b)
  | H : context [?a =? ?b] |- _ => destruct (Z.eqb_spec a b)
  end; cbn [andb orb negb] in *; try lia.

(** splits the binds of a completed computation *)
Ltac inv_bind :=
  repeat match goal with
  | H : outcome_bind _ _ = Done _ |- _ =>
      let a := fresh "a" in let E := fresh "E" in
      apply outcome_bind_inv in H as (a & E & H)
  | H : Done _ = Done _ |- _ => injection H as H
  end; simplify_eq.

(** facts about the lengths of the lists in the context *)
Ltac zlens :=
  repeat match goal with
  | |- context [zlen ?l] =>
      lazymatch goal with
      | _ : 0 <= zlen l |- _ => fail
      | _ => pose proof (zlen_nonneg l)
      end
  | _ : context [zlen ?l] |- _ =>
      lazymatch goal with
      | _ : 0 <= zlen l |- _ => fail
      | _ => pose proof (zlen_nonneg l)
      end
  end.

Ltac zlia := zlens; lia.
