(* ===== verification/Errors.v ===== *)
(** * Error codes

    [ErrorCode] of inc/comm_util_err.h and its conversion to text of
    src/commutil_err.cpp. Every other file returns these codes as values. *)

From Stdlib Require Import ZArith Lia String.
From S2P Require Import Prelude.
Open Scope Z_scope.

Inductive ErrorCode : Type :=
| E_OK
| E_NOMEM
| E_INVALID_ARGUMENT
| E_INVALID_STATE
| E_RESOURCE_LIMIT
| E_IO_CANCELED
| E_CONCURRENT_MODIFICATION
| E_SYSTEM_FAILURE
| E_NOT_FOUND
| E_INTERNAL_ERROR
| E_EOF
| E_ALREADY_EXISTS
| E_INPROGRESS
| E_NET_ERROR
| E_END_OF_STREAM
| E_PROTOCOL_ERROR
| E_SERVER_ERROR
| E_NOT_IMPLEMENTED
| E_INVALID_CONNECTION
| E_SESSION_NOT_FOUND
| E_SESSION_STALE
| E_ABORTED
| E_DATA_CORRUPT
| E_TRANSPORT_ERROR
| E_TIMED_OUT
| E_LAST_ERROR.

#[export] Instance ErrorCode_eq_dec : EqDecision ErrorCode.
Proof. solve_decision. Defined.

(** the enumerators in declaration order: the position is the value *)
Definition errorCodes : list ErrorCode :=
  [E_OK; E_NOMEM; E_INVALID_ARGUMENT; E_INVALID_STATE; E_RESOURCE_LIMIT; E_IO_CANCELED;
   E_CONCURRENT_MODIFICATION; E_SYSTEM_FAILURE; E_NOT_FOUND; E_INTERNAL_ERROR; E_EOF;
   E_ALREADY_EXISTS; E_INPROGRESS; E_NET_ERROR; E_END_OF_STREAM; E_PROTOCOL_ERROR;
   E_SERVER_ERROR; E_NOT_IMPLEMENTED; E_INVALID_CONNECTION; E_SESSION_NOT_FOUND;
   E_SESSION_STALE; E_ABORTED; E_DATA_CORRUPT; E_TRANSPORT_ERROR; E_TIMED_OUT; E_LAST_ERROR].

(** the [uint32_t] underlying an enumerator *)
Definition errorCode_value (e : ErrorCode) : Z :=
  match e with
  | E_OK => 0 | E_NOMEM => 1 | E_INVALID_ARGUMENT => 2 | E_INVALID_STATE => 3
  | E_RESOURCE_LIMIT => 4 | E_IO_CANCELED => 5 | E_CONCURRENT_MODIFICATION => 6
  | E_SYSTEM_FAILURE => 7 | E_NOT_FOUND => 8 | E_INTERNAL_ERROR => 9 | E_EOF => 10
  | E_ALREADY_EXISTS => 11 | E_INPROGRESS => 12 | E_NET_ERROR => 13 | E_END_OF_STREAM => 14
  | E_PROTOCOL_ERROR => 15 | E_SERVER_ERROR => 16 | E_NOT_IMPLEMENTED => 17
  | E_INVALID_CONNECTION => 18 | E_SESSION_NOT_FOUND => 19 | E_SESSION_STALE => 20
  | E_ABORTED => 21 | E_DATA_CORRUPT => 22 | E_TRANSPORT_ERROR => 23 | E_TIMED_OUT => 24
  | E_LAST_ERROR => 25
  end.

Definition sErrorCodeStr : list string :=
  [ "No error"; "Out of memory"; "Invalid argument"; "Invalid state"; "Resource limit";
    "I/O canceled"; "Concurrent modification"; "System failure"; "Not found"; "Internal error";
    "End of file"; "Already exists"; "Operation in progress"; "Network error"; "End of stream";
    "Protocol error"; "Server error"; "Not implemented"; "Invalid connection";
    "Session not found"; "Session is stale"; "Operation aborted"; "Data corrupted";
    "Transport error"; "Operation timed out" ]%string.

(** the argument is the [uint32_t] the enumeration value converts to: a value
    outside the enumerators is possible *)
Definition errorCodeToString (rc : Z) : outcome string :=
  if rc <? errorCode_value E_LAST_ERROR then mem_get sErrorCodeStr rc
  else Done "Unknown error"%string.

Lemma errorCodes_value e : zget errorCodes (errorCode_value e) = Some e.
Proof. by destruct e. Qed.

Lemma errorCode_value_inj e1 e2 : errorCode_value e1 = errorCode_value e2 -> e1 = e2.
Proof.
  intros H. pose proof (errorCodes_value e1) as H1. rewrite H, errorCodes_value in H1. congruence.
Qed.

(** the table of texts has exactly one entry per proper error code *)
Lemma sErrorCodeStr_length : zlen sErrorCodeStr = errorCode_value E_LAST_ERROR.
Proof. reflexivity. Qed.

Lemma errorCodeToString_total rc : 0 <= rc -> exists s, errorCodeToString rc = Done s.
Proof.
  intros H. unfold errorCodeToString. destruct (Z.ltb_spec rc (errorCode_value E_LAST_ERROR)); [|eauto].
  destruct (zget_is_Some sErrorCodeStr rc) as [s Hs]; [rewrite sErrorCodeStr_length; lia|].
  exists s. by apply mem_get_ok.
Qed.
