(* ===== verification/StrSearch.v ===== *)
(** * String utilities of src/commutil_common.cpp

    [commutil_strncpy] and the Knuth-Morris-Pratt search [commutil_strnstr]
    with its border table, on byte buffers. The loops take fuel; the theorems
    show that the fuel chosen by the callers is enough, that no read leaves the
    buffers and that the search returns the first occurrence of the needle, which
    it looks for before the first NUL byte of the haystack only. *)

From Stdlib Require Import ZArith Lia.
From coqutil Require Import Byte.
From S2P Require Import Prelude.
Open Scope Z_scope.

(** ** Definitions *)

Definition NUL : Byte.byte := Byte.x00.

(** strlen of the C string at the start of [s]; [None]: no terminating null *)
Fixpoint strlen (s : list Byte.byte) : option Z :=
  match s with
  | [] => None
  | c :: s => if decide (c = NUL) then Some 0 else Z.succ <$> strlen s
  end.

(** strncmp(s1, s2, n) == 0 *)
Fixpoint strncmp_eq (s1 s2 : list Byte.byte) (n : nat) : outcome bool :=
  match n with
  | O => Done true
  | S n =>
    match s1, s2 with
    | c1 :: s1, c2 :: s2 =>
      if decide (c1 = c2)
      then (if decide (c1 = NUL) then Done true else strncmp_eq s1 s2 n)
      else Done false
    | _, _ => Undef UB_bounds
    end
  end.

Definition commutil_strncpy (dest src : list Byte.byte) (destLen srcLen : Z)
  : outcome (Z * list Byte.byte) :=
  if 0 <? destLen then
    let* srcLen := (if srcLen =? 0
                    then match strlen src with Some n => Done n | None => Undef UB_bounds end
                    else Done srcLen) in
    if srcLen + 1 <? destLen then
      let* data := mem_read src 0 (srcLen + 1) in
      let* dest := mem_write dest 0 data in
      Done (srcLen, dest)
    else
      let copyLen := destLen - 1 in
      let* data := mem_read src 0 copyLen in
      let* dest := mem_write dest 0 data in
      let* dest := mem_write dest copyLen [NUL] in
      Done (copyLen, dest)
  else Undef UB_assert.

(** [borders[i]] of the table under construction: [None] is uninitialised *)
Definition border_get (borders : list (option Z)) (i : Z) : outcome Z :=
  let* b := mem_get borders i in
  match b with Some j => Done j | None => Undef UB_uninit end.

Definition border_set (borders : list (option Z)) (i j : Z) : outcome (list (option Z)) :=
  if (0 <=? i) && (i <? zlen borders) then Done (zset borders i (Some j)) else Undef UB_bounds.

(** while (j >= 0 && needle[i] != needle[j]) j = borders[j]; *)
Fixpoint kmp_fallback (fuel : nat) (needle : list Byte.byte) (borders : list (option Z))
    (i j : Z) : outcome Z :=
  match fuel with
  | O => NoFuel
  | S fuel =>
    if 0 <=? j then
      let* ci := mem_get needle i in
      let* cj := mem_get needle j in
      if decide (ci = cj) then Done j
      else
        let* j' := border_get borders j in
        kmp_fallback fuel needle borders i j'
    else Done j
  end.

(** while (i < needleLength) ... *)
Fixpoint kmp_borders_loop (fuel : nat) (needle : list Byte.byte) (needleLength : Z)
    (borders : list (option Z)) (i j : Z) : outcome (list (option Z)) :=
  match fuel with
  | O => NoFuel
  | S fuel =>
    if i <? needleLength then
      let* j := kmp_fallback (S (Z.to_nat (needleLength + 1))) needle borders i j in
      let i := i + 1 in
      let j := j + 1 in
      let* borders := border_set borders i j in
      kmp_borders_loop fuel needle needleLength borders i j
    else Done borders
  end.

(** [alloc]: whether [new (std::nothrow) int[needleLength + 1]] succeeds *)
Definition kmp_borders (alloc : bool) (needle : list Byte.byte) (needleLength : Z)
  : outcome (option (list (option Z))) :=
  if alloc then
    let borders := replicate (Z.to_nat (needleLength + 1)) None in
    let i := 0 in
    let j := -1 in
    let* borders := border_set borders i j in
    let* borders :=
      kmp_borders_loop (S (Z.to_nat needleLength)) needle needleLength borders i j in
    Done (Some borders)
  else Done None.

(** while (j < needleLength && *haystack && needle[j] == *haystack): the
    haystack pointer is the index [p] *)
Fixpoint kmp_advance (fuel : nat) (haystack needle : list Byte.byte) (needleLength j p : Z)
  : outcome (Z * Z) :=
  match fuel with
  | O => NoFuel
  | S fuel =>
    if j <? needleLength then
      let* c := mem_get haystack p in
      if decide (c = NUL) then Done (j, p)
      else
        let* n := mem_get needle j in
        if decide (n = c) then kmp_advance fuel haystack needle needleLength (j + 1) (p + 1)
        else Done (j, p)
    else Done (j, p)
  end.

(** do { i += j - borders[j]; j = borders[j]; }
    while (j > 0 && needle[j] != *haystack); *)
Fixpoint kmp_shift (fuel : nat) (haystack needle : list Byte.byte)
    (borders : list (option Z)) (i j p : Z) : outcome (Z * Z) :=
  match fuel with
  | O => NoFuel
  | S fuel =>
    let* b := border_get borders j in
    let i := i + (j - b) in
    let j := b in
    if 0 <? j then
      let* n := mem_get needle j in
      let* c := mem_get haystack p in
      if decide (n = c) then Done (i, j)
      else kmp_shift fuel haystack needle borders i j p
    else Done (i, j)
  end.

Fixpoint kmp_search_loop (fuel : nat) (haystack needle : list Byte.byte)
    (needleLength max_index : Z) (borders : list (option Z)) (i j p : Z) : outcome Z :=
  match fuel with
  | O => NoFuel
  | S fuel =>
    if i <=? max_index then
      let* '(j, p) := kmp_advance (S (Z.to_nat needleLength)) haystack needle needleLength j p in
      if j =? needleLength then Done (i32 (p - needleLength))
      else
        let* c := mem_get haystack p in
        if decide (c = NUL) then Done (-1)
        else if j =? 0 then
          kmp_search_loop fuel haystack needle needleLength max_index borders (i + 1) j (p + 1)
        else
          let* '(i, j) := kmp_shift (S (Z.to_nat j)) haystack needle borders i j p in
          kmp_search_loop fuel haystack needle needleLength max_index borders i j p
    else Done (-1)
  end.

Definition kmp_search (haystack : list Byte.byte) (haystackLength : Z) (needle : list Byte.byte)
    (needleLength : Z) (borders : list (option Z)) : outcome Z :=
  let max_index := i32 (haystackLength - needleLength) in
  kmp_search_loop (S (S (Z.to_nat haystackLength))) haystack needle needleLength max_index
    borders 0 0 0.

(** [None] is a null pointer *)
Definition commutil_strnstr (alloc : bool) (haystack : option (list Byte.byte)) (haystackLength : Z)
    (needle : option (list Byte.byte)) (needleLength : Z) : outcome Z :=
  match haystack, needle with
  | Some haystack, Some needle =>
    if haystackLength <? needleLength then Done (-1)
    else
      let* borders := kmp_borders alloc needle needleLength in
      match borders with
      | None => Done (-1)
      | Some borders => kmp_search haystack haystackLength needle needleLength borders
      end
  | _, _ => Done (-1)
  end.

(** ** Reference definitions *)

(** the bytes before the first NUL *)
Fixpoint before_nul (s : list Byte.byte) : list Byte.byte :=
  match s with
  | [] => []
  | c :: s => if decide (c = NUL) then [] else c :: before_nul s
  end.

(** [needle] starts [s] *)
Definition starts_with (needle s : list Byte.byte) : bool :=
  bool_decide (ztake (zlen needle) s = needle).

(** the smallest index at which [needle] occurs in [s], -1 when there is none *)
Fixpoint find_from (needle s : list Byte.byte) (i : Z) : Z :=
  if starts_with needle s then i
  else match s with
       | [] => -1
       | _ :: s => find_from needle s (i + 1)
       end.

Definition find_first (needle s : list Byte.byte) : Z := find_from needle s 0.

(** [needle] occurs in [s] at index [i] *)
Definition occurs (needle s : list Byte.byte) (i : Z) : Prop :=
  0 <= i /\ i + zlen needle <= zlen s /\
  forall x, 0 <= x < zlen needle -> zget s (i + x) = zget needle x.

(** ** The border table *)

(** the prefix of length [k] of [p] is a suffix of its prefix of length [i] *)
Definition is_border (p : list Byte.byte) (i k : Z) : Prop :=
  0 <= k < i /\ forall x, 0 <= x < k -> zget p x = zget p (i - k + x).

(** what [borders[i]] has to be: -1 for the empty prefix, otherwise the length
    of the longest proper border *)
Definition longest_border (p : list Byte.byte) (i b : Z) : Prop :=
  (i = 0 /\ b = -1) \/
  (0 < i /\ is_border p i b /\ forall k, is_border p i k -> k <= b).

Definition borders_valid (p : list Byte.byte) (borders : list (option Z)) (i : Z) : Prop :=
  forall m, 0 <= m <= i -> exists b, zget borders m = Some (Some b) /\ longest_border p m b.

Lemma border_trans p i j k : is_border p i j -> is_border p j k -> is_border p i k.
Proof.
  intros [Hj Ej] [Hk Ek]. split; [lia|]. intros x Hx.
  rewrite Ek, Ej by lia. f_equal. lia.
Qed.

Lemma border_of_border p i j k :
  is_border p i j -> is_border p i k -> k < j -> is_border p j k.
Proof.
  intros [Hj Ej] [Hk Ek] Hlt. split; [lia|]. intros x Hx.
  rewrite (Ek x), (Ej (j - k + x)) by lia. f_equal. lia.
Qed.

Lemma border_extend p i j : is_border p i j \/ j = -1 /\ 0 <= i ->
  zget p j = zget p i \/ j = -1 -> is_border p (i + 1) (j + 1).
Proof.
  intros Hb Hc. split; [destruct Hb as [[? _]|]; lia|]. intros x Hx.
  destruct Hb as [[Hj Ej]|]; [|lia].
  destruct (Z.eq_dec x j) as [->|].
  - destruct Hc as [->|]; [f_equal; lia|lia].
  - rewrite Ej by lia. f_equal. lia.
Qed.

Lemma border_shrink p i k : 0 < k -> is_border p (i + 1) k ->
  is_border p i (k - 1) /\ zget p (k - 1) = zget p i.
Proof.
  intros Hpos [Hk Ek]. split.
  - split; [lia|]. intros x Hx. rewrite Ek by lia. f_equal. lia.
  - rewrite Ek by lia. f_equal. lia.
Qed.

Lemma border_get_ok (borders : list (option Z)) i b :
  zget borders i = Some (Some b) -> border_get borders i = Done b.
Proof. intros H. unfold border_get. by rewrite (mem_get_ok _ _ _ H). Qed.

Lemma borders_get p borders i m : borders_valid p borders i -> 0 <= m <= i ->
  exists b, border_get borders m = Done b /\ longest_border p m b.
Proof. intros Hv Hm. destruct (Hv m Hm) as (b & Hb & Hl). eauto using border_get_ok. Qed.

(** what the candidate [j] satisfies while the fallback loop looks for a border
    of the prefix of length [i] that the character [needle[i]] extends *)
Definition candidate (p : list Byte.byte) (i j : Z) : Prop :=
  (j = -1 \/ is_border p i j) /\
  forall k, is_border p i k -> j < k -> zget p k <> zget p i.

Lemma candidate_step p i j : candidate p i j -> 0 <= j ->
  zget p j <> zget p i -> forall b, longest_border p j b -> candidate p i b.
Proof.
  intros [[->|Hj] Hmax] Hpos Hne b Hb; [lia|].
  assert (Hle : forall k, is_border p i k -> b < k -> zget p k <> zget p i).
  { intros k Hk Hlt. destruct (Z.lt_trichotomy k j) as [Hkj|[->|Hkj]]; [|done|by apply Hmax].
    pose proof (border_of_border p i j k Hj Hk Hkj) as Hjk.
    destruct Hb as [[-> ->]|(_ & _ & Hlong)].
    - destruct Hk; lia.
    - specialize (Hlong k Hjk). lia. }
  split; [|done]. destruct Hb as [[_ ->]|(_ & Hb & _)]; [by left|right].
  by apply (border_trans p i j).
Qed.

Lemma kmp_fallback_ok needle borders i fuel : forall j,
  borders_valid needle borders i -> i < zlen needle -> 0 <= i ->
  candidate needle i j -> -1 <= j -> j + 1 < Z.of_nat fuel ->
  exists j', kmp_fallback fuel needle borders i j = Done j' /\
    candidate needle i j' /\ (j' = -1 \/ zget needle j' = zget needle i).
Proof.
  induction fuel as [|fuel IH]; intros j Hv Hi Hi0 Hc Hj Hf; [lia|]. simpl.
  destruct (Z.leb_spec 0 j) as [Hj0|Hj0]; [|exists j; split; [done|split; [done|lia]]].
  assert (Hji : j < i) by (destruct Hc as [[?|[? _]] _]; lia).
  destruct (zget_is_Some needle i) as [ci Hci]; [lia|].
  destruct (zget_is_Some needle j) as [cj Hcj]; [lia|].
  rewrite (mem_get_ok _ _ _ Hci), (mem_get_ok _ _ _ Hcj). cbn [outcome_bind].
  destruct (decide (ci = cj)) as [->|Hne].
  - exists j. split; [done|]. split; [done|right; congruence].
  - destruct (borders_get _ _ _ j Hv) as (b & Hb & Hl); [lia|]. rewrite Hb. cbn [outcome_bind].
    apply IH; try done.
    + eapply candidate_step; eauto. congruence.
    + destruct Hl as [[? ->]|(? & [? ?] & ?)]; lia.
    + destruct Hl as [[? ->]|(? & [? ?] & ?)]; lia.
Qed.

Lemma longest_border_next p i j : 0 <= i -> candidate p i j ->
  (j = -1 \/ zget p j = zget p i) -> longest_border p (i + 1) (j + 1).
Proof.
  intros Hi [Hb Hmax] Hext. right. split; [lia|]. split.
  - apply border_extend; tauto.
  - intros k Hk. destruct (Z_le_gt_dec k 0) as [|Hpos].
    { destruct Hb as [->|[? _]]; lia. }
    destruct (border_shrink p i k) as [Hb' Hc]; [lia|done|].
    destruct (Z_le_gt_dec k (j + 1)) as [|Hgt]; [done|].
    exfalso. apply (Hmax (k - 1) Hb'); [lia|done].
Qed.

Lemma kmp_borders_loop_ok needle fuel : forall borders i j,
  zlen borders = zlen needle + 1 -> 0 <= i <= zlen needle ->
  borders_valid needle borders i ->
  zget borders i = Some (Some j) -> zlen needle - i < Z.of_nat fuel ->
  exists borders', kmp_borders_loop fuel needle (zlen needle) borders i j = Done borders' /\
    borders_valid needle borders' (zlen needle).
Proof.
  induction fuel as [|fuel IH]; intros borders i j Hlen Hi Hv Hj Hf; [lia|].
  cbn [kmp_borders_loop]. destruct (Z.ltb_spec i (zlen needle)) as [Hlt|Hge].
  2: { exists borders. split; [done|]. by replace (zlen needle) with i by lia. }
  assert (Hlj : longest_border needle i j).
  { destruct (Hv i) as (b & Hb & Hl); [lia|]. congruence. }
  destruct (kmp_fallback_ok needle borders i (S (Z.to_nat (zlen needle + 1))) j)
    as (j' & Hrun & Hc' & Hext); try done; try lia.
  { destruct Hlj as [[-> ->]|(Hpos & Hb & Hmax)].
    - split; [by left|]. intros k [? _]. lia.
    - split; [by right|]. intros k Hk Hgt. specialize (Hmax k Hk). lia. }
  { destruct Hlj as [[_ ->]|(_ & [? _] & _)]; lia. }
  { destruct Hlj as [[_ ->]|(_ & [? _] & _)]; lia. }
  rewrite Hrun. cbn [outcome_bind]. unfold border_set. rewrite Hlen.
  rewrite (proj2 (Z.leb_le 0 (i + 1))), (proj2 (Z.ltb_lt (i + 1) (zlen needle + 1))) by lia.
  cbn [andb outcome_bind]. apply IH; [by rewrite zlen_zset|lia| |by rewrite zget_zset_eq by lia|lia].
  intros m Hm. destruct (Z.eq_dec m (i + 1)) as [->|].
  - exists (j' + 1). rewrite zget_zset_eq by lia. split; [done|].
    apply longest_border_next; [lia|done|done].
  - rewrite zget_zset_ne by lia. apply Hv. lia.
Qed.

(** The table is built without reading outside the needle or an uninitialised
    entry, and every entry is the longest border. *)
Lemma kmp_borders_ok needle :
  exists borders, kmp_borders true needle (zlen needle) = Done (Some borders) /\
    borders_valid needle borders (zlen needle).
Proof.
  unfold kmp_borders, border_set. pose proof (zlen_nonneg needle).
  set (b0 := replicate (Z.to_nat (zlen needle + 1)) (@None Z)).
  assert (Hb0 : zlen b0 = zlen needle + 1) by (unfold b0; rewrite zlen_replicate; lia).
  rewrite Hb0, (proj2 (Z.ltb_lt 0 (zlen needle + 1))) by lia. cbn [outcome_bind andb Z.leb Z.compare].
  destruct (kmp_borders_loop_ok needle (S (Z.to_nat (zlen needle))) (zset b0 0 (Some (-1))) 0 (-1))
    as (b & Hb & Hv); try (rewrite ?zlen_zset; lia).
  - intros m Hm. assert (m = 0) as -> by lia. exists (-1).
    rewrite zget_zset_eq by lia. split; [done|by left].
  - by rewrite zget_zset_eq by lia.
  - exists b. change (0 <=? 0) with true. cbn [andb outcome_bind]. by rewrite Hb.
Qed.

(** ** The search *)

(** the part of the haystack in which the search can find anything *)
Definition visible (haystack : list Byte.byte) (haystackLength : Z) : list Byte.byte :=
  before_nul (ztake haystackLength haystack).

Lemma before_nul_get s x c : zget (before_nul s) x = Some c -> zget s x = Some c /\ c <> NUL.
Proof.
  revert x. induction s as [|d s IH]; intros x; simpl; [by rewrite zget_nil|].
  destruct (decide (d = NUL)); [by rewrite zget_nil|].
  destruct (Z.lt_trichotomy x 0) as [|[->|]].
  - by rewrite zget_neg by lia.
  - rewrite !zget_cons_0. clear IH. naive_solver.
  - rewrite !zget_cons by lia. apply IH.
Qed.

Lemma before_nul_get_inv s x : (forall y, 0 <= y <= x -> zget s y <> Some NUL) ->
  0 <= x -> zget (before_nul s) x = zget s x.
Proof.
  revert x. induction s as [|d s IH]; intros x Hn Hx; simpl; [done|].
  destruct (decide (d = NUL)) as [->|].
  { exfalso. apply (Hn 0); [lia|done]. }
  destruct (Z.eq_dec x 0) as [->|]; [done|].
  rewrite !zget_cons by lia. apply IH; [|lia]. intros y Hy.
  specialize (Hn (y + 1) ltac:(lia)). rewrite zget_cons in Hn by lia.
  by replace (y + 1 - 1) with y in Hn by lia.
Qed.

Section Search.
Context (h needle : list Byte.byte) (hlen : Z).
Context (Hhlen : 0 <= hlen <= zlen h).
Abbreviation nlen := (zlen needle).

(** the characters before the pointer are not NUL *)
Definition passed (p : Z) : Prop :=
  forall y, 0 <= y < p -> exists c, zget h y = Some c /\ c <> NUL.

Definition matches (i j : Z) : Prop :=
  forall x, 0 <= x < j -> zget h (i + x) = zget needle x.

Definition none_before (i : Z) : Prop :=
  forall i', 0 <= i' < i -> ~ occurs needle (visible h hlen) i'.

Lemma visible_get x c : zget (visible h hlen) x = Some c ->
  zget h x = Some c /\ c <> NUL /\ x < hlen.
Proof using Hhlen.
  intros [Hx ?]%before_nul_get.
  pose proof (zget_Some_range _ _ _ Hx) as Hr. rewrite zlen_ztake in Hr by lia.
  rewrite zget_ztake in Hx by lia. repeat split; auto; lia.
Qed.

Lemma passed_visible p x : passed p -> 0 <= x < p -> x < hlen ->
  zget (visible h hlen) x = zget h x.
Proof using Hhlen.
  intros Hp Hx HxH. unfold visible. rewrite before_nul_get_inv; [|intros y Hy|lia].
  - apply zget_ztake. lia.
  - rewrite zget_ztake by lia. destruct (Hp y) as (c & -> & ?); [lia|]. congruence.
Qed.

Lemma occurs_get i x : occurs needle (visible h hlen) i -> 0 <= x < nlen ->
  exists c, zget needle x = Some c /\ zget h (i + x) = Some c /\ c <> NUL /\ i + x < hlen.
Proof using Hhlen.
  intros (Hi & Hlen & Ho) Hx. specialize (Ho x Hx).
  destruct (zget_is_Some needle x Hx) as [c Hc]. rewrite Hc in Ho.
  apply visible_get in Ho as (? & ? & ?). eauto.
Qed.

Lemma occurs_range i : occurs needle (visible h hlen) i -> 0 <= i <= hlen - nlen.
Proof using Hhlen.
  intros Ho. pose proof Ho as (Hi & Hlen & _). split; [done|].
  assert (zlen (visible h hlen) <= hlen); [|lia].
  destruct (Z_le_gt_dec (zlen (visible h hlen)) hlen) as [|Hgt]; [done|].
  destruct (zget_is_Some (visible h hlen) hlen) as [c Hc]; [lia|].
  apply visible_get in Hc as (_ & _ & ?). lia.
Qed.

Lemma occurs_intro i p : passed p -> matches i nlen -> i + nlen <= p -> 0 <= i -> i + nlen <= hlen ->
  occurs needle (visible h hlen) i.
Proof using Hhlen.
  intros Hp Hm Hle Hi HiH. pose proof (zlen_nonneg needle).
  assert (Hget : forall x, 0 <= x < nlen -> zget (visible h hlen) (i + x) = zget needle x).
  { intros x Hx. rewrite (passed_visible p) by (done || lia). by apply Hm. }
  split; [done|]. split; [|done].
  destruct (Z_le_gt_dec (i + nlen) (zlen (visible h hlen))) as [|Hgt]; [done|exfalso].
  destruct (Z.eq_dec nlen 0) as [Hn0|Hn0].
  - destruct (Z.eq_dec i 0) as [->|]; [pose proof (zlen_nonneg (visible h hlen)); lia|].
    pose proof (passed_visible p (i - 1) Hp ltac:(lia) ltac:(lia)) as Hv.
    destruct (Hp (i - 1)) as (c & Hc & _); [lia|]. rewrite Hc in Hv.
    apply zget_Some_range in Hv. lia.
  - destruct (zget_is_Some needle (nlen - 1)) as [c Hc]; [lia|].
    rewrite <- Hget in Hc by lia. apply zget_Some_range in Hc. lia.
Qed.

Lemma kmp_advance_ok fuel : forall i j p,
  p = i + j -> 0 <= i -> 0 <= j <= nlen -> i + nlen <= hlen ->
  passed p -> matches i j -> nlen - j < Z.of_nat fuel ->
  exists j', kmp_advance fuel h needle nlen j p = Done (j', i + j') /\
    j <= j' <= nlen /\ passed (i + j') /\ matches i j' /\
    (j' = nlen \/ exists c, zget h (i + j') = Some c /\
                        (c = NUL \/ zget needle j' <> Some c)).
Proof using Hhlen.
  induction fuel as [|fuel IH]; intros i j p -> Hi Hj HiH Hp Hm Hf; [lia|].
  cbn [kmp_advance]. destruct (Z.ltb_spec j nlen) as [Hlt|Hge].
  2: { exists j. assert (j = nlen) by lia. auto with lia. }
  destruct (zget_is_Some h (i + j)) as [c Hc]; [lia|].
  rewrite (mem_get_ok _ _ _ Hc). cbn [outcome_bind].
  destruct (decide (c = NUL)) as [->|Hnul]; [exists j; eauto 10 with lia|].
  destruct (zget_is_Some needle j) as [d Hd]; [lia|].
  rewrite (mem_get_ok _ _ _ Hd). cbn [outcome_bind].
  destruct (decide (d = c)) as [->|Hne].
  2: { exists j. repeat split; auto; try lia. right. exists c. split; [done|right; congruence]. }
  destruct (IH i (j + 1) (i + j + 1)) as (j' & Hrun & ? & ? & ? & ?); try lia.
  - intros y Hy. destruct (Z.eq_dec y (i + j)) as [->|]; [eauto|apply Hp; lia].
  - intros x Hx. destruct (Z.eq_dec x j) as [->|]; [congruence|apply Hm; lia].
  - exists j'. repeat split; auto; lia.
Qed.

(** shifting by a border keeps a match and skips no occurrence *)
Lemma shift_ok i j b : matches i j -> 0 < j < nlen -> 0 <= i ->
  zget needle j <> zget h (i + j) -> longest_border needle j b -> none_before i ->
  matches (i + (j - b)) b /\ none_before (i + (j - b)) /\ 0 <= b < j.
Proof using Hhlen.
  intros Hm Hj Hi Hne Hb Hnone. destruct Hb as [[? _]|(_ & [Hb Eb] & Hmax)]; [lia|].
  split; [|split; [|lia]].
  - intros x Hx. replace (i + (j - b) + x) with (i + (j - b + x)) by lia.
    rewrite Hm by lia. by rewrite <- Eb by lia.
  - intros i' Hi' Ho. destruct (Z_lt_ge_dec i' i); [by apply (Hnone i'); [lia|]|].
    destruct (Z.eq_dec i' i) as [->|].
    { destruct (occurs_get _ j Ho) as (c & H1 & H2 & _); [lia|]. congruence. }
    assert (is_border needle j (j - (i' - i))) as Hbd.
    { split; [lia|]. intros x Hx.
      destruct (occurs_get _ x Ho) as (c & H1 & H2 & _); [lia|].
      rewrite H1, <- H2, <- Hm by lia. f_equal. lia. }
    specialize (Hmax _ Hbd). lia.
Qed.

Lemma kmp_shift_ok borders fuel : borders_valid needle borders nlen -> forall i j,
  matches i j -> 0 < j < nlen -> 0 <= i -> i + j < zlen h ->
  zget needle j <> zget h (i + j) -> none_before i -> j < Z.of_nat fuel ->
  exists i' j', kmp_shift fuel h needle borders i j (i + j) = Done (i', j') /\
    i' + j' = i + j /\ i < i' /\ 0 <= j' < j /\ matches i' j' /\ none_before i'.
Proof using Hhlen.
  intros Hv. induction fuel as [|fuel IH]; intros i j Hm Hj Hi Hp Hne Hnone Hf; [lia|].
  cbn [kmp_shift]. destruct (borders_get _ _ _ j Hv) as (b & Hb & Hl); [lia|].
  rewrite Hb. cbn [outcome_bind].
  destruct (shift_ok i j b) as (Hm' & Hnone' & Hbj); try done.
  destruct (Z.ltb_spec 0 b) as [Hb0|]; [|exists (i + (j - b)), b; repeat split; auto; lia].
  destruct (zget_is_Some needle b) as [d Hd]; [lia|].
  destruct (zget_is_Some h (i + j)) as [c Hc]; [lia|].
  rewrite (mem_get_ok _ _ _ Hd), (mem_get_ok _ _ _ Hc). cbn [outcome_bind].
  destruct (decide (d = c)) as [->|Hdc]; [exists (i + (j - b)), b; repeat split; auto; lia|].
  destruct (IH (i + (j - b)) b) as (i' & j' & Hrun & ? & ? & ? & ? & ?); [done|lia|lia|lia| |done|lia|].
  { replace (i + (j - b) + b) with (i + j) by lia. congruence. }
  exists i', j'. replace (i + (j - b) + b) with (i + j) in Hrun by lia.
  repeat split; auto; lia.
Qed.

(** the two ways in which the loop ends *)
Definition first_occurrence (r : Z) : Prop :=
  (occurs needle (visible h hlen) r /\ none_before r) \/
  (r = -1 /\ forall i, ~ occurs needle (visible h hlen) i).

Lemma none_at_nul i j : matches i j -> 0 <= i -> 0 <= j < nlen -> none_before i ->
  zget h (i + j) = Some NUL -> forall i', ~ occurs needle (visible h hlen) i'.
Proof using Hhlen.
  intros Hm Hi Hj Hnone Hnul i' Ho. pose proof (occurs_range _ Ho).
  destruct (Z_lt_ge_dec i' i); [by apply (Hnone i'); [lia|]|].
  destruct (Z_le_gt_dec i' (i + j)).
  - destruct (occurs_get _ (i + j - i') Ho) as (c & _ & H2 & H3 & _); [lia|].
    replace (i' + (i + j - i')) with (i + j) in H2 by lia. congruence.
  - destruct Ho as (_ & Hlen & _).
    destruct (zget_is_Some (visible h hlen) (i + j)) as [c Hc]; [lia|].
    destruct (visible_get _ _ Hc) as (Hc' & ? & _). congruence.
Qed.

Lemma kmp_search_loop_ok borders fuel : borders_valid needle borders nlen -> hlen < 2 ^ 31 ->
  forall i j, matches i j -> 0 <= i -> 0 <= j <= nlen -> (j < nlen \/ nlen = 0) ->
  passed (i + j) -> none_before i -> Z.max 0 (hlen - nlen + 1 - i) < Z.of_nat fuel ->
  exists r, kmp_search_loop fuel h needle nlen (hlen - nlen) borders i j (i + j) = Done r /\
    first_occurrence r.
Proof using Hhlen.
  intros Hv Hint. induction fuel as [|fuel IH]; intros i j Hm Hi Hj Hjn Hp Hnone Hf; [lia|].
  cbn [kmp_search_loop]. pose proof (zlen_nonneg needle) as Hn0.
  destruct (Z.leb_spec i (hlen - nlen)) as [Hle|Hgt].
  2: { exists (-1). split; [done|right]. split; [done|]. intros i' Ho.
       pose proof (occurs_range _ Ho). by apply (Hnone i'); [lia|]. }
  destruct (kmp_advance_ok (S (Z.to_nat nlen)) i j (i + j)) as (j' & -> & Hj' & Hp' & Hm' & Hend);
    try done; try lia.
  cbn [outcome_bind]. destruct (Z.eqb_spec j' nlen) as [->|Hneq].
  { exists i. replace (i + nlen - nlen) with i by lia. rewrite i32_small by lia. split; [done|left].
    split; [|done]. by apply (occurs_intro i (i + nlen)); auto; lia. }
  destruct Hend as [?|(c & Hc & Hmis)]; [lia|].
  rewrite (mem_get_ok _ _ _ Hc). cbn [outcome_bind].
  destruct (decide (c = NUL)) as [->|Hnul].
  { exists (-1). split; [done|right]. split; [done|]. eapply none_at_nul; eauto; lia. }
  destruct Hmis as [|Hmis]; [done|].
  destruct (Z.eqb_spec j' 0) as [->|Hj0].
  - destruct (IH (i + 1) 0) as (r & Hrun & Hr); try lia; try (intros ? ?; lia).
    + intros y Hy. destruct (Z.eq_dec y i) as [->|]; [|apply Hp'; lia].
      exists c. split; [by rewrite <- Hc, Z.add_0_r|done].
    + intros i' Hi' Ho. destruct (Z.eq_dec i' i) as [->|]; [|by apply (Hnone i'); [lia|]].
      destruct (occurs_get _ 0 Ho) as (d & H1 & H2 & _); [lia|]. congruence.
    + exists r. replace (i + 0 + 1) with (i + 1 + 0) by lia. by rewrite Hrun.
  - destruct (kmp_shift_ok borders (S (Z.to_nat j')) Hv i j')
      as (i2 & j2 & -> & Heq & ? & ? & ? & ?); try done; try lia; [congruence|].
    cbn [outcome_bind]. rewrite <- Heq. rewrite <- Heq in Hp'. apply IH; try done; lia.
Qed.
End Search.

(** ** The reference search *)

Lemma starts_with_occurs needle s i : 0 <= i <= zlen s ->
  starts_with needle (zdrop i s) = true <-> occurs needle s i.
Proof.
  intros Hi. unfold starts_with. rewrite bool_decide_eq_true.
  pose proof (zlen_nonneg needle) as Hn. split.
  - intros Ht. assert (Hl : zlen needle <= zlen (zdrop i s)).
    { destruct (Z_le_gt_dec (zlen needle) (zlen (zdrop i s))) as [|Hgt]; [done|].
      rewrite ztake_all in Ht by lia. rewrite Ht in Hgt. lia. }
    rewrite zlen_zdrop in Hl by lia. split; [lia|]. split; [lia|]. intros x Hx.
    assert (zget (ztake (zlen needle) (zdrop i s)) x = zget needle x) as <- by (by rewrite Ht).
    by rewrite zget_ztake, zget_zdrop by lia.
  - intros (_ & Hl & Ho). apply zget_ext. intros x Hx.
    destruct (Z_lt_ge_dec x (zlen needle)).
    + rewrite zget_ztake, zget_zdrop by lia. apply Ho. lia.
    + rewrite (zget_None needle) by lia. apply zget_None.
      rewrite zlen_ztake; [lia|]. rewrite zlen_zdrop; lia.
Qed.

Lemma find_from_spec needle s0 : forall s i, s = zdrop i s0 -> 0 <= i <= zlen s0 ->
  (forall k, 0 <= k < i -> ~ occurs needle s0 k) ->
  (occurs needle s0 (find_from needle s i) /\
   forall k, 0 <= k < find_from needle s i -> ~ occurs needle s0 k) \/
  (find_from needle s i = -1 /\ forall k, ~ occurs needle s0 k).
Proof.
  induction s as [|c s IH]; intros i Hs Hi Hnone; cbn [find_from]; rewrite Hs.
  - pose proof (starts_with_occurs needle s0 i Hi) as Hso.
    destruct (starts_with needle (zdrop i s0)).
    + left. split; [by apply Hso|done].
    + right. split; [done|]. intros k Ho. pose proof (f_equal zlen Hs) as Hl.
      rewrite zlen_nil, zlen_zdrop in Hl by lia. pose proof Ho as (? & ? & _).
      pose proof (zlen_nonneg needle).
      destruct (Z_lt_ge_dec k i); [by apply (Hnone k); [lia|]|].
      assert (k = i) as -> by lia. apply Hso in Ho. done.
  - pose proof (starts_with_occurs needle s0 i Hi) as Hso.
    destruct (starts_with needle (zdrop i s0)).
    + left. split; [by apply Hso|done].
    + pose proof (f_equal zlen Hs) as Hl. rewrite zlen_cons, zlen_zdrop in Hl by lia.
      pose proof (zlen_nonneg s). apply IH; [|lia|].
      * rewrite <- (zdrop_zdrop 1 i), <- Hs by lia. done.
      * intros k Hk Ho. destruct (Z.eq_dec k i) as [->|]; [|by apply (Hnone k); [lia|]].
        apply Hso in Ho. done.
Qed.

Lemma find_first_spec needle s :
  (occurs needle s (find_first needle s) /\
   forall k, 0 <= k < find_first needle s -> ~ occurs needle s k) \/
  (find_first needle s = -1 /\ forall k, ~ occurs needle s k).
Proof. apply find_from_spec; [done|pose proof (zlen_nonneg s); lia|lia]. Qed.

Lemma find_first_unique needle s r :
  (occurs needle s r /\ forall k, 0 <= k < r -> ~ occurs needle s k) \/
  (r = -1 /\ forall k, ~ occurs needle s k) -> r = find_first needle s.
Proof.
  intros Hr. destruct (find_first_spec needle s) as [[Ho Hmin]|[-> Hnone]].
  - destruct Hr as [[Ho' Hmin']|[-> Hnone']]; [|by destruct (Hnone' _ Ho)].
    destruct (Z.lt_trichotomy r (find_first needle s)) as [|[|]]; [|done|].
    + exfalso. apply (Hmin r); [destruct Ho'; lia|done].
    + exfalso. apply (Hmin' (find_first needle s)); [destruct Ho; lia|done].
  - destruct Hr as [[Ho' _]|[-> _]]; [by destruct (Hnone _ Ho')|done].
Qed.

(** The search in full: a completed call, the first occurrence that lies before
    the first NUL of the haystack. *)
Lemma strnstr_ok h hlen needle : 0 <= hlen <= zlen h -> hlen < 2 ^ 31 ->
  commutil_strnstr true (Some h) hlen (Some needle) (zlen needle) =
    Done (find_first needle (visible h hlen)).
Proof.
  intros Hh Hint. unfold commutil_strnstr. pose proof (zlen_nonneg needle).
  destruct (Z.ltb_spec hlen (zlen needle)) as [Hlt|Hge].
  - f_equal. apply find_first_unique. right. split; [done|]. intros k Ho.
    pose proof (occurs_range h needle hlen Hh k Ho). lia.
  - destruct (kmp_borders_ok needle) as (b & -> & Hv). cbn [outcome_bind].
    unfold kmp_search. rewrite i32_small by lia.
    destruct (kmp_search_loop_ok h needle hlen Hh b (S (S (Z.to_nat hlen))) Hv Hint 0 0)
      as (r & Hrun & Hr); try lia.
    + intros x Hx. lia.
    + intros y Hy. lia.
    + intros i' Hi'. lia.
    + change (0 + 0) with 0 in Hrun. rewrite Hrun. f_equal. by apply find_first_unique.
Qed.

Lemma before_nul_id s : Forall (fun c => c <> NUL) s -> before_nul s = s.
Proof. induction 1; simpl; [done|]. rewrite decide_False by done. by f_equal. Qed.

Lemma strnstr_range h hlen needle r : 0 <= hlen <= zlen h -> hlen < 2 ^ 31 ->
  commutil_strnstr true (Some h) hlen (Some needle) (zlen needle) = Done r ->
  r = -1 \/ 0 <= r <= hlen - zlen needle /\ ztake (zlen needle) (zdrop r h) = needle.
Proof.
  intros Hh Hint. rewrite strnstr_ok by done. intros [= <-].
  destruct (find_first_spec needle (visible h hlen)) as [[Ho _]|[-> _]]; [right|by left].
  pose proof (occurs_range h needle hlen Hh _ Ho). split; [done|].
  pose proof (zlen_nonneg needle). apply zget_ext. intros x Hx.
  destruct (Z_lt_ge_dec x (zlen needle)).
  - destruct (occurs_get h needle hlen Hh _ x Ho) as (c & -> & H2 & _); [lia|].
    by rewrite zget_ztake, zget_zdrop by lia.
  - rewrite (zget_None needle) by lia. apply zget_None.
    rewrite zlen_ztake; [lia|]. rewrite zlen_zdrop; lia.
Qed.

(** ** strncmp and strncpy *)

(** an executable reading of strncmp on NUL-free prefixes *)
Lemma strncmp_eq_ok n : forall s1 s2, (n <= length s1)%nat -> (n <= length s2)%nat ->
  Forall (fun c => c <> NUL) (take n s2) ->
  strncmp_eq s1 s2 n = Done (bool_decide (take n s1 = take n s2)).
Proof.
  induction n as [|n IH]; intros s1 s2 H1 H2 Hn; cbn [strncmp_eq];
    [by destruct s1, s2|].
  destruct s1 as [|c1 s1], s2 as [|c2 s2]; [cbn [length] in *; lia..|].
  cbn [length strncmp_eq] in *. rewrite !firstn_cons in *. inversion_clear Hn as [|? ? Hc Hn'].
  destruct (decide (c1 = c2)) as [->|Hne].
  - destruct (decide (c2 = NUL)) as [|_]; [contradiction|]. rewrite IH; [|lia|lia|done]. f_equal.
    apply bool_decide_ext. split; congruence.
  - assert (bool_decide (c1 :: take n s1 = c2 :: take n s2) = false) as ->; [|done].
    apply bool_decide_eq_false_2. congruence.
Qed.

Lemma strlen_spec s n : strlen s = Some n ->
  0 <= n < zlen s /\ zget s n = Some NUL /\ ztake n s = before_nul s.
Proof.
  revert n. induction s as [|c s IH]; intros n; simpl; [done|].
  destruct (decide (c = NUL)) as [->|Hc].
  - intros [= <-]. pose proof (zlen_nonneg s). rewrite zlen_cons. split; [lia|done].
  - destruct (strlen s) as [m|] eqn:Hm; simpl; [|done]. intros [= <-].
    destruct (IH m) as (? & ? & Ht); [done|]. rewrite zlen_cons. split; [lia|].
    rewrite zget_cons by lia. replace (Z.succ m - 1) with m by lia. split; [done|].
    rewrite <- Ht. unfold ztake. by replace (Z.to_nat (Z.succ m)) with (S (Z.to_nat m)) by lia.
Qed.

Lemma strncpy_ok dest src destLen n srcLen :
  0 < destLen <= zlen dest -> strlen src = Some n -> (srcLen = 0 \/ srcLen = n) ->
  commutil_strncpy dest src destLen srcLen =
    Done (Z.min n (destLen - 1),
          ztake (Z.min n (destLen - 1)) src ++ NUL :: zdrop (Z.min n (destLen - 1) + 1) dest).
Proof.
  intros Hd Hn Hs. unfold commutil_strncpy. destruct (strlen_spec _ _ Hn) as (Hr & Hnul & _).
  rewrite (proj2 (Z.ltb_lt 0 destLen)) by lia. rewrite Hn.
  replace (if srcLen =? 0 then Done n else Done srcLen) with (Done n)
    by (destruct (Z.eqb_spec srcLen 0); [done|f_equal; lia]).
  cbn [outcome_bind]. destruct (Z.ltb_spec (n + 1) destLen) as [Hlt|Hge].
  - rewrite mem_read_ok by lia. cbn [outcome_bind]. rewrite zdrop_0.
    assert (Hlen : zlen (ztake (n + 1) src) = n + 1) by (rewrite zlen_ztake; lia).
    rewrite mem_write_ok by lia. cbn [outcome_bind]. rewrite Hlen, Z.min_l by lia.
    rewrite ztake_0, (ztake_split n 1) by lia. cbn [app]. rewrite <- app_assoc. do 3 f_equal.
    assert (ztake 1 (zdrop n src) = [NUL]) as ->; [|done].
    apply zget_ext. intros x Hx. destruct (Z.eq_dec x 0) as [->|].
    + rewrite zget_ztake, zget_zdrop, Z.add_0_r by lia. done.
    + rewrite !zget_None; [done|rewrite zlen_cons, zlen_nil; lia|].
      rewrite zlen_ztake; [lia|]. rewrite zlen_zdrop; lia.
  - rewrite mem_read_ok by lia. cbn [outcome_bind]. rewrite zdrop_0.
    assert (Hlen : zlen (ztake (destLen - 1) src) = destLen - 1) by (rewrite zlen_ztake; lia).
    rewrite mem_write_ok by lia. cbn [outcome_bind]. rewrite Hlen, Z.min_r by lia.
    rewrite ztake_0. cbn [app]. rewrite Z.add_0_l.
    rewrite mem_write_ok; [|lia|rewrite zlen_cons, zlen_nil, zlen_app, Hlen, zlen_zdrop; lia].
    cbn [outcome_bind]. do 2 f_equal.
    rewrite ztake_app_length by lia. rewrite zlen_cons, zlen_nil. cbn [app]. do 2 f_equal.
    rewrite zdrop_app_ge by lia. rewrite Hlen, zdrop_zdrop by lia. f_equal. lia.
Qed.

(** ** The search as callers see it *)

(** the part before the first NUL is at the front of the haystack *)
Lemma before_nul_front s : exists rest, s = before_nul s ++ rest.
Proof.
  induction s as [|c s [rest IH]]; [by exists []|]. cbn. case_decide; [by eexists|]. exists rest. cbn. by f_equal.
Qed.

Lemma occurs_app needle s rest k : k + zlen needle <= zlen s -> occurs needle (s ++ rest) k <-> occurs needle s k.
Proof.
  intros Hk. pose proof (zlen_nonneg rest). unfold occurs. rewrite zlen_app.
  assert (Hget : 0 <= k -> forall x, 0 <= x < zlen needle -> zget (s ++ rest) (k + x) = zget s (k + x)).
  { intros Hk0 x Hx. apply zget_app_l. lia. }
  split; intros (H1 & H2 & H3); (split; [lia|split; [lia|]]); intros x Hx.
  - rewrite <- Hget by lia. by apply H3.
  - rewrite Hget by lia. by apply H3.
Qed.

(** C35. The search of a readable haystack ends within its bounds. An index that it
    returns is the first one at which the needle occurs in the whole haystack. Otherwise
    it returns -1, and then the needle does not occur, provided that the haystack has no
    NUL, at which the search would stop. *)
Theorem strnstr_first_occurrence h hlen needle : 0 <= hlen <= zlen h -> hlen < 2 ^ 31 ->
  exists r, commutil_strnstr true (Some h) hlen (Some needle) (zlen needle) = Done r /\
    ((occurs needle (ztake hlen h) r /\ forall k, 0 <= k < r -> ~ occurs needle (ztake hlen h) k) \/
     (r = -1 /\ (Forall (fun c => c <> NUL) (ztake hlen h) -> forall k, ~ occurs needle (ztake hlen h) k))).
Proof.
  intros Hh Hint. eexists. split; [by apply strnstr_ok|]. unfold visible.
  destruct (before_nul_front (ztake hlen h)) as [rest Hr].
  assert (Hocc : forall k, k + zlen needle <= zlen (before_nul (ztake hlen h)) ->
    occurs needle (ztake hlen h) k <-> occurs needle (before_nul (ztake hlen h)) k).
  { intros k Hk. rewrite Hr at 1. by apply occurs_app. }
  destruct (find_first_spec needle (before_nul (ztake hlen h))) as [[Ho Hmin]|[-> Hnone]].
  - left. pose proof Ho as (? & ? & _). split; [by apply Hocc|].
    intros k Hk. rewrite Hocc by lia. by apply Hmin.
  - right. split; [done|]. intros Hnul k. rewrite <- (before_nul_id (ztake hlen h)) by done. apply Hnone.
Qed.

(** the needle occurs at 2; and a haystack with a NUL behind the occurrence *)
Lemma strnstr_first_occurrence_witness :
  (let h := le_split 6 0x4141424141 in let needle := le_split 3 0x424141 in
   exists r, commutil_strnstr true (Some h) 5 (Some needle) (zlen needle) = Done r /\ occurs needle (ztake 5 h) r) /\
  (let h := le_split 5 0x4100424141 in let needle := le_split 2 0x4241 in
   exists r, commutil_strnstr true (Some h) 5 (Some needle) (zlen needle) = Done r /\ occurs needle (ztake 5 h) r).
Proof.
  split.
  - destruct (strnstr_first_occurrence (le_split 6 0x4141424141) 5 (le_split 3 0x424141)) as (r & Hr & Hor);
      [vm_compute; intuition congruence|reflexivity|].
    exists r. split; [exact Hr|]. destruct Hor as [[Ho _]|[-> _]]; [exact Ho|vm_compute in Hr; discriminate Hr].
  - destruct (strnstr_first_occurrence (le_split 5 0x4100424141) 5 (le_split 2 0x4241)) as (r & Hr & Hor);
      [vm_compute; intuition congruence|reflexivity|].
    exists r. split; [exact Hr|]. destruct Hor as [[Ho _]|[-> _]]; [exact Ho|vm_compute in Hr; discriminate Hr].
Defined.

(** A NUL in the haystack ends the search: what lies behind it is not found. *)
Theorem strnstr_stops_at_nul before after needle :
  needle <> [] -> Forall (fun c => c <> NUL) before ->
  (forall k, ~ occurs needle before k) -> zlen before + 1 + zlen after < 2 ^ 31 ->
  let h := before ++ NUL :: after in
  commutil_strnstr true (Some h) (zlen h) (Some needle) (zlen needle) = Done (-1).
Proof.
  intros Hn Hb Hnone Hlen. cbn zeta. set (h := before ++ NUL :: after).
  assert (Hh : zlen h = zlen before + 1 + zlen after) by (unfold h; rewrite zlen_app, zlen_cons; lia).
  pose proof (zlen_nonneg h). rewrite strnstr_ok by lia. f_equal. symmetry.
  apply find_first_unique. right. split; [done|].
  assert (visible h (zlen h) = before) as ->; [|done].
  unfold visible. rewrite ztake_all by lia. unfold h. clear -Hb.
  induction Hb as [|c s Hc _ IH]; cbn; [done|]. rewrite decide_False by done. by f_equal.
Qed.

Lemma strnstr_stops_at_nul_witness :
  let h := le_split 2 0x4141 ++ NUL :: le_split 1 0x42 in
  commutil_strnstr true (Some h) (zlen h) (Some (le_split 1 0x42)) (zlen (le_split 1 0x42)) =
    Done (-1).
Proof.
  apply (strnstr_stops_at_nul (le_split 2 0x4141) (le_split 1 0x42) (le_split 1 0x42)).
  - vm_compute. discriminate.
  - vm_compute. repeat constructor; discriminate.
  - intros k (H1 & H2 & H3). change (zlen (le_split 1 66)) with 1 in *.
    change (zlen (le_split 2 16705)) with 2 in *. specialize (H3 0 ltac:(lia)).
    assert (k = 0 \/ k = 1) as [-> | ->] by lia; vm_compute in H3; discriminate.
  - reflexivity.
Defined.
