(* ===== verification/Io.v ===== *)
(** * Streams of inc/io and src/io over a fixed buffer

    The stream interfaces [InputStream] and [OutputStream] as type classes of
    operations, with the laws a client relies on as separate classes; the
    templates [peek], [read], [readUntil] and [write]; [FixedInputStream] and
    [FixedOutputStream] with the proof that they satisfy the laws. *)

From Stdlib Require Import ZArith Lia.
From coqutil Require Import Byte.
From S2P Require Import Prelude Errors StrSearch.
Open Scope Z_scope.

Inductive ByteOrder : Type := HOST_ORDER | NETWORK_ORDER.

#[export] Instance ByteOrder_eq_dec : EqDecision ByteOrder.
Proof. solve_decision. Defined.

(** What a read leaves with its caller: the result, the bytes copied to the
    start of the caller's buffer, and the byte count stored through the out
    parameter ([None]: the parameter is not written). *)
Record io_res := IoRes {
  io_rc : ErrorCode;
  io_data : list Byte.byte;
  io_count : option Z;
}.

(** ** Input streams *)

Class InputStream (S : Type) := {
  is_order : S -> ByteOrder;
  is_reset : S -> S;
  is_size : S -> Z;
  peekBytes : Z -> S -> outcome (io_res * S);
  readBytes : Z -> S -> outcome (io_res * S);
  skipBytes : Z -> S -> outcome (io_res * S);
  (* the flag tells whether the border table of the search can be allocated *)
  searchBytes : bool -> list Byte.byte -> Z -> S -> outcome (ErrorCode * S);
}.

Definition is_isNetworkOrder {S} `{InputStream S} (s : S) : bool :=
  bool_decide (is_order s = NETWORK_ORDER).

Definition is_empty {S} `{InputStream S} (s : S) : bool := is_size s =? 0.

(** [peek<T>(value)], [n] is [sizeof(T)] and [value] the memory of the value *)
Definition peek {S} `{InputStream S} (n : Z) (value : list Byte.byte) (s : S)
  : outcome (ErrorCode * list Byte.byte * S) :=
  if is_size s <? n then Done (E_END_OF_STREAM, value, s)
  else
    let* '(r, s) := peekBytes n s in
    let* value := mem_write value 0 (io_data r) in
    if decide (io_rc r = E_OK) then
      if default 0 (io_count r) <? n then Done (E_END_OF_STREAM, value, s)
      else Done (E_OK, value, s)
    else Done (io_rc r, value, s).

(** [read<T>(value)] *)
Definition read {S} `{InputStream S} (n : Z) (value : list Byte.byte) (s : S)
  : outcome (ErrorCode * list Byte.byte * S) :=
  if is_size s <? n then Done (E_END_OF_STREAM, value, s)
  else
    let* '(r, s) := readBytes n s in
    let* value := mem_write value 0 (io_data r) in
    if decide (io_rc r = E_OK) then
      if default 0 (io_count r) <? n then Done (E_END_OF_STREAM, value, s)
      else Done (E_OK, value, s)
    else Done (io_rc r, value, s).

(** [readUntil(f)]: [f] consumes one byte and has a state of its own *)
Fixpoint readUntil {S A} `{InputStream S} (fuel : nat) (f : A -> Byte.byte -> A * bool)
    (a : A) (byte : Byte.byte) (s : S) : outcome (ErrorCode * A * S) :=
  match fuel with
  | O => NoFuel
  | S fuel =>
    let* '(r, s) := readBytes 1 s in
    let* value := mem_write [byte] 0 (io_data r) in
    let* byte := mem_get value 0 in
    if decide (io_rc r = E_OK) then
      if default 0 (io_count r) =? 0 then Done (E_END_OF_STREAM, a, s)
      else
        let '(a, continue) := f a byte in
        if continue then readUntil fuel f a byte s else Done (E_OK, a, s)
    else Done (io_rc r, a, s)
  end.

(** What a client may rely on: the stream is a sequence of bytes; reading up to
    its size returns and removes a prefix. *)
Class InputStreamLaws (S : Type) `{InputStream S} := {
  is_bytes : S -> list Byte.byte;
  is_ok : S -> Prop;
  is_size_law s : is_ok s -> is_size s = zlen (is_bytes s) /\ is_size s < 2 ^ 32;
  is_peek_law s n : is_ok s -> 0 < n <= is_size s ->
    peekBytes n s = Done (IoRes E_OK (ztake n (is_bytes s)) (Some n), s);
  is_read_law s n : is_ok s -> 0 < n <= is_size s ->
    exists s', readBytes n s = Done (IoRes E_OK (ztake n (is_bytes s)) (Some n), s') /\
      is_ok s' /\ is_bytes s' = zdrop n (is_bytes s) /\ is_order s' = is_order s;
  is_short_law s n : is_ok s -> 0 < is_size s < n ->
    exists s', readBytes n s = Done (IoRes E_OK (is_bytes s) (Some (is_size s)), s') /\
      is_ok s' /\ is_bytes s' = [] /\ is_order s' = is_order s;
  is_skip_law s n : is_ok s -> 0 < n <= is_size s ->
    exists s', skipBytes n s = Done (IoRes E_OK [] (Some n), s') /\
      is_ok s' /\ is_bytes s' = zdrop n (is_bytes s) /\ is_order s' = is_order s;
}.

(** ** Output streams *)

Class OutputStream (S : Type) := {
  os_order : S -> ByteOrder;
  writeBytes : list Byte.byte -> Z -> S -> outcome (ErrorCode * S);
}.

Definition os_isNetworkOrder {S} `{OutputStream S} (s : S) : bool :=
  bool_decide (os_order s = NETWORK_ORDER).

(** [write<T>(value)]: the memory of the value *)
Definition write {S} `{OutputStream S} (value : list Byte.byte) (s : S)
  : outcome (ErrorCode * S) := writeBytes value (zlen value) s.

Class OutputStreamLaws (S : Type) `{OutputStream S} := {
  os_written : S -> list Byte.byte;
  os_room : S -> Z;
  os_ok : S -> Prop;
  os_room_nonneg s : os_ok s -> 0 <= os_room s;
  os_write_law s buf n : os_ok s -> 0 <= n <= zlen buf -> n <= os_room s ->
    exists s', writeBytes buf n s = Done (E_OK, s') /\ os_ok s' /\
      os_written s' = os_written s ++ ztake n buf /\ os_room s' = os_room s - n /\
      os_order s' = os_order s;
  os_full_law s buf n : os_ok s -> os_room s < n ->
    writeBytes buf n s = Done (E_NOMEM, s);
}.

(** ** FixedInputStream *)

Record FixedInputStream := MkFixedInputStream {
  fis_order : ByteOrder;
  fis_buf : list Byte.byte;      (* what m_bufRef points to *)
  fis_size : Z;                  (* m_size *)
  fis_offset : Z;                (* m_offset *)
}.

(** the constructor; without [byRef] the stream's own vector is resized, that
    is, filled with zeros ([&m_buf[0]] is the data pointer of the vector) *)
Definition FixedInputStream_new (buffer : list Byte.byte) (bufferSize : Z) (byRef : bool)
    (byteOrder : ByteOrder) : FixedInputStream :=
  MkFixedInputStream byteOrder
    (if byRef then buffer else replicate (Z.to_nat bufferSize) NUL) bufferSize 0.

Definition fis_set_offset (s : FixedInputStream) (offset : Z) : FixedInputStream :=
  MkFixedInputStream (fis_order s) (fis_buf s) (fis_size s) offset.

Definition fis_reset (s : FixedInputStream) : FixedInputStream := s.

Definition fis_getSize (s : FixedInputStream) : Z := u32 (fis_size s - fis_offset s).

Definition fis_readBytes (length : Z) (s : FixedInputStream)
  : outcome (io_res * FixedInputStream) :=
  let bytesCanRead := fis_getSize s in
  if bytesCanRead =? 0 then Done (IoRes E_END_OF_STREAM [] None, s)
  else
    let bytesReadLocal := Z.min length bytesCanRead in
    let* data := mem_read (fis_buf s) (fis_offset s) bytesReadLocal in
    let s := fis_set_offset s (u32 (fis_offset s + bytesReadLocal)) in
    Done (IoRes E_OK data (Some bytesReadLocal), s).

Definition fis_peekBytes (length : Z) (s : FixedInputStream)
  : outcome (io_res * FixedInputStream) :=
  let offset := fis_offset s in
  let* '(r, s) := fis_readBytes length s in
  Done (r, fis_set_offset s offset).

Definition fis_skipBytes (length : Z) (s : FixedInputStream)
  : outcome (io_res * FixedInputStream) :=
  let bytesCanRead := fis_getSize s in
  if bytesCanRead =? 0 then Done (IoRes E_END_OF_STREAM [] None, s)
  else
    let bytesSkippedLocal := Z.min length bytesCanRead in
    let s := fis_set_offset s (u32 (fis_offset s + bytesSkippedLocal)) in
    Done (IoRes E_OK [] (Some bytesSkippedLocal), s).

(** for (i = 0; i < length; ++i): the offset at which the rest of the buffer
    starts the pattern; [rest] is [length - i] *)
Fixpoint partial_match (buf pattern : list Byte.byte) (rest : nat) (offset : Z) : outcome Z :=
  match rest with
  | O => Done offset
  | S rest' =>
    let* eq := strncmp_eq (zdrop offset buf) pattern rest in
    if (eq : bool) then Done offset else partial_match buf pattern rest' (offset + 1)
  end.

Definition fis_searchBytes (alloc : bool) (pattern : list Byte.byte) (length : Z)
    (s : FixedInputStream) : outcome (ErrorCode * FixedInputStream) :=
  let bufLen := fis_getSize s in
  if bufLen <? length then Done (E_END_OF_STREAM, s)
  else
    let* res := commutil_strnstr alloc (Some (fis_buf s)) bufLen (Some pattern) length in
    if 0 <=? res then
      let* '(r, s) := fis_skipBytes (u32 res) s in
      if decide (io_rc r = E_OK) then Done (E_OK, s) else Done (E_INTERNAL_ERROR, s)
    else
      let* _offset := partial_match (fis_buf s) pattern (Z.to_nat length) (bufLen - length) in
      let* '(r, s) := fis_skipBytes (u32 res) s in
      if decide (io_rc r = E_OK) then Done (E_END_OF_STREAM, s) else Done (E_INTERNAL_ERROR, s).

#[export] Instance FixedInputStream_stream : InputStream FixedInputStream := {
  is_order := fis_order;
  is_reset := fis_reset;
  is_size := fis_getSize;
  peekBytes := fis_peekBytes;
  readBytes := fis_readBytes;
  skipBytes := fis_skipBytes;
  searchBytes := fis_searchBytes;
}.

(** ** FixedOutputStream *)

Record FixedOutputStream := MkFixedOutputStream {
  fos_order : ByteOrder;
  fos_buffer : list Byte.byte;   (* what m_bufferPtr points to *)
  fos_bufferSize : Z;
  fos_offset : Z;
}.

(** over an external buffer *)
Definition FixedOutputStream_new (bufferPtr : list Byte.byte) (bufferSize : Z)
    (byteOrder : ByteOrder) : FixedOutputStream :=
  MkFixedOutputStream byteOrder bufferPtr bufferSize 0.

(** over an internal buffer *)
Definition FixedOutputStream_newInternal (bufferSize : Z) (byteOrder : ByteOrder)
  : FixedOutputStream :=
  MkFixedOutputStream byteOrder (replicate (Z.to_nat bufferSize) NUL) bufferSize 0.

Definition fos_writeBytes (buffer : list Byte.byte) (length : Z) (s : FixedOutputStream)
  : outcome (ErrorCode * FixedOutputStream) :=
  if u32 (fos_bufferSize s - fos_offset s) <? length then Done (E_NOMEM, s)
  else
    let* data := mem_read buffer 0 length in
    let* buf := mem_write (fos_buffer s) (fos_offset s) data in
    Done (E_OK, MkFixedOutputStream (fos_order s) buf (fos_bufferSize s)
                  (u32 (fos_offset s + length))).

Definition fos_getBuffer (s : FixedOutputStream) : list Byte.byte := fos_buffer s.
Definition fos_getLength (s : FixedOutputStream) : Z := fos_offset s.

#[export] Instance FixedOutputStream_stream : OutputStream FixedOutputStream := {
  os_order := fos_order;
  writeBytes := fos_writeBytes;
}.

(** ** The fixed streams satisfy the laws *)

Definition fis_ok (s : FixedInputStream) : Prop :=
  0 <= fis_offset s <= fis_size s /\ fis_size s <= zlen (fis_buf s) /\ fis_size s < 2 ^ 32.

Definition fis_bytes (s : FixedInputStream) : list Byte.byte :=
  zdrop (fis_offset s) (ztake (fis_size s) (fis_buf s)).

Lemma fis_size_ok s : fis_ok s -> fis_getSize s = fis_size s - fis_offset s.
Proof. intros (? & ? & ?). unfold fis_getSize. apply u32_small. lia. Qed.

Lemma fis_bytes_length s : fis_ok s -> zlen (fis_bytes s) = fis_size s - fis_offset s.
Proof.
  intros (? & ? & ?). unfold fis_bytes. rewrite zlen_zdrop; rewrite zlen_ztake; lia.
Qed.

Lemma fis_advance s n : fis_ok s -> 0 <= n <= fis_size s - fis_offset s ->
  let s' := fis_set_offset s (u32 (fis_offset s + n)) in
  fis_ok s' /\ fis_bytes s' = zdrop n (fis_bytes s).
Proof.
  intros (? & ? & ?) Hn. unfold fis_ok, fis_bytes. simpl. rewrite u32_small by lia.
  split; [lia|]. by rewrite zdrop_zdrop by lia.
Qed.

Lemma fis_read_done s n : fis_ok s -> 0 < n <= fis_getSize s ->
  fis_readBytes n s = Done (IoRes E_OK (ztake n (fis_bytes s)) (Some n),
                            fis_set_offset s (u32 (fis_offset s + n))).
Proof.
  intros Hok Hn. pose proof Hok as (? & ? & ?). rewrite fis_size_ok in Hn by done.
  unfold fis_readBytes. rewrite fis_size_ok by done.
  destruct (Z.eqb_spec (fis_size s - fis_offset s) 0); [lia|].
  rewrite Z.min_l, mem_read_ok by lia. cbn [outcome_bind]. do 3 f_equal.
  unfold fis_bytes. rewrite zdrop_ztake by lia. by rewrite ztake_ztake by lia.
Qed.

#[export] Instance FixedInputStream_laws : InputStreamLaws FixedInputStream.
Proof.
  refine {| is_bytes := fis_bytes; is_ok := fis_ok |}; simpl.
  - intros s Hok. rewrite fis_size_ok, fis_bytes_length by done.
    split; [done|]. destruct Hok as (? & ? & ?). lia.
  - intros s n Hok Hn. unfold fis_peekBytes. rewrite fis_read_done by done.
    cbn [outcome_bind]. by destruct s.
  - intros s n Hok Hn. eexists. split; [by apply fis_read_done|].
    rewrite fis_size_ok in Hn by done. destruct (fis_advance s n Hok) as [? ?]; [lia|].
    done.
  - intros s n Hok Hn. pose proof (fis_read_done s (fis_getSize s) Hok ltac:(lia)) as Hr.
    rewrite fis_size_ok in Hn by done.
    destruct (fis_advance s (fis_getSize s) Hok) as [Hok' Hb]; [rewrite fis_size_ok by done; lia|].
    pose proof (fis_bytes_length s Hok) as Hl. pose proof (fis_size_ok s Hok) as Hsize.
    eexists. split; [|split; [exact Hok'|split; [|done]]].
    + unfold fis_readBytes in *. rewrite Hsize in *.
      rewrite (proj2 (Z.eqb_neq _ 0)) in * by lia. rewrite Z.min_r by lia.
      rewrite Z.min_l in Hr by lia. rewrite Hr. by rewrite ztake_all by lia.
    + rewrite Hb. apply zdrop_all. lia.
  - intros s n Hok Hn. rewrite fis_size_ok in Hn by done. eexists. split.
    + unfold fis_skipBytes. rewrite fis_size_ok by done.
      destruct (Z.eqb_spec (fis_size s - fis_offset s) 0); [lia|]. by rewrite Z.min_l by lia.
    + destruct (fis_advance s n Hok) as [? ?]; [lia|]. done.
Defined.

(** the laws over a buffer, which the stream does not change *)
Definition FixedInputStream_over_laws (buf : list Byte.byte) (size : Z)
  : InputStreamLaws FixedInputStream.
Proof.
  refine {| is_bytes := fis_bytes;
            is_ok := fun s => fis_ok s /\ fis_buf s = buf /\ fis_size s = size |}; simpl.
  - intros s [Hok _]. apply (@is_size_law _ _ FixedInputStream_laws s Hok).
  - intros s n [Hok _]. apply (@is_peek_law _ _ FixedInputStream_laws s n Hok).
  - intros s n (Hok & Hb & Hs) Hn. pose proof Hn as Hn'. rewrite fis_size_ok in Hn' by done.
    eexists. split; [by apply fis_read_done|].
    destruct (fis_advance s n Hok) as [? ?]; [lia|]. done.
  - intros s n (Hok & Hb & Hs) Hn.
    destruct (@is_short_law _ _ FixedInputStream_laws s n Hok Hn) as (s' & Hr & Hok' & Hb' & Ho').
    exists s'. split_and!; try done; cbn in Hr; unfold fis_readBytes in Hr;
      destruct (fis_getSize s =? 0); try done; inv_bind; done.
  - intros s n (Hok & Hb & Hs) Hn. pose proof Hn as Hn'. rewrite fis_size_ok in Hn' by done.
    eexists. split.
    + unfold fis_skipBytes. destruct (Z.eqb_spec (fis_getSize s) 0); [lia|].
      by rewrite Z.min_l by lia.
    + destruct (fis_advance s n Hok) as [? ?]; [lia|]. done.
Defined.

Lemma fis_skip_done s n : fis_ok s -> 0 <= n -> 0 < fis_getSize s ->
  let k := Z.min n (fis_getSize s) in
  let s' := fis_set_offset s (fis_offset s + k) in
  fis_skipBytes n s = Done (IoRes E_OK [] (Some k), s') /\
  fis_ok s' /\ fis_bytes s' = zdrop k (fis_bytes s).
Proof.
  intros Hok Hn Hpos k. subst k. pose proof (fis_size_ok s Hok) as Hs.
  pose proof Hok as (? & ? & ?).
  destruct (fis_advance s (Z.min n (fis_getSize s)) Hok) as [Hok' Hb]; [lia|].
  rewrite (u32_small (fis_offset s + _)) in Hok', Hb by lia. split; [|done].
  unfold fis_skipBytes. rewrite (proj2 (Z.eqb_neq _ 0)), u32_small by lia. done.
Qed.

Definition fos_ok (s : FixedOutputStream) : Prop :=
  0 <= fos_offset s <= fos_bufferSize s /\ fos_bufferSize s <= zlen (fos_buffer s) /\
  fos_bufferSize s < 2 ^ 32.

Definition fos_written (s : FixedOutputStream) : list Byte.byte :=
  ztake (fos_offset s) (fos_buffer s).

#[export] Instance FixedOutputStream_laws : OutputStreamLaws FixedOutputStream.
Proof.
  refine {| os_written := fos_written; os_ok := fos_ok;
            os_room := fun s => fos_bufferSize s - fos_offset s |}; simpl.
  - intros s (? & ? & ?). lia.
  - intros s buf n (? & ? & ?) Hn Hroom. unfold fos_writeBytes.
    rewrite (u32_small (fos_bufferSize s - fos_offset s)) by lia.
    rewrite (proj2 (Z.ltb_ge _ n)), mem_read_ok by lia. cbn [outcome_bind]. rewrite zdrop_0.
    rewrite mem_write_ok by (rewrite ?zlen_ztake; lia). cbn [outcome_bind].
    eexists. split; [done|]. rewrite zlen_ztake by lia. unfold fos_ok, fos_written. simpl.
    rewrite u32_small by lia.
    assert (Hlen : zlen (ztake (fos_offset s) (fos_buffer s) ++
                   ztake n buf ++ zdrop (fos_offset s + n) (fos_buffer s)) = zlen (fos_buffer s)).
    { rewrite !zlen_app, !zlen_ztake, zlen_zdrop by lia. lia. }
    split; [lia|]. split; [|split; [lia|done]].
    rewrite app_assoc, ztake_app_length; [done|].
    rewrite zlen_app, !zlen_ztake by lia. lia.
  - intros s buf n (? & ? & ?) Hroom. unfold fos_writeBytes.
    rewrite u32_small by lia. by rewrite (proj2 (Z.ltb_lt _ n)) by lia.
Defined.

(** the laws over a buffer of known size, which no write changes *)
Definition FixedOutputStream_sized_laws (N : Z) : OutputStreamLaws FixedOutputStream.
Proof.
  refine {| os_written := fos_written;
            os_ok := fun s => fos_ok s /\ fos_bufferSize s = N /\ zlen (fos_buffer s) = N;
            os_room := fun s => fos_bufferSize s - fos_offset s |}; simpl.
  - intros s [Hok _]. apply (@os_room_nonneg _ _ FixedOutputStream_laws s Hok).
  - intros s buf n (Hok & Hb & Hl) Hn Hroom.
    destruct (@os_write_law _ _ FixedOutputStream_laws s buf n Hok Hn Hroom)
      as (s' & Hw & Hok' & Hwr & Hr & Ho). exists s'. split_and!; try done.
    + cbn in Hw. unfold fos_writeBytes in Hw.
      destruct (u32 (fos_bufferSize s - fos_offset s) <? n); [done|]. inv_bind. done.
    + cbn in Hw. unfold fos_writeBytes in Hw.
      destruct (u32 (fos_bufferSize s - fos_offset s) <? n); [done|]. inv_bind.
      rewrite <- Hl. by eapply mem_write_length.
  - intros s buf n (Hok & _). apply (@os_full_law _ _ FixedOutputStream_laws s buf n Hok).
Defined.

(** ** Clients of the interface: whole values *)

Section Templates.
Context {S : Type} `{InputStreamLaws S}.
Implicit Types (s : S) (value : list Byte.byte).

Lemma peek_ok s value : is_ok s -> 0 < zlen value <= is_size s ->
  peek (zlen value) value s = Done (E_OK, ztake (zlen value) (is_bytes s), s).
Proof.
  intros Hok Hn. unfold peek. destruct (is_size_law s Hok) as [Hsize _].
  rewrite (proj2 (Z.ltb_ge _ _)), is_peek_law by (done || lia). cbn [outcome_bind io_data].
  rewrite mem_write_ok by (rewrite ?zlen_ztake; lia). cbn [outcome_bind io_rc io_count default].
  rewrite decide_True, (proj2 (Z.ltb_ge _ _)) by (done || lia). cbn [from_option id].
  rewrite ztake_0, zlen_ztake, zdrop_all by lia. by rewrite app_nil_r.
Qed.

Lemma read_ok s value : is_ok s -> 0 < zlen value <= is_size s ->
  exists s', read (zlen value) value s = Done (E_OK, ztake (zlen value) (is_bytes s), s') /\
    is_ok s' /\ is_bytes s' = zdrop (zlen value) (is_bytes s) /\ is_order s' = is_order s.
Proof.
  intros Hok Hn. unfold read. destruct (is_size_law s Hok) as [Hsize _].
  rewrite (proj2 (Z.ltb_ge _ _)) by lia.
  destruct (is_read_law s (zlen value) Hok Hn) as (s' & -> & ? & ? & ?). exists s'.
  split; [|done]. cbn [outcome_bind io_data].
  rewrite mem_write_ok by (rewrite ?zlen_ztake; lia). cbn [outcome_bind io_rc io_count default].
  rewrite decide_True, (proj2 (Z.ltb_ge _ _)) by (done || lia). cbn [from_option id].
  rewrite ztake_0, zlen_ztake, zdrop_all by lia. by rewrite app_nil_r.
Qed.

Lemma read_short s n value : is_size s < n -> read n value s = Done (E_END_OF_STREAM, value, s).
Proof. intros Hn. unfold read. by rewrite (proj2 (Z.ltb_lt _ _)) by lia. Qed.
End Templates.
