(* ===== verification/Serializable.v ===== *)
(** * The serialization macros of inc/io/serializable.h

    A macro that returns from the enclosing function on error is a [step]: it
    maps a state to an error code and a state, and [;;;] runs the next macro
    only after [E_OK]. [emits] and [decodes] are the specifications of a step
    over any lawful output and input stream; both compose. *)

From Stdlib Require Import ZArith Lia.
From coqutil Require Import Byte.
From S2P Require Import Prelude Errors StrSearch Io.
Open Scope Z_scope.

(** ** Definitions *)

Definition step (S : Type) := S -> outcome (ErrorCode * S).

Definition step_ret {S} : step S := fun s => Done (E_OK, s).

Definition step_seq {S} (m k : step S) : step S := fun s =>
  let* '(rc, s) := m s in
  if decide (rc = E_OK) then k s else Done (rc, s).

Notation "m ';;;' k" := (step_seq m k) (at level 62, right associativity) : commutil_scope.

(** htons, htonl, htonll and their inverses on a little-endian host *)
Definition byte_swap (n : nat) (v : Z) : Z := le_combine (rev (le_split n v)).

Section Serialize.
Context {S : Type} `{OutputStream S}.

Definition ser_uint8 (value : Z) : step S := fun os => write (le_split 1 value) os.

Definition ser_int8 (value : Z) : step S := ser_uint8 (u8 value).

(** COMM_SERIALIZE_UINT16, _UINT32 and _UINT64 differ in the width *)
Definition ser_uint (n : nat) (value : Z) : step S := fun os =>
  write (le_split n (if os_isNetworkOrder os then byte_swap n value else value)) os.

Definition ser_uint16 : Z -> step S := ser_uint 2.
Definition ser_int16 (value : Z) : step S := ser_uint16 (u16 value).
Definition ser_uint32 : Z -> step S := ser_uint 4.
Definition ser_int32 (value : Z) : step S := ser_uint32 (u32 value).
Definition ser_uint64 : Z -> step S := ser_uint 8.
Definition ser_int64 (value : Z) : step S := ser_uint64 (u64 value).

Definition ser_bool (value : bool) : step S := fun os =>
  write (le_split 1 (if value then 1 else 0)) os.

(** [size] is [sizeof(value)] *)
Definition ser_enum (size : Z) (value : Z) : step S :=
  if size =? 1 then ser_uint8 (u8 value)
  else if size =? 2 then ser_uint16 (u16 value)
  else if size =? 4 then ser_uint32 (u32 value)
  else if size =? 8 then ser_uint64 (u64 value)
  else fun os => Done (E_INVALID_ARGUMENT, os).

Definition ser_data (value : list Byte.byte) : step S := fun os => write value os.

(** [value] is the contents of a std::string *)
Definition ser_string (value : list Byte.byte) : step S :=
  ser_uint32 (u32 (zlen value)) ;;; (fun os => writeBytes value (u32 (zlen value)) os).

Definition ser_nt_string (value : list Byte.byte) (len : Z) : step S :=
  (fun os => writeBytes value len os) ;;; ser_int8 0.

(** [buffer] is a std::vector<char>; [&buffer[0]] is its data pointer *)
Definition ser_buffer (buffer : list Byte.byte) : step S :=
  let length := u32 (zlen buffer) in
  ser_uint32 length ;;; (fun os => writeBytes buffer length os).
End Serialize.

(** The deserialization macros assign to a variable: the state is the object [H]
    that holds the variable, with its accessors, next to the stream. *)
Section Deserialize.
Context {S H : Type} `{InputStream S}.

Definition des_uint8 (get : H -> Z) (set : Z -> H -> H) : step (H * S) := fun '(h, ist) =>
  let* '(rc, mem, ist) := read 1 (le_split 1 (get h)) ist in
  Done (rc, (set (le_combine mem) h, ist)).

Definition des_uint (n : nat) (get : H -> Z) (set : Z -> H -> H) : step (H * S) := fun '(h, ist) =>
  let* '(rc, mem, ist) := read (Z.of_nat n) (le_split n (get h)) ist in
  let value := le_combine mem in
  if decide (rc = E_OK) then
    Done (E_OK, (set (if is_isNetworkOrder ist then byte_swap n value else value) h, ist))
  else Done (rc, (set value h, ist)).

Definition des_uint16 := des_uint 2.
Definition des_uint32 := des_uint 4.
Definition des_uint64 := des_uint 8.

(** the value is assigned only after a successful read *)
Definition des_bool (set : bool -> H -> H) : step (H * S) := fun '(h, ist) =>
  let* '(rc, mem, ist) := read 1 (le_split 1 0) ist in
  if decide (rc = E_OK) then Done (E_OK, (set (negb (le_combine mem =? 0)) h, ist))
  else Done (rc, (h, ist)).

Definition des_data (get : H -> list Byte.byte) (set : list Byte.byte -> H -> H)
  : step (H * S) := fun '(h, ist) =>
  let* '(rc, mem, ist) := read (zlen (get h)) (get h) ist in
  Done (rc, (set mem h, ist)).

(** [value += byte] until the terminating null *)
Definition nt_string_consumer (value : list Byte.byte) (byte : Byte.byte)
  : list Byte.byte * bool :=
  if decide (byte = NUL) then (value, false) else (value ++ [byte], true).

Definition des_nt_string (fuel : nat) (get : H -> list Byte.byte)
    (set : list Byte.byte -> H -> H) : step (H * S) := fun '(h, ist) =>
  let* '(rc, value, ist) := readUntil fuel nt_string_consumer (get h) NUL ist in
  Done (rc, (set value h, ist)).

End Deserialize.

Section DeserializeBuffer.
Context {S H : Type} `{InputStream S}.

(** [buffer.resize(length, 0)] followed by a read into its start *)
Definition des_buffer (get : H -> list Byte.byte) (set : list Byte.byte -> H -> H)
  : step (H * S) := fun '(h, ist) =>
  let* '(rc, (length, ist)) := des_uint32 (fun l => l) (fun l _ => l) (0, ist) in
  if decide (rc = E_OK) then
    let buffer := ztake length (get h) ++ replicate (Z.to_nat (length - zlen (get h))) NUL in
    let* '(r, ist) := readBytes length ist in
    let* buffer := mem_write buffer 0 (io_data r) in
    Done (io_rc r, (set buffer h, ist))
  else Done (rc, (h, ist)).
End DeserializeBuffer.

(** ** Byte images of integers *)

(** the bytes on the wire of an [n]-byte unsigned integer *)
Definition uint_image (net : bool) (n : nat) (v : Z) : list Byte.byte :=
  if net then rev (le_split n v) else le_split n v.

Lemma length_image net n v : length (uint_image net n v) = n.
Proof.
  unfold uint_image. destruct net; rewrite ?length_rev; apply length_le_split.
Qed.

Lemma zlen_image net n v : zlen (uint_image net n v) = Z.of_nat n.
Proof. unfold zlen. by rewrite length_image. Qed.

Lemma byte_swap_image n v : le_split n (byte_swap n v) = rev (le_split n v).
Proof. unfold byte_swap. apply split_le_combine'. by rewrite length_rev, length_le_split. Qed.

Lemma byte_swap_range n v : 0 <= byte_swap n v < 2 ^ (8 * Z.of_nat n).
Proof.
  unfold byte_swap. pose proof (le_combine_bound (rev (le_split n v))) as Hb.
  by rewrite length_rev, length_le_split in Hb.
Qed.

Lemma byte_swap_involutive n v : byte_swap n (byte_swap n v) = v mod 2 ^ (8 * Z.of_nat n).
Proof.
  unfold byte_swap at 1. rewrite byte_swap_image, rev_involutive, le_combine_split.
  by rewrite Z.mul_comm.
Qed.

Lemma image_value (net : bool) n v : 0 <= v < 2 ^ (8 * Z.of_nat n) ->
  (if net then byte_swap n (le_combine (uint_image net n v))
   else le_combine (uint_image net n v)) = v.
Proof.
  intros Hv. destruct net; simpl.
  - change (le_combine (rev (le_split n v))) with (byte_swap n v).
    rewrite byte_swap_involutive. by apply Z.mod_small.
  - rewrite le_combine_split, Z.mul_comm. by apply Z.mod_small.
Qed.

Lemma image_order (net : bool) n v :
  le_split n (if net then byte_swap n v else v) = uint_image net n v.
Proof. destruct net; simpl; [apply byte_swap_image|done]. Qed.

(** ** What a serialization step writes *)

Section Emits.
Context {S : Type} `{OutputStreamLaws S}.
Implicit Types (s : S) (m k : step S).

(** [m] writes [img] (which depends on the byte order); without enough room it
    writes a proper prefix and reports [E_NOMEM] *)
Definition emits (m : step S) (img : bool -> list Byte.byte) : Prop :=
  forall s, os_ok s ->
  (zlen (img (os_isNetworkOrder s)) <= os_room s ->
   exists s', m s = Done (E_OK, s') /\ os_ok s' /\
     os_written s' = os_written s ++ img (os_isNetworkOrder s) /\
     os_room s' = os_room s - zlen (img (os_isNetworkOrder s)) /\ os_order s' = os_order s) /\
  (os_room s < zlen (img (os_isNetworkOrder s)) ->
   exists s' n, m s = Done (E_NOMEM, s') /\ os_ok s' /\ 0 <= n <= os_room s /\
     os_written s' = os_written s ++ ztake n (img (os_isNetworkOrder s)) /\
     os_order s' = os_order s).

Lemma net_of_order s s' : os_order s' = os_order s -> os_isNetworkOrder s' = os_isNetworkOrder s.
Proof. unfold os_isNetworkOrder. by intros ->. Qed.

Lemma emits_ret : emits step_ret (fun _ => []).
Proof.
  intros s Hok. pose proof (os_room_nonneg s Hok). split; [|rewrite zlen_nil; lia].
  intros _. exists s. rewrite app_nil_r, zlen_nil, Z.sub_0_r. done.
Qed.

Lemma emits_writeBytes buf n : 0 <= n <= zlen buf ->
  emits (writeBytes buf n) (fun _ => ztake n buf).
Proof.
  intros Hn s Hok. rewrite zlen_ztake by lia. split.
  - intros Hroom. destruct (os_write_law s buf n Hok Hn Hroom) as (s' & ? & ? & ? & ? & ?).
    eauto 10.
  - intros Hroom. exists s, 0. rewrite os_full_law, ztake_0, app_nil_r by done.
    pose proof (os_room_nonneg s Hok). repeat split; auto; lia.
Qed.

Lemma emits_write value : emits (write value) (fun _ => value).
Proof.
  unfold write. pose proof (zlen_nonneg value).
  pose proof (emits_writeBytes value (zlen value) ltac:(lia)) as Hw.
  by rewrite ztake_all in Hw by lia.
Qed.

Lemma emits_ext m img img' : (forall b, img b = img' b) -> emits m img -> emits m img'.
Proof. intros He Hm s Hok. rewrite <- He. by apply Hm. Qed.

Lemma emits_seq m k img1 img2 : emits m img1 -> emits k img2 ->
  emits (m ;;; k) (fun b => img1 b ++ img2 b).
Proof.
  intros Hm Hk s Hok. rewrite zlen_app. destruct (Hm s Hok) as [Hm1 Hm2].
  set (b := os_isNetworkOrder s) in *. unfold step_seq.
  pose proof (zlen_nonneg (img1 b)). pose proof (zlen_nonneg (img2 b)).
  destruct (Z_le_gt_dec (zlen (img1 b)) (os_room s)) as [Hle|Hgt].
  - destruct (Hm1 Hle) as (s1 & -> & Hok1 & Hw1 & Hr1 & Ho1). cbn [outcome_bind].
    rewrite decide_True by done. destruct (Hk s1 Hok1) as [Hk1 Hk2].
    rewrite (net_of_order s s1 Ho1) in Hk1, Hk2. fold b in Hk1, Hk2. split.
    + intros Hroom. destruct Hk1 as (s2 & -> & ? & Hw2 & ? & ?); [lia|]. exists s2.
      rewrite Hw2, Hw1, app_assoc. repeat split; auto; [lia|congruence].
    + intros Hroom. destruct Hk2 as (s2 & n & -> & ? & ? & Hw2 & ?); [lia|].
      exists s2, (zlen (img1 b) + n). rewrite Hw2, Hw1, ztake_app_ge by lia.
      replace (zlen (img1 b) + n - zlen (img1 b)) with n by lia.
      rewrite app_assoc. repeat split; auto; [lia|lia|congruence].
  - split; [lia|]. intros _. destruct (Hm2 ltac:(lia)) as (s1 & n & -> & ? & ? & Hw & ?).
    cbn [outcome_bind]. rewrite decide_False by done. exists s1, n.
    rewrite Hw, ztake_app_le by lia. done.
Qed.

Lemma emits_uint n v : emits (ser_uint n v) (fun b => uint_image b n v).
Proof.
  intros s Hok. rewrite zlen_image. unfold ser_uint. rewrite image_order.
  pose proof (emits_write (uint_image (os_isNetworkOrder s) n v) s Hok) as Hw.
  cbv beta in Hw. by rewrite zlen_image in Hw.
Qed.

Lemma emits_uint32 v : emits (ser_uint32 v) (fun b => uint_image b 4 v).
Proof. apply emits_uint. Qed.

Lemma emits_buffer buffer : zlen buffer < 2 ^ 32 ->
  emits (ser_buffer buffer) (fun b => uint_image b 4 (zlen buffer) ++ buffer).
Proof.
  intros Hlen. unfold ser_buffer. pose proof (zlen_nonneg buffer).
  rewrite u32_small by lia. apply emits_seq; [apply emits_uint|].
  eapply emits_ext; [|apply emits_writeBytes; lia]. intros b. cbv beta. by rewrite ztake_all by lia.
Qed.

Lemma emits_nt_string value : emits (ser_nt_string value (zlen value)) (fun _ => value ++ [NUL]).
Proof.
  unfold ser_nt_string, ser_int8, ser_uint8. pose proof (zlen_nonneg value).
  apply (emits_seq _ _ (fun _ => value) (fun _ => [NUL])).
  - eapply emits_ext; [|apply emits_writeBytes; lia]. intros b. cbv beta. by rewrite ztake_all by lia.
  - apply emits_write.
Qed.
End Emits.

(** ** What a deserialization step reads *)

Section Decodes.
Context {S H : Type} `{InputStreamLaws S}.
Implicit Types (s : S) (m k : step (H * S)).

(** [m] consumes [n] bytes and updates the object by [f]; with fewer bytes it
    reports [E_END_OF_STREAM] *)
Definition decodes_at (h : H) (m : step (H * S)) (n : Z)
    (f : bool -> list Byte.byte -> H -> H) : Prop :=
  forall s, is_ok s ->
  (n <= is_size s ->
   exists s', m (h, s) = Done (E_OK, (f (is_isNetworkOrder s) (ztake n (is_bytes s)) h, s')) /\
     is_ok s' /\ is_bytes s' = zdrop n (is_bytes s) /\ is_order s' = is_order s) /\
  (is_size s < n -> exists h' s', m (h, s) = Done (E_END_OF_STREAM, (h', s'))).

Definition decodes (m : step (H * S)) (n : Z) (f : bool -> list Byte.byte -> H -> H) : Prop :=
  forall h, decodes_at h m n f.

Lemma is_net_of_order s s' : is_order s' = is_order s ->
  is_isNetworkOrder s' = is_isNetworkOrder s.
Proof. unfold is_isNetworkOrder. by intros ->. Qed.

Lemma decodes_ret : decodes step_ret 0 (fun _ _ h => h).
Proof.
  intros h s Hok. destruct (is_size_law s Hok) as [Hsize _].
  split; [|pose proof (zlen_nonneg (is_bytes s)); lia].
  intros _. exists s. done.
Qed.

Lemma decodes_seq_at h m k n1 n2 f1 f2 : 0 <= n1 -> 0 <= n2 ->
  decodes_at h m n1 f1 -> decodes k n2 f2 ->
  decodes_at h (m ;;; k) (n1 + n2)
    (fun b bs h => f2 b (zdrop n1 bs) (f1 b (ztake n1 bs) h)).
Proof.
  intros Hn1 Hn2 Hm Hk s Hok. destruct (Hm s Hok) as [Hm1 Hm2].
  destruct (is_size_law s Hok) as [Hsize _]. unfold step_seq.
  destruct (Z_le_gt_dec n1 (is_size s)) as [Hle|Hgt].
  - destruct (Hm1 Hle) as (s1 & -> & Hok1 & Hb1 & Ho1). cbn [outcome_bind].
    rewrite decide_True by done. destruct (Hk (f1 (is_isNetworkOrder s) (ztake n1 (is_bytes s)) h)
      s1 Hok1) as [Hk1 Hk2].
    destruct (is_size_law s1 Hok1) as [Hsize1 _]. rewrite Hb1, zlen_zdrop in Hsize1 by lia.
    split.
    + intros Hall. destruct Hk1 as (s2 & -> & ? & Hb2 & ?); [lia|]. exists s2.
      rewrite (is_net_of_order s s1 Ho1), Hb1. split.
      * rewrite ztake_ztake, zdrop_ztake by lia. by replace (n1 + n2 - n1) with n2 by lia.
      * rewrite Hb2, Hb1, zdrop_zdrop by lia. split; [done|]. split; [done|congruence].
    + intros Hshort. apply Hk2. lia.
  - destruct (Hm2 ltac:(lia)) as (h1 & s1 & Hrun).
    split; [lia|]. intros _. rewrite Hrun. cbn [outcome_bind]. rewrite decide_False by done. eauto.
Qed.

Lemma decodes_seq m k n1 n2 f1 f2 : 0 <= n1 -> 0 <= n2 -> decodes m n1 f1 -> decodes k n2 f2 ->
  decodes (m ;;; k) (n1 + n2)
    (fun b bs h => f2 b (zdrop n1 bs) (f1 b (ztake n1 bs) h)).
Proof. intros Hn1 Hn2 Hm Hk h. by apply decodes_seq_at. Qed.

Lemma decodes_uint n get set : (0 < n)%nat ->
  decodes (des_uint n get set) (Z.of_nat n) (fun b bs h =>
    set (if b then byte_swap n (le_combine bs) else le_combine bs) h).
Proof.
  intros Hn h s Hok. unfold des_uint.
  assert (Hl : Z.of_nat n = zlen (le_split n (get h))) by (unfold zlen; by rewrite length_le_split).
  split.
  - intros Hle. destruct (read_ok s (le_split n (get h)) Hok) as (s' & Hr & ? & ? & Ho); [lia|].
    rewrite Hl, Hr. cbn [outcome_bind]. rewrite decide_True by done.
    rewrite (is_net_of_order s s' Ho). eauto.
  - intros Hlt. rewrite read_short by lia. cbn [outcome_bind]. rewrite decide_False by done. eauto.
Qed.

Lemma decodes_data_at h n get set : 0 < n -> zlen (get h) = n ->
  decodes_at h (des_data get set) n (fun _ bs h => set bs h).
Proof.
  intros Hn Hl s Hok. unfold des_data. split.
  - intros Hle. destruct (read_ok s (get h) Hok) as (s' & Hr & ? & ? & ?); [rewrite Hl; lia|].
    rewrite Hr. cbn [outcome_bind]. rewrite Hl in *. eauto.
  - intros Hlt. rewrite read_short by (rewrite Hl; lia). cbn [outcome_bind]. eauto.
Qed.
End Decodes.

(** ** Round trips *)

Section Roundtrips.
Context {O : Type} `{OutputStreamLaws O} {S : Type} `{InputStreamLaws S}.
Implicit Types (os : O) (s : S).

(** an integer written to a stream and read back in the same byte order *)
Lemma uint_roundtrip n v os s : (0 < n)%nat -> 0 <= v < 2 ^ (8 * Z.of_nat n) ->
  os_ok os -> Z.of_nat n <= os_room os ->
  is_ok s -> is_isNetworkOrder s = os_isNetworkOrder os ->
  exists os' img, ser_uint n v os = Done (E_OK, os') /\ os_written os' = os_written os ++ img /\
    forall rest, is_bytes s = img ++ rest ->
    exists s', des_uint n (fun x => x) (fun x _ => x) (0, s) = Done (E_OK, (v, s')) /\
      is_bytes s' = rest.
Proof.
  intros Hn Hv Hos Hroom Hok Hnet. destruct (emits_uint n v os Hos) as [Hw _].
  rewrite zlen_image in Hw. destruct (Hw Hroom) as (os' & Hs & _ & Hwr & _).
  exists os', (uint_image (os_isNetworkOrder os) n v). split; [done|]. split; [done|].
  intros rest Hb. destruct (is_size_law s Hok) as [Hsize _].
  rewrite Hb, zlen_app, zlen_image in Hsize. pose proof (zlen_nonneg rest).
  destruct (decodes_uint n (fun x : Z => x) (fun x _ => x) Hn 0 s Hok) as [Hd _].
  destruct Hd as (s' & Hd & _ & Hb' & _); [lia|]. exists s'. rewrite Hd, Hb', Hb, Hnet.
  rewrite ztake_app_length, zdrop_app_length by (by rewrite zlen_image).
  by rewrite image_value by done.
Qed.

(** one iteration of [readUntil] *)
Lemma readUntil_step {A} (f : A -> Byte.byte -> A * bool) a byte c fuel s s1 :
  readBytes 1 s = Done (IoRes E_OK [c] (Some 1), s1) ->
  readUntil (Datatypes.S fuel) f a byte s =
    (let '(a, continue) := f a c in
     if continue then readUntil fuel f a c s1 else Done (E_OK, a, s1)).
Proof. intros Hr. cbn [readUntil]. rewrite Hr. reflexivity. Qed.

(** reading until the terminating null *)
Lemma readUntil_nt value acc byte fuel s rest : is_ok s -> ~ In NUL value ->
  is_bytes s = value ++ NUL :: rest -> (length value < fuel)%nat ->
  exists s', readUntil fuel nt_string_consumer acc byte s = Done (E_OK, acc ++ value, s') /\
    is_ok s' /\ is_bytes s' = rest.
Proof.
  revert acc byte fuel s. induction value as [|c value IH]; intros acc byte fuel s Hok Hnul Hb Hf;
    (destruct fuel as [|fuel]; [simpl in Hf; lia|]);
    (destruct (is_size_law s Hok) as [Hsize _]); rewrite Hb in Hsize;
    cbn [app] in Hsize; rewrite zlen_cons in Hsize;
    (destruct (is_read_law s 1 Hok) as (s1 & Hr & Hok1 & Hb1 & _); [zlia|]);
    rewrite Hb in *; cbn [app] in *.
  - rewrite (readUntil_step _ _ _ NUL fuel s s1 Hr). exists s1. by rewrite app_nil_r.
  - rewrite (readUntil_step _ _ _ c fuel s s1 Hr). unfold nt_string_consumer at 1.
    rewrite decide_False by (intros ->; apply Hnul; by left).
    destruct (IH (acc ++ [c]) c fuel s1) as (s' & Hrun & ?); auto.
    { intros Hin. apply Hnul. by right. }
    { simpl in Hf. lia. }
    exists s'. rewrite <- app_assoc in Hrun. done.
Qed.

(** A null terminated string without inner nulls that is written to a stream
    is read back whole, and what follows it in the stream is left unread. *)
Theorem nt_string_roundtrip value os s fuel : ~ In NUL value ->
  os_ok os -> zlen value + 1 <= os_room os -> is_ok s -> (length value < fuel)%nat ->
  exists os' img, ser_nt_string value (zlen value) os = Done (E_OK, os') /\
    os_written os' = os_written os ++ img /\
    forall rest, is_bytes s = img ++ rest ->
    exists s', des_nt_string fuel (fun x => x) (fun x _ => x) ([], s) = Done (E_OK, (value, s')) /\
      is_bytes s' = rest.
Proof.
  intros Hnul Hos Hroom Hok Hf. destruct (emits_nt_string value os Hos) as [Hw _].
  cbv beta in Hw. rewrite zlen_app, zlen_cons, zlen_nil in Hw.
  destruct Hw as (os' & Hs & _ & Hwr & _); [lia|].
  exists os', (value ++ [NUL]). split; [done|]. split; [done|]. intros rest Hb.
  rewrite <- app_assoc in Hb. cbn [app] in Hb.
  destruct (readUntil_nt value [] NUL fuel s rest Hok Hnul Hb Hf) as (s' & Hr & _ & ?).
  exists s'. unfold des_nt_string. by rewrite Hr.
Qed.

(** A buffer that is not empty, written to a stream with its length, is read
    back whole from a stream of the same byte order, whatever the target held. *)
Theorem buffer_roundtrip buffer old os s : 0 < zlen buffer < 2 ^ 32 ->
  os_ok os -> 4 + zlen buffer <= os_room os -> is_ok s ->
  is_isNetworkOrder s = os_isNetworkOrder os ->
  exists os' img, ser_buffer buffer os = Done (E_OK, os') /\
    os_written os' = os_written os ++ img /\
    forall rest, is_bytes s = img ++ rest ->
    exists s', des_buffer (fun x => x) (fun x _ => x) (old, s) = Done (E_OK, (buffer, s')) /\
      is_bytes s' = rest.
Proof.
  intros Hlen Hos Hroom Hok Hnet. destruct (emits_buffer buffer ltac:(lia) os Hos) as [Hw _].
  rewrite zlen_app, zlen_image in Hw. destruct Hw as (os' & Hs & _ & Hwr & _); [lia|].
  exists os', (uint_image (os_isNetworkOrder os) 4 (zlen buffer) ++ buffer).
  split; [done|]. split; [done|]. intros rest Hb. rewrite <- app_assoc in Hb.
  destruct (is_size_law s Hok) as [Hsize _].
  rewrite Hb, !zlen_app, zlen_image in Hsize. pose proof (zlen_nonneg rest).
  destruct (decodes_uint 4 (fun x : Z => x) (fun x _ => x) ltac:(lia) 0 s Hok) as [Hd _].
  destruct Hd as (s1 & Hd & Hok1 & Hb1 & _); [lia|].
  rewrite Hb, Hnet, ztake_app_length, zdrop_app_length, image_value in * by
    (rewrite ?zlen_image; lia).
  destruct (is_size_law s1 Hok1) as [Hsize1 _]. rewrite Hb1, zlen_app in Hsize1.
  destruct (is_read_law s1 (zlen buffer) Hok1) as (s' & Hr & _ & Hb' & _); [lia|].
  exists s'. unfold des_buffer, des_uint32. rewrite Hd. cbn [outcome_bind].
  rewrite decide_True by done. rewrite Hr. cbn [outcome_bind io_data io_rc].
  rewrite Hb1, ztake_app_length, mem_write_ok by
    (try done; zlens; rewrite ?zlen_app, ?zlen_replicate; unfold ztake, zlen in *;
     rewrite ?length_take; lia).
  cbn [outcome_bind]. rewrite ztake_0, zdrop_all, app_nil_r by
    (zlens; rewrite ?zlen_app, ?zlen_replicate; unfold ztake, zlen in *;
     rewrite ?length_take; lia).
  split; [done|]. rewrite Hb', Hb1. by apply zdrop_app_length.
Qed.

(** A serialized buffer that is cut short in its data is accepted with [E_OK]:
    the missing bytes read as zero. *)
Theorem buffer_truncated len part s : 0 < zlen part < len -> len < 2 ^ 32 -> is_ok s ->
  is_bytes s = uint_image (is_isNetworkOrder s) 4 len ++ part ->
  exists s', des_buffer (fun x => x) (fun x _ => x) ([], s) =
    Done (E_OK, (part ++ replicate (Z.to_nat (len - zlen part)) NUL, s')) /\ is_bytes s' = [].
Proof.
  intros Hlen Hl Hok Hb. destruct (is_size_law s Hok) as [Hsize _].
  rewrite Hb, !zlen_app, zlen_image in Hsize.
  destruct (decodes_uint 4 (fun x : Z => x) (fun x _ => x) ltac:(lia) 0 s Hok) as [Hd _].
  destruct Hd as (s1 & Hd & Hok1 & Hb1 & _); [lia|].
  rewrite Hb, ztake_app_length, zdrop_app_length, image_value in * by
    (rewrite ?zlen_image; lia).
  destruct (is_size_law s1 Hok1) as [Hsize1 _]. rewrite Hb1 in Hsize1.
  destruct (is_short_law s1 len Hok1) as (s' & Hr & _ & Hb' & _); [lia|].
  exists s'. unfold des_buffer, des_uint32. rewrite Hd. cbn [outcome_bind].
  rewrite decide_True by done. rewrite Hr. cbn [outcome_bind io_data io_rc].
  rewrite zlen_nil, Z.sub_0_r, Hb1.
  change (ztake len [] ++ replicate (Z.to_nat len) NUL)
    with (ztake len (@nil Byte.byte) ++ replicate (Z.to_nat len) NUL).
  rewrite (ztake_all len []) by (rewrite zlen_nil; lia). cbn [app].
  rewrite mem_write_ok by (rewrite ?zlen_replicate; lia). cbn [outcome_bind].
  rewrite ztake_0, Z.add_0_l. cbn [app]. split; [|done].
  do 4 f_equal. unfold zdrop, zlen. rewrite drop_replicate. do 2 f_equal. lia.
Qed.
End Roundtrips.

(** ** Witnesses *)

Definition sample_text : list Byte.byte := le_split 3 0x636261.

#[local] Existing Instance FixedOutputStream_laws.
#[local] Existing Instance FixedInputStream_laws.

Lemma nt_string_roundtrip_witness :
  let os := FixedOutputStream_newInternal 16 NETWORK_ORDER in
  let s := FixedInputStream_new (sample_text ++ [NUL; NUL]) 5 true NETWORK_ORDER in
  exists os' img, ser_nt_string sample_text 3 os = Done (E_OK, os') /\
    os_written os' = os_written os ++ img /\
    forall rest, is_bytes s = img ++ rest ->
    exists s', des_nt_string 4 (fun x => x) (fun x _ => x) ([], s) = Done (E_OK, (sample_text, s')) /\
      is_bytes s' = rest.
Proof.
  apply (nt_string_roundtrip sample_text (FixedOutputStream_newInternal 16 NETWORK_ORDER)
    (FixedInputStream_new (sample_text ++ [NUL; NUL]) 5 true NETWORK_ORDER) 4).
  - vm_compute. intuition discriminate.
  - vm_compute. intuition discriminate.
  - vm_compute. discriminate.
  - vm_compute. intuition discriminate.
  - vm_compute. lia.
Defined.

Lemma buffer_roundtrip_witness :
  let os := FixedOutputStream_newInternal 16 NETWORK_ORDER in
  let s := FixedInputStream_new (uint_image true 4 3 ++ sample_text) 7 true NETWORK_ORDER in
  exists os' img, ser_buffer sample_text os = Done (E_OK, os') /\
    os_written os' = os_written os ++ img /\
    forall rest, is_bytes s = img ++ rest ->
    exists s', des_buffer (fun x => x) (fun x _ => x) ([NUL], s) = Done (E_OK, (sample_text, s')) /\
      is_bytes s' = rest.
Proof.
  apply (buffer_roundtrip sample_text [NUL] (FixedOutputStream_newInternal 16 NETWORK_ORDER)
    (FixedInputStream_new (uint_image true 4 3 ++ sample_text) 7 true NETWORK_ORDER)).
  - vm_compute. intuition discriminate.
  - vm_compute. intuition discriminate.
  - vm_compute. discriminate.
  - vm_compute. intuition discriminate.
  - reflexivity.
Defined.

Lemma buffer_truncated_witness :
  exists s', des_buffer (fun x => x) (fun x _ => x)
      ([], FixedInputStream_new (uint_image true 4 5 ++ sample_text) 7 true NETWORK_ORDER) =
    Done (E_OK, (sample_text ++ [NUL; NUL], s')) /\ is_bytes s' = [].
Proof.
  apply (buffer_truncated 5 sample_text
    (FixedInputStream_new (uint_image true 4 5 ++ sample_text) 7 true NETWORK_ORDER)).
  - vm_compute. intuition discriminate.
  - reflexivity.
  - vm_compute. intuition discriminate.
  - reflexivity.
Defined.
