(* ===== verification/Segmented.v ===== *)
(** * SegmentedInputStream (inc/io/segmented_input_stream.h, src/io/segmented_input_stream.cpp)

    The stream over a singly linked list of incoming buffers. A buffer's
    identity stands for its address, and the calls to the buffer deallocator
    are logged in [sis_freed]. *)

From Stdlib Require Import ZArith Lia.
From coqutil Require Import Byte.
From S2P Require Import Prelude Errors StrSearch Io.
Open Scope Z_scope.

(** ** Definitions *)

Record BufferNode := MkBufferNode {
  bn_id : Z;                     (* the address m_buffer *)
  bn_buffer : list Byte.byte;    (* what m_buffer points to *)
  bn_length : Z;                 (* m_length *)
}.

Record SegmentedInputStream := MkSegmentedInputStream {
  sis_order : ByteOrder;
  sis_nodes : list BufferNode;   (* the list at m_head *)
  sis_tail : bool;               (* m_tail is not null *)
  sis_offset : Z;
  sis_size : Z;
  sis_freed : list Z;            (* the arguments of deallocateBuffer so far *)
}.

Definition SegmentedInputStream_new (byteOrder : ByteOrder) : SegmentedInputStream :=
  MkSegmentedInputStream byteOrder [] false 0 0 [].

(** drops all buffers; [m_offset] keeps its value *)
Definition sis_reset (s : SegmentedInputStream) : SegmentedInputStream :=
  MkSegmentedInputStream (sis_order s) [] false (sis_offset s) 0
    (sis_freed s ++ map bn_id (sis_nodes s)).

(** [alloc]: allocBufferNode returns a node *)
Definition appendBuffer (alloc : bool) (node : BufferNode) (s : SegmentedInputStream)
  : outcome SegmentedInputStream :=
  let size := u32 (sis_size s + bn_length node) in
  match sis_nodes s with
  | [] =>
    if sis_tail s then Undef UB_assert
    else Done (MkSegmentedInputStream (sis_order s) (if alloc then [node] else []) alloc
                 (sis_offset s) size (sis_freed s))
  | _ =>
    if sis_tail s then
      Done (MkSegmentedInputStream (sis_order s)
              (sis_nodes s ++ (if alloc then [node] else [])) alloc
              (sis_offset s) size (sis_freed s))
    else Undef UB_null
  end.

Definition removeHead (s : SegmentedInputStream) : SegmentedInputStream :=
  match sis_nodes s with
  | [] => s
  | node :: rest =>
    MkSegmentedInputStream (sis_order s) rest
      (match rest with [] => false | _ => sis_tail s end)
      0 (sis_size s) (sis_freed s ++ [bn_id node])
  end.

(** [m_size -= n; m_offset += n] *)
Definition sis_consume (n : Z) (s : SegmentedInputStream) : SegmentedInputStream :=
  MkSegmentedInputStream (sis_order s) (sis_nodes s) (sis_tail s)
    (u32 (sis_offset s + n)) (u32 (sis_size s - n)) (sis_freed s).

(** the loop of copyBytes at the list [nodes = sis_nodes s]; [copy] is false
    when the destination is null, [data] is what was copied so far *)
Fixpoint copyBytes_loop (copy : bool) (length : Z) (nodes : list BufferNode)
    (bytesCopied : Z) (data : list Byte.byte) (s : SegmentedInputStream)
  : outcome (list Byte.byte * SegmentedInputStream) :=
  match nodes with
  | [] => Undef UB_null
  | node :: rest =>
    let bytesToCopy := u32 (bn_length node - sis_offset s) in
    if u32 (bytesCopied + bytesToCopy) <? length then
      let* d := if copy then mem_read (bn_buffer node) (sis_offset s) bytesToCopy else Done [] in
      copyBytes_loop copy length rest (u32 (bytesCopied + bytesToCopy)) (data ++ d)
        (removeHead (sis_consume bytesToCopy s))
    else
      let bytesToCopy := u32 (length - bytesCopied) in
      let* d := if copy then mem_read (bn_buffer node) (sis_offset s) bytesToCopy else Done [] in
      let s := sis_consume bytesToCopy s in
      Done (data ++ d, if sis_offset s =? bn_length node then removeHead s else s)
  end.

Definition copyBytes (copy : bool) (length : Z) (s : SegmentedInputStream)
  : outcome (list Byte.byte * SegmentedInputStream) :=
  if length <=? sis_size s then copyBytes_loop copy length (sis_nodes s) 0 [] s
  else Undef UB_assert.

(** peeking walks the list with an iterator and an offset of its own *)
Fixpoint peekBytes_loop (length : Z) (itr : list BufferNode) (offset bytesCopied : Z)
    (data : list Byte.byte) : outcome (list Byte.byte) :=
  match itr with
  | [] => Undef UB_null
  | node :: next =>
    let bytesToCopy := u32 (bn_length node - offset) in
    if u32 (bytesCopied + bytesToCopy) <? length then
      let* d := mem_read (bn_buffer node) offset bytesToCopy in
      peekBytes_loop length next 0 (u32 (bytesCopied + bytesToCopy)) (data ++ d)
    else
      let* d := mem_read (bn_buffer node) offset (u32 (length - bytesCopied)) in
      Done (data ++ d)
  end.

Definition sis_peekBytes (length : Z) (s : SegmentedInputStream)
  : outcome (io_res * SegmentedInputStream) :=
  let length := Z.min (sis_size s) length in
  let* data := peekBytes_loop length (sis_nodes s) (sis_offset s) 0 [] in
  Done (IoRes E_OK data (Some length), s).

Definition sis_readBytes (length : Z) (s : SegmentedInputStream)
  : outcome (io_res * SegmentedInputStream) :=
  let bytesReadLocal := Z.min (sis_size s) length in
  let* '(data, s) := copyBytes true bytesReadLocal s in
  Done (IoRes E_OK data (Some bytesReadLocal), s).

Definition sis_skipBytes (length : Z) (s : SegmentedInputStream)
  : outcome (io_res * SegmentedInputStream) :=
  let bytesSkippedLocal := Z.min (sis_size s) length in
  let* '(data, s) := copyBytes false bytesSkippedLocal s in
  Done (IoRes E_OK data (Some bytesSkippedLocal), s).

(** skips and returns [rc] *)
Definition sis_skip_then (rc : ErrorCode) (length : Z) (s : SegmentedInputStream)
  : outcome (ErrorCode * SegmentedInputStream) :=
  let* '(r, s) := sis_skipBytes length s in
  if decide (io_rc r = E_OK) then Done (rc, s) else Done (E_INTERNAL_ERROR, s).

(** the borderline between the first two buffers, from byte [i] of the next
    one; [rest] is [length - i]. [None]: no match, the search goes on *)
Fixpoint search_border (head next : BufferNode) (pattern : list Byte.byte) (rest : nat)
    (i offset : Z) (s : SegmentedInputStream)
  : outcome (option ErrorCode * SegmentedInputStream) :=
  match rest with
  | O => Done (None, s)
  | S rest' =>
    if bn_length next <? i then
      let* '(rc, s) := sis_skip_then E_END_OF_STREAM offset s in Done (Some rc, s)
    else
      let* eq := strncmp_eq (zdrop offset (bn_buffer head)) pattern rest in
      let* eq := if (eq : bool)
                 then strncmp_eq (bn_buffer next) (zdrop (Z.of_nat rest) pattern) (Z.to_nat i)
                 else Done false in
      if (eq : bool) then
        let* '(rc, s) := sis_skip_then E_OK offset s in Done (Some rc, s)
      else search_border head next pattern rest' (i + 1) (offset + 1) s
  end.

Fixpoint searchBytes_loop (alloc : bool) (pattern : list Byte.byte) (length : Z)
    (nodes : list BufferNode) (s : SegmentedInputStream)
  : outcome (ErrorCode * SegmentedInputStream) :=
  match nodes with
  | [] => Done (E_END_OF_STREAM, s)
  | head :: rest =>
    let bufLen := bn_length head in
    if bufLen <? length then Done (E_END_OF_STREAM, s)
    else
      let* res := commutil_strnstr alloc (Some (bn_buffer head)) bufLen (Some pattern) length in
      if 0 <=? res then
        if 0 <? res then sis_skip_then E_OK res s else Done (E_OK, s)
      else
        match rest with
        | [] =>
          let* offset := partial_match (bn_buffer head) pattern (Z.to_nat length)
                           (bufLen - length) in
          sis_skip_then E_END_OF_STREAM offset s
        | next :: _ =>
          let* '(found, s) := search_border head next pattern (Z.to_nat length) 0
                                (bufLen - length) s in
          match found with
          | Some rc => Done (rc, s)
          | None => searchBytes_loop alloc pattern length rest (removeHead s)
          end
        end
  end.

Definition sis_searchBytes (alloc : bool) (pattern : list Byte.byte) (length : Z)
    (s : SegmentedInputStream) : outcome (ErrorCode * SegmentedInputStream) :=
  searchBytes_loop alloc pattern length (sis_nodes s) s.

#[export] Instance SegmentedInputStream_stream : InputStream SegmentedInputStream := {
  is_order := sis_order;
  is_reset := sis_reset;
  is_size := sis_size;
  peekBytes := sis_peekBytes;
  readBytes := sis_readBytes;
  skipBytes := sis_skipBytes;
  searchBytes := sis_searchBytes;
}.

(** ** Invariant and contents *)

Definition node_ok (n : BufferNode) : Prop := 0 <= bn_length n <= zlen (bn_buffer n).

Definition node_bytes (n : BufferNode) : list Byte.byte := ztake (bn_length n) (bn_buffer n).

Definition nodes_bytes (l : list BufferNode) : list Byte.byte := concat (map node_bytes l).

Definition sis_bytes (s : SegmentedInputStream) : list Byte.byte :=
  zdrop (sis_offset s) (nodes_bytes (sis_nodes s)).

Definition head_length (s : SegmentedInputStream) : Z :=
  match sis_nodes s with [] => 0 | n :: _ => bn_length n end.

Record sis_ok (s : SegmentedInputStream) : Prop := {
  ok_nodes : Forall node_ok (sis_nodes s);
  ok_tail : sis_tail s = match sis_nodes s with [] => false | _ => true end;
  ok_offset : 0 <= sis_offset s <= head_length s;
  ok_size : sis_size s = zlen (nodes_bytes (sis_nodes s)) - sis_offset s;
  ok_bound : zlen (nodes_bytes (sis_nodes s)) < 2 ^ 32;
}.

Arguments nodes_bytes l : simpl never.
Arguments node_bytes n : simpl never.

(** the buffers handed to the stream: those deallocated, then those held *)
Definition sis_handed (s : SegmentedInputStream) : list Z :=
  sis_freed s ++ map bn_id (sis_nodes s).

Lemma node_bytes_length n : node_ok n -> zlen (node_bytes n) = bn_length n.
Proof. unfold node_ok, node_bytes. intros. apply zlen_ztake. lia. Qed.

Lemma nodes_bytes_cons n l : nodes_bytes (n :: l) = node_bytes n ++ nodes_bytes l.
Proof. reflexivity. Qed.

Lemma nodes_bytes_app l1 l2 : nodes_bytes (l1 ++ l2) = nodes_bytes l1 ++ nodes_bytes l2.
Proof. unfold nodes_bytes. by rewrite map_app, concat_app. Qed.

Lemma sis_bytes_length s : sis_ok s -> zlen (sis_bytes s) = sis_size s.
Proof.
  intros [Hn _ Ho Hs _]. unfold sis_bytes. rewrite Hs. apply zlen_zdrop.
  unfold head_length in Ho. destruct (sis_nodes s) as [|n l].
  { change (zlen (nodes_bytes [])) with 0. lia. }
  rewrite nodes_bytes_cons, zlen_app. apply Forall_cons_1 in Hn as [Hn _].
  rewrite node_bytes_length by done. zlia.
Qed.

Lemma sis_bytes_head s n l : sis_ok s -> sis_nodes s = n :: l ->
  sis_bytes s = zdrop (sis_offset s) (node_bytes n) ++ nodes_bytes l /\
  node_ok n /\ 0 <= sis_offset s <= bn_length n /\
  sis_size s = bn_length n - sis_offset s + zlen (nodes_bytes l) /\ sis_size s < 2 ^ 32.
Proof.
  intros [Hn _ Ho Hs Hb] Heq. unfold sis_bytes, head_length in *. rewrite Heq in *.
  apply Forall_cons_1 in Hn as [Hn _]. rewrite nodes_bytes_cons in *.
  rewrite zlen_app, node_bytes_length in * by done.
  rewrite zdrop_app_le by (rewrite node_bytes_length by done; lia).
  split; [done|]. split; [done|]. lia.
Qed.

(** no empty buffer and none above [B] bytes was appended, and the head has
    unread bytes *)
Definition sis_tight (B : Z) (s : SegmentedInputStream) : Prop :=
  Forall (fun n => 0 < bn_length n <= B) (sis_nodes s) /\
  match sis_nodes s with [] => True | n :: _ => sis_offset s < bn_length n end.

(** what a read or skip keeps *)
Definition sis_same (s s' : SegmentedInputStream) : Prop :=
  sis_order s' = sis_order s /\ sis_handed s' = sis_handed s /\
  zlen (nodes_bytes (sis_nodes s')) <= zlen (nodes_bytes (sis_nodes s)) /\
  (forall B, Forall (fun n => 0 < bn_length n <= B) (sis_nodes s) -> sis_tight B s').

Lemma sis_same_trans s1 s2 s3 : sis_same s1 s2 -> sis_same s2 s3 -> sis_same s1 s3.
Proof.
  unfold sis_same. intros (? & ? & ? & T1) (? & ? & ? & T2). split_and!; [congruence..|lia|].
  intros B Hp. apply T2. by apply T1.
Qed.

(** removing a used up head *)
Lemma removeHead_ok s n l k : sis_ok s -> sis_nodes s = n :: l ->
  k = bn_length n - sis_offset s ->
  let s' := removeHead (sis_consume k s) in
  sis_ok s' /\ sis_nodes s' = l /\ sis_bytes s' = nodes_bytes l /\ sis_offset s' = 0 /\
  sis_size s' = sis_size s - k /\ sis_same s s'.
Proof.
  intros Hok Heq ->. destruct (sis_bytes_head s n l Hok Heq) as (_ & Hn & Ho & Hs & Hb).
  destruct Hok as [Hns Ht _ _ _].
  unfold removeHead, sis_consume. cbn. rewrite Heq. cbn.
  assert (Hsz : u32 (sis_size s - (bn_length n - sis_offset s)) = zlen (nodes_bytes l)).
  { rewrite u32_small; zlia. }
  assert (Hl : zlen (nodes_bytes l) <= sis_size s) by lia.
  split; [|unfold sis_bytes, sis_same, sis_handed; cbn;
    rewrite Heq, <- app_assoc, nodes_bytes_cons, zlen_app; cbn; split_and!; try done; try zlia].
  2: { intros B Hpos. apply Forall_cons_1 in Hpos as [_ Hpos]. split; cbn; [done|].
       destruct Hpos; [done|]. cbn. lia. }
  rewrite Heq in *. apply Forall_cons_1 in Hns as [_ Hns].
  constructor; cbn.
  - done.
  - by rewrite Ht; destruct l.
  - split; [lia|]. unfold head_length. cbn. destruct l as [|n' l]; [lia|].
    apply Forall_cons_1 in Hns as [Hns _]. unfold node_ok in Hns. lia.
  - rewrite Hsz. lia.
  - lia.
Qed.

(** consuming part of the head *)
Lemma consume_ok s n l k : sis_ok s -> sis_nodes s = n :: l ->
  0 <= k <= bn_length n - sis_offset s ->
  let s' := sis_consume k s in
  sis_ok s' /\ sis_offset s' = sis_offset s + k /\ sis_size s' = sis_size s - k /\
  sis_bytes s' = zdrop k (sis_bytes s).
Proof.
  intros Hok Heq Hk. destruct (sis_bytes_head s n l Hok Heq) as (_ & Hn & Ho & Hs & Hb).
  destruct Hok as [Hns Ht _ Hsz Hbd]. unfold sis_consume, sis_bytes. cbn.
  pose proof (zlen_nonneg (nodes_bytes l)).
  assert (bn_length n < 2 ^ 32).
  { rewrite Heq, nodes_bytes_cons, zlen_app, node_bytes_length in Hbd by done. lia. }
  rewrite !u32_small by lia. split; [|split; [done|split; [done|]]].
  - constructor; cbn; try done; [|lia]. unfold head_length. cbn. rewrite Heq. lia.
  - rewrite zdrop_zdrop by lia. done.
Qed.

(** ** Reading, skipping and peeking *)

(** what the loops return at a node, [copy] or not *)
Definition copied (copy : bool) (d : list Byte.byte) : list Byte.byte := if copy then d else [].

Lemma node_read (copy : bool) n off k : node_ok n -> 0 <= off -> 0 <= k -> off + k <= bn_length n ->
  (if copy then mem_read (bn_buffer n) off k else Done []) =
  Done (copied copy (ztake k (zdrop off (node_bytes n)))).
Proof.
  intros [_ Hn] ???. destruct copy; [|done]. rewrite mem_read_ok by lia. cbn. f_equal.
  unfold node_bytes. rewrite zdrop_ztake by lia. by rewrite ztake_ztake by lia.
Qed.

Lemma copied_app (copy : bool) a b : copied copy a ++ copied copy b = copied copy (a ++ b).
Proof. by destruct copy. Qed.

Lemma copyBytes_loop_ok copy length nodes : length < 2 ^ 32 -> forall s bytesCopied data,
  sis_ok s -> sis_nodes s = nodes -> 0 <= bytesCopied < length ->
  bytesCopied + sis_size s < 2 ^ 32 -> length - bytesCopied <= sis_size s ->
  exists s', copyBytes_loop copy length nodes bytesCopied data s =
      Done (data ++ copied copy (ztake (length - bytesCopied) (sis_bytes s)), s') /\
    sis_ok s' /\ sis_bytes s' = zdrop (length - bytesCopied) (sis_bytes s) /\
    sis_same s s'.
Proof.
  intros Hlen. induction nodes as [|n l IH]; intros s c data Hok Heq Hc Hsum Hle.
  { destruct Hok as [_ _ Ho Hs _]. unfold head_length in Ho. rewrite Heq in *.
    change (zlen (nodes_bytes [])) with 0 in Hs. lia. }
  destruct (sis_bytes_head s n l Hok Heq) as (Hb & Hn & Ho & Hs & Hbd).
  pose proof (zlen_nonneg (nodes_bytes l)).
  set (k := bn_length n - sis_offset s) in *. cbn [copyBytes_loop].
  assert (Hk : zlen (zdrop (sis_offset s) (node_bytes n)) = k).
  { rewrite zlen_zdrop; rewrite node_bytes_length by done; lia. }
  fold k. rewrite (u32_small k), (u32_small (c + k)) by lia.
  destruct (Z.ltb_spec (c + k) length) as [Hlt|Hge].
  - rewrite node_read by (done || lia). cbn [outcome_bind].
    destruct (removeHead_ok s n l k Hok Heq eq_refl) as (Hok' & Heq' & Hb' & _ & Hs' & Hsame).
    destruct (IH (removeHead (sis_consume k s)) (c + k)
                (data ++ copied copy (ztake k (zdrop (sis_offset s) (node_bytes n)))))
      as (s' & Hrun & Hok2 & Hb2 & Hsame2); [done|done|lia|lia|lia|].
    exists s'. rewrite Hrun, <- app_assoc, copied_app, Hb2, Hb', Hb.
    rewrite (ztake_all k), ztake_app_ge, zdrop_app_ge, Hk by lia.
    replace (length - c - k) with (length - (c + k)) by lia.
    split_and!; auto. by eapply sis_same_trans.
  - rewrite (u32_small (length - c)), node_read by (done || lia). cbn [outcome_bind].
    destruct (consume_ok s n l (length - c) Hok Heq) as (Hok' & Ho' & Hs' & Hb'); [lia|].
    rewrite Hb, ztake_app_le by lia. eexists. split; [done|].
    rewrite Ho', <- Hb. destruct (Z.eqb_spec (sis_offset s + (length - c)) (bn_length n)).
    + destruct (removeHead_ok s n l (length - c) Hok Heq) as (? & _ & Hb2 & _ & _ & ?); [lia|].
      rewrite Hb2, Hb, zdrop_app_length by lia. done.
    + split_and!; auto. unfold sis_same. split_and!; try done. intros B Hpos. split; [done|].
      cbn [sis_nodes sis_consume]. rewrite Heq. lia.
Qed.

Lemma copyBytes_ok copy length s : sis_ok s -> 0 < length <= sis_size s ->
  exists s', copyBytes copy length s = Done (copied copy (ztake length (sis_bytes s)), s') /\
    sis_ok s' /\ sis_bytes s' = zdrop length (sis_bytes s) /\
    sis_same s s'.
Proof.
  intros Hok Hl. unfold copyBytes. rewrite (proj2 (Z.leb_le _ _)) by lia.
  assert (Hbd : sis_size s < 2 ^ 32). { destruct Hok. lia. }
  destruct (copyBytes_loop_ok copy length (sis_nodes s) ltac:(lia) s 0 [] Hok eq_refl)
    as (s' & Hrun & Hrest); [lia|lia|lia|].
  rewrite Z.sub_0_r in *. eauto.
Qed.

Lemma peekBytes_loop_ok length nodes : length < 2 ^ 32 -> forall offset bytesCopied data,
  Forall node_ok nodes ->
  0 <= offset <= match nodes with [] => 0 | n :: _ => bn_length n end ->
  0 <= bytesCopied < length -> bytesCopied + zlen (nodes_bytes nodes) < 2 ^ 32 ->
  length - bytesCopied <= zlen (nodes_bytes nodes) - offset ->
  peekBytes_loop length nodes offset bytesCopied data =
    Done (data ++ ztake (length - bytesCopied) (zdrop offset (nodes_bytes nodes))).
Proof.
  intros Hlen. induction nodes as [|n l IH]; intros off c data Hns Ho Hc Hsum Hle.
  { change (zlen (nodes_bytes [])) with 0 in *. lia. }
  apply Forall_cons_1 in Hns as [Hn Hns]. rewrite nodes_bytes_cons in *.
  rewrite zlen_app, node_bytes_length in * by done. pose proof (zlen_nonneg (nodes_bytes l)).
  cbn [peekBytes_loop]. set (k := bn_length n - off) in *.
  assert (Hk : zlen (zdrop off (node_bytes n)) = k).
  { rewrite zlen_zdrop; rewrite node_bytes_length by done; lia. }
  rewrite zdrop_app_le by (rewrite node_bytes_length by done; lia).
  rewrite (u32_small k), (u32_small (c + k)) by lia.
  destruct (Z.ltb_spec (c + k) length) as [Hlt|Hge].
  - pose proof (node_read true n off k Hn) as Hr. cbn [copied] in Hr. rewrite Hr by lia.
    cbn [outcome_bind]. rewrite IH; [|done| |lia|lia|lia].
    + rewrite zdrop_0, <- app_assoc, (ztake_all k), ztake_app_ge, Hk by lia.
      by replace (length - c - k) with (length - (c + k)) by lia.
    + destruct l as [|n' l]; [lia|]. apply Forall_cons_1 in Hns as [Hn' _].
      unfold node_ok in Hn'. lia.
  - pose proof (node_read true n off (length - c) Hn) as Hr. cbn [copied] in Hr.
    rewrite u32_small, Hr by lia. cbn [outcome_bind]. by rewrite ztake_app_le by lia.
Qed.

Lemma sis_peek_done s n : sis_ok s -> 0 < n <= sis_size s ->
  sis_peekBytes n s = Done (IoRes E_OK (ztake n (sis_bytes s)) (Some n), s).
Proof.
  intros Hok Hn. destruct Hok as [Hns Ht Ho Hs Hb]. unfold sis_peekBytes.
  rewrite Z.min_r, peekBytes_loop_ok by (done || lia). cbn [outcome_bind].
  by rewrite Z.sub_0_r.
Qed.

Lemma sis_read_done s n : sis_ok s -> 0 < n <= sis_size s ->
  exists s', sis_readBytes n s = Done (IoRes E_OK (ztake n (sis_bytes s)) (Some n), s') /\
    sis_ok s' /\ sis_bytes s' = zdrop n (sis_bytes s) /\ sis_same s s'.
Proof.
  intros Hok Hn. unfold sis_readBytes. rewrite Z.min_r by lia.
  destruct (copyBytes_ok true n s Hok Hn) as (s' & -> & ?). by exists s'.
Qed.

Lemma sis_skip_done s n : sis_ok s -> 0 < n <= sis_size s ->
  exists s', sis_skipBytes n s = Done (IoRes E_OK [] (Some n), s') /\
    sis_ok s' /\ sis_bytes s' = zdrop n (sis_bytes s) /\ sis_same s s'.
Proof.
  intros Hok Hn. unfold sis_skipBytes. rewrite Z.min_r by lia.
  destruct (copyBytes_ok false n s Hok Hn) as (s' & -> & ?). by exists s'.
Qed.

Lemma sis_read_short s n : sis_ok s -> 0 < sis_size s <= n ->
  exists s', sis_readBytes n s = Done (IoRes E_OK (sis_bytes s) (Some (sis_size s)), s') /\
    sis_ok s' /\ sis_bytes s' = [] /\ sis_same s s'.
Proof.
  intros Hok Hn. destruct (sis_read_done s (sis_size s) Hok) as (s' & Hr & ? & Hb & ?); [lia|].
  exists s'. pose proof (sis_bytes_length s Hok). rewrite zdrop_all in Hb by lia.
  unfold sis_readBytes in *. rewrite ztake_all in Hr by lia. rewrite Z.min_id in Hr.
  rewrite Z.min_l by lia. done.
Qed.

#[export] Instance SegmentedInputStream_laws : InputStreamLaws SegmentedInputStream.
Proof.
  refine {| is_bytes := sis_bytes; is_ok := sis_ok |}; simpl.
  - intros s Hok. rewrite sis_bytes_length by done. split; [done|]. destruct Hok. lia.
  - apply sis_peek_done.
  - intros s n Hok Hn. destruct (sis_read_done s n Hok Hn) as (s' & ? & ? & ? & ? & _). by exists s'.
  - intros s n Hok Hn. destruct (sis_read_short s n Hok) as (s' & ? & ? & ? & ? & _); [lia|].
    by exists s'.
  - intros s n Hok Hn. destruct (sis_skip_done s n Hok Hn) as (s' & ? & ? & ? & ? & _). by exists s'.
Defined.

(** the laws hold of the streams without empty or large buffers, too *)
Definition SegmentedInputStream_tight_laws (B : Z) : InputStreamLaws SegmentedInputStream.
Proof.
  refine {| is_bytes := sis_bytes; is_ok := fun s => sis_ok s /\ sis_tight B s |}; simpl.
  - intros s [Hok _]. apply (@is_size_law _ _ SegmentedInputStream_laws s Hok).
  - intros s n [Hok _]. by apply sis_peek_done.
  - intros s n [Hok [Ht _]] Hn.
    destruct (sis_read_done s n Hok Hn) as (s' & ? & ? & ? & ? & _ & _ & Htight).
    exists s'. auto.
  - intros s n [Hok [Ht _]] Hn.
    destruct (sis_read_short s n Hok) as (s' & ? & ? & ? & ? & _ & _ & Htight); [lia|].
    exists s'. auto 10.
  - intros s n [Hok [Ht _]] Hn.
    destruct (sis_skip_done s n Hok Hn) as (s' & ? & ? & ? & ? & _ & _ & Htight).
    exists s'. auto.
Defined.

(** such a stream is drained only without buffers *)
Lemma tight_drained {B} s : sis_ok s -> sis_tight B s -> sis_bytes s = [] -> sis_nodes s = [].
Proof.
  intros Hok [Hpos Hoff] Hb. destruct (sis_nodes s) as [|n l] eqn:Heq; [done|].
  destruct (sis_bytes_head s n l Hok Heq) as (_ & _ & _ & Hs & _).
  rewrite <- (sis_bytes_length s Hok), Hb, zlen_nil in Hs. zlia.
Qed.

(** ** Appending and dropping buffers *)

Lemma append_ok s n : sis_ok s -> node_ok n ->
  zlen (nodes_bytes (sis_nodes s)) + bn_length n < 2 ^ 32 ->
  exists s', appendBuffer true n s = Done s' /\ sis_ok s' /\
    sis_bytes s' = sis_bytes s ++ node_bytes n /\ sis_size s' = sis_size s + bn_length n /\
    sis_handed s' = sis_handed s ++ [bn_id n] /\ sis_order s' = sis_order s /\
    zlen (nodes_bytes (sis_nodes s')) = zlen (nodes_bytes (sis_nodes s)) + bn_length n.
Proof.
  intros [Hns Ht Ho Hs Hb] Hn Hsum. pose proof Hn as Hn'. unfold node_ok in Hn'.
  assert (Hoff : sis_offset s <= zlen (nodes_bytes (sis_nodes s))).
  { unfold head_length in Ho. destruct (sis_nodes s) as [|n0 l].
    - change (zlen (nodes_bytes [])) with 0. lia.
    - rewrite nodes_bytes_cons, zlen_app. apply Forall_cons_1 in Hns as [Hn0 _].
      rewrite node_bytes_length by done. zlia. }
  assert (Hall : zlen (nodes_bytes (sis_nodes s ++ [n])) =
                 zlen (nodes_bytes (sis_nodes s)) + bn_length n).
  { rewrite nodes_bytes_app, zlen_app. f_equal. rewrite nodes_bytes_cons, app_nil_r.
    by apply node_bytes_length. }
  exists (MkSegmentedInputStream (sis_order s) (sis_nodes s ++ [n]) true (sis_offset s)
            (sis_size s + bn_length n) (sis_freed s)).
  split; [|split; [|unfold sis_bytes, sis_handed; cbn; split_and!; try done]].
  - unfold appendBuffer. rewrite u32_small by lia. destruct (sis_nodes s); by rewrite Ht.
  - constructor; cbn; [| | |lia|lia].
    + apply Forall_app_2; [done|]. by constructor.
    + by destruct (sis_nodes s).
    + unfold head_length in *. cbn. destruct (sis_nodes s); cbn in *; lia.
  - rewrite nodes_bytes_app, zdrop_app_le by lia. f_equal.
    by rewrite nodes_bytes_cons, app_nil_r.
  - by rewrite map_app, app_assoc.
Qed.

Lemma new_ok order : sis_ok (SegmentedInputStream_new order).
Proof. constructor; cbn; done. Qed.

(** ** The stream as a queue of bytes *)

Inductive sis_op :=
| OpAppend (node : BufferNode)
| OpPeek (length : Z)
| OpRead (length : Z)
| OpSkip (length : Z).

(** runs a sequence of calls and collects what they deliver *)
Definition sis_do (op : sis_op) (s : SegmentedInputStream)
  : outcome (list Byte.byte * SegmentedInputStream) :=
  match op with
  | OpAppend node => let* s := appendBuffer true node s in Done ([], s)
  | OpPeek n => let* '(r, s) := peekBytes n s in Done (io_data r, s)
  | OpRead n => let* '(r, s) := readBytes n s in Done (io_data r, s)
  | OpSkip n => let* '(r, s) := skipBytes n s in Done (io_data r, s)
  end.

Fixpoint sis_run (ops : list sis_op) (s : SegmentedInputStream)
  : outcome (list (list Byte.byte) * SegmentedInputStream) :=
  match ops with
  | [] => Done ([], s)
  | op :: ops =>
    let* '(out, s) := sis_do op s in
    let* '(outs, s) := sis_run ops s in
    Done (out :: outs, s)
  end.

(** the abstract queue *)
Definition queue_do (op : sis_op) (q : list Byte.byte) : list Byte.byte * list Byte.byte :=
  match op with
  | OpAppend node => ([], q ++ node_bytes node)
  | OpPeek n => (ztake n q, q)
  | OpRead n => (ztake n q, zdrop n q)
  | OpSkip n => ([], zdrop n q)
  end.

Fixpoint queue_run (ops : list sis_op) (q : list Byte.byte)
  : list (list Byte.byte) * list Byte.byte :=
  match ops with
  | [] => ([], q)
  | op :: ops =>
    let '(out, q) := queue_do op q in
    let '(outs, q) := queue_run ops q in
    (out :: outs, q)
  end.

Definition op_node (op : sis_op) : list BufferNode :=
  match op with OpAppend node => [node] | _ => [] end.

Definition ops_nodes (ops : list sis_op) : list BufferNode := concat (map op_node ops).

(** every buffer holds its length, and a caller asks for one byte at least and
    for no more than the stream holds, of which there are [size] before *)
Fixpoint ops_fit (size : Z) (ops : list sis_op) : bool :=
  match ops with
  | [] => true
  | OpAppend n :: ops =>
    (0 <=? bn_length n) && (bn_length n <=? zlen (bn_buffer n)) && ops_fit (size + bn_length n) ops
  | OpPeek n :: ops => (0 <? n) && (n <=? size) && ops_fit size ops
  | OpRead n :: ops | OpSkip n :: ops => (0 <? n) && (n <=? size) && ops_fit (size - n) ops
  end.

Definition op_total (ops : list sis_op) : Z := zlen (nodes_bytes (ops_nodes ops)).

Lemma ops_nodes_cons op ops : ops_nodes (op :: ops) = op_node op ++ ops_nodes ops.
Proof. reflexivity. Qed.

Lemma sis_run_ok ops : forall s, sis_ok s -> ops_fit (sis_size s) ops = true ->
  zlen (nodes_bytes (sis_nodes s)) + op_total ops < 2 ^ 32 ->
  exists s', sis_run ops s = Done (fst (queue_run ops (sis_bytes s)), s') /\ sis_ok s' /\
    sis_bytes s' = snd (queue_run ops (sis_bytes s)) /\
    sis_handed s' = sis_handed s ++ map bn_id (ops_nodes ops).
Proof.
  unfold op_total. induction ops as [|op ops IH]; intros s Hok Hfit Hsum.
  { exists s. cbn. by rewrite app_nil_r. }
  rewrite ops_nodes_cons, nodes_bytes_app, zlen_app in Hsum. cbn [ops_fit] in Hfit.
  pose proof (zlen_nonneg (nodes_bytes (ops_nodes ops))).
  (* one operation leads to a state from which the rest runs *)
  assert (Hone : exists s1 out, sis_do op s = Done (out, s1) /\ sis_ok s1 /\
    queue_do op (sis_bytes s) = (out, sis_bytes s1) /\ ops_fit (sis_size s1) ops = true /\
    sis_handed s1 = sis_handed s ++ map bn_id (op_node op) /\
    zlen (nodes_bytes (sis_nodes s1)) <=
      zlen (nodes_bytes (sis_nodes s)) + zlen (nodes_bytes (op_node op))).
  { pose proof (sis_bytes_length s Hok) as Hlen. destruct op as [n|n|n|n]; cbn [op_node] in *.
    - apply andb_prop in Hfit as [Hn Hfit].
      assert (Hn' : node_ok n) by (unfold node_ok; apply andb_prop in Hn; lia).
      rewrite nodes_bytes_cons, app_nil_r, node_bytes_length in Hsum by done.
      destruct (append_ok s n Hok Hn') as (s1 & Hd & Hok1 & Hb1 & Hs1 & Hh1 & _ & Ht1); [lia|].
      exists s1, []. cbn [sis_do queue_do]. rewrite Hd, Hb1, Hs1, Hh1.
      rewrite nodes_bytes_cons, app_nil_r, node_bytes_length by done. split_and!; try done. lia.
    - apply andb_prop in Hfit as [Hn Hfit].
      exists s, (ztake n (sis_bytes s)). cbn [sis_do queue_do peekBytes SegmentedInputStream_stream].
      rewrite sis_peek_done by (done || (apply andb_prop in Hn; lia)). cbn [outcome_bind io_data map].
      rewrite app_nil_r. split_and!; try done. zlia.
    - apply andb_prop in Hfit as [Hn Hfit].
      assert (0 < n <= sis_size s) by (apply andb_prop in Hn; lia).
      destruct (sis_read_done s n) as (s1 & Hd & Hok1 & Hb1 & _ & Hh1 & Ht1 & _); [done..|].
      exists s1, (ztake n (sis_bytes s)). cbn [sis_do queue_do readBytes SegmentedInputStream_stream].
      rewrite Hd, Hb1, Hh1. cbn [map]. rewrite app_nil_r. split_and!; try done; [|zlia].
      rewrite <- (sis_bytes_length s1), Hb1, zlen_zdrop by (done || lia). by rewrite Hlen.
    - apply andb_prop in Hfit as [Hn Hfit].
      assert (0 < n <= sis_size s) by (apply andb_prop in Hn; lia).
      destruct (sis_skip_done s n) as (s1 & Hd & Hok1 & Hb1 & _ & Hh1 & Ht1 & _); [done..|].
      exists s1, []. cbn [sis_do queue_do skipBytes SegmentedInputStream_stream].
      rewrite Hd, Hb1, Hh1. cbn [map]. rewrite app_nil_r. split_and!; try done; [|zlia].
      rewrite <- (sis_bytes_length s1), Hb1, zlen_zdrop by (done || lia). by rewrite Hlen. }
  destruct Hone as (s1 & out & Hd & Hok1 & Hq & Hfit1 & Hh1 & Ht1).
  destruct (IH s1 Hok1 Hfit1 ltac:(lia)) as (s' & Hrun & Hok' & Hb' & Hh').
  exists s'. cbn [sis_run queue_run]. rewrite Hd, Hq. cbn [outcome_bind]. rewrite Hrun, Hb'.
  destruct (queue_run ops (sis_bytes s1)). cbn [fst snd]. split_and!; try done.
  by rewrite Hh', Hh1, ops_nodes_cons, map_app, app_assoc.
Qed.

(** C18. A new stream used within its size behaves as a queue of bytes: whatever
    the boundaries of the buffers, each call delivers what the queue delivers,
    no call fails, and after the destructor every appended buffer was
    deallocated once, in the order of the appends. *)
Theorem segmented_stream_queue order ops :
  ops_fit 0 ops = true -> zlen (nodes_bytes (ops_nodes ops)) < 2 ^ 32 ->
  exists s', sis_run ops (SegmentedInputStream_new order) = Done (fst (queue_run ops []), s') /\
    sis_bytes s' = snd (queue_run ops []) /\
    sis_freed (sis_reset s') = map bn_id (ops_nodes ops).
Proof.
  intros Hfit Hsum. destruct (sis_run_ok ops (SegmentedInputStream_new order)) as
    (s' & Hrun & _ & Hb & Hh); [apply new_ok|done|done|].
  exists s'. done.
Qed.

Definition sample_node (id : Z) (s : list Byte.byte) : BufferNode := MkBufferNode id s (zlen s).

Lemma segmented_stream_queue_witness :
  exists s', sis_run [OpAppend (sample_node 1 (le_split 3 77)); OpAppend (sample_node 2 (le_split 4 5));
      OpPeek 2; OpRead 5; OpAppend (sample_node 3 (le_split 2 9)); OpSkip 2; OpRead 1]
      (SegmentedInputStream_new HOST_ORDER) =
    Done ([[]; []; le_split 2 77; le_split 3 77 ++ le_split 2 5; []; []; le_split 1 9], s') /\
    sis_bytes s' = le_split 1 0 /\ sis_freed (sis_reset s') = [1; 2; 3].
Proof.
  apply (segmented_stream_queue HOST_ORDER
    [OpAppend (sample_node 1 (le_split 3 77)); OpAppend (sample_node 2 (le_split 4 5));
      OpPeek 2; OpRead 5; OpAppend (sample_node 3 (le_split 2 9)); OpSkip 2; OpRead 1]);
    vm_compute; reflexivity.
Defined.

(** ** What the stream does outside that protocol *)

(** Reading, peeking or skipping any number of bytes, even none, on a stream
    that holds no buffer dereferences the null list head. *)
Theorem drained_stream_null s n : sis_nodes s = [] -> sis_size s = 0 -> 0 <= n ->
  sis_readBytes n s = Undef UB_null /\ sis_peekBytes n s = Undef UB_null /\
  sis_skipBytes n s = Undef UB_null.
Proof.
  intros Hn Hs Hle. unfold sis_readBytes, sis_peekBytes, sis_skipBytes, copyBytes.
  rewrite Hn, Hs, Z.min_l by lia. done.
Qed.

Lemma drained_stream_null_witness :
  sis_readBytes 0 (SegmentedInputStream_new HOST_ORDER) = Undef UB_null /\
  sis_peekBytes 0 (SegmentedInputStream_new HOST_ORDER) = Undef UB_null /\
  sis_skipBytes 0 (SegmentedInputStream_new HOST_ORDER) = Undef UB_null.
Proof. apply (drained_stream_null (SegmentedInputStream_new HOST_ORDER) 0); done. Defined.

(** A reset keeps the read offset: as many bytes of the first buffer appended
    afterwards are skipped, although the size counts them. *)
Theorem reset_keeps_offset s n : node_ok n -> bn_length n < 2 ^ 32 ->
  exists s', appendBuffer true n (sis_reset s) = Done s' /\ sis_size s' = bn_length n /\
    sis_bytes s' = zdrop (sis_offset s) (node_bytes n).
Proof.
  intros Hn Hl. unfold node_ok in Hn. eexists. split; [reflexivity|]. unfold sis_bytes. cbn.
  rewrite u32_small by lia. by rewrite nodes_bytes_cons, app_nil_r.
Qed.

(** two bytes read, then a reset: the next buffer starts at its third byte *)
Lemma reset_keeps_offset_witness :
  exists s', appendBuffer true (sample_node 2 (le_split 3 (1 + 2 * 2 ^ 8 + 3 * 2 ^ 16)))
      (sis_reset (MkSegmentedInputStream HOST_ORDER [sample_node 1 (le_split 4 0)] true 2 2 [])) =
      Done s' /\ sis_size s' = 3 /\ sis_bytes s' = le_split 1 3.
Proof.
  apply (reset_keeps_offset
    (MkSegmentedInputStream HOST_ORDER [sample_node 1 (le_split 4 0)] true 2 2 [])
    (sample_node 2 (le_split 3 (1 + 2 * 2 ^ 8 + 3 * 2 ^ 16)))); [|done].
  unfold node_ok. split; vm_compute; discriminate.
Defined.

(** ** Searching *)

Lemma search_head s n l pattern i : sis_ok s -> sis_nodes s = n :: l ->
  0 < zlen pattern <= bn_length n -> bn_length n < 2 ^ 31 ->
  i = find_first pattern (visible (bn_buffer n) (bn_length n)) -> 0 <= i <= sis_size s ->
  exists s', searchBytes true pattern (zlen pattern) s = Done (E_OK, s') /\ sis_ok s' /\
    sis_bytes s' = zdrop i (sis_bytes s).
Proof.
  intros Hok Heq Hp Hb Hi Hr. destruct (sis_bytes_head s n l Hok Heq) as (_ & Hn & _).
  unfold node_ok in Hn. cbn. unfold sis_searchBytes. rewrite Heq. cbn [searchBytes_loop].
  rewrite (proj2 (Z.ltb_ge _ _)), strnstr_ok by lia. cbn [outcome_bind]. rewrite <- Hi.
  rewrite (proj2 (Z.leb_le 0 i)) by lia. destruct (Z.ltb_spec 0 i).
  - unfold sis_skip_then. destruct (sis_skip_done s i Hok) as (s' & -> & ? & ? & _); [lia|].
    exists s'. cbn [outcome_bind io_rc]. by rewrite decide_True by done.
  - exists s. replace i with 0 by lia. done.
Qed.

(** A search that finds the pattern in the first buffer, of which nothing was
    read yet, leaves the stream at its first occurrence. *)
Theorem search_found s n l pattern : sis_ok s -> sis_nodes s = n :: l -> sis_offset s = 0 ->
  0 < zlen pattern <= bn_length n -> bn_length n < 2 ^ 31 ->
  0 <= find_first pattern (visible (bn_buffer n) (bn_length n)) ->
  exists s', searchBytes true pattern (zlen pattern) s = Done (E_OK, s') /\
    sis_bytes s' = zdrop (find_first pattern (visible (bn_buffer n) (bn_length n))) (sis_bytes s) /\
    ztake (zlen pattern) (sis_bytes s') = pattern.
Proof.
  intros Hok Heq Hoff Hp Hb Hi. destruct (sis_bytes_head s n l Hok Heq) as (Hby & Hn & _ & Hs & _).
  pose proof Hn as Hn'. unfold node_ok in Hn'.
  destruct (strnstr_range (bn_buffer n) (bn_length n) pattern
    (find_first pattern (visible (bn_buffer n) (bn_length n)))) as [Hr|[Hr Hat]];
    [lia|done|by apply strnstr_ok|lia|].
  pose proof (zlen_nonneg (nodes_bytes l)).
  destruct (search_head s n l pattern _ Hok Heq Hp Hb eq_refl) as (s' & Hrun & _ & Hb'); [lia|].
  exists s'. split; [done|]. split; [done|]. rewrite Hb', Hby, Hoff, zdrop_0.
  rewrite zdrop_app_le, ztake_app_le by
    (rewrite ?zlen_zdrop; rewrite node_bytes_length by done; lia).
  unfold node_bytes. rewrite zdrop_ztake, ztake_ztake by lia. done.
Qed.

Definition sample_stream (offset : Z) : SegmentedInputStream :=
  MkSegmentedInputStream HOST_ORDER [sample_node 1 (le_split 6 0x11AABB332211)] true offset
    (6 - offset) [].

Lemma sample_stream_ok offset : 0 <= offset <= 6 -> sis_ok (sample_stream offset).
Proof.
  intros Ho. constructor; cbn; try done.
  constructor; [split; vm_compute; discriminate|constructor].
Qed.

Lemma search_found_witness :
  exists s', searchBytes true (le_split 2 0xAABB) 2 (sample_stream 0) = Done (E_OK, s') /\
    sis_bytes s' = le_split 3 0x11AABB /\ ztake 2 (sis_bytes s') = le_split 2 0xAABB.
Proof.
  apply (search_found (sample_stream 0) (sample_node 1 (le_split 6 0x11AABB332211)) []
           (le_split 2 0xAABB)); try (vm_compute; intuition congruence).
  apply sample_stream_ok. lia.
Defined.

(** The search looks at the first buffer from its start, not from the read
    position, but skips from the read position: the stream is left as far behind
    its position as the pattern is behind the start of the buffer. *)
Theorem search_skips_from_offset s n l pattern : sis_ok s -> sis_nodes s = n :: l ->
  0 < zlen pattern <= bn_length n -> bn_length n < 2 ^ 31 ->
  0 <= find_first pattern (visible (bn_buffer n) (bn_length n)) <= sis_size s ->
  exists s', searchBytes true pattern (zlen pattern) s = Done (E_OK, s') /\
    sis_bytes s' = zdrop (sis_offset s + find_first pattern (visible (bn_buffer n) (bn_length n)))
      (nodes_bytes (sis_nodes s)).
Proof.
  intros Hok Heq Hp Hb Hi. destruct (search_head s n l pattern _ Hok Heq Hp Hb eq_refl Hi)
    as (s' & Hrun & _ & Hb'). exists s'. split; [done|]. rewrite Hb'. unfold sis_bytes.
  destruct Hok as [_ _ [Ho _] _ _]. apply zdrop_zdrop; lia.
Qed.

(** two bytes were read; the pattern is one byte ahead, and is skipped too *)
Lemma search_skips_from_offset_witness :
  exists s', searchBytes true (le_split 2 0xAABB) 2 (sample_stream 2) = Done (E_OK, s') /\
    sis_bytes s' = le_split 1 0x11.
Proof.
  apply (search_skips_from_offset (sample_stream 2) (sample_node 1 (le_split 6 0x11AABB332211)) []
           (le_split 2 0xAABB)); try (vm_compute; intuition congruence).
  apply sample_stream_ok. lia.
Defined.
