(* ===== verification/Msg.v ===== *)
(** * Messages (inc/msg/msg_header.h, src/msg/msg_header.cpp, inc/msg/msg.h, src/msg/msg.cpp)

    The 40 byte message header with its serialization over any stream, its view
    as flat memory, the message object with its payload, and the round trips. *)

From Stdlib Require Import ZArith Lia.
From coqutil Require Import Byte.
From S2P Require Import Prelude Errors StrSearch Io Serializable Segmented.
Open Scope Z_scope.

(** ** The header *)

Definition COMMUTIL_MSG_FLAG_COMPRESSED : Z := 0x0001.
Definition COMMUTIL_MSG_FLAG_BATCH : Z := 0x0002.
Definition COMMUTIL_MSG_MAGIC_SIZE : Z := 8.
Definition COMMUTIL_MSG_INVALID_REQUEST_ID : Z := u64 (-1).

(** C O M U M E S G *)
Definition COMMUTIL_MSG_MAGIC : list Byte.byte :=
  map byte.of_Z [0x43; 0x4F; 0x4D; 0x55; 0x4D; 0x45; 0x53; 0x47].

Record MsgHeader := MkMsgHeader {
  m_magic : list Byte.byte;
  m_length : Z;
  m_msgId : Z;
  m_flags : Z;
  m_requestId : Z;
  m_requestIndex : Z;
  m_uncompressedLength : Z;
  m_batchSize : Z;
  m_reserved : Z;
}.

(** the fields leave no padding: 8 + 4 + 2 + 2 + 8 + 4 + 4 + 4 + 4 *)
Definition sizeof_MsgHeader : Z := 40.
Definition sizeof_Msg : Z := 40.

Definition set_magic v h := MkMsgHeader v (m_length h) (m_msgId h) (m_flags h) (m_requestId h)
  (m_requestIndex h) (m_uncompressedLength h) (m_batchSize h) (m_reserved h).
Definition setLength v h := MkMsgHeader (m_magic h) v (m_msgId h) (m_flags h) (m_requestId h)
  (m_requestIndex h) (m_uncompressedLength h) (m_batchSize h) (m_reserved h).
Definition set_msgId v h := MkMsgHeader (m_magic h) (m_length h) v (m_flags h) (m_requestId h)
  (m_requestIndex h) (m_uncompressedLength h) (m_batchSize h) (m_reserved h).
Definition set_flags v h := MkMsgHeader (m_magic h) (m_length h) (m_msgId h) v (m_requestId h)
  (m_requestIndex h) (m_uncompressedLength h) (m_batchSize h) (m_reserved h).
Definition setRequestId v h := MkMsgHeader (m_magic h) (m_length h) (m_msgId h) (m_flags h) v
  (m_requestIndex h) (m_uncompressedLength h) (m_batchSize h) (m_reserved h).
Definition setRequestIndex v h := MkMsgHeader (m_magic h) (m_length h) (m_msgId h) (m_flags h)
  (m_requestId h) v (m_uncompressedLength h) (m_batchSize h) (m_reserved h).
Definition setUncompressedLength v h := MkMsgHeader (m_magic h) (m_length h) (m_msgId h)
  (m_flags h) (m_requestId h) (m_requestIndex h) v (m_batchSize h) (m_reserved h).
Definition setBatchSize v h := MkMsgHeader (m_magic h) (m_length h) (m_msgId h)
  (m_flags h) (m_requestId h) (m_requestIndex h) (m_uncompressedLength h) v (m_reserved h).
Definition set_reserved v h := MkMsgHeader (m_magic h) (m_length h) (m_msgId h)
  (m_flags h) (m_requestId h) (m_requestIndex h) (m_uncompressedLength h) (m_batchSize h) v.

Definition setCompressed (h : MsgHeader) : MsgHeader :=
  set_flags (Z.lor (m_flags h) COMMUTIL_MSG_FLAG_COMPRESSED) h.
Definition setBatch (h : MsgHeader) : MsgHeader :=
  set_flags (Z.lor (m_flags h) COMMUTIL_MSG_FLAG_BATCH) h.
Definition isCompressed (h : MsgHeader) : bool :=
  negb (Z.land (m_flags h) COMMUTIL_MSG_FLAG_COMPRESSED =? 0).
Definition isBatch (h : MsgHeader) : bool :=
  negb (Z.land (m_flags h) COMMUTIL_MSG_FLAG_BATCH =? 0).

Definition MsgHeader_new (length msgId flags requestId requestIndex : Z) : MsgHeader :=
  MkMsgHeader COMMUTIL_MSG_MAGIC length msgId flags requestId requestIndex 0 1 0.

Definition MsgHeader_default : MsgHeader := MsgHeader_new sizeof_MsgHeader 0 0 0 0.

Definition isValid (h : MsgHeader) : bool := bool_decide (m_magic h = COMMUTIL_MSG_MAGIC).

Definition fromNetOrder (h : MsgHeader) : MsgHeader :=
  MkMsgHeader (m_magic h) (byte_swap 4 (m_length h)) (byte_swap 2 (m_msgId h))
    (byte_swap 2 (m_flags h)) (byte_swap 8 (m_requestId h)) (byte_swap 4 (m_requestIndex h))
    (byte_swap 4 (m_uncompressedLength h)) (byte_swap 4 (m_batchSize h))
    (byte_swap 4 (m_reserved h)).

(** the header as flat memory on a little-endian host *)
Definition header_mem (h : MsgHeader) : list Byte.byte :=
  m_magic h ++ le_split 4 (m_length h) ++ le_split 2 (m_msgId h) ++ le_split 2 (m_flags h) ++
  le_split 8 (m_requestId h) ++ le_split 4 (m_requestIndex h) ++
  le_split 4 (m_uncompressedLength h) ++ le_split 4 (m_batchSize h) ++ le_split 4 (m_reserved h).

Definition mem_field (off n : Z) (mem : list Byte.byte) : Z :=
  le_combine (ztake n (zdrop off mem)).

Definition header_of_mem (mem : list Byte.byte) : MsgHeader :=
  MkMsgHeader (ztake 8 mem) (mem_field 8 4 mem) (mem_field 12 2 mem) (mem_field 14 2 mem)
    (mem_field 16 8 mem) (mem_field 24 4 mem) (mem_field 28 4 mem) (mem_field 32 4 mem)
    (mem_field 36 4 mem).

(** [is.peek(header)]: the bytes are copied over the header object *)
Definition peek_header {S} `{InputStream S} (h : MsgHeader) (s : S)
  : outcome (ErrorCode * MsgHeader * S) :=
  let* '(rc, mem, s) := peek sizeof_MsgHeader (header_mem h) s in
  Done (rc, header_of_mem mem, s).

Definition header_serialize {S} `{OutputStream S} (h : MsgHeader) : step S :=
  ser_data (m_magic h) ;;;
  ser_uint32 (m_length h) ;;;
  ser_uint16 (m_msgId h) ;;;
  ser_uint16 (m_flags h) ;;;
  ser_uint64 (m_requestId h) ;;;
  ser_uint32 (m_requestIndex h) ;;;
  ser_uint32 (m_uncompressedLength h) ;;;
  ser_uint32 (m_batchSize h) ;;;
  ser_uint32 (m_reserved h).

Definition header_deserialize {S} `{InputStream S} : step (MsgHeader * S) :=
  des_data m_magic set_magic ;;;
  des_uint32 m_length setLength ;;;
  des_uint16 m_msgId set_msgId ;;;
  des_uint16 m_flags set_flags ;;;
  des_uint64 m_requestId setRequestId ;;;
  des_uint32 m_requestIndex setRequestIndex ;;;
  des_uint32 m_uncompressedLength setUncompressedLength ;;;
  des_uint32 m_batchSize setBatchSize ;;;
  des_uint32 m_reserved set_reserved.

(** ** The message *)

Record Msg := MkMsg {
  msg_header : MsgHeader;
  msg_payload : list Byte.byte;   (* the memory behind the header *)
}.

Definition set_header (h : MsgHeader) (m : Msg) : Msg := MkMsg h (msg_payload m).
Definition set_payload (p : list Byte.byte) (m : Msg) : Msg := MkMsg (msg_header m) p.

Definition getPayloadSizeBytes (m : Msg) : Z := u32 (m_length (msg_header m) - sizeof_Msg).

(** [alloc]: operator new returns memory (shown zeroed); the message is then
    constructed in it *)
Definition allocMsg (alloc : bool) (msgId flags requestId requestIndex payloadSize : Z)
  : outcome (option Msg) :=
  let msgBufSize := u32 (sizeof_Msg + payloadSize) in
  if alloc then
    if msgBufSize <? sizeof_Msg then Undef UB_bounds
    else Done (Some (MkMsg (MsgHeader_new msgBufSize msgId flags requestId requestIndex)
                       (replicate (Z.to_nat (msgBufSize - sizeof_Msg)) NUL)))
  else Done None.

(** [allocMsg(const MsgHeader&)] *)
Definition allocMsgFor (alloc : bool) (h : MsgHeader) : outcome (option Msg) :=
  let payloadSizeBytes := u32 (m_length h - sizeof_MsgHeader) in
  allocMsg alloc (m_msgId h) (m_flags h) (m_requestId h) (m_requestIndex h) payloadSizeBytes.

Definition msg_serialize {S} `{OutputStream S} (m : Msg) : step S :=
  header_serialize (msg_header m) ;;;
  (fun os => writeBytes (msg_payload m) (getPayloadSizeBytes m) os).

Definition msg_deserialize {S} `{InputStream S} : step (Msg * S) := fun '(m, s) =>
  let* '(rc, (h, s)) := header_deserialize (msg_header m, s) in
  let m := set_header h m in
  if decide (rc = E_OK) then
    let* '(r, s) := readBytes (getPayloadSizeBytes m) s in
    let* payload := mem_write (msg_payload m) 0 (io_data r) in
    Done (io_rc r, (set_payload payload m, s))
  else Done (rc, (m, s)).

(** ** Well-formed headers *)

(** the fields fit their types *)
Record header_ok (h : MsgHeader) : Prop := {
  hok_magic : zlen (m_magic h) = 8;
  hok_length : 0 <= m_length h < 2 ^ 32;
  hok_msgId : 0 <= m_msgId h < 2 ^ 16;
  hok_flags : 0 <= m_flags h < 2 ^ 16;
  hok_requestId : 0 <= m_requestId h < 2 ^ 64;
  hok_requestIndex : 0 <= m_requestIndex h < 2 ^ 32;
  hok_uncompressed : 0 <= m_uncompressedLength h < 2 ^ 32;
  hok_batch : 0 <= m_batchSize h < 2 ^ 32;
  hok_reserved : 0 <= m_reserved h < 2 ^ 32;
}.

Definition header_okb (h : MsgHeader) : bool :=
  (zlen (m_magic h) =? 8) && (0 <=? m_length h) && (m_length h <? 2 ^ 32) &&
  (0 <=? m_msgId h) && (m_msgId h <? 2 ^ 16) && (0 <=? m_flags h) && (m_flags h <? 2 ^ 16) &&
  (0 <=? m_requestId h) && (m_requestId h <? 2 ^ 64) &&
  (0 <=? m_requestIndex h) && (m_requestIndex h <? 2 ^ 32) &&
  (0 <=? m_uncompressedLength h) && (m_uncompressedLength h <? 2 ^ 32) &&
  (0 <=? m_batchSize h) && (m_batchSize h <? 2 ^ 32) &&
  (0 <=? m_reserved h) && (m_reserved h <? 2 ^ 32).

Lemma header_okb_ok h : header_okb h = true -> header_ok h.
Proof.
  unfold header_okb. rewrite !andb_true_iff, !Z.leb_le, !Z.ltb_lt, Z.eqb_eq.
  intros H. constructor; lia.
Qed.

Lemma MsgHeader_new_ok length msgId flags requestId requestIndex :
  0 <= length < 2 ^ 32 -> 0 <= msgId < 2 ^ 16 -> 0 <= flags < 2 ^ 16 ->
  0 <= requestId < 2 ^ 64 -> 0 <= requestIndex < 2 ^ 32 ->
  header_ok (MsgHeader_new length msgId flags requestId requestIndex).
Proof. intros. constructor; cbn; lia || done. Qed.

(** the bytes of a header on the wire *)
Definition header_image (h : MsgHeader) (net : bool) : list Byte.byte :=
  m_magic h ++ uint_image net 4 (m_length h) ++ uint_image net 2 (m_msgId h) ++
  uint_image net 2 (m_flags h) ++ uint_image net 8 (m_requestId h) ++
  uint_image net 4 (m_requestIndex h) ++ uint_image net 4 (m_uncompressedLength h) ++
  uint_image net 4 (m_batchSize h) ++ uint_image net 4 (m_reserved h).

Lemma header_image_length h net : header_ok h -> zlen (header_image h net) = sizeof_MsgHeader.
Proof. intros [Hm _ _ _ _ _ _ _ _]. unfold header_image. rewrite !zlen_app, !zlen_image, Hm. done. Qed.

Lemma emits_header {S} `{OutputStreamLaws S} (h : MsgHeader) :
  emits (header_serialize h) (header_image h).
Proof.
  unfold header_serialize, header_image, ser_uint16, ser_uint32, ser_uint64.
  repeat apply emits_seq; first [apply emits_uint | apply emits_write].
Qed.

(** what the deserialization makes of 40 bytes *)
Definition wire_field (net : bool) (off : Z) (n : nat) (mem : list Byte.byte) : Z :=
  let v := mem_field off (Z.of_nat n) mem in if net then byte_swap n v else v.

Definition header_of_wire (net : bool) (mem : list Byte.byte) : MsgHeader :=
  MkMsgHeader (ztake 8 mem) (wire_field net 8 4 mem) (wire_field net 12 2 mem)
    (wire_field net 14 2 mem) (wire_field net 16 8 mem) (wire_field net 24 4 mem)
    (wire_field net 28 4 mem) (wire_field net 32 4 mem) (wire_field net 36 4 mem).

Lemma header_of_wire_net mem : header_of_wire true mem = fromNetOrder (header_of_mem mem).
Proof. reflexivity. Qed.

Section Streams.
Context {S : Type} `{InputStreamLaws S}.

Lemma decodes_header h : zlen (m_magic h) = 8 ->
  decodes_at h header_deserialize sizeof_MsgHeader
    (fun net bs _ => header_of_wire net bs).
Proof.
  intros Hm s Hok.
  eassert (Hd : decodes_at h header_deserialize (8 + (4 + (2 + (2 + (8 + (4 + (4 + (4 + 4))))))))
    _).
  { unfold header_deserialize, des_uint16, des_uint32, des_uint64.
    apply decodes_seq_at; [lia..|by apply decodes_data_at|].
    repeat (apply decodes_seq; [lia..| first [apply (decodes_uint 4); lia |
              apply (decodes_uint 2); lia | apply (decodes_uint 8); lia]|]).
    apply (decodes_uint 4). lia. }
  destruct (Hd s Hok) as [Hd1 Hd2]. split; [|exact Hd2]. intros Hle.
  destruct (Hd1 Hle) as (s' & Hrun & ?). exists s'. split; [|done].
  change (8 + (4 + (2 + (2 + (8 + (4 + (4 + (4 + 4)))))))) with 40 in Hrun.
  rewrite Hrun. do 3 f_equal.
  change sizeof_MsgHeader with 40. unfold header_of_wire, wire_field, mem_field.
  rewrite !zdrop_zdrop by lia.
  rewrite (ztake_all 4 (zdrop 36 _)) by (unfold zlen, zdrop, ztake; rewrite length_drop, length_take; lia).
  reflexivity.
Qed.
End Streams.

Lemma mem_field_skip off n a b : zlen a <= off -> mem_field off n (a ++ b) =
  mem_field (off - zlen a) n b.
Proof. intros. unfold mem_field. by rewrite zdrop_app_ge by lia. Qed.

Lemma mem_field_here n a b : zlen a = n -> mem_field 0 n (a ++ b) = le_combine a.
Proof. intros. unfold mem_field. by rewrite zdrop_0, ztake_app_length by lia. Qed.

Lemma wire_field_skip net off n a b : zlen a <= off -> wire_field net off n (a ++ b) =
  wire_field net (off - zlen a) n b.
Proof. intros. unfold wire_field. by rewrite mem_field_skip by lia. Qed.

Lemma wire_field_here (net : bool) n v b : 0 <= v < 2 ^ (8 * Z.of_nat n) ->
  wire_field net 0 n (uint_image net n v ++ b) = v.
Proof.
  intros Hv. unfold wire_field. rewrite mem_field_here by apply zlen_image. by apply image_value.
Qed.

(** skips to the field and reads it *)
Ltac wire_fields :=
  repeat (rewrite wire_field_skip by (rewrite ?zlen_image; lia));
  rewrite ?zlen_image; 
  match goal with |- wire_field _ ?o _ _ = _ => replace o with 0 by lia end;
  apply wire_field_here; cbn; lia.

Lemma header_image_parse net h : header_ok h -> header_of_wire net (header_image h net) = h.
Proof.
  intros [Hm ? ? ? ? ? ? ? ?]. rewrite <- (app_nil_r (header_image h net)). unfold header_image.
  rewrite <- !app_assoc. destruct h as [mg ln mid fl rid ri ul bs rs]; cbn in *.
  unfold header_of_wire. f_equal; [by apply ztake_app_length| ..]; wire_fields.
Qed.

Lemma header_image_parse_app net h rest : header_ok h ->
  header_of_wire net (ztake sizeof_MsgHeader (header_image h net ++ rest)) = h.
Proof.
  intros Hok. rewrite ztake_app_length by (by rewrite header_image_length).
  by apply header_image_parse.
Qed.

Section HeaderRoundtrip.
Context {O : Type} `{OutputStreamLaws O} {S : Type} `{InputStreamLaws S}.
Implicit Types (os : O) (s : S) (h : MsgHeader).

(** A header written to any stream and read from any stream of the same byte
    order is the same header, and the stream is left right behind it. *)
Theorem header_roundtrip h h0 os s : header_ok h -> zlen (m_magic h0) = 8 ->
  os_ok os -> sizeof_MsgHeader <= os_room os ->
  is_ok s -> is_isNetworkOrder s = os_isNetworkOrder os ->
  exists os' img, header_serialize h os = Done (E_OK, os') /\
    os_written os' = os_written os ++ img /\ zlen img = sizeof_MsgHeader /\
    forall rest, is_bytes s = img ++ rest ->
    exists s', header_deserialize (h0, s) = Done (E_OK, (h, s')) /\ is_bytes s' = rest.
Proof.
  intros Hh Hm Hos Hroom Hok Hnet. destruct (emits_header h os Hos) as [Hw _].
  rewrite header_image_length in Hw by done. destruct (Hw Hroom) as (os' & Hs & _ & Hwr & _).
  exists os', (header_image h (os_isNetworkOrder os)). rewrite header_image_length by done.
  split_and!; try done. intros rest Hb. destruct (is_size_law s Hok) as [Hsize _].
  rewrite Hb, zlen_app, header_image_length in Hsize by done. pose proof (zlen_nonneg rest).
  destruct (decodes_header h0 Hm s Hok) as [Hd _].
  destruct Hd as (s' & Hd & _ & Hb' & _); [lia|]. exists s'. rewrite Hd, Hb', Hb, Hnet.
  rewrite header_image_parse_app by done.
  by rewrite zdrop_app_length by (by rewrite header_image_length).
Qed.
End HeaderRoundtrip.

Definition sample_header : MsgHeader :=
  MkMsgHeader COMMUTIL_MSG_MAGIC 45 7 1 0x1122334455667788 3 5 2 0.

Definition sample_out (n : Z) : FixedOutputStream := FixedOutputStream_newInternal n NETWORK_ORDER.

Definition sample_in (bytes : list Byte.byte) : FixedInputStream :=
  FixedInputStream_new bytes (zlen bytes) true NETWORK_ORDER.

Lemma sample_in_ok bytes : zlen bytes < 2 ^ 32 -> fis_ok (sample_in bytes).
Proof. intros. pose proof (zlen_nonneg bytes). unfold fis_ok. cbn. lia. Qed.

Lemma sample_out_ok n : 0 <= n < 2 ^ 32 -> fos_ok (sample_out n).
Proof. intros. unfold fos_ok. cbn. rewrite zlen_replicate. lia. Qed.

Lemma header_roundtrip_witness :
  exists os' img, header_serialize sample_header (sample_out 64) = Done (E_OK, os') /\
    os_written os' = os_written (sample_out 64) ++ img /\ zlen img = sizeof_MsgHeader /\
    forall rest, is_bytes (sample_in (header_image sample_header true)) = img ++ rest ->
    exists s', header_deserialize (MsgHeader_default, sample_in (header_image sample_header true)) =
      Done (E_OK, (sample_header, s')) /\ is_bytes s' = rest.
Proof.
  apply (header_roundtrip sample_header MsgHeader_default (sample_out 64)
           (sample_in (header_image sample_header true))).
  - apply header_okb_ok. reflexivity.
  - reflexivity.
  - apply sample_out_ok. lia.
  - vm_compute. discriminate.
  - apply sample_in_ok. reflexivity.
  - reflexivity.
Defined.

(** With less than 40 bytes of room the header's serialization fails with
    [E_NOMEM] after a proper prefix; with less than 40 bytes to read its
    deserialization fails with [E_END_OF_STREAM]. *)
Theorem header_short {O S} `{OutputStreamLaws O} `{InputStreamLaws S} h h0 (os : O) (s : S) :
  header_ok h -> zlen (m_magic h0) = 8 -> os_ok os -> is_ok s ->
  os_room os < sizeof_MsgHeader -> is_size s < sizeof_MsgHeader ->
  (exists os' n, header_serialize h os = Done (E_NOMEM, os') /\ 0 <= n <= os_room os /\
     os_written os' = os_written os ++ ztake n (header_image h (os_isNetworkOrder os))) /\
  (exists h' s', header_deserialize (h0, s) = Done (E_END_OF_STREAM, (h', s'))).
Proof.
  intros Hh Hm Hos Hok Hroom Hsize. split.
  - destruct (emits_header h os Hos) as [_ Hw]. rewrite header_image_length in Hw by done.
    destruct (Hw Hroom) as (os' & n & ? & _ & ? & ? & _). by exists os', n.
  - by apply (decodes_header h0 Hm s Hok).
Qed.

Lemma header_short_witness :
  (exists os' n, header_serialize sample_header (sample_out 17) = Done (E_NOMEM, os') /\
     0 <= n <= os_room (sample_out 17) /\
     os_written os' = os_written (sample_out 17) ++
       ztake n (header_image sample_header (os_isNetworkOrder (sample_out 17)))) /\
  (exists h' s', header_deserialize (MsgHeader_default,
       sample_in (ztake 17 (header_image sample_header true))) = Done (E_END_OF_STREAM, (h', s'))).
Proof.
  apply (header_short sample_header MsgHeader_default (sample_out 17)
           (sample_in (ztake 17 (header_image sample_header true)))).
  - apply header_okb_ok. reflexivity.
  - reflexivity.
  - apply sample_out_ok. lia.
  - apply sample_in_ok. reflexivity.
  - reflexivity.
  - reflexivity.
Defined.

Lemma peek_header_ok {S} `{InputStreamLaws S} h (s : S) : zlen (m_magic h) = 8 -> is_ok s ->
  sizeof_MsgHeader <= is_size s ->
  peek_header h s = Done (E_OK, header_of_mem (ztake sizeof_MsgHeader (is_bytes s)), s).
Proof.
  intros Hm Hok Hle. unfold peek_header.
  assert (Hl : sizeof_MsgHeader = zlen (header_mem h)).
  { unfold header_mem. rewrite !zlen_app, Hm. unfold zlen. by rewrite !length_le_split. }
  rewrite Hl, peek_ok; [done|done|]. rewrite <- Hl. change sizeof_MsgHeader with 40 in *. lia.
Qed.

(** On a network order stream, peeking the raw header and converting it with
    [fromNetOrder] gives what deserializing it would, without consuming it. *)
Theorem peek_fromNetOrder_deserialize {S} `{InputStreamLaws S} h h0 (s : S) :
  zlen (m_magic h) = 8 -> zlen (m_magic h0) = 8 -> is_ok s -> is_isNetworkOrder s = true ->
  sizeof_MsgHeader <= is_size s ->
  exists raw s', peek_header h s = Done (E_OK, raw, s) /\
    header_deserialize (h0, s) = Done (E_OK, (fromNetOrder raw, s')).
Proof.
  intros Hm Hm0 Hok Hnet Hle. destruct (decodes_header h0 Hm0 s Hok) as [Hd _].
  destruct (Hd Hle) as (s' & Hrun & _). rewrite Hnet, header_of_wire_net in Hrun.
  eexists _, s'. split; [by apply peek_header_ok|done].
Qed.

Lemma peek_fromNetOrder_deserialize_witness :
  exists raw s', peek_header MsgHeader_default (sample_in (header_image sample_header true)) =
      Done (E_OK, raw, sample_in (header_image sample_header true)) /\
    header_deserialize (MsgHeader_default, sample_in (header_image sample_header true)) =
      Done (E_OK, (fromNetOrder raw, s')).
Proof.
  apply (peek_fromNetOrder_deserialize MsgHeader_default MsgHeader_default
           (sample_in (header_image sample_header true))); try reflexivity.
  - apply sample_in_ok. reflexivity.
Defined.

(** A new header is valid and stays so on its way over a stream, and a header
    is only valid with the magic word in its first 8 bytes. *)
Theorem header_valid_iff net h rest : header_ok h ->
  isValid (header_of_wire net (ztake sizeof_MsgHeader (header_image h net ++ rest))) = true <->
  ztake COMMUTIL_MSG_MAGIC_SIZE (header_image h net) = COMMUTIL_MSG_MAGIC.
Proof.
  intros Hok. rewrite header_image_parse_app by done. unfold isValid, header_image.
  rewrite ztake_app_length by (symmetry; apply Hok). apply bool_decide_eq_true.
Qed.

Lemma header_valid_iff_witness :
  isValid (header_of_wire true (ztake sizeof_MsgHeader (header_image sample_header true ++ [NUL]))) =
    true <-> ztake COMMUTIL_MSG_MAGIC_SIZE (header_image sample_header true) = COMMUTIL_MSG_MAGIC.
Proof. apply (header_valid_iff true sample_header [NUL]). apply header_okb_ok. reflexivity. Defined.

(** ** Messages on a stream *)

Lemma allocMsg_ok msgId flags requestId requestIndex payloadSize :
  0 <= payloadSize < 2 ^ 32 - sizeof_Msg ->
  allocMsg true msgId flags requestId requestIndex payloadSize =
    Done (Some (MkMsg (MsgHeader_new (sizeof_Msg + payloadSize) msgId flags requestId requestIndex)
                  (replicate (Z.to_nat payloadSize) NUL))).
Proof.
  unfold sizeof_Msg. intros Hp. unfold allocMsg, sizeof_Msg. rewrite u32_small by lia.
  rewrite (proj2 (Z.ltb_ge _ _)) by lia. do 4 f_equal. lia.
Qed.

Lemma allocMsgFor_ok h : sizeof_Msg <= m_length h < 2 ^ 32 ->
  allocMsgFor true h = Done (Some (MkMsg
    (MsgHeader_new (m_length h) (m_msgId h) (m_flags h) (m_requestId h) (m_requestIndex h))
    (replicate (Z.to_nat (m_length h - sizeof_Msg)) NUL))).
Proof.
  unfold sizeof_Msg. intros Hl. unfold allocMsgFor, sizeof_MsgHeader.
  rewrite u32_small, allocMsg_ok by (unfold sizeof_Msg; lia). unfold sizeof_Msg.
  by replace (40 + (m_length h - 40)) with (m_length h) by lia.
Qed.

Lemma allocMsgFor_short h : 0 <= m_length h < sizeof_Msg -> allocMsgFor true h = Undef UB_bounds.
Proof.
  unfold sizeof_Msg. intros Hl. unfold allocMsgFor, allocMsg, sizeof_Msg, sizeof_MsgHeader.
  rewrite (u32_wrap_sub (m_length h - 40)) by lia.
  replace (40 + (m_length h - 40 + 2 ^ 32)) with (m_length h + 2 ^ 32) by lia.
  unfold u32 at 1. rewrite <- Z.add_mod_idemp_r, Z.mod_same, Z.add_0_r, Z.mod_small by lia.
  by rewrite (proj2 (Z.ltb_lt _ 40)) by lia.
Qed.

(** A message allocated for a header has the header's length and a payload
    of the rest; a header that announces less than its own 40 bytes makes the
    constructor write outside the allocation. *)
Theorem allocMsgFor_spec h : 0 <= m_length h < 2 ^ 32 ->
  if m_length h <? sizeof_MsgHeader then allocMsgFor true h = Undef UB_bounds
  else exists m, allocMsgFor true h = Done (Some m) /\
    m_length (msg_header m) = m_length h /\ m_msgId (msg_header m) = m_msgId h /\
    m_requestId (msg_header m) = m_requestId h /\ isValid (msg_header m) = true /\
    zlen (msg_payload m) = getPayloadSizeBytes m.
Proof.
  intros Hl. destruct (Z.ltb_spec (m_length h) sizeof_MsgHeader) as [Hs|Hs].
  - apply allocMsgFor_short. unfold sizeof_Msg, sizeof_MsgHeader in *. lia.
  - rewrite allocMsgFor_ok by (unfold sizeof_Msg, sizeof_MsgHeader in *; lia). eexists. split; [done|].
    unfold getPayloadSizeBytes, sizeof_Msg, sizeof_MsgHeader in *.
    cbn [msg_header msg_payload m_length m_msgId m_requestId MsgHeader_new].
    rewrite zlen_replicate, u32_small by lia. split_and!; try done; lia.
Qed.

Lemma allocMsgFor_spec_witness :
  allocMsgFor true (setLength 39 sample_header) = Undef UB_bounds /\
  exists m, allocMsgFor true sample_header = Done (Some m) /\ m_length (msg_header m) = 45 /\
    m_msgId (msg_header m) = 7 /\ m_requestId (msg_header m) = 0x1122334455667788 /\
    isValid (msg_header m) = true /\ zlen (msg_payload m) = getPayloadSizeBytes m.
Proof.
  split.
  - apply (allocMsgFor_spec (setLength 39 sample_header)). cbn. lia.
  - apply (allocMsgFor_spec sample_header). cbn. lia.
Defined.

(** a message whose header announces its payload *)
Definition msg_ok (m : Msg) : Prop :=
  header_ok (msg_header m) /\ m_length (msg_header m) = sizeof_Msg + zlen (msg_payload m).

Definition msg_image (m : Msg) (net : bool) : list Byte.byte :=
  header_image (msg_header m) net ++ msg_payload m.

Lemma msg_payload_size m : msg_ok m -> getPayloadSizeBytes m = zlen (msg_payload m).
Proof.
  intros [Hh Hl]. unfold getPayloadSizeBytes. destruct Hh. unfold sizeof_Msg in *.
  rewrite u32_small; zlia.
Qed.

Lemma emits_msg {S} `{OutputStreamLaws S} m : msg_ok m -> emits (msg_serialize m) (msg_image m).
Proof.
  intros Hm. unfold msg_serialize, msg_image. rewrite msg_payload_size by done.
  apply emits_seq; [apply emits_header|].
  eapply emits_ext; [|apply emits_writeBytes; zlia]. intros b. cbv beta. apply ztake_all. lia.
Qed.

Lemma msg_deserialize_ok {S} `{InputStreamLaws S} m m0 (s : S) rest net :
  msg_ok m -> zlen (m_magic (msg_header m0)) = 8 ->
  zlen (msg_payload m0) = zlen (msg_payload m) -> 0 < zlen (msg_payload m) ->
  is_ok s -> is_isNetworkOrder s = net -> is_bytes s = msg_image m net ++ rest ->
  exists s', msg_deserialize (m0, s) = Done (E_OK, (m, s')) /\ is_ok s' /\ is_bytes s' = rest /\
    is_order s' = is_order s.
Proof.
  intros Hm Hm0 Hlen Hpos Hok Hnet Hb. pose proof Hm as [Hh _]. unfold msg_image in Hb.
  rewrite <- app_assoc in Hb. destruct (is_size_law s Hok) as [Hsize _].
  rewrite Hb, !zlen_app, header_image_length in Hsize by done. pose proof (zlen_nonneg rest).
  destruct (decodes_header (msg_header m0) Hm0 s Hok) as [Hd _].
  destruct Hd as (s1 & Hd & Hok1 & Hb1 & Ho1); [lia|].
  rewrite Hb, Hnet, header_image_parse_app in Hd by done.
  rewrite Hb, zdrop_app_length in Hb1 by (by rewrite header_image_length).
  destruct (is_size_law s1 Hok1) as [Hsize1 _]. rewrite Hb1, zlen_app in Hsize1.
  destruct (is_read_law s1 (zlen (msg_payload m)) Hok1) as (s' & Hr & Hok' & Hb' & Ho'); [lia|].
  exists s'. unfold msg_deserialize. rewrite Hd. cbn [outcome_bind]. rewrite decide_True by done.
  assert (Hp : getPayloadSizeBytes (set_header (msg_header m) m0) = zlen (msg_payload m))
    by (by rewrite <- (msg_payload_size m Hm)).
  rewrite Hp, Hr, Hb1, ztake_app_length by done. cbn [outcome_bind io_data io_rc].
  cbn [msg_payload set_header]. rewrite mem_write_ok by lia. cbn [outcome_bind].
  rewrite ztake_0, zdrop_all, app_nil_r by lia. split; [by destruct m|].
  split; [done|]. split; [by rewrite Hb', Hb1, zdrop_app_length|congruence].
Qed.

(** C36. A message with a payload written to any stream and read from any stream of
    the same byte order, into a message of the same size, is the same message. *)
Theorem msg_roundtrip {O S} `{OutputStreamLaws O} `{InputStreamLaws S} m m0 (os : O) (s : S) :
  msg_ok m -> 0 < zlen (msg_payload m) ->
  zlen (m_magic (msg_header m0)) = 8 -> zlen (msg_payload m0) = zlen (msg_payload m) ->
  os_ok os -> m_length (msg_header m) <= os_room os ->
  is_ok s -> is_isNetworkOrder s = os_isNetworkOrder os ->
  exists os' img, msg_serialize m os = Done (E_OK, os') /\ os_written os' = os_written os ++ img /\
    forall rest, is_bytes s = img ++ rest ->
    exists s', msg_deserialize (m0, s) = Done (E_OK, (m, s')) /\ is_bytes s' = rest.
Proof.
  intros Hm Hpos Hm0 Hlen Hos Hroom Hok Hnet. destruct (emits_msg m Hm os Hos) as [Hw _].
  unfold msg_image in Hw at 1. pose proof Hm as [Hh Hl].
  rewrite zlen_app, header_image_length in Hw by done.
  destruct Hw as (os' & Hs & _ & Hwr & _); [unfold sizeof_Msg, sizeof_MsgHeader in *; lia|].
  exists os', (msg_image m (os_isNetworkOrder os)). split_and!; try done. intros rest Hb.
  destruct (msg_deserialize_ok m m0 s rest _ Hm Hm0 Hlen Hpos Hok Hnet Hb) as (s' & ? & _ & ? & _).
  by exists s'.
Qed.

Definition sample_msg : Msg := MkMsg sample_header (le_split 5 0x0102030405).
Definition empty_msg : Msg := MkMsg (MsgHeader_new 40 7 0 1 0) [].

Lemma sample_msg_ok : msg_ok sample_msg.
Proof. split; [apply header_okb_ok|]; reflexivity. Qed.

Lemma msg_roundtrip_witness :
  exists os' img, msg_serialize sample_msg (sample_out 64) = Done (E_OK, os') /\
    os_written os' = os_written (sample_out 64) ++ img /\
    forall rest, is_bytes (sample_in (msg_image sample_msg true)) = img ++ rest ->
    exists s', msg_deserialize (MkMsg MsgHeader_default (replicate 5 NUL),
        sample_in (msg_image sample_msg true)) = Done (E_OK, (sample_msg, s')) /\
      is_bytes s' = rest.
Proof.
  apply (msg_roundtrip sample_msg (MkMsg MsgHeader_default (replicate 5 NUL)) (sample_out 64)
           (sample_in (msg_image sample_msg true))); try reflexivity.
  - apply sample_msg_ok.
  - apply sample_out_ok. lia.
  - vm_compute. discriminate.
  - apply sample_in_ok. reflexivity.
Defined.

Lemma empty_msg_segmented B h m0 (g : SegmentedInputStream) : header_ok h ->
  zlen (m_magic (msg_header m0)) = 8 -> sis_ok g -> sis_tight B g ->
  sis_bytes g = header_image h (is_isNetworkOrder g) -> msg_deserialize (m0, g) = Undef UB_null.
Proof.
  intros Hh Hm0 Hg Ht Hbg.
  destruct (decodes_header (H0 := SegmentedInputStream_tight_laws B) (msg_header m0) Hm0 g
    (conj Hg Ht)) as [Hd _].
  pose proof (sis_bytes_length g Hg) as Hs. rewrite Hbg, header_image_length in Hs by done.
  destruct Hd as (g' & Hd & [Hg' Ht'] & Hb' & _); [cbn; lia|]. cbn in Hb'.
  rewrite Hbg, zdrop_all in Hb' by (by rewrite header_image_length).
  pose proof (sis_bytes_length g' Hg') as Hs'. rewrite Hb', zlen_nil in Hs'.
  unfold msg_deserialize. rewrite Hd. cbn [outcome_bind]. rewrite decide_True by done.
  cbn [readBytes SegmentedInputStream_stream]. unfold sis_readBytes, copyBytes.
  rewrite <- Hs', (tight_drained g' Hg' Ht' Hb'). rewrite Z.min_l; [done|].
  apply u32_range.
Qed.

(** A message without payload that ends the stream cannot be read back: the
    read of its zero payload bytes reports [E_END_OF_STREAM] on a fixed stream,
    and dereferences a null pointer on a segmented one. *)
Theorem empty_msg_end_of_stream B m (f : FixedInputStream) (g : SegmentedInputStream) :
  msg_ok m -> msg_payload m = [] ->
  fis_ok f -> fis_bytes f = msg_image m (is_isNetworkOrder f) ->
  sis_ok g -> sis_tight B g -> sis_bytes g = msg_image m (is_isNetworkOrder g) ->
  (exists m' f', msg_deserialize (MkMsg MsgHeader_default [], f) =
     Done (E_END_OF_STREAM, (m', f'))) /\
  msg_deserialize (MkMsg MsgHeader_default [], g) = Undef UB_null.
Proof.
  intros Hm Hp Hf Hbf Hg Ht Hbg. pose proof Hm as [Hh _]. unfold msg_image in *.
  rewrite Hp, app_nil_r in *. split.
  1: unfold msg_deserialize.
  - destruct (decodes_header (H0 := FixedInputStream_laws) MsgHeader_default eq_refl f Hf) as [Hd _].
    destruct (@is_size_law _ _ FixedInputStream_laws f Hf) as [Hs _]. cbn in Hs. rewrite Hbf, header_image_length in Hs by done.
    destruct Hd as (f' & Hd & Hf' & Hb' & _); [cbn; lia|]. cbn [msg_header]. rewrite Hd.
    cbn [outcome_bind]. rewrite decide_True by done. cbn [readBytes FixedInputStream_stream].
    destruct (@is_size_law _ _ FixedInputStream_laws f' Hf') as [Hs' _]. cbn in Hs', Hb'.
    rewrite Hb', Hbf, zdrop_all, zlen_nil in Hs' by (by rewrite header_image_length).
    unfold fis_readBytes. rewrite Hs'. cbn [outcome_bind Z.eqb io_data msg_payload set_header].
    eexists _, _. reflexivity.
  - by apply (empty_msg_segmented B (msg_header m)).
Qed.

Lemma empty_msg_end_of_stream_witness :
  (exists m' f', msg_deserialize (MkMsg MsgHeader_default [], sample_in (msg_image empty_msg true)) =
     Done (E_END_OF_STREAM, (m', f'))) /\
  msg_deserialize (MkMsg MsgHeader_default [], MkSegmentedInputStream NETWORK_ORDER
    [sample_node 1 (msg_image empty_msg true)] true 0 40 []) = Undef UB_null.
Proof.
  apply (empty_msg_end_of_stream 100 empty_msg).
  - split; [apply header_okb_ok|]; reflexivity.
  - reflexivity.
  - apply sample_in_ok. reflexivity.
  - reflexivity.
  - constructor; [|vm_compute; intuition congruence..].
    constructor; [split; vm_compute; discriminate|constructor].
  - split; [constructor; [split; vm_compute; congruence|constructor]|reflexivity].
  - reflexivity.
Defined.
