(* ===== verification/Batch.v ===== *)
(** * Message batches (msg_batch_writer, msg_batch_reader, msg_buffer_array_writer)

    The payload format of a batch: the number of messages, then each message
    with its length before it. *)

From Stdlib Require Import ZArith Lia.
From coqutil Require Import Byte.
From S2P Require Import Prelude Errors StrSearch Io Serializable Msg.
Open Scope Z_scope.

(** ** Definitions *)

(** MsgBuffer, MsgBufferArray of msg_def.h *)
Abbreviation MsgBuffer := (list Byte.byte).
Abbreviation MsgBufferArray := (list (list Byte.byte)).

Fixpoint computePayloadSize_loop (payloadSize : Z) (msgBufferArray : MsgBufferArray) : Z :=
  match msgBufferArray with
  | [] => payloadSize
  | msgBuffer :: rest =>
    computePayloadSize_loop (u32 (u32 (payloadSize + 4) + u32 (zlen msgBuffer))) rest
  end.

Definition computePayloadSize (msgBufferArray : MsgBufferArray) : Z :=
  computePayloadSize_loop 4 msgBufferArray.

(** the writer is its output stream over the payload *)
Definition MsgBatchWriter_new (payload : list Byte.byte) (length : Z) (byteOrder : ByteOrder)
  : FixedOutputStream := FixedOutputStream_new payload length byteOrder.

Definition beginBatch {S} `{OutputStream S} (batchSize : Z) : step S := ser_int32 batchSize.

Definition writeMsg {S} `{OutputStream S} (msgBuffer : MsgBuffer) : step S := ser_buffer msgBuffer.

Fixpoint writeBatch_loop {S} `{OutputStream S} (msgBufferArray : MsgBufferArray) : step S :=
  match msgBufferArray with
  | [] => step_ret
  | msgBuffer :: rest => ser_buffer msgBuffer ;;; writeBatch_loop rest
  end.

Definition writeBatch {S} `{OutputStream S} (msgBufferArray : MsgBufferArray) : step S :=
  ser_int32 (u32 (zlen msgBufferArray)) ;;; writeBatch_loop msgBufferArray.

(** the reader is its input stream over the payload, by reference *)
Definition MsgBatchReader_new (buffer : list Byte.byte) (length : Z) (byteOrder : ByteOrder)
  : FixedInputStream := FixedInputStream_new buffer length true byteOrder.

Definition readBatchSize (s : FixedInputStream)
  : outcome (ErrorCode * Z * FixedInputStream) :=
  let* '(rc, (batchSize, s)) := des_uint32 (fun x => x) (fun x _ => x) (0, s) in
  Done (rc, batchSize, s).

(** the message is a pointer into the buffer, given by its offset, and a length;
    without the length on the stream neither pointer nor length are valid *)
Definition readMsg (length : Z) (s : FixedInputStream)
  : outcome (ErrorCode * option Z * Z * FixedInputStream) :=
  let* '(rc, (length, s)) := des_uint32 (fun x => x) (fun x _ => x) (length, s) in
  if decide (rc = E_OK) then
    let msg := fis_offset s in
    let* '(r, s) := skipBytes length s in
    Done (io_rc r, Some msg, length, s)
  else Done (rc, None, length, s).

(** MsgWriter: an object that writes a payload *)
Record MsgWriter := MkMsgWriter {
  mw_getPayloadSizeBytes : Z;
  mw_getBatchSize : Z;
  (* the memory of the payload before and after *)
  mw_writeMsg : list Byte.byte -> outcome (ErrorCode * list Byte.byte);
}.

Definition MsgBufferArrayWriter_new (msgBufferArray : MsgBufferArray) (byteOrder : ByteOrder)
  : MsgWriter :=
  let payloadSize := computePayloadSize msgBufferArray in
  MkMsgWriter payloadSize (u32 (zlen msgBufferArray))
    (fun payload =>
       let writer := MsgBatchWriter_new payload payloadSize byteOrder in
       let* '(rc, writer) := writeBatch msgBufferArray writer in
       Done (rc, fos_getBuffer writer)).

(** ** The format *)

Definition net_of (byteOrder : ByteOrder) : bool := bool_decide (byteOrder = NETWORK_ORDER).

Definition msg_entry (net : bool) (b : MsgBuffer) : list Byte.byte :=
  uint_image net 4 (zlen b) ++ b.

Definition entries (net : bool) (arr : MsgBufferArray) : list Byte.byte :=
  concat (map (msg_entry net) arr).

Definition batch_image (arr : MsgBufferArray) (net : bool) : list Byte.byte :=
  uint_image net 4 (zlen arr) ++ entries net arr.

(** the unbounded size *)
Definition batch_size (arr : MsgBufferArray) : Z := 4 + foldr (fun b n => 4 + zlen b + n) 0 arr.

Lemma entries_cons net b arr : entries net (b :: arr) = msg_entry net b ++ entries net arr.
Proof. reflexivity. Qed.

Lemma entries_length net arr : zlen (entries net arr) = foldr (fun b n => 4 + zlen b + n) 0 arr.
Proof.
  induction arr as [|b arr IH]; [done|]. rewrite entries_cons, zlen_app, IH. unfold msg_entry.
  rewrite zlen_app, zlen_image. cbn [foldr]. lia.
Qed.

Lemma batch_image_length arr net : zlen (batch_image arr net) = batch_size arr.
Proof. unfold batch_image, batch_size. rewrite zlen_app, zlen_image, entries_length. lia. Qed.

Lemma entries_count net arr : 4 * zlen arr <= zlen (entries net arr).
Proof.
  induction arr as [|b arr IH]; [done|]. rewrite entries_cons, zlen_app, zlen_cons.
  unfold msg_entry. rewrite zlen_app, zlen_image. zlia.
Qed.

Lemma batch_count arr : 4 * zlen arr + 4 <= batch_size arr.
Proof.
  pose proof (entries_count true arr). rewrite entries_length in *. unfold batch_size. lia.
Qed.

Lemma computePayloadSize_loop_ok arr : forall n, 0 <= n < 2 ^ 32 ->
  computePayloadSize_loop n arr = u32 (n + foldr (fun b n => 4 + zlen b + n) 0 arr).
Proof.
  induction arr as [|b arr IH]; intros n Hn; cbn [computePayloadSize_loop foldr].
  - rewrite Z.add_0_r. symmetry. by apply u32_small.
  - rewrite IH by apply u32_range. unfold u32.
    rewrite Z.add_mod_idemp_l by lia.
    rewrite <- Z.add_assoc, Z.add_mod_idemp_l by lia.
    replace (n + 4 + (zlen b mod 2 ^ 32 + foldr (fun b n => 4 + zlen b + n) 0 arr)) with
      (zlen b mod 2 ^ 32 + (n + 4 + foldr (fun b n => 4 + zlen b + n) 0 arr)) by lia.
    rewrite Z.add_mod_idemp_l by lia. f_equal. lia.
Qed.

(** The computed payload size is the exact size of the batch's serialized
    form, modulo the width of the type. *)
Theorem computePayloadSize_exact arr net :
  computePayloadSize arr = u32 (zlen (batch_image arr net)).
Proof.
  unfold computePayloadSize. rewrite computePayloadSize_loop_ok by lia.
  by rewrite batch_image_length.
Qed.

Lemma computePayloadSize_small arr : batch_size arr < 2 ^ 32 ->
  computePayloadSize arr = batch_size arr.
Proof.
  intros Hs. unfold computePayloadSize. rewrite computePayloadSize_loop_ok by lia.
  apply u32_small. pose proof (batch_count arr). unfold batch_size in *. zlia.
Qed.

Lemma batch_size_elem b arr : In b arr -> zlen b < batch_size arr.
Proof.
  unfold batch_size. induction arr as [|c arr IH]; [done|]. intros [->|Hin]; cbn [foldr].
  - pose proof (entries_length true arr). zlia.
  - specialize (IH Hin). zlia.
Qed.

Section Writing.
Context {S : Type} `{OutputStreamLaws S}.

Lemma emits_batch_loop arr : Forall (fun b => zlen b < 2 ^ 32) arr ->
  emits (writeBatch_loop arr) (fun net => entries net arr).
Proof.
  induction 1 as [|b arr Hb _ IH]; [apply emits_ret|]. cbn [writeBatch_loop].
  eapply emits_ext; [|apply emits_seq; [by apply emits_buffer|exact IH]]. done.
Qed.

Lemma emits_batch arr : batch_size arr < 2 ^ 32 -> emits (writeBatch arr) (batch_image arr).
Proof.
  intros Hs. unfold writeBatch, ser_int32. pose proof (batch_count arr).
  pose proof (zlen_nonneg arr). rewrite !(u32_small (zlen arr)) by lia.
  apply emits_seq; [apply emits_uint|]. apply emits_batch_loop.
  apply Forall_forall. intros b Hb. pose proof (batch_size_elem b arr Hb). lia.
Qed.
End Writing.

Lemma batch_written arr byteOrder payload : batch_size arr < 2 ^ 32 ->
  zlen payload = mw_getPayloadSizeBytes (MsgBufferArrayWriter_new arr byteOrder) ->
  mw_writeMsg (MsgBufferArrayWriter_new arr byteOrder) payload =
    Done (E_OK, batch_image arr (net_of byteOrder)).
Proof.
  intros Hs Hp. cbn [mw_getPayloadSizeBytes mw_writeMsg MsgBufferArrayWriter_new] in *.
  rewrite computePayloadSize_small in * by done. unfold MsgBatchWriter_new.
  set (os := FixedOutputStream_new payload (batch_size arr) byteOrder).
  pose proof (batch_count arr). pose proof (zlen_nonneg arr).
  destruct (@emits_batch _ _ (FixedOutputStream_sized_laws (batch_size arr)) arr Hs os) as [Hw _].
  { split; unfold os, fos_ok; cbn; lia. }
  rewrite batch_image_length in Hw. unfold os in Hw at 1.
  destruct Hw as (os' & -> & (Hok' & Hb' & Hl') & Hwr & Hroom & _); [cbn; lia|].
  cbn [outcome_bind]. do 2 f_equal. cbn in Hwr, Hroom. unfold fos_written in Hwr.
  unfold net_of, os_isNetworkOrder in *. cbn in Hwr. rewrite ztake_0 in Hwr. cbn [app] in Hwr.
  rewrite <- Hwr. symmetry. unfold fos_getBuffer. apply ztake_all. lia.
Qed.

(** Writing an array into a payload of the computed size succeeds and fills it
    exactly with the batch format. *)
Theorem MsgBufferArrayWriter_fills arr byteOrder payload : batch_size arr < 2 ^ 32 ->
  let w := MsgBufferArrayWriter_new arr byteOrder in
  zlen payload = mw_getPayloadSizeBytes w ->
  mw_writeMsg w payload = Done (E_OK, batch_image arr (net_of byteOrder)).
Proof. intros Hs w. by apply batch_written. Qed.

Definition sample_batch : MsgBufferArray := [le_split 3 0xABCDEF; []; le_split 5 0x0102030405].

Lemma MsgBufferArrayWriter_fills_witness :
  mw_writeMsg (MsgBufferArrayWriter_new sample_batch NETWORK_ORDER) (replicate 24 NUL) =
    Done (E_OK, batch_image sample_batch true).
Proof. by apply (MsgBufferArrayWriter_fills sample_batch NETWORK_ORDER). Defined.

(** ** Reading *)

Section Reading.
Implicit Types (s : FixedInputStream).

(** the length prefix *)
Lemma read_length (l0 : Z) s n rest : fis_ok s -> 0 <= n < 2 ^ 32 ->
  fis_bytes s = uint_image (net_of (fis_order s)) 4 n ++ rest ->
  exists s1, des_uint32 (fun x => x) (fun x _ => x) (l0, s) = Done (E_OK, (n, s1)) /\
    fis_ok s1 /\ fis_bytes s1 = rest /\ fis_order s1 = fis_order s /\
    fis_buf s1 = fis_buf s /\ fis_size s1 = fis_size s.
Proof.
  intros Hok Hn Hb.
  pose proof (fis_bytes_length s Hok) as Hl. pose proof (fis_size_ok s Hok) as Hs.
  rewrite Hb, zlen_app, zlen_image in Hl. pose proof (zlen_nonneg rest).
  destruct (decodes_uint (H1 := FixedInputStream_over_laws (fis_buf s) (fis_size s)) 4
    (fun x : Z => x) (fun x _ => x) ltac:(lia) l0 s (conj Hok (conj eq_refl eq_refl))) as [Hd _].
  destruct Hd as (s1 & Hd & (Hok1 & Hbuf & Hsz) & Hb1 & Ho); [cbn; lia|].
  exists s1. unfold des_uint32. rewrite Hd. cbn in Hb1, Ho.
  change (is_bytes s) with (fis_bytes s). rewrite Hb in *.
  rewrite ztake_app_length by (by rewrite zlen_image).
  rewrite zdrop_app_length in Hb1 by (by rewrite zlen_image).
  unfold is_isNetworkOrder. cbn [is_order FixedInputStream_stream].
  change (bool_decide (fis_order s = NETWORK_ORDER)) with (net_of (fis_order s)).
  rewrite image_value by (cbn; lia). done.
Qed.

Lemma readMsg_entry s l0 b rest : fis_ok s -> zlen b < 2 ^ 32 -> (b <> [] \/ rest <> []) ->
  fis_bytes s = msg_entry (net_of (fis_order s)) b ++ rest ->
  exists off s', readMsg l0 s = Done (E_OK, Some off, zlen b, s') /\
    mem_read (fis_buf s) off (zlen b) = Done b /\
    fis_ok s' /\ fis_bytes s' = rest /\ fis_order s' = fis_order s /\ fis_buf s' = fis_buf s.
Proof.
  intros Hok Hb Hne Hby. unfold msg_entry in Hby. rewrite <- app_assoc in Hby.
  pose proof (zlen_nonneg b). pose proof (zlen_nonneg rest).
  destruct (read_length l0 s (zlen b) _ Hok ltac:(lia) Hby)
    as (s1 & Hd & Hok1 & Hb1 & Ho1 & Hbuf1 & Hs1).
  pose proof (fis_bytes_length s1 Hok1) as Hl1. pose proof (fis_size_ok s1 Hok1) as Hsz1.
  rewrite Hb1, zlen_app in Hl1.
  assert (0 < zlen b + zlen rest).
  { destruct Hne as [Hne|Hne]; destruct b, rest; try done; rewrite ?zlen_cons in *; zlia. }
  destruct (fis_skip_done s1 (zlen b) Hok1) as (Hsk & Hok2 & Hb2); [lia|lia|].
  rewrite Z.min_l in Hsk, Hok2, Hb2 by lia.
  exists (fis_offset s1). eexists. unfold readMsg. rewrite Hd. cbn [outcome_bind].
  rewrite decide_True by done. cbn [skipBytes FixedInputStream_stream]. rewrite Hsk.
  split; [reflexivity|]. destruct Hok1 as (? & ? & ?). split_and!.
  - rewrite <- Hbuf1, mem_read_ok by lia. f_equal. unfold fis_bytes in Hb1.
    rewrite zdrop_ztake in Hb1 by lia.
    rewrite <- (ztake_ztake (zlen b) (fis_size s1 - fis_offset s1)) by lia.
    rewrite Hb1. by apply ztake_app_length.
  - done.
  - rewrite Hb2, Hb1. by apply zdrop_app_length.
  - done.
  - done.
Qed.
End Reading.

(** A message of a batch is delivered as a pointer to its bytes, unless it is
    empty and the last one: then the skip over its zero bytes at the end of the
    payload reports [E_END_OF_STREAM]. *)
Theorem readMsg_delivers s b rest : fis_ok s -> zlen b < 2 ^ 32 ->
  fis_bytes s = msg_entry (net_of (fis_order s)) b ++ rest ->
  if decide (b = [] /\ rest = [])
  then exists off s', readMsg 0 s = Done (E_END_OF_STREAM, Some off, 0, s')
  else exists off s', readMsg 0 s = Done (E_OK, Some off, zlen b, s') /\
    mem_read (fis_buf s) off (zlen b) = Done b /\ fis_bytes s' = rest.
Proof.
  intros Hok Hb Hby. destruct (decide (b = [] /\ rest = [])) as [[-> ->]|Hne].
  - unfold msg_entry in Hby. rewrite app_nil_r in Hby.
    destruct (read_length 0 s 0 [] Hok ltac:(lia) Hby) as (s1 & Hd & Hok1 & Hb1 & _).
    pose proof (fis_bytes_length s1 Hok1) as Hl1. pose proof (fis_size_ok s1 Hok1) as Hsz1.
    rewrite Hb1, zlen_nil in Hl1. eexists _, _. unfold readMsg. rewrite Hd. cbn [outcome_bind].
    rewrite decide_True by done. cbn [skipBytes FixedInputStream_stream]. unfold fis_skipBytes.
    rewrite (proj2 (Z.eqb_eq _ 0)) by lia. reflexivity.
  - destruct (readMsg_entry s 0 b rest Hok Hb) as (off & s' & ? & ? & ? & ? & _); [|done|].
    { destruct (decide (b = [])), (decide (rest = [])); auto. }
    by exists off, s'.
Qed.

Lemma readMsg_delivers_witness :
  (exists off s', readMsg 0 (sample_in (msg_entry true (le_split 3 7) ++ [NUL])) =
     Done (E_OK, Some off, 3, s') /\
     mem_read (msg_entry true (le_split 3 7) ++ [NUL]) off 3 = Done (le_split 3 7) /\
     fis_bytes s' = [NUL]) /\
  (exists off s', readMsg 0 (sample_in (msg_entry true [])) =
     Done (E_END_OF_STREAM, Some off, 0, s')).
Proof.
  split.
  - apply (readMsg_delivers (sample_in (msg_entry true (le_split 3 7) ++ [NUL])) (le_split 3 7)
             [NUL]); try reflexivity. apply sample_in_ok. reflexivity.
  - apply (readMsg_delivers (sample_in (msg_entry true [])) [] []); try reflexivity.
    apply sample_in_ok. reflexivity.
Defined.

(** A length that announces more than the rest of the payload is accepted:
    the message that is handed out reaches past the end of the payload. *)
Theorem readMsg_overrun s len rest : fis_ok s -> 0 < zlen rest < len -> len < 2 ^ 32 ->
  fis_bytes s = uint_image (net_of (fis_order s)) 4 len ++ rest ->
  exists off s', readMsg 0 s = Done (E_OK, Some off, len, s') /\ fis_size s < off + len /\
    fis_bytes s' = [].
Proof.
  intros Hok Hr Hlen Hby.
  destruct (read_length 0 s len rest Hok ltac:(lia) Hby)
    as (s1 & Hd & Hok1 & Hb1 & Ho1 & Hbuf1 & Hs1).
  pose proof (fis_bytes_length s1 Hok1) as Hl1. pose proof (fis_size_ok s1 Hok1) as Hsz1.
  rewrite Hb1 in Hl1. destruct (fis_skip_done s1 len Hok1) as (Hsk & _ & Hb2); [lia|lia|].
  rewrite Z.min_r in Hsk, Hb2 by lia.
  exists (fis_offset s1). eexists. unfold readMsg. rewrite Hd. cbn [outcome_bind].
  rewrite decide_True by done. cbn [skipBytes FixedInputStream_stream]. rewrite Hsk.
  split; [reflexivity|]. split; [lia|]. rewrite Hb2, Hb1. apply zdrop_all. lia.
Qed.

Lemma readMsg_overrun_witness :
  exists off s', readMsg 0 (sample_in (uint_image true 4 1000 ++ le_split 2 7)) =
    Done (E_OK, Some off, 1000, s') /\ 6 < off + 1000 /\ fis_bytes s' = [].
Proof.
  apply (readMsg_overrun (sample_in (uint_image true 4 1000 ++ le_split 2 7)) 1000 (le_split 2 7)).
  - apply sample_in_ok. reflexivity.
  - vm_compute. intuition congruence.
  - reflexivity.
  - reflexivity.
Defined.
