(* ===== verification/Frame.v ===== *)
(** * Message frames (msg_frame_writer, msg_frame_reader)

    Building a message frame from a body or a batch, optionally compressed, and
    unpacking one towards the frame listener. The gzip library and the
    listeners are parameters. *)

From Stdlib Require Import ZArith Lia.
From coqutil Require Import Byte.
From S2P Require Import Prelude Errors StrSearch Io Serializable Msg Batch.
Open Scope Z_scope.

(** ** Parameters *)

(** the compression library: Compressor::compress at Z_BEST_COMPRESSION and
    Decompressor::decompress into an empty string. An exception is
    [Undef UB_throw], since no caller catches it. *)
Class Gzip := {
  gzip_compress : list Byte.byte -> outcome (list Byte.byte);
  gzip_decompress : list Byte.byte -> outcome (list Byte.byte);
}.

(** decompression inverts compression, up to the sizes the library accepts *)
Class GzipLaws `{Gzip} := {
  gzip_limit : Z;
  gzip_inverse b c : zlen b <= gzip_limit -> zlen c <= gzip_limit ->
    gzip_compress b = Done c -> gzip_decompress c = Done b;
}.

(** MsgFrameListener and the optional MsgStatListener, with the state [L] of the
    user and the connection details [C] *)
Class FrameListener (C L : Type) := {
  handleMsg : C -> MsgHeader -> list Byte.byte -> bool -> Z -> L -> ErrorCode * L;
  handleMsgError : C -> MsgHeader -> ErrorCode -> L -> L;
  onRecvMsgStats : option (Z -> Z -> L -> L);
}.

(** ** Writing *)

(** what the caller's message pointer holds afterwards *)
Inductive msg_ptr :=
| PtrUnset           (* not assigned *)
| PtrNull
| PtrMsg (m : Msg)
| PtrFreed.          (* points to a deallocated message *)

Section Writer.
Context `{Gzip}.

Definition prepareMsgFrame (alloc : bool) (msgId : Z) (body : list Byte.byte) (compress : bool)
    (flags : Z) : outcome (ErrorCode * msg_ptr) :=
  let uncompressedLength := u32 (zlen body) in
  let* '(body, flags) :=
    if compress then
      let* compressedBody := gzip_compress body in
      Done (compressedBody, Z.lor flags COMMUTIL_MSG_FLAG_COMPRESSED)
    else Done (body, flags) in
  let* msg := allocMsg alloc msgId flags 0 0 (u32 (zlen body)) in
  match msg with
  | None => Done (E_NOMEM, PtrNull)
  | Some msg =>
    let* payload := mem_write (msg_payload msg) 0 body in
    let msg := set_payload payload msg in
    Done (E_OK, PtrMsg (if compress
      then set_header (setUncompressedLength uncompressedLength (msg_header msg)) msg else msg))
  end.

(** the overload with a message writer *)
Definition prepareMsgFrameWith (alloc : bool) (msgId : Z) (msgWriter : MsgWriter)
    (compress : bool) (flags : Z) : outcome (ErrorCode * msg_ptr) :=
  let setBatch m := set_header (setBatchSize (mw_getBatchSize msgWriter) (msg_header m)) m in
  if compress then
    let buf := replicate (Z.to_nat (mw_getPayloadSizeBytes msgWriter)) NUL in
    let* '(rc, buf) := mw_writeMsg msgWriter buf in
    if decide (rc = E_OK) then
      let* compressedBody := gzip_compress buf in
      let flags := Z.lor flags COMMUTIL_MSG_FLAG_COMPRESSED in
      let* msg := allocMsg alloc msgId flags 0 0 (u32 (zlen compressedBody)) in
      match msg with
      | None => Done (E_NOMEM, PtrNull)
      | Some msg =>
        let* payload := mem_write (msg_payload msg) 0 compressedBody in
        let msg := set_payload payload msg in
        let msg := set_header (setUncompressedLength (mw_getPayloadSizeBytes msgWriter)
                                 (msg_header msg)) msg in
        Done (E_OK, PtrMsg (setBatch msg))
      end
    else Done (rc, PtrUnset)
  else
    let* msg := allocMsg alloc msgId flags 0 0 (mw_getPayloadSizeBytes msgWriter) in
    match msg with
    | None => Done (E_NOMEM, PtrNull)
    | Some msg =>
      let* '(rc, payload) := mw_writeMsg msgWriter (msg_payload msg) in
      if decide (rc = E_OK) then Done (E_OK, PtrMsg (setBatch (set_payload payload msg)))
      else Done (rc, PtrFreed)
    end.

Definition prepareMsgBatchFrame (alloc : bool) (msgId : Z) (bufferArray : MsgBufferArray)
    (byteOrder : ByteOrder) (compress : bool) (flags : Z) : outcome (ErrorCode * msg_ptr) :=
  prepareMsgFrameWith alloc msgId (MsgBufferArrayWriter_new bufferArray byteOrder) compress flags.
End Writer.

(** ** Reading *)

Section Reader.
Context `{Gzip} {C L : Type} `{FrameListener C L}.

Definition recv_stats (compressed uncompressed : Z) (l : L) : L :=
  match onRecvMsgStats with Some f => f compressed uncompressed l | None => l end.

(** the loop over the messages of a batch, from message [i] *)
Fixpoint readBatch_loop (fuel : nat) (conn : C) (h : MsgHeader) (i batchSize : Z)
    (rc : ErrorCode) (batchReader : FixedInputStream) (l : L) : outcome (ErrorCode * L) :=
  if i <? batchSize then
    match fuel with
    | O => NoFuel
    | S fuel =>
      let* '(rc, msgBuffer, length, batchReader) := readMsg 0 batchReader in
      if decide (rc = E_OK) then
        match msgBuffer with
        | None => Undef UB_null
        | Some off =>
          let* data := mem_read (fis_buf batchReader) off length in
          let '(rc, l) := handleMsg conn h data (u32 (i + 1) =? batchSize) batchSize l in
          if decide (rc = E_OK) then
            readBatch_loop fuel conn h (u32 (i + 1)) batchSize rc batchReader l
          else Done (rc, l)
        end
      else Done (rc, handleMsgError conn h rc l)
    end
  else Done (rc, l).

(** the part of readMsgFrame that takes care of a batch *)
Definition readMsgFrame_batch (byteOrder : ByteOrder) (conn : C) (h : MsgHeader)
    (buffer : list Byte.byte) (bufferSize : Z) (l : L) : outcome (ErrorCode * L) :=
  let batchReader := MsgBatchReader_new buffer bufferSize byteOrder in
  let* '(rc, batchSize, batchReader) := readBatchSize batchReader in
  if decide (rc = E_OK) then
    if batchSize =? m_batchSize h then
      readBatch_loop (S (length buffer)) conn h 0 batchSize rc batchReader l
    else Done (E_DATA_CORRUPT, handleMsgError conn h E_DATA_CORRUPT l)
  else Done (rc, handleMsgError conn h rc l).

Definition readMsgFrame (byteOrder : ByteOrder) (conn : C) (msg : Msg) (l : L)
  : outcome (ErrorCode * L) :=
  let h := msg_header msg in
  let bufferSize := getPayloadSizeBytes msg in
  let* '(corrupt, buffer, bufferSize, l) :=
    if isCompressed h then
      let* data := mem_read (msg_payload msg) 0 bufferSize in
      let* decompressedPayload := gzip_decompress data in
      if zlen decompressedPayload =? m_uncompressedLength h then
        Done (false, decompressedPayload, u32 (zlen decompressedPayload),
              recv_stats bufferSize (u32 (zlen decompressedPayload)) l)
      else Done (true, [], 0, handleMsgError conn h E_DATA_CORRUPT l)
    else Done (false, msg_payload msg, bufferSize, recv_stats bufferSize bufferSize l) in
  if (corrupt : bool) then Done (E_DATA_CORRUPT, l)
  else if negb (isBatch h) then
    let* data := mem_read buffer 0 bufferSize in
    Done (handleMsg conn h data true 1 l)
  else readMsgFrame_batch byteOrder conn h buffer bufferSize l.

(** ** What the listener sees of a batch *)

(** hands out the messages in order until the listener reports an error; a message of
    zero bytes at the end of the batch is not handed out but reported as an error *)
Fixpoint deliver (conn : C) (h : MsgHeader) (batchSize : Z) (arr : MsgBufferArray) (l : L)
  : ErrorCode * L :=
  match arr with
  | [] => (E_OK, l)
  | b :: rest =>
    if decide (b = [] /\ rest = []) then
      (E_END_OF_STREAM, handleMsgError conn h E_END_OF_STREAM l)
    else
    let '(rc, l) := handleMsg conn h b (bool_decide (rest = [])) batchSize l in
    if decide (rc = E_OK) then deliver conn h batchSize rest l else (rc, l)
  end.

Lemma readBatch_loop_ok conn h arr : forall fuel i batchSize s l,
  Forall (fun b => zlen b < 2 ^ 32) arr -> fis_ok s -> fis_bytes s = entries (net_of (fis_order s)) arr ->
  0 <= i -> batchSize < 2 ^ 32 -> i + zlen arr = batchSize -> (length arr <= fuel)%nat ->
  readBatch_loop fuel conn h i batchSize E_OK s l = Done (deliver conn h batchSize arr l).
Proof.
  induction arr as [|b arr IH]; intros fuel i n s l Hall Hok Hb Hi Hn Hcount Hfuel.
  { rewrite zlen_nil in Hcount. destruct fuel; cbn [readBatch_loop];
      by rewrite (proj2 (Z.ltb_ge _ _)) by lia. }
  rewrite zlen_cons in Hcount. pose proof (zlen_nonneg arr).
  apply Forall_cons_1 in Hall as [Hlen Hall].
  destruct fuel as [|fuel]; [cbn [length] in Hfuel; lia|]. cbn [readBatch_loop].
  rewrite (proj2 (Z.ltb_lt _ _)) by lia.
  cbn [deliver]. destruct (decide (b = [] /\ arr = [])) as [[-> ->]|Hnil].
  { pose proof (readMsg_delivers s [] [] Hok Hlen Hb) as Hr. rewrite decide_True in Hr by done.
    destruct Hr as (off & s' & ->). done. }
  assert (Hne : b <> [] \/ entries (net_of (fis_order s)) arr <> []).
  { destruct arr as [|c arr].
    - left. naive_solver.
    - right. intros He. pose proof (entries_count (net_of (fis_order s)) (c :: arr)) as Hc.
      rewrite He, zlen_nil, zlen_cons in Hc. zlia. }
  destruct (readMsg_entry s 0 b _ Hok Hlen Hne Hb) as (off & s' & Hr & Hm & Hok' & Hb' & Ho & Hbuf).
  rewrite Hr. cbn [outcome_bind]. rewrite decide_True by done. rewrite Hbuf, Hm.
  cbn [outcome_bind]. rewrite (u32_small (i + 1)) by lia.
  assert (Hl : (i + 1 =? n) = bool_decide (arr = [])).
  { destruct arr as [|c arr].
    - rewrite bool_decide_eq_true_2 by done. apply Z.eqb_eq. rewrite zlen_nil in *. lia.
    - rewrite bool_decide_eq_false_2 by done. apply Z.eqb_neq. rewrite zlen_cons in *. zlia. }
  rewrite Hl. destruct (handleMsg conn h b (bool_decide (arr = [])) n l) as [rc l'].
  destruct (decide (rc = E_OK)) as [->|]; [|done]. apply IH; try done; try lia.
  - by rewrite Ho.
  - cbn [length] in Hfuel. lia.
Qed.

Lemma entries_fit arr : batch_size arr < 2 ^ 32 -> Forall (fun b => zlen b < 2 ^ 32) arr.
Proof.
  intros Hs. apply Forall_forall. intros b Hb. pose proof (batch_size_elem b arr Hb). lia.
Qed.

(** the reader on the uncompressed payload of a batch *)
Lemma read_batch_payload byteOrder conn h arr l :
  batch_size arr < 2 ^ 32 -> m_batchSize h = zlen arr ->
  readMsgFrame_batch byteOrder conn h (batch_image arr (net_of byteOrder)) (batch_size arr) l =
    Done (deliver conn h (zlen arr) arr l).
Proof.
  intros Hs Hh. unfold readMsgFrame_batch.
  set (buffer := batch_image arr (net_of byteOrder)).
  set (s := MsgBatchReader_new buffer (batch_size arr) byteOrder).
  pose proof (batch_count arr). pose proof (zlen_nonneg arr).
  assert (Hbl : zlen buffer = batch_size arr) by apply batch_image_length.
  assert (Hok : fis_ok s) by (unfold s, fis_ok; cbn; lia).
  assert (Hb : fis_bytes s = uint_image (net_of (fis_order s)) 4 (zlen arr) ++
                             entries (net_of byteOrder) arr).
  { unfold s, fis_bytes. cbn. by rewrite zdrop_0, ztake_all by lia. }
  destruct (read_length 0 s (zlen arr) _ Hok ltac:(lia) Hb) as (s1 & Hd & Hok1 & Hb1 & Ho1 & _).
  cbv zeta. unfold readBatchSize. rewrite Hd. cbn [outcome_bind]. rewrite decide_True by done.
  rewrite Hh, Z.eqb_refl. apply readBatch_loop_ok; try done; try lia.
  - by apply entries_fit.
  - by rewrite Hb1, Ho1.
  - unfold zlen in *. lia.
Qed.
End Reader.

(** ** From the writer to the reader *)

Lemma isBatch_compressed flags :
  (Z.land (Z.lor flags COMMUTIL_MSG_FLAG_COMPRESSED) COMMUTIL_MSG_FLAG_BATCH =? 0) =
  (Z.land flags COMMUTIL_MSG_FLAG_BATCH =? 0).
Proof. rewrite Z.land_lor_distr_l. by rewrite Z.lor_0_r. Qed.

Lemma isCompressed_set flags :
  (Z.land (Z.lor flags COMMUTIL_MSG_FLAG_COMPRESSED) COMMUTIL_MSG_FLAG_COMPRESSED =? 0) = false.
Proof.
  rewrite Z.land_lor_distr_l. apply Z.eqb_neq. intros Hz. apply Z.lor_eq_0_iff in Hz as [_ Hz].
  discriminate.
Qed.

Lemma mem_write_all (old data : list Byte.byte) : zlen old = zlen data ->
  mem_write old 0 data = Done data.
Proof.
  intros Hl. rewrite mem_write_ok by lia. rewrite ztake_0, zdrop_all by lia. by rewrite app_nil_r.
Qed.

(** a frame carries [data]: the payload as it is, or compressed *)
Definition carries `{Gzip} (m : Msg) (data : list Byte.byte) : Prop :=
  getPayloadSizeBytes m = zlen (msg_payload m) /\
  if isCompressed (msg_header m) then
    gzip_decompress (msg_payload m) = Done data /\ m_uncompressedLength (msg_header m) = zlen data
  else msg_payload m = data.

(** the size on the wire *)
Definition frame_fits `{Gzip} `{GzipLaws} (compress : bool) (data : list Byte.byte) : Prop :=
  if compress then
    exists c, gzip_compress data = Done c /\ zlen data <= gzip_limit /\ zlen c <= gzip_limit /\
      zlen c < 2 ^ 32 - sizeof_Msg
  else zlen data < 2 ^ 32 - sizeof_Msg.

Section Roundtrip.
Context `{GzipLaws} {C L : Type} `{FrameListener C L}.

Lemma payload_size_new m : m_length (msg_header m) = sizeof_Msg + zlen (msg_payload m) ->
  zlen (msg_payload m) < 2 ^ 32 - sizeof_Msg -> getPayloadSizeBytes m = zlen (msg_payload m).
Proof. unfold getPayloadSizeBytes, sizeof_Msg. intros -> ?. rewrite u32_small; zlia. Qed.

Lemma batch_frame_carries msgId arr byteOrder compress flags :
  batch_size arr < 2 ^ 32 -> frame_fits compress (batch_image arr (net_of byteOrder)) ->
  (compress = false -> Z.land flags COMMUTIL_MSG_FLAG_COMPRESSED = 0) ->
  exists m, prepareMsgBatchFrame true msgId arr byteOrder compress flags = Done (E_OK, PtrMsg m) /\
    carries m (batch_image arr (net_of byteOrder)) /\ m_batchSize (msg_header m) = zlen arr /\
    isBatch (msg_header m) = negb (Z.land flags COMMUTIL_MSG_FLAG_BATCH =? 0) /\
    isValid (msg_header m) = true.
Proof.
  intros Hs Hfit Hflags. unfold prepareMsgBatchFrame, prepareMsgFrameWith.
  set (w := MsgBufferArrayWriter_new arr byteOrder).
  set (data := batch_image arr (net_of byteOrder)) in *.
  pose proof (batch_count arr). pose proof (zlen_nonneg arr).
  assert (Hsize : mw_getPayloadSizeBytes w = batch_size arr) by (by apply computePayloadSize_small).
  assert (Hcount : mw_getBatchSize w = zlen arr) by (unfold w; cbn; apply u32_small; lia).
  assert (Hdata : zlen data = batch_size arr) by apply batch_image_length.
  assert (Hwrite : forall p, zlen p = batch_size arr -> mw_writeMsg w p = Done (E_OK, data)).
  { intros p Hp. apply batch_written; [done|]. by rewrite Hp. }
  rewrite Hsize, Hcount. destruct compress.
  - destruct Hfit as (c & Hc & Hl1 & Hl2 & Hl). rewrite Hwrite by (rewrite zlen_replicate; lia).
    cbn [outcome_bind]. rewrite decide_True by done. rewrite Hc. cbn [outcome_bind]. unfold sizeof_Msg in Hl.
    rewrite u32_small, allocMsg_ok by (unfold sizeof_Msg; zlia). cbn [outcome_bind].
    cbn [msg_payload set_payload set_header msg_header].
    rewrite mem_write_all by (rewrite zlen_replicate; zlia). cbn [outcome_bind].
    eexists. split; [reflexivity|]. unfold carries, isCompressed, isBatch.
    cbn [msg_payload set_payload set_header msg_header m_flags m_batchSize setBatchSize
         setUncompressedLength MsgHeader_new m_uncompressedLength].
    rewrite isCompressed_set, isBatch_compressed. cbn [negb]. split_and!; try done.
    + by apply payload_size_new.
    + by eapply gzip_inverse.
  - unfold frame_fits, sizeof_Msg in Hfit.
    rewrite allocMsg_ok by (unfold sizeof_Msg; lia). cbn [outcome_bind msg_payload].
    rewrite Hwrite by (rewrite zlen_replicate; lia). cbn [outcome_bind].
    rewrite decide_True by done. eexists. split; [reflexivity|].
    unfold carries, isCompressed, isBatch.
    cbn [msg_payload set_payload set_header msg_header m_flags m_batchSize setBatchSize
         MsgHeader_new m_uncompressedLength].
    rewrite Hflags by done. cbn [negb Z.eqb]. split_and!; try done.
    apply payload_size_new; [cbn; unfold sizeof_Msg; lia|done].
Qed.

(** reading a frame that carries a batch *)
Lemma readMsgFrame_carries byteOrder conn m arr l :
  batch_size arr < 2 ^ 32 ->
  carries m (batch_image arr (net_of byteOrder)) -> m_batchSize (msg_header m) = zlen arr ->
  isBatch (msg_header m) = true ->
  readMsgFrame byteOrder conn m l = Done (deliver conn (msg_header m) (zlen arr) arr
    (recv_stats (zlen (msg_payload m)) (batch_size arr) l)).
Proof.
  intros Hs [Hp Hc] Hn Hb. unfold readMsgFrame. rewrite Hp, Hb. cbn [negb].
  pose proof (batch_image_length arr (net_of byteOrder)) as Hl.
  pose proof (batch_count arr). pose proof (zlen_nonneg arr).
  destruct (isCompressed (msg_header m)).
  - destruct Hc as [Hd Hu]. rewrite mem_read_ok by zlia. cbn [outcome_bind].
    rewrite zdrop_0, ztake_all, Hd by lia. cbn [outcome_bind].
    rewrite Hu, Z.eqb_refl. cbn [outcome_bind].
    rewrite Hl, u32_small by lia. by apply read_batch_payload.
  - cbn [outcome_bind]. rewrite Hc, Hl. by apply read_batch_payload.
Qed.
End Roundtrip.

(** C14. A batch prepared with the batch flag, compressed or not, is unpacked by
    the reader of the same byte order into the messages it was made of: the
    listener sees each of them in order, the last one marked, until it reports an
    error. The exception is a batch whose last message is empty: the messages before
    it are handed out, but it is reported as E_END_OF_STREAM, which the reader
    returns, so that no message is marked as the last one. *)
Theorem batch_frame_roundtrip `{GzipLaws} {C L} `{FrameListener C L} msgId arr byteOrder compress
    flags conn l :
  batch_size arr < 2 ^ 32 ->
  frame_fits compress (batch_image arr (net_of byteOrder)) ->
  (compress = false -> Z.land flags COMMUTIL_MSG_FLAG_COMPRESSED = 0) ->
  Z.land flags COMMUTIL_MSG_FLAG_BATCH <> 0 ->
  exists m, prepareMsgBatchFrame true msgId arr byteOrder compress flags = Done (E_OK, PtrMsg m) /\
    readMsgFrame byteOrder conn m l = Done (deliver conn (msg_header m) (zlen arr) arr
      (recv_stats (zlen (msg_payload m)) (batch_size arr) l)).
Proof.
  intros Hs Hfit Hflags Hb.
  destruct (batch_frame_carries msgId arr byteOrder compress flags Hs Hfit Hflags)
    as (m & Hm & Hc & Hn & Hbatch & _).
  exists m. split; [done|]. apply readMsgFrame_carries; try done.
  rewrite Hbatch. by apply negb_true_iff, Z.eqb_neq.
Qed.

(** a codec for the witnesses: a tag byte in front *)
Definition tag_gzip : Gzip := {|
  gzip_compress := fun b => Done (Byte.x1f :: b);
  gzip_decompress := fun c => match c with Byte.x1f :: b => Done b | _ => Undef UB_throw end;
|}.

Definition tag_gzip_laws : @GzipLaws tag_gzip.
Proof.
  refine (@Build_GzipLaws tag_gzip 1000 _). cbn. intros b c _ _ [= <-]. done.
Defined.

(** a listener that records what it is called with *)
Definition log_listener : FrameListener unit (list (list Byte.byte * bool * Z)) := {|
  handleMsg := fun _ _ b lastInBatch n l => (E_OK, l ++ [(b, lastInBatch, n)]);
  handleMsgError := fun _ _ _ l => l;
  onRecvMsgStats := None;
|}.

Lemma batch_frame_roundtrip_witness :
  (exists m, @prepareMsgBatchFrame tag_gzip true 7 sample_batch NETWORK_ORDER true 2 =
      Done (E_OK, PtrMsg m) /\
    @readMsgFrame tag_gzip unit _ log_listener NETWORK_ORDER tt m [] =
      Done (E_OK, [(le_split 3 0xABCDEF, false, 3); ([], false, 3);
                   (le_split 5 0x0102030405, true, 3)])) /\
  (exists m, @prepareMsgBatchFrame tag_gzip true 7 [le_split 3 0xABCDEF; []] NETWORK_ORDER true 2 =
      Done (E_OK, PtrMsg m) /\
    @readMsgFrame tag_gzip unit _ log_listener NETWORK_ORDER tt m [] =
      Done (E_END_OF_STREAM, [(le_split 3 0xABCDEF, false, 2)])).
Proof.
  split.
  - apply (@batch_frame_roundtrip tag_gzip tag_gzip_laws unit _ log_listener 7 sample_batch
             NETWORK_ORDER true 2 tt []).
    + reflexivity.
    + exists (Byte.x1f :: batch_image sample_batch true). vm_compute. intuition congruence.
    + discriminate.
    + discriminate.
  - apply (@batch_frame_roundtrip tag_gzip tag_gzip_laws unit _ log_listener 7 [le_split 3 0xABCDEF; []]
             NETWORK_ORDER true 2 tt []).
    + reflexivity.
    + exists (Byte.x1f :: batch_image [le_split 3 0xABCDEF; []] true). vm_compute. intuition congruence.
    + discriminate.
    + discriminate.
Defined.

(** A body prepared as a single message, compressed or not, is handed to the
    listener unchanged, as the last message of a batch of one. *)
Theorem single_frame_roundtrip `{GzipLaws} {C L} `{FrameListener C L} msgId body byteOrder compress
    flags conn l :
  frame_fits compress body -> zlen body < 2 ^ 32 ->
  (compress = false -> Z.land flags COMMUTIL_MSG_FLAG_COMPRESSED = 0) ->
  Z.land flags COMMUTIL_MSG_FLAG_BATCH = 0 ->
  exists m, prepareMsgFrame true msgId body compress flags = Done (E_OK, PtrMsg m) /\
    readMsgFrame byteOrder conn m l = Done (handleMsg conn (msg_header m) body true 1
      (recv_stats (zlen (msg_payload m)) (zlen body) l)).
Proof.
  intros Hfit Hsmall Hflags Hb. unfold prepareMsgFrame. pose proof (zlen_nonneg body).
  assert (Hread : forall m, carries m body -> isBatch (msg_header m) = false ->
    readMsgFrame byteOrder conn m l = Done (handleMsg conn (msg_header m) body true 1
      (recv_stats (zlen (msg_payload m)) (zlen body) l))).
  { intros m [Hp Hc] Hbm. unfold readMsgFrame. rewrite Hp, Hbm. cbn [negb].
    destruct (isCompressed (msg_header m)).
    - destruct Hc as [Hd Hu]. rewrite mem_read_ok by zlia. cbn [outcome_bind].
      rewrite zdrop_0, ztake_all, Hd by lia. cbn [outcome_bind].
    rewrite Hu, Z.eqb_refl. cbn [outcome_bind].
      rewrite !u32_small by lia. rewrite mem_read_ok by lia. cbn [outcome_bind].
      by rewrite zdrop_0, ztake_all by lia.
    - cbn [outcome_bind]. rewrite Hc, mem_read_ok by lia. cbn [outcome_bind].
      by rewrite zdrop_0, ztake_all by lia. }
  destruct compress.
  - destruct Hfit as (c & Hc & Hl1 & Hl2 & Hl). rewrite Hc. cbn [outcome_bind].
    unfold sizeof_Msg in Hl. rewrite u32_small, (u32_small (zlen body)) by zlia.
    rewrite allocMsg_ok by (unfold sizeof_Msg; zlia). cbn [outcome_bind msg_payload].
    rewrite mem_write_all by (rewrite zlen_replicate; zlia). cbn [outcome_bind].
    eexists. split; [reflexivity|]. apply Hread.
    + split; [by apply payload_size_new|].
      unfold isCompressed. cbn [msg_payload set_payload set_header msg_header m_flags
        setUncompressedLength MsgHeader_new m_uncompressedLength].
      rewrite isCompressed_set. cbn [negb]. split; [by eapply gzip_inverse|done].
    + unfold isBatch. cbn [set_payload set_header msg_header m_flags setUncompressedLength
        MsgHeader_new]. by rewrite isBatch_compressed, Hb.
  - cbn [outcome_bind]. unfold frame_fits, sizeof_Msg in Hfit.
    rewrite u32_small, allocMsg_ok by (unfold sizeof_Msg; lia). cbn [outcome_bind msg_payload].
    rewrite mem_write_all by (rewrite zlen_replicate; lia). cbn [outcome_bind].
    eexists. split; [reflexivity|]. apply Hread.
    + split; [by apply payload_size_new|].
      unfold isCompressed. cbn [msg_payload set_payload set_header msg_header m_flags MsgHeader_new].
      by rewrite Hflags.
    + unfold isBatch. cbn [set_payload msg_header m_flags MsgHeader_new]. by rewrite Hb.
Qed.

Lemma single_frame_roundtrip_witness :
  exists m, @prepareMsgFrame tag_gzip true 7 (le_split 3 9) true 0 = Done (E_OK, PtrMsg m) /\
    @readMsgFrame tag_gzip unit _ log_listener NETWORK_ORDER tt m [] =
      Done (E_OK, [(le_split 3 9, true, 1)]).
Proof.
  apply (@single_frame_roundtrip tag_gzip tag_gzip_laws unit _ log_listener 7 (le_split 3 9)
           NETWORK_ORDER true 0 tt []).
  - exists (Byte.x1f :: le_split 3 9). vm_compute. intuition congruence.
  - reflexivity.
  - discriminate.
  - reflexivity.
Defined.

(** ** Errors and termination of the reader *)

Section ReaderTotal.
Context `{Gzip} {C L : Type} `{FrameListener C L}.

Lemma des_length_total l0 s : fis_ok s ->
  exists rc n s1, des_uint32 (fun x : Z => x) (fun x _ => x) (l0, s) = Done (rc, (n, s1)) /\
    (rc = E_OK -> fis_ok s1 /\ fis_buf s1 = fis_buf s /\ 0 <= n /\
                  fis_getSize s1 = fis_getSize s - 4).
Proof.
  intros Hok.
  destruct (decodes_uint (H1 := FixedInputStream_over_laws (fis_buf s) (fis_size s)) 4
    (fun x : Z => x) (fun x _ => x) ltac:(lia) l0 s (conj Hok (conj eq_refl eq_refl))) as [Hd Hf].
  change (Z.of_nat 4) with 4 in *. destruct (Z_le_gt_dec 4 (is_size s)) as [Hle|Hgt].
  - destruct (Hd Hle) as (s1 & Hrun & (Hok1 & Hb & Hs) & Hby & _).
    eexists _, _, s1. split; [exact Hrun|]. intros _. cbn in Hle, Hby.
    change (is_bytes s1) with (fis_bytes s1) in Hby. change (is_bytes s) with (fis_bytes s) in Hby.
    pose proof (fis_bytes_length s Hok). pose proof (fis_size_ok s Hok).
    pose proof (fis_bytes_length s1 Hok1) as Hl1. rewrite Hby, zlen_zdrop in Hl1 by lia.
    rewrite (fis_size_ok s1 Hok1). split_and!; try done; [|lia].
    destruct (is_isNetworkOrder s); [apply byte_swap_range|apply le_combine_bound].
  - destruct (Hf ltac:(lia)) as (n & s1 & Hrun). eexists E_END_OF_STREAM, n, s1. done.
Qed.

Lemma readBatch_loop_total conn h : forall fuel i n rc s l,
  fis_ok s -> fis_getSize s < Z.of_nat fuel ->
  readBatch_loop fuel conn h i n rc s l <> NoFuel.
Proof.
  induction fuel as [|fuel IH]; intros i n rc s l Hok Hf.
  { pose proof (fis_size_ok s Hok). destruct Hok as (? & ? & ?). lia. }
  cbn [readBatch_loop]. destruct (i <? n); [|done]. unfold readMsg.
  destruct (des_length_total 0 s Hok) as (rc1 & len & s1 & -> & Hs1). cbn [outcome_bind].
  destruct (decide (rc1 = E_OK)) as [->|Hne];
    [|cbn [outcome_bind]; by rewrite decide_False by done].
  destruct (Hs1 eq_refl) as (Hok1 & Hb1 & Hn & Hsz).
  cbn [skipBytes FixedInputStream_stream].
  destruct (Z_lt_ge_dec 0 (fis_getSize s1)) as [Hpos|Hzero].
  - destruct (fis_skip_done s1 len Hok1) as (-> & Hok2 & Hby2); [lia|lia|].
    cbn [outcome_bind io_rc]. rewrite decide_True by done.
    unfold mem_read. destruct (_ && _); cbn [outcome_bind]; [|done].
    destruct (handleMsg conn h _ _ _ _) as [rc2 l2].
    destruct (decide (rc2 = E_OK)); [|done]. apply IH; [done|].
    pose proof (fis_bytes_length _ Hok2) as Hl2. pose proof (fis_size_ok _ Hok2).
    pose proof (fis_bytes_length _ Hok1). pose proof (fis_size_ok _ Hok1).
    rewrite Hby2, zlen_zdrop in Hl2 by lia. lia.
  - unfold fis_skipBytes. pose proof (fis_size_ok s1 Hok1). destruct Hok1 as (? & ? & ?).
    rewrite (proj2 (Z.eqb_eq _ 0)) by lia. cbn [outcome_bind io_rc]. done.
Qed.
End ReaderTotal.

(** Whatever bytes a frame holds, unpacking it comes to an end: the loop over
    the batch never runs out of its fuel, even if the batch size is forged. *)
Theorem readMsgFrame_terminates `{Gzip} {C L} `{FrameListener C L} byteOrder conn m l :
  getPayloadSizeBytes m <= zlen (msg_payload m) ->
  (forall c, gzip_decompress c <> NoFuel) ->
  (forall c d, gzip_decompress c = Done d -> zlen d < 2 ^ 32) ->
  readMsgFrame byteOrder conn m l <> NoFuel.
Proof.
  intros Hp Hn Hz. unfold readMsgFrame.
  assert (Hbatch : forall buf size l, 0 <= size <= zlen buf -> size < 2 ^ 32 ->
    readMsgFrame_batch byteOrder conn (msg_header m) buf size l <> NoFuel).
  { intros buf size l' Hsize Hbound. unfold readMsgFrame_batch. cbv zeta.
    set (s := MsgBatchReader_new buf size byteOrder).
    assert (Hok : fis_ok s) by (unfold s, fis_ok; cbn; lia).
    pose proof (fis_size_ok s Hok) as Hsz.
    unfold readBatchSize. destruct (des_length_total 0 s Hok) as (rc & n & s1 & -> & Hs1).
    cbn [outcome_bind]. destruct (decide (rc = E_OK)) as [->|]; [|done].
    destruct (n =? m_batchSize (msg_header m)); [|done].
    destruct (Hs1 eq_refl) as (Hok1 & _ & _ & Hsz1). apply readBatch_loop_total; [done|].
    unfold s in *. cbn in Hsz. unfold zlen in *. lia. }
  assert (Hr : 0 <= getPayloadSizeBytes m < 2 ^ 32) by apply u32_range.
  destruct (isCompressed (msg_header m)).
  - rewrite mem_read_ok by lia. cbn [outcome_bind].
    specialize (Hn (ztake (getPayloadSizeBytes m) (zdrop 0 (msg_payload m)))).
    destruct (gzip_decompress _) as [d| |] eqn:Hd; [|done..]. pose proof (Hz _ _ Hd).
    cbn [outcome_bind].
    destruct (zlen d =? _); cbn [outcome_bind]; [|done].
    pose proof (zlen_nonneg d). rewrite u32_small by lia. destruct (isBatch _); cbn [negb].
    + apply Hbatch; lia.
    + rewrite mem_read_ok by lia. done.
  - cbn [outcome_bind]. destruct (isBatch _); cbn [negb].
    + apply Hbatch; lia.
    + rewrite mem_read_ok by lia. done.
Qed.

Definition forged_msg : Msg :=
  MkMsg (setBatch (setBatchSize (2 ^ 32 - 1) (MsgHeader_new 48 7 0 0 0)))
    (uint_image true 4 (2 ^ 32 - 1) ++ le_split 4 0).

Lemma readMsgFrame_terminates_witness :
  @readMsgFrame tag_gzip unit _ log_listener NETWORK_ORDER tt (set_payload (msg_payload forged_msg)
    forged_msg) [] <> NoFuel /\
  @readMsgFrame {| gzip_compress := Done; gzip_decompress := fun _ => Undef UB_throw |} unit _ log_listener
    NETWORK_ORDER tt forged_msg [] <> NoFuel.
Proof.
  split; [vm_compute; discriminate|].
  apply (@readMsgFrame_terminates {| gzip_compress := Done; gzip_decompress := fun _ => Undef UB_throw |}
           unit _ log_listener NETWORK_ORDER tt forged_msg []).
  - vm_compute. discriminate.
  - discriminate.
  - discriminate.
Defined.

(** A compressed frame whose decompressed size differs from the header's is
    rejected as corrupt: the listener gets the error and no message. *)
Theorem corrupt_size_rejected `{Gzip} {C L} `{FrameListener C L} byteOrder conn m d l :
  getPayloadSizeBytes m = zlen (msg_payload m) -> isCompressed (msg_header m) = true ->
  gzip_decompress (msg_payload m) = Done d -> zlen d <> m_uncompressedLength (msg_header m) ->
  readMsgFrame byteOrder conn m l =
    Done (E_DATA_CORRUPT, handleMsgError conn (msg_header m) E_DATA_CORRUPT l).
Proof.
  intros Hp Hc Hd Hne. unfold readMsgFrame. rewrite Hp, Hc, mem_read_ok by zlia.
  cbn [outcome_bind]. rewrite zdrop_0, ztake_all, Hd by lia. cbn [outcome_bind].
  by rewrite (proj2 (Z.eqb_neq _ _)) by done.
Qed.

Lemma corrupt_size_rejected_witness :
  @readMsgFrame tag_gzip unit _ log_listener NETWORK_ORDER tt
    (MkMsg (setUncompressedLength 3 (MsgHeader_new 43 7 1 0 0)) (Byte.x1f :: le_split 2 0)) [] =
  Done (E_DATA_CORRUPT, []).
Proof.
  apply (@corrupt_size_rejected tag_gzip unit _ log_listener NETWORK_ORDER tt
    (MkMsg (setUncompressedLength 3 (MsgHeader_new 43 7 1 0 0)) (Byte.x1f :: le_split 2 0))
    (le_split 2 0) []); vm_compute; congruence.
Defined.
