(* ===== verification/Gzip.v ===== *)
(** * Compression (gzip-hpp)

    The classes Compressor and Decompressor of third_party/gzip-hpp over zlib,
    which is a parameter, and how they discharge the interface of [Frame]. *)

From Stdlib Require Import ZArith Lia.
From coqutil Require Import Byte.
From S2P Require Import Prelude Errors StrSearch Io Serializable Msg Batch Frame.
Open Scope Z_scope.

(** ** zlib *)

Definition Z_OK : Z := 0.
Definition Z_STREAM_END : Z := 1.
Definition Z_BUF_ERROR : Z := -5.
Definition Z_BEST_COMPRESSION : Z := 9.
Definition Z_DEFAULT_COMPRESSION : Z := -1.

(** zlib over the state [S] of a z_stream. [deflate] and [inflate] are the calls
    with Z_FINISH: they take the input at next_in and the room avail_out, and
    return the input that is left and the bytes written to next_out; [inflate]
    returns its code first. [z_msg] tells whether the pointer msg is set. *)
Class Zlib (S : Type) := {
  deflateInit2 : Z -> Z -> Z -> option S;   (* level, window bits, memory level *)
  deflate : S -> list Byte.byte -> Z -> list Byte.byte * list Byte.byte * S;
  inflateInit2 : Z -> option S;             (* window bits *)
  inflate : S -> list Byte.byte -> Z -> Z * list Byte.byte * list Byte.byte * S;
  z_msg : S -> bool;
}.

(** What the manual of zlib and the format (RFC 1952) promise. [gzips data z]:
    [z] is a gzip stream of [data]. [deflating s out i data]: the stream [s] has
    written [out] of such a stream so far and has [i] of the input left; its end
    shows by room that is left. [inflating s i r]: the stream [s] has [r] to
    write before it reaches the end of its input [i]. [idle s]: nothing was read. *)
Class ZlibLaws (S : Type) `{Zlib S} := {
  gzips : list Byte.byte -> list Byte.byte -> Prop;
  deflating : S -> list Byte.byte -> list Byte.byte -> list Byte.byte -> Prop;
  inflating : S -> list Byte.byte -> list Byte.byte -> Prop;
  idle : S -> Prop;
  gzips_magic data z : gzips data z -> exists r, z = Byte.x1f :: Byte.x8b :: r /\ r <> [];
  gzips_bound data z : gzips data z -> zlen z <= 2 * zlen data + 1024;
  deflate_starts level data : -1 <= level <= 9 ->
    exists s, deflateInit2 level 31 8 = Some s /\ deflating s [] data data;
  deflate_step s out i data n : deflating s out i data -> 0 < n ->
    exists i' o s', deflate s i n = (i', o, s') /\ zlen o <= n /\
      if zlen o =? n then deflating s' (out ++ o) i' data else gzips data (out ++ o);
  deflate_bound s out i data : deflating s out i data -> zlen out <= 2 * zlen data + 1024;
  inflate_starts data z : gzips data z -> exists s, inflateInit2 47 = Some s /\ inflating s z data;
  inflate_step s i r n : inflating s i r -> 0 < n ->
    exists ret i' s', inflate s i n = (ret, i', ztake n r, s') /\
      (ret = Z_STREAM_END \/ ret = Z_OK \/ ret = Z_BUF_ERROR) /\ inflating s' i' (zdrop n r);
  inflate_cut data z1 z2 : gzips data (z1 ++ z2) -> z1 <> [] ->
    exists s r, inflateInit2 47 = Some s /\ inflating s z1 r /\ r `prefix_of` data /\
      (zlen z2 <= 8 -> r = data);
  inflate_fresh s : inflateInit2 47 = Some s -> idle s;
  inflate_idle s : idle s -> exists s', inflate s [] 0 = (Z_BUF_ERROR, [], [], s') /\ idle s';
}.

(** ** The classes *)

(** std::string::resize *)
Definition resize (n : Z) (l : list Byte.byte) : list Byte.byte :=
  ztake n l ++ replicate (Z.to_nat (n - zlen l)) NUL.

Record Compressor := MkCompressor { comp_max : Z; comp_level : Z }.

Definition Compressor_new (level : Z) : Compressor := MkCompressor 2000000000 level.

Record Decompressor := MkDecompressor { dec_max : Z }.

Definition Decompressor_new : Decompressor := MkDecompressor 1000000000.

Section Codec.
Context {S : Type} `{Zlib S}.

(** the do loop of Compressor::compress *)
Fixpoint compress_loop (fuel : nat) (size : Z) (deflate_s : S) (next_in : list Byte.byte)
    (size_compressed : Z) (output : list Byte.byte) : outcome (list Byte.byte) :=
  match fuel with
  | O => NoFuel
  | Datatypes.S fuel =>
    let increase := size / 2 + 1024 in
    let output := if zlen output <? u64 (size_compressed + increase)
                  then resize (u64 (size_compressed + increase)) output else output in
    let avail_out := u32 increase in
    let '(next_in, written, deflate_s) := deflate deflate_s next_in avail_out in
    let* output := mem_write output size_compressed written in
    let avail_out := avail_out - zlen written in
    let size_compressed := u64 (size_compressed + (increase - avail_out)) in
    if avail_out =? 0 then compress_loop fuel size deflate_s next_in size_compressed output
    else Done (resize size_compressed output)
  end.

(** four rounds are enough *)
Definition compress_rounds : nat := 4.

Definition Compressor_compress (c : Compressor) (output data : list Byte.byte)
  : outcome (list Byte.byte) :=
  let size := zlen data in
  if comp_max c <? size then Undef UB_throw
  else match deflateInit2 (comp_level c) (15 + 16) 8 with
  | None => Undef UB_throw
  | Some deflate_s =>
    compress_loop compress_rounds size deflate_s (ztake (u32 size) data) 0 output
  end.

(** the free function compress *)
Definition compress (data : list Byte.byte) (level : Z) : outcome (list Byte.byte) :=
  Compressor_compress (Compressor_new level) [] data.

(** the do loop of Decompressor::decompress *)
Fixpoint decompress_loop (fuel : nat) (max size : Z) (inflate_s : S) (next_in : list Byte.byte)
    (size_uncompressed : Z) (output : list Byte.byte) : outcome (list Byte.byte) :=
  match fuel with
  | O => NoFuel
  | Datatypes.S fuel =>
    let resize_to := u64 (size_uncompressed + 2 * size) in
    if max <? resize_to then Undef UB_throw
    else
      let output := resize resize_to output in
      let avail_out := u32 (2 * size) in
      let '(ret, next_in, written, inflate_s) := inflate inflate_s next_in avail_out in
      let* output := mem_write output size_uncompressed written in
      if negb (ret =? Z_STREAM_END) && negb (ret =? Z_OK) && negb (ret =? Z_BUF_ERROR) then
        if z_msg inflate_s then Undef UB_throw else Undef UB_null
      else
        let avail_out := avail_out - zlen written in
        let size_uncompressed := u64 (size_uncompressed + (2 * size - avail_out)) in
        if avail_out =? 0 then
          decompress_loop fuel max size inflate_s next_in size_uncompressed output
        else Done (resize size_uncompressed output)
  end.

Definition Decompressor_decompress (fuel : nat) (c : Decompressor) (output data : list Byte.byte)
  : outcome (list Byte.byte) :=
  let size := zlen data in
  match inflateInit2 (15 + 32) with
  | None => Undef UB_throw
  | Some inflate_s =>
    if (dec_max c <? size) || (dec_max c <? u64 (size * 2)) then Undef UB_throw
    else decompress_loop fuel (dec_max c) size inflate_s (ztake (u32 size) data) 0 output
  end.

(** the free function decompress *)
Definition decompress (fuel : nat) (data : list Byte.byte) : outcome (list Byte.byte) :=
  Decompressor_decompress fuel Decompressor_new [] data.

(** the library as the message frames use it *)
Definition gzip_hpp (fuel : nat) : Gzip := {|
  gzip_compress body := Compressor_compress (Compressor_new Z_BEST_COMPRESSION) [] body;
  gzip_decompress buffer := Decompressor_decompress fuel Decompressor_new [] buffer;
|}.
End Codec.

(** utils.hpp *)
Definition is_compressed (data : list Byte.byte) : bool :=
  match data with
  | a :: b :: _ =>
    (2 <? zlen data) &&
    ((byte.unsigned a =? 0x78) &&
       ((byte.unsigned b =? 0x9C) || (byte.unsigned b =? 0x01) || (byte.unsigned b =? 0xDA) ||
        (byte.unsigned b =? 0x5E)) ||
     (byte.unsigned a =? 0x1F) && (byte.unsigned b =? 0x8B))
  | _ => false
  end.

(** ** The output string *)

Lemma zlen_resize n l : 0 <= n -> zlen (resize n l) = n.
Proof.
  intros Hn. unfold resize. rewrite zlen_app, zlen_replicate.
  destruct (Z_le_gt_dec n (zlen l)).
  - rewrite zlen_ztake by lia. lia.
  - rewrite ztake_all by lia. lia.
Qed.

(** [output] starts with [pre] *)
Definition holds (pre output : list Byte.byte) : Prop :=
  exists rest, output = pre ++ rest.

Lemma holds_len pre output : holds pre output -> zlen pre <= zlen output.
Proof. intros [rest ->]. rewrite zlen_app. zlia. Qed.

Lemma holds_resize pre output n : holds pre output -> zlen pre <= n ->
  holds pre (resize n output).
Proof.
  intros [rest ->] Hn. unfold resize, holds. rewrite ztake_app_ge, <- app_assoc by lia. eauto.
Qed.

Lemma resize_holds pre output : holds pre output -> resize (zlen pre) output = pre.
Proof.
  intros [rest ->]. unfold resize. rewrite ztake_app_length by done. rewrite zlen_app.
  pose proof (zlen_nonneg rest).
  replace (Z.to_nat _) with 0%nat by lia. apply app_nil_r.
Qed.

Lemma holds_write pre output d : holds pre output -> zlen pre + zlen d <= zlen output ->
  exists output', mem_write output (zlen pre) d = Done output' /\ holds (pre ++ d) output' /\
    zlen output' = zlen output.
Proof.
  intros [rest ->] Hl. eexists. rewrite mem_write_ok by zlia. split; [done|].
  rewrite ztake_app_length by done. split.
  - eexists. by rewrite <- app_assoc.
  - rewrite zlen_app in Hl |- *. rewrite zdrop_app_ge by zlia. rewrite !zlen_app, zlen_zdrop; zlia.
Qed.

(** ** Compression ends and yields a gzip stream *)

Section Compression.
Context {S : Type} `{ZlibLaws S}.
Implicit Types (s : S) (data out i z : list Byte.byte).

Lemma compress_loop_ok data : zlen data <= 2000000000 ->
  forall fuel s out i output, deflating s out i data -> holds out output ->
  2 * zlen data + 1024 < zlen out + Z.of_nat fuel * (zlen data / 2 + 1024) ->
  exists z, compress_loop fuel (zlen data) s i (zlen out) output = Done z /\ gzips data z.
Proof.
  intros Hmax. pose proof (zlen_nonneg data) as Hd.
  pose proof (Z.div_mod (zlen data) 2 ltac:(lia)). pose proof (Z.mod_pos_bound (zlen data) 2 ltac:(lia)).
  set (incr := zlen data / 2 + 1024).
  assert (Hi : 0 < incr < 2 ^ 32) by lia.
  induction fuel as [|fuel IH]; intros s out i output Hs Ho Hf.
  { pose proof (deflate_bound _ _ _ _ Hs). lia. }
  pose proof (deflate_bound _ _ _ _ Hs) as Hb. pose proof (zlen_nonneg out).
  cbn [compress_loop]. fold incr. rewrite (u64_small (zlen out + incr)), (u32_small incr) by lia.
  set (output1 := if zlen output <? zlen out + incr then _ else _).
  assert (Ho1 : holds out output1 /\ zlen out + incr <= zlen output1).
  { unfold output1. destruct (Z.ltb_spec (zlen output) (zlen out + incr)); [|done].
    split; [apply holds_resize; [done|lia]|rewrite zlen_resize; lia]. }
  destruct Ho1 as [Ho1 Hl1].
  destruct (deflate_step s out i data incr Hs ltac:(lia)) as (i' & o & s' & -> & Hn & Hnext).
  destruct (holds_write out output1 o Ho1 ltac:(lia)) as (output2 & -> & Ho2 & _).
  rewrite outcome_bind_done. pose proof (zlen_nonneg o).
  replace (zlen out + (incr - (incr - zlen o))) with (zlen (out ++ o)) by (rewrite zlen_app; lia).
  assert (Ha : zlen (out ++ o) < 2 ^ 64) by (rewrite zlen_app; lia).
  rewrite u64_small by (split; [apply zlen_nonneg|done]).
  destruct (Z.eqb_spec (zlen o) incr) as [He|He].
  - rewrite (proj2 (Z.eqb_eq _ 0)) by lia. apply IH; [done|done|]. rewrite zlen_app. lia.
  - rewrite (proj2 (Z.eqb_neq _ 0)) by lia. eexists. split; [done|]. by rewrite resize_holds.
Qed.

Lemma Compressor_compress_ok level data output : -1 <= level <= 9 -> zlen data <= 2000000000 ->
  exists z, Compressor_compress (Compressor_new level) output data = Done z /\ gzips data z.
Proof.
  intros Hl Hmax. pose proof (zlen_nonneg data).
  unfold Compressor_compress. cbn [comp_max comp_level Compressor_new]. change (15 + 16) with 31.
  rewrite (proj2 (Z.ltb_ge _ _)) by lia.
  destruct (deflate_starts level data Hl) as (s & -> & Hs).
  rewrite u32_small, ztake_all by lia.
  apply (compress_loop_ok data Hmax compress_rounds s [] data output Hs).
  - by exists output.
  - pose proof (Z.div_mod (zlen data) 2 ltac:(lia)).
    pose proof (Z.mod_pos_bound (zlen data) 2 ltac:(lia)).
    rewrite zlen_nil. unfold compress_rounds. lia.
Qed.
End Compression.

(** ** Decompression *)

Section Decompression.
Context {S : Type} `{ZlibLaws S}.
Implicit Types (s : S) (data out i z r : list Byte.byte).

(** on a stream that has [r] to write *)
Lemma decompress_loop_ok max size r : 0 < size -> zlen r + 2 * size <= max -> max < 2 ^ 32 ->
  forall fuel s out i output, inflating s i (zdrop (zlen out) r) -> out = ztake (zlen out) r ->
  holds out output -> zlen r - zlen out < 2 * size * Z.of_nat fuel ->
  decompress_loop fuel max size s i (zlen out) output = Done r.
Proof.
  intros Hsize Hfit Hmax. pose proof (zlen_nonneg r) as Hr.
  assert (Htake : forall out : list Byte.byte, out = ztake (zlen out) r -> zlen out <= zlen r).
  { intros out Ho. destruct (Z_le_gt_dec (zlen out) (zlen r)); [done|].
    rewrite ztake_all in Ho by lia. by subst. }
  induction fuel as [|fuel IH]; intros s out i output Hs Hout Ho Hf.
  { specialize (Htake out Hout). lia. }
  pose proof (Htake out Hout) as Hle. pose proof (zlen_nonneg out).
  cbn [decompress_loop]. rewrite (u64_small (zlen out + 2 * size)), (u32_small (2 * size)) by lia.
  rewrite (proj2 (Z.ltb_ge _ _)) by lia.
  destruct (inflate_step s i _ (2 * size) Hs ltac:(lia)) as (ret & i' & s' & -> & Hret & Hs').
  set (o := ztake (2 * size) (zdrop (zlen out) r)) in *.
  assert (Hlo : zlen o <= 2 * size).
  { unfold o, zlen, ztake. rewrite length_take. lia. }
  pose proof (zlen_nonneg o).
  assert (Ho1 : holds out (resize (zlen out + 2 * size) output)) by (apply holds_resize; [done|lia]).
  destruct (holds_write _ _ o Ho1) as (output2 & -> & Ho2 & _).
  { rewrite zlen_resize by lia. lia. }
  rewrite outcome_bind_done.
  assert (Hok : negb (ret =? Z_STREAM_END) && negb (ret =? Z_OK) && negb (ret =? Z_BUF_ERROR) = false)
    by (destruct Hret as [->|[->| ->]]; reflexivity).
  rewrite Hok.
  replace (zlen out + (2 * size - (2 * size - zlen o))) with (zlen (out ++ o))
    by (rewrite zlen_app; lia).
  assert (Hout' : out ++ o = ztake (zlen (out ++ o)) r).
  { rewrite zlen_app, ztake_split, <- Hout by lia. f_equal. unfold o at 1.
    destruct (Z_le_gt_dec (zlen (zdrop (zlen out) r)) (2 * size)).
    - unfold o. rewrite !(ztake_all (2 * size)) by lia. by rewrite ztake_all by lia.
    - unfold o. by rewrite (zlen_ztake (2 * size)) by lia. }
  pose proof (Htake _ Hout') as Hle'. rewrite u64_small by (split; [apply zlen_nonneg|lia]).
  destruct (Z.eqb_spec (2 * size - zlen o) 0) as [He|He].
  - apply IH; [|done|done|rewrite zlen_app; lia].
    rewrite zlen_app, <- zdrop_zdrop by lia. by replace (zlen o) with (2 * size) by lia.
  - rewrite resize_holds by done. f_equal.
    assert (Hend : zlen (zdrop (zlen out) r) < 2 * size).
    { destruct (Z_le_gt_dec (2 * size) (zlen (zdrop (zlen out) r))); [|lia].
      unfold o in He. rewrite zlen_ztake in He by lia. lia. }
    unfold o. rewrite ztake_all by lia. rewrite Hout at 1. apply ztake_zdrop.
Qed.

Lemma Decompressor_decompress_ok fuel c s z r output :
  inflateInit2 47 = Some s -> inflating s z r -> z <> [] ->
  zlen r + 2 * zlen z <= dec_max c -> dec_max c < 2 ^ 32 -> zlen r < 2 * zlen z * Z.of_nat fuel ->
  Decompressor_decompress fuel c output z = Done r.
Proof.
  intros Hs Hr Hz Hfit Hmax Hf. unfold Decompressor_decompress. change (15 + 32) with 47.
  rewrite Hs. pose proof (zlen_nonneg r). pose proof (zlen_nonneg z).
  assert (0 < zlen z) by (destruct z; [done|rewrite zlen_cons; zlia]).
  rewrite !(proj2 (Z.ltb_ge _ _)) by (rewrite ?u64_small; lia). cbn [orb].
  rewrite u32_small, ztake_all by lia.
  apply (decompress_loop_ok (dec_max c) (zlen z) r ltac:(lia) Hfit Hmax fuel s [] z output Hr).
  - reflexivity.
  - by exists output.
  - rewrite zlen_nil. lia.
Qed.
End Decompression.

(** ** The end of decompression, for any zlib *)

Section Termination.
Context {S : Type} `{Zlib S}.

Lemma decompress_loop_ends max size : 0 < size -> 2 * size <= max -> max < 2 ^ 32 ->
  forall fuel (s : S) i n output, 0 <= n -> n <= max -> max - n < 2 * size * Z.of_nat fuel ->
  decompress_loop fuel max size s i n output <> NoFuel /\
  (forall d, decompress_loop fuel max size s i n output = Done d -> zlen d <= max).
Proof.
  intros Hsize Hmin Hmax.
  induction fuel as [|fuel IH]; intros s i n output Hn Hle Hf; [lia|].
  cbn [decompress_loop]. rewrite (u64_small (n + 2 * size)), (u32_small (2 * size)) by lia.
  destruct (Z.ltb_spec max (n + 2 * size)); [done|].
  destruct (inflate s i (2 * size)) as [[[ret i'] o] s'].
  unfold mem_write. rewrite zlen_resize by lia.
  destruct (Z.leb_spec 0 n); [|done].
  destruct (Z.leb_spec (n + zlen o) (n + 2 * size)); [|done].
  cbn [andb]. rewrite outcome_bind_done. pose proof (zlen_nonneg o).
  destruct (_ && _); [by destruct (z_msg s')|].
  rewrite u64_small by lia.
  destruct (Z.eqb_spec (2 * size - zlen o) 0); [apply IH; lia|].
  split; [done|]. intros d [= <-]. rewrite zlen_resize; lia.
Qed.

Lemma decompress_ends_ok fuel c output z : z <> [] -> dec_max c < 2 ^ 32 ->
  dec_max c < 2 * zlen z * Z.of_nat fuel ->
  Decompressor_decompress fuel c output z <> NoFuel /\
  (forall d, Decompressor_decompress fuel c output z = Done d -> zlen d <= dec_max c).
Proof.
  intros Hz Hmax Hf. unfold Decompressor_decompress.
  destruct (inflateInit2 _) as [s|]; [|done].
  assert (0 < zlen z) by (destruct z; [done|rewrite zlen_cons; zlia]).
  destruct (Z.ltb_spec (dec_max c) (zlen z)); [done|].
  destruct (Z.ltb_spec (dec_max c) (u64 (zlen z * 2))) as [|Hle]; [done|]. cbn [orb].
  rewrite u64_small in Hle by lia. apply decompress_loop_ends; lia.
Qed.

(** C17. Whatever zlib answers, decompressing input that is not empty comes to an
    end: a round that fills its room adds twice the size of the input to the
    output, and the limit of the decompressor is checked before each round. So a
    result is never longer than the limit, however much the input would expand. *)
Theorem decompress_ends fuel c output z : z <> [] -> dec_max c < 2 ^ 32 ->
  dec_max c < 2 * zlen z * Z.of_nat fuel ->
  Decompressor_decompress fuel c output z <> NoFuel /\
  (forall d, Decompressor_decompress fuel c output z = Done d -> zlen d <= dec_max c).
Proof. apply decompress_ends_ok. Qed.
End Termination.

(** ** What the laws of zlib give *)

Section Laws.
Context {S : Type} `{ZlibLaws S}.
Implicit Types (s : S) (data z : list Byte.byte).

Lemma gzips_nonempty data z : gzips data z -> z <> [].
Proof. intros (r & -> & _)%gzips_magic. done. Qed.

Lemma gzips_detected data z : gzips data z -> is_compressed z = true.
Proof.
  intros (r & -> & Hr)%gzips_magic. unfold is_compressed.
  rewrite (proj2 (Z.ltb_lt 2 _)); [done|].
  destruct r; [done|]. rewrite !zlen_cons. zlia.
Qed.

(** C16. What the compressor makes of a body of up to 199,999,590 bytes is
    recognized as compressed, is decompressed into the same body, and neither
    loop runs on: the compressor needs at most four rounds. *)
Theorem gzip_roundtrip fuel level data : -1 <= level <= 9 ->
  5 * zlen data + 2048 <= 1000000000 -> zlen data < Z.of_nat fuel ->
  exists z, compress data level = Done z /\ decompress fuel z = Done data /\
    is_compressed z = true /\ zlen z <= 2 * zlen data + 1024.
Proof.
  intros Hl Hmax Hf. pose proof (zlen_nonneg data).
  destruct (Compressor_compress_ok level data [] Hl ltac:(lia)) as (z & Hz & Hg).
  pose proof (gzips_bound _ _ Hg) as Hb. pose proof (gzips_nonempty _ _ Hg) as Hne.
  destruct (inflate_starts _ _ Hg) as (s & Hs & Hi).
  exists z. split; [done|]. split_and!; [|by eapply gzips_detected|done].
  apply (Decompressor_decompress_ok fuel _ s); cbn [dec_max Decompressor_new]; try done; try lia.
  assert (1 <= zlen z) by (destruct z; [done|rewrite zlen_cons; zlia]). nia.
Qed.

(** The decompressor does not check that the stream has come to its end: a
    gzip stream of which a part was cut off is decompressed without an error into
    the bytes that are there, and if only the checksum and the length at its end
    were lost, into all of them. *)
Theorem truncated_stream_accepted fuel data z1 z2 :
  gzips data (z1 ++ z2) -> z1 <> [] -> zlen data + 2 * zlen z1 <= 1000000000 ->
  zlen data < Z.of_nat fuel ->
  exists r, decompress fuel z1 = Done r /\ r `prefix_of` data /\ (zlen z2 <= 8 -> r = data).
Proof.
  intros Hg Hne Hfit Hf. destruct (inflate_cut _ _ _ Hg Hne) as (s & r & Hs & Hi & Hp & Hcut).
  exists r. split; [|done].
  assert (zlen r <= zlen data).
  { destruct Hp as [k ->]. rewrite zlen_app. zlia. }
  assert (1 <= zlen z1) by (destruct z1; [done|rewrite zlen_cons; zlia]).
  apply (Decompressor_decompress_ok fuel _ s); cbn [dec_max Decompressor_new]; try done; try lia.
  nia.
Qed.

Lemma decompress_loop_idle max s : 0 <= max -> idle s -> forall fuel output,
  decompress_loop fuel max 0 s [] 0 output = NoFuel.
Proof.
  intros Hmax Hs fuel. revert s Hs.
  induction fuel as [|fuel IH]; intros s Hs output; [done|]. cbn [decompress_loop].
  change (u64 (0 + 2 * 0)) with 0. change (u32 (2 * 0)) with 0.
  rewrite (proj2 (Z.ltb_ge _ _)) by done.
  destruct (inflate_idle s Hs) as (s' & -> & Hs').
  pose proof (zlen_nonneg (resize 0 output)).
  rewrite mem_write_ok by (change (zlen []) with 0; lia). cbn [negb andb Z_BUF_ERROR].
  rewrite outcome_bind_done. by apply IH.
Qed.

Lemma decompress_empty fuel output :
  (exists s, inflateInit2 47 = Some s) ->
  Decompressor_decompress fuel Decompressor_new output [] = NoFuel.
Proof.
  intros [s Hs]. unfold Decompressor_decompress. change (15 + 32) with 47. rewrite Hs.
  cbn -[decompress_loop]. apply decompress_loop_idle; [lia|by apply inflate_fresh].
Qed.

(** C40. Decompressing an empty buffer never ends: the room for the output is
    twice the size of the input, so it is always used up. A message frame that
    is marked as compressed and has no payload, which any peer can send, keeps
    the thread that reads it forever. *)
Theorem empty_frame_never_read {C L} `{FrameListener C L} fuel byteOrder conn h l :
  (exists s, inflateInit2 47 = Some s) ->
  isCompressed h = true -> m_length h = sizeof_Msg ->
  @readMsgFrame (gzip_hpp fuel) C L _ byteOrder conn (MkMsg h []) l = NoFuel.
Proof.
  intros Hs Hc Hl. unfold readMsgFrame, getPayloadSizeBytes. cbn [msg_header msg_payload].
  rewrite Hl, Hc. change (u32 (sizeof_Msg - sizeof_Msg)) with 0.
  change (mem_read (@nil Byte.byte) 0 0) with (Done (@nil Byte.byte)). rewrite outcome_bind_done.
  change (@gzip_decompress (gzip_hpp fuel) []) with
    (Decompressor_decompress fuel Decompressor_new [] []).
  by rewrite decompress_empty.
Qed.

(** ** The interface of the frames *)

#[export] Instance gzip_hpp_laws fuel : @GzipLaws (gzip_hpp fuel).
Proof.
  refine (@Build_GzipLaws (gzip_hpp fuel) (Z.min 333333333 (Z.of_nat fuel - 1)) _).
  cbn [gzip_compress gzip_decompress gzip_hpp]. intros b c Hb Hc Hz.
  destruct (Compressor_compress_ok Z_BEST_COMPRESSION b []) as (z & Hz' & Hg).
  { unfold Z_BEST_COMPRESSION. lia. }
  { lia. }
  rewrite Hz in Hz'. injection Hz' as ->. pose proof (gzips_nonempty _ _ Hg) as Hne.
  destruct (inflate_starts _ _ Hg) as (s & Hs & Hi).
  apply (Decompressor_decompress_ok fuel _ s); cbn [dec_max Decompressor_new]; try done; try lia.
  assert (1 <= zlen z) by (destruct z; [done|rewrite zlen_cons; zlia]). nia.
Defined.

Lemma gzip_frame_fits fuel data : 2 * zlen data + 1024 <= 333333333 ->
  2 * zlen data + 1024 < Z.of_nat fuel -> @frame_fits (gzip_hpp fuel) _ (gzip_hpp_laws fuel) true data.
Proof.
  intros Hd Hf. pose proof (zlen_nonneg data).
  destruct (Compressor_compress_ok Z_BEST_COMPRESSION data []) as (z & Hz & Hg).
  { unfold Z_BEST_COMPRESSION. lia. }
  { lia. }
  pose proof (gzips_bound _ _ Hg). exists z.
  change (@gzip_limit _ (gzip_hpp_laws fuel)) with (Z.min 333333333 (Z.of_nat fuel - 1)).
  unfold sizeof_Msg. split; [done|lia].
Qed.

(** C15. A batch of up to 166,666,154 bytes that is prepared with the batch flag and
    compressed by gzip-hpp is unpacked into the messages it was made of, in order
    and the last one marked, until the listener reports an error; only an empty message
    at the end of the batch is reported as E_END_OF_STREAM instead. *)
Theorem compressed_batch_roundtrip {C L} `{FrameListener C L} fuel msgId arr byteOrder flags conn l :
  2 * batch_size arr + 1024 <= 333333333 -> 2 * batch_size arr + 1024 < Z.of_nat fuel ->
  Z.land flags COMMUTIL_MSG_FLAG_BATCH <> 0 ->
  exists m, @prepareMsgBatchFrame (gzip_hpp fuel) true msgId arr byteOrder true flags =
      Done (E_OK, PtrMsg m) /\
    @readMsgFrame (gzip_hpp fuel) C L _ byteOrder conn m l =
      Done (deliver conn (msg_header m) (zlen arr) arr
        (recv_stats (zlen (msg_payload m)) (batch_size arr) l)).
Proof.
  intros Hd Hf Hb.
  pose proof (batch_image_length arr (net_of byteOrder)) as Himg.
  destruct (@batch_frame_carries (gzip_hpp fuel) (gzip_hpp_laws fuel) msgId arr byteOrder true flags)
    as (m & Hm & Hc & Hn & Hbatch & _); [lia| |done|].
  { apply gzip_frame_fits; rewrite Himg; lia. }
  exists m. split; [done|]. apply readMsgFrame_carries; try done; [lia|].
  rewrite Hbatch. by apply negb_true_iff, Z.eqb_neq.
Qed.
End Laws.

(** ** A zlib for the witnesses

    Its streams hold the header of gzip, the bytes of the data with a mark in
    front of each, the mark of the end and eight bytes for checksum and length. *)

Inductive ToyStream :=
| ToyDeflate                          (* after deflateInit2 *)
| ToyPending (p : list Byte.byte)     (* bytes not yet written *)
| ToyInflate                          (* after inflateInit2 *)
| ToyBody                             (* after the header *)
| ToyEnd                              (* after the end of the stream *)
| ToyError                            (* broken data, with a message *)
| ToyNeedDict.                        (* a preset dictionary is asked for *)

Definition toy_blocks (d : list Byte.byte) : list Byte.byte := flat_map (fun b => [Byte.x01; b]) d.

Definition toy_trailer : list Byte.byte := Byte.x00 :: replicate 8 Byte.x00.

Definition toy_image (d : list Byte.byte) : list Byte.byte :=
  Byte.x1f :: Byte.x8b :: Byte.x08 :: toy_blocks d ++ toy_trailer.

Definition toy_deflate (s : ToyStream) (i : list Byte.byte) (n : Z)
  : list Byte.byte * list Byte.byte * ToyStream :=
  match s with
  | ToyDeflate => ([], ztake n (toy_image i), ToyPending (zdrop n (toy_image i)))
  | ToyPending p => (i, ztake n p, ToyPending (zdrop n p))
  | _ => (i, [], s)
  end.

Fixpoint toy_scan (i : list Byte.byte) (n : nat)
  : Z * list Byte.byte * list Byte.byte * ToyStream :=
  match i with
  | Byte.x00 :: r =>
    if (8 <=? length r)%nat then (Z_STREAM_END, drop 8 r, [], ToyEnd)
    else (Z_BUF_ERROR, i, [], ToyBody)
  | Byte.x01 :: b :: r =>
    match n with
    | O => (Z_OK, i, [], ToyBody)
    | S n => let '(ret, i, o, s) := toy_scan r n in (ret, i, b :: o, s)
    end
  | [] | [Byte.x01] => (Z_BUF_ERROR, i, [], ToyBody)
  | Byte.x02 :: _ => (2, i, [], ToyNeedDict)
  | _ => (-3, i, [], ToyError)
  end.

Definition toy_inflate (s : ToyStream) (i : list Byte.byte) (n : Z)
  : Z * list Byte.byte * list Byte.byte * ToyStream :=
  match s with
  | ToyInflate =>
    match i with
    | Byte.x1f :: Byte.x8b :: Byte.x08 :: r => toy_scan r (Z.to_nat n)
    | [] | [Byte.x1f] | [Byte.x1f; Byte.x8b] => (Z_BUF_ERROR, i, [], ToyInflate)
    | _ => (-3, i, [], ToyError)
    end
  | ToyBody => toy_scan i (Z.to_nat n)
  | ToyEnd => (Z_STREAM_END, i, [], ToyEnd)
  | ToyNeedDict => (2, i, [], s)
  | _ => (-3, i, [], s)
  end.

#[local] Instance toy_zlib : Zlib ToyStream := {|
  deflateInit2 _ _ _ := Some ToyDeflate;
  deflate := toy_deflate;
  inflateInit2 _ := Some ToyInflate;
  inflate := toy_inflate;
  z_msg s := match s with ToyError => true | _ => false end;
|}.

(** what may follow the blocks of a stream that is whole or cut *)
Definition toy_tail (t : list Byte.byte) : Prop :=
  t = [] \/ t = [Byte.x01] \/ exists k, t = Byte.x00 :: k.

Definition toy_inflating (s : ToyStream) (i r : list Byte.byte) : Prop :=
  match s with
  | ToyInflate =>
    (exists t, i = Byte.x1f :: Byte.x8b :: Byte.x08 :: toy_blocks r ++ t /\ toy_tail t) \/
    (r = [] /\ (i = [Byte.x1f] \/ i = [Byte.x1f; Byte.x8b]))
  | ToyBody => exists t, i = toy_blocks r ++ t /\ toy_tail t
  | ToyEnd => r = []
  | _ => False
  end.

Lemma toy_scan_ok t : toy_tail t -> forall r n,
  exists ret i' s', toy_scan (toy_blocks r ++ t) n = (ret, i', take n r, s') /\
    (ret = Z_STREAM_END \/ ret = Z_OK \/ ret = Z_BUF_ERROR) /\ toy_inflating s' i' (drop n r).
Proof.
  intros Ht. induction r as [|b r IH]; intros n.
  - rewrite take_nil, drop_nil. cbn [toy_blocks flat_map app].
    destruct Ht as [->|[->|[k ->]]]; cbn [toy_scan].
    + eexists _, _, _. split; [done|]. split; [by auto|]. exists []. split; [done|by left].
    + eexists _, _, _. split; [done|]. split; [by auto|]. exists [Byte.x01]. split; [done|].
      right. by left.
    + destruct (8 <=? length k)%nat; (eexists _, _, _; split; [done|]; split; [by auto|]); [done|].
      exists (Byte.x00 :: k). split; [done|]. right. right. eauto.
  - change (toy_blocks (b :: r) ++ t) with (Byte.x01 :: b :: (toy_blocks r ++ t)).
    destruct n as [|n]; cbn [toy_scan].
    + eexists _, _, _. split; [done|]. split; [by auto|]. by exists t.
    + destruct (IH n) as (ret & i' & s' & -> & Hret & Hs). eauto 6.
Qed.

Lemma toy_blocks_cut k d : forall z1 z2, z1 ++ z2 = toy_blocks d ++ Byte.x00 :: k ->
  exists r t, z1 = toy_blocks r ++ t /\ toy_tail t /\ r `prefix_of` d /\
    ((length z2 <= length k)%nat -> r = d).
Proof.
  induction d as [|b d IH]; intros z1 z2 Hz.
  - exists [], z1. cbn [toy_blocks flat_map app] in Hz |- *. split; [done|].
    split; [|split; [apply prefix_nil|done]].
    destruct z1 as [|c z1]; [by left|]. right. right. injection Hz as -> _. eauto.
  - destruct z1 as [|c [|c' z1]].
    + exists [], []. split_and!; [done|by left|apply prefix_nil|]. intros Hl. exfalso.
      rewrite app_nil_l in Hz. rewrite Hz, length_app in Hl. cbn in Hl. lia.
    + injection Hz as -> Hz. exists [], [Byte.x01].
      split_and!; [done|right; by left|apply prefix_nil|]. intros Hl. exfalso.
      rewrite Hz in Hl. cbn in Hl. rewrite length_app in Hl. cbn in Hl. lia.
    + injection Hz as -> -> Hz. destruct (IH _ _ Hz) as (r & t & -> & Ht & Hp & Hl).
      exists (b :: r), t. split_and!; [done|done|by apply prefix_cons|].
      intros Hk. by rewrite (Hl Hk).
Qed.

Lemma toy_image_length d : zlen (toy_image d) = 2 * zlen d + 12.
Proof.
  unfold toy_image. rewrite !zlen_cons, zlen_app. change (zlen toy_trailer) with 9.
  assert (Hb : zlen (toy_blocks d) = 2 * zlen d).
  { induction d as [|b d IH]; [done|].
    change (toy_blocks (b :: d)) with (Byte.x01 :: b :: toy_blocks d). rewrite !zlen_cons. lia. }
  lia.
Qed.

Definition toy_deflating (s : ToyStream) (out i data : list Byte.byte) : Prop :=
  match s with
  | ToyDeflate => out = [] /\ i = data
  | ToyPending p => out ++ p = toy_image data
  | _ => False
  end.

Lemma toy_deflate_written p out i data n : 0 < n -> out ++ p = toy_image data ->
  zlen (ztake n p) <= n /\
  if zlen (ztake n p) =? n then toy_deflating (ToyPending (zdrop n p)) (out ++ ztake n p) i data
  else toy_image data = out ++ ztake n p.
Proof.
  intros Hn Hp. pose proof (ztake_zdrop n p) as Hsplit.
  assert (Hl : zlen (ztake n p) <= n) by (unfold zlen, ztake; rewrite length_take; lia).
  split; [done|]. destruct (Z.eqb_spec (zlen (ztake n p)) n) as [_|Hne].
  - cbn [toy_deflating]. by rewrite <- app_assoc, Hsplit.
  - destruct (Z_le_gt_dec n (zlen p)); [by rewrite zlen_ztake in Hne by zlia|].
    by rewrite ztake_all by lia.
Qed.

#[local] Instance toy_zlib_laws : ZlibLaws ToyStream.
Proof.
  refine (@Build_ZlibLaws ToyStream toy_zlib (fun data z => z = toy_image data) toy_deflating
    toy_inflating (fun s => s = ToyInflate) _ _ _ _ _ _ _ _ _ _).
  - intros data z ->. eexists. split; [reflexivity|]. done.
  - intros data z ->. rewrite toy_image_length. lia.
  - intros level data _. by exists ToyDeflate.
  - intros s out i data n Hs Hn. destruct s as [|p| | | | |]; cbn in Hs; try done.
    + destruct Hs as [-> ->]. eexists _, _, _. split; [reflexivity|].
      destruct (toy_deflate_written (toy_image data) [] [] data n Hn eq_refl) as [Hl Hs].
      split; [done|]. destruct (_ =? _); [done|by symmetry].
    + eexists _, _, _. split; [reflexivity|].
      destruct (toy_deflate_written p out i data n Hn Hs) as [Hl Hs'].
      split; [done|]. destruct (_ =? _); [done|by symmetry].
  - intros s out i data Hs. destruct s as [|p| | | | |]; cbn in Hs; try done.
    + destruct Hs as [-> ->]. rewrite zlen_nil. zlia.
    + pose proof (toy_image_length data) as Hl. rewrite <- Hs, zlen_app in Hl. zlia.
  - intros data z ->. exists ToyInflate. split; [done|]. left. exists toy_trailer.
    split; [done|]. right. right. eexists. reflexivity.
  - intros s i r n Hs Hn. unfold ztake, zdrop.
    destruct s; cbn in Hs; try done; cbn [inflate toy_zlib toy_inflate].
    + destruct Hs as [(t & -> & Ht)|[-> [->| ->]]].
      * apply (toy_scan_ok t Ht r (Z.to_nat n)).
      * rewrite take_nil, drop_nil. eexists _, _, _. split; [done|]. split; [by auto|]. right. auto.
      * rewrite take_nil, drop_nil. eexists _, _, _. split; [done|]. split; [by auto|]. right. auto.
    + destruct Hs as (t & -> & Ht). apply (toy_scan_ok t Ht r (Z.to_nat n)).
    + subst r. rewrite take_nil, drop_nil. eexists _, _, _. split; [done|]. split; [by auto|]. done.
  - intros data z1 z2 Hz Hne. exists ToyInflate. unfold toy_image in Hz.
    destruct z1 as [|a [|b [|c z1]]]; [done|..].
    + injection Hz as -> Hz. exists []. split_and!; [done|right; auto|apply prefix_nil|].
      intros Hl. exfalso. apply (f_equal zlen) in Hz. rewrite !zlen_cons, zlen_app in Hz.
      change (zlen toy_trailer) with 9 in Hz. zlia.
    + injection Hz as -> -> Hz. exists []. split_and!; [done|right; auto|apply prefix_nil|].
      intros Hl. exfalso. apply (f_equal zlen) in Hz. rewrite !zlen_cons, zlen_app in Hz.
      change (zlen toy_trailer) with 9 in Hz. zlia.
    + injection Hz as -> -> -> Hz.
      destruct (toy_blocks_cut _ data z1 z2 Hz) as (r & t & -> & Ht & Hp & Hl).
      exists r. split_and!; [done|left; eauto|done|]. intros Hk. apply Hl.
      rewrite length_replicate. unfold zlen in Hk. lia.
  - by intros s [= <-].
  - intros s ->. by exists ToyInflate.
Defined.

(** ** Witnesses *)

Definition sample_body : list Byte.byte := le_split 5 0x0102030405.

Lemma decompress_ends_witness :
  Decompressor_decompress 10 (MkDecompressor 400) [] (toy_image sample_body) <> NoFuel /\
  Decompressor_decompress 11 (MkDecompressor 400) [] (toy_image (replicate 200 NUL)) <> NoFuel.
Proof.
  split.
  - apply (@decompress_ends ToyStream toy_zlib 10 (MkDecompressor 400) [] (toy_image sample_body));
      [done|done|].
    vm_compute. reflexivity.
  - vm_compute. discriminate.
Defined.

Lemma gzip_roundtrip_witness :
  exists z, compress sample_body 9 = Done z /\ decompress 6 z = Done sample_body /\
    is_compressed z = true /\ zlen z <= 2 * zlen sample_body + 1024.
Proof.
  apply (@gzip_roundtrip ToyStream toy_zlib toy_zlib_laws 6 9 sample_body); vm_compute; intuition congruence.
Defined.

Example toy_compress : compress sample_body 9 = Done (toy_image sample_body).
Proof. vm_compute. reflexivity. Qed.

Lemma truncated_stream_accepted_witness :
  exists r, decompress 6 (take 14 (toy_image sample_body)) = Done r /\
    r `prefix_of` sample_body /\ (zlen (drop 14 (toy_image sample_body)) <= 8 -> r = sample_body).
Proof.
  apply (@truncated_stream_accepted ToyStream toy_zlib toy_zlib_laws 6 sample_body).
  - apply take_drop.
  - vm_compute. discriminate.
  - vm_compute. discriminate.
  - vm_compute. reflexivity.
Defined.

Definition empty_frame_header : MsgHeader := MsgHeader_new sizeof_Msg 7 COMMUTIL_MSG_FLAG_COMPRESSED 0 0.

Lemma empty_frame_never_read_witness :
  @readMsgFrame (gzip_hpp 1000) unit _ log_listener NETWORK_ORDER tt (MkMsg empty_frame_header []) [] =
    NoFuel.
Proof.
  apply (@empty_frame_never_read ToyStream toy_zlib toy_zlib_laws unit _ log_listener 1000
           NETWORK_ORDER tt empty_frame_header []).
  - by exists ToyInflate.
  - reflexivity.
  - reflexivity.
Defined.

Lemma compressed_batch_roundtrip_witness :
  exists m, @prepareMsgBatchFrame (gzip_hpp (Z.to_nat 2000)) true 7 sample_batch NETWORK_ORDER true 2 =
      Done (E_OK, PtrMsg m) /\
    @readMsgFrame (gzip_hpp (Z.to_nat 2000)) unit _ log_listener NETWORK_ORDER tt m [] =
      Done (E_OK, [(le_split 3 0xABCDEF, false, 3); ([], false, 3);
                   (le_split 5 0x0102030405, true, 3)]).
Proof.
  apply (@compressed_batch_roundtrip ToyStream toy_zlib toy_zlib_laws unit _ log_listener
           (Z.to_nat 2000) 7 sample_batch NETWORK_ORDER 2 tt []).
  - vm_compute. discriminate.
  - vm_compute. reflexivity.
  - discriminate.
Defined.

(** a stream of zlib that asks for a preset dictionary: inflate returns
    Z_NEED_DICT, which sets no message, and the message is made a string *)
Lemma need_dict_null_message :
  decompress 6 (Byte.x1f :: Byte.x8b :: Byte.x08 :: Byte.x02 :: []) = Undef UB_null.
Proof. vm_compute. reflexivity. Qed.
