(* ===== verification/Connection.v ===== *)
(** * Connection details (connection_details.h, connection_details.cpp)

    The value that names a connection in every callback: its address, unique id
    and reusable index. *)

From Stdlib Require Import ZArith Lia String.
From stdpp Require Import pretty.
From S2P Require Import Prelude.
Open Scope Z_scope.

Inductive TransportType : Type := TT_NET | TT_IPC.

#[export] Instance TransportType_eq_dec : EqDecision TransportType.
Proof. solve_decision. Defined.

(** [cd_strRepValid] is [None] as long as it was not initialised *)
Record ConnectionDetails := MkConnectionDetails {
  cd_transportType : TransportType;
  cd_name : string;
  cd_port : Z;
  cd_connId : Z;
  cd_connIndex : Z;
  cd_strRep : string;
  cd_strRepValid : option bool;
}.

(** the constructor for network addresses *)
Definition ConnectionDetails_newNet (hostName : string) (port connId connIndex : Z)
  : ConnectionDetails :=
  MkConnectionDetails TT_NET hostName port connId connIndex EmptyString None.

(** the constructor for IPC addresses *)
Definition ConnectionDetails_newIpc (pipeName : string) (connId connIndex : Z)
  : ConnectionDetails :=
  MkConnectionDetails TT_NET pipeName 0 connId connIndex EmptyString None.

Definition getHostName (c : ConnectionDetails) : outcome string :=
  if decide (cd_transportType c = TT_NET) then Done (cd_name c) else Undef UB_assert.

Definition getPort (c : ConnectionDetails) : outcome Z :=
  if decide (cd_transportType c = TT_NET) then Done (cd_port c) else Undef UB_assert.

Definition getPipeName (c : ConnectionDetails) : outcome string :=
  if decide (cd_transportType c = TT_IPC) then Done (cd_name c) else Undef UB_assert.

Definition setHostName (hostName : string) (c : ConnectionDetails) : ConnectionDetails :=
  MkConnectionDetails TT_NET hostName (cd_port c) (cd_connId c) (cd_connIndex c) (cd_strRep c)
    (cd_strRepValid c).

Definition setPort (port : Z) (c : ConnectionDetails) : ConnectionDetails :=
  MkConnectionDetails TT_NET (cd_name c) port (cd_connId c) (cd_connIndex c) (cd_strRep c)
    (cd_strRepValid c).

Definition setNetAddress (hostName : string) (port : Z) (c : ConnectionDetails)
  : ConnectionDetails :=
  MkConnectionDetails TT_NET hostName port (cd_connId c) (cd_connIndex c) (cd_strRep c)
    (cd_strRepValid c).

Definition setPipeName (pipeName : string) (c : ConnectionDetails) : ConnectionDetails :=
  MkConnectionDetails TT_IPC pipeName (cd_port c) (cd_connId c) (cd_connIndex c) (cd_strRep c)
    (cd_strRepValid c).

Definition setConnectionId (connectionId : Z) (c : ConnectionDetails) : ConnectionDetails :=
  MkConnectionDetails (cd_transportType c) (cd_name c) (cd_port c) connectionId (cd_connIndex c)
    (cd_strRep c) (Some false).

(** the parameter is a 32 bit integer *)
Definition setConnectionIndex (connectionIndex : Z) (c : ConnectionDetails) : ConnectionDetails :=
  MkConnectionDetails (cd_transportType c) (cd_name c) (cd_port c) (cd_connId c)
    (u32 connectionIndex) (cd_strRep c) (Some false).

Definition makeStrRep (c : ConnectionDetails) : outcome string :=
  let* address :=
    if decide (cd_transportType c = TT_NET) then
      let* hostName := getHostName c in
      Done ("[NET] " +:+ hostName +:+ ":" +:+ pretty (cd_port c))%string
    else
      let* pipeName := getPipeName c in Done ("[PIPE] " +:+ pipeName)%string in
  Done ("{" +:+ address +:+ " <" +:+ pretty (cd_connIndex c) +:+ "/" +:+
        pretty (cd_connId c) +:+ ">}")%string.

(** caches the representation, but never marks it as valid *)
Definition toString (c : ConnectionDetails) : outcome (string * ConnectionDetails) :=
  match cd_strRepValid c with
  | None => Undef UB_uninit
  | Some true => Done (cd_strRep c, c)
  | Some false =>
    let* rep := makeStrRep c in
    Done (rep, MkConnectionDetails (cd_transportType c) (cd_name c) (cd_port c) (cd_connId c)
                 (cd_connIndex c) rep (cd_strRepValid c))
  end.

(** ** Properties *)

(** the string names the current address, id and index *)
Definition rep_current (c : ConnectionDetails) : Prop :=
  cd_strRepValid c = Some true -> makeStrRep c = Done (cd_strRep c).

Lemma makeStrRep_done c : exists rep, makeStrRep c = Done rep.
Proof.
  unfold makeStrRep, getHostName, getPipeName. destruct (cd_transportType c); cbn; eauto.
Qed.

(** Once the id or the index was set, the string representation can be asked
    for any number of times and shows the current details, also after the
    address changes. *)
Theorem toString_current c hostName port id :
  let c1 := setNetAddress hostName port (setConnectionId id c) in
  exists rep c2, toString c1 = Done (rep, c2) /\ makeStrRep c1 = Done rep /\
    forall pipe, exists rep' c3, toString (setPipeName pipe c2) = Done (rep', c3) /\
      makeStrRep (setPipeName pipe c2) = Done rep'.
Proof.
  intros c1. destruct (makeStrRep_done c1) as [rep Hrep].
  eexists rep, _. split; [|split; [done|]].
  - unfold toString, c1 at 1. cbn [cd_strRepValid setNetAddress setConnectionId].
    rewrite Hrep. reflexivity.
  - intros pipe. eexists _, _. split; reflexivity.
Qed.

(** The constructor for IPC addresses leaves the network transport type, so
    that the pipe name of the new object cannot be retrieved, and either
    constructor leaves the cache flag of [toString] uninitialised. *)
Theorem ipc_details_misconstructed pipe host port id index :
  getPipeName (ConnectionDetails_newIpc pipe id index) = Undef UB_assert /\
  toString (ConnectionDetails_newIpc pipe id index) = Undef UB_uninit /\
  toString (ConnectionDetails_newNet host port id index) = Undef UB_uninit.
Proof. done. Qed.
