(* ===== verification/Assembler.v ===== *)
(** * MsgAssembler (msg_assembler.h, msg_assembler.cpp, msg_listener.h)

    The per-connection state machine that turns arriving buffers into messages:
    wait for a header, wait for the body, or search the magic word to get back
    in step. *)

From Stdlib Require Import ZArith Lia String.
From coqutil Require Import Byte.
From S2P Require Import Prelude Errors StrSearch Io Serializable Segmented Msg Connection.
Open Scope Z_scope.

(** ** Definitions *)

Inductive MsgAction := MSG_NO_ACTION | MSG_CAN_DELETE | MSG_CANNOT_DELETE.
Inductive DataAction := DATA_NO_ACTION | DATA_CAN_DELETE | DATA_CANNOT_DELETE.

(** MsgListener: the user's callbacks over a state [U] of its own *)
Class MsgListener (U : Type) := {
  onConnect : ConnectionDetails -> Z -> U -> bool * U;
  onDisconnect : ConnectionDetails -> U -> U;
  onMsg : ConnectionDetails -> Msg -> bool -> U -> MsgAction * U;
}.

Inductive MsgState := MS_WAITING_HEADER | MS_WAITING_BODY | MS_RESYNC.

Record MsgStream := MkMsgStream {
  m_is : SegmentedInputStream;
  m_msgHeader : MsgHeader;
  m_state : MsgState;
}.

Definition set_is (ist : SegmentedInputStream) (st : MsgStream) : MsgStream :=
  MkMsgStream ist (m_msgHeader st) (m_state st).
Definition set_state (s : MsgState) (st : MsgStream) : MsgStream :=
  MkMsgStream (m_is st) (m_msgHeader st) s.

Definition MsgStream_new (byteOrder : ByteOrder) : MsgStream :=
  MkMsgStream (SegmentedInputStream_new byteOrder) MsgHeader_default MS_WAITING_HEADER.

Definition stream_reset (st : MsgStream) : MsgStream :=
  MkMsgStream (sis_reset (m_is st)) (m_msgHeader st) MS_RESYNC.

(** which allocations of a call succeed: the buffer node, the message for a
    header, the table of the search *)
Record AllocEnv := MkAllocEnv {
  alloc_node : bool;
  alloc_msg : MsgHeader -> bool;
  alloc_search : bool;
}.

Definition alloc_all : AllocEnv := MkAllocEnv true (fun _ => true) true.

Definition onWaitHeader (st : MsgStream) : outcome MsgStream :=
  if is_size (m_is st) <? sizeof_Msg then Done st
  else
    let* '(rc, h, ist) := peek_header (m_msgHeader st) (m_is st) in
    let st := MkMsgStream ist h (m_state st) in
    if decide (rc = E_OK) then
      let h := if is_isNetworkOrder (m_is st) then fromNetOrder h else h in
      let st := MkMsgStream (m_is st) h (m_state st) in
      if isValid h then Done (set_state MS_WAITING_BODY st)
      else
        let* '(r, ist) := skipBytes sizeof_MsgHeader (m_is st) in
        let st := set_is ist st in
        if decide (io_rc r = E_OK) then Done (set_state MS_RESYNC st)
        else Done (stream_reset st)
    else Done (stream_reset st).

(** the second component of the user state logs the messages that were freed *)
Definition onWaitBody {U} `{MsgListener U} (env : AllocEnv) (conn : ConnectionDetails)
    (st : MsgStream) (u : U * list Msg) : outcome (bool * MsgStream * (U * list Msg)) :=
  if is_size (m_is st) <? m_length (m_msgHeader st) then Done (false, st, u)
  else
    let* msg := allocMsgFor (alloc_msg env (m_msgHeader st)) (m_msgHeader st) in
    match msg with
    | None =>
      let* '(r, ist) := skipBytes (m_length (m_msgHeader st)) (m_is st) in
      let st := set_is ist st in
      if decide (io_rc r = E_OK) then Done (false, st, u) else Done (false, stream_reset st, u)
    | Some msg =>
      let* '(rc, (msg, ist)) := msg_deserialize (msg, m_is st) in
      let st := set_is ist st in
      if decide (rc = E_OK) then
        let '(action, user) := onMsg conn msg true (fst u) in
        let freed := match action with MSG_CAN_DELETE => snd u ++ [msg] | _ => snd u end in
        Done (true, set_state MS_WAITING_HEADER st, (user, freed))
      else Done (false, stream_reset st, (fst u, snd u ++ [msg]))
    end.

Definition onResync (env : AllocEnv) (st : MsgStream) : outcome MsgStream :=
  if is_size (m_is st) <? COMMUTIL_MSG_MAGIC_SIZE then Done st
  else
    let* '(rc, ist) := searchBytes (alloc_search env) COMMUTIL_MSG_MAGIC COMMUTIL_MSG_MAGIC_SIZE
                        (m_is st) in
    let st := set_is ist st in
    if decide (rc = E_END_OF_STREAM) then Done st
    else if decide (rc = E_OK) then Done (set_state MS_WAITING_HEADER st)
    else Done (stream_reset st).

(** one iteration of the assembly loop *)
Definition assemble_step {U} `{MsgListener U} (env : AllocEnv) (conn : ConnectionDetails)
    (st : MsgStream) (u : U * list Msg) : outcome (bool * MsgStream * (U * list Msg)) :=
  match m_state st with
  | MS_WAITING_HEADER => let* st := onWaitHeader st in Done (true, st, u)
  | MS_WAITING_BODY => onWaitBody env conn st u
  | MS_RESYNC => let* st := onResync env st in Done (true, st, u)
  end.

Fixpoint assemble_loop {U} `{MsgListener U} (fuel : nat) (env : AllocEnv)
    (conn : ConnectionDetails) (continueAssembly : bool) (st : MsgStream) (u : U * list Msg)
  : outcome (MsgStream * (U * list Msg)) :=
  if continueAssembly && negb (is_empty (m_is st)) then
    match fuel with
    | O => NoFuel
    | S fuel =>
      let* '(continueAssembly, st, u) := assemble_step env conn st u in
      assemble_loop fuel env conn continueAssembly st u
    end
  else Done (st, u).

(** what onBytesReceived does to the stream of the connection *)
Definition stream_receive {U} `{MsgListener U} (fuel : nat) (env : AllocEnv)
    (conn : ConnectionDetails) (buffer : BufferNode) (st : MsgStream) (u : U * list Msg)
  : outcome (MsgStream * (U * list Msg)) :=
  let* ist := appendBuffer (alloc_node env) buffer (m_is st) in
  assemble_loop fuel env conn true (set_is ist st) u.

(** the assembler: m_msgStreams, [None] is a null array, and m_streamCount *)
Record MsgAssembler := MkMsgAssembler {
  m_msgStreams : option (list MsgStream);
  m_streamCount : Z;
}.

Definition MsgAssembler_new : MsgAssembler := MkMsgAssembler None 0.

(** [allocs]: which allocations succeed, the array first *)
Definition asm_initialize (allocs : nat -> bool) (maxConnections : Z) (byteOrder : ByteOrder)
    (a : MsgAssembler) : ErrorCode * MsgAssembler :=
  if allocs 0%nat then
    if forallb (fun i => allocs (S i)) (seq 0 (Z.to_nat maxConnections)) then
      (E_OK, MkMsgAssembler (Some (replicate (Z.to_nat maxConnections) (MsgStream_new byteOrder)))
               maxConnections)
    else (E_NOMEM, MkMsgAssembler None (m_streamCount a))
  else (E_NOMEM, MkMsgAssembler None (m_streamCount a)).

(** the result holds the buffers that the destructors of the streams deallocate *)
Definition asm_terminate (a : MsgAssembler) : ErrorCode * MsgAssembler * list Z :=
  match m_msgStreams a with
  | Some streams =>
    (E_OK, MkMsgAssembler None (m_streamCount a),
     concat (map (fun st => map bn_id (sis_nodes (m_is st))) streams))
  | None => (E_OK, a, [])
  end.

(** runs [f] on the stream of a connection *)
Definition with_stream {A} (conn : ConnectionDetails)
    (f : MsgStream -> outcome (MsgStream * A)) (a : MsgAssembler) : outcome (MsgAssembler * A) :=
  match m_msgStreams a with
  | None => Undef UB_null
  | Some streams =>
    let* st := mem_get streams (cd_connIndex conn) in
    let* '(st, r) := f st in
    Done (MkMsgAssembler (Some (zset streams (cd_connIndex conn) st)) (m_streamCount a), r)
  end.

Definition asm_onConnect {U} `{MsgListener U} (conn : ConnectionDetails) (status : Z)
    (a : MsgAssembler) (u : U) : outcome (MsgAssembler * (bool * U)) :=
  let* '(a, _) := with_stream conn (fun st => Done (stream_reset st, tt)) a in
  Done (a, onConnect conn status u).

Definition asm_onDisconnect {U} `{MsgListener U} (conn : ConnectionDetails)
    (a : MsgAssembler) (u : U) : outcome (MsgAssembler * U) :=
  let* '(a, _) := with_stream conn (fun st => Done (stream_reset st, tt)) a in
  Done (a, onDisconnect conn u).

Definition asm_onBytesReceived {U} `{MsgListener U} (fuel : nat) (env : AllocEnv)
    (conn : ConnectionDetails) (buffer : BufferNode) (a : MsgAssembler) (u : U * list Msg)
  : outcome (MsgAssembler * (DataAction * (U * list Msg))) :=
  let* '(a, u) := with_stream conn (fun st => stream_receive fuel env conn buffer st u) a in
  Done (a, (DATA_CANNOT_DELETE, u)).

(** ** The assembled messages *)

(** what the user has seen after a message *)
Definition user_msg {U} `{MsgListener U} (conn : ConnectionDetails) (u : U * list Msg) (m : Msg)
  : U * list Msg :=
  let '(action, user) := onMsg conn m true (fst u) in
  (user, match action with MSG_CAN_DELETE => snd u ++ [m] | _ => snd u end).

(** a message the assembler can deliver wherever it ends *)
Definition good_msg (m : Msg) : Prop :=
  msg_ok m /\ isValid (msg_header m) = true /\ 0 < zlen (msg_payload m).

Definition msgs_image (net : bool) (ms : list Msg) : list Byte.byte :=
  concat (map (fun m => msg_image m net) ms).

(** an incomplete message with its whole header *)
Definition partial_msg (net : bool) (h : MsgHeader) (p : list Byte.byte) : Prop :=
  header_ok h /\ isValid h = true /\ (exists rest, p = header_image h net ++ rest) /\
  zlen p < m_length h.

Definition good_tail (net : bool) (p : list Byte.byte) : Prop :=
  p = [] \/ exists h, partial_msg net h p.

(** the stream between two buffers, [p] is what was received and not delivered *)
Definition stream_inv (net : bool) (B : Z) (st : MsgStream) (p : list Byte.byte) : Prop :=
  sis_ok (m_is st) /\ sis_tight B (m_is st) /\ zlen (m_magic (m_msgHeader st)) = 8 /\
  is_isNetworkOrder (m_is st) = net /\ sis_bytes (m_is st) = p /\
  match m_state st with
  | MS_WAITING_HEADER => p = []
  | MS_WAITING_BODY => partial_msg net (m_msgHeader st) p
  | MS_RESYNC => False
  end.

Lemma header_of_wire_host mem : header_of_wire false mem = header_of_mem mem.
Proof. reflexivity. Qed.

Lemma onWaitHeader_ok st h rest net : m_state st = MS_WAITING_HEADER ->
  sis_ok (m_is st) -> zlen (m_magic (m_msgHeader st)) = 8 ->
  is_isNetworkOrder (m_is st) = net -> sis_bytes (m_is st) = header_image h net ++ rest ->
  header_ok h -> isValid h = true ->
  onWaitHeader st = Done (MkMsgStream (m_is st) h MS_WAITING_BODY).
Proof.
  intros Hst Hok Hm Hnet Hb Hh Hv. pose proof (sis_bytes_length _ Hok) as Hl.
  rewrite Hb, zlen_app, header_image_length in Hl by done. pose proof (zlen_nonneg rest).
  unfold onWaitHeader. change (is_size (m_is st)) with (sis_size (m_is st)).
  change sizeof_Msg with sizeof_MsgHeader. rewrite (proj2 (Z.ltb_ge _ _)) by lia.
  rewrite (peek_header_ok (H0 := SegmentedInputStream_laws) (m_msgHeader st) (m_is st)) by
    (done || (change (is_size (m_is st)) with (sis_size (m_is st)); lia)).
  cbn [outcome_bind]. rewrite decide_True by done. cbn [m_is m_state].
  change (is_bytes (m_is st)) with (sis_bytes (m_is st)).
  pose proof (header_image_parse_app net h rest Hh) as Hp. rewrite <- Hb in Hp.
  rewrite Hnet. destruct net.
  - rewrite <- header_of_wire_net, Hp, Hv. by rewrite Hst.
  - rewrite <- header_of_wire_host, Hp, Hv. by rewrite Hst.
Qed.

Section Assembly.
Context {U : Type} `{MsgListener U} (conn : ConnectionDetails) (B : Z).
Implicit Types (u : U * list Msg) (ms : list Msg).

Lemma onWaitBody_ok st m rest net u : m_state st = MS_WAITING_BODY ->
  sis_ok (m_is st) -> sis_tight B (m_is st) -> is_isNetworkOrder (m_is st) = net ->
  m_msgHeader st = msg_header m -> good_msg m -> sis_bytes (m_is st) = msg_image m net ++ rest ->
  exists ist, onWaitBody alloc_all conn st u =
      Done (true, MkMsgStream ist (msg_header m) MS_WAITING_HEADER, user_msg conn u m) /\
    sis_ok ist /\ sis_tight B ist /\ sis_bytes ist = rest /\ is_isNetworkOrder ist = net.
Proof.
  intros Hst Hok Ht Hnet Hhd (Hm & Hv & Hpos) Hb. pose proof Hm as [Hh Hml].
  pose proof (sis_bytes_length _ Hok) as Hl. unfold sizeof_Msg in Hml.
  rewrite Hb, zlen_app in Hl. unfold msg_image in Hl.
  rewrite zlen_app, header_image_length in Hl by done. pose proof (zlen_nonneg rest).
  unfold sizeof_MsgHeader in Hl. pose proof (hok_length _ Hh).
  unfold onWaitBody. change (is_size (m_is st)) with (sis_size (m_is st)). rewrite Hhd.
  rewrite (proj2 (Z.ltb_ge _ _)) by lia. cbn [alloc_msg alloc_all].
  rewrite allocMsgFor_ok by (unfold sizeof_Msg; lia). cbn [outcome_bind].
  destruct (msg_deserialize_ok (H0 := SegmentedInputStream_tight_laws B) m
    (MkMsg (MsgHeader_new (m_length (msg_header m)) (m_msgId (msg_header m)) (m_flags (msg_header m))
              (m_requestId (msg_header m)) (m_requestIndex (msg_header m)))
       (replicate (Z.to_nat (m_length (msg_header m) - sizeof_Msg)) NUL))
    (m_is st) rest net Hm eq_refl) as (ist & Hd & [Hok' Ht'] & Hb' & Ho'); try done.
  { cbn [msg_payload]. rewrite zlen_replicate. unfold sizeof_Msg. lia. }
  rewrite Hd. cbn [outcome_bind]. rewrite decide_True by done. exists ist.
  unfold user_msg. destruct (onMsg conn m true (fst u)) as [action user].
  unfold set_is, set_state. rewrite Hhd. split; [done|]. split_and!; try done.
  by rewrite <- Hnet, (is_net_of_order _ _ Ho').
Qed.

(** the end of a call: the loop stops at a good tail *)
Lemma wait_body_stops st u net : partial_msg net (m_msgHeader st) (sis_bytes (m_is st)) ->
  sis_ok (m_is st) -> onWaitBody alloc_all conn st u = Done (false, st, u).
Proof.
  intros (_ & _ & _ & Hl) Hok. pose proof (sis_bytes_length _ Hok).
  unfold onWaitBody. change (is_size (m_is st)) with (sis_size (m_is st)).
  by rewrite (proj2 (Z.ltb_lt _ _)) by lia.
Qed.

Lemma loop_stops fuel st u : assemble_loop fuel alloc_all conn false st u = Done (st, u).
Proof. by destruct fuel. Qed.

Lemma loop_empty fuel c st u : sis_ok (m_is st) -> sis_bytes (m_is st) = [] ->
  assemble_loop fuel alloc_all conn c st u = Done (st, u).
Proof.
  intros Hok Hb. pose proof (sis_bytes_length _ Hok) as Hl. rewrite Hb, zlen_nil in Hl.
  assert (He : is_empty (m_is st) = true).
  { unfold is_empty. cbn. apply Z.eqb_eq. lia. }
  destruct fuel; cbn [assemble_loop]; by rewrite He, andb_false_r.
Qed.

Lemma loop_step fuel st u : sis_ok (m_is st) -> sis_bytes (m_is st) <> [] ->
  assemble_loop (S fuel) alloc_all conn true st u =
  (let* '(c, st, u) := assemble_step alloc_all conn st u in
   assemble_loop fuel alloc_all conn c st u).
Proof.
  intros Hok Hb. pose proof (sis_bytes_length _ Hok) as Hl.
  assert (He : is_empty (m_is st) = false).
  { unfold is_empty. cbn. apply Z.eqb_neq. intros Hz. apply Hb.
    apply nil_length_inv. unfold zlen in Hl. lia. }
  cbn [assemble_loop]. by rewrite He.
Qed.

(** the header at the start of the received bytes *)
Lemma first_header net ms p : Forall good_msg ms -> good_tail net p ->
  msgs_image net ms ++ p <> [] ->
  exists h rest, msgs_image net ms ++ p = header_image h net ++ rest /\ header_ok h /\
    isValid h = true /\
    match ms with [] => partial_msg net h p | m :: _ => h = msg_header m end.
Proof.
  intros Hms Hp Hne. destruct ms as [|m ms].
  - destruct Hp as [->|(h & Hh)]; [done|]. pose proof Hh as (? & ? & (rest & ->) & ?). eauto 10.
  - apply Forall_cons_1 in Hms as [((Hh & _) & Hv & _) _].
    exists (msg_header m), (msg_payload m ++ msgs_image net ms ++ p). split_and!; try done.
    unfold msgs_image. cbn [map concat]. unfold msg_image. by rewrite <- !app_assoc.
Qed.

(** the stream holds exactly [ms] and the tail [p] *)
Definition holds (net : bool) (B : Z) (ms : list Msg) (p : list Byte.byte) (st : MsgStream) : Prop :=
  sis_ok (m_is st) /\ sis_tight B (m_is st) /\ zlen (m_magic (m_msgHeader st)) = 8 /\
  is_isNetworkOrder (m_is st) = net /\ sis_bytes (m_is st) = msgs_image net ms ++ p.

Definition assembles (net : bool) (B : Z) (ms : list Msg) (p : list Byte.byte) (fuel : nat)
    (st : MsgStream) : Prop :=
  forall u, exists st', assemble_loop fuel alloc_all conn true st u =
      Done (st', fold_left (user_msg conn) ms u) /\ stream_inv net B st' p.

Lemma header_image_inj net h h' rest rest' : header_ok h -> header_ok h' ->
  header_image h net ++ rest = header_image h' net ++ rest' -> h = h'.
Proof.
  intros Hh Hh' He. rewrite <- (header_image_parse_app net h rest Hh), He.
  by apply header_image_parse_app.
Qed.

Lemma assemble_body net ms p : Forall good_msg ms -> good_tail net p ->
  (forall fuel st, (2 * length ms <= fuel)%nat -> m_state st = MS_WAITING_HEADER ->
     holds net B (tail ms) p st -> ms <> [] -> assembles net B (tail ms) p fuel st) ->
  forall fuel st rest, (2 * length ms + 1 <= fuel)%nat -> m_state st = MS_WAITING_BODY ->
  holds net B ms p st -> header_ok (m_msgHeader st) ->
  msgs_image net ms ++ p = header_image (m_msgHeader st) net ++ rest ->
  assembles net B ms p fuel st.
Proof.
  intros Hms Hp IH fuel st rest Hf Hst (Hok & Ht & Hmg & Hnet & Hb) Hh Hr u.
  assert (Hne : msgs_image net ms ++ p <> []).
  { rewrite Hr. intros He%(f_equal zlen). rewrite zlen_app, header_image_length in He by done.
    unfold sizeof_MsgHeader in He. rewrite zlen_nil in He. zlia. }
  destruct (first_header net ms p Hms Hp Hne) as (h & rest' & Hr' & Hh' & Hv & Hcase).
  rewrite Hr' in Hr. apply header_image_inj in Hr; [|done|done].
  destruct fuel as [|fuel]; [lia|]. rewrite loop_step by (done || by rewrite Hb).
  unfold assemble_step. rewrite Hst. destruct ms as [|m ms]; cbn [tail fold_left] in *.
  - rewrite Hr in Hcase. rewrite (wait_body_stops st u net) by (done || by rewrite Hb).
    cbn [outcome_bind]. rewrite loop_stops. exists st. split; [done|].
    unfold stream_inv. rewrite Hst. split_and!; done.
  - apply Forall_cons_1 in Hms as [Hm Hms].
    assert (Hb' : sis_bytes (m_is st) = msg_image m net ++ msgs_image net ms ++ p).
    { rewrite Hb. unfold msgs_image. cbn [map concat]. by rewrite <- app_assoc. }
    destruct (onWaitBody_ok st m (msgs_image net ms ++ p) net u Hst Hok Ht Hnet) as (ist & Hrun & Hok' & Ht' & Hb2 & Hn2);
      [by rewrite <- Hr|done|exact Hb'|]. rewrite Hrun. cbn [outcome_bind].
    cbn [length] in *. apply IH; [lia|done| |done].
    split_and!; try done. cbn. by destruct Hm as ((Hmh & _) & _); destruct Hmh.
Qed.

Lemma assemble_head net ms p : Forall good_msg ms -> good_tail net p ->
  (forall fuel st rest, (2 * length ms + 1 <= fuel)%nat -> m_state st = MS_WAITING_BODY ->
     holds net B ms p st -> header_ok (m_msgHeader st) ->
     msgs_image net ms ++ p = header_image (m_msgHeader st) net ++ rest ->
     assembles net B ms p fuel st) ->
  forall fuel st, (2 * length ms + 2 <= fuel)%nat -> m_state st = MS_WAITING_HEADER ->
  holds net B ms p st -> assembles net B ms p fuel st.
Proof.
  intros Hms Hp Hbody fuel st Hf Hst (Hok & Ht & Hmg & Hnet & Hb) u.
  destruct (decide (msgs_image net ms ++ p = [])) as [He|Hne].
  - exists st. rewrite loop_empty by (done || by rewrite Hb, He).
    assert (Hnil : ms = [] /\ p = []).
    { apply app_nil in He as [He ->]. split; [|done]. destruct ms as [|m ms]; [done|].
      apply Forall_cons_1 in Hms as [(_ & _ & Hpos) _]. apply (f_equal zlen) in He.
      unfold msgs_image, msg_image in He. cbn [map concat] in He. rewrite !zlen_app, zlen_nil in He.
      zlia. }
    destruct Hnil as [-> ->]. split; [done|]. unfold stream_inv. rewrite Hst. split_and!; done.
  - destruct (first_header net ms p Hms Hp Hne) as (h & rest & Hr & Hh & Hv & _).
    destruct fuel as [|fuel]; [lia|]. rewrite loop_step by (done || by rewrite Hb).
    unfold assemble_step. rewrite Hst.
    rewrite (onWaitHeader_ok st h rest net) by (done || by rewrite Hb). cbn [outcome_bind].
    apply (Hbody fuel _ rest); [lia|done| |done|done].
    split_and!; try done. by destruct Hh.
Qed.

Lemma assemble_msgs net ms p : Forall good_msg ms -> good_tail net p ->
  (forall fuel st rest, (2 * length ms + 1 <= fuel)%nat -> m_state st = MS_WAITING_BODY ->
     holds net B ms p st -> header_ok (m_msgHeader st) ->
     msgs_image net ms ++ p = header_image (m_msgHeader st) net ++ rest ->
     assembles net B ms p fuel st) /\
  (forall fuel st, (2 * length ms + 2 <= fuel)%nat -> m_state st = MS_WAITING_HEADER ->
     holds net B ms p st -> assembles net B ms p fuel st).
Proof.
  intros Hms Hp. induction ms as [|m ms IH].
  - assert (Hb := assemble_body net [] p Hms Hp ltac:(done)).
    split; [exact Hb|]. by apply assemble_head.
  - destruct IH as [_ IH]; [by apply Forall_cons_1 in Hms as [_ ?]|].
    assert (Hb := assemble_body net (m :: ms) p Hms Hp). cbn [tail length] in Hb.
    assert (Hb' := Hb ltac:(intros; apply IH; auto; lia)).
    split; [exact Hb'|]. by apply assemble_head.
Qed.
End Assembly.

(** a buffer appended to the stream *)
Lemma receive_append B st b : sis_ok (m_is st) -> sis_tight B (m_is st) -> node_ok b ->
  0 < bn_length b <= B -> zlen (nodes_bytes (sis_nodes (m_is st))) + bn_length b < 2 ^ 32 ->
  exists ist, appendBuffer true b (m_is st) = Done ist /\ sis_ok ist /\ sis_tight B ist /\
    sis_bytes ist = sis_bytes (m_is st) ++ node_bytes b /\
    is_isNetworkOrder ist = is_isNetworkOrder (m_is st).
Proof.
  intros Hok [Hpos Hoff] Hb Hl Hsum.
  destruct (append_ok (m_is st) b Hok Hb Hsum) as (ist & Ha & Hok' & Hby & _ & _ & Hor & _).
  exists ist. split_and!; try done; [|by unfold is_isNetworkOrder; cbn; rewrite Hor].
  pose proof (ok_offset _ Hok) as Ho. unfold head_length in Ho.
  unfold appendBuffer in Ha. unfold sis_tight. destruct (sis_nodes (m_is st)) as [|n l] eqn:Heq.
  - destruct (sis_tail (m_is st)); [done|]. injection Ha as <-. cbn.
    split; [constructor; [lia|constructor]|]. lia.
  - destruct (sis_tail (m_is st)); [|done]. injection Ha as <-. cbn.
    split; [|done]. rewrite app_comm_cons. apply Forall_app_2; [done|]. constructor; [lia|constructor].
Qed.

(** what the nodes hold beyond the unread bytes *)
Lemma tight_nodes B s : sis_ok s -> sis_tight B s -> 0 <= B ->
  zlen (nodes_bytes (sis_nodes s)) <= zlen (sis_bytes s) + B.
Proof.
  intros Hok [Hpos Hoff] HB. pose proof (ok_offset _ Hok) as Ho. unfold sis_bytes.
  destruct (sis_nodes s) as [|n l] eqn:Heq.
  { unfold zdrop, nodes_bytes. cbn. rewrite drop_nil. change (zlen []) with 0. lia. }
  apply Forall_cons_1 in Hpos as [Hn _]. unfold head_length in Ho.
  destruct (sis_bytes_head s n l Hok Heq) as (_ & Hnode & _).
  assert (bn_length n <= zlen (nodes_bytes (n :: l)))
    by (rewrite nodes_bytes_cons, zlen_app, node_bytes_length by done; zlia).
  rewrite zlen_zdrop by lia. lia.
Qed.

(** a received buffer that completes the messages [ms] *)
Lemma receive_delivers {U} `{MsgListener U} conn net B st p b ms p' fuel u :
  stream_inv net B st p -> node_ok b -> 0 < bn_length b <= B -> zlen p + 2 * B < 2 ^ 32 ->
  p ++ node_bytes b = msgs_image net ms ++ p' -> Forall good_msg ms -> good_tail net p' ->
  (2 * length ms + 2 <= fuel)%nat ->
  exists st', stream_receive fuel alloc_all conn b st u =
      Done (st', fold_left (user_msg conn) ms u) /\ stream_inv net B st' p'.
Proof.
  intros (Hok & Ht & Hmg & Hnet & Hb & Hst) Hn Hl Hsum Hsplit Hms Hp Hf.
  pose proof (tight_nodes B _ Hok Ht ltac:(lia)) as Hnodes. rewrite Hb in Hnodes.
  destruct (receive_append B st b Hok Ht Hn Hl ltac:(lia)) as (ist & Ha & Hok' & Ht' & Hb' & Hnet').
  unfold stream_receive. cbn [alloc_node alloc_all]. rewrite Ha. cbn [outcome_bind].
  rewrite Hb, Hsplit in Hb'. rewrite Hnet in Hnet'.
  assert (Hh : holds net B ms p' (set_is ist st)) by done.
  destruct (assemble_msgs conn B net ms p' Hms Hp) as [Hbody Hhead].
  destruct (m_state st) eqn:Hs; [| |done].
  - by apply (Hhead fuel (set_is ist st)).
  - destruct Hst as (Hhok & _ & (rest & Hr) & _).
    apply (Hbody fuel (set_is ist st) (rest ++ node_bytes b)); try done; [lia|].
    cbn. by rewrite <- Hsplit, Hr, <- app_assoc.
Qed.

(** ** Any number of buffers *)

(** the buffers of a connection, received one after the other *)
Fixpoint receive_all {U} `{MsgListener U} (fuel : nat) (conn : ConnectionDetails)
    (buffers : list BufferNode) (st : MsgStream) (u : U * list Msg)
  : outcome (MsgStream * (U * list Msg)) :=
  match buffers with
  | [] => Done (st, u)
  | b :: buffers =>
    let* '(st, u) := stream_receive fuel alloc_all conn b st u in
    receive_all fuel conn buffers st u
  end.

(** a cut of the byte sequence that leaves no part of a header behind *)
Definition clean_cut (net : bool) (B : Z) (s : list Byte.byte) : Prop :=
  exists ms p, s = msgs_image net ms ++ p /\ Forall good_msg ms /\ good_tail net p /\
    zlen p + 2 * B < 2 ^ 32.

Lemma msgs_image_cons net m ms : msgs_image net (m :: ms) = msg_image m net ++ msgs_image net ms.
Proof. reflexivity. Qed.

Lemma msg_image_length net m : msg_ok m -> zlen (msg_image m net) = m_length (msg_header m).
Proof.
  intros [Hh Hl]. unfold msg_image. rewrite zlen_app, header_image_length by done.
  unfold sizeof_Msg in Hl. unfold sizeof_MsgHeader. lia.
Qed.

(** a message at the start is not the start of an incomplete one *)
Lemma tail_no_msg net m s p : good_msg m -> msg_image m net ++ s = p -> ~ good_tail net p.
Proof.
  intros (Hm & _ & _) Hs Hp. pose proof (msg_image_length net m Hm) as Hl. pose proof Hm as [Hh _].
  destruct (hok_length _ Hh). pose proof (zlen_nonneg s).
  assert (Hlen : zlen p = m_length (msg_header m) + zlen s) by (by rewrite <- Hs, zlen_app, Hl).
  unfold msg_image in Hl. rewrite zlen_app, header_image_length in Hl by done.
  unfold sizeof_MsgHeader in Hl. pose proof (zlen_nonneg (msg_payload m)).
  destruct Hp as [->|(h & Hh' & _ & (rest & Hr) & Hpl)].
  - rewrite zlen_nil in Hlen. lia.
  - rewrite <- Hs in Hr. unfold msg_image in Hr. rewrite <- app_assoc in Hr.
    apply header_image_inj in Hr; [|done|done]. subst h. lia.
Qed.

(** messages at the start of a sequence of messages *)
Lemma msgs_prefix net ms1 : forall ms s p, Forall good_msg ms1 -> Forall good_msg ms ->
  good_tail net p -> msgs_image net ms1 ++ s = msgs_image net ms ++ p ->
  exists ms2, ms = ms1 ++ ms2 /\ s = msgs_image net ms2 ++ p.
Proof.
  induction ms1 as [|m ms1 IH]; intros ms s p Hms1 Hms Hp Heq; [by exists ms|].
  apply Forall_cons_1 in Hms1 as [Hm Hms1]. rewrite msgs_image_cons, <- app_assoc in Heq.
  destruct ms as [|m' ms]; [by destruct (tail_no_msg net m (msgs_image net ms1 ++ s) p)|].
  apply Forall_cons_1 in Hms as [Hm' Hms]. rewrite msgs_image_cons, <- app_assoc in Heq.
  pose proof Hm as ((Hh & Hl) & _ & _). pose proof Hm' as ((Hh' & Hl') & _ & _).
  unfold msg_image in Heq. rewrite <- !app_assoc in Heq.
  pose proof (header_image_inj _ _ _ _ _ Hh Hh' Heq) as Hhd. rewrite <- Hhd in Heq.
  apply app_inv_head in Heq.
  apply app_inj_1 in Heq as [Hpay Heq]; [|rewrite Hhd in Hl; unfold zlen in *; lia].
  destruct (IH ms s p Hms1 Hms Hp Heq) as (ms2 & -> & ->). exists ms2. split; [|done].
  cbn. f_equal. destruct m, m'; cbn in *. congruence.
Qed.

Lemma inv_tail net B st p : stream_inv net B st p -> good_tail net p.
Proof.
  intros (_ & _ & _ & _ & _ & Hst). destruct (m_state st); [by left|by right; eexists|done].
Qed.

(** an incomplete rest holds no message *)
Lemma tail_alone net ms p p' : good_tail net p -> Forall good_msg ms ->
  p = msgs_image net ms ++ p' -> ms = [] /\ p' = p.
Proof.
  intros Hp Hms Heq.
  destruct (msgs_prefix net ms [] p' p Hms (List.Forall_nil _) Hp (eq_sym Heq)) as (ms2 & Hnil & ->).
  symmetry in Hnil. by apply app_nil in Hnil as [-> ->].
Qed.

(** the messages that the first of several buffers completes *)
Lemma first_buffer net B p b bs ms p' : good_tail net p -> Forall good_msg ms -> good_tail net p' ->
  p ++ concat (map node_bytes (b :: bs)) = msgs_image net ms ++ p' ->
  (forall bs1 bs2, b :: bs = bs1 ++ bs2 -> clean_cut net B (p ++ concat (map node_bytes bs1))) ->
  exists ms1 p1 ms2, p ++ node_bytes b = msgs_image net ms1 ++ p1 /\ ms = ms1 ++ ms2 /\
    p1 ++ concat (map node_bytes bs) = msgs_image net ms2 ++ p' /\ good_tail net p1 /\
    zlen p + 2 * B < 2 ^ 32 /\
    forall bs1 bs2, bs = bs1 ++ bs2 -> clean_cut net B (p1 ++ concat (map node_bytes bs1)).
Proof.
  intros Hp Hms Hp' Heq Hcut. cbn [map concat] in Heq.
  assert (Hpb : zlen p + 2 * B < 2 ^ 32).
  { destruct (Hcut [] (b :: bs) eq_refl) as (ms0 & p0 & H0 & Hms0 & _ & Hsz).
    cbn [map concat] in H0. rewrite app_nil_r in H0.
    by destruct (tail_alone net ms0 p p0 Hp Hms0 H0) as [_ ->]. }
  destruct (Hcut [b] bs eq_refl) as (ms1 & p1 & H1 & Hms1 & Hp1 & _). cbn [map concat] in H1.
  rewrite app_nil_r in H1.
  assert (Heq' : msgs_image net ms1 ++ p1 ++ concat (map node_bytes bs) = msgs_image net ms ++ p')
    by (by rewrite app_assoc, <- H1, <- app_assoc).
  destruct (msgs_prefix net ms1 ms _ p' Hms1 Hms Hp' Heq') as (ms2 & -> & Heq2).
  exists ms1, p1, ms2. split_and!; try done. intros bs1 bs2 ->.
  destruct (Hcut (b :: bs1) bs2 eq_refl) as (ms' & p'' & H' & Hms' & Hp'' & Hsz).
  cbn [map concat] in H'. rewrite app_assoc, H1, <- app_assoc in H'.
  destruct (msgs_prefix net ms1 ms' _ p'' Hms1 Hms' Hp'' H') as (ms3 & -> & ->).
  apply Forall_app in Hms' as [_ Hms3]. by exists ms3, p''.
Qed.

(** C5. However messages that have a payload are cut into buffers, as long as no cut leaves
    a part of a header behind: the assembler delivers exactly the messages that were
    sent, each once, whole and in order, gives those back that the listener
    releases, and keeps the incomplete rest. The assembly loop ends each time. *)
Theorem assembler_delivers {U} `{MsgListener U} conn net B ms p' fuel : forall bs st p u,
  stream_inv net B st p -> Forall (fun b => node_ok b /\ 0 < bn_length b <= B) bs ->
  p ++ concat (map node_bytes bs) = msgs_image net ms ++ p' ->
  Forall good_msg ms -> good_tail net p' -> (2 * length ms + 2 <= fuel)%nat ->
  (forall bs1 bs2, bs = bs1 ++ bs2 -> clean_cut net B (p ++ concat (map node_bytes bs1))) ->
  exists st', receive_all fuel conn bs st u = Done (st', fold_left (user_msg conn) ms u) /\
    stream_inv net B st' p'.
Proof.
  intros bs. revert ms.
  induction bs as [|b bs IH]; intros ms st p u Hinv Hbs Heq Hms Hp Hf Hcut; cbn [receive_all].
  - cbn [map concat] in Heq. rewrite app_nil_r in Heq.
    destruct (tail_alone net ms p p' (inv_tail _ _ _ _ Hinv) Hms Heq) as [-> ->]. by exists st.
  - apply Forall_cons_1 in Hbs as [[Hn Hl] Hbs]. cbn [map concat] in Heq.
    destruct (first_buffer net B p b bs ms p' (inv_tail _ _ _ _ Hinv) Hms Hp Heq Hcut)
      as (ms1 & p1 & ms2 & H1 & -> & Heq2 & Hp1 & Hsz & Hcut2).
    apply Forall_app in Hms as [Hms1 Hms2]. rewrite length_app in Hf.
    destruct (receive_delivers conn net B st p b ms1 p1 fuel u Hinv Hn Hl Hsz H1 Hms1 Hp1 ltac:(lia))
      as (st1 & -> & Hinv1). cbn [outcome_bind]. rewrite fold_left_app.
    apply (IH ms2 st1 p1); try done. lia.
Qed.

(** the messages and the listener of the witnesses *)
Definition keep_listener : MsgListener (list Z) := {|
  onConnect := fun _ _ u => (true, u);
  onDisconnect := fun _ u => u;
  onMsg := fun _ m _ u => (MSG_CAN_DELETE, u ++ [m_msgId (msg_header m)]);
|}.

#[local] Existing Instance keep_listener.

Definition small_msg (id : Z) : Msg := MkMsg (MsgHeader_new 43 id 0 id 0) (le_split 3 id).

Lemma small_msg_good id : 0 <= id < 2 ^ 16 -> good_msg (small_msg id).
Proof.
  intros Hid. split; [|split; reflexivity]. split; [|reflexivity].
  apply MsgHeader_new_ok; lia.
Qed.

Definition sample_conn : ConnectionDetails := ConnectionDetails_newNet EmptyString 0 1 0.

(** two messages and 41 bytes of a third one in one buffer *)
Definition sample_bytes : list Byte.byte :=
  msgs_image true [small_msg 5; small_msg 6] ++ ztake 41 (msg_image (small_msg 7) true).

Lemma sample_tail : good_tail true (ztake 41 (msg_image (small_msg 7) true)).
Proof.
  right. exists (msg_header (small_msg 7)). split; [apply small_msg_good; lia|].
  split; [reflexivity|]. split; [|reflexivity]. by exists (ztake 1 (le_split 3 7)).
Qed.

(** the same bytes in three buffers: a message, one with 41 bytes of the next,
    and the rest of it with 41 bytes of the third *)
Definition sample_buffers : list BufferNode :=
  [sample_node 1 (msg_image (small_msg 5) true);
   sample_node 2 (ztake 41 (msg_image (small_msg 6) true));
   sample_node 3 (zdrop 41 (msg_image (small_msg 6) true) ++
     ztake 41 (msg_image (small_msg 7) true))].

Lemma sample_cuts bs1 bs2 : sample_buffers = bs1 ++ bs2 ->
  clean_cut true 100 ([] ++ concat (map node_bytes bs1)).
Proof.
  assert (Hg : forall id, 0 <= id < 2 ^ 16 -> good_tail true (ztake 41 (msg_image (small_msg id) true))).
  { intros id Hid. right. exists (msg_header (small_msg id)). split; [by apply small_msg_good|].
    split; [reflexivity|]. split; [|reflexivity]. exists (ztake 1 (le_split 3 id)).
    unfold msg_image. rewrite ztake_app_ge; rewrite header_image_length; try apply small_msg_good; done. }
  intros Heq. unfold sample_buffers in Heq.
  destruct bs1 as [|b1 [|b2 [|b3 [|b4 bs1]]]]; cbn [app] in Heq; simplify_eq.
  - exists [], []. split_and!; [done|constructor|by left|reflexivity].
  - exists [small_msg 5], []. split_and!; [reflexivity| |by left|reflexivity].
    repeat constructor; apply small_msg_good; lia.
  - exists [small_msg 5], (ztake 41 (msg_image (small_msg 6) true)). split_and!; [reflexivity| | |reflexivity].
    + repeat constructor; apply small_msg_good; lia.
    + apply Hg. lia.
  - exists [small_msg 5; small_msg 6], (ztake 41 (msg_image (small_msg 7) true)).
    split_and!; [reflexivity| | |reflexivity].
    + repeat constructor; apply small_msg_good; lia.
    + apply Hg. lia.
Qed.

Lemma assembler_delivers_witness :
  exists st', receive_all 6 sample_conn sample_buffers (MsgStream_new NETWORK_ORDER) ([], []) =
    Done (st', ([5; 6], [small_msg 5; small_msg 6])) /\
    stream_inv true 100 st' (ztake 41 (msg_image (small_msg 7) true)).
Proof.
  apply (@assembler_delivers _ keep_listener sample_conn true 100 [small_msg 5; small_msg 6]
           (ztake 41 (msg_image (small_msg 7) true)) 6 sample_buffers (MsgStream_new NETWORK_ORDER) []
           ([], [])).
  - split; [apply new_ok|]. split; [by split|]. done.
  - repeat constructor; vm_compute; congruence.
  - reflexivity.
  - repeat constructor; apply small_msg_good; lia.
  - apply sample_tail.
  - cbn. lia.
  - apply sample_cuts.
Defined.

(** ** Resynchronisation *)

Lemma magic_at_front h net rest : isValid h = true ->
  starts_with COMMUTIL_MSG_MAGIC (before_nul (header_image h net ++ rest)) = true.
Proof.
  intros Hv%bool_decide_eq_true. unfold header_image. rewrite Hv, <- app_assoc.
  generalize ((uint_image net 4 (m_length h) ++ uint_image net 2 (m_msgId h) ++
    uint_image net 2 (m_flags h) ++ uint_image net 8 (m_requestId h) ++
    uint_image net 4 (m_requestIndex h) ++ uint_image net 4 (m_uncompressedLength h) ++
    uint_image net 4 (m_batchSize h) ++ uint_image net 4 (m_reserved h)) ++ rest).
  intros l. apply bool_decide_eq_true. reflexivity.
Qed.

Lemma resync_at_magic st b h rest net : m_state st = MS_RESYNC -> sis_ok (m_is st) ->
  sis_nodes (m_is st) = [b] -> sis_offset (m_is st) = 0 -> bn_length b < 2 ^ 31 ->
  header_ok h -> isValid h = true -> node_bytes b = header_image h net ++ rest ->
  onResync alloc_all st = Done (set_state MS_WAITING_HEADER st).
Proof.
  intros Hst Hok Hnodes Hoff Hl Hh Hv Hb.
  pose proof (ok_nodes _ Hok) as Hn. rewrite Hnodes in Hn. apply Forall_cons_1 in Hn as [Hn _].
  pose proof (node_bytes_length b Hn) as Hlen. rewrite Hb, zlen_app, header_image_length in Hlen
    by done. unfold sizeof_MsgHeader in Hlen. pose proof (zlen_nonneg rest).
  destruct (sis_bytes_head _ _ _ Hok Hnodes) as (_ & _ & _ & Hs & _).
  change (zlen (nodes_bytes [])) with 0 in Hs. pose proof Hn as [_ Hcap].
  unfold onResync. change (is_size (m_is st)) with (sis_size (m_is st)).
  change COMMUTIL_MSG_MAGIC_SIZE with 8. rewrite (proj2 (Z.ltb_ge _ _)) by lia.
  cbn [searchBytes SegmentedInputStream_stream alloc_search alloc_all]. unfold sis_searchBytes.
  rewrite Hnodes. cbn [searchBytes_loop]. rewrite (proj2 (Z.ltb_ge _ 8)) by lia.
  change 8 with (zlen COMMUTIL_MSG_MAGIC). rewrite strnstr_ok by lia. cbn [outcome_bind].
  assert (Hf : find_first COMMUTIL_MSG_MAGIC (visible (bn_buffer b) (bn_length b)) = 0).
  { unfold find_first, visible. fold (node_bytes b). rewrite Hb.
    unfold find_from. destruct (before_nul _) eqn:He; rewrite <- He; by rewrite magic_at_front. }
  rewrite Hf. cbn [Z.leb Z.ltb Z.compare outcome_bind]. rewrite decide_False, decide_True by done.
  unfold set_is, set_state. by destruct st.
Qed.

(** the first buffer after a connect *)
Lemma receive_first {U} `{MsgListener U} conn net B st b ms p' fuel u :
  sis_offset (m_is st) = 0 -> zlen (m_magic (m_msgHeader st)) = 8 ->
  is_isNetworkOrder (m_is st) = net -> node_ok b -> bn_length b <= B -> bn_length b < 2 ^ 31 ->
  node_bytes b = msgs_image net ms ++ p' -> Forall good_msg ms -> good_tail net p' ->
  msgs_image net ms ++ p' <> [] -> (2 * length ms + 3 <= fuel)%nat ->
  exists st', stream_receive fuel alloc_all conn b (stream_reset st) u =
      Done (st', fold_left (user_msg conn) ms u) /\ stream_inv net B st' p'.
Proof.
  intros Hoff Hmg Hnet Hn HB Hl Hsplit Hms Hp Hne Hf.
  destruct (first_header net ms p' Hms Hp Hne) as (h & rest & Hr & Hh & Hv & _).
  assert (Hok : sis_ok (m_is (stream_reset st))).
  { constructor; cbn; try done; rewrite ?Hoff; done. }
  assert (Ht : sis_tight B (m_is (stream_reset st))) by (by split).
  pose proof (node_bytes_length b Hn) as Hbl. pose proof Hn as [Hn0 _].
  assert (Hpos : 0 < bn_length b).
  { rewrite <- Hbl, Hsplit, Hr, zlen_app, header_image_length by done. unfold sizeof_MsgHeader. zlia. }
  destruct (receive_append B (stream_reset st) b Hok Ht Hn ltac:(lia)) as
    (ist & Ha & Hok' & Ht' & Hb' & Hnet'); [cbn; change (zlen (nodes_bytes [])) with 0; lia|].
  unfold stream_receive. cbn [alloc_node alloc_all]. rewrite Ha. cbn [outcome_bind].
  assert (Hist : sis_nodes ist = [b] /\ sis_offset ist = 0).
  { cbn in Ha. injection Ha as <-. done. }
  destruct Hist as [Hnodes Hoff'].
  assert (Hb2 : sis_bytes ist = node_bytes b).
  { unfold sis_bytes. rewrite Hnodes, Hoff', zdrop_0. by rewrite nodes_bytes_cons, app_nil_r. }
  destruct fuel as [|fuel]; [lia|]. rewrite loop_step; [|done|cbn; by rewrite Hb2, Hsplit].
  unfold assemble_step. cbn [m_state set_is stream_reset].
  rewrite (resync_at_magic _ b h rest net) by (done || by rewrite Hsplit). cbn [outcome_bind].
  destruct (assemble_msgs conn B net ms p' Hms Hp) as [_ Hhead].
  apply (Hhead fuel); [lia|done|]. split_and!; try done; cbn.
  - by rewrite Hnet'.
  - by rewrite Hb2.
Qed.

(** C34. After a connect, on a stream that was never read in part, the first buffer
    may start with a message right away: the search for the magic word finds it,
    and the messages are delivered as by a stream in step. *)
Theorem connect_resyncs {U} `{MsgListener U} conn net B st b ms p' fuel u :
  sis_offset (m_is st) = 0 -> zlen (m_magic (m_msgHeader st)) = 8 ->
  is_isNetworkOrder (m_is st) = net -> node_ok b -> bn_length b <= B -> bn_length b < 2 ^ 31 ->
  node_bytes b = msgs_image net ms ++ p' -> Forall good_msg ms -> good_tail net p' ->
  msgs_image net ms ++ p' <> [] -> (2 * length ms + 3 <= fuel)%nat ->
  exists st', stream_receive fuel alloc_all conn b (stream_reset st) u =
      Done (st', fold_left (user_msg conn) ms u) /\ stream_inv net B st' p'.
Proof. apply receive_first. Qed.

Lemma connect_resyncs_witness :
  exists st', stream_receive 7 alloc_all sample_conn (sample_node 1 sample_bytes)
      (stream_reset (MsgStream_new NETWORK_ORDER)) ([], []) =
    Done (st', ([5; 6], [small_msg 5; small_msg 6])) /\
    stream_inv true 200 st' (ztake 41 (msg_image (small_msg 7) true)).
Proof.
  apply (@connect_resyncs _ keep_listener sample_conn true 200 (MsgStream_new NETWORK_ORDER)
           (sample_node 1 sample_bytes) [small_msg 5; small_msg 6]
           (ztake 41 (msg_image (small_msg 7) true)) 7 ([], [])); try reflexivity.
  - split; vm_compute; discriminate.
  - vm_compute. discriminate.
  - repeat constructor; apply small_msg_good; lia.
  - apply sample_tail.
  - vm_compute. discriminate.
Defined.

(** ** Where the assembly does not end or breaks *)

(** A buffer that leaves a part of a header at the start of the stream, or
    less than a magic word while resynchronising, is never given up: the loop
    goes round without reading or waiting, whatever fuel it has. *)
Theorem fragment_hangs {U} `{MsgListener U} conn env B st b fuel u :
  sis_ok (m_is st) -> sis_tight B (m_is st) -> node_ok b -> 0 < bn_length b <= B ->
  alloc_node env = true ->
  match m_state st with
  | MS_WAITING_HEADER => sis_size (m_is st) + bn_length b < sizeof_MsgHeader
  | MS_RESYNC => sis_size (m_is st) + bn_length b < COMMUTIL_MSG_MAGIC_SIZE
  | MS_WAITING_BODY => False
  end ->
  zlen (nodes_bytes (sis_nodes (m_is st))) + bn_length b < 2 ^ 32 ->
  stream_receive fuel env conn b st u = NoFuel.
Proof.
  intros Hok Ht Hn Hl Henv Hst Hsum.
  destruct (receive_append B st b Hok Ht Hn Hl Hsum) as (ist & Ha & Hok' & Ht' & Hb' & _).
  unfold stream_receive. rewrite Henv, Ha. cbn [outcome_bind].
  pose proof (sis_bytes_length _ Hok') as Hs. rewrite Hb', zlen_app in Hs.
  rewrite (sis_bytes_length _ Hok), (node_bytes_length b Hn) in Hs.
  pose proof (sis_bytes_length _ Hok) as Hs0. pose proof (zlen_nonneg (sis_bytes (m_is st))).
  assert (Hloop : assemble_step env conn (set_is ist st) u = Done (true, set_is ist st, u)).
  { unfold assemble_step. cbn [m_state set_is]. destruct (m_state st) eqn:Hm; [| done |].
    - unfold onWaitHeader. cbn [m_is set_is]. change (is_size ist) with (sis_size ist).
      change sizeof_Msg with sizeof_MsgHeader. by rewrite (proj2 (Z.ltb_lt _ _)) by lia.
    - unfold onResync. cbn [m_is set_is]. change (is_size ist) with (sis_size ist).
      by rewrite (proj2 (Z.ltb_lt _ _)) by lia. }
  assert (He : is_empty (m_is (set_is ist st)) = false).
  { unfold is_empty. cbn. apply Z.eqb_neq. lia. }
  induction fuel as [|fuel IH]; cbn [assemble_loop]; rewrite He; cbn [andb negb]; [done|].
  rewrite Hloop. exact IH.
Qed.

Lemma fragment_hangs_witness :
  @stream_receive _ keep_listener 1000 alloc_all sample_conn
    (sample_node 1 (ztake 39 (msg_image (small_msg 7) true)))
    (MsgStream_new NETWORK_ORDER) ([], []) = NoFuel.
Proof.
  apply (@fragment_hangs _ keep_listener sample_conn alloc_all 100 (MsgStream_new NETWORK_ORDER)
    (sample_node 1 (ztake 39 (msg_image (small_msg 7) true))) 1000 ([], [])); try reflexivity.
  - apply new_ok.
  - by split.
  - split; vm_compute; discriminate.
  - split; vm_compute; congruence.
Defined.

(** A valid header that announces less than its own size overflows the message
    allocated for it, and a message without payload at the end of the received
    bytes dereferences a null pointer. *)
Theorem short_messages_break {U} `{MsgListener U} conn net B st b h fuel u :
  stream_inv net B st [] -> node_ok b -> bn_length b <= B -> bn_length b < 2 ^ 32 ->
  node_bytes b = header_image h net -> header_ok h -> isValid h = true ->
  m_length h <= sizeof_MsgHeader -> (2 <= fuel)%nat ->
  stream_receive fuel alloc_all conn b st u =
    Undef (if m_length h <? sizeof_MsgHeader then UB_bounds else UB_null).
Proof.
  intros (Hok & Ht & Hmg & Hnet & Hb & Hst) Hn HB Hl Hsplit Hh Hv Hlen Hf.
  pose proof (node_bytes_length b Hn) as Hbl. rewrite Hsplit, header_image_length in Hbl by done.
  assert (Hnodes : sis_nodes (m_is st) = []) by (by apply (tight_drained (B := B))).
  assert (Hs : m_state st = MS_WAITING_HEADER).
  { destruct (m_state st); [done| |done]. destruct Hst as (Hh' & _ & (rest & He) & _).
    apply (f_equal zlen) in He. rewrite zlen_app, header_image_length in He by done.
    unfold sizeof_MsgHeader in He. rewrite zlen_nil in He. zlia. }
  destruct (receive_append B st b Hok Ht Hn) as (ist & Ha & Hok' & Ht' & Hb' & Hnet').
  { unfold sizeof_MsgHeader in *. lia. }
  { rewrite Hnodes. change (zlen (nodes_bytes [])) with 0. lia. }
  rewrite Hb, Hsplit in Hb'. cbn [app] in Hb'. rewrite Hnet in Hnet'.
  unfold stream_receive. cbn [alloc_node alloc_all]. rewrite Ha. cbn [outcome_bind].
  assert (Hne : header_image h net <> []).
  { intros He%(f_equal zlen). rewrite header_image_length in He by done. done. }
  destruct fuel as [|[|fuel]]; [lia|lia|]. rewrite loop_step; [|done|cbn; by rewrite Hb'].
  unfold assemble_step. cbn [m_state set_is]. rewrite Hs.
  rewrite (onWaitHeader_ok _ h [] net) by (done || by rewrite app_nil_r). cbn [outcome_bind].
  rewrite loop_step; [|done|cbn; by rewrite Hb']. unfold assemble_step, onWaitBody.
  cbn [m_state m_is m_msgHeader set_is]. change (is_size ist) with (sis_size ist).
  pose proof (sis_bytes_length _ Hok') as Hsz. rewrite Hb', header_image_length in Hsz by done.
  rewrite (proj2 (Z.ltb_ge _ _)) by lia. cbn [alloc_msg alloc_all]. destruct (hok_length _ Hh).
  destruct (Z.ltb_spec (m_length h) sizeof_MsgHeader) as [Hs'|Hs'].
  - rewrite allocMsgFor_short by (unfold sizeof_Msg, sizeof_MsgHeader in *; lia). done.
  - assert (Heq : m_length h = 40) by (unfold sizeof_MsgHeader in *; lia).
    rewrite allocMsgFor_ok by (unfold sizeof_Msg; lia). cbn [outcome_bind].
    rewrite (empty_msg_segmented B h); try done. by rewrite Hb', Hnet'.
Qed.

Lemma short_messages_break_witness :
  @stream_receive _ keep_listener 2 alloc_all sample_conn
    (sample_node 1 (header_image (setLength 39 sample_header) true))
    (MsgStream_new NETWORK_ORDER) ([], []) = Undef UB_bounds /\
  @stream_receive _ keep_listener 2 alloc_all sample_conn
    (sample_node 1 (header_image (setLength 40 sample_header) true))
    (MsgStream_new NETWORK_ORDER) ([], []) = Undef UB_null.
Proof.
  split.
  - apply (@short_messages_break _ keep_listener sample_conn true 100 (MsgStream_new NETWORK_ORDER)
      (sample_node 1 (header_image (setLength 39 sample_header) true)) (setLength 39 sample_header)
      2 ([], [])); try reflexivity; try (vm_compute; discriminate).
    + split; [apply new_ok|]. split; [by split|]. done.
    + split; vm_compute; discriminate.
    + by apply header_okb_ok.
  - apply (@short_messages_break _ keep_listener sample_conn true 100 (MsgStream_new NETWORK_ORDER)
      (sample_node 1 (header_image (setLength 40 sample_header) true)) (setLength 40 sample_header)
      2 ([], [])); try reflexivity; try (vm_compute; discriminate).
    + split; [apply new_ok|]. split; [by split|]. done.
    + split; vm_compute; discriminate.
    + by apply header_okb_ok.
Defined.
