(* ===== verification/HashTable.v ===== *)
(** * ConcurrentHashTable (inc/transport/concurrent_hash_table.h)

    The lock-free hash table with linear probing: its hash function, the
    operations as one thread runs them, and the insertions of several threads
    as interleaved atomic steps. *)

From Stdlib Require Import ZArith Lia.
From stdpp Require Import gmap.
From coqutil Require Import Byte.
From S2P Require Import Prelude Errors.
Open Scope Z_scope.

(** ** The hash function *)

(** the murmur finalizer, which nothing calls *)
Definition integerHash (h : Z) : Z :=
  let h := Z.lxor h (Z.shiftr h 16) in
  let h := u32 (h * 0x85ebca6b) in
  let h := Z.lxor h (Z.shiftr h 13) in
  let h := u32 (h * 0xc2b2ae35) in
  Z.lxor h (Z.shiftr h 16).

Definition hash_m : Z := 0x5bd1e995.

(** the loop over the four-byte groups; a group is summed up in little-endian
    order *)
Fixpoint hash64_loop (length4 : nat) (data : list Byte.byte) (h : Z) : Z :=
  match length4 with
  | O => h
  | S length4 =>
    let k := le_combine (ztake 4 data) in
    let k := u32 (k * hash_m) in
    let k := Z.lxor k (Z.shiftr k 24) in
    let k := u32 (k * hash_m) in
    let h := u32 (h * hash_m) in
    hash64_loop length4 (zdrop 4 data) (Z.lxor h k)
  end.

(** the length is 8, so that no bytes remain after the loop *)
Definition hash64 (key : Z) : Z :=
  let h := hash64_loop 2 (le_split 8 key) (Z.lxor 0xd92e493e 8) in
  let h := Z.lxor h (Z.shiftr h 13) in
  let h := u32 (h * hash_m) in
  Z.lxor h (Z.shiftr h 15).

(** ** The table *)

Definition COMMUTIL_INVALID_CHT_ENTRY_ID : Z := u32 (-1).

Section Table.
Context {V : Type}.

(** a value that was never stored is [None] *)
Record Entry := MkEntry { e_key : Z; e_value : option V }.

(** [ht_entries] is empty for a null array *)
Record HashTable := MkHashTable { ht_entries : list Entry; ht_size : Z }.

Definition HashTable_new : HashTable := MkHashTable [] 0.

(** while (size2pow < size) size2pow <<= 1, on 64 bit *)
Fixpoint size2pow_loop (fuel : nat) (size size2pow : Z) : outcome Z :=
  if size2pow <? size then
    match fuel with
    | O => NoFuel
    | S fuel => size2pow_loop fuel size (u64 (Z.shiftl size2pow 1))
    end
  else Done size2pow.

Definition ht_initialize (fuel : nat) (alloc : bool) (size : Z) (t : HashTable)
  : outcome (ErrorCode * HashTable) :=
  if negb (ht_size t =? 0) || negb (bool_decide (ht_entries t = [])) then
    Done (E_ALREADY_EXISTS, t)
  else
    let* size2pow := size2pow_loop fuel size 1 in
    if alloc then
      Done (E_OK, MkHashTable (replicate (Z.to_nat size2pow) (MkEntry 0 None)) size2pow)
    else Done (E_NOMEM, t).

Definition ht_destroy (t : HashTable) : HashTable :=
  match ht_entries t with [] => t | _ => HashTable_new end.

(** the loops run from [idx] for the [n] remaining values of [count] *)
Fixpoint setItem_loop (n : nat) (size idx key : Z) (value : V) (es : list Entry)
  : outcome (Z * list Entry) :=
  match n with
  | O => Done (COMMUTIL_INVALID_CHT_ENTRY_ID, es)
  | S n =>
    let idx := Z.land idx (size - 1) in
    let* e := mem_get es idx in
    if negb (e_key e =? key) && negb (e_key e =? 0) then
      setItem_loop n size (u32 (idx + 1)) key value es
    else
      (* without other threads the compare-and-exchange succeeds *)
      Done (idx, zset es idx (MkEntry key (Some value)))
  end.

Definition setItem (key : Z) (value : V) (t : HashTable) : outcome (Z * HashTable) :=
  let* '(idx, es) := setItem_loop (Z.to_nat (ht_size t)) (ht_size t) (hash64 key) key value
                       (ht_entries t) in
  Done (idx, MkHashTable es (ht_size t)).

Fixpoint getItem_loop (n : nat) (size idx key : Z) (es : list Entry) : outcome (Z * option V) :=
  match n with
  | O => Done (COMMUTIL_INVALID_CHT_ENTRY_ID, None)
  | S n =>
    let idx := Z.land idx (size - 1) in
    let* e := mem_get es idx in
    if e_key e =? key then Done (idx, e_value e)
    else getItem_loop n size (u32 (idx + 1)) key es
  end.

Definition getItem (key : Z) (t : HashTable) : outcome (Z * option V) :=
  getItem_loop (Z.to_nat (ht_size t)) (ht_size t) (hash64 key) key (ht_entries t).

(** the flag is what is stored through [found]: nothing, or true *)
Fixpoint getOrSetItem_loop (n : nat) (size idx key : Z) (value : V) (es : list Entry)
  : outcome (Z * option bool * list Entry) :=
  match n with
  | O => Done (COMMUTIL_INVALID_CHT_ENTRY_ID, None, es)
  | S n =>
    let idx := Z.land idx (size - 1) in
    let* e := mem_get es idx in
    if e_key e =? key then Done (idx, Some true, es)
    else if negb (e_key e =? 0) then
      getOrSetItem_loop n size (u32 (idx + 1)) key value es
    else Done (idx, None, zset es idx (MkEntry key (Some value)))
  end.

Definition getOrSetItem (key : Z) (value : V) (t : HashTable)
  : outcome (Z * option bool * HashTable) :=
  let* '(idx, found, es) := getOrSetItem_loop (Z.to_nat (ht_size t)) (ht_size t) (hash64 key) key
                              value (ht_entries t) in
  Done (idx, found, MkHashTable es (ht_size t)).

Definition getAt (idx : Z) (t : HashTable) : outcome (option V) :=
  let* e := mem_get (ht_entries t) idx in Done (e_value e).

Definition setAt (idx : Z) (value : V) (t : HashTable) : outcome HashTable :=
  let* e := mem_get (ht_entries t) idx in
  Done (MkHashTable (zset (ht_entries t) idx (MkEntry (e_key e) (Some value))) (ht_size t)).

Definition removeAt (idx : Z) (t : HashTable) : outcome HashTable :=
  let* e := mem_get (ht_entries t) idx in
  Done (MkHashTable (zset (ht_entries t) idx (MkEntry 0 (e_value e))) (ht_size t)).

Fixpoint removeItem_loop (n : nat) (size idx key : Z) (es : list Entry)
  : outcome (Z * list Entry) :=
  match n with
  | O => Done (COMMUTIL_INVALID_CHT_ENTRY_ID, es)
  | S n =>
    let idx := Z.land idx (size - 1) in
    let* e := mem_get es idx in
    if negb (e_key e =? key) then removeItem_loop n size (u32 (idx + 1)) key es
    else Done (idx, zset es idx (MkEntry 0 (e_value e)))
  end.

Definition removeItem (key : Z) (t : HashTable) : outcome (Z * HashTable) :=
  let* '(idx, es) := removeItem_loop (Z.to_nat (ht_size t)) (ht_size t) (hash64 key) key
                       (ht_entries t) in
  Done (idx, MkHashTable es (ht_size t)).

(** ** Probing *)

(** an initialised table: a power of two many entries *)
Definition ht_ok (t : HashTable) : Prop :=
  exists k, 0 <= k <= 31 /\ ht_size t = 2 ^ k /\ zlen (ht_entries t) = ht_size t.

Implicit Types (es : list Entry) (t : HashTable).

Lemma land_size k idx : 0 <= k -> Z.land idx (2 ^ k - 1) = idx mod 2 ^ k.
Proof. intros Hk. rewrite <- (Z.land_ones idx k Hk). f_equal. rewrite Z.ones_equiv. lia. Qed.

Lemma mod_succ k idx : 0 <= k <= 31 -> u32 (idx mod 2 ^ k + 1) mod 2 ^ k = (idx + 1) mod 2 ^ k.
Proof.
  intros Hk. assert (0 < 2 ^ k) by (apply Z.pow_pos_nonneg; lia).
  assert (2 ^ k <= 2 ^ 31) by (apply Z.pow_le_mono_r; lia).
  pose proof (Z.mod_pos_bound idx (2 ^ k) ltac:(lia)).
  rewrite u32_small by lia. apply Z.add_mod_idemp_l. lia.
Qed.

Lemma probe_entry k es idx : 0 <= k <= 31 -> zlen es = 2 ^ k ->
  exists e, zget es (idx mod 2 ^ k) = Some e /\ mem_get es (idx mod 2 ^ k) = Done e.
Proof.
  intros Hk Hl. assert (0 < 2 ^ k) by (apply Z.pow_pos_nonneg; lia).
  destruct (zget_is_Some es (idx mod 2 ^ k)) as [e He].
  { rewrite Hl. apply Z.mod_pos_bound. lia. }
  exists e. split; [done|]. by apply mem_get_ok.
Qed.

(** the entry at the [i]-th probe from [idx] *)
Definition probe (k idx : Z) (es : list Entry) (i : nat) : option Entry :=
  zget es ((idx + Z.of_nat i) mod 2 ^ k).

Lemma probe_S k idx es i : 0 <= k <= 31 ->
  probe k (u32 (idx mod 2 ^ k + 1)) es i = probe k idx es (S i).
Proof.
  intros Hk. unfold probe. f_equal. assert (0 < 2 ^ k) by (apply Z.pow_pos_nonneg; lia).
  rewrite <- Z.add_mod_idemp_l, mod_succ, Z.add_mod_idemp_l by lia. f_equal. lia.
Qed.

(** what a probing loop looks for: the first probe that satisfies [P] *)
Definition stops (P : Entry -> Prop) (k : Z) (n : nat) (idx : Z) es (i : Z) (e : Entry) : Prop :=
  zget es i = Some e /\ P e /\ exists m : nat, (m < n)%nat /\ i = (idx + Z.of_nat m) mod 2 ^ k /\
    forall j : nat, (j < m)%nat -> forall e', probe k idx es j = Some e' -> ~ P e'.

Definition misses (P : Entry -> Prop) (k : Z) (n : nat) (idx : Z) es : Prop :=
  forall j : nat, (j < n)%nat -> forall e', probe k idx es j = Some e' -> ~ P e'.

Lemma stops_here P k n idx es e : 0 <= k <= 31 -> zget es (idx mod 2 ^ k) = Some e -> P e ->
  stops P k (S n) idx es (idx mod 2 ^ k) e.
Proof.
  intros Hk He HP. split; [done|]. split; [done|]. exists 0%nat. split; [lia|].
  rewrite Z.add_0_r. split; [done|]. lia.
Qed.

Lemma stops_next P k n idx es e i ei : 0 <= k <= 31 ->
  zget es (idx mod 2 ^ k) = Some e -> ~ P e ->
  stops P k n (u32 (idx mod 2 ^ k + 1)) es i ei -> stops P k (S n) idx es i ei.
Proof.
  intros Hk He HnP (Hi & HP & m & Hm & Him & Hmin). split; [done|]. split; [done|].
  exists (S m). split; [lia|]. assert (0 < 2 ^ k) by (apply Z.pow_pos_nonneg; lia). split.
  - rewrite Him, <- Z.add_mod_idemp_l, mod_succ, Z.add_mod_idemp_l by lia. f_equal. lia.
  - intros [|j] Hj e'.
    + unfold probe. rewrite Z.add_0_r, He. by intros [= <-].
    + rewrite <- probe_S by done. apply Hmin. lia.
Qed.

Lemma misses_next P k n idx es e : 0 <= k <= 31 ->
  zget es (idx mod 2 ^ k) = Some e -> ~ P e ->
  misses P k n (u32 (idx mod 2 ^ k + 1)) es -> misses P k (S n) idx es.
Proof.
  intros Hk He HnP Hm [|j] Hj e'.
  - unfold probe. rewrite Z.add_0_r, He. by intros [= <-].
  - rewrite <- probe_S by done. apply Hm. lia.
Qed.

(** a full round of probes sees every entry *)
Lemma misses_all P k n idx es : 0 <= k <= 31 -> zlen es = 2 ^ k -> Z.of_nat n = 2 ^ k ->
  misses P k n idx es -> forall i e, zget es i = Some e -> ~ P e.
Proof.
  intros Hk Hl Hn Hm i e He. pose proof (zget_Some_range _ _ _ He) as Hi. rewrite Hl in Hi.
  assert (0 < 2 ^ k) by lia.
  pose proof (Z.mod_pos_bound (i - idx) (2 ^ k) ltac:(lia)) as Hb.
  apply (Hm (Z.to_nat ((i - idx) mod 2 ^ k))); [lia|]. unfold probe.
  rewrite Z2Nat.id by lia. rewrite Z.add_mod_idemp_r by lia.
  replace (idx + (i - idx)) with i by lia. by rewrite Z.mod_small by lia.
Qed.

(** the three searches *)
Definition is_free_or (key : Z) (e : Entry) : Prop := e_key e = key \/ e_key e = 0.
Definition has_key (key : Z) (e : Entry) : Prop := e_key e = key.

Lemma setItem_loop_spec k n es key v : 0 <= k <= 31 -> zlen es = 2 ^ k -> forall idx,
  (exists i e, stops (is_free_or key) k n idx es i e /\
     setItem_loop n (2 ^ k) idx key v es = Done (i, zset es i (MkEntry key (Some v)))) \/
  (misses (is_free_or key) k n idx es /\
     setItem_loop n (2 ^ k) idx key v es = Done (COMMUTIL_INVALID_CHT_ENTRY_ID, es)).
Proof.
  intros Hk Hl. induction n as [|n IH]; intros idx; cbn [setItem_loop].
  { right. split; [intros j Hj; lia|done]. }
  rewrite land_size by lia. destruct (probe_entry k es idx Hk Hl) as (e & He & ->).
  cbn [outcome_bind]. destruct (Z.eqb_spec (e_key e) key) as [Hkey|Hkey]; cbn [negb andb].
  - left. exists (idx mod 2 ^ k), e. split; [|done]. apply stops_here; [done|done|by left].
  - destruct (Z.eqb_spec (e_key e) 0) as [Hz|Hz]; cbn [negb].
    + left. exists (idx mod 2 ^ k), e. split; [|done]. apply stops_here; [done|done|by right].
    + assert (HnP : ~ is_free_or key e) by (unfold is_free_or; tauto).
      destruct (IH (u32 (idx mod 2 ^ k + 1))) as [(i & ei & Hs & Hrun)|[Hm Hrun]].
      * left. exists i, ei. split; [by eapply stops_next|done].
      * right. split; [by eapply misses_next|done].
Qed.

Lemma getItem_loop_spec k n es key : 0 <= k <= 31 -> zlen es = 2 ^ k -> forall idx,
  (exists i e, stops (has_key key) k n idx es i e /\
     getItem_loop n (2 ^ k) idx key es = Done (i, e_value e)) \/
  (misses (has_key key) k n idx es /\
     getItem_loop n (2 ^ k) idx key es = Done (COMMUTIL_INVALID_CHT_ENTRY_ID, None)).
Proof.
  intros Hk Hl. induction n as [|n IH]; intros idx; cbn [getItem_loop].
  { right. split; [intros j Hj; lia|done]. }
  rewrite land_size by lia. destruct (probe_entry k es idx Hk Hl) as (e & He & ->).
  cbn [outcome_bind]. destruct (Z.eqb_spec (e_key e) key) as [Hkey|Hkey].
  - left. exists (idx mod 2 ^ k), e. split; [|done]. by apply stops_here.
  - destruct (IH (u32 (idx mod 2 ^ k + 1))) as [(i & ei & Hs & Hrun)|[Hm Hrun]].
    + left. exists i, ei. split; [by eapply stops_next|done].
    + right. split; [by eapply misses_next|done].
Qed.

Lemma removeItem_loop_spec k n es key : 0 <= k <= 31 -> zlen es = 2 ^ k -> forall idx,
  (exists i e, stops (has_key key) k n idx es i e /\
     removeItem_loop n (2 ^ k) idx key es = Done (i, zset es i (MkEntry 0 (e_value e)))) \/
  (misses (has_key key) k n idx es /\
     removeItem_loop n (2 ^ k) idx key es = Done (COMMUTIL_INVALID_CHT_ENTRY_ID, es)).
Proof.
  intros Hk Hl. induction n as [|n IH]; intros idx; cbn [removeItem_loop].
  { right. split; [intros j Hj; lia|done]. }
  rewrite land_size by lia. destruct (probe_entry k es idx Hk Hl) as (e & He & ->).
  cbn [outcome_bind]. destruct (Z.eqb_spec (e_key e) key) as [Hkey|Hkey]; cbn [negb].
  - left. exists (idx mod 2 ^ k), e. split; [|done]. by apply stops_here.
  - destruct (IH (u32 (idx mod 2 ^ k + 1))) as [(i & ei & Hs & Hrun)|[Hm Hrun]].
    + left. exists i, ei. split; [by eapply stops_next|done].
    + right. split; [by eapply misses_next|done].
Qed.

(** changing an entry that is not the first match, to one that does not match,
    keeps the search's result *)
Lemma getItem_loop_frame k n es es' key : 0 <= k <= 31 -> zlen es = 2 ^ k -> zlen es' = 2 ^ k ->
  (forall i, zget es' i = zget es i \/
     (forall e, zget es i = Some e -> ~ has_key key e) /\
     (forall e, zget es' i = Some e -> ~ has_key key e)) ->
  forall idx, getItem_loop n (2 ^ k) idx key es' = getItem_loop n (2 ^ k) idx key es.
Proof.
  intros Hk Hl Hl' Hch. induction n as [|n IH]; intros idx; [done|]. cbn [getItem_loop].
  rewrite land_size by lia.
  destruct (probe_entry k es idx Hk Hl) as (e & He & ->).
  destruct (probe_entry k es' idx Hk Hl') as (e' & He' & ->). cbn [outcome_bind].
  destruct (Hch (idx mod 2 ^ k)) as [Heq|[Hn Hn']].
  - rewrite Heq, He in He'. injection He' as <-. by rewrite IH.
  - specialize (Hn e He). specialize (Hn' e' He'). unfold has_key in *.
    rewrite (proj2 (Z.eqb_neq (e_key e) key)), (proj2 (Z.eqb_neq (e_key e') key)) by done.
    apply IH.
Qed.

Lemma stops_det P k n idx es i e i' e' :
  stops P k n idx es i e -> stops P k n idx es i' e' -> i = i' /\ e = e'.
Proof.
  intros (Hi & HP & m & Hm & Him & Hmin) (Hi' & HP' & m' & Hm' & Him' & Hmin').
  assert (m = m') as ->.
  { destruct (Nat.lt_trichotomy m m') as [Hlt|[|Hlt]]; [|done|].
    - exfalso. apply (Hmin' m Hlt e); [|done]. unfold probe. by rewrite <- Him.
    - exfalso. apply (Hmin m' Hlt e'); [|done]. unfold probe. by rewrite <- Him'. }
  assert (i = i') as -> by congruence. split; [done|congruence].
Qed.

Lemma stops_not_misses P k n idx es i e : stops P k n idx es i e -> ~ misses P k n idx es.
Proof.
  intros (Hi & HP & m & Hm & Him & _) Hmiss. apply (Hmiss m Hm e); [|done].
  unfold probe. by rewrite <- Him.
Qed.

Lemma getItem_at t k key i e : 0 <= k <= 31 -> ht_size t = 2 ^ k -> zlen (ht_entries t) = 2 ^ k ->
  stops (has_key key) k (Z.to_nat (ht_size t)) (hash64 key) (ht_entries t) i e ->
  getItem key t = Done (i, e_value e).
Proof.
  intros Hk Hs Hl Hst. unfold getItem. rewrite Hs in *.
  destruct (getItem_loop_spec k (Z.to_nat (2 ^ k)) (ht_entries t) key Hk Hl (hash64 key))
    as [(i' & e' & Hst' & ->)|[Hm _]].
  - by destruct (stops_det _ _ _ _ _ _ _ _ _ Hst Hst') as [-> ->].
  - by destruct (stops_not_misses _ _ _ _ _ _ _ Hst).
Qed.

(** storing a matching entry at the first free or matching one *)
Lemma stops_after_set k n idx es key v i e : stops (is_free_or key) k n idx es i e ->
  stops (has_key key) k n idx (zset es i (MkEntry key (Some v))) i (MkEntry key (Some v)).
Proof.
  intros (Hi & HP & m & Hm & Him & Hmin). pose proof (zget_Some_range _ _ _ Hi) as Hr.
  split; [by apply zget_zset_eq|]. split; [done|]. exists m. split; [done|]. split; [done|].
  intros j Hj e' He'. unfold probe in He'.
  destruct (decide ((idx + Z.of_nat j) mod 2 ^ k = i)) as [Heq|Hne].
  - exfalso. apply (Hmin j Hj e); [|done]. unfold probe. by rewrite Heq.
  - rewrite zget_zset_ne in He' by done. intros Hk'. apply (Hmin j Hj e' He'). by left.
Qed.

(** an entry replaced by [e'], neither of them with the key *)
Lemma getItem_other t key i e e' : ht_ok t -> zget (ht_entries t) i = Some e ->
  ~ has_key key e -> ~ has_key key e' ->
  getItem key (MkHashTable (zset (ht_entries t) i e') (ht_size t)) = getItem key t.
Proof.
  intros (k & Hk & Hs & Hl) He Hn Hn'. unfold getItem. cbn [ht_entries ht_size]. rewrite Hs in *.
  apply getItem_loop_frame; [done|done|by rewrite zlen_zset|]. intros j.
  destruct (decide (j = i)) as [->|Hne]; [right|left; by apply zget_zset_ne].
  split; intros ej Hej; [congruence|].
  rewrite zget_zset_eq in Hej by (by eapply zget_Some_range). congruence.
Qed.

Lemma valid_index t i e : ht_ok t -> zget (ht_entries t) i = Some e ->
  i <> COMMUTIL_INVALID_CHT_ENTRY_ID.
Proof.
  intros (k & Hk & Hs & Hl) He. pose proof (zget_Some_range _ _ _ He) as Hr. rewrite Hl, Hs in Hr.
  assert (2 ^ k <= 2 ^ 31) by (apply Z.pow_le_mono_r; lia).
  change COMMUTIL_INVALID_CHT_ENTRY_ID with 4294967295. lia.
Qed.

(** *** The table as a map *)

Definition taken (e : Entry) : Prop := e_key e <> 0.

Definition occupied es : nat := length (filter taken es).

(** what a client of the table relies on: [M] is what one thread stored and did not
    remove, with keys that are not zero *)
Record ht_rep t (M : gmap Z V) : Prop := {
  hr_ok : ht_ok t;
  hr_zero : M !! 0 = None;
  hr_get : forall key, key <> 0 -> match M !! key with
    | Some v => exists i, i <> COMMUTIL_INVALID_CHT_ENTRY_ID /\ getItem key t = Done (i, Some v)
    | None => getItem key t = Done (COMMUTIL_INVALID_CHT_ENTRY_ID, None)
    end;
  hr_occupied : Z.of_nat (occupied (ht_entries t)) = Z.of_nat (base.size M);
}.

Lemma occupied_zset es i e e' : zget es i = Some e -> ~ taken e -> taken e' ->
  occupied (zset es i e') = S (occupied es).
Proof.
  unfold zget, zset, occupied. destruct (Z.ltb_spec i 0); [done|]. intros He Hn Ht.
  rewrite insert_take_drop by (by eapply lookup_lt_Some).
  rewrite <- (take_drop_middle es _ e He) at 3. rewrite !list.filter_app, !length_app, !list.filter_cons.
  rewrite decide_True, decide_False by done. cbn. lia.
Qed.

Lemma occupied_all es : (forall i e, zget es i = Some e -> taken e) -> zlen es = Z.of_nat (occupied es).
Proof.
  unfold zlen, occupied. induction es as [|e es IH]; intros Hall; [done|]. rewrite list.filter_cons, decide_True.
  - cbn [length]. rewrite Nat2Z.inj_succ, IH; [lia|]. intros i e' He'. apply (Hall (i + 1)).
    pose proof (zget_Some_range _ _ _ He'). rewrite zget_cons by lia. by replace (i + 1 - 1) with i by lia.
  - apply (Hall 0). apply zget_cons_0.
Qed.

(** a new key is stored as long as there is room *)
Lemma rep_set t M key v : ht_rep t M -> key <> 0 -> M !! key = None -> Z.of_nat (base.size M) < ht_size t ->
  exists i t', setItem key v t = Done (i, t') /\ i <> COMMUTIL_INVALID_CHT_ENTRY_ID /\
    ht_rep t' (<[key := v]> M) /\ ht_size t' = ht_size t.
Proof.
  intros [Hok Hz Hget Hocc] Hkey HM Hroom. pose proof Hok as (k & Hk & Hs & Hl). unfold setItem.
  assert (0 < 2 ^ k) by (apply Z.pow_pos_nonneg; lia).
  assert (Habs : forall j e, zget (ht_entries t) j = Some e -> e_key e <> key).
  { intros j e He Heq. specialize (Hget key Hkey). rewrite HM in Hget. unfold getItem in Hget. rewrite Hs in Hget.
    destruct (getItem_loop_spec k (Z.to_nat (2 ^ k)) (ht_entries t) key Hk ltac:(congruence) (hash64 key))
      as [(i & e' & (He' & _) & Hrun)|[Hm _]].
    - rewrite Hrun in Hget. injection Hget as -> _. by eapply valid_index.
    - refine (misses_all _ k _ _ _ Hk (eq_trans Hl Hs) _ Hm j e He Heq). lia. }
  destruct (setItem_loop_spec k (Z.to_nat (ht_size t)) (ht_entries t) key v Hk ltac:(congruence)
    (hash64 key)) as [(i & e & Hst & Hrun)|[Hm _]]; [|exfalso].
  - rewrite <- Hs in Hrun. rewrite Hrun. cbn [outcome_bind]. pose proof Hst as (He & HP & _).
    assert (Hez : e_key e = 0) by (destruct HP as [HP|HP]; [by destruct (Habs i e He)|done]).
    eexists i, _. split; [reflexivity|]. split; [by eapply valid_index|]. split; [split|done].
    + exists k. cbn. by rewrite zlen_zset.
    + by rewrite lookup_insert_ne.
    + intros key' Hkey'. destruct (decide (key = key')) as [<-|Hne].
      * rewrite lookup_insert_eq. exists i. split; [by eapply valid_index|].
        apply (getItem_at _ k key i (MkEntry key (Some v))); cbn; [done|done|by rewrite zlen_zset, Hl|].
        by eapply stops_after_set.
      * rewrite lookup_insert_ne by done.
        rewrite (getItem_other t key' i e) by (done || (unfold has_key; cbn; congruence)).
        by apply Hget.
    + cbn [ht_entries]. rewrite (occupied_zset _ _ e) by (done || (unfold taken; cbn; congruence)).
      rewrite map_size_insert_None by done. lia.
  - assert (Hall : forall j e, zget (ht_entries t) j = Some e -> taken e).
    { intros j e He Hz0. refine (misses_all _ k _ _ _ Hk (eq_trans Hl Hs) _ Hm j e He _); [lia|by right]. }
    apply occupied_all in Hall. lia.
Qed.

(** a table without keys *)
Lemma rep_empty t : ht_ok t -> (forall i e, zget (ht_entries t) i = Some e -> e_key e = 0) -> ht_rep t ∅.
Proof.
  intros Hok He. pose proof Hok as (k & Hk & Hs & Hl). assert (0 < 2 ^ k) by (apply Z.pow_pos_nonneg; lia).
  split; [done|done| |].
  - intros key Hkey. rewrite lookup_empty. unfold getItem. rewrite Hs.
    destruct (getItem_loop_spec k (Z.to_nat (2 ^ k)) _ key Hk (eq_trans Hl Hs) (hash64 key))
      as [(i & e & (Hi & HP & _) & _)|[_ Hrun]]; [|done]. apply He in Hi. unfold has_key in HP. congruence.
  - unfold occupied. clear Hok Hl. induction (ht_entries t) as [|e es IH]; [done|].
    rewrite list.filter_cons, decide_False.
    + apply IH. intros i e' He'. apply (He (i + 1)). pose proof (zget_Some_range _ _ _ He').
      rewrite zget_cons by lia. by replace (i + 1 - 1) with i by lia.
    + unfold taken. rewrite (He 0); [by intros []|]. apply zget_cons_0.
Qed.

Lemma rep_fresh k : 0 <= k <= 31 ->
  ht_rep (MkHashTable (replicate (Z.to_nat (2 ^ k)) (MkEntry 0 None)) (2 ^ k)) ∅.
Proof.
  intros Hk. assert (0 < 2 ^ k) by (apply Z.pow_pos_nonneg; lia). apply rep_empty.
  - exists k. cbn [ht_entries ht_size]. rewrite zlen_replicate. split; [done|]. split; [done|]. lia.
  - cbn [ht_entries]. unfold zget. intros i e. destruct (i <? 0); [done|]. by intros [-> _]%lookup_replicate.
Qed.

Lemma rep_get_some t M key v : ht_rep t M -> M !! key = Some v ->
  exists i, i <> COMMUTIL_INVALID_CHT_ENTRY_ID /\ getItem key t = Done (i, Some v).
Proof.
  intros [_ Hz Hget _] HM. specialize (Hget key). rewrite HM in Hget. apply Hget. by intros ->; rewrite Hz in HM.
Qed.

Lemma rep_get_none t M key : ht_rep t M -> key <> 0 -> M !! key = None ->
  getItem key t = Done (COMMUTIL_INVALID_CHT_ENTRY_ID, None).
Proof. intros [_ _ Hget _] Hkey HM. specialize (Hget key Hkey). by rewrite HM in Hget. Qed.

(** A key set in the table, of one thread, is found with its value; the set
    fails only if every entry is taken by another key, and it never changes what
    is found for other keys. *)
Theorem setItem_as_map t key v : ht_ok t -> key <> 0 ->
  exists i t', setItem key v t = Done (i, t') /\ ht_ok t' /\
    (if i =? COMMUTIL_INVALID_CHT_ENTRY_ID
     then t' = t /\ forall j e, zget (ht_entries t) j = Some e -> e_key e <> key /\ e_key e <> 0
     else getItem key t' = Done (i, Some v)) /\
    forall key', key' <> 0 -> key' <> key -> getItem key' t' = getItem key' t.
Proof.
  intros Hok Hkey. pose proof Hok as (k & Hk & Hs & Hl). unfold setItem.
  assert (0 < 2 ^ k) by (apply Z.pow_pos_nonneg; lia).
  destruct (setItem_loop_spec k (Z.to_nat (ht_size t)) (ht_entries t) key v Hk ltac:(congruence)
    (hash64 key)) as [(i & e & Hst & Hrun)|[Hm Hrun]];
    rewrite <- Hs in Hrun; rewrite Hrun; cbn [outcome_bind].
  - eexists i, _. split; [reflexivity|]. pose proof Hst as (He & HP & _).
    split; [|split].
    + exists k. cbn. by rewrite zlen_zset.
    + rewrite (proj2 (Z.eqb_neq _ _)) by (by eapply valid_index).
      apply (getItem_at _ k key i (MkEntry key (Some v))); cbn; [done|done|by rewrite zlen_zset, Hl|].
      by eapply stops_after_set.
    + intros key' Hz Hne. eapply getItem_other; [done|done| |].
      * unfold has_key. destruct HP; congruence.
      * unfold has_key. cbn. congruence.
  - eexists _, _. split; [reflexivity|]. split; [by exists k|]. rewrite Z.eqb_refl. split; [|by destruct t].
    split; [by destruct t|]. intros j e He. rewrite Hs in *.
    assert (Hn : ~ is_free_or key e) by (refine (misses_all _ k _ _ _ Hk Hl _ Hm j e He); lia).
    unfold is_free_or in Hn. tauto.
Qed.

(** A key that is in the table once is removed: it is not found afterwards,
    and the removal never changes what is found for other keys. *)
Theorem removeItem_as_map t key : ht_ok t -> key <> 0 ->
  (forall i j ei ej, zget (ht_entries t) i = Some ei -> zget (ht_entries t) j = Some ej ->
     e_key ei = key -> e_key ej = key -> i = j) ->
  exists i t', removeItem key t = Done (i, t') /\ ht_ok t' /\
    getItem key t' = Done (COMMUTIL_INVALID_CHT_ENTRY_ID, None) /\
    forall key', key' <> 0 -> key' <> key -> getItem key' t' = getItem key' t.
Proof.
  intros Hok Hkey Huniq. pose proof Hok as (k & Hk & Hs & Hl). unfold removeItem.
  assert (0 < 2 ^ k) by (apply Z.pow_pos_nonneg; lia).
  assert (Hgone : forall es, zlen es = 2 ^ k ->
    (forall j e, zget es j = Some e -> e_key e <> key) ->
    getItem key (MkHashTable es (ht_size t)) = Done (COMMUTIL_INVALID_CHT_ENTRY_ID, None)).
  { intros es Hle Hnone. unfold getItem. cbn [ht_entries ht_size]. rewrite Hs.
    destruct (getItem_loop_spec k (Z.to_nat (2 ^ k)) es key Hk Hle (hash64 key))
      as [(i & e & (He & HP & _) & _)|[_ Hrun]]; [|done].
    by destruct (Hnone i e He). }
  destruct (removeItem_loop_spec k (Z.to_nat (ht_size t)) (ht_entries t) key Hk ltac:(congruence)
    (hash64 key)) as [(i & e & (He & HP & _) & Hrun)|[Hm Hrun]];
    rewrite <- Hs in Hrun; rewrite Hrun; cbn [outcome_bind].
  - eexists i, _. split; [reflexivity|]. split; [|split].
    + exists k. cbn. by rewrite zlen_zset.
    + apply Hgone; [by rewrite zlen_zset, Hl|]. intros j ej Hej Hkj.
      destruct (decide (j = i)) as [->|Hne].
      * rewrite zget_zset_eq in Hej by (by eapply zget_Some_range).
        injection Hej as <-. cbn in Hkj. congruence.
      * rewrite zget_zset_ne in Hej by done. by apply Hne, (Huniq j i ej e).
    + intros key' Hz Hne. eapply getItem_other; [done|done| |].
      * unfold has_key in *. congruence.
      * unfold has_key. cbn. congruence.
  - eexists _, _. split; [reflexivity|]. split; [by exists k|]. split; [|by destruct t].
    apply Hgone; [congruence|]. intros j e He. rewrite Hs in *.
    refine (misses_all _ k _ _ _ Hk Hl _ Hm j e He). lia.
Qed.
End Table.

Arguments Entry V : clear implicits.
Arguments HashTable V : clear implicits.

(** ** Witnesses and a lost removal *)

(** a table of two entries with the key 7 *)
Definition sample_table : HashTable Z := MkHashTable [MkEntry 7 (Some 70); MkEntry 0 None] 2.

Lemma sample_table_ok : ht_ok sample_table.
Proof. exists 1. split; [lia|]. by split. Qed.

Lemma setItem_as_map_witness :
  exists i t', setItem 9 90 sample_table = Done (i, t') /\ ht_ok t' /\
    (if i =? COMMUTIL_INVALID_CHT_ENTRY_ID
     then t' = sample_table /\ forall j e, zget (ht_entries sample_table) j = Some e ->
       e_key e <> 9 /\ e_key e <> 0
     else getItem 9 t' = Done (i, Some 90)) /\
    forall key', key' <> 0 -> key' <> 9 -> getItem key' t' = getItem key' sample_table.
Proof. apply (setItem_as_map sample_table 9 90); [apply sample_table_ok|lia]. Defined.

Lemma removeItem_as_map_witness :
  exists i t', removeItem 7 sample_table = Done (i, t') /\ ht_ok t' /\
    getItem 7 t' = Done (COMMUTIL_INVALID_CHT_ENTRY_ID, None) /\
    forall key', key' <> 0 -> key' <> 7 -> getItem key' t' = getItem key' sample_table.
Proof.
  apply (removeItem_as_map sample_table 7); [apply sample_table_ok|lia|].
  intros i j ei ej Hi Hj Hki Hkj.
  assert (Hz : forall x ex, zget (ht_entries sample_table) x = Some ex -> e_key ex = 7 -> x = 0).
  { intros x ex Hx Hk. pose proof (zget_Some_range _ _ _ Hx) as Hr. cbn in Hr.
    assert (x = 0 \/ x = 1) as [-> | ->] by (unfold zlen in Hr; cbn in Hr; lia); [done|].
    injection Hx as <-. done. }
  by rewrite (Hz i ei), (Hz j ej).
Defined.

(** Removal leaves holes that break the uniqueness of keys: a key set again
    lands in a hole in front of its older entry, and once it is removed the old
    value is found again. *)
Theorem removal_resurrects :
  (let* '(_, t) := ht_initialize 64 true 4 HashTable_new in
   let* '(_, t) := setItem 4 40 t in
   let* '(_, t) := setItem 5 50 t in
   let* '(_, t) := removeItem 4 t in
   let* '(_, t) := setItem 5 51 t in
   let* '(_, t) := removeItem 5 t in
   getItem 5 t) = Done (1, Some 50).
Proof. vm_compute. reflexivity. Qed.

Lemma size2pow_loop_ok fuel : forall size j, 0 <= j <= 63 -> 2 ^ j < 2 * size \/ j = 0 ->
  size <= 2 ^ 63 -> 63 - j < Z.of_nat fuel ->
  exists k, j <= k <= 63 /\ size2pow_loop fuel size (2 ^ j) = Done (2 ^ k) /\ size <= 2 ^ k /\
    (2 ^ k < 2 * size \/ k = 0).
Proof.
  induction fuel as [|fuel IH]; intros size j Hj Hlow Hs Hf; [lia|]. cbn [size2pow_loop].
  destruct (Z.ltb_spec (2 ^ j) size) as [Hlt|Hge]; [|exists j; auto with lia].
  assert (Hj' : j < 63).
  { destruct (Z.eq_dec j 63) as [->|]; lia. }
  assert (Hd : u64 (Z.shiftl (2 ^ j) 1) = 2 ^ (j + 1)).
  { rewrite Z.shiftl_mul_pow2 by lia. rewrite <- Z.pow_add_r by lia. apply u64_small.
    split; [apply Z.pow_nonneg; lia|]. apply Z.pow_lt_mono_r; lia. }
  rewrite Hd. destruct (IH size (j + 1)) as (k & Hk & Hrun & Hle & Hmin); try lia.
  { left. rewrite Z.pow_add_r by lia. lia. }
  exists k. split; [lia|done].
Qed.

(** Initialisation ends for every size up to 2^63 and makes the table of the
    least power of two that is enough; a second one is refused. *)
Theorem initialize_power_of_two {V} size : 0 <= size <= 2 ^ 63 ->
  exists k t, 0 <= k <= 63 /\
    ht_initialize 64 true size (@HashTable_new V) = Done (E_OK, t) /\
    ht_size t = 2 ^ k /\ zlen (ht_entries t) = 2 ^ k /\ size <= 2 ^ k /\
    (2 ^ k < 2 * size \/ k = 0) /\
    forall fuel alloc size', ht_initialize fuel alloc size' t = Done (E_ALREADY_EXISTS, t).
Proof.
  intros Hs. destruct (size2pow_loop_ok 64 size 0) as (k & Hk & Hrun & Hle & Hmin); try lia.
  change (2 ^ 0) with 1 in Hrun.
  exists k. eexists. split; [lia|]. unfold ht_initialize at 1. cbn [ht_size ht_entries HashTable_new].
  rewrite Hrun. split; [reflexivity|]. cbn [ht_size ht_entries].
  assert (0 < 2 ^ k) by (apply Z.pow_pos_nonneg; lia). rewrite zlen_replicate.
  split_and!; [done|lia|done|done|]. intros. unfold ht_initialize. cbn [ht_size].
  by rewrite (proj2 (Z.eqb_neq _ 0)) by lia.
Qed.

Lemma initialize_power_of_two_witness :
  exists k t, 0 <= k <= 63 /\ ht_initialize 64 true 5 (@HashTable_new Z) = Done (E_OK, t) /\
    ht_size t = 2 ^ k /\ zlen (ht_entries t) = 2 ^ k /\ 5 <= 2 ^ k /\
    (2 ^ k < 2 * 5 \/ k = 0) /\
    forall fuel alloc size', ht_initialize fuel alloc size' t = Done (E_ALREADY_EXISTS, t).
Proof. apply (@initialize_power_of_two Z 5). lia. Defined.

(** ** Concurrent insertions

    [setItem] as a thread runs it: one shared access per step. *)

Section Concurrent.
Context {V : Type}.

Inductive set_pc :=
| PLoad (idx count : Z)      (* at the head of the loop *)
| PCas (idx count : Z)       (* the loaded key was zero *)
| PStore (idx : Z)           (* owns the entry *)
| PDone (idx : Z).           (* returned *)

Record set_thread := MkSetThread { th_key : Z; th_value : V; th_pc : set_pc }.

Definition set_start (key : Z) (value : V) : set_thread :=
  MkSetThread key value (PLoad (hash64 key) 0).

Definition set_step (size : Z) (th : set_thread) (es : list (Entry V))
  : outcome (set_thread * list (Entry V)) :=
  let goto pc := MkSetThread (th_key th) (th_value th) pc in
  match th_pc th with
  | PLoad idx count =>
    if count <? size then
      let idx := Z.land idx (size - 1) in
      let* e := mem_get es idx in
      if negb (e_key e =? th_key th) then
        if negb (e_key e =? 0) then Done (goto (PLoad (u32 (idx + 1)) (u32 (count + 1))), es)
        else Done (goto (PCas idx count), es)
      else Done (goto (PStore idx), es)
    else Done (goto (PDone COMMUTIL_INVALID_CHT_ENTRY_ID), es)
  | PCas idx count =>
    let* e := mem_get es idx in
    if e_key e =? 0 then
      Done (goto (PStore idx), zset es idx (MkEntry (th_key th) (e_value e)))
    else Done (goto (PLoad (u32 (idx + 1)) (u32 (count + 1))), es)
  | PStore idx =>
    let* e := mem_get es idx in
    Done (goto (PDone idx), zset es idx (MkEntry (e_key e) (Some (th_value th))))
  | PDone _ => Done (th, es)
  end.

(** any thread makes the next step *)
Inductive sys_step (size : Z) : list set_thread * list (Entry V) ->
    list set_thread * list (Entry V) -> Prop :=
| SysStep ths es i th th' es' :
    ths !! i = Some th -> set_step size th es = Done (th', es') ->
    sys_step size (ths, es) (<[i:=th']> ths, es').

Inductive reachable (size : Z) (s0 : list set_thread * list (Entry V)) :
    list set_thread * list (Entry V) -> Prop :=
| ReachStart : reachable size s0 s0
| ReachStep s s' : reachable size s0 s -> sys_step size s s' -> reachable size s0 s'.

(** the threads of a schedule make their steps in turn *)
Fixpoint sys_run (size : Z) (schedule : list nat) (s : list set_thread * list (Entry V))
  : outcome (list set_thread * list (Entry V)) :=
  match schedule with
  | [] => Done s
  | i :: schedule =>
    match fst s !! i with
    | None => Undef UB_bounds
    | Some th =>
      let* '(th, es) := set_step size th (snd s) in
      sys_run size schedule (<[i:=th]> (fst s), es)
    end
  end.

Lemma sys_run_reachable size schedule s0 : forall s s', reachable size s0 s ->
  sys_run size schedule s = Done s' -> reachable size s0 s'.
Proof.
  induction schedule as [|i schedule IH]; intros [ths es] s' Hr; cbn [sys_run fst snd];
    [by intros [= <-]|].
  destruct (ths !! i) as [th|] eqn:Hi; [|done]. intros Hrun. inv_bind. destruct a as [th' es'].
  eapply IH; [|exact Hrun]. eapply ReachStep; [exact Hr|]. by econstructor.
Qed.

(** what a thread that got its entry may rely on *)
Definition owns (th : set_thread) (es : list (Entry V)) : Prop :=
  match th_pc th with
  | PLoad _ _ | PCas _ _ => True
  | PStore idx => exists e, zget es idx = Some e /\ e_key e = th_key th
  | PDone idx => idx = COMMUTIL_INVALID_CHT_ENTRY_ID \/
      zget es idx = Some (MkEntry (th_key th) (Some (th_value th)))
  end.

Definition distinct_keys (ths : list set_thread) : Prop :=
  forall i j th th', ths !! i = Some th -> ths !! j = Some th' -> i <> j ->
    th_key th <> th_key th'.

Definition sys_inv (s : list set_thread * list (Entry V)) : Prop :=
  distinct_keys (fst s) /\ (forall i th, fst s !! i = Some th -> th_key th <> 0 /\ owns th (snd s)).

(** how a step changes the table: nothing, or the own or a free entry *)
Lemma set_step_change size th es th' es' : set_step size th es = Done (th', es') ->
  th_key th' = th_key th /\ th_value th' = th_value th /\
  (es' = es \/ exists idx e v, zget es idx = Some e /\ es' = zset es idx (MkEntry (th_key th) v) /\
     (e_key e = 0 \/ th_pc th = PStore idx /\ e_key e = th_key th) \/
     exists idx, th_pc th = PStore idx /\ ~ owns th es).
Proof.
  unfold set_step, mem_get, owns. destruct (th_pc th) as [idx c|idx c|idx|idx] eqn:Hpc.
  - destruct (c <? size); [|by intros [= <- <-]; auto].
    destruct (zget es _) as [e|]; cbn [outcome_bind]; [|done].
    destruct (e_key e =? th_key th), (e_key e =? 0); cbn [negb]; intros [= <- <-]; auto.
  - destruct (zget es idx) as [e|] eqn:He; cbn [outcome_bind]; [|done].
    destruct (Z.eqb_spec (e_key e) 0); intros [= <- <-]; split_and!; auto.
    right. exists idx, e, (e_value e). left. auto.
  - destruct (zget es idx) as [e|] eqn:He; cbn [outcome_bind]; [|done].
    intros [= <- <-]. split_and!; [done..|]. right.
    destruct (Z.eq_dec (e_key e) (th_key th)) as [Heq|Hne].
    + exists idx, e, (Some (th_value th)). left. rewrite Heq. auto.
    + exists idx, e, (Some (th_value th)). right. exists idx. split; [done|].
      intros (e' & He' & Hk'). congruence.
  - intros [= <- <-]. auto.
Qed.

Lemma owns_kept th th' es es' : owns th es -> th_key th <> 0 -> th_key th <> th_key th' ->
  (es' = es \/ exists idx e v, zget es idx = Some e /\ es' = zset es idx (MkEntry (th_key th') v) /\
     (e_key e = 0 \/ e_key e = th_key th')) -> owns th es'.
Proof.
  intros Ho Hz Hne [->|(idx & e & v & He & -> & Hk)]; [done|]. unfold owns in *.
  destruct (th_pc th) as [| |i|i]; [done|done| |].
  - destruct Ho as (e0 & He0 & Hk0). exists e0. split; [|done].
    rewrite zget_zset_ne; [done|]. intros ->. destruct Hk; congruence.
  - destruct Ho as [->|Ho]; [by left|right]. rewrite zget_zset_ne; [done|].
    intros ->. rewrite He in Ho. injection Ho as ->. destruct Hk as [Hk|Hk]; cbn in Hk; congruence.
Qed.

(** a step leaves its own thread with what it needs *)
Lemma owns_own size th es th' es' : owns th es -> set_step size th es = Done (th', es') ->
  owns th' es'.
Proof.
  unfold set_step, mem_get. intros Ho. destruct (th_pc th) as [idx c|idx c|idx|idx] eqn:Hpc.
  - destruct (c <? size); [|intros [= <- <-]; by left].
    destruct (zget es _) as [e|] eqn:He; cbn [outcome_bind]; [|done].
    destruct (Z.eqb_spec (e_key e) (th_key th)), (e_key e =? 0); cbn [negb];
      intros [= <- <-]; unfold owns; cbn; eauto.
  - destruct (zget es idx) as [e|] eqn:He; cbn [outcome_bind]; [|done].
    destruct (e_key e =? 0); intros [= <- <-]; unfold owns; cbn; [|done].
    eexists. split; [apply zget_zset_eq; by eapply zget_Some_range|done].
  - unfold owns in Ho. rewrite Hpc in Ho. destruct Ho as (e & He & Hk). rewrite He.
    cbn [outcome_bind]. intros [= <- <-]. unfold owns. cbn. right.
    rewrite zget_zset_eq by (by eapply zget_Some_range). congruence.
  - by intros [= <- <-].
Qed.

Lemma sys_inv_step size s s' : sys_inv s -> sys_step size s s' -> sys_inv s'.
Proof.
  intros [Hd Hinv] Hstep. destruct Hstep as [ths es i th th' es' Hi Hrun]. cbn in *.
  destruct (set_step_change _ _ _ _ _ Hrun) as (Hkey & Hval & Hch).
  destruct (Hinv i th Hi) as [Hz Ho].
  assert (Hkeys : forall j tj, <[i:=th']> ths !! j = Some tj ->
    exists tj0, ths !! j = Some tj0 /\ th_key tj = th_key tj0).
  { intros j tj Hj. destruct (decide (i = j)) as [<-|Hne].
    - rewrite list_lookup_insert_eq in Hj by (by eapply lookup_lt_Some).
      injection Hj as <-. eauto.
    - rewrite list_lookup_insert_ne in Hj by done. eauto. }
  split; cbn.
  - intros j1 j2 t1 t2 H1 H2 Hne.
    destruct (Hkeys _ _ H1) as (t1' & ? & ->), (Hkeys _ _ H2) as (t2' & ? & ->). by eapply Hd.
  - intros j tj Hj. destruct (decide (i = j)) as [<-|Hne].
    + rewrite list_lookup_insert_eq in Hj by (by eapply lookup_lt_Some). injection Hj as <-.
      split; [congruence|]. by eapply owns_own.
    + rewrite list_lookup_insert_ne in Hj by done. destruct (Hinv j tj Hj) as [Hzj Hoj].
      split; [done|]. apply (owns_kept tj th es es' Hoj Hzj); [by eapply Hd|].
      destruct Hch as [->|(idx & e & v & [(He & -> & Hk)|(idx' & _ & Hn)])]; [by left| |done].
      right. exists idx, e, v. split; [done|]. split; [done|]. destruct Hk as [Hk|[_ Hk]]; auto.
Qed.

(** C30. However the steps of concurrent insertions of different keys interleave,
    each that returned an entry index left its key and its value there. *)
Theorem concurrent_sets_stored size es items s :
  (forall i j (p q : Z * V), items !! i = Some p -> items !! j = Some q -> i <> j -> fst p <> fst q) ->
  Forall (fun p => fst p <> 0) items ->
  reachable size (map (fun p => set_start (fst p) (snd p)) items, es) s ->
  forall i th idx, fst s !! i = Some th -> th_pc th = PDone idx ->
    idx <> COMMUTIL_INVALID_CHT_ENTRY_ID ->
    zget (snd s) idx = Some (MkEntry (th_key th) (Some (th_value th))).
Proof.
  intros Hd Hz Hr. assert (Hinv : sys_inv s).
  { induction Hr as [|s s' _ IH Hstep]; [|by eapply sys_inv_step].
    assert (Hlook : forall i th, map (fun p => set_start (fst p) (snd p)) items !! i = Some th ->
      exists p, items !! i = Some p /\ th = set_start (fst p) (snd p)).
    { intros i th. rewrite list_lookup_fmap. destruct (items !! i) as [p|]; [|done]. intros [= <-]. eauto. }
    split; cbn.
    - intros i j ti tj Hi Hj Hne.
      destruct (Hlook _ _ Hi) as (p & Hp & ->), (Hlook _ _ Hj) as (q & Hq & ->).
      cbn. by eapply Hd.
    - intros i th Hi. destruct (Hlook _ _ Hi) as (p & Hp & ->). split; [|done].
      cbn. rewrite Forall_lookup in Hz. by eapply Hz. }
  intros i th idx Hi Hpc Hidx. destruct (proj2 Hinv i th Hi) as [_ Ho].
  unfold owns in Ho. rewrite Hpc in Ho. by destruct Ho.
Qed.
End Concurrent.

Definition empty_entries (n : nat) : list (Entry Z) := replicate n (MkEntry 0 None).

(** both threads find the same entry vacant; the second one has to move on *)
Lemma concurrent_sets_stored_witness :
  exists s, sys_run 4 [0; 1; 0; 1; 0; 1; 1; 1; 1]%nat
      (map (fun p => set_start (fst p) (snd p)) [(4, 40); (5, 50)], empty_entries 4) = Done s /\
  zget (snd s) 0 = Some (MkEntry 4 (Some 40)) /\ zget (snd s) 1 = Some (MkEntry 5 (Some 50)).
Proof.
  eexists. split; [vm_compute; reflexivity|].
  match goal with |- zget (snd ?s0) _ = _ /\ _ => set (s := s0) end.
  assert (Hs : sys_run 4 [0; 1; 0; 1; 0; 1; 1; 1; 1]%nat
    (map (fun p => set_start (fst p) (snd p)) [(4, 40); (5, 50)], empty_entries 4) = Done s)
    by (vm_compute; reflexivity).
  assert (Hr : reachable 4 (map (fun p => set_start (fst p) (snd p)) [(4, 40); (5, 50)],
    empty_entries 4) s) by (eapply sys_run_reachable; [apply ReachStart|exact Hs]).
  assert (Hd : forall i j (p q : Z * Z), [(4, 40); (5, 50)] !! i = Some p ->
    [(4, 40); (5, 50)] !! j = Some q -> i <> j -> fst p <> fst q).
  { clear Hs Hr. intros i j p q Hp Hq Hne.
    destruct i as [|[|i]]; [injection Hp as <-|injection Hp as <-|discriminate];
      (destruct j as [|[|j]]; [injection Hq as <-|injection Hq as <-|discriminate]);
      try discriminate; by destruct Hne. }
  assert (Hz : Forall (fun p : Z * Z => fst p <> 0) [(4, 40); (5, 50)]).
  { constructor; [discriminate|]. constructor; [discriminate|constructor]. }
  split.
  - apply (concurrent_sets_stored 4 (empty_entries 4) [(4, 40); (5, 50)] _ Hd Hz Hr 0%nat
      (MkSetThread 4 40 (PDone 0)) 0); [reflexivity..|discriminate].
  - apply (concurrent_sets_stored 4 (empty_entries 4) [(4, 40); (5, 50)] _ Hd Hz Hr 1%nat
      (MkSetThread 5 50 (PDone 1)) 1); [reflexivity..|discriminate].
Defined.

(** Two concurrent insertions of the same key can both succeed: the one that
    loses the race for a vacant entry does not look at the winner's key, and
    enters the key a second time. *)
Theorem concurrent_same_key_duplicates :
  exists s, reachable 4 ([set_start 5 50; set_start 5 51], empty_entries 4) s /\
    map th_pc (fst s) = [PDone 0; PDone 1] /\
    snd s = [MkEntry 5 (Some 50); MkEntry 5 (Some 51); MkEntry 0 None; MkEntry 0 None].
Proof.
  eexists. split.
  - eapply (sys_run_reachable 4 [0; 1; 0; 1; 0; 1; 1; 1]%nat); [apply ReachStart|].
    vm_compute. reflexivity.
  - split; reflexivity.
Qed.
