(* ===== verification/LogBuffer.v ===== *)
(** * The log buffer (src/log_buffer.h, src/log_buffer.cpp)

    A buffer of fixed size that becomes dynamic for longer texts. Formatting is
    given by its text: [vsnprintf] is modelled on the text it would print. *)

From Stdlib Require Import ZArith Lia.
From coqutil Require Import Byte.
From S2P Require Import Prelude Errors StrSearch.
Open Scope Z_scope.

(** ** Definitions *)

Definition COMMUTIL_LOG_BUFFER_SIZE : Z := 1024.
Definition COMMUTIL_MAX_BUFFER_SIZE : Z := 16 * 1024.

Record LogBuffer := MkLogBuffer {
  lb_fixed : list Byte.byte;             (* m_fixedBuffer *)
  lb_dynamic : option (list Byte.byte);  (* m_dynamicBuffer *)
  lb_size : Z;                           (* m_bufferSize *)
  lb_offset : Z;
  lb_full : bool;                        (* m_bufferFull *)
}.

(** [mem] is what the fixed buffer happens to hold *)
Definition LogBuffer_new (mem : list Byte.byte) : LogBuffer :=
  MkLogBuffer mem None COMMUTIL_LOG_BUFFER_SIZE 0 false.

Definition getRef (b : LogBuffer) : list Byte.byte := default (lb_fixed b) (lb_dynamic b).

Definition set_ref (mem : list Byte.byte) (b : LogBuffer) : LogBuffer :=
  match lb_dynamic b with
  | Some _ => MkLogBuffer (lb_fixed b) (Some mem) (lb_size b) (lb_offset b) (lb_full b)
  | None => MkLogBuffer mem None (lb_size b) (lb_offset b) (lb_full b)
  end.

Definition set_offset (offset : Z) (b : LogBuffer) : LogBuffer :=
  MkLogBuffer (lb_fixed b) (lb_dynamic b) (lb_size b) offset (lb_full b).

(** while (actualNewSize < newSize) actualNewSize *= 2 *)
Fixpoint resize_loop (fuel : nat) (newSize actualNewSize : Z) : outcome Z :=
  if actualNewSize <? newSize then
    match fuel with
    | O => NoFuel
    | S fuel => resize_loop fuel newSize (u64 (actualNewSize * 2))
    end
  else Done actualNewSize.

(** [alloc]: realloc succeeds; the bytes it adds are shown as zero *)
Definition resize (alloc : bool) (newSize : Z) (b : LogBuffer) : outcome (bool * LogBuffer) :=
  if lb_size b <? newSize then
    if COMMUTIL_MAX_BUFFER_SIZE <? newSize then Done (false, b)
    else
      let* actualNewSize := resize_loop 64 newSize (lb_size b) in
      if alloc then
        let old := default [] (lb_dynamic b) in
        let mem := ztake actualNewSize old ++
                   replicate (Z.to_nat (actualNewSize - zlen old)) NUL in
        let* mem := match lb_dynamic b with
                    | None => let* '(_, mem) := commutil_strncpy mem (lb_fixed b) (lb_size b) 0 in
                              Done mem
                    | Some _ => Done mem
                    end in
        Done (true, MkLogBuffer (lb_fixed b) (Some mem) actualNewSize (lb_offset b) (lb_full b))
      else Done (false, b)
  else Done (true, b).

(** [m_offset] and [m_bufferFull] keep their values *)
Definition lb_reset (b : LogBuffer) : LogBuffer :=
  MkLogBuffer (lb_fixed b) None COMMUTIL_LOG_BUFFER_SIZE (lb_offset b) (lb_full b).

(** getRef()[size() - 1] = 0 *)
Definition finalize (b : LogBuffer) : outcome LogBuffer :=
  if lb_full b then
    let* mem := mem_write (getRef b) (lb_size b - 1) [NUL] in Done (set_ref mem b)
  else Done b.

Definition ensureBufferLength (alloc : bool) (requiredBytes : Z) (b : LogBuffer)
  : outcome (bool * LogBuffer) :=
  if u64 (lb_size b - lb_offset b) <? requiredBytes then
    let* '(res, b) := resize alloc (u64 (lb_offset b + requiredBytes)) b in
    Done (res, if res then b
               else MkLogBuffer (lb_fixed b) (lb_dynamic b) (lb_size b) (lb_offset b) true)
  else Done (true, b).

(** vsnprintf(mem + off, size, ...) printing [text]; [None] is an output error *)
Definition vsnprintf (mem : list Byte.byte) (off size : Z) (text : option (list Byte.byte))
  : outcome (Z * list Byte.byte) :=
  match text with
  | None => Done (-1, mem)
  | Some t =>
    if 2 ^ 31 <=? zlen t then Done (-1, mem)
    else if size =? 0 then Done (zlen t, mem)
    else
      let* mem := mem_write mem off (ztake (Z.min (zlen t) (size - 1)) t ++ [NUL]) in
      Done (zlen t, mem)
  end.

Definition appendV (alloc : bool) (text : option (list Byte.byte)) (b : LogBuffer)
  : outcome (bool * LogBuffer) :=
  if lb_full b then Done (false, b)
  else
    let sizeLeft := u64 (lb_size b - lb_offset b) in
    let* '(res, mem) := vsnprintf (getRef b) (lb_offset b) sizeLeft text in
    let b := set_ref mem b in
    if res <? 0 then Done (false, b)
    else if res <? sizeLeft then Done (true, set_offset (lb_offset b + res) b)
    else
      let* '(ok, b) := ensureBufferLength alloc res b in
      if (ok : bool) then
        let sizeLeft := u64 (lb_size b - lb_offset b) in
        let* '(res, mem) := vsnprintf (getRef b) (lb_offset b) sizeLeft text in
        let b := set_ref mem b in
        if res <? 0 then Done (false, b)
        else if sizeLeft <=? res then Done (false, b)
        else Done (true, set_offset (lb_offset b + res) b)
      else Done (false, b).

Definition append (alloc : bool) (msg : list Byte.byte) (len : Z) (b : LogBuffer)
  : outcome (bool * LogBuffer) :=
  if lb_full b then Done (false, b)
  else
    let* len := (if len =? 0
                 then match strlen msg with Some n => Done n | None => Undef UB_bounds end
                 else Done len) in
    let* '(ok, b) := ensureBufferLength alloc len b in
    if (ok : bool) then
      if zlen (getRef b) <? lb_offset b then Undef UB_bounds
      else
        let* '(n, tail) := commutil_strncpy (zdrop (lb_offset b) (getRef b)) msg
                             (u64 (lb_size b - lb_offset b)) len in
        Done (true, set_offset (u64 (lb_offset b + n))
                      (set_ref (ztake (lb_offset b) (getRef b) ++ tail) b))
    else Done (false, b).

(** append(size_t count, char c) *)
Definition append_char (alloc : bool) (count : Z) (c : Byte.byte) (b : LogBuffer)
  : outcome (bool * LogBuffer) :=
  if lb_full b then Done (false, b)
  else
    let* '(ok, b) := ensureBufferLength alloc count b in
    if (ok : bool) then
      let* mem := mem_write (getRef b) (lb_offset b) (replicate (Z.to_nat count) c) in
      Done (true, set_offset (u64 (lb_offset b + count)) (set_ref mem b))
    else Done (false, b).

Definition assign (alloc : bool) (msg : list Byte.byte) (len : Z) (b : LogBuffer)
  : outcome (bool * LogBuffer) :=
  if COMMUTIL_MAX_BUFFER_SIZE <=? len then Done (false, b) else append alloc msg len (lb_reset b).

(** assign from another buffer, also operator= *)
Definition assign_buffer (alloc : bool) (other b : LogBuffer) : outcome (bool * LogBuffer) :=
  assign alloc (getRef other) (lb_offset other) b.

(** the copy constructor *)
Definition LogBuffer_copy (mem : list Byte.byte) (alloc : bool) (other : LogBuffer)
  : outcome LogBuffer :=
  let* '(_, b) := assign_buffer alloc other (LogBuffer_new mem) in Done b.

(** ** Formatting a text into an empty buffer *)

(** an empty buffer of the initial size *)
Definition lb_fresh (b : LogBuffer) : Prop :=
  zlen (lb_fixed b) = COMMUTIL_LOG_BUFFER_SIZE /\ lb_dynamic b = None /\
  lb_size b = COMMUTIL_LOG_BUFFER_SIZE /\ lb_offset b = 0 /\ lb_full b = false.

(** the buffer's contents as a C string: the text *)
Definition lb_holds (b : LogBuffer) (text : list Byte.byte) : Prop :=
  lb_offset b = zlen text /\ zlen text < zlen (getRef b) /\
  ztake (zlen text + 1) (getRef b) = text ++ [NUL].

Lemma vsnprintf_fits mem size text : zlen text < size <= zlen mem -> size < 2 ^ 31 ->
  exists mem', vsnprintf mem 0 size (Some text) = Done (zlen text, mem') /\
    zlen mem' = zlen mem /\ ztake (zlen text + 1) mem' = text ++ [NUL].
Proof.
  intros Hl Hs. pose proof (zlen_nonneg text). unfold vsnprintf.
  rewrite (proj2 (Z.leb_gt _ _)), (proj2 (Z.eqb_neq _ 0)) by lia.
  rewrite Z.min_l, (ztake_all (zlen text)) by lia.
  assert (Hn : zlen (text ++ [NUL]) = zlen text + 1) by (rewrite zlen_app, zlen_cons, zlen_nil; lia).
  rewrite mem_write_ok by lia. cbn [outcome_bind]. rewrite ztake_0, Hn. cbn [app].
  eexists. split; [reflexivity|]. split.
  - rewrite zlen_app, Hn, zlen_zdrop by lia. lia.
  - apply ztake_app_length. lia.
Qed.

Lemma vsnprintf_cut mem size text : 0 < size <= zlen mem -> size <= zlen text < 2 ^ 31 ->
  exists mem', vsnprintf mem 0 size (Some text) = Done (zlen text, mem') /\
    zlen mem' = zlen mem /\ ztake size mem' = ztake (size - 1) text ++ [NUL].
Proof.
  intros Hl Hs. unfold vsnprintf.
  rewrite (proj2 (Z.leb_gt _ _)), (proj2 (Z.eqb_neq _ 0)) by lia. rewrite Z.min_r by lia.
  assert (Hn : zlen (ztake (size - 1) text ++ [NUL]) = size)
    by (rewrite zlen_app, zlen_cons, zlen_nil, zlen_ztake; lia).
  rewrite mem_write_ok by lia. cbn [outcome_bind]. rewrite ztake_0, Hn, Z.add_0_l. cbn [app].
  eexists. split; [reflexivity|]. split.
  - rewrite zlen_app, Hn, zlen_zdrop by lia. lia.
  - apply ztake_app_length. lia.
Qed.

(** the size a buffer grows to: the least double that is enough *)
Lemma resize_loop_from newSize : newSize <= 2 ^ 14 -> forall fuel j, 10 <= j <= 14 -> 2 ^ (j - 1) < newSize ->
  14 - j <= Z.of_nat fuel ->
  exists k, j <= k <= 14 /\ resize_loop fuel newSize (2 ^ j) = Done (2 ^ k) /\ 2 ^ (k - 1) < newSize <= 2 ^ k.
Proof.
  intros Hn. induction fuel as [|fuel IH]; intros j Hj Hl Hf; cbn [resize_loop].
  - assert (j = 14) as -> by lia. rewrite (proj2 (Z.ltb_ge _ _)) by lia. exists 14. split_and!; done || lia.
  - destruct (Z.ltb_spec (2 ^ j) newSize) as [Hlt|Hge]; [|exists j; split_and!; done || lia].
    assert (j <> 14) by (intros ->; lia).
    assert (Hd : 2 ^ j * 2 = 2 ^ (j + 1)) by (rewrite Z.pow_add_r by lia; lia).
    assert (2 ^ (j + 1) <= 2 ^ 14) by (apply Z.pow_le_mono_r; lia).
    rewrite Hd, u64_small by lia. destruct (IH (j + 1)) as (k & Hk & Hrun & Hb); [lia| |lia|].
    { by replace (j + 1 - 1) with j by lia. }
    exists k. split_and!; done || lia.
Qed.

Lemma resize_loop_ok newSize : COMMUTIL_LOG_BUFFER_SIZE < newSize <= COMMUTIL_MAX_BUFFER_SIZE ->
  exists k, 10 < k <= 14 /\ resize_loop 64 newSize COMMUTIL_LOG_BUFFER_SIZE = Done (2 ^ k) /\
    2 ^ (k - 1) < newSize <= 2 ^ k.
Proof.
  unfold COMMUTIL_LOG_BUFFER_SIZE, COMMUTIL_MAX_BUFFER_SIZE. intros Hn.
  destruct (resize_loop_from newSize) with (fuel := 64%nat) (j := 10) as (k & Hk & Hrun & Hb); [lia..|].
  exists k. split; [|done]. assert (k <> 10) by (intros ->; lia). lia.
Qed.

Lemma strlen_found s i : zget s i = Some NUL -> exists n, strlen s = Some n.
Proof.
  revert i. induction s as [|c s IH]; intros i; [by rewrite zget_nil|]. cbn [strlen].
  destruct (decide (c = NUL)) as [->|Hc]; [intros _; exists 0; by rewrite ?decide_True by done|].
  intros Hi. destruct (Z.lt_trichotomy i 0) as [|[->|]].
  - by rewrite zget_neg in Hi by lia.
  - rewrite zget_cons_0 in Hi. congruence.
  - rewrite zget_cons in Hi by lia. destruct (IH _ Hi) as [n Hn].
    rewrite ?decide_False by done. rewrite Hn. cbn. eauto.
Qed.

(** the first growth of a buffer whose fixed part holds a string *)
Lemma resize_first b newSize i : lb_dynamic b = None -> lb_size b = COMMUTIL_LOG_BUFFER_SIZE ->
  zlen (lb_fixed b) = COMMUTIL_LOG_BUFFER_SIZE -> zget (lb_fixed b) i = Some NUL ->
  COMMUTIL_LOG_BUFFER_SIZE < newSize <= COMMUTIL_MAX_BUFFER_SIZE ->
  exists k mem, 10 < k <= 14 /\ 2 ^ (k - 1) < newSize <= 2 ^ k /\
    resize true newSize b =
      Done (true, MkLogBuffer (lb_fixed b) (Some mem) (2 ^ k) (lb_offset b) (lb_full b)) /\
    zlen mem = 2 ^ k.
Proof.
  intros Hd Hs Hf Hi Hn. destruct (resize_loop_ok newSize Hn) as (k & Hk & Hrun & Hb).
  assert (H2 : COMMUTIL_LOG_BUFFER_SIZE <= 2 ^ k).
  { change COMMUTIL_LOG_BUFFER_SIZE with (2 ^ 10). apply Z.pow_le_mono_r; lia. }
  unfold resize. rewrite Hs, Hd, (proj2 (Z.ltb_lt _ _)), (proj2 (Z.ltb_ge _ _)) by lia.
  rewrite Hrun. cbn [outcome_bind from_option default].
  destruct (strlen_found _ _ Hi) as [n Hlen].
  set (dest := ztake (2 ^ k) [] ++ replicate (Z.to_nat (2 ^ k - zlen (@nil Byte.byte))) NUL).
  assert (Hdest : zlen dest = 2 ^ k).
  { unfold dest. rewrite ztake_all, zlen_app, zlen_nil, zlen_replicate; rewrite ?zlen_nil; lia. }
  unfold COMMUTIL_LOG_BUFFER_SIZE in *.
  rewrite (strncpy_ok dest (lb_fixed b) 1024 n 0) by (done || lia || by left).
  cbn [outcome_bind]. eexists k, _. split; [done|]. split; [done|]. split; [reflexivity|].
  destruct (strlen_spec _ _ Hlen) as (Hr & _ & _).
  rewrite zlen_app, zlen_cons, zlen_ztake, zlen_zdrop by lia. lia.
Qed.

(** the lengths of texts that fit once the buffer has grown *)
Definition text_fits (n : Z) : bool :=
  (n <? COMMUTIL_MAX_BUFFER_SIZE) && negb (existsb (Z.eqb n) [1024; 2048; 4096; 8192]).

Lemma text_fits_grown n k : 1024 <= n <= 2 ^ k -> 10 < k <= 14 -> 2 ^ (k - 1) < n ->
  text_fits n = (n <? 2 ^ k).
Proof.
  intros Hn Hk Hl. unfold text_fits, COMMUTIL_MAX_BUFFER_SIZE. cbn [existsb].
  assert (Hc : k = 11 \/ k = 12 \/ k = 13 \/ k = 14) by lia.
  destruct Hc as [Hc|[Hc|[Hc|Hc]]]; subst k; cbn in Hn, Hl |- *; zbool.
Qed.

Lemma grow_and_print b text : lb_dynamic b = None -> lb_size b = COMMUTIL_LOG_BUFFER_SIZE ->
  zlen (lb_fixed b) = COMMUTIL_LOG_BUFFER_SIZE -> lb_offset b = 0 ->
  zget (lb_fixed b) 1023 = Some NUL ->
  COMMUTIL_LOG_BUFFER_SIZE <= zlen text < 2 ^ 31 ->
  exists ok b',
    (let* '(ok, b) := ensureBufferLength true (zlen text) b in
     if (ok : bool) then
       let sizeLeft := u64 (lb_size b - lb_offset b) in
       let* '(res, mem) := vsnprintf (getRef b) (lb_offset b) sizeLeft (Some text) in
       let b := set_ref mem b in
       if res <? 0 then Done (false, b)
       else if sizeLeft <=? res then Done (false, b)
       else Done (true, set_offset (lb_offset b + res) b)
     else Done (false, b)) = Done (ok, b') /\
    if text_fits (zlen text) then ok = true /\ lb_holds b' text
    else ok = false /\ lb_offset b' = 0.
Proof.
  intros Hd Hs Hf Ho Hi Hl. pose proof Hl as Hl'. unfold COMMUTIL_LOG_BUFFER_SIZE in Hl'.
  unfold ensureBufferLength. rewrite Hs, Ho. change (u64 (COMMUTIL_LOG_BUFFER_SIZE - 0)) with 1024.
  rewrite Z.add_0_l, (u64_small (zlen text)) by lia.
  destruct (Z.ltb_spec 1024 (zlen text)) as [Hgt|Hle].
  - destruct (Z.ltb_spec COMMUTIL_MAX_BUFFER_SIZE (zlen text)) as [Hbig|Hok].
    + unfold resize. rewrite Hs, (proj2 (Z.ltb_lt _ _)), (proj2 (Z.ltb_lt _ _)) by
        (unfold COMMUTIL_LOG_BUFFER_SIZE; lia).
      cbn [outcome_bind]. eexists _, _. split; [reflexivity|]. unfold text_fits.
      by rewrite (proj2 (Z.ltb_ge _ _)) by lia.
    + destruct (resize_first b (zlen text) 1023) as (k & mem & Hk & Hkn & -> & Hm);
        [done..|unfold COMMUTIL_LOG_BUFFER_SIZE; lia|].
      cbn [outcome_bind lb_size lb_offset lb_dynamic]. rewrite Ho, Z.sub_0_r.
      assert (2 ^ k <= 2 ^ 14) by (apply Z.pow_le_mono_r; lia).
      rewrite (u64_small (2 ^ k)) by lia.
      match goal with |- context [getRef ?x] => change (getRef x) with mem end.
      rewrite (text_fits_grown _ k) by lia. destruct (Z.ltb_spec (zlen text) (2 ^ k)) as [Hf'|Hf'].
      * destruct (vsnprintf_fits mem (2 ^ k) text) as (mem' & -> & Hm' & Hh); [lia|lia|].
        cbn [outcome_bind]. rewrite (proj2 (Z.ltb_ge _ 0)), (proj2 (Z.leb_gt _ _)) by zlia.
        eexists _, _. split; [reflexivity|]. split; [done|]. unfold lb_holds, getRef. cbn.
        split_and!; [lia|lia|done].
      * destruct (vsnprintf_cut mem (2 ^ k) text) as (mem' & -> & Hm' & Hh); [lia|lia|].
        cbn [outcome_bind]. rewrite (proj2 (Z.ltb_ge _ 0)), (proj2 (Z.leb_le _ _)) by zlia.
        eexists _, _. split; [reflexivity|]. split; [done|]. unfold set_ref. cbn. done.
  - assert (Heq : zlen text = 1024) by lia. cbn [outcome_bind]. rewrite Hs, Ho.
    change (u64 (COMMUTIL_LOG_BUFFER_SIZE - 0)) with 1024.
    assert (Href : getRef b = lb_fixed b) by (unfold getRef; by rewrite Hd).
    rewrite Href. destruct (vsnprintf_cut (lb_fixed b) 1024 text) as (mem' & -> & Hm' & Hh);
      [unfold COMMUTIL_LOG_BUFFER_SIZE in *; lia|lia|].
    cbn [outcome_bind]. rewrite (proj2 (Z.ltb_ge _ 0)), (proj2 (Z.leb_le _ _)) by zlia.
    eexists _, _. split; [reflexivity|]. unfold text_fits. rewrite Heq. cbn. split; [done|].
    unfold set_ref. rewrite Hd. done.
Qed.

Lemma appendV_fresh b text : lb_fresh b -> 0 < zlen text < 2 ^ 31 ->
  exists ok b', appendV true (Some text) b = Done (ok, b') /\
    if text_fits (zlen text) then ok = true /\ lb_holds b' text
    else ok = false /\ lb_offset b' = 0.
Proof.
  intros (Hf & Hd & Hs & Ho & Hfull) Hl. unfold appendV. rewrite Hfull, Hs, Ho.
  change (u64 (COMMUTIL_LOG_BUFFER_SIZE - 0)) with 1024.
  assert (Href : getRef b = lb_fixed b) by (unfold getRef; by rewrite Hd).
  unfold COMMUTIL_LOG_BUFFER_SIZE in *. rewrite Href.
  destruct (Z_lt_ge_dec (zlen text) 1024) as [Hlt|Hge].
  - destruct (vsnprintf_fits (lb_fixed b) 1024 text) as (mem & -> & Hm & Hh); [lia|lia|].
    cbn [outcome_bind]. rewrite (proj2 (Z.ltb_ge _ 0)), (proj2 (Z.ltb_lt _ 1024)) by lia.
    eexists _, _. split; [reflexivity|].
    assert (Ht : text_fits (zlen text) = true).
    { unfold text_fits, COMMUTIL_MAX_BUFFER_SIZE. cbn [existsb]. zbool. }
    rewrite Ht. split; [done|]. unfold lb_holds, set_offset, set_ref. rewrite Hd. cbn. rewrite Ho.
    split_and!; [lia|lia|done].
  - destruct (vsnprintf_cut (lb_fixed b) 1024 text) as (mem & -> & Hm & Hh); [lia|lia|].
    cbn [outcome_bind]. rewrite (proj2 (Z.ltb_ge _ 0)), (proj2 (Z.ltb_ge _ 1024)) by lia.
    apply (grow_and_print (set_ref mem b) text); unfold set_ref; rewrite ?Hd;
      cbn [lb_dynamic lb_size lb_fixed lb_offset]; unfold COMMUTIL_LOG_BUFFER_SIZE;
      try done; try lia.
    rewrite <- (zget_ztake mem 1024) by lia. rewrite Hh.
    rewrite zget_app_r by (rewrite zlen_ztake; lia). rewrite zlen_ztake by lia. done.
Qed.

(** A text formatted into an empty buffer that can grow is kept in full unless
    it is longer than the maximum or its length is one of the sizes of the
    buffer: then room for the terminating null is missing, the text is rejected
    and the buffer stays empty. *)
Theorem appendV_keeps_text b text : lb_fresh b -> 0 < zlen text < 2 ^ 31 ->
  exists ok b', appendV true (Some text) b = Done (ok, b') /\
    if text_fits (zlen text) then ok = true /\ lb_holds b' text
    else ok = false /\ lb_offset b' = 0.
Proof. apply appendV_fresh. Qed.

(** ** Appending to a text *)

(** the memory of a buffer has the size that is recorded *)
Record lb_ok (b : LogBuffer) : Prop := {
  lo_memory : zlen (getRef b) = lb_size b;
  lo_size : exists k, 10 <= k <= 14 /\ lb_size b = 2 ^ k;
  lo_fixed : lb_dynamic b = None -> lb_size b = COMMUTIL_LOG_BUFFER_SIZE;
}.

Lemma strlen_app text rest : ~ In NUL text -> strlen (text ++ NUL :: rest) = Some (zlen text).
Proof.
  induction text as [|c text IH]; intros Hn; cbn [app strlen]; [by rewrite decide_True|].
  rewrite decide_False by (intros ->; apply Hn; by left). rewrite IH by (intros Hin; apply Hn; by right).
  cbn. by rewrite zlen_cons, Z.add_1_l.
Qed.

Lemma holds_split b text : lb_holds b text -> exists rest, getRef b = text ++ NUL :: rest.
Proof.
  intros (_ & Hl & Ht). exists (zdrop (zlen text + 1) (getRef b)).
  rewrite <- (ztake_zdrop (zlen text + 1) (getRef b)) at 1. by rewrite Ht, <- app_assoc.
Qed.

Lemma holds_prefix b text rest : lb_offset b = zlen text -> getRef b = text ++ NUL :: rest -> lb_holds b text.
Proof.
  intros Ho Hr. unfold lb_holds. rewrite Hr, zlen_app, zlen_cons. pose proof (zlen_nonneg rest). split; [done|].
  split; [lia|]. change (text ++ NUL :: rest) with (text ++ [NUL] ++ rest). rewrite app_assoc. apply ztake_app_length.
  by rewrite zlen_app.
Qed.

(** growing keeps the text *)
Lemma resize_keeps b text newSize : lb_ok b -> lb_holds b text -> ~ In NUL text ->
  lb_size b < newSize <= COMMUTIL_MAX_BUFFER_SIZE ->
  exists b', resize true newSize b = Done (true, b') /\ lb_ok b' /\ lb_holds b' text /\ lb_full b' = lb_full b /\
    newSize <= lb_size b'.
Proof.
  intros [Hm (j & Hj & Hs) Hfix] Ht Hn Hsize. pose proof Ht as (Ho & Hl & _).
  destruct (holds_split b text Ht) as [rest Hr].
  assert (Hj' : 2 ^ (j - 1) < 2 ^ j) by (apply Z.pow_lt_mono_r; lia).
  change COMMUTIL_MAX_BUFFER_SIZE with (2 ^ 14) in Hsize.
  destruct (resize_loop_from newSize) with (fuel := 64%nat) (j := j) as (k & Hk & Hrun & Hb); [lia..|].
  assert (2 ^ k <= 2 ^ 14) by (apply Z.pow_le_mono_r; lia).
  unfold resize. rewrite (proj2 (Z.ltb_lt _ _)) by lia. change COMMUTIL_MAX_BUFFER_SIZE with (2 ^ 14).
  rewrite (proj2 (Z.ltb_ge _ _)) by lia. rewrite Hs, Hrun. cbn [outcome_bind].
  assert (Hkj : 2 ^ j <= 2 ^ k) by (apply Z.pow_le_mono_r; lia).
  unfold getRef in Hm, Hr. destruct (lb_dynamic b) as [old|] eqn:Hd; cbn [from_option default] in *.
  - change (id old) with old in *. cbn [outcome_bind]. rewrite ztake_all by lia. eexists. split; [reflexivity|]. split; [|split; [|split; [done|cbn; lia]]].
    + split; [cbn; rewrite zlen_app, zlen_replicate; lia| |done]. exists k. split; [lia|done].
    + eapply holds_prefix; [done|]. cbn. by rewrite Hr, <- app_assoc.
  - specialize (Hfix eq_refl). rewrite Hs in Hfix. rewrite Hfix.
    set (dest := ztake (2 ^ k) [] ++ _).
    assert (Hdest : zlen dest = 2 ^ k).
    { unfold dest. rewrite ztake_all, zlen_app, zlen_nil, zlen_replicate; rewrite ?zlen_nil; lia. }
    assert (Hfit : zlen text < COMMUTIL_LOG_BUFFER_SIZE).
    { rewrite <- Hfix, <- Hs, <- Hm, Hr, zlen_app, zlen_cons. zlia. }
    rewrite (strncpy_ok dest (lb_fixed b) COMMUTIL_LOG_BUFFER_SIZE (zlen text) 0);
      [|unfold COMMUTIL_LOG_BUFFER_SIZE in *; lia|rewrite Hr; by apply strlen_app|by left].
    cbn [outcome_bind]. rewrite Z.min_l by lia. rewrite Hr, (ztake_app_length text) by done.
    eexists. split; [reflexivity|]. split; [|split; [|split; [done|cbn; lia]]].
    + split; [|exists k; split; [lia|done]|done]. cbn. zlens. rewrite zlen_app, zlen_cons, zlen_zdrop; lia.
    + by eapply holds_prefix.
Qed.
(** the copy into a buffer that has room for the characters, but perhaps not for the null *)
Lemma copy_in b text msg n : lb_ok b -> lb_holds b text -> strlen msg = Some n -> 0 < n ->
  zlen text + n <= lb_size b ->
  let kept := text ++ ztake (Z.min n (lb_size b - zlen text - 1)) msg in
  exists rest, commutil_strncpy (zdrop (lb_offset b) (getRef b)) msg (u64 (lb_size b - lb_offset b)) n =
      Done (Z.min n (lb_size b - zlen text - 1), ztake (Z.min n (lb_size b - zlen text - 1)) msg ++ NUL :: rest) /\
    ztake (lb_offset b) (getRef b) = text /\ zlen (kept ++ NUL :: rest) = lb_size b /\
    zlen kept = zlen text + Z.min n (lb_size b - zlen text - 1).
Proof.
  intros [Hm (k & Hk & Hs) _] Ht Hn Hpos Hroom kept. pose proof Ht as (Ho & Hl & _).
  destruct (holds_split b text Ht) as [rest0 Hr]. destruct (strlen_spec _ _ Hn) as (Hnr & _ & _).
  assert (2 ^ k <= 2 ^ 14) by (apply Z.pow_le_mono_r; lia).
  pose proof (zlen_nonneg text). rewrite Ho, u64_small by lia.
  assert (Hz : zlen (zdrop (zlen text) (getRef b)) = lb_size b - zlen text) by (rewrite zlen_zdrop; lia).
  rewrite (strncpy_ok _ msg (lb_size b - zlen text) n n) by (done || lia || by right).
  assert (Hkept : zlen kept = zlen text + Z.min n (lb_size b - zlen text - 1)).
  { unfold kept. rewrite zlen_app, zlen_ztake by lia. lia. }
  eexists. split; [reflexivity|]. split; [rewrite Hr; by apply ztake_app_length|]. split; [|exact Hkept].
  rewrite zlen_app, zlen_cons, Hkept, zlen_zdrop by lia. lia.
Qed.

Lemma append_fits b text msg n : lb_ok b -> lb_full b = false -> lb_holds b text -> strlen msg = Some n -> 0 < n ->
  zlen text + n <= lb_size b ->
  exists b', (let* '(m, tail) := commutil_strncpy (zdrop (lb_offset b) (getRef b)) msg (u64 (lb_size b - lb_offset b)) n in
      Done (true, set_offset (u64 (lb_offset b + m)) (set_ref (ztake (lb_offset b) (getRef b) ++ tail) b))) = Done (true, b') /\
    lb_ok b' /\ lb_full b' = false /\ lb_size b' = lb_size b /\
    lb_holds b' (text ++ ztake (Z.min n (lb_size b - zlen text - 1)) msg).
Proof.
  intros Hok Hfull Ht Hn Hpos Hroom. pose proof Hok as [_ (k & Hk & Hs) Hfix]. pose proof Ht as (Ho & _ & _).
  destruct (copy_in b text msg n Hok Ht Hn Hpos Hroom) as (rest & -> & Hp & Hsz & Hkept). cbn [outcome_bind].
  assert (2 ^ k <= 2 ^ 14) by (apply Z.pow_le_mono_r; lia). pose proof (zlen_nonneg text).
  rewrite Hp, Ho, u64_small, app_assoc by lia. set (kept := text ++ _) in *.
  eexists. split; [reflexivity|]. unfold set_offset, set_ref.
  destruct (lb_dynamic b) eqn:Hd; (split; [|split; [done|split; [done|by eapply holds_prefix; [cbn; rewrite Hkept|]]]]);
    (split; [done|by exists k|exact Hfix || done]).
Qed.

(** C38. Appending a text to one of 16 KB or less together keeps both, except that the last
    character is lost when they fill the buffer exactly; a text beyond 16 KB is rejected,
    and the buffer counts as full from then on. *)
Theorem append_spec b text msg n len : lb_ok b -> lb_full b = false -> lb_holds b text -> ~ In NUL text ->
  strlen msg = Some n -> 0 < n < 2 ^ 32 -> len = 0 \/ len = n ->
  exists b', if zlen text + n <=? COMMUTIL_MAX_BUFFER_SIZE then
      append true msg len b = Done (true, b') /\ lb_ok b' /\ lb_full b' = false /\ zlen text + n <= lb_size b' /\
      lb_holds b' (text ++ ztake (Z.min n (lb_size b' - zlen text - 1)) msg)
    else append true msg len b = Done (false, b') /\ lb_full b' = true /\ lb_holds b' text.
Proof.
  intros Hok Hfull Ht Hnul Hn Hpos Hlen. pose proof Hok as [Hm (k & Hk & Hs) _]. pose proof Ht as (Ho & Hl & _).
  assert (2 ^ k <= 2 ^ 14) by (apply Z.pow_le_mono_r; lia). pose proof (zlen_nonneg text).
  unfold append. rewrite Hfull, Hn.
  replace (if len =? 0 then Done n else Done len) with (Done n) by (destruct (Z.eqb_spec len 0); [done|f_equal; lia]).
  cbn [outcome_bind]. unfold ensureBufferLength. rewrite Ho, !u64_small by lia.
  destruct (Z.ltb_spec (lb_size b - zlen text) n) as [Hgrow|Hroom].
  - destruct (Z.leb_spec (zlen text + n) COMMUTIL_MAX_BUFFER_SIZE) as [Hmax|Hmax].
    + destruct (resize_keeps b text (zlen text + n) Hok Ht Hnul) as (b1 & -> & Hok1 & Ht1 & Hf1 & Hs1); [lia|].
      cbn [outcome_bind]. pose proof Ht1 as (Ho1 & Hl1 & _). rewrite (proj2 (Z.ltb_ge _ _)) by lia.
      rewrite Hfull in Hf1. destruct (append_fits b1 text msg n Hok1 Hf1 Ht1 Hn) as (b' & Hrun & Hok' & Hf' & Hs' & Ht'); [lia..|].
      exists b'. rewrite Hs'. done.
    + unfold resize. rewrite (proj2 (Z.ltb_lt _ _)), (proj2 (Z.ltb_lt _ _)) by lia. cbn [outcome_bind].
      eexists. split; [reflexivity|]. done.
  - rewrite (proj2 (Z.leb_le _ _)) by (change COMMUTIL_MAX_BUFFER_SIZE with (2 ^ 14); lia). cbn [outcome_bind].
    rewrite (proj2 (Z.ltb_ge _ _)) by lia.
    destruct (append_fits b text msg n Hok Hfull Ht Hn) as (b' & Hrun & Hok' & Hf' & Hs' & Ht'); [lia..|].
    exists b'. rewrite Hs'. split_and!; done || lia.
Qed.

Definition sample_log_buffer : LogBuffer := LogBuffer_new (replicate 1024 NUL).

Lemma sample_log_buffer_fresh : lb_fresh sample_log_buffer.
Proof. by split_and!. Qed.

Lemma appendV_keeps_text_witness :
  (exists ok b', appendV true (Some (replicate 1025 Byte.x41)) sample_log_buffer = Done (ok, b') /\
     ok = true /\ lb_holds b' (replicate 1025 Byte.x41)) /\
  (exists ok b', appendV true (Some (replicate 1024 Byte.x41)) sample_log_buffer = Done (ok, b') /\
     ok = false /\ lb_offset b' = 0).
Proof.
  split.
  - apply (appendV_keeps_text sample_log_buffer (replicate 1025 Byte.x41));
      [apply sample_log_buffer_fresh|rewrite zlen_replicate; lia].
  - apply (appendV_keeps_text sample_log_buffer (replicate 1024 Byte.x41));
      [apply sample_log_buffer_fresh|rewrite zlen_replicate; lia].
Defined.

(** Assigning does not discard the previous contents: the offset is kept, so
    that the text is appended behind it; behind a text longer than the initial
    size it is written outside the buffer, which was just made small again. *)
Theorem assign_keeps_offset b msg n : zlen (lb_fixed b) = COMMUTIL_LOG_BUFFER_SIZE ->
  lb_full b = false -> strlen msg = Some n -> 0 < n < 500 ->
  0 <= lb_offset b < 500 \/ COMMUTIL_LOG_BUFFER_SIZE < lb_offset b < 2 ^ 32 ->
  if lb_offset b <? 500
  then exists b', assign true msg n b = Done (true, b') /\ lb_offset b' = lb_offset b + n /\
         ztake (lb_offset b) (getRef b') = ztake (lb_offset b) (lb_fixed b)
  else assign true msg n b = Undef UB_bounds.
Proof.
  unfold COMMUTIL_LOG_BUFFER_SIZE. intros Hf Hfull Hn Hr Ho. unfold assign, append.
  rewrite (proj2 (Z.leb_gt COMMUTIL_MAX_BUFFER_SIZE n)) by (unfold COMMUTIL_MAX_BUFFER_SIZE; lia).
  cbn [lb_full lb_reset]. rewrite Hfull, (proj2 (Z.eqb_neq n 0)) by lia. cbn [outcome_bind].
  unfold ensureBufferLength. cbn [lb_size lb_offset lb_reset]. unfold COMMUTIL_LOG_BUFFER_SIZE.
  destruct (Z.ltb_spec (lb_offset b) 500) as [Hlt|Hge].
  - rewrite (u64_small (1024 - lb_offset b)), (proj2 (Z.ltb_ge _ n)) by lia. cbn [outcome_bind].
    unfold lb_reset, getRef. cbn [lb_dynamic lb_fixed lb_size lb_offset default from_option].
    unfold COMMUTIL_LOG_BUFFER_SIZE. rewrite (u64_small (1024 - lb_offset b)) by lia.
    rewrite (proj2 (Z.ltb_ge (zlen (lb_fixed b)) _)) by lia.
    assert (Hz : zlen (zdrop (lb_offset b) (lb_fixed b)) = 1024 - lb_offset b)
      by (rewrite zlen_zdrop by lia; lia).
    rewrite (strncpy_ok _ msg (1024 - lb_offset b) n n) by (done || lia || by right).
    cbn [outcome_bind]. rewrite Z.min_l, u64_small by lia. eexists. split; [reflexivity|].
    cbn. split; [done|]. apply ztake_app_length. rewrite zlen_ztake by lia. lia.
  - assert (Hw : u64 (1024 - lb_offset b) = 1024 - lb_offset b + 2 ^ 64).
    { unfold u64. rewrite <- (Z.mod_small (1024 - lb_offset b + 2 ^ 64) (2 ^ 64)) by lia.
      rewrite <- Z.add_mod_idemp_r by lia. by rewrite Z.mod_same, Z.add_0_r by lia. }
    rewrite Hw, (proj2 (Z.ltb_ge _ n)) by lia. cbn [outcome_bind].
    unfold lb_reset, getRef. cbn [lb_dynamic lb_fixed lb_size lb_offset default from_option].
    by rewrite (proj2 (Z.ltb_lt (zlen (lb_fixed b)) _)) by lia.
Qed.

Definition long_log_buffer (offset : Z) : LogBuffer :=
  MkLogBuffer (replicate 1024 Byte.x41) (Some (replicate 2048 Byte.x41)) 2048 offset false.

Lemma assign_keeps_offset_witness :
  (exists b', assign true [Byte.x42; NUL] 1 (long_log_buffer 3) = Done (true, b') /\
     lb_offset b' = 4 /\ ztake 3 (getRef b') = [Byte.x41; Byte.x41; Byte.x41]) /\
  assign true [Byte.x42; NUL] 1 (long_log_buffer 1500) = Undef UB_bounds.
Proof.
  split.
  - apply (assign_keeps_offset (long_log_buffer 3) [Byte.x42; NUL] 1); try done; cbn; lia.
  - apply (assign_keeps_offset (long_log_buffer 1500) [Byte.x42; NUL] 1); try done;
      unfold COMMUTIL_LOG_BUFFER_SIZE; cbn; lia.
Defined.

Definition text_buffer (n : nat) : LogBuffer :=
  MkLogBuffer (replicate n Byte.x41 ++ replicate (1024 - n) NUL) None 1024 (Z.of_nat n) false.

Definition two_chars : list Byte.byte := [Byte.x42; Byte.x43; NUL].

Lemma text_buffer_ok n : (n < 1024)%nat -> lb_ok (text_buffer n) /\ lb_holds (text_buffer n) (replicate n Byte.x41) /\
  ~ In NUL (replicate n Byte.x41).
Proof.
  intros Hn. split; [|split].
  - split; [|exists 10; split; [lia|done]|done]. unfold text_buffer, getRef. cbn. rewrite zlen_app, !zlen_replicate. lia.
  - apply holds_prefix with (rest := replicate (1023 - n) NUL); [cbn; by rewrite zlen_replicate|].
    unfold text_buffer, getRef. cbn. by replace (1024 - n)%nat with (S (1023 - n)) by lia.
  - intros Hin%list_elem_of_In. by apply elem_of_replicate in Hin as [? _].
Qed.

(** two characters behind 1022 fill the buffer and the second one is lost; behind 1023 the
    buffer grows *)
Lemma append_spec_witness :
  (exists b', append true two_chars 0 (text_buffer 1022) = Done (true, b') /\
     lb_size b' = 1024 /\ lb_holds b' (replicate 1022 Byte.x41 ++ [Byte.x42])) /\
  (exists b', append true two_chars 2 (text_buffer 1023) = Done (true, b') /\
     lb_size b' = 2048 /\ lb_holds b' (replicate 1023 Byte.x41 ++ [Byte.x42; Byte.x43])).
Proof.
  split.
  - destruct (text_buffer_ok 1022) as (Hok & Ht & Hn); [lia|].
    destruct (append_spec (text_buffer 1022) (replicate 1022 Byte.x41) two_chars 2 0 Hok) as (b' & Hspec); try done; [by left|].
    destruct Hspec as (Hrun & _ & _ & _ & Hh). exists b'. split; [exact Hrun|].
    assert (Hs : lb_size b' = 1024).
    { assert (Hx : match append true two_chars 0 (text_buffer 1022) with Done (_, x) => lb_size x | _ => 0 end = 1024)
        by (vm_compute; reflexivity). by rewrite Hrun in Hx. }
    split; [done|]. rewrite Hs in Hh. exact Hh.
  - destruct (text_buffer_ok 1023) as (Hok & Ht & Hn); [lia|].
    destruct (append_spec (text_buffer 1023) (replicate 1023 Byte.x41) two_chars 2 2 Hok) as (b' & Hspec); try done; [by right|].
    destruct Hspec as (Hrun & _ & _ & _ & Hh). exists b'. split; [exact Hrun|].
    assert (Hs : lb_size b' = 2048).
    { assert (Hx : match append true two_chars 2 (text_buffer 1023) with Done (_, x) => lb_size x | _ => 0 end = 2048)
        by (vm_compute; reflexivity). by rewrite Hrun in Hx. }
    split; [done|]. rewrite Hs in Hh. exact Hh.
Defined.
