(* ===== verification/Log.v ===== *)
(** * The logger (src/commutil_log_imp.cpp)

    The thread's stack of log messages under construction, complete and
    multi-part messages, severities and the registry of loggers. The output to
    stderr is not modelled; what the log handler receives is. *)

From Stdlib Require Import ZArith Lia String.
From coqutil Require Import Byte.
From S2P Require Import Prelude Errors StrSearch LogBuffer.
Open Scope Z_scope.

(** ** Severities *)

Inductive LogSeverity : Type :=
| LS_FATAL | LS_ERROR | LS_WARN | LS_NOTICE | LS_INFO | LS_TRACE | LS_DEBUG | LS_DIAG.

Definition severity_value (s : LogSeverity) : Z :=
  match s with
  | LS_FATAL => 0 | LS_ERROR => 1 | LS_WARN => 2 | LS_NOTICE => 3
  | LS_INFO => 4 | LS_TRACE => 5 | LS_DEBUG => 6 | LS_DIAG => 7
  end.

Definition sLogSeverityStr : list string :=
  ["FATAL"; "ERROR"; "WARN"; "NOTICE"; "INFO"; "TRACE"; "DEBUG"; "DIAG"]%string.

(** the argument is the unsigned value of the enumeration *)
Definition logSeverityToString (severity : Z) : outcome string :=
  if severity <? zlen sLogSeverityStr then mem_get sLogSeverityStr severity
  else Done "N/A"%string.

Record Logger := MkLogger {
  m_loggerName : list Byte.byte;
  m_loggerId : Z;
  m_severity : LogSeverity;
}.

Definition canLog (sLogSeverity : LogSeverity) (logger : Logger) (severity : LogSeverity) : bool :=
  (severity_value severity <=? severity_value sLogSeverity) ||
  (severity_value severity <=? severity_value (m_severity logger)).

(** ** Messages under construction *)

Record LogData := MkLogData {
  ld_logger : option Logger;
  ld_severity : LogSeverity;
  ld_buffer : LogBuffer;
}.

Record LogState := MkLogState {
  ls_stack : list LogData;   (* from sLogData to sLogDataHead; empty: not created *)
  ls_handler : bool;         (* sLogHandler is not null *)
  (* what the handler received: severity, logger id, logger name, text *)
  ls_out : list (LogSeverity * Z * list Byte.byte * list Byte.byte);
}.

Definition LogData_new (mem : list Byte.byte) : LogData :=
  MkLogData None LS_INFO (lb_reset (LogBuffer_new mem)).

Definition ld_reset (logger : option Logger) (severity : LogSeverity) (d : LogData) : LogData :=
  MkLogData logger severity (lb_reset (ld_buffer d)).

Definition set_stack (stack : list LogData) (s : LogState) : LogState :=
  MkLogState stack (ls_handler s) (ls_out s).

Section Logging.
(** what new fixed buffers hold, and whether allocations succeed *)
Context (mem : list Byte.byte) (alloc : bool).

(** the top of the stack, created on demand *)
Definition getLogData (s : LogState) : outcome (LogData * LogState) :=
  match ls_stack s with
  | top :: _ => Done (top, s)
  | [] => if alloc then Done (LogData_new mem, set_stack [LogData_new mem] s) else Undef UB_assert
  end.

Definition pushLogData (s : LogState) : outcome (LogData * LogState) :=
  if alloc then Done (LogData_new mem, set_stack (LogData_new mem :: ls_stack s) s)
  else match ls_stack s with top :: _ => Done (top, s) | [] => Undef UB_null end.

Definition popLogData (s : LogState) : LogState :=
  match ls_stack s with
  | _ :: (_ :: _) as next => set_stack (tail (ls_stack s)) s
  | _ => s
  end.

(** replaces the top of the stack *)
Definition set_top (d : LogData) (s : LogState) : LogState := set_stack (d :: tail (ls_stack s)) s.

Definition isLogging (d : LogData) : bool := 0 <? lb_offset (ld_buffer d).

(** the result of appendV is ignored *)
Definition appendMsgV (text : option (list Byte.byte)) (d : LogData) : outcome LogData :=
  let* '(_, b) := appendV alloc text (ld_buffer d) in
  Done (MkLogData (ld_logger d) (ld_severity d) b).

Definition appendMsg (msg : list Byte.byte) (d : LogData) : outcome LogData :=
  let* '(_, b) := append alloc msg 0 (ld_buffer d) in
  Done (MkLogData (ld_logger d) (ld_severity d) b).

Definition finishLogData (d : LogData) (s : LogState) : outcome LogState :=
  if isLogging d then
    let* b := finalize (ld_buffer d) in
    let d := MkLogData (ld_logger d) (ld_severity d) b in
    let* out :=
      if ls_handler s then
        match ld_logger d with
        | None => Undef UB_null
        | Some logger =>
          Done (ls_out s ++ [(ld_severity d, m_loggerId logger, m_loggerName logger,
                              before_nul (getRef b))])
        end
      else Done (ls_out s) in
    let s := MkLogState (ls_stack s) (ls_handler s) out in
    Done (popLogData (set_top (ld_reset None LS_INFO d) s))
  else Done s.

(** the message to start with: the current one, or a new one on top of it *)
Definition openLogData (s : LogState) : outcome (LogData * LogState) :=
  let* '(d, s) := getLogData s in
  if isLogging d then pushLogData s else Done (d, s).

Definition logMsg (logger : Logger) (severity : LogSeverity) (text : option (list Byte.byte))
    (s : LogState) : outcome LogState :=
  let* '(d, s) := openLogData s in
  let d := ld_reset (Some logger) severity d in
  let* d := appendMsgV text d in
  finishLogData d (set_top d s).

Definition startLog (logger : Logger) (severity : LogSeverity) (text : option (list Byte.byte))
    (s : LogState) : outcome LogState :=
  let* '(d, s) := openLogData s in
  let d := ld_reset (Some logger) severity d in
  let* d := appendMsgV text d in
  Done (set_top d s).

Definition appendLog (text : option (list Byte.byte)) (s : LogState) : outcome LogState :=
  let* '(d, s) := openLogData s in
  if isLogging d then let* d := appendMsgV text d in Done (set_top d s)
  else Done s.

Definition appendLogNoFormat (msg : list Byte.byte) (s : LogState) : outcome LogState :=
  let* '(d, s) := openLogData s in
  if isLogging d then let* d := appendMsg msg d in Done (set_top d s)
  else Done s.

Definition finishLog (s : LogState) : outcome LogState :=
  let* '(d, s) := getLogData s in finishLogData d s.
End Logging.

(** what the default handler prints for a message *)
Definition default_onMsg (severity : LogSeverity) (loggerName msg : list Byte.byte) : outcome (list Byte.byte) :=
  let* name := logSeverityToString (severity_value severity) in
  Done (list_byte_of_string "[" ++ list_byte_of_string name ++ list_byte_of_string "] <" ++ loggerName ++
    list_byte_of_string "> " ++ msg ++ [Byte.x0a]).

(** ** The registry of loggers *)

Definition MAX_LOGGERS : Z := 1024.
Definition COMMUTIL_INVALID_LOGGER_ID : Z := u64 (-1).

(** a logger is named by its address; a null entry is [None] *)
Definition registerLogger (handler : option (LogSeverity -> list Byte.byte -> Z -> LogSeverity))
    (sLogSeverity : LogSeverity) (addr : Z) (logger : Logger) (loggerName : list Byte.byte)
    (sLoggers : list (option Z)) : Logger * list (option Z) :=
  if MAX_LOGGERS <? zlen sLoggers then
    (MkLogger (m_loggerName logger) COMMUTIL_INVALID_LOGGER_ID (m_severity logger), sLoggers)
  else
    let id := zlen sLoggers in
    (MkLogger loggerName id
       (match handler with Some f => f sLogSeverity loggerName id | None => m_severity logger end),
     sLoggers ++ [Some addr]).

(** the loop of unregisterLogger from index [maxLogTargetId] *)
Fixpoint trim_loggers (maxLogTargetId : nat) (sLoggers : list (option Z))
  : outcome (list (option Z)) :=
  match sLoggers !! maxLogTargetId with
  | None => Undef UB_bounds
  | Some (Some _) => Done (take (S maxLogTargetId) sLoggers)
  | Some None =>
    match maxLogTargetId with
    | O => Done []
    | S n => trim_loggers n sLoggers
    end
  end.

Definition unregisterLogger (logger : Logger) (sLoggers : list (option Z))
  : outcome (list (option Z)) :=
  if m_loggerId logger =? COMMUTIL_INVALID_LOGGER_ID then Done sLoggers
  else if m_loggerId logger <? zlen sLoggers then
    let sLoggers := zset sLoggers (m_loggerId logger) None in
    trim_loggers (Nat.pred (length sLoggers)) sLoggers
  else Done sLoggers.

(** ** Complete messages *)

Definition in_use (d : LogData) : Prop := 0 < lb_offset (ld_buffer d).

(** the next message of the thread gets an empty buffer *)
Definition ready (s : LogState) : Prop :=
  match ls_stack s with
  | [] => True
  | top :: below => (in_use top \/ lb_fresh (lb_reset (ld_buffer top))) /\ Forall in_use below
  end.

Lemma new_reset_fresh mem : zlen mem = COMMUTIL_LOG_BUFFER_SIZE ->
  lb_fresh (lb_reset (ld_buffer (LogData_new mem))).
Proof. intros Hm. by split_and!. Qed.

(** opening yields an empty message on top of messages in use *)
Lemma openLogData_ready mem s : zlen mem = COMMUTIL_LOG_BUFFER_SIZE -> ready s ->
  exists d s' rest, openLogData mem true s = Done (d, s') /\ lb_fresh (lb_reset (ld_buffer d)) /\
    ls_handler s' = ls_handler s /\ ls_out s' = ls_out s /\
    ls_stack s' = d :: rest /\ Forall in_use rest.
Proof.
  intros Hm Hr. unfold openLogData, getLogData, ready in *.
  destruct (ls_stack s) as [|top below] eqn:Hst; cbn [outcome_bind].
  - exists (LogData_new mem), (set_stack [LogData_new mem] s), [].
    split; [done|]. split; [by apply new_reset_fresh|]. done.
  - destruct Hr as [Htop Hbelow]. unfold isLogging.
    destruct (Z.ltb_spec 0 (lb_offset (ld_buffer top))) as [Hlog|Hidle].
    + exists (LogData_new mem), (set_stack (LogData_new mem :: ls_stack s) s), (top :: below).
      split; [done|]. split; [by apply new_reset_fresh|]. cbn. rewrite Hst.
      split_and!; try done. by constructor.
    + destruct Htop as [Ht|Ht]; [unfold in_use in Ht; lia|]. by exists top, s, below.
Qed.

(** a C string without inner nulls *)
Lemma holds_before_nul b text : lb_holds b text -> Forall (fun c => c <> NUL) text ->
  before_nul (getRef b) = text.
Proof.
  intros (_ & Hl & Ht) Hn. pose proof (ztake_zdrop (zlen text + 1) (getRef b)) as He.
  rewrite Ht, <- app_assoc in He. rewrite <- He. generalize (zdrop (zlen text + 1) (getRef b)).
  clear Hl Ht He. intros rest. induction Hn as [|c text Hc _ IH]; [done|].
  cbn in IH |- *. by rewrite decide_False, IH by done.
Qed.

Lemma resize_full alloc n b r b' : resize alloc n b = Done (r, b') -> lb_full b' = lb_full b.
Proof.
  unfold resize. destruct (lb_size b <? n); [|by intros [= _ <-]].
  destruct (COMMUTIL_MAX_BUFFER_SIZE <? n); [by intros [= _ <-]|].
  destruct (resize_loop 64 n (lb_size b)); cbn [outcome_bind]; [|done|done].
  destruct alloc; [|by intros [= _ <-]].
  match goal with |- outcome_bind ?m _ = _ -> _ => destruct m end; cbn [outcome_bind]; [|done|done].
  by intros [= _ <-].
Qed.

Lemma ensure_full alloc n b b' : ensureBufferLength alloc n b = Done (true, b') ->
  lb_full b' = lb_full b.
Proof.
  unfold ensureBufferLength. destruct (_ <? n); [|by intros [= <-]].
  destruct (resize _ _ b) as [[r b2]| |] eqn:Hr; cbn [outcome_bind]; [|done|done].
  intros [= -> <-]. by eapply resize_full.
Qed.

(** appending to an empty buffer leaves the flag of overflow alone if the text
    fits *)
Lemma fits_not_full b text ok b' : lb_fresh b -> appendV true (Some text) b = Done (ok, b') ->
  ok = true -> lb_full b' = false.
Proof.
  intros (_ & _ & _ & _ & Hfull) Hrun ->. unfold appendV in Hrun. rewrite Hfull in Hrun.
  assert (Hset : forall m x, lb_full (set_ref m x) = lb_full x).
  { intros m x. unfold set_ref. by destruct (lb_dynamic x). }
  inv_bind. destruct a as [res m]. destruct (res <? 0); [done|].
  destruct (res <? _); [injection Hrun as <-; cbn; by rewrite Hset|].
  inv_bind. destruct a as [ok2 b2]. destruct ok2; [|done].
  inv_bind. destruct a as [res2 m2]. destruct (res2 <? 0); [done|]. destruct (_ <=? res2); [done|].
  injection Hrun as <-. cbn. rewrite Hset.
  rewrite (ensure_full _ _ _ _ E0). by rewrite Hset.
Qed.

Section Delivery.
Context (mem : list Byte.byte) (Hmem : zlen mem = COMMUTIL_LOG_BUFFER_SIZE).
Implicit Types (s : LogState).

(** a text the logger can take *)
Definition good_text (text : list Byte.byte) : Prop :=
  0 < zlen text < 2 ^ 31 /\ Forall (fun c => c <> NUL) text /\ text_fits (zlen text) = true.

(** printing into the opened message *)
Lemma append_good text b : lb_fresh b -> good_text text ->
  exists b', appendV true (Some text) b = Done (true, b') /\ lb_holds b' text /\
    0 < lb_offset b' /\ lb_full b' = false.
Proof.
  intros Hf (Hl & Hn & Hfit). destruct (appendV_fresh b text Hf Hl) as (ok & b' & Hrun & Hres).
  rewrite Hfit in Hres. destruct Hres as [-> Hh]. exists b'. split_and!; try done.
  - destruct Hh as (-> & _). lia.
  - by eapply fits_not_full.
Qed.

(** finishing the message on top *)
Lemma finish_good d rest s text logger : ls_stack s = d :: rest -> ls_handler s = true ->
  ld_logger d = Some logger -> lb_holds (ld_buffer d) text -> good_text text ->
  lb_full (ld_buffer d) = false -> Forall in_use rest ->
  exists s', finishLogData d s = Done s' /\ ready s' /\ ls_handler s' = true /\
    ls_out s' = ls_out s ++ [(ld_severity d, m_loggerId logger, m_loggerName logger, text)].
Proof.
  intros Hst Hh Hlg Hho (Hl & Hn & _) Hfull Hrest. pose proof Hho as (Hoff & _).
  unfold finishLogData, isLogging. rewrite (proj2 (Z.ltb_lt 0 _)) by lia.
  unfold finalize. rewrite Hfull. cbn [outcome_bind]. rewrite Hh. cbn [ld_logger].
  rewrite Hlg. cbn [outcome_bind ld_severity]. rewrite (holds_before_nul _ _ Hho Hn).
  eexists. split; [reflexivity|]. unfold popLogData, set_top, set_stack. cbn. rewrite Hst. cbn.
  destruct rest as [|top rest]; cbn.
  - split; [|done]. unfold ready. cbn. split; [|constructor]. left. unfold in_use. cbn. lia.
  - split; [|done]. apply Forall_cons_1 in Hrest as [Ht Hr]. unfold ready. cbn. auto.
Qed.

(** On a thread that is ready, logging a complete message hands exactly its
    text, with severity and logger, to the handler, and leaves the thread ready
    for the next one. *)
Theorem logMsg_delivers s logger severity text : ready s -> ls_handler s = true ->
  good_text text ->
  exists s', logMsg mem true logger severity (Some text) s = Done s' /\ ready s' /\
    ls_out s' = ls_out s ++ [(severity, m_loggerId logger, m_loggerName logger, text)].
Proof.
  intros Hr Hh Ht.
  destruct (openLogData_ready mem s Hmem Hr) as (d & s1 & rest & Hopen & Hf & Hh1 & Ho1 & Hs1 & Hrest).
  destruct (append_good text _ Hf Ht) as (b & Hrun & Hho & Hoff & Hfull).
  unfold logMsg. rewrite Hopen. cbn [outcome_bind]. unfold appendMsgV, ld_reset. cbn [ld_buffer].
  rewrite Hrun. cbn [outcome_bind ld_logger ld_severity].
  destruct (finish_good (MkLogData (Some logger) severity b) rest
    (set_top (MkLogData (Some logger) severity b) s1) text logger) as (s' & Hfin & Hr' & Hh' & Ho');
    try done.
  - unfold set_top, set_stack. cbn. by rewrite Hs1.
  - cbn. by rewrite Hh1.
  - exists s'. split; [done|]. split; [done|]. rewrite Ho'. cbn. by rewrite Ho1.
Qed.

(** A message logged in parts is lost: once [startLog] has opened it, each
    append opens another message and finds nothing to append to, and the final
    call finds nothing to finish. Nothing reaches the handler. *)
Theorem multipart_message_lost s logger severity text part : ready s -> ls_handler s = true ->
  good_text text ->
  exists s1 s2 s3, startLog mem true logger severity (Some text) s = Done s1 /\
    appendLog mem true (Some part) s1 = Done s2 /\ finishLog mem true s2 = Done s3 /\
    ls_out s3 = ls_out s.
Proof.
  intros Hr Hh Ht.
  destruct (openLogData_ready mem s Hmem Hr) as (d & s1 & rest & Hopen & Hf & Hh1 & Ho1 & Hs1 & Hrest).
  destruct (append_good text _ Hf Ht) as (b & Hrun & Hho & Hoff & Hfull).
  set (d1 := MkLogData (Some logger) severity b).
  exists (set_top d1 s1), (set_stack (LogData_new mem :: d1 :: rest) (set_top d1 s1)).
  exists (set_stack (LogData_new mem :: d1 :: rest) (set_top d1 s1)).
  split; [|split; [|split]].
  - unfold startLog. rewrite Hopen. cbn [outcome_bind]. unfold appendMsgV, ld_reset.
    cbn [ld_buffer]. by rewrite Hrun.
  - unfold appendLog, openLogData, getLogData, set_top, set_stack. cbn. rewrite Hs1. cbn.
    unfold isLogging at 1. cbn. by rewrite (proj2 (Z.ltb_lt 0 _)) by lia.
  - done.
  - done.
Qed.

(** A first message of a thread that is too long for the buffer silences the
    thread: the flag of overflow survives every reset, so that no later message
    reaches the handler. *)
Theorem long_message_silences logger severity text text' handler out :
  COMMUTIL_MAX_BUFFER_SIZE < zlen text < 2 ^ 31 ->
  exists s1 s2, logMsg mem true logger severity (Some text) (MkLogState [] handler out) = Done s1 /\
    logMsg mem true logger severity text' s1 = Done s2 /\ ls_out s2 = out /\
    forall t, logMsg mem true logger severity t s2 = Done s2.
Proof.
  intros Hl. unfold COMMUTIL_MAX_BUFFER_SIZE in Hl.
  assert (Hf : lb_fresh (lb_reset (lb_reset (LogBuffer_new mem)))) by (by split_and!).
  assert (Hb : exists b', appendV true (Some text) (lb_reset (lb_reset (LogBuffer_new mem))) =
    Done (false, b') /\ lb_offset b' = 0 /\ lb_full b' = true /\ lb_reset b' = b').
  { unfold appendV. cbn [lb_full lb_reset LogBuffer_new lb_size lb_offset].
    change (u64 (COMMUTIL_LOG_BUFFER_SIZE - 0)) with 1024. unfold COMMUTIL_LOG_BUFFER_SIZE in *.
    destruct (vsnprintf_cut mem 1024 text) as (m & Hv & _); [lia|lia|].
    change (getRef (lb_reset (lb_reset (LogBuffer_new mem)))) with mem. rewrite Hv.
    cbn [outcome_bind]. rewrite (proj2 (Z.ltb_ge _ 0)), (proj2 (Z.ltb_ge _ 1024)) by lia.
    unfold ensureBufferLength. cbn [lb_size lb_offset set_ref lb_reset LogBuffer_new lb_dynamic].
    change (u64 (COMMUTIL_LOG_BUFFER_SIZE - 0)) with 1024.
    rewrite (proj2 (Z.ltb_lt 1024 _)), Z.add_0_l, u64_small by lia. unfold resize.
    cbn [lb_size]. unfold COMMUTIL_LOG_BUFFER_SIZE, COMMUTIL_MAX_BUFFER_SIZE.
    rewrite (proj2 (Z.ltb_lt 1024 _)), (proj2 (Z.ltb_lt (16 * 1024) _)) by lia.
    cbn [outcome_bind]. eexists. split; [reflexivity|]. done. }
  destruct Hb as (b' & Hrun & Hoff & Hfull & Hreset).
  set (d := MkLogData (Some logger) severity b').
  assert (Hstay : forall t, logMsg mem true logger severity t (MkLogState [d] handler out) =
    Done (MkLogState [d] handler out)).
  { intros t. unfold logMsg, openLogData, getLogData, isLogging. cbn. rewrite Hoff. cbn.
    unfold ld_reset, appendMsgV. cbn. rewrite Hreset. unfold appendV. rewrite Hfull. cbn.
    unfold finishLogData, isLogging. cbn. rewrite Hoff. done. }
  exists (MkLogState [d] handler out), (MkLogState [d] handler out). split; [|auto].
  assert (Hopen : openLogData mem true (MkLogState [] handler out) =
    Done (LogData_new mem, MkLogState [LogData_new mem] handler out)) by reflexivity.
  unfold logMsg. rewrite Hopen. cbn [outcome_bind]. unfold appendMsgV, ld_reset.
  cbn [ld_buffer LogData_new]. rewrite Hrun. cbn [outcome_bind ld_logger ld_severity].
  unfold finishLogData, isLogging. cbn [ld_buffer]. by rewrite Hoff.
Qed.
End Delivery.

Definition sample_logger : Logger := MkLogger [Byte.x4c] 3 LS_INFO.

Lemma sample_text n : (0 < n < 1000)%nat -> good_text (replicate n Byte.x41).
Proof.
  intros Hn. unfold good_text. rewrite zlen_replicate. split; [lia|]. split.
  - apply Forall_replicate. done.
  - unfold text_fits, COMMUTIL_MAX_BUFFER_SIZE. cbn [existsb]. zbool.
Qed.

Lemma logMsg_delivers_witness :
  exists s', logMsg (replicate 1024 NUL) true sample_logger LS_WARN (Some (replicate 5 Byte.x41))
      (MkLogState [] true []) = Done s' /\ ready s' /\
    ls_out s' = [] ++ [(LS_WARN, 3, [Byte.x4c], replicate 5 Byte.x41)].
Proof.
  apply (logMsg_delivers (replicate 1024 NUL) eq_refl (MkLogState [] true []) sample_logger LS_WARN
           (replicate 5 Byte.x41)); [done|done|]. apply sample_text. lia.
Defined.

Lemma multipart_message_lost_witness :
  exists s1 s2 s3, startLog (replicate 1024 NUL) true sample_logger LS_WARN
      (Some (replicate 5 Byte.x41)) (MkLogState [] true []) = Done s1 /\
    appendLog (replicate 1024 NUL) true (Some (replicate 5 Byte.x42)) s1 = Done s2 /\
    finishLog (replicate 1024 NUL) true s2 = Done s3 /\ ls_out s3 = [].
Proof.
  apply (multipart_message_lost (replicate 1024 NUL) eq_refl (MkLogState [] true []) sample_logger
           LS_WARN (replicate 5 Byte.x41)); [done|done|]. apply sample_text. lia.
Defined.

Lemma long_message_silences_witness :
  exists s1 s2, logMsg (replicate 1024 NUL) true sample_logger LS_WARN
      (Some (replicate (Z.to_nat 17000) Byte.x41)) (MkLogState [] true []) = Done s1 /\
    logMsg (replicate 1024 NUL) true sample_logger LS_WARN (Some (replicate 5 Byte.x41)) s1 =
      Done s2 /\ ls_out s2 = [] /\
    forall t, logMsg (replicate 1024 NUL) true sample_logger LS_WARN t s2 = Done s2.
Proof.
  apply (long_message_silences (replicate 1024 NUL) eq_refl sample_logger LS_WARN
           (replicate (Z.to_nat 17000) Byte.x41)).
  rewrite zlen_replicate. unfold COMMUTIL_MAX_BUFFER_SIZE. lia.
Defined.
