(* ===== verification/Tls.v ===== *)
(** * Thread-local storage and events of the Windows DLL (src/commutil_tls.h,
    src/commutil_tls.cpp, src/commutil_win32_dll_event.h, src/commutil_win32_dll_event.cpp)

    On POSIX systems the keys are those of pthreads. Windows has no destructors for its
    slots: there a callback of the DLL's thread events runs them. The slots of the platform
    are interfaces, for the thread that calls. *)

From Stdlib Require Import ZArith Lia.
From stdpp Require Import gmap.
From S2P Require Import Prelude Errors.
Open Scope Z_scope.

(** ** Events of the DLL *)

Definition COMMUTIL_DLL_PROCESS_ATTACH : Z := 1.
Definition COMMUTIL_DLL_PROCESS_DETACH : Z := 2.
Definition COMMUTIL_DLL_THREAD_ATTACH : Z := 3.
Definition COMMUTIL_DLL_THREAD_DETACH : Z := 4.

(** listeners and callbacks with their user data, named by their addresses; [None] is null *)
Record DllEvents := MkDllEvents {
  sListeners : list Z;
  sCallbacks : list (Z * option Z);
}.

Definition DllEvents_new : DllEvents := MkDllEvents [] [].

(** erase of what std::find_if finds *)
Fixpoint erase_first {A} (P : A -> bool) (l : list A) : list A :=
  match l with
  | [] => []
  | a :: l => if P a then l else a :: erase_first P l
  end.

Definition registerDllListener (listener : Z) (e : DllEvents) : DllEvents :=
  MkDllEvents (sListeners e ++ [listener]) (sCallbacks e).

Definition deregisterDllListener (listener : Z) (e : DllEvents) : DllEvents :=
  MkDllEvents (erase_first (fun l => l =? listener) (sListeners e)) (sCallbacks e).

Definition registerDllCallback (callback : Z) (userData : option Z) (e : DllEvents) : DllEvents :=
  MkDllEvents (sListeners e) (sCallbacks e ++ [(callback, userData)]).

Definition deregisterDllCallback (callback : Z) (e : DllEvents) : DllEvents :=
  MkDllEvents (sListeners e) (erase_first (fun cb => fst cb =? callback) (sCallbacks e)).

Definition getDllCallbackUserData (callback : Z) (e : DllEvents) : option Z :=
  match List.find (fun cb => fst cb =? callback) (sCallbacks e) with
  | Some cb => snd cb
  | None => None
  end.

Section Events.
Context {W : Type}.

(** the loop of purgeDllCallback; the filter may have effects *)
Fixpoint purge_loop (purge : Z -> option Z -> W -> outcome (bool * W)) (cbs : list (Z * option Z)) (w : W)
  : outcome (list (Z * option Z) * W) :=
  match cbs with
  | [] => Done ([], w)
  | (callback, userData) :: cbs =>
    let* '(gone, w) := purge callback userData w in
    let* '(rest, w) := purge_loop purge cbs w in
    Done (if gone then rest else (callback, userData) :: rest, w)
  end.

Definition purgeDllCallback (purge : Z -> option Z -> W -> outcome (bool * W)) (e : DllEvents) (w : W)
  : outcome (DllEvents * W) :=
  let* '(cbs, w) := purge_loop purge (sCallbacks e) w in Done (MkDllEvents (sListeners e) cbs, w).

(** a loop over listeners or callbacks *)
Fixpoint each {A} (f : A -> W -> outcome W) (l : list A) (w : W) : outcome W :=
  match l with
  | [] => Done w
  | a :: l => let* w := f a w in each f l w
  end.

(** [listener]: the method of a listener for an event; [run]: a call of a callback *)
Definition notify (listener : Z -> Z -> W -> outcome W) (run : Z -> Z -> option Z -> W -> outcome W)
    (event : Z) (e : DllEvents) (w : W) : outcome W :=
  let* w := each (fun l => listener l event) (sListeners e) w in
  each (fun cb => run (fst cb) event (snd cb)) (sCallbacks e) w.

(** the reasons of DllMain are constants of the platform *)
Definition DLL_PROCESS_DETACH : Z := 0.
Definition DLL_PROCESS_ATTACH : Z := 1.
Definition DLL_THREAD_ATTACH : Z := 2.
Definition DLL_THREAD_DETACH : Z := 3.

(** [reserved]: lpvReserved is not null *)
Definition DllMain listener run (fdwReason : Z) (reserved : bool) (e : DllEvents) (w : W) : outcome W :=
  if fdwReason =? DLL_PROCESS_ATTACH then Done w
  else if fdwReason =? DLL_THREAD_ATTACH then notify listener run COMMUTIL_DLL_THREAD_ATTACH e w
  else if fdwReason =? DLL_THREAD_DETACH then notify listener run COMMUTIL_DLL_THREAD_DETACH e w
  else if fdwReason =? DLL_PROCESS_DETACH then
    if reserved then Done w else notify listener run COMMUTIL_DLL_PROCESS_DETACH e w
  else Done w.
End Events.

(** ** Keys on POSIX systems *)

(** the calls of pthreads: results and keys, over the state [W] of the system; a value is
    an address or null *)
Class Pthread (W : Type) := {
  pthread_key_create : bool -> W -> Z * Z * W;   (* whether there is a destructor *)
  pthread_key_delete : Z -> W -> Z * W;
  pthread_getspecific : Z -> W -> option Z;
  pthread_setspecific : Z -> option Z -> W -> Z * W;
}.

Definition COMMUTIL_INVALID_TLS_KEY : Z := u32 (-1).

Section Posix.
Context {W : Type} `{Pthread W}.

(** the second result is what is written to [key] *)
Definition createTls (dtor : bool) (w : W) : bool * Z * W :=
  let '(res, key, w) := pthread_key_create dtor w in
  if negb (res =? 0) then (false, key, w) else (true, key, w).

Definition destroyTls (key : Z) (w : W) : bool * W :=
  let '(res, w) := pthread_key_delete key w in
  if negb (res =? 0) then (false, w) else (true, w).

Definition getTls (key : Z) (w : W) : option Z := pthread_getspecific key w.

Definition setTls (key : Z) (value : option Z) (w : W) : bool * W :=
  let '(res, w) := pthread_setspecific key value w in
  if negb (res =? 0) then (false, w) else (true, w).
End Posix.

(** ** Keys on Windows *)

(** the slots of Windows and what a destructor does *)
Class WinTls (W : Type) := {
  TlsAlloc : W -> option Z * W;                  (* [None]: TLS_OUT_OF_INDEXES *)
  TlsFree : Z -> W -> bool * W;
  TlsGetValue : Z -> W -> option Z;
  TlsSetValue : Z -> option Z -> W -> bool * W;
  run_dtor : Z -> Z -> W -> W;                   (* the destructor and the value *)
}.

Record TlsCleanupData := MkTlsCleanupData { m_dtor : Z; m_key : Z }.

(** the cleanup data live in a heap *)
Record WinProcess (W : Type) := MkWinProcess {
  wp_events : DllEvents;
  wp_heap : gmap Z TlsCleanupData;
  wp_next : Z;
  wp_system : W;
}.

Arguments MkWinProcess {W}.
Arguments wp_events {W}.
Arguments wp_heap {W}.
Arguments wp_next {W}.
Arguments wp_system {W}.

(** the address of tlsCleanup *)
Definition TLS_CLEANUP : Z := 1.

Section Windows.
Context {W : Type} `{WinTls W}.
Implicit Types p : WinProcess W.

Definition tlsCleanup (heap : gmap Z TlsCleanupData) (event : Z) (userData : option Z) (w : W) : outcome W :=
  if event =? COMMUTIL_DLL_THREAD_DETACH then
    match userData with
    | None => Done w
    | Some a =>
      match heap !! a with
      | None => Undef UB_freed
      | Some cleanupData =>
        match TlsGetValue (m_key cleanupData) w with
        | None => Done w
        | Some tlsValue =>
          Done (snd (TlsSetValue (m_key cleanupData) None (run_dtor (m_dtor cleanupData) tlsValue w)))
        end
      end
    end
  else Done w.

(** TlsKeyPurge::purge: it looks at the data of every callback *)
Definition key_purge (key : Z) (callback : Z) (userData : option Z) (heap : gmap Z TlsCleanupData)
  : outcome (bool * gmap Z TlsCleanupData) :=
  match userData with
  | None => Done (false, heap)
  | Some a =>
    match heap !! a with
    | None => Undef UB_freed
    | Some cleanupData => if m_key cleanupData =? key then Done (true, delete a heap) else Done (false, heap)
    end
  end.

Definition win_destroyTls (key : Z) p : outcome (bool * WinProcess W) :=
  let* '(events, heap) := purgeDllCallback (key_purge key) (wp_events p) (wp_heap p) in
  let '(ok, w) := TlsFree key (wp_system p) in
  Done (ok, MkWinProcess events heap (wp_next p) w).

(** [alloc]: whether the cleanup data can be allocated; the second result is the key *)
Definition win_createTls (alloc : bool) (dtor : option Z) p : outcome (bool * option Z * WinProcess W) :=
  let '(key, w) := TlsAlloc (wp_system p) in
  let p := MkWinProcess (wp_events p) (wp_heap p) (wp_next p) w in
  match key with
  | None => Done (false, None, p)
  | Some key =>
    match dtor with
    | None => Done (true, Some key, p)
    | Some dtor =>
      if alloc then
        let a := wp_next p in
        Done (true, Some key, MkWinProcess (registerDllCallback TLS_CLEANUP (Some a) (wp_events p))
          (<[a := MkTlsCleanupData dtor key]> (wp_heap p)) (a + 1) w)
      else let* '(_, p) := win_destroyTls key p in Done (false, Some key, p)
    end
  end.

Definition win_getTls (key : Z) p : option Z := TlsGetValue key (wp_system p).

Definition win_setTls (key : Z) (value : option Z) p : bool * WinProcess W :=
  let '(ok, w) := TlsSetValue key value (wp_system p) in
  (ok, MkWinProcess (wp_events p) (wp_heap p) (wp_next p) w).

(** the end of a thread, when only keys registered callbacks *)
Definition thread_detach p : outcome (WinProcess W) :=
  let* w := DllMain (fun _ _ => Done)
    (fun callback event userData w => if callback =? TLS_CLEANUP then tlsCleanup (wp_heap p) event userData w else Done w)
    DLL_THREAD_DETACH false (wp_events p) (wp_system p) in
  Done (MkWinProcess (wp_events p) (wp_heap p) (wp_next p) w).
End Windows.

(** ** The slots of Windows *)

(** what the code relies on: [allocated] slots can be written and freed, slots do not disturb
    each other, a new slot is null in all threads, a destructor leaves the slots alone; [ran] is
    the calls of destructors, with their values *)
Class WinTlsLaws (W : Type) `{WinTls W} := {
  allocated : Z -> W -> Prop;
  ran : W -> list (Z * Z);
  TlsAlloc_none w w' : TlsAlloc w = (None, w') -> (forall k, allocated k w' <-> allocated k w) /\
    (forall k, TlsGetValue k w' = TlsGetValue k w) /\ ran w' = ran w;
  TlsAlloc_some w key w' : TlsAlloc w = (Some key, w') -> ~ allocated key w /\ TlsGetValue key w' = None /\
    (forall k, allocated k w' <-> k = key \/ allocated k w) /\
    (forall k, allocated k w -> TlsGetValue k w' = TlsGetValue k w) /\ ran w' = ran w;
  TlsFree_ok key w : allocated key w -> exists w', TlsFree key w = (true, w') /\
    (forall k, allocated k w' <-> k <> key /\ allocated k w) /\
    (forall k, k <> key -> TlsGetValue k w' = TlsGetValue k w) /\ ran w' = ran w;
  TlsSetValue_ok key v w : allocated key w -> exists w', TlsSetValue key v w = (true, w') /\
    TlsGetValue key w' = v /\ (forall k, k <> key -> TlsGetValue k w' = TlsGetValue k w) /\
    (forall k, allocated k w' <-> allocated k w) /\ ran w' = ran w;
  run_dtor_ok d v w : (forall k, TlsGetValue k (run_dtor d v w) = TlsGetValue k w) /\
    (forall k, allocated k (run_dtor d v w) <-> allocated k w) /\ ran (run_dtor d v w) = ran w ++ [(d, v)];
}.

Section Cleanup.
Context {W : Type} `{WinTlsLaws W}.
Implicit Types p : WinProcess W.

(** the callbacks of a process are those of the keys with destructors: their data [ds] at [addrs] *)
Record tls_keys (addrs : list Z) (ds : list TlsCleanupData) p : Prop := {
  tk_callbacks : sCallbacks (wp_events p) = map (fun a => (TLS_CLEANUP, Some a)) addrs;
  tk_data : Forall2 (fun a d => wp_heap p !! a = Some d) addrs ds;
  tk_heap : forall a, is_Some (wp_heap p !! a) -> a ∈ addrs;
  tk_addrs : NoDup addrs;
  tk_next : Forall (fun a => a < wp_next p) addrs;
  tk_keys : NoDup (map m_key ds);
  tk_allocated : Forall (fun d => allocated (m_key d) (wp_system p)) ds;
}.

(** the calls of destructors that are due in a thread *)
Definition due (ds : list TlsCleanupData) (w : W) : list (Z * Z) :=
  omap (fun d => option_map (pair (m_dtor d)) (TlsGetValue (m_key d) w)) ds.

Lemma due_ext ds w w' : (forall d, d ∈ ds -> TlsGetValue (m_key d) w' = TlsGetValue (m_key d) w) -> due ds w' = due ds w.
Proof.
  intros He. induction ds as [|d ds IH]; [done|]. unfold due. cbn. rewrite He by set_solver. unfold due in IH.
  rewrite IH; [done|set_solver].
Qed.

(** one callback at the end of a thread *)
Lemma tlsCleanup_spec heap a d w : heap !! a = Some d -> allocated (m_key d) w ->
  exists w', tlsCleanup heap COMMUTIL_DLL_THREAD_DETACH (Some a) w = Done w' /\ TlsGetValue (m_key d) w' = None /\
    (forall k, k <> m_key d -> TlsGetValue k w' = TlsGetValue k w) /\ (forall k, allocated k w' <-> allocated k w) /\
    ran w' = ran w ++ due [d] w.
Proof.
  intros Ha Hal. unfold tlsCleanup. rewrite Z.eqb_refl, Ha. unfold due. cbn. destruct (TlsGetValue (m_key d) w) as [v|] eqn:Hv; cbn.
  - destruct (run_dtor_ok (m_dtor d) v w) as (Hg1 & Ha1 & Hr1).
    destruct (TlsSetValue_ok (m_key d) None (run_dtor (m_dtor d) v w)) as (w' & Hset & Hg2 & Ho2 & Ha2 & Hr2); [by apply Ha1|].
    rewrite Hset. exists w'. split; [done|]. split; [done|]. split; [intros k Hk; by rewrite Ho2|].
    split; [intros k; by rewrite Ha2|]. by rewrite Hr2.
  - exists w. rewrite app_nil_r. done.
Qed.

Lemma cleanup_all heap addrs ds : Forall2 (fun a d => heap !! a = Some d) addrs ds -> NoDup (map m_key ds) ->
  forall w, Forall (fun d => allocated (m_key d) w) ds ->
  exists w', each (fun cb => (fun callback event userData w => if callback =? TLS_CLEANUP then tlsCleanup heap event userData w else Done w)
      (fst cb) COMMUTIL_DLL_THREAD_DETACH (snd cb)) (map (fun a => (TLS_CLEANUP, Some a)) addrs) w = Done w' /\
    (forall d, d ∈ ds -> TlsGetValue (m_key d) w' = None) /\
    (forall k, k ∉ map m_key ds -> TlsGetValue k w' = TlsGetValue k w) /\ (forall k, allocated k w' <-> allocated k w) /\
    ran w' = ran w ++ due ds w.
Proof.
  induction 1 as [|a d addrs ds Ha Hds IH]; intros Hnd w Hal.
  { exists w. rewrite app_nil_r. split; [done|]. split; [|done]. intros d Hd. by apply not_elem_of_nil in Hd. }
  cbn [map] in Hnd. apply list.NoDup_cons in Hnd as [Hk Hnd]. apply Forall_cons_1 in Hal as [Hal Hals].
  destruct (tlsCleanup_spec heap a d w Ha Hal) as (w1 & Hc & Hn1 & Ho1 & Ha1 & Hr1).
  cbn [map each fst snd]. rewrite Z.eqb_refl, Hc, outcome_bind_done.
  destruct (IH Hnd w1) as (w' & -> & Hn & Ho & Ha' & Hr).
  { eapply Forall_impl; [|exact Hals]. intros d' Hd'. apply Ha1, Hd'. }
  assert (Hne : forall d', d' ∈ ds -> m_key d' <> m_key d).
  { intros d' Hd' Heq. apply Hk. rewrite <- Heq. apply list_elem_of_In, in_map. by apply list_elem_of_In. }
  exists w'. split; [done|]. split; [|split; [|split]].
  - intros d' [->|Hd']%elem_of_cons; [|by apply Hn]. by rewrite Ho.
  - intros k [Hk1 Hk2]%not_elem_of_cons. by rewrite Ho, Ho1.
  - intros k. by rewrite Ha', Ha1.
  - rewrite Hr, Hr1, <- app_assoc, (due_ext ds w w1) by (intros d' Hd'; apply Ho1, Hne, Hd').
    f_equal. unfold due. cbn. by destruct (TlsGetValue (m_key d) w).
Qed.

(** at the end of a thread each destructor that is due runs once, in the order in which the keys
    were created; then the thread has no value under these keys *)
Lemma thread_detach_ok addrs ds p : tls_keys addrs ds p ->
  exists p', thread_detach p = Done p' /\ ran (wp_system p') = ran (wp_system p) ++ due ds (wp_system p) /\
    due ds (wp_system p') = [] /\ (forall d, d ∈ ds -> win_getTls (m_key d) p' = None) /\
    (forall k, k ∉ map m_key ds -> win_getTls k p' = win_getTls k p) /\ tls_keys addrs ds p'.
Proof.
  intros [Hc Hd Hh Ha Hn Hk Hal]. destruct (cleanup_all _ _ _ Hd Hk _ Hal) as (w' & Hrun & Hnull & Hother & Hal' & Hran).
  assert (Hl : each (fun l => (fun _ _ => Done) l COMMUTIL_DLL_THREAD_DETACH) (sListeners (wp_events p)) (wp_system p) = Done (wp_system p)).
  { induction (sListeners (wp_events p)) as [|x ls IH]; [done|]. exact IH. }
  exists (MkWinProcess (wp_events p) (wp_heap p) (wp_next p) w'). split.
  { unfold thread_detach, DllMain. cbn [Z.eqb DLL_THREAD_DETACH DLL_PROCESS_ATTACH DLL_THREAD_ATTACH].
    cbn [Pos.eqb]. unfold notify. rewrite Hc, Hl, outcome_bind_done, Hrun. reflexivity. }
  split; [done|]. split; [|split; [done|split; [done|]]].
  - cbn [wp_system]. clear -Hnull. induction ds as [|d ds IH]; [done|]. unfold due. cbn. rewrite Hnull by set_solver.
    apply IH. set_solver.
  - split; try done. eapply Forall_impl; [|exact Hal]. intros d Hx. apply Hal', Hx.
Qed.

(** the loop of the purge, over the callbacks of keys *)
Lemma purge_keys key addrs ds : forall heap, Forall2 (fun a d => heap !! a = Some d) addrs ds -> NoDup addrs ->
  exists addrs' heap', purge_loop (key_purge key) (map (fun a => (TLS_CLEANUP, Some a)) addrs) heap =
      Done (map (fun a => (TLS_CLEANUP, Some a)) addrs', heap') /\
    Forall2 (fun a d => heap' !! a = Some d) addrs' (List.filter (fun d => negb (m_key d =? key)) ds) /\
    addrs' ⊆+ addrs /\ (forall a, a ∉ addrs -> heap' !! a = heap !! a) /\
    (forall a, a ∈ addrs -> a ∉ addrs' -> heap' !! a = None).
Proof.
  revert ds. induction addrs as [|a addrs IH]; intros ds heap Hds Hnd.
  { apply Forall2_nil_inv_l in Hds as ->. exists [], heap. split; [done|]. split; [constructor|]. split; [done|]. split; [done|]. intros a Hx. by apply not_elem_of_nil in Hx. }
  apply Forall2_cons_inv_l in Hds as (d & ds' & Ha & Hds & ->). apply list.NoDup_cons in Hnd as [Hna Hnd].
  cbn [map purge_loop List.filter]. unfold key_purge at 1. rewrite Ha. destruct (Z.eqb_spec (m_key d) key) as [Hk|Hk]; rewrite outcome_bind_done; cbn [negb].
  - destruct (IH ds' (delete a heap)) as (addrs' & heap' & -> & Hds' & Hsub & Hout & Hgone); [|done|].
    { apply Forall2_same_length_lookup_2; [by eapply Forall2_length|]. intros i b e Hb He.
      rewrite lookup_delete_ne; [exact (Forall2_lookup_lr _ _ _ _ _ _ Hds Hb He)|]. intros ->. by apply Hna, list_elem_of_lookup_2 with i. }
    exists addrs', heap'. split; [done|]. split; [done|]. split; [by apply submseteq_cons|]. split.
    + intros b [Hb1 Hb2]%not_elem_of_cons. rewrite Hout by done. by rewrite lookup_delete_ne.
    + intros b [->|Hb]%elem_of_cons Hb'; [|by apply Hgone]. rewrite Hout by done. apply lookup_delete_eq.
  - destruct (IH ds' heap) as (addrs' & heap' & -> & Hds' & Hsub & Hout & Hgone); [done|done|].
    exists (a :: addrs'), heap'. split; [done|]. split; [constructor; [by rewrite Hout|done]|]. split; [by apply submseteq_skip|]. split.
    + intros b [Hb1 Hb2]%not_elem_of_cons. by apply Hout.
    + intros b [->|Hb]%elem_of_cons [Hb1 Hb2]%not_elem_of_cons; [done|by apply Hgone].
Qed.

(** the cleanup data of the other keys *)
Definition other_keys (key : Z) (ds : list TlsCleanupData) : list TlsCleanupData :=
  List.filter (fun d => negb (m_key d =? key)) ds.

Lemma other_keys_id key ds : key ∉ map m_key ds -> other_keys key ds = ds.
Proof.
  intros Hk. induction ds as [|d ds IH]; [done|]. apply not_elem_of_cons in Hk as [Hk1 Hk2]. unfold other_keys. cbn.
  rewrite (proj2 (Z.eqb_neq _ _)) by congruence. cbn. f_equal. by apply IH.
Qed.

Lemma destroy_keeps_keys key addrs ds p : tls_keys addrs ds p -> allocated key (wp_system p) ->
  exists addrs' p', win_destroyTls key p = Done (true, p') /\ tls_keys addrs' (other_keys key ds) p' /\
    (forall k, allocated k (wp_system p') <-> k <> key /\ allocated k (wp_system p)) /\
    (forall k, k <> key -> win_getTls k p' = win_getTls k p) /\ ran (wp_system p') = ran (wp_system p) /\
    addrs' ⊆+ addrs /\ wp_next p' = wp_next p.
Proof.
  intros [Hc Hd Hh Ha Hn Hk Hal] Hkey. destruct (purge_keys key addrs ds _ Hd Ha) as (addrs' & heap' & Hp & Hds & Hsub & Hout & Hgone).
  destruct (TlsFree_ok key _ Hkey) as (w' & Hfree & Hal' & Hget & Hran).
  eexists addrs', _. unfold win_destroyTls, purgeDllCallback. rewrite Hc, Hp, !outcome_bind_done, Hfree. split; [reflexivity|].
  assert (Hin : forall d, d ∈ other_keys key ds -> m_key d <> key /\ d ∈ ds).
  { intros d Hx. apply list_elem_of_In, List.filter_In in Hx as [Hx Hne]. apply list_elem_of_In in Hx. split; [|done].
    intros Heq. by rewrite Heq, Z.eqb_refl in Hne. }
  split; [split; cbn; try done|done].
  - intros b Hb. destruct (decide (b ∈ addrs')) as [|Hb']; [done|]. destruct (decide (b ∈ addrs)) as [Hba|Hba].
    + rewrite Hgone in Hb by done. by destruct Hb.
    + rewrite Hout in Hb by done. by apply Hh in Hb.
  - apply submseteq_Permutation in Hsub as [rest Hp']. rewrite Hp' in Ha. by apply list.NoDup_app in Ha as [? _].
  - apply List.Forall_forall. intros b Hb%list_elem_of_In. rewrite List.Forall_forall in Hn. apply Hn, list_elem_of_In.
    by eapply elem_of_submseteq.
  - clear -Hk. induction ds as [|d ds IH]; [constructor|]. cbn [map] in Hk. apply list.NoDup_cons in Hk as [Hk1 Hk2].
    unfold other_keys. cbn. destruct (negb (m_key d =? key)); [|by apply IH]. cbn [map]. constructor; [|by apply IH].
    intros Hx. apply Hk1. apply list_elem_of_In, List.in_map_iff in Hx as (d' & <- & Hx%List.filter_In).
    apply list_elem_of_In, List.in_map, Hx.
  - apply List.Forall_forall. intros d Hx%list_elem_of_In%Hin. rewrite List.Forall_forall in Hal. apply Hal'.
    split; [apply Hx|]. apply Hal, list_elem_of_In, Hx.
Qed.

Lemma create_keeps_keys dtor addrs ds p : tls_keys addrs ds p ->
  match TlsAlloc (wp_system p) with
  | (None, w) => win_createTls true (Some dtor) p = Done (false, None, MkWinProcess (wp_events p) (wp_heap p) (wp_next p) w)
  | (Some key, w) => exists p', win_createTls true (Some dtor) p = Done (true, Some key, p') /\
      tls_keys (addrs ++ [wp_next p]) (ds ++ [MkTlsCleanupData dtor key]) p' /\ key ∉ map m_key ds /\
      wp_system p' = w /\ wp_next p' = wp_next p + 1
  end.
Proof.
  intros [Hc Hd Hh Ha Hn Hk Hal]. destruct (TlsAlloc (wp_system p)) as [[key|] w] eqn:Hw; [|by unfold win_createTls; rewrite Hw].
  destruct (TlsAlloc_some _ _ _ Hw) as (Hnew & Hnull & Hal' & Hget & Hran).
  assert (Hfresh : wp_next p ∉ addrs).
  { intros Hx%list_elem_of_In. rewrite List.Forall_forall in Hn. apply Hn in Hx. lia. }
  assert (Hkey : key ∉ map m_key ds).
  { intros (d & <- & Hx)%list_elem_of_In%List.in_map_iff. rewrite List.Forall_forall in Hal. by apply Hnew, Hal. }
  unfold win_createTls. rewrite Hw. eexists. split; [reflexivity|]. split; [|done]. split; cbn.
  - by rewrite Hc, map_app.
  - apply Forall2_app; [|by repeat constructor; rewrite lookup_insert_eq].
    apply Forall2_same_length_lookup_2; [by eapply Forall2_length|]. intros i b e Hb He.
    rewrite lookup_insert_ne; [exact (Forall2_lookup_lr _ _ _ _ _ _ Hd Hb He)|]. intros Heq. apply Hfresh. rewrite Heq. by apply list_elem_of_lookup_2 with i.
  - intros b Hb. rewrite elem_of_app, list_elem_of_singleton. destruct (decide (b = wp_next p)) as [|Hne]; [by right|]. left.
    rewrite lookup_insert_ne in Hb by done. by apply Hh.
  - apply list.NoDup_app. split; [done|]. split; [|apply NoDup_singleton]. intros b Hb ->%list_elem_of_singleton. done.
  - apply Forall_app. split; [|repeat constructor; cbn; lia]. eapply Forall_impl; [|exact Hn]. cbn. lia.
  - rewrite map_app. apply list.NoDup_app. split; [done|]. split; [|apply NoDup_singleton].
    intros b Hb ->%list_elem_of_singleton. done.
  - apply Forall_app. split; [|repeat constructor; cbn; apply Hal'; by left]. eapply Forall_impl; [|exact Hal].
    intros d Hx. apply Hal'. by right.
Qed.
(** C26. The life of a key with a destructor on Windows: it starts without a value; a value that
    was set is read back; the end of the thread runs the destructors of the other keys and then
    this one, once, and leaves no value; destroying the key frees its cleanup data and takes its
    callback back, so that the callbacks and the data are again those of the other keys. *)
Theorem windows_key_lifecycle dtor v addrs ds p key w : tls_keys addrs ds p -> TlsAlloc (wp_system p) = (Some key, w) ->
  exists p1 p2 p3 p4 addrs', win_createTls true (Some dtor) p = Done (true, Some key, p1) /\ win_getTls key p1 = None /\
    win_setTls key (Some v) p1 = (true, p2) /\ win_getTls key p2 = Some v /\
    thread_detach p2 = Done p3 /\ ran (wp_system p3) = ran (wp_system p) ++ due ds (wp_system p) ++ [(dtor, v)] /\
    win_getTls key p3 = None /\ win_destroyTls key p3 = Done (true, p4) /\ tls_keys addrs' ds p4 /\
    ~ allocated key (wp_system p4).
Proof.
  intros Hp Hw. destruct (TlsAlloc_some _ _ _ Hw) as (Hnew & Hnull & Hal & Hget & Hran).
  pose proof (create_keeps_keys dtor addrs ds p Hp) as Hcreate. rewrite Hw in Hcreate.
  destruct Hcreate as (p1 & Hc & Hk1 & Hkey & Hw1 & Hn1).
  destruct (TlsSetValue_ok key (Some v) (wp_system p1)) as (w2 & Hset & Hv & Ho & Ha2 & Hr2); [rewrite Hw1; apply Hal; by left|].
  set (p2 := MkWinProcess (wp_events p1) (wp_heap p1) (wp_next p1) w2).
  assert (Hk2 : tls_keys (addrs ++ [wp_next p]) (ds ++ [MkTlsCleanupData dtor key]) p2).
  { destruct Hk1 as [? ? ? ? ? ? Hk1]. split; try done. eapply Forall_impl; [|exact Hk1]. intros d Hd. apply Ha2, Hd. }
  destruct (thread_detach_ok _ _ _ Hk2) as (p3 & Hd & Hr3 & _ & Hnone & _ & Hk3).
  assert (Ha3 : allocated key (wp_system p3)).
  { pose proof (tk_allocated _ _ _ Hk3) as Hall. apply Forall_app in Hall as [_ Hall]. by apply Forall_cons_1 in Hall as [Hall _]. }
  destruct (destroy_keeps_keys key _ _ _ Hk3 Ha3) as (addrs' & p4 & Hdest & Hk4 & Ha4 & _).
  exists p1, p2, p3, p4, addrs'. split; [done|]. split; [unfold win_getTls; by rewrite Hw1|].
  split; [unfold win_setTls; by rewrite Hset|]. split; [done|]. split; [done|]. split.
  { rewrite Hr3. cbn [wp_system p2]. rewrite Hr2, Hw1, Hran. f_equal.
    assert (Hds : due ds w2 = due ds (wp_system p)).
    { apply due_ext. intros d Hx. assert (Hne : m_key d <> key).
      { intros <-. apply Hkey, list_elem_of_In, List.in_map. by apply list_elem_of_In. }
      rewrite Ho, Hw1 by done. apply Hget. pose proof (tk_allocated _ _ _ Hp) as Hall. rewrite List.Forall_forall in Hall.
      by apply Hall, list_elem_of_In. }
    rewrite <- Hds. unfold due. rewrite omap_app. f_equal. cbn. by rewrite Hv. }
  split; [apply (Hnone (MkTlsCleanupData dtor key)), elem_of_app; right; by apply list_elem_of_singleton|].
  split; [done|]. split.
  - unfold other_keys in Hk4. rewrite List.filter_app in Hk4. fold (other_keys key ds) in Hk4. rewrite other_keys_id in Hk4 by done.
    cbn in Hk4. by rewrite Z.eqb_refl, app_nil_r in Hk4.
  - rewrite Ha4. by intros [? _].
Qed.
End Cleanup.

(** ** Examples *)

(** slots of one thread, and the calls of destructors *)
Record sample_slots := MkSampleSlots { ss_slots : gmap Z (option Z); ss_ran : list (Z * Z) }.

Definition sample_get (k : Z) (w : sample_slots) : option Z := mjoin (ss_slots w !! k).

#[local] Instance sample_win : WinTls sample_slots := {
  TlsAlloc := fun w => let key := fresh (dom (ss_slots w) : gset Z) in
    (Some key, MkSampleSlots (<[key := None]> (ss_slots w)) (ss_ran w));
  TlsFree := fun key w => (bool_decide (is_Some (ss_slots w !! key)), MkSampleSlots (delete key (ss_slots w)) (ss_ran w));
  TlsGetValue := sample_get;
  TlsSetValue := fun key v w => (bool_decide (is_Some (ss_slots w !! key)), MkSampleSlots (<[key := v]> (ss_slots w)) (ss_ran w));
  run_dtor := fun d v w => MkSampleSlots (ss_slots w) (ss_ran w ++ [(d, v)]);
}.

#[local] Instance sample_win_laws : WinTlsLaws sample_slots.
Proof.
  refine {| allocated := fun k w => is_Some (ss_slots w !! k); ran := ss_ran |}.
  - intros w w' [=].
  - intros w key w' [= <- <-]. cbn. set (key := fresh _).
    assert (Hf : ss_slots w !! key = None) by (apply not_elem_of_dom, is_fresh).
    split; [rewrite Hf; by intros [? ?]|]. unfold sample_get. cbn. split; [by rewrite lookup_insert_eq|]. split; [|split; [|done]].
    + intros k. rewrite lookup_insert_is_Some'. naive_solver.
    + intros k Hk. rewrite lookup_insert_ne; [done|]. intros <-. rewrite Hf in Hk. by destruct Hk.
  - intros key w Hk. eexists. cbn. rewrite bool_decide_eq_true_2 by done. split; [reflexivity|]. unfold sample_get. cbn.
    split; [|split; [|done]].
    + intros k. rewrite lookup_delete_is_Some. naive_solver.
    + intros k Hne. by rewrite lookup_delete_ne.
  - intros key v w Hk. eexists. cbn. rewrite bool_decide_eq_true_2 by done. split; [reflexivity|]. unfold sample_get. cbn.
    rewrite lookup_insert_eq. split; [done|]. split; [intros k Hne; by rewrite lookup_insert_ne|]. split; [|done].
    intros k. rewrite lookup_insert_is_Some'. split; [by intros [<-|]|by right].
  - intros d v w. done.
Defined.

(** a process with two keys, 0 and 1; the thread has a value under the second *)
Definition sample_process : WinProcess sample_slots :=
  MkWinProcess (MkDllEvents [7] [(TLS_CLEANUP, Some 100); (TLS_CLEANUP, Some 101)])
    {[100 := MkTlsCleanupData 50 0; 101 := MkTlsCleanupData 51 1]} 102 (MkSampleSlots {[0 := None; 1 := Some 9]} []).

Definition sample_data : list TlsCleanupData := [MkTlsCleanupData 50 0; MkTlsCleanupData 51 1].

Lemma sample_process_keys : tls_keys [100; 101] sample_data sample_process.
Proof.
  split.
  - reflexivity.
  - repeat constructor.
  - intros a Ha. apply elem_of_dom in Ha. set_solver.
  - apply (bool_decide_unpack _). vm_compute. exact I.
  - repeat constructor.
  - apply (bool_decide_unpack _). vm_compute. exact I.
  - repeat constructor; by eexists.
Qed.

Lemma windows_key_lifecycle_witness : exists key p1 p2 p3,
  win_createTls true (Some 52) sample_process = Done (true, Some key, p1) /\ win_setTls key (Some 8) p1 = (true, p2) /\
  thread_detach p2 = Done p3 /\ ss_ran (wp_system p3) = [(51, 9); (52, 8)].
Proof.
  destruct (windows_key_lifecycle 52 8 _ _ _ _ _ sample_process_keys eq_refl)
    as (p1 & p2 & p3 & p4 & addrs' & Hc & _ & Hs & _ & Hd & Hr & _).
  eexists _, p1, p2, p3. split; [exact Hc|]. split; [exact Hs|]. split; [exact Hd|]. exact Hr.
Defined.
