(* ===== verification/Setup.v ===== *)
(** * Setup of the library (src/commutil.cpp, src/commutil_log_imp.cpp, src/io/io_loggers.cpp,
    src/msg/msg_loggers.cpp, src/transport/transport.cpp)

    Initialization registers the loggers of all classes and creates the key of the threads'
    log data; termination takes them back. *)

From Stdlib Require Import ZArith Lia String.
From stdpp Require Import gmap.
From coqutil Require Import Byte.
From S2P Require Import Prelude Errors Log Tls.
Open Scope Z_scope.

(** ** Definitions *)

(** the argument of initCommUtil: null, the constant for the default handler, or a handler
    by what its onRegisterLogger returns *)
Inductive log_handler :=
| LH_null
| LH_default
| LH_user (onRegisterLogger : LogSeverity -> list Byte.byte -> Z -> LogSeverity).

(** what a handler was told: an id was registered or unregistered, a thread started *)
Inductive handler_event :=
| HE_register (id : Z)
| HE_unregister (id : Z)
| HE_threadStart (threadName : list Byte.byte).

(** the static variables of the library; the log data of the calling thread, the Logger
    objects by their addresses, and what the handler was told *)
Record Library (W : Type) := MkLibrary {
  sIsInitialized : bool;
  sLogHandler : log_handler;
  sLogSeverity : LogSeverity;
  sLogDataKey : Z;
  sLogData : option Z;
  loggers : Z -> Logger;
  sLoggers : list (option Z);
  told : list handler_event;
  lib_system : W;
}.

Arguments MkLibrary {W}.
Arguments sIsInitialized {W}.
Arguments sLogHandler {W}.
Arguments sLogSeverity {W}.
Arguments sLogDataKey {W}.
Arguments sLogData {W}.
Arguments loggers {W}.
Arguments sLoggers {W}.
Arguments told {W}.
Arguments lib_system {W}.

(** static objects are zero *)
Definition Library_new {W} (w : W) : Library W :=
  MkLibrary false LH_null LS_INFO COMMUTIL_INVALID_TLS_KEY None (fun _ => MkLogger [] 0 LS_FATAL) [] [] w.

(** the loggers, in the order of their registration; addresses are positions in it *)
Definition io_names : list string := ["SegmentedInputStream"]%string.
Definition transport_names : list string := ["transport"; "ConnectionDetails"; "DataClient"; "DataLoopListener";
  "DataServer"; "DataStreamClient"; "DataStreamServer"; "PipeClient"; "PipeServer"; "TcpClient"; "TcpServer";
  "UdpClient"; "UdpServer"]%string.
Definition msg_names : list string := ["Msg"; "MsgAssembler"; "MsgBacklog"; "MsgClient"; "MsgFrameReader";
  "MsgFrameWriter"; "MsgMultiplexer"; "MsgRequest"; "MsgSender"; "MsgServer"]%string.

Definition TLS_LOGGER : Z := 0.
Definition io_loggers : list (Z * string) := zip (seqZ 1 1) io_names.
Definition transport_loggers : list (Z * string) := zip (seqZ 2 13) transport_names.
Definition msg_loggers : list (Z * string) := zip (seqZ 15 10) msg_names.

Section Setup.
Context {W : Type} `{Pthread W}.
Implicit Types l : Library W.

Definition handler_function (h : log_handler) : option (LogSeverity -> list Byte.byte -> Z -> LogSeverity) :=
  match h with
  | LH_null => None
  | LH_default => Some (fun severity _ _ => severity)
  | LH_user f => Some f
  end.

Definition has_handler l : bool := match sLogHandler l with LH_null => false | _ => true end.

(** [registerLogger] on a logger of the library *)
Definition register (logger : Z * string) l : Library W :=
  let '(addr, name) := logger in
  let '(o, registry) := registerLogger (handler_function (sLogHandler l)) (sLogSeverity l) addr (loggers l addr)
    (list_byte_of_string name) (sLoggers l) in
  let told' := if has_handler l && negb (m_loggerId o =? COMMUTIL_INVALID_LOGGER_ID) then [HE_register (m_loggerId o)] else [] in
  MkLibrary (sIsInitialized l) (sLogHandler l) (sLogSeverity l) (sLogDataKey l) (sLogData l)
    (fun a => if a =? addr then o else loggers l a) registry (told l ++ told') (lib_system l).

(** [unregisterLogger]; the logger keeps its id *)
Definition unregister (addr : Z) l : outcome (Library W) :=
  let o := loggers l addr in
  let told' := if has_handler l && negb (m_loggerId o =? COMMUTIL_INVALID_LOGGER_ID) then [HE_unregister (m_loggerId o)] else [] in
  let* registry := unregisterLogger o (sLoggers l) in
  Done (MkLibrary (sIsInitialized l) (sLogHandler l) (sLogSeverity l) (sLogDataKey l) (sLogData l) (loggers l) registry
    (told l ++ told') (lib_system l)).

Definition register_all (ls : list (Z * string)) l : Library W := fold_left (fun l logger => register logger l) ls l.

Definition notifyThreadStart (threadName : list Byte.byte) l : Library W :=
  MkLibrary (sIsInitialized l) (sLogHandler l) (sLogSeverity l) (sLogDataKey l) (sLogData l) (loggers l) (sLoggers l)
    (if has_handler l then told l ++ [HE_threadStart threadName] else told l) (lib_system l).

Fixpoint unregister_all (addrs : list Z) l : outcome (Library W) :=
  match addrs with
  | [] => Done l
  | a :: addrs => let* l := unregister a l in unregister_all addrs l
  end.

Definition initLog (handler : log_handler) (severity : LogSeverity) l : Library W :=
  MkLibrary (sIsInitialized l) handler severity (sLogDataKey l) (sLogData l) (loggers l) (sLoggers l) (told l) (lib_system l).

Definition initTls l : Library W := register (TLS_LOGGER, "tls"%string) l.
Definition termTls l : outcome (Library W) := unregister TLS_LOGGER l.

Definition set_key (key : Z) (w : W) l : Library W :=
  MkLibrary (sIsInitialized l) (sLogHandler l) (sLogSeverity l) key (sLogData l) (loggers l) (sLoggers l) (told l) w.

Definition set_system (w : W) l : Library W := set_key (sLogDataKey l) w l.

Definition set_thread (data : option Z) l : Library W :=
  MkLibrary (sIsInitialized l) (sLogHandler l) (sLogSeverity l) (sLogDataKey l) data (loggers l) (sLoggers l) (told l) (lib_system l).

(** The log data of the calling thread, as [getLogData] of the file Log finds or creates it, now
    with its key: a setTls that fails logs the failure, which needs the log data again.
    [alloc]: whether new log data can be allocated; [new_data]: its address. Fuel bounds the
    depth of the recursion. *)
Section Thread.
Context (alloc : bool) (new_data : Z).

(** LOG_SYS_ERROR and the like: two messages of the logger of the keys *)
Definition log_error (getLogData : Library W -> outcome (Z * Library W)) l : outcome (Library W) :=
  if canLog (sLogSeverity l) (loggers l TLS_LOGGER) LS_ERROR then
    let* '(_, l) := getLogData l in
    let* '(_, l) := getLogData l in
    Done l
  else Done l.

Fixpoint threadLogData (fuel : nat) l : outcome (Z * Library W) :=
  match fuel with
  | O => NoFuel
  | S fuel =>
    match sLogData l with
    | Some data => Done (data, l)
    | None =>
      match getTls (sLogDataKey l) (lib_system l) with
      | Some data => Done (data, set_thread (Some data) l)
      | None =>
        if negb alloc then Undef UB_assert else
        let '(ok, w) := setTls (sLogDataKey l) (Some new_data) (lib_system l) in
        if ok then Done (new_data, set_thread (Some new_data) (set_system w l))
        else let* _ := log_error (threadLogData fuel) (set_system w l) in Undef UB_assert
      end
    end
  end.

Context (fuel : nat).

Definition createLogDataKey l : outcome (ErrorCode * Library W) :=
  if negb (sLogDataKey l =? COMMUTIL_INVALID_TLS_KEY) then Done (E_INVALID_STATE, l) else
  let '(ok, key, w) := createTls true (lib_system l) in
  let l := set_key key w l in
  if negb ok then let* l := log_error (threadLogData fuel) l in Done (E_SYSTEM_FAILURE, l)
  else Done (E_OK, l).

Definition destroyLogDataKey l : outcome (ErrorCode * Library W) :=
  if sLogDataKey l =? COMMUTIL_INVALID_TLS_KEY then Done (E_OK, l) else
  let '(ok, w) := destroyTls (sLogDataKey l) (lib_system l) in
  if negb ok then let* l := log_error (threadLogData fuel) (set_system w l) in Done (E_SYSTEM_FAILURE, l)
  else Done (E_OK, set_key COMMUTIL_INVALID_TLS_KEY w l).

Definition finishInitLog l : outcome (ErrorCode * Library W) := createLogDataKey l.
Definition beginTermLog l : outcome (ErrorCode * Library W) := destroyLogDataKey l.
Definition termLog l : outcome (ErrorCode * Library W) := destroyLogDataKey l.
End Thread.

Definition registerIoLoggers l : Library W := register_all io_loggers l.
Definition registerTransportLoggers l : Library W := register_all transport_loggers l.
Definition registerMsgLoggers l : Library W := register_all msg_loggers l.
Definition unregisterIoLoggers l : outcome (Library W) := unregister_all (map fst io_loggers) l.
(** in the reverse order *)
Definition unregisterTransportLoggers l : outcome (Library W) := unregister_all (reverse (map fst transport_loggers)) l.
(** in the same order *)
Definition unregisterMsgLoggers l : outcome (Library W) := unregister_all (map fst msg_loggers) l.

Definition set_initialized (b : bool) l : Library W :=
  MkLibrary b (sLogHandler l) (sLogSeverity l) (sLogDataKey l) (sLogData l) (loggers l) (sLoggers l) (told l) (lib_system l).

Section Library_calls.
Context (alloc : bool) (new_data : Z) (fuel : nat).

Definition initCommUtil (handler : log_handler) (severity : LogSeverity) l : outcome (ErrorCode * Library W) :=
  if sIsInitialized l then Done (E_INVALID_STATE, l) else
  let l := initTls (initLog handler severity l) in
  let* '(rc, l) := finishInitLog alloc new_data fuel l in
  if decide (rc <> E_OK) then Done (rc, l) else
  Done (E_OK, set_initialized true (registerMsgLoggers (registerTransportLoggers (registerIoLoggers l)))).

Definition termCommUtil l : outcome (ErrorCode * Library W) :=
  if negb (sIsInitialized l) then Done (E_INVALID_STATE, l) else
  let* l := unregisterMsgLoggers l in
  let* l := unregisterTransportLoggers l in
  let* l := unregisterIoLoggers l in
  let* '(rc, l) := beginTermLog alloc new_data fuel l in
  if decide (rc <> E_OK) then Done (rc, l) else
  let* l := termTls l in
  let* '(rc, l) := termLog alloc new_data fuel l in
  if decide (rc <> E_OK) then Done (rc, l) else Done (E_OK, set_initialized false l).
End Library_calls.

Definition isCommUtilInitialized l : bool := sIsInitialized l.

Definition setLogSeverity (severity : LogSeverity) l : Library W :=
  MkLibrary (sIsInitialized l) (sLogHandler l) severity (sLogDataKey l) (sLogData l) (loggers l) (sLoggers l) (told l) (lib_system l).

Definition setLoggerSeverity (loggerId : Z) (severity : LogSeverity) l : Library W :=
  if loggerId <? zlen (sLoggers l) then
    match zget (sLoggers l) loggerId with
    | Some (Some addr) =>
      let o := loggers l addr in
      MkLibrary (sIsInitialized l) (sLogHandler l) (sLogSeverity l) (sLogDataKey l) (sLogData l)
        (fun a => if a =? addr then MkLogger (m_loggerName o) (m_loggerId o) severity else loggers l a)
        (sLoggers l) (told l) (lib_system l)
    | _ => l
    end
  else l.
End Setup.

(** ** The registry *)

(** without the null entries at its end *)
Fixpoint trim (r : list (option Z)) : list (option Z) :=
  match r with
  | [] => []
  | x :: r => match x, trim r with None, [] => [] | _, t => x :: t end
  end.

Lemma trim_snoc_Some r a : trim (r ++ [Some a]) = r ++ [Some a].
Proof. induction r as [|x r IH]; [done|]. cbn. rewrite IH. destruct x; [done|]. by destruct r. Qed.

Lemma trim_snoc_None r : trim (r ++ [None]) = trim r.
Proof. induction r as [|x r IH]; [done|]. cbn. by rewrite IH. Qed.

(** the loop of unregisterLogger trims *)
Lemma trim_loggers_spec r rest : r <> [] -> trim_loggers (Nat.pred (length r)) (r ++ rest) = Done (trim r).
Proof.
  revert rest. induction r as [|x r IH] using rev_ind; [done|]. intros rest _. rewrite length_app, Nat.add_1_r. cbn [Nat.pred].
  assert (Hx : (( r ++ [x]) ++ rest) !! length r = Some x).
  { rewrite <- app_assoc. rewrite lookup_app_r by done. by rewrite Nat.sub_diag. }
  destruct x as [a|].
  - destruct (length r) eqn:Hn; cbn [trim_loggers]; rewrite Hx; rewrite trim_snoc_Some; f_equal;
      rewrite <- Hn; rewrite take_app_le by (rewrite length_app; cbn; lia); apply take_ge; rewrite length_app; cbn; lia.
  - rewrite trim_snoc_None. destruct (length r) eqn:Hn; cbn [trim_loggers]; rewrite Hx.
    + apply nil_length_inv in Hn as ->. done.
    + rewrite <- app_assoc. apply (IH ([None] ++ rest)). by destruct r.
Qed.

Lemma zset_out {A} (l : list A) i a : zlen l <= i -> zset l i a = l.
Proof.
  intros Hi. apply zget_ext. intros j Hj. destruct (Z.eq_dec i j) as [<-|Hne]; [|by apply zget_zset_ne].
  rewrite !zget_None; [done|lia|by rewrite zlen_zset].
Qed.

Lemma zset_cons {A} (x : A) l i a : 0 < i -> zset (x :: l) i a = x :: zset l (i - 1) a.
Proof.
  intros Hi. apply zget_ext. intros j Hj. destruct (Z.eq_dec i j) as [<-|Hne].
  - rewrite zget_cons by done. destruct (Z_lt_ge_dec (i - 1) (zlen l)) as [Hl|Hl].
    + rewrite !zget_zset_eq; [done|lia|rewrite zlen_cons; lia].
    + rewrite !zset_out by (rewrite ?zlen_cons; lia). by rewrite zget_cons by done.
  - rewrite zget_zset_ne by done. destruct (Z.eq_dec j 0) as [->|Hj0]; [by rewrite !zget_cons_0|].
    rewrite !zget_cons by lia. by rewrite zget_zset_ne by lia.
Qed.

Lemma zset_cons_0 {A} (x : A) l a : zset (x :: l) 0 a = a :: l.
Proof. done. Qed.

Lemma trim_idem r : trim (trim r) = trim r.
Proof.
  induction r as [|[b|] r IH]; [done|cbn; by rewrite IH|]. cbn. destruct (trim r) eqn:Ht; [done|].
  cbn [trim] in *. by rewrite IH.
Qed.

Lemma trim_zset r i : 0 <= i -> trim (zset (trim r) i None) = trim (zset r i None).
Proof.
  revert i. induction r as [|x r IH]; intros i Hi; [done|]. destruct (Z.eq_dec i 0) as [->|Hi0].
  - rewrite zset_cons_0. cbn [trim]. destruct x as [a|].
    + rewrite zset_cons_0. cbn [trim]. by rewrite trim_idem.
    + destruct (trim r) as [|y t] eqn:Ht; [done|]. rewrite zset_cons_0. cbn [trim].
      pose proof (trim_idem r) as Hid. rewrite Ht in Hid. cbn [trim] in Hid. by rewrite Hid.
  - rewrite (zset_cons x r) by lia. cbn [trim]. specialize (IH (i - 1) ltac:(lia)). destruct x as [a|].
    + rewrite zset_cons by lia. cbn [trim]. by rewrite IH.
    + destruct (trim r) as [|y t] eqn:Ht.
      * rewrite <- IH. by rewrite !zset_out by (rewrite zlen_nil; lia).
      * rewrite zset_cons by lia. cbn [trim]. by rewrite IH.
Qed.

Section Registry.
Context {W : Type}.
Implicit Types l : Library W.

(** everything but the loggers, the registry and what the handler was told *)
Definition same_setup l l' : Prop := sIsInitialized l' = sIsInitialized l /\ sLogHandler l' = sLogHandler l /\
  sLogSeverity l' = sLogSeverity l /\ sLogDataKey l' = sLogDataKey l /\ sLogData l' = sLogData l /\ lib_system l' = lib_system l.

Lemma same_setup_trans l1 l2 l3 : same_setup l1 l2 -> same_setup l2 l3 -> same_setup l1 l3.
Proof. unfold same_setup. intuition congruence. Qed.

(** what the handler hears about ids *)
Definition hears (f : Z -> handler_event) (ids : list Z) l : list handler_event :=
  if has_handler l then map f ids else [].

Lemma hears_same f ids l l' : same_setup l l' -> hears f ids l' = hears f ids l.
Proof. intros (_ & Hh & _). unfold hears, has_handler. by rewrite Hh. Qed.

Lemma register_spec a name l : zlen (sLoggers l) <= MAX_LOGGERS ->
  same_setup l (register (a, name) l) /\ sLoggers (register (a, name) l) = sLoggers l ++ [Some a] /\
  m_loggerId (loggers (register (a, name) l) a) = zlen (sLoggers l) /\
  (forall b, b <> a -> loggers (register (a, name) l) b = loggers l b) /\
  told (register (a, name) l) = told l ++ hears HE_register [zlen (sLoggers l)] l.
Proof.
  intros Hn. unfold register, registerLogger. rewrite (proj2 (Z.ltb_ge _ _)) by done. cbn.
  split; [done|]. split; [done|]. rewrite Z.eqb_refl. split; [done|]. split.
  - intros b Hb. by rewrite (proj2 (Z.eqb_neq _ _)).
  - unfold hears. rewrite (proj2 (Z.eqb_neq _ _)); [by destruct (has_handler l)|].
    unfold COMMUTIL_INVALID_LOGGER_ID, MAX_LOGGERS in *. change (u64 (-1)) with 18446744073709551615. lia.
Qed.

Lemma register_all_spec ls : forall l, zlen (sLoggers l) + zlen ls <= MAX_LOGGERS -> NoDup (map fst ls) ->
  same_setup l (register_all ls l) /\ sLoggers (register_all ls l) = sLoggers l ++ map (fun x => Some (fst x)) ls /\
  (forall k x, zget ls k = Some x -> m_loggerId (loggers (register_all ls l) (fst x)) = zlen (sLoggers l) + k) /\
  (forall b, b ∉ map fst ls -> loggers (register_all ls l) b = loggers l b) /\
  told (register_all ls l) = told l ++ hears HE_register (seqZ (zlen (sLoggers l)) (zlen ls)) l.
Proof.
  induction ls as [|[a name] ls IH]; intros l Hn Hnd.
  { cbn. unfold hears. rewrite !app_nil_r. split; [done|]. split; [done|]. split; [intros k x; by rewrite zget_nil|].
    split; [done|]. destruct (has_handler l); by rewrite app_nil_r. }
  rewrite zlen_cons in Hn. cbn [map fst] in Hnd. apply list.NoDup_cons in Hnd as [Ha Hnd].
  pose proof (zlen_nonneg ls) as Hls.
  destruct (register_spec a name l ltac:(lia)) as (Hs1 & Hr1 & Hi1 & Ho1 & Ht1).
  assert (Hz : zlen (sLoggers (register (a, name) l)) = zlen (sLoggers l) + 1).
  { rewrite Hr1, zlen_app, zlen_cons, zlen_nil. lia. }
  destruct (IH (register (a, name) l) ltac:(lia) Hnd) as (Hs & Hr & Hi & Ho & Ht). cbn [register_all fold_left].
  change (fold_left _ ls ?x) with (register_all ls x).
  split; [by eapply same_setup_trans|]. split; [by rewrite Hr, Hr1, <- app_assoc|]. split; [|split].
  - intros k x Hk. pose proof (zget_Some_range _ _ _ Hk) as Hk0. destruct (Z.eq_dec k 0) as [->|Hk1].
    + rewrite zget_cons_0 in Hk. injection Hk as <-. cbn [fst]. rewrite Ho by done. rewrite Hi1. lia.
    + rewrite zget_cons in Hk by lia. rewrite (Hi _ _ Hk), Hz. lia.
  - intros b [Hb1 Hb2]%not_elem_of_cons. rewrite Ho by done. by apply Ho1.
  - rewrite Ht, Ht1, (hears_same _ _ _ _ Hs1), <- app_assoc, Hz. f_equal. unfold hears. destruct (has_handler l); [|done].
    rewrite zlen_cons, (seqZ_cons _ (1 + zlen ls)) by lia. cbn. rewrite <- Z.add_1_r. by replace (Z.pred (1 + zlen ls)) with (zlen ls) by lia.
Qed.

(** the registry without some ids *)
Definition clear (ids : list Z) (r : list (option Z)) : list (option Z) := fold_left (fun r i => zset r i None) ids r.

(** ids that [unregisterLogger] looks at *)
Definition known_ids (addrs : list Z) l : list Z := map (fun a => m_loggerId (loggers l a)) addrs.

Lemma unregister_spec a l r : sLoggers l = trim r -> 0 <= m_loggerId (loggers l a) < COMMUTIL_INVALID_LOGGER_ID ->
  exists l', unregister a l = Done l' /\ same_setup l l' /\ loggers l' = loggers l /\
    sLoggers l' = trim (zset r (m_loggerId (loggers l a)) None) /\
    told l' = told l ++ hears HE_unregister [m_loggerId (loggers l a)] l.
Proof.
  intros Hr Hid. unfold unregister, unregisterLogger. rewrite (proj2 (Z.eqb_neq _ _)) by lia.
  set (id := m_loggerId (loggers l a)) in *. cbn [negb]. rewrite andb_true_r.
  assert (Ht : forall P : Prop, P -> P /\ told l ++ (if has_handler l then [HE_unregister id] else []) = told l ++ hears HE_unregister [id] l).
  { intros P HP. split; [done|]. unfold hears. by destruct (has_handler l). }
  destruct (Z.ltb_spec id (zlen (sLoggers l))) as [Hlt|Hge].
  - assert (Hne : zset (sLoggers l) id None <> []).
    { intros Hx. apply (f_equal zlen) in Hx. rewrite zlen_zset in Hx. change (zlen []) with 0 in Hx. lia. }
    pose proof (trim_loggers_spec _ [] Hne) as Htrim. rewrite app_nil_r in Htrim. rewrite Htrim. cbn [outcome_bind].
    eexists. split; [reflexivity|]. cbn. split; [done|]. split; [done|]. apply Ht. rewrite Hr. apply trim_zset. lia.
  - cbn [outcome_bind]. eexists. split; [reflexivity|]. cbn. split; [done|]. split; [done|]. apply Ht.
    rewrite <- trim_zset, <- Hr by lia. rewrite zset_out by done. by rewrite Hr, trim_idem.
Qed.

Lemma unregister_all_spec addrs : forall l r, sLoggers l = trim r ->
  Forall (fun id => 0 <= id < COMMUTIL_INVALID_LOGGER_ID) (known_ids addrs l) ->
  exists l', unregister_all addrs l = Done l' /\ same_setup l l' /\ loggers l' = loggers l /\
    sLoggers l' = trim (clear (known_ids addrs l) r) /\ told l' = told l ++ hears HE_unregister (known_ids addrs l) l.
Proof.
  induction addrs as [|a addrs IH]; intros l r Hr Hids.
  { exists l. cbn. unfold hears. split; [done|]. split; [done|]. split; [done|]. split; [done|].
    destruct (has_handler l); by rewrite app_nil_r. }
  apply Forall_cons_1 in Hids as [Hid Hids]. cbn [unregister_all].
  destruct (unregister_spec a l r Hr Hid) as (l1 & -> & Hs1 & Ho1 & Hr1 & Ht1). cbn [outcome_bind].
  assert (Hk : known_ids addrs l1 = known_ids addrs l) by (unfold known_ids; by rewrite Ho1).
  destruct (IH l1 _ Hr1) as (l' & -> & Hs & Ho & Hr' & Ht); [by rewrite Hk|].
  exists l'. split; [done|]. split; [by eapply same_setup_trans|]. split; [congruence|].
  rewrite Hk in Hr', Ht. split; [done|]. rewrite Ht, Ht1, (hears_same _ _ _ _ Hs1), <- app_assoc. f_equal.
  unfold hears. cbn. by destruct (has_handler l).
Qed.
End Registry.

Definition all_loggers : list (Z * string) := (TLS_LOGGER, "tls"%string) :: io_loggers ++ transport_loggers ++ msg_loggers.

(** the order in which termination unregisters *)
Definition class_order : list Z := map fst msg_loggers ++ reverse (map fst transport_loggers) ++ map fst io_loggers.
Definition term_order : list Z := class_order ++ [TLS_LOGGER].

Lemma zset_app_r {A} (l1 l2 : list A) i a : 0 <= i -> zset (l1 ++ l2) (zlen l1 + i) a = l1 ++ zset l2 i a.
Proof.
  intros Hi. apply zget_ext. intros j Hj. destruct (Z_lt_ge_dec j (zlen l1)).
  - rewrite zget_zset_ne by lia. by rewrite !zget_app_l by done.
  - destruct (Z.eq_dec (zlen l1 + i) j) as [<-|Hne].
    + rewrite zget_app_r by lia. replace (zlen l1 + i - zlen l1) with i by lia.
      destruct (Z_lt_ge_dec i (zlen l2)).
      * rewrite !zget_zset_eq; [done|lia|rewrite zlen_app; pose proof (zlen_nonneg l1); lia].
      * rewrite !zset_out by (rewrite ?zlen_app; lia). rewrite zget_app_r by lia. f_equal. lia.
    + rewrite zget_zset_ne by done. rewrite !zget_app_r by lia. by rewrite zget_zset_ne by lia.
Qed.

Lemma clear_app ids base block : Forall (fun i => 0 <= i) ids ->
  clear (map (fun i => zlen base + i) ids) (base ++ block) = base ++ clear ids block.
Proof.
  revert block. induction ids as [|i ids IH]; intros block Hp; [done|]. apply Forall_cons_1 in Hp as [Hi Hp].
  cbn [map clear fold_left]. rewrite zset_app_r by done. by apply IH.
Qed.

Lemma trim_nones base n : trim (base ++ replicate n None) = trim base.
Proof.
  induction n as [|n IH]; [by rewrite app_nil_r|]. rewrite <- IH, replicate_S_end, app_assoc. apply trim_snoc_None.
Qed.

Lemma register_all_app xs ys {W} (l : Library W) : register_all (xs ++ ys) l = register_all ys (register_all xs l).
Proof. apply fold_left_app. Qed.

Lemma unregister_all_app xs ys {W} (l : Library W) :
  unregister_all (xs ++ ys) l = let* l := unregister_all xs l in unregister_all ys l.
Proof. revert l. induction xs as [|x xs IH]; intros l; [done|]. cbn. destruct (unregister x l); cbn; [apply IH|done|done]. Qed.

Section Lifecycle.
Context {W : Type} `{Pthread W} (alloc : bool) (new_data : Z) (fuel : nat).
Implicit Types l : Library W.

(** a library that is up, on top of the entries [base] of the registry *)
Record library_up (base : list (option Z)) (key : Z) l : Prop := {
  up_initialized : sIsInitialized l = true;
  up_key : sLogDataKey l = key;
  up_registry : sLoggers l = base ++ map (fun x => Some (fst x)) all_loggers;
  up_ids : forall a, 0 <= a < 25 -> m_loggerId (loggers l a) = zlen base + a;
}.

(** what follows the logger of the keys *)
Definition class_loggers : list (Z * string) := io_loggers ++ transport_loggers ++ msg_loggers.

Lemma class_loggers_length : zlen class_loggers = 24.
Proof. vm_compute. reflexivity. Qed.

Lemma class_loggers_addresses : map fst class_loggers = seqZ 1 24.
Proof. vm_compute. reflexivity. Qed.

Lemma class_logger_at k : 0 <= k < 24 -> exists x, zget class_loggers k = Some x /\ fst x = k + 1.
Proof.
  intros Hk. assert (Ha : zget (map fst class_loggers) k = Some (1 + k)).
  { rewrite class_loggers_addresses. unfold zget. rewrite (proj2 (Z.ltb_ge _ _)) by lia.
    rewrite lookup_seqZ_lt by lia. f_equal. lia. }
  revert Ha. unfold zget. rewrite (proj2 (Z.ltb_ge _ _)) by lia. rewrite list_lookup_fmap.
  destruct (class_loggers !! Z.to_nat k) as [x|]; [|done]. cbn. intros [= Ha]. exists x. split; [done|lia].
Qed.

Lemma init_ok h sev l key w : sIsInitialized l = false -> sLogDataKey l = COMMUTIL_INVALID_TLS_KEY ->
  zlen (sLoggers l) + 25 <= MAX_LOGGERS -> pthread_key_create true (lib_system l) = (0, key, w) ->
  exists l1, initCommUtil alloc new_data fuel h sev l = Done (E_OK, l1) /\ library_up (sLoggers l) key l1 /\ lib_system l1 = w /\
    told l1 = told l ++ hears HE_register (seqZ (zlen (sLoggers l)) 25) l1.
Proof.
  intros Hi Hk Hn Hc. unfold initCommUtil. rewrite Hi. set (l0 := initLog h sev l).
  destruct (register_spec TLS_LOGGER "tls" l0 ltac:(cbn; lia)) as ((Hi0 & Hh0 & Hs0 & Hk0 & Hx0 & Hw0) & Hr0 & Hid0 & Ho0 & Ht0).
  fold (initTls l0) in *. unfold finishInitLog, createLogDataKey. rewrite Hk0. cbn [sLogDataKey l0 initLog].
  rewrite Hk, Z.eqb_refl. cbn [negb]. unfold createTls. rewrite Hw0. cbn [lib_system l0 initLog]. rewrite Hc.
  cbn [Z.eqb negb outcome_bind]. rewrite decide_False by (intros Hx; by apply Hx). set (l1 := set_key key w (initTls l0)).
  unfold registerMsgLoggers, registerTransportLoggers, registerIoLoggers. rewrite <- !register_all_app.
  fold class_loggers.
  assert (Hz1 : zlen (sLoggers l1) = zlen (sLoggers l) + 1).
  { unfold l1. cbn [sLoggers set_key]. rewrite Hr0, zlen_app, zlen_cons, zlen_nil. cbn. lia. }
  destruct (register_all_spec class_loggers l1) as ((Hi2 & Hh2 & Hs2 & Hk2 & Hx2 & Hw2) & Hr2 & Hid2 & Ho2 & Ht2).
  { rewrite Hz1, class_loggers_length. lia. }
  { rewrite class_loggers_addresses. apply NoDup_seqZ. }
  eexists. split; [reflexivity|]. generalize dependent (register_all class_loggers l1). intros l2 Hi2 Hh2 Hs2 Hk2 Hx2 Hw2 Hr2 Hid2 Ho2 Ht2.
  split; [split|split].
  - reflexivity.
  - cbn [sLogDataKey set_initialized]. by rewrite Hk2.
  - cbn [sLoggers set_initialized]. rewrite Hr2. unfold l1. cbn [sLoggers set_key]. rewrite Hr0, <- app_assoc. reflexivity.
  - intros a Ha. cbn [loggers set_initialized]. destruct (Z.eq_dec a 0) as [->|Ha0].
    + rewrite Ho2; [rewrite Z.add_0_r; exact Hid0|]. rewrite class_loggers_addresses, elem_of_seqZ. lia.
    + destruct (class_logger_at (a - 1) ltac:(lia)) as (x & Hx & Hxa). replace a with (fst x) by lia.
      rewrite (Hid2 _ _ Hx), Hz1. lia.
  - cbn [lib_system set_initialized]. by rewrite Hw2.
  - cbn [told set_initialized]. rewrite Ht2. unfold l1. cbn [told set_key sLoggers]. rewrite Ht0. cbn [told l0 initLog sLoggers].
    rewrite <- app_assoc. f_equal. rewrite Hr0, zlen_app. change (zlen [Some TLS_LOGGER]) with 1.
    rewrite class_loggers_length. cbn [sLoggers l0 initLog]. unfold hears, has_handler. cbn [sLogHandler set_initialized].
    fold l1. rewrite Hh2. unfold l1. cbn [sLogHandler set_key]. rewrite Hh0. cbn [sLogHandler initLog l0].
    rewrite (seqZ_cons _ 25) by lia. rewrite <- Z.add_1_r. by destruct h.
Qed.

Lemma full_registry base : trim (base ++ map (fun x => Some (fst x)) all_loggers) = base ++ map (fun x => Some (fst x)) all_loggers.
Proof.
  assert (Hl : exists r, map (fun x => Some (fst x)) all_loggers = r ++ [Some 24]) by (eexists (map Some (seqZ 0 24)); vm_compute; reflexivity).
  destruct Hl as [r ->]. rewrite app_assoc. apply trim_snoc_Some.
Qed.

Lemma term_order_range a : a ∈ term_order -> 0 <= a < 25.
Proof.
  intros Ha. assert (Hall : forallb (fun a => (0 <=? a) && (a <? 25)) term_order = true) by (vm_compute; reflexivity).
  rewrite List.forallb_forall in Hall. rewrite list_elem_of_In in Ha. apply Hall in Ha. lia.
Qed.

Lemma clear_all : clear term_order (map (fun x => Some (fst x)) all_loggers) = replicate 25 None.
Proof. vm_compute. reflexivity. Qed.

(** the ids of the loggers in the order of termination *)
Lemma known_ids_up base key l : library_up base key l -> known_ids term_order l = map (fun a => zlen base + a) term_order.
Proof.
  intros Hu. unfold known_ids. apply map_ext_in. intros a Ha. apply (up_ids _ _ _ Hu). apply term_order_range.
  by apply list_elem_of_In.
Qed.

Lemma clear_registry base : trim (clear (map (fun a => zlen base + a) term_order)
  (base ++ map (fun x => Some (fst x)) all_loggers)) = trim base.
Proof.
  rewrite clear_app; [by rewrite clear_all, trim_nones|]. apply List.Forall_forall. intros a Ha%list_elem_of_In.
  apply term_order_range in Ha. lia.
Qed.

Lemma clear_snoc ids i r : clear (ids ++ [i]) r = zset (clear ids r) i None.
Proof. apply fold_left_app. Qed.

Lemma term_ok base key l w : library_up base key l -> zlen base + 25 <= MAX_LOGGERS -> key <> COMMUTIL_INVALID_TLS_KEY ->
  pthread_key_delete key (lib_system l) = (0, w) ->
  exists l2, termCommUtil alloc new_data fuel l = Done (E_OK, l2) /\ sIsInitialized l2 = false /\ sLogDataKey l2 = COMMUTIL_INVALID_TLS_KEY /\
    sLoggers l2 = trim base /\ lib_system l2 = w /\
    told l2 = told l ++ hears HE_unregister (map (fun a => zlen base + a) term_order) l.
Proof.
  intros Hu Hn Hne Hd. pose proof (zlen_nonneg base) as Hb.
  assert (Hids : Forall (fun i => 0 <= i < COMMUTIL_INVALID_LOGGER_ID) (known_ids term_order l)).
  { rewrite (known_ids_up _ _ _ Hu). apply List.Forall_forall. intros i (a & <- & Ha)%List.in_map_iff.
    apply list_elem_of_In, term_order_range in Ha. unfold MAX_LOGGERS, COMMUTIL_INVALID_LOGGER_ID in *.
    change (u64 (-1)) with 18446744073709551615 in *. lia. }
  pose proof (known_ids_up _ _ _ Hu) as Hk. destruct Hu as [Hi Hkey Hreg _]. rewrite <- full_registry in Hreg.
  assert (Hsplit : known_ids term_order l = known_ids class_order l ++ [m_loggerId (loggers l TLS_LOGGER)]) by apply map_app.
  rewrite Hsplit in Hids. apply Forall_app in Hids as [Hids Hid]. apply Forall_cons_1 in Hid as [Hid _].
  destruct (unregister_all_spec class_order l _ Hreg Hids) as (l1 & Hu1 & (Hi1 & Hh1 & Hs1 & Hk1 & Hx1 & Hw1) & Ho1 & Hr1 & Ht1).
  rewrite <- Ho1 in Hid. set (l1' := set_key COMMUTIL_INVALID_TLS_KEY w l1).
  destruct (unregister_spec TLS_LOGGER l1' _ Hr1 Hid) as (l2 & Hu2 & (Hi2 & Hh2 & Hs2 & Hk2 & Hx2 & Hw2) & Ho2 & Hr2 & Ht2).
  exists (set_initialized false l2). split; [|split; [done|]]. 
  - unfold termCommUtil. rewrite Hi. cbn [negb]. unfold class_order in Hu1. rewrite unregister_all_app in Hu1.
    unfold unregisterMsgLoggers, unregisterTransportLoggers, unregisterIoLoggers.
    destruct (outcome_bind_inv _ _ _ Hu1) as (la & -> & Hua). rewrite unregister_all_app in Hua.
    destruct (outcome_bind_inv _ _ _ Hua) as (lb & Hub & Hio). rewrite !outcome_bind_done, Hub, outcome_bind_done, Hio, outcome_bind_done.
    unfold beginTermLog, termLog, termTls, destroyLogDataKey, destroyTls. rewrite Hk1, Hkey, (proj2 (Z.eqb_neq _ _)) by done.
    rewrite Hw1, Hd. cbn [Z.eqb negb]. rewrite outcome_bind_done, decide_False by (intros Hx; by apply Hx). fold l1'. rewrite Hu2, outcome_bind_done.
    rewrite Hk2. cbn [sLogDataKey l1' set_key]. rewrite Z.eqb_refl, outcome_bind_done, decide_False by (intros Hx; by apply Hx). reflexivity.
  - cbn [sLogDataKey sLoggers lib_system told set_initialized]. rewrite Hk2, Hw2, Hr2, Ht2. split; [reflexivity|].
    cbn [loggers told lib_system l1' set_key]. rewrite <- clear_snoc, Ho1, <- Hsplit, Hk. split; [apply clear_registry|].
    split; [reflexivity|]. rewrite Ht1, <- app_assoc, <- Hk, Hsplit. f_equal.
    unfold hears, has_handler. cbn [sLogHandler l1' set_key]. rewrite Hh1. destruct (sLogHandler l); [reflexivity|..]; by rewrite map_app.
Qed.

Lemma registry_at base a : 0 <= a < 25 ->
  zget (base ++ map (fun x => Some (fst x)) all_loggers) (zlen base + a) = Some (Some a).
Proof.
  intros Ha. pose proof (zlen_nonneg base). rewrite zget_app_r by lia. replace (zlen base + a - zlen base) with a by lia.
  assert (Hm : map (fun x => Some (fst x)) all_loggers = Some <$> seqZ 0 25) by (vm_compute; reflexivity).
  rewrite Hm. unfold zget. rewrite (proj2 (Z.ltb_ge _ _)) by lia. rewrite list_lookup_fmap, lookup_seqZ_lt by lia.
  cbn. do 2 f_equal. lia.
Qed.

(** nothing is set up *)
Definition library_down l : Prop := sIsInitialized l = false /\ sLogDataKey l = COMMUTIL_INVALID_TLS_KEY /\
  trim (sLoggers l) = sLoggers l /\ zlen (sLoggers l) + 25 <= MAX_LOGGERS.

(** the ids of the loggers a library gives, in the order of registration and of removal *)
Definition given_ids l : list Z := seqZ (zlen (sLoggers l)) 25.
Definition removed_ids l : list Z := map (fun a => zlen (sLoggers l) + a) term_order.

Lemma removed_ids_given l : removed_ids l ≡ₚ given_ids l.
Proof.
  unfold removed_ids, given_ids. assert (Hp : term_order ≡ₚ seqZ 0 25).
  { apply NoDup_Permutation; [apply (bool_decide_unpack _); vm_compute; exact I|apply NoDup_seqZ|]. intros a. split.
    - intros Ha%term_order_range. rewrite elem_of_seqZ. lia.
    - rewrite elem_of_seqZ. intros Ha.
      assert (Hall : forallb (fun a => bool_decide (a ∈ term_order)) (seqZ 0 25) = true) by (vm_compute; reflexivity).
      rewrite List.forallb_forall in Hall. specialize (Hall a). rewrite <- list_elem_of_In, elem_of_seqZ in Hall.
      by apply (bool_decide_eq_true_1 _), Hall. }
  transitivity (Z.add (zlen (sLoggers l)) <$> seqZ 0 25); [by apply fmap_Permutation|]. by rewrite fmap_add_seqZ, Z.add_0_r.
Qed.

(** C25. Setup and its undoing: initCommUtil on a library that is down registers 25 loggers, each
    logger under its own id, a second call is refused, termCommUtil removes exactly the
    registered ids and leaves the library down with the registry it had, the key deleted, and a
    second termination is refused. A handler hears of each id once at each end. *)
Theorem init_term_roundtrip h severity l key w w' : library_down l -> key <> COMMUTIL_INVALID_TLS_KEY ->
  pthread_key_create true (lib_system l) = (0, key, w) -> pthread_key_delete key w = (0, w') ->
  exists l1 l2, initCommUtil alloc new_data fuel h severity l = Done (E_OK, l1) /\
    (forall h' severity', initCommUtil alloc new_data fuel h' severity' l1 = Done (E_INVALID_STATE, l1)) /\
    (forall a, 0 <= a < 25 -> zget (sLoggers l1) (m_loggerId (loggers l1 a)) = Some (Some a)) /\
    termCommUtil alloc new_data fuel l1 = Done (E_OK, l2) /\ termCommUtil alloc new_data fuel l2 = Done (E_INVALID_STATE, l2) /\
    library_down l2 /\ sLoggers l2 = sLoggers l /\ lib_system l2 = w' /\ removed_ids l ≡ₚ given_ids l /\
    told l2 = told l ++ (if has_handler l1 then map HE_register (given_ids l) ++ map HE_unregister (removed_ids l) else []).
Proof.
  intros (Hi & Hk & Ht & Hn) Hne Hc Hd.
  destruct (init_ok h severity l key w Hi Hk Hn Hc) as (l1 & Hinit & Hu & Hw & Htold). rewrite <- Hw in Hd.
  destruct (term_ok _ _ _ _ Hu Hn Hne Hd) as (l2 & Hterm & Hi2 & Hk2 & Hr2 & Hw2 & Ht2). rewrite Ht in Hr2.
  exists l1, l2. split; [done|]. split; [|split; [|split; [done|]]].
  - intros h' s'. unfold initCommUtil. by rewrite (up_initialized _ _ _ Hu).
  - intros a Ha. rewrite (up_registry _ _ _ Hu), (up_ids _ _ _ Hu a Ha). apply registry_at. done.
  - split; [unfold termCommUtil; by rewrite Hi2|]. split; [unfold library_down; by rewrite Hr2|].
    split; [done|]. split; [done|]. split; [apply removed_ids_given|].
    rewrite Ht2, Htold, <- app_assoc. f_equal. unfold hears. by destruct (has_handler l1).
Qed.

(** without a key the log data of a thread are never found: every attempt to store them fails,
    and its message needs the log data *)
Lemma threadLogData_diverges : (forall w, pthread_getspecific COMMUTIL_INVALID_TLS_KEY w = None) ->
  (forall v w, fst (pthread_setspecific COMMUTIL_INVALID_TLS_KEY v w) <> 0) ->
  forall n l, sLogData l = None -> sLogDataKey l = COMMUTIL_INVALID_TLS_KEY ->
    canLog (sLogSeverity l) (loggers l TLS_LOGGER) LS_ERROR = true -> threadLogData true new_data n l = NoFuel.
Proof.
  intros Hget Hset n. induction n as [|n IH]; intros l Hd Hk Hlog; [done|]. cbn [threadLogData]. unfold getTls, setTls.
  rewrite Hd, Hk, Hget. cbn [negb]. specialize (Hset (Some new_data) (lib_system l)).
  destruct (pthread_setspecific COMMUTIL_INVALID_TLS_KEY (Some new_data) (lib_system l)) as [res w].
  rewrite (proj2 (Z.eqb_neq _ _)) by done. cbn [negb]. unfold log_error. cbn [sLogSeverity loggers set_system set_key].
  rewrite Hlog, IH by done. done.
Qed.

Lemma error_logged severity o : severity <> LS_FATAL -> canLog severity o LS_ERROR = true.
Proof. unfold canLog. by destruct severity. Qed.

(** A defect: without the key of the log data nothing can be logged. A library that is not
    initialized, or whose initialization fails at the key, with any severity but the lowest,
    never returns from the attempt to log the failure: the log data are stored with setTls,
    which fails and logs its failure, and so on until the stack overflows. *)
Theorem logging_without_key_never_returns h severity l key res w : library_down l -> sLogData l = None -> severity <> LS_FATAL ->
  (forall w, pthread_getspecific COMMUTIL_INVALID_TLS_KEY w = None) ->
  (forall v w, fst (pthread_setspecific COMMUTIL_INVALID_TLS_KEY v w) <> 0) ->
  pthread_key_create true (lib_system l) = (res, key, w) -> res <> 0 -> key = COMMUTIL_INVALID_TLS_KEY ->
  (sLogSeverity l <> LS_FATAL -> threadLogData true new_data fuel l = NoFuel) /\
  initCommUtil true new_data fuel h severity l = NoFuel.
Proof.
  intros (Hi & Hk & _ & Hn) Hd Hsev Hget Hset Hc Hres ->. split.
  { intros Hls. apply threadLogData_diverges; try done. by apply error_logged. }
  unfold initCommUtil. rewrite Hi. set (l0 := initLog h severity l).
  destruct (register_spec TLS_LOGGER "tls" l0) as ((Hi0 & Hh0 & Hs0 & Hk0 & Hx0 & Hw0) & _); [cbn [l0 initLog sLoggers]; lia|].
  fold (initTls l0) in *. unfold finishInitLog, createLogDataKey. rewrite Hk0. cbn [sLogDataKey l0 initLog].
  rewrite Hk, Z.eqb_refl. cbn [negb]. unfold createTls. rewrite Hw0. cbn [lib_system l0 initLog]. rewrite Hc.
  rewrite (proj2 (Z.eqb_neq _ _)) by done. cbn [negb]. unfold log_error. cbn [sLogSeverity loggers set_key]. fold l0. rewrite Hs0.
  change (sLogSeverity l0) with severity. rewrite error_logged by done. rewrite threadLogData_diverges; try done.
  - cbn [sLogData set_key]. by rewrite Hx0.
  - cbn [sLogSeverity loggers set_key]. rewrite Hs0. by apply error_logged.
Qed.

(** A defect: an initialization that fails at the key, when failures are not logged, has already registered the logger of
    the keys and takes nothing back. It leaves the library not initialized with that logger
    registered; the next attempt registers it again under a second id, and when the library has
    been terminated properly, the entry of the failed attempt is still in the registry. *)
Theorem failed_init_leaves_logger h severity h' severity' l key res w1 w2 w3 :
  library_down l -> canLog severity (loggers (initTls (initLog h severity l)) TLS_LOGGER) LS_ERROR = false -> sLoggers l = [] -> key <> COMMUTIL_INVALID_TLS_KEY -> res <> 0 ->
  pthread_key_create true (lib_system l) = (res, COMMUTIL_INVALID_TLS_KEY, w1) ->
  pthread_key_create true w1 = (0, key, w2) -> pthread_key_delete key w2 = (0, w3) ->
  exists l1 l2 l3, initCommUtil alloc new_data fuel h severity l = Done (E_SYSTEM_FAILURE, l1) /\ sIsInitialized l1 = false /\
    initCommUtil alloc new_data fuel h' severity' l1 = Done (E_OK, l2) /\ m_loggerId (loggers l2 TLS_LOGGER) = 1 /\
    termCommUtil alloc new_data fuel l2 = Done (E_OK, l3) /\ sIsInitialized l3 = false /\ sLoggers l3 = [Some TLS_LOGGER].
Proof.
  intros (Hi & Hk & _ & Hn) Hlog Hr Hne Hres Hc1 Hc2 Hd. set (l0 := initLog h severity l).
  destruct (register_spec TLS_LOGGER "tls" l0) as ((Hi0 & Hh0 & Hs0 & Hk0 & Hx0 & Hw0) & Hr0 & _); [cbn; rewrite Hr; by compute|].
  fold (initTls l0) in *.
  assert (H1 : exists l1, initCommUtil alloc new_data fuel h severity l = Done (E_SYSTEM_FAILURE, l1) /\ sIsInitialized l1 = false /\
    sLogDataKey l1 = COMMUTIL_INVALID_TLS_KEY /\ sLoggers l1 = [Some TLS_LOGGER] /\ lib_system l1 = w1).
  { unfold initCommUtil. rewrite Hi. unfold finishInitLog, createLogDataKey. fold l0. rewrite Hk0. cbn [sLogDataKey l0 initLog].
    rewrite Hk, Z.eqb_refl. cbn [negb]. unfold createTls. rewrite Hw0. cbn [lib_system l0 initLog]. rewrite Hc1.
    rewrite (proj2 (Z.eqb_neq _ _)) by done. cbn [negb]. unfold log_error. cbn [sLogSeverity loggers set_key]. rewrite Hs0.
    change (sLogSeverity l0) with severity. fold l0 in Hlog. rewrite Hlog. cbn [outcome_bind]. rewrite decide_True by done. eexists. split; [reflexivity|].
    cbn [sIsInitialized sLogDataKey sLoggers lib_system set_key]. fold l0. rewrite Hi0, Hr0. cbn [sIsInitialized sLoggers l0 initLog].
    rewrite Hi, Hr. done. }
  destruct H1 as (l1 & Hinit1 & Hi1 & Hk1 & Hr1 & Hw1). rewrite <- Hw1 in Hc2.
  destruct (init_ok h' severity' l1 key w2 Hi1 Hk1 ltac:(rewrite Hr1; by compute) Hc2) as (l2 & Hinit2 & Hu & Hw2 & _).
  rewrite Hr1 in Hu. rewrite <- Hw2 in Hd.
  destruct (term_ok _ _ _ _ Hu ltac:(by compute) Hne Hd) as (l3 & Hterm & Hi3 & _ & Hr3 & _).
  exists l1, l2, l3. split; [done|]. split; [done|]. split; [done|].
  split; [by rewrite (up_ids _ _ _ Hu)|]. done.
Qed.
End Lifecycle.

(** ** Examples *)

(** keys count up from one; the calls whose numbers are listed fail *)
Record sample_keys := MkSampleKeys { sk_calls : Z; sk_failing : list Z }.

#[local] Instance sample_pthread : Pthread sample_keys := {
  pthread_key_create := fun _ w =>
    if List.existsb (Z.eqb (sk_calls w)) (sk_failing w)
    then (11, COMMUTIL_INVALID_TLS_KEY, MkSampleKeys (sk_calls w + 1) (sk_failing w))
    else (0, sk_calls w + 1, MkSampleKeys (sk_calls w + 1) (sk_failing w));
  pthread_key_delete := fun _ w => (0, w);
  pthread_getspecific := fun _ _ => None;
  pthread_setspecific := fun key _ w => (if key =? COMMUTIL_INVALID_TLS_KEY then 22 else 0, w);
}.

Lemma sample_library_down (w : sample_keys) : library_down (Library_new w).
Proof. repeat split; by compute. Qed.

Lemma init_term_roundtrip_witness : exists l1 l2,
  initCommUtil true 1 1 LH_default LS_INFO (Library_new (MkSampleKeys 0 [])) = Done (E_OK, l1) /\
  termCommUtil true 1 1 l1 = Done (E_OK, l2) /\ sLoggers l2 = [].
Proof.
  destruct (init_term_roundtrip true 1 1%nat LH_default LS_INFO (Library_new (MkSampleKeys 0 [])) 1 (MkSampleKeys 1 []) (MkSampleKeys 1 []))
    as (l1 & l2 & Hi & _ & _ & Ht & _ & _ & Hr & _).
  - apply sample_library_down.
  - intros Hx. vm_compute in Hx. discriminate Hx.
  - reflexivity.
  - reflexivity.
  - exists l1, l2. split; [exact Hi|]. split; [exact Ht|]. exact Hr.
Defined.

Lemma failed_init_leaves_logger_witness : exists l1 l2 l3,
  initCommUtil true 1 1 LH_null LS_FATAL (Library_new (MkSampleKeys 0 [0])) = Done (E_SYSTEM_FAILURE, l1) /\
  initCommUtil true 1 1 LH_null LS_INFO l1 = Done (E_OK, l2) /\ termCommUtil true 1 1 l2 = Done (E_OK, l3) /\
  sLoggers l3 = [Some TLS_LOGGER].
Proof.
  destruct (failed_init_leaves_logger true 1 1%nat LH_null LS_FATAL LH_null LS_INFO (Library_new (MkSampleKeys 0 [0])) 2 11
    (MkSampleKeys 1 [0]) (MkSampleKeys 2 [0]) (MkSampleKeys 2 [0])) as (l1 & l2 & l3 & H1 & _ & H2 & _ & H3 & _ & H4).
  - apply sample_library_down.
  - reflexivity.
  - reflexivity.
  - intros Hx. vm_compute in Hx. discriminate Hx.
  - intros Hx. discriminate Hx.
  - reflexivity.
  - reflexivity.
  - reflexivity.
  - exists l1, l2, l3. split; [exact H1|]. split; [exact H2|]. split; [exact H3|]. exact H4.
Defined.

Lemma logging_without_key_never_returns_witness :
  threadLogData true 1 1000 (Library_new (MkSampleKeys 0 [0])) = NoFuel /\
  initCommUtil true 1 1000 LH_null LS_INFO (Library_new (MkSampleKeys 0 [0])) = NoFuel.
Proof.
  destruct (logging_without_key_never_returns 1 1000%nat LH_null LS_INFO (Library_new (MkSampleKeys 0 [0])) COMMUTIL_INVALID_TLS_KEY
    11 (MkSampleKeys 1 [0])) as [Hlog Hinit].
  - apply sample_library_down.
  - reflexivity.
  - intros Hx. discriminate Hx.
  - reflexivity.
  - intros v w Hx. discriminate Hx.
  - reflexivity.
  - intros Hx. discriminate Hx.
  - reflexivity.
  - split; [|exact Hinit]. apply Hlog. intros Hx. discriminate Hx.
Defined.
