(* ===== verification/RequestPool.v ===== *)
(** * MsgRequest and MsgRequestPool (inc/msg/msg_request.h, src/msg/msg_request.cpp,
    inc/msg/msg_request_pool.h, src/msg/msg_request_pool.cpp)

    The slots of pending requests, the pool that hands them out, and the race of
    several threads for a vacant slot. A message is named by the number of its
    pointer; a heap maps the numbers of the live messages to the messages. *)

From Stdlib Require Import ZArith Lia.
From stdpp Require Import gmap.
From S2P Require Import Prelude Errors Msg.
Open Scope Z_scope.

(** ** Messages by pointer *)

Abbreviation Heap := (gmap Z Msg).

(** the message behind a pointer that is not null *)
Definition msg_at (hp : Heap) (p : Z) : outcome Msg :=
  match hp !! p with Some m => Done m | None => Undef UB_freed end.

(** ** MsgRequest *)

Definition COMMUTIL_INVALID_REQUEST_ID : Z := u64 (-1).
Definition COMMUTIL_MSG_INFINITE_TIMEOUT : Z := u64 (-1).
Definition COMMUTIL_MSG_CONFIG_TIMEOUT : Z := u64 (-2).
Definition COMMUTIL_REQUEST_FLAG_TX : Z := 1.
Definition COMMUTIL_REQUEST_FLAG_REUSE : Z := 2.

Inductive MsgRequestStatus := RS_IDLE | RS_PENDING | RS_ARRIVED | RS_ABORTED.

#[export] Instance MsgRequestStatus_eq_dec : EqDecision MsgRequestStatus.
Proof. solve_decision. Defined.

Record MsgRequestData := MkMsgRequestData { rd_requestId : Z; rd_requestIndex : Z }.

Definition MsgRequestData_new : MsgRequestData :=
  MkMsgRequestData COMMUTIL_INVALID_REQUEST_ID 0.

(** a pointer is [None] when it is null *)
Record MsgRequest := MkMsgRequest {
  rq_requestId : Z;
  rq_status : MsgRequestStatus;
  rq_flags : Z;
  rq_request : option Z;
  rq_response : option Z;
  rq_requestTimeMillis : Z;
  rq_resendTimeMillis : Z;
}.

Definition MsgRequest_new : MsgRequest := MkMsgRequest 0 RS_IDLE 0 None None 0 0.

Definition set_status (s : MsgRequestStatus) (r : MsgRequest) : MsgRequest :=
  MkMsgRequest (rq_requestId r) s (rq_flags r) (rq_request r) (rq_response r)
    (rq_requestTimeMillis r) (rq_resendTimeMillis r).

Definition isVacant (r : MsgRequest) : bool := bool_decide (rq_status r = RS_IDLE).
Definition isPending (r : MsgRequest) : bool := bool_decide (rq_status r = RS_PENDING).

(** one thread's call; the two atomic accesses are apart in [grab_step] *)
Definition tryGrab (requestId : Z) (r : MsgRequest) : bool * MsgRequest :=
  if decide (rq_status r = RS_IDLE) then
    (true, MkMsgRequest requestId RS_PENDING (rq_flags r) (rq_request r) (rq_response r)
             (rq_requestTimeMillis r) (rq_resendTimeMillis r))
  else (false, r).

Definition release (r : MsgRequest) : MsgRequest := set_status RS_IDLE r.

(** [now]: the clock *)
Definition setRequest (now : Z) (request : option Z) (r : MsgRequest) : MsgRequest :=
  MkMsgRequest (rq_requestId r) (rq_status r) (rq_flags r) request (rq_response r) now now.

Definition setFlags (flags : Z) (r : MsgRequest) : MsgRequest :=
  MkMsgRequest (rq_requestId r) (rq_status r) flags (rq_request r) (rq_response r)
    (rq_requestTimeMillis r) (rq_resendTimeMillis r).

Definition clearRequest (r : MsgRequest) : option Z * MsgRequest :=
  (rq_request r,
   MkMsgRequest (rq_requestId r) (rq_status r) (rq_flags r) None (rq_response r)
     0 (rq_resendTimeMillis r)).

Definition updateResendTime (now : Z) (r : MsgRequest) : MsgRequest :=
  MkMsgRequest (rq_requestId r) (rq_status r) (rq_flags r) (rq_request r) (rq_response r)
    (rq_requestTimeMillis r) now.

Definition setResponse (response : option Z) (r : MsgRequest) : MsgRequest :=
  MkMsgRequest (rq_requestId r) RS_ARRIVED (rq_flags r) (rq_request r) response
    (rq_requestTimeMillis r) (rq_resendTimeMillis r).

Definition hasResponse (r : MsgRequest) : bool :=
  bool_decide (rq_status r = RS_ARRIVED) && bool_decide (rq_response r <> None).

Definition abortResponse (r : MsgRequest) : MsgRequest :=
  if decide (rq_status r = RS_PENDING) then
    MkMsgRequest (rq_requestId r) RS_ABORTED (rq_flags r) (rq_request r) None
      (rq_requestTimeMillis r) (rq_resendTimeMillis r)
  else r.

Definition clearResponse (r : MsgRequest) : MsgRequest :=
  MkMsgRequest (rq_requestId r) RS_IDLE (rq_flags r) None None 0 (rq_resendTimeMillis r).

(** what other threads do to the request while one thread waits *)
Inductive req_event := RE_setResponse (response : option Z) | RE_abort | RE_clear | RE_other.

Definition req_event_step (e : req_event) (r : MsgRequest) : MsgRequest :=
  match e with
  | RE_setResponse p => setResponse p r
  | RE_abort => abortResponse r
  | RE_clear => clearResponse r
  | RE_other => r
  end.

(** the predicate of the wait *)
Definition wait_over (r : MsgRequest) : bool :=
  bool_decide (rq_status r = RS_ARRIVED) || bool_decide (rq_status r = RS_ABORTED).

(** [m_cv.wait]: the events [es] happen while the thread waits; [None] when they
    are over and the predicate never held *)
Fixpoint cv_wait (es : list req_event) (r : MsgRequest) : bool * MsgRequest :=
  if wait_over r then (true, r) else
  match es with
  | [] => (false, r)
  | e :: es => cv_wait es (req_event_step e r)
  end.

(** the result, the response that [*response] receives if it is set, and the
    request; a finite timeout is over when the events are *)
Definition waitResponse (timeoutMillis : Z) (es : list req_event) (r : MsgRequest)
  : outcome (ErrorCode * option (option Z) * MsgRequest) :=
  if decide (rq_status r = RS_IDLE) then Done (E_INVALID_STATE, None, r) else
  let '(over, r) := cv_wait es r in
  if negb over && (timeoutMillis =? COMMUTIL_MSG_INFINITE_TIMEOUT) then Undef UB_hang else
  match rq_status r with
  | RS_IDLE => Done (E_INVALID_STATE, None, r)
  | RS_PENDING => Done (E_TIMED_OUT, None, r)
  | RS_ABORTED => Done (E_IO_CANCELED, None, r)
  | RS_ARRIVED => Done (E_OK, Some (rq_response r), r)
  end.

(** ** MsgRequestPool *)

(** a MsgRequestListener, over the state [U] of its object *)
Class MsgRequestListener (U : Type) := {
  onResponseArrived : option Z -> Z -> U -> U;
}.

(** [p_listener] is false for a null listener *)
Record MsgRequestPool := MkMsgRequestPool {
  p_requests : list MsgRequest;
  p_nextRequestId : Z;
  p_listener : bool;
}.

(** the constructor leaves the next request id uninitialised: it is [garbage] *)
Definition MsgRequestPool_new (garbage : Z) : MsgRequestPool := MkMsgRequestPool [] garbage false.

Definition set_requests (rs : list MsgRequest) (p : MsgRequestPool) : MsgRequestPool :=
  MkMsgRequestPool rs (p_nextRequestId p) (p_listener p).

(** std::vector::resize *)
Definition pool_initialize (poolSize : Z) (p : MsgRequestPool) : MsgRequestPool :=
  set_requests (ztake poolSize (p_requests p) ++
    replicate (Z.to_nat (poolSize - zlen (p_requests p))) MsgRequest_new) p.

Definition pool_terminate (p : MsgRequestPool) : MsgRequestPool := set_requests [] p.

Definition setListener (listener : bool) (p : MsgRequestPool) : MsgRequestPool :=
  MkMsgRequestPool (p_requests p) (p_nextRequestId p) listener.

Definition fetchAddRequestId (p : MsgRequestPool) : Z * MsgRequestPool :=
  (p_nextRequestId p, MkMsgRequestPool (p_requests p) (u64 (p_nextRequestId p + 1)) (p_listener p)).

(** the entry at an index that was checked, and its update *)
Definition pool_at (index : Z) (p : MsgRequestPool) : outcome MsgRequest :=
  mem_get (p_requests p) index.

Definition pool_update (index : Z) (f : MsgRequest -> MsgRequest) (p : MsgRequestPool)
  : outcome MsgRequestPool :=
  let* r := pool_at index p in
  Done (set_requests (zset (p_requests p) index (f r)) p).

(** the [n] rounds that are left of the search, from round [i] on *)
Fixpoint getVacantRequest_loop (n : nat) (i requestCount initialRequestId requestId : Z)
    (rs : list MsgRequest) : outcome (option Z * list MsgRequest) :=
  match n with
  | O => Done (None, rs)
  | S n =>
    let index := (initialRequestId + i) mod requestCount in
    let* r := mem_get rs index in
    let '(grabbed, r) := tryGrab requestId r in
    if grabbed then Done (Some index, zset rs index r)
    else getVacantRequest_loop n (i + 1) requestCount initialRequestId requestId rs
  end.

(** the index of the request that was taken, [None] for a null result *)
Definition getVacantRequest (requestId : Z) (p : MsgRequestPool)
  : outcome (option Z * MsgRequestPool) :=
  let requestCount := u32 (zlen (p_requests p)) in
  if requestCount =? 0 then Undef UB_divzero else
  let initialRequestId := u32 requestId mod requestCount in
  let* '(res, rs) := getVacantRequest_loop (length (p_requests p)) 0 requestCount
    initialRequestId requestId (p_requests p) in
  Done (res, set_requests rs p).

(** the index of the request entry of a message *)
Definition getRequestData (h : MsgHeader) (p : MsgRequestPool) : outcome (option Z) :=
  if zlen (p_requests p) <=? m_requestIndex h then Done None else
  let* r := pool_at (m_requestIndex h) p in
  if m_requestId h =? rq_requestId r then Done (Some (m_requestIndex h)) else Done None.

Definition abortPendingRequests (p : MsgRequestPool) : MsgRequestPool :=
  set_requests (map abortResponse (p_requests p)) p.

(** the entry that the header of a response names, shared by three operations *)
Definition pool_entry (requestIndex requestId : Z) (p : MsgRequestPool)
  : outcome (ErrorCode * option MsgRequest) :=
  if zlen (p_requests p) <=? requestIndex then Done (E_INVALID_ARGUMENT, None) else
  let* r := pool_at requestIndex p in
  if rq_requestId r =? requestId then Done (E_OK, Some r) else Done (E_DATA_CORRUPT, None).

(** [*response] before the call is [response] *)
Definition waitPendingResponse (requestData : MsgRequestData) (timeoutMillis : Z)
    (es : list req_event) (response : option Z) (p : MsgRequestPool)
  : outcome (ErrorCode * option Z * MsgRequestPool) :=
  let* '(rc, entry) := pool_entry (rd_requestIndex requestData) (rd_requestId requestData) p in
  match entry with
  | None => Done (rc, response, p)
  | Some r =>
    let* '(rc, out, r) := waitResponse timeoutMillis es r in
    let response := default response out in
    let* waited := pool_update (rd_requestIndex requestData) (fun _ => r) p in
    if decide (rc <> E_OK) then Done (rc, response, waited) else
    if decide (response = None) then Done (E_INTERNAL_ERROR, response, waited) else
    let* cleared := pool_update (rd_requestIndex requestData) clearResponse waited in
    Done (E_OK, response, cleared)
  end.

Definition clearPendingRequest (h : MsgHeader) (p : MsgRequestPool)
  : outcome (ErrorCode * MsgRequestPool) :=
  let* '(rc, entry) := pool_entry (m_requestIndex h) (m_requestId h) p in
  match entry with
  | None => Done (rc, p)
  | Some _ => let* p := pool_update (m_requestIndex h) clearResponse p in Done (E_OK, p)
  end.

(** [msg] is the pointer of the response with header [h]; the flags are returned
    when they are written *)
Definition pool_setResponse {U} `{MsgRequestListener U} (msg : Z) (h : MsgHeader)
    (up : U * MsgRequestPool) : outcome (ErrorCode * option Z * (U * MsgRequestPool)) :=
  let '(u, p) := up in
  let* '(rc, entry) := pool_entry (m_requestIndex h) (m_requestId h) p in
  match entry with
  | None => Done (rc, None, (u, p))
  | Some r =>
    let* p := pool_update (m_requestIndex h) (setResponse (Some msg)) p in
    let u := if p_listener p then onResponseArrived (rq_request r) msg u else u in
    Done (E_OK, Some (rq_flags r), (u, p))
  end.

(** the request message of a response *)
Definition pool_getRequest (h : MsgHeader) (p : MsgRequestPool)
  : outcome (ErrorCode * option (option Z)) :=
  let* '(rc, entry) := pool_entry (m_requestIndex h) (m_requestId h) p in
  match entry with
  | None => Done (rc, None)
  | Some r => Done (E_OK, Some (rq_request r))
  end.

Definition getReadyRequestCount (p : MsgRequestPool) : Z :=
  u32 (zlen (filter (fun r => hasResponse r = true) (p_requests p))).

(** ** The pool's contract *)

Definition pool_ok (p : MsgRequestPool) : Prop := 0 < zlen (p_requests p) < 2 ^ 32.

Definition vacant_at (p : MsgRequestPool) (i : Z) : Prop :=
  exists r, zget (p_requests p) i = Some r /\ rq_status r = RS_IDLE.

(** the entry [i] is in use for the request with this id and message *)
Definition pending_at (p : MsgRequestPool) (i requestId : Z) : Prop :=
  exists r, zget (p_requests p) i = Some r /\ rq_status r = RS_PENDING /\ rq_requestId r = requestId.

(** the pools agree except on the entry [i] *)
Definition same_but (i : Z) (p p' : MsgRequestPool) : Prop :=
  zlen (p_requests p') = zlen (p_requests p) /\
  forall j, j <> i -> zget (p_requests p') j = zget (p_requests p) j.

Lemma same_but_set p i r : same_but i p (set_requests (zset (p_requests p) i r) p).
Proof. split; [apply zlen_zset|]. intros j Hj. cbn. by apply zget_zset_ne. Qed.

#[export] Instance same_but_equivalence i : Equivalence (same_but i).
Proof.
  split; [by split|intros p q [? Hs]; split; [done|]; intros; by rewrite Hs|].
  intros p1 p2 p3 [Hl1 H1] [Hl2 H2]. split; [congruence|]. intros j Hj. by rewrite H2, H1.
Qed.

Lemma pool_at_ok p i r : zget (p_requests p) i = Some r -> pool_at i p = Done r.
Proof. apply mem_get_ok. Qed.

Lemma pool_update_ok p i f r : zget (p_requests p) i = Some r ->
  pool_update i f p = Done (set_requests (zset (p_requests p) i (f r)) p).
Proof. intros Hr. unfold pool_update. by rewrite (pool_at_ok _ _ _ Hr). Qed.

Lemma pool_entry_ok p i id r : zget (p_requests p) i = Some r -> rq_requestId r = id ->
  pool_entry i id p = Done (E_OK, Some r).
Proof.
  intros Hr Hid. unfold pool_entry. pose proof (zget_Some_range _ _ _ Hr).
  destruct (Z.leb_spec (zlen (p_requests p)) i); [lia|].
  rewrite (pool_at_ok _ _ _ Hr). cbn [outcome_bind]. by rewrite Hid, Z.eqb_refl.
Qed.

Lemma getVacantRequest_loop_spec count init id rs : zlen rs = count -> 0 < count ->
  forall n i,
  (exists k r, (k < n)%nat /\ let idx := (init + (i + Z.of_nat k)) mod count in
     zget rs idx = Some r /\ rq_status r = RS_IDLE /\
     getVacantRequest_loop n i count init id rs =
       Done (Some idx, zset rs idx (snd (tryGrab id r)))) \/
  ((forall k, (k < n)%nat -> exists r, zget rs ((init + (i + Z.of_nat k)) mod count) = Some r /\
      rq_status r <> RS_IDLE) /\
   getVacantRequest_loop n i count init id rs = Done (None, rs)).
Proof.
  intros Hlen Hpos. induction n as [|n IH]; intros i; cbn [getVacantRequest_loop].
  { right. split; [|done]. intros k Hk. lia. }
  destruct (zget_is_Some rs ((init + i) mod count)) as [r Hr];
    [rewrite Hlen; apply Z.mod_pos_bound; lia|].
  rewrite (mem_get_ok _ _ _ Hr). cbn [outcome_bind].
  unfold tryGrab at 1 3. destruct (decide (rq_status r = RS_IDLE)) as [Hidle|Hbusy].
  { left. exists O, r. split; [lia|]. cbn zeta. rewrite Z.add_0_r. split; [done|]. split; [done|].
    unfold tryGrab. by rewrite decide_True. }
  destruct (IH (i + 1)) as [(k & r' & Hk & Hr' & Hidle & Hrun)|[Hall Hrun]].
  - left. exists (S k), r'. cbn zeta in *.
    replace (i + 1 + Z.of_nat k) with (i + Z.of_nat (S k)) in * by lia.
    split; [lia|]. split; [done|]. split; [done|exact Hrun].
  - right. split; [|exact Hrun]. intros [|k] Hk.
    + exists r. by rewrite Z.add_0_r.
    + destruct (Hall k ltac:(lia)) as (r' & Hr' & Hb). exists r'.
      by replace (i + Z.of_nat (S k)) with (i + 1 + Z.of_nat k) by lia.
Qed.

(** every index is reached in a full cycle *)
Lemma full_cycle count init j : 0 < count -> 0 <= j < count ->
  exists k, (k < Z.to_nat count)%nat /\ (init + (0 + Z.of_nat k)) mod count = j.
Proof.
  intros Hc Hj. exists (Z.to_nat ((j - init) mod count)).
  pose proof (Z.mod_pos_bound (j - init) count Hc). split; [lia|].
  rewrite Z2Nat.id by lia. rewrite Z.add_0_l, Z.add_mod_idemp_r by lia.
  replace (init + (j - init)) with j by lia. apply Z.mod_small. lia.
Qed.

Lemma getVacantRequest_ok p id : pool_ok p ->
  (exists i p', getVacantRequest id p = Done (Some i, p') /\
     vacant_at p i /\ pending_at p' i id /\ same_but i p p') \/
  (getVacantRequest id p = Done (None, p) /\ forall i, ~ vacant_at p i).
Proof.
  intros Hok. unfold pool_ok in Hok. unfold getVacantRequest.
  set (count := zlen (p_requests p)) in *.
  rewrite (u32_small count) by lia. destruct (Z.eqb_spec count 0); [lia|].
  destruct (getVacantRequest_loop_spec count (u32 id mod count) id (p_requests p) eq_refl
    ltac:(lia) (length (p_requests p)) 0) as [(k & r & Hk & Hr & Hidle & Hrun)|[Hall Hrun]];
    rewrite Hrun; cbn [outcome_bind].
  - left. eexists _, _. split; [reflexivity|]. cbn zeta in *. split; [by exists r|].
    split; [|by apply same_but_set].
    exists (snd (tryGrab id r)). cbn.
    rewrite zget_zset_eq by (by eapply zget_Some_range). split; [done|].
    unfold tryGrab. by rewrite decide_True.
  - right. split; [by destruct p|]. intros j (r & Hr & Hidle).
    pose proof (zget_Some_range _ _ _ Hr) as Hj. fold count in Hj.
    destruct (full_cycle count (u32 id mod count) j ltac:(lia) Hj) as (k & Hk & Hjk).
    destruct (Hall k) as (r' & Hr' & Hb); [unfold count, zlen in Hk; lia|].
    rewrite Hjk in Hr'. congruence.
Qed.

Definition vacant_count (p : MsgRequestPool) : nat :=
  length (List.filter isVacant (p_requests p)).

(** an entry that is taken is one vacant entry less *)
Lemma vacant_count_taken i p p' : same_but i p p' -> vacant_at p i -> ~ vacant_at p' i ->
  vacant_count p = S (vacant_count p').
Proof.
  intros [Hlen Hsame] (r & Hr & Hst) Hno. pose proof (zget_Some_range _ _ _ Hr) as Hi.
  destruct (zget_is_Some (p_requests p') i) as [r' Hr']; [lia|].
  assert (Heq : p_requests p' = zset (p_requests p) i r').
  { apply zget_ext. intros j _. destruct (decide (i = j)) as [<-|Hne].
    - by rewrite zget_zset_eq.
    - rewrite zget_zset_ne by done. by apply Hsame. }
  assert (Hb : isVacant r' = false)
    by (apply bool_decide_eq_false_2; intros Hb; apply Hno; by exists r').
  unfold vacant_count. rewrite Heq. unfold zget in Hr. unfold zset. destruct (i <? 0); [done|].
  assert (Hv : isVacant r = true) by (by apply bool_decide_eq_true_2).
  revert Hr. generalize (Z.to_nat i) (p_requests p). intros k. induction k as [|k IH]; intros [|x l]; cbn; try done.
  - intros [= ->]. by rewrite Hv, Hb.
  - intros Hl. specialize (IH l Hl). by destruct (isVacant x); cbn; rewrite IH.
Qed.

(** the search leaves the other members of the pool *)
Lemma getVacantRequest_frame id p res p' : getVacantRequest id p = Done (res, p') ->
  p_nextRequestId p' = p_nextRequestId p /\ p_listener p' = p_listener p.
Proof.
  unfold getVacantRequest. destruct (_ =? 0); [done|]. intros Hrun. inv_bind.
  destruct a as [r rs]. by injection Hrun as _ <-.
Qed.

(** The search for a vacant request finds one if and only if there is one;
    it takes it for the request id and changes no other entry. *)
Theorem getVacantRequest_spec p id : pool_ok p ->
  (exists i p', getVacantRequest id p = Done (Some i, p') /\
     vacant_at p i /\ pending_at p' i id /\ same_but i p p') \/
  (getVacantRequest id p = Done (None, p) /\ forall i, ~ vacant_at p i).
Proof. apply getVacantRequest_ok. Qed.

(** A response that arrives for a pending request is handed to the thread
    that waits for it, with any timeout, and the entry is vacant afterwards. *)
Theorem response_delivered {U} `{MsgRequestListener U} (u : U) p i id h msg timeout response :
  pending_at p i id -> m_requestIndex h = i -> m_requestId h = id ->
  exists u' p' p'' flags,
    pool_setResponse msg h (u, p) = Done (E_OK, Some flags, (u', p')) /\
    waitPendingResponse (MkMsgRequestData id i) timeout [] response p' =
      Done (E_OK, Some msg, p'') /\
    vacant_at p'' i /\ same_but i p p''.
Proof.
  intros (r & Hr & Hst & Hid) Hi Hh. unfold pool_setResponse. rewrite Hi, Hh.
  pose proof (zget_Some_range _ _ _ Hr) as Hrange.
  rewrite (pool_entry_ok _ _ _ _ Hr Hid). cbn [outcome_bind].
  rewrite (pool_update_ok _ _ _ _ Hr). cbn [outcome_bind].
  set (p' := set_requests _ p). set (r' := setResponse (Some msg) r).
  eexists _, p', _, _. split; [reflexivity|].
  assert (Hr' : zget (p_requests p') i = Some r') by (by apply zget_zset_eq).
  unfold waitPendingResponse. cbn [rd_requestIndex rd_requestId].
  rewrite (pool_entry_ok _ _ _ _ Hr' Hid). cbn [outcome_bind].
  unfold waitResponse. rewrite decide_False by done. cbn [cv_wait wait_over].
  replace (wait_over r') with true by reflexivity. cbn [negb andb outcome_bind rq_status setResponse r'].
  rewrite (pool_update_ok _ _ _ _ Hr'). cbn [outcome_bind default rq_response setResponse r'].
  rewrite decide_False by (intros Hc; by apply Hc). rewrite decide_False by done.
  erewrite pool_update_ok; [|cbn; apply zget_zset_eq; by rewrite zlen_zset].
  cbn [outcome_bind]. split; [reflexivity|].
  assert (Hlen : forall l (x : MsgRequest), i < zlen l -> 0 <= i < zlen (zset l i x))
    by (intros; rewrite zlen_zset; lia).
  split.
  - exists (clearResponse r'). cbn. split; [|done].
    apply zget_zset_eq. apply Hlen. cbn. rewrite !zlen_zset. lia.
  - etransitivity; [apply same_but_set|]. etransitivity; [|apply same_but_set].
    apply same_but_set.
Qed.

Lemma cv_wait_skip n es r : wait_over r = false ->
  cv_wait (replicate n RE_other ++ es) r = cv_wait es r.
Proof. intros Hr. induction n as [|n IH]; [done|]. cbn. by rewrite Hr. Qed.

Lemma cv_wait_wake e es r : wait_over r = false -> wait_over (req_event_step e r) = true ->
  cv_wait (e :: es) r = (true, req_event_step e r).
Proof. intros Hr He. cbn. rewrite Hr. destruct es; cbn; by rewrite He. Qed.

Lemma waitResponse_results timeout n msg es r : rq_status r = RS_PENDING ->
  let quiet := replicate n RE_other in
  waitResponse timeout (quiet ++ RE_setResponse (Some msg) :: es) r =
    Done (E_OK, Some (Some msg), setResponse (Some msg) r) /\
  waitResponse timeout (quiet ++ RE_abort :: es) r = Done (E_IO_CANCELED, None, abortResponse r) /\
  waitResponse timeout quiet r =
    if timeout =? COMMUTIL_MSG_INFINITE_TIMEOUT then Undef UB_hang else Done (E_TIMED_OUT, None, r).
Proof.
  intros Hst. cbn zeta.
  assert (Hr : wait_over r = false) by (unfold wait_over; by rewrite Hst).
  assert (Ha : rq_status (abortResponse r) = RS_ABORTED)
    by (unfold abortResponse; by rewrite decide_True).
  unfold waitResponse. rewrite !(decide_False (P := rq_status r = RS_IDLE)) by congruence. split_and!.
  - rewrite cv_wait_skip, cv_wait_wake by done. done.
  - rewrite cv_wait_skip, cv_wait_wake by (done || (unfold wait_over; cbn; by rewrite Ha)).
    cbn [negb andb req_event_step]. by rewrite Ha.
  - rewrite <- (app_nil_r (replicate n RE_other)), cv_wait_skip by done. cbn [cv_wait].
    rewrite Hr. cbn [negb andb]. by rewrite Hst.
Qed.

(** the wait of the pool on an entry whose wait has this result: the entry is cleared *)
Lemma waitPendingResponse_eq p i id timeout es response r rc out r' :
  zget (p_requests p) i = Some r -> rq_requestId r = id ->
  waitResponse timeout es r = Done (rc, out, r') -> rc = E_OK -> default response out <> None ->
  waitPendingResponse (MkMsgRequestData id i) timeout es response p =
    Done (E_OK, default response out, set_requests (zset (p_requests p) i (clearResponse r')) p).
Proof.
  intros Hr Hid Hw -> Hout. unfold waitPendingResponse. cbn [rd_requestIndex rd_requestId].
  rewrite (pool_entry_ok _ _ _ _ Hr Hid). cbn [outcome_bind]. rewrite Hw. cbn [outcome_bind].
  rewrite (pool_update_ok _ _ _ _ Hr). cbn [outcome_bind].
  rewrite decide_False by (intros Hc; by apply Hc). rewrite decide_False by done.
  pose proof (zget_Some_range _ _ _ Hr) as Hi.
  erewrite pool_update_ok by (cbn; by apply zget_zset_eq). cbn [outcome_bind set_requests p_requests].
  by rewrite zset_zset.
Qed.

Lemma waitPendingResponse_ok p i id timeout es response r rc out r' :
  zget (p_requests p) i = Some r -> rq_requestId r = id ->
  waitResponse timeout es r = Done (rc, out, r') -> rc = E_OK -> default response out <> None ->
  exists p', waitPendingResponse (MkMsgRequestData id i) timeout es response p =
      Done (E_OK, default response out, p') /\ vacant_at p' i /\ same_but i p p'.
Proof.
  intros Hr Hid Hw Hrc Hout. rewrite (waitPendingResponse_eq p i id timeout es response r rc out r') by done.
  eexists. split; [reflexivity|]. split; [|apply same_but_set].
  exists (clearResponse r'). cbn. split; [|done]. apply zget_zset_eq. by eapply zget_Some_range.
Qed.

Lemma waitPendingResponse_failed p i id timeout es response r rc out r' :
  zget (p_requests p) i = Some r -> rq_requestId r = id ->
  waitResponse timeout es r = Done (rc, out, r') -> rc <> E_OK ->
  exists p', waitPendingResponse (MkMsgRequestData id i) timeout es response p =
      Done (rc, default response out, p') /\ zget (p_requests p') i = Some r' /\ same_but i p p'.
Proof.
  intros Hr Hid Hw Hrc. unfold waitPendingResponse. cbn [rd_requestIndex rd_requestId].
  rewrite (pool_entry_ok _ _ _ _ Hr Hid). cbn [outcome_bind]. rewrite Hw. cbn [outcome_bind].
  rewrite (pool_update_ok _ _ _ _ Hr). cbn [outcome_bind]. rewrite decide_True by done.
  eexists. split; [reflexivity|]. split; [|apply same_but_set].
  apply zget_zset_eq. by eapply zget_Some_range.
Qed.

(** A thread that waits for a pending request, however often it is woken in
    vain, returns the response when another thread sets it and is cancelled when
    another thread aborts the request; with no such event a finite timeout ends
    the wait and an infinite one never ends. *)
Theorem waitResponse_ends timeout n msg es r : rq_status r = RS_PENDING ->
  let quiet := replicate n RE_other in
  waitResponse timeout (quiet ++ RE_setResponse (Some msg) :: es) r =
    Done (E_OK, Some (Some msg), setResponse (Some msg) r) /\
  waitResponse timeout (quiet ++ RE_abort :: es) r = Done (E_IO_CANCELED, None, abortResponse r) /\
  waitResponse timeout quiet r =
    if timeout =? COMMUTIL_MSG_INFINITE_TIMEOUT then Undef UB_hang else Done (E_TIMED_OUT, None, r).
Proof. apply waitResponse_results. Qed.

(** A response that arrives for an entry that no thread uses (a duplicate, or
    one that comes after its request was cleared) is accepted: the entry becomes
    arrived, and no search for a vacant request takes it from then on. *)
Theorem late_response_leaks_entry {U} `{MsgRequestListener U} (u : U) p i h msg :
  pool_ok p -> vacant_at p i -> m_requestIndex h = i ->
  (forall r, zget (p_requests p) i = Some r -> rq_requestId r = m_requestId h) ->
  exists u' p' flags,
    pool_setResponse msg h (u, p) = Done (E_OK, Some flags, (u', p')) /\
    forall id res p'', getVacantRequest id p' = Done (res, p'') ->
      res <> Some i /\ zget (p_requests p'') i = zget (p_requests p') i /\ ~ vacant_at p'' i.
Proof.
  intros Hok (r & Hr & Hst) Hi Hid. unfold pool_setResponse. rewrite Hi.
  rewrite (pool_entry_ok _ _ _ _ Hr (Hid r Hr)). cbn [outcome_bind].
  rewrite (pool_update_ok _ _ _ _ Hr). cbn [outcome_bind].
  set (p' := set_requests _ p). eexists _, p', _. split; [reflexivity|].
  assert (Hr' : zget (p_requests p') i = Some (setResponse (Some msg) r))
    by (apply zget_zset_eq; by eapply zget_Some_range).
  assert (Hbusy : forall q, zget (p_requests q) i = zget (p_requests p') i -> ~ vacant_at q i)
    by (intros q Hq (r' & Hqr & Hidle); rewrite Hq, Hr' in Hqr; by injection Hqr as <-).
  intros id res p'' Hrun.
  destruct (getVacantRequest_ok p' id) as [(j & q & Hq & Hv & _ & _ & Hsame)|[Hq Hnone]].
  { unfold pool_ok, p' in *. cbn. by rewrite zlen_zset. }
  - rewrite Hq in Hrun. injection Hrun as <- <-.
    assert (j <> i) by (intros ->; by apply (Hbusy p' eq_refl)).
    split; [congruence|]. split; [by apply Hsame|]. by apply Hbusy, Hsame.
  - rewrite Hq in Hrun. injection Hrun as <- <-. split; [done|]. split; [done|]. by apply Hbusy.
Qed.

(** After all pending requests were aborted none is pending, the entries that
    were not pending are as before, a thread that waits for an aborted one is
    cancelled, and the entry stays aborted: it is not vacant again. *)
Theorem abort_cancels_waiters p i id timeout response :
  pending_at p i id ->
  let p' := abortPendingRequests p in
  (forall j id', ~ pending_at p' j id') /\
  (forall j r, zget (p_requests p) j = Some r -> rq_status r <> RS_PENDING ->
     zget (p_requests p') j = Some r) /\
  exists p'', waitPendingResponse (MkMsgRequestData id i) timeout [] response p' =
      Done (E_IO_CANCELED, response, p'') /\ ~ vacant_at p'' i.
Proof.
  intros (r & Hr & Hst & Hid). cbn zeta. set (p' := abortPendingRequests p).
  assert (Hget : forall j, zget (p_requests p') j = abortResponse <$> zget (p_requests p) j).
  { intros j. unfold p', abortPendingRequests, zget. cbn. destruct (j <? 0); [done|].
    apply list_lookup_fmap. }
  assert (Hab : forall x, rq_status (abortResponse x) <> RS_PENDING).
  { intros x. unfold abortResponse. by case_decide. }
  split; [|split].
  - intros j id' (r' & Hr' & Hp & _). rewrite Hget in Hr'.
    destruct (zget (p_requests p) j) as [x|]; [|done]. injection Hr' as <-. by apply (Hab x).
  - intros j x Hx Hnp. rewrite Hget, Hx. cbn. unfold abortResponse. by rewrite decide_False.
  - assert (Hri : abortResponse r = MkMsgRequest (rq_requestId r) RS_ABORTED (rq_flags r)
        (rq_request r) None (rq_requestTimeMillis r) (rq_resendTimeMillis r))
      by (unfold abortResponse; by rewrite decide_True).
    assert (Hr' : zget (p_requests p') i = Some (abortResponse r)) by (by rewrite Hget, Hr).
    unfold waitPendingResponse. cbn [rd_requestIndex rd_requestId].
    rewrite (pool_entry_ok _ _ _ _ Hr') by (by rewrite Hri). cbn [outcome_bind].
    assert (Hw : waitResponse timeout [] (abortResponse r) = Done (E_IO_CANCELED, None, abortResponse r))
      by (by rewrite Hri).
    rewrite Hw. cbn [outcome_bind default]. rewrite (pool_update_ok _ _ _ _ Hr'). cbn [outcome_bind].
    rewrite decide_True by done. eexists. split; [reflexivity|]. rewrite Hri in *. intros (x & Hx & Hidle).
    cbn in Hx. rewrite zget_zset_eq in Hx by (by eapply zget_Some_range).
    by injection Hx as <-.
Qed.

(** ** The race for vacant requests

    [getVacantRequest] as a thread runs it, one shared access per step; the
    thread that holds an entry may release it and search again, while other
    threads set responses and abort requests as they please. *)

Inductive grab_pc :=
| GLoad (i : Z)        (* round i: about to load the status *)
| GCas (i : Z)         (* the loaded status was idle *)
| GStore (i : Z)       (* owns the entry, about to store the request id *)
| GHolds (index : Z)   (* returned the entry *)
| GNone.               (* returned null *)

Record grab_thread := MkGrabThread { gt_requestId : Z; gt_pc : grab_pc }.

Definition grab_start (requestId : Z) : grab_thread := MkGrabThread requestId (GLoad 0).

Definition grab_index (count : Z) (th : grab_thread) (i : Z) : Z :=
  (u32 (gt_requestId th) mod count + i) mod count.

Definition grab_step (th : grab_thread) (rs : list MsgRequest)
  : outcome (grab_thread * list MsgRequest) :=
  let count := zlen rs in
  let goto pc := MkGrabThread (gt_requestId th) pc in
  match gt_pc th with
  | GLoad i =>
    if i <? count then
      let* r := mem_get rs (grab_index count th i) in
      if decide (rq_status r = RS_IDLE) then Done (goto (GCas i), rs)
      else Done (goto (GLoad (i + 1)), rs)
    else Done (goto GNone, rs)
  | GCas i =>
    let index := grab_index count th i in
    let* r := mem_get rs index in
    if decide (rq_status r = RS_IDLE) then
      Done (goto (GStore i), zset rs index (set_status RS_PENDING r))
    else Done (goto (GLoad (i + 1)), rs)
  | GStore i =>
    let index := grab_index count th i in
    let* r := mem_get rs index in
    Done (goto (GHolds index), zset rs index
      (MkMsgRequest (gt_requestId th) (rq_status r) (rq_flags r) (rq_request r) (rq_response r)
         (rq_requestTimeMillis r) (rq_resendTimeMillis r)))
  | GHolds _ | GNone => Done (th, rs)
  end.

(** the entry that a thread has taken *)
Definition held (count : Z) (th : grab_thread) : option Z :=
  match gt_pc th with
  | GStore i => Some (grab_index count th i)
  | GHolds index => Some index
  | _ => None
  end.

Inductive race_step : list grab_thread * list MsgRequest -> list grab_thread * list MsgRequest ->
    Prop :=
| RaceGrab ths rs a th th' rs' :
    ths !! a = Some th -> grab_step th rs = Done (th', rs') ->
    race_step (ths, rs) (<[a:=th']> ths, rs')
| RaceRelease ths rs a th index r requestId :
    ths !! a = Some th -> gt_pc th = GHolds index -> zget rs index = Some r ->
    race_step (ths, rs) (<[a:=grab_start requestId]> ths, zset rs index (clearResponse r))
| RaceResponse ths rs index r msg :
    zget rs index = Some r -> race_step (ths, rs) (ths, zset rs index (setResponse msg r))
| RaceAbort ths rs index r :
    zget rs index = Some r -> race_step (ths, rs) (ths, zset rs index (abortResponse r)).

(** an entry is held by one thread at most, and is not idle then *)
Definition race_inv (s : list grab_thread * list MsgRequest) : Prop :=
  let '(ths, rs) := s in
  (forall a b tha thb index, ths !! a = Some tha -> ths !! b = Some thb ->
     held (zlen rs) tha = Some index -> held (zlen rs) thb = Some index -> a = b) /\
  (forall a th index, ths !! a = Some th -> held (zlen rs) th = Some index ->
     exists r, zget rs index = Some r /\ rq_status r <> RS_IDLE).

(** what a step of a thread does to what it holds and to the entries *)
Lemma grab_step_held th rs th' rs' : grab_step th rs = Done (th', rs') ->
  zlen rs' = zlen rs /\
  ((held (zlen rs) th' = held (zlen rs) th \/ held (zlen rs) th' = None) /\
     (forall j r', zget rs' j = Some r' -> exists r, zget rs j = Some r /\ rq_status r' = rq_status r) \/
   exists index r, held (zlen rs) th' = Some index /\ zget rs index = Some r /\
     rq_status r = RS_IDLE /\ rs' = zset rs index (set_status RS_PENDING r)).
Proof.
  unfold grab_step, held, mem_get. destruct th as [id pc]. cbn [gt_pc gt_requestId].
  assert (Hid : forall j r', zget rs j = Some r' -> exists r, zget rs j = Some r /\
    rq_status r' = rq_status r) by eauto.
  destruct pc as [i|i|i|i|].
  - destruct (i <? zlen rs); [|by intros [= <- <-]; eauto].
    destruct (zget rs _) as [r|]; [|done]. cbn [outcome_bind].
    case_decide; intros [= <- <-]; split; eauto.
  - destruct (zget rs _) as [r|] eqn:Hr; [|done]. cbn [outcome_bind].
    case_decide; intros [= <- <-]; [|by eauto]. split; [apply zlen_zset|].
    right. by eexists _, r.
  - destruct (zget rs _) as [r|] eqn:Hr; [|done]. cbn [outcome_bind]. intros [= <- <-].
    split; [apply zlen_zset|]. left. split; [by left|]. intros j r' Hj.
    destruct (decide (grab_index (zlen rs) (MkGrabThread id (GStore i)) i = j)) as [<-|Hne].
    + rewrite zget_zset_eq in Hj by (by eapply zget_Some_range). injection Hj as <-. by exists r.
    + rewrite zget_zset_ne in Hj by done. eauto.
  - intros [= <- <-]. eauto.
  - intros [= <- <-]. eauto.
Qed.

(** a change of an entry that leaves it in use *)
Lemma race_inv_entry ths rs index r r' : race_inv (ths, rs) -> zget rs index = Some r ->
  (rq_status r <> RS_IDLE -> rq_status r' <> RS_IDLE) -> race_inv (ths, zset rs index r').
Proof.
  intros [Hone Hbusy] Hr Hkeep. unfold race_inv. rewrite zlen_zset. split; [exact Hone|].
  intros a th j Ha Hj. destruct (Hbusy a th j Ha Hj) as (x & Hx & Hst).
  destruct (decide (index = j)) as [<-|Hne].
  - exists r'. rewrite zget_zset_eq by (by eapply zget_Some_range). split; [done|].
    apply Hkeep. congruence.
  - exists x. by rewrite zget_zset_ne.
Qed.

(** a thread that holds nothing more than before, or an entry nobody holds *)
Lemma race_inv_thread ths rs a th th' : race_inv (ths, rs) -> ths !! a = Some th ->
  (held (zlen rs) th' = None \/ held (zlen rs) th' = held (zlen rs) th) ->
  race_inv (<[a:=th']> ths, rs).
Proof.
  intros [Hone Hbusy] Ha Hh.
  assert (Hold : forall b thb index, <[a:=th']> ths !! b = Some thb ->
    held (zlen rs) thb = Some index -> exists thb', ths !! b = Some thb' /\
      held (zlen rs) thb' = Some index).
  { intros b thb index Hb Hi. destruct (decide (a = b)) as [<-|Hne].
    - rewrite list_lookup_insert_eq in Hb by (by eapply lookup_lt_Some).
      injection Hb as <-. exists th. split; [done|]. destruct Hh; congruence.
    - rewrite list_lookup_insert_ne in Hb by done. eauto. }
  split.
  - intros b c thb thc index Hb Hc Hib Hic.
    destruct (Hold b thb index Hb Hib) as (? & ? & ?), (Hold c thc index Hc Hic) as (? & ? & ?).
    by eapply Hone.
  - intros b thb index Hb Hi. destruct (Hold b thb index Hb Hi) as (? & ? & ?). by eapply Hbusy.
Qed.

(** a thread that takes an entry that was idle *)
Lemma race_inv_take ths rs a th th' index r : race_inv (ths, rs) -> ths !! a = Some th ->
  held (zlen rs) th' = Some index -> zget rs index = Some r -> rq_status r = RS_IDLE ->
  race_inv (<[a:=th']> ths, zset rs index (set_status RS_PENDING r)).
Proof.
  intros [Hone Hbusy] Ha Hh Hr Hidle.
  assert (Hfree : forall b thb, ths !! b = Some thb -> held (zlen rs) thb <> Some index).
  { intros b thb Hb Hi. destruct (Hbusy b thb index Hb Hi) as (x & Hx & Hst). congruence. }
  assert (Heq : forall b thb, <[a:=th']> ths !! b = Some thb ->
    b = a /\ thb = th' \/ b <> a /\ ths !! b = Some thb).
  { intros b thb Hb. destruct (decide (a = b)) as [<-|Hne].
    - rewrite list_lookup_insert_eq in Hb by (by eapply lookup_lt_Some).
      injection Hb as <-. auto.
    - rewrite list_lookup_insert_ne in Hb by done. auto. }
  unfold race_inv. rewrite zlen_zset. split.
  - intros b c thb thc j Hb Hc Hib Hic.
    destruct (Heq b thb Hb) as [[-> ->]|[Hnb Hb']], (Heq c thc Hc) as [[-> ->]|[Hnc Hc']].
    + done.
    + destruct (Hfree c thc Hc'). congruence.
    + destruct (Hfree b thb Hb'). congruence.
    + by eapply Hone.
  - intros b thb j Hb Hib. destruct (Heq b thb Hb) as [[-> ->]|[Hnb Hb']].
    + exists (set_status RS_PENDING r). replace j with index by congruence.
      by rewrite zget_zset_eq by (by eapply zget_Some_range).
    + destruct (Hbusy b thb j Hb' Hib) as (x & Hx & Hst). exists x.
      rewrite zget_zset_ne; [done|]. intros <-. by apply (Hfree b thb Hb').
Qed.

(** a thread that lets its entry go *)
Lemma race_inv_drop ths rs a th th' index r' : race_inv (ths, rs) -> ths !! a = Some th ->
  held (zlen rs) th = Some index -> held (zlen rs) th' = None ->
  race_inv (<[a:=th']> ths, zset rs index r').
Proof.
  intros Hinv Ha Hi Hn. pose proof (race_inv_thread ths rs a th th' Hinv Ha (or_introl Hn)) as [Hone' Hbusy'].
  destruct Hinv as [Hone Hbusy]. unfold race_inv. rewrite zlen_zset. split; [exact Hone'|].
  intros b thb j Hb Hj. destruct (Hbusy' b thb j Hb Hj) as (x & Hx & Hst).
  exists x. rewrite zget_zset_ne; [done|]. intros <-.
  destruct (decide (a = b)) as [<-|Hne].
  - rewrite list_lookup_insert_eq in Hb by (by eapply lookup_lt_Some). congruence.
  - rewrite list_lookup_insert_ne in Hb by done. by pose proof (Hone a b th thb index Ha Hb Hi Hj).
Qed.

Lemma race_inv_step s s' : race_inv s -> race_step s s' -> race_inv s'.
Proof.
  intros Hinv Hstep. destruct Hstep as
    [ths rs a th th' rs' Ha Hgrab|ths rs a th index r id Ha Hpc Hr|ths rs index r msg Hr
    |ths rs index r Hr].
  - destruct (grab_step_held th rs th' rs' Hgrab) as [Hlen [[Hh Hsame]|(index & r & Hi & Hr & Hst & ->)]];
      [|by eapply race_inv_take].
    destruct (race_inv_thread ths rs a th th' Hinv Ha ltac:(tauto)) as [Hone Hbusy].
    unfold race_inv. rewrite Hlen. split; [exact Hone|]. intros b thb j Hb Hj.
    destruct (Hbusy b thb j Hb Hj) as (x & Hx & Hst). pose proof (zget_Some_range _ _ _ Hx).
    destruct (zget_is_Some rs' j) as [x' Hx']; [lia|].
    destruct (Hsame j x' Hx') as (y & Hy & Hyst). exists x'. split; [done|]. congruence.
  - eapply race_inv_drop; [done|done| |done]. unfold held. by rewrite Hpc.
  - eapply race_inv_entry; [done|done|]. done.
  - eapply race_inv_entry; [done|done|]. unfold abortResponse. by case_decide.
Qed.

(** C19. However the steps of the threads interleave, two threads never hold the
    same request entry, and an entry that a thread holds is not vacant. *)
Theorem vacant_race_exclusive ids rs ths' rs' :
  rtc race_step (map grab_start ids, rs) (ths', rs') ->
  (forall a b tha thb index, a <> b -> ths' !! a = Some tha -> ths' !! b = Some thb ->
     held (zlen rs') tha = Some index -> held (zlen rs') thb <> Some index) /\
  (forall a th index, ths' !! a = Some th -> held (zlen rs') th = Some index ->
     exists r, zget rs' index = Some r /\ rq_status r <> RS_IDLE).
Proof.
  intros Hrun.
  assert (Hstart : race_inv (map grab_start ids, rs)).
  { assert (Hnone : forall a th, map grab_start ids !! a = Some th -> held (zlen rs) th = None).
    { intros a th Ha. apply list_lookup_fmap_Some in Ha as (id & Hth & _). by subst th. }
    split; intros; by erewrite Hnone in *. }
  assert (Hend : race_inv (ths', rs')).
  { revert Hstart. remember (map grab_start ids, rs) as s eqn:Hs. clear Hs.
    remember (ths', rs') as s'. clear Heqs'.
    induction Hrun; [done|]. intros. apply IHHrun. by eapply race_inv_step. }
  destruct Hend as [Hone Hbusy]. split; [|exact Hbusy].
  intros a b tha thb index Hab Ha Hb Hia Hib. by apply Hab, (Hone a b tha thb index).
Qed.

(** ** Witnesses *)

(** two entries, the first one pending for request 4 *)
Definition sample_pool : MsgRequestPool :=
  MkMsgRequestPool [MkMsgRequest 4 RS_PENDING 0 (Some 100) None 10 10; MsgRequest_new] 5 false.

#[local] Instance no_listener : MsgRequestListener unit := {| onResponseArrived _ _ u := u |}.

Lemma getVacantRequest_spec_witness :
  (exists i p', getVacantRequest 4 sample_pool = Done (Some i, p') /\
     vacant_at sample_pool i /\ pending_at p' i 4 /\ same_but i sample_pool p') \/
  (getVacantRequest 4 sample_pool = Done (None, sample_pool) /\ forall i, ~ vacant_at sample_pool i).
Proof. apply (getVacantRequest_spec sample_pool 4). by vm_compute. Defined.

Lemma response_delivered_witness :
  let h := MsgHeader_new 40 0 0 4 0 in
  exists u' p' p'' flags,
    pool_setResponse 200 h (tt, sample_pool) = Done (E_OK, Some flags, (u', p')) /\
    waitPendingResponse (MkMsgRequestData 4 0) 50 [] None p' = Done (E_OK, Some 200, p'') /\
    vacant_at p'' 0 /\ same_but 0 sample_pool p''.
Proof.
  apply (response_delivered tt sample_pool 0 4); [|reflexivity|reflexivity].
  eexists. split_and!; reflexivity.
Defined.

Lemma waitResponse_ends_witness :
  let r := MkMsgRequest 4 RS_PENDING 0 (Some 100) None 10 10 in
  let quiet := replicate 3 RE_other in
  waitResponse 50 (quiet ++ [RE_setResponse (Some 200)]) r =
    Done (E_OK, Some (Some 200), setResponse (Some 200) r) /\
  waitResponse 50 (quiet ++ [RE_abort]) r = Done (E_IO_CANCELED, None, abortResponse r) /\
  waitResponse 50 quiet r =
    if 50 =? COMMUTIL_MSG_INFINITE_TIMEOUT then Undef UB_hang else Done (E_TIMED_OUT, None, r).
Proof. apply (waitResponse_ends 50 3 200 []). reflexivity. Defined.

Lemma late_response_leaks_entry_witness :
  let h := MsgHeader_new 40 0 0 0 1 in
  exists u' p' flags,
    pool_setResponse 200 h (tt, sample_pool) = Done (E_OK, Some flags, (u', p')) /\
    forall id res p'', getVacantRequest id p' = Done (res, p'') ->
      res <> Some 1 /\ zget (p_requests p'') 1 = zget (p_requests p') 1 /\ ~ vacant_at p'' 1.
Proof.
  apply (late_response_leaks_entry tt sample_pool 1).
  - by vm_compute.
  - eexists. split; reflexivity.
  - reflexivity.
  - intros r. cbn. by intros [= <-].
Defined.

Lemma abort_cancels_waiters_witness :
  let p' := abortPendingRequests sample_pool in
  (forall j id', ~ pending_at p' j id') /\
  (forall j r, zget (p_requests sample_pool) j = Some r -> rq_status r <> RS_PENDING ->
     zget (p_requests p') j = Some r) /\
  exists p'', waitPendingResponse (MkMsgRequestData 4 0) 50 [] None p' =
      Done (E_IO_CANCELED, None, p'') /\ ~ vacant_at p'' 0.
Proof.
  apply (abort_cancels_waiters sample_pool 0 4). eexists. split_and!; reflexivity.
Defined.

(** two threads race for the one vacant entry *)
Lemma vacant_race_exclusive_witness :
  let ths' := [MkGrabThread 8 (GStore 1); MkGrabThread 9 (GLoad 1)] in
  let rs' := [MkMsgRequest 4 RS_PENDING 0 (Some 100) None 10 10; set_status RS_PENDING MsgRequest_new] in
  (forall a b tha thb index, a <> b -> ths' !! a = Some tha -> ths' !! b = Some thb ->
     held (zlen rs') tha = Some index -> held (zlen rs') thb <> Some index) /\
  (forall a th index, ths' !! a = Some th -> held (zlen rs') th = Some index ->
     exists r, zget rs' index = Some r /\ rq_status r <> RS_IDLE).
Proof.
  apply (vacant_race_exclusive [8; 9] (p_requests sample_pool)).
  eapply rtc_l; [eapply (RaceGrab _ _ 0); reflexivity|]. eapply rtc_l; [eapply (RaceGrab _ _ 1); reflexivity|].
  eapply rtc_l; [eapply (RaceGrab _ _ 0); reflexivity|]. eapply rtc_l; [eapply (RaceGrab _ _ 0); reflexivity|].
  eapply rtc_l; [eapply (RaceGrab _ _ 1); reflexivity|]. apply rtc_refl.
Defined.
