(* ===== verification/Backlog.v ===== *)
(** * MsgBacklog (inc/msg/msg_backlog.h, src/msg/msg_backlog.cpp)

    The pending requests by request id, in the order of their request time and
    in the order of their resend time. The two ordered sets hold pointers to
    requests that change while they are in the sets: the comparators read the
    pool. A set is the list of its elements in the order of iteration. *)

From Stdlib Require Import ZArith Lia.
From stdpp Require Import gmap sorting.
From S2P Require Import Prelude Errors Msg RequestPool.
Open Scope Z_scope.

(** ** Definitions *)

(** a message by pointer and the index of its request in the pool *)
Record BacklogEntry := MkBacklogEntry { be_msg : Z; be_request : Z }.

#[export] Instance BacklogEntry_eq_dec : EqDecision BacklogEntry.
Proof. solve_decision. Defined.

Record MsgBacklog := MkMsgBacklog {
  bl_sizeBytes : Z;
  bl_requestMap : gmap Z BacklogEntry;
  bl_requestSet : list BacklogEntry;
  bl_minHeap : list BacklogEntry;
}.

Definition MsgBacklog_new : MsgBacklog := MkMsgBacklog 0 ∅ [] [].

Definition getEntryCount (b : MsgBacklog) : Z := u32 (Z.of_nat (size (bl_requestMap b))).
Definition isEmpty (b : MsgBacklog) : bool := bool_decide (bl_requestMap b = ∅).

Section Backlog.
Context (hp : Heap) (p : MsgRequestPool).

Definition entry_requestTime (e : BacklogEntry) : outcome Z :=
  let* r := pool_at (be_request e) p in Done (rq_requestTimeMillis r).
Definition entry_resendTime (e : BacklogEntry) : outcome Z :=
  let* r := pool_at (be_request e) p in Done (rq_resendTimeMillis r).
Definition entry_requestId (e : BacklogEntry) : outcome Z :=
  let* m := msg_at hp (be_msg e) in Done (m_requestId (msg_header m)).

(** EntryRequestTimeCmp and EntryResendTimeCmp: the message is read only when
    the times are equal *)
Definition entry_cmp (time : BacklogEntry -> outcome Z) (lhs rhs : BacklogEntry) : outcome bool :=
  let* lhsTime := time lhs in
  let* rhsTime := time rhs in
  if lhsTime <? rhsTime then Done true
  else if rhsTime <? lhsTime then Done false
  else
    let* lhsId := entry_requestId lhs in
    let* rhsId := entry_requestId rhs in
    Done (lhsId <? rhsId).

Definition EntryRequestTimeCmp := entry_cmp entry_requestTime.
Definition EntryResendTimeCmp := entry_cmp entry_resendTime.

(** is the sequence in the order that the comparator has now? *)
Fixpoint set_in_order (cmp : BacklogEntry -> BacklogEntry -> outcome bool) (l : list BacklogEntry)
  : bool :=
  match l with
  | e :: ((e' :: _) as l') =>
    match cmp e e' with Done true => set_in_order cmp l' | _ => false end
  | _ => true
  end.

Fixpoint set_insert_at (cmp : BacklogEntry -> BacklogEntry -> outcome bool) (e : BacklogEntry)
    (l : list BacklogEntry) : outcome (bool * list BacklogEntry) :=
  match l with
  | [] => Done (true, [e])
  | e' :: l' =>
    let* before := cmp e e' in
    if before then Done (true, e :: l)
    else
      let* after := cmp e' e in
      if after then
        let* '(inserted, l') := set_insert_at cmp e l' in Done (inserted, e' :: l')
      else Done (false, l)
  end.

(** std::set::insert, which has no meaning on a set that is out of order *)
Definition set_insert (cmp : BacklogEntry -> BacklogEntry -> outcome bool) (e : BacklogEntry)
    (l : list BacklogEntry) : outcome (bool * list BacklogEntry) :=
  if set_in_order cmp l then set_insert_at cmp e l else Undef UB_order.

Definition set_erase (i : nat) (l : list BacklogEntry) : list BacklogEntry := delete i l.

Definition addPendingRequest (pendingRequest : Z) (b : MsgBacklog)
  : outcome (ErrorCode * MsgBacklog) :=
  let* m := msg_at hp pendingRequest in
  let requestId := m_requestId (msg_header m) in
  let* requestData := getRequestData (msg_header m) p in
  match requestData with
  | None => Done (E_NOT_FOUND, b)
  | Some index =>
    let e := MkBacklogEntry pendingRequest index in
    match bl_requestMap b !! requestId with
    | Some _ => Done (E_ALREADY_EXISTS, b)
    | None =>
      let* '(inserted, requestSet) := set_insert EntryRequestTimeCmp e (bl_requestSet b) in
      if negb inserted then Done (E_DATA_CORRUPT, b)
      else
        let* '(inserted, minHeap) := set_insert EntryResendTimeCmp e (bl_minHeap b) in
        if negb inserted then Done (E_DATA_CORRUPT, b)
        else
          Done (E_OK, MkMsgBacklog (u64 (bl_sizeBytes b + getPayloadSizeBytes m))
                        (<[requestId := e]> (bl_requestMap b)) requestSet minHeap)
    end
  end.

(** std::lower_bound by a request time, which has no meaning on a sequence that
    is not partitioned: the position of the first entry that is not before *)
Fixpoint lower_bound (requestTimeMillis : Z) (l : list BacklogEntry) : outcome nat :=
  match l with
  | [] => Done O
  | e :: l' =>
    let* time := entry_requestTime e in
    let* n := lower_bound requestTimeMillis l' in
    if time <? requestTimeMillis then Done (S n)
    else match n with O => Done O | S _ => Undef UB_order end
  end.

(** the loop from the position [i], whose suffix of the set is [l] *)
Fixpoint find_same_time (requestTimeMillis request : Z) (i : nat) (l : list BacklogEntry)
  : outcome (option nat) :=
  match l with
  | [] => Done None
  | e :: l =>
    if be_msg e =? request then Done (Some i)
    else
      let* time := entry_requestTime e in
      if time =? requestTimeMillis then find_same_time requestTimeMillis request (S i) l
      else Done None
  end.

Definition findRequestByTime (requestTimeMillis request : Z) (b : MsgBacklog)
  : outcome (option nat) :=
  let* i := lower_bound requestTimeMillis (bl_requestSet b) in
  find_same_time requestTimeMillis request i (drop i (bl_requestSet b)).

(** the position of the first entry of a message, [None] for the end *)
Fixpoint find_msg (request : Z) (l : list BacklogEntry) : option nat :=
  match l with
  | [] => None
  | e :: l => if be_msg e =? request then Some O else S <$> find_msg request l
  end.

Definition removePendingRequest (request : Z) (b : MsgBacklog) : outcome (ErrorCode * MsgBacklog) :=
  let* m := msg_at hp request in
  let requestId := m_requestId (msg_header m) in
  match bl_requestMap b !! requestId with
  | None => Done (E_NOT_FOUND, b)
  | Some e =>
    let* requestTimeMillis := entry_requestTime e in
    let* setItr := findRequestByTime requestTimeMillis request b in
    match setItr with
    | None => Done (E_DATA_CORRUPT, b)
    | Some i =>
      match find_msg request (bl_minHeap b) with
      | None => Done (E_DATA_CORRUPT, b)
      | Some j =>
        Done (E_OK, MkMsgBacklog (u64 (bl_sizeBytes b - getPayloadSizeBytes m))
                      (delete requestId (bl_requestMap b))
                      (set_erase i (bl_requestSet b)) (set_erase j (bl_minHeap b)))
      end
    end
  end.

Definition hasReadyResendRequest (timerBarrierMillis : Z) (b : MsgBacklog) : outcome bool :=
  match bl_requestSet b with
  | [] => Done false
  | e :: _ => let* time := entry_resendTime e in Done (time <? timerBarrierMillis)
  end.

Definition getReadyResendRequest (b : MsgBacklog) : outcome Z :=
  match bl_requestSet b with [] => Undef UB_bounds | e :: _ => Done (be_msg e) end.

Definition updateReadyResendRequest (b : MsgBacklog) : outcome MsgBacklog :=
  match bl_requestSet b with
  | [] => Undef UB_bounds
  | e :: l =>
    let* '(_, requestSet) := set_insert EntryRequestTimeCmp e l in
    Done (MkMsgBacklog (bl_sizeBytes b) (bl_requestMap b) requestSet (bl_minHeap b))
  end.
End Backlog.

(** the code that an operation that goes on after an error returns in the end *)
Definition first_error (rc rc2 : ErrorCode) : ErrorCode := if decide (rc = E_OK) then rc2 else rc.

(** the loop, with the pool that the backlog refers to *)
Fixpoint pruneBacklog_loop (fuel : nat) (hp : Heap) (maxBacklogSizeBytes : Z) (rc : ErrorCode)
    (b : MsgBacklog) (p : MsgRequestPool) : outcome (ErrorCode * MsgBacklog * MsgRequestPool) :=
  if maxBacklogSizeBytes <? bl_sizeBytes b then
    match fuel with
    | O => NoFuel
    | S fuel =>
      match bl_requestSet b with
      | [] => Done (E_INTERNAL_ERROR, b, p)
      | entry :: _ =>
        let* m := msg_at hp (be_msg entry) in
        let messageSize := getPayloadSizeBytes m in
        let b := MkMsgBacklog
          (if bl_sizeBytes b <? messageSize then 0 else bl_sizeBytes b - messageSize)
          (bl_requestMap b) (bl_requestSet b) (bl_minHeap b) in
        let* '(rc2, p) := clearPendingRequest (msg_header m) p in
        let rc := first_error rc rc2 in
        let* '(rc2, b) := removePendingRequest hp p (be_msg entry) b in
        pruneBacklog_loop fuel hp maxBacklogSizeBytes (first_error rc rc2) b p
      end
    end
  else Done (rc, b, p).

Definition pruneBacklog (fuel : nat) (hp : Heap) (maxBacklogSizeBytes : Z) (b : MsgBacklog)
    (p : MsgRequestPool) : outcome (ErrorCode * MsgBacklog * MsgRequestPool) :=
  pruneBacklog_loop fuel hp maxBacklogSizeBytes E_OK b p.

(** ** The invariant

    Every entry refers to a live message and to the request of the pool that
    belongs to it; map, set and heap have the same entries, and the set and the
    heap are in the order of the request and of the resend times. *)

Definition bkey : Type := Z * Z.
Definition key_lt (k k' : bkey) : Prop := k.1 < k'.1 \/ k.1 = k'.1 /\ k.2 < k'.2.

Section Invariant.
Context (hp : Heap) (p : MsgRequestPool).

Definition e_id (e : BacklogEntry) : Z :=
  from_option (fun m => m_requestId (msg_header m)) 0 (hp !! be_msg e).
Definition e_payload (e : BacklogEntry) : Z :=
  from_option getPayloadSizeBytes 0 (hp !! be_msg e).
Definition e_time (e : BacklogEntry) : Z :=
  from_option rq_requestTimeMillis 0 (zget (p_requests p) (be_request e)).
Definition e_resend (e : BacklogEntry) : Z :=
  from_option rq_resendTimeMillis 0 (zget (p_requests p) (be_request e)).

Definition payloads (l : list BacklogEntry) : Z := foldr (fun e n => e_payload e + n) 0 l.

Definition live (e : BacklogEntry) : Prop := exists m r,
  hp !! be_msg e = Some m /\ zget (p_requests p) (be_request e) = Some r /\
  m_requestIndex (msg_header m) = be_request e /\ rq_requestId r = m_requestId (msg_header m).

(** the order by a time, then by the request id *)
Definition before (time : BacklogEntry -> Z) (e e' : BacklogEntry) : Prop :=
  key_lt (time e, e_id e) (time e', e_id e').

Record backlog_ok (b : MsgBacklog) : Prop := {
  bo_live : Forall live (bl_requestSet b);
  bo_set : StronglySorted (before e_time) (bl_requestSet b);
  bo_heap : StronglySorted (before e_resend) (bl_minHeap b);
  bo_perm : bl_minHeap b ≡ₚ bl_requestSet b;
  bo_map : forall id e, bl_requestMap b !! id = Some e <-> e ∈ bl_requestSet b /\ e_id e = id;
  bo_size : bl_sizeBytes b = payloads (bl_requestSet b);
  bo_fits : bl_sizeBytes b < 2 ^ 64;
}.

(** a comparator of the code and the order it decides *)
Definition decides (cmp : BacklogEntry -> BacklogEntry -> outcome bool)
    (lt : BacklogEntry -> BacklogEntry -> Prop) : Prop :=
  forall e e', live e -> live e' ->
    (cmp e e' = Done true /\ lt e e') \/ (cmp e e' = Done false /\ ~ lt e e').

Lemma live_time e : live e -> entry_requestTime p e = Done (e_time e).
Proof. intros (m & r & _ & Hr & _). unfold entry_requestTime, e_time. by rewrite (pool_at_ok _ _ _ Hr), Hr. Qed.

Lemma live_resend e : live e -> entry_resendTime p e = Done (e_resend e).
Proof. intros (m & r & _ & Hr & _). unfold entry_resendTime, e_resend. by rewrite (pool_at_ok _ _ _ Hr), Hr. Qed.

Lemma live_id e : live e -> entry_requestId hp e = Done (e_id e).
Proof. intros (m & r & Hm & _). unfold entry_requestId, e_id, msg_at. by rewrite Hm. Qed.

Lemma cmp_decides time (t : BacklogEntry -> Z) : (forall e, live e -> time e = Done (t e)) ->
  decides (entry_cmp hp time) (before t).
Proof.
  intros Ht e e' He He'. unfold entry_cmp, before, key_lt. rewrite !Ht by done. cbn [outcome_bind fst snd].
  rewrite !live_id by done. cbn [outcome_bind].
  destruct (Z.ltb_spec (t e) (t e')); [left; split; [done|lia]|].
  destruct (Z.ltb_spec (t e') (t e)); [right; split; [done|lia]|].
  destruct (Z.ltb_spec (e_id e) (e_id e')); [left|right]; (split; [done|lia]).
Qed.

Lemma request_decides : decides (EntryRequestTimeCmp hp p) (before e_time).
Proof. apply cmp_decides, live_time. Qed.
Lemma resend_decides : decides (EntryResendTimeCmp hp p) (before e_resend).
Proof. apply cmp_decides, live_resend. Qed.

Lemma sorted_in_order cmp lt l : decides cmp lt -> Forall live l -> StronglySorted lt l ->
  set_in_order cmp l = true.
Proof.
  intros Hc Hl Hs. induction Hs as [|e l Hs IH Hlt]; [done|].
  pose proof (Forall_cons_1 _ _ _ Hl) as [He Hl0]. cbn [set_in_order]. destruct l as [|e' l]; [done|].
  destruct (Forall_cons_1 _ _ _ Hlt) as [Hlt' _]. destruct (Forall_cons_1 _ _ _ Hl0) as [He' _].
  destruct (Hc e e' He He') as [[-> _]|[_ Hn]]; [by apply IH|done].
Qed.

(** inserting an entry whose id is new *)
Lemma set_insert_ok cmp (time : BacklogEntry -> Z) e l : decides cmp (before time) ->
  live e -> Forall live l -> (forall e', e' ∈ l -> e_id e' <> e_id e) -> StronglySorted (before time) l ->
  exists l', set_insert cmp e l = Done (true, l') /\ l' ≡ₚ e :: l /\ StronglySorted (before time) l'.
Proof.
  intros Hc He Hl Hid Hs. unfold set_insert.
  rewrite (sorted_in_order cmp (before time)) by done.
  induction Hs as [|e' l Hs IH Hlt]; cbn [set_insert_at].
  { exists [e]. split; [done|]. split; [done|]. repeat constructor. }
  destruct (Forall_cons_1 _ _ _ Hl) as [He' Hl'].
  assert (Hne : e_id e' <> e_id e) by (apply Hid; left).
  destruct (Hc e e' He He') as [[-> Hbef]|[-> Hnb]]; cbn [outcome_bind].
  - exists (e :: e' :: l). split; [done|]. split; [done|]. constructor; [by constructor|].
    constructor; [done|]. rewrite list.Forall_forall in *. intros x Hx. specialize (Hlt x Hx).
    unfold before, key_lt in *. cbn in *. lia.
  - destruct (Hc e' e He' He) as [[-> Hbef]|[_ Hnb']]; cbn [outcome_bind].
    + destruct IH as (l' & -> & Hp & Hs'); [done|intros x Hx; apply Hid; by right|].
      cbn [outcome_bind]. exists (e' :: l'). split; [done|]. split; [by rewrite Hp; constructor|].
      constructor; [done|]. rewrite list.Forall_forall in *. intros x Hx. rewrite Hp in Hx.
      apply elem_of_cons in Hx as [->|Hx]; [done|by apply Hlt].
    + exfalso. unfold before, key_lt in *. cbn in *. lia.
Qed.

Lemma payloads_perm l l' : l ≡ₚ l' -> payloads l = payloads l'.
Proof. unfold payloads. induction 1; simpl in *; lia. Qed.

Lemma sorted_sublist (R : relation BacklogEntry) l l' : sublist l' l -> StronglySorted R l -> StronglySorted R l'.
Proof.
  induction 1 as [|x l' l Hsub IH|x l' l Hsub IH]; intros Hs; [done| |];
    apply StronglySorted_inv in Hs as [Hs Hx]; [|by apply IH].
  constructor; [by apply IH|]. rewrite list.Forall_forall in *. intros y Hy.
  apply Hx. by eapply sublist_subseteq.
Qed.

(** where the lower bound of a time is *)
Lemma lower_bound_ok t l : Forall live l -> StronglySorted (before e_time) l ->
  exists n, lower_bound p t l = Done n /\ (n <= length l)%nat /\
    forall k e, l !! k = Some e -> (k < n)%nat <-> e_time e < t.
Proof.
  intros Hl Hs. induction Hs as [|e l Hs IH Hlt]; cbn [lower_bound].
  { exists O. split; [done|]. split; [done|]. intros k e Hk. by rewrite lookup_nil in Hk. }
  destruct (Forall_cons_1 _ _ _ Hl) as [He Hl']. destruct (IH Hl') as (n & Hn & Hle & Hk).
  rewrite live_time, Hn by done. cbn [outcome_bind length].
  destruct (Z.ltb_spec (e_time e) t) as [Ht|Ht].
  - exists (S n). split; [done|]. split; [lia|]. intros [|k] e' Hk'; cbn in Hk'.
    + injection Hk' as <-. split; [done|lia].
    + rewrite <- (Hk k e' Hk'). lia.
  - assert (Hge : forall k e', l !! k = Some e' -> t <= e_time e').
    { intros k e' Hk'. rewrite list.Forall_forall in Hlt.
      specialize (Hlt e' (list_elem_of_lookup_2 _ _ _ Hk')). unfold before, key_lt in Hlt.
      cbn in Hlt. lia. }
    assert (n = O) as ->.
    { destruct n as [|n]; [done|]. destruct (lookup_lt_is_Some_2 l 0) as [e' He']; [lia|].
      pose proof (proj1 (Hk 0%nat e' He') ltac:(lia)). specialize (Hge _ _ He'). lia. }
    exists O. split; [done|]. split; [lia|]. intros [|k] e' Hk'; cbn in Hk'.
    + injection Hk' as <-. split; lia.
    + specialize (Hge _ _ Hk'). split; lia.
Qed.

Lemma find_same_time_ok t e l : forall i k, Forall live l -> l !! k = Some e ->
  (forall j e', (j <= k)%nat -> l !! j = Some e' -> e_time e' = t) ->
  (forall j e', (j < k)%nat -> l !! j = Some e' -> be_msg e' <> be_msg e) ->
  find_same_time p t (be_msg e) i l = Done (Some (i + k)%nat).
Proof.
  induction l as [|e0 l IH]; intros i k Hl Hk Ht Hm; [done|]. cbn [find_same_time].
  destruct (Forall_cons_1 _ _ _ Hl) as [He Hl'].
  destruct k as [|k]; cbn in Hk.
  - injection Hk as ->. by rewrite Z.eqb_refl, Nat.add_0_r.
  - rewrite (proj2 (Z.eqb_neq _ _)) by (by apply (Hm 0%nat); [lia|]).
    rewrite live_time by done. cbn [outcome_bind].
    rewrite (Ht 0%nat e0), Z.eqb_refl by (done || lia).
    rewrite (IH (S i) k Hl' Hk); [f_equal; f_equal; lia| |].
    + intros j e' Hj Hj'. apply (Ht (S j)); [lia|done].
    + intros j e' Hj Hj'. apply (Hm (S j)); [lia|done].
Qed.

Lemma find_msg_ok e l k : l !! k = Some e ->
  (forall j e', (j < k)%nat -> l !! j = Some e' -> be_msg e' <> be_msg e) ->
  find_msg (be_msg e) l = Some k.
Proof.
  revert k. induction l as [|e0 l IH]; intros k Hk Hm; [done|]. cbn [find_msg].
  destruct k as [|k]; cbn in Hk.
  - injection Hk as ->. by rewrite Z.eqb_refl.
  - rewrite (proj2 (Z.eqb_neq _ _)) by (by apply (Hm 0%nat); [lia|]).
    rewrite (IH k Hk); [done|]. intros j e' Hj Hj'. apply (Hm (S j)); [lia|done].
Qed.

(** entries of the backlog with the same message are the same *)
Lemma entry_unique b e e' : backlog_ok b -> e ∈ bl_requestSet b -> e' ∈ bl_requestSet b ->
  be_msg e = be_msg e' -> e = e'.
Proof.
  intros Hb He He' Hm.
  assert (Hid : e_id e = e_id e') by (unfold e_id; by rewrite Hm).
  pose proof (proj2 (bo_map b Hb (e_id e) e) (conj He eq_refl)) as H1.
  pose proof (proj2 (bo_map b Hb (e_id e) e') (conj He' (eq_sym Hid))) as H2. congruence.
Qed.

Lemma before_irrefl time e : ~ before time e e.
Proof. unfold before, key_lt. lia. Qed.

Lemma sorted_NoDup time l : StronglySorted (before time) l -> NoDup l.
Proof.
  induction 1 as [|e l Hs IH Hlt]; constructor; [|done]. intros He.
  rewrite list.Forall_forall in Hlt. by apply (before_irrefl time e), Hlt.
Qed.

Lemma sorted_index time l i j e e' : StronglySorted (before time) l -> (i <= j)%nat ->
  l !! i = Some e -> l !! j = Some e' -> time e <= time e'.
Proof.
  intros Hs. revert i j. induction Hs as [|e0 l Hs IH Hlt]; intros i j Hij Hi Hj; [done|].
  destruct i as [|i], j as [|j]; cbn in Hi, Hj; simplify_eq; [lia| |lia|].
  - rewrite list.Forall_forall in Hlt.
    specialize (Hlt e' (list_elem_of_lookup_2 _ _ _ Hj)). unfold before, key_lt in Hlt. cbn in Hlt. lia.
  - apply (IH i j); [lia|done|done].
Qed.

(** the position of an entry, in a list with the entries of the backlog *)
Lemma first_of_msg b l e k : backlog_ok b -> l ≡ₚ bl_requestSet b -> l !! k = Some e ->
  forall j e', (j < k)%nat -> l !! j = Some e' -> be_msg e' <> be_msg e.
Proof.
  intros Hb Hl Hk j e' Hj Hj' Hm.
  assert (NoDup l) as Hnd by (rewrite Hl; by eapply sorted_NoDup, bo_set).
  assert (Hin : forall i x, l !! i = Some x -> x ∈ bl_requestSet b)
    by (intros i x Hx; rewrite <- Hl; by eapply list_elem_of_lookup_2).
  assert (e' = e) as -> by (eapply entry_unique; eauto).
  pose proof (NoDup_lookup _ _ _ _ Hnd Hj' Hk). lia.
Qed.

Lemma findRequestByTime_ok b e i : backlog_ok b -> bl_requestSet b !! i = Some e ->
  findRequestByTime p (e_time e) (be_msg e) b = Done (Some i).
Proof.
  intros Hb Hi. unfold findRequestByTime. set (l := bl_requestSet b) in *.
  destruct (lower_bound_ok (e_time e) l (bo_live b Hb) (bo_set b Hb)) as (n & -> & Hn & Hlt).
  cbn [outcome_bind].
  assert (Hni : (n <= i)%nat).
  { destruct (Nat.le_gt_cases n i) as [|Hgt]; [done|]. apply (Hlt i e Hi) in Hgt. lia. }
  rewrite (find_same_time_ok (e_time e) e (drop n l) n (i - n)); [f_equal; f_equal; lia|..].
  - apply Forall_drop, (bo_live b Hb).
  - rewrite lookup_drop. by replace (n + (i - n))%nat with i by lia.
  - intros j e' Hj Hj'. rewrite lookup_drop in Hj'.
    assert (~ e_time e' < e_time e) by (intros Hc; apply (Hlt _ _ Hj') in Hc; lia).
    pose proof (sorted_index e_time l (n + j) i e' e (bo_set b Hb) ltac:(lia) Hj' Hi). lia.
  - intros j e' Hj Hj'. rewrite lookup_drop in Hj'.
    eapply (first_of_msg b l e i Hb); [done|done| |exact Hj']. lia.
Qed.

Lemma live_payload e : live e -> 0 <= e_payload e.
Proof.
  intros (m & r & Hm & _). unfold e_payload. rewrite Hm. cbn.
  unfold getPayloadSizeBytes. apply u32_range.
Qed.

Lemma payloads_nonneg l : Forall live l -> 0 <= payloads l.
Proof.
  unfold payloads. induction 1 as [|e l He _ IH]; cbn; [lia|].
  pose proof (live_payload e He). lia.
Qed.

(** ** What the operations do *)

(** the backlog without the entry at these positions *)
Lemma backlog_erase b e i j : backlog_ok b -> bl_requestSet b !! i = Some e ->
  bl_minHeap b !! j = Some e ->
  backlog_ok (MkMsgBacklog (bl_sizeBytes b - e_payload e) (delete (e_id e) (bl_requestMap b))
                (set_erase i (bl_requestSet b)) (set_erase j (bl_minHeap b))).
Proof.
  intros Hb Hi Hj. pose proof (bo_live b Hb) as Hlive.
  pose proof (delete_Permutation _ _ _ Hi) as Hpi. pose proof (delete_Permutation _ _ _ Hj) as Hpj.
  set (set' := set_erase i (bl_requestSet b)). set (heap' := set_erase j (bl_minHeap b)).
  assert (Hsum : bl_sizeBytes b = e_payload e + payloads set')
    by (rewrite (bo_size b Hb), (payloads_perm _ _ Hpi); done).
  rewrite Hpi in Hlive. apply Forall_cons_1 in Hlive as [Hl Hlive'].
  pose proof (live_payload e Hl). pose proof (bo_fits b Hb).
  assert (Hnd : NoDup (e :: set'))
    by (unfold set', set_erase; rewrite <- Hpi; by eapply sorted_NoDup, bo_set).
  apply list.NoDup_cons in Hnd as [Hnin _].
  constructor; cbn [bl_requestSet bl_requestMap bl_sizeBytes bl_minHeap]; [done| | | | |lia|lia].
  - eapply sorted_sublist; [apply sublist_delete|apply (bo_set b Hb)].
  - eapply sorted_sublist; [apply sublist_delete|apply (bo_heap b Hb)].
  - apply (Permutation_cons_inv (a := e)). unfold heap', set', set_erase.
    rewrite <- Hpi, <- Hpj. apply (bo_perm b Hb).
  - intros id e'. rewrite lookup_delete_Some, (bo_map b Hb), Hpi, elem_of_cons. split.
    + intros (Hne & [->|Hin] & Hid'); done.
    + intros [Hin Hid']. split; [|by auto]. intros Heq. apply Hnin.
      assert (e' = e) as ->; [|done]. apply (inj Some).
      rewrite <- (proj2 (bo_map b Hb (e_id e) e)), <- (proj2 (bo_map b Hb (e_id e) e')); [done| |];
        rewrite Hpi, elem_of_cons; split; auto; congruence.
Qed.

Lemma removePendingRequest_ok b e : backlog_ok b -> e ∈ bl_requestSet b ->
  exists b', removePendingRequest hp p (be_msg e) b = Done (E_OK, b') /\ backlog_ok b' /\
    bl_requestSet b ≡ₚ e :: bl_requestSet b' /\ bl_requestMap b' = delete (e_id e) (bl_requestMap b) /\
    bl_sizeBytes b' = bl_sizeBytes b - e_payload e.
Proof.
  intros Hb He. pose proof (proj1 (list.Forall_forall _ _) (bo_live b Hb) e He) as Hl.
  destruct (proj1 (list_elem_of_lookup _ _) He) as [i Hi].
  assert (e ∈ bl_minHeap b) as [j Hj]%list_elem_of_lookup by (by rewrite (bo_perm b Hb)).
  pose proof (backlog_erase b e i j Hb Hi Hj) as Hb'. pose proof Hl as (m & r & Hm & _).
  assert (Hid : m_requestId (msg_header m) = e_id e) by (unfold e_id; by rewrite Hm).
  assert (Hpay : getPayloadSizeBytes m = e_payload e) by (unfold e_payload; by rewrite Hm).
  unfold removePendingRequest, msg_at. rewrite Hm. cbn [outcome_bind]. rewrite Hid, Hpay.
  rewrite (proj2 (bo_map b Hb _ _) (conj He eq_refl)), live_time by done. cbn [outcome_bind].
  rewrite (findRequestByTime_ok b e i Hb Hi). cbn [outcome_bind].
  rewrite (find_msg_ok e (bl_minHeap b) j Hj) by (eapply (first_of_msg b); [done|apply (bo_perm b Hb)|done]).
  pose proof (payloads_nonneg _ (bo_live _ Hb')) as Hnn. pose proof (bo_size _ Hb') as Hs'.
  pose proof (live_payload e Hl). pose proof (bo_fits b Hb). cbn [bl_sizeBytes bl_requestSet] in *.
  rewrite u64_small by lia. eexists. split; [reflexivity|]. split; [exact Hb'|].
  split; [|done]. by apply delete_Permutation.
Qed.

(** A pending request that is in the backlog is removed, wherever it is in the
    order of the times: the entry leaves the map, the set and the heap, its
    payload leaves the size, and everything else stays. *)
Theorem removePendingRequest_spec b e : backlog_ok b -> e ∈ bl_requestSet b ->
  exists b', removePendingRequest hp p (be_msg e) b = Done (E_OK, b') /\ backlog_ok b' /\
    bl_requestSet b ≡ₚ e :: bl_requestSet b' /\ bl_requestMap b' = delete (e_id e) (bl_requestMap b) /\
    bl_sizeBytes b' = bl_sizeBytes b - e_payload e.
Proof. apply removePendingRequest_ok. Qed.

Lemma addPendingRequest_ok b q m : backlog_ok b -> hp !! q = Some m ->
  live (MkBacklogEntry q (m_requestIndex (msg_header m))) ->
  bl_requestMap b !! m_requestId (msg_header m) = None ->
  bl_sizeBytes b + getPayloadSizeBytes m < 2 ^ 64 ->
  let e := MkBacklogEntry q (m_requestIndex (msg_header m)) in
  exists b', addPendingRequest hp p q b = Done (E_OK, b') /\ backlog_ok b' /\
    bl_requestSet b' ≡ₚ e :: bl_requestSet b /\
    bl_requestMap b' = <[m_requestId (msg_header m) := e]> (bl_requestMap b) /\
    bl_sizeBytes b' = bl_sizeBytes b + getPayloadSizeBytes m.
Proof.
  intros Hb Hm Hl Hnew Hfit. cbn zeta. set (e := MkBacklogEntry q _) in *.
  assert (Hid : e_id e = m_requestId (msg_header m)) by (unfold e_id, e; cbn; by rewrite Hm).
  assert (Hpay : e_payload e = getPayloadSizeBytes m) by (unfold e_payload, e; cbn; by rewrite Hm).
  assert (Hids : forall e', e' ∈ bl_requestSet b -> e_id e' <> e_id e).
  { intros e' He' Heq. rewrite <- Hid, <- Heq, (proj2 (bo_map b Hb _ e')) in Hnew; done. }
  pose proof Hl as (m' & r & Hm' & Hr & Hi & Hrid). cbn [be_msg be_request e] in Hm', Hr, Hi.
  assert (m' = m) as -> by congruence.
  unfold addPendingRequest, msg_at. rewrite Hm. cbn [outcome_bind].
  unfold getRequestData. pose proof (zget_Some_range _ _ _ Hr).
  destruct (Z.leb_spec (zlen (p_requests p)) (m_requestIndex (msg_header m))); [lia|].
  rewrite (pool_at_ok _ _ _ Hr). cbn [outcome_bind]. rewrite Hrid, Z.eqb_refl. cbn [outcome_bind].
  rewrite Hnew. fold e.
  destruct (set_insert_ok (EntryRequestTimeCmp hp p) e_time e (bl_requestSet b) request_decides Hl
    (bo_live b Hb) Hids (bo_set b Hb)) as (s' & -> & Hps & Hss). cbn [outcome_bind negb].
  assert (Hlh : Forall live (bl_minHeap b)) by (rewrite (bo_perm b Hb); apply (bo_live b Hb)).
  destruct (set_insert_ok (EntryResendTimeCmp hp p) e_resend e (bl_minHeap b) resend_decides Hl
    Hlh ltac:(intros e' He'; apply Hids; by rewrite <- (bo_perm b Hb)) (bo_heap b Hb))
    as (h' & -> & Hph & Hsh). cbn [outcome_bind negb].
  pose proof (payloads_nonneg _ (bo_live b Hb)) as Hnn. rewrite <- (bo_size b Hb) in Hnn.
  pose proof (live_payload e Hl). rewrite u64_small by lia.
  eexists. split; [reflexivity|]. split; [|done].
  constructor; cbn [bl_requestSet bl_requestMap bl_sizeBytes bl_minHeap]; [|done|done| | | |done].
  - rewrite Hps. constructor; [done|apply (bo_live b Hb)].
  - by rewrite Hph, Hps, (bo_perm b Hb).
  - intros id e'. rewrite lookup_insert_Some, (bo_map b Hb), Hps, elem_of_cons. split.
    + intros [[<- <-]|(Hne & Hin & Hid')]; [by auto|by auto].
    + intros [[->|Hin] Hid']; [left; split; congruence|]. right. split; [|done].
      rewrite <- Hid, <- Hid'. intros Heq. by apply (Hids e' Hin).
  - rewrite (payloads_perm _ _ Hps), (bo_size b Hb). unfold payloads. cbn. lia.
Qed.

(** C33. A request with a new id is added to the map and, at its place, to the set
    and the heap, and its payload is added to the size. *)
Theorem addPendingRequest_spec b q m : backlog_ok b -> hp !! q = Some m ->
  live (MkBacklogEntry q (m_requestIndex (msg_header m))) ->
  bl_requestMap b !! m_requestId (msg_header m) = None ->
  bl_sizeBytes b + getPayloadSizeBytes m < 2 ^ 64 ->
  let e := MkBacklogEntry q (m_requestIndex (msg_header m)) in
  exists b', addPendingRequest hp p q b = Done (E_OK, b') /\ backlog_ok b' /\
    bl_requestSet b' ≡ₚ e :: bl_requestSet b /\
    bl_requestMap b' = <[m_requestId (msg_header m) := e]> (bl_requestMap b) /\
    bl_sizeBytes b' = bl_sizeBytes b + getPayloadSizeBytes m.
Proof. apply addPendingRequest_ok. Qed.

(** ** Requests that were cleared while they were in the backlog *)

(** the pool after the request of an entry was cleared *)
Definition cleared (e : BacklogEntry) (p' : MsgRequestPool) : Prop :=
  exists r, zget (p_requests p) (be_request e) = Some r /\
    p' = set_requests (zset (p_requests p) (be_request e) (clearResponse r)) p.

Lemma clear_entry e m : live e -> hp !! be_msg e = Some m ->
  exists p', clearPendingRequest (msg_header m) p = Done (E_OK, p') /\ cleared e p'.
Proof.
  intros (m' & r & Hm' & Hr & Hi & Hid) Hm. assert (m' = m) as -> by congruence.
  unfold clearPendingRequest. rewrite Hi, (pool_entry_ok _ _ _ _ Hr Hid). cbn [outcome_bind].
  rewrite (pool_update_ok _ _ _ _ Hr). cbn [outcome_bind]. eexists. split; [done|]. by exists r.
Qed.

Lemma cleared_time e e' p' : live e' -> cleared e p' ->
  entry_requestTime p' e' =
    Done (if decide (be_request e' = be_request e) then 0 else e_time e').
Proof.
  intros Hl (r & Hr & ->). pose proof (live_time e' Hl) as Ht. unfold entry_requestTime, pool_at in *.
  cbn [p_requests set_requests]. case_decide as Heq.
  - unfold mem_get. rewrite Heq, zget_zset_eq by (by eapply zget_Some_range). done.
  - unfold mem_get in *. by rewrite zget_zset_ne by congruence.
Qed.

Lemma lower_bound_zero p' l :
  Forall (fun e => exists t, entry_requestTime p' e = Done t /\ 0 <= t) l -> lower_bound p' 0 l = Done O.
Proof.
  induction 1 as [|e l (t & Ht & Hpos) _ IH]; [done|]. cbn [lower_bound].
  rewrite Ht, IH. cbn [outcome_bind]. destruct (Z.ltb_spec t 0); [lia|done].
Qed.

Lemma cleared_lower_bound e p' l : cleared e p' -> Forall live l ->
  Forall (fun e' => 0 <= e_time e') l -> lower_bound p' 0 l = Done O.
Proof.
  intros Hc Hl Ht. apply lower_bound_zero. rewrite list.Forall_forall in *. intros e' He'.
  rewrite (cleared_time e e') by auto. case_decide; eexists; split; [reflexivity|lia|reflexivity|by auto].
Qed.

(** entries with the same request are the same *)
Lemma request_unique b e e' : backlog_ok b -> e ∈ bl_requestSet b -> e' ∈ bl_requestSet b ->
  be_request e = be_request e' -> e = e'.
Proof.
  intros Hb He He' Hq. pose proof (proj1 (list.Forall_forall _ _) (bo_live b Hb)) as Hl.
  destruct (Hl e He) as (m & r & Hm & Hr & _ & Hid), (Hl e' He') as (m' & r' & Hm' & Hr' & _ & Hid').
  assert (e_id e = e_id e') as Heq by (unfold e_id; rewrite Hm, Hm'; cbn; congruence).
  pose proof (proj2 (bo_map b Hb (e_id e) e) (conj He eq_refl)) as H1.
  pose proof (proj2 (bo_map b Hb (e_id e) e') (conj He' (eq_sym Heq))) as H2. congruence.
Qed.

Lemma cleared_not_found b e0 rest e p' : backlog_ok b -> bl_requestSet b = e0 :: rest ->
  e ∈ rest -> 0 < e_time e0 -> Forall (fun e' => 0 <= e_time e') (bl_requestSet b) -> cleared e p' ->
  removePendingRequest hp p' (be_msg e) b = Done (E_DATA_CORRUPT, b).
Proof.
  intros Hb Hset Hrest Hpos Hts Hp'. pose proof (proj1 (list.Forall_forall _ _) (bo_live b Hb)) as Hl.
  assert (He : e ∈ bl_requestSet b) by (rewrite Hset; by right).
  assert (He0 : e0 ∈ bl_requestSet b) by (rewrite Hset; by left).
  assert (Hne : e0 <> e).
  { pose proof (sorted_NoDup _ _ (bo_set b Hb)) as Hnd. rewrite Hset in Hnd.
    apply list.NoDup_cons in Hnd as [Hn _]. by intros ->. }
  pose proof (Hl e He) as (m & _ & Hm & _).
  unfold removePendingRequest, msg_at. rewrite Hm. cbn [outcome_bind].
  replace (m_requestId (msg_header m)) with (e_id e) by (unfold e_id; by rewrite Hm).
  rewrite (proj2 (bo_map b Hb _ _) (conj He eq_refl)).
  rewrite (cleared_time e e), decide_True by auto. cbn [outcome_bind].
  unfold findRequestByTime. rewrite (cleared_lower_bound e p' _ Hp' (bo_live b Hb) Hts).
  cbn [outcome_bind]. rewrite drop_0, Hset. cbn [find_same_time].
  rewrite (proj2 (Z.eqb_neq _ _)) by (intros Heq; by apply Hne, (entry_unique b)).
  rewrite (cleared_time e e0), decide_False by (auto; intros Heq; by apply Hne, (request_unique b)).
  cbn [outcome_bind]. rewrite (proj2 (Z.eqb_neq _ _)) by lia. done.
Qed.

(** After its request in the pool was cleared, as the sender does when the
    response has arrived, an entry that is not the oldest one is not found any
    more: the removal fails and the entry stays in the backlog. *)
Theorem cleared_request_stays b e0 rest e m : backlog_ok b -> bl_requestSet b = e0 :: rest ->
  e ∈ rest -> hp !! be_msg e = Some m -> 0 < e_time e0 ->
  Forall (fun e' => 0 <= e_time e') (bl_requestSet b) ->
  exists p', clearPendingRequest (msg_header m) p = Done (E_OK, p') /\
    removePendingRequest hp p' (be_msg e) b = Done (E_DATA_CORRUPT, b).
Proof.
  intros Hb Hset Hrest Hm Hpos Hts.
  assert (Hl : live e) by (apply (proj1 (list.Forall_forall _ _) (bo_live b Hb)); rewrite Hset; by right).
  destruct (clear_entry e m Hl Hm) as (p' & Hc & Hp'). exists p'. split; [done|].
  by eapply cleared_not_found.
Qed.

(** Pruning the last request of a backlog above its limit takes the payload
    off the size twice: the size wraps around, the call ends with an internal
    error, and the empty backlog has a size near 2^64. *)
Theorem prune_last_entry_wraps b e m maxBacklogSizeBytes : backlog_ok b -> bl_requestSet b = [e] ->
  hp !! be_msg e = Some m -> 0 <= maxBacklogSizeBytes < getPayloadSizeBytes m -> 0 <= e_time e ->
  exists b' p', pruneBacklog 2 hp maxBacklogSizeBytes b p = Done (E_INTERNAL_ERROR, b', p') /\
    bl_requestSet b' = [] /\ bl_sizeBytes b' = 2 ^ 64 - getPayloadSizeBytes m.
Proof.
  intros Hb Hset Hm Hmax Ht. pose proof (bo_live b Hb) as Hl. rewrite Hset in Hl.
  destruct (Forall_cons_1 _ _ _ Hl) as [He _].
  assert (Hin : e ∈ bl_requestSet b) by (rewrite Hset; by left).
  assert (Hheap : bl_minHeap b = [e]).
  { apply Permutation_singleton_r. rewrite <- Hset. apply (bo_perm b Hb). }
  assert (Hpay : e_payload e = getPayloadSizeBytes m) by (unfold e_payload; by rewrite Hm).
  assert (Hsz : bl_sizeBytes b = getPayloadSizeBytes m).
  { rewrite (bo_size b Hb), Hset. unfold payloads. cbn. lia. }
  assert (getPayloadSizeBytes m < 2 ^ 32) by (unfold getPayloadSizeBytes; apply u32_range).
  unfold pruneBacklog. cbn [pruneBacklog_loop]. rewrite Hsz.
  destruct (Z.ltb_spec maxBacklogSizeBytes (getPayloadSizeBytes m)); [|lia].
  rewrite Hset. unfold msg_at. rewrite Hm. cbn [outcome_bind]. rewrite Z.ltb_irrefl, Z.sub_diag.
  destruct (clear_entry e m He Hm) as (p' & Hc & Hp'). rewrite Hc. cbn [outcome_bind].
  unfold removePendingRequest, msg_at. rewrite Hm. cbn [outcome_bind bl_requestMap].
  replace (m_requestId (msg_header m)) with (e_id e) by (unfold e_id; by rewrite Hm).
  rewrite (proj2 (bo_map b Hb _ _) (conj Hin eq_refl)).
  rewrite (cleared_time e e), decide_True by auto. cbn [outcome_bind].
  unfold findRequestByTime. cbn [bl_requestSet].
  rewrite (cleared_lower_bound e p' [e] Hp' Hl) by (by constructor). cbn [outcome_bind drop find_same_time].
  rewrite Z.eqb_refl. cbn [outcome_bind bl_minHeap]. rewrite Hheap. cbn [find_msg]. rewrite Z.eqb_refl.
  cbn [outcome_bind bl_sizeBytes bl_requestSet set_erase delete list_delete].
  assert (Hw : u64 (0 - getPayloadSizeBytes m) = 2 ^ 64 - getPayloadSizeBytes m).
  { unfold u64. rewrite <- (Z.mod_small (2 ^ 64 - getPayloadSizeBytes m) (2 ^ 64)) by lia.
    rewrite Z.sub_0_l. rewrite <- (Z_mod_plus_full (- getPayloadSizeBytes m) 1). f_equal. lia. }
  rewrite Hw. destruct (Z.ltb_spec maxBacklogSizeBytes (2 ^ 64 - getPayloadSizeBytes m)); [|lia].
  eexists _, _. split; [reflexivity|]. done.
Qed.
End Invariant.

(** the oldest entry goes back to its place *)
Lemma reinsert_first hp p e rest : Forall (live hp p) (e :: rest) ->
  StronglySorted (before hp (e_time p)) (e :: rest) ->
  set_insert (EntryRequestTimeCmp hp p) e rest = Done (true, e :: rest).
Proof.
  intros Hl Hs. apply Forall_cons_1 in Hl as [He Hl]. apply StronglySorted_inv in Hs as [Hs Hlt].
  pose proof (request_decides hp p) as Hc. unfold set_insert.
  rewrite (sorted_in_order hp p _ (before hp (e_time p)) rest Hc) by done.
  destruct rest as [|e' rest]; [done|]. cbn [set_insert_at].
  apply Forall_cons_1 in Hl as [He' _]. apply Forall_cons_1 in Hlt as [Hlt _].
  by destruct (Hc e e' He He') as [[-> _]|[_ Hn]].
Qed.

(** the backlog depends only on the messages that are in it *)
Lemma backlog_ok_heap hp hp' p b : backlog_ok hp p b ->
  (forall e, e ∈ bl_requestSet b -> hp' !! be_msg e = hp !! be_msg e) -> backlog_ok hp' p b.
Proof.
  intros [Hl Hs Hh Hp Hm Hsz Hf] Hsame.
  assert (Hid : forall e, e ∈ bl_requestSet b -> e_id hp' e = e_id hp e)
    by (intros e He; unfold e_id; by rewrite Hsame).
  assert (Hsorted : forall t l, (forall e, e ∈ l -> e ∈ bl_requestSet b) ->
    StronglySorted (before hp t) l -> StronglySorted (before hp' t) l).
  { intros t l Hin Hl'. induction Hl' as [|x l Hl' IH Hx]; constructor.
    - apply IH. intros e He. apply Hin. by right.
    - rewrite list.Forall_forall in *. intros y Hy. specialize (Hx y Hy). unfold before in *.
      rewrite (Hid x), (Hid y); [done|apply Hin; by right|apply Hin; by left]. }
  constructor; try done.
  - rewrite list.Forall_forall in *. intros e He. destruct (Hl e He) as (m & r & Hme & ?).
    exists m, r. by rewrite Hsame.
  - apply Hsorted; auto.
  - apply Hsorted; [|done]. intros e He. by rewrite <- Hp.
  - intros id e. rewrite Hm. split; intros [He <-]; (split; [done|]); by rewrite Hid.
  - rewrite Hsz. clear -Hsame. unfold payloads. induction (bl_requestSet b) as [|x l IH]; [done|].
    cbn. rewrite IH by (intros; apply Hsame; by right). unfold e_payload. by rewrite Hsame by left.
Qed.

(** and on the entries of the pool that it refers to *)
Lemma backlog_ok_pool hp p p' b : backlog_ok hp p b ->
  (forall e, e ∈ bl_requestSet b -> zget (p_requests p') (be_request e) = zget (p_requests p) (be_request e)) ->
  backlog_ok hp p' b.
Proof.
  intros [Hl Hs Hh Hp Hm Hsz Hf] Hsame.
  assert (Hsorted : forall (t t' : BacklogEntry -> Z) l, (forall e, e ∈ l -> t' e = t e) ->
    StronglySorted (before hp t) l -> StronglySorted (before hp t') l).
  { intros t t' l Ht Hl'. induction Hl' as [|x l Hl' IH Hx]; constructor.
    - apply IH. intros e He. apply Ht. by right.
    - rewrite list.Forall_forall in *. intros y Hy. specialize (Hx y Hy). unfold before in *.
      rewrite (Ht x), (Ht y); [done|by right|by left]. }
  constructor; try done.
  - rewrite list.Forall_forall in *. intros e He. destruct (Hl e He) as (m & r & Hme & Hr & ?).
    exists m, r. by rewrite Hsame.
  - apply (Hsorted (e_time p)); [|done]. intros e He. unfold e_time. by rewrite Hsame.
  - apply (Hsorted (e_resend p)); [|done]. intros e He. unfold e_resend. rewrite Hsame; [done|]. by rewrite <- Hp.
Qed.

(** the oldest request stays the oldest one when it is cleared *)
Lemma cleared_first_ok hp p b e rest p' : backlog_ok hp p b -> bl_requestSet b = e :: rest ->
  Forall (fun e' => 0 < e_time p e') rest -> cleared p e p' -> backlog_ok hp p' b.
Proof.
  intros Hb Hset Hts Hc. pose proof (bo_live _ _ _ Hb) as Hl.
  assert (Hne : Forall (fun e' => be_request e' <> be_request e) rest).
  { rewrite list.Forall_forall. intros e' He' Heq.
    assert (e' = e) as ->.
    { apply (request_unique hp p b); rewrite ?Hset; [done|by right|by left|done]. }
    pose proof (sorted_NoDup _ _ _ (bo_set _ _ _ Hb)) as Hnd. rewrite Hset in Hnd.
    by apply list.NoDup_cons in Hnd as [Hn _]. }
  destruct Hc as (r & Hr & ->).
  assert (Hget : forall i, i <> be_request e ->
    zget (zset (p_requests p) (be_request e) (clearResponse r)) i = zget (p_requests p) i)
    by (intros; by apply zget_zset_ne).
  assert (Heq : zget (zset (p_requests p) (be_request e) (clearResponse r)) (be_request e) =
    Some (clearResponse r)) by (apply zget_zset_eq; by eapply zget_Some_range).
  set (p' := set_requests _ p).
  assert (Hresend : forall e', e_resend p' e' = e_resend p e').
  { intros e'. unfold e_resend, p'. cbn. destruct (decide (be_request e' = be_request e)) as [->|Hn].
    - by rewrite Heq, Hr.
    - by rewrite Hget. }
  destruct Hb as [_ Hs Hh Hp Hm Hsz Hf]. constructor; try done.
  - rewrite list.Forall_forall in *. intros e' He'. destruct (Hl e' He') as (m & r' & Hm' & Hr' & Hi & Hid).
    destruct (decide (be_request e' = be_request e)) as [Hq|Hn].
    + rewrite Hq in Hr'. assert (r' = r) as -> by congruence. exists m, (clearResponse r).
      rewrite Hq. split_and!; try done. congruence.
    + exists m, r'. split_and!; try done. unfold p'. cbn. by rewrite Hget.
  - rewrite Hset in *. apply StronglySorted_inv in Hs as [Hs Hlt].
    assert (Hsame : forall e', e' ∈ rest -> e_time p' e' = e_time p e').
    { intros e' He'. unfold e_time, p'. cbn. rewrite Hget; [done|].
      by apply (proj1 (list.Forall_forall _ _) Hne). }
    constructor.
    + clear -Hs Hsame. induction Hs as [|x l Hs IH Hx]; constructor.
      * apply IH. intros e' He'. apply Hsame. by right.
      * rewrite list.Forall_forall in *. intros y Hy. specialize (Hx y Hy). unfold before in *.
        rewrite !Hsame; [done|by right|by left].
    + rewrite list.Forall_forall in *. intros e' He'. unfold before, key_lt. cbn [fst snd].
      assert (e_time p' e = 0) as -> by (unfold e_time, p'; cbn; by rewrite Heq).
      rewrite (Hsame e') by done. left. by apply Hts.
  - clear -Hh Hresend. induction Hh as [|x l Hh IH Hx]; constructor; [done|].
    rewrite list.Forall_forall in *. intros y Hy. specialize (Hx y Hy). unfold before in *.
    by rewrite !Hresend.
Qed.

(** ** Witnesses *)

Definition backlog_msg (id index : Z) : Msg := MkMsg (MsgHeader_new 43 0 0 id index) (le_split 3 id).

Definition backlog_heap : Heap :=
  <[100 := backlog_msg 4 0]> (<[101 := backlog_msg 5 1]> (<[102 := backlog_msg 6 2]> ∅)).

Definition backlog_slot (id msg time : Z) : MsgRequest :=
  MkMsgRequest id RS_PENDING 0 (Some msg) None time time.

Definition backlog_pool : MsgRequestPool :=
  MkMsgRequestPool [backlog_slot 4 100 10; backlog_slot 5 101 20; backlog_slot 6 102 20] 7 false.

Definition entry_a : BacklogEntry := MkBacklogEntry 100 0.
Definition entry_b : BacklogEntry := MkBacklogEntry 101 1.

(** two requests, and a third one that is not in the backlog yet *)
Definition sample_backlog : MsgBacklog :=
  MkMsgBacklog 6 (<[4 := entry_a]> (<[5 := entry_b]> ∅)) [entry_a; entry_b] [entry_a; entry_b].

Definition single_backlog : MsgBacklog := MkMsgBacklog 3 (<[4 := entry_a]> ∅) [entry_a] [entry_a].

Lemma entries_live : live backlog_heap backlog_pool entry_a /\ live backlog_heap backlog_pool entry_b.
Proof. split; eexists _, _; split_and!; reflexivity. Qed.

Lemma sample_backlog_ok : backlog_ok backlog_heap backlog_pool sample_backlog.
Proof.
  destruct entries_live as [Ha Hb]. constructor; cbn [sample_backlog bl_requestSet bl_minHeap bl_requestMap bl_sizeBytes].
  - by repeat constructor.
  - repeat constructor.
  - repeat constructor.
  - done.
  - intros id e. rewrite !lookup_insert_Some, lookup_empty, !elem_of_cons, elem_of_nil.
    assert (e_id backlog_heap entry_a = 4) by reflexivity.
    assert (e_id backlog_heap entry_b = 5) by reflexivity. naive_solver.
  - reflexivity.
  - reflexivity.
Qed.

Lemma single_backlog_ok : backlog_ok backlog_heap backlog_pool single_backlog.
Proof.
  destruct entries_live as [Ha Hb]. constructor; cbn [single_backlog bl_requestSet bl_minHeap bl_requestMap bl_sizeBytes].
  - by repeat constructor.
  - by repeat constructor.
  - by repeat constructor.
  - done.
  - intros id e. rewrite !lookup_insert_Some, lookup_empty, !elem_of_cons, elem_of_nil.
    assert (e_id backlog_heap entry_a = 4) by reflexivity. naive_solver.
  - reflexivity.
  - reflexivity.
Qed.

Lemma removePendingRequest_spec_witness :
  exists b', removePendingRequest backlog_heap backlog_pool 101 sample_backlog = Done (E_OK, b') /\
    backlog_ok backlog_heap backlog_pool b' /\ [entry_a; entry_b] ≡ₚ entry_b :: bl_requestSet b' /\
    bl_requestMap b' = delete (e_id backlog_heap entry_b) (bl_requestMap sample_backlog) /\
    bl_sizeBytes b' = 6 - e_payload backlog_heap entry_b.
Proof.
  apply (removePendingRequest_spec backlog_heap backlog_pool sample_backlog entry_b).
  - apply sample_backlog_ok.
  - apply list_elem_of_In. right. left. reflexivity.
Defined.

Lemma addPendingRequest_spec_witness :
  exists b', addPendingRequest backlog_heap backlog_pool 102 sample_backlog = Done (E_OK, b') /\
    backlog_ok backlog_heap backlog_pool b' /\
    bl_requestSet b' ≡ₚ MkBacklogEntry 102 2 :: [entry_a; entry_b] /\
    bl_requestMap b' = <[6 := MkBacklogEntry 102 2]> (bl_requestMap sample_backlog) /\
    bl_sizeBytes b' = 6 + getPayloadSizeBytes (backlog_msg 6 2).
Proof.
  apply (addPendingRequest_spec backlog_heap backlog_pool sample_backlog 102 (backlog_msg 6 2)).
  - apply sample_backlog_ok.
  - reflexivity.
  - eexists _, _. split_and!; reflexivity.
  - reflexivity.
  - reflexivity.
Defined.

Lemma cleared_request_stays_witness :
  exists p', clearPendingRequest (msg_header (backlog_msg 5 1)) backlog_pool = Done (E_OK, p') /\
    removePendingRequest backlog_heap p' 101 sample_backlog = Done (E_DATA_CORRUPT, sample_backlog).
Proof.
  apply (cleared_request_stays backlog_heap backlog_pool sample_backlog entry_a [entry_b] entry_b).
  - apply sample_backlog_ok.
  - reflexivity.
  - apply list_elem_of_In. left. reflexivity.
  - reflexivity.
  - reflexivity.
  - repeat constructor; vm_compute; discriminate.
Defined.

Lemma prune_last_entry_wraps_witness :
  exists b' p', pruneBacklog 2 backlog_heap 2 single_backlog backlog_pool =
      Done (E_INTERNAL_ERROR, b', p') /\
    bl_requestSet b' = [] /\ bl_sizeBytes b' = 2 ^ 64 - getPayloadSizeBytes (backlog_msg 4 0).
Proof.
  apply (prune_last_entry_wraps backlog_heap backlog_pool single_backlog entry_a (backlog_msg 4 0)).
  - apply single_backlog_ok.
  - reflexivity.
  - reflexivity.
  - split; [discriminate|reflexivity].
  - vm_compute. discriminate.
Defined.
