(* ===== verification/Client.v ===== *)
(** * MsgClient (inc/msg/msg_client.h, src/msg/msg_client.cpp)

    Requests are sent through a data client and matched with their responses by
    the request pool. The data client is an interface; the messages live in a
    heap, so that a request and the pool share one object. *)

From Stdlib Require Import ZArith Lia.
From stdpp Require Import gmap.
From coqutil Require Import Byte.
From S2P Require Import Prelude Errors StrSearch Io Serializable Msg Connection Segmented Assembler.
From S2P Require Import RequestPool.
Open Scope Z_scope.

(** ** Definitions *)

Definition COMMUTIL_MAX_CONCURRENT_REQUESTS : Z := 1024.
Definition COMMUTIL_MSG_WRITE_BY_REF : Z := 1.
Definition COMMUTIL_MSG_WRITE_DISPOSE_BUFFER : Z := 2.

(** what the message client uses of a DataClient, over the state [D] of its object *)
Class DataClient (D : Type) := {
  dc_initialize : D -> ErrorCode * D;
  dc_terminate : D -> ErrorCode * D;
  dc_start : D -> ErrorCode * D;
  dc_stop : D -> ErrorCode * D;
  dc_isReady : D -> bool;
  dc_waitReady : D -> outcome Z;                 (* the status of the connection *)
  dc_setDataLoopListener : option Z -> D -> D;
  dc_byteOrder : D -> ByteOrder;
  dc_write : list Byte.byte -> Z -> option Z -> D -> ErrorCode * D;
}.

(** ConnectData: whether a connect arrived, its status and its connection *)
Record ConnectData := MkConnectData {
  cn_arrived : Z;
  cn_status : Z;
  cn_details : option ConnectionDetails;
}.

Definition ConnectData_new : ConnectData := MkConnectData 0 0 None.
Definition resetConnectData (c : ConnectData) : ConnectData := MkConnectData 0 0 (cn_details c).
Definition notifyConnect (details : ConnectionDetails) (status : Z) (c : ConnectData) : ConnectData :=
  MkConnectData 1 status (Some details).

(** what the transport thread does while a thread waits for the connection *)
Inductive connect_event := CE_connect (details : ConnectionDetails) (status : Z) | CE_disconnect.

Definition connect_event_step (e : connect_event) (c : ConnectData) : ConnectData :=
  match e with
  | CE_connect details status => notifyConnect details status c
  | CE_disconnect => resetConnectData c
  end.

Fixpoint waitConnect_loop (es : list connect_event) (c : ConnectData) : outcome (Z * ConnectData) :=
  if negb (cn_arrived c =? 0) then Done (cn_status c, c) else
  match es with
  | [] => Undef UB_hang
  | e :: es => waitConnect_loop es (connect_event_step e c)
  end.

(** [D] is the data client, [U] the objects of both listeners *)
Record MsgClient (D U : Type) := MkMsgClient {
  mc_heap : Heap;
  mc_dataClient : option D;            (* [None] is a null pointer *)
  mc_assembler : MsgAssembler;
  mc_requestPool : MsgRequestPool;
  mc_connectData : ConnectData;
  mc_hasListener : bool;
  mc_user : U;
}.

Arguments MkMsgClient {D U}.
Arguments mc_heap {D U}.
Arguments mc_dataClient {D U}.
Arguments mc_assembler {D U}.
Arguments mc_requestPool {D U}.
Arguments mc_connectData {D U}.
Arguments mc_hasListener {D U}.
Arguments mc_user {D U}.

Section Client.
Context {D U : Type} `{DataClient D} `{MsgListener U} `{MsgRequestListener U}.
Implicit Types (c : MsgClient D U).

Definition set_heap (hp : Heap) c : MsgClient D U :=
  MkMsgClient hp (mc_dataClient c) (mc_assembler c) (mc_requestPool c) (mc_connectData c)
    (mc_hasListener c) (mc_user c).
Definition set_dataClient (d : option D) c : MsgClient D U :=
  MkMsgClient (mc_heap c) d (mc_assembler c) (mc_requestPool c) (mc_connectData c)
    (mc_hasListener c) (mc_user c).
Definition set_assembler (a : MsgAssembler) c : MsgClient D U :=
  MkMsgClient (mc_heap c) (mc_dataClient c) a (mc_requestPool c) (mc_connectData c)
    (mc_hasListener c) (mc_user c).
Definition set_pool (p : MsgRequestPool) c : MsgClient D U :=
  MkMsgClient (mc_heap c) (mc_dataClient c) (mc_assembler c) p (mc_connectData c)
    (mc_hasListener c) (mc_user c).
Definition set_connectData (n : ConnectData) c : MsgClient D U :=
  MkMsgClient (mc_heap c) (mc_dataClient c) (mc_assembler c) (mc_requestPool c) n
    (mc_hasListener c) (mc_user c).
Definition set_listener (l : bool) c : MsgClient D U :=
  MkMsgClient (mc_heap c) (mc_dataClient c) (mc_assembler c) (mc_requestPool c) (mc_connectData c)
    l (mc_user c).
Definition set_user (u : U) c : MsgClient D U :=
  MkMsgClient (mc_heap c) (mc_dataClient c) (mc_assembler c) (mc_requestPool c) (mc_connectData c)
    (mc_hasListener c) u.

(** the data client behind a pointer that the code does not check *)
Definition the_dataClient c : outcome D :=
  match mc_dataClient c with Some d => Done d | None => Undef UB_null end.

Definition client_initialize (allocs : nat -> bool) (dataClient : D) (maxConcurrentRequests : Z)
    (msgListener : bool) c : ErrorCode * MsgClient D U :=
  if COMMUTIL_MAX_CONCURRENT_REQUESTS <? maxConcurrentRequests then (E_INVALID_ARGUMENT, c) else
  let '(rc, dataClient) := dc_initialize dataClient in
  if decide (rc <> E_OK) then (rc, c) else
  let '(rc, a) := asm_initialize allocs 1 (dc_byteOrder dataClient) (mc_assembler c) in
  let c := set_assembler a c in
  if decide (rc <> E_OK) then (rc, c) else
  let c := set_dataClient (Some dataClient) c in
  let c := set_pool (pool_initialize maxConcurrentRequests (mc_requestPool c)) c in
  (E_OK, set_listener msgListener c).

Definition client_terminate c : outcome (ErrorCode * MsgClient D U) :=
  let c := set_pool (pool_terminate (mc_requestPool c)) c in
  let* d := the_dataClient c in
  let '(rc, d) := dc_terminate d in
  let c := set_dataClient (Some d) c in
  if decide (rc <> E_OK) then Done (rc, c) else
  let '(rc, a, _) := asm_terminate (mc_assembler c) in
  Done (rc, set_assembler a c).

Definition client_start c : ErrorCode * MsgClient D U :=
  match mc_dataClient c with
  | None => (E_INVALID_STATE, c)
  | Some d => let '(rc, d) := dc_start d in (rc, set_dataClient (Some d) c)
  end.

Definition client_stop c : ErrorCode * MsgClient D U :=
  match mc_dataClient c with
  | None => (E_INVALID_STATE, c)
  | Some d => let '(rc, d) := dc_stop d in (rc, set_dataClient (Some d) c)
  end.

Definition client_isReady c : ErrorCode :=
  match mc_dataClient c with
  | None => E_INVALID_STATE
  | Some d => if dc_isReady d then E_OK else E_INPROGRESS
  end.

(** the status is not handed on *)
Definition client_waitReady c : outcome ErrorCode :=
  match mc_dataClient c with
  | None => Done E_INVALID_STATE
  | Some d => let* _ := dc_waitReady d in Done E_OK
  end.

Definition client_setDataLoopListener (listener : option Z) c : outcome (MsgClient D U) :=
  let* d := the_dataClient c in Done (set_dataClient (Some (dc_setDataLoopListener listener d)) c).

Definition client_waitConnect (es : list connect_event) c
  : outcome (ErrorCode * option Z * MsgClient D U) :=
  match mc_dataClient c with
  | None => Done (E_INVALID_STATE, None, c)
  | Some _ =>
    let* '(status, n) := waitConnect_loop es (mc_connectData c) in
    Done (E_OK, Some status, set_connectData n c)
  end.

(** an operation on the request of the message *)
Definition with_request (index : Z) (f : MsgRequest -> MsgRequest) c : outcome (MsgClient D U) :=
  let* p := pool_update index f (mc_requestPool c) in Done (set_pool p c).

(** the failures after the request was taken: [request->clearRequest()] *)
Definition send_failed (rc : ErrorCode) (index : Z) (requestData : MsgRequestData) c
  : outcome (ErrorCode * option MsgRequestData * MsgClient D U) :=
  let* c := with_request index (fun r => snd (clearRequest r)) c in
  Done (rc, Some requestData, c).

(** the serialized message goes to the transport; [alloc] is the buffer allocator
    of the data client, [None] for a null result *)
Definition transport_send (alloc : Z -> option (list Byte.byte)) (msg : Z) (userData : option Z)
    (index : Z) (requestData : MsgRequestData) c
  : outcome (ErrorCode * option MsgRequestData * MsgClient D U) :=
  let* m := msg_at (mc_heap c) msg in
  let msgLength := m_length (msg_header m) in
  let* d := the_dataClient c in
  match alloc msgLength with
  | None => send_failed E_NOMEM index requestData c
  | Some buffer =>
    let os := FixedOutputStream_new buffer msgLength (dc_byteOrder d) in
    let* '(rc, os) := msg_serialize m os in
    if decide (rc <> E_OK) then send_failed rc index requestData c else
    let writeFlags := Z.lor COMMUTIL_MSG_WRITE_BY_REF COMMUTIL_MSG_WRITE_DISPOSE_BUFFER in
    let '(rc, d) := dc_write (ztake (fos_getLength os) (fos_getBuffer os)) writeFlags userData d in
    let c := set_dataClient (Some d) c in
    if decide (rc <> E_OK) then send_failed rc index requestData c
    else Done (E_OK, Some requestData, c)
  end.

(** [now] is the clock; the second result is what is written to [*requestData] *)
Definition client_sendMsg (alloc : Z -> option (list Byte.byte)) (now msg requestFlags : Z) c
  : outcome (ErrorCode * option MsgRequestData * MsgClient D U) :=
  let reuseRequest := negb (Z.land requestFlags COMMUTIL_REQUEST_FLAG_REUSE =? 0) in
  let* m := msg_at (mc_heap c) msg in
  let '(requestId, p) :=
    if reuseRequest then (m_requestId (msg_header m), mc_requestPool c)
    else fetchAddRequestId (mc_requestPool c) in
  let* '(request, requestIndex, p) :=
    if reuseRequest then let* r := getRequestData (msg_header m) p in Done (r, 0, p)
    else let* '(r, p) := getVacantRequest requestId p in Done (r, default 0 r, p) in
  let c := set_pool p c in
  match request with
  | None => Done (E_RESOURCE_LIMIT, None, c)
  | Some index =>
    let requestData := MkMsgRequestData requestId requestIndex in
    let* c := with_request index (setFlags requestFlags) c in
    if reuseRequest then transport_send alloc msg None index requestData c
    else
      let* c := with_request index (setRequest now (Some msg)) c in
      let h := setRequestId requestId (setRequestIndex requestIndex (msg_header m)) in
      let c := set_heap (<[msg := set_header h m]> (mc_heap c)) c in
      transport_send alloc msg (Some msg) index requestData c
  end.

(** [es]: what happens to the request while the thread waits *)
Definition client_transactMsgResponse (alloc : Z -> option (list Byte.byte)) (now msg : Z)
    (es : list req_event) (timeoutMillis : Z) (response : option Z) c
  : outcome (ErrorCode * option Z * MsgClient D U) :=
  let* '(rc, requestData, c) := client_sendMsg alloc now msg COMMUTIL_REQUEST_FLAG_TX c in
  if decide (rc <> E_OK) then Done (rc, response, c) else
  let* '(rc, response, p) := waitPendingResponse (default MsgRequestData_new requestData)
    timeoutMillis es response (mc_requestPool c) in
  Done (rc, response, set_pool p c).

(** the template with the function [f] over the response *)
Definition client_transactMsg (alloc : Z -> option (list Byte.byte)) (now msg : Z)
    (es : list req_event) (timeoutMillis : Z) (f : Msg -> ErrorCode) c
  : outcome (ErrorCode * MsgClient D U) :=
  let* '(rc, response, c) := client_transactMsgResponse alloc now msg es timeoutMillis None c in
  if decide (rc <> E_OK) then Done (rc, c) else
  match response with
  | None => Undef UB_null
  | Some r =>
    let* m := msg_at (mc_heap c) r in
    Done (f m, set_heap (delete r (mc_heap c)) c)
  end.

Definition client_onConnect (details : ConnectionDetails) (status : Z) c : bool * MsgClient D U :=
  let c := set_connectData (notifyConnect details status (mc_connectData c)) c in
  if mc_hasListener c then
    let '(accepted, u) := onConnect details status (mc_user c) in (accepted, set_user u c)
  else (true, c).

Definition client_onDisconnect (details : ConnectionDetails) c : MsgClient D U :=
  let c := set_pool (abortPendingRequests (mc_requestPool c)) c in
  let c := set_connectData (resetConnectData (mc_connectData c)) c in
  if mc_hasListener c then set_user (onDisconnect details (mc_user c)) c else c.

(** [msg] is the pointer of the incoming message *)
Definition client_onMsg (details : ConnectionDetails) (msg : Z) (canSaveMsg : bool) c
  : outcome (MsgAction * MsgClient D U) :=
  if negb canSaveMsg then Undef UB_assert else
  let* m := msg_at (mc_heap c) msg in
  let* '(rc, flags, (u, p)) := pool_setResponse msg (msg_header m) (mc_user c, mc_requestPool c) in
  let c := set_user u (set_pool p c) in
  let shouldFireNotification := Z.land (default 0 flags) COMMUTIL_REQUEST_FLAG_TX =? 0 in
  let c :=
    if shouldFireNotification && mc_hasListener c
    then set_user (snd (onMsg details m false (mc_user c))) c else c in
  Done (if decide (rc = E_OK) then MSG_CANNOT_DELETE else MSG_CAN_DELETE, c).
End Client.

(** ** Sending *)

(** a message that fills the buffer that was allocated for it *)
Lemma serialize_exact m buffer order : msg_ok m -> zlen buffer = m_length (msg_header m) ->
  exists os, msg_serialize m (FixedOutputStream_new buffer (m_length (msg_header m)) order) =
      Done (E_OK, os) /\
    ztake (fos_getLength os) (fos_getBuffer os) =
      msg_image m (bool_decide (order = NETWORK_ORDER)).
Proof.
  intros Hm Hl. pose proof Hm as [Hh _]. pose proof (hok_length _ Hh) as Hr.
  set (os0 := FixedOutputStream_new _ _ _).
  assert (Hok : os_ok os0) by (unfold os0; cbn; unfold fos_ok; cbn; lia).
  destruct (emits_msg m Hm os0 Hok) as [Hwrite _].
  destruct Hwrite as (os & Hrun & _ & Hw & _).
  - rewrite msg_image_length by done. unfold os0. cbn. lia.
  - exists os. split; [exact Hrun|]. exact Hw.
Qed.

Section SendLemmas.
Context {D U : Type} `{DataClient D} `{MsgListener U} `{MsgRequestListener U}.
Implicit Types (c : MsgClient D U).

(** what reaches the transport layer *)
Definition sent_bytes (d : D) (m : Msg) : list Byte.byte :=
  msg_image m (bool_decide (dc_byteOrder d = NETWORK_ORDER)).

Definition sent_flags : Z := Z.lor COMMUTIL_MSG_WRITE_BY_REF COMMUTIL_MSG_WRITE_DISPOSE_BUFFER.

Lemma transport_send_ok alloc msg ud index rd c m d buffer r :
  mc_heap c !! msg = Some m -> msg_ok m -> mc_dataClient c = Some d ->
  alloc (m_length (msg_header m)) = Some buffer -> zlen buffer = m_length (msg_header m) ->
  zget (p_requests (mc_requestPool c)) index = Some r ->
  transport_send alloc msg ud index rd c =
    let '(rc, d') := dc_write (sent_bytes d m) sent_flags ud d in
    let p := mc_requestPool c in
    Done (rc, Some rd,
      set_pool (if decide (rc = E_OK) then p
                else set_requests (zset (p_requests p) index (snd (clearRequest r))) p)
        (set_dataClient (Some d') c)).
Proof.
  intros Hm Hok Hd Ha Hl Hr. unfold transport_send, msg_at. rewrite Hm. cbn [outcome_bind].
  unfold the_dataClient. rewrite Hd. cbn [outcome_bind]. rewrite Ha.
  destruct (serialize_exact m buffer (dc_byteOrder d) Hok Hl) as (os & Hs & Hb).
  rewrite Hs. cbn [outcome_bind]. rewrite decide_False by (intros Hc; by apply Hc).
  rewrite Hb. fold (sent_bytes d m). fold sent_flags.
  destruct (dc_write (sent_bytes d m) sent_flags ud d) as [rc d'].
  destruct (decide (rc = E_OK)) as [->|Hrc].
  - rewrite decide_False by (intros Hc; by apply Hc). by destruct c.
  - rewrite decide_True by done. unfold send_failed, with_request.
    cbn [set_dataClient mc_requestPool]. by rewrite (pool_update_ok _ _ _ _ Hr).
Qed.

(** whatever happens to a message that has its request entry, the entry stays *)
Lemma transport_send_pool alloc msg ud index rd c rc rd' c' r :
  zget (p_requests (mc_requestPool c)) index = Some r ->
  transport_send alloc msg ud index rd c = Done (rc, rd', c') ->
  rd' = Some rd /\ mc_heap c' = mc_heap c /\ mc_requestPool c' =
    if decide (rc = E_OK) then mc_requestPool c
    else set_requests (zset (p_requests (mc_requestPool c)) index (snd (clearRequest r)))
           (mc_requestPool c).
Proof.
  intros Hr. unfold transport_send.
  assert (Hfail : forall e c0, e <> E_OK -> mc_requestPool c0 = mc_requestPool c ->
    mc_heap c0 = mc_heap c -> send_failed e index rd c0 = Done (rc, rd', c') ->
    rd' = Some rd /\ mc_heap c' = mc_heap c /\
    mc_requestPool c' = if decide (rc = E_OK) then mc_requestPool c
      else set_requests (zset (p_requests (mc_requestPool c)) index (snd (clearRequest r)))
             (mc_requestPool c)).
  { intros e c0 He Hp Hh. unfold send_failed, with_request.
    rewrite Hp, (pool_update_ok _ _ _ _ Hr). cbn [outcome_bind]. intros [= <- <- <-].
    by rewrite decide_False. }
  intros Hrun. inv_bind. destruct (alloc _) as [buffer|]; [|by apply (Hfail E_NOMEM c)].
  inv_bind. destruct a1 as [rc1 os]. case_decide as Hrc1; [by apply (Hfail rc1 c)|].
  destruct (dc_write _ _ _ _) as [rc2 d'].
  case_decide as Hrc2; [by apply (Hfail rc2 _ Hrc2) in Hrun|].
  injection Hrun as <- <- <-. by rewrite decide_True.
Qed.

Lemma msg_ok_request m id i : msg_ok m -> 0 <= id < 2 ^ 64 -> 0 <= i < 2 ^ 32 ->
  msg_ok (set_header (setRequestId id (setRequestIndex i (msg_header m))) m).
Proof. intros [[] Hl] Hid Hi. split; [by constructor|exact Hl]. Qed.

(** the entry of a request that was just taken *)
Definition fresh_request (id flags now msg : Z) (r : MsgRequest) : MsgRequest :=
  setRequest now (Some msg) (setFlags flags (snd (tryGrab id r))).

(** the start of a call: the request entry is taken and filled in *)
Lemma client_sendMsg_grab alloc now msg flags c m :
  let id := p_nextRequestId (mc_requestPool c) in
  pool_ok (mc_requestPool c) -> mc_heap c !! msg = Some m ->
  Z.land flags COMMUTIL_REQUEST_FLAG_REUSE = 0 ->
  (exists i p r, let m' := set_header (setRequestId id (setRequestIndex i (msg_header m))) m in
     client_sendMsg alloc now msg flags c =
       transport_send alloc msg (Some msg) i (MkMsgRequestData id i)
         (set_heap (<[msg:=m']> (mc_heap c)) (set_pool p c)) /\
     vacant_at (mc_requestPool c) i /\ same_but i (mc_requestPool c) p /\
     zget (p_requests p) i = Some r /\ rq_status r = RS_PENDING /\ rq_requestId r = id /\
     rq_flags r = flags /\ rq_request r = Some msg /\ p_nextRequestId p = u64 (id + 1) /\
     p_listener p = p_listener (mc_requestPool c) /\ rq_requestTimeMillis r = now) \/
  (exists p, client_sendMsg alloc now msg flags c = Done (E_RESOURCE_LIMIT, None, set_pool p c) /\
     (forall i, ~ vacant_at (mc_requestPool c) i) /\ p_requests p = p_requests (mc_requestPool c)).
Proof.
  cbn zeta. intros Hok Hm Hf. unfold client_sendMsg. rewrite Hf. cbn [Z.eqb negb].
  unfold msg_at. rewrite Hm. cbn [outcome_bind fetchAddRequestId].
  set (id := p_nextRequestId (mc_requestPool c)). set (p0 := MkMsgRequestPool _ _ _).
  destruct (getVacantRequest_ok p0 id Hok) as [(i & p1 & Hg & Hv & Hp & Hsame)|[Hg Hnone]];
    rewrite Hg; cbn [outcome_bind default].
  - left. destruct Hp as (r & Hr & Hst & Hid).
    pose proof (getVacantRequest_frame _ _ _ _ Hg) as [Hnext Hlis].
    unfold with_request. cbn [set_pool mc_requestPool].
    rewrite (pool_update_ok _ _ _ _ Hr). cbn [outcome_bind set_pool mc_requestPool].
    assert (Hi : 0 <= i < zlen (p_requests p1)) by (by eapply zget_Some_range).
    erewrite pool_update_ok by (cbn; by apply zget_zset_eq). cbn [outcome_bind set_requests p_requests].
    eexists i, _, _. split; [reflexivity|]. split; [exact Hv|]. split.
    { etransitivity; [exact Hsame|]. etransitivity; [apply (same_but_set _ _ (setFlags flags r))|].
      apply (same_but_set (set_requests _ _)). }
    cbn. rewrite zget_zset_eq by (by rewrite zlen_zset). split; [reflexivity|]. by cbn.
  - right. exists p0. by split_and!.
Qed.
End SendLemmas.

(** ** Properties *)

Section Theorems.
Context {D U : Type} `{DataClient D} `{MsgListener U} `{MsgRequestListener U}.
Implicit Types (c : MsgClient D U).

(** A request that does not reuse an entry takes a vacant one if there is one
    and fails with E_RESOURCE_LIMIT otherwise. The message gets the next request
    id and the index of the entry, its serialized form is written to the transport
    layer, and the result is the one of the transport layer; the entry is pending
    for the message, and no other entry changes. *)
Theorem client_sendMsg_spec alloc now msg flags c m d :
  let p := mc_requestPool c in
  let id := p_nextRequestId p in
  pool_ok p -> 0 <= id < 2 ^ 64 -> mc_heap c !! msg = Some m -> msg_ok m ->
  mc_dataClient c = Some d -> Z.land flags COMMUTIL_REQUEST_FLAG_REUSE = 0 ->
  (exists buffer, alloc (m_length (msg_header m)) = Some buffer /\
     zlen buffer = m_length (msg_header m)) ->
  (exists i c', let m' := set_header (setRequestId id (setRequestIndex i (msg_header m))) m in
     let '(rc, d') := dc_write (sent_bytes d m') sent_flags (Some msg) d in
     client_sendMsg alloc now msg flags c = Done (rc, Some (MkMsgRequestData id i), c') /\
     vacant_at p i /\ pending_at (mc_requestPool c') i id /\ same_but i p (mc_requestPool c') /\
     (exists r, zget (p_requests (mc_requestPool c')) i = Some r /\ rq_flags r = flags /\
        rq_request r = if decide (rc = E_OK) then Some msg else None) /\
     mc_heap c' = <[msg:=m']> (mc_heap c) /\ mc_dataClient c' = Some d' /\
     p_nextRequestId (mc_requestPool c') = u64 (id + 1)) \/
  (exists c', client_sendMsg alloc now msg flags c = Done (E_RESOURCE_LIMIT, None, c') /\
     (forall i, ~ vacant_at p i) /\ p_requests (mc_requestPool c') = p_requests p).
Proof.
  cbn zeta. intros Hok Hid Hm Hmok Hd Hf (buffer & Ha & Hl).
  destruct (client_sendMsg_grab alloc now msg flags c m Hok Hm Hf)
    as [(i & p & r & Hrun & Hv & Hsame & Hr & Hst & Hrid & Hfl & Hrq & Hnext & Hlis & _)
       |(p & Hrun & Hno & Hp)]; [left|right; by exists (set_pool p c)].
  exists i. set (m' := set_header _ _) in *.
  assert (Hi : 0 <= i < 2 ^ 32).
  { pose proof (zget_Some_range _ _ _ Hr). destruct Hsame as [Hlen _]. unfold pool_ok in Hok. lia. }
  rewrite Hrun. erewrite (transport_send_ok alloc msg (Some msg) i _ _ m' d buffer r);
    [|cbn; apply lookup_insert_eq|by apply msg_ok_request|exact Hd|exact Ha|exact Hl|exact Hr].
  destruct (dc_write (sent_bytes d m') sent_flags (Some msg) d) as [rc d'].
  eexists. split; [reflexivity|]. cbn. split; [exact Hv|].
  destruct (decide (rc = E_OK)) as [->|Hrc]; cbn.
  - split_and!; try done; by exists r.
  - assert (Hget : zget (zset (p_requests p) i (snd (clearRequest r))) i =
        Some (snd (clearRequest r))) by (apply zget_zset_eq; by eapply zget_Some_range).
    split_and!; try done; [by exists (snd (clearRequest r))|..|by exists (snd (clearRequest r))].
    etransitivity; [exact Hsame|]. apply same_but_set.
Qed.

(** A request whose sending fails after it took its entry keeps the entry:
    the entry stays pending, nobody waits for it, and one entry less is vacant. *)
Theorem failed_send_leaks_entry alloc now msg flags c rc rd c' :
  pool_ok (mc_requestPool c) -> Z.land flags COMMUTIL_REQUEST_FLAG_REUSE = 0 ->
  client_sendMsg alloc now msg flags c = Done (rc, Some rd, c') -> rc <> E_OK ->
  vacant_at (mc_requestPool c) (rd_requestIndex rd) /\
  pending_at (mc_requestPool c') (rd_requestIndex rd) (rd_requestId rd) /\
  vacant_count (mc_requestPool c) = S (vacant_count (mc_requestPool c')).
Proof.
  intros Hok Hf Hrun Hrc.
  assert (exists m, mc_heap c !! msg = Some m) as [m Hm].
  { unfold client_sendMsg, msg_at in Hrun. destruct (mc_heap c !! msg); [by eexists|done]. }
  destruct (client_sendMsg_grab alloc now msg flags c m Hok Hm Hf)
    as [(i & p & r & Hrun' & Hv & Hsame & Hr & Hst & Hrid & _)|(p & Hrun' & _)];
    rewrite Hrun' in Hrun; [|done].
  destruct (transport_send_pool alloc msg (Some msg) i _ (set_heap _ (set_pool p c)) rc (Some rd) c' r Hr Hrun)
    as ([= ->] & _ & Hp).
  rewrite decide_False in Hp by done. cbn [rd_requestIndex rd_requestId]. rewrite Hp.
  assert (Hget : zget (p_requests (set_requests (zset (p_requests p) i (snd (clearRequest r))) p)) i =
    Some (snd (clearRequest r))) by (apply zget_zset_eq; by eapply zget_Some_range).
  split; [exact Hv|]. split; [by eexists|].
  eapply vacant_count_taken; [|exact Hv|].
  - etransitivity; [exact Hsame|]. apply same_but_set.
  - intros (x & Hx & Hidle). cbn in Hget. cbn in Hx. rewrite Hget in Hx. injection Hx as <-. cbn in *. congruence.
Qed.

(** the request of a transaction that the transport layer accepts *)
Lemma transaction_sent alloc now msg c m d :
  let p := mc_requestPool c in
  let id := p_nextRequestId p in
  pool_ok p -> 0 <= id < 2 ^ 64 -> mc_heap c !! msg = Some m -> msg_ok m ->
  mc_dataClient c = Some d -> (exists i, vacant_at p i) ->
  (exists buffer, alloc (m_length (msg_header m)) = Some buffer /\
     zlen buffer = m_length (msg_header m)) ->
  (forall bytes, fst (dc_write bytes sent_flags (Some msg) d) = E_OK) ->
  exists i r c', client_sendMsg alloc now msg COMMUTIL_REQUEST_FLAG_TX c =
      Done (E_OK, Some (MkMsgRequestData id i), c') /\ vacant_at p i /\
    same_but i p (mc_requestPool c') /\ zget (p_requests (mc_requestPool c')) i = Some r /\
    rq_status r = RS_PENDING /\ rq_requestId r = id /\
    mc_heap c' = <[msg := set_header (setRequestId id (setRequestIndex i (msg_header m))) m]> (mc_heap c) /\
    mc_connectData c' = mc_connectData c /\ rq_flags r = COMMUTIL_REQUEST_FLAG_TX /\ rq_requestTimeMillis r = now.
Proof.
  cbn zeta. intros Hok Hid Hm Hmok Hd [v Hv0] (buffer & Ha & Hl) Hwrite.
  destruct (client_sendMsg_grab alloc now msg COMMUTIL_REQUEST_FLAG_TX c m Hok Hm eq_refl)
    as [(i & p & r & Hrun & Hv & Hsame & Hr & Hst & Hrid & Hfl & _ & _ & _ & Htime)|(p & _ & Hno & _)]; [|by destruct (Hno v)].
  exists i, r. set (m' := set_header _ _) in *.
  assert (Hi : 0 <= i < 2 ^ 32).
  { pose proof (zget_Some_range _ _ _ Hr). destruct Hsame as [Hlen _]. unfold pool_ok in Hok. lia. }
  rewrite Hrun. erewrite (transport_send_ok alloc msg (Some msg) i _ _ m' d buffer r);
    [|cbn; apply lookup_insert_eq|by apply msg_ok_request|exact Hd|exact Ha|exact Hl|exact Hr].
  specialize (Hwrite (sent_bytes d m')).
  destruct (dc_write (sent_bytes d m') sent_flags (Some msg) d) as [rc d']. cbn in Hwrite. subst rc.
  by eexists.
Qed.

(** C20. A transaction whose request is written and answered ends with the response
    and with its entry vacant again, however often the wait is interrupted; when
    the connection is lost instead it is cancelled, and its entry is not vacant. *)
Theorem transaction_ends alloc now msg timeout n rsp es c m d :
  let p := mc_requestPool c in
  let quiet := replicate n RE_other in
  pool_ok p -> 0 <= p_nextRequestId p < 2 ^ 64 -> mc_heap c !! msg = Some m -> msg_ok m ->
  mc_dataClient c = Some d -> (exists i, vacant_at p i) ->
  (exists buffer, alloc (m_length (msg_header m)) = Some buffer /\
     zlen buffer = m_length (msg_header m)) ->
  (forall bytes, fst (dc_write bytes sent_flags (Some msg) d) = E_OK) ->
  exists i, vacant_at p i /\
  (exists c', client_transactMsgResponse alloc now msg
       (quiet ++ RE_setResponse (Some rsp) :: es) timeout None c = Done (E_OK, Some rsp, c') /\
     vacant_at (mc_requestPool c') i /\ same_but i p (mc_requestPool c')) /\
  (exists c', client_transactMsgResponse alloc now msg (quiet ++ RE_abort :: es) timeout None c =
       Done (E_IO_CANCELED, None, c') /\
     ~ vacant_at (mc_requestPool c') i /\ same_but i p (mc_requestPool c')).
Proof.
  cbn zeta. intros Hok Hid Hm Hmok Hd Hv0 Ha Hwrite.
  destruct (transaction_sent alloc now msg c m d Hok Hid Hm Hmok Hd Hv0 Ha Hwrite)
    as (i & r & c1 & Hrun & Hv & Hsame & Hr & Hst & Hrid & _).
  destruct (waitResponse_results timeout n rsp es r Hst) as (Hset & Hab & _).
  exists i. split; [exact Hv|]. unfold client_transactMsgResponse. rewrite Hrun. cbn [outcome_bind].
  rewrite !(decide_False (P := E_OK <> E_OK)) by (intros Hc; by apply Hc). cbn [from_option id]. split.
  - edestruct (waitPendingResponse_ok (mc_requestPool c1) i _ timeout _ None r E_OK _ _ Hr Hrid Hset
      eq_refl ltac:(done)) as (p' & Hw & Hv' & Hs').
    rewrite Hw. cbn [outcome_bind default]. eexists. split; [reflexivity|]. split; [exact Hv'|].
    by etransitivity.
  - edestruct (waitPendingResponse_failed (mc_requestPool c1) i _ timeout _ None r _ _ _ Hr Hrid Hab
      ltac:(done)) as (p' & Hw & Hg & Hs').
    rewrite Hw. cbn [outcome_bind default]. eexists. split; [reflexivity|].
    split; [|by etransitivity]. intros (x & Hx & Hidle). cbn in Hx. rewrite Hg in Hx. injection Hx as <-.
    revert Hidle. unfold abortResponse. by rewrite decide_True.
Qed.

(** An incoming message that names a pending request is stored in its entry
    and kept; one that names none is refused and changes nothing. The listener is
    told of it exactly when no transaction waits for it. *)
Theorem client_onMsg_spec details msg c m :
  let p := mc_requestPool c in
  let i := m_requestIndex (msg_header m) in
  let id := m_requestId (msg_header m) in
  mc_heap c !! msg = Some m -> 0 <= i ->
  let told u := if mc_hasListener c then snd (onMsg details m false u) else u in
  (forall r, zget (p_requests p) i = Some r -> rq_requestId r = id ->
     exists c', client_onMsg details msg true c = Done (MSG_CANNOT_DELETE, c') /\
     zget (p_requests (mc_requestPool c')) i = Some (setResponse (Some msg) r) /\
     same_but i p (mc_requestPool c') /\
     let u := if p_listener p then onResponseArrived (rq_request r) msg (mc_user c) else mc_user c in
     mc_user c' = if Z.land (rq_flags r) COMMUTIL_REQUEST_FLAG_TX =? 0 then told u else u) /\
  ((forall r, zget (p_requests p) i = Some r -> rq_requestId r <> id) ->
     exists c', client_onMsg details msg true c = Done (MSG_CAN_DELETE, c') /\
     mc_requestPool c' = p /\ mc_user c' = told (mc_user c)).
Proof.
  cbn zeta. intros Hm Hi. unfold client_onMsg, msg_at. rewrite Hm. cbn [negb outcome_bind].
  unfold pool_setResponse. split.
  - intros r Hr Hid. rewrite (pool_entry_ok _ _ _ _ Hr Hid). cbn [outcome_bind].
    rewrite (pool_update_ok _ _ _ _ Hr). cbn [outcome_bind default from_option id].
    rewrite decide_True by done. eexists. split; [reflexivity|].
    cbn [set_user set_pool mc_requestPool mc_hasListener mc_user].
    pose proof (zget_Some_range _ _ _ Hr).
    destruct (_ =? 0), (mc_hasListener c); cbn; (split; [by apply zget_zset_eq|]);
      (split; [apply same_but_set|]); done.
  - intros Hno.
    assert (Hent : exists rc, rc <> E_OK /\ pool_entry (m_requestIndex (msg_header m))
        (m_requestId (msg_header m)) (mc_requestPool c) = Done (rc, None)).
    { unfold pool_entry. destruct (Z.leb_spec (zlen (p_requests (mc_requestPool c)))
        (m_requestIndex (msg_header m))) as [Hle|Hlt]; [by exists E_INVALID_ARGUMENT|].
      destruct (zget_is_Some (p_requests (mc_requestPool c)) (m_requestIndex (msg_header m)))
        as [r Hr]; [lia|].
      rewrite (pool_at_ok _ _ _ Hr). cbn [outcome_bind]. specialize (Hno r Hr).
      destruct (Z.eqb_spec (rq_requestId r) (m_requestId (msg_header m))); [done|].
      by exists E_DATA_CORRUPT. }
    destruct Hent as (rc & Hrc & Hent). rewrite Hent. cbn [outcome_bind default from_option id].
    rewrite decide_False by done. eexists. split; [reflexivity|].
    change (Z.land 0 COMMUTIL_REQUEST_FLAG_TX =? 0) with true. cbn. by destruct (mc_hasListener c).
Qed.

(** A thread that waits for the connection gets the status of the first
    connection after any number of disconnections; it returns the stored status at
    once if the client is connected, and never returns if no connection comes. *)
Theorem waitConnect_status c d details status n es :
  mc_dataClient c = Some d -> cn_arrived (mc_connectData c) = 0 ->
  (exists c', client_waitConnect (replicate n CE_disconnect ++ CE_connect details status :: es) c =
     Done (E_OK, Some status, c') /\ cn_details (mc_connectData c') = Some details) /\
  client_waitConnect (replicate n CE_disconnect) c = Undef UB_hang /\
  (let c' := snd (client_onConnect details status c) in
   exists c'', client_waitConnect es c' = Done (E_OK, Some status, c'')).
Proof.
  intros Hd Ha.
  assert (Hskip : forall k l x, cn_arrived x = 0 ->
    exists y, cn_arrived y = 0 /\
      waitConnect_loop (replicate k CE_disconnect ++ l) x = waitConnect_loop l y).
  { induction k as [|k IH]; intros l x Hx; [by exists x|]. cbn. rewrite Hx. by apply IH. }
  unfold client_waitConnect. rewrite Hd. split_and!.
  - destruct (Hskip n (CE_connect details status :: es) _ Ha) as (y & Hy & ->). cbn. rewrite Hy.
    destruct es; cbn; by eexists.
  - rewrite <- (app_nil_r (replicate n CE_disconnect)).
    destruct (Hskip n [] _ Ha) as (y & Hy & ->). cbn. by rewrite Hy.
  - unfold client_onConnect. cbn zeta.
    destruct (mc_hasListener _); [destruct (onConnect details status _) as [acc u]|]; cbn;
      rewrite Hd; destruct es; cbn; by eexists.
Qed.
End Theorems.

(** ** Witnesses *)

(** a transport layer that records what is written to it and answers [rc] *)
Record SampleTransport := MkSampleTransport { st_rc : ErrorCode; st_written : list (list Byte.byte) }.

#[local] Instance sample_transport : DataClient SampleTransport := {|
  dc_initialize d := (E_OK, d); dc_terminate d := (E_OK, d); dc_start d := (E_OK, d);
  dc_stop d := (E_OK, d); dc_isReady _ := true; dc_waitReady _ := Done 0; dc_setDataLoopListener _ d := d; dc_byteOrder _ := NETWORK_ORDER;
  dc_write bytes _ _ d := (st_rc d, MkSampleTransport (st_rc d) (bytes :: st_written d));
|}.

#[local] Instance sample_callbacks : MsgListener (list Msg) := {|
  onConnect _ _ u := (true, u); onDisconnect _ u := u; onMsg _ m _ u := (MSG_CAN_DELETE, m :: u);
|}.

#[local] Instance sample_request_listener : MsgRequestListener (list Msg) :=
  {| onResponseArrived _ _ u := u |}.

Definition sample_msg : Msg := MkMsg (MsgHeader_new 42 7 0 0 0) [NUL; NUL].
Definition sample_response : Msg := MkMsg (MsgHeader_new 42 8 0 4 0) [NUL; NUL].

(** the first entry is pending for request 4, the second one is vacant *)
Definition sample_client (rc : ErrorCode) : MsgClient SampleTransport (list Msg) :=
  MkMsgClient (<[100:=sample_msg]> {[200:=sample_response]}) (Some (MkSampleTransport rc []))
    (MkMsgAssembler None 0) sample_pool ConnectData_new true [].

Definition sample_alloc (n : Z) : option (list Byte.byte) := Some (replicate (Z.to_nat n) NUL).

Lemma client_msg_ok : msg_ok sample_msg.
Proof. split; [apply header_okb_ok|]; reflexivity. Qed.

Lemma client_sendMsg_spec_witness :
  exists c', client_sendMsg sample_alloc 10 100 0 (sample_client E_OK) =
    Done (E_OK, Some (MkMsgRequestData 5 1), c') /\
  mc_dataClient c' = Some (MkSampleTransport E_OK
    [msg_image (set_header (setRequestId 5 (setRequestIndex 1 (msg_header sample_msg))) sample_msg) true]).
Proof.
  destruct (client_sendMsg_spec sample_alloc 10 100 0 (sample_client E_OK) sample_msg
    (MkSampleTransport E_OK []) ltac:(by vm_compute) ltac:(by vm_compute) eq_refl client_msg_ok eq_refl
    eq_refl ltac:(by eexists)) as [(i & c' & Hrun & Hv & _ & _ & _ & _ & Hd & _)|(c' & _ & Hno & _)].
  - destruct Hv as (r & Hr & Hst). pose proof (zget_Some_range _ _ _ Hr) as Hi.
    assert (i = 0 \/ i = 1) as [-> | ->] by (change (0 <= i < 2) in Hi; lia).
    + injection Hr as <-. discriminate.
    + exists c'. split; [exact Hrun|exact Hd].
  - destruct (Hno 1). by eexists.
Defined.

Lemma failed_send_leaks_entry_witness :
  exists c', client_sendMsg sample_alloc 10 100 0 (sample_client E_INPROGRESS) =
    Done (E_INPROGRESS, Some (MkMsgRequestData 5 1), c') /\
  vacant_at sample_pool 1 /\ pending_at (mc_requestPool c') 1 5 /\
  vacant_count sample_pool = S (vacant_count (mc_requestPool c')).
Proof.
  eexists. split; [vm_compute; reflexivity|].
  apply (failed_send_leaks_entry sample_alloc 10 100 0 (sample_client E_INPROGRESS) E_INPROGRESS
    (MkMsgRequestData 5 1)); [by vm_compute|reflexivity|vm_compute; reflexivity|done].
Defined.

Lemma transaction_ends_witness :
  exists i, vacant_at sample_pool i /\
  (exists c', client_transactMsgResponse sample_alloc 10 100
       (replicate 2 RE_other ++ RE_setResponse (Some 200) :: []) 50 None (sample_client E_OK) =
       Done (E_OK, Some 200, c') /\
     vacant_at (mc_requestPool c') i /\ same_but i sample_pool (mc_requestPool c')) /\
  (exists c', client_transactMsgResponse sample_alloc 10 100 (replicate 2 RE_other ++ RE_abort :: [])
       50 None (sample_client E_OK) = Done (E_IO_CANCELED, None, c') /\
     ~ vacant_at (mc_requestPool c') i /\ same_but i sample_pool (mc_requestPool c')).
Proof.
  apply (transaction_ends sample_alloc 10 100 50 2 200 [] (sample_client E_OK) sample_msg
    (MkSampleTransport E_OK [])).
  - by vm_compute.
  - by vm_compute.
  - reflexivity.
  - apply client_msg_ok.
  - reflexivity.
  - exists 1. by eexists.
  - by eexists.
  - reflexivity.
Defined.

Lemma client_onMsg_spec_witness :
  exists c', client_onMsg sample_conn 200 true (sample_client E_OK) =
    Done (MSG_CANNOT_DELETE, c') /\ mc_user c' = [sample_response].
Proof.
  destruct (client_onMsg_spec sample_conn 200 (sample_client E_OK) sample_response eq_refl
    ltac:(by vm_compute)) as [Hfound _].
  destruct (Hfound _ eq_refl eq_refl) as (c' & Hrun & _ & _ & Hu). by exists c'.
Defined.

Lemma waitConnect_status_witness :
  (exists c', client_waitConnect (replicate 2 CE_disconnect ++ CE_connect sample_conn 3 :: [])
     (sample_client E_OK) = Done (E_OK, Some 3, c') /\
     cn_details (mc_connectData c') = Some sample_conn) /\
  client_waitConnect (replicate 2 CE_disconnect) (sample_client E_OK) = Undef UB_hang /\
  (let c' := snd (client_onConnect sample_conn 3 (sample_client E_OK)) in
   exists c'', client_waitConnect [] c' = Done (E_OK, Some 3, c'')).
Proof.
  apply (waitConnect_status (sample_client E_OK) (MkSampleTransport E_OK []) sample_conn 3 2 []);
    reflexivity.
Defined.
