(* ===== verification/Timers.v ===== *)
(** * DataLoopListener (inc/transport/data_loop_listener.h, src/transport/data_loop_listener.cpp)

    The timers of a listener of the I/O loop and the interrupts of the loop. The
    loop itself is the one of libuv, an interface here; a timer handle is named by
    the id of its timer. *)

From Stdlib Require Import ZArith Lia.
From stdpp Require Import gmap.
From S2P Require Import Prelude Errors.
Open Scope Z_scope.

(** ** Definitions *)

(** the calls to libuv, over the state [W] of the loop; a negative result is a failure *)
Class UvLoop (W : Type) := {
  uv_timer_init : Z -> W -> Z * W;
  uv_timer_start : Z -> Z -> Z -> W -> Z * W;   (* handle, timeout, repeat *)
  uv_timer_stop : Z -> W -> Z * W;
  uv_timer_set_repeat : Z -> Z -> W -> W;
  uv_close : Z -> W -> W;
  uv_async_init : W -> Z * W;
  uv_async_send : option Z -> W -> Z * W;        (* the user data of the interrupt *)
}.

Inductive TimerType := TT_NONE | TT_ONE_SHOT | TT_PERIODIC.

#[export] Instance TimerType_eq_dec : EqDecision TimerType.
Proof. solve_decision. Defined.

Record TimerData := MkTimerData { td_timerId : Z; td_timerType : TimerType }.

(** the map and the next id of a listener, and the loop that it belongs to *)
Record LoopTimers (W : Type) := MkLoopTimers {
  lt_timerMap : gmap Z TimerData;
  lt_nextTimerId : Z;
  lt_loop : W;
}.

Arguments MkLoopTimers {W}.
Arguments lt_timerMap {W}.
Arguments lt_nextTimerId {W}.
Arguments lt_loop {W}.

Section Timers.
Context {W : Type} `{UvLoop W}.
Implicit Types (t : LoopTimers W).

Definition LoopTimers_new (loop : W) : LoopTimers W := MkLoopTimers ∅ 1 loop.

Definition set_loop (w : W) t : LoopTimers W := MkLoopTimers (lt_timerMap t) (lt_nextTimerId t) w.
Definition set_timerMap (m : gmap Z TimerData) t : LoopTimers W :=
  MkLoopTimers m (lt_nextTimerId t) (lt_loop t).

(** the second result is the timer id *)
Definition startLoopTimer (wakeUpMillis periodMillis : Z) t : ErrorCode * Z * LoopTimers W :=
  let timerId := lt_nextTimerId t in
  let t := MkLoopTimers (lt_timerMap t) (u64 (timerId + 1)) (lt_loop t) in
  match lt_timerMap t !! timerId with
  | Some _ => (E_INTERNAL_ERROR, timerId, t)
  | None =>
    let '(res, w) := uv_timer_init timerId (lt_loop t) in
    if res <? 0 then (E_SYSTEM_FAILURE, timerId, set_loop w t)
    else
      let '(res, w) := uv_timer_start timerId wakeUpMillis periodMillis w in
      if res <? 0 then (E_SYSTEM_FAILURE, timerId, set_loop (uv_close timerId w) t)
      else
        let timerType := if periodMillis =? 0 then TT_ONE_SHOT else TT_PERIODIC in
        (E_OK, timerId,
         set_timerMap (<[timerId := MkTimerData timerId timerType]> (lt_timerMap t)) (set_loop w t))
  end.

Definition setNextLoopTimer (timerId wakeUpMillis : Z) t : ErrorCode * LoopTimers W :=
  match lt_timerMap t !! timerId with
  | None => (E_NOT_FOUND, t)
  | Some timerData =>
    if decide (td_timerType timerData <> TT_ONE_SHOT) then (E_INVALID_ARGUMENT, t)
    else
      let '(res, w) := uv_timer_start timerId wakeUpMillis 0 (lt_loop t) in
      (if res <? 0 then E_SYSTEM_FAILURE else E_OK, set_loop w t)
  end.

Definition setPeriodicLoopTimer (timerId periodMillis : Z) t : ErrorCode * LoopTimers W :=
  match lt_timerMap t !! timerId with
  | None => (E_NOT_FOUND, t)
  | Some timerData =>
    if decide (td_timerType timerData <> TT_PERIODIC) then (E_INVALID_ARGUMENT, t)
    else (E_OK, set_loop (uv_timer_set_repeat timerId periodMillis (lt_loop t)) t)
  end.

Definition stopLoopTimer (timerId : Z) t : ErrorCode * LoopTimers W :=
  match lt_timerMap t !! timerId with
  | None => (E_NOT_FOUND, t)
  | Some timerData =>
    if decide (td_timerType timerData <> TT_PERIODIC) then (E_INVALID_ARGUMENT, t)
    else
      let '(res, w) := uv_timer_stop timerId (lt_loop t) in
      if res <? 0 then (E_SYSTEM_FAILURE, set_loop w t)
      else
        (E_OK, set_timerMap (delete timerId (lt_timerMap t)) (set_loop (uv_close timerId w) t))
  end.

(** [alloc1], [alloc2]: the results of the two allocations *)
Definition interruptLoop (alloc1 alloc2 : bool) (userData : option Z) t : ErrorCode * LoopTimers W :=
  if negb alloc1 then (E_NOMEM, t) else
  if negb alloc2 then (E_NOMEM, t) else
  let '(res, w) := uv_async_init (lt_loop t) in
  if res <? 0 then (E_SYSTEM_FAILURE, set_loop w t) else
  let '(res, w) := uv_async_send userData w in
  (if res <? 0 then E_SYSTEM_FAILURE else E_OK, set_loop w t).

(** the timer id that the callback of a handle gives to [onLoopTimer] *)
Definition onTimerStatic (timerId : Z) t : outcome Z :=
  match lt_timerMap t !! timerId with
  | None => Undef UB_freed
  | Some timerData => Done (td_timerId timerData)
  end.

(** ** Properties *)

(** every timer has its own id, a type, and an id that was given out before *)
Definition timers_ok t : Prop :=
  forall id td, lt_timerMap t !! id = Some td ->
    td_timerId td = id /\ td_timerType td <> TT_NONE /\ 0 < id < lt_nextTimerId t.

Lemma timers_ok_new w : timers_ok (LoopTimers_new w).
Proof. intros id td Hid. done. Qed.

Lemma timers_ok_start wakeUp period t : timers_ok t -> 0 < lt_nextTimerId t < 2 ^ 64 - 1 ->
  let '(_, t') := startLoopTimer wakeUp period t in timers_ok t'.
Proof.
  intros Hok Hn. unfold startLoopTimer. cbn [lt_timerMap lt_loop].
  rewrite (u64_small (lt_nextTimerId t + 1)) by lia.
  assert (Hkeep : forall w, timers_ok (MkLoopTimers (lt_timerMap t) (lt_nextTimerId t + 1) w)).
  { intros w id td Hid. destruct (Hok id td Hid) as (? & ? & ?). split_and!; cbn; try done; lia. }
  destruct (lt_timerMap t !! lt_nextTimerId t); [apply Hkeep|].
  destruct (uv_timer_init _ _) as [res w]. destruct (res <? 0); [apply Hkeep|].
  destruct (uv_timer_start _ _ _ _) as [res' w']. destruct (res' <? 0); [apply Hkeep|].
  intros id td. cbn. rewrite lookup_insert_Some. intros [[<- <-]|[Hne Hid]].
  - cbn. split_and!; [done|by destruct (period =? 0)|lia|lia].
  - destruct (Hok id td Hid) as (? & ? & ?). split_and!; try done; lia.
Qed.

(** Starting a timer uses an id that no timer of the listener has. If libuv
    accepts the timer its callback reports that id, and all other timers stay as
    they are; if it refuses, no timer is added. *)
Theorem startLoopTimer_spec wakeUp period t : timers_ok t -> 0 < lt_nextTimerId t < 2 ^ 64 - 1 ->
  let '(rc, id, t') := startLoopTimer wakeUp period t in
  lt_timerMap t !! id = None /\ timers_ok t' /\
  (rc = E_OK \/ rc = E_SYSTEM_FAILURE) /\
  (rc = E_OK -> onTimerStatic id t' = Done id /\
     forall id', id' <> id -> lt_timerMap t' !! id' = lt_timerMap t !! id') /\
  (rc <> E_OK -> lt_timerMap t' = lt_timerMap t).
Proof.
  intros Hok Hn. pose proof (timers_ok_start wakeUp period t Hok Hn) as Hok'.
  assert (Hnew : lt_timerMap t !! lt_nextTimerId t = None).
  { destruct (lt_timerMap t !! lt_nextTimerId t) as [td|] eqn:Htd; [|done].
    destruct (Hok _ _ Htd) as (_ & _ & ?). lia. }
  revert Hok'. unfold startLoopTimer, onTimerStatic. cbn [lt_timerMap lt_loop]. rewrite Hnew.
  destruct (uv_timer_init _ _) as [res w]. destruct (res <? 0); [by intros; split_and!; auto|].
  destruct (uv_timer_start _ _ _ _) as [res' w']. destruct (res' <? 0); [by intros; split_and!; auto|].
  intros Hok'. split_and!; auto; [|done]. intros _. cbn. rewrite lookup_insert_eq. split; [done|].
  intros id' Hid. by rewrite lookup_insert_ne.
Qed.

(** A one-shot timer that was started can be set again and cannot be stopped:
    to stop it is an invalid argument and leaves the timer and the loop as they
    are. A periodic timer can be stopped, and is gone then. *)
Theorem stopLoopTimer_spec wakeUp period t id t' : timers_ok t ->
  startLoopTimer wakeUp period t = (E_OK, id, t') ->
  (period = 0 -> stopLoopTimer id t' = (E_INVALID_ARGUMENT, t') /\
     forall next, fst (setNextLoopTimer id next t') = E_OK \/
       fst (setNextLoopTimer id next t') = E_SYSTEM_FAILURE) /\
  (period <> 0 -> setNextLoopTimer id wakeUp t' = (E_INVALID_ARGUMENT, t') /\
     (0 <= fst (uv_timer_stop id (lt_loop t')) -> exists t'', stopLoopTimer id t' = (E_OK, t'') /\
        lt_timerMap t'' = lt_timerMap t /\ stopLoopTimer id t'' = (E_NOT_FOUND, t''))).
Proof.
  intros Hok.
  assert (Hnew : lt_timerMap t !! lt_nextTimerId t = None).
  { destruct (lt_timerMap t !! lt_nextTimerId t) as [td|] eqn:Htd; [|done].
    destruct (Hok _ _ Htd) as (_ & _ & ?). lia. }
  unfold startLoopTimer. cbn [lt_timerMap lt_loop]. rewrite Hnew.
  destruct (uv_timer_init _ _) as [res w]. destruct (res <? 0); [done|].
  destruct (uv_timer_start _ _ _ _) as [res' w']. destruct (res' <? 0); [done|]. intros [= <- <-].
  unfold stopLoopTimer, setNextLoopTimer. cbn. rewrite lookup_insert_eq. split.
  - intros ->. cbn. rewrite decide_True by done. split; [done|]. intros next.
    rewrite decide_False by (intros Hc; by apply Hc).
    destruct (uv_timer_start _ _ _ w') as [res2 w2]. cbn. destruct (res2 <? 0); auto.
  - intros Hp. rewrite (proj2 (Z.eqb_neq _ _) Hp). cbn. rewrite decide_True by done. split; [done|].
    rewrite decide_False by (intros Hc; by apply Hc).
    destruct (uv_timer_stop _ w') as [res2 w2]. cbn. intros Hge.
    destruct (Z.ltb_spec res2 0); [lia|]. eexists. split; [reflexivity|].
    cbn. rewrite delete_insert_id by done. split; [done|]. by rewrite Hnew.
Qed.
End Timers.

(** ** Witnesses *)

(** a loop that accepts everything *)
#[local] Instance sample_loop : UvLoop unit := {|
  uv_timer_init _ w := (0, w); uv_timer_start _ _ _ w := (0, w); uv_timer_stop _ w := (0, w);
  uv_timer_set_repeat _ _ w := w; uv_close _ w := w; uv_async_init w := (0, w);
  uv_async_send _ w := (0, w);
|}.

Definition sample_timers : LoopTimers unit := MkLoopTimers {[ 1 := MkTimerData 1 TT_ONE_SHOT ]} 2 tt.

Lemma sample_timers_ok : timers_ok sample_timers.
Proof.
  intros id td. cbn. rewrite lookup_singleton_Some. intros [<- <-]. cbn. split_and!; [done|done|lia|lia].
Qed.

Lemma startLoopTimer_spec_witness :
  let '(rc, id, t') := startLoopTimer 100 0 sample_timers in
  lt_timerMap sample_timers !! id = None /\ timers_ok t' /\
  (rc = E_OK \/ rc = E_SYSTEM_FAILURE) /\
  (rc = E_OK -> onTimerStatic id t' = Done id /\
     forall id', id' <> id -> lt_timerMap t' !! id' = lt_timerMap sample_timers !! id') /\
  (rc <> E_OK -> lt_timerMap t' = lt_timerMap sample_timers).
Proof. apply (startLoopTimer_spec 100 0 sample_timers sample_timers_ok). by vm_compute. Defined.

Lemma stopLoopTimer_spec_witness :
  let t' := snd (startLoopTimer 100 0 sample_timers) in
  stopLoopTimer 2 t' = (E_INVALID_ARGUMENT, t').
Proof.
  eapply (stopLoopTimer_spec 100 0 sample_timers 2 _ sample_timers_ok); [vm_compute|]; reflexivity.
Defined.
