(* ===== verification/Sender.v ===== *)
(** * MsgSender (inc/msg/msg_sender.h, src/msg/msg_sender.cpp, inc/msg/msg_config.h)

    Frames are sent through a message client, kept in a backlog until they are
    answered, sent again from time to time, and dropped when they expire. The
    sender runs partly on the threads of its callers and partly in the callbacks
    of the I/O loop. *)

From Stdlib Require Import ZArith Lia.
From stdpp Require Import gmap sorting.
From coqutil Require Import Byte.
From S2P Require Import Prelude Errors StrSearch Io Serializable Msg Batch Frame Connection Segmented.
From S2P Require Import Assembler RequestPool Backlog Client Timers.
Open Scope Z_scope.

(** ** Definitions *)

Definition COMMUTIL_MSG_DEFAULT_CONNECT_TIMEOUT_MILLIS : Z := 5000.
Definition COMMUTIL_MSG_DEFAULT_SEND_TIMEOUT_MILLIS : Z := 1000.
Definition COMMUTIL_MSG_DEFAULT_RESEND_TIMEOUT_MILLIS : Z := 5000.
Definition COMMUTIL_MSG_DEFAULT_EXPIRE_TIMEOUT_MILLIS : Z := 30000.
Definition COMMUTIL_MSG_DEFAULT_BACKLOG_LIMIT_BYTES : Z := 1024 * 1024.
Definition COMMUTIL_MSG_DEFAULT_SHUTDOWN_TIMEOUT_MILLIS : Z := 5000.
Definition COMMUTIL_MSG_DEFAULT_SHUTDOWN_POLLING_TIMEOUT_MILLIS : Z := 50.

Record MsgConfig := MkMsgConfig {
  m_connectTimeoutMillis : Z;
  m_sendTimeoutMillis : Z;
  m_resendPeriodMillis : Z;
  m_expireTimeoutMillis : Z;
  m_backlogLimitBytes : Z;
  m_shutdownTimeoutMillis : Z;
  m_shutdownPollingTimeoutMillis : Z;
}.

Definition MsgConfig_new : MsgConfig :=
  MkMsgConfig COMMUTIL_MSG_DEFAULT_CONNECT_TIMEOUT_MILLIS COMMUTIL_MSG_DEFAULT_SEND_TIMEOUT_MILLIS
    COMMUTIL_MSG_DEFAULT_RESEND_TIMEOUT_MILLIS COMMUTIL_MSG_DEFAULT_EXPIRE_TIMEOUT_MILLIS
    COMMUTIL_MSG_DEFAULT_BACKLOG_LIMIT_BYTES COMMUTIL_MSG_DEFAULT_SHUTDOWN_TIMEOUT_MILLIS
    COMMUTIL_MSG_DEFAULT_SHUTDOWN_POLLING_TIMEOUT_MILLIS.

(** the sending half of MsgStatListener *)
Class SendStatListener (U : Type) := {
  onSendMsgStats : option (Z -> Z -> ErrorCode -> U -> U);
}.

(** [ms_ticks] counts the readings of the clock *)
Record MsgSender (D U W : Type) := MkMsgSender {
  ms_client : MsgClient D U;
  ms_byteOrder : ByteOrder;          (* of the frame reader *)
  ms_config : MsgConfig;
  ms_backlog : MsgBacklog;
  ms_stopResend : bool;
  ms_resendDone : bool;
  ms_stopResendTimeMillis : Z;
  ms_resendTimerId : Z;
  ms_shutdownTimerId : Z;
  ms_timers : LoopTimers W;
  ms_ticks : nat;
}.

Arguments MkMsgSender {D U W}.
Arguments ms_client {D U W}.
Arguments ms_byteOrder {D U W}.
Arguments ms_config {D U W}.
Arguments ms_backlog {D U W}.
Arguments ms_stopResend {D U W}.
Arguments ms_resendDone {D U W}.
Arguments ms_stopResendTimeMillis {D U W}.
Arguments ms_resendTimerId {D U W}.
Arguments ms_shutdownTimerId {D U W}.
Arguments ms_timers {D U W}.
Arguments ms_ticks {D U W}.

Section State.
Context {D U W : Type}.
Implicit Types (s : MsgSender D U W).

Definition MsgSender_new (c : MsgClient D U) (loop : W) : MsgSender D U W :=
  MkMsgSender c HOST_ORDER MsgConfig_new MsgBacklog_new false false 0 0 0 (LoopTimers_new loop) 0.

Definition set_client (c : MsgClient D U) s : MsgSender D U W :=
  MkMsgSender c (ms_byteOrder s) (ms_config s) (ms_backlog s) (ms_stopResend s) (ms_resendDone s)
    (ms_stopResendTimeMillis s) (ms_resendTimerId s) (ms_shutdownTimerId s) (ms_timers s) (ms_ticks s).
Definition set_backlog (b : MsgBacklog) s : MsgSender D U W :=
  MkMsgSender (ms_client s) (ms_byteOrder s) (ms_config s) b (ms_stopResend s) (ms_resendDone s)
    (ms_stopResendTimeMillis s) (ms_resendTimerId s) (ms_shutdownTimerId s) (ms_timers s) (ms_ticks s).
Definition set_resend (stop done : bool) (time : Z) s : MsgSender D U W :=
  MkMsgSender (ms_client s) (ms_byteOrder s) (ms_config s) (ms_backlog s) stop done
    time (ms_resendTimerId s) (ms_shutdownTimerId s) (ms_timers s) (ms_ticks s).
Definition set_timers (resend shutdown : Z) (t : LoopTimers W) s : MsgSender D U W :=
  MkMsgSender (ms_client s) (ms_byteOrder s) (ms_config s) (ms_backlog s) (ms_stopResend s)
    (ms_resendDone s) (ms_stopResendTimeMillis s) resend shutdown t (ms_ticks s).
Definition tick s : MsgSender D U W :=
  MkMsgSender (ms_client s) (ms_byteOrder s) (ms_config s) (ms_backlog s) (ms_stopResend s)
    (ms_resendDone s) (ms_stopResendTimeMillis s) (ms_resendTimerId s) (ms_shutdownTimerId s)
    (ms_timers s) (S (ms_ticks s)).

Definition s_heap s : Heap := mc_heap (ms_client s).
Definition s_pool s : MsgRequestPool := mc_requestPool (ms_client s).
Definition s_set_pool (p : MsgRequestPool) s : MsgSender D U W := set_client (set_pool p (ms_client s)) s.
Definition s_set_heap (hp : Heap) s : MsgSender D U W := set_client (set_heap hp (ms_client s)) s.

(** an update of the request of the pool at an index *)
Definition s_update (index : Z) (f : MsgRequest -> MsgRequest) s : outcome (MsgSender D U W) :=
  let* p := pool_update index f (s_pool s) in Done (s_set_pool p s).

Definition freeMsg (msg : option Z) s : outcome (MsgSender D U W) :=
  match msg with
  | None => Done s
  | Some p =>
    let* _ := msg_at (s_heap s) p in Done (s_set_heap (delete p (s_heap s)) s)
  end.

(** a message of the heap changes its header *)
Definition modifyHeader (msg : Z) (f : MsgHeader -> MsgHeader) s : outcome (MsgSender D U W) :=
  let* m := msg_at (s_heap s) msg in
  Done (s_set_heap (<[msg := set_header (f (msg_header m)) m]> (s_heap s)) s).

Definition s_removePendingRequest (request : Z) s : outcome (ErrorCode * MsgSender D U W) :=
  let* '(rc, b) := removePendingRequest (s_heap s) (s_pool s) request (ms_backlog s) in
  Done (rc, set_backlog b s).
End State.

(** [clock] holds the readings of the clock, and [alloc] is the buffer allocator
    of the data client *)
Section Sender.
Context {D U W : Type} `{DataClient D} `{MsgListener U} `{MsgRequestListener U} `{Gzip}
  `{FrameListener (option ConnectionDetails) U} `{SendStatListener U} `{UvLoop W}.
Context (clock : nat -> Z) (alloc : Z -> option (list Byte.byte)).
Implicit Types (s : MsgSender D U W).

Definition getCurrentTimeMillis s : Z * MsgSender D U W := (clock (ms_ticks s), tick s).

Definition sender_initialize (msgClient : MsgClient D U) (msgConfig : MsgConfig) s
  : outcome (ErrorCode * MsgSender D U W) :=
  let* d := the_dataClient msgClient in
  Done (E_OK, MkMsgSender msgClient (dc_byteOrder d) msgConfig (ms_backlog s) (ms_stopResend s)
    (ms_resendDone s) (ms_stopResendTimeMillis s) (ms_resendTimerId s) (ms_shutdownTimerId s)
    (ms_timers s) (ms_ticks s)).

Definition sender_terminate s : ErrorCode * MsgSender D U W := (E_OK, s).

Definition sender_start s : ErrorCode * MsgSender D U W :=
  let s := set_resend false false (ms_stopResendTimeMillis s) s in
  let '(rc, c) := client_start (ms_client s) in (rc, set_client c s).

(** ** Sending *)

Definition send_stats (m : Msg) (rc : ErrorCode) s : MsgSender D U W :=
  match onSendMsgStats with
  | None => s
  | Some f =>
    let compress := isCompressed (msg_header m) in
    let compressedPayloadSize := if compress then getPayloadSizeBytes m else 0 in
    let payloadSize :=
      if compress then m_uncompressedLength (msg_header m) else getPayloadSizeBytes m in
    let c := ms_client s in
    set_client (set_user (f payloadSize compressedPayloadSize rc (mc_user c)) c) s
  end.

Definition sendMsgInternal (request requestFlags : Z) s
  : outcome (ErrorCode * option MsgRequestData * MsgSender D U W) :=
  let '(now, s) := getCurrentTimeMillis s in
  let* '(rc, requestData, c) := client_sendMsg alloc now request requestFlags (ms_client s) in
  let s := set_client c s in
  let* m := msg_at (s_heap s) request in
  Done (rc, requestData, send_stats m rc s).

(** a frame is prepared as the message [ptr] and then sent by [send] *)
Definition with_frame (ptr : Z) (frame : outcome (ErrorCode * msg_ptr))
    (send : MsgSender D U W -> outcome (ErrorCode * MsgSender D U W)) s
  : outcome (ErrorCode * MsgSender D U W) :=
  if ms_stopResend s then Done (E_INVALID_STATE, s) else
  let* '(rc, request) := frame in
  if decide (rc <> E_OK) then Done (rc, s) else
  match request with
  | PtrMsg m => send (s_set_heap (<[ptr := m]> (s_heap s)) s)
  | _ => Undef UB_null
  end.

Definition send_request (request : Z) s : outcome (ErrorCode * MsgSender D U W) :=
  let* '(rc, _, s) := sendMsgInternal request 0 s in Done (rc, s).

(** the overloads of sendMsg; [am]: the result of the allocation of the message *)
Definition sender_sendMsg (am : bool) (ptr msgId : Z) (body : list Byte.byte) (compress : bool)
    (flags : Z) : MsgSender D U W -> outcome (ErrorCode * MsgSender D U W) :=
  with_frame ptr (prepareMsgFrame am msgId body compress flags) (send_request ptr).

Definition sender_sendMsgWith (am : bool) (ptr msgId : Z) (msgWriter : MsgWriter) (compress : bool)
    (flags : Z) : MsgSender D U W -> outcome (ErrorCode * MsgSender D U W) :=
  with_frame ptr (prepareMsgFrameWith am msgId msgWriter compress flags) (send_request ptr).

(** the byte order of the message client *)
Definition client_byteOrder s : outcome ByteOrder :=
  let* d := the_dataClient (ms_client s) in Done (dc_byteOrder d).

Definition sender_sendMsgBatch (am : bool) (ptr msgId : Z) (bufferArray : MsgBufferArray)
    (compress : bool) (flags : Z) s : outcome (ErrorCode * MsgSender D U W) :=
  if ms_stopResend s then Done (E_INVALID_STATE, s) else
  let* order := client_byteOrder s in
  let writer := MsgBufferArrayWriter_new bufferArray order in
  with_frame ptr (prepareMsgFrameWith am msgId writer compress (Z.lor flags COMMUTIL_MSG_FLAG_BATCH))
    (send_request ptr) s.

Definition sender_sendMsgPtr (msg : Z) s : outcome (ErrorCode * MsgSender D U W) :=
  if ms_stopResend s then Done (E_INVALID_STATE, s) else send_request msg s.

(** ** Responses *)

Definition handleResponse (response : Z) s : outcome (ErrorCode * MsgSender D U W) :=
  let c := ms_client s in
  let* m := msg_at (s_heap s) response in
  let* '(rc, u) := readMsgFrame (ms_byteOrder s) (cn_details (mc_connectData c)) m (mc_user c) in
  Done (rc, set_client (set_user u c) s).

Definition renewRequestId (msg : Z) s : outcome (ErrorCode * MsgSender D U W) :=
  let '(requestId, p) := fetchAddRequestId (s_pool s) in
  let* '(request, p) := getVacantRequest requestId p in
  let s := s_set_pool p s in
  match request with
  | None =>
    let* s := modifyHeader msg (setRequestId COMMUTIL_MSG_INVALID_REQUEST_ID) s in
    Done (E_RESOURCE_LIMIT, s)
  | Some requestIndex =>
    let* s := modifyHeader msg (fun h => setRequestIndex requestIndex (setRequestId requestId h)) s in
    let '(now, s) := getCurrentTimeMillis s in
    let* s := s_update requestIndex (setRequest now (Some msg)) s in
    Done (E_OK, s)
  end.

(** the request entry of a message behind a pointer that the code does not check *)
Definition the_request (msg : Z) s : outcome Z :=
  let* m := msg_at (s_heap s) msg in
  let* index := getRequestData (msg_header m) (s_pool s) in
  match index with Some i => Done i | None => Undef UB_null end.

(** ** The backlog *)

(** the function that [forEachRequest] runs on the entry [i] *)
Definition processPendingResponse (i : Z) s : outcome (MsgSender D U W) :=
  let* r := pool_at i (s_pool s) in
  if isVacant r || negb (Z.land (rq_flags r) COMMUTIL_REQUEST_FLAG_TX =? 0) then Done s else
  let request := rq_request r in
  let* '(rc, response, r') := waitResponse 0 [] r in
  let* s := s_update i (fun _ => r') s in
  if decide (rc = E_OK) then
    let* s := s_update i clearResponse s in
    let* s :=
      match default None response with
      | None => Done s
      | Some rsp =>
        let* '(rc, s) := handleResponse rsp s in
        let* s :=
          if decide (rc = E_OK) then
            match request with
            | None => Undef UB_null
            | Some q => let* '(_, s) := s_removePendingRequest q s in Done s
            end
          else Done s in
        freeMsg (Some rsp) s
      end in
    freeMsg request s
  else
    let '(expired, s) :=
      if decide (rc <> E_TIMED_OUT) then (true, s)
      else
        let '(now, s) := getCurrentTimeMillis s in
        (m_expireTimeoutMillis (ms_config s) <? u64 (now - rq_requestTimeMillis r'), s) in
    if expired : bool then
      let* s := s_update i clearResponse s in
      freeMsg request s
    else Done s.

(** the [n] entries from [i] on *)
Fixpoint processPending_loop (n : nat) (i : Z) s : outcome (MsgSender D U W) :=
  match n with
  | O => Done s
  | S n => let* s := processPendingResponse i s in processPending_loop n (i + 1) s
  end.

Definition processPendingResponses s : outcome (MsgSender D U W) :=
  processPending_loop (length (p_requests (s_pool s))) 0 s.

Definition dropExcessBacklog (fuel : nat) s : outcome (MsgSender D U W) :=
  let* '(_, b, p) := pruneBacklog fuel (s_heap s) (m_backlogLimitBytes (ms_config s))
    (ms_backlog s) (s_pool s) in
  Done (set_backlog b (s_set_pool p s)).

Definition resendMsg (msg : Z) s : outcome (ErrorCode * MsgSender D U W) :=
  let '(now, s) := getCurrentTimeMillis s in
  let* '(rc, _, c) := client_sendMsg alloc now msg COMMUTIL_REQUEST_FLAG_REUSE (ms_client s) in
  Done (rc, set_client c s).

(** the request id is renewed when the message has none *)
Definition resend_id (request : Z) s : outcome (ErrorCode * MsgSender D U W) :=
  let* m := msg_at (s_heap s) request in
  if m_requestId (msg_header m) =? COMMUTIL_MSG_INVALID_REQUEST_ID then renewRequestId request s
  else Done (E_OK, s).

(** the second result is [*minRequestTimeoutMillis], [None] for a null pointer *)
Definition resendRequest (request : Z) (minRequestTimeoutMillis : option Z) s
  : outcome (ErrorCode * option Z * MsgSender D U W) :=
  let* '(rc, s) := resend_id request s in
  if decide (rc <> E_OK) then Done (rc, minRequestTimeoutMillis, s) else
  let* m := msg_at (s_heap s) request in
  let* index := getRequestData (msg_header m) (s_pool s) in
  match index with
  | None => Done (E_INTERNAL_ERROR, minRequestTimeoutMillis, s)
  | Some index =>
    let '(currentTimeMillis, s) := getCurrentTimeMillis s in
    let* r := pool_at index (s_pool s) in
    let resendTimeMillis := rq_resendTimeMillis r in
    let period := m_resendPeriodMillis (ms_config s) in
    let shouldResend :=
      if resendTimeMillis =? 0 then period <=? u64 (currentTimeMillis - rq_requestTimeMillis r)
      else period <=? u64 (currentTimeMillis - resendTimeMillis) in
    let* '(rc, s) :=
      if shouldResend then
        let* '(rc, s) := resendMsg request s in
        let '(now, s) := getCurrentTimeMillis s in
        let* s := s_update index (updateResendTime now) s in
        Done (rc, s)
      else Done (E_OK, s) in
    let* r := pool_at index (s_pool s) in
    let min :=
      match minRequestTimeoutMillis with
      | None => None
      | Some min =>
        Some (if (min =? 0) || (rq_resendTimeMillis r <? min) then rq_resendTimeMillis r else min)
      end in
    Done (rc, min, s)
  end.

Fixpoint resendShipping_loop (fuel : nat) (currentTimeMillis : Z) (rc : ErrorCode)
    (minRequestTimeoutMillis : option Z) s : outcome (ErrorCode * option Z * MsgSender D U W) :=
  let* ready := hasReadyResendRequest (s_pool s) currentTimeMillis (ms_backlog s) in
  if ready then
    match fuel with
    | O => NoFuel
    | S fuel =>
      let* request := getReadyResendRequest (ms_backlog s) in
      let* '(rc2, min, s) := resendRequest request minRequestTimeoutMillis s in
      if decide (rc2 <> E_OK) then resendShipping_loop fuel currentTimeMillis (first_error rc rc2) min s
      else
        let* b := updateReadyResendRequest (s_heap s) (s_pool s) (ms_backlog s) in
        resendShipping_loop fuel currentTimeMillis rc min (set_backlog b s)
    end
  else Done (rc, minRequestTimeoutMillis, s).

Definition resendShippingBacklog (fuel : nat) (minRequestTimeoutMillis : option Z) s
  : outcome (ErrorCode * option Z * MsgSender D U W) :=
  let '(currentTimeMillis, s) := getCurrentTimeMillis s in
  resendShipping_loop fuel currentTimeMillis E_OK minRequestTimeoutMillis s.

(** ** Callbacks of the I/O loop *)

Definition onLoopStart s : MsgSender D U W :=
  let '(_, id, t) := startLoopTimer (m_resendPeriodMillis (ms_config s)) 0 (ms_timers s) in
  set_timers id (ms_shutdownTimerId s) t s.

Definition onLoopEnd s : outcome (MsgSender D U W) := processPendingResponses s.

Definition onLoopSend (userData : option Z) s : outcome (MsgSender D U W) :=
  match userData with
  | None => Done s
  | Some request =>
    let* m := msg_at (s_heap s) request in
    let* index := getRequestData (msg_header m) (s_pool s) in
    match index with
    | None => Done s
    | Some index =>
      let* r := pool_at index (s_pool s) in
      if Z.land (rq_flags r) COMMUTIL_REQUEST_FLAG_REUSE =? 0 then
        let* '(_, b) := addPendingRequest (s_heap s) (s_pool s) request (ms_backlog s) in
        Done (set_backlog b s)
      else Done s
    end
  end.

Definition onLoopRecv s : outcome (MsgSender D U W) := processPendingResponses s.

(** the end of the timer callback: the next timer is set if there is to be one *)
Definition set_next_timer (timerId nextResendTimeMillis : Z) s : MsgSender D U W :=
  let '(_, t) := setNextLoopTimer timerId nextResendTimeMillis (ms_timers s) in
  set_timers (ms_resendTimerId s) (ms_shutdownTimerId s) t s.

Definition onLoopTimer (fuel : nat) (timerId : Z) s : outcome (MsgSender D U W) :=
  if (timerId =? ms_resendTimerId s) && ms_stopResend s then Done s else
  if ms_resendDone s then Done s else
  let* s := processPendingResponses s in
  let* s := dropExcessBacklog fuel s in
  let* '(_, min, s) := resendShippingBacklog fuel (Some COMMUTIL_MSG_INFINITE_TIMEOUT) s in
  let minRequestTimeoutMillis := default 0 min in
  let '(nextResendTimeMillis, s) :=
    if minRequestTimeoutMillis =? COMMUTIL_MSG_INFINITE_TIMEOUT
    then (m_resendPeriodMillis (ms_config s), s)
    else let '(now, s) := getCurrentTimeMillis s in (u64 (now - minRequestTimeoutMillis), s) in
  if ms_stopResend s then
    let nextResendTimeMillis :=
      Z.min nextResendTimeMillis (m_shutdownPollingTimeoutMillis (ms_config s)) in
    let '(over, s) :=
      if isEmpty (ms_backlog s) then (true, s)
      else let '(now, s) := getCurrentTimeMillis s in (ms_stopResendTimeMillis s <? now, s) in
    if over : bool
    then Done (set_resend (ms_stopResend s) true (ms_stopResendTimeMillis s) s)
    else Done (set_next_timer timerId nextResendTimeMillis s)
  else Done (set_next_timer timerId nextResendTimeMillis s).

Definition onLoopInterrupt s : MsgSender D U W :=
  if 0 <? m_shutdownTimeoutMillis (ms_config s) then
    let '(_, id, t) := startLoopTimer (m_shutdownPollingTimeoutMillis (ms_config s)) 0 (ms_timers s) in
    let s := set_timers (ms_resendTimerId s) id t s in
    let '(now, s) := getCurrentTimeMillis s in
    set_resend (ms_stopResend s) (ms_resendDone s)
      (u64 (now + m_shutdownTimeoutMillis (ms_config s))) s
  else
    let '(_, t) := stopLoopTimer (ms_resendTimerId s) (ms_timers s) in
    set_timers (ms_resendTimerId s) (ms_shutdownTimerId s) t s.

(** ** Transactions *)

(** what the I/O loop does while a thread waits: it reports a write that it issued, with
    its user data, reports bytes that arrived, and runs a timer *)
Inductive loop_event :=
| LE_send (userData : option Z)
| LE_recv
| LE_timer (fuel : nat) (timerId : Z).

Definition loop_event_step (e : loop_event) s : outcome (MsgSender D U W) :=
  match e with
  | LE_send userData => onLoopSend userData s
  | LE_recv => onLoopRecv s
  | LE_timer fuel timerId => onLoopTimer fuel timerId s
  end.

Fixpoint loop_events (ls : list loop_event) s : outcome (MsgSender D U W) :=
  match ls with
  | [] => Done s
  | e :: ls => let* s := loop_event_step e s in loop_events ls s
  end.

(** [ls], [es]: what happens while the thread waits: the callbacks of the loop, the report
    of the write of the request among them, and then what happens to its request entry
    (a response comes after the request was written) *)
Definition recvResponse (requestData : MsgRequestData) (msg timeoutMillis : Z) (ls : list loop_event) (es : list req_event) s
  : outcome (ErrorCode * MsgSender D U W) :=
  let timeoutMillis := if timeoutMillis =? COMMUTIL_MSG_CONFIG_TIMEOUT
    then m_sendTimeoutMillis (ms_config s) else timeoutMillis in
  let* s := loop_events ls s in
  let* '(rc, response, p) := waitPendingResponse requestData timeoutMillis es None (s_pool s) in
  let s := s_set_pool p s in
  if decide (rc <> E_OK) then
    let* index := the_request msg s in
    let* s := s_update index
      (fun r => setFlags (Z.ldiff (rq_flags r) COMMUTIL_REQUEST_FLAG_TX) r) s in
    Done (rc, s)
  else
    match response with
    | None => Undef UB_null
    | Some rsp =>
      let* '(rc, s) := handleResponse rsp s in
      let* '(rc, s) :=
        if decide (rc <> E_OK) then renewRequestId msg s
        else let* '(_, s) := s_removePendingRequest msg s in Done (rc, s) in
      let* s := freeMsg (Some rsp) s in
      Done (rc, s)
    end.

Definition transactMsgInternal (request timeoutMillis : Z) (ls : list loop_event) (es : list req_event) s
  : outcome (ErrorCode * MsgSender D U W) :=
  let* '(rc, requestData, s) := sendMsgInternal request COMMUTIL_REQUEST_FLAG_TX s in
  let* '(rc, s) :=
    if decide (rc <> E_OK) then Done (rc, s)
    else recvResponse (default MsgRequestData_new requestData) request timeoutMillis ls es s in
  if decide (rc <> E_OK) then
    let* m := msg_at (s_heap s) request in
    if m_requestId (msg_header m) =? COMMUTIL_MSG_INVALID_REQUEST_ID then
      let* s := freeMsg (Some request) s in Done (rc, s)
    else Done (rc, s)
  else
    let* s := freeMsg (Some request) s in Done (rc, s).

Definition sender_transactMsg (am : bool) (ptr msgId : Z) (body : list Byte.byte) (compress : bool)
    (flags timeoutMillis : Z) (ls : list loop_event) (es : list req_event)
  : MsgSender D U W -> outcome (ErrorCode * MsgSender D U W) :=
  with_frame ptr (prepareMsgFrame am msgId body compress flags) (transactMsgInternal ptr timeoutMillis ls es).

Definition sender_transactMsgWith (am : bool) (ptr msgId : Z) (msgWriter : MsgWriter)
    (compress : bool) (flags timeoutMillis : Z) (ls : list loop_event) (es : list req_event)
  : MsgSender D U W -> outcome (ErrorCode * MsgSender D U W) :=
  with_frame ptr (prepareMsgFrameWith am msgId msgWriter compress flags)
    (transactMsgInternal ptr timeoutMillis ls es).

Definition sender_transactMsgBatch (am : bool) (ptr msgId : Z) (bufferArray : MsgBufferArray)
    (compress : bool) (flags timeoutMillis : Z) (ls : list loop_event) (es : list req_event) s
  : outcome (ErrorCode * MsgSender D U W) :=
  let* order := client_byteOrder s in
  sender_transactMsgWith am ptr msgId (MsgBufferArrayWriter_new bufferArray order) compress
    (Z.lor flags COMMUTIL_MSG_FLAG_BATCH) timeoutMillis ls es s.

Definition sender_transactMsgPtr (msg timeoutMillis : Z) (ls : list loop_event) (es : list req_event) s
  : outcome (ErrorCode * MsgSender D U W) :=
  if ms_stopResend s then Done (E_INVALID_STATE, s) else transactMsgInternal msg timeoutMillis ls es s.

(** ** Shutdown *)

Definition stopResendTimer (alloc1 alloc2 : bool) s : MsgSender D U W :=
  let s := set_resend true false (ms_stopResendTimeMillis s) s in
  let '(_, t) := interruptLoop alloc1 alloc2 None (ms_timers s) in
  set_timers (ms_resendTimerId s) (ms_shutdownTimerId s) t s.

(** [done]: what the polls of the flag read; the result is the time that is slept *)
Fixpoint waitBacklogEmpty_loop (fuel : nat) (done : nat -> bool) (pollTimeout waitCount iterCount : Z)
    (i : nat) : outcome Z :=
  if negb (done i) && (iterCount <? waitCount) then
    match fuel with
    | O => NoFuel
    | S fuel =>
      let* slept := waitBacklogEmpty_loop fuel done pollTimeout waitCount (u64 (iterCount + 1)) (S i) in
      Done (pollTimeout + slept)
    end
  else Done 0.

Definition waitBacklogEmpty (fuel : nat) (done : nat -> bool) s : outcome Z :=
  let pollTimeout := m_shutdownPollingTimeoutMillis (ms_config s) in
  let pollTimeout :=
    if pollTimeout =? 0 then COMMUTIL_MSG_DEFAULT_SHUTDOWN_POLLING_TIMEOUT_MILLIS else pollTimeout in
  let waitCount := m_shutdownTimeoutMillis (ms_config s) / pollTimeout in
  waitBacklogEmpty_loop fuel done pollTimeout waitCount 0 0.

(** [during]: what the loop thread does to the sender while this thread sleeps *)
Definition sender_stop (fuel : nat) (alloc1 alloc2 : bool) (done : nat -> bool)
    (during : MsgSender D U W -> MsgSender D U W) s : outcome (ErrorCode * MsgSender D U W) :=
  let s := stopResendTimer alloc1 alloc2 s in
  let* s :=
    if 0 <? m_shutdownTimeoutMillis (ms_config s)
    then let* _ := waitBacklogEmpty fuel done s in Done (during s) else Done s in
  let '(rc, c) := client_stop (ms_client s) in
  Done (rc, set_client c s).
End Sender.

(** ** Lemmas *)

Section Lemmas.
Context {D U W : Type} `{DataClient D} `{MsgListener U} `{MsgRequestListener U} `{Gzip}
  `{FrameListener (option ConnectionDetails) U} `{SendStatListener U} `{UvLoop W}.
Context (clock : nat -> Z) (alloc : Z -> option (list Byte.byte)).
Implicit Types (s : MsgSender D U W).

Lemma s_update_ok s i f r : zget (p_requests (s_pool s)) i = Some r ->
  s_update i f s = Done (s_set_pool (set_requests (zset (p_requests (s_pool s)) i (f r)) (s_pool s)) s).
Proof. intros Hr. unfold s_update. by rewrite (pool_update_ok _ _ _ _ Hr). Qed.

Lemma free_ok s q m : s_heap s !! q = Some m ->
  freeMsg (Some q) s = Done (s_set_heap (delete q (s_heap s)) s).
Proof. intros Hq. unfold freeMsg, msg_at. by rewrite Hq. Qed.

(** the entry after it was released *)
Definition released (i : Z) (r : MsgRequest) (p : MsgRequestPool) : MsgRequestPool :=
  set_requests (zset (p_requests p) i (clearResponse r)) p.

Lemma release_twice s i r r' : zget (p_requests (s_pool s)) i = Some r ->
  (let* s := s_update i (fun _ => r') s in s_update i clearResponse s) =
    Done (s_set_pool (released i r' (s_pool s)) s).
Proof.
  intros Hr. rewrite (s_update_ok _ _ _ _ Hr). cbn [outcome_bind].
  erewrite s_update_ok by (cbn; apply zget_zset_eq; by eapply zget_Some_range).
  cbn. unfold released. by rewrite zset_zset.
Qed.

Lemma released_vacant i r p : zget (p_requests p) i = Some r ->
  vacant_at (released i r p) i /\ same_but i p (released i r p).
Proof.
  intros Hr. split; [|apply same_but_set]. exists (clearResponse r). split; [|done].
  apply zget_zset_eq. by eapply zget_Some_range.
Qed.

(** an entry that the sender does not process *)
Definition unprocessed (r : MsgRequest) : bool :=
  isVacant r || negb (Z.land (rq_flags r) COMMUTIL_REQUEST_FLAG_TX =? 0).

Lemma process_skip s i r : zget (p_requests (s_pool s)) i = Some r -> unprocessed r = true ->
  processPendingResponse clock i s = Done s.
Proof.
  intros Hr Hu. unfold processPendingResponse. rewrite (pool_at_ok _ _ _ Hr). cbn [outcome_bind].
  unfold unprocessed in Hu. by rewrite Hu.
Qed.

Lemma process_loop_skip n : forall s i,
  (forall k, i <= k < i + Z.of_nat n -> exists r, zget (p_requests (s_pool s)) k = Some r /\
     unprocessed r = true) ->
  processPending_loop clock n i s = Done s.
Proof.
  induction n as [|n IH]; intros s i Hk; [done|]. cbn [processPending_loop].
  destruct (Hk i ltac:(lia)) as (r & Hr & Hu). rewrite (process_skip s i r) by done.
  cbn [outcome_bind]. apply IH. intros k Hrange. apply Hk. lia.
Qed.

Lemma process_loop_app n m : forall s i,
  processPending_loop clock (n + m) i s =
    let* s' := processPending_loop clock n i s in processPending_loop clock m (i + Z.of_nat n) s'.
Proof.
  induction n as [|n IH]; intros s i; cbn [Nat.add processPending_loop outcome_bind].
  { by rewrite Z.add_0_r. }
  rewrite outcome_bind_assoc. destruct (processPendingResponse clock i s) as [s'| |]; try done.
  cbn [outcome_bind]. rewrite IH. by replace (i + 1 + Z.of_nat n) with (i + Z.of_nat (S n)) by lia.
Qed.

(** a round over the entries of which only the entry [i] is processed *)
Lemma process_round s i s' :
  0 <= i < zlen (p_requests (s_pool s)) ->
  (forall j r, j <> i -> zget (p_requests (s_pool s)) j = Some r -> unprocessed r = true) ->
  processPendingResponse clock i s = Done s' -> same_but i (s_pool s) (s_pool s') ->
  processPendingResponses clock s = Done s'.
Proof.
  intros Hi Hskip Hrun [Hlen Hsame]. unfold processPendingResponses.
  set (l := p_requests (s_pool s)) in *.
  replace (length l) with (Z.to_nat i + S (length l - S (Z.to_nat i)))%nat by (unfold zlen in Hi; lia).
  rewrite process_loop_app, process_loop_skip.
  - cbn [outcome_bind processPending_loop]. rewrite Z2Nat.id, Z.add_0_l, Hrun by lia. cbn [outcome_bind].
    apply process_loop_skip. intros k Hk.
    destruct (zget_is_Some (p_requests (s_pool s')) k) as [r Hr]; [unfold zlen in *; lia|].
    exists r. split; [done|]. rewrite Hsame in Hr by lia. by apply (Hskip k); [lia|].
  - intros k Hk. destruct (zget_is_Some l k) as [r Hr]; [lia|].
    exists r. split; [done|]. apply (Hskip k); [lia|done].
Qed.

(** an entry whose response has arrived *)
Lemma process_answered s i r q m rsp mr u rc b :
  zget (p_requests (s_pool s)) i = Some r -> rq_status r = RS_ARRIVED ->
  Z.land (rq_flags r) COMMUTIL_REQUEST_FLAG_TX = 0 ->
  rq_request r = Some q -> rq_response r = Some rsp -> q <> rsp ->
  s_heap s !! q = Some m -> s_heap s !! rsp = Some mr ->
  readMsgFrame (ms_byteOrder s) (cn_details (mc_connectData (ms_client s))) mr (mc_user (ms_client s)) =
    Done (E_OK, u) ->
  removePendingRequest (s_heap s) (released i r (s_pool s)) q (ms_backlog s) = Done (rc, b) ->
  exists s', processPendingResponse clock i s = Done s' /\
    s_pool s' = released i r (s_pool s) /\ ms_backlog s' = b /\
    s_heap s' = delete q (delete rsp (s_heap s)) /\ mc_user (ms_client s') = u.
Proof.
  intros Hr Hst Hfl Hq Hrsp Hne Hm Hmr Hread Hrem. unfold processPendingResponse.
  rewrite (pool_at_ok _ _ _ Hr). cbn [outcome_bind].
  assert (Hv : isVacant r = false) by (unfold isVacant; by rewrite Hst).
  rewrite Hv, Hfl. cbn [orb negb Z.eqb].
  assert (Hw : waitResponse 0 [] r = Done (E_OK, Some (Some rsp), r)).
  { destruct r. cbn in *. by subst. }
  rewrite Hw. cbn [outcome_bind default]. rewrite Hq.
  pose proof (release_twice s i r r Hr) as Hrel. rewrite (s_update_ok _ _ _ _ Hr) in *.
  cbn [outcome_bind] in *. rewrite decide_True by done. rewrite Hrel. cbn [outcome_bind from_option id].
  unfold handleResponse. cbn [s_set_pool set_client set_pool ms_client s_heap mc_heap ms_byteOrder
    mc_connectData mc_user]. unfold s_heap in *. unfold msg_at at 1. rewrite Hmr. cbn [outcome_bind].
  rewrite Hread. cbn [outcome_bind]. rewrite decide_True by done.
  unfold s_removePendingRequest. cbn. unfold s_heap, s_pool in *. cbn. rewrite Hrem. cbn [outcome_bind].
  unfold msg_at. cbn. rewrite Hmr. cbn. rewrite lookup_delete_ne, Hm by done. cbn.
  by eexists.
Qed.

(** an entry whose request has expired *)
Lemma process_expired s i r q m :
  zget (p_requests (s_pool s)) i = Some r -> rq_status r = RS_PENDING ->
  Z.land (rq_flags r) COMMUTIL_REQUEST_FLAG_TX = 0 -> rq_request r = Some q ->
  s_heap s !! q = Some m ->
  m_expireTimeoutMillis (ms_config s) < u64 (clock (ms_ticks s) - rq_requestTimeMillis r) ->
  exists s', processPendingResponse clock i s = Done s' /\ s_pool s' = released i r (s_pool s) /\
    s_heap s' = delete q (s_heap s) /\ ms_backlog s' = ms_backlog s /\ ms_config s' = ms_config s /\
    ms_stopResend s' = ms_stopResend s /\ ms_ticks s' = S (ms_ticks s).
Proof.
  intros Hr Hst Hfl Hq Hm Hexp. unfold processPendingResponse.
  rewrite (pool_at_ok _ _ _ Hr). cbn [outcome_bind].
  assert (Hv : isVacant r = false) by (unfold isVacant; by rewrite Hst).
  rewrite Hv, Hfl. cbn [orb negb Z.eqb].
  assert (Hw : waitResponse 0 [] r = Done (E_TIMED_OUT, None, r)).
  { destruct r. cbn in *. by subst. }
  rewrite Hw. cbn [outcome_bind]. rewrite Hq, (s_update_ok _ _ _ _ Hr). cbn [outcome_bind].
  rewrite decide_False by done. rewrite decide_False by (intros Hc; by apply Hc).
  cbn [getCurrentTimeMillis s_set_pool set_client ms_config ms_ticks tick].
  rewrite (proj2 (Z.ltb_lt _ _) Hexp).
  erewrite s_update_ok by (cbn; apply zget_zset_eq; by eapply zget_Some_range). cbn.
  unfold s_heap, msg_at in *. cbn. rewrite Hm. cbn. eexists. split; [reflexivity|]. cbn.
  rewrite zset_zset. by split_and!.
Qed.

(** the oldest request of the backlog, with its pool entry [r] *)
Record oldest s (e : BacklogEntry) (rest : list BacklogEntry) (r : MsgRequest) (m : Msg) : Prop := {
  ol_set : bl_requestSet (ms_backlog s) = e :: rest;
  ol_live : Forall (live (s_heap s) (s_pool s)) (e :: rest);
  ol_sorted : StronglySorted (before (s_heap s) (e_time (s_pool s))) (e :: rest);
  ol_request : zget (p_requests (s_pool s)) (be_request e) = Some r;
  ol_msg : s_heap s !! be_msg e = Some m;
  ol_id : m_requestId (msg_header m) <> COMMUTIL_MSG_INVALID_REQUEST_ID;
}.

Lemma oldest_of_backlog s e rest : backlog_ok (s_heap s) (s_pool s) (ms_backlog s) ->
  bl_requestSet (ms_backlog s) = e :: rest ->
  e_id (s_heap s) e <> COMMUTIL_MSG_INVALID_REQUEST_ID -> exists r m, oldest s e rest r m.
Proof.
  intros Hb Hset Hid. pose proof (bo_live _ _ _ Hb) as Hl. pose proof (bo_set _ _ _ Hb) as Hs.
  rewrite Hset in Hl, Hs. pose proof (Forall_cons_1 _ _ _ Hl) as [(m & r & Hm & Hr & _) _].
  exists r, m. constructor; try done. unfold e_id in Hid. by rewrite Hm in Hid.
Qed.

Lemma oldest_data s e rest r m : oldest s e rest r m ->
  getRequestData (msg_header m) (s_pool s) = Done (Some (be_request e)).
Proof.
  intros [_ Hl _ Hr Hm _]. apply Forall_cons_1 in Hl as [(m' & r' & Hm' & Hr' & Hi & Hid) _].
  assert (m' = m) as -> by congruence. assert (r' = r) as -> by congruence.
  unfold getRequestData. rewrite Hi, (pool_at_ok _ _ _ Hr). pose proof (zget_Some_range _ _ _ Hr).
  rewrite (proj2 (Z.leb_gt _ _)) by lia. cbn [outcome_bind]. by rewrite Hid, Z.eqb_refl.
Qed.

Lemma oldest_ready s e rest r m barrier : oldest s e rest r m ->
  hasReadyResendRequest (s_pool s) barrier (ms_backlog s) = Done (rq_resendTimeMillis r <? barrier) /\
  getReadyResendRequest (ms_backlog s) = Done (be_msg e) /\
  updateReadyResendRequest (s_heap s) (s_pool s) (ms_backlog s) = Done (ms_backlog s).
Proof.
  intros [Hset Hl Hs Hr _ _]. unfold hasReadyResendRequest, getReadyResendRequest,
    updateReadyResendRequest, entry_resendTime. rewrite Hset, (pool_at_ok _ _ _ Hr).
  rewrite reinsert_first by done. cbn [outcome_bind]. split_and!; [done|done|].
  rewrite <- Hset. by destruct (ms_backlog s).
Qed.

(** the minimum over the resend times *)
Definition resend_min (t : Z) (min : option Z) : option Z :=
  match min with
  | None => None
  | Some min => Some (if (min =? 0) || (t <? min) then t else min)
  end.

(** a request whose time for being sent again has not come *)
Lemma resendRequest_idle s e rest r m min : oldest s e rest r m ->
  0 < rq_resendTimeMillis r < clock (ms_ticks s) ->
  clock (ms_ticks s) < rq_resendTimeMillis r + m_resendPeriodMillis (ms_config s) ->
  clock (ms_ticks s) < 2 ^ 64 ->
  resendRequest clock alloc (be_msg e) min s =
    Done (E_OK, resend_min (rq_resendTimeMillis r) min, tick s).
Proof.
  intros Ho Ht Hp Hc. pose proof (oldest_data _ _ _ _ _ Ho) as Hd. destruct Ho as [_ _ _ Hr Hm Hid].
  unfold resendRequest, resend_id, msg_at. rewrite Hm. cbn [outcome_bind].
  rewrite (proj2 (Z.eqb_neq _ _) Hid). cbn [outcome_bind].
  rewrite decide_False by (intros Hc'; by apply Hc'). rewrite Hm. cbn [outcome_bind].
  rewrite Hd. cbn [outcome_bind getCurrentTimeMillis]. change (s_pool (tick s)) with (s_pool s).
  rewrite (pool_at_ok _ _ _ Hr). cbn [outcome_bind]. change (ms_config (tick s)) with (ms_config s).
  rewrite (proj2 (Z.eqb_neq (rq_resendTimeMillis r) 0)) by lia. rewrite u64_small by lia.
  rewrite (proj2 (Z.leb_gt _ _)) by lia. cbn [outcome_bind]. change (s_pool (tick s)) with (s_pool s).
  by rewrite (pool_at_ok _ _ _ Hr).
Qed.

Lemma oldest_tick s e rest r m : oldest s e rest r m ->
  oldest (set_backlog (ms_backlog s) (tick s)) e rest r m.
Proof. by intros []. Qed.

Lemma resendShipping_spins fuel : forall s e rest r m barrier rc min, oldest s e rest r m ->
  0 < rq_resendTimeMillis r < barrier ->
  (forall n, (ms_ticks s <= n < ms_ticks s + fuel)%nat ->
     rq_resendTimeMillis r < clock n < rq_resendTimeMillis r + m_resendPeriodMillis (ms_config s) /\
     clock n < 2 ^ 64) ->
  resendShipping_loop clock alloc fuel barrier rc min s = NoFuel.
Proof.
  induction fuel as [|fuel IH]; intros s e rest r m barrier rc min Ho Hb Hn; cbn [resendShipping_loop].
  { destruct (oldest_ready s e rest r m barrier Ho) as (-> & _ & _). cbn [outcome_bind].
    by rewrite (proj2 (Z.ltb_lt _ _)) by lia. }
  destruct (oldest_ready s e rest r m barrier Ho) as (-> & -> & Hup). cbn [outcome_bind].
  rewrite (proj2 (Z.ltb_lt _ _)) by lia. destruct (Hn (ms_ticks s) ltac:(lia)) as [Hw Hc].
  rewrite (resendRequest_idle s e rest r m min Ho) by lia. cbn [outcome_bind].
  rewrite decide_False by (intros Hc'; by apply Hc').
  change (s_heap (tick s)) with (s_heap s). change (s_pool (tick s)) with (s_pool s).
  change (ms_backlog (tick s)) with (ms_backlog s). rewrite Hup. cbn [outcome_bind].
  eapply IH; [by apply oldest_tick|done|]. intros n Hrange. apply Hn. cbn in Hrange. lia.
Qed.

(** the entry of the oldest request changes, but for its id and its request time *)
Lemma oldest_update s s' e rest r m r' : oldest s e rest r m ->
  rq_requestId r' = rq_requestId r -> rq_requestTimeMillis r' = rq_requestTimeMillis r ->
  s_heap s' = s_heap s -> ms_backlog s' = ms_backlog s ->
  p_requests (s_pool s') = zset (p_requests (s_pool s)) (be_request e) r' ->
  oldest s' e rest r' m.
Proof.
  intros [Hset Hl Hs Hr Hm Hid] Hrid Htime Hh Hb Hp. constructor; rewrite ?Hb, ?Hh; try done.
  - rewrite list.Forall_forall in *. intros e' He'. destruct (Hl e' He') as (m' & x & Hm' & Hx & Hi & Hxid).
    destruct (decide (be_request e' = be_request e)) as [Heq|Hne].
    + exists m', r'. rewrite Heq in *. assert (x = r) as -> by congruence.
      split_and!; try done; [|congruence]. rewrite Hp. apply zget_zset_eq. by eapply zget_Some_range.
    + exists m', x. split_and!; try done. by rewrite Hp, zget_zset_ne by done.
  - assert (Ht : forall e', e_time (s_pool s') e' = e_time (s_pool s) e').
    { intros e'. unfold e_time. rewrite Hp. destruct (decide (be_request e' = be_request e)) as [->|Hne].
      - rewrite zget_zset_eq, Hr by (by eapply zget_Some_range). exact Htime.
      - by rewrite zget_zset_ne by done. }
    clear -Hs Ht. induction Hs as [|x l Hs IH Hx]; constructor; [done|].
    rewrite list.Forall_forall in *. intros y Hy. specialize (Hx y Hy). unfold before in *. by rewrite !Ht.
  - rewrite Hp. apply zget_zset_eq. by eapply zget_Some_range.
Qed.

(** the request message is written again *)
Lemma resendMsg_ok s index r m d d' buffer msg :
  s_heap s !! msg = Some m -> msg_ok m -> getRequestData (msg_header m) (s_pool s) = Done (Some index) ->
  zget (p_requests (s_pool s)) index = Some r -> mc_dataClient (ms_client s) = Some d ->
  alloc (m_length (msg_header m)) = Some buffer -> zlen buffer = m_length (msg_header m) ->
  dc_write (sent_bytes d m) sent_flags None d = (E_OK, d') ->
  exists s', resendMsg clock alloc msg s = Done (E_OK, s') /\
    s_pool s' = set_requests (zset (p_requests (s_pool s)) index (setFlags COMMUTIL_REQUEST_FLAG_REUSE r))
      (s_pool s) /\
    s_heap s' = s_heap s /\ ms_backlog s' = ms_backlog s /\ ms_ticks s' = S (ms_ticks s) /\
    mc_dataClient (ms_client s') = Some d' /\ ms_config s' = ms_config s.
Proof.
  intros Hm Hok Hd Hr Hdc Ha Hl Hw. unfold resendMsg, client_sendMsg. cbn [getCurrentTimeMillis].
  change (negb (Z.land COMMUTIL_REQUEST_FLAG_REUSE COMMUTIL_REQUEST_FLAG_REUSE =? 0)) with true.
  cbv iota zeta. unfold msg_at. unfold s_heap, s_pool in *. cbn [tick ms_client]. rewrite Hm. cbn [outcome_bind].
  rewrite Hd. cbn [outcome_bind]. unfold with_request. cbn [set_pool mc_requestPool].
  rewrite (pool_update_ok _ _ _ _ Hr). cbn [outcome_bind].
  erewrite transport_send_ok; [|exact Hm|exact Hok|exact Hdc|exact Ha|exact Hl|].
  2:{ cbn. apply zget_zset_eq. by eapply zget_Some_range. }
  rewrite Hw. cbn [outcome_bind]. eexists. split; [reflexivity|]. by cbn.
Qed.

(** the request entry after its message was written again *)
Definition resent (now : Z) (r : MsgRequest) : MsgRequest :=
  updateResendTime now (setFlags COMMUTIL_REQUEST_FLAG_REUSE r).

(** a request whose time for being sent again has come *)
Lemma resendRequest_due s e rest r m d d' buffer min : oldest s e rest r m -> msg_ok m ->
  mc_dataClient (ms_client s) = Some d ->
  alloc (m_length (msg_header m)) = Some buffer -> zlen buffer = m_length (msg_header m) ->
  dc_write (sent_bytes d m) sent_flags None d = (E_OK, d') ->
  0 < rq_resendTimeMillis r ->
  rq_resendTimeMillis r + m_resendPeriodMillis (ms_config s) <= clock (ms_ticks s) ->
  0 <= clock (ms_ticks s) - rq_resendTimeMillis r < 2 ^ 64 ->
  exists s' min', resendRequest clock alloc (be_msg e) min s = Done (E_OK, min', s') /\
    oldest s' e rest (resent (clock (S (S (ms_ticks s)))) r) m /\
    mc_dataClient (ms_client s') = Some d' /\ ms_backlog s' = ms_backlog s /\ s_heap s' = s_heap s /\
    same_but (be_request e) (s_pool s) (s_pool s').
Proof.
  intros Ho Hok Hdc Ha Hl Hw Hpos Hper Hrange. unfold resendRequest, resend_id, msg_at.
  rewrite (ol_msg _ _ _ _ _ Ho). cbn [outcome_bind].
  rewrite (proj2 (Z.eqb_neq _ _) (ol_id _ _ _ _ _ Ho)). cbn [outcome_bind].
  rewrite decide_False by (intros Hc'; by apply Hc'). rewrite (ol_msg _ _ _ _ _ Ho). cbn [outcome_bind].
  rewrite (oldest_data _ _ _ _ _ Ho). cbn [outcome_bind getCurrentTimeMillis].
  assert (Ho2 : oldest (tick s) e rest r m) by (by destruct Ho).
  rewrite (pool_at_ok _ _ _ (ol_request _ _ _ _ _ Ho2)). cbn [outcome_bind].
  change (ms_config (tick s)) with (ms_config s).
  rewrite (proj2 (Z.eqb_neq (rq_resendTimeMillis r) 0)), u64_small, (proj2 (Z.leb_le _ _)) by lia.
  destruct (resendMsg_ok (tick s) (be_request e) r m d d' buffer (be_msg e))
    as (s3 & Hrun & Hp3 & Hh3 & Hb3 & Ht3 & Hd3 & Hc3); try done; [apply Ho2|by eapply oldest_data|apply Ho2|].
  rewrite Hrun. cbn [outcome_bind getCurrentTimeMillis]. rewrite Ht3.
  change (ms_ticks (tick s)) with (S (ms_ticks s)).
  assert (Hr3 : zget (p_requests (s_pool (tick s3))) (be_request e) =
    Some (setFlags COMMUTIL_REQUEST_FLAG_REUSE r)).
  { change (s_pool (tick s3)) with (s_pool s3). rewrite Hp3. apply zget_zset_eq.
    eapply zget_Some_range, Ho2. }
  rewrite (s_update_ok _ _ _ _ Hr3). cbn [outcome_bind].
  change (updateResendTime ?t (setFlags _ r)) with (resent t r). set (s4 := s_set_pool _ (tick s3)).
  assert (Hp4 : s_pool s4 = set_requests (zset (p_requests (s_pool s)) (be_request e)
    (resent (clock (S (S (ms_ticks s)))) r)) (s_pool s)).
  { unfold s4. cbn. unfold s_pool in *. cbn in *. rewrite Hp3. cbn. by rewrite zset_zset. }
  assert (Ho4 : oldest s4 e rest (resent (clock (S (S (ms_ticks s)))) r) m).
  { apply (oldest_update s s4 e rest r m _ Ho); try done. by rewrite Hp4. }
  rewrite (pool_at_ok _ _ _ (ol_request _ _ _ _ _ Ho4)). cbn [outcome_bind].
  exists s4. eexists. split; [reflexivity|]. split_and!; [exact Ho4|exact Hd3|exact Hb3|exact Hh3|].
  rewrite Hp4. apply same_but_set.
Qed.

(** the request of a transaction that the transport layer accepts *)
Lemma send_accepted s request m d :
  pool_ok (s_pool s) -> 0 <= p_nextRequestId (s_pool s) < 2 ^ 64 -> s_heap s !! request = Some m ->
  msg_ok m -> mc_dataClient (ms_client s) = Some d -> (exists i, vacant_at (s_pool s) i) ->
  (exists buffer, alloc (m_length (msg_header m)) = Some buffer /\
     zlen buffer = m_length (msg_header m)) ->
  (forall bytes, fst (dc_write bytes sent_flags (Some request) d) = E_OK) ->
  exists i r m' s', sendMsgInternal clock alloc request COMMUTIL_REQUEST_FLAG_TX s =
      Done (E_OK, Some (MkMsgRequestData (p_nextRequestId (s_pool s)) i), s') /\
    vacant_at (s_pool s) i /\ same_but i (s_pool s) (s_pool s') /\
    zget (p_requests (s_pool s')) i = Some r /\ rq_status r = RS_PENDING /\
    rq_requestId r = p_nextRequestId (s_pool s) /\
    m_requestId (msg_header m') = p_nextRequestId (s_pool s) /\
    s_heap s' = <[request := m']> (s_heap s) /\ ms_backlog s' = ms_backlog s /\
    ms_config s' = ms_config s /\ ms_byteOrder s' = ms_byteOrder s /\
    mc_connectData (ms_client s') = mc_connectData (ms_client s) /\
    m_requestIndex (msg_header m') = i /\ getPayloadSizeBytes m' = getPayloadSizeBytes m /\
    rq_flags r = COMMUTIL_REQUEST_FLAG_TX /\ rq_requestTimeMillis r = clock (ms_ticks s).
Proof.
  intros Hok Hid Hm Hmok Hd Hv Ha Hw. unfold sendMsgInternal. cbn [getCurrentTimeMillis].
  destruct (transaction_sent alloc (clock (ms_ticks s)) request (ms_client s) m d Hok Hid Hm Hmok Hd Hv Ha Hw)
    as (i & r & c & Hrun & Hvi & Hsame & Hr & Hst & Hrid & Hh & Hcn & Hfl & Htime).
  change (ms_client (tick s)) with (ms_client s). rewrite Hrun. cbn [outcome_bind].
  unfold msg_at, s_heap. cbn [set_client ms_client]. rewrite Hh, lookup_insert_eq. cbn [outcome_bind].
  exists i, r, (set_header (setRequestId (p_nextRequestId (s_pool s))
    (setRequestIndex i (msg_header m))) m). eexists. split; [reflexivity|]. unfold send_stats, s_heap, s_pool.
  destruct onSendMsgStats; cbn; split_and!; try done; by destruct Hsame.
Qed.

(** a message takes a new request entry *)
Lemma renew_ok s msg m : pool_ok (s_pool s) -> (exists i, vacant_at (s_pool s) i) ->
  s_heap s !! msg = Some m ->
  exists j r m' s', renewRequestId clock msg s = Done (E_OK, s') /\
    zget (p_requests (s_pool s')) j = Some r /\ rq_status r = RS_PENDING /\ rq_request r = Some msg /\
    s_heap s' = <[msg := m']> (s_heap s).
Proof.
  intros Hok [v Hv] Hm. unfold renewRequestId. cbn [fetchAddRequestId].
  set (id := p_nextRequestId (s_pool s)). set (p0 := MkMsgRequestPool _ _ _).
  destruct (getVacantRequest_ok p0 id Hok) as [(j & p1 & Hg & _ & (r & Hr & Hst & _) & _)|[_ Hno]];
    [|by destruct (Hno v)].
  rewrite Hg. cbn [outcome_bind]. unfold modifyHeader, msg_at, s_heap in *. cbn. rewrite Hm. cbn.
  erewrite s_update_ok by exact Hr. cbn [outcome_bind].
  eexists j, _, _, _. split; [reflexivity|]. cbn. rewrite zget_zset_eq by (by eapply zget_Some_range).
  split; [reflexivity|]. by cbn.
Qed.

(** a removal of a message that the backlog does not know *)
Lemma remove_unknown s msg m : s_heap s !! msg = Some m ->
  bl_requestMap (ms_backlog s) !! m_requestId (msg_header m) = None ->
  s_removePendingRequest msg s = Done (E_NOT_FOUND, set_backlog (ms_backlog s) s).
Proof.
  intros Hm Hno. unfold s_removePendingRequest, removePendingRequest, msg_at. rewrite Hm.
  cbn [outcome_bind]. by rewrite Hno.
Qed.
End Lemmas.

(** ** Properties *)

Section Theorems.
Context {D U W : Type} `{DataClient D} `{MsgListener U} `{MsgRequestListener U} `{Gzip}
  `{FrameListener (option ConnectionDetails) U} `{SendStatListener U} `{UvLoop W}.
Context (clock : nat -> Z) (alloc : Z -> option (list Byte.byte)).
Implicit Types (s : MsgSender D U W).

(** the response [rsp] to the request message of [e] is in its pool entry, and
    the frame listener accepts it and ends in the state [u] *)
Record answered s (e : BacklogEntry) (rsp : Z) (u : U) : Prop := {
  an_entry : exists r, zget (p_requests (s_pool s)) (be_request e) = Some r /\
    rq_status r = RS_ARRIVED /\ Z.land (rq_flags r) COMMUTIL_REQUEST_FLAG_TX = 0 /\
    rq_request r = Some (be_msg e) /\ rq_response r = Some rsp;
  an_response : exists mr, s_heap s !! rsp = Some mr /\
    readMsgFrame (ms_byteOrder s) (cn_details (mc_connectData (ms_client s))) mr
      (mc_user (ms_client s)) = Done (E_OK, u);
  an_apart : forall e', e' ∈ bl_requestSet (ms_backlog s) -> be_msg e' <> rsp;
}.

(** C28. When the oldest request of the backlog is answered and the listener
    accepts the response, the request leaves the backlog, both messages are freed,
    and the entry of the pool is vacant again; the backlog stays consistent. *)
Theorem answered_request_completed s e rest rsp u :
  backlog_ok (s_heap s) (s_pool s) (ms_backlog s) -> bl_requestSet (ms_backlog s) = e :: rest ->
  Forall (fun e' => 0 < e_time (s_pool s) e') rest -> answered s e rsp u ->
  exists s', processPendingResponse clock (be_request e) s = Done s' /\
    backlog_ok (s_heap s') (s_pool s') (ms_backlog s') /\
    bl_requestSet (ms_backlog s') ≡ₚ rest /\
    s_heap s' = delete (be_msg e) (delete rsp (s_heap s)) /\
    vacant_at (s_pool s') (be_request e) /\ same_but (be_request e) (s_pool s) (s_pool s') /\
    mc_user (ms_client s') = u.
Proof.
  intros Hb Hset Hts [(r & Hr & Hst & Hfl & Hq & Hrsp) (mr & Hmr & Hread) Hap].
  assert (He : e ∈ bl_requestSet (ms_backlog s)) by (rewrite Hset; by left).
  destruct (proj1 (list.Forall_forall _ _) (bo_live _ _ _ Hb) e He) as (m & _ & Hm & _).
  assert (Hb' : backlog_ok (s_heap s) (released (be_request e) r (s_pool s)) (ms_backlog s))
    by (eapply cleared_first_ok; try done; by exists r).
  destruct (removePendingRequest_ok _ _ _ e Hb' He) as (b & Hrem & Hbok & Hperm & _).
  destruct (process_answered clock s (be_request e) r (be_msg e) m rsp mr u E_OK b Hr Hst Hfl Hq Hrsp
    (Hap e He) Hm Hmr Hread Hrem) as (s' & Hrun & Hp' & Hbk & Hhp & Hu).
  exists s'. split; [exact Hrun|]. rewrite Hp', Hbk, Hhp.
  destruct (released_vacant (be_request e) r (s_pool s) Hr) as [Hv Hsame].
  assert (Hrest : bl_requestSet b ≡ₚ rest).
  { rewrite Hset in Hperm. symmetry. by apply Permutation_cons_inv in Hperm. }
  split_and!; try done. eapply backlog_ok_heap; [exact Hbok|]. intros e' He'. rewrite Hrest in He'.
  assert (Hin : e' ∈ bl_requestSet (ms_backlog s)) by (rewrite Hset; by right).
  rewrite lookup_delete_ne, lookup_delete_ne; [done| |].
  - by apply not_eq_sym, Hap.
  - intros Heq. assert (e = e') as <- by exact (entry_unique _ _ _ e e' Hb He Hin Heq).
    pose proof (sorted_NoDup _ _ _ (bo_set _ _ _ Hb)) as Hnd. rewrite Hset in Hnd.
    by apply list.NoDup_cons in Hnd as [Hn _].
Qed.

(** When a request that is not the oldest one of the backlog is answered, it
    stays in the backlog although its message is freed: the backlog refers to a
    message that does not exist any more. *)
Theorem answered_out_of_order_dangles s e0 rest e rsp u :
  backlog_ok (s_heap s) (s_pool s) (ms_backlog s) -> bl_requestSet (ms_backlog s) = e0 :: rest ->
  e ∈ rest -> 0 < e_time (s_pool s) e0 ->
  Forall (fun e' => 0 <= e_time (s_pool s) e') (bl_requestSet (ms_backlog s)) -> answered s e rsp u ->
  exists s', processPendingResponse clock (be_request e) s = Done s' /\
    ms_backlog s' = ms_backlog s /\ e ∈ bl_requestSet (ms_backlog s') /\
    s_heap s' !! be_msg e = None /\ vacant_at (s_pool s') (be_request e).
Proof.
  intros Hb Hset Hin Hpos Hts [(r & Hr & Hst & Hfl & Hq & Hrsp) (mr & Hmr & Hread) Hap].
  assert (He : e ∈ bl_requestSet (ms_backlog s)) by (rewrite Hset; by right).
  destruct (proj1 (list.Forall_forall _ _) (bo_live _ _ _ Hb) e He) as (m & _ & Hm & _).
  assert (Hrem : removePendingRequest (s_heap s) (released (be_request e) r (s_pool s)) (be_msg e)
      (ms_backlog s) = Done (E_DATA_CORRUPT, ms_backlog s))
    by (eapply cleared_not_found; try done; by exists r).
  destruct (process_answered clock s (be_request e) r (be_msg e) m rsp mr u _ _ Hr Hst Hfl Hq Hrsp
    (Hap e He) Hm Hmr Hread Hrem) as (s' & Hrun & Hp' & Hbk & Hhp & Hu).
  exists s'. rewrite Hp', Hbk, Hhp. split_and!; try done.
  - apply lookup_delete_eq.
  - by apply released_vacant.
Qed.

(** C39. A request that expires is freed but stays in the backlog: when it is the
    oldest one, the same round of the resend timer goes on to read its message,
    which is freed by then. *)
Theorem expired_request_use_after_free fuel timerId s e rest r m :
  ms_stopResend s = false -> ms_resendDone s = false ->
  bl_requestSet (ms_backlog s) = e :: rest ->
  bl_sizeBytes (ms_backlog s) <= m_backlogLimitBytes (ms_config s) ->
  zget (p_requests (s_pool s)) (be_request e) = Some r -> rq_status r = RS_PENDING ->
  Z.land (rq_flags r) COMMUTIL_REQUEST_FLAG_TX = 0 -> rq_request r = Some (be_msg e) ->
  s_heap s !! be_msg e = Some m ->
  (forall j r', j <> be_request e -> zget (p_requests (s_pool s)) j = Some r' -> unprocessed r' = true) ->
  m_expireTimeoutMillis (ms_config s) < u64 (clock (ms_ticks s) - rq_requestTimeMillis r) ->
  rq_resendTimeMillis r < clock (S (ms_ticks s)) ->
  onLoopTimer clock alloc (S fuel) timerId s = Undef UB_freed.
Proof.
  intros Hstop Hdone Hset Hsize Hr Hst Hfl Hq Hm Hskip Hexp Hre. unfold onLoopTimer.
  rewrite Hstop, Hdone, andb_false_r.
  destruct (process_expired clock s (be_request e) r (be_msg e) m Hr Hst Hfl Hq Hm Hexp)
    as (s1 & Hrun & Hp & Hhp & Hbk & Hcf & Hst1 & Htk).
  assert (Hgone : s_heap s1 !! be_msg e = None) by (rewrite Hhp; apply lookup_delete_eq).
  rewrite (process_round clock s (be_request e) s1); [|by eapply zget_Some_range|done|done|].
  2:{ rewrite Hp. by apply released_vacant. }
  cbn [outcome_bind]. unfold dropExcessBacklog, pruneBacklog. cbn [pruneBacklog_loop].
  rewrite Hbk, Hcf, (proj2 (Z.ltb_ge _ _) Hsize). cbn [outcome_bind].
  unfold resendShippingBacklog. cbn [getCurrentTimeMillis].
  assert (Hready : hasReadyResendRequest (s_pool s1) (clock (ms_ticks s1)) (ms_backlog s) = Done true).
  { unfold hasReadyResendRequest. rewrite Hset. unfold entry_resendTime. rewrite Hp.
    erewrite pool_at_ok by (apply zget_zset_eq; by eapply zget_Some_range). cbn [outcome_bind clearResponse rq_resendTimeMillis].
    by rewrite (proj2 (Z.ltb_lt _ _)) by (by rewrite Htk). }
  cbn. unfold s_pool, s_heap in *. cbn. rewrite Hready. cbn [outcome_bind].
  unfold getReadyResendRequest. rewrite Hset. cbn [outcome_bind].
  unfold resendRequest, resend_id, msg_at, s_heap. cbn. by rewrite Hgone.
Qed.

(** While the oldest request waits for the time to be sent again, the round of
    the resend timer does not end: it goes round on the thread of the I/O loop as
    often as the clock shows a time before the end of the resend period. *)
Theorem resend_spins fuel min s e rest :
  backlog_ok (s_heap s) (s_pool s) (ms_backlog s) -> bl_requestSet (ms_backlog s) = e :: rest ->
  e_id (s_heap s) e <> COMMUTIL_MSG_INVALID_REQUEST_ID -> 0 < e_resend (s_pool s) e ->
  (forall n, (ms_ticks s <= n <= ms_ticks s + fuel)%nat ->
     e_resend (s_pool s) e < clock n < e_resend (s_pool s) e + m_resendPeriodMillis (ms_config s) /\
     clock n < 2 ^ 64) ->
  resendShippingBacklog clock alloc fuel min s = NoFuel.
Proof.
  intros Hb Hset Hid Hpos Hn. destruct (oldest_of_backlog s e rest Hb Hset Hid) as (r & m & Ho).
  assert (Hre : e_resend (s_pool s) e = rq_resendTimeMillis r)
    by (unfold e_resend; by rewrite (ol_request _ _ _ _ _ Ho)).
  rewrite Hre in *. unfold resendShippingBacklog. cbn [getCurrentTimeMillis].
  destruct (Hn (ms_ticks s) ltac:(lia)) as [Hw _].
  eapply (resendShipping_spins clock alloc fuel (tick s) e rest r m); [by destruct Ho|lia|].
  intros n Hrange. cbn in Hrange. apply Hn. lia.
Qed.

(** When the time of the oldest request has come, its message is written to the
    transport layer once more, and its resend time moves on, which ends the round:
    no other request of the backlog is sent again, whatever its resend time. *)
Theorem resend_oldest_only fuel min s e rest m d d' :
  backlog_ok (s_heap s) (s_pool s) (ms_backlog s) -> bl_requestSet (ms_backlog s) = e :: rest ->
  s_heap s !! be_msg e = Some m -> msg_ok m ->
  m_requestId (msg_header m) <> COMMUTIL_MSG_INVALID_REQUEST_ID ->
  mc_dataClient (ms_client s) = Some d -> dc_write (sent_bytes d m) sent_flags None d = (E_OK, d') ->
  (exists buffer, alloc (m_length (msg_header m)) = Some buffer /\
     zlen buffer = m_length (msg_header m)) ->
  (forall n k, (n <= k)%nat -> clock n <= clock k < 2 ^ 64) ->
  0 < e_resend (s_pool s) e < clock (ms_ticks s) ->
  e_resend (s_pool s) e + m_resendPeriodMillis (ms_config s) <= clock (S (ms_ticks s)) ->
  exists s' min', resendShippingBacklog clock alloc (S fuel) min s = Done (E_OK, min', s') /\
    mc_dataClient (ms_client s') = Some d' /\ ms_backlog s' = ms_backlog s /\
    same_but (be_request e) (s_pool s) (s_pool s') /\
    clock (ms_ticks s) <= e_resend (s_pool s') e /\ s_heap s' = s_heap s.
Proof.
  intros Hb Hset Hm Hok Hid Hdc Hw (buffer & Ha & Hl) Hmono Hre Hper.
  destruct (oldest_of_backlog s e rest Hb Hset) as (r & m' & Ho);
    [unfold e_id; by rewrite Hm|].
  assert (m' = m) as -> by (pose proof (ol_msg _ _ _ _ _ Ho); congruence).
  assert (Hrr : e_resend (s_pool s) e = rq_resendTimeMillis r)
    by (unfold e_resend; by rewrite (ol_request _ _ _ _ _ Ho)).
  rewrite Hrr in *. set (n := ms_ticks s) in *.
  pose proof (Hmono n (S (S (S n))) ltac:(lia)). pose proof (Hmono n (S n) ltac:(lia)).
  assert (Ho1 : oldest (tick s) e rest r m) by (by destruct Ho).
  destruct (resendRequest_due clock alloc (tick s) e rest r m d d' buffer min Ho1 Hok Hdc Ha Hl Hw)
    as (s4 & min' & Hrun & Ho4 & Hd4 & Hb4 & Hh4 & Hs4); 
    [change (ms_ticks (tick s)) with (S n); change (ms_config (tick s)) with (ms_config s); lia..|].
  unfold resendShippingBacklog. cbn [getCurrentTimeMillis resendShipping_loop]. fold n.
  destruct (oldest_ready (tick s) e rest r m (clock n) Ho1) as (-> & -> & _). cbn [outcome_bind].
  rewrite (proj2 (Z.ltb_lt _ _)) by lia. rewrite Hrun. cbn [outcome_bind].
  rewrite decide_False by (intros Hc'; by apply Hc').
  destruct (oldest_ready s4 e rest _ m 0 Ho4) as (_ & _ & ->). cbn [outcome_bind].
  set (s5 := set_backlog (ms_backlog s4) s4).
  assert (Ho5 : oldest s5 e rest (resent (clock (S (S (S n)))) r) m) by (by destruct Ho4).
  exists s5, min'. split.
  { destruct fuel; cbn [resendShipping_loop];
      destruct (oldest_ready s5 e rest _ m (clock n) Ho5) as (-> & _ & _); cbn [outcome_bind];
      rewrite (proj2 (Z.ltb_ge _ _)) by (cbn; lia); reflexivity. }
  split_and!; [exact Hd4|exact Hb4|exact Hs4| |exact Hh4].
  unfold e_resend. rewrite (ol_request _ _ _ _ _ Ho5). cbn. lia.
Qed.

(** the hypotheses of a transaction whose request is sent and answered *)
Record transacts s (request rsp : Z) (m mr : Msg) (rc : ErrorCode) : Prop := {
  tr_pool : pool_ok (s_pool s);
  tr_id : 0 <= p_nextRequestId (s_pool s) < 2 ^ 64;
  tr_request : s_heap s !! request = Some m;
  tr_msg : msg_ok m;
  tr_response : s_heap s !! rsp = Some mr;
  tr_apart : rsp <> request;
  tr_vacant : exists i, vacant_at (s_pool s) i;
  tr_alloc : exists buffer, alloc (m_length (msg_header m)) = Some buffer /\
    zlen buffer = m_length (msg_header m);
  tr_sent : exists d, mc_dataClient (ms_client s) = Some d /\
    forall bytes, fst (dc_write bytes sent_flags (Some request) d) = E_OK;
  tr_listener : forall u, exists u', readMsgFrame (ms_byteOrder s)
    (cn_details (mc_connectData (ms_client s))) mr u = Done (rc, u');
  tr_backlog : backlog_ok (s_heap s) (s_pool s) (ms_backlog s);
  tr_new : bl_requestMap (ms_backlog s) !! p_nextRequestId (s_pool s) = None;
  tr_others : forall e, e ∈ bl_requestSet (ms_backlog s) ->
    be_msg e <> request /\ ~ vacant_at (s_pool s) (be_request e);
  tr_older : Forall (fun e => 0 < e_time (s_pool s) e < clock (ms_ticks s)) (bl_requestSet (ms_backlog s));
  tr_fits : bl_sizeBytes (ms_backlog s) + getPayloadSizeBytes m < 2 ^ 64;
}.

(** the backlog [b1] is that of [s] with the entry [e] of the request *)
Record added s (request : Z) (m : Msg) (hp : Heap) (p : MsgRequestPool) (e : BacklogEntry) (b1 : MsgBacklog) : Prop := {
  ad_ok : backlog_ok hp p b1;
  ad_msg : be_msg e = request;
  ad_id : e_id hp e = p_nextRequestId (s_pool s);
  ad_set : bl_requestSet b1 ≡ₚ e :: bl_requestSet (ms_backlog s);
  ad_map : bl_requestMap b1 = <[p_nextRequestId (s_pool s) := e]> (bl_requestMap (ms_backlog s));
  ad_size : bl_sizeBytes b1 = bl_sizeBytes (ms_backlog s) + getPayloadSizeBytes m;
  ad_payload : e_payload hp e = getPayloadSizeBytes m;
  ad_time : e_time p e = clock (ms_ticks s);
  ad_times : forall e', e' ∈ bl_requestSet (ms_backlog s) -> e_time p e' = e_time (s_pool s) e';
}.

(** the loop reports the write of a request that was sent: the request goes to the backlog *)
Lemma request_added s s1 request m m' i r : backlog_ok (s_heap s) (s_pool s) (ms_backlog s) ->
  (forall e, e ∈ bl_requestSet (ms_backlog s) -> be_msg e <> request /\ ~ vacant_at (s_pool s) (be_request e)) ->
  bl_requestMap (ms_backlog s) !! p_nextRequestId (s_pool s) = None ->
  bl_sizeBytes (ms_backlog s) + getPayloadSizeBytes m < 2 ^ 64 ->
  vacant_at (s_pool s) i -> same_but i (s_pool s) (s_pool s1) -> zget (p_requests (s_pool s1)) i = Some r ->
  rq_requestId r = p_nextRequestId (s_pool s) -> m_requestId (msg_header m') = p_nextRequestId (s_pool s) ->
  s_heap s1 = <[request := m']> (s_heap s) -> ms_backlog s1 = ms_backlog s -> m_requestIndex (msg_header m') = i ->
  getPayloadSizeBytes m' = getPayloadSizeBytes m -> rq_flags r = COMMUTIL_REQUEST_FLAG_TX ->
  rq_requestTimeMillis r = clock (ms_ticks s) ->
  exists b1, onLoopSend (Some request) s1 = Done (set_backlog b1 s1) /\
    added s request m (s_heap s1) (s_pool s1) (MkBacklogEntry request i) b1.
Proof.
  intros Hb Hoth Hnew Hfit Hv [Hlen Hsame] Hr Hrid Hmid Hh Hbk Hidx Hpay Hfl Htime.
  assert (Hne : forall e, e ∈ bl_requestSet (ms_backlog s) -> be_request e <> i).
  { intros e He Heq. destruct (Hoth e He) as [_ Hn]. by rewrite Heq in Hn. }
  assert (Hb1 : backlog_ok (s_heap s1) (s_pool s1) (ms_backlog s)).
  { eapply backlog_ok_pool; [eapply backlog_ok_heap; [exact Hb|]|].
    - intros e He. rewrite Hh, lookup_insert_ne; [done|]. apply not_eq_sym, Hoth, He.
    - intros e He. by apply Hsame, Hne. }
  assert (Hm1 : s_heap s1 !! request = Some m') by (rewrite Hh; apply lookup_insert_eq).
  pose proof (addPendingRequest_ok (s_heap s1) (s_pool s1) (ms_backlog s) request m' Hb1 Hm1) as Hadd.
  rewrite Hidx, Hmid, Hpay in Hadd. cbv zeta in Hadd. set (e := MkBacklogEntry request i) in *.
  destruct Hadd as (b1 & Hadd & Hok1 & Hset & Hmap & Hsize); [|done..|].
  { exists m', r. cbn. split_and!; congruence. }
  exists b1. split.
  - unfold onLoopSend, msg_at. rewrite Hm1. cbn [outcome_bind]. unfold getRequestData. rewrite Hidx, Hmid.
    pose proof (zget_Some_range _ _ _ Hr) as Hrg. destruct (Z.leb_spec (zlen (p_requests (s_pool s1))) i); [lia|].
    rewrite (pool_at_ok _ _ _ Hr). cbn [outcome_bind]. rewrite Hrid, Z.eqb_refl. cbn [outcome_bind].
    rewrite (pool_at_ok _ _ _ Hr). cbn [outcome_bind]. rewrite Hfl. cbn [Z.eqb].
    change (Z.land COMMUTIL_REQUEST_FLAG_TX COMMUTIL_REQUEST_FLAG_REUSE =? 0) with true. cbv iota.
    rewrite Hbk, Hadd. done.
  - split; try done.
    + unfold e_id, e. cbn. rewrite Hm1. exact Hmid.
    + unfold e_payload, e. cbn. rewrite Hm1. exact Hpay.
    + unfold e_time, e. cbn. by rewrite Hr.
    + intros e' He'. unfold e_time. by rewrite Hsame by (by apply Hne).
Qed.

(** the removal of the request after its pool entry was cleared: it succeeds if no other
    request is in the backlog, and fails if all that are there are older *)
Lemma added_removed s request m hp p e b1 p' : backlog_ok (s_heap s) (s_pool s) (ms_backlog s) ->
  bl_requestMap (ms_backlog s) !! p_nextRequestId (s_pool s) = None ->
  added s request m hp p e b1 -> cleared p e p' -> bl_requestSet (ms_backlog s) = [] ->
  removePendingRequest hp p' request b1 = Done (E_OK, ms_backlog s).
Proof.
  intros Hb Hnew [Hok Hmsg Hid Hset Hmap Hsize Hpay Htime _] Hc Hnil. rewrite Hnil in Hset.
  apply Permutation_singleton_r in Hset. assert (He : e ∈ bl_requestSet b1) by (rewrite Hset; by left).
  pose proof (cleared_first_ok hp p b1 e [] p' Hok Hset (List.Forall_nil _) Hc) as Hok'.
  destruct (removePendingRequest_ok hp p' b1 e Hok' He) as (b2 & Hrem & Hok2 & Hset2 & Hmap2 & Hsize2).
  rewrite Hmsg in Hrem. rewrite Hrem. do 2 f_equal. rewrite Hset in Hset2.
  assert (Hs2 : bl_requestSet b2 = []).
  { apply Permutation_nil. symmetry. apply (Permutation_cons_inv (a := e)). symmetry. by symmetry. }
  assert (Hh2 : bl_minHeap b2 = []) by (apply Permutation_nil; rewrite (bo_perm _ _ _ Hok2), Hs2; done).
  assert (Hh : bl_minHeap (ms_backlog s) = []) by (apply Permutation_nil; rewrite (bo_perm _ _ _ Hb), Hnil; done).
  rewrite Hmap, Hid, delete_insert_id in Hmap2 by done. rewrite Hsize, Hpay in Hsize2.
  destruct b2 as [z2 m2 s2 h2], (ms_backlog s) as [z0 m0 s0 h0]. cbn in *. subst. f_equal. lia.
Qed.

Lemma added_stays s request m hp p e b1 p' : added s request m hp p e b1 -> cleared p e p' ->
  bl_requestSet (ms_backlog s) <> [] ->
  Forall (fun e' => 0 < e_time (s_pool s) e' < clock (ms_ticks s)) (bl_requestSet (ms_backlog s)) ->
  removePendingRequest hp p' request b1 = Done (E_DATA_CORRUPT, b1).
Proof.
  intros [Hok Hmsg Hid Hset Hmap Hsize Hpay Htime Htimes] Hc Hne Hold. rewrite list.Forall_forall in Hold.
  assert (Hin : forall e', e' ∈ bl_requestSet b1 -> e' = e \/ e' ∈ bl_requestSet (ms_backlog s)).
  { intros e' He'. by rewrite Hset, elem_of_cons in He'. }
  assert (Hpos : forall e', e' ∈ bl_requestSet (ms_backlog s) -> 0 < e_time p e' < clock (ms_ticks s)).
  { intros e' He'. rewrite Htimes by done. by apply Hold. }
  destruct (bl_requestSet b1) as [|x rest] eqn:Hs1.
  { by apply Permutation_nil_cons in Hset. }
  pose proof (bo_set _ _ _ Hok) as Hsorted. rewrite Hs1 in Hsorted. apply StronglySorted_inv in Hsorted as [_ Hx].
  rewrite list.Forall_forall in Hx. destruct (bl_requestSet (ms_backlog s)) as [|e1 l] eqn:Hs; [done|].
  assert (He1 : 0 < e_time p e1 < clock (ms_ticks s)) by (apply Hpos; by left).
  assert (Hxe : x <> e).
  { intros ->. apply Permutation_cons_inv in Hset. specialize (Hx e1). rewrite Hset in Hx.
    destruct Hx as [Hlt|[Heq _]]; [by left| |]; cbn in *; lia. }
  assert (Hxin : x ∈ e1 :: l) by (destruct (Hin x) as [|]; [by left|done..]).
  rewrite <- Hmsg. eapply cleared_not_found; [exact Hok|exact Hs1| |by apply Hpos| |exact Hc].
  - assert (He : e ∈ x :: rest) by (rewrite Hset; by left). by apply elem_of_cons in He as [|].
  - rewrite Hs1. rewrite list.Forall_forall. intros e' [->|He']%Hin; [lia|]. specialize (Hpos e' He'). lia.
Qed.

(** what the removal leaves in the backlog *)
Lemma removal_ends s request m s1 s2 e b1 : backlog_ok (s_heap s) (s_pool s) (ms_backlog s) ->
  bl_requestMap (ms_backlog s) !! p_nextRequestId (s_pool s) = None ->
  Forall (fun e' => 0 < e_time (s_pool s) e' < clock (ms_ticks s)) (bl_requestSet (ms_backlog s)) ->
  added s request m (s_heap s1) (s_pool s1) e b1 -> cleared (s_pool s1) e (s_pool s2) ->
  s_heap s1 = s_heap s2 -> ms_backlog s2 = b1 ->
  exists rc b2, s_removePendingRequest request s2 = Done (rc, set_backlog b2 s2) /\
    (bl_requestSet (ms_backlog s) = [] -> b2 = ms_backlog s) /\
    (bl_requestSet (ms_backlog s) <> [] -> b2 = b1).
Proof.
  intros Hb Hnew Hold Had Hcl Hh Hb2. unfold s_removePendingRequest. rewrite <- Hh, Hb2.
  destruct (decide (bl_requestSet (ms_backlog s) = [])) as [Hs|Hs].
  - rewrite (added_removed s request m _ _ e b1) by done. cbn [outcome_bind]. by eexists _, _.
  - rewrite (added_stays s request m _ _ e b1) by done. cbn [outcome_bind]. by eexists _, _.
Qed.

(** the state when the response has been handled *)
Lemma transaction_handled s request rsp m mr rc timeout n es : transacts s request rsp m mr rc ->
  exists data s1 e b1 p' s2 m', sendMsgInternal clock alloc request COMMUTIL_REQUEST_FLAG_TX s =
      Done (E_OK, Some data, s1) /\
    loop_events clock alloc [LE_send (Some request)] s1 = Done (set_backlog b1 s1) /\
    waitPendingResponse data timeout (replicate n RE_other ++ RE_setResponse (Some rsp) :: es)
      None (s_pool s1) = Done (E_OK, Some rsp, p') /\
    handleResponse rsp (s_set_pool p' (set_backlog b1 s1)) = Done (rc, s2) /\
    (exists i, vacant_at (s_pool s) i /\ vacant_at (s_pool s2) i /\ same_but i (s_pool s) (s_pool s2)) /\
    s_heap s2 = <[request := m']> (s_heap s) /\ s_heap s1 = s_heap s2 /\ ms_backlog s2 = b1 /\
    ms_config s1 = ms_config s /\
    added s request m (s_heap s1) (s_pool s1) e b1 /\ cleared (s_pool s1) e (s_pool s2).
Proof.
  intros [Hok Hid Hm Hmok Hmr Hap Hv Ha (d & Hd & Hw) Hlis Hbl Hnew Hoth Hold Hfit].
  destruct (send_accepted clock alloc s request m d Hok Hid Hm Hmok Hd Hv Ha Hw)
    as (i & r & m' & s1 & Hsend & Hvi & Hsame & Hr & Hst & Hrid & Hmid & Hh & Hb & Hcf & Hbo & Hcn & Hidx & Hpay & Hfl & Htime).
  destruct (request_added s s1 request m m' i r) as (b1 & Hadd & Had); try done.
  destruct (waitResponse_results timeout n rsp es r Hst) as (Hset & _ & _).
  pose proof (waitPendingResponse_eq (s_pool s1) i _ timeout _ None r E_OK _ _ Hr Hrid Hset eq_refl ltac:(done)) as Hwait.
  change (clearResponse (setResponse (Some rsp) r)) with (clearResponse r) in Hwait. set (p' := set_requests _ _) in Hwait.
  destruct (Hlis (mc_user (ms_client s1))) as [u Hu].
  exists (MkMsgRequestData (p_nextRequestId (s_pool s)) i), s1, (MkBacklogEntry request i), b1, p'.
  exists (set_client (set_user u (set_pool p' (ms_client s1))) (s_set_pool p' (set_backlog b1 s1))), m'.
  split; [exact Hsend|]. split; [cbn [loop_events loop_event_step]; by rewrite Hadd|].
  split; [exact Hwait|]. split.
  { unfold handleResponse, msg_at, s_heap in *. cbn. rewrite Hh, lookup_insert_ne by done.
    rewrite Hmr. cbn [outcome_bind]. rewrite Hbo, Hcn, Hu. done. }
  destruct (released_vacant i r (s_pool s1) Hr) as [Hvac Hsame'].
  split; [exists i; split_and!; [exact Hvi|exact Hvac|by etransitivity]|]. split_and!; try done. by exists r.
Qed.

(** C29. A transaction whose response the listener accepts succeeds: the loop reports the
    write of the request, which goes to the backlog, the response arrives, and in the end
    both messages are freed, the entry of the pool is vacant again and, if the backlog was
    empty before, it is as it was. But the entry of the pool is cleared before the request
    is looked up in the backlog by the time of that entry: if the backlog held requests,
    which are older, the request is not found, and stays there although its message is
    freed. *)
Theorem transaction_completes s request rsp m mr timeout n es :
  transacts s request rsp m mr E_OK ->
  exists s', transactMsgInternal clock alloc request timeout [LE_send (Some request)]
      (replicate n RE_other ++ RE_setResponse (Some rsp) :: es) s = Done (E_OK, s') /\
    s_heap s' = delete request (delete rsp (s_heap s)) /\
    (exists i, vacant_at (s_pool s) i /\ vacant_at (s_pool s') i /\ same_but i (s_pool s) (s_pool s')) /\
    (bl_requestSet (ms_backlog s) = [] -> ms_backlog s' = ms_backlog s) /\
    (bl_requestSet (ms_backlog s) <> [] -> exists e, e ∈ bl_requestSet (ms_backlog s') /\ be_msg e = request).
Proof.
  intros Htr. set (t := if timeout =? COMMUTIL_MSG_CONFIG_TIMEOUT
    then m_sendTimeoutMillis (ms_config s) else timeout).
  destruct (transaction_handled s request rsp m mr E_OK t n es Htr)
    as (data & s1 & e & b1 & p' & s2 & m' & Hsend & Hloop & Hwait & Hhandle & Hslot & Hh & Hh12 & Hb & Hcf & Had & Hcl).
  unfold transactMsgInternal, recvResponse. rewrite Hsend. cbn [outcome_bind].
  rewrite decide_False by (intros Hc; by apply Hc). rewrite Hcf. fold t. cbn [from_option id].
  rewrite Hloop. cbn [outcome_bind]. change (s_pool (set_backlog b1 s1)) with (s_pool s1).
  rewrite Hwait. cbn [outcome_bind]. rewrite decide_False by (intros Hc; by apply Hc).
  rewrite Hhandle. cbn [outcome_bind]. rewrite decide_False by (intros Hc; by apply Hc).
  assert (Hm2 : s_heap s2 !! request = Some m') by (rewrite Hh; apply lookup_insert_eq).
  destruct (removal_ends s request m s1 s2 e b1) as (rc2 & b2 & Hrem & Hempty & Hold); try done; try apply Htr.
  rewrite Hrem. cbn [outcome_bind]. rewrite (free_ok _ rsp mr).
  2:{ change (s_heap (set_backlog _ s2)) with (s_heap s2). rewrite Hh, lookup_insert_ne; apply Htr || apply not_eq_sym, Htr. }
  cbn [outcome_bind]. rewrite decide_False by (intros Hc; by apply Hc).
  erewrite free_ok by (cbn; rewrite lookup_delete_ne by apply Htr; exact Hm2). cbn [outcome_bind].
  eexists. split; [reflexivity|]. split; [|split; [exact Hslot|split; [exact Hempty|]]].
  - cbn. unfold s_heap at 1. cbn. change (mc_heap (ms_client s2)) with (s_heap s2). rewrite Hh.
    rewrite delete_delete, delete_insert_eq. by rewrite delete_delete.
  - intros Hne. exists e. split; [|apply Had]. cbn. rewrite Hold by done. rewrite (ad_set _ _ _ _ _ _ _ Had). by left.
Qed.

(** When the listener rejects the response of a transaction, the transaction
    reports success, and the request message is freed although a new entry of the
    pool, which is pending, refers to it. *)
Theorem rejected_transaction_dangles s request rsp m mr rc timeout n es :
  transacts s request rsp m mr rc -> rc <> E_OK ->
  exists s', transactMsgInternal clock alloc request timeout [LE_send (Some request)]
      (replicate n RE_other ++ RE_setResponse (Some rsp) :: es) s = Done (E_OK, s') /\
    s_heap s' !! request = None /\
    exists j r, zget (p_requests (s_pool s')) j = Some r /\ rq_status r = RS_PENDING /\
      rq_request r = Some request.
Proof.
  intros Htr Hrc. set (t := if timeout =? COMMUTIL_MSG_CONFIG_TIMEOUT
    then m_sendTimeoutMillis (ms_config s) else timeout).
  destruct (transaction_handled s request rsp m mr rc t n es Htr)
    as (data & s1 & e & b1 & p' & s2 & m' & Hsend & Hloop & Hwait & Hhandle & (i & _ & Hv & Hsame) & Hh & _ & _ & Hcf & _).
  unfold transactMsgInternal, recvResponse. rewrite Hsend. cbn [outcome_bind].
  rewrite decide_False by (intros Hc; by apply Hc). rewrite Hcf. fold t. cbn [from_option id].
  rewrite Hloop. cbn [outcome_bind]. change (s_pool (set_backlog b1 s1)) with (s_pool s1).
  rewrite Hwait. cbn [outcome_bind]. rewrite decide_False by (intros Hc; by apply Hc).
  rewrite Hhandle. cbn [outcome_bind]. rewrite decide_True by done.
  assert (Hok2 : pool_ok (s_pool s2)).
  { destruct Hsame as [Hlen _]. unfold pool_ok. rewrite Hlen. apply Htr. }
  destruct (renew_ok clock s2 request m' Hok2 ltac:(by exists i)) as (j & r & m2 & s3 & Hrenew & Hr & Hst & Hq & Hh3);
    [rewrite Hh; apply lookup_insert_eq|].
  rewrite Hrenew. cbn [outcome_bind].
  assert (Hmr : s_heap s3 !! rsp = Some mr)
    by (rewrite Hh3, Hh, !lookup_insert_ne by (apply not_eq_sym, Htr); apply Htr).
  rewrite (free_ok _ rsp mr Hmr). cbn [outcome_bind]. rewrite decide_False by (intros Hc; by apply Hc).
  erewrite free_ok by (cbn; rewrite lookup_delete_ne by apply Htr; rewrite Hh3; apply lookup_insert_eq).
  cbn [outcome_bind]. eexists. split; [reflexivity|]. split; [apply lookup_delete_eq|]. by exists j, r.
Qed.

(** A frame whose sending fails is neither freed nor kept: its message is still
    allocated, but no entry of the pool and no entry of the backlog refers to it,
    so that it is never sent again. This holds for all overloads of sendMsg. *)
Theorem failed_send_loses_message s ptr frame m rc s' :
  ms_stopResend s = false -> frame = Done (E_OK, PtrMsg m) -> pool_ok (s_pool s) ->
  (forall i r, zget (p_requests (s_pool s)) i = Some r -> rq_request r <> Some ptr) ->
  with_frame ptr frame (send_request clock alloc ptr) s = Done (rc, s') -> rc <> E_OK ->
  is_Some (s_heap s' !! ptr) /\ ms_backlog s' = ms_backlog s /\
  forall i r, zget (p_requests (s_pool s')) i = Some r -> rq_request r <> Some ptr.
Proof.
  intros Hstop -> Hok Hno. unfold with_frame. rewrite Hstop. cbn [outcome_bind].
  rewrite decide_False by (intros Hc; by apply Hc). unfold send_request, sendMsgInternal.
  cbn [getCurrentTimeMillis]. set (s1 := tick _). intros Hrun Hrc. inv_bind.
  destruct a as [[rc1 rd] s2], a0 as [[rc2 rd2] c]. inv_bind.
  assert (Hc : is_Some (mc_heap c !! ptr) /\
    forall i r, zget (p_requests (mc_requestPool c)) i = Some r -> rq_request r <> Some ptr).
  { destruct (client_sendMsg_grab alloc (clock (ms_ticks (s_set_heap (<[ptr:=m]> (s_heap s)) s))) ptr 0
      (ms_client s1) m Hok (lookup_insert_eq _ _ _) eq_refl)
      as [(i & p & r & Hrun' & Hv & [Hlen Hsame] & Hr & _)|(p & Hrun' & _ & Hp)].
    - rewrite Hrun' in E0.
      destruct (transport_send_pool alloc ptr (Some ptr) i _ (set_heap _ (set_pool p (ms_client s1))) _ _ c r Hr E0)
        as (_ & Hh & Hp). rewrite Hh, Hp, decide_False by done. split; [cbn; rewrite lookup_insert_eq; by eexists|].
      intros j x. cbn. destruct (decide (i = j)) as [<-|Hne].
      + rewrite zget_zset_eq by (by eapply zget_Some_range). by intros [= <-].
      + rewrite zget_zset_ne by done. rewrite Hsame by done. apply Hno.
    - rewrite Hrun' in E0. injection E0 as <- <- <-. split; [cbn; rewrite lookup_insert_eq; by eexists|].
      intros j x. cbn. rewrite Hp. apply Hno. }
  unfold send_stats, s_heap, s_pool. destruct onSendMsgStats; cbn; by destruct Hc.
Qed.

Lemma waitBacklogEmpty_ends done poll count : 0 <= poll -> 0 <= count < 2 ^ 64 ->
  forall fuel iter i, 0 <= iter <= count -> count - iter <= Z.of_nat fuel ->
  exists slept, waitBacklogEmpty_loop fuel done poll count iter i = Done slept /\
    0 <= slept <= poll * (count - iter).
Proof.
  intros Hp Hc. induction fuel as [|fuel IH]; intros iter i Hi Hf; cbn [waitBacklogEmpty_loop].
  - rewrite (proj2 (Z.ltb_ge _ _)), andb_false_r by lia. exists 0. split; [done|]. nia.
  - destruct (negb (done i) && (iter <? count)) eqn:Hcond; [|exists 0; split; [done|nia]].
    apply andb_true_iff in Hcond as [_ Hlt%Z.ltb_lt]. rewrite u64_small by lia.
    destruct (IH (iter + 1) (S i)) as (slept & -> & Hs); [lia|lia|]. cbn [outcome_bind].
    exists (poll + slept). split; [done|]. nia.
Qed.

(** Stopping the sender ends: whatever the loop thread does, the caller polls
    for at most the shutdown timeout, with the polling period or its default. *)
Theorem waitBacklogEmpty_bounded done s :
  0 <= m_shutdownTimeoutMillis (ms_config s) < 2 ^ 64 ->
  0 <= m_shutdownPollingTimeoutMillis (ms_config s) ->
  exists slept, waitBacklogEmpty (Z.to_nat (m_shutdownTimeoutMillis (ms_config s))) done s = Done slept /\
    0 <= slept <= m_shutdownTimeoutMillis (ms_config s).
Proof.
  intros Ht Hp. unfold waitBacklogEmpty. set (total := m_shutdownTimeoutMillis (ms_config s)) in *.
  set (poll := if _ =? 0 then _ else _).
  assert (Hpoll : 0 < poll).
  { unfold poll. destruct (Z.eqb_spec (m_shutdownPollingTimeoutMillis (ms_config s)) 0); [done|lia]. }
  assert (Hq : 0 <= total / poll <= total) by (split; [apply Z.div_pos; lia|apply Z.div_le_upper_bound; nia]).
  destruct (waitBacklogEmpty_ends done poll (total / poll)) with (fuel := Z.to_nat total) (iter := 0) (i := O)
    as (slept & -> & Hs); [lia..|].
  exists slept. split; [done|]. pose proof (Z.mul_div_le total poll Hpoll). nia.
Qed.
End Theorems.

(** ** Witnesses *)

#[local] Instance sample_transport : DataClient SampleTransport := {|
  dc_initialize d := (E_OK, d); dc_terminate d := (E_OK, d); dc_start d := (E_OK, d);
  dc_stop d := (E_OK, d); dc_isReady _ := true; dc_waitReady _ := Done 0; dc_setDataLoopListener _ d := d; dc_byteOrder _ := NETWORK_ORDER;
  dc_write bytes _ _ d := (st_rc d, MkSampleTransport (st_rc d) (bytes :: st_written d));
|}.

#[local] Instance sample_callbacks : MsgListener unit := {|
  onConnect _ _ u := (true, u); onDisconnect _ u := u; onMsg _ m _ u := (MSG_CAN_DELETE, u);
|}.

#[local] Instance sample_request_listener : MsgRequestListener unit := {| onResponseArrived _ _ u := u |}.

#[local] Instance sample_gzip : Gzip := {| gzip_compress b := Done b; gzip_decompress b := Done b |}.

(** the frame listener accepts a frame of three bytes *)
#[local] Instance sample_frames : FrameListener (option ConnectionDetails) unit := {|
  handleMsg _ _ data _ _ u := (if zlen data =? 3 then E_OK else E_DATA_CORRUPT, u);
  handleMsgError _ _ _ u := u;
  onRecvMsgStats := None;
|}.

#[local] Instance sample_stats : SendStatListener unit := {| onSendMsgStats := None |}.

#[local] Instance sample_loop : UvLoop unit := {|
  uv_timer_init _ w := (0, w); uv_timer_start _ _ _ w := (0, w); uv_timer_stop _ w := (0, w);
  uv_timer_set_repeat _ _ w := w; uv_close _ w := w; uv_async_init w := (0, w);
  uv_async_send _ w := (0, w);
|}.

(** the messages of the backlog, a response with three bytes, one with two *)
Definition sender_heap : Heap :=
  <[200 := backlog_msg 4 0]> (<[201 := sample_response]> backlog_heap).

Definition sender_slot (id msg time : Z) (a : MsgRequestStatus) : MsgRequest :=
  MkMsgRequest id a 0 (Some msg) (if decide (a = RS_ARRIVED) then Some 200 else None) time time.

(** two requests of the backlog and a vacant entry *)
Definition sender_pool (a b : MsgRequestStatus) : MsgRequestPool :=
  MkMsgRequestPool [sender_slot 4 100 10 a; sender_slot 5 101 20 b; MsgRequest_new] 6 false.

Definition sender_of (rc : ErrorCode) (p : MsgRequestPool) (b : MsgBacklog)
  : MsgSender SampleTransport unit unit :=
  MkMsgSender (MkMsgClient sender_heap (Some (MkSampleTransport rc [])) (MkMsgAssembler None 0) p
      ConnectData_new false tt)
    NETWORK_ORDER MsgConfig_new b false false 0 1 0 (LoopTimers_new tt) 0.

Lemma sender_backlog_ok a b : backlog_ok sender_heap (sender_pool a b) sample_backlog.
Proof.
  constructor; cbn [sample_backlog bl_requestSet bl_minHeap bl_requestMap bl_sizeBytes].
  - repeat constructor; eexists _, _; split_and!; reflexivity.
  - repeat constructor.
  - repeat constructor.
  - done.
  - intros id e. rewrite !lookup_insert_Some, lookup_empty, !elem_of_cons, elem_of_nil.
    assert (e_id sender_heap entry_a = 4) by reflexivity.
    assert (e_id sender_heap entry_b = 5) by reflexivity. naive_solver.
  - reflexivity.
  - reflexivity.
Qed.

Lemma sample_apart e' : e' ∈ [entry_a; entry_b] -> be_msg e' <> 200.
Proof. rewrite !elem_of_cons, elem_of_nil. by intros [->|[->|[]]]. Qed.

(** a clock that shows [t] at first and then goes on by one *)
Definition sample_clock (t : Z) (n : nat) : Z := t + Z.of_nat n.

Lemma answered_request_completed_witness :
  let s := sender_of E_OK (sender_pool RS_ARRIVED RS_PENDING) sample_backlog in
  exists s', processPendingResponse (sample_clock 50) 0 s = Done s' /\
    backlog_ok (s_heap s') (s_pool s') (ms_backlog s') /\
    bl_requestSet (ms_backlog s') ≡ₚ [entry_b] /\
    s_heap s' = delete 100 (delete 200 (s_heap s)) /\
    vacant_at (s_pool s') 0 /\ same_but 0 (s_pool s) (s_pool s') /\ mc_user (ms_client s') = tt.
Proof.
  apply (answered_request_completed (sample_clock 50)
    (sender_of E_OK (sender_pool RS_ARRIVED RS_PENDING) sample_backlog) entry_a [entry_b] 200 tt).
  - apply sender_backlog_ok.
  - reflexivity.
  - repeat constructor.
  - constructor; [eexists; split_and!; reflexivity|eexists; split; reflexivity|apply sample_apart].
Defined.

Lemma answered_out_of_order_dangles_witness :
  let s := sender_of E_OK (sender_pool RS_PENDING RS_ARRIVED) sample_backlog in
  exists s', processPendingResponse (sample_clock 50) 1 s = Done s' /\
    ms_backlog s' = ms_backlog s /\ entry_b ∈ bl_requestSet (ms_backlog s') /\
    s_heap s' !! 101 = None /\ vacant_at (s_pool s') 1.
Proof.
  apply (answered_out_of_order_dangles (sample_clock 50)
    (sender_of E_OK (sender_pool RS_PENDING RS_ARRIVED) sample_backlog) entry_a [entry_b] entry_b 200 tt).
  - apply sender_backlog_ok.
  - reflexivity.
  - apply list_elem_of_In. left. reflexivity.
  - reflexivity.
  - repeat constructor; vm_compute; discriminate.
  - constructor; [eexists; split_and!; reflexivity|eexists; split; reflexivity|apply sample_apart].
Defined.

(** only one request, which expired *)
Definition expired_pool : MsgRequestPool :=
  MkMsgRequestPool [sender_slot 4 100 10 RS_PENDING; MsgRequest_new] 6 false.

Lemma expired_request_use_after_free_witness :
  onLoopTimer (sample_clock 40000) sample_alloc 10 1 (sender_of E_OK expired_pool single_backlog) =
    Undef UB_freed.
Proof.
  apply (expired_request_use_after_free (sample_clock 40000) sample_alloc 9 1
    (sender_of E_OK expired_pool single_backlog) entry_a [] (sender_slot 4 100 10 RS_PENDING)
    (backlog_msg 4 0)); try reflexivity.
  - vm_compute. discriminate.
  - intros j r' Hj Hr. pose proof (zget_Some_range _ _ _ Hr) as Hrange.
    change (0 <= j < 2) in Hrange. assert (j = 1) as -> by (cbn in Hj; lia). by injection Hr as <-.
Defined.

Lemma resend_spins_witness :
  resendShippingBacklog (sample_clock 50) sample_alloc 1000 None
    (sender_of E_OK (sender_pool RS_PENDING RS_PENDING) sample_backlog) = NoFuel.
Proof.
  apply (resend_spins (sample_clock 50) sample_alloc 1000 None
    (sender_of E_OK (sender_pool RS_PENDING RS_PENDING) sample_backlog) entry_a [entry_b]).
  - apply sender_backlog_ok.
  - reflexivity.
  - discriminate.
  - reflexivity.
  - intros n [_ Hn]. change (e_resend _ _) with 10. unfold sample_clock.
    change (m_resendPeriodMillis _) with 5000. cbn [sender_of ms_ticks] in Hn. lia.
Defined.

Lemma resend_oldest_only_witness :
  let s := sender_of E_OK (sender_pool RS_PENDING RS_PENDING) sample_backlog in
  exists s' min', resendShippingBacklog (fun _ => 6000) sample_alloc 5 None s = Done (E_OK, min', s') /\
    mc_dataClient (ms_client s') = Some (MkSampleTransport E_OK [msg_image (backlog_msg 4 0) true]) /\
    ms_backlog s' = ms_backlog s /\ same_but 0 (s_pool s) (s_pool s') /\
    6000 <= e_resend (s_pool s') entry_a /\ s_heap s' = s_heap s.
Proof.
  apply (resend_oldest_only (fun _ => 6000) sample_alloc 4 None
    (sender_of E_OK (sender_pool RS_PENDING RS_PENDING) sample_backlog) entry_a [entry_b]
    (backlog_msg 4 0) (MkSampleTransport E_OK [])); try reflexivity.
  - apply sender_backlog_ok.
  - split; [apply header_okb_ok|]; reflexivity.
  - discriminate.
  - by eexists.
  - intros n k _. by vm_compute.
  - by vm_compute.
  - by vm_compute.
Defined.

(** a transaction: the message 102 is sent, and the response with [rc] bytes arrives; the
    backlog is empty, or holds two older requests *)
Lemma sample_transacts rsp mr rc b : b = MsgBacklog_new \/ b = sample_backlog ->
  sender_heap !! rsp = Some mr -> rsp <> 102 ->
  readMsgFrame NETWORK_ORDER None mr tt = Done (rc, tt) ->
  transacts (sample_clock 50) sample_alloc (sender_of E_OK (sender_pool RS_PENDING RS_PENDING) b) 102 rsp
    (backlog_msg 6 2) mr rc.
Proof.
  intros Hb Hr Hne Hread. constructor; [by vm_compute|by vm_compute|reflexivity| |exact Hr|exact Hne|..].
  - split; [apply header_okb_ok|]; reflexivity.
  - exists 2. eexists. split; reflexivity.
  - by eexists.
  - eexists. split; reflexivity.
  - intros []. by exists tt.
  - destruct Hb as [->| ->]; [|apply sender_backlog_ok]. constructor; cbn; try done; [constructor..|].
    intros id e. rewrite lookup_empty, elem_of_nil. naive_solver.
  - destruct Hb as [->| ->]; reflexivity.
  - intros e. destruct Hb as [->| ->]; cbn; [by intros ?%elem_of_nil|].
    rewrite !elem_of_cons, elem_of_nil. intros [->|[->|[]]]; (split; [done|]); intros (r & [= <-] & Hst); discriminate Hst.
  - destruct Hb as [->| ->]; repeat constructor.
  - destruct Hb as [->| ->]; reflexivity.
Qed.

(** with an empty backlog, and with older requests in it *)
Lemma transaction_completes_witness :
  (let s := sender_of E_OK (sender_pool RS_PENDING RS_PENDING) MsgBacklog_new in
   exists s', transactMsgInternal (sample_clock 50) sample_alloc 102 COMMUTIL_MSG_CONFIG_TIMEOUT [LE_send (Some 102)]
       (replicate 2 RE_other ++ RE_setResponse (Some 200) :: []) s = Done (E_OK, s') /\
     s_heap s' = delete 102 (delete 200 (s_heap s)) /\ ms_backlog s' = MsgBacklog_new) /\
  (let s := sender_of E_OK (sender_pool RS_PENDING RS_PENDING) sample_backlog in
   exists s', transactMsgInternal (sample_clock 50) sample_alloc 102 COMMUTIL_MSG_CONFIG_TIMEOUT [LE_send (Some 102)]
       (replicate 2 RE_other ++ RE_setResponse (Some 200) :: []) s = Done (E_OK, s') /\
     s_heap s' = delete 102 (delete 200 (s_heap s)) /\
     exists e, e ∈ bl_requestSet (ms_backlog s') /\ be_msg e = 102).
Proof.
  split.
  - destruct (transaction_completes (sample_clock 50) sample_alloc
      (sender_of E_OK (sender_pool RS_PENDING RS_PENDING) MsgBacklog_new) 102 200 (backlog_msg 6 2)
      (backlog_msg 4 0) COMMUTIL_MSG_CONFIG_TIMEOUT 2 []) as (s' & Hs' & Hh & _ & Hb & _).
    { apply sample_transacts; [by left|reflexivity|done|reflexivity]. }
    exists s'. split; [exact Hs'|]. split; [exact Hh|]. by apply Hb.
  - destruct (transaction_completes (sample_clock 50) sample_alloc
      (sender_of E_OK (sender_pool RS_PENDING RS_PENDING) sample_backlog) 102 200 (backlog_msg 6 2)
      (backlog_msg 4 0) COMMUTIL_MSG_CONFIG_TIMEOUT 2 []) as (s' & Hs' & Hh & _ & _ & Hb).
    { apply sample_transacts; [by right|reflexivity|done|reflexivity]. }
    exists s'. split; [exact Hs'|]. split; [exact Hh|]. by apply Hb.
Defined.

Lemma rejected_transaction_dangles_witness :
  let s := sender_of E_OK (sender_pool RS_PENDING RS_PENDING) MsgBacklog_new in
  exists s', transactMsgInternal (sample_clock 50) sample_alloc 102 COMMUTIL_MSG_CONFIG_TIMEOUT [LE_send (Some 102)]
      (replicate 2 RE_other ++ RE_setResponse (Some 201) :: []) s = Done (E_OK, s') /\
    s_heap s' !! 102 = None /\
    exists j r, zget (p_requests (s_pool s')) j = Some r /\ rq_status r = RS_PENDING /\
      rq_request r = Some 102.
Proof.
  apply (rejected_transaction_dangles (sample_clock 50) sample_alloc
    (sender_of E_OK (sender_pool RS_PENDING RS_PENDING) MsgBacklog_new) 102 201 (backlog_msg 6 2)
    sample_response E_DATA_CORRUPT COMMUTIL_MSG_CONFIG_TIMEOUT 2 []); [|done].
  apply sample_transacts; [by left|reflexivity|done|reflexivity].
Defined.

Lemma failed_send_loses_message_witness :
  let s := sender_of E_INPROGRESS (sender_pool RS_PENDING RS_PENDING) sample_backlog in
  exists s', sender_sendMsg (sample_clock 50) sample_alloc true 300 7 (le_split 3 9) false 0 s =
      Done (E_INPROGRESS, s') /\
    is_Some (s_heap s' !! 300) /\ ms_backlog s' = ms_backlog s /\
    forall i r, zget (p_requests (s_pool s')) i = Some r -> rq_request r <> Some 300.
Proof.
  eexists. split; [vm_compute; reflexivity|].
  eapply (failed_send_loses_message (sample_clock 50) sample_alloc
    (sender_of E_INPROGRESS (sender_pool RS_PENDING RS_PENDING) sample_backlog) 300
    (prepareMsgFrame true 7 (le_split 3 9) false 0) _ E_INPROGRESS).
  - reflexivity.
  - vm_compute. reflexivity.
  - by vm_compute.
  - intros i r Hr. pose proof (zget_Some_range _ _ _ Hr) as Hrange. change (0 <= i < 3) in Hrange.
    assert (i = 0 \/ i = 1 \/ i = 2) as [->|[->| ->]] by lia; by injection Hr as <-.
  - vm_compute. reflexivity.
  - done.
Defined.

Lemma waitBacklogEmpty_bounded_witness :
  let s := sender_of E_OK expired_pool single_backlog in
  exists slept, waitBacklogEmpty (Z.to_nat 5000) (fun _ => false) s = Done slept /\ 0 <= slept <= 5000.
Proof.
  apply (waitBacklogEmpty_bounded (fun _ => false) (sender_of E_OK expired_pool single_backlog)).
  - by vm_compute.
  - by vm_compute.
Defined.
