(* ===== verification/Multiplexer.v ===== *)
(** * MsgMultiplexer (inc/msg/msg_multiplexer.h, src/msg/msg_multiplexer.cpp)

    The events of all connections are spread over the queues of worker threads.
    A worker holds the lock of its queue while it empties it, so emptying a queue
    is one step for the queue; the calls of the I/O threads and the steps of the workers
    interleave. The listeners of two workers can run at the same time: the workers of
    the message server in small steps, and that the whole steps are some of their
    interleavings, are in [Sessions]. *)

From Stdlib Require Import ZArith Lia String.
From stdpp Require Import list.
From S2P Require Import Prelude Errors Io Msg Connection Segmented Assembler.
Open Scope Z_scope.

(** ** Definitions *)

(** MsgEvent with its EventType; the pointer of a message also carries the status
    of a connect event *)
Inductive MsgEvent :=
| ET_CONNECT (connectionDetails : ConnectionDetails) (status : Z)
| ET_DISCONNECT (connectionDetails : ConnectionDetails)
| ET_MSG (connectionDetails : ConnectionDetails) (msg : Msg)
| ET_STOP (connectionDetails : ConnectionDetails).

Definition evt_details (e : MsgEvent) : ConnectionDetails :=
  match e with ET_CONNECT d _ | ET_DISCONNECT d | ET_MSG d _ | ET_STOP d => d end.

(** a queue is the list of its elements from the front; events are pushed to the
    front and taken from the back *)
Record MsgMultiplexer := MkMsgMultiplexer {
  mx_concurrency : Z;
  mx_nextQueue : Z;
  mx_connectionMap : list Z;
  mx_msgQueues : list (list MsgEvent);
}.

Definition MsgMultiplexer_new : MsgMultiplexer := MkMsgMultiplexer 0 0 [] [].

Definition set_queues (qs : list (list MsgEvent)) (m : MsgMultiplexer) : MsgMultiplexer :=
  MkMsgMultiplexer (mx_concurrency m) (mx_nextQueue m) (mx_connectionMap m) qs.

(** [allocs]: which allocations of queues succeed *)
Definition mux_initialize (allocs : nat -> bool) (maxConnections concurrency : Z) (m : MsgMultiplexer)
  : ErrorCode * MsgMultiplexer :=
  let connectionMap := ztake maxConnections (mx_connectionMap m) ++
    replicate (Z.to_nat (maxConnections - zlen (mx_connectionMap m))) (u32 (-1)) in
  let m := MkMsgMultiplexer concurrency (mx_nextQueue m) connectionMap (mx_msgQueues m) in
  if forallb allocs (seq 0 (Z.to_nat concurrency))
  then (E_OK, set_queues (replicate (Z.to_nat concurrency) []) m)
  else (E_NOMEM, set_queues [] m).

Definition mux_terminate (m : MsgMultiplexer) : outcome (ErrorCode * MsgMultiplexer) :=
  if zlen (mx_msgQueues m) <? mx_concurrency m then Undef UB_bounds
  else Done (E_OK, set_queues [] m).

Definition assignQueueId (connectionIndex : Z) (m : MsgMultiplexer) : outcome MsgMultiplexer :=
  let queueId := mx_nextQueue m in
  if mx_concurrency m =? 0 then Undef UB_divzero else
  let* _ := mem_get (mx_connectionMap m) connectionIndex in
  Done (MkMsgMultiplexer (mx_concurrency m) (u32 (mx_nextQueue m + 1) mod mx_concurrency m)
    (zset (mx_connectionMap m) connectionIndex queueId) (mx_msgQueues m)).

(** an event goes to the front of a queue *)
Definition push_front (queueId : Z) (event : MsgEvent) (m : MsgMultiplexer) : outcome MsgMultiplexer :=
  let* q := mem_get (mx_msgQueues m) queueId in
  Done (set_queues (zset (mx_msgQueues m) queueId (event :: q)) m).

Definition pushEvent (event : MsgEvent) (m : MsgMultiplexer) : outcome MsgMultiplexer :=
  let* queueId := mem_get (mx_connectionMap m) (cd_connIndex (evt_details event)) in
  push_front queueId event m.

Definition mux_onConnect (details : ConnectionDetails) (status : Z) (m : MsgMultiplexer)
  : outcome (bool * MsgMultiplexer) :=
  if status =? 0 then
    let* m := assignQueueId (u32 (cd_connIndex details)) m in
    let* m := pushEvent (ET_CONNECT details status) m in
    Done (true, m)
  else Done (true, m).

Definition mux_onDisconnect (details : ConnectionDetails) (m : MsgMultiplexer)
  : outcome MsgMultiplexer := pushEvent (ET_DISCONNECT details) m.

Definition mux_onMsg (details : ConnectionDetails) (msg : Msg) (canSaveMsg : bool) (m : MsgMultiplexer)
  : outcome (MsgAction * MsgMultiplexer) :=
  if negb canSaveMsg then Done (MSG_CAN_DELETE, m) else
  let* m := pushEvent (ET_MSG details msg) m in
  Done (MSG_CANNOT_DELETE, m).

(** a stop event for the worker [i] *)
Definition push_stop (i : Z) (m : MsgMultiplexer) : outcome MsgMultiplexer :=
  push_front i (ET_STOP (setConnectionIndex i (ConnectionDetails_newNet EmptyString 0 0 0))) m.

Section Workers.
Context {U : Type} `{MsgListener U}.

(** the second component of the user state logs the messages that were freed *)
Definition handleEvt (evt : MsgEvent) (u : U * list Msg) : bool * (U * list Msg) :=
  match evt with
  | ET_CONNECT details status => (false, (snd (onConnect details status (fst u)), snd u))
  | ET_DISCONNECT details => (false, (onDisconnect details (fst u), snd u))
  | ET_MSG details msg =>
    let '(action, user) := onMsg details msg true (fst u) in
    (false, (user, match action with MSG_CAN_DELETE => snd u ++ [msg] | _ => snd u end))
  | ET_STOP _ => (true, u)
  end.

(** the inner loop of a worker, over the events from the back of the queue *)
Fixpoint drain (done : bool) (evts : list MsgEvent) (u : U * list Msg) : bool * (U * list Msg) :=
  match evts with
  | [] => (done, u)
  | evt :: evts => let '(done, u) := handleEvt evt u in drain done evts u
  end.

(** the multiplexer with its workers; [sy_pushed] and [sy_handled] record the events
    with their queue in the order in which they were pushed and handled *)
Record MuxSystem := MkMuxSystem {
  sy_mux : MsgMultiplexer;
  sy_done : list bool;
  sy_user : U * list Msg;
  sy_pushed : list (Z * MsgEvent);
  sy_handled : list (Z * MsgEvent);
}.

(** what the threads of the program do *)
Inductive mux_action :=
| MA_connect (details : ConnectionDetails) (status : Z)
| MA_disconnect (details : ConnectionDetails)
| MA_msg (details : ConnectionDetails) (msg : Msg)
| MA_stop (i : Z)
| MA_work (queueId : Z).

(** the event that a call pushes *)
Definition action_event (a : mux_action) : option MsgEvent :=
  match a with
  | MA_connect details status => if status =? 0 then Some (ET_CONNECT details status) else None
  | MA_disconnect details => Some (ET_DISCONNECT details)
  | MA_msg details msg => Some (ET_MSG details msg)
  | MA_stop i => Some (ET_STOP (setConnectionIndex i (ConnectionDetails_newNet EmptyString 0 0 0)))
  | MA_work _ => None
  end.

(** a call of an I/O thread *)
Definition mux_call (a : mux_action) (m : MsgMultiplexer) : outcome MsgMultiplexer :=
  match a with
  | MA_connect details status => let* '(_, m) := mux_onConnect details status m in Done m
  | MA_disconnect details => mux_onDisconnect details m
  | MA_msg details msg => let* '(_, m) := mux_onMsg details msg true m in Done m
  | MA_stop i => push_stop i m
  | MA_work _ => Done m
  end.

(** the queue to which the call [a] that led to [m] pushed its event *)
Definition action_queue (a : mux_action) (m : MsgMultiplexer) (e : MsgEvent) : Z :=
  match a with
  | MA_stop i => i
  | _ => default 0 (zget (mx_connectionMap m) (cd_connIndex (evt_details e)))
  end.

Definition mux_step (a : mux_action) (s : MuxSystem) : outcome MuxSystem :=
  match a with
  | MA_work queueId =>
    let* q := mem_get (mx_msgQueues (sy_mux s)) queueId in
    let* done := mem_get (sy_done s) queueId in
    if done || bool_decide (q = []) then Done s
    else
      let '(done, u) := drain done (rev q) (sy_user s) in
      Done (MkMuxSystem (set_queues (zset (mx_msgQueues (sy_mux s)) queueId []) (sy_mux s))
        (zset (sy_done s) queueId done) u (sy_pushed s)
        (sy_handled s ++ map (pair queueId) (rev q)))
  | _ =>
    let* m := mux_call a (sy_mux s) in
    Done (MkMuxSystem m (sy_done s) (sy_user s)
      (match action_event a with
       | Some e => sy_pushed s ++ [(action_queue a m e, e)]
       | None => sy_pushed s
       end) (sy_handled s))
  end.

Fixpoint mux_run (acts : list mux_action) (s : MuxSystem) : outcome MuxSystem :=
  match acts with
  | [] => Done s
  | a :: acts => let* s := mux_step a s in mux_run acts s
  end.

(** one worker for each queue *)
Definition mux_start (s : MuxSystem) : ErrorCode * MuxSystem :=
  (E_OK, MkMuxSystem (sy_mux s)
    (sy_done s ++ replicate (Z.to_nat (mx_concurrency (sy_mux s))) false) (sy_user s)
    (sy_pushed s) (sy_handled s)).

(** the first loop of [stop]: a stop event for each worker *)
Definition all_stop (concurrency : Z) : list mux_action := map MA_stop (seqZ 0 concurrency).

(** [stop]; [acts] is what the workers and the other threads do while it waits. A
    worker that did not end is waited for forever; a worker that nobody waited for
    ends the process when the vector of threads is cleared. *)
Definition mux_stop (acts : list mux_action) (s : MuxSystem) : outcome (ErrorCode * MuxSystem) :=
  let concurrency := mx_concurrency (sy_mux s) in
  let* s := mux_run (all_stop concurrency) s in
  let* s := mux_run acts s in
  if zlen (sy_done s) <? concurrency then Undef UB_bounds
  else if negb (forallb id (ztake concurrency (sy_done s))) then Undef UB_hang
  else if concurrency <? zlen (sy_done s) then Undef UB_throw
  else Done (E_OK, MkMuxSystem (sy_mux s) [] (sy_user s) (sy_pushed s) (sy_handled s)).

Definition mux_new (u : U) : MuxSystem := MkMuxSystem MsgMultiplexer_new [] (u, []) [] [].

Definition set_mux (m : MsgMultiplexer) (s : MuxSystem) : MuxSystem :=
  MkMuxSystem m (sy_done s) (sy_user s) (sy_pushed s) (sy_handled s).

(** a multiplexer that was initialized and started *)
Definition mux_started (maxConnections concurrency : Z) (u : U) : MuxSystem :=
  let '(_, m) := mux_initialize (fun _ => true) maxConnections concurrency MsgMultiplexer_new in
  snd (mux_start (set_mux m (mux_new u))).

(** the multiplexer as the listener of the assembler; undefined behaviour of a call
    stays in the state *)
#[export] Instance MuxSystem_listener : MsgListener (outcome MuxSystem) := {
  onConnect details status o := (true, outcome_bind o (mux_step (MA_connect details status)));
  onDisconnect details o := outcome_bind o (mux_step (MA_disconnect details));
  onMsg details msg canSaveMsg o :=
    if negb canSaveMsg then (MSG_CAN_DELETE, o)
    else (MSG_CANNOT_DELETE, outcome_bind o (mux_step (MA_msg details msg)));
}.
End Workers.

Arguments MuxSystem U : clear implicits.

(** ** What the theorems speak of *)

Definition is_stop (e : MsgEvent) : bool := match e with ET_STOP _ => true | _ => false end.

(** the events of connection [i] *)
Definition of_conn (i : Z) (e : MsgEvent) : bool :=
  negb (is_stop e) && (cd_connIndex (evt_details e) =? i).

Definition conn_evts (i : Z) (l : list MsgEvent) : list MsgEvent := List.filter (of_conn i) l.

(** the events of queue [q] in a record of pushed or handled events *)
Definition queue_evts (q : Z) (l : list (Z * MsgEvent)) : list MsgEvent :=
  map snd (List.filter (fun p => fst p =? q) l).

(** the events that a sequence of actions pushes, in order *)
Definition call_events (acts : list mux_action) : list MsgEvent := omap action_event acts.

Definition is_connect (i : Z) (a : mux_action) : bool :=
  match a with
  | MA_connect d status => (status =? 0) && (cd_connIndex d =? i)
  | _ => false
  end.

Definition is_stop_action (a : mux_action) : bool :=
  match a with MA_stop _ => true | _ => false end.

(** the events that wait in the queues, in the order of each queue *)
Definition pending_evts (m : MsgMultiplexer) : list MsgEvent := concat (map (@rev _) (mx_msgQueues m)).

(** every worker runs once *)
Definition all_work (concurrency : Z) : list mux_action :=
  map MA_work (seqZ 0 concurrency).

(** ** Queues *)

Lemma queue_evts_app q l1 l2 : queue_evts q (l1 ++ l2) = queue_evts q l1 ++ queue_evts q l2.
Proof. unfold queue_evts. by rewrite List.filter_app, map_app. Qed.

Lemma queue_evts_same q es : queue_evts q (map (pair q) es) = es.
Proof.
  induction es as [|e es IH]; [done|]. unfold queue_evts in *. cbn.
  rewrite Z.eqb_refl. cbn. by rewrite IH.
Qed.

Lemma queue_evts_other q q' es : q' <> q -> queue_evts q (map (pair q') es) = [].
Proof.
  intros Hq. induction es as [|e es IH]; [done|]. unfold queue_evts in *. cbn.
  by rewrite (proj2 (Z.eqb_neq q' q) Hq).
Qed.

Lemma conn_evts_app i l1 l2 : conn_evts i (l1 ++ l2) = conn_evts i l1 ++ conn_evts i l2.
Proof. apply List.filter_app. Qed.

Lemma conn_evts_none i l : Forall (fun e => of_conn i e = false) l -> conn_evts i l = [].
Proof.
  induction 1 as [|e l He Hl IH]; [done|]. unfold conn_evts in *. cbn. by rewrite He.
Qed.

(** the events of a connection whose events all went to queue [q] *)
Lemma conn_queue_evts i q l : Forall (fun p => of_conn i (snd p) = true -> fst p = q) l ->
  conn_evts i (map snd l) = conn_evts i (queue_evts q l).
Proof.
  induction 1 as [|[q' e] l He Hl IH]; [done|].
  unfold conn_evts, queue_evts in *. cbn in *. destruct (of_conn i e) eqn:Hi.
  - rewrite (He eq_refl), Z.eqb_refl. cbn. rewrite Hi. by f_equal.
  - destruct (q' =? q); cbn; by rewrite ?Hi.
Qed.

Lemma queue_evts_no_conn i q q' l : Forall (fun p => of_conn i (snd p) = true -> fst p = q) l ->
  q' <> q -> conn_evts i (queue_evts q' l) = [].
Proof.
  intros Hl Hq. induction Hl as [|[q1 e] l He Hl IH]; [done|].
  unfold conn_evts, queue_evts in *. cbn in *. destruct (Z.eqb_spec q1 q') as [->|]; [|done].
  cbn. destruct (of_conn i e) eqn:Hi; [|done]. by destruct (He eq_refl).
Qed.

(** only queue [q] holds events of connection [i] *)
Lemma pending_single i q : forall qs k evs,
  zget qs (q - k) = Some evs -> 
  (forall j evs', zget qs j = Some evs' -> j + k <> q -> conn_evts i (rev evs') = []) ->
  conn_evts i (concat (map (@rev _) qs)) = conn_evts i (rev evs).
Proof.
  assert (Hnone : forall qs, (forall j evs', zget qs j = Some evs' -> conn_evts i (rev evs') = []) ->
    conn_evts i (concat (map (@rev _) qs)) = []).
  { induction qs as [|q1 qs IH]; [done|]. intros Hall. cbn [map concat].
    rewrite conn_evts_app, (Hall 0 q1 eq_refl). apply IH. intros j evs' Hj.
    pose proof (zget_Some_range _ _ _ Hj). apply (Hall (j + 1)).
    rewrite zget_cons by lia. by replace (j + 1 - 1) with j by lia. }
  induction qs as [|q1 qs IH]; intros k evs Hget Hall; [by rewrite zget_nil in Hget|].
  pose proof (zget_Some_range _ _ _ Hget) as Hr. cbn [map concat]. rewrite conn_evts_app.
  destruct (decide (q = k)) as [->|Hne].
  - rewrite Z.sub_diag in Hget. injection Hget as <-. rewrite Hnone, app_nil_r; [done|].
    intros j evs' Hj. pose proof (zget_Some_range _ _ _ Hj). apply (Hall (j + 1)); [|lia].
    rewrite zget_cons by lia. by replace (j + 1 - 1) with j by lia.
  - rewrite (Hall 0 q1 eq_refl) by lia. cbn [app]. rewrite zget_cons in Hget by lia.
    apply (IH (k + 1)); [by replace (q - (k + 1)) with (q - k - 1) by lia|].
    intros j evs' Hj Hjq. pose proof (zget_Some_range _ _ _ Hj). apply (Hall (j + 1)); [|lia].
    rewrite zget_cons by lia. by replace (j + 1 - 1) with j by lia.
Qed.

(** ** The state of the multiplexer *)

Lemma push_front_inv q e m m' : push_front q e m = Done m' ->
  exists evs, zget (mx_msgQueues m) q = Some evs /\
    m' = set_queues (zset (mx_msgQueues m) q (e :: evs)) m.
Proof.
  unfold push_front, mem_get. destruct (zget (mx_msgQueues m) q) as [evs|]; cbn; [|done].
  intros [= <-]. by exists evs.
Qed.

Lemma pushEvent_inv e m m' : pushEvent e m = Done m' ->
  exists q evs, zget (mx_connectionMap m) (cd_connIndex (evt_details e)) = Some q /\
    zget (mx_msgQueues m) q = Some evs /\
    m' = set_queues (zset (mx_msgQueues m) q (e :: evs)) m.
Proof.
  unfold pushEvent, mem_get. destruct (zget (mx_connectionMap m) _) as [q|]; cbn; [|done].
  intros (evs & Hq & ->)%push_front_inv. by exists q, evs.
Qed.

Lemma assignQueueId_inv c m m' : 0 <= mx_nextQueue m < mx_concurrency m ->
  mx_concurrency m < 2 ^ 32 -> assignQueueId c m = Done m' ->
  0 <= c < zlen (mx_connectionMap m) /\
  m' = MkMsgMultiplexer (mx_concurrency m) ((mx_nextQueue m + 1) mod mx_concurrency m)
    (zset (mx_connectionMap m) c (mx_nextQueue m)) (mx_msgQueues m).
Proof.
  intros Hn Hc. unfold assignQueueId, mem_get.
  rewrite (proj2 (Z.eqb_neq (mx_concurrency m) 0)), u32_small by lia.
  destruct (zget (mx_connectionMap m) c) eqn:Hg; cbn; [|done]. intros [= <-].
  by apply zget_Some_range in Hg.
Qed.

(** what a call of an I/O thread does: an event goes to the queue of its
    connection, which a connect event has assigned *)
Definition call_pushes (a : mux_action) (m m' : MsgMultiplexer) : Prop :=
  match action_event a with
  | None => m' = m
  | Some e =>
    exists evs, zget (mx_msgQueues m) (action_queue a m' e) = Some evs /\
      mx_msgQueues m' = zset (mx_msgQueues m) (action_queue a m' e) (e :: evs) /\
      mx_concurrency m' = mx_concurrency m /\
      match a with
      | MA_connect d _ =>
        0 <= u32 (cd_connIndex d) < zlen (mx_connectionMap m) /\
        mx_nextQueue m' = (mx_nextQueue m + 1) mod mx_concurrency m /\
        mx_connectionMap m' = zset (mx_connectionMap m) (u32 (cd_connIndex d)) (mx_nextQueue m)
      | _ => mx_nextQueue m' = mx_nextQueue m /\ mx_connectionMap m' = mx_connectionMap m
      end /\
      match a with
      | MA_stop _ => True
      | _ => zget (mx_connectionMap m') (cd_connIndex (evt_details e)) = Some (action_queue a m' e)
      end
  end.

Lemma push_from_map e m m' q evs : zget (mx_connectionMap m) (cd_connIndex (evt_details e)) = Some q ->
  m' = set_queues (zset (mx_msgQueues m) q (e :: evs)) m ->
  default 0 (zget (mx_connectionMap m') (cd_connIndex (evt_details e))) = q.
Proof. intros Hq ->. cbn. by rewrite Hq. Qed.

Lemma mux_call_pushes a m m' : 0 <= mx_nextQueue m < mx_concurrency m ->
  mx_concurrency m < 2 ^ 32 -> mux_call a m = Done m' -> call_pushes a m m'.
Proof.
  intros Hn Hc. unfold call_pushes. destruct a as [d status|d|d msg|i|q]; cbn [mux_call action_event].
  - unfold mux_onConnect. destruct (status =? 0); [|by intros [= <-]].
    rewrite !outcome_bind_assoc. intros (m1 & Ha & Hm)%outcome_bind_inv.
    apply (assignQueueId_inv _ _ _ Hn Hc) in Ha as [Hr ->].
    rewrite outcome_bind_assoc in Hm. apply outcome_bind_inv in Hm as (m2 & Hp & Hm).
    apply pushEvent_inv in Hp as (q & evs & Hq & Hevs & ->). injection Hm as <-.
    exists evs. cbn in *. rewrite Hq. cbn. split_and!; try done; apply Hr.
  - intros (q & evs & Hq & Hevs & Hm)%pushEvent_inv. exists evs. cbn [action_queue].
    rewrite (push_from_map _ _ _ _ _ Hq Hm). by rewrite Hm.
  - unfold mux_onMsg. cbn [negb]. rewrite outcome_bind_assoc.
    intros (m1 & (q & evs & Hq & Hevs & Hm')%pushEvent_inv & [= <-])%outcome_bind_inv.
    exists evs. cbn [action_queue]. rewrite (push_from_map _ _ _ _ _ Hq Hm'). by rewrite Hm'.
  - intros (evs & Hq & ->)%push_front_inv. by exists evs.
  - by intros [= <-].
Qed.

Section Invariant.
Context {U : Type} `{MsgListener U}.
Implicit Types s : MuxSystem U.

(** the effect of handling a list of events *)
Definition handle_all (evts : list MsgEvent) (u : U * list Msg) : U * list Msg :=
  fold_left (fun u e => snd (handleEvt e u)) evts u.

Lemma handleEvt_done e (u : U * list Msg) : fst (handleEvt e u) = is_stop e.
Proof. destruct e; cbn; try done. by destruct (onMsg _ _ _ _). Qed.

Lemma drain_spec evts : forall was (u : U * list Msg),
  drain was evts u = (match rev evts with e :: _ => is_stop e | [] => was end, handle_all evts u).
Proof.
  induction evts as [|e evts IH]; intros was u; [done|]. cbn [drain].
  pose proof (handleEvt_done e u) as He. destruct (handleEvt e u) as [d u'] eqn:Hu.
  cbn in He. subst d. rewrite IH. unfold handle_all at 2. cbn [fold_left rev]. rewrite Hu. cbn [snd].
  by destruct (rev evts).
Qed.

(** each queue is a queue: what was pushed is what was handled and what waits *)
Record mux_ok (concurrency : Z) (u0 : U) (s : MuxSystem U) : Prop := {
  mo_concurrency : mx_concurrency (sy_mux s) = concurrency;
  mo_queues : zlen (mx_msgQueues (sy_mux s)) = concurrency;
  mo_done : zlen (sy_done s) = concurrency;
  mo_next : 0 <= mx_nextQueue (sy_mux s) < concurrency;
  mo_conns : zlen (mx_connectionMap (sy_mux s)) < 2 ^ 32;
  mo_fifo q evs : zget (mx_msgQueues (sy_mux s)) q = Some evs ->
    queue_evts q (sy_pushed s) = queue_evts q (sy_handled s) ++ rev evs;
  mo_pushed : Forall (fun p => 0 <= fst p < concurrency) (sy_pushed s);
  mo_handled : incl (sy_handled s) (sy_pushed s);
  mo_user : sy_user s = handle_all (map snd (sy_handled s)) (u0, []);
}.

Lemma mux_initialize_new n c : 0 <= n ->
  mux_initialize (fun _ => true) n c MsgMultiplexer_new =
    (E_OK, MkMsgMultiplexer c 0 (replicate (Z.to_nat n) (u32 (-1))) (replicate (Z.to_nat c) [])).
Proof.
  intros Hn. unfold mux_initialize. rewrite (proj2 (List.forallb_forall _ _)) by done.
  unfold set_queues. cbn. unfold ztake. by rewrite take_nil, Z.sub_0_r.
Qed.

Lemma mux_started_eq n c (u : U) : 0 <= n -> mux_started n c u =
  MkMuxSystem (MkMsgMultiplexer c 0 (replicate (Z.to_nat n) (u32 (-1))) (replicate (Z.to_nat c) []))
    (replicate (Z.to_nat c) false) (u, []) [] [].
Proof. intros Hn. unfold mux_started. by rewrite mux_initialize_new. Qed.

Lemma mux_started_ok n c (u : U) : 0 < c < 2 ^ 32 -> 0 <= n < 2 ^ 32 -> mux_ok c u (mux_started n c u).
Proof.
  intros Hc Hn.
  rewrite mux_started_eq by lia.
  split; cbn [mx_concurrency mx_nextQueue mx_connectionMap mx_msgQueues sy_mux sy_done
    sy_user sy_pushed sy_handled].
  - done.
  - rewrite zlen_replicate. lia.
  - rewrite zlen_replicate. lia.
  - lia.
  - rewrite zlen_replicate. lia.
  - intros q evs. unfold zget. destruct (q <? 0); [done|].
    by intros [-> _]%lookup_replicate.
  - done.
  - apply List.incl_refl.
  - done.
Qed.

Lemma mux_step_call a s s' : (forall q, a <> MA_work q) -> mux_step a s = Done s' ->
  exists m, mux_call a (sy_mux s) = Done m /\
    s' = MkMuxSystem m (sy_done s) (sy_user s)
      (match action_event a with
       | Some e => sy_pushed s ++ [(action_queue a m e, e)]
       | None => sy_pushed s
       end) (sy_handled s).
Proof.
  intros Ha. destruct a; try (by destruct (Ha queueId)); cbn [mux_step];
    intros (m & Hm & [= <-])%outcome_bind_inv; by exists m.
Qed.

Lemma call_ok c u0 a s m : mux_ok c u0 s -> call_pushes a (sy_mux s) m ->
  mux_ok c u0 (MkMuxSystem m (sy_done s) (sy_user s)
    (match action_event a with
     | Some e => sy_pushed s ++ [(action_queue a m e, e)]
     | None => sy_pushed s
     end) (sy_handled s)).
Proof.
  intros Hok Hp. unfold call_pushes in Hp. destruct (action_event a) as [e|].
  2: { subst m. by destruct s, Hok. }
  destruct Hp as (evs & Hget & Hqs & Hconc & Hrest & _).
  destruct Hok as [Hc Hlen Hdone Hnext Hmap Hfifo Hpushed Hincl Huser].
  pose proof (zget_Some_range _ _ _ Hget) as Hr.
  split; cbn [sy_mux sy_done sy_user sy_pushed sy_handled]; try done.
  - by rewrite Hconc.
  - by rewrite Hqs, zlen_zset.
  - destruct a; destruct Hrest as [Hx Hy]; try (by rewrite Hx).
    destruct Hy as [-> _]. rewrite Hc. apply Z.mod_pos_bound. lia.
  - destruct a; destruct Hrest as [Hx Hy]; try (by rewrite Hy).
    destruct Hy as [_ ->]. by rewrite zlen_zset.
  - intros q evs'. rewrite Hqs, queue_evts_app. destruct (decide (q = action_queue a m e)) as [->|Hne].
    + rewrite zget_zset_eq by done. intros [= <-]. rewrite (Hfifo _ _ Hget).
      rewrite <- app_assoc. f_equal. cbn [rev]. f_equal.
      apply (queue_evts_same _ [e]).
    + rewrite zget_zset_ne by done. intros ->%Hfifo.
      rewrite (queue_evts_other q _ [e] ltac:(done) : queue_evts q [_] = []). apply app_nil_r.
  - apply Forall_app. split; [done|]. constructor; [cbn; lia|done].
  - by apply List.incl_appl.
Qed.

Lemma handle_all_app l1 l2 (u : U * list Msg) : handle_all (l1 ++ l2) u = handle_all l2 (handle_all l1 u).
Proof. apply fold_left_app. Qed.

(** what a worker does when it finds events in its queue *)
Lemma work_inv q s s' : mux_step (MA_work q) s = Done s' -> exists evs d,
  zget (mx_msgQueues (sy_mux s)) q = Some evs /\ zget (sy_done s) q = Some d /\
  ((d = true \/ evs = []) /\ s' = s \/
   d = false /\ evs <> [] /\
   s' = MkMuxSystem (set_queues (zset (mx_msgQueues (sy_mux s)) q []) (sy_mux s))
     (zset (sy_done s) q (match evs with e :: _ => is_stop e | [] => d end))
     (handle_all (rev evs) (sy_user s)) (sy_pushed s)
     (sy_handled s ++ map (pair q) (rev evs))).
Proof.
  cbn [mux_step]. unfold mem_get.
  destruct (zget (mx_msgQueues (sy_mux s)) q) as [evs|]; cbn [outcome_bind]; [|done].
  destruct (zget (sy_done s) q) as [d|]; cbn [outcome_bind]; [|done].
  intros Hs. exists evs, d. do 2 (split; [done|]).
  destruct d; [left; cbn in Hs; injection Hs as <-; by split; [left|]|].
  destruct (bool_decide_reflect (evs = [])) as [Hnil|Hne]; cbn in Hs.
  - left. injection Hs as <-. by split; [right|].
  - right. rewrite drain_spec, rev_involutive in Hs. injection Hs as <-. done.
Qed.

Lemma work_ok c u0 q s s' : mux_ok c u0 s -> mux_step (MA_work q) s = Done s' -> mux_ok c u0 s'.
Proof.
  intros Hok (evs & d & Hevs & Hd & [[_ ->]|(-> & Hne & ->)])%work_inv; [done|].
  destruct Hok as [Hc Hlen Hdone Hnext Hmap Hfifo Hpushed Hincl Huser].
  pose proof (zget_Some_range _ _ _ Hevs) as Hr.
  split; cbn [sy_mux sy_done sy_user sy_pushed sy_handled set_queues mx_concurrency mx_nextQueue
    mx_connectionMap mx_msgQueues]; try done.
  - by rewrite zlen_zset.
  - by rewrite zlen_zset.
  - intros q' evs'. rewrite queue_evts_app. destruct (decide (q' = q)) as [->|Hq].
    + rewrite zget_zset_eq by done. intros [= <-]. rewrite queue_evts_same.
      cbn [rev]. rewrite app_nil_r. by apply Hfifo.
    + rewrite zget_zset_ne by done. intros ->%Hfifo. by rewrite queue_evts_other, app_nil_r.
  - apply List.incl_app; [done|]. intros p [e [<- He]]%List.in_map_iff.
    assert (Hin : In e (queue_evts q (sy_pushed s))).
    { rewrite (Hfifo _ _ Hevs). apply List.in_or_app. by right. }
    apply List.in_map_iff in Hin as ([q' e'] & Hee & Hin). cbn in Hee. subst e'.
    apply List.filter_In in Hin as [Hin Hq]. cbn in Hq. by apply Z.eqb_eq in Hq as ->.
  - by rewrite map_app, map_map, map_id, handle_all_app, Huser.
Qed.

Lemma mux_step_ok c u0 a s s' : c < 2 ^ 32 -> mux_ok c u0 s -> mux_step a s = Done s' ->
  mux_ok c u0 s'.
Proof.
  intros Hc Hok Hs. assert (Ha : (exists q, a = MA_work q) \/ forall q, a <> MA_work q)
    by (destruct a; try (by right); left; by exists queueId).
  destruct Ha as [[q ->]|Ha]; [by apply (work_ok c u0 q s)|].
  apply mux_step_call in Hs as (m & Hm & ->); [|done].
  apply call_ok; [done|]. apply mux_call_pushes; [| |done]; rewrite (mo_concurrency _ _ _ Hok); [|done].
  apply (mo_next _ _ _ Hok).
Qed.

Lemma mux_run_ok c u0 acts : forall s s', c < 2 ^ 32 -> mux_ok c u0 s -> mux_run acts s = Done s' ->
  mux_ok c u0 s'.
Proof.
  induction acts as [|a acts IH]; intros s s' Hc Hok; cbn [mux_run]; [by intros [= <-]|].
  intros (s1 & H1 & Hs)%outcome_bind_inv. apply (IH s1); [done| |done].
  by apply (mux_step_ok c u0 a s).
Qed.

Lemma mux_run_app acts1 acts2 : forall s,
  mux_run (acts1 ++ acts2) s = outcome_bind (mux_run acts1 s) (mux_run acts2).
Proof.
  induction acts1 as [|a acts IH]; intros s; [done|]. cbn [app mux_run].
  rewrite outcome_bind_assoc. destruct (mux_step a s); cbn [outcome_bind]; [apply IH|done|done].
Qed.

Lemma pushed_calls acts : forall s s', mux_run acts s = Done s' ->
  map snd (sy_pushed s') = map snd (sy_pushed s) ++ call_events acts.
Proof.
  induction acts as [|a acts IH]; intros s s'; cbn [mux_run call_events omap list_omap].
  { intros [= <-]. by rewrite app_nil_r. }
  intros (s1 & H1 & ->%IH)%outcome_bind_inv.
  assert (Ha : (exists q, a = MA_work q) \/ forall q, a <> MA_work q)
    by (destruct a; try (by right); left; by exists queueId).
  destruct Ha as [[q ->]|Ha].
  - by apply work_inv in H1 as (evs & d & _ & _ & [[_ ->]|(_ & _ & ->)]).
  - apply mux_step_call in H1 as (m & Hm & ->); [|done]. cbn [sy_pushed].
    unfold call_events. destruct (action_event a); [|done].
    by rewrite map_app, <- app_assoc.
Qed.

(** connection [i] has a queue that holds all its events, or it has no event yet;
    it connects [k] more times *)
Definition placed (i : Z) (s : MuxSystem U) (k : nat) : Prop :=
  (exists q, zget (mx_connectionMap (sy_mux s)) i = Some q /\ k = O /\
    Forall (fun p => of_conn i (snd p) = true -> fst p = q) (sy_pushed s)) \/
  (Forall (fun p => of_conn i (snd p) = false) (sy_pushed s) /\ (k <= 1)%nat /\
    forall q, zget (mx_connectionMap (sy_mux s)) i = Some q -> q = u32 (-1)).

(** an event of another connection, or none *)
Lemma placed_other i s s' l k : placed i s k ->
  sy_pushed s' = sy_pushed s ++ l -> Forall (fun p => of_conn i (snd p) = false) l ->
  zget (mx_connectionMap (sy_mux s')) i = zget (mx_connectionMap (sy_mux s)) i ->
  placed i s' k.
Proof.
  intros Hp Hl Hno Hm. unfold placed. rewrite Hl, Hm. destruct Hp as [(q & Hq & Hk & Hall)|(Hall & Hk & Hq)].
  - left. exists q. split; [done|]. split; [done|]. apply Forall_app. split; [done|].
    eapply List.Forall_impl; [|exact Hno]. intros p Hf Ht. cbn in Hf. by rewrite Hf in Ht.
  - right. split; [by apply Forall_app|]. done.
Qed.

Lemma of_conn_other i e : cd_connIndex (evt_details e) <> i -> of_conn i e = false.
Proof. intros Hi. unfold of_conn. rewrite (proj2 (Z.eqb_neq _ _) Hi). apply andb_false_r. Qed.

(** an event that goes to the queue of its connection *)
Lemma placed_event i s s' e k q : placed i s k -> sy_pushed s' = sy_pushed s ++ [(q, e)] ->
  zget (mx_connectionMap (sy_mux s)) (cd_connIndex (evt_details e)) = Some q -> q <> u32 (-1) ->
  mx_connectionMap (sy_mux s') = mx_connectionMap (sy_mux s) -> placed i s' k.
Proof.
  intros Hp Hl Hq Hne Hm. destruct (decide (cd_connIndex (evt_details e) = i)) as [Hi|Hi].
  - rewrite Hi in Hq. unfold placed. rewrite Hl, Hm.
    destruct Hp as [(q' & Hq' & Hk & Hall)|(Hall & Hk & Hq')]; [|by destruct Hne; apply Hq'].
    left. exists q'. split; [done|]. split; [done|]. apply Forall_app. split; [done|].
    constructor; [|done]. intros _. cbn. congruence.
  - apply (placed_other i s s' [(q, e)] k Hp Hl); [|by rewrite Hm].
    constructor; [|done]. by apply of_conn_other.
Qed.

Lemma placed_step i a s s' c u0 k : c < 2 ^ 32 -> mux_ok c u0 s -> mux_step a s = Done s' ->
  placed i s ((if is_connect i a then 1 else 0) + k) -> placed i s' k.
Proof.
  intros Hc Hok Hs Hp.
  assert (Ha : (exists q, a = MA_work q) \/ forall q, a <> MA_work q)
    by (destruct a; try (by right); left; by exists queueId).
  destruct Ha as [[q ->]|Ha].
  { apply work_inv in Hs as (evs & d & _ & _ & [[_ ->]|(_ & _ & ->)]); [done|].
    apply (placed_other i s _ [] k Hp); [|done|done]. symmetry. apply app_nil_r. }
  apply mux_step_call in Hs as (m & Hm & ->); [|done].
  apply mux_call_pushes in Hm; rewrite ?(mo_concurrency _ _ _ Hok); [|apply (mo_next _ _ _ Hok)|done].
  unfold call_pushes in Hm. destruct (action_event a) as [e|] eqn:He.
  2: { subst m. apply (placed_other i s _ [] k); [|by rewrite app_nil_r|done|done].
       destruct a; cbn in *; try done. by destruct (status =? 0). }
  destruct Hm as (evs & Hget & Hqs & _ & Hrest & Hmap). apply zget_Some_range in Hget.
  rewrite (mo_queues _ _ _ Hok) in Hget.
  assert (Hr : action_queue a m e <> u32 (-1)) by (change (u32 (-1)) with (2 ^ 32 - 1); lia).
  destruct a as [d status|d|d msg|j|q]; cbn [action_event is_connect] in *; [|simplify_eq..].
  - destruct (Z.eqb_spec status 0) as [Hst|]; [|done]. injection He as <-.
    destruct Hrest as (Hj & _ & Hcm). cbn [evt_details] in Hmap.
    pose proof (zget_Some_range _ _ _ Hmap) as Hj'. rewrite Hcm, zlen_zset in Hj'.
    pose proof (mo_conns _ _ _ Hok) as Hcon. rewrite u32_small in Hcm, Hj by lia.
    destruct (Z.eqb_spec (cd_connIndex d) i) as [Hi|Hi]; cbn [andb] in Hp.
    + left. destruct Hp as [(q & _ & Hk & _)|(Hall & Hk & _)]; [done|].
      exists (action_queue (MA_connect d status) m (ET_CONNECT d status)).
      split; [by rewrite <- Hi|]. split; [lia|]. apply Forall_app. split; [|by constructor].
      eapply List.Forall_impl; [|exact Hall]. intros p Hf Ht. cbn in Hf. by rewrite Hf in Ht.
    + eapply placed_other; [exact Hp|reflexivity| |cbn [sy_mux]; rewrite Hcm; by apply zget_zset_ne].
      constructor; [|done]. by apply of_conn_other.
  - destruct Hrest as [_ Hcm]. rewrite Hcm in Hmap. by eapply (placed_event i s _ (ET_DISCONNECT d) k).
  - destruct Hrest as [_ Hcm]. rewrite Hcm in Hmap. by eapply (placed_event i s _ (ET_MSG d msg) k).
  - destruct Hrest as [_ Hcm]. eapply placed_other; [exact Hp|reflexivity| |by cbn [sy_mux]; rewrite Hcm].
    by constructor.
Qed.

Lemma placed_run i c u0 acts : forall s s', c < 2 ^ 32 -> mux_ok c u0 s -> mux_run acts s = Done s' ->
  placed i s (length (List.filter (is_connect i) acts)) -> placed i s' 0.
Proof.
  induction acts as [|a acts IH]; intros s s' Hc Hok; cbn [mux_run]; [by intros [= <-]|].
  intros (s1 & H1 & Hs)%outcome_bind_inv Hp. apply (IH s1); [done| |done|].
  - by apply (mux_step_ok c u0 a s).
  - apply (placed_step i a s s1 c u0); [done..|]. cbn in Hp. by destruct (is_connect i a).
Qed.

Lemma placed_started i n c (u : U) k : 0 <= n -> (k <= 1)%nat -> placed i (mux_started n c u) k.
Proof.
  intros Hn Hk. rewrite mux_started_eq by done. right. split; [done|]. split; [done|]. intros q. cbn.
  unfold zget. destruct (i <? 0); [done|]. by intros [-> _]%lookup_replicate.
Qed.

Lemma incl_Forall {A} (P : A -> Prop) (l1 l2 : list A) : incl l1 l2 -> Forall P l2 -> Forall P l1.
Proof. rewrite !list.Forall_forall. intros Hi Hall x Hx%list_elem_of_In. by apply Hall, list_elem_of_In, Hi. Qed.

Lemma placed_queue i c u0 s : 0 < c -> mux_ok c u0 s -> placed i s 0 ->
  exists q, 0 <= q < c /\ Forall (fun p => of_conn i (snd p) = true -> fst p = q) (sy_pushed s).
Proof.
  intros Hc Hok Hp. pose proof (mo_pushed _ _ _ Hok) as Hr. rewrite list.Forall_forall in Hr.
  destruct Hp as [(q & _ & _ & Hall)|(Hall & _)]; rewrite list.Forall_forall in Hall.
  - destruct (decide (0 <= q < c)) as [Hq|Hq].
    + exists q. split; [done|]. by rewrite list.Forall_forall.
    + exists 0. split; [lia|]. rewrite list.Forall_forall. intros p Hin Hi.
      specialize (Hall p Hin Hi). specialize (Hr p Hin). cbn in *. lia.
  - exists 0. split; [lia|]. rewrite list.Forall_forall. intros p Hin Hi.
    specialize (Hall p Hin). cbn in *. congruence.
Qed.

Lemma in_order_ok i c u0 s : 0 < c -> mux_ok c u0 s -> placed i s 0 ->
  conn_evts i (map snd (sy_handled s)) ++ conn_evts i (pending_evts (sy_mux s)) =
    conn_evts i (map snd (sy_pushed s)).
Proof.
  intros Hc Hok Hp. destruct (placed_queue i c u0 s Hc Hok Hp) as (q & Hq & Hall).
  assert (Hh := incl_Forall _ _ _ (mo_handled _ _ _ Hok) Hall).
  destruct (zget_is_Some (mx_msgQueues (sy_mux s)) q) as [evs Hevs];
    [by rewrite (mo_queues _ _ _ Hok)|].
  rewrite (conn_queue_evts i q _ Hh), (conn_queue_evts i q _ Hall), (mo_fifo _ _ _ Hok q evs Hevs),
    conn_evts_app. f_equal. unfold pending_evts. apply (pending_single i q _ 0); [by rewrite Z.sub_0_r|].
  intros j evs' Hj Hjq. rewrite Z.add_0_r in Hjq.
  pose proof (f_equal (conn_evts i) (mo_fifo _ _ _ Hok j evs' Hj)) as Hf.
  rewrite conn_evts_app, (queue_evts_no_conn i q j _ Hall Hjq) in Hf.
  symmetry in Hf. by apply app_nil in Hf as [_ Hf].
Qed.

(** ** The workers and their end *)

Definition front_stop (evs : list MsgEvent) : bool :=
  match evs with e :: _ => is_stop e | [] => false end.

(** a worker empties its queue and touches no other *)
Lemma work_one c u0 q s : mux_ok c u0 s -> zget (sy_done s) q = Some false ->
  exists evs s1, zget (mx_msgQueues (sy_mux s)) q = Some evs /\
    mux_step (MA_work q) s = Done s1 /\ mux_ok c u0 s1 /\ sy_pushed s1 = sy_pushed s /\
    zget (mx_msgQueues (sy_mux s1)) q = Some [] /\ zget (sy_done s1) q = Some (front_stop evs) /\
    forall q', q' <> q -> zget (mx_msgQueues (sy_mux s1)) q' = zget (mx_msgQueues (sy_mux s)) q' /\
      zget (sy_done s1) q' = zget (sy_done s) q'.
Proof.
  intros Hok Hdq. assert (Hr := zget_Some_range _ _ _ Hdq). rewrite (mo_done _ _ _ Hok) in Hr.
  destruct (zget_is_Some (mx_msgQueues (sy_mux s)) q) as [evs Hevs];
    [by rewrite (mo_queues _ _ _ Hok)|].
  destruct (mux_step (MA_work q) s) as [s1| |] eqn:Hs;
    [|cbn [mux_step] in Hs; rewrite (mem_get_ok _ _ _ Hevs), (mem_get_ok _ _ _ Hdq) in Hs;
      cbn in Hs; destruct (bool_decide _), (drain false (rev evs) (sy_user s)); done..].
  exists evs, s1. do 2 (split; [done|]). split; [by apply (work_ok c u0 q s)|].
  apply work_inv in Hs as (evs' & d & Hevs' & Hd' & Hcase). simplify_eq.
  destruct Hcase as [[[?| ->] ->]|(_ & Hne & ->)]; [done|by split_and!|].
  cbn [sy_pushed sy_mux sy_done set_queues mx_msgQueues]. split; [done|].
  rewrite !zget_zset_eq by (by rewrite ?(mo_queues _ _ _ Hok), ?(mo_done _ _ _ Hok)).
  split; [done|]. split; [by destruct evs|]. intros q' Hq'. by rewrite !zget_zset_ne.
Qed.

(** each worker of [qs] empties its queue; it ends if the last event was a stop *)
Lemma work_all c u0 qs : forall s, mux_ok c u0 s -> NoDup qs ->
  (forall q, q ∈ qs -> zget (sy_done s) q = Some false) ->
  exists s', mux_run (map MA_work qs) s = Done s' /\ sy_pushed s' = sy_pushed s /\
    (forall q, q ∈ qs -> exists evs, zget (mx_msgQueues (sy_mux s)) q = Some evs /\
      zget (mx_msgQueues (sy_mux s')) q = Some [] /\ zget (sy_done s') q = Some (front_stop evs)) /\
    (forall q, q ∉ qs -> zget (mx_msgQueues (sy_mux s')) q = zget (mx_msgQueues (sy_mux s)) q /\
      zget (sy_done s') q = zget (sy_done s) q).
Proof.
  induction qs as [|q qs IH]; intros s Hok Hnd Hd.
  { exists s. split_and!; try done. intros q Hq. by apply elem_of_nil in Hq. }
  apply list.NoDup_cons in Hnd as [Hnq Hnd].
  destruct (work_one c u0 q s Hok (Hd q ltac:(by left)))
    as (evs & s1 & Hevs & Hs & Hok1 & Hp1 & Hq1 & Hd1 & Hother).
  destruct (IH s1 Hok1 Hnd) as (s' & Hrun & Hp & Hin & Hout).
  { intros q' Hq'. destruct (Hother q') as [_ ->]; [by intros ->|]. apply Hd. by right. }
  exists s'. cbn [map mux_run]. rewrite Hs. cbn [outcome_bind]. split; [done|].
  split; [by rewrite Hp|]. split.
  - intros q' [->|Hq']%elem_of_cons.
    + exists evs. destruct (Hout q Hnq) as [-> ->]. done.
    + destruct (Hin q' Hq') as (evs' & Hg & ?). exists evs'. split; [|done].
      by destruct (Hother q') as [<- _]; [intros ->|].
  - intros q' [Hq' Hq'']%not_elem_of_cons. destruct (Hout q' Hq'') as [-> ->]. by apply Hother.
Qed.

(** the first loop of [stop] puts a stop event on top of each queue *)
Lemma stop_all c u0 qs : forall s, mux_ok c u0 s -> NoDup qs -> (forall q, q ∈ qs -> 0 <= q < c) ->
  exists s', mux_run (map MA_stop qs) s = Done s' /\ sy_done s' = sy_done s /\
    mx_connectionMap (sy_mux s') = mx_connectionMap (sy_mux s) /\
    sy_handled s' = sy_handled s /\ sy_pushed s' = sy_pushed s ++ map (fun q =>
      (q, ET_STOP (setConnectionIndex q (ConnectionDetails_newNet EmptyString 0 0 0)))) qs /\
    (forall q, q ∈ qs -> exists evs, zget (mx_msgQueues (sy_mux s')) q = Some evs /\ front_stop evs = true) /\
    (forall q, q ∉ qs -> zget (mx_msgQueues (sy_mux s')) q = zget (mx_msgQueues (sy_mux s)) q).
Proof.
  induction qs as [|q qs IH]; intros s Hok Hnd Hr.
  { exists s. cbn. rewrite app_nil_r. split_and!; try done. intros q Hq. by apply elem_of_nil in Hq. }
  apply list.NoDup_cons in Hnd as [Hnq Hnd].
  destruct (zget_is_Some (mx_msgQueues (sy_mux s)) q) as [evs Hevs];
    [rewrite (mo_queues _ _ _ Hok); apply Hr; by left|].
  cbn [map mux_run mux_step mux_call].
  unfold push_stop, push_front. rewrite (mem_get_ok _ _ _ Hevs). cbn [outcome_bind action_event action_queue].
  set (e := ET_STOP _). set (m := set_queues _ _).
  assert (Hok1 := call_ok c u0 (MA_stop q) s m Hok). cbn [action_event action_queue] in Hok1.
  destruct (IH (MkMuxSystem m (sy_done s) (sy_user s) (sy_pushed s ++ [(q, e)]) (sy_handled s)))
    as (s' & Hrun & Hd & Hcm & Hh & Hp & Hin & Hout).
  { apply Hok1. exists evs. by split_and!. }
  { done. }
  { intros q' Hq'. apply Hr. by right. }
  exists s'. split; [exact Hrun|]. split; [done|]. split; [done|]. split; [done|].
  split; [rewrite Hp; cbn [sy_pushed]; by rewrite <- app_assoc|].
  cbn [sy_mux] in Hout. unfold m in Hout. cbn [set_queues mx_msgQueues] in Hout.
  pose proof (zget_Some_range _ _ _ Hevs). split.
  - intros q' [->|Hq']%elem_of_cons; [|by apply Hin]. exists (e :: evs).
    by rewrite (Hout q Hnq), zget_zset_eq.
  - intros q' [Hq' Hq'']%not_elem_of_cons. rewrite (Hout q' Hq''). by apply zget_zset_ne.
Qed.

(** ** What the threads may rely on *)

(** worker [q] does not end without a stop *)
Definition quiet (q : Z) s : Prop :=
  zget (sy_done s) q <> Some true /\
  forall evs, zget (mx_msgQueues (sy_mux s)) q = Some evs -> Forall (fun e => is_stop e = false) evs.

Definition stops (q : Z) (a : mux_action) : bool :=
  match a with MA_stop i => i =? q | _ => false end.

Lemma quiet_started n c (u : U) q : 0 <= n -> quiet q (mux_started n c u).
Proof.
  intros Hn. rewrite mux_started_eq by done.
  split; cbn; unfold zget; (destruct (q <? 0); [done|]).
  - by intros [? _]%lookup_replicate.
  - by intros evs [-> _]%lookup_replicate.
Qed.

Lemma action_event_stop a e q m : action_event a = Some e -> stops q a = false ->
  action_queue a m e = q -> is_stop e = false.
Proof.
  destruct a; cbn; [destruct (status =? 0)|..]; intros [= <-] Hs; try done.
  intros ->. by rewrite Z.eqb_refl in Hs.
Qed.

Lemma quiet_step c u0 q a s s' : c < 2 ^ 32 -> mux_ok c u0 s -> stops q a = false ->
  mux_step a s = Done s' -> quiet q s -> quiet q s'.
Proof.
  intros Hc Hok Ha Hs [Hd Hq].
  assert (Hw : (exists q, a = MA_work q) \/ forall q, a <> MA_work q)
    by (destruct a; try (by right); left; by exists queueId).
  destruct Hw as [[q' ->]|Hw].
  - apply work_inv in Hs as (evs & d & Hevs & Hdq & [[_ ->]|(-> & _ & ->)]); [done|].
    unfold quiet. cbn [sy_done sy_mux set_queues mx_msgQueues].
    destruct (decide (q' = q)) as [->|Hne]; [|by rewrite !zget_zset_ne].
    rewrite zget_zset_eq by (by apply zget_Some_range in Hdq).
    rewrite zget_zset_eq by (by apply zget_Some_range in Hevs).
    split; [|by intros ? [= <-]]. specialize (Hq evs Hevs). destruct evs; [done|].
    apply Forall_cons_1 in Hq as [Hq _]. congruence.
  - apply mux_step_call in Hs as (m & Hm & ->); [|done].
    apply mux_call_pushes in Hm; rewrite ?(mo_concurrency _ _ _ Hok); [|apply (mo_next _ _ _ Hok)|done].
    split; [done|]. unfold call_pushes in Hm. cbn [sy_mux].
    destruct (action_event a) as [e|] eqn:He; [|by subst m].
    destruct Hm as (evs & Hget & -> & _). intros evs'.
    destruct (decide (action_queue a m e = q)) as [Haq|Hne]; [|rewrite zget_zset_ne by done; apply Hq].
    rewrite Haq in Hget |- *. rewrite zget_zset_eq by (by apply zget_Some_range in Hget).
    intros [= <-]. constructor; [by apply (action_event_stop a e q m)|by apply Hq].
Qed.

Lemma quiet_run c u0 q acts : forall s s', c < 2 ^ 32 -> mux_ok c u0 s ->
  Forall (fun a => stops q a = false) acts -> mux_run acts s = Done s' -> quiet q s -> quiet q s'.
Proof.
  induction acts as [|a acts IH]; intros s s' Hc Hok Ha; cbn [mux_run]; [by intros [= <-]|].
  intros (s1 & H1 & Hs)%outcome_bind_inv Hq. apply Forall_cons_1 in Ha as [Ha Has].
  apply (IH s1); [done| |done..|].
  - by apply (mux_step_ok c u0 a s).
  - by apply (quiet_step c u0 q a s).
Qed.

Lemma quiet_done c u0 s q : mux_ok c u0 s -> quiet q s -> 0 <= q < c -> zget (sy_done s) q = Some false.
Proof.
  intros Hok [Hd _] Hq. destruct (zget_is_Some (sy_done s) q) as [d Hdq];
    [by rewrite (mo_done _ _ _ Hok)|].
  by destruct d.
Qed.

Lemma no_stops q acts : Forall (fun a => is_stop_action a = false) acts ->
  Forall (fun a => stops q a = false) acts.
Proof. intros Ha. eapply List.Forall_impl; [|exact Ha]. by intros []. Qed.

Lemma empty_pending c u0 s : mux_ok c u0 s ->
  (forall q, 0 <= q < c -> zget (mx_msgQueues (sy_mux s)) q = Some []) -> pending_evts (sy_mux s) = [].
Proof.
  intros Hok Hall. rewrite <- (mo_queues _ _ _ Hok) in Hall. unfold pending_evts.
  assert (Hf : Forall (fun l => l = []) (mx_msgQueues (sy_mux s))).
  { apply Forall_lookup. intros k l Hl. specialize (Hall (Z.of_nat k)).
    assert (Hk := lookup_lt_Some _ _ _ Hl). unfold zget, zlen in Hall.
    rewrite (proj2 (Z.ltb_ge (Z.of_nat k) 0)), Nat2Z.id in Hall by lia.
    specialize (Hall ltac:(lia)). congruence. }
  clear - Hf. induction Hf as [|l qs Hl Hf IH]; [done|]. subst l. exact IH.
Qed.

Lemma all_workers c : NoDup (seqZ 0 c) /\ forall q, q ∈ seqZ 0 c <-> 0 <= q < c.
Proof. split; [apply NoDup_seqZ|]. intros q. rewrite elem_of_seqZ. lia. Qed.

(** after the workers ran once *)
Lemma all_work_ok c u0 s : c < 2 ^ 32 -> mux_ok c u0 s ->
  (forall q, 0 <= q < c -> zget (sy_done s) q = Some false) ->
  exists s', mux_run (all_work c) s = Done s' /\ mux_ok c u0 s' /\ sy_pushed s' = sy_pushed s /\
    pending_evts (sy_mux s') = [] /\
    forall q, 0 <= q < c -> exists evs, zget (mx_msgQueues (sy_mux s)) q = Some evs /\
      zget (sy_done s') q = Some (front_stop evs).
Proof.
  intros Hc Hok Hd. destruct (all_workers c) as [Hnd Hin].
  destruct (work_all c u0 (seqZ 0 c) s Hok Hnd) as (s' & Hrun & Hp & Hall & _).
  { intros q Hq. by apply Hd, Hin. }
  assert (Hok' := mux_run_ok c u0 _ s s' Hc Hok Hrun).
  exists s'. do 3 (split; [done|]). split.
  - apply (empty_pending c u0 s' Hok'). intros q Hq.
    by destruct (Hall q ltac:(by apply Hin)) as (evs & _ & ? & _).
  - intros q Hq. destruct (Hall q ltac:(by apply Hin)) as (evs & ? & _ & ?). by exists evs.
Qed.

Lemma stop_no_connect i qs : List.filter (is_connect i) (map MA_stop qs) = [].
Proof. by induction qs. Qed.

Lemma work_no_connect i qs : List.filter (is_connect i) (map MA_work qs) = [].
Proof. by induction qs. Qed.

End Invariant.

(** ** Theorems *)

Section Theorems.
Context {U : Type} `{MsgListener U}.
Implicit Types s : MuxSystem U.

Lemma started_run n c (u : U) acts s : 0 < c < 2 ^ 32 -> 0 <= n < 2 ^ 32 ->
  mux_run acts (mux_started n c u) = Done s ->
  mux_ok c u s /\ map snd (sy_pushed s) = call_events acts /\
  (forall i, (length (List.filter (is_connect i) acts) <= 1)%nat -> placed i s 0) /\
  (Forall (fun a => is_stop_action a = false) acts -> forall q, quiet q s).
Proof.
  intros Hc Hn Hrun. assert (Hok := mux_started_ok n c u Hc Hn).
  split; [apply (mux_run_ok c u acts (mux_started n c u) s ltac:(lia) Hok Hrun)|].
  split; [rewrite (pushed_calls _ _ _ Hrun); by rewrite mux_started_eq by lia|]. split.
  - intros i Hi. apply (placed_run i c u acts _ _ ltac:(lia) Hok Hrun). apply placed_started; [lia|done].
  - intros Hns q. apply (quiet_run c u q acts _ _ ltac:(lia) Hok (no_stops q _ Hns) Hrun).
    apply quiet_started. lia.
Qed.

(** C7. However the I/O threads and the workers interleave: as long as a connection
    connects only once, its events are handled in the order of the calls, each once;
    those that are not handled yet wait, in this order. The state of the listener is
    the result of handling the events one after the other. *)
Theorem multiplexed_in_order n c u acts s i : 0 < c < 2 ^ 32 -> 0 <= n < 2 ^ 32 ->
  mux_run acts (mux_started n c u) = Done s ->
  (length (List.filter (is_connect i) acts) <= 1)%nat ->
  conn_evts i (map snd (sy_handled s)) ++ conn_evts i (pending_evts (sy_mux s)) =
    conn_evts i (call_events acts) /\
  sy_user s = handle_all (map snd (sy_handled s)) (u, []).
Proof.
  intros Hc Hn Hrun Hi. destruct (started_run n c u acts s Hc Hn Hrun) as (Hok & <- & Hp & _).
  split; [|apply (mo_user _ _ _ Hok)]. apply (in_order_ok i c u); [lia|done|by apply Hp].
Qed.

(** the workers catch up *)
Lemma all_handled n c u acts s : 0 < c < 2 ^ 32 -> 0 <= n < 2 ^ 32 ->
  mux_run acts (mux_started n c u) = Done s ->
  Forall (fun a => is_stop_action a = false) acts ->
  exists s', mux_run (all_work c) s = Done s' /\ mux_ok c u s' /\ pending_evts (sy_mux s') = [] /\
    forall i, (length (List.filter (is_connect i) acts) <= 1)%nat ->
      conn_evts i (map snd (sy_handled s')) = conn_evts i (call_events acts).
Proof.
  intros Hc Hn Hrun Hns. destruct (started_run n c u acts s Hc Hn Hrun) as (Hok & Hpu & Hp & Hq).
  specialize (Hq Hns). destruct (all_work_ok c u s ltac:(lia) Hok) as (s' & Hrun' & Hok' & Hpu' & Hemp & _).
  { intros q Hr. by apply (quiet_done c u). }
  exists s'. do 3 (split; [done|]). intros i Hi.
  assert (Hpl : placed i s' 0).
  { apply (placed_run i c u (all_work c) s s' ltac:(lia) Hok Hrun').
    unfold all_work. rewrite work_no_connect. by apply Hp. }
  rewrite <- Hpu, <- Hpu', <- (in_order_ok i c u s' ltac:(lia) Hok' Hpl), Hemp, app_nil_r. done.
Qed.

(** C31. While nobody stops the multiplexer no event is lost: whatever happened before,
    once each worker has run the queues are empty and the events of a connection that
    connected once have all been handled, in the order of the calls. *)
Theorem multiplexed_all_handled n c u acts s : 0 < c < 2 ^ 32 -> 0 <= n < 2 ^ 32 ->
  mux_run acts (mux_started n c u) = Done s ->
  Forall (fun a => is_stop_action a = false) acts ->
  exists s', mux_run (all_work c) s = Done s' /\ pending_evts (sy_mux s') = [] /\
    forall i, (length (List.filter (is_connect i) acts) <= 1)%nat ->
      conn_evts i (map snd (sy_handled s')) = conn_evts i (call_events acts).
Proof.
  intros Hc Hn Hrun Hns. destruct (all_handled n c u acts s Hc Hn Hrun Hns) as (s' & Hw & _ & Hemp & Hall).
  by exists s'.
Qed.

Lemma done_all c s : zlen (sy_done s) = c ->
  (forall q, 0 <= q < c -> zget (sy_done s) q = Some true) -> forallb id (ztake c (sy_done s)) = true.
Proof.
  intros Hl Hall. rewrite ztake_all by lia. apply List.forallb_forall. intros b Hb.
  apply list_elem_of_In, list_elem_of_lookup in Hb as [k Hk].
  assert (Hlt := lookup_lt_Some _ _ _ Hk). specialize (Hall (Z.of_nat k)). unfold zlen, zget in *.
  rewrite (proj2 (Z.ltb_ge (Z.of_nat k) 0)), Nat2Z.id in Hall by lia.
  specialize (Hall ltac:(lia)). destruct b; [done|congruence].
Qed.

(** C32. Stopping the multiplexer: if no other thread pushes an event between the stop
    events and the end of the workers, [stop] returns, and before a worker ended it
    handled every event, those of a connection in the order of the calls. *)
Theorem stop_after_last_event n c u acts s : 0 < c < 2 ^ 32 -> 0 <= n < 2 ^ 32 ->
  mux_run acts (mux_started n c u) = Done s ->
  Forall (fun a => is_stop_action a = false) acts ->
  exists s', mux_stop (all_work c) s = Done (E_OK, s') /\ pending_evts (sy_mux s') = [] /\
    forall i, (length (List.filter (is_connect i) acts) <= 1)%nat ->
      conn_evts i (map snd (sy_handled s')) = conn_evts i (call_events acts).
Proof.
  intros Hc Hn Hrun Hns. destruct (started_run n c u acts s Hc Hn Hrun) as (Hok & Hpu & Hp & Hq).
  specialize (Hq Hns). destruct (all_workers c) as [Hnd Hin].
  destruct (stop_all c u (seqZ 0 c) s Hok Hnd) as (s1 & Hrun1 & Hd1 & _ & _ & Hp1 & Htop & _).
  { intros q Hr. by apply Hin. }
  assert (Hok1 := mux_run_ok c u _ s s1 ltac:(lia) Hok Hrun1).
  destruct (all_work_ok c u s1 ltac:(lia) Hok1) as (s' & Hrun' & Hok' & Hpu' & Hemp & Hdone).
  { intros q Hr. rewrite Hd1. by apply (quiet_done c u). }
  unfold mux_stop. rewrite (mo_concurrency _ _ _ Hok). unfold all_stop. rewrite Hrun1.
  cbn [outcome_bind]. rewrite Hrun'. cbn [outcome_bind].
  rewrite (mo_done _ _ _ Hok'), Z.ltb_irrefl, done_all; [|apply (mo_done _ _ _ Hok')|].
  2: { intros q Hr. destruct (Hdone q Hr) as (evs & Hevs & ->).
       destruct (Htop q ltac:(by apply Hin)) as (evs' & Hevs' & Hf). congruence. }
  cbn [negb]. eexists. split; [done|]. cbn [sy_mux sy_handled]. split; [done|]. intros i Hi.
  assert (Hpl : placed i s' 0).
  { apply (placed_run i c u (all_work c) s1 s' ltac:(lia) Hok1 Hrun').
    unfold all_work. rewrite work_no_connect. apply (placed_run i c u _ s s1 ltac:(lia) Hok Hrun1).
    rewrite stop_no_connect. by apply Hp. }
  assert (Hord := in_order_ok i c u s' ltac:(lia) Hok' Hpl). rewrite Hemp, app_nil_r in Hord.
  rewrite Hord, Hpu', Hp1, <- Hpu, map_app, conn_evts_app, map_map.
  rewrite (conn_evts_none i (map _ (seqZ 0 c))), app_nil_r; [done|].
  apply list.Forall_forall. intros e (q & -> & _)%list_elem_of_fmap. done.
Qed.

(** a worker whose last event was a message *)
Lemma msg_then_work s s1 s2 d msg q : zget (mx_connectionMap (sy_mux s)) (cd_connIndex d) = Some q ->
  zget (sy_done s) q = Some false ->
  mux_step (MA_msg d msg) s = Done s1 -> mux_step (MA_work q) s1 = Done s2 -> quiet q s2.
Proof.
  intros Hmap Hd H1 H2. apply mux_step_call in H1 as (m1 & Hm1 & ->); [|done].
  cbn [mux_call] in Hm1. unfold mux_onMsg in Hm1. cbn [negb] in Hm1. rewrite outcome_bind_assoc in Hm1.
  apply outcome_bind_inv in Hm1 as (m2 & (q' & evs & Hq' & Hevs & ->)%pushEvent_inv & [= <-]).
  cbn [evt_details] in Hq'. rewrite Hmap in Hq'. injection Hq' as <-.
  assert (Hr := zget_Some_range _ _ _ Hevs).
  apply work_inv in H2 as (evs' & d' & Hevs' & Hdq & Hcase).
  cbn [sy_mux sy_done set_queues mx_msgQueues] in *. rewrite zget_zset_eq in Hevs' by done. simplify_eq.
  destruct Hcase as [[[?|?] _]|(_ & _ & ->)]; [done..|].
  assert (Hr2 := zget_Some_range _ _ _ Hd).
  unfold quiet. cbn [sy_mux sy_done set_queues mx_msgQueues is_stop].
  rewrite zget_zset_eq, zget_zset_eq by (rewrite ?zlen_zset; done). split; [done|]. by intros ? [= <-].
Qed.

(** But a message that arrives after the stop event, before its worker wakes up,
    undoes the stop: the worker does not end, whatever the other threads do, unless
    they stop it again, and [stop] waits for it forever. *)
Theorem stop_lost n c u acts s d msg q acts' s' : 0 < c < 2 ^ 32 -> 0 <= n < 2 ^ 32 ->
  mux_run acts (mux_started n c u) = Done s ->
  Forall (fun a => is_stop_action a = false) acts ->
  zget (mx_connectionMap (sy_mux s)) (cd_connIndex d) = Some q ->
  Forall (fun a => stops q a = false) acts' ->
  mux_run (all_stop c ++ MA_msg d msg :: MA_work q :: acts') s = Done s' ->
  mux_stop (MA_msg d msg :: MA_work q :: acts') s = Undef UB_hang.
Proof.
  intros Hc Hn Hrun Hns Hmap Hns' Hrun'.
  destruct (started_run n c u acts s Hc Hn Hrun) as (Hok & _ & _ & Hq). specialize (Hq Hns).
  destruct (all_workers c) as [Hnd Hin].
  destruct (stop_all c u (seqZ 0 c) s Hok Hnd) as (s1 & Hrun1 & Hd1 & Hcm1 & _).
  { intros j Hr. by apply Hin. }
  assert (Hok1 := mux_run_ok c u _ s s1 ltac:(lia) Hok Hrun1).
  unfold mux_stop. rewrite (mo_concurrency _ _ _ Hok).
  rewrite mux_run_app in Hrun'. unfold all_stop in *. rewrite Hrun1 in Hrun' |- *.
  cbn [outcome_bind] in Hrun' |- *. rewrite Hrun'. cbn [outcome_bind].
  assert (Hok' := mux_run_ok c u _ s1 s' ltac:(lia) Hok1 Hrun').
  cbn [mux_run] in Hrun'. apply outcome_bind_inv in Hrun' as (s2 & Hs2 & Hrun').
  apply outcome_bind_inv in Hrun' as (s3 & Hs3 & Hrun').
  assert (Hok3 := mux_step_ok c u _ s2 s3 ltac:(lia) (mux_step_ok c u _ s1 s2 ltac:(lia) Hok1 Hs2) Hs3).
  assert (Hr : 0 <= q < c).
  { apply work_inv in Hs3 as (evs & _ & Hevs & _). apply zget_Some_range in Hevs.
    by rewrite (mo_queues _ _ _ (mux_step_ok c u _ s1 s2 ltac:(lia) Hok1 Hs2)) in Hevs. }
  assert (Hq3 : quiet q s3).
  { apply (msg_then_work s1 s2 s3 d msg q); [by rewrite Hcm1| |done..].
    rewrite Hd1. by apply (quiet_done c u). }
  assert (Hfin := quiet_done c u s' q Hok' (quiet_run c u q acts' s3 s' ltac:(lia) Hok3 Hns' Hrun' Hq3) Hr).
  rewrite (mo_done _ _ _ Hok'), Z.ltb_irrefl.
  destruct (forallb id (ztake c (sy_done s'))) eqn:Hall; [|done].
  rewrite ztake_all in Hall by (rewrite (mo_done _ _ _ Hok'); lia).
  rewrite List.forallb_forall in Hall. assert (Hin' : In false (sy_done s')).
  { unfold zget in Hfin. destruct (q <? 0); [done|]. by apply list_elem_of_lookup_2, list_elem_of_In in Hfin. }
  by apply Hall in Hin'.
Qed.

Lemma pushEvent_ok e m q evs : zget (mx_connectionMap m) (cd_connIndex (evt_details e)) = Some q ->
  zget (mx_msgQueues m) q = Some evs ->
  pushEvent e m = Done (set_queues (zset (mx_msgQueues m) q (e :: evs)) m).
Proof.
  intros Hm Hq. unfold pushEvent, push_front. rewrite (mem_get_ok _ _ _ Hm). cbn [outcome_bind].
  by rewrite (mem_get_ok _ _ _ Hq).
Qed.

Lemma onConnect_ok d m evs : mx_concurrency m <> 0 ->
  0 <= cd_connIndex d < zlen (mx_connectionMap m) -> zlen (mx_connectionMap m) < 2 ^ 32 ->
  zget (mx_msgQueues m) (mx_nextQueue m) = Some evs ->
  mux_onConnect d 0 m = Done (true, MkMsgMultiplexer (mx_concurrency m)
    (u32 (mx_nextQueue m + 1) mod mx_concurrency m)
    (zset (mx_connectionMap m) (cd_connIndex d) (mx_nextQueue m))
    (zset (mx_msgQueues m) (mx_nextQueue m) (ET_CONNECT d 0 :: evs))).
Proof.
  intros Hc Hi Hn Hq. unfold mux_onConnect, assignQueueId. cbn [Z.eqb].
  rewrite (proj2 (Z.eqb_neq _ _) Hc), u32_small by lia.
  destruct (zget_is_Some (mx_connectionMap m) (cd_connIndex d) Hi) as [q0 Hq0].
  rewrite (mem_get_ok _ _ _ Hq0). cbn [outcome_bind].
  by rewrite (pushEvent_ok (ET_CONNECT d 0) _ (mx_nextQueue m) evs) by (cbn; by rewrite ?zget_zset_eq).
Qed.

Lemma run_call a acts s e m : action_event a = Some e -> mux_call a (sy_mux s) = Done m ->
  mux_run (a :: acts) s = mux_run acts (MkMuxSystem m (sy_done s) (sy_user s)
    (sy_pushed s ++ [(action_queue a m e, e)]) (sy_handled s)).
Proof.
  intros He Hm. cbn [mux_run]. destruct a; [..|done]; cbn [mux_step]; by rewrite Hm, He.
Qed.

(** a worker with events in its queue *)
Lemma run_work q acts s evs : evs <> [] -> zget (mx_msgQueues (sy_mux s)) q = Some evs ->
  zget (sy_done s) q = Some false ->
  mux_run (MA_work q :: acts) s = mux_run acts (MkMuxSystem
    (set_queues (zset (mx_msgQueues (sy_mux s)) q []) (sy_mux s))
    (zset (sy_done s) q (front_stop evs)) (handle_all (rev evs) (sy_user s)) (sy_pushed s)
    (sy_handled s ++ map (pair q) (rev evs))).
Proof.
  intros Hne Hevs Hd. cbn [mux_run mux_step].
  rewrite (mem_get_ok _ _ _ Hevs), (mem_get_ok _ _ _ Hd). cbn [outcome_bind orb].
  rewrite bool_decide_false by done. rewrite drain_spec, rev_involutive. by destruct evs.
Qed.

Ltac mux_cbn :=
  cbn [outcome_bind set_queues mx_concurrency mx_nextQueue mx_connectionMap mx_msgQueues
    sy_mux sy_done evt_details mux_call].

(** The multiplexer does not keep a connection in one thread, as the server relies on:
    when a connection index is used again it is given another queue, and the worker of
    that queue may handle the new connect event before the old disconnect event. *)
Lemma reconnect_overtakes n c (u : U) d d' : 2 <= c < 2 ^ 32 -> n < 2 ^ 32 ->
  0 <= cd_connIndex d < n -> cd_connIndex d' = cd_connIndex d ->
  exists s, mux_run [MA_connect d 0; MA_work 0; MA_disconnect d; MA_connect d' 0; MA_work 1; MA_work 0]
      (mux_started n c u) = Done s /\
    map snd (sy_handled s) = [ET_CONNECT d 0; ET_CONNECT d' 0; ET_DISCONNECT d] /\
    sy_user s = handle_all (map snd (sy_handled s)) (u, []).
Proof.
  intros Hc Hn Hi Hi'. rewrite mux_started_eq by lia.
  assert (Hq : forall k, 0 <= k < c -> zget (replicate (Z.to_nat c) (@nil MsgEvent)) k = Some []).
  { intros k Hk. unfold zget. rewrite (proj2 (Z.ltb_ge k 0)) by lia. apply lookup_replicate_2. lia. }
  assert (Hd : forall k, 0 <= k < c -> zget (replicate (Z.to_nat c) false) k = Some false).
  { intros k Hk. unfold zget. rewrite (proj2 (Z.ltb_ge k 0)) by lia. apply lookup_replicate_2. lia. }
  set (qs := replicate (Z.to_nat c) []) in *. set (ds := replicate (Z.to_nat c) false) in *.
  assert (Hlq : zlen qs = c) by (unfold qs; rewrite zlen_replicate; lia).
  assert (Hld : zlen ds = c) by (unfold ds; rewrite zlen_replicate; lia).
  set (cm := replicate (Z.to_nat n) _).
  assert (Hcm : zlen cm = n) by (unfold cm; rewrite zlen_replicate; lia).
  clearbody qs ds cm.
  erewrite run_call; [|reflexivity|mux_cbn; by rewrite (onConnect_ok d _ [])
    by (mux_cbn; rewrite ?Hcm; first [lia|apply Hq; lia])].
  mux_cbn. rewrite (u32_small (0 + 1)), (Z.mod_small (0 + 1)) by lia. change (0 + 1) with 1.
  rewrite (run_work 0 _ _ [ET_CONNECT d 0])
    by (mux_cbn; rewrite ?zget_zset_eq by lia; first [done|apply Hd; lia]).
  mux_cbn. rewrite zset_zset. erewrite run_call; [|reflexivity|mux_cbn; unfold mux_onDisconnect;
    rewrite (pushEvent_ok (ET_DISCONNECT d) _ 0 [])
      by (mux_cbn; by rewrite zget_zset_eq by lia); reflexivity].
  mux_cbn. rewrite zset_zset.
  erewrite run_call; [|reflexivity|mux_cbn; by rewrite (onConnect_ok d' _ [])
    by (mux_cbn; rewrite ?zlen_zset, ?Hcm; first [lia|rewrite zget_zset_ne by lia; apply Hq; lia])].
  mux_cbn. rewrite (run_work 1 _ _ [ET_CONNECT d' 0]).
  2: done. 2: { mux_cbn. apply zget_zset_eq. rewrite zlen_zset. lia. }
  2: { mux_cbn. rewrite zget_zset_ne by lia. apply Hd. lia. }
  mux_cbn. rewrite (run_work 0 _ _ [ET_DISCONNECT d]).
  - eexists. split; [reflexivity|]. split; reflexivity.
  - done.
  - mux_cbn. rewrite !zget_zset_ne by lia. apply zget_zset_eq. lia.
  - mux_cbn. rewrite zget_zset_ne by lia. apply zget_zset_eq. lia.
Qed.
End Theorems.

(** ** Witnesses *)

#[local] Existing Instance keep_listener.

Definition conn_at (i id : Z) : ConnectionDetails := ConnectionDetails_newNet EmptyString 0 id i.

(** two connections, two workers, the messages of the first connection in two rounds *)
Definition sample_actions : list mux_action :=
  [MA_connect (conn_at 0 7) 0; MA_connect (conn_at 1 8) 0; MA_msg (conn_at 0 7) (small_msg 5);
   MA_work 0; MA_msg (conn_at 1 8) (small_msg 6); MA_msg (conn_at 0 7) (small_msg 9); MA_work 1].

Definition sample_mux : outcome (MuxSystem (list Z)) := mux_run sample_actions (mux_started 4 2 []).

Definition sample_mux_state : MuxSystem (list Z) :=
  match sample_mux with Done s => s | _ => mux_started 4 2 [] end.

Lemma sample_mux_done : mux_run sample_actions (mux_started 4 2 []) = Done sample_mux_state.
Proof. vm_compute. reflexivity. Qed.

Lemma sample_no_stop : Forall (fun a => is_stop_action a = false) sample_actions.
Proof. repeat constructor. Qed.

Lemma multiplexed_in_order_witness :
  (conn_evts 0 (map snd (sy_handled sample_mux_state)) ++
    conn_evts 0 (pending_evts (sy_mux sample_mux_state)) = conn_evts 0 (call_events sample_actions) /\
   sy_user sample_mux_state = handle_all (map snd (sy_handled sample_mux_state)) ([], [])) /\
  conn_evts 0 (pending_evts (sy_mux sample_mux_state)) = [ET_MSG (conn_at 0 7) (small_msg 9)].
Proof.
  split; [|vm_compute; reflexivity].
  apply (@multiplexed_in_order (list Z) keep_listener 4 2 [] sample_actions sample_mux_state 0); [lia|lia|exact sample_mux_done|].
  vm_compute. lia.
Defined.

Lemma multiplexed_all_handled_witness :
  exists s', mux_run (all_work 2) sample_mux_state = Done s' /\ pending_evts (sy_mux s') = [] /\
    forall i, (length (List.filter (is_connect i) sample_actions) <= 1)%nat ->
      conn_evts i (map snd (sy_handled s')) = conn_evts i (call_events sample_actions).
Proof.
  apply (@multiplexed_all_handled (list Z) keep_listener 4 2 [] sample_actions sample_mux_state);
    [lia|lia|exact sample_mux_done|exact sample_no_stop].
Defined.

Lemma stop_after_last_event_witness :
  exists s', mux_stop (all_work 2) sample_mux_state = Done (E_OK, s') /\ pending_evts (sy_mux s') = [] /\
    forall i, (length (List.filter (is_connect i) sample_actions) <= 1)%nat ->
      conn_evts i (map snd (sy_handled s')) = conn_evts i (call_events sample_actions).
Proof.
  apply (@stop_after_last_event (list Z) keep_listener 4 2 [] sample_actions sample_mux_state);
    [lia|lia|exact sample_mux_done|exact sample_no_stop].
Defined.

Definition late_actions : list mux_action :=
  [MA_msg (conn_at 0 7) (small_msg 11); MA_work 0; MA_disconnect (conn_at 0 7); MA_work 0; MA_work 1].

Definition late_state : MuxSystem (list Z) :=
  match mux_run (all_stop 2 ++ late_actions) sample_mux_state with Done s => s | _ => sample_mux_state end.

Lemma stop_lost_witness : mux_stop late_actions sample_mux_state = Undef UB_hang.
Proof.
  apply (@stop_lost (list Z) keep_listener 4 2 [] sample_actions sample_mux_state (conn_at 0 7)
    (small_msg 11) 0 [MA_disconnect (conn_at 0 7); MA_work 0; MA_work 1] late_state);
    [lia|lia|exact sample_mux_done|exact sample_no_stop|vm_compute; reflexivity|repeat constructor|].
  vm_compute. reflexivity.
Defined.
