(* ===== verification/Server.v ===== *)
(** * MsgServer (inc/msg/msg_server.h, src/msg/msg_server.cpp, inc/msg/msg_session.h,
    src/msg/msg_session.cpp)

    The server keeps a session for each connection, unpacks the frames that its
    workers receive and writes responses. [ServerCore] is what the workers work on,
    the state of the message listener behind the multiplexer; [MsgServer] adds the
    data server, the assembler and the multiplexer. The listener of the frames, the
    listener of the sessions and a user's session factory are operations on one user
    state, so that the order of the calls is visible. A call of a worker is one step
    here; [Sessions] splits it at each access of the table of the sessions. *)

From Stdlib Require Import ZArith Lia String.
From stdpp Require Import list.
From coqutil Require Import Byte.
From S2P Require Import Prelude Errors Io Serializable Msg Frame Connection Segmented Assembler.
From S2P Require Import Client Multiplexer.
Open Scope Z_scope.

(** ** Definitions *)

Record MsgSession := MkMsgSession {
  ss_sessionId : Z;
  ss_connectionId : Z;
  ss_connectionIndex : Z;
}.

#[export] Instance MsgSession_eq_dec : EqDecision MsgSession.
Proof. solve_decision. Defined.

Definition MsgSession_default : MsgSession := MkMsgSession 0 0 0.

Definition MsgSession_new (sessionId : Z) (connectionDetails : ConnectionDetails) : MsgSession :=
  MkMsgSession sessionId (cd_connId connectionDetails) (cd_connIndex connectionDetails).

(** MsgSessionFactory of the user, over the user's state *)
Class MsgSessionFactory (L : Type) := {
  createMsgSession : Z -> ConnectionDetails -> L -> option MsgSession * L;
  deleteMsgSession : MsgSession -> L -> L;
}.

Class MsgSessionListener (L : Type) := {
  onConnectSession : MsgSession -> ConnectionDetails -> L -> L;
  onDisconnectSession : MsgSession -> ConnectionDetails -> L -> L;
}.

(** what the message server uses of a DataServer; [ds_buffer] is the buffer that its
    allocator returns, [None] for a null pointer, and [ds_freed] gives one back *)
Class DataServer (D : Type) := {
  ds_initialize : Z -> Z -> D -> ErrorCode * D;
  ds_terminate : D -> ErrorCode * D;
  ds_start : D -> ErrorCode * D;
  ds_stop : D -> ErrorCode * D;
  ds_byteOrder : D -> ByteOrder;
  ds_buffer : Z -> D -> option (list Byte.byte) * D;
  ds_freed : D -> D;
  ds_replyMsg : ConnectionDetails -> list Byte.byte -> Z -> D -> ErrorCode * D;
}.

(** the part of MsgServer that the workers use: m_sessions, m_nextSessionId, the byte
    order of the frame reader, whether there are a session listener and a factory of
    the user, and the user's state; [sc_deleted] records the sessions that were deleted *)
Record ServerCore (L : Type) := MkServerCore {
  sc_sessions : list (option MsgSession);
  sc_nextSessionId : Z;
  sc_byteOrder : ByteOrder;
  sc_sessionListener : bool;
  sc_sessionFactory : bool;
  sc_user : L;
  sc_deleted : list MsgSession;
}.

Arguments MkServerCore {L}.
Arguments sc_sessions {L}.
Arguments sc_nextSessionId {L}.
Arguments sc_byteOrder {L}.
Arguments sc_sessionListener {L}.
Arguments sc_sessionFactory {L}.
Arguments sc_user {L}.
Arguments sc_deleted {L}.

Section Core.
Context {L : Type} `{Gzip} `{FrameListener ConnectionDetails L} `{MsgSessionFactory L}.
Context `{MsgSessionListener L}.
Implicit Types c : ServerCore L.

Definition set_sessions (ss : list (option MsgSession)) c : ServerCore L :=
  MkServerCore ss (sc_nextSessionId c) (sc_byteOrder c) (sc_sessionListener c)
    (sc_sessionFactory c) (sc_user c) (sc_deleted c).
Definition set_nextSessionId (n : Z) c : ServerCore L :=
  MkServerCore (sc_sessions c) n (sc_byteOrder c) (sc_sessionListener c)
    (sc_sessionFactory c) (sc_user c) (sc_deleted c).
Definition set_core_user (l : L) c : ServerCore L :=
  MkServerCore (sc_sessions c) (sc_nextSessionId c) (sc_byteOrder c) (sc_sessionListener c)
    (sc_sessionFactory c) l (sc_deleted c).

(** createSession; [alloc] tells whether the default factory can allocate *)
Definition createSession (alloc : bool) (sessionId : Z) (details : ConnectionDetails) c
  : option MsgSession * ServerCore L :=
  if sc_sessionFactory c then
    let '(session, l) := createMsgSession sessionId details (sc_user c) in
    (session, set_core_user l c)
  else ((if alloc then Some (MsgSession_new sessionId details) else None), c).

(** m_sessionFactory->deleteMsgSession *)
Definition deleteSession (session : MsgSession) c : ServerCore L :=
  MkServerCore (sc_sessions c) (sc_nextSessionId c) (sc_byteOrder c) (sc_sessionListener c)
    (sc_sessionFactory c)
    (if sc_sessionFactory c then deleteMsgSession session (sc_user c) else sc_user c)
    (sc_deleted c ++ [session]).

Definition core_onConnect (alloc : bool) (details : ConnectionDetails) (status : Z) c
  : outcome (bool * ServerCore L) :=
  if negb (status =? 0) then Done (false, c) else
  let connectionIndex := cd_connIndex details in
  let* session := mem_get (sc_sessions c) connectionIndex in
  match session with
  | Some _ => Done (false, c)
  | None =>
    let sessionId := sc_nextSessionId c in
    let c := set_nextSessionId (u64 (sc_nextSessionId c + 1)) c in
    let '(session, c) := createSession alloc sessionId details c in
    match session with
    | None => Done (false, c)
    | Some session => Done (true, set_sessions (zset (sc_sessions c) connectionIndex (Some session)) c)
    end
  end.

Definition core_onDisconnect (details : ConnectionDetails) c : outcome (ServerCore L) :=
  let connectionIndex := cd_connIndex details in
  let* session := mem_get (sc_sessions c) connectionIndex in
  match session with
  | None => Done c
  | Some session =>
    let c := if sc_sessionListener c
             then set_core_user (onDisconnectSession session details (sc_user c)) c else c in
    let c := deleteSession session c in
    Done (set_sessions (zset (sc_sessions c) connectionIndex None) c)
  end.

Definition core_onMsg (details : ConnectionDetails) (msg : Msg) (canSaveMsg : bool) c
  : outcome (MsgAction * ServerCore L) :=
  let* '(_, l) := readMsgFrame (sc_byteOrder c) details msg (sc_user c) in
  Done (MSG_CAN_DELETE, set_core_user l c).

(** getSession; the second result is what is written to [*session], if anything is *)
Definition getSession (details : ConnectionDetails) c : ErrorCode * option (option MsgSession) :=
  let connectionIndex := cd_connIndex details in
  if zlen (sc_sessions c) <=? connectionIndex then (E_INVALID_CONNECTION, None) else
  match zget (sc_sessions c) connectionIndex with
  | Some (Some session) =>
    if negb (ss_connectionId session =? cd_connId details) then (E_SESSION_STALE, Some (Some session))
    else (E_OK, Some (Some session))
  | _ => (E_SESSION_NOT_FOUND, Some None)
  end.

(** the loop of [terminate] over the sessions *)
Fixpoint deleteSessions (sessions : list (option MsgSession)) c : ServerCore L :=
  match sessions with
  | [] => c
  | Some session :: sessions => deleteSessions sessions (deleteSession session c)
  | None :: sessions => deleteSessions sessions c
  end.

(** the server as the listener of the multiplexer; undefined behaviour of a call stays
    in the state *)
Definition core_absorb {A} (f : ServerCore L -> outcome (A * ServerCore L)) (a : A)
    (o : outcome (ServerCore L)) : A * outcome (ServerCore L) :=
  match outcome_bind o f with
  | Done (r, c) => (r, Done c)
  | Undef u => (a, Undef u)
  | NoFuel => (a, NoFuel)
  end.

#[export] Instance ServerCore_listener : MsgListener (outcome (ServerCore L)) := {
  onConnect details status := core_absorb (core_onConnect true details status) false;
  onDisconnect details o := outcome_bind o (core_onDisconnect details);
  onMsg details msg canSaveMsg := core_absorb (core_onMsg details msg canSaveMsg) MSG_CAN_DELETE;
}.
End Core.

(** the server: m_dataServer, m_msgAssembler and the multiplexer with its workers,
    whose user state is the core; [sv_freed] records the messages that the assembler
    took back *)
Record MsgServer (D L : Type) := MkMsgServer {
  sv_dataServer : option D;
  sv_assembler : MsgAssembler;
  sv_system : MuxSystem (outcome (ServerCore L));
  sv_freed : list Msg;
}.

Arguments MkMsgServer {D L}.
Arguments sv_dataServer {D L}.
Arguments sv_assembler {D L}.
Arguments sv_system {D L}.
Arguments sv_freed {D L}.

Section Server.
Context {D L : Type} `{DataServer D} `{Gzip} `{FrameListener ConnectionDetails L}.
Context `{MsgSessionFactory L} `{MsgSessionListener L}.
Implicit Types s : MsgServer D L.

Definition set_dataServer (d : option D) s : MsgServer D L :=
  MkMsgServer d (sv_assembler s) (sv_system s) (sv_freed s).
Definition set_asm (a : MsgAssembler) s : MsgServer D L :=
  MkMsgServer (sv_dataServer s) a (sv_system s) (sv_freed s).
Definition set_system (m : MuxSystem (outcome (ServerCore L))) s : MsgServer D L :=
  MkMsgServer (sv_dataServer s) (sv_assembler s) m (sv_freed s).
Definition set_core (f : ServerCore L -> ServerCore L) s : MsgServer D L :=
  let m := sv_system s in
  set_system (MkMuxSystem (sy_mux m) (sy_done m)
    (let* c := fst (sy_user m) in Done (f c), snd (sy_user m)) (sy_pushed m) (sy_handled m)) s.

Definition MsgServer_new (l : L) : MsgServer D L :=
  MkMsgServer None MsgAssembler_new
    (mux_new (Done (MkServerCore [] 0 HOST_ORDER false false l []))) [].

(** [allocsMux] and [allocsAsm] tell which allocations succeed; the data server is
    another object and stays initialized when a later step fails *)
Definition server_initialize (allocsMux allocsAsm : nat -> bool) (dataServer : D)
    (maxConnections concurrency bufferSize : Z) (sessionListener sessionFactory : bool) s
  : outcome (ErrorCode * D * MsgServer D L) :=
  let '(rc, m) := mux_initialize allocsMux maxConnections concurrency (sy_mux (sv_system s)) in
  let s := set_system (set_mux m (sv_system s)) s in
  if decide (rc <> E_OK) then Done (rc, dataServer, s) else
  let '(rc, dataServer) := ds_initialize maxConnections bufferSize dataServer in
  if decide (rc <> E_OK) then
    let '(_, a, _) := asm_terminate (sv_assembler s) in
    let* '(_, m) := mux_terminate (sy_mux (sv_system s)) in
    Done (rc, dataServer, set_asm a (set_system (set_mux m (sv_system s)) s))
  else
  let '(rc, a) := asm_initialize allocsAsm maxConnections (ds_byteOrder dataServer) (sv_assembler s) in
  let s := set_asm a s in
  if decide (rc <> E_OK) then
    let* '(_, m) := mux_terminate (sy_mux (sv_system s)) in
    Done (rc, dataServer, set_system (set_mux m (sv_system s)) s)
  else
  let s := set_dataServer (Some dataServer) s in
  let s := set_core (fun c => MkServerCore
    (ztake maxConnections (sc_sessions c) ++
      replicate (Z.to_nat (maxConnections - zlen (sc_sessions c))) None)
    (sc_nextSessionId c) (ds_byteOrder dataServer) sessionListener sessionFactory
    (sc_user c) (sc_deleted c)) s in
  Done (E_OK, dataServer, s).

Definition server_dataServer s : outcome D :=
  match sv_dataServer s with Some d => Done d | None => Undef UB_null end.

Definition server_terminate s : outcome (ErrorCode * MsgServer D L) :=
  let* d := server_dataServer s in
  let '(rc, d) := ds_terminate d in
  let s := set_dataServer (Some d) s in
  if decide (rc <> E_OK) then Done (rc, s) else
  let '(rc, a, _) := asm_terminate (sv_assembler s) in
  let s := set_asm a s in
  if decide (rc <> E_OK) then Done (rc, s) else
  let* '(rc, m) := mux_terminate (sy_mux (sv_system s)) in
  let s := set_system (set_mux m (sv_system s)) s in
  if decide (rc <> E_OK) then Done (rc, s) else
  Done (E_OK, set_core (fun c => set_sessions [] (deleteSessions (sc_sessions c) c)) s).

(** [acts]: what the workers do when a failure stops them *)
Definition server_start (acts : list mux_action) s : outcome (ErrorCode * MsgServer D L) :=
  let '(rc, m) := mux_start (sv_system s) in
  let s := set_system m s in
  if decide (rc <> E_OK) then Done (rc, s) else
  let* d := server_dataServer s in
  let '(rc, d) := ds_start d in
  let s := set_dataServer (Some d) s in
  if decide (rc <> E_OK) then
    let* '(_, m) := mux_stop acts (sv_system s) in Done (rc, set_system m s)
  else Done (E_OK, s).

Definition server_stop (acts : list mux_action) s : outcome (ErrorCode * MsgServer D L) :=
  let* d := server_dataServer s in
  let '(rc, d) := ds_stop d in
  let s := set_dataServer (Some d) s in
  if decide (rc <> E_OK) then Done (rc, s) else
  let* '(rc, m) := mux_stop acts (sv_system s) in
  Done (rc, set_system m s).

Definition server_replyMsg (details : ConnectionDetails) (msg : Msg) s
  : outcome (ErrorCode * MsgServer D L) :=
  let msgLength := m_length (msg_header msg) in
  let* d := server_dataServer s in
  let '(buffer, d) := ds_buffer msgLength d in
  match buffer with
  | None => Done (E_NOMEM, set_dataServer (Some d) s)
  | Some buffer =>
    let os := FixedOutputStream_new buffer msgLength (ds_byteOrder d) in
    let* '(rc, os) := msg_serialize msg os in
    if decide (rc <> E_OK) then Done (rc, set_dataServer (Some (ds_freed d)) s) else
    let writeFlags := Z.lor COMMUTIL_MSG_WRITE_BY_REF COMMUTIL_MSG_WRITE_DISPOSE_BUFFER in
    let '(rc, d) := ds_replyMsg details (ztake (fos_getLength os) (fos_getBuffer os)) writeFlags d in
    if decide (rc <> E_OK) then Done (rc, set_dataServer (Some (ds_freed d)) s)
    else Done (E_OK, set_dataServer (Some d) s)
  end.

(** what happens at a running server: the notifications of the data server and the
    steps of the workers *)
Inductive server_event :=
| SE_connect (details : ConnectionDetails) (status : Z)
| SE_bytes (details : ConnectionDetails) (buffer : BufferNode)
| SE_disconnect (details : ConnectionDetails)
| SE_work (queueId : Z).

Definition server_step (fuel : nat) (env : AllocEnv) (e : server_event) s : outcome (MsgServer D L) :=
  match e with
  | SE_connect details status =>
    let* '(a, (_, o)) := asm_onConnect details status (sv_assembler s) (Done (sv_system s)) in
    let* m := o in Done (set_asm a (set_system m s))
  | SE_bytes details buffer =>
    let* '(a, (_, (o, freed))) :=
      asm_onBytesReceived fuel env details buffer (sv_assembler s) (Done (sv_system s), sv_freed s) in
    let* m := o in Done (MkMsgServer (sv_dataServer s) a m freed)
  | SE_disconnect details =>
    let* '(a, o) := asm_onDisconnect details (sv_assembler s) (Done (sv_system s)) in
    let* m := o in Done (set_asm a (set_system m s))
  | SE_work queueId =>
    let* m := mux_step (MA_work queueId) (sv_system s) in Done (set_system m s)
  end.

Fixpoint server_run (fuel : nat) (env : AllocEnv) (es : list server_event) s : outcome (MsgServer D L) :=
  match es with
  | [] => Done s
  | e :: es => let* s := server_step fuel env e s in server_run fuel env es s
  end.
End Server.

(** ** Sessions *)

Section Sessions.
Context {L : Type} `{Gzip} `{FrameListener ConnectionDetails L} `{MsgSessionFactory L}.
Context `{MsgSessionListener L}.
Implicit Types c : ServerCore L.

Definition live_ids (sessions : list (option MsgSession)) : list Z :=
  map ss_sessionId (omap id sessions).

(** every session sits at the index of its connection, and every session id that was
    given away belongs to one session, alive or deleted *)
Record core_ok (n : Z) c : Prop := {
  co_length : zlen (sc_sessions c) = n;
  co_factory : sc_sessionFactory c = false;
  co_next : 0 <= sc_nextSessionId c;
  co_index i session : zget (sc_sessions c) i = Some (Some session) -> ss_connectionIndex session = i;
  co_ids : live_ids (sc_sessions c) ++ map ss_sessionId (sc_deleted c) ≡ₚ seqZ 0 (sc_nextSessionId c);
}.

Lemma seqZ_last x : 0 <= x -> seqZ 0 (x + 1) = seqZ 0 x ++ [x].
Proof. intros Hx. by rewrite seqZ_app by lia. Qed.

Lemma live_ids_set sessions i o new : zget sessions i = Some o ->
  live_ids (zset sessions i new) ++ live_ids [o] ≡ₚ live_ids [new] ++ live_ids sessions.
Proof.
  unfold zget, zset. destruct (i <? 0); [done|]. intros Ho.
  assert (Hlt := lookup_lt_Some _ _ _ Ho). rewrite insert_take_drop by done.
  rewrite <- (take_drop_middle _ _ _ Ho) at 3. unfold live_ids.
  rewrite <- !(Permutation_middle (take (Z.to_nat i) sessions)).
  set (rest := take _ _ ++ drop _ _). destruct o as [o|], new as [new|]; cbn; rewrite ?app_nil_r; try done.
  - by rewrite <- Permutation_cons_append.
  - by rewrite <- Permutation_cons_append.
Qed.

(** The session table as a partial map: a connection gets a session if its index has
    none, its session id is new; otherwise the table stays as it is. *)
Lemma core_onConnect_spec n details status c : core_ok n c -> sc_nextSessionId c + 1 < 2 ^ 64 ->
  0 <= cd_connIndex details ->
  core_onConnect true details status c =
    if negb (status =? 0) then Done (false, c)
    else match zget (sc_sessions c) (cd_connIndex details) with
    | None => Undef UB_bounds
    | Some (Some _) => Done (false, c)
    | Some None => Done (true, set_sessions (zset (sc_sessions c) (cd_connIndex details)
        (Some (MsgSession_new (sc_nextSessionId c) details)))
        (set_nextSessionId (sc_nextSessionId c + 1) c))
    end.
Proof.
  intros Hok Hn Hi. unfold core_onConnect. destruct (negb (status =? 0)); [done|].
  unfold mem_get. destruct (zget _ _) as [[session|]|]; cbn [outcome_bind]; [done| |done].
  unfold createSession. cbn [set_nextSessionId sc_sessionFactory]. rewrite (co_factory _ _ Hok).
  pose proof (co_next _ _ Hok). by rewrite u64_small by lia.
Qed.

Lemma core_onConnect_ok n details status c r c' : core_ok n c -> sc_nextSessionId c + 1 < 2 ^ 64 ->
  core_onConnect true details status c = Done (r, c') ->
  core_ok n c' /\ sc_nextSessionId c' <= sc_nextSessionId c + 1.
Proof.
  intros Hok Hn. unfold core_onConnect.
  destruct (negb (status =? 0)); [intros [= <- <-]; split; [done|lia]|].
  unfold mem_get. destruct (zget _ _) as [[session|]|] eqn:Hg; cbn [outcome_bind];
    [intros [= <- <-]; split; [done|lia]| |done].
  unfold createSession. cbn [set_nextSessionId sc_sessionFactory].
  destruct Hok as [Hl Hf Hnx Hidx Hids]. rewrite Hf, u64_small by lia. intros [= <- <-].
  split; [|cbn; lia].
  split; cbn [set_sessions set_nextSessionId sc_sessions sc_nextSessionId sc_sessionFactory sc_deleted].
  - by rewrite zlen_zset.
  - done.
  - lia.
  - intros i session. destruct (decide (cd_connIndex details = i)) as [<-|Hne];
      [|rewrite zget_zset_ne by done; apply Hidx].
    rewrite zget_zset_eq by (by apply zget_Some_range in Hg). by intros [= <-].
  - pose proof (live_ids_set _ _ _ (Some (MsgSession_new (sc_nextSessionId c) details)) Hg) as Hp.
    cbn in Hp. rewrite app_nil_r in Hp. rewrite Hp. cbn [app].
    rewrite seqZ_last, Hids by lia. apply Permutation_cons_append.
Qed.

(** deleting the session of an index *)
Lemma delete_ok n i session c : core_ok n c -> zget (sc_sessions c) i = Some (Some session) ->
  core_ok n (set_sessions (zset (sc_sessions c) i None) (deleteSession session c)).
Proof.
  intros [Hl Hf Hnx Hidx Hids] Hg.
  split; cbn [set_sessions deleteSession sc_sessions sc_nextSessionId sc_sessionFactory sc_deleted]; try done.
  - by rewrite zlen_zset.
  - intros j s. destruct (decide (i = j)) as [<-|Hne]; [|rewrite zget_zset_ne by done; apply Hidx].
    by rewrite zget_zset_eq by (by apply zget_Some_range in Hg).
  - pose proof (live_ids_set _ _ _ None Hg) as Hp. cbn in Hp. rewrite <- Hids, <- Hp, map_app. cbn.
    rewrite <- app_assoc. apply Permutation_app_head. by rewrite Permutation_app_comm.
Qed.

Lemma user_ok n l c : core_ok n c -> core_ok n (set_core_user l c).
Proof. by intros []. Qed.

(** A disconnect tells the session listener, deletes the session and clears its
    entry; without a session it does nothing. *)
Lemma core_onDisconnect_spec n details c : core_ok n c ->
  core_onDisconnect details c =
    match zget (sc_sessions c) (cd_connIndex details) with
    | None => Undef UB_bounds
    | Some None => Done c
    | Some (Some session) =>
      Done (MkServerCore (zset (sc_sessions c) (cd_connIndex details) None) (sc_nextSessionId c)
        (sc_byteOrder c) (sc_sessionListener c) (sc_sessionFactory c)
        (if sc_sessionListener c then onDisconnectSession session details (sc_user c) else sc_user c)
        (sc_deleted c ++ [session]))
    end.
Proof.
  intros Hok. unfold core_onDisconnect, mem_get.
  destruct (zget _ _) as [[session|]|]; cbn [outcome_bind]; [|done..].
  unfold deleteSession, set_sessions.
  destruct (sc_sessionListener c) eqn:Hs; cbn; rewrite ?(co_factory _ _ Hok), ?Hs; done.
Qed.

Lemma core_onDisconnect_ok n details c c' : core_ok n c ->
  core_onDisconnect details c = Done c' ->
  core_ok n c' /\ sc_nextSessionId c' = sc_nextSessionId c.
Proof.
  intros Hok. unfold core_onDisconnect, mem_get.
  destruct (zget _ _) as [[session|]|] eqn:Hg; cbn [outcome_bind]; [|by intros [= <-]|done].
  destruct (sc_sessionListener c); intros [= <-]; (split; [|done]).
  - exact (delete_ok n _ session (set_core_user (onDisconnectSession session details (sc_user c)) c)
      (user_ok n _ c Hok) Hg).
  - exact (delete_ok n _ session c Hok Hg).
Qed.

Lemma core_onMsg_ok n details msg can c a c' : core_ok n c ->
  core_onMsg details msg can c = Done (a, c') ->
  core_ok n c' /\ sc_nextSessionId c' = sc_nextSessionId c /\ sc_sessions c' = sc_sessions c.
Proof.
  intros Hok. unfold core_onMsg. intros ([rc l] & Hr & [= <- <-])%outcome_bind_inv.
  split; [by apply user_ok|done].
Qed.

(** the core handles one event of its worker *)
Definition core_handle (e : MsgEvent) c : outcome (ServerCore L) :=
  match e with
  | ET_CONNECT details status => let* '(_, c) := core_onConnect true details status c in Done c
  | ET_DISCONNECT details => core_onDisconnect details c
  | ET_MSG details msg => let* '(_, c) := core_onMsg details msg true c in Done c
  | ET_STOP _ => Done c
  end.

Fixpoint core_run (evts : list MsgEvent) c : outcome (ServerCore L) :=
  match evts with
  | [] => Done c
  | e :: evts => let* c := core_handle e c in core_run evts c
  end.

Lemma core_absorb_snd {A} (f : ServerCore L -> outcome (A * ServerCore L)) a o :
  snd (core_absorb f a o) = outcome_bind o (fun c => let* '(_, c) := f c in Done c).
Proof. unfold core_absorb. destruct o as [c| |]; [|done..]. cbn. by destruct (f c) as [[r c']| |]. Qed.

Lemma handleEvt_core e (o : outcome (ServerCore L)) freed :
  fst (snd (handleEvt e (o, freed))) = outcome_bind o (core_handle e).
Proof.
  destruct e as [d status|d|d msg|d]; [exact (core_absorb_snd _ _ _)|done| |by destruct o].
  pose proof (core_absorb_snd (core_onMsg d msg true) MSG_CAN_DELETE o) as Hm. cbn [handleEvt fst snd].
  change (onMsg d msg true o) with (core_absorb (core_onMsg d msg true) MSG_CAN_DELETE o).
  by destruct (core_absorb _ _ _) as [a u].
Qed.

(** the workers run the core on the events that they handle *)
Lemma handle_all_core evts : forall (o : outcome (ServerCore L)) freed,
  fst (handle_all evts (o, freed)) = outcome_bind o (core_run evts).
Proof.
  induction evts as [|e evts IH]; intros o freed; [by destruct o|].
  unfold handle_all in *. cbn [fold_left]. pose proof (handleEvt_core e o freed) as He.
  destruct (snd (handleEvt e (o, freed))) as [o' f]. cbn [fst] in He. rewrite IH, He.
  by destruct o.
Qed.

Lemma core_run_app evts1 evts2 c :
  core_run (evts1 ++ evts2) c = outcome_bind (core_run evts1 c) (core_run evts2).
Proof.
  revert c. induction evts1 as [|e evts IH]; intros c; [done|]. cbn [app core_run].
  rewrite outcome_bind_assoc. destruct (core_handle e c); cbn [outcome_bind]; [apply IH|done|done].
Qed.

Lemma core_handle_ok n e c c' : core_ok n c -> sc_nextSessionId c + 1 < 2 ^ 64 ->
  core_handle e c = Done c' -> core_ok n c' /\ sc_nextSessionId c' <= sc_nextSessionId c + 1.
Proof.
  intros Hok Hn. destruct e; cbn [core_handle].
  - intros ([r c1] & Hc & [= <-])%outcome_bind_inv. by eapply core_onConnect_ok.
  - intros Hc. destruct (core_onDisconnect_ok n _ c c' Hok Hc) as [? ->]. split; [done|lia].
  - intros ([r c1] & Hc & [= <-])%outcome_bind_inv.
    destruct (core_onMsg_ok n _ _ _ c r c1 Hok Hc) as (? & -> & _). split; [done|lia].
  - intros [= <-]. split; [done|lia].
Qed.

Lemma core_run_ok n evts : forall c c', core_ok n c -> sc_nextSessionId c + zlen evts < 2 ^ 64 ->
  core_run evts c = Done c' -> core_ok n c'.
Proof.
  induction evts as [|e evts IH]; intros c c' Hok Hn; cbn [core_run]; [by intros [= <-]|].
  rewrite zlen_cons in Hn. zlens. intros (c1 & He & Hr)%outcome_bind_inv.
  destruct (core_handle_ok n e c c1 Hok ltac:(lia) He) as [Hok1 Hn1]. apply (IH c1); [done|lia|done].
Qed.

(** a server that was just initialized, with the default session factory *)
Definition core_initial (n : Z) (byteOrder : ByteOrder) (listener : bool) (l : L) : ServerCore L :=
  MkServerCore (replicate (Z.to_nat n) None) 0 byteOrder listener false l [].

Lemma live_none k : live_ids (replicate k None) = [].
Proof. by induction k. Qed.

Lemma core_initial_ok n byteOrder listener l : 0 <= n -> core_ok n (core_initial n byteOrder listener l).
Proof.
  intros Hn. split; cbn [core_initial sc_sessions sc_nextSessionId sc_sessionFactory sc_deleted].
  - rewrite zlen_replicate. lia.
  - done.
  - lia.
  - intros i session. unfold zget. destruct (i <? 0); [done|]. by intros [? _]%lookup_replicate.
  - by rewrite live_none.
Qed.

Lemma deleteSessions_deleted sessions : forall c, sc_sessionFactory c = false ->
  sc_deleted (deleteSessions sessions c) = sc_deleted c ++ omap id sessions.
Proof.
  induction sessions as [|[session|] sessions IH]; intros c Hf; cbn [deleteSessions].
  - by rewrite app_nil_r.
  - rewrite IH by done. cbn [deleteSession sc_deleted omap list_omap id]. by rewrite <- app_assoc.
  - by rewrite IH.
Qed.

(** the connection that owns index [i] after an event: the first that connects keeps
    it until a disconnect *)
Definition owner_after (i : Z) (owner : option Z) (e : MsgEvent) : option Z :=
  match e with
  | ET_CONNECT d status =>
    if (status =? 0) && (cd_connIndex d =? i) then
      match owner with Some id => Some id | None => Some (cd_connId d) end
    else owner
  | ET_DISCONNECT d => if cd_connIndex d =? i then None else owner
  | _ => owner
  end.

Definition session_owner (i : Z) c : option Z :=
  match zget (sc_sessions c) i with
  | Some (Some session) => Some (ss_connectionId session)
  | _ => None
  end.

Lemma owner_step n e c c' i : core_ok n c -> 0 <= i < n -> core_handle e c = Done c' ->
  session_owner i c' = owner_after i (session_owner i c) e.
Proof.
  intros Hok Hi. pose proof (co_length _ _ Hok) as Hl. unfold session_owner. destruct e; cbn [core_handle owner_after].
  - intros ([r c1] & Hc & [= <-])%outcome_bind_inv. unfold core_onConnect in Hc.
    destruct (status =? 0); cbn [negb andb] in *; [|by simplify_eq].
    unfold mem_get in Hc. destruct (zget _ (cd_connIndex _)) as [[session|]|] eqn:Hg; cbn [outcome_bind] in Hc.
    + injection Hc as <- <-. destruct (Z.eqb_spec (cd_connIndex connectionDetails) i) as [<-|]; [|done].
      by rewrite Hg.
    + unfold createSession in Hc. cbn [set_nextSessionId sc_sessionFactory] in Hc.
      rewrite (co_factory _ _ Hok) in Hc. injection Hc as <- <-. cbn [set_sessions sc_sessions set_nextSessionId].
      destruct (Z.eqb_spec (cd_connIndex connectionDetails) i) as [<-|]; [|by rewrite zget_zset_ne].
      by rewrite zget_zset_eq, Hg by lia.
    + done.
  - unfold core_onDisconnect, mem_get.
    destruct (zget _ (cd_connIndex _)) as [[session|]|] eqn:Hg; cbn [outcome_bind]; [|intros [= <-]|done].
    + destruct (sc_sessionListener c); intros [= <-]; cbn [set_sessions deleteSession set_core_user sc_sessions];
        (destruct (Z.eqb_spec (cd_connIndex connectionDetails) i) as [<-|]; [|by rewrite zget_zset_ne]);
        by rewrite zget_zset_eq by lia.
    + destruct (Z.eqb_spec (cd_connIndex connectionDetails) i) as [<-|]; [|done]. by rewrite Hg.
  - intros ([r c1] & Hc & [= <-])%outcome_bind_inv.
    by destruct (core_onMsg_ok n _ _ _ c r c1 Hok Hc) as (_ & _ & ->).
  - by intros [= <-].
Qed.

Lemma owner_run n i evts : forall c c', core_ok n c -> 0 <= i < n ->
  sc_nextSessionId c + zlen evts < 2 ^ 64 -> core_run evts c = Done c' ->
  session_owner i c' = fold_left (owner_after i) evts (session_owner i c).
Proof.
  induction evts as [|e evts IH]; intros c c' Hok Hi Hn; cbn [core_run fold_left]; [by intros [= <-]|].
  rewrite zlen_cons in Hn. zlens. intros (c1 & He & Hr)%outcome_bind_inv.
  destruct (core_handle_ok n e c c1 Hok ltac:(lia) He) as [Hok1 Hn1].
  rewrite <- (owner_step n e c c1 i) by done. apply IH; [done|done|lia|done].
Qed.

(** [getSession] on every branch, after any history: it finds the session of the
    connection that owns the index, and only for this connection; it tells an index
    out of range, an index without a connection and an outdated connection apart. *)
Theorem getSession_spec n byteOrder listener l evts c d : 0 <= n -> zlen evts < 2 ^ 64 ->
  core_run evts (core_initial n byteOrder listener l) = Done c -> 0 <= cd_connIndex d ->
  if n <=? cd_connIndex d then getSession d c = (E_INVALID_CONNECTION, None)
  else match fold_left (owner_after (cd_connIndex d)) evts None with
  | None => getSession d c = (E_SESSION_NOT_FOUND, Some None)
  | Some owner => exists session,
    ss_connectionId session = owner /\ ss_connectionIndex session = cd_connIndex d /\
    getSession d c = (if owner =? cd_connId d then E_OK else E_SESSION_STALE, Some (Some session))
  end.
Proof.
  intros Hn Hl Hrun Hd. assert (Hok0 := core_initial_ok n byteOrder listener l Hn).
  assert (Hok : core_ok n c) by (apply (core_run_ok n evts _ c Hok0); [cbn; lia|done]).
  unfold getSession. rewrite (co_length _ _ Hok). destruct (Z.leb_spec n (cd_connIndex d)) as [|Hlt]; [done|].
  assert (Ho : session_owner (cd_connIndex d) (core_initial n byteOrder listener l) = None).
  { unfold session_owner. destruct (zget _ _) as [[session|]|] eqn:Hg; [|done..].
    unfold zget in Hg. destruct (_ <? 0); [done|]. by apply lookup_replicate in Hg as [? _]. }
  rewrite <- Ho, <- (owner_run n (cd_connIndex d) evts _ c Hok0) by (done || cbn; lia).
  unfold session_owner. destruct (zget _ _) as [[session|]|] eqn:Hg; [|done..].
  exists session. split; [done|]. split; [by apply (co_index _ _ Hok)|].
  by destruct (ss_connectionId session =? cd_connId d).
Qed.

(** a connect event that overtakes the disconnect event of the same index *)
Lemma overtaken_core n byteOrder listener l d d' : 0 <= cd_connIndex d < n ->
  cd_connIndex d' = cd_connIndex d ->
  exists c, core_run [ET_CONNECT d 0; ET_CONNECT d' 0; ET_DISCONNECT d]
      (core_initial n byteOrder listener l) = Done c /\
    getSession d' c = (E_SESSION_NOT_FOUND, Some None) /\ sc_deleted c = [MsgSession_new 0 d].
Proof.
  intros Hi Hi'. set (c0 := core_initial n byteOrder listener l).
  assert (Hok0 : core_ok n c0) by (apply core_initial_ok; lia).
  assert (Hg0 : zget (sc_sessions c0) (cd_connIndex d) = Some None).
  { cbn. unfold zget. rewrite (proj2 (Z.ltb_ge _ _)) by lia. apply lookup_replicate_2. lia. }
  cbn [core_run core_handle]. rewrite (core_onConnect_spec n) by (done || cbn; lia). rewrite Hg0.
  cbn [Z.eqb negb outcome_bind]. set (c1 := set_sessions _ _).
  assert (Hg1 : zget (sc_sessions c1) (cd_connIndex d) = Some (Some (MsgSession_new 0 d))).
  { unfold c1. cbn [set_sessions sc_sessions]. apply zget_zset_eq. by rewrite (co_length _ _ Hok0). }
  unfold core_onConnect. cbn [Z.eqb negb]. rewrite Hi', (mem_get_ok _ _ _ Hg1). cbn [outcome_bind].
  unfold core_onDisconnect. rewrite (mem_get_ok _ _ _ Hg1). cbn [outcome_bind].
  eexists. split; [reflexivity|]. unfold getSession.
  rewrite Hi'. destruct (sc_sessionListener c1); cbn [deleteSession set_core_user set_sessions sc_sessions sc_deleted];
    rewrite zlen_zset, zget_zset_eq by (unfold c1; cbn [set_sessions sc_sessions]; rewrite ?zlen_zset;
      by rewrite (co_length _ _ Hok0));
    unfold c1 at 1; cbn [set_sessions sc_sessions]; rewrite zlen_zset, (co_length _ _ Hok0);
    by rewrite (proj2 (Z.leb_gt _ _)) by lia.
Qed.
End Sessions.

(** ** Replies *)

Section Reply.
Context {D L : Type} `{DataServer D} `{Gzip} `{FrameListener ConnectionDetails L}.
Context `{MsgSessionFactory L} `{MsgSessionListener L}.
Implicit Types s : MsgServer D L.

(** A reply is written as the exact image of the message, in the byte order of the
    data server; its buffer is given back unless the data server took it over. *)
Theorem replyMsg_spec details m s d : msg_ok m -> sv_dataServer s = Some d ->
  let len := m_length (msg_header m) in
  let '(buffer, d1) := ds_buffer len d in
  (forall b, buffer = Some b -> zlen b = len) ->
  server_replyMsg details m s =
    match buffer with
    | None => Done (E_NOMEM, set_dataServer (Some d1) s)
    | Some _ =>
      let '(rc, d2) := ds_replyMsg details
        (msg_image m (bool_decide (ds_byteOrder d1 = NETWORK_ORDER))) sent_flags d1 in
      Done (rc, set_dataServer (Some (if decide (rc = E_OK) then d2 else ds_freed d2)) s)
    end.
Proof.
  intros Hm Hd. cbv zeta. destruct (ds_buffer _ d) as [buffer d1] eqn:Hb. intros Hlen.
  unfold server_replyMsg, server_dataServer. rewrite Hd. cbn [outcome_bind]. rewrite Hb.
  destruct buffer as [b|]; [|done].
  destruct (serialize_exact m b (ds_byteOrder d1) Hm (Hlen b eq_refl)) as (os & Hs & Hi).
  rewrite Hs. cbn [outcome_bind]. rewrite decide_False by (intros Hc; by apply Hc).
  rewrite Hi. fold sent_flags. destruct (ds_replyMsg _ _ _ _) as [rc d2].
  destruct (decide (rc = E_OK)) as [->|Hrc].
  - by rewrite decide_False by (intros Hc; by apply Hc).
  - by rewrite decide_True by done.
Qed.

(** the server comes up: what [initialize] and [start] leave behind *)
Lemma server_up n c bufferSize (ds d1 d2 : D) listener acts (l : L) : 0 <= n ->
  ds_initialize n bufferSize ds = (E_OK, d1) -> ds_start d1 = (E_OK, d2) ->
  exists s, server_initialize (fun _ => true) (fun _ => true) ds n c bufferSize listener false
      (MsgServer_new l) = Done (E_OK, d1, s) /\
    server_start acts s = Done (E_OK, MkMsgServer (Some d2)
      (MkMsgAssembler (Some (replicate (Z.to_nat n) (MsgStream_new (ds_byteOrder d1)))) n)
      (mux_started n c (Done (core_initial n (ds_byteOrder d1) listener l))) []).
Proof.
  intros Hn Hi Hs. unfold server_initialize. cbn [MsgServer_new sv_system mux_new sy_mux].
  rewrite mux_initialize_new by done. rewrite decide_False by (intros Hc; by apply Hc).
  rewrite Hi, decide_False by (intros Hc; by apply Hc).
  unfold asm_initialize. rewrite (proj2 (List.forallb_forall _ _)) by done.
  rewrite decide_False by (intros Hc; by apply Hc). eexists. split; [reflexivity|].
  unfold server_start, mux_start, server_dataServer. rewrite mux_started_eq by done.
  cbn. rewrite Hs. rewrite decide_False by (intros Hc; by apply Hc).
  unfold core_initial. unfold ztake. rewrite take_nil, Z.sub_0_r. done.
Qed.
End Reply.

(** ** Witnesses *)

(** a user that records the frames and the sessions it is told of *)
Inductive server_call :=
| SC_msg (connId : Z) (data : list Byte.byte)
| SC_error (rc : ErrorCode)
| SC_disconnect (session : MsgSession).

Definition record_frames : FrameListener ConnectionDetails (list server_call) := {|
  handleMsg := fun d _ data _ _ l => (E_OK, l ++ [SC_msg (cd_connId d) data]);
  handleMsgError := fun _ _ rc l => l ++ [SC_error rc];
  onRecvMsgStats := None;
|}.

Definition no_factory : MsgSessionFactory (list server_call) := {|
  createMsgSession := fun _ _ l => (None, l);
  deleteMsgSession := fun _ l => l;
|}.

Definition record_sessions : MsgSessionListener (list server_call) := {|
  onConnectSession := fun _ _ l => l;
  onDisconnectSession := fun session _ l => l ++ [SC_disconnect session];
|}.

(** a data server that records what is written *)
Record SampleServer := MkSampleServer { ps_rc : ErrorCode; ps_written : list (list Byte.byte); ps_freed : Z }.

Definition sample_server : DataServer SampleServer := {|
  ds_initialize := fun _ _ d => (E_OK, d);
  ds_terminate := fun d => (E_OK, d);
  ds_start := fun d => (E_OK, d);
  ds_stop := fun d => (E_OK, d);
  ds_byteOrder := fun _ => NETWORK_ORDER;
  ds_buffer := fun n d => (Some (replicate (Z.to_nat n) Byte.x00), d);
  ds_freed := fun d => MkSampleServer (ps_rc d) (ps_written d) (ps_freed d + 1);
  ds_replyMsg := fun _ b _ d => (ps_rc d, MkSampleServer (ps_rc d) (ps_written d ++ [b]) (ps_freed d));
|}.

#[local] Existing Instances tag_gzip record_frames no_factory record_sessions sample_server.

Definition sample_conn_at (i id : Z) : ConnectionDetails := ConnectionDetails_newNet EmptyString 0 id i.

(** two connections; the second index is used twice *)
Definition sample_events : list MsgEvent :=
  [ET_CONNECT (sample_conn_at 0 7) 0; ET_CONNECT (sample_conn_at 1 8) 0;
   ET_MSG (sample_conn_at 0 7) (small_msg 5); ET_DISCONNECT (sample_conn_at 1 8);
   ET_CONNECT (sample_conn_at 1 9) 0; ET_CONNECT (sample_conn_at 0 10) 0].

Definition sample_core : ServerCore (list server_call) :=
  match core_run sample_events (core_initial 3 NETWORK_ORDER true []) with
  | Done c => c
  | _ => core_initial 3 NETWORK_ORDER true []
  end.

Lemma sample_core_run :
  core_run sample_events (core_initial 3 NETWORK_ORDER true []) = Done sample_core.
Proof. vm_compute. reflexivity. Qed.

(** the outdated connection 8 is told apart from 9, which uses its index now *)
Lemma getSession_spec_witness : exists session,
  ss_connectionId session = 9 /\ ss_connectionIndex session = 1 /\
  getSession (sample_conn_at 1 8) sample_core = (E_SESSION_STALE, Some (Some session)).
Proof.
  apply (@getSession_spec (list server_call) tag_gzip record_frames no_factory record_sessions
    3 NETWORK_ORDER true [] sample_events sample_core (sample_conn_at 1 8));
    [lia|vm_compute; reflexivity|exact sample_core_run|vm_compute; discriminate].
Defined.

Definition sample_msg_server (rc : ErrorCode) : MsgServer SampleServer (list server_call) :=
  set_dataServer (Some (MkSampleServer rc [] 0)) (MsgServer_new []).

(** the transport refuses: the image was written once and the buffer given back *)
Lemma replyMsg_spec_witness :
  server_replyMsg (sample_conn_at 0 7) (small_msg 5) (sample_msg_server E_TRANSPORT_ERROR) =
    Done (E_TRANSPORT_ERROR, set_dataServer
      (Some (MkSampleServer E_TRANSPORT_ERROR [msg_image (small_msg 5) true] 1))
      (sample_msg_server E_TRANSPORT_ERROR)).
Proof.
  apply (@replyMsg_spec SampleServer (list server_call) sample_server (sample_conn_at 0 7) (small_msg 5)
    (sample_msg_server E_TRANSPORT_ERROR) (MkSampleServer E_TRANSPORT_ERROR [] 0)).
  - apply small_msg_good. lia.
  - reflexivity.
  - intros b [= <-]. reflexivity.
Defined.
