(* ===== verification/Sessions.v ===== *)
(** * The workers and the sessions in small steps (src/msg/msg_multiplexer.cpp msgTask,
    src/msg/msg_server.cpp onConnect, onDisconnect)

    [Multiplexer] and [Server] run a call of a worker as one step. A worker holds the
    lock of its own queue only, so two workers can be inside the listener at the same
    time, and both use the table of the sessions. Here a worker does one access of the
    table, or one call of the factory or of a listener, in a step; the workers
    interleave in every order. *)

From Stdlib Require Import ZArith Lia String.
From stdpp Require Import list.
From coqutil Require Import Byte.
From S2P Require Import Prelude Errors Io Serializable Msg Frame Connection Segmented Assembler.
From S2P Require Import Client Multiplexer Server.
Open Scope Z_scope.

(** ** Definitions *)

(** where a worker is in the handling of an event: what it does next. [PC_return] is
    the end of the call, with the message that is freed. *)
Inductive call_pc :=
| PC_connect (details : ConnectionDetails) (status : Z)
| PC_count (details : ConnectionDetails)
| PC_create (details : ConnectionDetails) (sessionId : Z)
| PC_store (details : ConnectionDetails) (session : MsgSession)
| PC_disconnect (details : ConnectionDetails)
| PC_notify (details : ConnectionDetails) (session : MsgSession)
| PC_delete (details : ConnectionDetails) (session : MsgSession)
| PC_clear (details : ConnectionDetails) (session : MsgSession)
| PC_msg (details : ConnectionDetails) (msg : Msg)
| PC_return (freed : list Msg).

(** handleEvt *)
Definition call_of (e : MsgEvent) : call_pc :=
  match e with
  | ET_CONNECT details status => PC_connect details status
  | ET_DISCONNECT details => PC_disconnect details
  | ET_MSG details msg => PC_msg details msg
  | ET_STOP _ => PC_return []
  end.

(** a worker waits for events, holds the lock of its queue and handles the event at
    the back, or has ended *)
Inductive worker := WK_wait | WK_call (pc : call_pc) | WK_done.

(** the top of the inner loop of msgTask *)
Definition next_event (evts : list MsgEvent) (done : bool) : worker :=
  match list.last evts with
  | Some e => WK_call (call_of e)
  | None => if done then WK_done else WK_wait
  end.

Section Steps.
Context {L : Type} `{Gzip} `{FrameListener ConnectionDetails L} `{MsgSessionFactory L}.
Context `{MsgSessionListener L}.
Implicit Types c : ServerCore L.

Definition call_step (alloc : bool) (pc : call_pc) c : outcome (call_pc * ServerCore L) :=
  match pc with
  | PC_connect details status =>
    if negb (status =? 0) then Done (PC_return [], c) else
    let* session := mem_get (sc_sessions c) (cd_connIndex details) in
    Done (match session with Some _ => PC_return [] | None => PC_count details end, c)
  | PC_count details =>
    Done (PC_create details (sc_nextSessionId c),
      set_nextSessionId (u64 (sc_nextSessionId c + 1)) c)
  | PC_create details sessionId =>
    let '(session, c) := createSession alloc sessionId details c in
    Done (match session with Some session => PC_store details session | None => PC_return [] end, c)
  | PC_store details session =>
    Done (PC_return [], set_sessions (zset (sc_sessions c) (cd_connIndex details) (Some session)) c)
  | PC_disconnect details =>
    let* session := mem_get (sc_sessions c) (cd_connIndex details) in
    Done (match session with Some session => PC_notify details session | None => PC_return [] end, c)
  | PC_notify details session =>
    Done (PC_delete details session,
      if sc_sessionListener c
      then set_core_user (onDisconnectSession session details (sc_user c)) c else c)
  | PC_delete details session => Done (PC_clear details session, deleteSession session c)
  | PC_clear details session =>
    Done (PC_return [], set_sessions (zset (sc_sessions c) (cd_connIndex details) None) c)
  | PC_msg details msg =>
    let* '(action, c) := core_onMsg details msg true c in
    Done (PC_return (match action with MSG_CAN_DELETE => [msg] | _ => [] end), c)
  | PC_return freed => Done (PC_return freed, c)
  end.

(** the multiplexer, its workers and what they work on; [ws_created] records the
    sessions that the factory made *)
Record WorkSystem := MkWorkSystem {
  ws_mux : MsgMultiplexer;
  ws_workers : list worker;
  ws_core : ServerCore L;
  ws_freed : list Msg;
  ws_created : list MsgSession;
}.

Implicit Types s : WorkSystem.

(** a call of an I/O thread, or one step of a worker; [alloc] tells whether a session
    can be allocated *)
Inductive work_action :=
| WA_call (a : mux_action)
| WA_step (alloc : bool) (queueId : Z).

(** a call waits while a worker holds the lock of its queue *)
Definition call_work (a : mux_action) s : outcome WorkSystem :=
  let* m := mux_call a (ws_mux s) in
  let locked := match action_event a with
    | Some e => match zget (ws_workers s) (action_queue a m e) with Some (WK_call _) => true | _ => false end
    | None => false
    end in
  Done (MkWorkSystem (if locked then ws_mux s else m) (ws_workers s) (ws_core s) (ws_freed s)
    (ws_created s)).

Definition created_at (pc : call_pc) : list MsgSession :=
  match pc with PC_store _ session => [session] | _ => [] end.

(** a step of the worker of a queue; the event stays at the back of the queue until
    it was handled *)
Definition step_worker (alloc : bool) (queueId : Z) s : outcome WorkSystem :=
  let* w := mem_get (ws_workers s) queueId in
  let* evts := mem_get (mx_msgQueues (ws_mux s)) queueId in
  match w with
  | WK_wait =>
    Done (MkWorkSystem (ws_mux s) (zset (ws_workers s) queueId (next_event evts false)) (ws_core s)
      (ws_freed s) (ws_created s))
  | WK_call (PC_return freed) =>
    let done := match list.last evts with Some e => is_stop e | None => false end in
    let evts := List.removelast evts in
    Done (MkWorkSystem (set_queues (zset (mx_msgQueues (ws_mux s)) queueId evts) (ws_mux s))
      (zset (ws_workers s) queueId (next_event evts done)) (ws_core s) (ws_freed s ++ freed)
      (ws_created s))
  | WK_call pc =>
    let* '(pc, c) := call_step alloc pc (ws_core s) in
    Done (MkWorkSystem (ws_mux s) (zset (ws_workers s) queueId (WK_call pc)) c (ws_freed s)
      (ws_created s ++ created_at pc))
  | WK_done => Done s
  end.

Definition work_step (a : work_action) s : outcome WorkSystem :=
  match a with
  | WA_call a => call_work a s
  | WA_step alloc queueId => step_worker alloc queueId s
  end.

Fixpoint work_run (acts : list work_action) s : outcome WorkSystem :=
  match acts with
  | [] => Done s
  | a :: acts => let* s := work_step a s in work_run acts s
  end.

(** a multiplexer that was just started, above a server that was just initialized *)
Definition work_started (maxConnections concurrency : Z) (byteOrder : ByteOrder) (listener : bool)
    (l : L) : WorkSystem :=
  MkWorkSystem (sy_mux (mux_started maxConnections concurrency tt))
    (replicate (Z.to_nat concurrency) WK_wait)
    (core_initial maxConnections byteOrder listener l) [] [].
End Steps.

Arguments WorkSystem L : clear implicits.

(** ** What the theorems speak of *)

(** the index of the table that a worker uses: it has read the entry and not yet
    written it back *)
Definition call_index (pc : call_pc) : option Z :=
  match pc with
  | PC_count d | PC_create d _ | PC_store d _ | PC_notify d _ | PC_delete d _ | PC_clear d _ =>
    Some (cd_connIndex d)
  | _ => None
  end.

Definition worker_index (w : worker) : option Z :=
  match w with WK_call pc => call_index pc | _ => None end.

(** no two workers use the same entry of the table *)
Definition exclusive {L} (s : WorkSystem L) : bool :=
  bool_decide (NoDup (omap worker_index (ws_workers s))).

(** no worker is inside a call *)
Definition at_rest {L} (s : WorkSystem L) : bool :=
  forallb (fun w => match w with WK_call _ => false | _ => true end) (ws_workers s).

(** ** Counting sessions *)

Definition entry (o : option MsgSession) : list MsgSession :=
  match o with Some session => [session] | None => [] end.

(** sessions that a worker made and has not stored yet *)
Definition storing (w : worker) : list MsgSession :=
  match w with WK_call (PC_store _ session) => [session] | _ => [] end.

(** sessions that a worker deleted and has not cleared from the table yet *)
Definition clearing (w : worker) : list MsgSession :=
  match w with WK_call (PC_clear _ session) => [session] | _ => [] end.

(** ids for which a worker has not made a session yet *)
Definition creating (w : worker) : list Z :=
  match w with WK_call (PC_create _ sessionId) => [sessionId] | _ => [] end.

Definition gather {A B} (f : A -> list B) (l : list A) : list B := concat (map f l).
#[local] Arguments gather : simpl never.

Abbreviation cs x l := (count_occ MsgSession_eq_dec l x).
Abbreviation cz x l := (count_occ Z.eq_dec l x).

Lemma gather_zset {A B} (f : A -> list B) l i a a' : zget l i = Some a ->
  gather f (zset l i a') ++ f a ≡ₚ gather f l ++ f a'.
Proof.
  unfold zget, zset, gather. destruct (i <? 0); [done|]. intros Ha.
  assert (Hlt := lookup_lt_Some _ _ _ Ha). rewrite insert_take_drop by done.
  rewrite <- (take_drop_middle _ _ _ Ha) at 3. rewrite !map_app, !concat_app. cbn [map concat].
  set (l1 := concat (map f (take _ _))). set (l2 := concat (map f (drop _ _))).
  rewrite (Permutation_app_comm (f a') l2), (Permutation_app_comm (f a) l2), <- !app_assoc.
  do 2 apply Permutation_app_head. apply Permutation_app_comm.
Qed.

Lemma gather_count {A} (f : A -> list MsgSession) l i a a' x : zget l i = Some a ->
  (cs x (gather f (zset l i a')) + cs x (f a) = cs x (gather f l) + cs x (f a'))%nat.
Proof. intros Ha. rewrite <- !count_occ_app. by apply Permutation_count_occ, gather_zset. Qed.

Lemma gather_count_ids {A} (f : A -> list Z) l i a a' x : zget l i = Some a ->
  (cz x (gather f (zset l i a')) + cz x (f a) = cz x (gather f l) + cz x (f a'))%nat.
Proof. intros Ha. rewrite <- !count_occ_app. by apply Permutation_count_occ, gather_zset. Qed.

Lemma gather_none {A B} (f : A -> list B) l : Forall (fun a => f a = []) l -> gather f l = [].
Proof. unfold gather. induction 1 as [|a l Ha Hl IH]; [done|]. cbn. by rewrite Ha, IH. Qed.

Lemma gather_entry ss : gather entry ss = omap id ss.
Proof. induction ss as [|[session|] ss IH]; [done|..]; unfold gather in *; cbn; by rewrite IH. Qed.

(** what a worker knows of the entry of the table that it uses *)
Definition worker_local (ss : list (option MsgSession)) (w : worker) : Prop :=
  match w with
  | WK_call (PC_count d | PC_create d _ | PC_store d _) => zget ss (cd_connIndex d) = Some None
  | WK_call (PC_notify d session | PC_delete d session | PC_clear d session) =>
    zget ss (cd_connIndex d) = Some (Some session)
  | _ => True
  end.

Lemma worker_local_other ss w i o : worker_index w <> Some i -> worker_local ss w ->
  worker_local (zset ss i o) w.
Proof.
  intros Hi. destruct w as [|[]|]; try done; cbn in *; rewrite zget_zset_ne by congruence; done.
Qed.

Lemma next_event_quiet evts done : let w := next_event evts done in
  storing w = [] /\ clearing w = [] /\ creating w = [] /\ forall ss, worker_local ss w.
Proof. unfold next_event. destruct (list.last evts) as [[]|]; [done..|]. by destruct done. Qed.

Lemma exclusive_others {L} (s : WorkSystem L) q w i q' w' : exclusive s = true ->
  zget (ws_workers s) q = Some w -> worker_index w = Some i ->
  q' <> q -> zget (ws_workers s) q' = Some w' -> worker_index w' <> Some i.
Proof.
  unfold exclusive, zget. intros Hn%bool_decide_eq_true Hw Hi Hq Hw' Hi'.
  destruct (Z.ltb_spec q 0) as [|Hq0]; [done|]. destruct (Z.ltb_spec q' 0) as [|Hq0']; [done|].
  assert (Hne : Z.to_nat q' <> Z.to_nat q) by lia. clear Hq Hq0 Hq0'. revert Hn Hw Hw' Hne.
  generalize (Z.to_nat q) as k, (Z.to_nat q') as k'. induction (ws_workers s) as [|w1 ws IH]; [done|].
  intros k k' Hn Hw Hw' Hne.
  assert (Hin : forall j v, ws !! j = Some v -> worker_index v = Some i -> i ∈ omap worker_index ws).
  { intros j v Hv Hvi. apply list_elem_of_omap. exists v. split; [|done]. by eapply list_elem_of_lookup_2. }
  destruct k as [|k], k' as [|k']; cbn in Hw, Hw'; [done|..].
  - injection Hw as ->. cbn in Hn. rewrite Hi in Hn. apply list.NoDup_cons in Hn as [Hx _].
    by eapply Hx, Hin.
  - injection Hw' as ->. cbn in Hn. rewrite Hi' in Hn. apply list.NoDup_cons in Hn as [Hx _].
    by eapply Hx, Hin.
  - apply (IH k k'); [|done..|congruence]. cbn in Hn. destruct (worker_index w1); [|done].
    by apply list.NoDup_cons in Hn as [_ Hn].
Qed.

(** ** The invariant of the workers *)

Section Invariant.
Context {L : Type} `{Gzip} `{FrameListener ConnectionDetails L} `{MsgSessionFactory L}.
Context `{MsgSessionListener L}.
Implicit Types (c : ServerCore L) (s : WorkSystem L).

(** a session that was made is stored or about to be, or deleted, and no two have the
    same id *)
Record sessions_ok c (workers : list worker) (created : list MsgSession) : Prop := {
  so_factory : sc_sessionFactory c = false;
  so_next : 0 <= sc_nextSessionId c;
  so_local q w : zget workers q = Some w -> worker_local (sc_sessions c) w;
  so_count x : (cs x (gather entry (sc_sessions c)) + cs x (sc_deleted c) + cs x (gather storing workers) =
    cs x created + cs x (gather clearing workers))%nat;
  so_ids x : (cz x (map ss_sessionId created) + cz x (gather creating workers) <=
    if decide (0 <= x < sc_nextSessionId c)%Z then 1 else 0)%nat;
}.

Definition work_ok s : Prop := sessions_ok (ws_core s) (ws_workers s) (ws_created s).

(** a worker takes a step: what it changes must balance *)
Lemma replace_ok c c' ws q w w' created created' : sessions_ok c ws created ->
  zget ws q = Some w -> sc_sessionFactory c' = false ->
  sc_nextSessionId c <= sc_nextSessionId c' ->
  (forall q' w1, q' <> q -> zget ws q' = Some w1 -> worker_local (sc_sessions c') w1) ->
  worker_local (sc_sessions c') w' ->
  (forall x, cs x (gather entry (sc_sessions c')) + cs x (sc_deleted c') + cs x (storing w') +
      cs x created + cs x (clearing w) =
    cs x (gather entry (sc_sessions c)) + cs x (sc_deleted c) + cs x (storing w) +
      cs x created' + cs x (clearing w'))%nat ->
  (forall x, cz x (map ss_sessionId created') + cz x (creating w') <=
    cz x (map ss_sessionId created) + cz x (creating w) +
      if decide (sc_nextSessionId c <= x < sc_nextSessionId c')%Z then 1 else 0)%nat ->
  sessions_ok c' (zset ws q w') created'.
Proof.
  intros [Hf Hn Hl Hc Hi] Hw Hf' Hn' Hothers Hlocal Hcount Hids. split.
  - done.
  - lia.
  - intros q' w1. destruct (decide (q = q')) as [<-|Hq].
    + rewrite zget_zset_eq by (by eapply zget_Some_range). by intros [= <-].
    + rewrite zget_zset_ne by done. intros Hw1. by apply (Hothers q').
  - intros x. pose proof (gather_count storing _ _ _ w' x Hw).
    pose proof (gather_count clearing _ _ _ w' x Hw).
    specialize (Hc x). specialize (Hcount x). lia.
  - intros x. pose proof (gather_count_ids creating _ _ _ w' x Hw).
    specialize (Hi x). specialize (Hids x).
    destruct (decide (0 <= x < sc_nextSessionId c)), (decide (sc_nextSessionId c <= x < sc_nextSessionId c')),
      (decide (0 <= x < sc_nextSessionId c')); lia.
Qed.

(** a step that leaves the core as it is, between places where nothing is held *)
Lemma quiet_ok c ws q w w' created : sessions_ok c ws created -> zget ws q = Some w ->
  storing w = [] -> clearing w = [] -> 
  storing w' = [] -> clearing w' = [] -> creating w' = [] -> worker_local (sc_sessions c) w' ->
  sessions_ok c (zset ws q w') created.
Proof.
  intros Hok Hw Hs Hc Hs' Hc' Hi' Hl. apply (replace_ok c c ws q w w' created created); try done.
  - apply (so_factory _ _ _ Hok).
  - intros q' w1 _. apply (so_local _ _ _ Hok).
  - intros x. by rewrite Hs, Hc, Hs', Hc'.
  - intros x. rewrite Hi'. cbn. lia.
Qed.

(** the user's state is no part of the invariant *)
Lemma user_sessions_ok l c ws created : sessions_ok c ws created ->
  sessions_ok (set_core_user l c) ws created.
Proof. by intros []. Qed.

Lemma entry_count i o ss o' x : zget ss i = Some o ->
  (cs x (gather entry (zset ss i o')) + cs x (entry o) = cs x (gather entry ss) + cs x (entry o'))%nat.
Proof. apply gather_count. Qed.

(** a step inside a call *)
Lemma call_step_ok alloc s q pc pc' c' : work_ok s -> exclusive s = true ->
  zget (ws_workers s) q = Some (WK_call pc) -> sc_nextSessionId (ws_core s) + 1 < 2 ^ 64 ->
  call_step alloc pc (ws_core s) = Done (pc', c') ->
  sessions_ok c' (zset (ws_workers s) q (WK_call pc')) (ws_created s ++ created_at pc') /\
  sc_nextSessionId c' <= sc_nextSessionId (ws_core s) + 1.
Proof.
  intros Hok Hex Hw Hn. unfold work_ok in Hok. pose proof (so_local _ _ _ Hok q _ Hw) as Hlocal.
  pose proof (so_next _ _ _ Hok) as Hnext. pose proof (so_factory _ _ _ Hok) as Hf.
  pose proof (fun i q' w' Hi Hq Hw' => exclusive_others s q _ i q' w' Hex Hw Hi Hq Hw') as Hothers.
  assert (Hrest : forall i o q' w1, call_index pc = Some i -> q' <> q ->
    zget (ws_workers s) q' = Some w1 -> worker_local (zset (sc_sessions (ws_core s)) i o) w1).
  { intros i o q' w1 Hi Hq Hw1. apply worker_local_other; [by eapply Hothers|].
    by eapply (so_local _ _ _ Hok). }
  destruct pc as [d status|d|d id|d session|d|d session|d session|d session|d msg|freed];
    cbn [call_step call_index worker_local] in *.
  - destruct (negb (status =? 0)).
    { intros [= <- <-]. rewrite app_nil_r. split; [by eapply quiet_ok|lia]. }
    unfold mem_get. destruct (zget (sc_sessions (ws_core s)) (cd_connIndex d)) as [o|] eqn:Hg; cbn [outcome_bind]; [|done].
    destruct o; intros [= <- <-]; (split; [|lia]); cbn [created_at]; rewrite app_nil_r;
      by eapply quiet_ok.
  - intros [= <- <-]. cbn [set_nextSessionId sc_nextSessionId created_at]. rewrite app_nil_r.
    rewrite u64_small by lia. split; [|lia].
    eapply (replace_ok (ws_core s)); [done..|cbn; lia| | | |].
    + intros q' w1 _. apply (so_local _ _ _ Hok).
    + done.
    + intros x. cbn. lia.
    + intros x. cbn. destruct (Z.eq_dec _ x), (decide _); lia.
  - unfold createSession. rewrite Hf. destruct alloc; intros [= <- <-]; cbn [created_at].
    + split; [|lia]. eapply (replace_ok (ws_core s)); [done..| | | |].
      * intros q' w1 _. apply (so_local _ _ _ Hok).
      * done.
      * intros x. rewrite count_occ_app. cbn. lia.
      * intros x. rewrite map_app, count_occ_app. cbn. destruct (Z.eq_dec id x), (decide _); lia.
    + rewrite app_nil_r. split; [by eapply quiet_ok|lia].
  - intros [= <- <-]. cbn [created_at]. rewrite app_nil_r. split; [|cbn; lia].
    eapply (replace_ok (ws_core s)); [done..| | | |]; cbn [set_sessions sc_sessions sc_deleted].
    + intros q' w1. by apply Hrest.
    + done.
    + intros x. pose proof (entry_count _ _ _ (Some session) x Hlocal). cbn in *. lia.
    + intros x. cbn. lia.
  - unfold mem_get. destruct (zget (sc_sessions (ws_core s)) (cd_connIndex d)) as [o|] eqn:Hg; cbn [outcome_bind]; [|done].
    destruct o; intros [= <- <-]; (split; [|lia]); cbn [created_at]; rewrite app_nil_r;
      by eapply quiet_ok.
  - intros [= <- <-]. cbn [created_at]. rewrite app_nil_r.
    destruct (sc_sessionListener (ws_core s)); (split; [|cbn; lia]);
      [apply user_sessions_ok|]; by eapply quiet_ok.
  - intros [= <- <-]. cbn [created_at]. rewrite app_nil_r. split; [|cbn; lia].
    eapply (replace_ok (ws_core s)); [done..| | | |]; cbn [deleteSession sc_sessions sc_deleted].
    + intros q' w1 _. apply (so_local _ _ _ Hok).
    + done.
    + intros x. rewrite count_occ_app. cbn. lia.
    + intros x. cbn. lia.
  - intros [= <- <-]. cbn [created_at]. rewrite app_nil_r. split; [|cbn; lia].
    eapply (replace_ok (ws_core s)); [done..| | | |]; cbn [set_sessions sc_sessions sc_deleted].
    + intros q' w1. by apply Hrest.
    + done.
    + intros x. pose proof (entry_count _ _ _ None x Hlocal). cbn in *. lia.
    + intros x. cbn. lia.
  - unfold core_onMsg. rewrite outcome_bind_assoc. intros ([rc l] & Hr & [= <- <-])%outcome_bind_inv.
    cbn [created_at]. rewrite app_nil_r. split; [|cbn; lia]. apply user_sessions_ok. by eapply quiet_ok.
  - intros [= <- <-]. cbn [created_at]. rewrite app_nil_r. split; [by eapply quiet_ok|lia].
Qed.

Lemma work_step_ok a s s' : work_ok s -> exclusive s = true ->
  sc_nextSessionId (ws_core s) + 1 < 2 ^ 64 -> work_step a s = Done s' ->
  work_ok s' /\ sc_nextSessionId (ws_core s') <= sc_nextSessionId (ws_core s) + 1.
Proof.
  intros Hok Hex Hn. destruct a as [a|alloc q]; cbn [work_step].
  - unfold call_work. intros (m & Hm & [= <-])%outcome_bind_inv. split; [exact Hok|cbn; lia].
  - unfold step_worker, mem_get. destruct (zget (ws_workers s) q) as [w|] eqn:Hw; cbn [outcome_bind]; [|done].
    destruct (zget (mx_msgQueues (ws_mux s)) q) as [evts|] eqn:Hq; cbn [outcome_bind]; [|done].
    destruct (next_event_quiet evts false) as (Hs1 & Hc1 & Hi1 & Hl1).
    destruct w as [|pc|]; [| |intros [= <-]; split; [done|lia]].
    + intros [= <-]. split; [|cbn; lia]. unfold work_ok. cbn. by eapply quiet_ok.
    + destruct pc as [d status|d|d id|d session|d|d session|d session|d session|d msg|freed];
        [intros ([pc' c'] & Hc & [= <-])%outcome_bind_inv; by eapply call_step_ok..|].
      intros [= <-]. split; [|cbn; lia]. unfold work_ok.
      cbn [ws_core ws_workers ws_created].
      edestruct next_event_quiet as (Hs2 & Hc2 & Hi2 & Hl2). by eapply quiet_ok.
Qed.

(** while a list of actions runs, no two workers use the same entry *)
Fixpoint exclusive_run (acts : list work_action) s : bool :=
  exclusive s &&
  match acts with
  | [] => true
  | a :: acts => match work_step a s with Done s => exclusive_run acts s | _ => true end
  end.

Lemma exclusive_now acts s : exclusive_run acts s = true -> exclusive s = true.
Proof. destruct acts; cbn; by intros [? _]%andb_prop. Qed.

Lemma work_run_ok acts : forall s s', work_ok s -> exclusive_run acts s = true ->
  sc_nextSessionId (ws_core s) + zlen acts < 2 ^ 64 -> work_run acts s = Done s' -> work_ok s'.
Proof.
  induction acts as [|a acts IH]; intros s s' Hok Hex Hn; cbn [work_run]; [by intros [= <-]|].
  rewrite zlen_cons in Hn. pose proof (zlen_nonneg acts).
  intros (s1 & Ha & Hr)%outcome_bind_inv. pose proof (exclusive_now _ _ Hex) as Hx.
  cbn [exclusive_run] in Hex. rewrite Ha in Hex. apply andb_prop in Hex as [_ Hex].
  destruct (work_step_ok a s s1 Hok Hx ltac:(lia) Ha) as [Hok1 Hn1].
  apply (IH s1); [done|done|lia|done].
Qed.

Lemma work_started_ok n conc byteOrder listener l :
  work_ok (work_started n conc byteOrder listener l).
Proof.
  assert (Hz : forall {A B} (f : A -> list B) a k, f a = [] -> gather f (replicate k a) = []).
  { intros A B f a k Ha. apply gather_none, Forall_replicate, Ha. }
  split; cbn; [done|lia| | |].
  - intros q w. unfold zget. destruct (q <? 0); [done|]. by intros [-> _]%lookup_replicate.
  - intros x. by rewrite !Hz.
  - intros x. rewrite !Hz by done. cbn. lia.
Qed.

(** ** The multiplexer under the workers *)

Record mux_shape (conc : Z) (m : MsgMultiplexer) : Prop := {
  sh_concurrency : mx_concurrency m = conc;
  sh_queues : zlen (mx_msgQueues m) = conc;
  sh_next : 0 <= mx_nextQueue m < conc;
  sh_conns : zlen (mx_connectionMap m) < 2 ^ 32;
}.

Lemma mux_call_shape conc a m m' : conc < 2 ^ 32 -> mux_shape conc m -> mux_call a m = Done m' ->
  mux_shape conc m'.
Proof.
  intros Hc [Hco Hq Hn Hm] Hcall. apply mux_call_pushes in Hcall; [|lia|lia].
  unfold call_pushes in Hcall. destruct (action_event a) as [e|] eqn:He; [|by subst].
  destruct Hcall as (evs & Hq1 & Hq2 & Hc2 & Hcase & _). split.
  - lia.
  - by rewrite Hq2, zlen_zset.
  - destruct a; try (destruct Hcase as [-> _]; lia). destruct Hcase as (_ & -> & _).
    rewrite Hco. apply Z.mod_pos_bound. lia.
  - destruct a; try (destruct Hcase as [_ ->]; done). destruct Hcase as (_ & _ & ->).
    by rewrite zlen_zset.
Qed.

Lemma work_step_shape conc a s s' : conc < 2 ^ 32 -> mux_shape conc (ws_mux s) -> work_step a s = Done s' ->
  mux_shape conc (ws_mux s').
Proof.
  intros Hc Hs. destruct a as [a|alloc q]; cbn [work_step].
  - unfold call_work. intros (m & Hm & [= <-])%outcome_bind_inv. cbn [ws_mux].
    destruct (match action_event a with Some _ => _ | None => _ end); [done|]. by eapply mux_call_shape.
  - unfold step_worker. intros (w & Hw & Hr)%outcome_bind_inv.
    apply outcome_bind_inv in Hr as (evts & Hq & Hr).
    destruct w as [|[]|]; try (injection Hr as <-; exact Hs);
      try (apply outcome_bind_inv in Hr as ([pc' c'] & _ & [= <-]); exact Hs).
    injection Hr as <-. destruct Hs as [? Hz ? ?]. split; cbn; rewrite ?zlen_zset; done.
Qed.

Lemma work_run_shape conc acts : forall s s', conc < 2 ^ 32 -> mux_shape conc (ws_mux s) ->
  work_run acts s = Done s' -> mux_shape conc (ws_mux s').
Proof.
  induction acts as [|a acts IH]; intros s s' Hc Hs; cbn [work_run]; [by intros [= <-]|].
  intros (s1 & Ha & Hr)%outcome_bind_inv. apply (IH s1); [done| |done]. by eapply work_step_shape.
Qed.

Lemma work_started_shape n conc byteOrder listener (l : L) : 0 <= n < 2 ^ 32 -> 0 < conc ->
  mux_shape conc (ws_mux (work_started n conc byteOrder listener l)).
Proof.
  intros Hn Hc. unfold work_started, mux_started. rewrite mux_initialize_new by lia.
  split; cbn; rewrite ?zlen_replicate; lia.
Qed.

(** every session is in the table or deleted when no worker is inside a call *)
Lemma rest_count s : work_ok s -> at_rest s = true ->
  omap id (sc_sessions (ws_core s)) ++ sc_deleted (ws_core s) ≡ₚ ws_created s /\
  NoDup (map ss_sessionId (ws_created s)).
Proof.
  intros Hok Hrest. unfold at_rest in Hrest. rewrite List.forallb_forall in Hrest.
  assert (Hz : forall {B} (f : worker -> list B), (forall w, f w <> [] -> exists pc, w = WK_call pc) ->
    gather f (ws_workers s) = []).
  { intros B f Hf. apply gather_none, List.Forall_forall. intros w Hw%Hrest.
    destruct (f w) eqn:Hfw; [done|]. destruct (Hf w) as [pc ->]; [by rewrite Hfw|done]. }
  split.
  - rewrite (Permutation_count_occ MsgSession_eq_dec). intros x. pose proof (so_count _ _ _ Hok x) as Hc.
    rewrite (Hz _ storing), (Hz _ clearing), gather_entry in Hc by (intros [|pc|] ?; by eauto).
    rewrite count_occ_app. cbn in Hc. lia.
  - apply (NoDup_ListNoDup), (NoDup_count_occ Z.eq_dec). intros x.
    pose proof (so_ids _ _ _ Hok x). destruct (decide _); lia.
Qed.
End Invariant.

(** ** Termination of the server *)

Section Terminate.
Context {D L : Type} `{DataServer D} `{Gzip} `{FrameListener ConnectionDetails L}.
Context `{MsgSessionFactory L} `{MsgSessionListener L}.

(** [terminate] when the multiplexer has its queues *)
Lemma server_terminate_ok conc (sv : MsgServer D L) d rc d1 c :
  sv_dataServer sv = Some d -> ds_terminate d = (rc, d1) -> mux_shape conc (sy_mux (sv_system sv)) ->
  fst (sy_user (sv_system sv)) = Done c ->
  exists sv', server_terminate sv = Done (rc, sv') /\ sv_dataServer sv' = Some d1 /\
    fst (sy_user (sv_system sv')) =
      Done (if decide (rc = E_OK) then set_sessions [] (deleteSessions (sc_sessions c) c) else c).
Proof.
  intros Hd Ht Hs Hu. unfold server_terminate, server_dataServer. rewrite Hd. cbn [outcome_bind].
  rewrite Ht. destruct (decide (rc = E_OK)) as [->|Hrc]; [|by rewrite decide_True; eauto].
  rewrite decide_False by (intros Hc; by apply Hc). cbn [set_dataServer sv_assembler].
  assert (Ha : exists a freed, asm_terminate (sv_assembler sv) = (E_OK, a, freed)).
  { unfold asm_terminate. destruct (m_msgStreams _); eauto. }
  destruct Ha as (a & freed & ->). rewrite decide_False by (intros Hc; by apply Hc).
  cbn [set_asm set_dataServer sv_system]. unfold mux_terminate.
  rewrite (sh_queues _ _ Hs), (sh_concurrency _ _ Hs), Z.ltb_irrefl. cbn [outcome_bind].
  rewrite decide_False by (intros Hc; by apply Hc).
  eexists. split; [reflexivity|]. split; [done|]. cbn. by rewrite Hu.
Qed.

(** C8. Workers that interleave in steps of one access to the table of the sessions:
    as long as no two of them are between reading and writing the same entry, the
    following holds with the default factory. When [terminate] runs after the workers
    came to rest, it returns the code of the data server. If this succeeded, the table is
    gone and the sessions that were deleted are exactly the sessions that were made, each
    once, with different ids; otherwise [terminate] leaves the sessions as they are. *)
Theorem sessions_deleted_once n conc byteOrder listener (l : L) acts s (sv : MsgServer D L) d rc d1 :
  0 <= n < 2 ^ 32 -> 0 < conc < 2 ^ 32 -> zlen acts < 2 ^ 64 ->
  work_run acts (work_started n conc byteOrder listener l) = Done s ->
  exclusive_run acts (work_started n conc byteOrder listener l) = true -> at_rest s = true ->
  sv_dataServer sv = Some d -> ds_terminate d = (rc, d1) ->
  sy_mux (sv_system sv) = ws_mux s -> fst (sy_user (sv_system sv)) = Done (ws_core s) ->
  exists sv' c', server_terminate sv = Done (rc, sv') /\ sv_dataServer sv' = Some d1 /\
    fst (sy_user (sv_system sv')) = Done c' /\
    if decide (rc = E_OK)
    then sc_sessions c' = [] /\ sc_deleted c' ≡ₚ ws_created s /\ NoDup (map ss_sessionId (ws_created s))
    else c' = ws_core s.
Proof.
  intros Hn Hc Hl Hrun Hex Hrest Hd Ht Hm Hu.
  assert (Hok : work_ok s).
  { eapply (work_run_ok acts); [apply work_started_ok|exact Hex|cbn; lia|exact Hrun]. }
  assert (Hs : mux_shape conc (ws_mux s)).
  { apply (work_run_shape conc acts (work_started n conc byteOrder listener l)); [lia| |done].
    apply work_started_shape; lia. }
  destruct (server_terminate_ok conc sv d rc d1 (ws_core s)) as (sv' & Hr & Hd' & Hu'); [done..|by rewrite Hm|done|].
  eexists sv', _. split_and!; [done..|]. destruct (decide (rc = E_OK)); [|done].
  destruct (rest_count s Hok Hrest) as [Hp Hdup]. split; [done|]. split; [|done].
  cbn [set_sessions sc_deleted]. rewrite deleteSessions_deleted by apply (so_factory _ _ _ Hok).
  by rewrite Permutation_app_comm.
Qed.
End Terminate.

(** ** Indices that are not reused *)

(** the connection of the event that a worker handles *)
Definition call_conn (pc : call_pc) : option Z :=
  match pc with
  | PC_connect d _ | PC_count d | PC_create d _ | PC_store d _ | PC_disconnect d
  | PC_notify d _ | PC_delete d _ | PC_clear d _ | PC_msg d _ => Some (cd_connIndex d)
  | PC_return _ => None
  end.

(** the indices that connect *)
Definition connects (acts : list work_action) : list Z :=
  omap (fun a => match a with
    | WA_call (MA_connect d status) => if status =? 0 then Some (cd_connIndex d) else None
    | _ => None
    end) acts.

Lemma call_index_conn pc i : call_index pc = Some i -> call_conn pc = Some i.
Proof. by destruct pc. Qed.

Lemma call_of_conn e i : call_conn (call_of e) = Some i ->
  is_stop e = false /\ cd_connIndex (evt_details e) = i.
Proof. destruct e; cbn; [by intros [= <-]..|done]. Qed.

Lemma NoDup_omap_pairwise {A B} (f : A -> option B) l :
  (forall i j a b x, l !! i = Some a -> l !! j = Some b -> f a = Some x -> f b = Some x -> i = j) ->
  NoDup (omap f l).
Proof.
  induction l as [|a l IH]; intros Hf; cbn; [constructor|].
  assert (IH' : NoDup (omap f l)).
  { apply IH. intros i j a1 b x Hi Hj Ha Hb. by apply Nat.succ_inj, (Hf (S i) (S j) a1 b x). }
  destruct (f a) as [x|] eqn:Ha; [|done]. constructor; [|done].
  intros (b & Hb & Hx)%list_elem_of_omap. apply list_elem_of_lookup in Hb as [j Hj].
  by specialize (Hf 0%nat (S j) a b x eq_refl Hj Ha Hx).
Qed.

Section Placement.
Context {L : Type} `{Gzip} `{FrameListener ConnectionDetails L} `{MsgSessionFactory L}.
Context `{MsgSessionListener L}.
Implicit Types s : WorkSystem L.

(** the events of a connection are in the queue to which its connect assigned them,
    and the worker of a queue handles the event at its back *)
Record placement (conc : Z) (acts : list work_action) s : Prop := {
  pl_shape : mux_shape conc (ws_mux s);
  pl_events q evts e : zget (mx_msgQueues (ws_mux s)) q = Some evts -> e ∈ evts -> is_stop e = false ->
    zget (mx_connectionMap (ws_mux s)) (cd_connIndex (evt_details e)) = Some q;
  pl_calls q pc i : zget (ws_workers s) q = Some (WK_call pc) -> call_conn pc = Some i ->
    exists evts e, zget (mx_msgQueues (ws_mux s)) q = Some evts /\ list.last evts = Some e /\
      is_stop e = false /\ cd_connIndex (evt_details e) = i;
  pl_fresh i q : i ∈ connects acts -> zget (mx_connectionMap (ws_mux s)) i = Some q -> conc <= q;
  pl_single : NoDup (connects acts);
}.

Lemma placement_exclusive conc acts s : placement conc acts s -> exclusive s = true.
Proof.
  intros Hp. apply bool_decide_eq_true, NoDup_omap_pairwise. intros k1 k2 w1 w2 i H1' H2' Hw1 Hw2.
  assert (Hmap : forall k w, ws_workers s !! k = Some w -> worker_index w = Some i ->
    zget (mx_connectionMap (ws_mux s)) i = Some (Z.of_nat k)).
  { intros k [|pc|] Hk Hi; [done| |done]. apply call_index_conn in Hi.
    destruct (pl_calls _ _ _ Hp (Z.of_nat k) pc i) as (evts & e & Hq & He & Hs & <-); [|done|].
    - unfold zget. rewrite (proj2 (Z.ltb_ge _ _)) by lia. by rewrite Nat2Z.id.
    - apply (pl_events _ _ _ Hp _ evts); [done| |done]. by apply list.last_Some_elem_of. }
  pose proof (Hmap k1 w1 H1' Hw1) as E1. rewrite (Hmap k2 w2 H2' Hw2) in E1. injection E1. lia.
Qed.

Lemma connects_cons a acts i : i ∈ connects acts -> i ∈ connects (a :: acts).
Proof.
  unfold connects. cbn. destruct (match a with WA_call _ => _ | _ => _ end); [|done]. by right.
Qed.

Lemma connects_NoDup_cons a acts : NoDup (connects (a :: acts)) -> NoDup (connects acts).
Proof.
  unfold connects. cbn. destruct (match a with WA_call _ => _ | _ => _ end); [|done].
  by intros [_ ?]%list.NoDup_cons.
Qed.

(** fewer actions remain *)
Lemma placement_cons conc a acts s : placement conc (a :: acts) s -> placement conc acts s.
Proof.
  intros [? ? ? Hf Hs]. split; try done; [|by eapply connects_NoDup_cons].
  intros i q Hi. by apply Hf, connects_cons.
Qed.

(** a call that pushes event [e] to queue [q] *)
Lemma placement_push conc a acts s e q evts m : placement conc (WA_call a :: acts) s ->
  action_event a = Some e -> conc < 2 ^ 32 -> mux_call a (ws_mux s) = Done m ->
  action_queue a m e = q -> zget (mx_msgQueues (ws_mux s)) q = Some evts ->
  placement conc acts (MkWorkSystem m (ws_workers s) (ws_core s) (ws_freed s) (ws_created s)).
Proof.
  intros Hp He Hc Hm Hq Hevts. pose proof (pl_shape _ _ _ Hp) as [Hco Hqs Hn Hcm].
  assert (Hshape : mux_shape conc m) by (by eapply mux_call_shape, Hm).
  pose proof (mux_call_pushes a (ws_mux s) m ltac:(lia) ltac:(lia) Hm) as Hpush. unfold call_pushes in Hpush.
  rewrite He, Hq in Hpush. destruct Hpush as (evts1 & Hq1 & Hq2 & _ & Hcase & Hplace).
  rewrite Hevts in Hq1. injection Hq1 as <-.
  assert (Hqueue : forall q1 evts1, zget (mx_msgQueues m) q1 = Some evts1 ->
    (q1 = q /\ evts1 = e :: evts) \/ (q1 <> q /\ zget (mx_msgQueues (ws_mux s)) q1 = Some evts1)).
  { intros q1 evts1. rewrite Hq2. destruct (decide (q = q1)) as [<-|].
    - rewrite zget_zset_eq by (by eapply zget_Some_range). intros [= <-]. by left.
    - rewrite zget_zset_ne by done. by right. }
  assert (Hmap : forall i q1, zget (mx_connectionMap (ws_mux s)) i = Some q1 -> 0 <= q1 < conc ->
    zget (mx_connectionMap m) i = Some q1).
  { intros i q1 Hi Hr. destruct a as [d status|d|d msg|j|j]; cbn in He; try by destruct Hcase as [_ ->].
    destruct (status =? 0) eqn:Hst; [|done]. injection He as <-. destruct Hcase as (Hd & _ & Hmap).
    cbn [evt_details] in Hplace. pose proof (zget_Some_range _ _ _ Hplace) as Hr'.
    rewrite Hmap, zlen_zset in Hr'. rewrite Hmap, u32_small by lia.
    rewrite zget_zset_ne; [done|]. intros <-.
    pose proof (pl_fresh _ _ _ Hp (cd_connIndex d) q1) as Hf. cbn in Hf. rewrite Hst in Hf.
    specialize (Hf ltac:(by left) Hi). lia. }
  split; cbn [ws_mux ws_workers].
  - done.
  - intros q1 evts1 e1 Hg Hin Hstop. destruct (Hqueue _ _ Hg) as [[-> ->]|[_ Hg']].
    + apply elem_of_cons in Hin as [->|Hin].
      * destruct a; try exact Hplace. cbn in He. by injection He as <-.
      * apply Hmap; [by eapply (pl_events _ _ _ Hp)|]. pose proof (zget_Some_range _ _ _ Hevts). lia.
    + apply Hmap; [by eapply (pl_events _ _ _ Hp)|]. pose proof (zget_Some_range _ _ _ Hg'). lia.
  - intros q1 pc i Hw Hi. destruct (pl_calls _ _ _ Hp q1 pc i Hw Hi) as (evts1 & e1 & Hg & Hl & Hrest).
    rewrite Hq2. destruct (decide (q = q1)) as [<-|].
    + rewrite zget_zset_eq by (by eapply zget_Some_range). rewrite Hevts in Hg. injection Hg as <-.
      exists (e :: evts), e1. split; [done|]. split; [|done]. by destruct evts.
    + rewrite zget_zset_ne by done. by exists evts1, e1.
  - intros i q1 Hi. pose proof (pl_fresh _ _ _ Hp i q1 (connects_cons _ _ _ Hi)) as Hf.
    destruct a as [d status|d|d msg|j|j]; cbn in He; try by destruct Hcase as [_ ->].
    destruct (status =? 0) eqn:Hst; [|done]. injection He as <-. destruct Hcase as (Hd & _ & Hmap').
    pose proof (zget_Some_range _ _ _ Hplace) as Hr'. rewrite Hmap', zlen_zset in Hr'. cbn in Hr'.
    rewrite Hmap', u32_small by lia. rewrite zget_zset_ne; [done|]. intros <-.
    pose proof (pl_single _ _ _ Hp) as Hd'. cbn in Hd'. rewrite Hst in Hd'.
    by apply list.NoDup_cons in Hd' as [? _].
  - by eapply connects_NoDup_cons, (pl_single _ _ _ Hp).
Qed.

(** a step of the worker of queue [q] that leaves its queue as it is *)
Lemma placement_worker conc acts s q w evts core freed created : placement conc acts s ->
  zget (ws_workers s) q <> None -> zget (mx_msgQueues (ws_mux s)) q = Some evts ->
  (forall pc i, w = WK_call pc -> call_conn pc = Some i ->
    exists e, list.last evts = Some e /\ is_stop e = false /\ cd_connIndex (evt_details e) = i) ->
  placement conc acts (MkWorkSystem (ws_mux s) (zset (ws_workers s) q w) core freed created).
Proof.
  intros Hp Hw Hq Hcall. destruct (zget (ws_workers s) q) as [w0|] eqn:Hw0; [|done].
  split; cbn [ws_mux ws_workers]; try apply Hp.
  intros q1 pc i. destruct (decide (q = q1)) as [<-|].
  - rewrite zget_zset_eq by (by eapply zget_Some_range). intros [= ->] Hi.
    destruct (Hcall pc i eq_refl Hi) as (e & He). by exists evts, e.
  - rewrite zget_zset_ne by done. apply (pl_calls _ _ _ Hp).
Qed.

Lemma next_event_call evts done pc i : next_event evts done = WK_call pc -> call_conn pc = Some i ->
  exists e, list.last evts = Some e /\ is_stop e = false /\ cd_connIndex (evt_details e) = i.
Proof.
  unfold next_event. destruct (list.last evts) as [e|]; [|by destruct done].
  intros [= <-] [Hs Hi]%call_of_conn. by exists e.
Qed.

Lemma call_step_conn alloc pc c pc' c' i : call_step alloc pc c = Done (pc', c') ->
  call_conn pc' = Some i -> call_conn pc = Some i.
Proof.
  destruct pc as [d status|d|d id|d session|d|d session|d session|d session|d msg|freed]; cbn [call_step].
  - destruct (negb _); [by intros [= <- <-]|]. intros ([o|] & _ & [= <- <-])%outcome_bind_inv; done.
  - by intros [= <- <-].
  - destruct (createSession alloc id d c) as [[session|] c1]; by intros [= <- <-].
  - by intros [= <- <-].
  - intros ([o|] & _ & [= <- <-])%outcome_bind_inv; done.
  - by intros [= <- <-].
  - by intros [= <- <-].
  - by intros [= <- <-].
  - by intros ([a c1] & _ & [= <- <-])%outcome_bind_inv.
  - by intros [= <- <-].
Qed.

(** the worker of queue [q] drops the event at the back *)
Lemma placement_pop conc acts s q evts done freed created core : placement conc acts s ->
  zget (ws_workers s) q <> None -> zget (mx_msgQueues (ws_mux s)) q = Some evts ->
  placement conc acts (MkWorkSystem
    (set_queues (zset (mx_msgQueues (ws_mux s)) q (List.removelast evts)) (ws_mux s))
    (zset (ws_workers s) q (next_event (List.removelast evts) done)) core freed created).
Proof.
  intros Hp Hw Hq. destruct (zget (ws_workers s) q) as [w0|] eqn:Hw0; [|done].
  pose proof (zget_Some_range _ _ _ Hq) as Hr.
  split; cbn [ws_mux ws_workers set_queues mx_connectionMap mx_msgQueues]; try apply Hp.
  - destruct (pl_shape _ _ _ Hp) as [? Hz ? ?]. split; cbn; rewrite ?zlen_zset; done.
  - intros q1 evts1 e. destruct (decide (q = q1)) as [<-|].
    + rewrite zget_zset_eq by done. intros [= <-] Hin. apply (pl_events _ _ _ Hp q evts); [done|].
      destruct evts as [|e1 evts _] using rev_ind; [done|]. rewrite List.removelast_last in Hin.
      apply elem_of_app. by left.
    + rewrite zget_zset_ne by done. apply (pl_events _ _ _ Hp).
  - intros q1 pc i. destruct (decide (q = q1)) as [<-|].
    + rewrite !zget_zset_eq by (done || by eapply zget_Some_range). intros [= Hn] Hi.
      destruct (next_event_call _ _ _ _ Hn Hi) as (e & He). by exists (List.removelast evts), e.
    + rewrite !zget_zset_ne by done. apply (pl_calls _ _ _ Hp).
Qed.

Lemma placement_step conc a acts s s' : conc < 2 ^ 32 -> placement conc (a :: acts) s ->
  work_step a s = Done s' -> placement conc acts s'.
Proof.
  intros Hc Hp. pose proof (placement_cons _ _ _ _ Hp) as Hp'. destruct a as [a|alloc q]; cbn [work_step].
  - unfold call_work. intros (m & Hm & [= <-])%outcome_bind_inv.
    destruct (action_event a) as [e|] eqn:He.
    + destruct (match zget _ _ with Some (WK_call _) => true | _ => false end); [by destruct s|].
      pose proof (pl_shape _ _ _ Hp) as [Hco Hqs Hn Hcm].
      pose proof (mux_call_pushes a (ws_mux s) m ltac:(lia) ltac:(lia) Hm) as Hpush.
      unfold call_pushes in Hpush. rewrite He in Hpush. destruct Hpush as (evts & Hq & _).
      by eapply placement_push.
    + pose proof (pl_shape _ _ _ Hp) as [Hco Hqs Hn Hcm].
      pose proof (mux_call_pushes a (ws_mux s) m ltac:(lia) ltac:(lia) Hm) as Hpush.
      unfold call_pushes in Hpush. rewrite He in Hpush. subst m. by destruct s.
  - unfold step_worker, mem_get. destruct (zget (ws_workers s) q) as [w|] eqn:Hw; cbn [outcome_bind]; [|done].
    destruct (zget (mx_msgQueues (ws_mux s)) q) as [evts|] eqn:Hq; cbn [outcome_bind]; [|done].
    assert (Hsome : zget (ws_workers s) q <> None) by (by rewrite Hw).
    destruct w as [|pc|]; [| |by intros [= <-]].
    + intros [= <-]. apply (placement_worker _ _ _ _ _ evts); [done..|]. intros pc i. apply next_event_call.
    + assert (Hstep : forall pc' c', call_step alloc pc (ws_core s) = Done (pc', c') ->
        placement conc acts (MkWorkSystem (ws_mux s) (zset (ws_workers s) q (WK_call pc')) c' (ws_freed s)
          (ws_created s ++ created_at pc'))).
      { intros pc' c' Hcall. apply (placement_worker _ _ _ _ _ evts); [done..|].
        intros pc1 i [= <-] Hi. apply (call_step_conn _ _ _ _ _ _ Hcall) in Hi.
        destruct (pl_calls _ _ _ Hp q pc i Hw Hi) as (evts1 & e & Hq1 & He). rewrite Hq in Hq1.
        injection Hq1 as <-. by exists e. }
      destruct pc as [d status|d|d id|d session|d|d session|d session|d session|d msg|freed];
        [intros ([pc' c'] & Hcall & [= <-])%outcome_bind_inv; by apply Hstep..|].
      intros [= <-]. by apply placement_pop.
Qed.

Lemma placement_run conc acts : forall s, conc < 2 ^ 32 -> placement conc acts s ->
  exclusive_run acts s = true.
Proof.
  induction acts as [|a acts IH]; intros s Hc Hp; cbn [exclusive_run];
    rewrite (placement_exclusive _ _ _ Hp); [done|]. cbn [andb].
  destruct (work_step a s) as [s1| |] eqn:Ha; [|done..]. apply IH; [done|]. by eapply placement_step.
Qed.

(** C22. When no index connects twice, no two workers are ever between reading and
    writing the same entry of the table of the sessions, in whatever order the calls of
    the I/O threads and the steps of the workers come. *)
Theorem single_connects_exclusive n conc byteOrder listener (l : L) acts :
  0 <= n < 2 ^ 32 -> 0 < conc < 2 ^ 32 -> NoDup (connects acts) ->
  exclusive_run acts (work_started n conc byteOrder listener l) = true.
Proof.
  intros Hn Hc Hd. apply (placement_run conc); [lia|]. split.
  - apply work_started_shape; lia.
  - intros q evts e. unfold work_started, mux_started. rewrite mux_initialize_new by lia. cbn.
    unfold zget at 1. destruct (q <? 0); [done|]. intros [-> _]%lookup_replicate Hin. by apply elem_of_nil in Hin.
  - intros q pc i. cbn. unfold zget at 1. destruct (q <? 0); [done|]. by intros [? _]%lookup_replicate.
  - intros i q _. unfold work_started, mux_started. rewrite mux_initialize_new by lia. cbn.
    unfold zget. destruct (i <? 0); [done|]. intros [-> _]%lookup_replicate.
    assert (u32 (-1) = 2 ^ 32 - 1) as -> by reflexivity. lia.
  - done.
Qed.
End Placement.

(** ** Whole steps *)

Section Whole.
Context {L : Type} `{Gzip} `{FrameListener ConnectionDetails L} `{MsgSessionFactory L}.
Context `{MsgSessionListener L}.
Implicit Types (c : ServerCore L) (s : WorkSystem L).

(** a call that nobody interrupts *)
Fixpoint call_run (k : nat) (alloc : bool) (pc : call_pc) c : outcome (call_pc * ServerCore L) :=
  match k with
  | O => Done (pc, c)
  | S k => let* '(pc, c) := call_step alloc pc c in call_run k alloc pc c
  end.

(** The steps of an event, one after the other, do what [Server.core_handle] does in one
    step. *)
Lemma call_alone e c : call_run 5 true (call_of e) c =
  let* c := core_handle e c in Done (PC_return (match e with ET_MSG _ msg => [msg] | _ => [] end), c).
Proof.
  destruct e as [d status|d|d msg|d]; cbn [call_of core_handle].
  - unfold core_onConnect. cbn [call_run call_step].
    destruct (negb (status =? 0)); [done|]. unfold mem_get.
    destruct (zget (sc_sessions c) (cd_connIndex d)) as [[session|]|]; [done| |done].
    cbn [outcome_bind call_step]. destruct (createSession _ _ _ _) as [[session|] c1]; done.
  - unfold core_onDisconnect. cbn [call_run call_step]. unfold mem_get.
    destruct (zget (sc_sessions c) (cd_connIndex d)) as [[session|]|]; [|done..].
    cbn [outcome_bind call_step]. by destruct (sc_sessionListener c).
  - unfold core_onMsg. cbn [call_run call_step]. unfold core_onMsg.
    by destruct (readMsgFrame _ _ _ _) as [[rc l]| |].
  - done.
Qed.

Lemma event_alone e c freed c' freed' : snd (handleEvt e (Done c, freed)) = (Done c', freed') ->
  exists fr, call_run 5 true (call_of e) c = Done (PC_return fr, c') /\ freed' = freed ++ fr.
Proof.
  intros He. pose proof (handleEvt_core e (Done c) freed) as Hc. rewrite He in Hc. cbn in Hc.
  rewrite call_alone, <- Hc. cbn [outcome_bind]. eexists. split; [reflexivity|].
  destruct e as [d status|d|d msg|d]; cbn in He; try (injection He; intros; subst; by rewrite app_nil_r).
  cbn [core_handle] in Hc. unfold core_absorb in He. cbn [outcome_bind] in He.
  destruct (core_onMsg d msg true c) as [[a c1]| |] eqn:Hm; [|done..].
  unfold core_onMsg in Hm. apply outcome_bind_inv in Hm as ([rc l] & _ & [= <- <-]).
  by injection He as _ <-.
Qed.

Lemma replicate_step k (a : work_action) s s1 : work_step a s = Done s1 ->
  work_run (replicate (S k) a) s = work_run (replicate k a) s1.
Proof. intros Ha. cbn. by rewrite Ha. Qed.

Lemma zset_same {A} (l : list A) i a : zget l i = Some a -> zset l i a = l.
Proof. unfold zget, zset. destruct (i <? 0); [done|]. apply list_insert_id. Qed.

Lemma work_run_app acts1 acts2 : forall s,
  work_run (acts1 ++ acts2) s = outcome_bind (work_run acts1 s) (work_run acts2).
Proof.
  induction acts1 as [|a acts1 IH]; intros s; [done|]. cbn [app work_run].
  rewrite outcome_bind_assoc. destruct (work_step a s); cbn [outcome_bind]; [apply IH|done|done].
Qed.

(** the worker of queue [q] alone finishes the call that it is in *)
Lemma worker_call_alone q evts fr c' : forall k pc m ws c freed created,
  zget ws q = Some (WK_call pc) -> zget (mx_msgQueues m) q = Some evts ->
  call_run k true pc c = Done (PC_return fr, c') ->
  exists j created', work_run (replicate j (WA_step true q)) (MkWorkSystem m ws c freed created) =
    Done (MkWorkSystem m (zset ws q (WK_call (PC_return fr))) c' freed created').
Proof.
  induction k as [|k IH]; intros pc m ws c freed created Hw Hq; cbn [call_run].
  - intros [= -> ->]. exists 0%nat, created. cbn. by rewrite zset_same.
  - intros ([pc1 c1] & Hstep & Hrun)%outcome_bind_inv.
    assert (Hd : (exists fr, pc = PC_return fr) \/ forall fr, pc <> PC_return fr)
      by (destruct pc; eauto; by right).
    destruct Hd as [[fr1 ->]|Hpc].
    + cbn in Hstep. injection Hstep as <- <-. by apply (IH (PC_return fr1)).
    + edestruct (IH pc1 m (zset ws q (WK_call pc1)) c1 freed (created ++ created_at pc1))
        as (j & created' & Hr); [|done|exact Hrun|].
      { apply zget_zset_eq. by eapply zget_Some_range. }
      exists (S j), created'. rewrite zset_zset in Hr. rewrite <- Hr. apply replicate_step.
      cbn [work_step]. unfold step_worker, mem_get. cbn [ws_workers ws_mux]. rewrite Hw, Hq. cbn [outcome_bind].
      destruct pc; try (cbn [ws_core]; by rewrite Hstep). by destruct (Hpc freed0).
Qed.

(** ... and goes on with the next event *)
Lemma worker_event_alone q evts e m ws c freed created c' freed' :
  zget ws q = Some (WK_call (call_of e)) -> zget (mx_msgQueues m) q = Some (evts ++ [e]) ->
  snd (handleEvt e (Done c, freed)) = (Done c', freed') ->
  exists j created', work_run (replicate j (WA_step true q)) (MkWorkSystem m ws c freed created) =
    Done (MkWorkSystem (set_queues (zset (mx_msgQueues m) q evts) m)
      (zset ws q (next_event evts (is_stop e))) c' freed' created').
Proof.
  intros Hw Hq He. destruct (event_alone _ _ _ _ _ He) as (fr & Hcall & ->).
  destruct (worker_call_alone q _ fr c' 5 (call_of e) m ws c freed created Hw Hq Hcall) as (j & created' & Hr).
  exists (j + 1)%nat, created'. rewrite replicate_add, work_run_app, Hr.
  cbn [replicate outcome_bind work_run work_step]. unfold step_worker, mem_get. cbn [ws_workers ws_mux].
  rewrite zget_zset_eq by (by eapply zget_Some_range). rewrite Hq. cbn [outcome_bind ws_core ws_freed ws_created].
  by rewrite last_snoc, List.removelast_last, zset_zset.
Qed.

(** the worker of queue [q] alone empties its queue *)
Lemma drain_alone q c' freed' : forall evts e m ws c freed created,
  zget ws q = Some (WK_call (call_of e)) -> zget (mx_msgQueues m) q = Some (evts ++ [e]) ->
  handle_all (rev (evts ++ [e])) (Done c, freed) = (Done c', freed') ->
  exists j created', work_run (replicate j (WA_step true q)) (MkWorkSystem m ws c freed created) =
    Done (MkWorkSystem (set_queues (zset (mx_msgQueues m) q []) m)
      (zset ws q (if match evts ++ [e] with e1 :: _ => is_stop e1 | [] => false end then WK_done else WK_wait))
      c' freed' created').
Proof.
  induction evts as [|e0 evts IH] using rev_ind; intros e m ws c freed created Hw Hq Hall;
    rewrite rev_app_distr in Hall; unfold handle_all in Hall; cbn [rev app fold_left] in Hall.
  - destruct (worker_event_alone q [] e m ws c freed created c' freed' Hw Hq Hall) as (j & created' & Hr).
    exists j, created'. rewrite Hr. done.
  - destruct (snd (handleEvt e (Done c, freed))) as [o freed1] eqn:He.
    pose proof (handle_all_core (rev (evts ++ [e0])) o freed1) as Hc. unfold handle_all in Hc.
    rewrite Hall in Hc. cbn [fst] in Hc. destruct o as [c1| |]; [|done..].
    destruct (worker_event_alone q (evts ++ [e0]) e m ws c freed created c1 freed1 Hw Hq He)
      as (j1 & created1 & Hr1).
    unfold next_event in Hr1. rewrite last_snoc in Hr1.
    edestruct (IH e0 (set_queues (zset (mx_msgQueues m) q (evts ++ [e0])) m)
      (zset ws q (WK_call (call_of e0))) c1 freed1 created1) as (j2 & created2 & Hr2);
      [apply zget_zset_eq; by eapply zget_Some_range|cbn; apply zget_zset_eq; by eapply zget_Some_range
      |exact Hall|].
    exists (j1 + j2)%nat, created2. rewrite replicate_add, work_run_app, Hr1. cbn [outcome_bind].
    rewrite Hr2. cbn [set_queues mx_msgQueues]. rewrite !zset_zset. by destruct evts.
Qed.

Definition has_ended (w : worker) : bool := match w with WK_done => true | _ => false end.

(** the state of the model with whole steps, and the state here *)
Record same_state (M : MuxSystem (outcome (ServerCore L))) s : Prop := {
  ss_mux : sy_mux M = ws_mux s;
  ss_done : sy_done M = map has_ended (ws_workers s);
  ss_user : sy_user M = (Done (ws_core s), ws_freed s);
  ss_rest : at_rest s = true;
}.

Lemma rest_worker s q pc : at_rest s = true -> zget (ws_workers s) q <> Some (WK_call pc).
Proof.
  unfold at_rest, zget. rewrite List.forallb_forall. intros Hr. destruct (q <? 0); [done|].
  intros Hq%list_elem_of_lookup_2%list_elem_of_In%Hr. done.
Qed.

Lemma rest_zset s q w m (core : ServerCore L) freed created : at_rest s = true -> (forall pc, w <> WK_call pc) ->
  at_rest (MkWorkSystem m (zset (ws_workers s) q w) core freed created) = true.
Proof.
  unfold at_rest, zset. cbn [ws_workers]. rewrite !List.forallb_forall. intros Hr Hw w1.
  destruct (q <? 0); [apply Hr|]. intros Hin%list_elem_of_In%list_elem_of_lookup. destruct Hin as [j Hj].
  apply list_lookup_insert_Some in Hj as [(_ & <- & _)|[_ Hj]]; [destruct w; try done; by destruct (Hw pc)|].
  apply Hr, list_elem_of_In. by eapply list_elem_of_lookup_2.
Qed.

Lemma map_zset {A B} (f : A -> B) l i a : map f (zset l i a) = zset (map f l) i (f a).
Proof. unfold zset. destruct (i <? 0); [done|]. apply list_fmap_insert. Qed.

Lemma zget_map {A B} (f : A -> B) l i : zget (map f l) i = f <$> zget l i.
Proof. unfold zget. destruct (i <? 0); [done|]. apply list_lookup_fmap. Qed.

(** the worker of queue [q] does a whole step *)
Lemma whole_work M s q M' c freed : same_state M s -> mux_step (MA_work q) M = Done M' ->
  sy_user M' = (Done c, freed) -> exists wacts s', work_run wacts s = Done s' /\ same_state M' s'.
Proof.
  intros [Hm Hd Hu Hr] (evts & d & Hq & Hdq & Hcase)%work_inv Hu'.
  destruct Hcase as [[_ ->]|(-> & Hne & ->)]; [by exists [], s|].
  destruct evts as [|e evts _] using rev_ind; [done|]. cbn [sy_user] in Hu'. rewrite Hm in Hq.
  rewrite Hd, zget_map in Hdq. destruct (zget (ws_workers s) q) as [w|] eqn:Hw; [|done].
  destruct w as [|pc|]; [|by destruct (rest_worker s q pc)|done]. destruct s as [m ws core fr cr]. cbn in *.
  rewrite Hu in Hu'.
  destruct (drain_alone q c freed evts e m (zset ws q (WK_call (call_of e))) core fr cr)
    as (j & created' & Hrun); [apply zget_zset_eq; by eapply zget_Some_range|done|done|].
  eexists (WA_step true q :: replicate j (WA_step true q)), _. split.
  - cbn [work_run work_step]. unfold step_worker, mem_get. cbn [ws_workers ws_mux]. rewrite Hw, Hq.
    cbn [outcome_bind]. unfold next_event. rewrite last_snoc. exact Hrun.
  - rewrite zset_zset. split; cbn [sy_mux sy_done sy_user ws_mux ws_workers ws_core ws_freed].
    + by rewrite Hm.
    + rewrite Hd, map_zset. f_equal. destruct (evts ++ [e]) as [|e1 l]; [done|]. by destruct (is_stop e1).
    + by rewrite Hu.
    + apply (rest_zset (MkWorkSystem m ws core fr cr)); [done|]. intros pc.
      by destruct (match evts ++ [e] with e1 :: _ => is_stop e1 | [] => false end).
Qed.

Lemma whole_step M s a M' c freed : same_state M s -> mux_step a M = Done M' ->
  sy_user M' = (Done c, freed) -> exists wacts s', work_run wacts s = Done s' /\ same_state M' s'.
Proof.
  intros Hs Ha Hu'.
  assert (Hcase : (exists q, a = MA_work q) \/ forall q, a <> MA_work q) by (destruct a; eauto; by right).
  destruct Hcase as [[q ->]|Hcall]; [by eapply whole_work|]. clear Hu'.
  destruct Hs as [Hm Hd Hu Hr]. destruct (mux_step_call _ _ _ Hcall Ha) as (m & Hmux & ->).
  exists [WA_call a], (MkWorkSystem m (ws_workers s) (ws_core s) (ws_freed s) (ws_created s)).
  split; [|by split]. cbn [work_run work_step]. unfold call_work. rewrite <- Hm, Hmux. cbn [outcome_bind].
  destruct (action_event a) as [e|]; [|done].
  destruct (zget (ws_workers s) (action_queue a m e)) as [[|pc|]|] eqn:Hw; try done.
  by destruct (rest_worker s _ pc Hr Hw).
Qed.

(** undefined behaviour stays in the user state *)
Lemma user_before a M M' c : mux_step a M = Done M' -> fst (sy_user M') = Done c ->
  exists c0, fst (sy_user M) = Done c0.
Proof.
  intros Ha Hu.
  assert (Hcase : (exists q, a = MA_work q) \/ forall q, a <> MA_work q) by (destruct a; eauto; by right).
  destruct Hcase as [[q ->]|Hcall].
  - apply work_inv in Ha as (evts & d & _ & _ & [[_ ->]|(_ & _ & ->)]); [by eexists|].
    cbn [sy_user] in Hu. destruct (sy_user M) as [o freed]. rewrite handle_all_core in Hu.
    destruct o as [c0| |]; [by eexists|done..].
  - destruct (mux_step_call _ _ _ Hcall Ha) as (m & _ & ->). by eexists.
Qed.

Lemma users_before acts : forall M M' c, mux_run acts M = Done M' -> fst (sy_user M') = Done c ->
  exists c0, fst (sy_user M) = Done c0.
Proof.
  induction acts as [|a acts IH]; intros M M' c; cbn [mux_run]; [intros [= <-]; by eexists|].
  intros (M1 & Ha & Hr)%outcome_bind_inv Hu. destruct (IH M1 M' c Hr Hu) as [c1 Hc1].
  by eapply user_before.
Qed.

Lemma whole_run acts : forall M s M' c freed, same_state M s -> mux_run acts M = Done M' ->
  sy_user M' = (Done c, freed) -> exists wacts s', work_run wacts s = Done s' /\ same_state M' s'.
Proof.
  induction acts as [|a acts IH]; intros M s M' c freed Hs; cbn [mux_run].
  - intros [= <-] _. by exists [], s.
  - intros (M1 & Ha & Hr)%outcome_bind_inv Hu.
    destruct (users_before acts M1 M' c Hr) as [c1 Hc1]; [by rewrite Hu|].
    destruct (whole_step M s a M1 c1 (snd (sy_user M1)) Hs Ha) as (w1 & s1 & Hr1 & Hs1);
      [rewrite <- Hc1; by destruct (sy_user M1)|].
    destruct (IH M1 s1 M' c freed Hs1 Hr Hu) as (w2 & s2 & Hr2 & Hs2).
    exists (w1 ++ w2), s2. rewrite work_run_app, Hr1. done.
Qed.

(** Whole steps are small steps: whatever the workers do in the model of
    [Multiplexer], where a worker empties its queue in one step, they can do in small
    steps; the queues, the workers that have ended, the core and the messages that were
    freed are the same. *)
Theorem whole_steps_interleave n conc byteOrder listener (l : L) acts M c freed :
  0 <= n -> mux_run acts (mux_started n conc (Done (core_initial n byteOrder listener l))) = Done M ->
  sy_user M = (Done c, freed) ->
  exists wacts s, work_run wacts (work_started n conc byteOrder listener l) = Done s /\
    sy_mux M = ws_mux s /\ sy_done M = map has_ended (ws_workers s) /\
    ws_core s = c /\ ws_freed s = freed /\ at_rest s = true.
Proof.
  intros Hn Hrun Hu.
  destruct (whole_run acts (mux_started n conc (Done (core_initial n byteOrder listener l)))
    (work_started n conc byteOrder listener l) M c freed) as (w & s & Hr & Hs); [|done..|].
  - rewrite mux_started_eq by done. unfold work_started. split; cbn [sy_mux sy_done sy_user ws_workers ws_core ws_freed].
    + cbn. by rewrite mux_started_eq.
    + cbn. by rewrite fmap_replicate.
    + done.
    + unfold at_rest. apply List.forallb_forall. cbn. by intros w ->%list_elem_of_In%elem_of_replicate_inv.
  - destruct Hs as [Hm Hd Hu' Hrest]. rewrite Hu in Hu'. injection Hu' as -> ->.
    exists w, s. by split_and!.
Qed.
End Whole.

(** ** An index that is reused *)

(** connection [id] disconnects while [id'] takes its index on another queue, is refused
    and disconnects too; the two workers handle the disconnects at the same time *)
Definition overlapping_disconnects (id id' : Z) : list work_action :=
  let d := conn_at 0 id in
  let d' := conn_at 0 id' in
  let work q k := replicate k (WA_step true q) in
  WA_call (MA_connect d 0) :: work 0 6%nat ++
  WA_call (MA_disconnect d) :: WA_call (MA_connect d' 0) :: work 1 3%nat ++
  WA_call (MA_disconnect d') :: work 0 2%nat ++ work 1 2%nat ++ work 0 2%nat ++ work 1 2%nat ++
  work 0 2%nat ++ work 1 2%nat.

Section Reused.
Context {L : Type} `{Gzip} `{FrameListener ConnectionDetails L} `{MsgSessionFactory L}.
Context `{MsgSessionListener L}.

(** Two workers that handle disconnects of the same index at the same time delete
    the session twice: each has read the entry before the other clears it. No more than
    one connection had a session, and the workers held only the locks of their queues. *)
Theorem overlapping_disconnects_delete_twice byteOrder listener (l : L) id id' :
  exists s, work_run (overlapping_disconnects id id') (work_started 1 2 byteOrder listener l) = Done s /\
    at_rest s = true /\ ws_created s = [MsgSession_new 0 (conn_at 0 id)] /\
    sc_deleted (ws_core s) = [MsgSession_new 0 (conn_at 0 id); MsgSession_new 0 (conn_at 0 id)].
Proof.
  exists (match work_run (overlapping_disconnects id id') (work_started 1 2 byteOrder listener l) with
          | Done s => s | _ => work_started 1 2 byteOrder listener l end).
  destruct listener; vm_compute; split_and!; reflexivity.
Qed.
End Reused.

(** ** Witnesses *)

#[local] Existing Instances tag_gzip record_frames no_factory record_sessions sample_server.

(** two workers: index 1 is used by connection 8 and, after its disconnect was handled,
    by 9, on the other queue; the steps of the workers alternate *)
Definition sample_work : list work_action :=
  let both k := concat (replicate k [WA_step true 0; WA_step true 1]) in
  [WA_call (MA_connect (conn_at 0 7) 0); WA_call (MA_connect (conn_at 1 8) 0)] ++ both 6%nat ++
  [WA_call (MA_msg (conn_at 0 7) (small_msg 5)); WA_call (MA_disconnect (conn_at 1 8))] ++ both 6%nat ++
  [WA_call (MA_connect (conn_at 1 9) 0)] ++ both 8%nat.

Definition sample_started : WorkSystem (list server_call) := work_started 3 2 NETWORK_ORDER true [].

Definition sample_worked : WorkSystem (list server_call) :=
  match work_run sample_work sample_started with Done s => s | _ => sample_started end.

Definition sample_stopped (rc : ErrorCode) : MsgServer SampleServer (list server_call) :=
  MkMsgServer (Some (MkSampleServer rc [] 0)) MsgAssembler_new
    (MkMuxSystem (ws_mux sample_worked) [] (Done (ws_core sample_worked), ws_freed sample_worked) [] []) [].

(** sessions 0 of index 0 and 1 and 2 of index 1 *)
Lemma sessions_deleted_once_witness :
  map ss_sessionId (ws_created sample_worked) = [0; 1; 2] /\
  exists sv' c', server_terminate (sample_stopped E_OK) = Done (E_OK, sv') /\
    sv_dataServer sv' = Some (MkSampleServer E_OK [] 0) /\
    fst (sy_user (sv_system sv')) = Done c' /\
    sc_sessions c' = [] /\ sc_deleted c' ≡ₚ ws_created sample_worked /\
    NoDup (map ss_sessionId (ws_created sample_worked)).
Proof.
  split; [vm_compute; reflexivity|].
  apply (@sessions_deleted_once SampleServer (list server_call) sample_server tag_gzip record_frames
    no_factory record_sessions 3 2 NETWORK_ORDER true [] sample_work sample_worked (sample_stopped E_OK)
    (MkSampleServer E_OK [] 0) E_OK (MkSampleServer E_OK [] 0));
    [lia|lia|vm_compute; reflexivity..].
Defined.

Lemma single_connects_exclusive_witness :
  exclusive_run (take 20 sample_work) sample_started = true.
Proof.
  apply (@single_connects_exclusive (list server_call) tag_gzip record_frames no_factory record_sessions
    3 2 NETWORK_ORDER true [] (take 20 sample_work)); [lia|lia|].
  apply (bool_decide_unpack _). vm_compute. exact I.
Defined.

Definition sample_whole : MuxSystem (outcome (ServerCore (list server_call))) :=
  mux_started 4 2 (Done (core_initial 4 NETWORK_ORDER true [])).

Definition sample_whole_run : MuxSystem (outcome (ServerCore (list server_call))) :=
  match mux_run sample_actions sample_whole with Done m => m | _ => sample_whole end.

Definition sample_whole_core : ServerCore (list server_call) :=
  match fst (sy_user sample_whole_run) with Done c => c | _ => core_initial 4 NETWORK_ORDER true [] end.

Lemma whole_steps_interleave_witness : exists wacts s,
  work_run wacts (work_started 4 2 NETWORK_ORDER true []) = Done s /\
  sy_mux sample_whole_run = ws_mux s /\ sy_done sample_whole_run = map has_ended (ws_workers s) /\
  ws_core s = sample_whole_core /\ ws_freed s = snd (sy_user sample_whole_run) /\ at_rest s = true.
Proof.
  apply (@whole_steps_interleave (list server_call) tag_gzip record_frames no_factory record_sessions
    4 2 NETWORK_ORDER true [] sample_actions sample_whole_run sample_whole_core);
    [lia|vm_compute; reflexivity..].
Defined.
