(* ===== verification/Service.v ===== *)
(** * The parts of a server together

    From the bytes that arrive on a connection to the events that its worker hands to
    the server: [Assembler], [Multiplexer] and [Server] under any interleaving of the
    connections and the workers. *)

From Stdlib Require Import ZArith Lia.
From stdpp Require Import list.
From coqutil Require Import Byte.
From S2P Require Import Prelude Errors Io Msg Frame Connection Segmented Assembler.
From S2P Require Import Multiplexer Server.
Open Scope Z_scope.

(** ** What the theorems speak of *)

(** the connection of an event *)
Definition event_index (e : server_event) : option Z :=
  match e with
  | SE_connect d _ | SE_bytes d _ | SE_disconnect d => Some (cd_connIndex d)
  | SE_work _ => None
  end.

(** the buffers that arrive on connection [i] *)
Definition conn_buffers (i : Z) (es : list server_event) : list BufferNode :=
  omap (fun e => match e with
    | SE_bytes d b => if cd_connIndex d =? i then Some b else None
    | _ => None
    end) es.

(** nothing but bytes arrives on the connection *)
Definition only_bytes (d : ConnectionDetails) (e : server_event) : Prop :=
  match e with
  | SE_bytes d' _ => cd_connIndex d' = cd_connIndex d -> d' = d
  | SE_connect d' _ | SE_disconnect d' => cd_connIndex d' <> cd_connIndex d
  | SE_work _ => True
  end.

(** a server that was initialized and started *)
Definition server_ready {D L} (d : D) (maxConnections concurrency : Z) (byteOrder : ByteOrder)
    (core : ServerCore L) : MsgServer D L :=
  MkMsgServer (Some d)
    (MkMsgAssembler (Some (replicate (Z.to_nat maxConnections) (MsgStream_new byteOrder))) maxConnections)
    (mux_started maxConnections concurrency (Done core)) [].

(** the assembler's stream of connection [i] *)
Definition stream_at {D L} (i : Z) (s : MsgServer D L) : option MsgStream :=
  streams ← m_msgStreams (sv_assembler s); zget streams i.

(** a stream that received [p] and did not deliver it, or one that waits for the first
    buffer after a connect *)
Definition in_step (net : bool) (B : Z) (st : MsgStream) (p : list Byte.byte) : Prop :=
  stream_inv net B st p \/
  p = [] /\ exists st0, st = stream_reset st0 /\ sis_offset (m_is st0) = 0 /\
    zlen (m_magic (m_msgHeader st0)) = 8 /\ is_isNetworkOrder (m_is st0) = net.

(** ** The assembler *)

Section Calls.
Context {U : Type} `{MsgListener U}.

(** the listener sees calls of onMsg, nothing else *)
Lemma assemble_calls env conn fuel : forall go st (u : U * list Msg) st' u',
  assemble_loop fuel env conn go st u = Done (st', u') ->
  exists ms, fst u' = fold_left (fun x m => snd (onMsg conn m true x)) ms (fst u).
Proof.
  induction fuel as [|fuel IH]; intros go st u st' u'; cbn [assemble_loop];
    (destruct (go && negb (is_empty (m_is st))); [|intros [= <- <-]; by exists []]); [done|].
  intros ([[go1 st1] u1] & Hstep & (ms & Hms)%IH)%outcome_bind_inv.
  assert (Hu : exists ms0, fst u1 = fold_left (fun x m => snd (onMsg conn m true x)) ms0 (fst u)).
  { unfold assemble_step in Hstep. destruct (m_state st).
    - apply outcome_bind_inv in Hstep as (st2 & _ & [= <- <- <-]). by exists [].
    - unfold onWaitBody in Hstep. destruct (_ <? _); [injection Hstep as <- <- <-; by exists []|].
      apply outcome_bind_inv in Hstep as ([msg|] & _ & Hstep).
      + apply outcome_bind_inv in Hstep as ([rc [msg' ist]] & _ & Hstep).
        case_decide; [|injection Hstep as <- <- <-; by exists []].
        destruct (onMsg conn msg' true (fst u)) as [action user] eqn:Hm.
        injection Hstep as <- <- <-. exists [msg']. cbn. by rewrite Hm.
      + apply outcome_bind_inv in Hstep as ([r ist] & _ & Hstep).
        case_decide; injection Hstep as <- <- <-; by exists [].
    - apply outcome_bind_inv in Hstep as (st2 & _ & [= <- <- <-]). by exists []. }
  destruct Hu as [ms0 Hu]. exists (ms0 ++ ms). by rewrite Hms, Hu, fold_left_app.
Qed.

Lemma receive_calls fuel env conn b st (u : U * list Msg) st' u' :
  stream_receive fuel env conn b st u = Done (st', u') ->
  exists ms, fst u' = fold_left (fun x m => snd (onMsg conn m true x)) ms (fst u).
Proof.
  unfold stream_receive. intros (ist & _ & Hl)%outcome_bind_inv. by apply assemble_calls in Hl.
Qed.

(** a buffer that completes the messages [ms], the first one of a connection or a
    later one *)
Lemma receive_in_step conn net B st p b ms p' fuel (u : U * list Msg) : in_step net B st p -> node_ok b ->
  0 < bn_length b <= B -> bn_length b < 2 ^ 31 -> zlen p + 2 * B < 2 ^ 32 ->
  p ++ node_bytes b = msgs_image net ms ++ p' -> Forall good_msg ms -> good_tail net p' ->
  (2 * length ms + 3 <= fuel)%nat ->
  exists st', stream_receive fuel alloc_all conn b st u =
      Done (st', fold_left (user_msg conn) ms u) /\ in_step net B st' p'.
Proof.
  intros [Hinv|(-> & st0 & -> & Hoff & Hmg & Hnet)] Hn Hl Hl31 Hsz Hsplit Hms Hp Hf.
  - destruct (receive_delivers conn net B st p b ms p' fuel u Hinv Hn Hl Hsz Hsplit Hms Hp ltac:(lia))
      as (st' & Hr & Hi). exists st'. split; [done|by left].
  - pose proof (node_bytes_length b Hn) as Hbl. cbn [app] in Hsplit.
    destruct (receive_first conn net B st0 b ms p' fuel u Hoff Hmg Hnet Hn ltac:(lia) Hl31 Hsplit Hms Hp)
      as (st' & Hr & Hi); [|lia|exists st'; split; [done|by left]].
    rewrite <- Hsplit. intros Hnil. rewrite Hnil, zlen_nil in Hbl. lia.
Qed.
End Calls.

(** ** One event of the server *)

Section System.
Context {D L : Type} `{DataServer D} `{Gzip} `{FrameListener ConnectionDetails L}.
Context `{MsgSessionFactory L} `{MsgSessionListener L}.
Implicit Types (s : MsgServer D L) (m : MuxSystem (outcome (ServerCore L))).

Lemma msgs_as_run conn ms : forall o : outcome (MuxSystem (outcome (ServerCore L))),
  fold_left (fun (x : outcome (MuxSystem (outcome (ServerCore L)))) msg => snd (onMsg conn msg true x)) ms o =
    outcome_bind o (mux_run (map (MA_msg conn) ms)).
Proof.
  induction ms as [|msg ms IH]; intros o; cbn [fold_left map]; [by destruct o|].
  rewrite IH. cbn [onMsg MuxSystem_listener negb snd]. by rewrite outcome_bind_assoc.
Qed.

Lemma user_msgs_as_run conn ms : forall (o : outcome (MuxSystem (outcome (ServerCore L)))) freed,
  fold_left (user_msg (U := outcome (MuxSystem (outcome (ServerCore L)))) conn) ms (o, freed) =
    (outcome_bind o (mux_run (map (MA_msg conn) ms)), freed).
Proof.
  induction ms as [|msg ms IH]; intros o freed; cbn [fold_left map]; [by destruct o|].
  unfold user_msg at 2. cbn [onMsg MuxSystem_listener negb fst snd]. rewrite IH.
  by rewrite outcome_bind_assoc.
Qed.

Lemma stream_at_set i j streams st n d0 m freed : 0 <= j ->
  stream_at (D := D) (L := L) i (MkMsgServer d0 (MkMsgAssembler (Some (zset streams j st)) n) m freed) =
    if i =? j then (zget streams j ≫= fun _ => Some st) else zget streams i.
Proof.
  intros Hj. cbn. destruct (Z.eqb_spec i j) as [->|Hne]; [|by apply zget_zset_ne].
  destruct (zget streams j) as [st0|] eqn:Hg; cbn.
  - apply zget_zset_eq. by apply zget_Some_range in Hg.
  - destruct (Z_lt_ge_dec j (zlen streams)) as [Hlt|Hge].
    + destruct (zget_is_Some streams j) as [? Hx]; [lia|congruence].
    + apply zget_None. rewrite zlen_zset. lia.
Qed.

(** the calls of an event on connection [i] *)
Definition no_conn (i : Z) (acts : list mux_action) : Prop :=
  List.filter (is_connect i) acts = [] /\ conn_evts i (call_events acts) = [] /\
  Forall (fun a => is_stop_action a = false) acts.

Lemma msgs_no_conn i conn ms : cd_connIndex conn <> i -> no_conn i (map (MA_msg conn) ms).
Proof.
  intros Hi. split; [by induction ms|]. split; [|by induction ms; constructor].
  apply conn_evts_none. induction ms as [|msg ms IH]; constructor; [|done].
  by apply of_conn_other.
Qed.

Lemma with_stream_inv {A} conn (f : MsgStream -> outcome (MsgStream * A)) a a' (r : A) :
  with_stream conn f a = Done (a', r) -> exists streams st st',
    m_msgStreams a = Some streams /\ zget streams (cd_connIndex conn) = Some st /\ f st = Done (st', r) /\
    a' = MkMsgAssembler (Some (zset streams (cd_connIndex conn) st')) (m_streamCount a).
Proof.
  unfold with_stream, mem_get. destruct (m_msgStreams a) as [streams|]; [|done].
  destruct (zget streams _) as [st|] eqn:Hg; cbn [outcome_bind]; [|done].
  intros ([st' r'] & Hf & [= <- <-])%outcome_bind_inv. by exists streams, st, st'.
Qed.

Lemma Done_inj {A} (a b : A) : Done a = Done b -> a = b.
Proof. by intros [= ->]. Qed.

Lemma asm_onConnect_inv {U} `{MsgListener U} conn status a (u : U) a' r :
  asm_onConnect conn status a u = Done (a', r) -> r = onConnect conn status u /\
    exists streams st, m_msgStreams a = Some streams /\ zget streams (cd_connIndex conn) = Some st /\
    a' = MkMsgAssembler (Some (zset streams (cd_connIndex conn) (stream_reset st))) (m_streamCount a).
Proof.
  unfold asm_onConnect. intros ([a1 []] & Hw & [Ha Hr]%Done_inj%pair_equal_spec)%outcome_bind_inv.
  split; [done|]. subst a1.
  apply with_stream_inv in Hw as (streams & st & st' & Hs & Hg & [= <-] & ->). by exists streams, st.
Qed.

Lemma asm_onDisconnect_inv {U} `{MsgListener U} conn a (u : U) a' r :
  asm_onDisconnect conn a u = Done (a', r) -> r = onDisconnect conn u /\
    exists streams st, m_msgStreams a = Some streams /\ zget streams (cd_connIndex conn) = Some st /\
    a' = MkMsgAssembler (Some (zset streams (cd_connIndex conn) (stream_reset st))) (m_streamCount a).
Proof.
  unfold asm_onDisconnect. intros ([a1 []] & Hw & [Ha Hr]%Done_inj%pair_equal_spec)%outcome_bind_inv.
  split; [done|]. subst a1.
  apply with_stream_inv in Hw as (streams & st & st' & Hs & Hg & [= <-] & ->). by exists streams, st.
Qed.

(** what an event of the server does: it runs the multiplexer and leaves the streams of
    the other connections alone *)
Lemma server_step_runs fuel env e s s' : server_step fuel env e s = Done s' ->
  exists acts, mux_run acts (sv_system s) = Done (sv_system s') /\
    match e with
    | SE_connect d status => acts = [MA_connect d status]
    | SE_disconnect d => acts = [MA_disconnect d]
    | SE_bytes d _ => exists ms, acts = map (MA_msg d) ms
    | SE_work q => acts = [MA_work q]
    end /\
    forall i, event_index e <> Some i -> stream_at i s' = stream_at i s.
Proof.
  destruct e as [d status|d b|d|q]; cbn [server_step event_index].
  - intros ([a [r o]] & [Ho (streams & st & Hs & Hg & ->)]%asm_onConnect_inv & Hm)%outcome_bind_inv.
    apply pair_equal_spec in Ho as [_ ->].
    apply outcome_bind_inv in Hm as (m & Hm & <-%Done_inj). exists [MA_connect d status].
    change (mux_step (MA_connect d status) (sv_system s) = Done m) in Hm. cbn [mux_run].
    rewrite Hm. split; [done|]. split; [done|]. intros i Hi. unfold stream_at at 2. rewrite Hs. cbn.
    apply zget_zset_ne. congruence.
  - unfold asm_onBytesReceived.
    intros ([a [r [o freed]]] & Ha & (m & Hm & <-%Done_inj)%outcome_bind_inv)%outcome_bind_inv.
    apply outcome_bind_inv in Ha as ([a' u] & Hw & [= <- <- ->]).
    apply with_stream_inv in Hw as (streams & st & st' & Hs & Hg & Hrec & ->).
    apply receive_calls in Hrec as (ms & Hms). cbn [fst] in Hms. rewrite msgs_as_run in Hms.
    cbn [outcome_bind] in Hms. rewrite Hm in Hms. exists (map (MA_msg d) ms).
    split; [by rewrite <- Hms|]. split; [by exists ms|]. intros i Hi. unfold stream_at at 2. rewrite Hs. cbn.
    apply zget_zset_ne. congruence.
  - intros ([a o] & [-> (streams & st & Hs & Hg & ->)]%asm_onDisconnect_inv & Hm)%outcome_bind_inv.
    apply outcome_bind_inv in Hm as (m & Hm & <-%Done_inj). exists [MA_disconnect d].
    change (mux_step (MA_disconnect d) (sv_system s) = Done m) in Hm. cbn [mux_run].
    rewrite Hm. split; [done|]. split; [done|]. intros i Hi. unfold stream_at at 2. rewrite Hs. cbn.
    apply zget_zset_ne. congruence.
  - intros (m & Hm & <-%Done_inj)%outcome_bind_inv. exists [MA_work q]. cbn [mux_run]. by rewrite Hm.
Qed.

(** a buffer of a connection whose stream is known *)
Lemma server_step_bytes fuel d b s s' st st' ms :
  stream_at (cd_connIndex d) s = Some st ->
  stream_receive fuel alloc_all d b st (Done (sv_system s), sv_freed s) =
    Done (st', fold_left (user_msg d) ms (Done (sv_system s), sv_freed s)) ->
  server_step fuel alloc_all (SE_bytes d b) s = Done s' ->
  mux_run (map (MA_msg d) ms) (sv_system s) = Done (sv_system s') /\
  stream_at (cd_connIndex d) s' = Some st'.
Proof.
  intros Hst Hrec. unfold stream_at in Hst. cbn [server_step].
  intros ([a [r [o freed]]] & Ha & (m & Hm & <-%Done_inj)%outcome_bind_inv)%outcome_bind_inv.
  apply outcome_bind_inv in Ha as ([a' u] & Hw & [-> [_ ->]%pair_equal_spec]%Done_inj%pair_equal_spec).
  apply with_stream_inv in Hw as (streams & st1 & st2 & Hs & Hg & Hf & ->).
  rewrite Hs in Hst. cbn in Hst. rewrite Hg in Hst. injection Hst as ->.
  rewrite Hrec, user_msgs_as_run in Hf. apply Done_inj, pair_equal_spec in Hf as [<- Hf].
  apply pair_equal_spec in Hf as [<- _]. split; [exact Hm|].
  cbn. apply zget_zset_eq. by apply zget_Some_range in Hg.
Qed.

Lemma stream_connect fuel env d status s s' st : stream_at (cd_connIndex d) s = Some st ->
  server_step fuel env (SE_connect d status) s = Done s' ->
  stream_at (cd_connIndex d) s' = Some (stream_reset st).
Proof.
  intros Hst. unfold stream_at in Hst. cbn [server_step].
  intros ([a [r o]] & [_ (streams & st1 & Hs & Hg & ->)]%asm_onConnect_inv &
    (m & _ & <-%Done_inj)%outcome_bind_inv)%outcome_bind_inv.
  rewrite Hs in Hst. cbn in Hst. rewrite Hg in Hst. injection Hst as ->.
  cbn. apply zget_zset_eq. by apply zget_Some_range in Hg.
Qed.

(** an event that does not concern connection [i] *)
Lemma other_event fuel env e s s' i : server_step fuel env e s = Done s' ->
  event_index e <> Some i ->
  exists acts, mux_run acts (sv_system s) = Done (sv_system s') /\ no_conn i acts /\
    stream_at i s' = stream_at i s.
Proof.
  intros (acts & Hrun & Hacts & Hst)%server_step_runs Hi. exists acts. split; [done|].
  split; [|by apply Hst].
  destruct e as [d status|d b|d|q]; cbn [event_index] in Hi.
  - subst acts. assert (Hd : cd_connIndex d <> i) by congruence. split_and!.
    + cbn. rewrite (proj2 (Z.eqb_neq _ _) Hd). by rewrite andb_false_r.
    + apply conn_evts_none. unfold call_events. cbn. destruct (status =? 0); [|constructor].
      constructor; [by apply of_conn_other|constructor].
    + by constructor.
  - destruct Hacts as [ms ->]. apply msgs_no_conn. congruence.
  - subst acts. assert (Hd : cd_connIndex d <> i) by congruence. split_and!; [done| |by constructor].
    apply conn_evts_none. constructor; [by apply of_conn_other|constructor].
  - subst acts. split_and!; [done..|by constructor].
Qed.
End System.

(** ** A connection from its first byte on *)

Section Reception.
Context {D L : Type} `{DataServer D} `{Gzip} `{FrameListener ConnectionDetails L}.
Context `{MsgSessionFactory L} `{MsgSessionListener L}.
Context (n c : Z) (core : ServerCore L) (d : ConnectionDetails) (net : bool) (B : Z).
Implicit Types (s : MsgServer D L).

(** the connection [d] is connected; its messages [ms] were passed on, its bytes [p]
    were not *)
Definition receiving s (ms : list Msg) (p : list Byte.byte) : Prop :=
  exists acts st, mux_run acts (mux_started n c (Done core)) = Done (sv_system s) /\
    (length (List.filter (is_connect (cd_connIndex d)) acts) <= 1)%nat /\
    Forall (fun a => is_stop_action a = false) acts /\
    conn_evts (cd_connIndex d) (call_events acts) = ET_CONNECT d 0 :: map (ET_MSG d) ms /\
    stream_at (cd_connIndex d) s = Some st /\ in_step net B st p.

(** the connection was never used *)
Definition unused s : Prop :=
  exists acts st, mux_run acts (mux_started n c (Done core)) = Done (sv_system s) /\
    no_conn (cd_connIndex d) acts /\ stream_at (cd_connIndex d) s = Some st /\
    sis_offset (m_is st) = 0 /\ zlen (m_magic (m_msgHeader st)) = 8 /\ is_isNetworkOrder (m_is st) = net.

Lemma call_events_app acts1 acts2 : call_events (acts1 ++ acts2) = call_events acts1 ++ call_events acts2.
Proof. apply omap_app. Qed.

Lemma receiving_other fuel e s s' ms p : server_step fuel alloc_all e s = Done s' ->
  event_index e <> Some (cd_connIndex d) -> receiving s ms p -> receiving s' ms p.
Proof.
  intros Hs Hi (acts & st & Hrun & Hc & Hns & Hev & Hst & Hin).
  destruct (other_event fuel alloc_all e s s' _ Hs Hi) as (acts' & Hrun' & (Hc' & Hev' & Hns') & Hst').
  exists (acts ++ acts'), st. rewrite mux_run_app, Hrun. cbn [outcome_bind]. split; [done|].
  rewrite List.filter_app, Hc', app_nil_r. split; [done|]. split; [by apply Forall_app|].
  rewrite call_events_app, conn_evts_app, Hev', app_nil_r. by rewrite Hst'.
Qed.

Lemma unused_other fuel e s s' : server_step fuel alloc_all e s = Done s' ->
  event_index e <> Some (cd_connIndex d) -> unused s -> unused s'.
Proof.
  intros Hs Hi (acts & st & Hrun & (Hc & Hev & Hns) & Hst & Hrest).
  destruct (other_event fuel alloc_all e s s' _ Hs Hi) as (acts' & Hrun' & (Hc' & Hev' & Hns') & Hst').
  exists (acts ++ acts'), st. rewrite mux_run_app, Hrun. cbn [outcome_bind]. split; [done|].
  split; [|by rewrite Hst']. split; [by rewrite List.filter_app, Hc, Hc'|].
  split; [by rewrite call_events_app, conn_evts_app, Hev, Hev'|by apply Forall_app].
Qed.

Lemma msgs_calls ms : conn_evts (cd_connIndex d) (call_events (map (MA_msg d) ms)) = map (ET_MSG d) ms.
Proof.
  induction ms as [|m ms IH]; [done|]. unfold conn_evts, call_events in *. cbn.
  unfold of_conn at 1. cbn. rewrite Z.eqb_refl. cbn. by f_equal.
Qed.

Lemma unused_connect fuel s s' : server_step fuel alloc_all (SE_connect d 0) s = Done s' -> unused s ->
  receiving s' [] [].
Proof.
  intros Hs (acts & st & Hrun & (Hc & Hev & Hns) & Hst & Hoff & Hmg & Hnet).
  pose proof (stream_connect fuel alloc_all d 0 s s' st Hst Hs) as Hst'.
  apply server_step_runs in Hs as (acts' & Hrun' & -> & _).
  exists (acts ++ [MA_connect d 0]), (stream_reset st). rewrite mux_run_app, Hrun. cbn [outcome_bind].
  split; [done|]. rewrite List.filter_app, Hc. cbn [app].
  split; [cbn; destruct (_ =? _); cbn; lia|]. split; [apply Forall_app; split; [done|by constructor]|].
  rewrite call_events_app, conn_evts_app, Hev. cbn [app]. split; [|split; [done|]].
  - unfold conn_evts, call_events. cbn. unfold of_conn. cbn. by rewrite Z.eqb_refl.
  - right. split; [done|]. by exists st.
Qed.

Lemma receiving_bytes fuel b s s' ms p ms1 p1 : receiving s ms p -> node_ok b ->
  0 < bn_length b <= B -> bn_length b < 2 ^ 31 -> zlen p + 2 * B < 2 ^ 32 ->
  p ++ node_bytes b = msgs_image net ms1 ++ p1 -> Forall good_msg ms1 -> good_tail net p1 ->
  (2 * length ms1 + 3 <= fuel)%nat ->
  server_step fuel alloc_all (SE_bytes d b) s = Done s' -> receiving s' (ms ++ ms1) p1.
Proof.
  intros (acts & st & Hrun & Hc & Hns & Hev & Hst & Hin) Hn Hl Hl31 Hsz Hsplit Hms Hp Hf Hs.
  destruct (receive_in_step d net B st p b ms1 p1 fuel (Done (sv_system s), sv_freed s)
    Hin Hn Hl Hl31 Hsz Hsplit Hms Hp Hf) as (st' & Hr & Hin').
  destruct (server_step_bytes fuel d b s s' st st' ms1 Hst Hr Hs) as [Hrun' Hst'].
  exists (acts ++ map (MA_msg d) ms1), st'. rewrite mux_run_app, Hrun. cbn [outcome_bind].
  split; [done|]. rewrite List.filter_app, length_app.
  assert (Hnone : List.filter (is_connect (cd_connIndex d)) (map (MA_msg d) ms1) = [])
    by (clear; by induction ms1).
  rewrite Hnone. cbn [length]. split; [lia|].
  split; [apply Forall_app; split; [done|]; clear; induction ms1; by constructor|].
  by rewrite call_events_app, conn_evts_app, Hev, msgs_calls, map_app.
Qed.

(** the buffers of a run of events *)
Definition good_buffers (es : list server_event) : Prop :=
  Forall (fun b => node_ok b /\ 0 < bn_length b <= B /\ bn_length b < 2 ^ 31)
    (conn_buffers (cd_connIndex d) es).

Lemma receiving_run fuel ms' p' es : forall s s' ms p, server_run fuel alloc_all es s = Done s' ->
  receiving s ms p -> good_tail net p -> Forall (only_bytes d) es -> good_buffers es ->
  p ++ concat (map node_bytes (conn_buffers (cd_connIndex d) es)) = msgs_image net ms' ++ p' ->
  Forall good_msg ms' -> good_tail net p' -> (2 * length ms' + 3 <= fuel)%nat ->
  (forall bs1 bs2, conn_buffers (cd_connIndex d) es = bs1 ++ bs2 ->
     clean_cut net B (p ++ concat (map node_bytes bs1))) ->
  receiving s' (ms ++ ms') p'.
Proof.
  revert ms'. induction es as [|e es IH]; intros ms' s s' ms p Hrun Hrec Hp Honly Hbs Heq Hms Hp' Hf Hcut.
  { injection Hrun as <-. cbn [conn_buffers omap list_omap map concat] in Heq. rewrite app_nil_r in Heq.
    destruct (tail_alone net ms' p p' Hp Hms Heq) as [-> ->]. by rewrite app_nil_r. }
  cbn [server_run] in Hrun. apply outcome_bind_inv in Hrun as (s1 & Hs & Hrun).
  apply Forall_cons_1 in Honly as [He Honly].
  assert (Hcase : (exists b, e = SE_bytes d b) \/
    (event_index e <> Some (cd_connIndex d) /\ forall es, conn_buffers (cd_connIndex d) (e :: es) =
      conn_buffers (cd_connIndex d) es)).
  { destruct e as [d'|d' b|d'|q]; cbn in He |- *; [right; split; [congruence|done]| |
      right; split; [congruence|done]|by right].
    destruct (Z.eqb_spec (cd_connIndex d') (cd_connIndex d)) as [Hi|Hi].
    - left. exists b. by rewrite (He Hi).
    - right. split; [congruence|done]. }
  destruct Hcase as [[b ->]|[Hne Hsame]].
  2: { unfold good_buffers in *. rewrite Hsame in *. apply (IH ms' s1 s' ms p); try done.
       by apply (receiving_other fuel e s s1). }
  assert (Hb : conn_buffers (cd_connIndex d) (SE_bytes d b :: es) = b :: conn_buffers (cd_connIndex d) es)
    by (unfold conn_buffers; cbn; by rewrite Z.eqb_refl).
  unfold good_buffers in *. rewrite Hb in *. apply Forall_cons_1 in Hbs as [(Hn & Hl & Hl31) Hbs].
  destruct (first_buffer net B p b _ ms' p' Hp Hms Hp' Heq Hcut) 
    as (ms1 & p1 & ms2 & Hs1 & -> & Heq2 & Hp1 & Hsz & Hcut2).
  apply Forall_app in Hms as [Hms1 Hms2]. rewrite length_app in Hf.
  rewrite app_assoc. apply (IH ms2 s1 s' (ms ++ ms1) p1); try done; [|lia].
  by apply (receiving_bytes fuel b s s1 ms p ms1 p1); try done; lia.
Qed.
End Reception.

Section Theorems.
Context {D L : Type} `{DataServer D} `{Gzip} `{FrameListener ConnectionDetails L}.
Context `{MsgSessionFactory L} `{MsgSessionListener L}.
Implicit Types (s : MsgServer D L).

Lemma server_run_app fuel env es1 es2 : forall s,
  server_run fuel env (es1 ++ es2) s = outcome_bind (server_run fuel env es1 s) (server_run fuel env es2).
Proof.
  induction es1 as [|e es1 IH]; intros s; [done|]. cbn [app server_run]. rewrite outcome_bind_assoc.
  destruct (server_step fuel env e s); cbn [outcome_bind]; [apply IH|done|done].
Qed.

Lemma server_run_work fuel env qs : forall s,
  server_run fuel env (map SE_work qs) s =
    let* m := mux_run (map MA_work qs) (sv_system s) in Done (set_system m s).
Proof.
  induction qs as [|q qs IH]; intros s; [by destruct s|]. cbn [map server_run server_step].
  cbn [mux_run]. rewrite !outcome_bind_assoc. destruct (mux_step (MA_work q) (sv_system s)) as [m| |]; [|done..].
  cbn [outcome_bind]. by rewrite IH.
Qed.

Lemma ready_unused n c byteOrder core d (ds : D) : 0 <= cd_connIndex d < n ->
  unused n c core d (is_isNetworkOrder (SegmentedInputStream_new byteOrder))
    (server_ready (L := L) ds n c byteOrder core).
Proof.
  intros Hd. exists [], (MsgStream_new byteOrder). split; [done|]. split; [by split_and!|].
  split; [|done]. cbn. unfold zget. rewrite (proj2 (Z.ltb_ge _ _)) by lia. apply lookup_replicate_2. lia.
Qed.

Lemma unused_run n c core d net fuel es : forall s s',
  server_run fuel alloc_all es s = Done s' -> Forall (fun e => event_index e <> Some (cd_connIndex d)) es ->
  unused (L := L) n c core d net s -> unused n c core d net s'.
Proof.
  induction es as [|e es IH]; intros s s' Hrun Hes Hun; [by apply Done_inj in Hrun as <-|].
  cbn [server_run] in Hrun. apply outcome_bind_inv in Hrun as (s1 & Hs & Hrun).
  apply Forall_cons_1 in Hes as [He Hes]. apply (IH s1); [done..|].
  by apply (unused_other n c core d net fuel e s).
Qed.

Lemma server_receives_ok n c byteOrder core (ds : D) d B es1 es2 ms p' fuel s :
  let net := is_isNetworkOrder (SegmentedInputStream_new byteOrder) in
  0 < c < 2 ^ 32 -> 0 <= n < 2 ^ 32 -> 0 <= cd_connIndex d < n ->
  Forall (fun e => event_index e <> Some (cd_connIndex d)) es1 ->
  Forall (only_bytes d) es2 -> good_buffers d B es2 ->
  concat (map node_bytes (conn_buffers (cd_connIndex d) es2)) = msgs_image net ms ++ p' ->
  Forall good_msg ms -> good_tail net p' -> (2 * length ms + 3 <= fuel)%nat ->
  (forall bs1 bs2, conn_buffers (cd_connIndex d) es2 = bs1 ++ bs2 ->
     clean_cut net B (concat (map node_bytes bs1))) ->
  server_run fuel alloc_all (es1 ++ SE_connect d 0 :: es2) (server_ready (L := L) ds n c byteOrder core) = Done s ->
  conn_evts (cd_connIndex d) (map snd (sy_handled (sv_system s))) ++
    conn_evts (cd_connIndex d) (pending_evts (sy_mux (sv_system s))) = ET_CONNECT d 0 :: map (ET_MSG d) ms /\
  exists s', server_run fuel alloc_all (map SE_work (seqZ 0 c)) s = Done s' /\
    conn_evts (cd_connIndex d) (map snd (sy_handled (sv_system s'))) = ET_CONNECT d 0 :: map (ET_MSG d) ms /\
    fst (sy_user (sv_system s')) = core_run (map snd (sy_handled (sv_system s'))) core.
Proof.
  intros net Hc Hn Hd Hes1 Hes2 Hbs Heq Hms Hp Hf Hcut Hrun.
  rewrite server_run_app in Hrun. apply outcome_bind_inv in Hrun as (s1 & Hrun1 & Hrun).
  pose proof (unused_run n c core d net fuel es1 _ s1 Hrun1 Hes1 (ready_unused n c byteOrder core d ds Hd)) as Hun.
  cbn [server_run] in Hrun. apply outcome_bind_inv in Hrun as (s2 & Hs2 & Hrun).
  pose proof (unused_connect n c core d net B fuel s1 s2 Hs2 Hun) as Hrec.
  destruct (receiving_run n c core d net B fuel ms p' es2 s2 s [] [] Hrun Hrec ltac:(by left)
    Hes2 Hbs Heq Hms Hp Hf Hcut) as (acts & st & Hacts & Hone & Hns & Hev & _).
  destruct (started_run n c (Done core) acts _ Hc Hn Hacts) as (Hok & Hpu & Hpl & _). split.
  - rewrite (in_order_ok (cd_connIndex d) c (Done core) _ ltac:(lia) Hok (Hpl _ Hone)). by rewrite Hpu.
  - destruct (all_handled n c (Done core) acts _ Hc Hn Hacts Hns) as (m & Hw & Hokm & _ & Hall).
    exists (set_system m s). rewrite server_run_work. unfold all_work in Hw. rewrite Hw.
    split; [done|]. cbn [set_system sv_system]. split; [by rewrite Hall|].
    rewrite (mo_user _ _ _ Hokm), handle_all_core. done.
Qed.

(** C4. From bytes to events, under any interleaving of the connections and the worker
    threads: a connection's messages, which have a payload, however they are cut into buffers (without leaving
    a part of a header behind), are handed to the server in order, each once, after its
    connect event; those that were not handled yet are when the workers catch up. The
    state of the server is the result of the events that were handled. *)
Theorem server_receives n c byteOrder core (ds : D) d B es1 es2 ms p' fuel s :
  let net := is_isNetworkOrder (SegmentedInputStream_new byteOrder) in
  0 < c < 2 ^ 32 -> 0 <= n < 2 ^ 32 -> 0 <= cd_connIndex d < n ->
  Forall (fun e => event_index e <> Some (cd_connIndex d)) es1 ->
  Forall (only_bytes d) es2 -> good_buffers d B es2 ->
  concat (map node_bytes (conn_buffers (cd_connIndex d) es2)) = msgs_image net ms ++ p' ->
  Forall good_msg ms -> good_tail net p' -> (2 * length ms + 3 <= fuel)%nat ->
  (forall bs1 bs2, conn_buffers (cd_connIndex d) es2 = bs1 ++ bs2 ->
     clean_cut net B (concat (map node_bytes bs1))) ->
  server_run fuel alloc_all (es1 ++ SE_connect d 0 :: es2) (server_ready (L := L) ds n c byteOrder core) = Done s ->
  conn_evts (cd_connIndex d) (map snd (sy_handled (sv_system s))) ++
    conn_evts (cd_connIndex d) (pending_evts (sy_mux (sv_system s))) = ET_CONNECT d 0 :: map (ET_MSG d) ms /\
  exists s', server_run fuel alloc_all (map SE_work (seqZ 0 c)) s = Done s' /\
    conn_evts (cd_connIndex d) (map snd (sy_handled (sv_system s'))) = ET_CONNECT d 0 :: map (ET_MSG d) ms /\
    fst (sy_user (sv_system s')) = core_run (map snd (sy_handled (sv_system s'))) core.
Proof. apply server_receives_ok. Qed.

(** ** A connection that is used again *)

(** the call of an event that carries no bytes *)
Definition event_action (e : server_event) : mux_action :=
  match e with
  | SE_connect d status => MA_connect d status
  | SE_disconnect d => MA_disconnect d
  | SE_bytes d _ => MA_work 0
  | SE_work q => MA_work q
  end.

Definition no_bytes (n : Z) (e : server_event) : Prop :=
  match e with
  | SE_connect d _ | SE_disconnect d => 0 <= cd_connIndex d < n
  | SE_bytes _ _ => False
  | SE_work _ => True
  end.

Lemma event_step fuel env n e s streams m : m_msgStreams (sv_assembler s) = Some streams ->
  zlen streams = n -> no_bytes n e -> mux_step (event_action e) (sv_system s) = Done m ->
  exists s' streams', server_step fuel env e s = Done s' /\ sv_system s' = m /\
    m_msgStreams (sv_assembler s') = Some streams' /\ zlen streams' = n.
Proof.
  intros Hst Hl He Hm. destruct e as [d status|d b|d|q]; [|done| |]; cbn [event_action no_bytes] in *.
  - rewrite <- Hl in He. destruct (zget_is_Some streams _ He) as [st Hg]. cbn [server_step].
    unfold asm_onConnect, with_stream. rewrite Hst, (mem_get_ok _ _ _ Hg). cbn [outcome_bind].
    change (onConnect d status (Done (sv_system s))) with
      (true, outcome_bind (Done (sv_system s)) (mux_step (MA_connect d status))).
    cbn [outcome_bind]. rewrite Hm. cbn [outcome_bind]. eexists _, _. split; [done|]. split; [done|].
    split; [done|]. by rewrite zlen_zset.
  - rewrite <- Hl in He. destruct (zget_is_Some streams _ He) as [st Hg]. cbn [server_step].
    unfold asm_onDisconnect, with_stream. rewrite Hst, (mem_get_ok _ _ _ Hg). cbn [outcome_bind].
    change (onDisconnect d (Done (sv_system s))) with
      (outcome_bind (Done (sv_system s)) (mux_step (MA_disconnect d))).
    cbn [outcome_bind]. rewrite Hm. cbn [outcome_bind]. eexists _, _. split; [done|]. split; [done|].
    split; [done|]. by rewrite zlen_zset.
  - cbn [server_step]. rewrite Hm. by exists (set_system m s), streams.
Qed.

Lemma event_run fuel env n es : forall s streams m, m_msgStreams (sv_assembler s) = Some streams ->
  zlen streams = n -> Forall (no_bytes n) es ->
  mux_run (map event_action es) (sv_system s) = Done m ->
  exists s', server_run fuel env es s = Done s' /\ sv_system s' = m.
Proof.
  induction es as [|e es IH]; intros s streams m Hst Hl Hes Hm.
  { apply Done_inj in Hm as <-. by exists s. }
  apply Forall_cons_1 in Hes as [He Hes]. cbn [map mux_run] in Hm.
  apply outcome_bind_inv in Hm as (m1 & Hm1 & Hm).
  destruct (event_step fuel env n e s streams m1 Hst Hl He Hm1) as (s1 & streams1 & Hs1 & <- & Hst1 & Hl1).
  cbn [server_run]. rewrite Hs1. cbn [outcome_bind]. by apply (IH s1 streams1).
Qed.

(** A client that connects again at once may end up without a session: the multiplexer
    moves the index to another worker, whose connect event the server refuses because
    the old session is still there; then the old worker deletes that session. The new
    connection stays open, nobody told it. *)
Theorem reconnect_loses_session n c byteOrder listener (ds : D) (l : L) d d' fuel env :
  2 <= c < 2 ^ 32 -> n < 2 ^ 32 -> 0 <= cd_connIndex d < n -> cd_connIndex d' = cd_connIndex d ->
  exists s core, server_run fuel env
      [SE_connect d 0; SE_work 0; SE_disconnect d; SE_connect d' 0; SE_work 1; SE_work 0]
      (server_ready ds n c byteOrder (core_initial n byteOrder listener l)) = Done s /\
    fst (sy_user (sv_system s)) = Done core /\
    getSession d' core = (E_SESSION_NOT_FOUND, Some None) /\
    sc_deleted core = [MsgSession_new 0 d].
Proof.
  intros Hc Hn Hi Hi'. set (core := core_initial n byteOrder listener l).
  destruct (reconnect_overtakes n c (Done core) d d' Hc Hn Hi Hi') as (m & Hm & Hh & Hu).
  destruct (event_run fuel env n
    [SE_connect d 0; SE_work 0; SE_disconnect d; SE_connect d' 0; SE_work 1; SE_work 0]
    (server_ready ds n c byteOrder core) (replicate (Z.to_nat n) (MsgStream_new byteOrder)) m)
    as (s & Hs & Hsys); [done|rewrite zlen_replicate; lia| |exact Hm|].
  { rewrite !list.Forall_cons. cbn [no_bytes]. rewrite Hi'. split_and!; done || apply Hi. }
  destruct (overtaken_core n byteOrder listener l d d' Hi Hi') as (core' & Hcore & Hget & Hdel).
  exists s, core'. rewrite Hsys, Hu, handle_all_core, Hh. fold core in Hcore. exact (conj Hs (conj Hcore (conj Hget Hdel))).
Qed.
End Theorems.

(** ** Witnesses *)

#[local] Existing Instances tag_gzip record_frames no_factory record_sessions sample_server.

(** another connection and the workers run in between *)
Definition sample_es1 : list server_event := [SE_connect (sample_conn_at 1 8) 0; SE_work 0].

Definition sample_es2 : list server_event :=
  [SE_bytes (sample_conn_at 0 7) (sample_node 1 (msg_image (small_msg 5) true));
   SE_work 1;
   SE_bytes (sample_conn_at 1 8) (sample_node 4 (msg_image (small_msg 9) true));
   SE_bytes (sample_conn_at 0 7) (sample_node 2 (ztake 41 (msg_image (small_msg 6) true)));
   SE_work 0;
   SE_bytes (sample_conn_at 0 7) (sample_node 3 (zdrop 41 (msg_image (small_msg 6) true) ++
     ztake 41 (msg_image (small_msg 7) true)))].

Definition sample_ready : MsgServer SampleServer (list server_call) :=
  server_ready (MkSampleServer E_OK [] 0) 3 2 NETWORK_ORDER (core_initial 3 NETWORK_ORDER true []).

Definition sample_service : MsgServer SampleServer (list server_call) :=
  match server_run 9 alloc_all (sample_es1 ++ SE_connect (sample_conn_at 0 7) 0 :: sample_es2) sample_ready with
  | Done s => s
  | _ => sample_ready
  end.

Lemma server_receives_witness :
  conn_evts 0 (map snd (sy_handled (sv_system sample_service))) ++
    conn_evts 0 (pending_evts (sy_mux (sv_system sample_service))) =
    ET_CONNECT (sample_conn_at 0 7) 0 :: map (ET_MSG (sample_conn_at 0 7)) [small_msg 5; small_msg 6] /\
  exists s', server_run 9 alloc_all (map SE_work (seqZ 0 2)) sample_service = Done s' /\
    conn_evts 0 (map snd (sy_handled (sv_system s'))) =
      ET_CONNECT (sample_conn_at 0 7) 0 :: map (ET_MSG (sample_conn_at 0 7)) [small_msg 5; small_msg 6] /\
    fst (sy_user (sv_system s')) =
      core_run (map snd (sy_handled (sv_system s'))) (core_initial 3 NETWORK_ORDER true []).
Proof.
  apply (@server_receives SampleServer (list server_call) tag_gzip record_frames no_factory
    record_sessions 3 2 NETWORK_ORDER (core_initial 3 NETWORK_ORDER true []) (MkSampleServer E_OK [] 0)
    (sample_conn_at 0 7) 100 sample_es1 sample_es2 [small_msg 5; small_msg 6]
    (ztake 41 (msg_image (small_msg 7) true)) 9 sample_service).
  - lia.
  - lia.
  - vm_compute. split; [discriminate|reflexivity].
  - repeat constructor; discriminate.
  - repeat constructor; discriminate.
  - repeat constructor; vm_compute; congruence.
  - reflexivity.
  - repeat constructor; apply small_msg_good; lia.
  - apply sample_tail.
  - cbn. lia.
  - apply sample_cuts.
  - vm_compute. reflexivity.
Defined.

Lemma reconnect_loses_session_witness : exists s core, server_run 0 alloc_all
    [SE_connect (sample_conn_at 0 7) 0; SE_work 0; SE_disconnect (sample_conn_at 0 7);
     SE_connect (sample_conn_at 0 9) 0; SE_work 1; SE_work 0] sample_ready = Done s /\
  fst (sy_user (sv_system s)) = Done core /\
  getSession (sample_conn_at 0 9) core = (E_SESSION_NOT_FOUND, Some None) /\
  sc_deleted core = [MsgSession_new 0 (sample_conn_at 0 7)].
Proof.
  apply (@reconnect_loses_session SampleServer (list server_call) tag_gzip record_frames
    no_factory record_sessions 3 2 NETWORK_ORDER true (MkSampleServer E_OK [] 0) []
    (sample_conn_at 0 7) (sample_conn_at 0 9) 0 alloc_all);
    [lia|lia|vm_compute; split; [discriminate|reflexivity]|reflexivity].
Defined.
