(* ===== verification/EndToEnd.v ===== *)
(** * From the client to the server

    The message client of the file Client writes to a wire, the server of the file Service
    reads from it. *)

From Stdlib Require Import ZArith Lia.
From stdpp Require Import gmap.
From coqutil Require Import Byte.
From S2P Require Import Prelude Errors StrSearch Io Serializable Segmented Msg Frame Connection Assembler.
From S2P Require Import RequestPool Client Multiplexer Server Service.
Open Scope Z_scope.

(** ** Definitions *)

(** what a data client promises about its writes: while it is in a good state an accepted
    buffer follows the ones before it on the wire. (The file ClientStack shows it of the
    clients over libuv.) *)
Class Wire (D : Type) `{DataClient D} := {
  wire_ok : D -> Prop;
  wire : D -> list Byte.byte;
  wire_write bytes flags ud d d' : wire_ok d -> dc_write bytes flags ud d = (E_OK, d') ->
    wire_ok d' /\ wire d' = wire d ++ bytes /\ dc_byteOrder d' = dc_byteOrder d;
}.

Section Sender.
Context {D U : Type} `{Wire D} `{MsgListener U} `{MsgRequestListener U}.
Implicit Types c : MsgClient D U.

(** a program that sends messages one after the other, until one is refused *)
Fixpoint client_sends (alloc : Z -> option (list Byte.byte)) (now flags : Z) (msgs : list Z) c
  : outcome (bool * MsgClient D U) :=
  match msgs with
  | [] => Done (true, c)
  | msg :: msgs =>
    let* '(rc, _, c) := client_sendMsg alloc now msg flags c in
    if decide (rc = E_OK) then client_sends alloc now flags msgs c else Done (false, c)
  end.

(** consecutive request ids *)
Fixpoint request_ids (id : Z) (n : nat) : list Z :=
  match n with
  | O => []
  | S n => id :: request_ids (u64 (id + 1)) n
  end.

(** a message as it was sent: the client wrote its request into the header *)
Definition sent_as (c : MsgClient D U) (msg : Z) (m' : Msg) : Prop :=
  exists m i, mc_heap c !! msg = Some m /\
    m' = set_header (setRequestId (m_requestId (msg_header m')) (setRequestIndex i (msg_header m))) m.

Lemma good_renumbered m id i : good_msg m -> 0 <= id < 2 ^ 64 -> 0 <= i < 2 ^ 32 ->
  good_msg (set_header (setRequestId id (setRequestIndex i (msg_header m))) m).
Proof. intros (Hm & Hv & Hp) Hid Hi. split; [by apply msg_ok_request|]. by split. Qed.

Lemma send_one alloc now msg flags c m d rd c' :
  let p := mc_requestPool c in
  pool_ok p -> 0 <= p_nextRequestId p < 2 ^ 64 -> mc_heap c !! msg = Some m -> good_msg m ->
  mc_dataClient c = Some d -> wire_ok d -> Z.land flags COMMUTIL_REQUEST_FLAG_REUSE = 0 ->
  (forall n, 0 <= n -> exists buffer, alloc n = Some buffer /\ zlen buffer = n) ->
  client_sendMsg alloc now msg flags c = Done (E_OK, rd, c') ->
  exists i d', let m' := set_header (setRequestId (p_nextRequestId p) (setRequestIndex i (msg_header m))) m in
    good_msg m' /\ mc_heap c' = <[msg := m']> (mc_heap c) /\ mc_dataClient c' = Some d' /\
    wire_ok d' /\ wire d' = wire d ++ sent_bytes d m' /\ dc_byteOrder d' = dc_byteOrder d /\
    pool_ok (mc_requestPool c') /\ p_nextRequestId (mc_requestPool c') = u64 (p_nextRequestId p + 1).
Proof.
  cbn zeta. intros Hok Hid Hm Hg Hd Hwok Hf Ha Hrun. pose proof Hg as ((Hh & _) & _).
  destruct (client_sendMsg_spec alloc now msg flags c m d Hok Hid Hm ltac:(apply Hg) Hd Hf)
    as [(i & c1 & Hs)|(c1 & Hs & _)]; [apply Ha; by destruct (hok_length _ Hh)| |by rewrite Hrun in Hs].
  cbn zeta in Hs. destruct (dc_write _ _ _ _) as [rc d'] eqn:Hw.
  destruct Hs as (Hs & Hv & _ & Hsame & _ & Hheap & Hd' & Hnext). rewrite Hrun in Hs. injection Hs as <- _ <-.
  apply wire_write in Hw as (Hwok' & Hw & Ho); [|done]. exists i, d'. split.
  - apply good_renumbered; [done..|]. destruct Hv as (r & Hr & _). apply zget_Some_range in Hr. unfold pool_ok in Hok. lia.
  - split; [done|]. split; [done|]. split; [done|]. split; [done|]. split; [done|]. split; [|done].
    destruct Hsame as [Hl _]. unfold pool_ok. by rewrite Hl.
Qed.

(** the messages as they are in the heap at the end, their bytes on the wire *)
Lemma sends_ok alloc now flags : Z.land flags COMMUTIL_REQUEST_FLAG_REUSE = 0 ->
  (forall n, 0 <= n -> exists buffer, alloc n = Some buffer /\ zlen buffer = n) ->
  forall msgs c d c', pool_ok (mc_requestPool c) -> 0 <= p_nextRequestId (mc_requestPool c) < 2 ^ 64 ->
  mc_dataClient c = Some d -> wire_ok d -> NoDup msgs ->
  Forall (fun a => exists m, mc_heap c !! a = Some m /\ good_msg m) msgs ->
  client_sends alloc now flags msgs c = Done (true, c') ->
  exists d' ms, mc_dataClient c' = Some d' /\ wire_ok d' /\
    wire d' = wire d ++ msgs_image (bool_decide (dc_byteOrder d = NETWORK_ORDER)) ms /\ Forall good_msg ms /\
    Forall2 (fun a m => mc_heap c' !! a = Some m) msgs ms /\ Forall2 (sent_as c) msgs ms /\
    map (fun m => m_requestId (msg_header m)) ms = request_ids (p_nextRequestId (mc_requestPool c)) (length msgs) /\
    (forall a, a ∉ msgs -> mc_heap c' !! a = mc_heap c !! a).
Proof.
  intros Hf Ha msgs. induction msgs as [|msg msgs IH]; intros c d c' Hok Hid Hd Hwok Hnd Hms Hrun.
  { injection Hrun as <-. exists d, []. rewrite app_nil_r. by repeat split. }
  cbn [client_sends] in Hrun. apply outcome_bind_inv in Hrun as ([[rc rd] c1] & Hs & Hrun).
  destruct (decide (rc = E_OK)) as [->|]; [|done]. apply list.NoDup_cons in Hnd as [Hmsg Hnd].
  apply Forall_cons_1 in Hms as [(m & Hm & Hg) Hms].
  destruct (send_one alloc now msg flags c m d rd c1 Hok Hid Hm Hg Hd Hwok Hf Ha Hs)
    as (i & d1 & Hg1 & Hh1 & Hd1 & Hwok1 & Hw1 & Ho1 & Hok1 & Hn1).
  set (m1 := set_header _ _) in *.
  assert (Hother : forall a, a <> msg -> mc_heap c1 !! a = mc_heap c !! a) by (intros a Hne; rewrite Hh1; by rewrite lookup_insert_ne).
  assert (Hin : forall a, a ∈ msgs -> a <> msg) by (intros a Hx ->; done).
  destruct (IH c1 d1 c' Hok1) as (d' & ms & Hd' & Hwok' & Hw' & Hgs & Hheap & Has & Hids & Hout); try done.
  { rewrite Hn1. apply u64_range. }
  { apply List.Forall_forall. intros a Hx. rewrite List.Forall_forall in Hms. destruct (Hms a Hx) as (m0 & Hm0 & Hg0).
    exists m0. split; [|done]. rewrite Hother; [done|]. by apply Hin, list_elem_of_In. }
  exists d', (m1 :: ms). split; [done|]. split; [done|]. split.
  { rewrite Hw', Hw1, Ho1, msgs_image_cons, <- app_assoc. done. }
  split; [by constructor|]. split; [|split; [|split]].
  - constructor; [|done]. rewrite Hout by done. rewrite Hh1. apply lookup_insert_eq.
  - constructor; [by exists m, i|]. apply Forall2_same_length_lookup_2; [by eapply Forall2_length|].
    intros k a m0 Hka Hkm. destruct (Forall2_lookup_lr _ _ _ _ _ _ Has Hka Hkm) as (m2 & j & Hm2 & He).
    exists m2, j. split; [|done]. rewrite <- Hother; [done|]. by apply Hin, list_elem_of_lookup_2 with k.
  - cbn [map length request_ids]. f_equal. by rewrite Hids, Hn1.
  - intros a [Hx1 Hx2]%not_elem_of_cons. rewrite Hout by done. by apply Hother.
Qed.
End Sender.

(** ** From the calls of the client to the events of the server *)

Section System.
Context {DC U DS L : Type} `{Wire DC} `{MsgListener U} `{MsgRequestListener U}.
Context `{DataServer DS} `{Gzip} `{FrameListener ConnectionDetails L} `{MsgSessionFactory L} `{MsgSessionListener L}.

Lemma client_messages_ok alloc now flags msgs (c c' : MsgClient DC U) dc dc'
    n k byteOrder core (ds : DS) d B es1 es2 fuel s :
  let net := is_isNetworkOrder (SegmentedInputStream_new byteOrder) in
  Z.land flags COMMUTIL_REQUEST_FLAG_REUSE = 0 ->
  (forall n, 0 <= n -> exists buffer, alloc n = Some buffer /\ zlen buffer = n) ->
  pool_ok (mc_requestPool c) -> 0 <= p_nextRequestId (mc_requestPool c) < 2 ^ 64 -> mc_dataClient c = Some dc ->
  dc_byteOrder dc = byteOrder -> wire_ok dc -> wire dc = [] -> NoDup msgs ->
  Forall (fun a => exists m, mc_heap c !! a = Some m /\ good_msg m) msgs ->
  client_sends alloc now flags msgs c = Done (true, c') -> mc_dataClient c' = Some dc' ->
  0 < k < 2 ^ 32 -> 0 <= n < 2 ^ 32 -> 0 <= cd_connIndex d < n ->
  Forall (fun e => event_index e <> Some (cd_connIndex d)) es1 ->
  Forall (only_bytes d) es2 -> good_buffers d B es2 ->
  concat (map node_bytes (conn_buffers (cd_connIndex d) es2)) = wire dc' ->
  (2 * length msgs + 3 <= fuel)%nat ->
  (forall bs1 bs2, conn_buffers (cd_connIndex d) es2 = bs1 ++ bs2 ->
     clean_cut net B (concat (map node_bytes bs1))) ->
  server_run fuel alloc_all (es1 ++ SE_connect d 0 :: es2) (server_ready (L := L) ds n k byteOrder core) = Done s ->
  exists ms s', server_run fuel alloc_all (map SE_work (seqZ 0 k)) s = Done s' /\
    conn_evts (cd_connIndex d) (map snd (sy_handled (sv_system s'))) = ET_CONNECT d 0 :: map (ET_MSG d) ms /\
    (Forall2 (sent_as c) msgs ms /\
    map (fun m => m_requestId (msg_header m)) ms = request_ids (p_nextRequestId (mc_requestPool c)) (length msgs)) /\
    Forall2 (fun a m => mc_heap c' !! a = Some m) msgs ms /\ Forall good_msg ms.
Proof.
  intros net Hf Ha Hok Hid Hd Ho Hwok Hw0 Hnd Hms Hsend Hd' Hk Hn Hi Hes1 Hes2 Hbs Hbytes Hfuel Hcut Hrun.
  destruct (sends_ok alloc now flags Hf Ha msgs c dc c' Hok Hid Hd Hwok Hnd Hms Hsend)
    as (dc1 & ms & Hd1 & _ & Hw & Hgood & Hheap & Has & Hids & _).
  rewrite Hd' in Hd1. injection Hd1 as <-. rewrite Hw0, Ho in Hw. cbn [app] in Hw.
  assert (Hnet : bool_decide (byteOrder = NETWORK_ORDER) = net) by (unfold net; by destruct byteOrder).
  rewrite Hnet in Hw. assert (Hlen : length msgs = length ms) by (by eapply Forall2_length).
  destruct (server_receives_ok n k byteOrder core ds d B es1 es2 ms [] fuel s) as (_ & s' & Hs' & Hev & _); try done.
  - rewrite app_nil_r. by rewrite Hbytes.
  - by left.
  - by rewrite <- Hlen.
  - exists ms, s'. done.
Qed.

(** What a client sends is what the server handles: messages that were given to sendMsg one
    after the other and accepted arrive, when the wire carries the bytes, cut in any way that
    keeps headers whole, as the message events of the connection, after its connect event, in
    the order of the calls, each once, unchanged but for the request id and entry that the
    client wrote into their headers; the ids are consecutive. This holds under any
    interleaving with other connections and of the worker threads. *)
Theorem client_messages_reach_server alloc now flags msgs (c c' : MsgClient DC U) dc dc'
    n k byteOrder core (ds : DS) d B es1 es2 fuel s :
  let net := is_isNetworkOrder (SegmentedInputStream_new byteOrder) in
  Z.land flags COMMUTIL_REQUEST_FLAG_REUSE = 0 ->
  (forall n, 0 <= n -> exists buffer, alloc n = Some buffer /\ zlen buffer = n) ->
  pool_ok (mc_requestPool c) -> 0 <= p_nextRequestId (mc_requestPool c) < 2 ^ 64 -> mc_dataClient c = Some dc ->
  dc_byteOrder dc = byteOrder -> wire_ok dc -> wire dc = [] -> NoDup msgs ->
  Forall (fun a => exists m, mc_heap c !! a = Some m /\ good_msg m) msgs ->
  client_sends alloc now flags msgs c = Done (true, c') -> mc_dataClient c' = Some dc' ->
  0 < k < 2 ^ 32 -> 0 <= n < 2 ^ 32 -> 0 <= cd_connIndex d < n ->
  Forall (fun e => event_index e <> Some (cd_connIndex d)) es1 ->
  Forall (only_bytes d) es2 -> good_buffers d B es2 ->
  concat (map node_bytes (conn_buffers (cd_connIndex d) es2)) = wire dc' ->
  (2 * length msgs + 3 <= fuel)%nat ->
  (forall bs1 bs2, conn_buffers (cd_connIndex d) es2 = bs1 ++ bs2 ->
     clean_cut net B (concat (map node_bytes bs1))) ->
  server_run fuel alloc_all (es1 ++ SE_connect d 0 :: es2) (server_ready (L := L) ds n k byteOrder core) = Done s ->
  exists ms s', server_run fuel alloc_all (map SE_work (seqZ 0 k)) s = Done s' /\
    conn_evts (cd_connIndex d) (map snd (sy_handled (sv_system s'))) = ET_CONNECT d 0 :: map (ET_MSG d) ms /\
    Forall2 (sent_as c) msgs ms /\
    map (fun m => m_requestId (msg_header m)) ms = request_ids (p_nextRequestId (mc_requestPool c)) (length msgs).
Proof.
  intros. edestruct (client_messages_ok alloc now flags msgs c c' dc dc' n k byteOrder core ds d B es1 es2 fuel s)
    as (ms & s' & Hrun & Hev & Hsent & _); try done. by exists ms, s'.
Qed.
End System.

(** ** Witness *)

#[local] Existing Instances sample_transport sample_callbacks sample_request_listener.
#[local] Existing Instances tag_gzip record_frames no_factory record_sessions sample_server.

(** the bytes that were written *)
#[local] Instance sample_wire : Wire SampleTransport.
Proof.
  refine {| wire_ok _ := True; wire d := concat (rev (st_written d)) |}.
  intros bytes flags ud d d' _ Hw. cbn in Hw. injection Hw as Hrc <-. split; [done|]. split; [|done].
  cbn [st_written rev]. rewrite concat_app. cbn [concat]. by rewrite app_nil_r.
Defined.

Definition two_messages : MsgClient SampleTransport (list Msg) :=
  MkMsgClient (<[100:=small_msg 5]> {[200:=small_msg 6]}) (Some (MkSampleTransport E_OK []))
    (MkMsgAssembler None 0) (pool_initialize 2 (MsgRequestPool_new 11)) ConnectData_new true [].

Definition sent_client : MsgClient SampleTransport (list Msg) :=
  snd (result_of (false, two_messages) (client_sends sample_alloc 10 0 [100; 200] two_messages)).

Definition sent_transport : SampleTransport := default (MkSampleTransport E_OK []) (mc_dataClient sent_client).

Definition sent_message (id i : Z) (m : Msg) : Msg := set_header (setRequestId id (setRequestIndex i (msg_header m))) m.

(** the wire: the first message with 41 bytes of the second one, another connection, the rest *)
Definition wire_events : list server_event :=
  [SE_bytes (sample_conn_at 0 7) (sample_node 1 (ztake (43 + 41) (wire sent_transport)));
   SE_work 1;
   SE_bytes (sample_conn_at 1 8) (sample_node 4 (msg_image (small_msg 9) true));
   SE_bytes (sample_conn_at 0 7) (sample_node 2 (zdrop (43 + 41) (wire sent_transport)))].

Lemma wire_bytes : wire sent_transport =
  msgs_image true [sent_message 11 1 (small_msg 5); sent_message 12 0 (small_msg 6)].
Proof. vm_compute. reflexivity. Qed.

Lemma sent_good id i k : 0 <= id < 2 ^ 64 -> 0 <= i < 2 ^ 32 -> 0 <= k < 2 ^ 16 -> good_msg (sent_message id i (small_msg k)).
Proof. intros Hid Hi Hk. apply good_renumbered; [by apply small_msg_good|done..]. Qed.

Lemma wire_cuts bs1 bs2 : conn_buffers 0 wire_events = bs1 ++ bs2 -> clean_cut true 100 (concat (map node_bytes bs1)).
Proof.
  intros Heq. change (conn_buffers 0 wire_events) with
    [sample_node 1 (ztake (43 + 41) (wire sent_transport)); sample_node 2 (zdrop (43 + 41) (wire sent_transport))] in Heq.
  rewrite wire_bytes in Heq. destruct bs1 as [|b1 [|b2 [|b3 bs1]]]; cbn [app] in Heq; simplify_eq.
  - exists [], []. split_and!; [done|constructor|by left|reflexivity].
  - exists [sent_message 11 1 (small_msg 5)], (ztake 41 (msg_image (sent_message 12 0 (small_msg 6)) true)).
    split_and!; [reflexivity|constructor; [by apply sent_good|constructor]| |reflexivity].
    right. exists (msg_header (sent_message 12 0 (small_msg 6))). split; [by apply (sent_good 12 0 6)|].
    split; [reflexivity|]. split; [|reflexivity]. exists (ztake 1 (le_split 3 6)). reflexivity.
  - exists [sent_message 11 1 (small_msg 5); sent_message 12 0 (small_msg 6)], [].
    split_and!; [vm_compute; reflexivity| |by left|reflexivity].
    constructor; [by apply sent_good|]. constructor; [by apply sent_good|constructor].
Qed.

Definition end_service : MsgServer SampleServer (list server_call) :=
  result_of Service.sample_ready (server_run 9 alloc_all (sample_es1 ++ SE_connect (sample_conn_at 0 7) 0 :: wire_events) Service.sample_ready).

Lemma end_service_run :
  server_run 9 alloc_all (sample_es1 ++ SE_connect (sample_conn_at 0 7) 0 :: wire_events) Service.sample_ready = Done end_service.
Proof. apply result_of_done. vm_compute. reflexivity. Qed.

Lemma client_messages_reach_server_witness :
  exists ms s', server_run 9 alloc_all (map SE_work (seqZ 0 2)) end_service = Done s' /\
    conn_evts 0 (map snd (sy_handled (sv_system s'))) =
      ET_CONNECT (sample_conn_at 0 7) 0 :: map (ET_MSG (sample_conn_at 0 7)) ms /\
    map (fun m => m_requestId (msg_header m)) ms = [11; 12].
Proof.
  assert (H : exists ms s', server_run 9 alloc_all (map SE_work (seqZ 0 2)) end_service = Done s' /\
    conn_evts 0 (map snd (sy_handled (sv_system s'))) =
      ET_CONNECT (sample_conn_at 0 7) 0 :: map (ET_MSG (sample_conn_at 0 7)) ms /\
    Forall2 (sent_as two_messages) [100; 200] ms /\
    map (fun m => m_requestId (msg_header m)) ms = request_ids 11 2).
  { apply (client_messages_reach_server sample_alloc 10 0 [100; 200] two_messages sent_client (MkSampleTransport E_OK [])
      sent_transport 3 2 NETWORK_ORDER (core_initial 3 NETWORK_ORDER true []) (MkSampleServer E_OK [] 0)
      (sample_conn_at 0 7) 100 sample_es1 wire_events 9 end_service).
    - vm_compute. reflexivity.
    - intros n Hn. exists (replicate (Z.to_nat n) NUL). split; [reflexivity|]. by rewrite zlen_replicate; lia.
    - vm_compute. split; reflexivity.
    - vm_compute. split; [discriminate|reflexivity].
    - vm_compute. reflexivity.
    - vm_compute. reflexivity.
    - exact I.
    - vm_compute. reflexivity.
    - apply (bool_decide_unpack _). vm_compute. exact I.
    - constructor; [exists (small_msg 5)|constructor; [exists (small_msg 6)|constructor]];
        (split; [vm_compute; reflexivity|apply small_msg_good; lia]).
    - vm_compute. reflexivity.
    - vm_compute. reflexivity.
    - lia.
    - lia.
    - vm_compute. split; [discriminate|reflexivity].
    - repeat constructor; discriminate.
    - repeat constructor; discriminate.
    - repeat constructor; vm_compute; congruence.
    - vm_compute. reflexivity.
    - cbn. lia.
    - apply wire_cuts.
    - exact end_service_run. }
  destruct H as (ms & s' & Hrun & Hev & _ & Hids). exists ms, s'. split; [exact Hrun|]. split; [exact Hev|]. exact Hids.
Defined.
