(* ===== verification/Reply.v ===== *)
(** * From the server back to the client

    The message client behind its assembler: the bytes that the transport layer hands to
    the client become messages, and the messages the responses of pending requests. *)

From Stdlib Require Import ZArith Lia.
From stdpp Require Import gmap.
From coqutil Require Import Byte.
From S2P Require Import Prelude Errors StrSearch Io Serializable Segmented Msg Frame Connection Assembler.
From S2P Require Import RequestPool Client Multiplexer Server Service EndToEnd.
Open Scope Z_scope.

(** ** Definitions *)

Section Receive.
Context {D U : Type} `{DataClient D} `{MsgListener U} `{MsgRequestListener U}.
Implicit Types c : MsgClient D U.

(** the address of a message that the assembler allocates *)
Definition new_msg (hp : Heap) : Z := fresh (dom hp : gset Z).

(** onMsg as the assembler calls it: the message lies in the heap before the call, and is
    freed after it if the client says so *)
Definition client_takes (details : ConnectionDetails) (m : Msg) (canSaveMsg : bool) c
  : outcome (MsgAction * MsgClient D U) :=
  let msg := new_msg (mc_heap c) in
  let* '(action, c) := client_onMsg details msg canSaveMsg (set_heap (<[msg := m]> (mc_heap c)) c) in
  Done (action, match action with MSG_CAN_DELETE => set_heap (delete msg (mc_heap c)) c | _ => c end).

(** the client is the listener of its assembler *)
#[export] Instance MsgClient_listener : MsgListener (outcome (MsgClient D U)) := {
  onConnect details status o :=
    match o with
    | Done c => let '(accepted, c) := client_onConnect details status c in (accepted, Done c)
    | _ => (false, o)
    end;
  onDisconnect details o := let* c := o in Done (client_onDisconnect details c);
  onMsg details m canSaveMsg o :=
    match outcome_bind o (client_takes details m canSaveMsg) with
    | Done (action, c) => (action, Done c)
    | Undef u => (MSG_NO_ACTION, Undef u)
    | NoFuel => (MSG_NO_ACTION, NoFuel)
    end;
}.

(** the notifications of the data client *)
Inductive client_event :=
| CV_connect (details : ConnectionDetails) (status : Z)
| CV_bytes (details : ConnectionDetails) (buffer : BufferNode)
| CV_disconnect (details : ConnectionDetails).

(** the assembler is the data listener of the transport layer, and a part of the client *)
Definition client_step (fuel : nat) (env : AllocEnv) (e : client_event) c : outcome (MsgClient D U) :=
  match e with
  | CV_connect details status =>
    let* '(a, (_, o)) := asm_onConnect details status (mc_assembler c) (Done c) in
    let* c := o in Done (set_assembler a c)
  | CV_bytes details buffer =>
    let* '(a, (_, (o, _))) := asm_onBytesReceived fuel env details buffer (mc_assembler c) (Done c, []) in
    let* c := o in Done (set_assembler a c)
  | CV_disconnect details =>
    let* '(a, o) := asm_onDisconnect details (mc_assembler c) (Done c) in
    let* c := o in Done (set_assembler a c)
  end.

Fixpoint client_run (fuel : nat) (env : AllocEnv) (es : list client_event) c : outcome (MsgClient D U) :=
  match es with
  | [] => Done c
  | e :: es => let* c := client_step fuel env e c in client_run fuel env es c
  end.

(** ** What the messages do to the pool *)

(** the message is the response for the request in entry [i] *)
Definition response_for (i : Z) (r : MsgRequest) (m : Msg) : Prop :=
  m_requestIndex (msg_header m) = i /\ m_requestId (msg_header m) = rq_requestId r.

(** the request that a response names *)
Definition names (m : Msg) : Z * Z := (m_requestIndex (msg_header m), m_requestId (msg_header m)).

(** [c'] is [c] after the messages [ms] came in: every entry that one of them names holds
    its response, the others are as before; the responses that no entry takes are freed *)
Record answered (c : MsgClient D U) (ms : list Msg) (c' : MsgClient D U) : Prop := {
  an_stored i r m : zget (p_requests (mc_requestPool c)) i = Some r -> m ∈ ms -> response_for i r m ->
    exists a, zget (p_requests (mc_requestPool c')) i = Some (setResponse (Some a) r) /\
      mc_heap c' !! a = Some m /\ mc_heap c !! a = None;
  an_kept i r : zget (p_requests (mc_requestPool c)) i = Some r -> (forall m, m ∈ ms -> ~ response_for i r m) ->
    zget (p_requests (mc_requestPool c')) i = Some r;
  an_length : zlen (p_requests (mc_requestPool c')) = zlen (p_requests (mc_requestPool c));
  an_heap : mc_heap c ⊆ mc_heap c';
  an_only a m : mc_heap c' !! a = Some m -> mc_heap c !! a = None -> m ∈ ms /\
    exists i r, zget (p_requests (mc_requestPool c)) i = Some r /\ response_for i r m /\
      zget (p_requests (mc_requestPool c')) i = Some (setResponse (Some a) r);
  an_client : mc_dataClient c' = mc_dataClient c /\ mc_hasListener c' = mc_hasListener c;
}.

Lemma response_names i r m m' : response_for i r m -> response_for i r m' -> names m = names m'.
Proof. intros [Hi Hid] [Hi' Hid']. unfold names. congruence. Qed.

Lemma answered_nil c : answered c [] c.
Proof. split; try done; [by intros i r m _ ?%elem_of_nil|by intros a m -> ]. Qed.

Lemma names_apart ms1 ms2 m1 m2 : NoDup (map names (ms1 ++ ms2)) -> m1 ∈ ms1 -> m2 ∈ ms2 ->
  names m1 <> names m2.
Proof.
  rewrite map_app. intros (_ & Hap & _)%list.NoDup_app Hx Hy Heq. apply (Hap (names m1)).
  - by apply list_elem_of_fmap_2.
  - rewrite Heq. by apply list_elem_of_fmap_2.
Qed.

Lemma answered_app c1 c2 c3 ms1 ms2 : NoDup (map names (ms1 ++ ms2)) ->
  answered c1 ms1 c2 -> answered c2 ms2 c3 -> answered c1 (ms1 ++ ms2) c3.
Proof.
  intros Hnd Hx Hy. pose proof (names_apart ms1 ms2) as Hap. split.
  - intros i r m Hr [Hm|Hm]%elem_of_app Hf.
    + destruct (an_stored _ _ _ Hx i r m Hr Hm Hf) as (a & Hr2 & Ha & Hnew). exists a.
      split; [|split; [|done]].
      * apply (an_kept _ _ _ Hy); [done|]. intros m2 Hm2 Hf2.
        exact (Hap m m2 Hnd Hm Hm2 (response_names i r _ _ Hf Hf2)).
      * by apply (lookup_weaken _ _ _ _ Ha), (an_heap _ _ _ Hy).
    + assert (Hr2 : zget (p_requests (mc_requestPool c2)) i = Some r).
      { apply (an_kept _ _ _ Hx); [done|]. intros m1 Hm1 Hf1.
        exact (Hap m1 m Hnd Hm1 Hm (response_names i r _ _ Hf1 Hf)). }
      destruct (an_stored _ _ _ Hy i r m Hr2 Hm Hf) as (a & Hr3 & Ha & Hnew). exists a.
      split; [done|]. split; [done|]. by apply (lookup_weaken_None _ (mc_heap c2)), (an_heap _ _ _ Hx).
  - intros i r Hr Hno. apply (an_kept _ _ _ Hy); [apply (an_kept _ _ _ Hx); [done|]|];
      intros m Hm; apply Hno, elem_of_app; auto.
  - by rewrite (an_length _ _ _ Hy), (an_length _ _ _ Hx).
  - etransitivity; [apply (an_heap _ _ _ Hx)|apply (an_heap _ _ _ Hy)].
  - intros a m Ha Hnew. destruct (mc_heap c2 !! a) as [m2|] eqn:Ha2.
    + assert (m2 = m) as ->.
      { pose proof (lookup_weaken _ _ _ _ Ha2 (an_heap _ _ _ Hy)). congruence. }
      destruct (an_only _ _ _ Hx a m Ha2 Hnew) as (Hm & i & r & Hr & Hf & Hr2).
      split; [apply elem_of_app; by left|]. exists i, r. split; [done|]. split; [done|].
      apply (an_kept _ _ _ Hy); [done|]. intros m2 Hm2 Hf2.
      exact (Hap m m2 Hnd Hm Hm2 (response_names i r _ _ Hf Hf2)).
    + destruct (an_only _ _ _ Hy a m Ha Ha2) as (Hm & i & r & Hr & Hf & Hr3).
      split; [apply elem_of_app; by right|].
      assert (Hr1 : zget (p_requests (mc_requestPool c1)) i = Some r).
      { destruct (zget_is_Some (p_requests (mc_requestPool c1)) i) as [r1 Hr1].
        { rewrite <- (an_length _ _ _ Hx). by eapply zget_Some_range. }
        assert (Hno : forall m1, m1 ∈ ms1 -> ~ response_for i r1 m1).
        { intros m1 Hm1 Hf1. destruct (an_stored _ _ _ Hx i r1 m1 Hr1 Hm1 Hf1) as (a1 & Hr2 & _).
          rewrite Hr in Hr2. injection Hr2 as ->.
          exact (Hap m1 m Hnd Hm1 Hm (response_names i r1 _ _ Hf1 Hf)). }
        rewrite (an_kept _ _ _ Hx i r1 Hr1 Hno) in Hr. congruence. }
      exists i, r. by split_and!.
  - destruct (an_client _ _ _ Hx), (an_client _ _ _ Hy). split; congruence.
Qed.

Lemma new_msg_fresh hp : hp !! new_msg hp = None.
Proof. apply (not_elem_of_dom (D := gset Z)). unfold new_msg. apply is_fresh. Qed.

(** the entry that a response names, if there is one *)
Lemma pool_entry_cases i id (p : MsgRequestPool) : 0 <= i ->
  (exists r, zget (p_requests p) i = Some r /\ rq_requestId r = id /\ pool_entry i id p = Done (E_OK, Some r)) \/
  (exists rc, rc <> E_OK /\ pool_entry i id p = Done (rc, None) /\
     forall r, zget (p_requests p) i = Some r -> rq_requestId r <> id).
Proof.
  intros Hi. destruct (Z_le_gt_dec (zlen (p_requests p)) i) as [Hle|Hgt].
  - right. exists E_INVALID_ARGUMENT. unfold pool_entry. rewrite (proj2 (Z.leb_le _ _)) by done.
    split; [done|]. split; [done|]. intros r Hr%zget_Some_range. lia.
  - destruct (zget_is_Some (p_requests p) i) as [r Hr]; [lia|].
    destruct (Z.eq_dec (rq_requestId r) id) as [He|Hne].
    + left. exists r. split; [done|]. split; [done|]. by apply pool_entry_ok.
    + right. exists E_DATA_CORRUPT. unfold pool_entry. rewrite (proj2 (Z.leb_gt _ _)) by lia.
      rewrite (pool_at_ok _ _ _ Hr). cbn [outcome_bind]. rewrite (proj2 (Z.eqb_neq _ _)) by done.
      split; [done|]. split; [done|]. intros r' Hr'. by rewrite Hr in Hr'; injection Hr' as <-.
Qed.

Lemma answered_stored c m r a c' : let i := m_requestIndex (msg_header m) in
  zget (p_requests (mc_requestPool c)) i = Some r -> rq_requestId r = m_requestId (msg_header m) ->
  mc_heap c !! a = None -> mc_heap c' = <[a := m]> (mc_heap c) ->
  p_requests (mc_requestPool c') = zset (p_requests (mc_requestPool c)) i (setResponse (Some a) r) ->
  mc_dataClient c' = mc_dataClient c -> mc_hasListener c' = mc_hasListener c -> answered c [m] c'.
Proof.
  intros i Hr Hid Ha Hh Hp Hd Hl. pose proof (zget_Some_range _ _ _ Hr) as Hi.
  assert (Hset : zget (p_requests (mc_requestPool c')) i = Some (setResponse (Some a) r))
    by (rewrite Hp; by apply zget_zset_eq).
  split.
  - intros j r' m' Hr' ->%list_elem_of_singleton [<- Hid']. fold i in Hr' |- *. rewrite Hr in Hr'.
    injection Hr' as <-. exists a. split; [done|]. split; [|done]. rewrite Hh. apply lookup_insert_eq.
  - intros j r' Hr' Hno. destruct (Z.eq_dec j i) as [->|Hne].
    + rewrite Hr in Hr'. injection Hr' as <-. destruct (Hno m); [by apply list_elem_of_singleton|done].
    + rewrite Hp, zget_zset_ne; congruence.
  - by rewrite Hp, zlen_zset.
  - rewrite Hh. by apply insert_subseteq.
  - intros b m' Hb Hnew. rewrite Hh in Hb. apply lookup_insert_Some in Hb as [[-> ->]|[_ Hb]]; [|congruence].
    split; [by apply list_elem_of_singleton|]. exists i, r. by split_and!.
  - done.
Qed.

Lemma answered_refused c m c' : 
  (forall r, zget (p_requests (mc_requestPool c)) (m_requestIndex (msg_header m)) = Some r ->
     rq_requestId r <> m_requestId (msg_header m)) ->
  mc_heap c' = mc_heap c -> p_requests (mc_requestPool c') = p_requests (mc_requestPool c) ->
  mc_dataClient c' = mc_dataClient c -> mc_hasListener c' = mc_hasListener c -> answered c [m] c'.
Proof.
  intros Hno Hh Hp Hd Hl. split; rewrite ?Hh, ?Hp; try done.
  - intros i r m' Hr ->%list_elem_of_singleton [<- Hid]. by destruct (Hno r Hr).
  - by intros a m' ->.
Qed.

(** a message that comes in *)
Lemma client_takes_ok d m c : 0 <= m_requestIndex (msg_header m) ->
  exists action c', client_takes d m true c = Done (action, c') /\ answered c [m] c'.
Proof.
  intros Hi. set (a := new_msg (mc_heap c)). pose proof (new_msg_fresh (mc_heap c)) as Ha. fold a in Ha.
  unfold client_takes, client_onMsg, msg_at. fold a. cbn [negb mc_heap set_heap].
  rewrite lookup_insert_eq. cbn [outcome_bind]. unfold pool_setResponse.
  cbn [mc_requestPool mc_user set_heap].
  destruct (pool_entry_cases (m_requestIndex (msg_header m)) (m_requestId (msg_header m)) (mc_requestPool c) Hi)
    as [(r & Hr & Hid & ->)|(rc & Hrc & -> & Hno)]; cbn [outcome_bind].
  - rewrite (pool_update_ok _ _ _ _ Hr). cbn [outcome_bind]. rewrite decide_True by done.
    eexists _, _. split; [reflexivity|].
    destruct (_ && _); (apply (answered_stored c m r a); try done).
  - rewrite decide_False by done. eexists _, _. split; [reflexivity|].
    destruct (_ && _); (apply answered_refused; try done; cbn; by rewrite delete_insert_id).
Qed.

Lemma client_takes_all d ms : forall c, NoDup (map names ms) ->
  Forall (fun m => 0 <= m_requestIndex (msg_header m)) ms -> forall freed,
  exists c' freed', fold_left (user_msg (U := outcome (MsgClient D U)) d) ms (Done c, freed) = (Done c', freed') /\
    answered c ms c'.
Proof.
  induction ms as [|m ms IH]; intros c Hnd Hms freed; cbn [fold_left].
  { exists c, freed. split; [done|]. apply answered_nil. }
  apply Forall_cons_1 in Hms as [Hm Hms]. destruct (client_takes_ok d m c Hm) as (action & c1 & Ht & Hc1).
  unfold user_msg at 2. cbn [onMsg MsgClient_listener fst snd outcome_bind]. rewrite Ht.
  destruct (IH c1 (proj2 (proj1 (list.NoDup_cons _ _) Hnd)) Hms
    (match action with MSG_CAN_DELETE => freed ++ [m] | _ => freed end)) as (c' & freed' & Hf & Hc').
  exists c', freed'. split; [exact Hf|]. by apply (answered_app c c1 c' [m] ms).
Qed.

(** ** The bytes that come in *)

(** the stream of the connection *)
Definition receives_on (st : MsgStream) c : Prop := mc_assembler c = MkMsgAssembler (Some [st]) 1.

Lemma answered_set_assembler c ms c' a : answered c ms c' -> answered c ms (set_assembler a c').
Proof. intros []. by split. Qed.

Lemma answered_from_assembler c ms c' a : answered (set_assembler a c) ms c' -> answered c ms c'.
Proof. intros []. by split. Qed.

Lemma client_bytes_ok fuel d net B st p b ms p' c : cd_connIndex d = 0 -> receives_on st c ->
  in_step net B st p -> node_ok b -> 0 < bn_length b <= B -> bn_length b < 2 ^ 31 ->
  zlen p + 2 * B < 2 ^ 32 -> p ++ node_bytes b = msgs_image net ms ++ p' ->
  Forall good_msg ms -> good_tail net p' -> (2 * length ms + 3 <= fuel)%nat -> NoDup (map names ms) ->
  exists st' c', client_step fuel alloc_all (CV_bytes d b) c = Done c' /\ receives_on st' c' /\
    in_step net B st' p' /\ answered c ms c'.
Proof.
  intros Hd Hc Hst Hn Hl Hl31 Hsz Hsplit Hms Hp Hf Hnd.
  destruct (client_takes_all d ms c Hnd) with (freed := @nil Msg) as (c1 & freed & Hfold & Hans).
  { eapply Forall_impl; [|exact Hms]. intros m ((Hh & _) & _). apply hok_requestIndex, Hh. }
  destruct (receive_in_step (U := outcome (MsgClient D U)) d net B st p b ms p' fuel (Done c, []) Hst Hn Hl Hl31 Hsz
    Hsplit Hms Hp Hf) as (st' & Hr & Hst').
  rewrite Hfold in Hr. cbn [client_step]. unfold asm_onBytesReceived, with_stream. rewrite Hc, Hd.
  cbn [m_msgStreams outcome_bind]. unfold mem_get. rewrite zget_cons_0. cbn [outcome_bind]. rewrite Hr.
  cbn [outcome_bind]. eexists st', _. split; [reflexivity|]. split; [done|]. split; [done|].
  by apply answered_set_assembler.
Qed.

Lemma in_step_good net B st p : in_step net B st p -> good_tail net p.
Proof. intros [Hi|[-> _]]; [by eapply inv_tail|by left]. Qed.

Lemma client_run_ok fuel d net B p' bs : cd_connIndex d = 0 -> forall ms st p c, receives_on st c ->
  in_step net B st p -> Forall (fun b => node_ok b /\ 0 < bn_length b <= B /\ bn_length b < 2 ^ 31) bs ->
  p ++ concat (map node_bytes bs) = msgs_image net ms ++ p' ->
  Forall good_msg ms -> good_tail net p' -> (2 * length ms + 3 <= fuel)%nat -> NoDup (map names ms) ->
  (forall bs1 bs2, bs = bs1 ++ bs2 -> clean_cut net B (p ++ concat (map node_bytes bs1))) ->
  exists st' c', client_run fuel alloc_all (map (CV_bytes d) bs) c = Done c' /\ receives_on st' c' /\
    in_step net B st' p' /\ answered c ms c'.
Proof.
  intros Hd. induction bs as [|b bs IH]; intros ms st p c Hc Hst Hbs Heq Hms Hp Hf Hnd Hcut.
  - cbn [map concat] in Heq. rewrite app_nil_r in Heq.
    destruct (tail_alone net ms p p' (in_step_good _ _ _ _ Hst) Hms Heq) as [-> ->].
    exists st, c. split; [done|]. split; [done|]. split; [done|]. apply answered_nil.
  - apply Forall_cons_1 in Hbs as [(Hn & Hl & Hl31) Hbs].
    destruct (first_buffer net B p b bs ms p' (in_step_good _ _ _ _ Hst) Hms Hp Heq Hcut)
      as (ms1 & p1 & ms2 & Hs1 & -> & Heq2 & Hp1 & Hsz & Hcut2).
    apply Forall_app in Hms as [Hms1 Hms2]. rewrite length_app in Hf.
    pose proof Hnd as Hnd0. rewrite map_app in Hnd0. apply list.NoDup_app in Hnd0 as (Hnd1 & _ & Hnd2).
    destruct (client_bytes_ok fuel d net B st p b ms1 p1 c Hd Hc Hst Hn Hl Hl31 Hsz Hs1 Hms1 Hp1) as (st1 & c1 & Hrun & Hc1 & Hst1 & Hans1);
      [lia|done|].
    destruct (IH ms2 st1 p1 c1 Hc1 Hst1 Hbs Heq2 Hms2 Hp) as (st' & c' & Hrun' & Hc' & Hst' & Hans'); [lia|done|done|].
    exists st', c'. cbn [map client_run]. rewrite Hrun. cbn [outcome_bind]. split; [done|]. split; [done|].
    split; [done|]. by apply (answered_app c c1 c').
Qed.
End Receive.

(** ** The requests that wait *)

Section Pending.
Context {D U : Type} `{DataClient D} `{MsgListener U} `{MsgRequestListener U}.
Implicit Types c : MsgClient D U.

Lemma client_sendMsg_assembler alloc now msg flags c rc rd c' :
  client_sendMsg alloc now msg flags c = Done (rc, rd, c') -> mc_assembler c' = mc_assembler c.
Proof.
  assert (Hsend : forall ud i q c0, transport_send alloc msg ud i q c0 = Done (rc, rd, c') ->
    mc_assembler c' = mc_assembler c0).
  { intros ud i q c0 Hrun. unfold transport_send, send_failed, with_request in Hrun. inv_bind.
    destruct (alloc _); [|by inv_bind].
    inv_bind. destruct a1 as [rc1 os]. case_decide; [by inv_bind|].
    destruct (dc_write _ _ _ _) as [rc2 d']. case_decide; by inv_bind. }
  unfold client_sendMsg. intros Hrun. inv_bind.
  destruct (if negb _ then _ else fetchAddRequestId _) as [id p]. inv_bind.
  destruct a0 as [[[i|] j] q]; [|by inv_bind].
  inv_bind. unfold with_request in *. inv_bind.
  destruct (negb _); [by apply Hsend in Hrun|]. inv_bind. by apply Hsend in Hrun.
Qed.

(** what the program that sends messages leaves behind: each message has an entry of its
    own, which was vacant and is pending for it *)
Lemma sends_pending alloc now flags : Z.land flags COMMUTIL_REQUEST_FLAG_REUSE = 0 ->
  (forall n, 0 <= n -> exists buffer, alloc n = Some buffer /\ zlen buffer = n) ->
  forall msgs c d c', pool_ok (mc_requestPool c) -> 0 <= p_nextRequestId (mc_requestPool c) < 2 ^ 64 ->
  mc_dataClient c = Some d -> NoDup msgs ->
  Forall (fun a => exists m, mc_heap c !! a = Some m /\ good_msg m) msgs ->
  client_sends alloc now flags msgs c = Done (true, c') ->
  exists ms, Forall2 (fun a m => mc_heap c' !! a = Some m) msgs ms /\
    Forall (fun m => vacant_at (mc_requestPool c) (fst (names m)) /\
                     pending_at (mc_requestPool c') (fst (names m)) (snd (names m))) ms /\
    NoDup (map (fun m => fst (names m)) ms) /\
    (forall i id, pending_at (mc_requestPool c) i id -> pending_at (mc_requestPool c') i id) /\
    (forall a, a ∉ msgs -> mc_heap c' !! a = mc_heap c !! a) /\ mc_assembler c' = mc_assembler c.
Proof.
  intros Hf Ha msgs. induction msgs as [|msg msgs IH]; intros c d c' Hok Hid Hd Hnd Hms Hrun.
  { injection Hrun as <-. exists []. by repeat constructor. }
  cbn [client_sends] in Hrun. apply outcome_bind_inv in Hrun as ([[rc rd] c1] & Hs & Hrun).
  destruct (decide (rc = E_OK)) as [->|]; [|done]. apply list.NoDup_cons in Hnd as [Hmsg Hnd].
  apply Forall_cons_1 in Hms as [(m & Hm & Hg) Hms]. pose proof (client_sendMsg_assembler _ _ _ _ _ _ _ _ Hs) as Hasm.
  destruct (client_sendMsg_spec alloc now msg flags c m d Hok Hid Hm ltac:(apply Hg) Hd Hf)
    as [(i & c2 & Hspec)|(c2 & Hspec & _)]; [apply Ha; destruct Hg as ((Hh & _) & _); by destruct (hok_length _ Hh)| |by rewrite Hs in Hspec].
  cbn zeta in Hspec. destruct (dc_write _ _ _ _) as [rc d'].
  destruct Hspec as (Hspec & Hv & Hpend & Hsame & _ & Hheap & Hd' & Hnext). rewrite Hs in Hspec. injection Hspec as <- _ <-.
  set (m1 := set_header _ _) in *.
  assert (Hother : forall a, a <> msg -> mc_heap c1 !! a = mc_heap c !! a) by (intros a Hne; by rewrite Hheap, lookup_insert_ne).
  assert (Hkeep : forall j id, pending_at (mc_requestPool c) j id -> pending_at (mc_requestPool c1) j id).
  { intros j id (r & Hr & Hst & Hid'). exists r. split; [|done]. rewrite (proj2 Hsame); [done|]. intros ->.
    destruct Hv as (r' & Hr' & Hst'). rewrite Hr in Hr'. injection Hr' as <-. congruence. }
  destruct (IH c1 d' c') as (ms & Hheaps & Hps & Hnds & Hkeep' & Hout & Hasm'); try done.
  { unfold pool_ok. by rewrite (proj1 Hsame). }
  { rewrite Hnext. apply u64_range. }
  { apply List.Forall_forall. intros a Hx%list_elem_of_In. rewrite List.Forall_forall in Hms.
    destruct (Hms a) as (m0 & Hm0 & Hg0); [by apply list_elem_of_In|]. exists m0. split; [|done]. rewrite Hother; [done|].
    by intros ->. }
  assert (Hapart : forall m0, m0 ∈ ms -> fst (names m0) <> i).
  { intros m0 Hm0%list_elem_of_In Heq. rewrite List.Forall_forall in Hps. destruct (Hps m0 Hm0) as [(r & Hr & Hst) _].
    rewrite Heq in Hr. destruct Hpend as (r' & Hr' & Hst' & _). rewrite Hr in Hr'. injection Hr' as <-. congruence. }
  exists (m1 :: ms). split; [|split; [|split; [|split; [|split]]]].
  - constructor; [|done]. rewrite Hout, Hheap by done. apply lookup_insert_eq.
  - constructor; [split; [exact Hv|by apply Hkeep']|]. apply List.Forall_forall. intros m0 Hm0.
    rewrite List.Forall_forall in Hps. destruct (Hps m0 Hm0) as [(r & Hr & Hst) Hp0]. split; [|done].
    exists r. split; [|done]. rewrite <- (proj2 Hsame); [done|]. by apply Hapart, list_elem_of_In.
  - cbn [map]. constructor; [|done]. intros (m0 & Heq & Hm0)%list_elem_of_fmap. by apply (Hapart m0 Hm0).
  - intros j id Hj. by apply Hkeep', Hkeep.
  - intros a [Hx1 Hx2]%not_elem_of_cons. rewrite Hout by done. by apply Hother.
  - by rewrite Hasm', Hasm.
Qed.
End Pending.

(** ** The replies of the server *)

(** what a data server promises about its replies: while it is in a good state an accepted
    buffer follows the ones before it on the wire of the connection *)
Class ReplyWire (D : Type) `{DataServer D} := {
  rwire_ok : ConnectionDetails -> D -> Prop;
  rwire : ConnectionDetails -> D -> list Byte.byte;
  rwire_buffer details n d b d' : rwire_ok details d -> 0 <= n -> ds_buffer n d = (b, d') ->
    rwire_ok details d' /\ rwire details d' = rwire details d /\ ds_byteOrder d' = ds_byteOrder d /\
    (forall buffer, b = Some buffer -> zlen buffer = n);
  rwire_reply details bytes flags d d' : rwire_ok details d -> ds_replyMsg details bytes flags d = (E_OK, d') ->
    rwire_ok details d' /\ rwire details d' = rwire details d ++ bytes /\ ds_byteOrder d' = ds_byteOrder d;
}.

Section Replies.
Context {D L : Type} `{ReplyWire D} `{Gzip} `{FrameListener ConnectionDetails L}.
Context `{MsgSessionFactory L} `{MsgSessionListener L}.
Implicit Types s : MsgServer D L.

(** a program that replies with one message after the other, until one is refused *)
Fixpoint server_replies (details : ConnectionDetails) (rs : list Msg) s : outcome (bool * MsgServer D L) :=
  match rs with
  | [] => Done (true, s)
  | r :: rs =>
    let* '(rc, s) := server_replyMsg details r s in
    if decide (rc = E_OK) then server_replies details rs s else Done (false, s)
  end.

Lemma replies_ok details rs : forall s d s', sv_dataServer s = Some d -> rwire_ok details d -> Forall good_msg rs ->
  server_replies details rs s = Done (true, s') ->
  exists d', sv_dataServer s' = Some d' /\ rwire_ok details d' /\ ds_byteOrder d' = ds_byteOrder d /\
    rwire details d' = rwire details d ++ msgs_image (bool_decide (ds_byteOrder d = NETWORK_ORDER)) rs.
Proof.
  induction rs as [|r rs IH]; intros s d s' Hd Hok Hrs Hrun.
  { injection Hrun as <-. exists d. split; [done|]. split; [done|]. split; [done|]. by rewrite app_nil_r. }
  apply Forall_cons_1 in Hrs as [Hr Hrs]. cbn [server_replies] in Hrun.
  apply outcome_bind_inv in Hrun as ([rc s1] & Hs & Hrun). destruct (decide (rc = E_OK)) as [->|]; [|done].
  pose proof (replyMsg_spec details r s d (proj1 Hr) Hd) as Hspec. cbv zeta in Hspec.
  destruct (ds_buffer _ d) as [b d1] eqn:Hb. destruct (rwire_buffer details _ d b d1 Hok (proj1 (hok_length _ (proj1 (proj1 Hr)))) Hb) as (Hok1 & Hw1 & Ho1 & Hlen).
  specialize (Hspec Hlen). rewrite Hs in Hspec. destruct b as [buffer|]; [|done].
  destruct (ds_replyMsg _ _ _ d1) as [rc d2] eqn:Hrep. injection Hspec as <- ->. rewrite decide_True in Hrun by done.
  destruct (rwire_reply details _ _ d1 d2 Hok1 Hrep) as (Hok2 & Hw2 & Ho2).
  destruct (IH (set_dataServer (Some d2) s) d2 s' eq_refl Hok2 Hrs Hrun) as (d' & Hd' & Hok' & Ho' & Hw'). exists d'.
  split; [done|]. split; [done|]. split; [by rewrite Ho', Ho2, Ho1|].
  by rewrite Hw', Hw2, Hw1, Ho2, Ho1, msgs_image_cons, <- app_assoc.
Qed.
End Replies.

(** ** Every request gets its response *)

Section System.
Context {DC U : Type} `{DataClient DC} `{MsgListener U} `{MsgRequestListener U}.
Context {DS L : Type} `{ReplyWire DS} `{Gzip} `{FrameListener ConnectionDetails L}.
Context `{MsgSessionFactory L} `{MsgSessionListener L}.

(** the thread that waits for an entry that holds its response *)
Lemma wait_arrived p i r a timeout : zget (p_requests p) i = Some (setResponse (Some a) r) ->
  exists p', waitPendingResponse (MkMsgRequestData (rq_requestId r) i) timeout [] None p = Done (E_OK, Some a, p') /\
    vacant_at p' i /\ same_but i p p'.
Proof.
  intros Hr. destruct (waitPendingResponse_ok p i (rq_requestId r) timeout [] None _ E_OK (Some (Some a)) (setResponse (Some a) r) Hr)
    as (p' & Hw & Hv & Hs); try done. by exists p'.
Qed.

Lemma requests_answered_ok alloc now flags msgs (c c1 : MsgClient DC U) dc
    (s s' : MsgServer DS L) ds ds' details rs fuel d net B st bs :
  Z.land flags COMMUTIL_REQUEST_FLAG_REUSE = 0 ->
  (forall n, 0 <= n -> exists buffer, alloc n = Some buffer /\ zlen buffer = n) ->
  pool_ok (mc_requestPool c) -> 0 <= p_nextRequestId (mc_requestPool c) < 2 ^ 64 ->
  mc_dataClient c = Some dc -> NoDup msgs ->
  Forall (fun a => exists m, mc_heap c !! a = Some m /\ good_msg m) msgs ->
  client_sends alloc now flags msgs c = Done (true, c1) ->
  sv_dataServer s = Some ds -> rwire_ok details ds -> rwire details ds = [] ->
  net = bool_decide (ds_byteOrder ds = NETWORK_ORDER) -> Forall good_msg rs ->
  server_replies details rs s = Done (true, s') -> sv_dataServer s' = Some ds' ->
  NoDup (map names rs) ->
  cd_connIndex d = 0 -> receives_on st c -> in_step net B st [] ->
  Forall (fun b => node_ok b /\ 0 < bn_length b <= B /\ bn_length b < 2 ^ 31) bs ->
  concat (map node_bytes bs) = rwire details ds' -> (2 * length rs + 3 <= fuel)%nat ->
  (forall bs1 bs2, bs = bs1 ++ bs2 -> clean_cut net B (concat (map node_bytes bs1))) ->
  exists c2, client_run fuel alloc_all (map (CV_bytes d) bs) c1 = Done c2 /\
  (forall a m r timeout, a ∈ msgs -> mc_heap c1 !! a = Some m -> r ∈ rs -> names r = names m ->
     exists p rsp, waitPendingResponse (MkMsgRequestData (m_requestId (msg_header m)) (m_requestIndex (msg_header m)))
         timeout [] None (mc_requestPool c2) = Done (E_OK, Some rsp, p) /\ mc_heap c2 !! rsp = Some r /\
       vacant_at p (m_requestIndex (msg_header m)) /\
       same_but (m_requestIndex (msg_header m)) (mc_requestPool c2) p) /\
  (forall a m, a ∈ msgs -> mc_heap c1 !! a = Some m -> (forall r, r ∈ rs -> names r <> names m) ->
     pending_at (mc_requestPool c2) (m_requestIndex (msg_header m)) (m_requestId (msg_header m))) /\
  (forall a r, mc_heap c2 !! a = Some r -> mc_heap c1 !! a = None ->
     r ∈ rs /\ exists i q, zget (p_requests (mc_requestPool c1)) i = Some q /\ response_for i q r).
Proof.
  intros Hf Ha Hok Hid Hdc Hnd Hms Hsend Hds Hwok Hw0 Hnet Hrs Hrep Hds' Hnames Hd Hc Hst Hbs Hbytes Hfuel Hcut.
  destruct (sends_pending alloc now flags Hf Ha msgs c dc c1 Hok Hid Hdc Hnd Hms Hsend)
    as (ms & Hheaps & Hps & _ & _ & _ & Hasm).
  destruct (replies_ok details rs s ds s' Hds Hwok Hrs Hrep) as (ds1 & Hds1 & _ & _ & Hw).
  rewrite Hds' in Hds1. injection Hds1 as <-.
  rewrite Hw0, <- Hnet in Hw. cbn [app] in Hw. unfold receives_on in Hc. rewrite <- Hasm in Hc.
  destruct (client_run_ok fuel d net B [] bs Hd rs st [] c1 Hc Hst Hbs) as (st' & c2 & Hrun & _ & _ & Hans); try done.
  { cbn [app]. by rewrite Hbytes, Hw, app_nil_r. }
  { by left. }
  assert (Hpend : forall a m, a ∈ msgs -> mc_heap c1 !! a = Some m -> exists q,
    zget (p_requests (mc_requestPool c1)) (fst (names m)) = Some q /\ rq_status q = RS_PENDING /\ rq_requestId q = snd (names m)).
  { intros a m [k Hk]%list_elem_of_lookup Hm. destruct (Forall2_lookup_l _ _ _ _ _ Hheaps Hk) as (m0 & Hk0 & Hm0).
    rewrite Hm in Hm0. injection Hm0 as <-. rewrite List.Forall_forall in Hps.
    destruct (Hps m) as [_ Hp0]; [apply list_elem_of_In; by apply list_elem_of_lookup_2 with k|]. exact Hp0. }
  exists c2. split; [done|]. split; [|split].
  - intros a m r timeout Hin Hm Hr Hn. destruct (Hpend a m Hin Hm) as (q & Hq & Hst0 & Hq0).
    assert (Hfor : response_for (fst (names m)) q r) by (rewrite <- Hn; split; [done|]; rewrite Hq0, <- Hn; done).
    destruct (an_stored _ _ _ Hans _ q r Hq Hr Hfor) as (rsp & Hstored & Hrsp & _).
    destruct (wait_arrived _ _ q rsp timeout Hstored) as (p & Hwait & Hv & Hs). rewrite Hq0 in Hwait.
    by exists p, rsp.
  - intros a m Hin Hm Hno. destruct (Hpend a m Hin Hm) as (q & Hq & Hst0 & Hq0). exists q. split; [|done].
    apply (an_kept _ _ _ Hans); [done|]. intros r Hr [Hi Hid0]. apply (Hno r Hr).
    unfold names in *. cbn [fst snd] in *. congruence.
  - intros a r Hr Hnew. destruct (an_only _ _ _ Hans a r Hr Hnew) as (Hin & i & q & Hq & Hfor & _). split; [done|]. by exists i, q.
Qed.
End System.
