(* ===== verification/Transport.v ===== *)
(** * The event loop of libuv and DataServer (src/transport/transport.cpp,
    inc/transport/data_server.h, src/transport/data_server.cpp,
    inc/transport/data_stream_server.h, src/transport/data_stream_server.cpp,
    inc/transport/data_allocator.h, src/transport/data_allocator.cpp)

    Libuv is not part of the program: its calls return results that the environment
    chooses, and are recorded; its callbacks are operations of the model that the
    environment may run. Objects that are handed to libuv live in a heap. *)

From Stdlib Require Import ZArith Lia.
From stdpp Require Import gmap.
From coqutil Require Import Byte.
From S2P Require Import Prelude Errors Io Connection Segmented Assembler Client.
Open Scope Z_scope.

(** ** Definitions *)

(** the handles of a server: the listening socket and pipe, both ends of the pipe of an IO
    task, and the sockets of a connection slot in the server's loop and in a task's loop;
    and the socket or pipe of a client *)
Inductive uv_handle :=
| H_client
| H_server | H_pipeServer | H_clientPipe (task : Z) | H_serverPipe (task : Z)
| H_socket (index : Z) | H_socket2 (index : Z).

#[export] Instance uv_handle_eq_dec : EqDecision uv_handle.
Proof. solve_decision. Defined.

(** [uv_async_init_at]: in the loop that the handle belongs to *)
Inductive uv_call :=
| uv_loop_init (loop : Z) | uv_loop_close (loop : Z) | uv_run_once (loop : Z) | uv_walk (loop : Z)
| uv_async_init (loop : Z) | uv_async_init_at (handle : uv_handle) | uv_async_send | uv_close_async
| uv_tcp_init (loop : Z) (handle : uv_handle) | uv_ip4_addr | uv_tcp_bind (handle : uv_handle)
| uv_pipe_init (loop : Z) (handle : uv_handle) | unlink | uv_pipe_bind (handle : uv_handle)
| uv_pipe_pending_instances (count : Z) | uv_pipe_connect (handle : uv_handle)
| uv_listen (handle : uv_handle) (backlog : Z) | uv_accept (handle : uv_handle)
| uv_read_start (handle : uv_handle) | uv_close (handle : uv_handle)
| uv_write2 (pipe handle : uv_handle) | uv_stop (loop : Z)
| uv_write (handle : uv_handle) (data : list Byte.byte)
| uv_udp_init (loop : Z) | uv_udp_bind | uv_udp_recv_start | uv_timer_init (loop : Z)
| uv_timer_start (timeout repeat : Z) | uv_timer_stop | uv_shutdown (handle : uv_handle)
| uv_tcp_connect (handle : uv_handle) | uv_udp_recv_stop | uv_udp_getsockname
| uv_udp_send (host : Stdlib.Strings.String.string) (port : Z) (data : list Byte.byte).

#[export] Instance uv_call_eq_dec : EqDecision uv_call.
Proof. solve_decision. Defined.

(** ServerBufferData: the server is the one of the model *)
Record ServerBufferData := MkServerBufferData {
  sb_connectionIndex : Z;
  sb_buf : Z;
  sb_len : Z;
  sb_shouldDeallocateBuffer : bool;
}.

(** ClientBufferData: the client is the one of the model *)
Record ClientBufferData := MkClientBufferData {
  cb_buf : Z;
  cb_len : Z;
  cb_shouldDeallocateBuffer : bool;
  cb_userData : option Z;
}.

(** what the allocators handed out; the data of an asynchronous request is a
    ServerBufferData or ClientBufferData, or the server or client itself ([None]) *)
Inductive uv_obj :=
| O_buffer (data : list Byte.byte)
| O_serverBufferData (sbd : ServerBufferData)
| O_clientBufferData (cbd : ClientBufferData)
| O_connect
| O_async (data : option Z)
| O_write (data : Z)
| O_write2
| O_udpSend (data : Z)
| O_terminateData.

(** results of the next allocations and of the next calls of libuv ([[]]: success), the
    calls that were made, and the heap with its next address *)
Record UvEnv := MkUvEnv {
  uv_allocs : list bool;
  uv_results : list Z;
  uv_calls : list uv_call;
  uv_next : Z;
  uv_heap : gmap Z uv_obj;
}.

Definition UvEnv_new : UvEnv := MkUvEnv [] [] [] 1 ∅.

Definition set_uv_heap (h : gmap Z uv_obj) (e : UvEnv) : UvEnv :=
  MkUvEnv (uv_allocs e) (uv_results e) (uv_calls e) (uv_next e) h.

Definition uv_alloc (o : uv_obj) (e : UvEnv) : option Z * UvEnv :=
  let rest := tail (uv_allocs e) in
  if default true (head (uv_allocs e)) then
    (Some (uv_next e),
     MkUvEnv rest (uv_results e) (uv_calls e) (uv_next e + 1) (<[uv_next e := o]> (uv_heap e)))
  else (None, MkUvEnv rest (uv_results e) (uv_calls e) (uv_next e) (uv_heap e)).

Definition uv_free (p : Z) (e : UvEnv) : outcome UvEnv :=
  match uv_heap e !! p with
  | Some _ => Done (set_uv_heap (delete p (uv_heap e)) e)
  | None => Undef UB_freed
  end.

(** freeAsyncRequest. The data of an asynchronous request is set when its loop knows it
    ([O_async (Some p)]) and reset when it is given to uv_close; in between the loop
    refers to it, and it must not be freed. *)
Definition freeAsyncRequest (asyncReq : Z) (e : UvEnv) : outcome UvEnv :=
  match uv_heap e !! asyncReq with
  | Some (O_async None) => uv_free asyncReq e
  | Some (O_async (Some _)) => Undef UB_handle
  | Some _ => Undef UB_uninit
  | None => Undef UB_freed
  end.

(** a call of libuv *)
Definition uv (c : uv_call) (e : UvEnv) : Z * UvEnv :=
  (default 0 (head (uv_results e)),
   MkUvEnv (uv_allocs e) (tail (uv_results e)) (uv_calls e ++ [c]) (uv_next e) (uv_heap e)).

(** a call whose result the code does not look at *)
Definition uv_do (c : uv_call) (e : UvEnv) : UvEnv :=
  MkUvEnv (uv_allocs e) (uv_results e) (uv_calls e ++ [c]) (uv_next e) (uv_heap e).

Definition sbd_at (p : Z) (e : UvEnv) : outcome ServerBufferData :=
  match uv_heap e !! p with
  | Some (O_serverBufferData sbd) => Done sbd
  | Some _ => Undef UB_uninit
  | None => Undef UB_freed
  end.

Definition cbd_at (p : Z) (e : UvEnv) : outcome ClientBufferData :=
  match uv_heap e !! p with
  | Some (O_clientBufferData cbd) => Done cbd
  | Some _ => Undef UB_uninit
  | None => Undef UB_freed
  end.

Definition buffer_at (p : Z) (e : UvEnv) : outcome (list Byte.byte) :=
  match uv_heap e !! p with
  | Some (O_buffer data) => Done data
  | Some _ => Undef UB_uninit
  | None => Undef UB_freed
  end.

(** stopTransportLoop: [joinable] tells whether the thread runs; before it ends, its loop
    runs [cb]. The asynchronous request is a local variable of the function, which ends
    while the loop refers to it if uv_async_send fails. The result has the thread and the environment. *)
Definition stopTransportLoop {A} (loop : Z) (joinable closeLoop : bool) (hasCb : bool)
    (cb : A * UvEnv -> outcome (A * UvEnv)) (a : A) (e : UvEnv)
  : outcome (ErrorCode * bool * A * UvEnv) :=
  let '(terminateData, e) := if hasCb then uv_alloc O_terminateData e else (None, e) in
  if hasCb && bool_decide (terminateData = None) then Done (E_NOMEM, joinable, a, e) else
  let free e := match terminateData with Some p => uv_free p e | None => Done e end in
  let '(res, e) := uv (uv_async_init loop) e in
  if negb (res =? 0) then let* e := free e in Done (E_TRANSPORT_ERROR, joinable, a, e) else
  let '(res, e) := uv uv_async_send e in
  if negb (res =? 0) then let* _ := free e in Undef UB_handle else
  if negb joinable then Undef UB_throw else
  let* '(a, e) := if hasCb then cb (a, e) else Done (a, e) in
  let e := uv_do (uv_run_once loop) (uv_do (uv_walk loop) (uv_do uv_close_async e)) in
  if closeLoop then
    let '(res, e) := uv (uv_loop_close loop) e in
    if res <? 0 then let* e := free e in Done (E_TRANSPORT_ERROR, false, a, e)
    else let* e := free e in Done (E_OK, false, a, e)
  else let* e := free e in Done (E_OK, false, a, e).

(** ** DataServer *)

Inductive RunState := RS_IDLE | RS_STARTING_UP | RS_RUNNING | RS_SHUTTING_DOWN.

#[export] Instance RunState_eq_dec : EqDecision RunState.
Proof. solve_decision. Defined.

(** ConnectionData; the handle is the socket of the connection, [None] for null *)
Record ConnectionData := MkConnectionData {
  cdt_connectionHandle : option uv_handle;
  cdt_connectionIndex : Z;
  cdt_isUsed : bool;
  cdt_connectionId : Z;
  cdt_connectionDetails : ConnectionDetails;
}.

Definition set_isUsed (b : bool) (c : ConnectionData) : ConnectionData :=
  MkConnectionData (cdt_connectionHandle c) (cdt_connectionIndex c) b (cdt_connectionId c)
    (cdt_connectionDetails c).
Definition set_handle (h : option uv_handle) (c : ConnectionData) : ConnectionData :=
  MkConnectionData h (cdt_connectionIndex c) (cdt_isUsed c) (cdt_connectionId c)
    (cdt_connectionDetails c).
Definition set_details (d : ConnectionDetails) (c : ConnectionData) : ConnectionData :=
  MkConnectionData (cdt_connectionHandle c) (cdt_connectionIndex c) (cdt_isUsed c)
    (cdt_connectionId c) d.

(** DataListener *)
Class DataListener (U : Type) := {
  dl_onConnect : ConnectionDetails -> Z -> U -> bool * U;
  dl_onDisconnect : ConnectionDetails -> U -> U;
  dl_onReadError : ConnectionDetails -> Z -> U -> U;
  dl_onWriteError : ConnectionDetails -> Z -> U -> U;
  dl_onBytesReceived : ConnectionDetails -> Z -> Z -> bool -> U -> DataAction * U;
  dl_onBytesSent : ConnectionDetails -> Z -> Z -> U -> U;
}.

(** the server: m_connDataArray ([None] is null), m_maxConnections, m_nextConnectionId,
    m_runState, whether m_serverThread runs, the derived class's state, the listener's
    state and the environment *)
Record DServer (T U : Type) := MkDServer {
  dv_connDataArray : option (list ConnectionData);
  dv_maxConnections : Z;
  dv_nextConnectionId : Z;
  dv_runState : RunState;
  dv_serverThread : bool;
  dv_transport : T;
  dv_listener : U;
  dv_env : UvEnv;
}.

Arguments MkDServer {T U}.
Arguments dv_connDataArray {T U}.
Arguments dv_maxConnections {T U}.
Arguments dv_nextConnectionId {T U}.
Arguments dv_runState {T U}.
Arguments dv_serverThread {T U}.
Arguments dv_transport {T U}.
Arguments dv_listener {T U}.
Arguments dv_env {T U}.

(** the virtual functions of DataServer; [newDetails] is what createConnectionData puts
    into the connection details *)
Class ServerTransport (T U : Type) := {
  initializeTransport : DServer T U -> outcome (ErrorCode * DServer T U);
  terminateTransport : DServer T U -> outcome (ErrorCode * DServer T U);
  startTransport : DServer T U -> outcome (ErrorCode * DServer T U);
  stopTransport : DServer T U -> outcome (ErrorCode * DServer T U);
  onStopTransport : DServer T U -> outcome (DServer T U);
  writeTransport : Z -> DServer T U -> outcome (ErrorCode * DServer T U);
  newDetails : DServer T U -> ConnectionDetails;
}.

Section DataServer.
Context {T U : Type} `{ServerTransport T U} `{DataListener U}.
Implicit Types s : DServer T U.

Definition set_array (a : option (list ConnectionData)) s : DServer T U :=
  MkDServer a (dv_maxConnections s) (dv_nextConnectionId s) (dv_runState s) (dv_serverThread s)
    (dv_transport s) (dv_listener s) (dv_env s).
Definition set_maxConnections (n : Z) s : DServer T U :=
  MkDServer (dv_connDataArray s) n (dv_nextConnectionId s) (dv_runState s) (dv_serverThread s)
    (dv_transport s) (dv_listener s) (dv_env s).
Definition set_nextConnectionId (n : Z) s : DServer T U :=
  MkDServer (dv_connDataArray s) (dv_maxConnections s) n (dv_runState s) (dv_serverThread s)
    (dv_transport s) (dv_listener s) (dv_env s).
Definition setRunState (r : RunState) s : DServer T U :=
  MkDServer (dv_connDataArray s) (dv_maxConnections s) (dv_nextConnectionId s) r (dv_serverThread s)
    (dv_transport s) (dv_listener s) (dv_env s).
Definition set_serverThread (b : bool) s : DServer T U :=
  MkDServer (dv_connDataArray s) (dv_maxConnections s) (dv_nextConnectionId s) (dv_runState s) b
    (dv_transport s) (dv_listener s) (dv_env s).
Definition set_transport (t : T) s : DServer T U :=
  MkDServer (dv_connDataArray s) (dv_maxConnections s) (dv_nextConnectionId s) (dv_runState s)
    (dv_serverThread s) t (dv_listener s) (dv_env s).
Definition set_listener_state (u : U) s : DServer T U :=
  MkDServer (dv_connDataArray s) (dv_maxConnections s) (dv_nextConnectionId s) (dv_runState s)
    (dv_serverThread s) (dv_transport s) u (dv_env s).
Definition set_env (e : UvEnv) s : DServer T U :=
  MkDServer (dv_connDataArray s) (dv_maxConnections s) (dv_nextConnectionId s) (dv_runState s)
    (dv_serverThread s) (dv_transport s) (dv_listener s) e.

(** operations of the environment on the server *)
Definition s_alloc (o : uv_obj) s : option Z * DServer T U :=
  let '(p, e) := uv_alloc o (dv_env s) in (p, set_env e s).
Definition s_free (p : Z) s : outcome (DServer T U) :=
  let* e := uv_free p (dv_env s) in Done (set_env e s).
Definition s_freeAsync (p : Z) s : outcome (DServer T U) :=
  let* e := freeAsyncRequest p (dv_env s) in Done (set_env e s).
Definition s_uv (c : uv_call) s : Z * DServer T U :=
  let '(res, e) := uv c (dv_env s) in (res, set_env e s).
Definition s_do (c : uv_call) s : DServer T U := set_env (uv_do c (dv_env s)) s.

(** m_connDataArray[index] *)
Definition conn_at_index (index : Z) s : outcome ConnectionData :=
  match dv_connDataArray s with
  | None => Undef UB_null
  | Some cs => mem_get cs index
  end.
Definition conn_update (index : Z) (c : ConnectionData) s : DServer T U :=
  match dv_connDataArray s with
  | None => s
  | Some cs => set_array (Some (zset cs index c)) s
  end.

(** an operation on the slot that a pointer to its connection data stands for *)
Definition conn_modify (index : Z) (f : ConnectionData -> ConnectionData) s : outcome (DServer T U) :=
  let* c := conn_at_index index s in Done (conn_update index (f c) s).

(** m_isUsed = 0 *)
Definition release (index : Z) s : outcome (DServer T U) := conn_modify index (set_isUsed false) s.

(** close of the handle of a slot that cannot be served, which is then free *)
Definition drop_connection (socket : uv_handle) (i : Z) s : outcome (DServer T U) :=
  release i (s_do (uv_close socket) s).

Definition getRunState s : RunState := dv_runState s.

Definition changeRunState (from to : RunState) s : bool * DServer T U :=
  if decide (dv_runState s = from) then (true, setRunState to s) else (false, s).

(** a new slot of [initConnDataArray] *)
Definition ConnectionData_init (i : Z) s : ConnectionData :=
  MkConnectionData None i false (u64 (-1)) (setConnectionIndex i (newDetails s)).

(** [allocs]: which allocations succeed, the array first *)
Definition initConnDataArray (allocs : nat -> bool) (maxConnections : Z) s : bool * DServer T U :=
  if allocs 0%nat then
    let s := set_maxConnections maxConnections s in
    if forallb (fun i => allocs (S i)) (seq 0 (Z.to_nat maxConnections)) then
      (true, set_array (Some (map (fun i => ConnectionData_init (Z.of_nat i) s)
                                (seq 0 (Z.to_nat maxConnections)))) s)
    else (false, set_array None s)
  else (false, set_array None s).

Definition termConnDataArray s : DServer T U := set_maxConnections 0 (set_array None s).

Definition SERVER_LOOP : Z := 0.

Definition dserver_initialize (allocs : nat -> bool) (listener : U) (maxConnections : Z) s
  : outcome (ErrorCode * DServer T U) :=
  let '(changed, s) := changeRunState RS_IDLE RS_STARTING_UP s in
  if negb changed then Done (E_INVALID_STATE, s) else
  let '(ok, s) := initConnDataArray allocs maxConnections s in
  if negb ok then Done (E_NOMEM, setRunState RS_IDLE s) else
  let '(res, s) := s_uv (uv_loop_init SERVER_LOOP) s in
  if res <? 0 then Done (E_TRANSPORT_ERROR, setRunState RS_IDLE (termConnDataArray s)) else
  let* '(rc, s) := initializeTransport s in
  if decide (rc <> E_OK) then
    let s := s_do (uv_loop_close SERVER_LOOP) s in
    Done (rc, setRunState RS_IDLE (termConnDataArray s))
  else
  let s := set_listener_state listener s in
  Done (E_OK, setRunState RS_RUNNING s).

Definition dserver_terminate s : outcome (ErrorCode * DServer T U) :=
  let* '(rc, s) := terminateTransport s in
  if decide (rc <> E_OK) then Done (rc, s) else Done (E_OK, termConnDataArray s).

Definition dserver_start s : outcome (ErrorCode * DServer T U) :=
  let s := setRunState RS_RUNNING s in
  let* '(rc, s) := startTransport s in
  if decide (rc <> E_OK) then Done (rc, s) else
  if dv_serverThread s then Undef UB_throw else Done (E_OK, set_serverThread true s).

(** the callback that [stop] runs in the thread of the loop *)
Definition onStopTransportStatic (p : DServer T U * UvEnv) : outcome (DServer T U * UvEnv) :=
  let* s := onStopTransport (set_env (snd p) (fst p)) in Done (s, dv_env s).

Definition dserver_stop s : outcome (ErrorCode * DServer T U) :=
  let '(changed, s) := changeRunState RS_RUNNING RS_SHUTTING_DOWN s in
  if negb changed then Done (E_INVALID_STATE, s) else
  let* '(rc, joinable, s, e) := stopTransportLoop SERVER_LOOP (dv_serverThread s) true true
    onStopTransportStatic s (dv_env s) in
  let s := set_serverThread joinable (set_env e s) in
  if decide (rc <> E_OK) then Done (rc, s) else
  let* '(rc, s) := stopTransport s in
  if decide (rc <> E_OK) then Done (rc, s) else Done (E_OK, setRunState RS_IDLE s).

(** the first slot that is not in use; its flag is taken with a compare-and-swap *)
Fixpoint grab_slot (i : Z) (cs : list ConnectionData) : option Z :=
  match cs with
  | [] => None
  | c :: cs => if cdt_isUsed c then grab_slot (i + 1) cs else Some i
  end.

Definition grabConnectionData s : option Z * DServer T U :=
  let cs := default [] (dv_connDataArray s) in
  match grab_slot 0 cs with
  | None => (None, s)
  | Some i =>
    match zget cs i with
    | None => (None, s)
    | Some c =>
      let id := dv_nextConnectionId s in
      let c := MkConnectionData (cdt_connectionHandle c) (cdt_connectionIndex c) true id
                 (setConnectionId id (cdt_connectionDetails c)) in
      (Some i, set_nextConnectionId (u64 (id + 1)) (conn_update i c s))
    end
  end.

Definition sendWriteResponse (serverBufferData : Z) s : outcome (ErrorCode * option Z * DServer T U) :=
  let* sbd := sbd_at serverBufferData (dv_env s) in
  let* connData := conn_at_index (sb_connectionIndex sbd) s in
  let '(asyncReq, s) := s_alloc (O_async None) s in
  match asyncReq with
  | None => Done (E_NOMEM, None, s)
  | Some asyncReq =>
    match cdt_connectionHandle connData with
    | None => Undef UB_null
    | Some handle =>
      let '(res, s) := s_uv (uv_async_init_at handle) s in
      if negb (res =? 0) then let* s := s_freeAsync asyncReq s in Done (E_TRANSPORT_ERROR, None, s) else
      let s := set_env (set_uv_heap (<[asyncReq := O_async (Some serverBufferData)]> (uv_heap (dv_env s)))
                 (dv_env s)) s in
      let '(res, s) := s_uv uv_async_send s in
      if negb (res =? 0) then let* s := s_freeAsync asyncReq s in Done (E_TRANSPORT_ERROR, None, s) else
      Done (E_OK, Some asyncReq, s)
    end
  end.

(** the buffer that a reply writes: the caller's, or a copy *)
Definition reply_buffer (byRef : bool) (buffer length : Z) s : outcome (option Z * DServer T U) :=
  if byRef then Done (Some buffer, s) else
  let* data := buffer_at buffer (dv_env s) in
  let '(base, s) := s_alloc (O_buffer (replicate (Z.to_nat length) Byte.x00)) s in
  match base with
  | None => Done (None, s)
  | Some base =>
    let* data := mem_read data 0 length in
    Done (Some base, set_env (set_uv_heap (<[base := O_buffer data]> (uv_heap (dv_env s))) (dv_env s)) s)
  end.

(** [buffer] is the address of the caller's buffer; the second result is the request
    that libuv will call back *)
Definition dserver_replyMsg (details : ConnectionDetails) (buffer length flags : Z) s
  : outcome (ErrorCode * option Z * DServer T U) :=
  if decide (getRunState s <> RS_RUNNING) then Done (E_INVALID_STATE, None, s) else
  let byRef := negb (Z.land flags COMMUTIL_MSG_WRITE_BY_REF =? 0) in
  let flags := if byRef then flags else Z.lor flags COMMUTIL_MSG_WRITE_DISPOSE_BUFFER in
  let shouldDisposeBuffer := negb (Z.land flags COMMUTIL_MSG_WRITE_DISPOSE_BUFFER =? 0) in
  let* '(base, s) := reply_buffer byRef buffer length s in
  match base with
  | None => Done (E_NOMEM, None, s)
  | Some base =>
    let free_copy s := if byRef then Done s else s_free base s in
    let '(serverBufferData, s) := s_alloc (O_serverBufferData
      (MkServerBufferData (cd_connIndex details) base length shouldDisposeBuffer)) s in
    match serverBufferData with
    | None => let* s := free_copy s in Done (E_NOMEM, None, s)
    | Some serverBufferData =>
      let* '(rc, asyncReq, s) := sendWriteResponse serverBufferData s in
      if decide (rc <> E_OK) then
        let* s := s_free serverBufferData s in
        let* s := free_copy s in Done (rc, None, s)
      else Done (E_OK, asyncReq, s)
    end
  end.

(** the callback of an asynchronous request: it writes, then closes the request *)
Definition onAsyncWriteStatic (asyncReq : Z) s : outcome (DServer T U) :=
  match uv_heap (dv_env s) !! asyncReq with
  | Some (O_async (Some serverBufferData)) =>
    let* _ := sbd_at serverBufferData (dv_env s) in
    let* '(_, s) := writeTransport serverBufferData s in
    let s := set_env (set_uv_heap (<[asyncReq := O_async None]> (uv_heap (dv_env s))) (dv_env s)) s in
    Done (s_do uv_close_async s)
  | Some _ => Undef UB_uninit
  | None => Undef UB_freed
  end.

Definition onCloseAsyncWriteReqStatic (asyncReq : Z) s : outcome (DServer T U) := s_freeAsync asyncReq s.

(** the callback of a write *)
Definition onWrite (serverBufferData status : Z) s : outcome (DServer T U) :=
  let* sbd := sbd_at serverBufferData (dv_env s) in
  let* connData := conn_at_index (sb_connectionIndex sbd) s in
  let details := cdt_connectionDetails connData in
  let s := set_listener_state
    (if status <? 0 then dl_onWriteError details status (dv_listener s)
     else dl_onBytesSent details (sb_len sbd) status (dv_listener s)) s in
  let* s := if sb_shouldDeallocateBuffer sbd then s_free (sb_buf sbd) s else Done s in
  s_free serverBufferData s.

(** a read: [buf] is the address of the buffer, [None] if there is none *)
Definition onRead (index nread : Z) (buf : option Z) (isDatagram : bool) s : outcome (DServer T U) :=
  let free s := match buf with Some p => s_free p s | None => Done s end in
  let* connData := conn_at_index index s in
  let details := cdt_connectionDetails connData in
  if nread <? 0 then free (set_listener_state (dl_onReadError details (i32 nread) (dv_listener s)) s)
  else if nread =? 0 then free s
  else match buf with
  | None => Undef UB_null
  | Some p =>
    let '(action, u) := dl_onBytesReceived details p (u32 nread) isDatagram (dv_listener s) in
    let s := set_listener_state u s in
    match action with DATA_CAN_DELETE => free s | _ => Done s end
  end.

(** what the data of a handle points to: the server, or the data of a connection *)
Inductive handle_data := HD_server | HD_connection (index : Z).

(** the close callback of a connection, which takes the data of the handle for the server
    and calls a member function of it (that does nothing) *)
Definition dserver_onClose s : DServer T U := s.

Definition dserver_onCloseStatic (data : handle_data) s : outcome (DServer T U) :=
  match data with
  | HD_server => Done (dserver_onClose s)
  | HD_connection _ => Undef UB_cast
  end.

Definition onAllocBuffer (suggestedSize : Z) s : option Z * DServer T U :=
  s_alloc (O_buffer (replicate (Z.to_nat suggestedSize) Byte.x00)) s.

(** *** DataStreamServer *)

Definition stream_writeTransport (serverBufferData : Z) s : outcome (ErrorCode * DServer T U) :=
  let '(writeReq, s) := s_alloc (O_write serverBufferData) s in
  match writeReq with
  | None => Done (E_NOMEM, s)
  | Some writeReq =>
    let* sbd := sbd_at serverBufferData (dv_env s) in
    let* connData := conn_at_index (sb_connectionIndex sbd) s in
    let* data := buffer_at (sb_buf sbd) (dv_env s) in
    let* data := mem_read data 0 (sb_len sbd) in
    match cdt_connectionHandle connData with
    | None => Undef UB_null
    | Some handle =>
      let '(res, s) := s_uv (uv_write handle data) s in
      if res <? 0 then let* s := s_free writeReq s in Done (E_TRANSPORT_ERROR, s)
      else Done (E_OK, s)
    end
  end.

Definition onWriteStatic (req status : Z) s : outcome (DServer T U) :=
  match uv_heap (dv_env s) !! req with
  | Some (O_write serverBufferData) =>
    let* s := onWrite serverBufferData status s in s_free req s
  | Some _ => Undef UB_uninit
  | None => Undef UB_freed
  end.
End DataServer.

(** ** The heap *)

Definition env_ok (e : UvEnv) : Prop := forall p, uv_next e <= p -> uv_heap e !! p = None.

Section Heap.
Context {T U : Type} `{ServerTransport T U} `{DataListener U}.
Implicit Types s : DServer T U.

Lemma set_env_set_env e e' s : set_env e (set_env e' s) = set_env e s.
Proof. done. Qed.

Lemma set_env_id s : set_env (dv_env s) s = s.
Proof. by destruct s. Qed.

Lemma uv_alloc_inv o e r e' : env_ok e -> uv_alloc o e = (r, e') ->
  env_ok e' /\
  match r with
  | Some p => uv_heap e !! p = None /\ uv_heap e' = <[p := o]> (uv_heap e)
  | None => uv_heap e' = uv_heap e
  end.
Proof.
  intros Hok. unfold uv_alloc. destruct (default true _); intros [= <- <-]; cbn.
  - split; [|split; [apply Hok; lia|done]]. intros p Hp. cbn in *.
    rewrite lookup_insert_ne by lia. apply Hok. lia.
  - split; [exact Hok|done].
Qed.

Lemma s_alloc_inv o s r s' : env_ok (dv_env s) -> s_alloc o s = (r, s') ->
  exists e, s' = set_env e s /\ env_ok e /\
  match r with
  | Some p => uv_heap (dv_env s) !! p = None /\ uv_heap e = <[p := o]> (uv_heap (dv_env s))
  | None => uv_heap e = uv_heap (dv_env s)
  end.
Proof.
  intros Hok. unfold s_alloc. destruct (uv_alloc o (dv_env s)) as [p e] eqn:Ha. intros [= <- <-].
  exists e. split; [done|]. by apply uv_alloc_inv in Ha.
Qed.

Lemma uv_free_inv p e e' : env_ok e -> uv_free p e = Done e' ->
  env_ok e' /\ uv_heap e' = delete p (uv_heap e).
Proof.
  intros Hok. unfold uv_free. destruct (uv_heap e !! p); intros [= <-]. split; [|done].
  intros q Hq. cbn in *. apply lookup_delete_None. right. by apply Hok.
Qed.

Lemma s_free_inv p s s' : env_ok (dv_env s) -> s_free p s = Done s' ->
  exists e, s' = set_env e s /\ env_ok e /\ uv_heap e = delete p (uv_heap (dv_env s)).
Proof.
  intros Hok. unfold s_free. intros (e & Hf & [= <-])%outcome_bind_inv.
  exists e. split; [done|]. by apply uv_free_inv in Hf.
Qed.

Lemma s_freeAsync_inv p s s' : env_ok (dv_env s) -> s_freeAsync p s = Done s' ->
  uv_heap (dv_env s) !! p = Some (O_async None) /\
  exists e, s' = set_env e s /\ env_ok e /\ uv_heap e = delete p (uv_heap (dv_env s)).
Proof.
  intros Hok. unfold s_freeAsync, freeAsyncRequest. destruct (uv_heap (dv_env s) !! p) as [[| | | |[]| | | |]|]; try done.
  intros Hf. split; [done|]. by apply s_free_inv in Hf.
Qed.

Lemma s_uv_inv c s r s' : env_ok (dv_env s) -> s_uv c s = (r, s') ->
  exists e, s' = set_env e s /\ env_ok e /\ uv_heap e = uv_heap (dv_env s).
Proof. intros Hok. unfold s_uv, uv. cbn. intros [= <- <-]. eexists. split; [done|]. done. Qed.

Lemma sendWriteResponse_failed sbd s rc r s' : env_ok (dv_env s) ->
  sendWriteResponse sbd s = Done (rc, r, s') -> rc <> E_OK ->
  exists e, s' = set_env e s /\ env_ok e /\ uv_heap e = uv_heap (dv_env s).
Proof.
  intros Hok. unfold sendWriteResponse. intros (d & _ & Hs)%outcome_bind_inv Hrc.
  apply outcome_bind_inv in Hs as (c & _ & Hs).
  destruct (s_alloc (O_async None) s) as [[p|] s1] eqn:Ha;
    apply (s_alloc_inv _ _ _ _ Hok) in Ha as (e1 & -> & Hok1 & Hh1); [|injection Hs as <- <- <-; by exists e1].
  destruct Hh1 as [Hfresh Hh1]. destruct (cdt_connectionHandle c) as [h|]; [|done].
  destruct (s_uv (uv_async_init_at h) _) as [res s2] eqn:Hu2.
  apply (s_uv_inv _ (set_env e1 s) _ _ Hok1) in Hu2 as (e2 & -> & Hok2 & Hh2). cbn [dv_env set_env] in Hh2.
  destruct (negb (res =? 0)).
  { apply outcome_bind_inv in Hs as (s3 & Hf & [= <- <- <-]).
    apply (s_freeAsync_inv _ (set_env e2 s) _ Hok2) in Hf as (_ & e3 & -> & Hok3 & Hh3). exists e3. split; [done|]. split; [done|].
    cbn in Hh3. by rewrite Hh3, Hh2, Hh1, delete_insert_id. }
  set (e3 := set_uv_heap _ _) in Hs.
  assert (Hok3 : env_ok e3).
  { intros q Hq. cbn in *. rewrite lookup_insert_ne; [by apply Hok2|].
    intros <-. apply Hok2 in Hq. by rewrite Hh2, Hh1, lookup_insert_eq in Hq. }
  destruct (s_uv uv_async_send _) as [res2 s4] eqn:Hu4.
  apply (s_uv_inv _ (set_env e3 s) _ _ Hok3) in Hu4 as (e4 & -> & Hok4 & Hh4).
  destruct (negb (res2 =? 0)); [|by injection Hs as <- _ _].
  apply outcome_bind_inv in Hs as (s5 & Hf & _).
  apply (s_freeAsync_inv _ (set_env e4 s) _ Hok4) in Hf as [Hf _]. cbn in Hf, Hh4.
  by rewrite Hh4, lookup_insert_eq in Hf.
Qed.

Lemma reply_buffer_inv byRef b len s r s' : env_ok (dv_env s) -> reply_buffer byRef b len s = Done (r, s') ->
  exists e, s' = set_env e s /\ env_ok e /\
  match r with
  | None => byRef = false /\ uv_heap e = uv_heap (dv_env s)
  | Some p => if byRef then p = b /\ uv_heap e = uv_heap (dv_env s)
              else uv_heap (dv_env s) !! p = None /\ exists data, buffer_at b (dv_env s) = Done data /\
                mem_read data 0 len = Done (ztake len data) /\
                uv_heap e = <[p := O_buffer (ztake len data)]> (uv_heap (dv_env s))
  end.
Proof.
  intros Hok. unfold reply_buffer. destruct byRef.
  { intros [= <- <-]. exists (dv_env s). by rewrite set_env_id. }
  intros (data & Hb & Hr)%outcome_bind_inv.
  destruct (s_alloc _ s) as [[p|] s1] eqn:Ha; apply (s_alloc_inv _ _ _ _ Hok) in Ha as (e1 & -> & Hok1 & Hh1).
  - destruct Hh1 as [Hf Hh1]. apply outcome_bind_inv in Hr as (d2 & Hd2 & [= <- <-]).
    eexists. split; [rewrite set_env_set_env; reflexivity|].
    assert (Hd : d2 = ztake len data).
    { unfold mem_read in Hd2. destruct (_ && _); [|done]. by injection Hd2 as <-. }
    subst d2. split.
    + intros q Hq. cbn in *. rewrite lookup_insert_ne; [by apply Hok1|].
      intros <-. apply Hok1 in Hq. by rewrite Hh1, lookup_insert_eq in Hq.
    + split; [done|]. exists data. split; [done|]. split; [done|]. cbn. by rewrite Hh1, insert_insert_eq.
  - injection Hr as <- <-. by exists e1.
Qed.

(** a reply that returns a failure leaves nothing behind *)
Lemma failed_reply_heap d b len flags s rc r s' : env_ok (dv_env s) ->
  dserver_replyMsg d b len flags s = Done (rc, r, s') -> rc <> E_OK ->
  exists e, s' = set_env e s /\ uv_heap e = uv_heap (dv_env s).
Proof.
  intros Hok. unfold dserver_replyMsg. case_decide.
  { intros [= <- <- <-] _. exists (dv_env s). by rewrite set_env_id. }
  set (byRef := negb (Z.land flags COMMUTIL_MSG_WRITE_BY_REF =? 0)).
  intros ([base s1] & Hb & Hr)%outcome_bind_inv Hrc.
  apply (reply_buffer_inv _ _ _ _ _ _ Hok) in Hb as (e1 & -> & Hok1 & Hb).
  destruct base as [p|]; [|destruct Hb as [_ Hh]; injection Hr as <- <- <-; by exists e1].
  destruct (s_alloc _ _) as [[q|] s2] eqn:Ha;
    apply (s_alloc_inv _ (set_env e1 s) _ _ Hok1) in Ha as (e2 & -> & Hok2 & Hh2).
  - destruct Hh2 as [Hf2 Hh2]. cbn [dv_env set_env] in Hf2, Hh2.
    apply outcome_bind_inv in Hr as ([[rc1 req] s3] & Hw & Hr).
    case_decide as Hrc1; [|by injection Hr as <- _ _].
    apply (sendWriteResponse_failed _ (set_env e2 s) _ _ _ Hok2) in Hw as (e3 & -> & Hok3 & Hh3); [|done].
    apply outcome_bind_inv in Hr as (s4 & Hf4 & Hr).
    apply (s_free_inv _ (set_env e3 s) _ Hok3) in Hf4 as (e4 & -> & Hok4 & Hh4).
    cbn [dv_env set_env] in Hh3, Hh4. rewrite Hh3, Hh2, delete_insert_id in Hh4 by done.
    destruct byRef.
    + injection Hr as <- <- <-. exists e4. split; [done|]. rewrite Hh4. by destruct Hb as [_ ->].
    + apply outcome_bind_inv in Hr as (s5 & Hf5 & [= <- <- <-]).
      apply (s_free_inv _ (set_env e4 s) _ Hok4) in Hf5 as (e5 & -> & _ & Hh5). exists e5. split; [done|].
      cbn [dv_env set_env] in Hh5. destruct Hb as (Hfp & data & _ & _ & Hh1).
      by rewrite Hh5, Hh4, Hh1, delete_insert_id.
  - cbn [dv_env set_env] in Hh2. destruct byRef; apply outcome_bind_inv in Hr as (s3 & Hf3 & [= <- <- <-]).
    + injection Hf3 as <-. exists e2. split; [done|]. rewrite Hh2. by destruct Hb as [_ ->].
    + apply (s_free_inv _ (set_env e2 s) _ Hok2) in Hf3 as (e3 & -> & _ & Hh3). exists e3. split; [done|].
      cbn [dv_env set_env] in Hh3. destruct Hb as (Hfp & data & _ & _ & Hh1).
      by rewrite Hh3, Hh2, Hh1, delete_insert_id.
Qed.
End Heap.

(** ** A reply on its way *)

(** every allocation and every call of libuv succeeds *)
Definition calm (e : UvEnv) : Prop := uv_allocs e = [] /\ uv_results e = [].

Section Replies.
Context {T U : Type} `{ServerTransport T U} `{DataListener U}.
Implicit Types s : DServer T U.

Lemma s_alloc_calm o s : calm (dv_env s) -> s_alloc o s =
  (Some (uv_next (dv_env s)), set_env (MkUvEnv [] [] (uv_calls (dv_env s)) (uv_next (dv_env s) + 1)
    (<[uv_next (dv_env s) := o]> (uv_heap (dv_env s)))) s).
Proof. intros [Ha Hr]. unfold s_alloc, uv_alloc. rewrite Ha, Hr. done. Qed.

Lemma s_uv_calm c s : calm (dv_env s) -> s_uv c s =
  (0, set_env (MkUvEnv [] [] (uv_calls (dv_env s) ++ [c]) (uv_next (dv_env s)) (uv_heap (dv_env s))) s).
Proof. intros [Ha Hr]. unfold s_uv, uv. rewrite Ha, Hr. done. Qed.

Lemma s_free_ok p o s : uv_heap (dv_env s) !! p = Some o ->
  s_free p s = Done (set_env (set_uv_heap (delete p (uv_heap (dv_env s))) (dv_env s)) s).
Proof. intros Hp. unfold s_free, uv_free. by rewrite Hp. Qed.

Lemma sendWriteResponse_calm p sbd c h s : calm (dv_env s) -> env_ok (dv_env s) ->
  uv_heap (dv_env s) !! p = Some (O_serverBufferData sbd) ->
  conn_at_index (sb_connectionIndex sbd) s = Done c -> cdt_connectionHandle c = Some h ->
  let req := uv_next (dv_env s) in
  sendWriteResponse p s = Done (E_OK, Some req, set_env (MkUvEnv [] []
    (uv_calls (dv_env s) ++ [uv_async_init_at h; uv_async_send]) (req + 1)
    (<[req := O_async (Some p)]> (uv_heap (dv_env s)))) s).
Proof.
  intros Hc Hok Hp Hi Hh req. unfold sendWriteResponse, sbd_at. rewrite Hp. cbn [outcome_bind].
  rewrite Hi. cbn [outcome_bind]. rewrite s_alloc_calm, Hh by done.
  rewrite s_uv_calm by done. cbn [Z.eqb negb]. rewrite s_uv_calm by done. cbn [Z.eqb negb].
  rewrite set_env_set_env. cbn. by rewrite insert_insert_eq, <- app_assoc.
Qed.

(** an asynchronous request that was closed *)
Lemma s_freeAsync_ok p s : uv_heap (dv_env s) !! p = Some (O_async None) ->
  s_freeAsync p s = Done (set_env (set_uv_heap (delete p (uv_heap (dv_env s))) (dv_env s)) s).
Proof. intros Hp. unfold s_freeAsync, freeAsyncRequest. rewrite Hp. by apply (s_free_ok _ (O_async None)). Qed.

(** one that its loop refers to *)
Lemma s_freeAsync_live p q s : uv_heap (dv_env s) !! p = Some (O_async (Some q)) -> s_freeAsync p s = Undef UB_handle.
Proof. intros Hp. unfold s_freeAsync, freeAsyncRequest. by rewrite Hp. Qed.

Lemma s_alloc_eq o s : uv_allocs (dv_env s) = [] -> s_alloc o s =
  (Some (uv_next (dv_env s)), set_env (MkUvEnv [] (uv_results (dv_env s)) (uv_calls (dv_env s))
    (uv_next (dv_env s) + 1) (<[uv_next (dv_env s) := o]> (uv_heap (dv_env s)))) s).
Proof. intros Ha. unfold s_alloc, uv_alloc. by rewrite Ha. Qed.

Lemma s_alloc_results o s r s' : s_alloc o s = (r, s') -> uv_results (dv_env s') = uv_results (dv_env s).
Proof. unfold s_alloc, uv_alloc. by destruct (default true _); intros [= _ <-]. Qed.

(** the copy of a reply that is not passed by reference, and the addresses after it *)
Definition reply_copies (byRef : bool) (n len : Z) (data : list Byte.byte) (h : gmap Z uv_obj) : gmap Z uv_obj :=
  if byRef then h else <[n := O_buffer (ztake len data)]> h.

Lemma reply_buffer_ok (byRef : bool) b len data s : uv_allocs (dv_env s) = [] ->
  buffer_at b (dv_env s) = Done data -> 0 <= len <= zlen data ->
  let n := uv_next (dv_env s) in
  reply_buffer byRef b len s = Done (Some (if byRef then b else n), set_env (MkUvEnv [] (uv_results (dv_env s))
    (uv_calls (dv_env s)) (if byRef then n else n + 1) (reply_copies byRef n len data (uv_heap (dv_env s)))) s).
Proof.
  intros Ha Hb Hl n. unfold reply_buffer. destruct byRef.
  { destruct s as [a1 a2 a3 a4 a5 a6 a7 e], e. cbn in *. by subst. }
  rewrite Hb. cbn [outcome_bind]. rewrite s_alloc_eq by done. rewrite mem_read_ok by lia.
  cbn [outcome_bind]. rewrite zdrop_0, set_env_set_env. cbn. by rewrite insert_insert_eq.
Qed.

Lemma reply_buffer_calm (byRef : bool) b len data s : calm (dv_env s) ->
  buffer_at b (dv_env s) = Done data -> 0 <= len <= zlen data ->
  let n := uv_next (dv_env s) in
  reply_buffer byRef b len s = Done (Some (if byRef then b else n), set_env (MkUvEnv [] [] (uv_calls (dv_env s))
    (if byRef then n else n + 1) (reply_copies byRef n len data (uv_heap (dv_env s)))) s).
Proof. intros [Ha Hr] Hb Hl n. rewrite (reply_buffer_ok byRef b len data) by done. by rewrite Hr. Qed.

Lemma reply_buffer_ends (byRef : bool) b len data s : buffer_at b (dv_env s) = Done data -> 0 <= len <= zlen data ->
  exists r s', reply_buffer byRef b len s = Done (r, s') /\ uv_results (dv_env s') = uv_results (dv_env s).
Proof.
  intros Hb Hl. unfold reply_buffer. destruct byRef; [by eexists _, _|]. rewrite Hb. cbn [outcome_bind].
  destruct (s_alloc _ s) as [[p|] s1] eqn:Ha; apply s_alloc_results in Ha; [|by eexists _, _].
  rewrite mem_read_ok by lia. cbn [outcome_bind]. by eexists _, _.
Qed.

(** *** Replies that fail *)

(** the asynchronous request is made known to the loop, which then cannot be woken up *)
Definition wake_fails (e : UvEnv) : Prop :=
  default 0 (head (uv_results e)) = 0 /\ default 0 (head (tail (uv_results e))) <> 0.

Lemma sendWriteResponse_ends p sbd c h s : uv_heap (dv_env s) !! p = Some (O_serverBufferData sbd) ->
  conn_at_index (sb_connectionIndex sbd) s = Done c -> cdt_connectionHandle c = Some h -> env_ok (dv_env s) ->
  ~ wake_fails (dv_env s) -> exists rc r s', sendWriteResponse p s = Done (rc, r, s').
Proof.
  intros Hp Hi Hh Hok Hw. unfold sendWriteResponse, sbd_at. rewrite Hp. cbn [outcome_bind]. rewrite Hi. cbn [outcome_bind].
  destruct (s_alloc _ s) as [[q|] s1] eqn:Ha; [|by eexists _, _, _]. rewrite Hh.
  pose proof (s_alloc_results _ _ _ _ Ha) as Hr. apply (s_alloc_inv _ _ _ _ Hok) in Ha as (e1 & -> & _ & _ & Hq).
  cbn [dv_env set_env] in Hr. unfold s_uv at 1, uv. cbn [dv_env set_env]. rewrite Hr.
  destruct (Z.eqb_spec (default 0 (head (uv_results (dv_env s)))) 0) as [Hi0|Hi0]; cbn [negb].
  - unfold s_uv, uv. cbn [dv_env set_env set_uv_heap uv_results].
    destruct (Z.eqb_spec (default 0 (head (tail (uv_results (dv_env s))))) 0) as [Hi1|Hi1]; cbn [negb]; [by eexists _, _, _|].
    by destruct Hw.
  - rewrite s_freeAsync_ok; [by eexists _, _, _|]. cbn. rewrite Hq. apply lookup_insert_eq.
Qed.

Lemma replyMsg_ends d b len flags data s c h : env_ok (dv_env s) ->
  conn_at_index (cd_connIndex d) s = Done c -> cdt_connectionHandle c = Some h ->
  buffer_at b (dv_env s) = Done data -> 0 <= len <= zlen data -> ~ wake_fails (dv_env s) ->
  exists rc r s', dserver_replyMsg d b len flags s = Done (rc, r, s').
Proof.
  intros Hok Hi Hh Hb Hl Hw. unfold dserver_replyMsg. case_decide; [by eexists _, _, _|].
  set (byRef := negb (Z.land flags COMMUTIL_MSG_WRITE_BY_REF =? 0)).
  destruct (reply_buffer_ends byRef b len data s Hb Hl) as (base & s1 & Hs1 & Hr1). rewrite Hs1. cbn [outcome_bind].
  apply (reply_buffer_inv _ _ _ _ _ _ Hok) in Hs1 as (e1 & -> & Hok1 & Hbase).
  destruct base as [p|]; [|by eexists _, _, _]. cbn [dv_env set_env] in Hr1.
  assert (Hfree : forall e, uv_heap e = uv_heap e1 -> exists s2,
    (if byRef then Done (set_env e s) else s_free p (set_env e s)) = Done s2).
  { intros e He. destruct byRef; [by eexists|]. destruct Hbase as (_ & dat & _ & _ & Hh1).
    rewrite (s_free_ok p (O_buffer (ztake len dat))); [by eexists|]. cbn. rewrite He, Hh1. apply lookup_insert_eq. }
  destruct (s_alloc _ _) as [[q|] s2] eqn:Ha; pose proof (s_alloc_results _ _ _ _ Ha) as Hr2;
    apply (s_alloc_inv _ (set_env e1 s) _ _ Hok1) in Ha as (e2 & -> & Hok2 & Hh2); cbn [dv_env set_env] in Hr2, Hh2;
    change (set_env e2 (set_env e1 s)) with (set_env e2 s).
  - destruct Hh2 as [Hf2 Hh2]. destruct (sendWriteResponse_ends q (MkServerBufferData (cd_connIndex d) p len
      (negb (Z.land (if byRef then flags else Z.lor flags COMMUTIL_MSG_WRITE_DISPOSE_BUFFER)
        COMMUTIL_MSG_WRITE_DISPOSE_BUFFER =? 0))) c h (set_env e2 s)) as (rc & r & s3 & Hs3); try done.
    { cbn. rewrite Hh2. apply lookup_insert_eq. }
    { unfold wake_fails. cbn [dv_env set_env]. by rewrite Hr2, Hr1. }
    rewrite Hs3. cbn [outcome_bind]. case_decide as Hrc; [|by eexists _, _, _].
    apply (sendWriteResponse_failed _ (set_env e2 s) _ _ _ Hok2) in Hs3 as (e3 & -> & Hok3 & Hh3); [|done].
    cbn [dv_env set_env] in Hh3. change (set_env e3 (set_env e2 s)) with (set_env e3 s).
    erewrite s_free_ok by (cbn; rewrite Hh3, Hh2; apply lookup_insert_eq). cbn [outcome_bind].
    destruct (Hfree (set_uv_heap (delete q (uv_heap e3)) e3)) as (s4 & Hs4); [cbn; by rewrite Hh3, Hh2, delete_insert_id|].
    change (set_env (set_uv_heap _ _) (set_env e3 s)) with (set_env (set_uv_heap (delete q (uv_heap e3)) e3) s).
    rewrite Hs4.
    cbn [outcome_bind]. by eexists _, _, _.
  - destruct (Hfree e2 Hh2) as (s3 & ->). cbn [outcome_bind]. by eexists _, _, _.
Qed.

Lemma sendWriteResponse_wake_fails p sbd c h s : uv_heap (dv_env s) !! p = Some (O_serverBufferData sbd) ->
  conn_at_index (sb_connectionIndex sbd) s = Done c -> cdt_connectionHandle c = Some h ->
  uv_allocs (dv_env s) = [] -> wake_fails (dv_env s) -> sendWriteResponse p s = Undef UB_handle.
Proof.
  intros Hp Hi Hh Ha [Hi0 Hi1]. unfold sendWriteResponse, sbd_at. rewrite Hp. cbn [outcome_bind]. rewrite Hi. cbn [outcome_bind].
  rewrite s_alloc_eq, Hh by done. unfold s_uv, uv. cbn [dv_env set_env uv_results set_uv_heap].
  rewrite Hi0. cbn [Z.eqb negb]. cbn [dv_env set_env uv_results set_uv_heap].
  apply Z.eqb_neq in Hi1. rewrite Hi1. cbn [negb]. rewrite (s_freeAsync_live _ p); [done|]. cbn. apply lookup_insert_eq.
Qed.

Lemma replyMsg_wake_fails d b len flags data s c h : dv_runState s = RS_RUNNING -> uv_allocs (dv_env s) = [] ->
  conn_at_index (cd_connIndex d) s = Done c -> cdt_connectionHandle c = Some h ->
  buffer_at b (dv_env s) = Done data -> 0 <= len <= zlen data -> wake_fails (dv_env s) ->
  dserver_replyMsg d b len flags s = Undef UB_handle.
Proof.
  intros Hrun Ha Hi Hh Hb Hl Hw. unfold dserver_replyMsg, getRunState.
  rewrite decide_False by (rewrite Hrun; by intros []).
  rewrite (reply_buffer_ok _ b len data) by done. cbn [outcome_bind]. rewrite s_alloc_eq by done.
  erewrite sendWriteResponse_wake_fails; [done|cbn; apply lookup_insert_eq|exact Hi|exact Hh|done|exact Hw].
Qed.

(** C24. A reply to a connection that has a socket, with a buffer that holds it, always
    ends, unless the loop cannot be woken up; and a reply that fails has no effect: the
    heap is as it was, with the caller's buffer and without the copy, the buffer data
    and the asynchronous request that the call allocated, whichever allocation or call
    failed. The exception is a failed uv_async_send: the asynchronous request is then
    freed while the loop refers to it. *)
Theorem failed_reply_has_no_effect d b len flags data s c h : env_ok (dv_env s) ->
  conn_at_index (cd_connIndex d) s = Done c -> cdt_connectionHandle c = Some h ->
  buffer_at b (dv_env s) = Done data -> 0 <= len <= zlen data ->
  (~ wake_fails (dv_env s) -> exists rc r s', dserver_replyMsg d b len flags s = Done (rc, r, s') /\
    (rc <> E_OK -> exists e, s' = set_env e s /\ uv_heap e = uv_heap (dv_env s))) /\
  (wake_fails (dv_env s) -> dv_runState s = RS_RUNNING -> uv_allocs (dv_env s) = [] ->
    dserver_replyMsg d b len flags s = Undef UB_handle).
Proof.
  intros Hok Hi Hh Hb Hl. split.
  - intros Hw. destruct (replyMsg_ends d b len flags data s c h) as (rc & r & s' & Hs'); [done..|].
    exists rc, r, s'. split; [done|]. by eapply failed_reply_heap.
  - intros Hw Hrun Ha. by eapply replyMsg_wake_fails.
Qed.

(** a reply that is accepted: one asynchronous request waits in the loop *)
Lemma replyMsg_accepted d b len flags data s c h : calm (dv_env s) -> env_ok (dv_env s) ->
  dv_runState s = RS_RUNNING -> conn_at_index (cd_connIndex d) s = Done c ->
  cdt_connectionHandle c = Some h -> buffer_at b (dv_env s) = Done data -> 0 <= len <= zlen data ->
  let byRef := negb (Z.land flags COMMUTIL_MSG_WRITE_BY_REF =? 0) in
  let dispose := negb (Z.land (if byRef then flags else Z.lor flags COMMUTIL_MSG_WRITE_DISPOSE_BUFFER)
    COMMUTIL_MSG_WRITE_DISPOSE_BUFFER =? 0) in
  let n := uv_next (dv_env s) in
  let p := if byRef then n else n + 1 in
  let sbd := MkServerBufferData (cd_connIndex d) (if byRef then b else n) len dispose in
  dserver_replyMsg d b len flags s = Done (E_OK, Some (p + 1), set_env (MkUvEnv [] []
    (uv_calls (dv_env s) ++ [uv_async_init_at h; uv_async_send]) (p + 1 + 1)
    (<[p + 1 := O_async (Some p)]> (<[p := O_serverBufferData sbd]>
      (reply_copies byRef n len data (uv_heap (dv_env s)))))) s).
Proof.
  intros Hc Hok Hrun Hi Hh Hb Hl byRef dispose n p sbd. unfold dserver_replyMsg, getRunState.
  rewrite decide_False by (rewrite Hrun; by intros []). fold byRef. fold dispose.
  rewrite (reply_buffer_calm byRef b len data) by done. cbn [outcome_bind]. fold n. fold p.
  set (e1 := MkUvEnv _ _ _ p _). rewrite s_alloc_calm by done. fold sbd. cbn [dv_env set_env uv_next uv_heap uv_calls e1].
  rewrite (sendWriteResponse_calm p sbd c h); try done.
  - intros q Hq. cbn [dv_env set_env uv_next uv_heap] in *. rewrite lookup_insert_ne by lia.
    unfold reply_copies. subst p. destruct byRef; [apply Hok; lia|].
    rewrite lookup_insert_ne by lia. apply Hok. lia.
  - cbn. apply lookup_insert_eq.
Qed.
(** the heap of a reply that waits in the loop *)
Record reply_waits (n req p : Z) (sbd : ServerBufferData) (data : list Byte.byte) (e : UvEnv) : Prop := {
  rw_calm : calm e;
  rw_ok : env_ok e;
  rw_req : uv_heap e !! req = Some (O_async (Some p));
  rw_sbd : uv_heap e !! p = Some (O_serverBufferData sbd);
  rw_data : buffer_at (sb_buf sbd) e = Done data;
  rw_apart : req <> p /\ sb_buf sbd <> p /\ sb_buf sbd <> req;
}.

Lemma onWrite_ok p sbd c status s o : uv_heap (dv_env s) !! p = Some (O_serverBufferData sbd) ->
  conn_at_index (sb_connectionIndex sbd) s = Done c -> uv_heap (dv_env s) !! sb_buf sbd = Some o ->
  sb_buf sbd <> p ->
  exists s1, onWrite p status s = Done s1 /\ uv_heap (dv_env s1) =
    delete p (if sb_shouldDeallocateBuffer sbd then delete (sb_buf sbd) (uv_heap (dv_env s)) else uv_heap (dv_env s)).
Proof.
  intros Hp Hi Hb Hne. unfold onWrite, sbd_at. rewrite Hp. cbn [outcome_bind]. rewrite Hi. cbn [outcome_bind].
  set (s0 := set_listener_state _ s). change (dv_env s) with (dv_env s0) in *.
  destruct (sb_shouldDeallocateBuffer sbd).
  - rewrite (s_free_ok _ o) by done. cbn [outcome_bind]. rewrite (s_free_ok p (O_serverBufferData sbd)).
    + eexists. split; [reflexivity|]. done.
    + cbn. by rewrite lookup_delete_ne.
  - cbn [outcome_bind]. rewrite (s_free_ok p (O_serverBufferData sbd)) by done.
    eexists. split; [reflexivity|]. done.
Qed.

(** the callbacks of a reply that waits: the data goes to the socket that the slot of the
    connection has by then *)
Lemma reply_callbacks (Hstream : forall p s, writeTransport p s = stream_writeTransport p s)
    n req p sbd data s c h status : reply_waits n req p sbd data (dv_env s) ->
  conn_at_index (sb_connectionIndex sbd) s = Done c -> cdt_connectionHandle c = Some h ->
  0 <= sb_len sbd <= zlen data ->
  exists s1 s2 s3, onAsyncWriteStatic req s = Done s1 /\
    uv_calls (dv_env s1) = uv_calls (dv_env s) ++ [uv_write h (ztake (sb_len sbd) data); uv_close_async] /\
    onWriteStatic (uv_next (dv_env s)) status s1 = Done s2 /\
    onCloseAsyncWriteReqStatic req s2 = Done s3 /\
    uv_heap (dv_env s3) = delete req (delete p
      (if sb_shouldDeallocateBuffer sbd then delete (sb_buf sbd) (uv_heap (dv_env s)) else uv_heap (dv_env s))).
Proof.
  intros [Hc Hok Hreq Hp Hd (Ha1 & Ha2 & Ha3)] Hi Hh Hl. set (w := uv_next (dv_env s)).
  assert (Hw : uv_heap (dv_env s) !! w = None) by (apply Hok; unfold w; lia).
  assert (Hwr : w <> req) by (intros ->; congruence). assert (Hwp : w <> p) by (intros ->; congruence).
  assert (Hwb : w <> sb_buf sbd) by (intros Hx; unfold buffer_at in Hd; rewrite <- Hx, Hw in Hd; done).
  assert (Hwrite : writeTransport p s = Done (E_OK, set_env (MkUvEnv [] []
    (uv_calls (dv_env s) ++ [uv_write h (ztake (sb_len sbd) data)]) (w + 1)
    (<[w := O_write p]> (uv_heap (dv_env s)))) s)).
  { rewrite Hstream. unfold stream_writeTransport. rewrite s_alloc_calm by done. fold w.
    unfold sbd_at. cbn [dv_env set_env uv_heap]. rewrite lookup_insert_ne, Hp by done. cbn [outcome_bind].
    change (conn_at_index (sb_connectionIndex sbd) (set_env _ s)) with (conn_at_index (sb_connectionIndex sbd) s).
    rewrite Hi. cbn [outcome_bind]. unfold buffer_at in Hd |- *. cbn [uv_heap]. rewrite lookup_insert_ne by done.
    rewrite Hd. cbn [outcome_bind]. rewrite mem_read_ok, zdrop_0 by lia. cbn [outcome_bind]. rewrite Hh.
    by rewrite s_uv_calm. }
  unfold onAsyncWriteStatic. rewrite Hreq. unfold sbd_at at 1. rewrite Hp. cbn [outcome_bind].
  rewrite Hwrite. cbn [outcome_bind]. set (s1 := s_do uv_close_async _). exists s1.
  assert (Hs1 : uv_heap (dv_env s1) = <[req := O_async None]> (<[w := O_write p]> (uv_heap (dv_env s)))) by done.
  assert (Hbuf : exists o, uv_heap (dv_env s) !! sb_buf sbd = Some o).
  { unfold buffer_at in Hd. destruct (uv_heap (dv_env s) !! sb_buf sbd) as [o|]; [by exists o|done]. }
  destruct Hbuf as [o Ho].
  destruct (onWrite_ok p sbd c status s1 o) as (s2 & Hs2 & Hh2).
  { by rewrite Hs1, !lookup_insert_ne. }
  { exact Hi. }
  { by rewrite Hs1, !lookup_insert_ne. }
  { done. }
  unfold onWriteStatic. rewrite Hs1, lookup_insert_ne, lookup_insert_eq, Hs2 by done. cbn [outcome_bind].
  rewrite Hs1 in Hh2. eexists _, _. split; [reflexivity|]. split; [cbn; by rewrite <- app_assoc|]. rewrite (s_free_ok w (O_write p)); [|rewrite Hh2; rewrite lookup_delete_ne by done;
    destruct (sb_shouldDeallocateBuffer sbd); rewrite ?lookup_delete_ne, lookup_insert_ne by done;
    apply lookup_insert_eq].
  split; [reflexivity|]. unfold onCloseAsyncWriteReqStatic.
  rewrite (s_freeAsync_ok req); [|cbn; rewrite Hh2, lookup_delete_ne, lookup_delete_ne by done;
    destruct (sb_shouldDeallocateBuffer sbd); rewrite ?lookup_delete_ne by done; apply lookup_insert_eq].
  split; [reflexivity|]. cbn. rewrite Hh2. apply map_eq. intros q.
  destruct (decide (q = req)) as [->|Hq]; [by rewrite !lookup_delete_eq|]. rewrite !(lookup_delete_ne _ req) by done.
  destruct (decide (q = w)) as [->|Hqw].
  { rewrite lookup_delete_eq. symmetry. rewrite lookup_delete_ne by done.
    destruct (sb_shouldDeallocateBuffer sbd); rewrite ?lookup_delete_ne by done; exact Hw. }
  rewrite lookup_delete_ne by done. destruct (decide (q = p)) as [->|Hqp]; [by rewrite !lookup_delete_eq|].
  rewrite !(lookup_delete_ne _ p) by done. destruct (sb_shouldDeallocateBuffer sbd).
  - destruct (decide (q = sb_buf sbd)) as [->|Hqb]; [by rewrite !lookup_delete_eq|].
    by rewrite !lookup_delete_ne, !lookup_insert_ne by done.
  - by rewrite !lookup_insert_ne by done.
Qed.

(** the objects of a reply are gone after its callbacks *)
Lemma reply_heap (byRef : bool) flags b n len data (hp : gmap Z uv_obj) o1 o2 :
  let p := if byRef then n else n + 1 in
  let disp := negb (Z.land (if byRef then flags else Z.lor flags COMMUTIL_MSG_WRITE_DISPOSE_BUFFER)
    COMMUTIL_MSG_WRITE_DISPOSE_BUFFER =? 0) in
  let hp' := <[p + 1 := o1]> (<[p := o2]> (reply_copies byRef n len data hp)) in
  hp !! n = None -> hp !! (n + 1) = None -> hp !! (n + 2) = None -> b < n ->
  delete (p + 1) (delete p (if disp then delete (if byRef then b else n) hp' else hp')) =
    if byRef && negb (Z.land flags COMMUTIL_MSG_WRITE_DISPOSE_BUFFER =? 0) then delete b hp else hp.
Proof.
  intros p disp hp' Hn Hn1 Hn2 Hb. apply map_eq. intros q. unfold hp', reply_copies, p. destruct byRef; cbn [andb].
  - subst disp. cbn. destruct (negb _); rewrite !lookup_delete, !lookup_insert, ?lookup_delete;
      repeat case_decide; subst; try lia; try done; congruence.
  - assert (Hd : disp = true).
    { unfold disp. apply negb_true_iff, Z.eqb_neq. intros Hz.
      apply (f_equal (fun x => Z.testbit x 1)) in Hz. rewrite Z.land_spec, Z.lor_spec in Hz.
      change (Z.testbit COMMUTIL_MSG_WRITE_DISPOSE_BUFFER 1) with true in Hz. by rewrite orb_true_r in Hz. }
    rewrite Hd. replace (n + 1 + 1) with (n + 2) by lia. rewrite !lookup_delete, !lookup_insert.
    repeat case_decide; subst; try lia; try done; try congruence.
Qed.

Lemma conn_at_array i cs c s : zget cs i = Some c -> conn_at_index i (set_array (Some cs) s) = Done c.
Proof. intros Hg. unfold conn_at_index. cbn. by rewrite (mem_get_ok _ _ _ Hg). Qed.

(** the results of the calls of libuv to come *)
Definition set_uv_results (results : list Z) s : DServer T U :=
  set_env (MkUvEnv (uv_allocs (dv_env s)) results (uv_calls (dv_env s)) (uv_next (dv_env s)) (uv_heap (dv_env s))) s.

(** a reply whose write libuv refuses *)
Lemma refused_callbacks (Hstream : forall p s, writeTransport p s = stream_writeTransport p s)
    n req p sbd data s c h res : reply_waits n req p sbd data (dv_env s) ->
  conn_at_index (sb_connectionIndex sbd) s = Done c -> cdt_connectionHandle c = Some h ->
  0 <= sb_len sbd <= zlen data -> res < 0 ->
  exists s1 s2, onAsyncWriteStatic req (set_uv_results [res] s) = Done s1 /\
    onCloseAsyncWriteReqStatic req s1 = Done s2 /\ dv_listener s2 = dv_listener s /\
    uv_heap (dv_env s2) = delete req (uv_heap (dv_env s)).
Proof.
  intros [[Hca Hcr] Hok Hreq Hp Hd (Ha1 & Ha2 & Ha3)] Hi Hh Hl Hres. set (w := uv_next (dv_env s)).
  assert (Hw : uv_heap (dv_env s) !! w = None) by (apply Hok; unfold w; lia).
  assert (Hwr : w <> req) by (intros ->; congruence). assert (Hwp : w <> p) by (intros ->; congruence).
  assert (Hwb : w <> sb_buf sbd) by (intros Hx; unfold buffer_at in Hd; rewrite <- Hx, Hw in Hd; done).
  assert (Hwrite : writeTransport p (set_uv_results [res] s) = Done (E_TRANSPORT_ERROR, set_env (MkUvEnv [] []
    (uv_calls (dv_env s) ++ [uv_write h (ztake (sb_len sbd) data)]) (w + 1) (uv_heap (dv_env s))) s)).
  { rewrite Hstream. unfold stream_writeTransport. rewrite s_alloc_eq by done.
    unfold sbd_at. cbn [dv_env set_env set_uv_results uv_heap uv_next]. fold w.
    rewrite lookup_insert_ne, Hp by done. cbn [outcome_bind].
    change (conn_at_index (sb_connectionIndex sbd) (set_env _ (set_uv_results _ s))) with (conn_at_index (sb_connectionIndex sbd) s).
    rewrite Hi. cbn [outcome_bind]. unfold buffer_at in Hd |- *. cbn [uv_heap]. rewrite lookup_insert_ne by done.
    rewrite Hd. cbn [outcome_bind]. rewrite mem_read_ok, zdrop_0 by lia. cbn [outcome_bind]. rewrite Hh.
    unfold s_uv, uv. cbn [dv_env set_env uv_results head tail default from_option].
    destruct (Z.ltb_spec (Datatypes.id res) 0) as [_|Hge]; [|unfold Datatypes.id in Hge; lia].
    rewrite (s_free_ok w (O_write p)) by (cbn; apply lookup_insert_eq). cbn [outcome_bind].
    do 2 f_equal. unfold set_uv_heap. cbn. rewrite delete_insert_id by done. done. }
  unfold onAsyncWriteStatic. cbn [dv_env set_env set_uv_results uv_heap]. rewrite Hreq. unfold sbd_at at 1.
  cbn [uv_heap]. rewrite Hp. cbn [outcome_bind]. rewrite Hwrite. cbn [outcome_bind]. eexists _, _. split; [reflexivity|].
  unfold onCloseAsyncWriteReqStatic. split; [apply s_freeAsync_ok; cbn; apply lookup_insert_eq|]. split; [done|].
  cbn. by rewrite delete_insert_eq.
Qed.

(** C23. While allocations and calls of libuv succeed, a reply that is accepted is written
    once, as it was given, and every object of its way is given back once, the caller's
    buffer only if it was handed over. It is written to the socket that the slot of the
    connection has when the loop gets to it ([cs'], [h']): if the slot was given to
    another client in the meantime, to that one. If libuv refuses the write then, the
    reply, which was accepted, is lost, the listener is not told, and the buffer data of
    the reply, with the copy of its data, are never given back. *)
Theorem reply_written (Hstream : forall p s, writeTransport p s = stream_writeTransport p s)
    d b len flags data s c h cs' c' h' status res :
  calm (dv_env s) -> env_ok (dv_env s) -> dv_runState s = RS_RUNNING ->
  conn_at_index (cd_connIndex d) s = Done c -> cdt_connectionHandle c = Some h ->
  buffer_at b (dv_env s) = Done data -> 0 <= len <= zlen data ->
  zget cs' (cd_connIndex d) = Some c' -> cdt_connectionHandle c' = Some h' -> res < 0 ->
  let byRef := negb (Z.land flags COMMUTIL_MSG_WRITE_BY_REF =? 0) in
  let dispose := negb (Z.land flags COMMUTIL_MSG_WRITE_DISPOSE_BUFFER =? 0) in
  exists req s1, dserver_replyMsg d b len flags s = Done (E_OK, Some req, s1) /\
    (exists w s2 s3 s4, onAsyncWriteStatic req (set_array (Some cs') s1) = Done s2 /\
      uv_calls (dv_env s2) = uv_calls (dv_env s) ++
        [uv_async_init_at h; uv_async_send; uv_write h' (ztake len data); uv_close_async] /\
      onWriteStatic w status s2 = Done s3 /\ onCloseAsyncWriteReqStatic req s3 = Done s4 /\
      uv_heap (dv_env s4) = if byRef && dispose then delete b (uv_heap (dv_env s)) else uv_heap (dv_env s)) /\
    (exists p sbd s2 s3, onAsyncWriteStatic req (set_uv_results [res] (set_array (Some cs') s1)) = Done s2 /\
      onCloseAsyncWriteReqStatic req s2 = Done s3 /\ dv_listener s3 = dv_listener s /\
      uv_heap (dv_env s) !! p = None /\
      uv_heap (dv_env s3) = <[p := O_serverBufferData sbd]>
        (reply_copies byRef (uv_next (dv_env s)) len data (uv_heap (dv_env s)))).
Proof.
  intros Hc Hok Hrun Hi Hh Hb Hl Hg Hh' Hres byRef dispose.
  pose proof (replyMsg_accepted d b len flags data s c h Hc Hok Hrun Hi Hh Hb Hl) as Ha. cbv zeta in Ha.
  fold byRef in Ha. set (n := uv_next (dv_env s)) in *.
  set (p := if byRef then n else n + 1) in *.
  set (disp := negb (Z.land (if byRef then _ else _) _ =? 0)) in Ha.
  set (sbd := MkServerBufferData _ _ _ disp) in Ha. set (s1 := set_env _ s) in Ha.
  assert (Hbn : b <> n) by (intros ->; unfold buffer_at in Hb; rewrite Hok in Hb; [done|unfold n; lia]).
  assert (Hbp : uv_heap (dv_env s) !! p = None) by (apply Hok; unfold p; destruct byRef; lia).
  assert (Hbq : uv_heap (dv_env s) !! (p + 1) = None) by (apply Hok; unfold p; destruct byRef; lia).
  assert (Hpn : n <= p) by (unfold p; destruct byRef; lia).
  assert (Hblt : b < n). { destruct (Z_lt_ge_dec b n); [done|]. unfold buffer_at in Hb. by rewrite Hok in Hb by lia. }
  set (dat := if byRef then data else ztake len data).
  assert (Hw : reply_waits n (p + 1) p sbd dat (dv_env (set_array (Some cs') s1))).
  { split; cbn [dv_env set_array s1 set_env uv_heap uv_next sbd sb_buf].
    - done.
    - intros q Hq. cbn [uv_heap uv_next] in *. rewrite !lookup_insert_ne by lia.
      unfold reply_copies. destruct byRef; [|rewrite lookup_insert_ne by (unfold p in *; lia)]; apply Hok;
        unfold p in *; lia.
    - by rewrite lookup_insert_eq.
    - rewrite lookup_insert_ne, lookup_insert_eq by lia. done.
    - unfold buffer_at, reply_copies, dat in *. cbn [uv_heap]. unfold p in *. destruct byRef.
      + rewrite !lookup_insert_ne by lia. done.
      + rewrite !lookup_insert_ne, lookup_insert_eq by lia. done.
    - split; [lia|]. unfold p in *. destruct byRef; lia. }
  assert (Hlen : 0 <= sb_len sbd <= zlen dat) by (cbn; unfold dat; destruct byRef; [done|rewrite zlen_ztake; lia]).
  exists (p + 1), s1. split; [exact Ha|]. split.
  - destruct (reply_callbacks Hstream n (p + 1) p sbd dat (set_array (Some cs') s1) c' h' status Hw) as
      (s2 & s3 & s4 & Hs2 & Hcalls & Hs3 & Hs4 & Hheap); [by apply conn_at_array|done..|].
    eexists _, s2, s3, s4. split; [exact Hs2|]. split.
    { rewrite Hcalls. cbn. rewrite <- app_assoc. cbn. do 5 f_equal. unfold dat. destruct byRef; [done|].
      by rewrite ztake_ztake by lia. }
    split; [exact Hs3|]. split; [exact Hs4|]. rewrite Hheap. cbn [dv_env set_array s1 set_env uv_heap sbd sb_buf
      sb_shouldDeallocateBuffer].
    apply reply_heap; first [lia|apply Hok; unfold n; lia].
  - destruct (refused_callbacks Hstream n (p + 1) p sbd dat (set_array (Some cs') s1) c' h' res Hw) as
      (s2 & s3 & Hs2 & Hs3 & Hlis & Hheap); [by apply conn_at_array|done..|].
    exists p, sbd, s2, s3. split; [exact Hs2|]. split; [exact Hs3|]. split; [exact Hlis|]. split; [done|].
    rewrite Hheap. cbn [dv_env set_array s1 set_env uv_heap]. apply delete_insert_id.
    rewrite lookup_insert_ne by lia. unfold reply_copies. destruct byRef; rewrite ?lookup_insert_ne by lia; done.
Qed.
End Replies.


(** ** The array of connections *)

(** the slots of the array carry their index, and the ids of the used slots are those of
    different connections that were accepted before *)
Record slots_ok (n next : Z) (cs : list ConnectionData) : Prop := {
  so_length : zlen cs = n;
  so_next : 0 <= next;
  so_index : forall i c, zget cs i = Some c -> cdt_connectionIndex c = i;
  so_details : forall i c, zget cs i = Some c -> cdt_isUsed c = true ->
    cd_connId (cdt_connectionDetails c) = cdt_connectionId c;
  so_ids : forall i c, zget cs i = Some c -> cdt_isUsed c = true -> 0 <= cdt_connectionId c < next;
  so_unique : forall i j c d, zget cs i = Some c -> zget cs j = Some d -> cdt_isUsed c = true ->
    cdt_isUsed d = true -> cdt_connectionId c = cdt_connectionId d -> i = j;
}.

Lemma grab_slot_spec cs k : match grab_slot k cs with
  | Some j => k <= j /\ (exists c, zget cs (j - k) = Some c /\ cdt_isUsed c = false) /\
      forall i c, i < j - k -> zget cs i = Some c -> cdt_isUsed c = true
  | None => forall i c, zget cs i = Some c -> cdt_isUsed c = true
  end.
Proof.
  revert k. induction cs as [|c cs IH]; intros k; cbn; [by intros i c; rewrite zget_nil|].
  destruct (cdt_isUsed c) eqn:Hc.
  - specialize (IH (k + 1)). destruct (grab_slot (k + 1) cs) as [j|].
    + destruct IH as (Hj & (d & Hd & Hu) & Hlt). split; [lia|]. split.
      * exists d. split; [|done]. rewrite zget_cons by lia. by replace (j - k - 1) with (j - (k + 1)) by lia.
      * intros i e Hi He. destruct (Z.eq_dec i 0) as [->|]; [rewrite zget_cons_0 in He; by injection He as <-|].
        pose proof (zget_Some_range _ _ _ He). rewrite zget_cons in He by lia. eapply (Hlt (i - 1)); [lia|done].
    + intros i e He. destruct (Z.eq_dec i 0) as [->|]; [rewrite zget_cons_0 in He; by injection He as <-|].
      pose proof (zget_Some_range _ _ _ He). rewrite zget_cons in He by lia. by eapply IH.
  - split; [lia|]. rewrite Z.sub_diag. split; [exists c; by rewrite zget_cons_0|].
    intros i e Hi He. apply zget_Some_range in He. lia.
Qed.

Lemma grab_slot_first cs i c : zget cs i = Some c -> cdt_isUsed c = false ->
  (forall j d, j < i -> zget cs j = Some d -> cdt_isUsed d = true) -> grab_slot 0 cs = Some i.
Proof.
  intros Hc Hu Hlt. pose proof (zget_Some_range _ _ _ Hc). pose proof (grab_slot_spec cs 0) as Hg.
  destruct (grab_slot 0 cs) as [j|]; [|by rewrite (Hg i c Hc) in Hu]. rewrite Z.sub_0_r in Hg.
  destruct Hg as (Hj & (d & Hd & Hud) & Hlt'). destruct (Z.lt_trichotomy i j) as [Hij|[->|Hij]]; [|done|].
  - by rewrite (Hlt' i c Hij Hc) in Hu.
  - by rewrite (Hlt j d Hij Hd) in Hud.
Qed.

Section Slots.
Context {T U : Type}.
Implicit Types s : DServer T U.

Lemma conn_at_index_Done i c s : conn_at_index i s = Done c ->
  exists cs, dv_connDataArray s = Some cs /\ zget cs i = Some c.
Proof.
  unfold conn_at_index. destruct (dv_connDataArray s) as [cs|]; [|done]. intros Hm. exists cs. split; [done|].
  revert Hm. unfold mem_get. destruct (zget cs i); [|done]. by intros [= ->].
Qed.

Lemma slots_update n next cs i c d : slots_ok n next cs -> zget cs i = Some c ->
  cdt_connectionIndex d = i -> (cdt_isUsed d = true -> cdt_isUsed c = true /\
    cdt_connectionId d = cdt_connectionId c /\ cd_connId (cdt_connectionDetails d) = cdt_connectionId d) ->
  slots_ok n next (zset cs i d).
Proof.
  intros [H1' H2' H3 H4 H5 H6] Hc Hi Hu. pose proof (zget_Some_range _ _ _ Hc) as Hr.
  assert (Hz : forall j e, zget (zset cs i d) j = Some e -> cdt_isUsed e = true ->
    exists e', zget cs j = Some e' /\ cdt_isUsed e' = true /\ cdt_connectionId e' = cdt_connectionId e).
  { intros j e He Hue. destruct (Z.eq_dec i j) as [<-|].
    - rewrite zget_zset_eq in He by done. injection He as <-. exists c. destruct (Hu Hue) as (? & ? & _). done.
    - rewrite zget_zset_ne in He by done. by exists e. }
  split; [by rewrite zlen_zset|done|..].
  - intros j e He. destruct (Z.eq_dec i j) as [<-|].
    + rewrite zget_zset_eq in He by done. by injection He as <-.
    + rewrite zget_zset_ne in He by done. by apply H3.
  - intros j e He Hue. destruct (Z.eq_dec i j) as [<-|].
    + rewrite zget_zset_eq in He by done. injection He as <-. by apply Hu.
    + rewrite zget_zset_ne in He by done. by eapply H4.
  - intros j e He Hue. destruct (Hz j e He Hue) as (e' & He' & Hue' & <-). by eapply H5.
  - intros j k e f He Hf Hue Huf Heq. destruct (Hz j e He Hue) as (e' & He' & Hue' & Hie).
    destruct (Hz k f Hf Huf) as (f' & Hf' & Huf' & Hif). eapply H6; try done. congruence.
Qed.

(** A new connection gets the first slot that is free, with an id that no connection
    had before; the other slots stay as they are, and it is refused only if every slot
    is in use. The slots stay well formed. *)
Theorem grabConnectionData_spec cs s r s' : dv_connDataArray s = Some cs ->
  slots_ok (dv_maxConnections s) (dv_nextConnectionId s) cs -> dv_nextConnectionId s + 1 < 2 ^ 64 ->
  grabConnectionData s = (r, s') ->
  match r with
  | None => s' = s /\ forall i c, zget cs i = Some c -> cdt_isUsed c = true
  | Some i => exists c cs', zget cs i = Some c /\ cdt_isUsed c = false /\
      (forall j d, j < i -> zget cs j = Some d -> cdt_isUsed d = true) /\
      dv_connDataArray s' = Some cs' /\ (forall j, j <> i -> zget cs' j = zget cs j) /\
      (exists c', zget cs' i = Some c' /\ cdt_isUsed c' = true /\ cdt_connectionId c' = dv_nextConnectionId s /\
        cdt_connectionHandle c' = cdt_connectionHandle c) /\
      slots_ok (dv_maxConnections s') (dv_nextConnectionId s') cs' /\
      dv_nextConnectionId s' = dv_nextConnectionId s + 1
  end.
Proof.
  intros Hcs Hok Hnext. unfold grabConnectionData. rewrite Hcs. cbn [default from_option id].
  pose proof (grab_slot_spec cs 0) as Hg.
  destruct (grab_slot 0 cs) as [i|]; [|by intros [= <- <-]].
  rewrite Z.sub_0_r in Hg. destruct Hg as (Hi & (c & Hc & Hu) & Hlt). rewrite Hc.
  intros [= <- <-]. set (d := MkConnectionData _ _ true _ _). pose proof (zget_Some_range _ _ _ Hc) as Hr.
  unfold conn_update. rewrite Hcs. cbn. destruct Hok as [K1 K2 K3 K4 K5 K6]. rewrite u64_small by lia.
  exists c, (zset cs i d). split; [done|]. split; [done|]. split; [exact Hlt|]. split; [done|].
  split; [intros j Hj; by rewrite zget_zset_ne by done|]. split; [exists d; by rewrite zget_zset_eq|]. split; [|done].
  assert (Hz : forall j e, zget (zset cs i d) j = Some e -> (j = i /\ e = d) \/ (j <> i /\ zget cs j = Some e)).
  { intros j e. destruct (Z.eq_dec i j) as [<-|].
    - rewrite zget_zset_eq by done. intros [= <-]. by left.
    - rewrite zget_zset_ne by done. intros He. right. auto. }
  split; [by rewrite zlen_zset|lia|..].
  - intros j e [[-> ->]|[? He]]%Hz; [by apply K3 in Hc|by apply K3].
  - intros j e [[-> ->]|[? He]]%Hz Hue; [done|by eapply K4].
  - intros j e [[-> ->]|[? He]]%Hz Hue; [cbn; lia|]. specialize (K5 _ _ He Hue). lia.
  - intros j k e f [[-> ->]|[? He]]%Hz [[-> ->]|[? Hf]]%Hz Hue Huf; try done.
    + specialize (K5 _ _ Hf Huf). cbn. lia.
    + specialize (K5 _ _ He Hue). cbn. lia.
    + by eapply K6.
Qed.
Lemma conn_at_Some i cs c s : dv_connDataArray s = Some cs -> zget cs i = Some c -> conn_at_index i s = Done c.
Proof. intros Ha Hc. unfold conn_at_index. rewrite Ha. by apply mem_get_ok. Qed.

Lemma conn_modify_eq i f cs c s : dv_connDataArray s = Some cs -> zget cs i = Some c ->
  conn_modify i f s = Done (set_array (Some (zset cs i (f c))) s).
Proof.
  intros Ha Hc. unfold conn_modify. rewrite (conn_at_Some i cs c) by done. cbn [outcome_bind].
  unfold conn_update. by rewrite Ha.
Qed.

(** a slot that carries its own index *)
Definition own_index (i : Z) (c : ConnectionData) : Prop :=
  cdt_connectionIndex c = i /\ cd_connIndex (cdt_connectionDetails c) = i.

Lemma grab_cases cs s : dv_connDataArray s = Some cs ->
  grabConnectionData s = (None, s) \/
  exists i c d n, zget cs i = Some c /\ cdt_isUsed c = false /\ cdt_isUsed d = true /\
    (own_index i c -> own_index i d) /\
    grabConnectionData s = (Some i, set_nextConnectionId n (set_array (Some (zset cs i d)) s)).
Proof.
  intros Ha. unfold grabConnectionData. rewrite Ha. cbn [default from_option id].
  pose proof (grab_slot_spec cs 0) as Hg. destruct (grab_slot 0 cs) as [i|]; [|by left]. right.
  rewrite Z.sub_0_r in Hg. destruct Hg as (_ & (c & Hc & Hu) & _). rewrite Hc. unfold conn_update. rewrite Ha.
  eexists i, c, _, _. split; [done|]. split; [done|]. split; [|split; [|reflexivity]]; done.
Qed.

End Slots.

(** ** Starting and stopping *)

Section Lifecycle.
Context {T U : Type} {TR : ServerTransport T U} {DL : DataListener U}.
Implicit Types s : DServer T U.

(** the slots that [initConnDataArray] makes *)
Lemma init_slots_ok n s : 0 <= n < 2 ^ 32 -> 0 <= dv_nextConnectionId s ->
  slots_ok n (dv_nextConnectionId s)
    (map (fun i => ConnectionData_init (Z.of_nat i) s) (seq 0 (Z.to_nat n))).
Proof.
  intros Hn Hid. set (cs := map _ _).
  assert (Hcs : forall i c, zget cs i = Some c -> c = ConnectionData_init i s).
  { intros i c. unfold zget, cs. destruct (Z.ltb_spec i 0); [done|]. rewrite list_lookup_fmap.
    destruct (seq 0 (Z.to_nat n) !! Z.to_nat i) as [k|] eqn:Hk; [|done]. cbn. intros [= <-].
    apply lookup_seq in Hk as [-> _]. cbn. by rewrite Z2Nat.id by lia. }
  split; [|done|..].
  - unfold zlen, cs. rewrite length_map, length_seq. lia.
  - by intros i c ->%Hcs.
  - by intros i c ->%Hcs.
  - by intros i c ->%Hcs.
  - by intros i j c d ->%Hcs.
Qed.

(** Initialization of the server: it is refused unless the server is idle; when it
    fails, however far it got, the server is idle again, without connections, and never
    in a state between; when it succeeds the server has its slots, all free, and the
    listener. *)
Theorem dserver_initialize_spec (Hkeep : forall s rc s', initializeTransport s = Done (rc, s') ->
    dv_connDataArray s' = dv_connDataArray s /\ dv_maxConnections s' = dv_maxConnections s /\
    dv_nextConnectionId s' = dv_nextConnectionId s)
    allocs u n s rc s' : 0 <= n < 2 ^ 32 -> 0 <= dv_nextConnectionId s ->
  dserver_initialize allocs u n s = Done (rc, s') ->
  (dv_runState s <> RS_IDLE /\ rc = E_INVALID_STATE /\ s' = s) \/
  (dv_runState s = RS_IDLE /\ rc <> E_OK /\ dv_runState s' = RS_IDLE /\ dv_connDataArray s' = None) \/
  (dv_runState s = RS_IDLE /\ rc = E_OK /\ dv_runState s' = RS_RUNNING /\ dv_listener s' = u /\
    dv_maxConnections s' = n /\ exists cs, dv_connDataArray s' = Some cs /\
    slots_ok n (dv_nextConnectionId s') cs /\ forall i c, zget cs i = Some c -> cdt_isUsed c = false).
Proof.
  intros Hn Hid. unfold dserver_initialize, changeRunState. destruct (decide (dv_runState s = RS_IDLE)) as [Hi|Hi];
    cbn [negb]; [|intros [= <- <-]; by left].
  intros Hinit. right. unfold initConnDataArray in Hinit.
  destruct (allocs 0%nat); cbn [negb] in Hinit; [|injection Hinit as <- <-; by left].
  destruct (forallb _ _); cbn [negb] in Hinit; [|injection Hinit as <- <-; by left].
  set (s0 := set_maxConnections n (setRunState RS_STARTING_UP s)) in *.
  set (cs := map _ _) in Hinit. destruct (s_uv _ _) as [res s1] eqn:Hs1. unfold s_uv in Hs1. cbn in Hs1.
  injection Hs1 as <- <-. destruct (_ <? 0); [injection Hinit as <- <-; by left|].
  apply outcome_bind_inv in Hinit as ([rc1 s2] & Ht & Hinit). apply Hkeep in Ht as (Ha & Hm & Hnx). cbn in Ha, Hm, Hnx.
  destruct (decide (rc1 <> E_OK)) as [Hrc|Hrc]; [injection Hinit as <- <-; left; done|].
  injection Hinit as <- <-. right. split; [done|]. split; [done|]. split; [done|]. split; [done|]. split; [done|].
  exists cs. cbn. rewrite Hnx. split; [done|]. split.
  - by apply (init_slots_ok n s0).
  - unfold cs, zget. intros i c. destruct (i <? 0); [done|]. rewrite list_lookup_fmap.
    destruct (seq _ _ !! _); [|done]. cbn. by intros [= <-].
Qed.

(** A server that was initialized but not started says that it runs: stopping it
    joins a thread that does not exist, which throws. *)
Theorem stop_unstarted_throws allocs u n s s' : dv_serverThread s = false ->
  (forall s1 rc s2, initializeTransport s1 = Done (rc, s2) -> dv_serverThread s2 = dv_serverThread s1) ->
  dserver_initialize allocs u n s = Done (E_OK, s') -> calm (dv_env s') -> dserver_stop s' = Undef UB_throw.
Proof.
  intros Hth Hkeep. unfold dserver_initialize, changeRunState. case_decide; cbn [negb]; [|done].
  intros Hinit Hcalm. unfold initConnDataArray in Hinit. destruct (allocs 0%nat); [|done]. cbn [negb] in Hinit.
  destruct (forallb _ _); [|done]. cbn [negb] in Hinit. destruct (s_uv _ _) as [res s1] eqn:Hs1.
  injection Hs1 as <- <-. destruct (_ <? 0); [done|].
  apply outcome_bind_inv in Hinit as ([rc1 s2] & Ht & Hinit). apply Hkeep in Ht. cbn in Ht.
  case_decide; [injection Hinit as ? _; congruence|]. injection Hinit as <-. destruct Hcalm as [Ha Hr]. cbn in Ha, Hr.
  unfold dserver_stop, changeRunState. rewrite decide_True by done. cbn [negb dv_env setRunState set_listener_state dv_serverThread].
  unfold stopTransportLoop, uv_alloc, uv. rewrite Ha, Hr, Ht, Hth. done.
Qed.
Lemma new_slots n s i c : 0 <= n < 2 ^ 32 ->
  zget (map (fun i => ConnectionData_init (Z.of_nat i) s) (seq 0 (Z.to_nat n))) i = Some c ->
  own_index i c /\ cdt_isUsed c = false.
Proof.
  intros Hn. unfold zget. destruct (Z.ltb_spec i 0); [done|]. rewrite list_lookup_fmap.
  destruct (seq _ _ !! _) as [k|] eqn:Hk; [|done]. apply lookup_seq in Hk as [-> Hk]. cbn. intros [= <-].
  split; [|done]. split; cbn; [lia|]. rewrite u32_small; lia.
Qed.

End Lifecycle.

(** ** What the listener is told *)

(** an event names the index and the id of the connection *)
Inductive dl_event :=
| Ev_connect (index id : Z) (accepted : bool)
| Ev_bytes (index id : Z)
| Ev_readError (index id : Z)
| Ev_disconnect (index id : Z).

(** a listener together with what it was told *)
Record Traced (V : Type) := MkTraced { tr_events : list dl_event; tr_user : V }.

Arguments MkTraced {V}.
Arguments tr_events {V}.
Arguments tr_user {V}.

(** the connections that a listener has open, by index, with their ids. A connection of an
    index begins when none of that index is open; bytes and errors are those of the open
    connection; one disconnection ends it, whose id is not looked at here. *)
Definition event_ok (open : gmap Z Z) (ev : dl_event) : option (gmap Z Z) :=
  match ev with
  | Ev_connect i id accepted =>
    match open !! i with
    | None => Some (if accepted then <[i := id]> open else open)
    | Some _ => None
    end
  | Ev_bytes i id | Ev_readError i id => if decide (open !! i = Some id) then Some open else None
  | Ev_disconnect i _ => match open !! i with Some _ => Some (delete i open) | None => None end
  end.

Definition open_after (evs : list dl_event) : option (gmap Z Z) :=
  foldl (fun open ev => open ≫= fun open => event_ok open ev) (Some ∅) evs.

Lemma open_after_snoc evs ev : open_after (evs ++ [ev]) = open_after evs ≫= fun open => event_ok open ev.
Proof. unfold open_after. by rewrite foldl_app. Qed.

Definition traced_listener {V : Type} {DLV : DataListener V} : DataListener (Traced V) := {|
  dl_onConnect d status u :=
    let '(b, v) := dl_onConnect d status (tr_user u) in
    (b, MkTraced (tr_events u ++ [Ev_connect (cd_connIndex d) (cd_connId d) b]) v);
  dl_onDisconnect d u :=
    MkTraced (tr_events u ++ [Ev_disconnect (cd_connIndex d) (cd_connId d)]) (dl_onDisconnect d (tr_user u));
  dl_onReadError d status u :=
    MkTraced (tr_events u ++ [Ev_readError (cd_connIndex d) (cd_connId d)]) (dl_onReadError d status (tr_user u));
  dl_onWriteError d status u := MkTraced (tr_events u) (dl_onWriteError d status (tr_user u));
  dl_onBytesReceived d buf len datagram u :=
    let '(a, v) := dl_onBytesReceived d buf len datagram (tr_user u) in
    (a, MkTraced (tr_events u ++ [Ev_bytes (cd_connIndex d) (cd_connId d)]) v);
  dl_onBytesSent d len status u := MkTraced (tr_events u) (dl_onBytesSent d len status (tr_user u));
|}.


Section Reading.
Context {T V : Type} {DLV : DataListener V}.
#[local] Existing Instance traced_listener.
Implicit Types s : DServer T (Traced V).

(** a buffer that libuv hands to a callback was allocated *)
Definition buf_live (buf : option Z) s : Prop :=
  match buf with Some p => is_Some (uv_heap (dv_env s) !! p) | None => True end.

(** what a read tells the listener *)
Definition read_events (i nread id : Z) : list dl_event :=
  if nread <? 0 then [Ev_readError i id] else if nread =? 0 then [] else [Ev_bytes i id].

Lemma free_buf buf s : buf_live buf s -> exists h,
  match buf with Some p => s_free p s | None => Done s end = Done (set_env (set_uv_heap h (dv_env s)) s) /\
  (env_ok (dv_env s) -> env_ok (set_uv_heap h (dv_env s))).
Proof.
  destruct buf as [p|]; cbn.
  - intros [o Ho]. rewrite (s_free_ok p o) by done. eexists. split; [done|]. intros Hok q Hq. cbn in *.
    apply lookup_delete_None. right. by apply Hok.
  - intros _. exists (uv_heap (dv_env s)). split; [by destruct s as [? ? ? ? ? ? ? []]|]. by destruct (dv_env s).
Qed.

(** a read changes nothing but the listener and the buffer *)
Lemma onRead_told s cs i c nread buf datagram : dv_connDataArray s = Some cs -> zget cs i = Some c ->
  own_index i c -> buf_live buf s -> (0 < nread -> buf <> None) ->
  exists s' h v, onRead i nread buf datagram s = Done s' /\
    s' = set_env (set_uv_heap h (dv_env s)) (set_listener_state v s) /\
    (env_ok (dv_env s) -> env_ok (set_uv_heap h (dv_env s))) /\
    tr_events v = tr_events (dv_listener s) ++ read_events i nread (cd_connId (cdt_connectionDetails c)).
Proof.
  intros Ha Hc [_ Hi] Hbuf Hn. unfold onRead, read_events. rewrite (conn_at_Some i cs c) by done. cbn [outcome_bind].
  assert (Hfree : forall v, exists h,
    match buf with Some p => s_free p (set_listener_state v s) | None => Done (set_listener_state v s) end =
      Done (set_env (set_uv_heap h (dv_env s)) (set_listener_state v s)) /\
    (env_ok (dv_env s) -> env_ok (set_uv_heap h (dv_env s)))) by (intros v; by apply (free_buf buf (set_listener_state v s))).
  destruct (Z.ltb_spec nread 0).
  { set (v := dl_onReadError _ _ _). destruct (Hfree v) as (h & -> & Hh). eexists _, h, v. split; [done|]. split; [done|].
    split; [done|]. cbn. by rewrite Hi. }
  destruct (Z.eqb_spec nread 0).
  { destruct (Hfree (dv_listener s)) as (h & Hh & Hok). exists (set_env (set_uv_heap h (dv_env s)) s), h, (dv_listener s).
    destruct s. split; [exact Hh|]. split; [done|]. split; [done|]. by rewrite app_nil_r. }
  destruct buf as [p|]; [|by destruct Hn; [lia|]]. cbn [dl_onBytesReceived traced_listener].
  destruct (dl_onBytesReceived _ p _ datagram _) as [a v]. rewrite Hi. set (w := MkTraced _ v).
  destruct (Hfree w) as (h & Hh & Hok). destruct a.
  all: first [rewrite Hh; eexists _, h, w; split; [done|]; split; [done|]; split; [exact Hok|]; done
    |eexists _, (uv_heap (dv_env s)), w; split; [reflexivity|]; split; [by destruct s as [? ? ? ? ? ? ? []]|];
     split; [by destruct (dv_env s)|]; done].
Qed.
End Reading.

(** ** Examples *)

(** a stream server over nothing and a listener that does nothing *)
#[local] Instance sample_transport : ServerTransport unit unit := {|
  initializeTransport s := Done (E_OK, s);
  terminateTransport s := Done (E_OK, s);
  startTransport s := Done (E_OK, s);
  stopTransport s := Done (E_OK, s);
  onStopTransport s := Done s;
  writeTransport := stream_writeTransport;
  newDetails _ := setConnectionId 0 (ConnectionDetails_newNet Stdlib.Strings.String.EmptyString 80 0 0);
|}.

#[local] Instance sample_listener : DataListener unit := {|
  dl_onConnect _ _ u := (true, u);
  dl_onDisconnect _ u := u;
  dl_onReadError _ _ u := u;
  dl_onWriteError _ _ u := u;
  dl_onBytesReceived _ _ _ _ u := (DATA_CAN_DELETE, u);
  dl_onBytesSent _ _ _ u := u;
|}.

Definition sample_idle : DServer unit unit := MkDServer None 0 0 RS_IDLE false tt tt UvEnv_new.

Definition sample_details : ConnectionDetails := ConnectionDetails_newNet Stdlib.Strings.String.EmptyString 80 5 0.

Definition sample_conn (h : uv_handle) : ConnectionData := MkConnectionData (Some h) 0 true 5 sample_details.

(** one client, on socket 7; the caller's buffer is at address 1 *)
Definition sample_running (results : list Z) : DServer unit unit :=
  MkDServer (Some [sample_conn (H_socket2 7)]) 1 6 RS_RUNNING true tt tt
    (MkUvEnv [] results [] 2 {[1 := O_buffer [Byte.x61; Byte.x62]]}).

Lemma sample_env_ok results : env_ok (dv_env (sample_running results)).
Proof. intros p Hp. cbn in *. by rewrite lookup_singleton_ne by lia. Qed.

(** the loop refuses the asynchronous request; and it cannot be woken up *)
Lemma failed_reply_has_no_effect_witness :
  (exists s', dserver_replyMsg sample_details 1 2 0 (sample_running [-1]) = Done (E_TRANSPORT_ERROR, None, s') /\
    exists e, s' = set_env e (sample_running [-1]) /\ uv_heap e = uv_heap (dv_env (sample_running [-1]))) /\
  dserver_replyMsg sample_details 1 2 0 (sample_running [0; -1]) = Undef UB_handle.
Proof.
  split.
  - destruct (@failed_reply_has_no_effect unit unit sample_details 1 2 0 [Byte.x61; Byte.x62] (sample_running [-1])
      (sample_conn (H_socket2 7)) (H_socket2 7) (sample_env_ok _) eq_refl eq_refl eq_refl ltac:(done)) as [Hf _].
    destruct Hf as (rc & r & s' & Hs' & He); [by intros [? _]|].
    assert (Hrc : rc = E_TRANSPORT_ERROR /\ r = None) by (vm_compute in Hs'; by injection Hs' as <- <- _).
    destruct Hrc as [-> ->]. exists s'. split; [exact Hs'|]. by apply He.
  - apply (@failed_reply_has_no_effect unit unit sample_details 1 2 0 [Byte.x61; Byte.x62] (sample_running [0; -1])
      (sample_conn (H_socket2 7)) (H_socket2 7) (sample_env_ok _) eq_refl eq_refl eq_refl ltac:(done)); done.
Defined.

(** the slot belongs to the client on socket 9 when the loop writes *)
Lemma reply_written_witness : exists req s1,
  dserver_replyMsg sample_details 1 2 0 (sample_running []) = Done (E_OK, Some req, s1) /\
  (exists w s2 s3 s4, onAsyncWriteStatic req (set_array (Some [sample_conn (H_socket2 9)]) s1) = Done s2 /\
    uv_calls (dv_env s2) = [uv_async_init_at (H_socket2 7); uv_async_send; uv_write (H_socket2 9) [Byte.x61; Byte.x62]; uv_close_async] /\
    onWriteStatic w 0 s2 = Done s3 /\ onCloseAsyncWriteReqStatic req s3 = Done s4 /\
    uv_heap (dv_env s4) = uv_heap (dv_env (sample_running []))) /\
  (exists p sbd s2 s3, onAsyncWriteStatic req (set_uv_results [-1] (set_array (Some [sample_conn (H_socket2 9)]) s1)) = Done s2 /\
    onCloseAsyncWriteReqStatic req s2 = Done s3 /\ dv_listener s3 = tt /\
    uv_heap (dv_env (sample_running [])) !! p = None /\
    uv_heap (dv_env s3) = <[p := O_serverBufferData sbd]>
      (reply_copies false 2 2 [Byte.x61; Byte.x62] (uv_heap (dv_env (sample_running []))))).
Proof.
  apply (@reply_written unit unit sample_transport sample_listener (fun p s => eq_refl) sample_details 1 2 0
    [Byte.x61; Byte.x62] (sample_running []) (sample_conn (H_socket2 7)) (H_socket2 7) [sample_conn (H_socket2 9)] (sample_conn (H_socket2 9)) (H_socket2 9) 0 (-1));
    first [apply sample_env_ok | done].
Defined.

Definition sample_initialized : DServer unit unit :=
  match dserver_initialize (fun _ => true) tt 2 sample_idle with Done (_, s) => s | _ => sample_idle end.

Lemma grabConnectionData_spec_witness : exists s', grabConnectionData sample_initialized = (Some 0, s') /\
  dv_nextConnectionId s' = 1.
Proof.
  exists (snd (grabConnectionData sample_initialized)). split; [vm_compute; reflexivity|].
  destruct (@grabConnectionData_spec unit unit (default [] (dv_connDataArray sample_initialized)) sample_initialized
    (Some 0) (snd (grabConnectionData sample_initialized))) as (c & cs' & _ & _ & _ & _ & _ & _ & _ & Hid).
  - vm_compute. reflexivity.
  - exact (@init_slots_ok unit unit sample_transport 2 sample_idle ltac:(lia) ltac:(cbn; lia)).
  - vm_compute. reflexivity.
  - vm_compute. reflexivity.
  - exact Hid.
Defined.

(** the first call of libuv fails *)
Lemma dserver_initialize_spec_witness : exists s',
  dserver_initialize (fun _ => true) tt 2 (set_env (MkUvEnv [] [-1] [] 1 ∅) sample_idle) = Done (E_TRANSPORT_ERROR, s') /\
  dv_runState s' = RS_IDLE /\ dv_connDataArray s' = None.
Proof.
  eexists. split; [vm_compute; reflexivity|]. set (s' := MkDServer _ _ _ _ _ _ _ _ : DServer unit unit).
  destruct (@dserver_initialize_spec unit unit sample_transport) with (allocs := fun _ : nat => true) (u := tt) (n := 2)
    (s := set_env (MkUvEnv [] [-1] [] 1 ∅) sample_idle) (rc := E_TRANSPORT_ERROR) (s' := s')
    as [(Hr & _)|[(_ & _ & Hr & Ha)|(_ & Hr & _)]]; try done.
  intros s rc s1 [= <- <-]. done.
Defined.

Lemma stop_unstarted_throws_witness : exists s',
  dserver_initialize (fun _ => true) tt 2 sample_idle = Done (E_OK, s') /\ dserver_stop s' = Undef UB_throw.
Proof.
  eexists. split; [vm_compute; reflexivity|].
  apply (@stop_unstarted_throws unit unit sample_transport (fun _ => true) tt 2 sample_idle).
  - done.
  - by intros s1 rc s2 [= <- <-].
  - vm_compute. reflexivity.
  - done.
Defined.
