(* ===== verification/Tcp.v ===== *)
(** * The TCP server (inc/transport/tcp_server.h, src/transport/tcp_server.cpp)

    A loop accepts connections and hands each to an IO task over a pipe; beside the pipe
    a private queue of the task tells which slot a socket on the pipe belongs to. The
    server is the transport of [Transport]; its callbacks are operations that libuv may
    run, in the thread of the server or of the task they belong to. *)

From Stdlib Require Import ZArith Lia String.
From stdpp Require Import gmap.
From coqutil Require Import Byte.
From S2P Require Import Prelude Errors Io Connection Segmented Assembler Client Transport.
Open Scope Z_scope.

(** ** Definitions *)

Inductive ServerState := SS_UNINIT | SS_LOOP_INIT | SS_TCP_INIT | SS_INIT.

#[export] Instance ServerState_eq_dec : EqDecision ServerState.
Proof. solve_decision. Defined.

Inductive IOTaskState := TS_UNINIT | TS_LOOP_INIT | TS_SERVER_PIPE_INIT | TS_INIT.

(** IOTaskData; [it_ioTask] tells whether the thread runs, the pending connections are
    slots, the front of the queue first *)
Record IOTaskData := MkIOTaskData {
  it_state : IOTaskState;
  it_ioTask : bool;
  it_taskId : Z;
  it_isUsed : bool;
  it_pendingConns : list Z;
}.

Definition IOTaskData_default : IOTaskData := MkIOTaskData TS_UNINIT false 0 false [].

Definition set_task_state (st : IOTaskState) (t : IOTaskData) : IOTaskData :=
  MkIOTaskData st (it_ioTask t) (it_taskId t) (it_isUsed t) (it_pendingConns t).
Definition set_task_thread (b : bool) (t : IOTaskData) : IOTaskData :=
  MkIOTaskData (it_state t) b (it_taskId t) (it_isUsed t) (it_pendingConns t).
Definition set_taskId (id : Z) (t : IOTaskData) : IOTaskData :=
  MkIOTaskData (it_state t) (it_ioTask t) id (it_isUsed t) (it_pendingConns t).
Definition set_task_isUsed (b : bool) (t : IOTaskData) : IOTaskData :=
  MkIOTaskData (it_state t) (it_ioTask t) (it_taskId t) b (it_pendingConns t).
Definition set_pendingConns (l : list Z) (t : IOTaskData) : IOTaskData :=
  MkIOTaskData (it_state t) (it_ioTask t) (it_taskId t) (it_isUsed t) l.

Record TcpServer := MkTcpServer {
  tcp_serverAddress : string;
  tcp_port : Z;
  tcp_backlog : Z;
  tcp_concurrency : Z;
  tcp_connectedPipes : Z;
  tcp_serverState : ServerState;
  tcp_ioTasks : list IOTaskData;
}.

Definition TcpServer_new (serverAddress : string) (port backlog concurrency : Z) : TcpServer :=
  MkTcpServer serverAddress port backlog concurrency 0 SS_UNINIT [].

Definition set_serverState (st : ServerState) (t : TcpServer) : TcpServer :=
  MkTcpServer (tcp_serverAddress t) (tcp_port t) (tcp_backlog t) (tcp_concurrency t)
    (tcp_connectedPipes t) st (tcp_ioTasks t).
Definition set_connectedPipes (n : Z) (t : TcpServer) : TcpServer :=
  MkTcpServer (tcp_serverAddress t) (tcp_port t) (tcp_backlog t) (tcp_concurrency t)
    n (tcp_serverState t) (tcp_ioTasks t).
Definition set_ioTasks (ts : list IOTaskData) (t : TcpServer) : TcpServer :=
  MkTcpServer (tcp_serverAddress t) (tcp_port t) (tcp_backlog t) (tcp_concurrency t)
    (tcp_connectedPipes t) (tcp_serverState t) ts.

(** the loop of an IO task *)
Definition IO_LOOP (task : Z) : Z := 1 + task.

Definition ENOENT : Z := 2.
Definition UV_EOF : Z := -4095.

(** vector::resize *)
Definition resize_tasks (n : Z) (ts : list IOTaskData) : list IOTaskData :=
  ztake n ts ++ replicate (Z.to_nat (n - zlen ts)) IOTaskData_default.

(** the ids 0, 1, ... of a loop over the tasks *)
Definition task_ids (n : Z) : list Z := map Z.of_nat (seq 0 (Z.to_nat n)).

(** getpeername of a socket may fail ([None]) *)
Definition setHostDetails (peer : option (string * Z)) (d : ConnectionDetails) : ConnectionDetails :=
  match peer with Some (hostName, port) => setNetAddress hostName port d | None => d end.

Section TcpServer.
Context {U : Type} `{DataListener U}.
Abbreviation server := (DServer TcpServer U).
Implicit Types s : server.

Definition set_tcp (f : TcpServer -> TcpServer) s : server := set_transport (f (dv_transport s)) s.

Definition concurrency s : Z := tcp_concurrency (dv_transport s).

Definition task_at (id : Z) s : outcome IOTaskData := mem_get (tcp_ioTasks (dv_transport s)) id.

Definition task_update (id : Z) (t : IOTaskData) s : server :=
  set_tcp (fun tcp => set_ioTasks (zset (tcp_ioTasks tcp) id t) tcp) s.

(** what createConnectionData makes *)
Definition createConnectionData s : ConnectionDetails :=
  setNetAddress (tcp_serverAddress (dv_transport s)) (tcp_port (dv_transport s))
    (ConnectionDetails_newNet EmptyString 0 0 0).

Definition termTcpServer s : server :=
  let s := if decide (tcp_serverState (dv_transport s) = SS_INIT) then s_do (uv_close H_server) s else s in
  set_tcp (set_serverState SS_UNINIT) s.

Definition initTcpServer s : ErrorCode * server :=
  let s := set_tcp (set_serverState SS_LOOP_INIT) s in
  let '(res, s) := s_uv (uv_tcp_init SERVER_LOOP H_server) s in
  if res <? 0 then (E_TRANSPORT_ERROR, termTcpServer s) else
  let s := set_tcp (set_serverState SS_INIT) s in
  let '(res, s) := s_uv uv_ip4_addr s in
  if res <? 0 then (E_TRANSPORT_ERROR, termTcpServer s) else
  let '(res, s) := s_uv (uv_tcp_bind H_server) s in
  if res <? 0 then (E_TRANSPORT_ERROR, termTcpServer s) else
  (E_OK, set_tcp (set_connectedPipes 0) s).

(** the result of unlink is minus errno when it fails *)
Definition initPipeServer s : ErrorCode * server :=
  let '(res, s) := s_uv (uv_pipe_init SERVER_LOOP H_pipeServer) s in
  if res <? 0 then (E_TRANSPORT_ERROR, s) else
  let '(res, s) := s_uv unlink s in
  if (res <? 0) && negb (- res =? ENOENT) then (E_SYSTEM_FAILURE, s) else
  let '(res, s) := s_uv (uv_pipe_bind H_pipeServer) s in
  if res <? 0 then (E_TRANSPORT_ERROR, s_do (uv_close H_pipeServer) s) else
  let s := s_do (uv_pipe_pending_instances (concurrency s)) s in
  let '(res, s) := s_uv (uv_listen H_pipeServer (concurrency s)) s in
  if res <? 0 then (E_TRANSPORT_ERROR, s_do (uv_close H_pipeServer) s) else (E_OK, s).

Definition termPipeServer s : server :=
  if decide (tcp_serverState (dv_transport s) = SS_INIT) then
    set_tcp (set_serverState SS_TCP_INIT) (s_do (uv_close H_pipeServer) s)
  else s.

Definition termIOTask (id : Z) s : outcome (ErrorCode * server) :=
  let* ioTask := task_at id s in
  let* '(rc, joinable, _, e) :=
    stopTransportLoop (IO_LOOP id) (it_ioTask ioTask) true false Done tt (dv_env s) in
  let s := task_update id (set_task_thread joinable ioTask) (set_env e s) in
  if decide (rc <> E_OK) then Done (rc, s) else
  Done (E_OK, task_update id (set_task_state TS_UNINIT (set_task_thread joinable ioTask)) s).

(** the result of uv_pipe_connect, which is none, is not looked at: the test that follows
    it sees the result of uv_pipe_init, which was no error *)
Definition initIOTask (id : Z) s : outcome (ErrorCode * server) :=
  let* taskData := task_at id s in
  let '(res, s) := s_uv (uv_loop_init (IO_LOOP id)) s in
  if res <? 0 then Done (E_TRANSPORT_ERROR, s) else
  let s := task_update id (set_task_state TS_LOOP_INIT taskData) s in
  let '(res, s) := s_uv (uv_pipe_init (IO_LOOP id) (H_clientPipe id)) s in
  if res <? 0 then let* '(_, s) := termIOTask id s in Done (E_TRANSPORT_ERROR, s) else
  let s := task_update id (set_task_state TS_SERVER_PIPE_INIT taskData) s in
  Done (E_OK, s_do (uv_pipe_connect (H_clientPipe id)) s).

(** the first error is reported, every task is stopped *)
Fixpoint termIOTasks_loop (ids : list Z) (rc : ErrorCode) s : outcome (ErrorCode * server) :=
  match ids with
  | [] => Done (rc, s)
  | id :: ids =>
    let* '(rc2, s) := termIOTask id s in
    termIOTasks_loop ids (if decide (rc = E_OK) then rc2 else rc) s
  end.

Definition termIOTasks s : outcome (ErrorCode * server) :=
  termIOTasks_loop (task_ids (concurrency s)) E_OK s.

Fixpoint initIOTasks_loop (ids : list Z) s : outcome (ErrorCode * server) :=
  match ids with
  | [] => Done (E_OK, s)
  | id :: ids =>
    let* '(rc, s) := initIOTask id s in
    if decide (rc <> E_OK) then
      let* '(_, s) := termIOTasks_loop (task_ids id) E_OK s in Done (rc, s)
    else initIOTasks_loop ids s
  end.

Definition initIOTasks s : outcome (ErrorCode * server) :=
  initIOTasks_loop (task_ids (concurrency s)) s.

Definition tcp_initializeTransport s : outcome (ErrorCode * server) :=
  let '(rc, s) := initTcpServer s in
  if decide (rc <> E_OK) then Done (rc, s) else
  let '(rc, s) := initPipeServer s in
  if decide (rc <> E_OK) then Done (rc, termTcpServer s) else
  let s := set_tcp (fun tcp => set_ioTasks
    (imap (fun i t => set_taskId (Z.of_nat i) t) (resize_tasks (tcp_concurrency tcp) (tcp_ioTasks tcp))) tcp) s in
  let* '(rc, s) := initIOTasks s in
  if decide (rc <> E_OK) then Done (rc, termTcpServer s) else Done (E_OK, s).

(** a thread object that has a thread must not be assigned *)
Fixpoint startTransport_loop (ids : list Z) s : outcome server :=
  match ids with
  | [] => Done s
  | id :: ids =>
    let* t := task_at id s in
    if it_ioTask t then Undef UB_throw else
    startTransport_loop ids (task_update id (set_task_thread true t) s)
  end.

Definition tcp_startTransport s : outcome (ErrorCode * server) :=
  let* s := startTransport_loop (task_ids (concurrency s)) s in Done (E_OK, s).

Definition tcp_stopTransport s : outcome (ErrorCode * server) :=
  let* '(rc, s) := termIOTasks s in
  if decide (rc <> E_OK) then Done (rc, s) else Done (E_OK, s).

(** *** Callbacks *)

Definition handlePipeConnect (task : Z) s : server :=
  let '(res, s) := s_uv (uv_read_start (H_clientPipe task)) s in
  if res <? 0 then s_do (uv_close (H_clientPipe task)) s else s.

(** the first task whose pipe end is free *)
Fixpoint find_pipe_slot (i : Z) (ts : list IOTaskData) : option Z :=
  match ts with
  | [] => None
  | t :: ts => if it_isUsed t then find_pipe_slot (i + 1) ts else Some i
  end.

Definition handleNewPipeConnection s : outcome server :=
  match find_pipe_slot 0 (ztake (concurrency s) (tcp_ioTasks (dv_transport s))) with
  | None => Done s
  | Some taskId =>
    let* taskData := task_at taskId s in
    let s := task_update taskId (set_task_isUsed true taskData) s in
    let '(res, s) := s_uv (uv_pipe_init SERVER_LOOP (H_serverPipe taskId)) s in
    if res <? 0 then Done (task_update taskId (set_task_isUsed false taskData) s) else
    let '(res, s) := s_uv (uv_accept (H_serverPipe taskId)) s in
    if res <? 0 then
      Done (task_update taskId (set_task_isUsed false taskData) (s_do (uv_close (H_serverPipe taskId)) s))
    else
    let n := u32 (tcp_connectedPipes (dv_transport s) + 1) in
    let s := set_tcp (set_connectedPipes n) s in
    if n =? concurrency s then
      let '(res, s) := s_uv (uv_listen H_server (tcp_backlog (dv_transport s))) s in
      if res <? 0 then let* '(_, s) := termIOTasks (termTcpServer s) in Done s else Done s
    else Done s
  end.

(** the slot of the connection is handed to its task: the slot by the queue, the socket by
    the pipe *)
Definition pass_connection (i : Z) s : outcome server :=
  let* connectionData := conn_at_index i s in
  if concurrency s =? 0 then Undef UB_divzero else
  let ioTaskId := cdt_connectionIndex connectionData mod concurrency s in
  let* taskData := task_at ioTaskId s in
  let s := task_update ioTaskId (set_pendingConns (i :: it_pendingConns taskData) taskData) s in
  let '(writeReq, s) := s_alloc O_write2 s in
  match writeReq with
  | None => let* s := release i s in Undef UB_null
  | Some writeReq =>
    let '(res, s) := s_uv (uv_write2 (H_serverPipe ioTaskId) (H_socket i)) s in
    if res <? 0 then
      let* s := s_free writeReq (s_do (uv_close (H_socket i)) s) in release i s
    else Done s
  end.

Definition handleNewConnection (status : Z) (peer : option (string * Z)) s : outcome server :=
  if status <? 0 then
    Done (if decide (getRunState s = RS_SHUTTING_DOWN) then s_do (uv_stop SERVER_LOOP) s else s)
  else
  let '(connectionData, s) := grabConnectionData s in
  match connectionData with
  | None => Done s
  | Some i =>
    let '(res, s) := s_uv (uv_tcp_init SERVER_LOOP (H_socket i)) s in
    if res <? 0 then release i s else
    let '(res, s) := s_uv (uv_accept (H_socket i)) s in
    if res <? 0 then release i (s_do (uv_close (H_socket i)) s) else
    let* s := conn_modify i (fun c => set_details
      (setConnectionId (cdt_connectionId c) (setHostDetails peer (cdt_connectionDetails c))) c) s in
    pass_connection i s
  end.

(** the oldest slot of the task's queue *)
Definition pop_pending (task : Z) s : outcome (option Z * server) :=
  let* taskData := task_at task s in
  match list.last (it_pendingConns taskData) with
  | None => Done (None, s)
  | Some i => Done (Some i, task_update task (set_pendingConns (removelast (it_pendingConns taskData)) taskData) s)
  end.

(** the socket arrives in the loop of the task and the listener is asked; m_connectionHandle
    is set even if reading could not be started *)
Definition accept_connection (task i : Z) s : outcome server :=
  let '(res, s) := s_uv (uv_tcp_init (IO_LOOP task) (H_socket2 i)) s in
  if res <? 0 then drop_connection (H_socket i) i s else
  let '(res, s) := s_uv (uv_accept (H_socket2 i)) s in
  if res <? 0 then drop_connection (H_socket i) i s else
  let* c := conn_at_index i s in
  let '(accepted, u) := dl_onConnect (cdt_connectionDetails c) 0 (dv_listener s) in
  let s := set_listener_state u s in
  if negb accepted then drop_connection (H_socket2 i) i s else
  let '(res, s) := s_uv (uv_read_start (H_socket2 i)) s in
  let* s := if res <? 0 then drop_connection (H_socket2 i) i s else Done s in
  conn_modify i (set_handle (Some (H_socket2 i))) s.

(** [pending], [isTcp]: what uv_pipe_pending_count and uv_pipe_pending_type say *)
Definition handlePipeRead (task nread : Z) (buf : option Z) (pending : Z) (isTcp : bool) s : outcome server :=
  let* '(connectionData, s) := pop_pending task s in
  let* s := match buf with Some p => s_free p s | None => Done s end in
  if nread <? 0 then
    match connectionData with
    | Some i => drop_connection (H_socket i) i s
    | None => Done s
    end
  else match connectionData with
  | None => Undef UB_null
  | Some i =>
    if (pending =? 0) || negb isTcp then drop_connection (H_socket i) i s
    else accept_connection task i s
  end.

(** a read on the socket of a connection. After a failed read the slot is given back
    first, and the listener is told then. *)
Definition read_close (i nread : Z) (buf : option Z) s : outcome server :=
  let* s := onRead i nread buf false s in
  if nread <? 0 then drop_connection (H_socket2 i) i s else Done s.

Definition read_notify (i : Z) s : outcome server :=
  let* c := conn_at_index i s in
  Done (set_listener_state (dl_onDisconnect (cdt_connectionDetails c) (dv_listener s)) s).

Definition onReadStatic (i nread : Z) (buf : option Z) s : outcome server :=
  let* s := read_close i nread buf s in
  if nread <? 0 then read_notify i s else Done s.

Definition onWrite2Static (req : Z) s : outcome server := s_free req s.

#[export] Instance tcp_transport : ServerTransport TcpServer U := {|
  initializeTransport := tcp_initializeTransport;
  terminateTransport s := Done (E_OK, s);
  startTransport := tcp_startTransport;
  stopTransport := tcp_stopTransport;
  onStopTransport s := Done s;
  writeTransport := stream_writeTransport;
  newDetails := createConnectionData;
|}.
End TcpServer.

(** ** The sockets that are read *)

(** the slots whose socket is read, by the calls that were made *)
Definition reader_step (R : gset Z) (c : uv_call) : gset Z :=
  match c with
  | uv_read_start (H_socket2 i) => {[i]} ∪ R
  | uv_close (H_socket2 i) => R ∖ {[i]}
  | _ => R
  end.

Definition readers (calls : list uv_call) : gset Z := foldl reader_step ∅ calls.

Lemma readers_snoc calls c : readers (calls ++ [c]) = reader_step (readers calls) c.
Proof. unfold readers. by rewrite foldl_app. Qed.

(** ** The slots of the connections *)

Definition used (cs : list ConnectionData) (i : Z) : Prop :=
  exists c, zget cs i = Some c /\ cdt_isUsed c = true.

(** [R]: the slots that are read; [C]: the slots whose disconnection the listener was not
    told yet. A slot in use waits in the queue of its task, once, or is read. *)
Record conns_ok (cs : list ConnectionData) (ts : list IOTaskData) (n : Z) (R C : gset Z)
    (evs : list dl_event) : Prop := {
  co_tasks : 0 < n /\ zlen ts = n;
  co_index : forall i c, zget cs i = Some c ->
    cdt_connectionIndex c = i /\ cd_connIndex (cdt_connectionDetails c) = i;
  co_pending : forall t task, zget ts t = Some task -> NoDup (it_pendingConns task) /\
    forall i, i ∈ it_pendingConns task -> i mod n = t /\ i ∉ R /\ used cs i;
  co_reading : forall i, i ∈ R -> used cs i;
  co_used : forall i, used cs i ->
    i ∈ R \/ exists task, zget ts (i mod n) = Some task /\ i ∈ it_pendingConns task;
  co_closing : forall i, i ∈ C -> i ∉ R /\ is_Some (zget cs i);
  co_events : exists open, open_after evs = Some open /\ (forall i, is_Some (open !! i) <-> i ∈ R \/ i ∈ C) /\
    forall i c, i ∈ R -> zget cs i = Some c -> open !! i = Some (cd_connId (cdt_connectionDetails c));
}.

Lemma used_zset cs i c j : is_Some (zget cs i) ->
  used (zset cs i c) j <-> (j = i /\ cdt_isUsed c = true) \/ (j <> i /\ used cs j).
Proof.
  intros [d Hd]. pose proof (zget_Some_range _ _ _ Hd). unfold used. destruct (Z.eq_dec i j) as [<-|Hne].
  - rewrite zget_zset_eq by done. naive_solver.
  - rewrite zget_zset_ne by done. naive_solver.
Qed.

Lemma zget_zset cs i c j (d : ConnectionData) : is_Some (zget cs i) -> zget (zset cs i c) j = Some d ->
  (j = i /\ d = c) \/ (j <> i /\ zget cs j = Some d).
Proof.
  intros [e He]. pose proof (zget_Some_range _ _ _ He). destruct (Z.eq_dec i j) as [<-|Hne].
  - rewrite zget_zset_eq by done. intros [= <-]. by left.
  - rewrite zget_zset_ne by done. intros. right. split; [congruence|done].
Qed.

Lemma zget_zset_is_Some cs i (c : ConnectionData) j : is_Some (zget cs j) -> is_Some (zget (zset cs i c) j).
Proof.
  intros [d Hd]. destruct (Z.eq_dec i j) as [<-|Hne].
  - pose proof (zget_Some_range _ _ _ Hd). rewrite zget_zset_eq by done. eauto.
  - rewrite zget_zset_ne by done. eauto.
Qed.

Section Conns.
Context (cs : list ConnectionData) (ts : list IOTaskData) (n : Z) (R C : gset Z) (evs : list dl_event).
Hypothesis Hok : conns_ok cs ts n R C evs.

Lemma not_used i c : zget cs i = Some c -> cdt_isUsed c = false -> ~ used cs i.
Proof. intros Hc Hu (d & Hd & Hd'). congruence. Qed.

Lemma task_exists i : exists task, zget ts (i mod n) = Some task.
Proof. destruct Hok as [[Hn Hl] _ _ _ _ _ _]. apply zget_is_Some. rewrite Hl. by apply Z.mod_pos_bound. Qed.

(** changes of a free slot *)
Lemma conns_free i c d : zget cs i = Some c -> cdt_isUsed c = false -> cdt_isUsed d = false -> own_index i d ->
  conns_ok (zset cs i d) ts n R C evs.
Proof.
  intros Hc Hu Hd Hi. pose proof (not_used i c Hc Hu) as Hnu. assert (Hs : is_Some (zget cs i)) by eauto.
  assert (Hus : forall j, used (zset cs i d) j <-> used cs j).
  { intros j. rewrite used_zset by done. rewrite Hd. split; [by intros [[? ?]|[? ?]]|].
    intros Hj. right. split; [by intros ->|done]. }
  destruct Hok as [K1 K2 K3 K4 K5 K6 (op & K7 & K8 & K9)]. split; [done|..].
  - intros j e [[-> ->]|[? He]]%zget_zset; [done|by apply K2|done].
  - intros t task Ht. destruct (K3 t task Ht) as [? Hp]. split; [done|]. intros j Hj. rewrite Hus. by apply Hp.
  - intros j Hj. rewrite Hus. by apply K4.
  - intros j. rewrite Hus. apply K5.
  - intros j Hj. destruct (K6 j Hj). split; [done|]. by apply zget_zset_is_Some.
  - exists op. split; [done|]. split; [done|]. intros j e Hj He.
    apply zget_zset in He as [[-> ->]|[? He]]; [|by apply K9|done]. by apply K4 in Hj.
Qed.

(** a free slot is given to a connection and waits in the queue of its task *)
Lemma conns_push i c d task : zget cs i = Some c -> cdt_isUsed c = false -> cdt_isUsed d = true -> own_index i d ->
  zget ts (i mod n) = Some task ->
  conns_ok (zset cs i d) (zset ts (i mod n) (set_pendingConns (i :: it_pendingConns task) task)) n R C evs.
Proof.
  intros Hc Hu Hd Hi Ht. pose proof (not_used i c Hc Hu) as Hnu. assert (Hs : is_Some (zget cs i)) by eauto.
  assert (Hus : forall j, used (zset cs i d) j <-> j = i \/ used cs j).
  { intros j. rewrite used_zset by done. destruct (Z.eq_dec j i); naive_solver. }
  pose proof (zget_Some_range _ _ _ Ht) as Hr.
  destruct Hok as [K1 K2 K3 K4 K5 K6 (op & K7 & K8 & K9)].
  assert (HiR : i ∉ R) by (intros HR; by apply K4 in HR).
  split.
  - by rewrite zlen_zset.
  - intros j e [[-> ->]|[? He]]%zget_zset; [done|by apply K2|done].
  - intros t task' Ht'. destruct (Z.eq_dec (i mod n) t) as [<-|].
    + rewrite zget_zset_eq in Ht' by done. injection Ht' as <-. destruct (K3 _ _ Ht) as [Hnd Hp].
      cbn. split.
      * apply list.NoDup_cons. split; [|done]. intros Hin. destruct (Hp i Hin) as (_ & _ & ?). done.
      * intros j [->|Hj]%elem_of_cons; [rewrite Hus; auto|]. rewrite Hus. destruct (Hp j Hj) as (? & ? & ?). auto.
    + rewrite zget_zset_ne in Ht' by done. destruct (K3 t task' Ht') as [? Hp]. split; [done|].
      intros j Hj. rewrite Hus. destruct (Hp j Hj) as (? & ? & ?). auto.
  - intros j Hj. rewrite Hus. auto.
  - intros j [->|Hj]%Hus.
    + right. eexists. rewrite zget_zset_eq by done. split; [done|]. cbn. by left.
    + destruct (K5 j Hj) as [|(task' & Ht' & Hin)]; [by left|right]. destruct (Z.eq_dec (i mod n) (j mod n)) as [Heq|].
      * rewrite <- Heq in *. rewrite zget_zset_eq by done. eexists. split; [done|]. cbn. right.
        rewrite Ht in Ht'. by injection Ht' as <-.
      * rewrite zget_zset_ne by done. eauto.
  - intros j Hj. destruct (K6 j Hj). split; [done|]. by apply zget_zset_is_Some.
  - exists op. split; [done|]. split; [done|]. intros j e Hj He.
    apply zget_zset in He as [[-> ->]|[? He]]; [done|by apply K9|done].
Qed.

(** the oldest connection of a queue leaves it, and its slot becomes free *)
Lemma conns_pop i d t task l : zget ts t = Some task -> it_pendingConns task = l ++ [i] ->
  cdt_isUsed d = false -> own_index i d ->
  conns_ok (zset cs i d) (zset ts t (set_pendingConns l task)) n R C evs.
Proof.
  intros Ht Hl Hd Hi. pose proof (zget_Some_range _ _ _ Ht) as Hr.
  destruct Hok as [K1 K2 K3 K4 K5 K6 (op & K7 & K8 & K9)]. destruct (K3 t task Ht) as [Hnd Hp].
  rewrite Hl in Hnd, Hp. apply list.NoDup_app in Hnd as (Hnd & Hni & _).
  destruct (Hp i) as (Hit & HiR & (c & Hc & Hu)); [by apply elem_of_app; right; left|].
  assert (Hs : is_Some (zget cs i)) by eauto.
  assert (Hus : forall j, used (zset cs i d) j <-> j <> i /\ used cs j).
  { intros j. rewrite used_zset by done. rewrite Hd. naive_solver. }
  split.
  - by rewrite zlen_zset.
  - intros j e [[-> ->]|[? He]]%zget_zset; [done|by apply K2|done].
  - intros t' task' Ht'. destruct (Z.eq_dec t t') as [<-|Hne].
    + rewrite zget_zset_eq in Ht' by done. injection Ht' as <-. cbn. split; [done|].
      intros j Hj. rewrite Hus. destruct (Hp j) as (? & ? & ?); [by apply elem_of_app; left|].
      split; [done|]. split; [done|]. split; [|done]. intros ->. apply (Hni i Hj). by left.
    + rewrite zget_zset_ne in Ht' by done. destruct (K3 t' task' Ht') as [? Hp']. split; [done|].
      intros j Hj. rewrite Hus. destruct (Hp' j Hj) as (? & ? & ?). split; [done|]. split; [done|].
      split; [|done]. intros ->. congruence.
  - intros j Hj. rewrite Hus. split; [by intros ->|auto].
  - intros j [Hji Hj]%Hus. destruct (K5 j Hj) as [|(task' & Ht' & Hin)]; [by left|right].
    destruct (Z.eq_dec t (j mod n)) as [Heq|].
    + rewrite <- Heq in *. rewrite zget_zset_eq by done. eexists. split; [done|]. cbn.
      rewrite Ht in Ht'. injection Ht' as <-. rewrite Hl in Hin.
      apply elem_of_app in Hin as [|Hin]; [done|]. by apply list_elem_of_singleton in Hin.
    + rewrite zget_zset_ne by done. eauto.
  - intros j Hj. destruct (K6 j Hj). split; [done|]. by apply zget_zset_is_Some.
  - exists op. split; [done|]. split; [done|]. intros j e Hj He.
    apply zget_zset in He as [[-> ->]|[? He]]; [done|by apply K9|done].
Qed.

(** a slot begins to be read, after the listener accepted its connection *)
Lemma conns_open i c d : zget cs i = Some c -> cdt_isUsed c = false -> cdt_isUsed d = true -> own_index i d ->
  i ∉ C ->
  conns_ok (zset cs i d) ts n ({[i]} ∪ R) C (evs ++ [Ev_connect i (cd_connId (cdt_connectionDetails d)) true]).
Proof.
  intros Hc Hu Hd Hi HiC. pose proof (not_used i c Hc Hu) as Hnu. assert (Hs : is_Some (zget cs i)) by eauto.
  destruct Hok as [K1 K2 K3 K4 K5 K6 (op & K7 & K8 & K9)].
  assert (HiR : i ∉ R) by (intros HR; by apply K4 in HR).
  assert (Hop : op !! i = None). { apply eq_None_not_Some. rewrite K8. by intros [|]. }
  assert (Hus : forall j, used (zset cs i d) j <-> j = i \/ used cs j).
  { intros j. rewrite used_zset by done. destruct (Z.eq_dec j i); naive_solver. }
  split; [done|..].
  - intros j e [[-> ->]|[? He]]%zget_zset; [done|by apply K2|done].
  - intros t task Ht. destruct (K3 t task Ht) as [? Hp]. split; [done|]. intros j Hj. rewrite Hus.
    destruct (Hp j Hj) as (? & ? & ?). split; [done|]. split; [|auto].
    intros [->%elem_of_singleton|]%elem_of_union; done.
  - intros j [->%elem_of_singleton|Hj]%elem_of_union; rewrite Hus; auto.
  - intros j [->|Hj]%Hus; [left; set_solver|]. destruct (K5 j Hj); [left; set_solver|by right].
  - intros j Hj. destruct (K6 j Hj). split; [set_solver|]. by apply zget_zset_is_Some.
  - exists (<[i := cd_connId (cdt_connectionDetails d)]> op). rewrite open_after_snoc, K7. cbn. rewrite Hop.
    split; [done|]. split.
    + intros j. destruct (decide (i = j)) as [<-|Hne].
      * rewrite lookup_insert_eq. split; [set_solver|eauto].
      * rewrite lookup_insert_ne by done. rewrite K8. set_solver.
    + intros j e Hj He. apply zget_zset in He as [[-> ->]|[? He]]; [by rewrite lookup_insert_eq| |done].
      rewrite lookup_insert_ne by done. apply K9; [set_solver|done].
Qed.

(** the listener refuses a connection *)
Lemma conns_reject i id : i ∉ R -> i ∉ C -> conns_ok cs ts n R C (evs ++ [Ev_connect i id false]).
Proof.
  intros HiR HiC. destruct Hok as [K1 K2 K3 K4 K5 K6 (op & K7 & K8 & K9)]. split; try done.
  exists op. rewrite open_after_snoc, K7. cbn. replace (op !! i) with (@None Z); [done|].
  symmetry. apply eq_None_not_Some. rewrite K8. by intros [|].
Qed.

(** what is read, or a read that fails, belongs to the connection that is open *)
Lemma conns_read i c : i ∈ R -> zget cs i = Some c ->
  conns_ok cs ts n R C (evs ++ [Ev_bytes i (cd_connId (cdt_connectionDetails c))]) /\
  conns_ok cs ts n R C (evs ++ [Ev_readError i (cd_connId (cdt_connectionDetails c))]).
Proof.
  intros HiR Hc. destruct Hok as [K1 K2 K3 K4 K5 K6 (op & K7 & K8 & K9)].
  split; (split; try done; exists op; rewrite open_after_snoc, K7; cbn; by rewrite decide_True by (by apply K9)).
Qed.

(** the socket of a slot is closed, and the slot is free *)
Lemma conns_close i d : i ∈ R -> cdt_isUsed d = false -> own_index i d ->
  conns_ok (zset cs i d) ts n (R ∖ {[i]}) ({[i]} ∪ C) evs.
Proof.
  intros HiR Hd Hi. destruct Hok as [K1 K2 K3 K4 K5 K6 (op & K7 & K8 & K9)].
  destruct (K4 i HiR) as (c & Hc & Hu). assert (Hs : is_Some (zget cs i)) by eauto.
  assert (Hus : forall j, used (zset cs i d) j <-> j <> i /\ used cs j).
  { intros j. rewrite used_zset by done. rewrite Hd. naive_solver. }
  split; [done|..].
  - intros j e [[-> ->]|[? He]]%zget_zset; [done|by apply K2|done].
  - intros t task Ht. destruct (K3 t task Ht) as [? Hp]. split; [done|]. intros j Hj. rewrite Hus.
    destruct (Hp j Hj) as (? & ? & ?). split; [done|]. split; [set_solver|]. split; [by intros ->|done].
  - intros j Hj. rewrite Hus. split; [set_solver|]. apply K4. set_solver.
  - intros j [Hji Hj]%Hus. destruct (K5 j Hj); [left; set_solver|by right].
  - intros j [->%elem_of_singleton|Hj]%elem_of_union.
    + split; [set_solver|]. by apply zget_zset_is_Some.
    + destruct (K6 j Hj). split; [set_solver|]. by apply zget_zset_is_Some.
  - exists op. split; [done|]. split.
    + intros j. rewrite K8. destruct (decide (j = i)) as [->|]; set_solver.
    + intros j e Hj He. apply zget_zset in He as [[-> ->]|[? He]]; [set_solver|apply K9; [set_solver|done]|done].
Qed.

(** the listener is told that a connection ended *)
Lemma conns_notify i id : i ∈ C -> conns_ok cs ts n R (C ∖ {[i]}) (evs ++ [Ev_disconnect i id]).
Proof.
  intros HiC. destruct Hok as [K1 K2 K3 K4 K5 K6 (op & K7 & K8 & K9)].
  destruct (K6 i HiC) as [HiR _]. split; try done.
  - intros j Hj. apply K6. set_solver.
  - exists (delete i op). rewrite open_after_snoc, K7. cbn. destruct (K8 i) as [_ [x Hx]]; [by right|]. rewrite Hx.
    split; [done|]. split.
    + intros j. destruct (decide (i = j)) as [<-|Hne].
      * rewrite lookup_delete_eq. split; [by intros []|set_solver].
      * rewrite lookup_delete_ne by done. rewrite K8. set_solver.
    + intros j e Hj He. rewrite lookup_delete_ne by (by intros ->). by apply K9.
Qed.
End Conns.

(** ** The callbacks keep the slots consistent *)

(** the results that the next calls of libuv will have; allocations succeed *)
Definition results_env (rs : list Z) (e : UvEnv) : UvEnv :=
  MkUvEnv [] rs (uv_calls e) (uv_next e) (uv_heap e).

Definition third_ok (rs : list Z) : Prop := 0 <= default 0 (head (tail (tail rs))).

Section Callbacks.
Context {V : Type} {DLV : DataListener V}.

#[local] Existing Instance traced_listener.

Abbreviation server := (DServer TcpServer (Traced V)).
Implicit Types s : server.

Definition with_results (rs : list Z) s : server := set_env (results_env rs (dv_env s)) s.

Definition server_ok (C : gset Z) s : Prop := exists cs, dv_connDataArray s = Some cs /\
  conns_ok cs (tcp_ioTasks (dv_transport s)) (concurrency s) (readers (uv_calls (dv_env s))) C
    (tr_events (dv_listener s)).

Lemma server_ok_intro C s cs R : dv_connDataArray s = Some cs -> readers (uv_calls (dv_env s)) = R ->
  conns_ok cs (tcp_ioTasks (dv_transport s)) (concurrency s) R C (tr_events (dv_listener s)) -> server_ok C s.
Proof. intros Ha <- Hc. by exists cs. Qed.

Lemma task_at_eq t task s : zget (tcp_ioTasks (dv_transport s)) t = Some task -> task_at t s = Done task.
Proof. apply mem_get_ok. Qed.

Lemma own_index_free i c : own_index i c -> own_index i (set_isUsed false c).
Proof. done. Qed.

Lemma own_index_details i c id peer : own_index i c -> own_index i
  (set_details (setConnectionId id (setHostDetails peer (cdt_connectionDetails c))) c).
Proof. by destruct peer as [[]|]. Qed.

(** a slot that was just taken is handed to its task *)
Lemma pass_connection_ok C cs i c d s : server_ok C (set_array (Some cs) s) ->
  dv_connDataArray s = Some (zset cs i d) -> zget cs i = Some c -> cdt_isUsed c = false -> cdt_isUsed d = true ->
  own_index i d -> uv_allocs (dv_env s) = [] -> 0 <= default 0 (head (uv_results (dv_env s))) ->
  exists s', pass_connection i s = Done s' /\ server_ok C s'.
Proof.
  intros (cs' & Ha' & Hok) Ha Hc Hu Hd Hi Hal Hres. cbn in Ha'. injection Ha' as <-. cbn in Hok.
  pose proof (zget_Some_range _ _ _ Hc) as Hr. destruct (co_tasks _ _ _ _ _ _ Hok) as [Hn _].
  unfold pass_connection. rewrite (conn_at_Some i (zset cs i d) d) by (done || by rewrite zget_zset_eq).
  cbn [outcome_bind]. destruct (Z.eqb_spec (concurrency s) 0) as [Hz|_]; [unfold concurrency in *; cbn in Hn; lia|].
  destruct Hi as [Hi Hi']. rewrite Hi. destruct (task_exists _ _ _ _ _ _ Hok i) as [task Ht].
  rewrite (task_at_eq _ task) by done. cbn [outcome_bind]. unfold s_alloc, uv_alloc.
  cbn [dv_env task_update set_tcp set_transport]. rewrite Hal. cbn [head tail default from_option].
  unfold s_uv, uv. cbn [dv_env set_env uv_results]. change (id true) with true. cbv iota. cbn [uv_results dv_env set_env].
  destruct (Z.ltb_spec (default 0 (head (uv_results (dv_env s)))) 0); [lia|].
  eexists. split; [reflexivity|]. eapply server_ok_intro; [exact Ha|cbn; by rewrite readers_snoc|].
  cbn. eapply conns_push; done.
Qed.

Lemma handleNewConnection_ok C s rs status peer : server_ok C s -> third_ok rs ->
  exists s', handleNewConnection status peer (with_results rs s) = Done s' /\ server_ok C s'.
Proof.
  intros (cs & Ha & Hok) Hrs. unfold handleNewConnection. set (s0 := with_results rs s).
  assert (Ha0 : dv_connDataArray s0 = Some cs) by done.
  destruct (status <? 0).
  { eexists. split; [reflexivity|]. case_decide; eapply server_ok_intro; try done. cbn. by rewrite readers_snoc. }
  destruct (grab_cases cs s0 Ha0) as [->|(i & c & d & n & Hc & Hu & Hd & Hi & ->)]; [eexists; split; [reflexivity|by exists cs]|].
  pose proof (zget_Some_range _ _ _ Hc) as Hr. specialize (Hi (co_index _ _ _ _ _ _ Hok i c Hc)).
  assert (Hd' : zget (zset cs i d) i = Some d) by (by rewrite zget_zset_eq).
  assert (Hfree : forall s1, dv_connDataArray s1 = Some (zset cs i d) -> dv_transport s1 = dv_transport s ->
    dv_listener s1 = dv_listener s -> readers (uv_calls (dv_env s1)) = readers (uv_calls (dv_env s)) ->
    exists s', release i s1 = Done s' /\ server_ok C s').
  { intros s1 H1 H2 H3 H4. unfold release. rewrite (conn_modify_eq i _ (zset cs i d) d s1) by done. rewrite zset_zset.
    eexists. split; [reflexivity|]. eapply server_ok_intro; [done|exact H4|]. unfold concurrency. cbn.
    rewrite H2, H3. eapply conns_free; done. }
  unfold s_uv, uv. cbv beta iota zeta. cbn [dv_env set_env set_nextConnectionId set_array uv_results uv_calls uv_allocs uv_next uv_heap].
  destruct (_ <? 0); [apply Hfree; try done; cbn; by rewrite readers_snoc|].
  destruct (_ <? 0); [apply Hfree; try done; cbn; by rewrite !readers_snoc|].
  erewrite conn_modify_eq by done. cbn [outcome_bind]. rewrite zset_zset. eapply (pass_connection_ok C cs i c); try done.
  - eapply server_ok_intro; [done|cbn; by rewrite !readers_snoc|done].
  - by apply own_index_details.
Qed.

(** no connection of the task is between its close and the notification of its end *)
Definition idle_task (t : Z) (C : gset Z) s : Prop := forall j, j ∈ C -> j mod concurrency s <> t.

(** the oldest connection of a queue *)
Lemma popped cs ts n R C evs t task l i : conns_ok cs ts n R C evs -> zget ts t = Some task ->
  it_pendingConns task = l ++ [i] -> i mod n = t /\ i ∉ R /\ used cs i.
Proof.
  intros Hok Ht Hl. destruct (co_pending _ _ _ _ _ _ Hok t task Ht) as [_ Hp]. apply Hp. rewrite Hl.
  apply elem_of_app. right. by left.
Qed.

(** the slot that left the queue of a task is closed *)
Lemma drop_ok C cs ts socket i t task l s :
  conns_ok cs ts (concurrency s) (readers (uv_calls (dv_env s))) C (tr_events (dv_listener s)) ->
  dv_connDataArray s = Some cs -> tcp_ioTasks (dv_transport s) = zset ts t (set_pendingConns l task) ->
  zget ts t = Some task -> it_pendingConns task = l ++ [i] -> socket = H_socket i \/ socket = H_socket2 i ->
  exists s', drop_connection socket i s = Done s' /\ server_ok C s'.
Proof.
  intros Hok Ha Hts Ht Hl Hs. destruct (popped _ _ _ _ _ _ _ _ _ _ Hok Ht Hl) as (Hit & HiR & c & Hc & Hu).
  unfold drop_connection, release. rewrite (conn_modify_eq i _ cs c) by done. eexists. split; [reflexivity|].
  eapply (server_ok_intro _ _ _ (readers (uv_calls (dv_env s)))); [done| |].
  - cbn. rewrite readers_snoc. destruct Hs as [-> | ->]; cbn; [done|set_solver].
  - cbn. rewrite Hts. eapply conns_pop; try done. apply own_index_free. by eapply co_index.
Qed.

(** the socket of the slot that left the queue of a task arrives *)
Lemma accept_ok C cs ts i t task l s :
  conns_ok cs ts (concurrency s) (readers (uv_calls (dv_env s))) C (tr_events (dv_listener s)) ->
  dv_connDataArray s = Some cs -> tcp_ioTasks (dv_transport s) = zset ts t (set_pendingConns l task) ->
  zget ts t = Some task -> it_pendingConns task = l ++ [i] -> idle_task t C s -> third_ok (uv_results (dv_env s)) ->
  exists s', accept_connection t i s = Done s' /\ server_ok C s'.
Proof.
  intros Hok Ha Hts Ht Hl Hidle Hres. destruct (popped _ _ _ _ _ _ _ _ _ _ Hok Ht Hl) as (Hit & HiR & c & Hc & Hu).
  assert (HiC : i ∉ C) by (intros Hin; by apply (Hidle i)).
  destruct (co_index _ _ _ _ _ _ Hok i c Hc) as [Hi Hi']. pose proof (zget_Some_range _ _ _ Hc) as Hr.
  unfold accept_connection. unfold s_uv at 1, uv at 1. cbv beta iota zeta.
  destruct (_ <? 0).
  { eapply (drop_ok C cs ts); try done; [|by left]. cbn. by rewrite readers_snoc. }
  unfold s_uv at 1, uv at 1. cbv beta iota zeta. destruct (_ <? 0).
  { eapply (drop_ok C cs ts); try done; [|by left]. cbn. by rewrite !readers_snoc. }
  rewrite (conn_at_Some i cs c) by done. cbn [outcome_bind dl_onConnect traced_listener dv_listener set_env].
  destruct (dl_onConnect _ 0 (tr_user _)) as [b v]. rewrite Hi'. destruct b; cbn [negb].
  - unfold s_uv, uv. cbv beta iota zeta. cbn [dv_env set_env set_listener_state uv_results].
    destruct (Z.ltb_spec (default 0 (head (tail (tail (uv_results (dv_env s)))))) 0) as [Hlt|_];
      [unfold third_ok in Hres; lia|]. cbn [outcome_bind].
    rewrite (conn_modify_eq i _ cs c) by done. eexists. split; [reflexivity|].
    eapply server_ok_intro; [done|cbn; by rewrite !readers_snoc|]. cbn. rewrite Hts.
    rewrite <- (zset_zset cs i (set_isUsed false c)).
    pose proof (conns_pop _ _ _ _ _ _ Hok i (set_isUsed false c) t task l Ht Hl eq_refl (conj Hi Hi')) as Hpop.
    eapply (conns_open _ _ _ _ _ _ Hpop i (set_isUsed false c)
      (set_handle (Some (H_socket2 i)) c)); try done. by rewrite zget_zset_eq.
  - eapply (drop_ok C cs ts); try done; [|by right]. cbn. rewrite !readers_snoc. cbn. by eapply conns_reject.
Qed.

Lemma handlePipeRead_ok C s rs t nread buf pending isTcp task : server_ok C s -> third_ok rs ->
  zget (tcp_ioTasks (dv_transport s)) t = Some task -> idle_task t C s ->
  (0 <= nread -> it_pendingConns task <> []) -> buf_live buf s ->
  exists s', handlePipeRead t nread buf pending isTcp (with_results rs s) = Done s' /\ server_ok C s'.
Proof.
  intros (cs & Ha & Hok) Hrs Ht Hidle Hp Hbuf. unfold handlePipeRead, pop_pending.
  rewrite (task_at_eq t task) by done. cbn [outcome_bind].
  destruct (list.last (it_pendingConns task)) as [i|] eqn:Hl.
  - apply last_Some in Hl as [l Hl]. rewrite Hl, List.removelast_last. cbn [outcome_bind].
    set (s1 := task_update _ _ _). destruct (free_buf buf s1) as (h & -> & _); [by destruct buf|]. cbn [outcome_bind].
    destruct (nread <? 0); [eapply (drop_ok C cs); try done; by left|].
    destruct (_ || _); [eapply (drop_ok C cs); try done; by left|]. by eapply (accept_ok C cs).
  - apply last_None in Hl. cbn [outcome_bind]. destruct (free_buf buf (with_results rs s)) as (h & -> & _); [by destruct buf|].
    cbn [outcome_bind]. destruct (Z.ltb_spec nread 0) as [|Hn]; [|by destruct (Hp Hn)].
    eexists. split; [reflexivity|]. by exists cs.
Qed.

Lemma onRead_ok C s i nread buf : server_ok C s -> i ∈ readers (uv_calls (dv_env s)) -> buf_live buf s ->
  (0 < nread -> buf <> None) ->
  exists s', onRead i nread buf false s = Done s' /\ server_ok C s' /\ dv_connDataArray s' = dv_connDataArray s /\
    dv_transport s' = dv_transport s /\ uv_calls (dv_env s') = uv_calls (dv_env s).
Proof.
  intros (cs & Ha & Hok) HiR Hbuf Hn. destruct (co_reading _ _ _ _ _ _ Hok i HiR) as (c & Hc & Hu).
  pose proof (co_index _ _ _ _ _ _ Hok i c Hc) as Hi. destruct (conns_read _ _ _ _ _ _ Hok i c HiR Hc) as [Hb He].
  destruct (onRead_told s cs i c nread buf false Ha Hc Hi Hbuf Hn) as (s' & h & v & -> & -> & _ & Hv).
  eexists. split; [reflexivity|]. split; [|done]. exists cs. split; [done|]. cbn. rewrite Hv. unfold read_events.
  destruct (nread <? 0); [done|]. destruct (nread =? 0); [by rewrite app_nil_r|done].
Qed.

Lemma read_close_ok C s i nread buf : server_ok C s -> i ∈ readers (uv_calls (dv_env s)) -> buf_live buf s ->
  nread < 0 -> exists s', read_close i nread buf s = Done s' /\ server_ok ({[i]} ∪ C) s'.
Proof.
  intros Hs HiR Hbuf Hn. destruct (onRead_ok C s i nread buf Hs HiR Hbuf ltac:(lia)) as (s1 & Hr & Hs1 & Ha & Ht & Hcalls).
  unfold read_close. rewrite Hr. cbn [outcome_bind]. destruct (Z.ltb_spec nread 0); [|lia].
  destruct Hs1 as (cs & Ha1 & Hok). rewrite <- Hcalls in HiR.
  destruct (co_reading _ _ _ _ _ _ Hok i HiR) as (c & Hc & Hu).
  unfold drop_connection, release. rewrite (conn_modify_eq i _ cs c) by done. eexists. split; [reflexivity|].
  eapply server_ok_intro; [done|cbn; by rewrite readers_snoc|]. cbn. apply conns_close; try done.
  apply own_index_free. by eapply co_index.
Qed.

Lemma onReadStatic_ok C s i nread buf : server_ok C s -> i ∈ readers (uv_calls (dv_env s)) -> buf_live buf s ->
  0 <= nread -> (0 < nread -> buf <> None) -> exists s', onReadStatic i nread buf s = Done s' /\ server_ok C s'.
Proof.
  intros Hs HiR Hbuf Hn Hb. destruct (onRead_ok C s i nread buf Hs HiR Hbuf Hb) as (s1 & Hr & Hs1 & _).
  unfold onReadStatic, read_close. rewrite Hr. cbn [outcome_bind]. destruct (Z.ltb_spec nread 0); [lia|]. by exists s1.
Qed.

Lemma read_notify_ok C s i : server_ok C s -> i ∈ C ->
  exists s', read_notify i s = Done s' /\ server_ok (C ∖ {[i]}) s'.
Proof.
  intros (cs & Ha & Hok) HiC. destruct (co_closing _ _ _ _ _ _ Hok i HiC) as (_ & c & Hc).
  unfold read_notify. rewrite (conn_at_Some i cs c) by done. cbn [outcome_bind]. eexists. split; [reflexivity|].
  exists cs. split; [done|]. cbn. destruct (co_index _ _ _ _ _ _ Hok i c Hc) as [_ Hi]. rewrite Hi. by eapply conns_notify.
Qed.

(** what libuv may do to a running server, with the slots whose disconnection is still to
    be told. The thread of a task runs one callback at a time; reads are those of sockets
    that are read; passing a socket to a task and starting to read do not fail. *)
Inductive tcp_step : server * gset Z -> server * gset Z -> Prop :=
| tcp_new rs status peer C s s' : third_ok rs ->
    handleNewConnection status peer (with_results rs s) = Done s' -> tcp_step (s, C) (s', C)
| tcp_arrival rs t nread buf pending isTcp C s s' task : third_ok rs -> idle_task t C s ->
    zget (tcp_ioTasks (dv_transport s)) t = Some task -> (0 <= nread -> it_pendingConns task <> []) ->
    buf_live buf s ->
    handlePipeRead t nread buf pending isTcp (with_results rs s) = Done s' -> tcp_step (s, C) (s', C)
| tcp_read i nread buf C s s' : idle_task (i mod concurrency s) C s -> i ∈ readers (uv_calls (dv_env s)) ->
    buf_live buf s -> (0 < nread -> buf <> None) -> 0 <= nread ->
    onReadStatic i nread buf s = Done s' -> tcp_step (s, C) (s', C)
| tcp_closed i nread buf C s s' : idle_task (i mod concurrency s) C s -> i ∈ readers (uv_calls (dv_env s)) ->
    buf_live buf s -> nread < 0 ->
    read_close i nread buf s = Done s' -> tcp_step (s, C) (s', {[i]} ∪ C)
| tcp_notify i C s s' : i ∈ C -> read_notify i s = Done s' -> tcp_step (s, C) (s', C ∖ {[i]}).

(** a server that was started *)
Record tcp_ready s : Prop := {
  tr_array : exists cs, dv_connDataArray s = Some cs /\
    forall i c, zget cs i = Some c -> own_index i c /\ cdt_isUsed c = false;
  tr_concurrency : 0 < concurrency s;
  tr_tasks : zlen (tcp_ioTasks (dv_transport s)) = concurrency s;
  tr_pending : forall t task, zget (tcp_ioTasks (dv_transport s)) t = Some task -> it_pendingConns task = [];
  tr_readers : readers (uv_calls (dv_env s)) = ∅;
  tr_told : tr_events (dv_listener s) = [];
}.

Lemma ready_ok s : tcp_ready s -> server_ok ∅ s.
Proof.
  intros [(cs & Ha & Hcs) Hn Hl Hp Hr He]. exists cs. split; [done|]. rewrite Hr, He. split.
  - done.
  - intros i c Hc. by apply Hcs.
  - intros t task Ht. rewrite (Hp t task Ht). split; [apply base.NoDup_nil_2|]. by intros i ?%elem_of_nil.
  - by intros i ?%elem_of_empty.
  - intros i (c & Hc & Hu). apply Hcs in Hc as [_ ?]. congruence.
  - by intros i ?%elem_of_empty.
  - exists ∅. split; [done|]. split; [|set_solver]. intros i. rewrite lookup_empty. split; [by intros []|set_solver].
Qed.

Lemma step_ok s C s' C' : tcp_step (s, C) (s', C') -> server_ok C s -> server_ok C' s'.
Proof.
  assert (Hdone : forall C (o : outcome server) s', o = Done s' ->
    (exists s1, o = Done s1 /\ server_ok C s1) -> server_ok C s').
  { intros C0 o s0 -> (s1 & [= ->] & Hs1). done. }
  intros Hstep Hs. inversion Hstep; subst; (eapply Hdone; [eassumption|]).
  - by apply handleNewConnection_ok.
  - by eapply handlePipeRead_ok.
  - by apply onReadStatic_ok.
  - by apply read_close_ok.
  - by apply read_notify_ok.
Qed.

Lemma steps_ok s C s' C' : rtc tcp_step (s, C) (s', C') -> server_ok C s -> server_ok C' s'.
Proof.
  intros Hrtc. remember (s, C) as p eqn:Hp. remember (s', C') as q eqn:Hq. revert s C Hp.
  induction Hrtc as [|p [s1 C1] q Hstep Hrtc IH]; intros s C Hp Hs; subst.
  - by injection Hp as <- <-.
  - eapply IH; try done. by eapply step_ok.
Qed.

(** C6. Whatever clients do, in whatever order the loops get to it, the listener is told of
    connections, bytes and disconnections in order, for every index: a connection begins
    when none of that index is open, bytes and errors are those of the connection that is
    open, and one disconnection ends it. A slot is in use exactly while it waits in the
    queue of its task or is read, so no slot is lost. *)
Theorem listener_told_in_order s s' C : tcp_ready s -> rtc tcp_step (s, ∅) (s', C) ->
  exists open cs, open_after (tr_events (dv_listener s')) = Some open /\ dv_connDataArray s' = Some cs /\
    (forall i, is_Some (open !! i) <-> i ∈ readers (uv_calls (dv_env s')) \/ i ∈ C) /\
    forall i, used cs i <-> i ∈ readers (uv_calls (dv_env s')) \/
      exists task, zget (tcp_ioTasks (dv_transport s')) (i mod concurrency s') = Some task /\
        i ∈ it_pendingConns task.
Proof.
  intros Hr Hrtc. apply steps_ok in Hrtc as (cs & Ha & Hok); [|by apply ready_ok].
  destruct (co_events _ _ _ _ _ _ Hok) as (op & Hop & Hi & _). exists op, cs. split; [done|]. split; [done|].
  split; [done|]. intros i. split; [by apply (co_used _ _ _ _ _ _ Hok)|].
  intros [Hin|(task & Ht & Hin)]; [by apply (co_reading _ _ _ _ _ _ Hok)|].
  destruct (co_pending _ _ _ _ _ _ Hok _ _ Ht) as [_ Hp]. by apply Hp.
Qed.

(** In every state that can be reached every callback completes: the connection that it
    is about exists, and the memory that it uses is live. The results [rs] are such that
    passing a socket to a task does not fail; and whether the handles of libuv are used as
    they must be is not part of a state of the model (see [accepted_socket_never_closed]). *)
Theorem callbacks_complete s s' C : tcp_ready s -> rtc tcp_step (s, ∅) (s', C) ->
  (forall rs status peer, third_ok rs ->
    is_done (handleNewConnection status peer (with_results rs s')) = true) /\
  (forall rs t nread buf pending isTcp task, third_ok rs -> idle_task t C s' ->
    zget (tcp_ioTasks (dv_transport s')) t = Some task -> (0 <= nread -> it_pendingConns task <> []) ->
    buf_live buf s' -> is_done (handlePipeRead t nread buf pending isTcp (with_results rs s')) = true) /\
  (forall i nread buf, i ∈ readers (uv_calls (dv_env s')) -> buf_live buf s' -> (0 < nread -> buf <> None) ->
    is_done (onReadStatic i nread buf s') = true) /\
  (forall i, i ∈ C -> is_done (read_notify i s') = true).
Proof.
  intros Hr Hrtc. apply steps_ok in Hrtc as Hs; [|by apply ready_ok]. split; [|split; [|split]].
  - intros rs status peer Hrs. by destruct (handleNewConnection_ok C s' rs status peer Hs Hrs) as (s1 & -> & _).
  - intros rs t nread buf pending isTcp task Hrs Hi Ht Hp Hb.
    by destruct (handlePipeRead_ok C s' rs t nread buf pending isTcp task Hs Hrs Ht Hi Hp Hb) as (s1 & -> & _).
  - intros i nread buf Hi Hb Hn. destruct (Z.ltb_spec nread 0) as [Hlt|Hge].
    + destruct (read_close_ok C s' i nread buf Hs Hi Hb Hlt) as (s1 & Hrc & Hs1). unfold onReadStatic. rewrite Hrc.
      cbn [outcome_bind]. destruct (Z.ltb_spec nread 0); [|lia].
      by destruct (read_notify_ok _ s1 i Hs1) as (s2 & -> & _); [set_solver|].
    + by destruct (onReadStatic_ok C s' i nread buf Hs Hi Hb Hge Hn) as (s1 & -> & _).
  - intros i Hi. by destruct (read_notify_ok C s' i Hs Hi) as (s1 & -> & _).
Qed.

(** ** One connection *)

(** a new connection when every call succeeds and slot [i] is the first that is free *)
Lemma handleNewConnection_calm s cs i c peer task : dv_connDataArray s = Some cs -> grab_slot 0 cs = Some i ->
  zget cs i = Some c -> own_index i c -> 0 < concurrency s ->
  zget (tcp_ioTasks (dv_transport s)) (i mod concurrency s) = Some task ->
  exists d s', handleNewConnection 0 peer (with_results [] s) = Done s' /\
    dv_connDataArray s' = Some (zset cs i d) /\ cdt_isUsed d = true /\ own_index i d /\
    cd_connId (cdt_connectionDetails d) = dv_nextConnectionId s /\
    dv_transport s' = set_ioTasks (zset (tcp_ioTasks (dv_transport s)) (i mod concurrency s)
      (set_pendingConns (i :: it_pendingConns task) task)) (dv_transport s) /\
    dv_listener s' = dv_listener s /\ uv_allocs (dv_env s') = [] /\ uv_results (dv_env s') = [] /\
    uv_calls (dv_env s') = uv_calls (dv_env s) ++ [uv_tcp_init SERVER_LOOP (H_socket i); uv_accept (H_socket i);
      uv_write2 (H_serverPipe (i mod concurrency s)) (H_socket i)].
Proof.
  intros Ha Hg Hc Hi Hn Ht. pose proof (zget_Some_range _ _ _ Hc) as Hr. unfold handleNewConnection. cbn [Z.ltb Z.compare].
  unfold grabConnectionData. change (dv_connDataArray (with_results [] s)) with (dv_connDataArray s).
  rewrite Ha. cbn [default from_option id]. rewrite Hg, Hc. set (d1 := MkConnectionData _ _ true _ _).
  unfold conn_update. change (dv_connDataArray (with_results [] s)) with (dv_connDataArray s). rewrite Ha.
  unfold s_uv at 1 2, uv at 1 2. cbn [uv_results dv_env set_env set_nextConnectionId set_array with_results results_env].
  cbn [default from_option head tail Z.ltb Z.compare id].
  erewrite (conn_modify_eq i _ (zset cs i d1) d1) by (done || by rewrite zget_zset_eq).
  cbn [outcome_bind]. rewrite zset_zset. set (d := set_details _ d1). unfold pass_connection.
  rewrite (conn_at_Some i (zset cs i d) d) by (done || by rewrite zget_zset_eq). cbn [outcome_bind].
  match goal with |- context [concurrency ?x] => change (concurrency x) with (concurrency s) end.
  destruct (Z.eqb_spec (concurrency s) 0); [lia|]. destruct Hi as [Hi1 Hi2].
  change (cdt_connectionIndex d) with (cdt_connectionIndex c). rewrite Hi1.
  rewrite (task_at_eq _ task) by done. cbn [outcome_bind]. eexists d, _. split; [reflexivity|].
  split; [done|]. split; [done|]. split; [|split; [done|]].
  - split; [done|]. subst d d1. by destruct peer as [[]|].
  - split; [done|]. split; [done|]. split; [done|]. split; [done|]. cbn. by rewrite <- !app_assoc.
Qed.

(** its socket arrives, alone, and the listener accepts *)
Lemma handlePipeRead_calm s cs i c t task : dv_connDataArray s = Some cs -> zget cs i = Some c -> own_index i c ->
  zget (tcp_ioTasks (dv_transport s)) t = Some task -> it_pendingConns task = [i] ->
  (forall d st (v : V), fst (dl_onConnect d st v) = true) ->
  exists s', handlePipeRead t 1 None 1 true (with_results [] s) = Done s' /\
    dv_connDataArray s' = Some (zset cs i (set_handle (Some (H_socket2 i)) c)) /\
    dv_transport s' = set_ioTasks (zset (tcp_ioTasks (dv_transport s)) t (set_pendingConns [] task)) (dv_transport s) /\
    tr_events (dv_listener s') = tr_events (dv_listener s) ++ [Ev_connect i (cd_connId (cdt_connectionDetails c)) true] /\
    uv_calls (dv_env s') = uv_calls (dv_env s) ++ [uv_tcp_init (IO_LOOP t) (H_socket2 i); uv_accept (H_socket2 i);
      uv_read_start (H_socket2 i)].
Proof.
  intros Ha Hc Hi Ht Hp Hacc. unfold handlePipeRead, pop_pending. rewrite (task_at_eq t task) by done.
  cbn [outcome_bind]. rewrite Hp. cbn [list.last removelast outcome_bind Z.ltb Z.eqb Z.compare orb negb].
  unfold accept_connection. unfold s_uv at 1 2, uv at 1 2. cbn [uv_results dv_env set_env task_update set_tcp set_transport with_results results_env].
  cbn [default from_option head tail Z.ltb Z.compare id]. rewrite (conn_at_Some i cs c) by done.
  cbn [outcome_bind dl_onConnect traced_listener]. destruct Hi as [Hi1 Hi2].
  match goal with |- context [dl_onConnect ?d 0 ?v] => pose proof (Hacc d 0 v) as Hb; destruct (dl_onConnect d 0 v) as [b v'] end.
  cbn [fst] in Hb. rewrite Hb, Hi2. cbn [negb]. unfold s_uv, uv.
  cbn [uv_results dv_env set_env set_listener_state default from_option head tail Z.ltb Z.compare id outcome_bind].
  rewrite (conn_modify_eq i _ cs c) by done. eexists. split; [reflexivity|]. split; [done|]. split; [done|].
  split; [done|]. cbn. by rewrite <- !app_assoc.
Qed.

(** the client goes away *)
Lemma read_close_calm s cs i c nread : dv_connDataArray s = Some cs -> zget cs i = Some c -> own_index i c -> nread < 0 ->
  exists s', read_close i nread None s = Done s' /\
    dv_connDataArray s' = Some (zset cs i (set_isUsed false c)) /\ dv_transport s' = dv_transport s /\
    dv_nextConnectionId s' = dv_nextConnectionId s /\
    tr_events (dv_listener s') = tr_events (dv_listener s) ++ [Ev_readError i (cd_connId (cdt_connectionDetails c))] /\
    uv_calls (dv_env s') = uv_calls (dv_env s) ++ [uv_close (H_socket2 i)].
Proof.
  intros Ha Hc [Hi1 Hi2] Hn. unfold read_close, onRead. rewrite (conn_at_Some i cs c) by done. cbn [outcome_bind].
  destruct (Z.ltb_spec nread 0); [|lia]. cbn [outcome_bind]. unfold drop_connection, release.
  rewrite (conn_modify_eq i _ cs c) by done. eexists. split; [reflexivity|]. split; [done|]. split; [done|].
  split; [done|]. cbn. by rewrite Hi2.
Qed.

Lemma read_notify_eq s cs i c : dv_connDataArray s = Some cs -> zget cs i = Some c -> own_index i c ->
  exists s', read_notify i s = Done s' /\ dv_connDataArray s' = Some cs /\ dv_env s' = dv_env s /\
    tr_events (dv_listener s') = tr_events (dv_listener s) ++ [Ev_disconnect i (cd_connId (cdt_connectionDetails c))].
Proof.
  intros Ha Hc [Hi1 Hi2]. unfold read_notify. rewrite (conn_at_Some i cs c) by done. cbn [outcome_bind].
  eexists. split; [reflexivity|]. split; [done|]. split; [done|]. cbn. by rewrite Hi2.
Qed.

(** the life of a connection, from its arrival to the end of the client: the calls that
    are made for it *)
Lemma connection_life s c cs : tcp_ready s -> dv_connDataArray s = Some (c :: cs) ->
  (forall d st (v : V), fst (dl_onConnect d st v) = true) ->
  exists s' cs' d, rtc tcp_step (s, ∅) (s', ∅) /\ dv_connDataArray s' = Some cs' /\
    zget cs' 0 = Some d /\ cdt_isUsed d = false /\
    tr_events (dv_listener s') = [Ev_connect 0 (dv_nextConnectionId s) true; Ev_readError 0 (dv_nextConnectionId s);
      Ev_disconnect 0 (dv_nextConnectionId s)] /\
    uv_calls (dv_env s') = uv_calls (dv_env s) ++
      [uv_tcp_init SERVER_LOOP (H_socket 0); uv_accept (H_socket 0); uv_write2 (H_serverPipe 0) (H_socket 0);
       uv_tcp_init (IO_LOOP 0) (H_socket2 0); uv_accept (H_socket2 0); uv_read_start (H_socket2 0);
       uv_close (H_socket2 0)].
Proof.
  intros [(cs0 & Ha & Hcs) Hn Hl Hp Hr He] Ha' Hacc. rewrite Ha in Ha'. injection Ha' as ->.
  assert (Hc : zget (c :: cs) 0 = Some c) by apply zget_cons_0. destruct (Hcs 0 c Hc) as [Hi Hu].
  assert (H0 : 0 mod concurrency s = 0) by (apply Z.mod_small; lia).
  destruct (zget_is_Some (tcp_ioTasks (dv_transport s)) 0) as [task Ht]; [lia|]. pose proof (Hp 0 task Ht) as Hp0.
  destruct (handleNewConnection_calm s (c :: cs) 0 c None task) as
    (d & s1 & Hs1 & Ha1 & Hd & Hi1 & Hid & Ht1 & Hl1 & _ & _ & Hc1); try done.
  { cbn. by rewrite Hu. }
  rewrite H0 in Ht1, Hc1. rewrite Hp0 in Ht1.
  assert (Hd1 : zget (zset (c :: cs) 0 d) 0 = Some d) by (apply zget_zset_eq; by apply zget_Some_range in Hc).
  assert (Htask1 : zget (tcp_ioTasks (dv_transport s1)) 0 = Some (set_pendingConns [0] task)).
  { rewrite Ht1. apply zget_zset_eq. by apply zget_Some_range in Ht. }
  destruct (handlePipeRead_calm s1 _ 0 d 0 _ Ha1 Hd1 Hi1 Htask1 eq_refl Hacc) as (s2 & Hs2 & Ha2 & Ht2 & He2 & Hc2).
  rewrite zset_zset in Ha2. set (d2 := set_handle _ d) in Ha2.
  assert (Hd2 : zget (zset (c :: cs) 0 d2) 0 = Some d2) by (apply zget_zset_eq; by apply zget_Some_range in Hc).
  destruct (read_close_calm s2 _ 0 d2 UV_EOF Ha2 Hd2 Hi1) as (s3 & Hs3 & Ha3 & Ht3 & _ & He3 & Hc3); [done|].
  rewrite zset_zset in Ha3. set (d3 := set_isUsed false d2) in Ha3.
  assert (Hd3 : zget (zset (c :: cs) 0 d3) 0 = Some d3) by (apply zget_zset_eq; by apply zget_Some_range in Hc).
  destruct (read_notify_eq s3 _ 0 d3 Ha3 Hd3 Hi1) as (s4 & Hs4 & Ha4 & Henv4 & He4).
  exists s4, (zset (c :: cs) 0 d3), d3. split; [|split; [done|split; [exact Hd3|split; [done|split]]]].
  - eapply rtc_l; [by eapply (tcp_new [] 0 None)|].
    eapply rtc_l; [by eapply (tcp_arrival [] 0 1 None 1 true)|].
    eapply rtc_l; [eapply (tcp_closed 0 UV_EOF None); try done; rewrite Hc2, Hc1|].
    { unfold readers. rewrite !foldl_app. cbn. set_solver. }
    replace (∅ : gset Z) with (({[0]} ∪ ∅) ∖ {[0]} : gset Z) at 2 by set_solver.
    apply rtc_once. apply tcp_notify; [set_solver|done].
  - rewrite He4, He3, He2, Hl1, He. cbn. by rewrite Hid.
  - rewrite Henv4, Hc3, Hc2, Hc1. by rewrite <- !app_assoc.
Qed.

(** the handles that were initialized and not closed since, by the calls, and whether one
    was initialized while it was open *)
Definition handles_step (p : list uv_handle * bool) (c : uv_call) : list uv_handle * bool :=
  match c with
  | uv_tcp_init _ h | uv_pipe_init _ h =>
    if decide (h ∈ fst p) then (fst p, true) else (h :: fst p, snd p)
  | uv_close h => (filter (fun h' => h' <> h) (fst p), snd p)
  | _ => p
  end.

Definition handles_after (calls : list uv_call) : list uv_handle * bool := foldl handles_step ([], false) calls.

(** The socket that the server accepts is never closed in the server's loop. A client
    connects to an idle server that accepts it, and goes away again: every call succeeds,
    the listener is told of everything, the slot is free and the socket in the task's loop
    is closed, but the socket that was accepted and passed to the task is open, and stays
    so. The next client gets the same slot, whose open socket is initialized again. *)
Theorem accepted_socket_never_closed s c cs : tcp_ready s -> dv_connDataArray s = Some (c :: cs) ->
  (forall d st (v : V), fst (dl_onConnect d st v) = true) ->
  exists s1 cs1 calls s2 calls', rtc tcp_step (s, ∅) (s1, ∅) /\ rtc tcp_step (s1, ∅) (s2, ∅) /\
    tr_events (dv_listener s1) = [Ev_connect 0 (dv_nextConnectionId s) true; Ev_readError 0 (dv_nextConnectionId s);
      Ev_disconnect 0 (dv_nextConnectionId s)] /\
    dv_connDataArray s1 = Some cs1 /\ ~ used cs1 0 /\
    uv_calls (dv_env s1) = uv_calls (dv_env s) ++ calls /\ handles_after calls = ([H_socket 0], false) /\
    uv_calls (dv_env s2) = uv_calls (dv_env s1) ++ calls' /\ handles_after (calls ++ calls') = ([H_socket 0], true).
Proof.
  intros Hr Ha Hacc. destruct (connection_life s c cs Hr Ha Hacc) as (s1 & cs1 & d & Hrtc & Ha1 & Hd & Hud & He1 & Hc1).
  pose proof (steps_ok _ _ _ _ Hrtc (ready_ok _ Hr)) as (cs' & Ha' & Hok). rewrite Ha1 in Ha'. injection Ha' as <-.
  pose proof (co_index _ _ _ _ _ _ Hok 0 d Hd) as Hi.
  destruct (task_exists _ _ _ _ _ _ Hok 0) as [task Ht]. destruct (co_tasks _ _ _ _ _ _ Hok) as [Hpos _].
  destruct (handleNewConnection_calm s1 cs1 0 d None task Ha1) as (d' & s2 & Hs2 & _ & _ & _ & _ & _ & _ & _ & _ & Hc2);
    [by apply (grab_slot_first cs1 0 d); [| |intros j e Hj He; apply zget_Some_range in He; lia]|done..|].
  eexists s1, cs1, _, s2, _. split; [exact Hrtc|]. split.
  { apply rtc_once. by eapply (tcp_new [] 0 None). }
  split; [exact He1|]. split; [exact Ha1|].
  split; [intros (e & He & Hue); congruence|]. split; [exact Hc1|].
  split; [reflexivity|]. split; [exact Hc2|]. reflexivity.
Qed.

(** The slot of a connection that ends is given back before the listener is told of the
    end. A connection that arrives in between, in the thread of the server, takes the slot
    and its details, and the listener is told that a connection ended whose id it does not
    know: that of the connection that just arrived. *)
Theorem end_names_next_connection s0 s cs i c nread : tcp_ready s0 -> rtc tcp_step (s0, ∅) (s, ∅) ->
  dv_connDataArray s = Some cs -> i ∈ readers (uv_calls (dv_env s)) -> zget cs i = Some c ->
  (forall j d, j < i -> zget cs j = Some d -> cdt_isUsed d = true) -> nread < 0 ->
  exists s', rtc tcp_step (s, ∅) (s', ∅) /\
    tr_events (dv_listener s') = tr_events (dv_listener s) ++
      [Ev_readError i (cd_connId (cdt_connectionDetails c)); Ev_disconnect i (dv_nextConnectionId s)].
Proof.
  intros Hready Hrtc Ha HiR Hc Hlt Hn. apply steps_ok in Hrtc as (cs' & Ha' & Hok); [|by apply ready_ok].
  rewrite Ha in Ha'. injection Ha' as <-. pose proof (co_index _ _ _ _ _ _ Hok i c Hc) as Hi.
  pose proof (zget_Some_range _ _ _ Hc) as Hr.
  destruct (read_close_calm s cs i c nread Ha Hc Hi Hn) as (s1 & Hs1 & Ha1 & Ht1 & Hid1 & He1 & Hc1).
  assert (Hc1' : zget (zset cs i (set_isUsed false c)) i = Some (set_isUsed false c)) by (by rewrite zget_zset_eq).
  destruct (task_exists _ _ _ _ _ _ Hok i) as [task Ht]. destruct (co_tasks _ _ _ _ _ _ Hok) as [Hpos _].
  destruct (handleNewConnection_calm s1 _ i (set_isUsed false c) None task Ha1) as
    (d & s2 & Hs2 & Ha2 & Hd & Hi2 & Hid & _ & Hl2 & _); try done.
  { apply (grab_slot_first _ i (set_isUsed false c)); try done. intros j e Hj He. apply (Hlt j e Hj).
    by rewrite zget_zset_ne in He by lia. }
  { unfold concurrency. by rewrite Ht1. }
  { unfold concurrency. by rewrite Ht1. }
  assert (Hd' : zget (zset (zset cs i (set_isUsed false c)) i d) i = Some d) by (rewrite zset_zset; by rewrite zget_zset_eq).
  destruct (read_notify_eq s2 _ i d Ha2 Hd' Hi2) as (s3 & Hs3 & _ & _ & He3).
  exists s3. split; [|rewrite He3, Hl2, He1, Hid, Hid1; by rewrite <- app_assoc].
  eapply rtc_l; [by eapply (tcp_closed i nread None)|].
  eapply rtc_l; [by eapply (tcp_new [] 0 None)|].
  replace (∅ : gset Z) with (({[i]} ∪ ∅) ∖ {[i]} : gset Z) at 2 by set_solver.
  apply rtc_once. apply tcp_notify; [set_solver|done].
Qed.

(** If a socket cannot be passed to its task, the slot is given back, but it stays in the
    queue of the task: the next socket on the pipe is taken for the wrong connection. *)
Theorem failed_handover_leaves_entry s cs c peer : tcp_ready s -> dv_connDataArray s = Some (c :: cs) ->
  exists s' cs' task, handleNewConnection 0 peer (with_results [0; 0; -1] s) = Done s' /\
    dv_connDataArray s' = Some cs' /\ ~ used cs' 0 /\
    zget (tcp_ioTasks (dv_transport s')) 0 = Some task /\ it_pendingConns task = [0].
Proof.
  intros [(cs0 & Ha & Hcs) Hn Hl Hp Hr He] Ha'. rewrite Ha in Ha'. injection Ha' as ->.
  assert (Hc : zget (c :: cs) 0 = Some c) by apply zget_cons_0. destruct (Hcs 0 c Hc) as [[Hi Hi'] Hu].
  destruct (zget_is_Some (tcp_ioTasks (dv_transport s)) 0) as [task Ht]; [lia|]. pose proof (Hp 0 task Ht) as Hp0.
  unfold handleNewConnection. cbn [Z.ltb Z.compare]. unfold grabConnectionData.
  change (dv_connDataArray (with_results _ s)) with (dv_connDataArray s). rewrite Ha. cbn [default from_option id grab_slot].
  rewrite Hu, Hc. unfold conn_update. change (dv_connDataArray (with_results _ s)) with (dv_connDataArray s). rewrite Ha.
  set (d1 := MkConnectionData _ _ true _ _). pose proof (zget_Some_range _ _ _ Hc) as Hrg.
  unfold s_uv at 1 2, uv at 1 2. cbn [uv_results dv_env set_env set_nextConnectionId set_array with_results results_env].
  cbn [default from_option head tail Z.ltb Z.compare id].
  erewrite (conn_modify_eq 0 _ (zset (c :: cs) 0 d1) d1) by (done || by rewrite zget_zset_eq).
  cbn [outcome_bind]. rewrite zset_zset. set (d := set_details _ d1). unfold pass_connection.
  assert (Hd : zget (zset (c :: cs) 0 d) 0 = Some d) by (by rewrite zget_zset_eq).
  rewrite (conn_at_Some 0 (zset (c :: cs) 0 d) d) by done. cbn [outcome_bind].
  match goal with |- context [concurrency ?x] => change (concurrency x) with (concurrency s) end.
  destruct (Z.eqb_spec (concurrency s) 0); [lia|]. change (cdt_connectionIndex d) with (cdt_connectionIndex c).
  rewrite Hi, Z.mod_0_l by lia. rewrite (task_at_eq _ task) by done. cbn [outcome_bind].
  unfold s_alloc, uv_alloc. cbn [dv_env task_update set_tcp set_transport set_array set_env uv_allocs results_env].
  cbn [head tail default from_option id]. unfold s_uv, uv. cbn [dv_env set_env uv_results head default from_option id Z.ltb Z.compare].
  erewrite s_free_ok by (cbn; apply lookup_insert_eq). cbn [outcome_bind]. unfold release.
  erewrite conn_modify_eq by done. eexists _, _, _. split; [reflexivity|]. split; [done|]. split.
  - rewrite zset_zset. intros (e & He' & Hue). rewrite zget_zset_eq in He' by done. by injection He' as <-.
  - cbn [dv_transport set_array set_env s_do task_update set_tcp set_transport tcp_ioTasks set_ioTasks with_results
      set_nextConnectionId]. rewrite zget_zset_eq by (by apply zget_Some_range in Ht). split; [done|]. cbn. by rewrite Hp0.
Qed.

(** ** Starting and stopping the tasks *)

Lemma elem_of_task_ids n i : 0 <= n -> i ∈ task_ids n <-> 0 <= i < n.
Proof.
  intros Hn. unfold task_ids. rewrite list_elem_of_In, List.in_map_iff. split.
  - intros (k & <- & Hk%List.in_seq). lia.
  - intros Hi. exists (Z.to_nat i). split; [lia|]. apply List.in_seq. lia.
Qed.

Lemma NoDup_task_ids n : NoDup (task_ids n).
Proof. unfold task_ids. apply (NoDup_fmap_2 (Z.of_nat : nat -> Z)). apply NoDup_seq. Qed.

(** the tasks [t] with [th t] have a thread, none has connections; the rest of the server is
    that of [s0] *)
Record tasks_quiet s0 (th : Z -> bool) s : Prop := {
  tq_calm : calm (dv_env s);
  tq_readers : readers (uv_calls (dv_env s)) = ∅;
  tq_length : zlen (tcp_ioTasks (dv_transport s)) = concurrency s0;
  tq_tasks : forall t task, zget (tcp_ioTasks (dv_transport s)) t = Some task ->
    it_pendingConns task = [] /\ it_ioTask task = th t;
  tq_frame : dv_connDataArray s = dv_connDataArray s0 /\ dv_maxConnections s = dv_maxConnections s0 /\
    dv_nextConnectionId s = dv_nextConnectionId s0 /\ dv_runState s = dv_runState s0 /\
    dv_serverThread s = dv_serverThread s0 /\ dv_listener s = dv_listener s0 /\ concurrency s = concurrency s0;
}.

Lemma quiet_update s0 th s id task : tasks_quiet s0 th s -> it_pendingConns task = [] ->
  tasks_quiet s0 (fun t => if decide (t = id) then it_ioTask task else th t) (task_update id task s).
Proof.
  intros [K1 K2 K3 K4 K5] Hp. split; [done|done|cbn; by rewrite zlen_zset| |done].
  intros t task' Ht. cbn in Ht. destruct (Z.eq_dec id t) as [<-|Hne].
  - assert (Hr : 0 <= id < zlen (tcp_ioTasks (dv_transport s))).
    { apply zget_Some_range in Ht. by rewrite zlen_zset in Ht. }
    rewrite zget_zset_eq in Ht by done. injection Ht as <-. by rewrite decide_True.
  - rewrite zget_zset_ne in Ht by done. rewrite decide_False by congruence. by apply K4.
Qed.

Lemma quiet_ext s0 th th' s : tasks_quiet s0 th s ->
  (forall t, 0 <= t < concurrency s0 -> th t = th' t) -> tasks_quiet s0 th' s.
Proof.
  intros [K1 K2 K3 K4 K5] Hth. split; try done. intros t task Ht. destruct (K4 t task Ht) as [Hp ->].
  split; [done|]. apply Hth. apply zget_Some_range in Ht. lia.
Qed.

(** calls that neither start nor end a reader *)
Lemma quiet_env s0 th s cs h n : tasks_quiet s0 th s -> readers (uv_calls (dv_env s) ++ cs) = ∅ ->
  tasks_quiet s0 th (set_env (MkUvEnv [] [] (uv_calls (dv_env s) ++ cs) n h) s).
Proof. intros [K1 K2 K3 K4 K5] Hr. by split. Qed.

Lemma quiet_task s0 th s id : tasks_quiet s0 th s -> 0 <= id < concurrency s0 ->
  exists task, task_at id s = Done task /\ it_pendingConns task = [] /\ it_ioTask task = th id.
Proof.
  intros [K1 K2 K3 K4 K5] Hid. destruct (zget_is_Some (tcp_ioTasks (dv_transport s)) id) as [task Ht]; [lia|].
  exists task. split; [by apply task_at_eq|]. by apply K4.
Qed.

Lemma s_uv_quiet s0 th s c : tasks_quiet s0 th s -> reader_step ∅ c = ∅ ->
  exists s', s_uv c s = (0, s') /\ tasks_quiet s0 th s'.
Proof.
  intros Hq Hc. rewrite s_uv_calm by apply Hq. eexists. split; [reflexivity|].
  apply quiet_env; [done|]. by rewrite readers_snoc, (tq_readers _ _ _ Hq).
Qed.

Lemma initIOTask_quiet s0 th s id : tasks_quiet s0 th s -> 0 <= id < concurrency s0 ->
  exists s', initIOTask id s = Done (E_OK, s') /\ tasks_quiet s0 th s'.
Proof.
  intros Hq Hid. destruct (quiet_task _ _ _ _ Hq Hid) as (task & Ht & Hp & Hth). unfold initIOTask. rewrite Ht.
  cbn [outcome_bind]. destruct (s_uv_quiet _ _ _ (uv_loop_init (IO_LOOP id)) Hq eq_refl) as (s1 & -> & Hq1).
  cbn [Z.ltb Z.compare]. apply (quiet_update _ _ _ id (set_task_state TS_LOOP_INIT task)) in Hq1; [|done].
  destruct (s_uv_quiet _ _ _ (uv_pipe_init (IO_LOOP id) (H_clientPipe id)) Hq1 eq_refl) as (s2 & -> & Hq2).
  cbn [Z.ltb Z.compare]. apply (quiet_update _ _ _ id (set_task_state TS_SERVER_PIPE_INIT task)) in Hq2; [|done].
  eexists. split; [reflexivity|]. unfold s_do, uv_do. destruct (tq_calm _ _ _ Hq2) as [-> ->].
  apply quiet_env; [|by rewrite readers_snoc, (tq_readers _ _ _ Hq2)].
  eapply quiet_ext; [exact Hq2|]. intros t _. cbn. repeat case_decide; congruence.
Qed.

Lemma initIOTasks_quiet s0 th ids s : (forall id, id ∈ ids -> 0 <= id < concurrency s0) -> tasks_quiet s0 th s ->
  exists s', initIOTasks_loop ids s = Done (E_OK, s') /\ tasks_quiet s0 th s'.
Proof.
  revert s. induction ids as [|id ids IH]; intros s Hids Hq; [by exists s|]. cbn [initIOTasks_loop].
  destruct (initIOTask_quiet s0 th s id Hq) as (s1 & -> & Hq1); [apply Hids; by left|]. cbn [outcome_bind].
  rewrite decide_False by (intros Hc; by apply Hc). apply IH; [|done]. intros k Hk. apply Hids. by right.
Qed.

Lemma startTransport_quiet s0 th ids s : (forall id, id ∈ ids -> 0 <= id < concurrency s0 /\ th id = false) ->
  NoDup ids -> tasks_quiet s0 th s ->
  exists s', startTransport_loop ids s = Done s' /\ tasks_quiet s0 (fun t => bool_decide (t ∈ ids) || th t) s'.
Proof.
  revert th s. induction ids as [|id ids IH]; intros th s Hids Hnd Hq.
  { exists s. split; [done|]. by eapply quiet_ext. }
  apply list.NoDup_cons in Hnd as [Hni Hnd]. destruct (Hids id) as [Hid Hf]; [by left|].
  destruct (quiet_task _ _ _ _ Hq Hid) as (task & Ht & Hp & Hth). cbn [startTransport_loop]. rewrite Ht.
  cbn [outcome_bind]. rewrite Hth, Hf.
  destruct (fun Hids => IH _ _ Hids Hnd (quiet_update _ _ _ id (set_task_thread true task) Hq Hp)) as (s' & Hs' & Hq').
  { intros k Hk. destruct (Hids k) as [? Hfk]; [by right|]. rewrite decide_False by (by intros ->). done. }
  exists s'. split; [exact Hs'|]. eapply quiet_ext; [exact Hq'|]. intros t _. cbn.
  destruct (decide (t = id)) as [->|Hne]; [rewrite (bool_decide_true (id ∈ id :: ids)) by (by left); by rewrite orb_true_r|].
  f_equal. apply bool_decide_ext. rewrite elem_of_cons. naive_solver.
Qed.

Lemma termIOTask_quiet s0 th s id : tasks_quiet s0 th s -> 0 <= id < concurrency s0 -> th id = true ->
  exists s', termIOTask id s = Done (E_OK, s') /\
    tasks_quiet s0 (fun t => if decide (t = id) then false else th t) s'.
Proof.
  intros Hq Hid Htrue. destruct (quiet_task _ _ _ _ Hq Hid) as (task & Ht & Hp & Hth). unfold termIOTask. rewrite Ht.
  cbn [outcome_bind]. unfold stopTransportLoop, uv, uv_do. destruct (tq_calm _ _ _ Hq) as [Ha Hr]. rewrite Hr, Hth, Htrue, Ha.
  cbn [andb uv_results head tail default from_option Datatypes.id Z.eqb negb outcome_bind Z.ltb Z.compare
    uv_allocs uv_calls uv_next uv_heap].
  rewrite decide_False by (intros Hc; by apply Hc). eexists. split; [reflexivity|].
  set (t1 := set_task_thread false task).
  assert (Hq1 : tasks_quiet s0 th (set_env (MkUvEnv [] [] (uv_calls (dv_env s) ++ [uv_async_init (IO_LOOP id);
    uv_async_send; uv_close_async; uv_walk (IO_LOOP id); uv_run_once (IO_LOOP id); uv_loop_close (IO_LOOP id)])
    (uv_next (dv_env s)) (uv_heap (dv_env s))) s)).
  { apply quiet_env; [done|]. unfold readers. rewrite foldl_app. apply (tq_readers _ _ _ Hq). }
  eapply (quiet_update _ _ _ id t1), (quiet_update _ _ _ id (set_task_state TS_UNINIT t1)) in Hq1; [|done..].
  rewrite <- !app_assoc. cbn [app]. eapply quiet_ext; [exact Hq1|]. intros t _. cbn. by repeat case_decide.
Qed.

Lemma termIOTasks_quiet s0 th ids s : (forall id, id ∈ ids -> 0 <= id < concurrency s0 /\ th id = true) ->
  NoDup ids -> tasks_quiet s0 th s ->
  exists s', termIOTasks_loop ids E_OK s = Done (E_OK, s') /\
    tasks_quiet s0 (fun t => negb (bool_decide (t ∈ ids)) && th t) s'.
Proof.
  revert th s. induction ids as [|id ids IH]; intros th s Hids Hnd Hq.
  { exists s. split; [done|]. by eapply quiet_ext. }
  apply list.NoDup_cons in Hnd as [Hni Hnd]. destruct (Hids id) as [Hid Htrue]; [by left|].
  cbn [termIOTasks_loop]. destruct (termIOTask_quiet _ _ _ _ Hq Hid Htrue) as (s1 & -> & Hq1). cbn [outcome_bind].
  destruct (fun Hids => IH _ _ Hids Hnd Hq1) as (s' & Hs' & Hq').
  { intros k Hk. destruct (Hids k) as [? Htk]; [by right|]. rewrite decide_False by (by intros ->). done. }
  exists s'. split; [exact Hs'|]. eapply quiet_ext; [exact Hq'|]. intros t _. cbn.
  destruct (decide (t = id)) as [->|Hne]; [rewrite (bool_decide_true (id ∈ id :: ids)) by (by left); by rewrite andb_false_r|].
  f_equal. f_equal. apply bool_decide_ext. rewrite elem_of_cons. naive_solver.
Qed.

(** the tasks that resize makes *)
Lemma new_tasks n t task : 0 <= n -> let ts := imap (fun i t => set_taskId (Z.of_nat i) t) (resize_tasks n []) in
  zlen ts = n /\ (zget ts t = Some task -> it_pendingConns task = [] /\ it_ioTask task = false).
Proof.
  intros Hn ts. unfold ts, resize_tasks. replace (ztake n (@nil IOTaskData)) with (@nil IOTaskData) by
    (unfold ztake; by destruct (Z.to_nat n)). rewrite zlen_nil, Z.sub_0_r, app_nil_l. split.
  - unfold zlen. rewrite length_imap, length_replicate. lia.
  - unfold zget. destruct (t <? 0); [done|]. rewrite list_lookup_imap.
    destruct (replicate _ _ !! _) as [t0|] eqn:Ht0; [|done]. apply lookup_replicate in Ht0 as [-> _].
    cbn. by intros [= <-].
Qed.

(** the server while its sockets are set up *)
Definition boots s0 s : Prop := calm (dv_env s) /\ readers (uv_calls (dv_env s)) = ∅ /\
  tcp_ioTasks (dv_transport s) = [] /\ dv_connDataArray s = dv_connDataArray s0 /\
  dv_maxConnections s = dv_maxConnections s0 /\ dv_nextConnectionId s = dv_nextConnectionId s0 /\
  dv_runState s = dv_runState s0 /\ dv_serverThread s = dv_serverThread s0 /\ dv_listener s = dv_listener s0 /\
  concurrency s = concurrency s0.

Lemma s_uv_boots s0 s c : boots s0 s -> reader_step ∅ c = ∅ -> exists s', s_uv c s = (0, s') /\ boots s0 s'.
Proof.
  intros (Hc & Hr & Hrest) Hstep. rewrite s_uv_calm by done. eexists. split; [reflexivity|].
  split; [done|]. split; [|exact Hrest]. cbn. by rewrite readers_snoc, Hr.
Qed.

Lemma initTcpServer_boots s0 s : boots s0 s -> exists s', initTcpServer s = (E_OK, s') /\ boots s0 s'.
Proof.
  intros Hb. unfold initTcpServer.
  destruct (s_uv_boots s0 (set_tcp (set_serverState SS_LOOP_INIT) s) (uv_tcp_init SERVER_LOOP H_server) Hb eq_refl)
    as (s1 & -> & H1'). cbn [Z.ltb Z.compare].
  destruct (s_uv_boots s0 (set_tcp (set_serverState SS_INIT) s1) uv_ip4_addr H1' eq_refl) as (s2 & -> & H2').
  cbn [Z.ltb Z.compare]. destruct (s_uv_boots s0 s2 (uv_tcp_bind H_server) H2' eq_refl) as (s3 & -> & H3').
  cbn [Z.ltb Z.compare]. eexists. split; [reflexivity|]. exact H3'.
Qed.

Lemma initPipeServer_boots s0 s : boots s0 s -> exists s', initPipeServer s = (E_OK, s') /\ boots s0 s'.
Proof.
  intros Hb. unfold initPipeServer.
  destruct (s_uv_boots s0 s (uv_pipe_init SERVER_LOOP H_pipeServer) Hb eq_refl) as (s1 & -> & H1'). cbn [Z.ltb Z.compare].
  destruct (s_uv_boots s0 s1 unlink H1' eq_refl) as (s2 & -> & H2'). cbn [Z.ltb Z.compare andb].
  destruct (s_uv_boots s0 s2 (uv_pipe_bind H_pipeServer) H2' eq_refl) as (s3 & -> & H3'). cbn [Z.ltb Z.compare].
  assert (H4' : boots s0 (s_do (uv_pipe_pending_instances (concurrency s3)) s3)).
  { destruct H3' as (Hc & Hr & Hrest). split; [done|]. split; [|exact Hrest]. cbn. by rewrite readers_snoc, Hr. }
  destruct (s_uv_boots s0 _ (uv_listen H_pipeServer (concurrency (s_do (uv_pipe_pending_instances (concurrency s3)) s3)))
    H4' eq_refl) as (s5 & -> & H5'). cbn [Z.ltb Z.compare]. by exists s5.
Qed.

Lemma tcp_initializeTransport_quiet s0 s : boots s0 s -> 0 <= concurrency s0 ->
  exists s', tcp_initializeTransport s = Done (E_OK, s') /\ tasks_quiet s0 (fun _ => false) s'.
Proof.
  intros Hb Hn. unfold tcp_initializeTransport. destruct (initTcpServer_boots s0 s Hb) as (s1 & -> & H1').
  rewrite decide_False by (intros Hx; by apply Hx). destruct (initPipeServer_boots s0 s1 H1') as (s2 & -> & H2').
  rewrite decide_False by (intros Hx; by apply Hx). set (s3 := set_tcp _ s2).
  destruct H2' as (Hc & Hr & Hts & Ha & Hm & Hid & Hrun & Hth & Hl & Hcc).
  assert (Hq : tasks_quiet s0 (fun _ => false) s3).
  { split; [done|done| | |done].
    - cbn. rewrite Hts. unfold concurrency in Hcc. rewrite Hcc. by eapply (new_tasks (concurrency s0) 0 IOTaskData_default).
    - cbn. rewrite Hts. unfold concurrency in Hcc. rewrite Hcc. intros t task. by apply new_tasks. }
  destruct (initIOTasks_quiet s0 (fun _ => false) (task_ids (concurrency s3)) s3) as (s4 & Hs4 & Hq4); [|done|].
  { intros id Hi. change (concurrency s3) with (concurrency s2) in Hi. rewrite Hcc in Hi. by apply elem_of_task_ids in Hi. }
  unfold initIOTasks. rewrite Hs4. cbn [outcome_bind]. rewrite decide_False by (intros Hx; by apply Hx). by exists s4.
Qed.

(** the thread of the server is joined after its loop was told to stop *)
Lemma dserver_stop_loop s : calm (dv_env s) -> dv_runState s = RS_RUNNING -> dv_serverThread s = true ->
  exists s1, calm (dv_env s1) /\ readers (uv_calls (dv_env s1)) = readers (uv_calls (dv_env s)) /\
    dv_transport s1 = dv_transport s /\ dv_serverThread s1 = false /\
    dserver_stop s = let* '(rc, s2) := stopTransport s1 in
      if decide (rc <> E_OK) then Done (rc, s2) else Done (E_OK, setRunState RS_IDLE s2).
Proof.
  intros [Ha Hr] Hrun Hth. unfold dserver_stop, changeRunState. rewrite decide_True by done. cbn [negb].
  unfold stopTransportLoop, uv_alloc, uv, uv_do. cbn [dv_env dv_serverThread setRunState]. rewrite Ha, Hr, Hth.
  cbn [andb uv_results uv_allocs uv_calls uv_next uv_heap head tail default from_option Datatypes.id Z.eqb negb
    outcome_bind Z.ltb Z.compare bool_decide decide_rel].
  change (bool_decide (Some (uv_next (dv_env s)) = None)) with false. cbv iota.
  unfold onStopTransportStatic. cbn [fst snd onStopTransport tcp_transport outcome_bind dv_env set_env uv_heap].
  unfold uv_free. cbn [uv_heap]. rewrite lookup_insert_eq. cbn [outcome_bind].
  cbn [uv_results head default from_option Datatypes.id Z.ltb Z.compare outcome_bind].
  rewrite decide_False by (intros Hx; by apply Hx). eexists. split; [|split; [|split; [|split; [|reflexivity]]]]; try done.
  cbn. unfold readers. by rewrite !foldl_app.
Qed.

(** the tasks of another state of the same server *)
Lemma quiet_rebase s0 th s s' : tasks_quiet s0 th s -> calm (dv_env s') -> readers (uv_calls (dv_env s')) = ∅ ->
  dv_transport s' = dv_transport s -> tasks_quiet s' th s'.
Proof.
  intros [K1 K2 K3 K4 (_ & _ & _ & _ & _ & _ & Hc)] H1 H2 H3. split; try done.
  - unfold concurrency in *. rewrite H3, Hc. done.
  - by rewrite H3.
Qed.

Lemma dserver_start_ready s cs : tasks_quiet s (fun _ => false) s -> 0 < concurrency s ->
  dv_connDataArray s = Some cs -> (forall i c, zget cs i = Some c -> own_index i c /\ cdt_isUsed c = false) ->
  tr_events (dv_listener s) = [] -> dv_serverThread s = false ->
  exists s', dserver_start s = Done (E_OK, s') /\ tcp_ready s' /\ dv_runState s' = RS_RUNNING /\
    dv_serverThread s' = true /\ tasks_quiet s' (fun _ => true) s'.
Proof.
  intros Hq Hn Ha Hcs Hl Hth. set (s1 := setRunState RS_RUNNING s).
  apply (quiet_rebase _ _ _ s1) in Hq; [|apply Hq|apply Hq|done]. unfold dserver_start. fold s1.
  destruct (startTransport_quiet s1 (fun _ => false) (task_ids (concurrency s1)) s1) as (s2 & Hs2 & Hq2);
    [|apply NoDup_task_ids|done|].
  { intros id Hid. by apply elem_of_task_ids in Hid; [|apply Z.lt_le_incl]. }
  cbn [startTransport tcp_transport]. unfold tcp_startTransport. rewrite Hs2. cbn [outcome_bind].
  rewrite decide_False by (intros Hx; by apply Hx). destruct (tq_frame _ _ _ Hq2) as (Ha2 & _ & _ & Hr2 & Ht2 & Hl2 & Hc2).
  rewrite Ht2. change (dv_serverThread s1) with (dv_serverThread s). rewrite Hth. eexists. split; [reflexivity|].
  split; [|split; [by cbn; rewrite Hr2|split; [done|]]].
  - split; cbn.
    + exists cs. split; [by rewrite Ha2|done].
    + change (0 < concurrency s2). by rewrite Hc2.
    + change (zlen (tcp_ioTasks (dv_transport s2)) = concurrency s2). rewrite Hc2. apply Hq2.
    + intros t task Ht. by apply (tq_tasks _ _ _ Hq2) in Ht as [? _].
    + apply Hq2.
    + by rewrite Hl2.
  - eapply (quiet_rebase s1 _ s2); [|apply Hq2|apply Hq2|done]. eapply quiet_ext; [exact Hq2|].
    intros t Ht. cbn. rewrite bool_decide_true; [done|]. apply elem_of_task_ids; [by apply Z.lt_le_incl|done].
Qed.

Lemma dserver_stop_quiet s : tasks_quiet s (fun _ => true) s -> dv_runState s = RS_RUNNING -> 0 < concurrency s ->
  dv_serverThread s = true ->
  exists s', dserver_stop s = Done (E_OK, s') /\ dv_runState s' = RS_IDLE /\ dv_serverThread s' = false /\
    forall t task, zget (tcp_ioTasks (dv_transport s')) t = Some task -> it_ioTask task = false.
Proof.
  intros Hq Hr Hn Hth. destruct (dserver_stop_loop s) as (s1 & Hc1 & Hr1 & Ht1 & Hth1 & ->); [apply Hq|done..|].
  apply (quiet_rebase _ _ _ s1) in Hq; [|done|rewrite Hr1; apply Hq|done].
  assert (Hn1 : 0 < concurrency s1) by (unfold concurrency; by rewrite Ht1).
  destruct (termIOTasks_quiet s1 (fun _ => true) (task_ids (concurrency s1)) s1) as (s2 & Hs2 & Hq2);
    [|apply NoDup_task_ids|done|].
  { intros id Hid. by apply elem_of_task_ids in Hid; [|apply Z.lt_le_incl]. }
  cbn [stopTransport tcp_transport]. unfold tcp_stopTransport, termIOTasks. rewrite Hs2. cbn [outcome_bind].
  rewrite decide_False by (intros Hx; by apply Hx). cbn [outcome_bind]. rewrite decide_False by (intros Hx; by apply Hx).
  eexists. split; [reflexivity|]. split; [done|]. split.
  - destruct (tq_frame _ _ _ Hq2) as (_ & _ & _ & _ & Ht2 & _). cbn. by rewrite Ht2.
  - intros t task Ht. cbn in Ht. destruct (tq_tasks _ _ _ Hq2 t task Ht) as [_ ->].
    rewrite bool_decide_true; [done|]. apply zget_Some_range in Ht. rewrite (tq_length _ _ _ Hq2) in Ht.
    apply elem_of_task_ids; [by apply Z.lt_le_incl|done].
Qed.

(** C21. A server with at least one task comes up when every call of libuv succeeds, ready
    for connections, and goes down again with every thread joined. *)
Theorem tcp_server_lifecycle u n s : calm (dv_env s) -> readers (uv_calls (dv_env s)) = ∅ -> tr_events u = [] ->
  tcp_ioTasks (dv_transport s) = [] -> 0 < concurrency s -> 0 <= n < 2 ^ 32 -> 0 <= dv_nextConnectionId s ->
  dv_runState s = RS_IDLE -> dv_serverThread s = false ->
  exists s1 s2 s3, dserver_initialize (fun _ => true) u n s = Done (E_OK, s1) /\
    dserver_start s1 = Done (E_OK, s2) /\ tcp_ready s2 /\ dv_runState s2 = RS_RUNNING /\
    dserver_stop s2 = Done (E_OK, s3) /\ dv_runState s3 = RS_IDLE /\ dv_serverThread s3 = false /\
    forall t task, zget (tcp_ioTasks (dv_transport s3)) t = Some task -> it_ioTask task = false.
Proof.
  intros Hc Hr Hu Hts Hn Hmax Hid Hrun Hth. unfold dserver_initialize, changeRunState. rewrite decide_True by done.
  cbn [negb]. unfold initConnDataArray. replace (forallb _ _) with true by (symmetry; by apply List.forallb_forall).
  set (cs := map _ _). cbn [negb]. rewrite s_uv_calm by done. cbn [Z.ltb Z.compare].
  match goal with |- context [initializeTransport ?x] => set (s0 := x) end.
  destruct (tcp_initializeTransport_quiet s0 s0) as (s1 & Hs1 & Hq1); [|by apply Z.lt_le_incl|].
  { split; [done|]. split; [|done]. cbn. by rewrite readers_snoc, Hr. }
  change (initializeTransport s0) with (tcp_initializeTransport s0). rewrite Hs1. cbn [outcome_bind].
  rewrite decide_False by (intros Hx; by apply Hx). destruct (tq_frame _ _ _ Hq1) as (Ha1 & _ & _ & _ & Ht1 & _ & Hc1).
  set (s2 := setRunState RS_RUNNING (set_listener_state u s1)).
  assert (Hn2 : 0 < concurrency s2) by (change (0 < concurrency s1); by rewrite Hc1).
  destruct (dserver_start_ready s2 cs) as (s3 & Hs3 & Hready & Hr3 & Hth3 & Hq3); try done.
  - eapply (quiet_rebase s0 _ s1); [done|apply Hq1|apply Hq1|done].
  - intros i c. by apply new_slots.
  - change (dv_serverThread s1 = false). by rewrite Ht1.
  - destruct (dserver_stop_quiet s3 Hq3 Hr3) as (s4 & Hs4 & Hr4 & Hth4 & Htasks); [apply Hready|done|].
    by exists s2, s3, s4.
Qed.

(** If the pipe of a task cannot be set up, the task is stopped although its thread was
    never started: joining it throws, so the error is not reported but ends the program. *)
Theorem initIOTask_failure_throws id s task r1 r2 : task_at id s = Done task -> it_ioTask task = false ->
  0 <= r1 -> r2 < 0 -> initIOTask id (with_results [r1; r2] s) = Undef UB_throw.
Proof.
  intros Ht Hth H1' H2'. pose proof Ht as Ht0. unfold initIOTask.
  change (task_at id (with_results [r1; r2] s)) with (task_at id s). rewrite Ht. cbn [outcome_bind].
  unfold s_uv at 1, uv at 1. cbn [dv_env with_results set_env results_env uv_results head default from_option Datatypes.id].
  destruct (Z.ltb_spec r1 0); [lia|]. unfold s_uv at 1, uv at 1.
  cbn [dv_env task_update set_tcp set_transport set_env uv_results head tail default from_option Datatypes.id].
  destruct (Z.ltb_spec r2 0); [|lia]. unfold termIOTask, task_at in *.
  cbn [dv_transport task_update set_tcp set_transport set_env tcp_ioTasks set_ioTasks].
  assert (Hz : exists c, zget (tcp_ioTasks (dv_transport s)) id = Some c).
  { unfold mem_get in Ht0. destruct (zget _ _) as [c|]; [by exists c|done]. }
  destruct Hz as [c Hc]. apply zget_Some_range in Hc. unfold with_results. cbn [dv_transport set_env].
  rewrite (mem_get_ok _ _ _ (zget_zset_eq _ _ _ Hc)). cbn [outcome_bind]. unfold stopTransportLoop, uv.
  cbn [dv_env set_env uv_results tail head default from_option Datatypes.id Z.eqb negb andb it_ioTask set_task_state].
  by rewrite Hth.
Qed.
End Callbacks.

(** ** Examples *)

#[local] Existing Instance traced_listener.
#[local] Existing Instance Transport.sample_listener.

Abbreviation sample_server := (DServer TcpServer (Traced unit)).

(** a server with one IO task and two slots, before and after it is started *)
Definition sample_down : sample_server :=
  MkDServer None 0 0 RS_IDLE false (TcpServer_new EmptyString 80 10 1) (MkTraced [] tt) UvEnv_new.

Definition done_or {A} (d : A) (o : outcome A) : A := match o with Done a => a | _ => d end.

Definition sample_up : sample_server :=
  let s := snd (done_or (E_OK, sample_down) (dserver_initialize (fun _ => true) (MkTraced [] tt) 2 sample_down)) in
  snd (done_or (E_OK, s) (dserver_start s)).

Lemma tcp_sample_ready : tcp_ready sample_up.
Proof.
  split.
  - eexists. split; [vm_compute; reflexivity|]. intros i c Hc. apply (new_slots 2 sample_down i c); [lia|exact Hc].
  - vm_compute. reflexivity.
  - vm_compute. reflexivity.
  - intros t task Ht. vm_compute (tcp_ioTasks _) in Ht. by apply zget_one in Ht as ->.
  - vm_compute. reflexivity.
  - vm_compute. reflexivity.
Qed.

Lemma sample_array : dv_connDataArray sample_up =
  Some [ConnectionData_init 0 sample_down; ConnectionData_init 1 sample_down].
Proof. vm_compute. reflexivity. Qed.

(** one connection arrives *)
Definition sample_one : sample_server := done_or sample_up (handleNewConnection 0 None (with_results [] sample_up)).

Lemma tcp_sample_step : rtc tcp_step (sample_up, ∅) (sample_one, ∅).
Proof. apply rtc_once. apply (tcp_new [] 0 None); [done|]. vm_compute. reflexivity. Qed.

(** it arrives in its task *)
Definition sample_read : sample_server :=
  done_or sample_one (handlePipeRead 0 1 None 1 true (with_results [] sample_one)).

Lemma sample_read_step : rtc tcp_step (sample_up, ∅) (sample_read, ∅).
Proof.
  eapply rtc_r; [apply tcp_sample_step|].
  apply (tcp_arrival [] 0 1 None 1 true ∅ sample_one sample_read
    (default IOTaskData_default (head (tcp_ioTasks (dv_transport sample_one))))).
  - done.
  - by intros j ?%elem_of_empty.
  - vm_compute. reflexivity.
  - intros _. vm_compute. discriminate.
  - exact I.
  - vm_compute. reflexivity.
Qed.

Lemma listener_told_in_order_witness : exists open cs,
  open_after (tr_events (dv_listener sample_read)) = Some open /\ dv_connDataArray sample_read = Some cs /\
  (is_Some (open !! 0) <-> 0 ∈ readers (uv_calls (dv_env sample_read)) \/ 0 ∈ (∅ : gset Z)).
Proof.
  destruct (@listener_told_in_order unit sample_listener sample_up sample_read ∅ tcp_sample_ready sample_read_step)
    as (op & cs & Hop & Ha & Hi & _).
  exists op, cs. split; [exact Hop|]. split; [exact Ha|]. apply Hi.
Defined.

Lemma callbacks_complete_witness : is_done (onReadStatic 0 UV_EOF None sample_read) = true.
Proof.
  destruct (@callbacks_complete unit sample_listener sample_up sample_read ∅ tcp_sample_ready sample_read_step)
    as (_ & _ & Hread & _).
  apply Hread; [|done|done]. vm_compute. reflexivity.
Defined.

Lemma accepted_socket_never_closed_witness : exists s2 calls, rtc tcp_step (sample_up, ∅) (s2, ∅) /\
  uv_calls (dv_env s2) = uv_calls (dv_env sample_up) ++ calls /\ handles_after calls = ([H_socket 0], true).
Proof.
  destruct (@accepted_socket_never_closed unit sample_listener sample_up
    (ConnectionData_init 0 sample_down) [ConnectionData_init 1 sample_down] tcp_sample_ready sample_array
    (fun _ _ _ => eq_refl)) as (s1 & cs1 & calls & s2 & calls' & Hr1 & Hr2 & _ & _ & _ & Hc1 & _ & Hc2 & Hh).
  exists s2, (calls ++ calls'). split; [by transitivity (s1, (∅ : gset Z))|]. split; [|exact Hh].
  rewrite Hc2, Hc1. by rewrite <- app_assoc.
Defined.

(** the connection of slot 0 ends while another one arrives *)
Lemma end_names_next_connection_witness : exists s', rtc tcp_step (sample_read, ∅) (s', ∅) /\
  tr_events (dv_listener s') = [Ev_connect 0 0 true; Ev_readError 0 0; Ev_disconnect 0 1].
Proof.
  destruct (@end_names_next_connection unit sample_listener sample_up sample_read
    (default [] (dv_connDataArray sample_read)) 0
    (default (ConnectionData_init 0 sample_down) (head (default [] (dv_connDataArray sample_read)))) UV_EOF
    tcp_sample_ready sample_read_step) as (s' & Hrtc & He).
  - vm_compute. reflexivity.
  - vm_compute. reflexivity.
  - vm_compute. reflexivity.
  - intros j d Hj Hd. apply zget_Some_range in Hd. lia.
  - done.
  - exists s'. split; [exact Hrtc|]. rewrite He. vm_compute. reflexivity.
Defined.

Lemma failed_handover_leaves_entry_witness : exists s' cs' task,
  handleNewConnection 0 None (with_results [0; 0; -1] sample_up) = Done s' /\ dv_connDataArray s' = Some cs' /\
  ~ used cs' 0 /\ zget (tcp_ioTasks (dv_transport s')) 0 = Some task /\ it_pendingConns task = [0].
Proof.
  exact (@failed_handover_leaves_entry unit sample_up [ConnectionData_init 1 sample_down]
    (ConnectionData_init 0 sample_down) None tcp_sample_ready sample_array).
Defined.

(** two connections after a failed one: the second to arrive is taken for the first, whose
    slot is being read *)
Example stale_entry_confuses :
  let s1 := done_or sample_up (handleNewConnection 0 None (with_results [0; 0; -1] sample_up)) in
  let s2 := done_or s1 (handleNewConnection 0 None (with_results [] s1)) in
  let s3 := done_or s2 (handlePipeRead 0 1 None 1 true (with_results [] s2)) in
  let s4 := done_or s3 (handleNewConnection 0 None (with_results [] s3)) in
  let s5 := done_or s4 (handlePipeRead 0 1 None 1 true (with_results [] s4)) in
  tr_events (dv_listener s5) = [Ev_connect 0 1 true; Ev_connect 0 1 true] /\
  open_after (tr_events (dv_listener s5)) = None.
Proof. split; vm_compute; reflexivity. Qed.

Lemma tcp_server_lifecycle_witness : exists s1 s2 s3,
  dserver_initialize (fun _ => true) (MkTraced [] tt) 2 sample_down = Done (E_OK, s1) /\
  dserver_start s1 = Done (E_OK, s2) /\ tcp_ready s2 /\ dserver_stop s2 = Done (E_OK, s3) /\
  dv_serverThread s3 = false.
Proof.
  destruct (@tcp_server_lifecycle unit (MkTraced [] tt) 2 sample_down)
    as (s1 & s2 & s3 & H1' & H2' & H3' & _ & H4' & _ & H5' & _).
  1-9: first [lia|vm_compute; repeat split; reflexivity|vm_compute; discriminate].
  exists s1, s2, s3. exact (conj H1' (conj H2' (conj H3' (conj H4' H5')))).
Defined.

Lemma initIOTask_failure_throws_witness :
  initIOTask 0 (with_results [0; -1] (task_update 0 IOTaskData_default sample_up)) = Undef UB_throw.
Proof.
  by apply (@initIOTask_failure_throws unit 0 (task_update 0 IOTaskData_default sample_up)
    IOTaskData_default 0 (-1)).
Defined.
