(* ===== verification/Pipe.v ===== *)
(** * The pipe server (inc/transport/pipe_server.h, src/transport/pipe_server.cpp)

    One loop accepts and reads every connection, so its callbacks do not interleave. The
    pipe of slot [i] is the handle [H_socket2 i]. *)

From Stdlib Require Import ZArith Lia String.
From stdpp Require Import gmap.
From coqutil Require Import Byte.
From S2P Require Import Prelude Errors Io Connection Segmented Assembler Client Transport Tcp.
Open Scope Z_scope.

(** ** Definitions *)

(** the states are those of [Tcp.ServerState], an enumeration of its own in the code *)
Record PipeServer := MkPipeServer {
  ps_pipeName : string;
  ps_backlog : Z;
  ps_concurrency : Z;
  ps_connectedPipes : Z;
  ps_serverState : ServerState;
}.

Definition PipeServer_new (pipeName : string) (backlog concurrency : Z) : PipeServer :=
  MkPipeServer pipeName backlog concurrency 0 SS_UNINIT.

Definition set_pipeState (st : ServerState) (p : PipeServer) : PipeServer :=
  MkPipeServer (ps_pipeName p) (ps_backlog p) (ps_concurrency p) (ps_connectedPipes p) st.

Section PipeServer.
Context {U : Type} `{DataListener U}.
Abbreviation server := (DServer PipeServer U).
Implicit Types s : server.

(** what createConnectionData puts into the details *)
Definition pipe_createConnectionData s : ConnectionDetails :=
  setPipeName (ps_pipeName (dv_transport s)) (ConnectionDetails_newNet EmptyString 0 0 0).

(** the result of unlink is minus errno when it fails *)
Definition pipe_initPipeServer s : ErrorCode * server :=
  let '(res, s) := s_uv (uv_pipe_init SERVER_LOOP H_pipeServer) s in
  if res <? 0 then (E_TRANSPORT_ERROR, s) else
  let '(res, s) := s_uv unlink s in
  if (res <? 0) && negb (- res =? ENOENT) then (E_SYSTEM_FAILURE, s) else
  let '(res, s) := s_uv (uv_pipe_bind H_pipeServer) s in
  if res <? 0 then (E_TRANSPORT_ERROR, s_do (uv_close H_pipeServer) s) else
  let s := s_do (uv_pipe_pending_instances (ps_backlog (dv_transport s))) s in
  let '(res, s) := s_uv (uv_listen H_pipeServer (ps_concurrency (dv_transport s))) s in
  if res <? 0 then (E_TRANSPORT_ERROR, s_do (uv_close H_pipeServer) s) else (E_OK, s).

Definition pipe_termPipeServer s : server :=
  if decide (ps_serverState (dv_transport s) = SS_INIT) then
    set_transport (set_pipeState SS_TCP_INIT (dv_transport s)) (s_do (uv_close H_pipeServer) s)
  else s.

Definition pipe_initializeTransport s : outcome (ErrorCode * server) :=
  let '(rc, s) := pipe_initPipeServer s in
  if decide (rc <> E_OK) then Done (rc, s) else Done (E_OK, s).

(** shutdown of every connection; the first failure ends it *)
Fixpoint shutdown_loop (ids : list Z) s : outcome (ErrorCode * server) :=
  match ids with
  | [] => Done (E_OK, s)
  | i :: ids =>
    let* connData := conn_at_index i s in
    if cdt_isUsed connData then
      match cdt_connectionHandle connData with
      | None => Undef UB_null
      | Some handle =>
        let '(res, s) := s_uv (uv_shutdown handle) s in
        if negb (res =? 0) then Done (E_TRANSPORT_ERROR, s) else
        let* s := release i s in shutdown_loop ids s
      end
    else shutdown_loop ids s
  end.

Definition pipe_onStopTransport s : outcome (ErrorCode * server) :=
  shutdown_loop (task_ids (dv_maxConnections s)) s.

(** the pipe of a slot that cannot be served is closed, and the slot is free *)
Definition handleNewPipeClient (status : Z) s : outcome server :=
  if status <? 0 then Done s else
  let '(connectionData, s) := grabConnectionData s in
  match connectionData with
  | None => Done s
  | Some i =>
    let '(res, s) := s_uv (uv_pipe_init SERVER_LOOP (H_socket2 i)) s in
    if res <? 0 then release i s else
    let '(res, s) := s_uv (uv_accept (H_socket2 i)) s in
    if res <? 0 then drop_connection (H_socket2 i) i s else
    let* c := conn_at_index i s in
    let '(accepted, u) := dl_onConnect (cdt_connectionDetails c) 0 (dv_listener s) in
    let s := set_listener_state u s in
    if negb accepted then drop_connection (H_socket2 i) i s else
    let '(res, s) := s_uv (uv_read_start (H_socket2 i)) s in
    if res <? 0 then drop_connection (H_socket2 i) i s else
    conn_modify i (set_handle (Some (H_socket2 i))) s
  end.

Definition pipe_onReadStatic (i nread : Z) (buf : option Z) s : outcome server :=
  let* s := onRead i nread buf false s in
  if nread <? 0 then
    let* s := drop_connection (H_socket2 i) i s in
    let* c := conn_at_index i s in
    Done (set_listener_state (dl_onDisconnect (cdt_connectionDetails c) (dv_listener s)) s)
  else Done s.

(** the data of the handles: initPipeServer and handleNewPipeConnection set it *)
Definition pipe_data (handle : uv_handle) : handle_data :=
  match handle with H_socket2 i => HD_connection i | _ => HD_server end.

(** the callback of the uv_close in onReadStatic *)
Definition pipe_onClosed (i : Z) s : outcome server := dserver_onCloseStatic (pipe_data (H_socket2 i)) s.

(** the code of onStopTransport is only logged *)
#[export] Instance pipe_transport : ServerTransport PipeServer U := {|
  initializeTransport := pipe_initializeTransport;
  terminateTransport s := Done (E_OK, s);
  startTransport s := Done (E_OK, s);
  stopTransport s := Done (E_OK, s);
  onStopTransport s := let* '(_, s) := pipe_onStopTransport s in Done s;
  writeTransport := stream_writeTransport;
  newDetails := pipe_createConnectionData;
|}.
End PipeServer.

(** ** The slots of the connections *)

Section PipeSlots.
Context {V : Type} {DLV : DataListener V}.

#[local] Existing Instance traced_listener.

Abbreviation server := (DServer PipeServer (Traced V)).
Implicit Types s : server.

Definition pipe_results (rs : list Z) s : server := set_env (results_env rs (dv_env s)) s.

(** every slot in use is read, through its own pipe *)
Definition pipe_ok s : Prop := exists cs, dv_connDataArray s = Some cs /\
  conns_ok cs [IOTaskData_default] 1 (readers (uv_calls (dv_env s))) ∅ (tr_events (dv_listener s)) /\
  forall i c, zget cs i = Some c -> cdt_isUsed c = true -> cdt_connectionHandle c = Some (H_socket2 i).

Lemma pipe_ok_intro s cs R : dv_connDataArray s = Some cs -> readers (uv_calls (dv_env s)) = R ->
  conns_ok cs [IOTaskData_default] 1 R ∅ (tr_events (dv_listener s)) ->
  (forall i c, zget cs i = Some c -> cdt_isUsed c = true -> cdt_connectionHandle c = Some (H_socket2 i)) -> pipe_ok s.
Proof. intros Ha <- Hc Hh. by exists cs. Qed.

Lemma handles_update cs i c d : zget cs i = Some c ->
  (cdt_isUsed d = true -> cdt_connectionHandle d = Some (H_socket2 i)) ->
  (forall j e, zget cs j = Some e -> cdt_isUsed e = true -> cdt_connectionHandle e = Some (H_socket2 j)) ->
  forall j e, zget (zset cs i d) j = Some e -> cdt_isUsed e = true -> cdt_connectionHandle e = Some (H_socket2 j).
Proof. intros Hc Hd Hh j e [[-> ->]|[_ He]]%zget_zset; eauto. Qed.

Lemma handleNewPipeClient_ok s rs status : pipe_ok s -> third_ok rs ->
  exists s', handleNewPipeClient status (pipe_results rs s) = Done s' /\ pipe_ok s'.
Proof.
  intros (cs & Ha & Hok & Hh) Hrs. unfold handleNewPipeClient. set (s0 := pipe_results rs s).
  assert (Ha0 : dv_connDataArray s0 = Some cs) by done.
  destruct (status <? 0); [exists s0; split; [done|]; by exists cs|].
  destruct (grab_cases cs s0 Ha0) as [->|(i & c & d & n & Hc & Hu & Hd & Hi & ->)]; [exists s0; split; [done|]; by exists cs|].
  pose proof (zget_Some_range _ _ _ Hc) as Hr. specialize (Hi (co_index _ _ _ _ _ _ Hok i c Hc)).
  assert (Hd' : zget (zset cs i d) i = Some d) by (by rewrite zget_zset_eq).
  assert (HiR : i ∉ readers (uv_calls (dv_env s))).
  { intros HR. apply (co_reading _ _ _ _ _ _ Hok) in HR as (e & He & Hue). congruence. }
  assert (Hfree : forall s1 evs, dv_connDataArray s1 = Some (zset cs i d) -> tr_events (dv_listener s1) = evs ->
    readers (uv_calls (dv_env s1)) = readers (uv_calls (dv_env s)) ->
    conns_ok cs [IOTaskData_default] 1 (readers (uv_calls (dv_env s))) ∅ evs ->
    exists s', release i s1 = Done s' /\ pipe_ok s').
  { intros s1 evs H1 H2 H3 H4. unfold release. rewrite (conn_modify_eq i _ (zset cs i d) d s1) by done. rewrite zset_zset.
    eexists. split; [reflexivity|]. eapply pipe_ok_intro; [done|exact H3| |].
    - cbn. rewrite H2. eapply conns_free; done.
    - by apply (handles_update cs i c). }
  unfold s_uv at 1, uv at 1. cbv beta iota zeta.
  destruct (_ <? 0); [eapply Hfree; try done; cbn; by rewrite readers_snoc|].
  unfold s_uv at 1, uv at 1. cbv beta iota zeta. unfold drop_connection.
  destruct (_ <? 0). { eapply Hfree; try done. cbn. rewrite !readers_snoc. cbn. set_solver. }
  rewrite (conn_at_Some i (zset cs i d) d) by done. cbn [outcome_bind dl_onConnect traced_listener].
  destruct (dl_onConnect _ 0 (tr_user _)) as [b v]. destruct Hi as [Hi1 Hi2]. rewrite Hi2. destruct b; cbn [negb].
  - unfold s_uv, uv. cbv beta iota zeta.
    cbn [dv_env set_env set_listener_state set_nextConnectionId set_array uv_results pipe_results results_env s0].
    destruct (Z.ltb_spec (default 0 (head (tail (tail rs)))) 0) as [Hlt|_]; [unfold third_ok in Hrs; lia|].
    rewrite (conn_modify_eq i _ (zset cs i d) d) by done. rewrite zset_zset. eexists. split; [reflexivity|].
    eapply pipe_ok_intro; [done|cbn; by rewrite !readers_snoc| |by apply (handles_update cs i c)].
    cbn. eapply (conns_open _ _ _ _ _ _ Hok i c (set_handle (Some (H_socket2 i)) d)); try done.
  - eapply Hfree; [done|done|cbn; rewrite !readers_snoc; cbn; set_solver|]. cbn. by eapply conns_reject.
Qed.

Lemma pipe_onReadStatic_ok s i nread buf : pipe_ok s -> i ∈ readers (uv_calls (dv_env s)) -> buf_live buf s ->
  (0 < nread -> buf <> None) -> exists s', pipe_onReadStatic i nread buf s = Done s' /\ pipe_ok s' /\
    uv_calls (dv_env s') = uv_calls (dv_env s) ++ if nread <? 0 then [uv_close (H_socket2 i)] else [].
Proof.
  intros (cs & Ha & Hok & Hh) HiR Hbuf Hn. destruct (co_reading _ _ _ _ _ _ Hok i HiR) as (c & Hc & Hu).
  pose proof (co_index _ _ _ _ _ _ Hok i c Hc) as Hi. destruct (conns_read _ _ _ _ _ _ Hok i c HiR Hc) as [Hb He].
  unfold pipe_onReadStatic.
  destruct (onRead_told s cs i c nread buf false Ha Hc Hi Hbuf Hn) as (s' & h & v & -> & -> & _ & Hv). cbn [outcome_bind].
  unfold read_events in Hv. destruct (Z.ltb_spec nread 0).
  - unfold drop_connection, release. rewrite (conn_modify_eq i _ cs c) by done. cbn [outcome_bind].
    pose proof (zget_Some_range _ _ _ Hc) as Hr.
    rewrite (conn_at_Some i (zset cs i (set_isUsed false c)) (set_isUsed false c)) by (done || by rewrite zget_zset_eq).
    cbn [outcome_bind]. eexists. split; [reflexivity|]. split; [|done].
    eapply pipe_ok_intro; [done|cbn; by rewrite readers_snoc| |by apply (handles_update cs i c)].
    cbn. rewrite Hv. destruct Hi as [Hi1 Hi2]. rewrite Hi2.
    assert (HC : {[i]} ∪ ∅ ∖ {[i]} = (∅ ∖ {[i]} ∪ {[i]} : gset Z)) by set_solver.
    replace (∅ : gset Z) with (({[i]} ∪ ∅) ∖ {[i]} : gset Z) by set_solver.
    eapply conns_notify; [|set_solver]. by eapply conns_close.
  - eexists. split; [reflexivity|]. split; [|by rewrite app_nil_r]. exists cs. split; [done|]. split; [|done]. cbn. rewrite Hv.
    destruct (nread =? 0); [by rewrite app_nil_r|done].
Qed.

(** what libuv may do to a running server: connections arrive, and pipes that are read
    deliver data or end. Starting to read does not fail. *)
Inductive pipe_step : server -> server -> Prop :=
| pipe_new rs status s s' : third_ok rs -> handleNewPipeClient status (pipe_results rs s) = Done s' -> pipe_step s s'
| pipe_read i nread buf s s' : i ∈ readers (uv_calls (dv_env s)) -> buf_live buf s -> (0 < nread -> buf <> None) ->
    pipe_onReadStatic i nread buf s = Done s' -> pipe_step s s'.

(** a server whose slots are all free *)
Definition pipe_ready s : Prop := (exists cs, dv_connDataArray s = Some cs /\
    forall i c, zget cs i = Some c -> own_index i c /\ cdt_isUsed c = false) /\
  readers (uv_calls (dv_env s)) = ∅ /\ tr_events (dv_listener s) = [].

Lemma pipe_ready_ok s : pipe_ready s -> pipe_ok s.
Proof.
  intros ((cs & Ha & Hcs) & Hr & He). exists cs. split; [done|]. rewrite Hr, He. split.
  - split.
    + done.
    + intros i c Hc. by apply Hcs.
    + intros t task ->%zget_one. split; [apply base.NoDup_nil_2|]. by intros i ?%elem_of_nil.
    + by intros i ?%elem_of_empty.
    + intros i (c & Hc & Hu). apply Hcs in Hc as [_ ?]. congruence.
    + by intros i ?%elem_of_empty.
    + exists ∅. split; [done|]. split; [|set_solver]. intros i. rewrite lookup_empty. split; [by intros []|set_solver].
  - intros i c Hc Hu. apply Hcs in Hc as [_ ?]. congruence.
Qed.

Lemma pipe_steps_ok s s' : rtc pipe_step s s' -> pipe_ok s -> pipe_ok s'.
Proof.
  induction 1 as [|s s1 s' Hstep _ IH]; [done|]. intros Hs. apply IH. destruct Hstep as [rs status s s1 Hrs Hrun|i nread buf s s1 Hi Hb Hn Hrun].
  - destruct (handleNewPipeClient_ok s rs status Hs Hrs) as (s2 & Hs2 & Hok). congruence.
  - destruct (pipe_onReadStatic_ok s i nread buf Hs Hi Hb Hn) as (s2 & Hs2 & Hok & _). congruence.
Qed.

(** C13. Whatever clients do, as long as reading can be started on the pipes that are
    accepted, the listener of a pipe server is told of connections, bytes and
    disconnections in order for every index, a slot is in use exactly while its pipe is
    read, and the callbacks of connections and reads complete. A read that fails closes
    the pipe of its connection, once; the callback of that close, which follows every
    disconnection, is not safe: it uses the data of the connection as a server. *)
Theorem pipe_told_in_order s s' : pipe_ready s -> rtc pipe_step s s' ->
  exists open cs, open_after (tr_events (dv_listener s')) = Some open /\ dv_connDataArray s' = Some cs /\
    (forall i, is_Some (open !! i) <-> i ∈ readers (uv_calls (dv_env s'))) /\
    (forall i, used cs i <-> i ∈ readers (uv_calls (dv_env s'))) /\
    (forall rs status, third_ok rs -> is_done (handleNewPipeClient status (pipe_results rs s')) = true) /\
    (forall i nread buf, i ∈ readers (uv_calls (dv_env s')) -> buf_live buf s' -> (0 < nread -> buf <> None) ->
      exists s'', pipe_onReadStatic i nread buf s' = Done s'' /\
        uv_calls (dv_env s'') = uv_calls (dv_env s') ++ (if nread <? 0 then [uv_close (H_socket2 i)] else []) /\
        (nread < 0 -> pipe_onClosed i s'' = Undef UB_cast)).
Proof.
  intros Hr Hrtc. apply pipe_steps_ok in Hrtc as Hs; [|by apply pipe_ready_ok]. pose proof Hs as (cs & Ha & Hok & _).
  destruct (co_events _ _ _ _ _ _ Hok) as (op & Hop & Hi & _). exists op, cs. split; [done|]. split; [done|].
  split; [intros i; rewrite Hi; set_solver|]. split; [|split].
  - intros i. split; [|by apply (co_reading _ _ _ _ _ _ Hok)]. intros Hu.
    destruct (co_used _ _ _ _ _ _ Hok i Hu) as [|(task & ->%zget_one & Hin)]; [done|]. by apply elem_of_nil in Hin.
  - intros rs status Hrs. by destruct (handleNewPipeClient_ok s' rs status Hs Hrs) as (s1 & -> & _).
  - intros i nread buf HiR Hb Hn. destruct (pipe_onReadStatic_ok s' i nread buf Hs HiR Hb Hn) as (s1 & Hs1 & _ & Hc1).
    exists s1. split; [exact Hs1|]. split; [exact Hc1|done].
Qed.

(** ** Shutdown *)

(** the calls for the slots that are in use *)
Definition shutdown_calls (cs : list ConnectionData) (ids : list Z) : list uv_call :=
  flat_map (fun i => match zget cs i with
    | Some c => if cdt_isUsed c then [uv_shutdown (H_socket2 i)] else []
    | None => []
    end) ids.

Lemma shutdown_calls_update cs i c ids : i ∉ ids -> shutdown_calls (zset cs i c) ids = shutdown_calls cs ids.
Proof.
  induction ids as [|j ids IH]; [done|]. intros [Hj Hi]%not_elem_of_cons. unfold shutdown_calls. cbn [flat_map].
  rewrite zget_zset_ne by done. f_equal. by apply IH.
Qed.

Lemma shutdown_loop_ok ids : forall s cs, NoDup ids -> dv_connDataArray s = Some cs ->
  (forall i, i ∈ ids -> is_Some (zget cs i)) -> uv_results (dv_env s) = [] ->
  (forall i c, zget cs i = Some c -> cdt_isUsed c = true -> cdt_connectionHandle c = Some (H_socket2 i)) ->
  exists s' cs', shutdown_loop ids s = Done (E_OK, s') /\ dv_connDataArray s' = Some cs' /\
    uv_calls (dv_env s') = uv_calls (dv_env s) ++ shutdown_calls cs ids /\ (forall i, used cs' i <-> used cs i /\ i ∉ ids).
Proof.
  induction ids as [|i ids IH]; intros s cs Hnd Ha Hin Hres Hh.
  { exists s, cs. unfold shutdown_calls. cbn [flat_map]. rewrite app_nil_r. repeat split; try done; [apply not_elem_of_nil|by intros []]. }
  apply list.NoDup_cons in Hnd as [Hi Hnd]. destruct (Hin i) as [c Hc]; [by left|].
  cbn [shutdown_loop]. rewrite (conn_at_Some i cs c s Ha Hc). cbn [outcome_bind].
  unfold shutdown_calls. cbn [flat_map]. rewrite Hc. destruct (cdt_isUsed c) eqn:Hu.
  - rewrite (Hh i c Hc Hu). unfold s_uv, uv. cbv beta iota zeta. rewrite Hres. cbn [head default negb Z.eqb].
    unfold release. rewrite (conn_modify_eq i _ cs c) by done. cbn [outcome_bind].
    pose proof (zget_Some_range _ _ _ Hc) as Hr.
    edestruct IH as (s' & cs' & -> & Ha' & Hcalls & Hused).
    + done.
    + reflexivity.
    + intros j Hj. rewrite zget_zset_ne by (intros ->; done). apply Hin. by right.
    + done.
    + by apply (handles_update cs i c).
    + exists s', cs'. split; [done|]. split; [done|]. split.
      * rewrite Hcalls. cbn. rewrite <- app_assoc. f_equal. cbn. f_equal. by apply shutdown_calls_update.
      * intros j. rewrite Hused, not_elem_of_cons. unfold used. destruct (decide (i = j)) as [<-|Hne].
        -- rewrite zget_zset_eq by done. split; [intros [(d & [= <-] & Hd) _]; discriminate Hd|by intros [_ [? _]]].
        -- rewrite zget_zset_ne by done. naive_solver.
  - destruct (IH s cs) as (s' & cs' & -> & Ha' & Hcalls & Hused); try done.
    { intros j Hj. apply Hin. by right. }
    exists s', cs'. split; [done|]. split; [done|]. split; [done|]. intros j. rewrite Hused, not_elem_of_cons.
    split; [|naive_solver]. intros [Hj Hn]. repeat split; try done. intros ->. destruct Hj as (d & Hd & ?). congruence.
Qed.

(** A pipe server that stops while every call succeeds shuts each connection in use
    down, once and in the order of the slots, and leaves no slot in use. *)
Theorem pipe_shutdown_spec s cs : pipe_ok s -> dv_connDataArray s = Some cs -> dv_maxConnections s = zlen cs ->
  exists s' cs', pipe_onStopTransport (pipe_results [] s) = Done (E_OK, s') /\ dv_connDataArray s' = Some cs' /\
    uv_calls (dv_env s') = uv_calls (dv_env s) ++ shutdown_calls cs (task_ids (zlen cs)) /\ forall i, ~ used cs' i.
Proof.
  intros (cs0 & Ha0 & Hok & Hh) Ha Hm. assert (cs0 = cs) as -> by congruence.
  unfold pipe_onStopTransport. change (dv_maxConnections (pipe_results [] s)) with (dv_maxConnections s). rewrite Hm.
  destruct (shutdown_loop_ok (task_ids (zlen cs)) (pipe_results [] s) cs) as (s' & cs' & -> & Ha' & Hcalls & Hused); try done.
  { apply NoDup_task_ids. }
  { intros i Hi. apply elem_of_task_ids in Hi; [|apply zlen_nonneg]. by destruct (zget_is_Some _ _ Hi). }
  exists s', cs'. repeat split; try done. intros i [Hi Hn]%Hused. apply Hn, elem_of_task_ids; [apply zlen_nonneg|].
  destruct Hi as (c & Hc & _). by apply zget_Some_range in Hc.
Qed.
End PipeSlots.

(** ** Examples *)

#[local] Existing Instance traced_listener.
#[local] Existing Instance Transport.sample_listener.

Abbreviation sample_server := (DServer PipeServer (Traced unit)).

(** a server with two slots *)
Definition sample_down : sample_server :=
  MkDServer None 0 0 RS_IDLE false (PipeServer_new EmptyString 10 1) (MkTraced [] tt) UvEnv_new.
Definition sample_up : sample_server :=
  snd (done_or (E_OK, sample_down) (dserver_initialize (fun _ => true) (MkTraced [] tt) 2 sample_down)).

Lemma pipe_sample_ready : pipe_ready sample_up.
Proof.
  split; [|split; vm_compute; reflexivity].
  eexists. split; [vm_compute; reflexivity|]. intros i c Hc. apply (new_slots 2 sample_down i c); [lia|exact Hc].
Qed.

(** one connection arrives *)
Definition sample_one : sample_server := done_or sample_up (handleNewPipeClient 0 (pipe_results [] sample_up)).

Lemma pipe_sample_step : rtc pipe_step sample_up sample_one.
Proof. apply rtc_once. apply (pipe_new [] 0); [done|]. vm_compute. reflexivity. Qed.

Lemma pipe_told_in_order_witness : exists s', pipe_onReadStatic 0 UV_EOF None sample_one = Done s' /\
  uv_calls (dv_env s') = uv_calls (dv_env sample_one) ++ [uv_close (H_socket2 0)] /\ pipe_onClosed 0 s' = Undef UB_cast.
Proof.
  destruct (@pipe_told_in_order unit sample_listener sample_up sample_one pipe_sample_ready pipe_sample_step)
    as (_ & _ & _ & _ & _ & _ & _ & Hread).
  destruct (Hread 0 UV_EOF None) as (s' & Hs' & Hc & Hcl); [vm_compute; reflexivity|done|done|].
  exists s'. split; [exact Hs'|]. split; [exact Hc|]. by apply Hcl.
Defined.

Lemma pipe_shutdown_spec_witness : exists s', pipe_onStopTransport (pipe_results [] sample_one) = Done (E_OK, s') /\
  uv_calls (dv_env s') = uv_calls (dv_env sample_one) ++ [uv_shutdown (H_socket2 0)].
Proof.
  destruct (@pipe_shutdown_spec unit sample_one (default [] (dv_connDataArray sample_one)))
    as (s' & cs' & Hs' & _ & Hcalls & _).
  - exact (pipe_steps_ok _ _ pipe_sample_step (pipe_ready_ok _ pipe_sample_ready)).
  - vm_compute. reflexivity.
  - vm_compute. reflexivity.
  - exists s'. split; [exact Hs'|]. exact Hcalls.
Defined.
