(* ===== verification/Udp.v ===== *)
(** * The UDP server (inc/transport/udp_server.h, src/transport/udp_server.cpp)

    Datagrams have no connections: the server makes one for each address it hears from,
    keeps the slot in a concurrent hash table by address, and ends it when nothing was
    heard for a while. *)

From Stdlib Require Import ZArith Lia String.
From stdpp Require Import gmap.
From coqutil Require Import Byte.
From S2P Require Import Prelude Errors Io Connection Segmented Assembler HashTable Client Transport.
Open Scope Z_scope.

(** ** Definitions *)

Definition COMMUTIL_UDP_CONN_MAP_FACTOR : Z := 4.

(** the last two are the members of UdpConnectionData, by slot, if they were written *)
Record UdpServer := MkUdpServer {
  udp_serverAddress : string;
  udp_port : Z;
  udp_clientExpireSeconds : Z;
  udp_connectionMap : HashTable Z;
  udp_entryId : gmap Z Z;
  udp_lastAccessTimeMillis : gmap Z Z;
}.

Definition UdpServer_new (serverAddress : string) (port clientExpireSeconds : Z) : UdpServer :=
  MkUdpServer serverAddress port clientExpireSeconds HashTable_new ∅ ∅.

Definition set_connectionMap (m : HashTable Z) (t : UdpServer) : UdpServer :=
  MkUdpServer (udp_serverAddress t) (udp_port t) (udp_clientExpireSeconds t) m (udp_entryId t)
    (udp_lastAccessTimeMillis t).
Definition set_entryId (i id : Z) (t : UdpServer) : UdpServer :=
  MkUdpServer (udp_serverAddress t) (udp_port t) (udp_clientExpireSeconds t) (udp_connectionMap t)
    (<[i := id]> (udp_entryId t)) (udp_lastAccessTimeMillis t).
Definition set_lastAccess (i time : Z) (t : UdpServer) : UdpServer :=
  MkUdpServer (udp_serverAddress t) (udp_port t) (udp_clientExpireSeconds t) (udp_connectionMap t)
    (udp_entryId t) (<[i := time]> (udp_lastAccessTimeMillis t)).

(** ntohs on a little-endian machine *)
Definition ntohs (x : Z) : Z := Z.lor (Z.shiftl (Z.land x 255) 8) (Z.shiftr x 8).

Section UdpServer.
(** inet_ntop: the text of an address *)
Context {U : Type} `{DataListener U} (inet_ntop : Z -> string).
Abbreviation server := (DServer UdpServer U).
Implicit Types s : server.

Definition set_udp (f : UdpServer -> UdpServer) s : server := set_transport (f (dv_transport s)) s.

(** an address as the key of the table; address and port are in network byte order *)
Definition addr_key (addr : Z * Z) : Z := Z.lor (u64 (Z.shiftl (fst addr) 32)) (snd addr).

Definition udp_setHostDetails (addr : Z * Z) (d : ConnectionDetails) : ConnectionDetails :=
  setNetAddress (inet_ntop (fst addr)) (ntohs (snd addr)) d.

(** what createConnectionData puts into the details *)
Definition udp_createConnectionData s : ConnectionDetails :=
  setNetAddress (udp_serverAddress (dv_transport s)) (udp_port (dv_transport s))
    (ConnectionDetails_newNet EmptyString 0 0 0).

(** a failure after the socket was made *)
Definition udp_fail s : outcome (ErrorCode * server) :=
  let s := s_do (uv_close H_server) s in
  Done (E_TRANSPORT_ERROR, set_udp (fun t => set_connectionMap (ht_destroy (udp_connectionMap t)) t) s).

(** the slots are new, their members not written. The result of the next allocation decides
    about the array of the table, which is not in the heap of the model. *)
Definition udp_initializeTransport s : outcome (ErrorCode * server) :=
  let e := dv_env s in
  let alloc := default true (head (uv_allocs e)) in
  let s := set_udp (fun t => MkUdpServer (udp_serverAddress t) (udp_port t) (udp_clientExpireSeconds t)
             (udp_connectionMap t) ∅ ∅) s in
  let s := set_env (MkUvEnv (tail (uv_allocs e)) (uv_results e) (uv_calls e) (uv_next e) (uv_heap e)) s in
  let* '(rc, map) := ht_initialize 64 alloc (u32 (dv_maxConnections s * COMMUTIL_UDP_CONN_MAP_FACTOR))
                       (udp_connectionMap (dv_transport s)) in
  let s := set_udp (set_connectionMap map) s in
  if decide (rc <> E_OK) then Done (rc, s) else
  let '(res, s) := s_uv (uv_udp_init SERVER_LOOP) s in
  if res <? 0 then
    Done (E_TRANSPORT_ERROR, set_udp (fun t => set_connectionMap (ht_destroy (udp_connectionMap t)) t) s)
  else
  let '(res, s) := s_uv uv_ip4_addr s in
  if res <? 0 then udp_fail s else
  let '(res, s) := s_uv uv_udp_bind s in
  if res <? 0 then udp_fail s else
  let '(res, s) := s_uv uv_udp_recv_start s in
  if res <? 0 then udp_fail s else
  let '(res, s) := s_uv (uv_timer_init SERVER_LOOP) s in
  if res <? 0 then udp_fail s else Done (E_OK, s).

Definition udp_terminateTransport s : outcome (ErrorCode * server) :=
  Done (E_OK, set_udp (fun t => set_connectionMap (ht_destroy (udp_connectionMap t)) t) s).

Definition udp_startTransport s : outcome (ErrorCode * server) :=
  let millis := u64 (udp_clientExpireSeconds (dv_transport s) * 1000) in
  let '(res, s) := s_uv (uv_timer_start millis millis) s in
  if negb (res =? 0) then Done (E_TRANSPORT_ERROR, s) else Done (E_OK, s).

Definition udp_stopTransport s : outcome (ErrorCode * server) :=
  let '(res, s) := s_uv uv_timer_stop s in
  if negb (res =? 0) then Done (E_TRANSPORT_ERROR, s) else Done (E_OK, s).

(** a request that could not be sent is not given back *)
Definition udp_writeTransport (serverBufferData : Z) s : outcome (ErrorCode * server) :=
  let* sbd := sbd_at serverBufferData (dv_env s) in
  let* connData := conn_at_index (sb_connectionIndex sbd) s in
  let* host := getHostName (cdt_connectionDetails connData) in
  let* port := getPort (cdt_connectionDetails connData) in
  let '(res, s) := s_uv uv_ip4_addr s in
  if res <? 0 then Done (E_TRANSPORT_ERROR, s) else
  let '(sendReq, s) := s_alloc (O_udpSend serverBufferData) s in
  match sendReq with
  | None => Done (E_NOMEM, s)
  | Some sendReq =>
    let* data := buffer_at (sb_buf sbd) (dv_env s) in
    let* data := mem_read data 0 (sb_len sbd) in
    let '(res, s) := s_uv (uv_udp_send host port data) s in
    if res <? 0 then Done (E_TRANSPORT_ERROR, s) else Done (E_OK, s)
  end.

Definition onSendStatic (req status : Z) s : outcome server :=
  match uv_heap (dv_env s) !! req with
  | Some (O_udpSend serverBufferData) =>
    let* s := onWrite serverBufferData status s in s_free req s
  | Some _ => Undef UB_uninit
  | None => Undef UB_freed
  end.

(** a datagram of the connection in slot [i] *)
Definition udp_receive (now : Z) (newConnection : bool) (i nread : Z) (buf : option Z) s : outcome server :=
  let* connData := conn_at_index i s in
  let s := if 0 <? nread then set_udp (set_lastAccess i now) s else s in
  let s := if newConnection
           then set_listener_state (snd (dl_onConnect (cdt_connectionDetails connData) 0 (dv_listener s))) s
           else s in
  onRead i nread buf true s.

(** the first datagram of an address: the table gets the id of the connection *)
Definition udp_connect (now nread : Z) (buf : option Z) (addr : Z * Z) s : outcome server :=
  let '(connData, s) := grabConnectionData s in
  match connData with
  | None => Done s
  | Some i =>
    let* s := conn_modify i (fun c => set_handle (Some H_server)
                (set_details (udp_setHostDetails addr (cdt_connectionDetails c)) c)) s in
    let* c := conn_at_index i s in
    let* '(entryId, map) := setItem (addr_key addr) (cdt_connectionId c) (udp_connectionMap (dv_transport s)) in
    let s := set_udp (set_connectionMap map) s in
    if entryId =? COMMUTIL_INVALID_CHT_ENTRY_ID then release i s else
    udp_receive now true i nread buf (set_udp (set_entryId i entryId) s)
  end.

(** [addr] is [None] for null *)
Definition onRecv (now nread : Z) (buf : option Z) (addr : option (Z * Z)) s : outcome server :=
  if nread =? 0 then match buf with Some p => s_free p s | None => Done s end else
  match addr with
  | None => Undef UB_null
  | Some addr =>
    let* '(entryId, connectionIndex) := getItem (addr_key addr) (udp_connectionMap (dv_transport s)) in
    if entryId =? COMMUTIL_INVALID_CHT_ENTRY_ID then udp_connect now nread buf addr s else
    match connectionIndex with
    | None => Undef UB_uninit
    | Some connectionIndex => udp_receive now false connectionIndex nread buf s
    end
  end.

(** one slot of the expiry timer *)
Definition expire_slot (currTimeMillis i : Z) s : outcome server :=
  let* connData := conn_at_index i s in
  if negb (cdt_isUsed connData) then Done s else
  match udp_lastAccessTimeMillis (dv_transport s) !! i with
  | None => Undef UB_uninit
  | Some last =>
    if u64 (udp_clientExpireSeconds (dv_transport s) * 1000) <=? u64 (currTimeMillis - last) then
      let s := set_listener_state (dl_onDisconnect (cdt_connectionDetails connData) (dv_listener s)) s in
      let* s := release i s in
      match udp_entryId (dv_transport s) !! i with
      | None => Undef UB_uninit
      | Some entryId =>
        let* map := removeAt entryId (udp_connectionMap (dv_transport s)) in
        Done (set_udp (set_connectionMap map) s)
      end
    else Done s
  end.

Fixpoint onTimer_loop (currTimeMillis : Z) (ids : list Z) s : outcome server :=
  match ids with
  | [] => Done s
  | i :: ids => let* s := expire_slot currTimeMillis i s in onTimer_loop currTimeMillis ids s
  end.

Definition onTimer (currTimeMillis : Z) s : outcome server :=
  onTimer_loop currTimeMillis (map Z.of_nat (seq 0 (Z.to_nat (dv_maxConnections s)))) s.

#[export] Instance udp_transport : ServerTransport UdpServer U := {|
  initializeTransport := udp_initializeTransport;
  terminateTransport := udp_terminateTransport;
  startTransport := udp_startTransport;
  stopTransport := udp_stopTransport;
  onStopTransport s := Done s;
  writeTransport := udp_writeTransport;
  newDetails := udp_createConnectionData;
|}.
End UdpServer.

(** ** Addresses *)

(** an IPv4 address and a port that a datagram can come from *)
Definition valid_addr (a : Z * Z) : Prop := 0 < fst a < 2 ^ 32 /\ 0 <= snd a < 2 ^ 16.

Lemma addr_key_parts a : valid_addr a ->
  Z.shiftr (addr_key a) 32 = fst a /\ Z.land (addr_key a) (Z.ones 32) = snd a.
Proof.
  intros [Hip Hport]. unfold addr_key. rewrite u64_small.
  2:{ rewrite Z.shiftl_mul_pow2 by lia. lia. }
  rewrite Z.shiftr_lor, Z.shiftr_shiftl_l by lia. rewrite Z.land_lor_distr_l. split.
  - rewrite (Z.shiftr_div_pow2 (snd a)), (Z.div_small (snd a)) by lia. rewrite Z.lor_0_r. apply Z.shiftl_0_r.
  - rewrite !Z.land_ones, Z.shiftl_mul_pow2, Z.mod_mul by lia. rewrite Z.mod_small by lia. apply Z.lor_0_l.
Qed.

Lemma addr_key_inj a b : valid_addr a -> valid_addr b -> addr_key a = addr_key b -> a = b.
Proof.
  intros [Ha1 Ha2]%addr_key_parts [Hb1 Hb2]%addr_key_parts Heq. destruct a, b. cbn in *. rewrite Heq in *. congruence.
Qed.

Lemma addr_key_nonzero a : valid_addr a -> addr_key a <> 0.
Proof. intros Ha Hz. destruct (addr_key_parts a Ha) as [H1 _]. destruct Ha as [Hip _]. rewrite Hz in H1. rewrite Z.shiftr_0_l in H1. lia. Qed.

(** ** What the listener is to be told *)

(** the position of a client among those that were heard so far *)
Fixpoint index_of (k : Z) (a : Z * Z) (clients : list (Z * Z)) : option Z :=
  match clients with
  | [] => None
  | b :: clients => if decide (a = b) then Some k else index_of (k + 1) a clients
  end.

(** a datagram of [a] at a server with [m] slots: the [n]-th client that is heard gets slot
    and id [n] *)
Definition route_one (m : Z) (clients : list (Z * Z)) (a : Z * Z) : list dl_event * list (Z * Z) :=
  match index_of 0 a clients with
  | Some i => ([Ev_bytes i i], clients)
  | None =>
    let n := zlen clients in
    if n <? m then ([Ev_connect n n true; Ev_bytes n n], clients ++ [a]) else ([], clients)
  end.

Fixpoint route (m : Z) (clients : list (Z * Z)) (addrs : list (Z * Z)) : list dl_event :=
  match addrs with
  | [] => []
  | a :: addrs => let '(evs, clients) := route_one m clients a in evs ++ route m clients addrs
  end.

Lemma index_of_range k a clients i : index_of k a clients = Some i -> k <= i < k + zlen clients.
Proof.
  revert k. induction clients as [|b clients IH]; intros k; cbn; [done|]. rewrite zlen_cons.
  pose proof (zlen_nonneg clients). case_decide; [intros [= <-]; lia|]. intros Hi%IH. lia.
Qed.

Lemma index_of_snoc k a b clients : index_of k a (clients ++ [b]) =
  match index_of k a clients with
  | Some i => Some i
  | None => if decide (a = b) then Some (k + zlen clients) else None
  end.
Proof.
  revert k. induction clients as [|c clients IH]; intros k; cbn.
  - rewrite zlen_nil, Z.add_0_r. done.
  - rewrite zlen_cons. destruct (decide (a = c)); [done|]. rewrite IH. destruct (index_of (k + 1) a clients); [done|].
    case_decide; [f_equal; lia|done].
Qed.

(** ** Routing *)

Section Routing.
Context {V : Type} {DLV : DataListener V} (inet_ntop : Z -> string).

#[local] Existing Instance traced_listener.

Abbreviation server := (DServer UdpServer (Traced V)).
Implicit Types s : server.

(** libuv asks for a buffer and hands over what it received *)
Definition deliver (now : Z) (data : list Byte.byte) (addr : Z * Z) s : outcome server :=
  let '(buf, s) := onAllocBuffer 65536 s in
  match buf with
  | None => Undef UB_null
  | Some p =>
    onRecv inet_ntop now (zlen data) (Some p) (Some addr)
      (set_env (set_uv_heap (<[p := O_buffer data]> (uv_heap (dv_env s))) (dv_env s)) s)
  end.

Fixpoint deliver_all (ds : list (Z * list Byte.byte * (Z * Z))) s : outcome server :=
  match ds with
  | [] => Done s
  | (now, data, addr) :: ds => let* s := deliver now data addr s in deliver_all ds s
  end.

(** the clients that were heard have the first slots, in their order *)
Record udp_inv (m : Z) (clients : list (Z * Z)) s : Prop := {
  ui_array : exists cs, dv_connDataArray s = Some cs /\ zlen cs = m /\
    forall i c, zget cs i = Some c -> own_index i c /\ (cdt_isUsed c = true <-> i < zlen clients) /\
      (i < zlen clients -> cd_connId (cdt_connectionDetails c) = i);
  ui_next : dv_nextConnectionId s = zlen clients;
  ui_room : zlen clients <= m <= ht_size (udp_connectionMap (dv_transport s)) /\ m < 2 ^ 32;
  ui_map : exists M, ht_rep (udp_connectionMap (dv_transport s)) M /\
    Z.of_nat (base.size M) = zlen clients /\ forall a, valid_addr a -> M !! addr_key a = index_of 0 a clients;
  ui_env : uv_allocs (dv_env s) = [] /\ env_ok (dv_env s);
}.

Lemma onRead_bytes s cs i c nread p : dv_connDataArray s = Some cs -> zget cs i = Some c -> own_index i c ->
  0 < nread -> is_Some (uv_heap (dv_env s) !! p) -> env_ok (dv_env s) ->
  exists s', onRead i nread (Some p) true s = Done s' /\ dv_connDataArray s' = dv_connDataArray s /\
    dv_transport s' = dv_transport s /\ dv_nextConnectionId s' = dv_nextConnectionId s /\
    uv_allocs (dv_env s') = uv_allocs (dv_env s) /\ env_ok (dv_env s') /\
    tr_events (dv_listener s') = tr_events (dv_listener s) ++ [Ev_bytes i (cd_connId (cdt_connectionDetails c))].
Proof.
  intros Ha Hc Hi Hn Hp Hok.
  destruct (onRead_told s cs i c nread (Some p) true Ha Hc Hi Hp) as (s' & h & v & -> & -> & Hok' & Hv); [done|].
  eexists. split; [reflexivity|]. split; [done|]. split; [done|]. split; [done|]. split; [done|]. split; [by apply Hok'|].
  cbn. rewrite Hv. unfold read_events. destruct (Z.ltb_spec nread 0); [lia|]. by destruct (Z.eqb_spec nread 0); [lia|].
Qed.

Lemma udp_receive_ok s cs i c now (new : bool) nread p : dv_connDataArray s = Some cs -> zget cs i = Some c ->
  own_index i c -> 0 < nread -> is_Some (uv_heap (dv_env s) !! p) -> env_ok (dv_env s) ->
  (forall d st (v : V), fst (dl_onConnect d st v) = true) ->
  let id := cd_connId (cdt_connectionDetails c) in
  exists s', udp_receive now new i nread (Some p) s = Done s' /\ dv_connDataArray s' = dv_connDataArray s /\
    udp_connectionMap (dv_transport s') = udp_connectionMap (dv_transport s) /\
    dv_nextConnectionId s' = dv_nextConnectionId s /\
    uv_allocs (dv_env s') = uv_allocs (dv_env s) /\ env_ok (dv_env s') /\
    tr_events (dv_listener s') = tr_events (dv_listener s) ++
      (if new then [Ev_connect i id true; Ev_bytes i id] else [Ev_bytes i id]).
Proof.
  intros Ha Hc Hi Hn Hp Hok Hacc id. unfold udp_receive. rewrite (conn_at_Some i cs c) by done. cbn [outcome_bind].
  destruct (Z.ltb_spec 0 nread); [|lia]. set (s1 := set_udp _ s). destruct new.
  - cbn [dl_onConnect traced_listener]. pose proof (Hacc (cdt_connectionDetails c) 0 (tr_user (dv_listener s1))) as Hb.
    destruct (dl_onConnect _ 0 (tr_user (dv_listener s1))) as [b v]. cbn [fst] in Hb. subst b. cbn [snd].
    set (s2 := set_listener_state _ s1).
    destruct (onRead_bytes s2 cs i c nread p) as (s' & -> & H1 & H2 & H3 & H4 & H5 & H6); try done.
    exists s'. rewrite H1, H2, H3, H4, H6. cbn. destruct Hi as [_ Hi]. rewrite Hi, <- app_assoc. done.
  - destruct (onRead_bytes s1 cs i c nread p) as (s' & -> & H1 & H2 & H3 & H4 & H5 & H6); try done.
    exists s'. rewrite H1, H2, H3, H4, H6. done.
Qed.

(** what [deliver] hands to [onRecv] *)
Definition with_buffer (data : list Byte.byte) s : server :=
  let n := uv_next (dv_env s) in
  set_env (MkUvEnv [] (uv_results (dv_env s)) (uv_calls (dv_env s)) (n + 1)
    (<[n := O_buffer data]> (uv_heap (dv_env s)))) s.

Lemma deliver_eq now data addr s : uv_allocs (dv_env s) = [] ->
  deliver now data addr s = onRecv inet_ntop now (zlen data) (Some (uv_next (dv_env s))) (Some addr) (with_buffer data s).
Proof.
  intros Ha. unfold deliver, onAllocBuffer, s_alloc, uv_alloc. rewrite Ha. cbn [head tail default from_option].
  unfold with_buffer. cbn. by rewrite insert_insert_eq.
Qed.

Lemma with_buffer_ok data s : env_ok (dv_env s) -> env_ok (dv_env (with_buffer data s)) /\
  is_Some (uv_heap (dv_env (with_buffer data s)) !! uv_next (dv_env s)).
Proof.
  intros Hok. split; [|cbn; rewrite lookup_insert_eq; eauto]. intros q Hq. cbn in *.
  rewrite lookup_insert_ne by lia. apply Hok. lia.
Qed.

(** the first datagram of an address, when slot [i] is the first that is free *)
Lemma udp_connect_ok s cs i c M now nread p a : dv_connDataArray s = Some cs -> grab_slot 0 cs = Some i ->
  zget cs i = Some c -> own_index i c -> 0 < nread -> is_Some (uv_heap (dv_env s) !! p) -> env_ok (dv_env s) ->
  (forall d st (v : V), fst (dl_onConnect d st v) = true) -> valid_addr a ->
  ht_rep (udp_connectionMap (dv_transport s)) M -> M !! addr_key a = None ->
  Z.of_nat (base.size M) < ht_size (udp_connectionMap (dv_transport s)) ->
  let n := dv_nextConnectionId s in
  exists s' d, udp_connect inet_ntop now nread (Some p) a s = Done s' /\
    dv_connDataArray s' = Some (zset cs i d) /\ own_index i d /\ cdt_isUsed d = true /\
    cd_connId (cdt_connectionDetails d) = n /\ dv_nextConnectionId s' = u64 (n + 1) /\
    ht_rep (udp_connectionMap (dv_transport s')) (<[addr_key a := n]> M) /\
    ht_size (udp_connectionMap (dv_transport s')) = ht_size (udp_connectionMap (dv_transport s)) /\
    uv_allocs (dv_env s') = uv_allocs (dv_env s) /\ env_ok (dv_env s') /\
    tr_events (dv_listener s') = tr_events (dv_listener s) ++ [Ev_connect i n true; Ev_bytes i n].
Proof.
  intros Ha Hg Hc [Hi1 Hi2] Hn Hp Hok Hacc Hva Hrep HM Hroom n. pose proof (zget_Some_range _ _ _ Hc) as Hr.
  unfold udp_connect, grabConnectionData. rewrite Ha. cbn [default from_option Datatypes.id]. rewrite Hg, Hc.
  unfold conn_update. rewrite Ha. set (d1 := MkConnectionData _ _ true _ _). fold n.
  rewrite (conn_modify_eq i _ (zset cs i d1) d1) by (done || by rewrite zget_zset_eq). cbn [outcome_bind].
  rewrite zset_zset. set (d := set_handle _ _). set (s1 := set_array _ _).
  assert (Hd : zget (zset cs i d) i = Some d) by (by rewrite zget_zset_eq).
  rewrite (conn_at_Some i (zset cs i d) d) by done. cbn [outcome_bind].
  destruct (rep_set (udp_connectionMap (dv_transport s)) M (addr_key a) n Hrep) as (e & t' & Hset & He & Hrep' & Hsz);
    [by apply addr_key_nonzero|done|done|].
  change (cdt_connectionId d) with n. change (dv_transport s1) with (dv_transport s). rewrite Hset.
  cbn [outcome_bind]. rewrite (proj2 (Z.eqb_neq _ _) He). set (s2 := set_udp (set_entryId i e) _).
  destruct (udp_receive_ok s2 (zset cs i d) i d now true nread p) as (s' & -> & K1 & K2 & K3 & K4 & K5 & K6); try done.
  exists s', d. rewrite K1, K2, K3, K4, K6. done.
Qed.

Lemma full_grab s cs : dv_connDataArray s = Some cs -> (forall i c, zget cs i = Some c -> cdt_isUsed c = true) ->
  grabConnectionData s = (None, s).
Proof.
  intros Ha Hall. unfold grabConnectionData. rewrite Ha. cbn [default from_option Datatypes.id].
  pose proof (grab_slot_spec cs 0) as Hg. destruct (grab_slot 0 cs) as [i|]; [|done].
  destruct Hg as (_ & (c & Hc & Huc) & _). apply Hall in Hc. congruence.
Qed.

(** a client that has no slot yet *)
Lemma connect_inv m clients now nread p s a : (forall d st (v : V), fst (dl_onConnect d st v) = true) ->
  udp_inv m clients s -> valid_addr a -> index_of 0 a clients = None -> 0 < nread ->
  is_Some (uv_heap (dv_env s) !! p) -> let n := zlen clients in
  exists s', udp_connect inet_ntop now nread (Some p) a s = Done s' /\
    if n <? m then udp_inv m (clients ++ [a]) s' /\
      tr_events (dv_listener s') = tr_events (dv_listener s) ++ [Ev_connect n n true; Ev_bytes n n]
    else s' = s.
Proof.
  intros Hacc [(cs & Ha & Hm & Hcs) Hnext [Hroom Hm32] (M & Hrep & Hsize & HM) [Hal Hok]] Hva Hidx Hn Hp n.
  pose proof (zlen_nonneg clients) as Hnn. destruct (Z.ltb_spec n m) as [Hlt|Hge].
  2:{ exists s. split; [|done]. unfold udp_connect. rewrite (full_grab s cs); [done|done|]. intros i c Hc.
      apply (Hcs i c Hc). apply zget_Some_range in Hc. lia. }
  destruct (zget_is_Some cs n) as [c Hc]; [lia|]. destruct (Hcs n c Hc) as (Hoi & Hu & _).
  assert (Hg : grab_slot 0 cs = Some n).
  { apply (grab_slot_first _ _ c); [done| |intros j d Hj Hd; by apply (Hcs j d Hd)].
    destruct (cdt_isUsed c); [|done]. destruct Hu as [Hu _]. specialize (Hu eq_refl). lia. }
  destruct (udp_connect_ok s cs n c M now nread p a) as (s2 & d & Hs2 & K1 & K2 & K3 & K4 & K5 & K6 & K7 & K8 & K9 & K10);
    try done; [by rewrite (HM a Hva)|lia|]. rewrite Hnext in *. rewrite u64_small in K5 by lia. exists s2. split; [done|].
  split; [|done]. assert (Hl : zlen (clients ++ [a]) = n + 1) by (rewrite zlen_app; done).
  split; rewrite ?Hl; [|done|lia| |by rewrite K8].
  - exists (zset cs n d). split; [done|]. split; [by rewrite zlen_zset|]. intros j e.
    destruct (Z.eq_dec n j) as [<-|Hne].
    + rewrite zget_zset_eq by lia. intros [= <-]. split; [done|]. split; [|done]. split; [lia|done].
    + rewrite zget_zset_ne by done. intros He. destruct (Hcs j e He) as (? & [Hu1 Hu2] & Hid). split; [done|].
      split; [split; [intros Hx; specialize (Hu1 Hx); lia|intros; apply Hu2; lia]|intros; apply Hid; lia].
  - eexists. split; [exact K6|]. split; [rewrite map_size_insert_None by (by rewrite HM); lia|].
    intros b Hb. rewrite index_of_snoc. destruct (decide (b = a)) as [->|Hne].
    + by rewrite lookup_insert_eq, Hidx.
    + rewrite lookup_insert_ne by (intros Hk; by apply Hne, addr_key_inj). rewrite HM by done.
      by destruct (index_of 0 b clients).
Qed.

Lemma with_buffer_inv m clients data s : udp_inv m clients s -> udp_inv m clients (with_buffer data s).
Proof.
  intros [K1 K2 K3 K4 [K5 K6]]. split; [done|done|done|done|]. split; [done|]. by apply with_buffer_ok.
Qed.

(** one datagram *)
Lemma deliver_inv m clients now data a s : (forall d st (v : V), fst (dl_onConnect d st v) = true) ->
  udp_inv m clients s -> valid_addr a -> data <> [] ->
  exists s', deliver now data a s = Done s' /\ udp_inv m (snd (route_one m clients a)) s' /\
    tr_events (dv_listener s') = tr_events (dv_listener s) ++ fst (route_one m clients a).
Proof.
  intros Hacc Hinv Hva Hdata. pose proof (with_buffer_inv m clients data s Hinv) as Hinv1.
  destruct Hinv as [_ _ _ _ [Hal Hok]]. rewrite deliver_eq by done. destruct (with_buffer_ok data s Hok) as [Hok1 Hp1].
  assert (Hlen : 0 < zlen data). { destruct data; [done|]. rewrite zlen_cons. pose proof (zlen_nonneg data). lia. }
  set (p := uv_next (dv_env s)) in *. change (dv_listener s) with (dv_listener (with_buffer data s)).
  set (s1 := with_buffer data s) in *. clearbody s1. unfold onRecv. destruct (Z.eqb_spec (zlen data) 0); [lia|].
  unfold route_one. destruct (index_of 0 a clients) as [i|] eqn:Hidx; cbn [fst snd].
  - destruct Hinv1 as [(cs & Ha & Hm & Hcs) Hnext [Hroom Hm32] (M & Hrep & Hsize & HM) [Hal1 _]].
    destruct (rep_get_some _ _ (addr_key a) i Hrep) as (e & He & Hget); [by rewrite HM|]. rewrite Hget. cbn [outcome_bind].
    rewrite (proj2 (Z.eqb_neq _ _) He). apply index_of_range in Hidx as Hir.
    destruct (zget_is_Some cs i) as [c Hc]; [lia|]. destruct (Hcs i c Hc) as (Hoi & Hu & Hid).
    destruct (udp_receive_ok s1 cs i c now false (zlen data) p) as (s2 & -> & K1 & K2 & K3 & K4 & K5 & K6); try done.
    exists s2. split; [done|]. rewrite K6, Hid by lia. split; [|done].
    split; [exists cs; by rewrite K1|by rewrite K3|by rewrite K2|exists M; by rewrite K2|by rewrite K4].
  - pose proof Hinv1 as [_ _ _ (M & Hrep & _ & HM) _].
    rewrite (rep_get_none _ _ _ Hrep (addr_key_nonzero a Hva)) by (by rewrite HM). cbn [outcome_bind]. rewrite Z.eqb_refl.
    destruct (connect_inv m clients now (zlen data) p s1 a Hacc Hinv1 Hva Hidx Hlen Hp1) as (s2 & -> & Hs2).
    exists s2. split; [done|]. destruct (zlen clients <? m); cbn [fst snd]; [done|].
    subst s2. by rewrite app_nil_r.
Qed.

Lemma deliver_all_inv m clients s ds : (forall d st (v : V), fst (dl_onConnect d st v) = true) ->
  Forall (fun '(_, data, a) => valid_addr a /\ data <> []) ds -> udp_inv m clients s ->
  exists s', deliver_all ds s = Done s' /\
    tr_events (dv_listener s') = tr_events (dv_listener s) ++ route m clients (map snd ds).
Proof.
  intros Hacc Hds. revert s clients. induction Hds as [|[[now data] a] ds [Hva Hdata] _ IH]; intros s clients Hinv.
  { exists s. cbn. by rewrite app_nil_r. }
  cbn [deliver_all map snd route].
  destruct (deliver_inv m clients now data a s Hacc Hinv Hva Hdata) as (s1 & -> & Hinv1 & He1). cbn [outcome_bind].
  destruct (IH s1 _ Hinv1) as (s2 & Hs2 & He2). exists s2. split; [done|]. rewrite He2, He1.
  destruct (route_one m clients a) as [evs clients']. cbn. by rewrite <- app_assoc.
Qed.

(** setting up the socket *)
Lemma udp_initializeTransport_ok m s : calm (dv_env s) -> env_ok (dv_env s) -> dv_maxConnections s = m ->
  udp_connectionMap (dv_transport s) = HashTable_new -> 0 < m <= 2 ^ 29 ->
  exists s', udp_initializeTransport s = Done (E_OK, s') /\ dv_connDataArray s' = dv_connDataArray s /\
    dv_nextConnectionId s' = dv_nextConnectionId s /\ calm (dv_env s') /\ env_ok (dv_env s') /\
    ht_rep (udp_connectionMap (dv_transport s')) ∅ /\ m <= ht_size (udp_connectionMap (dv_transport s')).
Proof.
  intros [Hal Hres] Hok Hmax Hmap Hm. unfold udp_initializeTransport.
  cbn [dv_transport dv_env dv_maxConnections set_env set_udp set_transport udp_connectionMap]. rewrite Hal, Hmax, Hmap. unfold ht_initialize.
  cbn [ht_size ht_entries HashTable_new head tail default from_option Datatypes.id]. change (negb (0 =? 0) || _) with false.
  cbv iota. unfold COMMUTIL_UDP_CONN_MAP_FACTOR. rewrite u32_small by lia.
  destruct (size2pow_loop_ok 64 (m * 4) 0) as (k & Hk & Hrun & Hle & Hmin); try lia.
  change (2 ^ 0) with 1 in Hrun. rewrite Hrun. cbn [outcome_bind].
  assert (Hk31 : k <= 31).
  { destruct Hmin as [Hmin|]; [|lia]. destruct (Z_le_gt_dec k 31); [done|].
    assert (2 ^ 32 <= 2 ^ k) by (apply Z.pow_le_mono_r; lia). lia. }
  rewrite decide_False by (intros Hx; by apply Hx). unfold s_uv, uv.
  cbn [dv_env set_udp set_transport set_env uv_results]. rewrite Hres.
  cbn [head tail default from_option Datatypes.id Z.ltb Z.compare uv_results dv_env set_env].
  eexists. split; [reflexivity|]. split; [done|]. split; [done|]. split; [done|]. split; [done|]. split.
  - apply rep_fresh. lia.
  - cbn. lia.
Qed.

(** C9. Once it is initialized, and as long as no client was silent for too long, the server
    hands every datagram to the listener as one of its sender: the first one opens a
    connection, in the order in which the clients are heard and as long as there are slots,
    and every later one belongs to it, whatever the addresses hash to. *)
Theorem datagrams_routed m u s ds : (forall d st (v : V), fst (dl_onConnect d st v) = true) ->
  Forall (fun '(_, data, a) => valid_addr a /\ data <> []) ds ->
  calm (dv_env s) -> env_ok (dv_env s) -> dv_runState s = RS_IDLE ->
  udp_connectionMap (dv_transport s) = HashTable_new -> dv_nextConnectionId s = 0 -> 0 < m <= 2 ^ 29 ->
  exists s1 s2, @dserver_initialize UdpServer (Traced V) udp_transport (fun _ => true) u m s = Done (E_OK, s1) /\
    deliver_all ds s1 = Done s2 /\ tr_events (dv_listener s2) = tr_events u ++ route m [] (map snd ds).
Proof.
  intros Hacc Hds [Hal Hres] Hok Hrun Hmap Hnext Hm. unfold dserver_initialize, changeRunState. rewrite decide_True by done.
  cbn [negb]. unfold initConnDataArray. replace (forallb _ _) with true by (symmetry; by apply List.forallb_forall).
  cbn [negb]. unfold s_uv at 1, uv at 1. cbn [dv_env set_array set_maxConnections setRunState].
  rewrite Hres. cbn [head tail default from_option Datatypes.id Z.ltb Z.compare initializeTransport udp_transport].
  match goal with |- context [udp_initializeTransport ?x] => set (s0 := x) end.
  destruct (udp_initializeTransport_ok m s0) as (s1 & -> & Ha & Hn & [Hal1 Hres1] & Hok1 & Hrep & Hsz); try done.
  cbn [outcome_bind]. rewrite decide_False by (intros Hx; by apply Hx).
  set (s2 := setRunState RS_RUNNING (set_listener_state u s1)).
  destruct (deliver_all_inv m [] s2 ds Hacc Hds) as (s3 & Hs3 & He3); [|by exists s2, s3].
  split; [|by cbn; rewrite Hn|cbn; rewrite zlen_nil; lia|by exists ∅|done].
  eexists. split; [by cbn; rewrite Ha|]. split; [unfold zlen; rewrite length_map, length_seq; lia|].
  intros i c Hc. pose proof (zget_Some_range _ _ _ Hc) as Hr. apply new_slots in Hc as [Hc1 Hc2]; [|lia].
  rewrite zlen_nil. split; [done|]. split; [|lia]. rewrite Hc2. split; [done|lia].
Qed.

(** The table keeps the id of a connection, but its value is used as an index. When a
    client gets a slot that was used before, its second datagram is taken for one of the
    slot whose index is its id: another client's, or one outside of the array. *)
Theorem reused_slot_misroutes s cs i c M a now1 data1 now2 data2 : 
  (forall d st (v : V), fst (dl_onConnect d st v) = true) -> valid_addr a -> data1 <> [] -> data2 <> [] ->
  dv_connDataArray s = Some cs -> grab_slot 0 cs = Some i -> zget cs i = Some c -> own_index i c ->
  uv_allocs (dv_env s) = [] -> env_ok (dv_env s) -> ht_rep (udp_connectionMap (dv_transport s)) M ->
  M !! addr_key a = None -> Z.of_nat (base.size M) < ht_size (udp_connectionMap (dv_transport s)) ->
  let n := dv_nextConnectionId s in n <> i ->
  exists s1, deliver now1 data1 a s = Done s1 /\
    tr_events (dv_listener s1) = tr_events (dv_listener s) ++ [Ev_connect i n true; Ev_bytes i n] /\
    match zget cs n with
    | None => deliver now2 data2 a s1 = Undef UB_bounds
    | Some d => own_index n d -> exists s2, deliver now2 data2 a s1 = Done s2 /\
        tr_events (dv_listener s2) = tr_events (dv_listener s1) ++ [Ev_bytes n (cd_connId (cdt_connectionDetails d))]
    end.
Proof.
  intros Hacc Hva Hd1 Hd2 Ha Hg Hc Hi Hal Hok Hrep HM Hroom n Hni.
  assert (Hlen : forall data : list Byte.byte, data <> [] -> 0 < zlen data).
  { intros [|b data]; [done|]. rewrite zlen_cons. pose proof (zlen_nonneg data). lia. }
  rewrite deliver_eq by done. destruct (with_buffer_ok data1 s Hok) as [Hok1 Hp1]. unfold onRecv at 1.
  destruct (Z.eqb_spec (zlen data1) 0) as [Hz|_]; [specialize (Hlen data1 Hd1); lia|].
  change (dv_transport (with_buffer data1 s)) with (dv_transport s).
  rewrite (rep_get_none _ _ _ Hrep (addr_key_nonzero a Hva) HM). cbn [outcome_bind]. rewrite Z.eqb_refl.
  destruct (udp_connect_ok (with_buffer data1 s) cs i c M now1 (zlen data1) (uv_next (dv_env s)) a) as
    (s1 & d & Hs1 & K1 & K2 & K3 & K4 & K5 & K6 & K7 & K8 & K9 & K10); try done; [by apply Hlen|].
  exists s1. split; [done|]. split; [done|]. rewrite deliver_eq by done.
  destruct (with_buffer_ok data2 s1 K9) as [Hok2 Hp2]. unfold onRecv.
  destruct (Z.eqb_spec (zlen data2) 0) as [Hz|_]; [specialize (Hlen data2 Hd2); lia|].
  change (dv_transport (with_buffer data2 s1)) with (dv_transport s1).
  destruct (rep_get_some _ _ (addr_key a) n K6) as (e & He & Hget); [apply lookup_insert_eq|]. rewrite Hget.
  cbn [outcome_bind]. rewrite (proj2 (Z.eqb_neq _ _) He). destruct (zget cs n) as [d'|] eqn:Hn.
  - intros Hn'. destruct (udp_receive_ok (with_buffer data2 s1) (zset cs i d) n d' now2 false (zlen data2)
      (uv_next (dv_env s1))) as (s2 & -> & _ & _ & _ & _ & _ & E); try done.
    + by rewrite zget_zset_ne.
    + by apply Hlen.
    + by exists s2.
  - unfold udp_receive, conn_at_index. change (dv_connDataArray (with_buffer data2 s1)) with (dv_connDataArray s1).
    rewrite K1. unfold mem_get. by rewrite zget_zset_ne, Hn.
Qed.
End Routing.

(** ** Expiry *)

Section Expiry.
Context {V : Type} {DLV : DataListener V}.

#[local] Existing Instance traced_listener.

Abbreviation server := (DServer UdpServer (Traced V)).
Implicit Types s : server.

(** slot [i] belongs to a client that was silent for the whole period *)
Definition expired (now period : Z) (access : gmap Z Z) (cs : list ConnectionData) (i : Z) : bool :=
  match zget cs i, access !! i with
  | Some c, Some last => cdt_isUsed c && (period <=? u64 (now - last))
  | _, _ => false
  end.

Definition expiry_events (expired : Z -> bool) (cs : list ConnectionData) (ids : list Z) : list dl_event :=
  flat_map (fun i => match zget cs i with
    | Some c => if expired i then [Ev_disconnect i (cd_connId (cdt_connectionDetails c))] else []
    | None => []
    end) ids.

Lemma expiry_events_ext x x' cs cs' ids : (forall j, j ∈ ids -> x j = x' j /\ zget cs j = zget cs' j) ->
  expiry_events x cs ids = expiry_events x' cs' ids.
Proof.
  induction ids as [|i ids IH]; intros He; [done|]. cbn [expiry_events flat_map].
  destruct (He i) as [-> ->]; [by left|]. f_equal. apply IH. intros j Hj. apply He. by right.
Qed.

(** every slot that is in use has its members, and its entry is one of the table *)
Definition slots_timed s (cs : list ConnectionData) : Prop := forall i c, zget cs i = Some c -> own_index i c /\
  (cdt_isUsed c = true -> is_Some (udp_lastAccessTimeMillis (dv_transport s) !! i) /\
    exists e, udp_entryId (dv_transport s) !! i = Some e /\ is_Some (zget (ht_entries (udp_connectionMap (dv_transport s))) e)).

Definition timer_period s : Z := u64 (udp_clientExpireSeconds (dv_transport s) * 1000).

Lemma expire_slot_ok now s cs i c : dv_connDataArray s = Some cs -> zget cs i = Some c -> slots_timed s cs ->
  let x := expired now (timer_period s) (udp_lastAccessTimeMillis (dv_transport s)) cs i in
  exists s', expire_slot now i s = Done s' /\
    dv_connDataArray s' = Some (if x then zset cs i (set_isUsed false c) else cs) /\
    slots_timed s' (if x then zset cs i (set_isUsed false c) else cs) /\
    udp_lastAccessTimeMillis (dv_transport s') = udp_lastAccessTimeMillis (dv_transport s) /\
    timer_period s' = timer_period s /\
    tr_events (dv_listener s') = tr_events (dv_listener s) ++
      (if x then [Ev_disconnect i (cd_connId (cdt_connectionDetails c))] else []).
Proof.
  intros Ha Hc Ht x. unfold expire_slot. rewrite (conn_at_Some i cs c) by done. cbn [outcome_bind].
  pose proof (zget_Some_range _ _ _ Hc) as Hr. destruct (Ht i c Hc) as [Hi Hu]. 
  assert (Hx : x = match udp_lastAccessTimeMillis (dv_transport s) !! i with
    | Some last => cdt_isUsed c && (timer_period s <=? u64 (now - last)) | None => false end)
    by (unfold x, expired; by rewrite Hc). clearbody x.
  destruct (cdt_isUsed c) eqn:Huc; cbn [negb].
  2:{ exists s. replace x with false by (subst x; by destruct (_ !! i)). by rewrite app_nil_r. }
  destruct (Hu eq_refl) as ([last Hlast] & e & He & [ent Hent]). rewrite Hlast in Hx |- *. cbn [andb] in Hx.
  unfold timer_period in Hx. rewrite <- Hx. clear Hx. destruct x; [|exists s; by rewrite app_nil_r].
  unfold release. rewrite (conn_modify_eq i _ cs c) by done. cbn [outcome_bind].
  change (udp_entryId (dv_transport (set_array _ _))) with (udp_entryId (dv_transport s)). rewrite He.
  unfold removeAt. change (udp_connectionMap (dv_transport (set_array _ _))) with (udp_connectionMap (dv_transport s)).
  rewrite (mem_get_ok _ _ _ Hent). cbn [outcome_bind]. eexists. split; [reflexivity|]. split; [done|]. split; [|split; [done|split; [done|]]].
  - intros j d. destruct (Z.eq_dec i j) as [<-|Hne].
    + rewrite zget_zset_eq by done. intros [= <-]. split; [exact Hi|done].
    + rewrite zget_zset_ne by done. intros Hd. destruct (Ht j d Hd) as [? Hu']. split; [done|]. intros Hud.
      destruct (Hu' Hud) as (? & e' & He' & Hent'). split; [done|]. exists e'. split; [done|].
      cbn [dv_transport set_udp set_transport udp_connectionMap set_connectionMap ht_entries].
      destruct Hent' as [ent' Hent']. destruct (Z.eq_dec e e') as [<-|Hnee].
      * rewrite zget_zset_eq by (by eapply zget_Some_range). eauto.
      * rewrite zget_zset_ne by done. eauto.
  - cbn. destruct Hi as [_ Hi]. by rewrite Hi.
Qed.

Lemma onTimer_loop_ok now ids : forall s cs, NoDup ids -> (forall i, i ∈ ids -> is_Some (zget cs i)) ->
  dv_connDataArray s = Some cs -> slots_timed s cs ->
  let x := expired now (timer_period s) (udp_lastAccessTimeMillis (dv_transport s)) cs in
  exists s' cs', onTimer_loop now ids s = Done s' /\ dv_connDataArray s' = Some cs' /\
    (forall j, zget cs' j = if bool_decide (j ∈ ids) && x j then set_isUsed false <$> zget cs j else zget cs j) /\
    tr_events (dv_listener s') = tr_events (dv_listener s) ++ expiry_events x cs ids.
Proof.
  induction ids as [|i ids IH]; intros s cs Hnd Hids Ha Ht x.
  { exists s, cs. cbn. by rewrite app_nil_r. }
  apply list.NoDup_cons in Hnd as [Hni Hnd]. destruct (Hids i) as [c Hc]; [by left|].
  pose proof (zget_Some_range _ _ _ Hc) as Hr. cbn [onTimer_loop].
  destruct (expire_slot_ok now s cs i c Ha Hc Ht) as (s1 & -> & Ha1 & Ht1 & Hla & Hper & He1). fold x in Ha1, Ht1, He1.
  cbn [outcome_bind]. set (cs1 := if x i then _ else cs) in *.
  assert (Hcs1 : forall j, j <> i -> zget cs1 j = zget cs j).
  { intros j Hj. unfold cs1. destruct (x i); [|done]. by rewrite zget_zset_ne. }
  destruct (IH s1 cs1 Hnd) as (s2 & cs2 & Hs2 & Ha2 & Hcs2 & He2); try done.
  { intros j Hj. rewrite Hcs1 by (by intros ->). apply Hids. by right. }
  rewrite Hper, Hla in Hcs2, He2. set (x1 := expired _ _ _ cs1) in *.
  assert (Hx1 : forall j, j <> i -> x1 j = x j) by (intros j Hj; unfold x1, x, expired; by rewrite Hcs1).
  exists s2, cs2. split; [done|]. split; [done|]. split.
  - intros j. rewrite Hcs2. destruct (Z.eq_dec j i) as [->|Hne].
    + rewrite (bool_decide_false (i ∈ ids)), (bool_decide_true (i ∈ i :: ids)) by (done || by left). cbn [andb].
      unfold cs1. destruct (x i); [|done]. by rewrite zget_zset_eq, Hc.
    + rewrite Hx1, Hcs1 by done. replace (bool_decide (j ∈ i :: ids)) with (bool_decide (j ∈ ids)); [done|].
      apply bool_decide_ext. rewrite elem_of_cons. naive_solver.
  - rewrite He2, He1. cbn [expiry_events flat_map]. rewrite Hc, <- app_assoc. f_equal. f_equal.
    apply expiry_events_ext. intros j Hj. assert (Hne : j <> i) by (intros ->; done). by rewrite Hcs1, Hx1.
Qed.

(** The expiry timer ends exactly the connections of the clients that were silent for the
    whole period, in the order of their slots: the listener is told of each, and their
    slots are free. *)
Theorem onTimer_spec now s cs : dv_connDataArray s = Some cs -> zlen cs = dv_maxConnections s -> slots_timed s cs ->
  let x := expired now (timer_period s) (udp_lastAccessTimeMillis (dv_transport s)) cs in
  exists s' cs', onTimer now s = Done s' /\ dv_connDataArray s' = Some cs' /\
    (forall i, zget cs' i = if x i then set_isUsed false <$> zget cs i else zget cs i) /\
    tr_events (dv_listener s') = tr_events (dv_listener s) ++
      expiry_events x cs (map Z.of_nat (seq 0 (Z.to_nat (dv_maxConnections s)))).
Proof.
  intros Ha Hlen Ht x. unfold onTimer. set (ids := map _ _).
  assert (Hids : forall i, i ∈ ids <-> is_Some (zget cs i)).
  { intros i. unfold ids. rewrite list_elem_of_In, List.in_map_iff. split.
    - intros (k & <- & Hk%List.in_seq). apply zget_is_Some. lia.
    - intros [c Hc]. apply zget_Some_range in Hc. exists (Z.to_nat i). split; [lia|]. apply List.in_seq. lia. }
  destruct (onTimer_loop_ok now ids s cs) as (s' & cs' & Hs' & Ha' & Hcs' & He'); try done.
  { apply (NoDup_fmap_2 (Z.of_nat : nat -> Z)), NoDup_seq. }
  { intros i Hi. by apply Hids. }
  exists s', cs'. split; [done|]. split; [done|]. split; [|done]. intros i. rewrite Hcs'. fold x.
  destruct (x i) eqn:Hx; [|by rewrite andb_false_r]. rewrite bool_decide_true; [done|].
  apply Hids. unfold x, expired in Hx. destruct (zget cs i); [by eexists|done].
Qed.
End Expiry.

(** ** Examples *)

#[local] Existing Instance traced_listener.
#[local] Existing Instance Transport.sample_listener.

Definition no_names (_ : Z) : string := EmptyString.

#[local] Instance sample_udp : ServerTransport UdpServer (Traced unit) := udp_transport.

Abbreviation sample_server := (DServer UdpServer (Traced unit)).

Definition sample_down : sample_server :=
  MkDServer None 0 0 RS_IDLE false (UdpServer_new EmptyString 53 10) (MkTraced [] tt) UvEnv_new.

Definition sample_a : Z * Z := (16777343, 20480).
Definition sample_b : Z * Z := (33554559, 20480).

Lemma sample_valid : valid_addr sample_a /\ valid_addr sample_b.
Proof. unfold valid_addr. cbn. lia. Qed.

Lemma udp_sample_env_ok : env_ok (dv_env sample_down).
Proof. intros p _. apply lookup_empty. Qed.

(** two slots; the third client is not heard *)
Lemma datagrams_routed_witness : exists s1 s2,
  dserver_initialize (fun _ => true) (MkTraced [] tt) 2 sample_down = Done (E_OK, s1) /\
  deliver_all no_names [(0, [Byte.x61], sample_b); (1, [Byte.x62], sample_a); (2, [Byte.x63], sample_b);
    (3, [Byte.x64], (1, 1)); (4, [Byte.x65], sample_a)] s1 = Done s2 /\
  tr_events (dv_listener s2) = [Ev_connect 0 0 true; Ev_bytes 0 0; Ev_connect 1 1 true; Ev_bytes 1 1;
    Ev_bytes 0 0; Ev_bytes 1 1].
Proof.
  apply (@datagrams_routed unit sample_listener no_names 2 (MkTraced [] tt) sample_down
    [(0, [Byte.x61], sample_b); (1, [Byte.x62], sample_a); (2, [Byte.x63], sample_b);
      (3, [Byte.x64], (1, 1)); (4, [Byte.x65], sample_a)]); try done.
  - repeat constructor; try done; unfold valid_addr; cbn; lia.
Defined.

Definition done_or {A} (d : A) (o : outcome A) : A := match o with Done a => a | _ => d end.

(** one slot: its client was heard, and was silent for ten seconds *)
Definition sample_up : sample_server :=
  snd (done_or (E_OK, sample_down) (dserver_initialize (fun _ => true) (MkTraced [] tt) 1 sample_down)).
Definition sample_heard : sample_server := done_or sample_up (deliver no_names 0 [Byte.x61] sample_a sample_up).
Definition sample_silent : sample_server := done_or sample_heard (onTimer 10000 sample_heard).

Definition sample_slot (s : sample_server) : ConnectionData :=
  default (ConnectionData_init 0 sample_down) (head (default [] (dv_connDataArray s))).

Lemma onTimer_spec_witness : exists s' cs', onTimer 10000 sample_heard = Done s' /\
  dv_connDataArray s' = Some cs' /\ tr_events (dv_listener s') =
    [Ev_connect 0 0 true; Ev_bytes 0 0; Ev_disconnect 0 0].
Proof.
  destruct (@onTimer_spec unit sample_listener 10000 sample_heard [sample_slot sample_heard])
    as (s' & cs' & Hs' & Ha' & _ & He').
  - vm_compute. reflexivity.
  - vm_compute. reflexivity.
  - intros i c Hc. pose proof (zget_Some_range _ _ _ Hc) as Hr. change (zlen [_]) with 1 in Hr.
    apply zget_one in Hc as ->. replace i with 0 by lia. clear Hr. split; [split; vm_compute; reflexivity|]. intros _.
    split; [eexists; vm_compute; reflexivity|]. eexists. split; [vm_compute; reflexivity|].
    eexists. vm_compute. reflexivity.
  - exists s', cs'. split; [exact Hs'|]. split; [exact Ha'|]. rewrite He'. vm_compute. reflexivity.
Defined.

(** the next client gets the slot, with the id 1: its second datagram is outside of the array *)
Lemma reused_slot_misroutes_witness : exists s1, deliver no_names 10001 [Byte.x61] sample_b sample_silent = Done s1 /\
  deliver no_names 10002 [Byte.x62] sample_b s1 = Undef UB_bounds.
Proof.
  destruct (@reused_slot_misroutes unit sample_listener no_names sample_silent [sample_slot sample_silent] 0
    (sample_slot sample_silent) ∅ sample_b 10001 [Byte.x61] 10002 [Byte.x62]) as (s1 & Hs1 & _ & Hs2);
    [done|apply sample_valid|done|done|vm_compute; reflexivity|vm_compute; reflexivity|vm_compute; reflexivity|
     split; vm_compute; reflexivity|vm_compute; reflexivity| | |vm_compute; reflexivity|vm_compute; reflexivity|
     vm_compute; discriminate|].
  - intros p Hp. assert (Hh : uv_heap (dv_env sample_silent) = ∅) by (vm_compute; reflexivity).
    rewrite Hh. apply lookup_empty.
  - apply rep_empty.
    + exists 2. split; [lia|]. split; vm_compute; reflexivity.
    + intros i e He. pose proof (zget_Some_range _ _ _ He) as Hr. vm_compute (zlen _) in Hr.
      assert (Hi : i = 0 \/ i = 1 \/ i = 2 \/ i = 3) by lia. revert He.
      destruct Hi as [-> | [-> | [-> | ->]]]; vm_compute; by intros [= <-].
  - exists s1. split; [exact Hs1|]. vm_compute (zget _ _) in Hs2. exact Hs2.
Defined.
