(* ===== verification/DClient.v ===== *)
(** * DataClient (inc/transport/data_client.h, src/transport/data_client.cpp)

    The loop of a client, its writes and its reads, over the environment of [Transport].
    The derived classes are an interface, as is the listener of the loop. *)

From Stdlib Require Import ZArith Lia.
From stdpp Require Import gmap.
From coqutil Require Import Byte.
From S2P Require Import Prelude Errors Io Connection Segmented Assembler Client Transport.
Open Scope Z_scope.

(** ** Definitions *)

(** the thread of the loop: it was not started, it has not run yet, its loop runs, or it
    has returned because the transport could not be started *)
Inductive IoThread := IT_NONE | IT_STARTED | IT_RUNNING | IT_RETURNED.

#[export] Instance IoThread_eq_dec : EqDecision IoThread.
Proof. solve_decision. Defined.

(** DataLoopListener, as far as the loop calls it; [U] is also the state of the data listener *)
Class DataLoopListener (U : Type) := {
  ll_onLoopStart : U -> U;
  ll_onLoopEnd : U -> U;
  ll_onLoopSend : option Z -> U -> U;
  ll_onLoopRecv : U -> U;
}.

(** [dk_handle] is m_transport, [None] for null; [T] is the state of the derived class *)
Record DClient (T U : Type) := MkDClient {
  dk_handle : option uv_handle;
  dk_connectionDetails : ConnectionDetails;
  dk_byteOrder : ByteOrder;
  dk_ioThread : IoThread;
  dk_hasLoopListener : bool;
  dk_isReady : bool;
  dk_connectStatus : Z;
  dk_transport : T;
  dk_listener : U;
  dk_env : UvEnv;
}.

Arguments MkDClient {T U}.
Arguments dk_handle {T U}.
Arguments dk_connectionDetails {T U}.
Arguments dk_byteOrder {T U}.
Arguments dk_ioThread {T U}.
Arguments dk_hasLoopListener {T U}.
Arguments dk_isReady {T U}.
Arguments dk_connectStatus {T U}.
Arguments dk_transport {T U}.
Arguments dk_listener {T U}.
Arguments dk_env {T U}.

(** the virtual functions of DataClient; a start reads the clock *)
Class ClientTransport (T U : Type) := {
  ct_initializeTransport : DClient T U -> outcome (ErrorCode * DClient T U);
  ct_terminateTransport : DClient T U -> outcome (ErrorCode * DClient T U);
  ct_startTransport : Z -> DClient T U -> outcome (ErrorCode * DClient T U);
  ct_stopTransport : DClient T U -> outcome (ErrorCode * DClient T U);
  ct_writeTransport : Z -> DClient T U -> outcome (ErrorCode * DClient T U);
}.

Definition CLIENT_LOOP : Z := 0.

Section DClient.
Context {T U : Type}.
Implicit Types s : DClient T U.

Definition k_set_handle (h : option uv_handle) s : DClient T U :=
  MkDClient h (dk_connectionDetails s) (dk_byteOrder s) (dk_ioThread s) (dk_hasLoopListener s)
    (dk_isReady s) (dk_connectStatus s) (dk_transport s) (dk_listener s) (dk_env s).
Definition setConnectionDetails (d : ConnectionDetails) s : DClient T U :=
  MkDClient (dk_handle s) d (dk_byteOrder s) (dk_ioThread s) (dk_hasLoopListener s)
    (dk_isReady s) (dk_connectStatus s) (dk_transport s) (dk_listener s) (dk_env s).
Definition k_set_thread (t : IoThread) s : DClient T U :=
  MkDClient (dk_handle s) (dk_connectionDetails s) (dk_byteOrder s) t (dk_hasLoopListener s)
    (dk_isReady s) (dk_connectStatus s) (dk_transport s) (dk_listener s) (dk_env s).
Definition setDataLoopListener (b : bool) s : DClient T U :=
  MkDClient (dk_handle s) (dk_connectionDetails s) (dk_byteOrder s) (dk_ioThread s) b
    (dk_isReady s) (dk_connectStatus s) (dk_transport s) (dk_listener s) (dk_env s).
Definition setReady (status : Z) s : DClient T U :=
  MkDClient (dk_handle s) (dk_connectionDetails s) (dk_byteOrder s) (dk_ioThread s)
    (dk_hasLoopListener s) true status (dk_transport s) (dk_listener s) (dk_env s).
Definition k_set_transport (t : T) s : DClient T U :=
  MkDClient (dk_handle s) (dk_connectionDetails s) (dk_byteOrder s) (dk_ioThread s)
    (dk_hasLoopListener s) (dk_isReady s) (dk_connectStatus s) t (dk_listener s) (dk_env s).
Definition k_set_listener (u : U) s : DClient T U :=
  MkDClient (dk_handle s) (dk_connectionDetails s) (dk_byteOrder s) (dk_ioThread s)
    (dk_hasLoopListener s) (dk_isReady s) (dk_connectStatus s) (dk_transport s) u (dk_env s).
Definition k_set_env (e : UvEnv) s : DClient T U :=
  MkDClient (dk_handle s) (dk_connectionDetails s) (dk_byteOrder s) (dk_ioThread s)
    (dk_hasLoopListener s) (dk_isReady s) (dk_connectStatus s) (dk_transport s) (dk_listener s) e.

(** operations of the environment on the client *)
Definition k_alloc (o : uv_obj) s : option Z * DClient T U :=
  let '(p, e) := uv_alloc o (dk_env s) in (p, k_set_env e s).
Definition k_free (p : Z) s : outcome (DClient T U) :=
  let* e := uv_free p (dk_env s) in Done (k_set_env e s).
Definition k_freeAsync (p : Z) s : outcome (DClient T U) :=
  let* e := freeAsyncRequest p (dk_env s) in Done (k_set_env e s).
Definition k_uv (c : uv_call) s : Z * DClient T U :=
  let '(res, e) := uv c (dk_env s) in (res, k_set_env e s).
Definition k_do (c : uv_call) s : DClient T U := k_set_env (uv_do c (dk_env s)) s.
Definition k_store (p : Z) (o : uv_obj) s : DClient T U :=
  k_set_env (set_uv_heap (<[p := o]> (uv_heap (dk_env s))) (dk_env s)) s.
Definition k_free_buffer (buf : option Z) s : outcome (DClient T U) :=
  match buf with Some p => k_free p s | None => Done s end.

(** close of the handle of the connection; the callback tells the listener *)
Definition close_transport s : outcome (DClient T U) :=
  match dk_handle s with
  | None => Undef UB_null
  | Some h => Done (k_do (uv_close h) s)
  end.

Section Transport.
Context `{ClientTransport T U} `{DataListener U} `{DataLoopListener U}.

Definition dclient_initialize (listener : U) s : outcome (ErrorCode * DClient T U) :=
  let '(res, s) := k_uv (uv_loop_init CLIENT_LOOP) s in
  if res <? 0 then Done (E_TRANSPORT_ERROR, s) else
  let* '(rc, s) := ct_initializeTransport s in
  if decide (rc <> E_OK) then Done (rc, k_do (uv_loop_close CLIENT_LOOP) s) else
  match dk_handle s with
  | None => Undef UB_null
  | Some _ => Done (E_OK, k_set_listener listener s)
  end.

Definition dclient_terminate s : outcome (ErrorCode * DClient T U) :=
  let* '(rc, s) := ct_terminateTransport s in
  if decide (rc <> E_OK) then Done (rc, s) else
  let '(res, s) := k_uv (uv_loop_close CLIENT_LOOP) s in
  if res <? 0 then Done (E_TRANSPORT_ERROR, s) else Done (E_OK, s).

(** a thread object that still has its thread cannot be given another one *)
Definition dclient_start s : outcome (ErrorCode * DClient T U) :=
  if decide (dk_ioThread s = IT_NONE) then Done (E_OK, k_set_thread IT_STARTED s) else Undef UB_throw.

(** ioTask up to the loop *)
Definition ioTask_begin (now : Z) s : outcome (DClient T U) :=
  let* '(rc, s) := ct_startTransport now s in
  if decide (rc <> E_OK) then Done (k_set_thread IT_RETURNED s) else
  let s := if dk_hasLoopListener s then k_set_listener (ll_onLoopStart (dk_listener s)) s else s in
  Done (k_set_thread IT_RUNNING s).

(** ioTask after the loop *)
Definition ioTask_end s : DClient T U :=
  if dk_hasLoopListener s then k_set_listener (ll_onLoopEnd (dk_listener s)) s else s.

Definition dclient_onStopTransportStatic s : outcome (DClient T U) :=
  let* '(_, s) := ct_stopTransport s in Done s.

(** what the thread does until it ends, when its loop was asked to stop *)
Definition run_until_stop (now : Z) (p : DClient T U * UvEnv) : outcome (DClient T U * UvEnv) :=
  let s := k_set_env (snd p) (fst p) in
  let* s := if decide (dk_ioThread s = IT_STARTED) then ioTask_begin now s else Done s in
  let* s := if decide (dk_ioThread s = IT_RUNNING)
            then let* s := dclient_onStopTransportStatic s in Done (ioTask_end s)
            else Done s in
  Done (s, dk_env s).

Definition dclient_stop (now : Z) s : outcome (ErrorCode * DClient T U) :=
  let* '(rc, joinable, s, e) := stopTransportLoop CLIENT_LOOP (bool_decide (dk_ioThread s <> IT_NONE)) false true
    (run_until_stop now) s (dk_env s) in
  let s := k_set_thread (if joinable then dk_ioThread s else IT_NONE) (k_set_env e s) in
  if decide (rc <> E_OK) then Done (rc, s) else Done (E_OK, s).

Definition dclient_isReady s : bool := dk_isReady s.

(** [es]: the statuses that the loop reports while the thread waits *)
Fixpoint dclient_waitReady (es : list Z) s : outcome (Z * DClient T U) :=
  if dk_isReady s then Done (dk_connectStatus s, s) else
  match es with
  | [] => Undef UB_hang
  | status :: es => dclient_waitReady es (setReady status s)
  end.

Definition dclient_sendWriteRequest (clientBufferData : Z) s : outcome (ErrorCode * option Z * DClient T U) :=
  let '(asyncReq, s) := k_alloc (O_async None) s in
  match asyncReq with
  | None => Done (E_NOMEM, None, s)
  | Some asyncReq =>
    let '(res, s) := k_uv (uv_async_init CLIENT_LOOP) s in
    if negb (res =? 0) then let* s := k_freeAsync asyncReq s in Done (E_TRANSPORT_ERROR, None, s) else
    let s := k_store asyncReq (O_async (Some clientBufferData)) s in
    let '(res, s) := k_uv uv_async_send s in
    if negb (res =? 0) then let* s := k_freeAsync asyncReq s in Done (E_TRANSPORT_ERROR, None, s) else
    Done (E_OK, Some asyncReq, s)
  end.

(** the buffer that is written: the caller's, or a copy *)
Definition write_buffer (byRef : bool) (buffer length : Z) s : outcome (option Z * DClient T U) :=
  if byRef then Done (Some buffer, s) else
  let '(base, s) := k_alloc (O_buffer (replicate (Z.to_nat length) Byte.x00)) s in
  match base with
  | None => Done (None, s)
  | Some base =>
    let* data := buffer_at buffer (dk_env s) in
    let* data := mem_read data 0 length in
    Done (Some base, k_store base (O_buffer data) s)
  end.

(** [buffer] is the address of the caller's buffer; the second result is the request that
    libuv will call back *)
Definition dclient_write (buffer length flags : Z) (userData : option Z) s
  : outcome (ErrorCode * option Z * DClient T U) :=
  let byRef := negb (Z.land flags COMMUTIL_MSG_WRITE_BY_REF =? 0) in
  let flags := if byRef then flags else Z.lor flags COMMUTIL_MSG_WRITE_DISPOSE_BUFFER in
  let shouldDisposeBuffer := negb (Z.land flags COMMUTIL_MSG_WRITE_DISPOSE_BUFFER =? 0) in
  let* '(base, s) := write_buffer byRef buffer length s in
  match base with
  | None => Done (E_NOMEM, None, s)
  | Some base =>
    let free_copy s := if byRef then Done s else k_free base s in
    let '(clientBufferData, s) :=
      k_alloc (O_clientBufferData (MkClientBufferData base length shouldDisposeBuffer userData)) s in
    match clientBufferData with
    | None => let* s := free_copy s in Done (E_NOMEM, None, s)
    | Some clientBufferData =>
      let* '(rc, asyncReq, s) := dclient_sendWriteRequest clientBufferData s in
      if decide (rc <> E_OK) then
        let* s := k_free clientBufferData s in
        let* s := free_copy s in Done (rc, None, s)
      else Done (E_OK, asyncReq, s)
    end
  end.

(** the result of the write is ignored *)
Definition dclient_onAsyncWriteStatic (asyncReq : Z) s : outcome (DClient T U) :=
  match uv_heap (dk_env s) !! asyncReq with
  | Some (O_async (Some clientBufferData)) =>
    let* _ := cbd_at clientBufferData (dk_env s) in
    let* '(_, s) := ct_writeTransport clientBufferData s in
    let s := k_do uv_close_async (k_store asyncReq (O_async None) s) in
    if dk_hasLoopListener s then
      let* cbd := cbd_at clientBufferData (dk_env s) in
      Done (k_set_listener (ll_onLoopSend (cb_userData cbd) (dk_listener s)) s)
    else Done s
  | Some _ => Undef UB_uninit
  | None => Undef UB_freed
  end.

Definition dclient_onCloseAsyncWriteReqStatic (asyncReq : Z) s : outcome (DClient T U) := k_freeAsync asyncReq s.

(** the callback of a write *)
Definition dclient_onWrite (clientBufferData status : Z) s : outcome (DClient T U) :=
  let* cbd := cbd_at clientBufferData (dk_env s) in
  let* s :=
    if status <? 0
    then close_transport (k_set_listener (dl_onWriteError (dk_connectionDetails s) status (dk_listener s)) s)
    else Done (k_set_listener (dl_onBytesSent (dk_connectionDetails s) (cb_len cbd) status (dk_listener s)) s) in
  let* s := if cb_shouldDeallocateBuffer cbd then k_free (cb_buf cbd) s else Done s in
  k_free clientBufferData s.

(** a read: [buf] is the address of the buffer, [None] if there is none *)
Definition dclient_onRead (nread : Z) (buf : option Z) (isDatagram : bool) s : outcome (DClient T U) :=
  let details := dk_connectionDetails s in
  if nread <? 0 then
    let* s := close_transport (k_set_listener (dl_onReadError details (i32 nread) (dk_listener s)) s) in
    k_free_buffer buf s
  else if nread =? 0 then k_free_buffer buf s
  else match buf with
  | None => Undef UB_null
  | Some p =>
    let '(action, u) := dl_onBytesReceived details p (u32 nread) isDatagram (dk_listener s) in
    let s := k_set_listener u s in
    let* s := match action with DATA_CAN_DELETE => k_free p s | _ => Done s end in
    Done (if dk_hasLoopListener s then k_set_listener (ll_onLoopRecv (dk_listener s)) s else s)
  end.

Definition dclient_onAllocBuffer (suggestedSize : Z) s : option Z * DClient T U :=
  k_alloc (O_buffer (replicate (Z.to_nat suggestedSize) Byte.x00)) s.

Definition dclient_onClose s : DClient T U :=
  k_set_listener (dl_onDisconnect (dk_connectionDetails s) (dk_listener s)) s.

(** stopTransport of the base class *)
Definition dclient_stopTransport s : outcome (ErrorCode * DClient T U) :=
  match dk_handle s with
  | Some h => Done (E_OK, k_set_handle None (k_do (uv_close h) s))
  | None => Done (E_OK, s)
  end.
End Transport.
End DClient.

(** ** The heap *)

Section Heap.
Context {T U : Type}.
Implicit Types s : DClient T U.

Lemma k_set_env_twice e e' s : k_set_env e (k_set_env e' s) = k_set_env e s.
Proof. done. Qed.

Lemma k_set_env_id s : k_set_env (dk_env s) s = s.
Proof. by destruct s. Qed.

Lemma k_alloc_inv o s r s' : env_ok (dk_env s) -> k_alloc o s = (r, s') ->
  exists e, s' = k_set_env e s /\ env_ok e /\
  match r with
  | Some p => uv_heap (dk_env s) !! p = None /\ uv_heap e = <[p := o]> (uv_heap (dk_env s))
  | None => uv_heap e = uv_heap (dk_env s)
  end.
Proof.
  intros Hok. unfold k_alloc. destruct (uv_alloc o (dk_env s)) as [p e] eqn:Ha. intros [= <- <-].
  exists e. split; [done|]. by apply uv_alloc_inv in Ha.
Qed.

Lemma k_free_inv p s s' : env_ok (dk_env s) -> k_free p s = Done s' ->
  exists e, s' = k_set_env e s /\ env_ok e /\ uv_heap e = delete p (uv_heap (dk_env s)).
Proof.
  intros Hok. unfold k_free. intros (e & Hf & [= <-])%outcome_bind_inv.
  exists e. split; [done|]. by apply uv_free_inv in Hf.
Qed.

Lemma k_freeAsync_inv p s s' : env_ok (dk_env s) -> k_freeAsync p s = Done s' ->
  uv_heap (dk_env s) !! p = Some (O_async None) /\
  exists e, s' = k_set_env e s /\ env_ok e /\ uv_heap e = delete p (uv_heap (dk_env s)).
Proof.
  intros Hok. unfold k_freeAsync, freeAsyncRequest. destruct (uv_heap (dk_env s) !! p) as [[| | | |[]| | | |]|]; try done.
  intros Hf. split; [done|]. by apply k_free_inv in Hf.
Qed.

Lemma k_uv_inv c s r s' : env_ok (dk_env s) -> k_uv c s = (r, s') ->
  exists e, s' = k_set_env e s /\ env_ok e /\ uv_heap e = uv_heap (dk_env s).
Proof. intros Hok. unfold k_uv, uv. cbn. intros [= <- <-]. eexists. split; [done|]. done. Qed.

Lemma k_store_ok p o o' s : env_ok (dk_env s) -> uv_heap (dk_env s) !! p = Some o -> env_ok (dk_env (k_store p o' s)).
Proof.
  intros Hok Hp q Hq. cbn in *. rewrite lookup_insert_ne; [by apply Hok|]. intros <-. by rewrite Hok in Hp.
Qed.

Lemma sendWriteRequest_failed p s rc r s' : env_ok (dk_env s) ->
  dclient_sendWriteRequest p s = Done (rc, r, s') -> rc <> E_OK ->
  exists e, s' = k_set_env e s /\ env_ok e /\ uv_heap e = uv_heap (dk_env s).
Proof.
  intros Hok. unfold dclient_sendWriteRequest. intros Hs Hrc.
  destruct (k_alloc (O_async None) s) as [[q|] s1] eqn:Ha;
    apply (k_alloc_inv _ _ _ _ Hok) in Ha as (e1 & -> & Hok1 & Hh1); [|injection Hs as <- <- <-; by exists e1].
  destruct Hh1 as [Hfresh Hh1]. destruct (k_uv (uv_async_init _) _) as [res s2] eqn:Hu2.
  apply (k_uv_inv _ (k_set_env e1 s) _ _ Hok1) in Hu2 as (e2 & -> & Hok2 & Hh2). cbn [dk_env k_set_env] in Hh2.
  assert (Hq : uv_heap e2 !! q = Some (O_async None)) by (by rewrite Hh2, Hh1, lookup_insert_eq).
  destruct (negb (res =? 0)).
  { apply outcome_bind_inv in Hs as (s3 & Hf & [= <- <- <-]).
    apply (k_freeAsync_inv _ (k_set_env e2 s) _ Hok2) in Hf as (_ & e3 & -> & Hok3 & Hh3). exists e3. split; [done|]. split; [done|].
    cbn in Hh3. by rewrite Hh3, Hh2, Hh1, delete_insert_id. }
  pose proof (k_store_ok q _ (O_async (Some p)) (k_set_env e2 s) Hok2 Hq) as Hok3.
  destruct (k_uv uv_async_send _) as [res2 s4] eqn:Hu4.
  apply (k_uv_inv _ _ _ _ Hok3) in Hu4 as (e4 & -> & Hok4 & Hh4).
  destruct (negb (res2 =? 0)); [|by injection Hs as <- _ _].
  apply outcome_bind_inv in Hs as (s5 & Hf & _).
  apply (k_freeAsync_inv _ (k_set_env e4 s) _ Hok4) in Hf as [Hf _]. cbn in Hf, Hh4.
  by rewrite Hh4, lookup_insert_eq in Hf.
Qed.

Lemma write_buffer_inv byRef b len s r s' : env_ok (dk_env s) -> write_buffer byRef b len s = Done (r, s') ->
  exists e, s' = k_set_env e s /\ env_ok e /\
  match r with
  | None => byRef = false /\ uv_heap e = uv_heap (dk_env s)
  | Some p => if byRef then p = b /\ uv_heap e = uv_heap (dk_env s)
              else uv_heap (dk_env s) !! p = None /\ exists data, uv_heap e = <[p := O_buffer data]> (uv_heap (dk_env s))
  end.
Proof.
  intros Hok. unfold write_buffer. destruct byRef.
  { intros [= <- <-]. exists (dk_env s). by rewrite k_set_env_id. }
  intros Hr. destruct (k_alloc _ s) as [[p|] s1] eqn:Ha; apply (k_alloc_inv _ _ _ _ Hok) in Ha as (e1 & -> & Hok1 & Hh1).
  - destruct Hh1 as [Hf Hh1]. apply outcome_bind_inv in Hr as (d1 & _ & Hr). apply outcome_bind_inv in Hr as (d2 & _ & [= <- <-]).
    eexists. split; [unfold k_store; rewrite k_set_env_twice; reflexivity|]. split.
    + eapply (k_store_ok p _ (O_buffer d2) (k_set_env e1 s)); [done|]. cbn. by rewrite Hh1, lookup_insert_eq.
    + split; [done|]. exists d2. cbn. by rewrite Hh1, insert_insert_eq.
  - injection Hr as <- <-. by exists e1.
Qed.

(** a write that returns a failure leaves nothing behind *)
Lemma failed_write_heap b len flags userData s rc r s' : env_ok (dk_env s) ->
  dclient_write b len flags userData s = Done (rc, r, s') -> rc <> E_OK ->
  exists e, s' = k_set_env e s /\ uv_heap e = uv_heap (dk_env s).
Proof.
  intros Hok. unfold dclient_write. set (byRef := negb (Z.land flags COMMUTIL_MSG_WRITE_BY_REF =? 0)).
  intros ([base s1] & Hb & Hr)%outcome_bind_inv Hrc.
  apply (write_buffer_inv _ _ _ _ _ _ Hok) in Hb as (e1 & -> & Hok1 & Hb).
  destruct base as [p|]; [|destruct Hb as [_ Hh]; injection Hr as <- <- <-; by exists e1].
  assert (Hcopy : forall e s2, env_ok e -> uv_heap e = uv_heap e1 ->
    (if byRef then Done (k_set_env e s) else k_free p (k_set_env e s)) = Done s2 ->
    exists e2, s2 = k_set_env e2 s /\ uv_heap e2 = uv_heap (dk_env s)).
  { intros e s2 He Hhe. destruct byRef.
    - intros [= <-]. exists e. split; [done|]. rewrite Hhe. apply Hb.
    - intros Hf. apply (k_free_inv _ (k_set_env e s) _ He) in Hf as (e2 & -> & _ & Hh2). exists e2. split; [done|].
      cbn in Hh2. destruct Hb as (Hfp & data & Hd). by rewrite Hh2, Hhe, Hd, delete_insert_id. }
  destruct (k_alloc _ _) as [[q|] s2] eqn:Ha;
    apply (k_alloc_inv _ (k_set_env e1 s) _ _ Hok1) in Ha as (e2 & -> & Hok2 & Hh2).
  - destruct Hh2 as [Hf2 Hh2]. cbn [dk_env k_set_env] in Hf2, Hh2.
    apply outcome_bind_inv in Hr as ([[rc1 req] s3] & Hw & Hr).
    case_decide as Hrc1; [|by injection Hr as <- _ _].
    apply (sendWriteRequest_failed _ (k_set_env e2 s) _ _ _ Hok2) in Hw as (e3 & -> & Hok3 & Hh3); [|done].
    apply outcome_bind_inv in Hr as (s4 & Hf4 & Hr).
    apply (k_free_inv _ (k_set_env e3 s) _ Hok3) in Hf4 as (e4 & -> & Hok4 & Hh4).
    cbn [dk_env k_set_env] in Hh3, Hh4. rewrite Hh3, Hh2, delete_insert_id in Hh4 by done.
    apply outcome_bind_inv in Hr as (s5 & Hf5 & [= <- <- <-]). by eapply Hcopy in Hf5.
  - cbn [dk_env k_set_env] in Hh2. apply outcome_bind_inv in Hr as (s3 & Hf3 & [= <- <- <-]). by eapply Hcopy in Hf3.
Qed.
End Heap.

(** ** A write on its way *)

(** the next two calls of libuv succeed, as every allocation does *)
Definition next_two_ok (e : UvEnv) : Prop :=
  uv_allocs e = [] /\ default 0 (head (uv_results e)) = 0 /\ default 0 (head (tail (uv_results e))) = 0.

Section Writes.
Context {T U : Type}.
Implicit Types s : DClient T U.

Lemma k_uv_eq c s : k_uv c s = (default 0 (head (uv_results (dk_env s))),
  k_set_env (MkUvEnv (uv_allocs (dk_env s)) (tail (uv_results (dk_env s))) (uv_calls (dk_env s) ++ [c])
    (uv_next (dk_env s)) (uv_heap (dk_env s))) s).
Proof. done. Qed.

Lemma k_alloc_eq o s : uv_allocs (dk_env s) = [] -> k_alloc o s =
  (Some (uv_next (dk_env s)), k_set_env (MkUvEnv [] (uv_results (dk_env s)) (uv_calls (dk_env s))
    (uv_next (dk_env s) + 1) (<[uv_next (dk_env s) := o]> (uv_heap (dk_env s)))) s).
Proof. intros Ha. unfold k_alloc, uv_alloc. by rewrite Ha. Qed.

Lemma k_free_ok p o s : uv_heap (dk_env s) !! p = Some o ->
  k_free p s = Done (k_set_env (set_uv_heap (delete p (uv_heap (dk_env s))) (dk_env s)) s).
Proof. intros Hp. unfold k_free, uv_free. by rewrite Hp. Qed.

(** an asynchronous request that was closed, and one that its loop refers to *)
Lemma k_freeAsync_ok p s : uv_heap (dk_env s) !! p = Some (O_async None) ->
  k_freeAsync p s = Done (k_set_env (set_uv_heap (delete p (uv_heap (dk_env s))) (dk_env s)) s).
Proof. intros Hp. unfold k_freeAsync, freeAsyncRequest. rewrite Hp. by apply (k_free_ok _ (O_async None)). Qed.

Lemma k_freeAsync_live p q s : uv_heap (dk_env s) !! p = Some (O_async (Some q)) -> k_freeAsync p s = Undef UB_handle.
Proof. intros Hp. unfold k_freeAsync, freeAsyncRequest. by rewrite Hp. Qed.

Lemma k_alloc_results o s r s' : k_alloc o s = (r, s') -> uv_results (dk_env s') = uv_results (dk_env s).
Proof. unfold k_alloc, uv_alloc. by destruct (default true _); intros [= _ <-]. Qed.

Lemma sendWriteRequest_ok p s : next_two_ok (dk_env s) ->
  let req := uv_next (dk_env s) in
  dclient_sendWriteRequest p s = Done (E_OK, Some req, k_set_env (MkUvEnv [] (tail (tail (uv_results (dk_env s))))
    (uv_calls (dk_env s) ++ [uv_async_init CLIENT_LOOP; uv_async_send]) (req + 1)
    (<[req := O_async (Some p)]> (uv_heap (dk_env s)))) s).
Proof.
  intros (Ha & H1 & H2) req. unfold dclient_sendWriteRequest. rewrite k_alloc_eq by done. rewrite k_uv_eq.
  cbn [dk_env k_set_env uv_results]. rewrite H1. cbn [Z.eqb negb]. rewrite k_uv_eq. unfold k_store.
  cbn [dk_env k_set_env uv_results set_uv_heap]. rewrite H2. cbn [Z.eqb negb]. rewrite !k_set_env_twice. cbn.
  by rewrite insert_insert_eq, <- app_assoc.
Qed.

Lemma write_buffer_ok (byRef : bool) b len data s : uv_allocs (dk_env s) = [] -> env_ok (dk_env s) ->
  buffer_at b (dk_env s) = Done data -> 0 <= len <= zlen data ->
  let n := uv_next (dk_env s) in
  write_buffer byRef b len s = Done (Some (if byRef then b else n), k_set_env (MkUvEnv [] (uv_results (dk_env s))
    (uv_calls (dk_env s)) (if byRef then n else n + 1) (reply_copies byRef n len data (uv_heap (dk_env s)))) s).
Proof.
  intros Ha Hok Hb Hl n. unfold write_buffer. destruct byRef.
  { destruct s as [a1 a2 a3 a4 a5 a6 a7 a8 a9 e], e. cbn in *. by subst. }
  rewrite k_alloc_eq by done. fold n. unfold buffer_at in *. cbn [dk_env k_set_env uv_heap].
  assert (Hne : n <> b) by (intros <-; rewrite Hok in Hb by (unfold n; lia); done).
  rewrite lookup_insert_ne by done. rewrite Hb. cbn [outcome_bind]. rewrite mem_read_ok by lia.
  cbn [outcome_bind]. rewrite zdrop_0. unfold k_store. rewrite k_set_env_twice. cbn. by rewrite insert_insert_eq.
Qed.

(** what an accepted write hands to the loop *)
Definition write_request (byRef : bool) (b n len flags : Z) (userData : option Z) : ClientBufferData :=
  MkClientBufferData (if byRef then b else n) len
    (negb (Z.land (if byRef then flags else Z.lor flags COMMUTIL_MSG_WRITE_DISPOSE_BUFFER)
       COMMUTIL_MSG_WRITE_DISPOSE_BUFFER =? 0)) userData.

Definition write_addr (byRef : bool) (n : Z) : Z := if byRef then n else n + 1.

Definition written_env (byRef : bool) (b len flags : Z) (userData : option Z) (data : list Byte.byte) (e : UvEnv) : UvEnv :=
  let n := uv_next e in
  let p := write_addr byRef n in
  MkUvEnv [] (tail (tail (uv_results e))) (uv_calls e ++ [uv_async_init CLIENT_LOOP; uv_async_send]) (p + 1 + 1)
    (<[p + 1 := O_async (Some p)]> (<[p := O_clientBufferData (write_request byRef b n len flags userData)]>
      (reply_copies byRef n len data (uv_heap e)))).

(** *** Writes that fail *)

Lemma write_buffer_ends (byRef : bool) b len data s : env_ok (dk_env s) -> buffer_at b (dk_env s) = Done data ->
  0 <= len <= zlen data ->
  exists r s', write_buffer byRef b len s = Done (r, s') /\ uv_results (dk_env s') = uv_results (dk_env s).
Proof.
  intros Hok Hb Hl. unfold write_buffer. destruct byRef; [by eexists _, _|].
  destruct (k_alloc _ s) as [[p|] s1] eqn:Ha; pose proof (k_alloc_results _ _ _ _ Ha) as Hr; [|by eexists _, _].
  apply (k_alloc_inv _ _ _ _ Hok) in Ha as (e1 & -> & _ & Hf & Hh1). unfold buffer_at in *. cbn [dk_env k_set_env] in *.
  rewrite Hh1, lookup_insert_ne by (intros ->; by rewrite Hf in Hb). rewrite Hb. cbn [outcome_bind].
  rewrite mem_read_ok by lia. cbn [outcome_bind]. by eexists _, _.
Qed.

Lemma sendWriteRequest_ends p s : env_ok (dk_env s) -> ~ wake_fails (dk_env s) ->
  exists rc r s', dclient_sendWriteRequest p s = Done (rc, r, s').
Proof.
  intros Hok Hw. unfold dclient_sendWriteRequest.
  destruct (k_alloc _ s) as [[q|] s1] eqn:Ha; [|by eexists _, _, _].
  pose proof (k_alloc_results _ _ _ _ Ha) as Hr. apply (k_alloc_inv _ _ _ _ Hok) in Ha as (e1 & -> & _ & _ & Hq).
  cbn [dk_env k_set_env] in Hr. rewrite k_uv_eq. cbn [dk_env k_set_env]. rewrite Hr.
  destruct (Z.eqb_spec (default 0 (head (uv_results (dk_env s)))) 0) as [Hi0|Hi0]; cbn [negb].
  - rewrite k_uv_eq. cbn [dk_env k_set_env k_store set_uv_heap uv_results].
    destruct (Z.eqb_spec (default 0 (head (tail (uv_results (dk_env s))))) 0) as [Hi1|Hi1]; cbn [negb]; [by eexists _, _, _|].
    by destruct Hw.
  - rewrite k_freeAsync_ok; [by eexists _, _, _|]. cbn. rewrite Hq. apply lookup_insert_eq.
Qed.

Lemma sendWriteRequest_wake_fails p s : uv_allocs (dk_env s) = [] -> wake_fails (dk_env s) ->
  dclient_sendWriteRequest p s = Undef UB_handle.
Proof.
  intros Ha [Hi0 Hi1]. unfold dclient_sendWriteRequest. rewrite k_alloc_eq by done. rewrite k_uv_eq.
  cbn [dk_env k_set_env uv_results]. rewrite Hi0. cbn [Z.eqb negb]. rewrite k_uv_eq.
  cbn [dk_env k_set_env uv_results k_store set_uv_heap]. apply Z.eqb_neq in Hi1. rewrite Hi1. cbn [negb].
  rewrite (k_freeAsync_live _ p); [done|]. cbn. apply lookup_insert_eq.
Qed.

Lemma write_ends b len flags ud data s : env_ok (dk_env s) -> buffer_at b (dk_env s) = Done data ->
  0 <= len <= zlen data -> ~ wake_fails (dk_env s) ->
  exists rc r s', dclient_write b len flags ud s = Done (rc, r, s').
Proof.
  intros Hok Hb Hl Hw. unfold dclient_write. set (byRef := negb (Z.land flags COMMUTIL_MSG_WRITE_BY_REF =? 0)).
  destruct (write_buffer_ends byRef b len data s Hok Hb Hl) as (base & s1 & Hs1 & Hr1). rewrite Hs1. cbn [outcome_bind].
  apply (write_buffer_inv _ _ _ _ _ _ Hok) in Hs1 as (e1 & -> & Hok1 & Hbase).
  destruct base as [p|]; [|by eexists _, _, _]. cbn [dk_env k_set_env] in Hr1.
  assert (Hfree : forall e, uv_heap e = uv_heap e1 -> exists s2,
    (if byRef then Done (k_set_env e s) else k_free p (k_set_env e s)) = Done s2).
  { intros e He. destruct byRef; [by eexists|]. destruct Hbase as (_ & dat & Hh1).
    rewrite (k_free_ok p (O_buffer dat)); [by eexists|]. cbn. rewrite He, Hh1. apply lookup_insert_eq. }
  destruct (k_alloc _ _) as [[q|] s2] eqn:Ha; pose proof (k_alloc_results _ _ _ _ Ha) as Hr2;
    apply (k_alloc_inv _ (k_set_env e1 s) _ _ Hok1) in Ha as (e2 & -> & Hok2 & Hh2); cbn [dk_env k_set_env] in Hr2, Hh2;
    change (k_set_env e2 (k_set_env e1 s)) with (k_set_env e2 s).
  - destruct Hh2 as [Hf2 Hh2].
    destruct (sendWriteRequest_ends q (k_set_env e2 s)) as (rc & r & s3 & Hs3); [done| |].
    { unfold wake_fails. cbn [dk_env k_set_env]. by rewrite Hr2, Hr1. }
    rewrite Hs3. cbn [outcome_bind]. case_decide as Hrc; [|by eexists _, _, _].
    apply (sendWriteRequest_failed _ (k_set_env e2 s) _ _ _ Hok2) in Hs3 as (e3 & -> & Hok3 & Hh3); [|done].
    cbn [dk_env k_set_env] in Hh3. change (k_set_env e3 (k_set_env e2 s)) with (k_set_env e3 s).
    erewrite k_free_ok by (cbn; rewrite Hh3, Hh2; apply lookup_insert_eq). cbn [outcome_bind].
    destruct (Hfree (set_uv_heap (delete q (uv_heap e3)) e3)) as (s4 & Hs4); [cbn; by rewrite Hh3, Hh2, delete_insert_id|].
    change (k_set_env (set_uv_heap _ _) (k_set_env e3 s)) with (k_set_env (set_uv_heap (delete q (uv_heap e3)) e3) s).
    rewrite Hs4. cbn [outcome_bind]. by eexists _, _, _.
  - destruct (Hfree e2 Hh2) as (s3 & ->). cbn [outcome_bind]. by eexists _, _, _.
Qed.

(** C27. A write of a buffer that holds the data always ends, unless the loop cannot be
    woken up; and a write that fails has no effect: the heap is as it was, with the
    caller's buffer and without the copy, the buffer data and the asynchronous request
    that the call allocated, whichever allocation or call failed. The exception is a
    failed uv_async_send: the asynchronous request is then freed while the loop refers
    to it. *)
Theorem failed_write_has_no_effect b len flags ud data s : env_ok (dk_env s) ->
  buffer_at b (dk_env s) = Done data -> 0 <= len <= zlen data ->
  (~ wake_fails (dk_env s) -> exists rc r s', dclient_write b len flags ud s = Done (rc, r, s') /\
    (rc <> E_OK -> exists e, s' = k_set_env e s /\ uv_heap e = uv_heap (dk_env s))) /\
  (wake_fails (dk_env s) -> uv_allocs (dk_env s) = [] -> dclient_write b len flags ud s = Undef UB_handle).
Proof.
  intros Hok Hb Hl. split.
  - intros Hw. destruct (write_ends b len flags ud data s) as (rc & r & s' & Hs'); [done..|].
    exists rc, r, s'. split; [done|]. by eapply failed_write_heap.
  - intros Hw Ha. unfold dclient_write. rewrite (write_buffer_ok _ b len data) by done. cbn [outcome_bind].
    rewrite k_alloc_eq by done. rewrite sendWriteRequest_wake_fails; [done|done|exact Hw].
Qed.

Lemma write_accepted b len flags userData data s : next_two_ok (dk_env s) -> env_ok (dk_env s) ->
  buffer_at b (dk_env s) = Done data -> 0 <= len <= zlen data ->
  let byRef := negb (Z.land flags COMMUTIL_MSG_WRITE_BY_REF =? 0) in
  dclient_write b len flags userData s = Done (E_OK, Some (write_addr byRef (uv_next (dk_env s)) + 1),
    k_set_env (written_env byRef b len flags userData data (dk_env s)) s).
Proof.
  intros (Ha & H1 & H2) Hok Hb Hl byRef. unfold dclient_write. fold byRef.
  rewrite (write_buffer_ok byRef b len data) by done. cbn [outcome_bind]. rewrite k_alloc_eq by done.
  cbn [dk_env k_set_env uv_next uv_heap uv_calls uv_results]. rewrite sendWriteRequest_ok by done.
  cbn [outcome_bind]. by rewrite decide_False by (intros Hx; by apply Hx).
Qed.

(** the objects of the write that waits in the loop *)
Lemma written_env_ok byRef b len flags ud data e : env_ok e -> env_ok (written_env byRef b len flags ud data e).
Proof.
  intros Hok q Hq. unfold written_env, write_addr in *. cbn [uv_next uv_heap] in *. unfold reply_copies.
  destruct byRef; rewrite !lookup_insert_ne by lia; apply Hok; lia.
Qed.

(** a buffer is not touched by what is added to the heap *)
Lemma buffer_live b e data : env_ok e -> buffer_at b e = Done data -> b < uv_next e.
Proof. intros Hok Hb. destruct (Z_lt_ge_dec b (uv_next e)); [done|]. unfold buffer_at in Hb. by rewrite Hok in Hb by lia. Qed.

Lemma written_buffer byRef b len flags ud data e : env_ok e -> buffer_at b e = Done data -> 0 <= len <= zlen data ->
  let cbd := write_request byRef b (uv_next e) len flags ud in
  exists data', buffer_at (cb_buf cbd) (written_env byRef b len flags ud data e) = Done data' /\
    len <= zlen data' /\ ztake len data' = ztake len data.
Proof.
  intros Hok Hb Hl cbd. pose proof (buffer_live _ _ _ Hok Hb). unfold buffer_at in *. cbn. unfold reply_copies, write_addr.
  destruct byRef.
  - rewrite !lookup_insert_ne by lia. exists data. rewrite Hb. split; [done|]. split; [lia|done].
  - rewrite !lookup_insert_ne, lookup_insert_eq by lia. exists (ztake len data). split; [done|].
    rewrite zlen_ztake, ztake_ztake by lia. split; [lia|done].
Qed.

Section Told.
Context `{DataListener U}.

Definition write_told (len status : Z) s : U :=
  if status <? 0 then dl_onWriteError (dk_connectionDetails s) status (dk_listener s)
  else dl_onBytesSent (dk_connectionDetails s) len status (dk_listener s).

(** the heap without the objects of a write *)
Definition without_write (p : Z) (cbd : ClientBufferData) (h : gmap Z uv_obj) : gmap Z uv_obj :=
  delete p (if cb_shouldDeallocateBuffer cbd then delete (cb_buf cbd) h else h).

Lemma dclient_onWrite_ok p cbd status s o hd : uv_heap (dk_env s) !! p = Some (O_clientBufferData cbd) ->
  uv_heap (dk_env s) !! cb_buf cbd = Some o -> cb_buf cbd <> p -> dk_handle s = Some hd ->
  dclient_onWrite p status s = Done (k_set_listener (write_told (cb_len cbd) status s)
    (k_set_env (MkUvEnv (uv_allocs (dk_env s)) (uv_results (dk_env s))
      (uv_calls (dk_env s) ++ if status <? 0 then [uv_close hd] else []) (uv_next (dk_env s))
      (without_write p cbd (uv_heap (dk_env s)))) s)).
Proof.
  intros Hp Hb Hne Hd. unfold dclient_onWrite, cbd_at. rewrite Hp. cbn [outcome_bind].
  set (m := if status <? 0 then _ else _). assert (Hm : m = Done (k_set_listener (write_told (cb_len cbd) status s)
    (k_set_env (MkUvEnv (uv_allocs (dk_env s)) (uv_results (dk_env s))
      (uv_calls (dk_env s) ++ if status <? 0 then [uv_close hd] else []) (uv_next (dk_env s)) (uv_heap (dk_env s))) s))).
  { unfold m, write_told, close_transport. destruct (status <? 0); cbn [dk_handle k_set_listener]; rewrite ?Hd; [done|].
    rewrite app_nil_r. by destruct s as [? ? ? ? ? ? ? ? ? []]. }
  rewrite Hm. cbn [outcome_bind]. unfold without_write. destruct (cb_shouldDeallocateBuffer cbd).
  - rewrite (k_free_ok _ o) by done. cbn [outcome_bind]. rewrite (k_free_ok _ (O_clientBufferData cbd)); [done|].
    cbn. by rewrite lookup_delete_ne.
  - cbn [outcome_bind]. by rewrite (k_free_ok _ (O_clientBufferData cbd)).
Qed.
End Told.
End Writes.

(** ** Stopping *)

(** a loop that stops while every call succeeds: the thread runs [cb] and is joined *)
Lemma stopTransportLoop_calm {A} loop (cb : A * UvEnv -> outcome (A * UvEnv)) a e a' e' : calm e ->
  cb (a, MkUvEnv [] [] (uv_calls e ++ [uv_async_init loop; uv_async_send]) (uv_next e + 1)
       (<[uv_next e := O_terminateData]> (uv_heap e))) = Done (a', e') ->
  is_Some (uv_heap e' !! uv_next e) ->
  stopTransportLoop loop true false true cb a e = Done (E_OK, false, a',
    MkUvEnv (uv_allocs e') (uv_results e') (uv_calls e' ++ [uv_close_async; uv_walk loop; uv_run_once loop]) (uv_next e')
      (delete (uv_next e) (uv_heap e'))).
Proof.
  intros [Ha Hr] Hcb [o Ho]. unfold stopTransportLoop, uv_alloc. rewrite Ha, Hr.
  cbn [head tail default from_option andb]. rewrite bool_decide_false by done. unfold uv.
  cbn [uv_results uv_allocs uv_calls uv_next uv_heap head tail default from_option Z.eqb negb].
  rewrite <- app_assoc. cbn [app]. rewrite Hcb. cbn [outcome_bind]. unfold uv_free, uv_do. cbn [uv_heap]. rewrite Ho.
  cbn [outcome_bind]. unfold set_uv_heap. cbn. by rewrite <- !app_assoc.
Qed.

Lemma stopTransportLoop_inv {A} (P : A -> Prop) loop joinable closeLoop hasCb cb a e rc j a' e' :
  (forall p p', cb p = Done p' -> P (fst p) -> P (fst p')) -> P a ->
  stopTransportLoop loop joinable closeLoop hasCb cb a e = Done (rc, j, a', e') -> P a'.
Proof.
  intros Hcb Ha. unfold stopTransportLoop.
  destruct (if hasCb then uv_alloc O_terminateData e else (None, e)) as [data e0]. set (free := fun e => _).
  destruct (hasCb && _); [by intros [= _ _ <- _]|]. destruct (uv _ e0) as [res e1].
  destruct (negb (res =? 0)); [by intros (e2 & _ & [= _ _ <- _])%outcome_bind_inv|]. destruct (uv _ e1) as [res2 e2].
  destruct (negb (res2 =? 0)); [by intros (e3 & _ & [=])%outcome_bind_inv|].
  destruct (negb joinable); [done|]. intros ([a1 e3] & Hrun & Hr)%outcome_bind_inv.
  assert (Ha1 : P a1) by (destruct hasCb; [by apply (Hcb (a, e2) (a1, e3))|by injection Hrun as <- _]).
  destruct closeLoop; [destruct (uv _ _) as [res3 e4]; destruct (res3 <? 0)|];
    by apply outcome_bind_inv in Hr as (e5 & _ & [= _ _ <- _]).
Qed.

(** ** What the operations of the base class leave alone *)

Definition is_connect (c : uv_call) : bool :=
  match c with uv_tcp_connect _ | uv_pipe_connect _ => true | _ => false end.

(** the attempts to connect, in order *)
Definition attempts (cs : list uv_call) : list uv_call := List.filter is_connect cs.

Lemma attempts_snoc cs c : is_connect c = false -> attempts (cs ++ [c]) = attempts cs.
Proof. intros Hc. unfold attempts. rewrite List.filter_app. cbn. by rewrite Hc, app_nil_r. Qed.

Section Frame.
Context {T U : Type}.
Implicit Types s : DClient T U.

(** the derived class, the readiness and the attempts to connect are as they were *)
Definition frame s s' : Prop := dk_transport s' = dk_transport s /\ dk_isReady s' = dk_isReady s /\
  attempts (uv_calls (dk_env s')) = attempts (uv_calls (dk_env s)).

Lemma frame_refl s : frame s s.
Proof. done. Qed.

Lemma frame_trans s1 s2 s3 : frame s1 s2 -> frame s2 s3 -> frame s1 s3.
Proof. intros (?&?&?) (?&?&?). unfold frame. split; [congruence|]. split; congruence. Qed.

#[local] Instance frame_preorder : PreOrder frame.
Proof. split; [exact frame_refl|exact frame_trans]. Qed.

Lemma frame_alloc o s : frame s (snd (k_alloc o s)).
Proof. unfold k_alloc, uv_alloc. by destruct (default true _). Qed.

Lemma frame_alloc_eq o s r s' : k_alloc o s = (r, s') -> frame s s'.
Proof. intros Ha. pose proof (frame_alloc o s) as Hk. by rewrite Ha in Hk. Qed.

Lemma frame_uv c s r s' : is_connect c = false -> k_uv c s = (r, s') -> frame s s'.
Proof. intros Hc [= <- <-]. split; [done|]. split; [done|]. cbn. by apply attempts_snoc. Qed.

Lemma frame_free p s s' : k_free p s = Done s' -> frame s s'.
Proof. unfold k_free, uv_free. destruct (_ !! p); [|done]. by intros [= <-]. Qed.

Lemma frame_freeAsync p s s' : k_freeAsync p s = Done s' -> frame s s'.
Proof.
  unfold k_freeAsync, freeAsyncRequest. destruct (_ !! p) as [[| | | |[]| | | |]|]; try done. apply frame_free.
Qed.

Lemma frame_free_buffer buf s s' : k_free_buffer buf s = Done s' -> frame s s'.
Proof. destruct buf; [apply frame_free|by intros [= <-]]. Qed.

Lemma frame_close s s' : close_transport s = Done s' -> frame s s'.
Proof. unfold close_transport. destruct (dk_handle s); [|done]. intros [= <-]. split; [done|]. split; [done|]. cbn. by apply attempts_snoc. Qed.

Lemma frame_sendWriteRequest p s rc r s' : dclient_sendWriteRequest p s = Done (rc, r, s') -> frame s s'.
Proof.
  unfold dclient_sendWriteRequest. destruct (k_alloc _ s) as [[q|] s1] eqn:Ha; apply frame_alloc_eq in Ha; [|by intros [= <- <- <-]].
  destruct (k_uv (uv_async_init _) s1) as [res s2] eqn:Hu. apply frame_uv in Hu; [|done]. destruct (negb _).
  { intros (s3 & Hf%frame_freeAsync & [= <- <- <-])%outcome_bind_inv. eauto using frame_trans. }
  destruct (k_uv uv_async_send _) as [res2 s3] eqn:Hu2. apply frame_uv in Hu2; [|done].
  assert (Hk : frame s s3) by (etrans; [exact Ha|]; etrans; [exact Hu|]; exact Hu2). destruct (negb _).
  { intros (s4 & Hf%frame_freeAsync & [= <- <- <-])%outcome_bind_inv. eauto using frame_trans. }
  by intros [= <- <- <-].
Qed.

Lemma frame_write b len flags ud s rc r s' : dclient_write b len flags ud s = Done (rc, r, s') -> frame s s'.
Proof.
  unfold dclient_write. set (byRef := negb _). intros ([base s1] & Hb & Hr)%outcome_bind_inv.
  assert (Hk1 : frame s s1).
  { unfold write_buffer in Hb. destruct byRef; [by injection Hb as <- <-|].
    destruct (k_alloc _ s) as [[p|] s2] eqn:Ha; apply frame_alloc_eq in Ha; [|by injection Hb as <- <-].
    apply outcome_bind_inv in Hb as (d1 & _ & Hb). apply outcome_bind_inv in Hb as (d2 & _ & [= <- <-]). exact Ha. }
  destruct base as [p|]; [|by injection Hr as <- <- <-].
  assert (Hcopy : forall s2 s3, (if byRef then Done s2 else k_free p s2) = Done s3 -> frame s2 s3).
  { intros s2 s3. destruct byRef; [by intros [= <-]|apply frame_free]. }
  destruct (k_alloc _ s1) as [[q|] s2] eqn:Ha; apply frame_alloc_eq in Ha; (etrans; [exact Hk1|]; etrans; [exact Ha|]).
  - apply outcome_bind_inv in Hr as ([[rc1 req] s3] & Hw%frame_sendWriteRequest & Hr). etrans; [exact Hw|]. case_decide.
    + apply outcome_bind_inv in Hr as (s4 & Hf%frame_free & Hr). apply outcome_bind_inv in Hr as (s5 & Hc%Hcopy & [= <- <- <-]). eauto using frame_trans.
    + by injection Hr as <- <- <-.
  - apply outcome_bind_inv in Hr as (s3 & Hc%Hcopy & [= <- <- <-]). done.
Qed.

Section Listening.
Context `{DataListener U}.

Lemma frame_onWrite p status s s' : dclient_onWrite p status s = Done s' -> frame s s'.
Proof.
  unfold dclient_onWrite. intros (cbd & _ & (s1 & H1' & (s2 & H2' & H3'%frame_free)%outcome_bind_inv)%outcome_bind_inv)%outcome_bind_inv.
  transitivity s1; [|transitivity s2; [|done]].
  - destruct (status <? 0); [by apply frame_close in H1'|by injection H1' as <-].
  - destruct (cb_shouldDeallocateBuffer cbd); [by apply frame_free in H2'|by injection H2' as <-].
Qed.

Context `{DataLoopListener U}.

Lemma frame_onRead nread buf datagram s s' : dclient_onRead nread buf datagram s = Done s' -> frame s s'.
Proof.
  unfold dclient_onRead. destruct (nread <? 0).
  { intros (s1 & Hc%frame_close & Hf%frame_free_buffer)%outcome_bind_inv. etrans; [exact Hc|done]. }
  destruct (nread =? 0); [apply frame_free_buffer|]. destruct buf as [p|]; [|done].
  destruct (dl_onBytesReceived _ _ _ _ _) as [a u]. intros (s1 & Ha & [= <-])%outcome_bind_inv.
  assert (Hk : frame s s1) by (destruct a; [by injection Ha as <-|by apply frame_free in Ha|by injection Ha as <-]).
  etrans; [exact Hk|]. by destruct (dk_hasLoopListener s1).
Qed.

Context `{ClientTransport T U}.

(** the same of the derived class's write *)
Class WriteFrame : Prop := write_frame p s rc s' : ct_writeTransport p s = Done (rc, s') -> frame s s'.

Lemma frame_async `{WriteFrame} req s s' : dclient_onAsyncWriteStatic req s = Done s' -> frame s s'.
Proof.
  unfold dclient_onAsyncWriteStatic. destruct (uv_heap _ !! req) as [[| | | |[p|]| | | |]|]; try done.
  intros (c & _ & ([rc s1] & Hw%write_frame & Hr)%outcome_bind_inv)%outcome_bind_inv.
  assert (Hk : frame s (k_do uv_close_async (k_store req (O_async None) s1))).
  { etrans; [exact Hw|]. split; [done|]. split; [done|]. cbn. by apply attempts_snoc. }
  revert Hr. destruct (dk_hasLoopListener _); [|by intros [= <-]]. intros (cbd & _ & [= <-])%outcome_bind_inv. exact Hk.
Qed.
End Listening.
End Frame.

Arguments WriteFrame T U {_}.

(** ** Delivery *)

(** the request of the write leaves the heap as it was without it *)
Lemma heap_without_requests p w cbd o o' (h : gmap Z uv_obj) : h !! w = None -> p + 1 < w -> cb_buf cbd < p ->
  delete (p + 1) (delete w (without_write p cbd (<[p + 1 := o]> (<[w := o']> h)))) =
  delete (p + 1) (without_write p cbd h).
Proof.
  intros Hw Hpw Hb. apply map_eq. intros q. unfold without_write. destruct (cb_shouldDeallocateBuffer cbd).
  all: rewrite !lookup_delete, !lookup_insert; repeat case_decide; subst; first [lia|done|congruence].
Qed.

Lemma heap_without_write (byRef : bool) b n len flags ud data (h : gmap Z uv_obj) o1 o2 :
  h !! n = None -> h !! (n + 1) = None -> h !! (n + 2) = None -> b < n ->
  let p := write_addr byRef n in
  delete (p + 1) (without_write p (write_request byRef b n len flags ud)
    (<[p + 1 := o1]> (<[p := o2]> (reply_copies byRef n len data h)))) =
  if byRef && negb (Z.land flags COMMUTIL_MSG_WRITE_DISPOSE_BUFFER =? 0) then delete b h else h.
Proof. intros H1' H2' H3' Hlt p. by apply reply_heap. Qed.


Section Delivery.
Context {T U : Type} `{ClientTransport T U} `{DataListener U} `{DataLoopListener U}.
Implicit Types s : DClient T U.

(** what the listener of the loop is told of a send *)
Definition send_told (userData : option Z) s : U :=
  if dk_hasLoopListener s then ll_onLoopSend userData (dk_listener s) else dk_listener s.

Lemma written_objects b len flags ud data s : env_ok (dk_env s) -> buffer_at b (dk_env s) = Done data ->
  let byRef := negb (Z.land flags COMMUTIL_MSG_WRITE_BY_REF =? 0) in
  let e1 := written_env byRef b len flags ud data (dk_env s) in
  let p := write_addr byRef (uv_next (dk_env s)) in
  let cbd := write_request byRef b (uv_next (dk_env s)) len flags ud in
  uv_heap e1 !! (p + 1) = Some (O_async (Some p)) /\ uv_heap e1 !! p = Some (O_clientBufferData cbd) /\
  cb_buf cbd < p /\ uv_next e1 = p + 1 + 1.
Proof.
  intros Hok Hb byRef e1 p cbd. pose proof (buffer_live _ _ _ Hok Hb) as Hlt. unfold e1, p, cbd.
  cbn [written_env uv_heap uv_next]. split; [by rewrite lookup_insert_eq|].
  split; [rewrite lookup_insert_ne by lia; by rewrite lookup_insert_eq|]. split; [|done].
  unfold write_request, write_addr. cbn. destruct byRef; lia.
Qed.

(** what a derived class promises of its write: while every call succeeds it issues the
    calls [send] with the data and leaves its request in the loop, whose callback [sent]
    completes the write *)
Class Delivers (ready : DClient T U -> Prop) (send : DClient T U -> list Byte.byte -> list uv_call)
    (request : Z -> uv_obj) (sent : Z -> Z -> DClient T U -> outcome (DClient T U)) : Prop := {
  delivers_write p cbd data s : ready s -> calm (dk_env s) -> env_ok (dk_env s) ->
    uv_heap (dk_env s) !! p = Some (O_clientBufferData cbd) -> buffer_at (cb_buf cbd) (dk_env s) = Done data ->
    0 <= cb_len cbd <= zlen data ->
    ct_writeTransport p s = Done (E_OK, k_set_env (MkUvEnv [] [] (uv_calls (dk_env s) ++ send s (ztake (cb_len cbd) data))
      (uv_next (dk_env s) + 1) (<[uv_next (dk_env s) := request p]> (uv_heap (dk_env s)))) s);
  delivers_env e s : ready s -> ready (k_set_env e s) /\ forall data, send (k_set_env e s) data = send s data;
  delivers_sent w p status s : uv_heap (dk_env s) !! w = Some (request p) ->
    sent w status s = let* s := dclient_onWrite p status s in k_free w s;
}.

Context {ready : DClient T U -> Prop} {send : DClient T U -> list Byte.byte -> list uv_call}
  {request : Z -> uv_obj} {sent : Z -> Z -> DClient T U -> outcome (DClient T U)}.
Context {Hdel : Delivers ready send request sent}.

(** the callback of the asynchronous request *)
Lemma async_delivers b len flags ud data s : calm (dk_env s) -> env_ok (dk_env s) -> ready s ->
  buffer_at b (dk_env s) = Done data -> 0 <= len <= zlen data ->
  let byRef := negb (Z.land flags COMMUTIL_MSG_WRITE_BY_REF =? 0) in
  let e := written_env byRef b len flags ud data (dk_env s) in
  let p := write_addr byRef (uv_next (dk_env s)) in
  dclient_onAsyncWriteStatic (p + 1) (k_set_env e s) = Done (k_set_listener (send_told ud s) (k_set_env
    (MkUvEnv [] [] (uv_calls e ++ send s (ztake len data) ++ [uv_close_async]) (uv_next e + 1)
      (<[p + 1 := O_async None]> (<[uv_next e := request p]> (uv_heap e)))) s)).
Proof.
  intros [Ha Hr] Hok Hready Hb Hl. cbv zeta. destruct (written_objects b len flags ud data s Hok Hb) as (Hq & Hp & Hlt & Hw).
  set (byRef := negb _) in *. destruct (written_buffer byRef b len flags ud data _ Hok Hb Hl) as (data' & Hd & Hl' & Ht).
  pose proof (written_env_ok byRef b len flags ud data _ Hok) as Heok.
  set (e := written_env _ _ _ _ _ _ _) in *. set (p := write_addr _ _) in *. set (cbd := write_request _ _ _ _ _ _) in *.
  unfold dclient_onAsyncWriteStatic. cbn [dk_env k_set_env]. rewrite Hq. unfold cbd_at at 1. rewrite Hp. cbn [outcome_bind].
  destruct (delivers_env e s Hready) as [Hr' Hs'].
  rewrite (delivers_write p cbd data' (k_set_env e s) Hr'); [|by split; [|cbn; rewrite Hr]|exact Heok|exact Hp|exact Hd|cbn; lia].
  cbn [outcome_bind]. rewrite Hs'. unfold k_do, uv_do, k_store, send_told.
  cbn [dk_env k_set_env set_uv_heap uv_heap uv_calls uv_allocs uv_results uv_next dk_hasLoopListener cb_len cbd write_request].
  rewrite Ht, <- app_assoc. destruct (dk_hasLoopListener s); [|done].
  unfold cbd_at. cbn [dk_env k_set_env uv_heap]. rewrite lookup_insert_ne by lia. rewrite lookup_insert_ne by lia.
  by rewrite Hp.
Qed.

(** a write that is accepted, and its callbacks *)
Lemma delivered b len flags ud data s hd status : calm (dk_env s) -> env_ok (dk_env s) -> ready s ->
  buffer_at b (dk_env s) = Done data -> 0 <= len <= zlen data -> dk_handle s = Some hd ->
  let byRef := negb (Z.land flags COMMUTIL_MSG_WRITE_BY_REF =? 0) in
  let dispose := negb (Z.land flags COMMUTIL_MSG_WRITE_DISPOSE_BUFFER =? 0) in
  exists req w s1 s2 s3 s4, dclient_write b len flags ud s = Done (E_OK, Some req, s1) /\
    dclient_onAsyncWriteStatic req s1 = Done s2 /\
    uv_calls (dk_env s2) = uv_calls (dk_env s) ++
      [uv_async_init CLIENT_LOOP; uv_async_send] ++ send s (ztake len data) ++ [uv_close_async] /\
    sent w status s2 = Done s3 /\ dclient_onCloseAsyncWriteReqStatic req s3 = Done s4 /\
    uv_calls (dk_env s4) = uv_calls (dk_env s2) ++ (if status <? 0 then [uv_close hd] else []) /\
    uv_heap (dk_env s4) = (if byRef && dispose then delete b (uv_heap (dk_env s)) else uv_heap (dk_env s)) /\
    dk_listener s4 = write_told len status (k_set_listener (send_told ud s) s).
Proof.
  intros Hc Hok Hready Hb Hl Hd byRef dispose. set (n := uv_next (dk_env s)).
  assert (Hn2 : next_two_ok (dk_env s)) by (destruct Hc as [Ha Hr]; unfold next_two_ok; by rewrite Ha, Hr).
  destruct (written_objects b len flags ud data s Hok Hb) as (Hq & Hp & Hlt & Hw). fold byRef n in Hq, Hp, Hlt, Hw.
  pose proof (async_delivers b len flags ud data s Hc Hok Hready Hb Hl) as Hasync. cbv zeta in Hasync. fold byRef n in Hasync.
  destruct (written_buffer byRef b len flags ud data _ Hok Hb Hl) as (data' & Hd' & _). fold n in Hd'.
  pose proof (written_env_ok byRef b len flags ud data _ Hok) as Heok.
  set (e := written_env byRef b len flags ud data (dk_env s)) in *. set (p := write_addr byRef n) in *.
  set (cbd := write_request byRef b n len flags ud) in *. set (s2 := k_set_listener _ _) in Hasync.
  assert (Hbuf : exists o, uv_heap e !! cb_buf cbd = Some o).
  { unfold buffer_at in Hd'. destruct (uv_heap e !! cb_buf cbd) as [o|]; [by exists o|done]. }
  destruct Hbuf as [o Ho]. assert (Hwn : uv_heap e !! uv_next e = None) by apply Heok, Z.le_refl.
  assert (Hheap2 : uv_heap (dk_env s2) = <[p + 1 := O_async None]> (<[uv_next e := request p]> (uv_heap e))) by done.
  pose proof (dclient_onWrite_ok p cbd status s2 o hd) as Hwrite. rewrite Hheap2 in Hwrite.
  specialize (Hwrite ltac:(by rewrite !lookup_insert_ne by lia) ltac:(by rewrite !lookup_insert_ne by lia)
    ltac:(lia) Hd).
  eexists (p + 1), (uv_next e), _, s2, _, _. split; [by apply write_accepted|]. split; [exact Hasync|].
  split; [cbn; by rewrite <- !app_assoc|]. split.
  { rewrite (delivers_sent _ p) by (rewrite Hheap2, lookup_insert_ne by lia; apply lookup_insert_eq).
    rewrite Hwrite. cbn [outcome_bind]. rewrite (k_free_ok _ (request p)); [reflexivity|].
    cbn [dk_env k_set_env k_set_listener uv_heap]. unfold without_write.
    rewrite lookup_delete_ne by lia. destruct (cb_shouldDeallocateBuffer cbd); rewrite ?lookup_delete_ne by lia;
      rewrite lookup_insert_ne by lia; apply lookup_insert_eq. }
  split.
  { unfold dclient_onCloseAsyncWriteReqStatic. rewrite k_freeAsync_ok; [reflexivity|].
    cbn [dk_env k_set_env k_set_listener uv_heap set_uv_heap]. unfold without_write.
    rewrite !lookup_delete_ne by lia. destruct (cb_shouldDeallocateBuffer cbd); rewrite ?lookup_delete_ne by lia;
      apply lookup_insert_eq. }
  split; [done|]. split; [|done]. cbn [dk_env k_set_env k_set_listener uv_heap set_uv_heap].
  rewrite heap_without_requests by (done || lia). apply heap_without_write.
  all: first [apply Hok; unfold n; lia|by apply (buffer_live _ _ data)].
Qed.
End Delivery.

Arguments Delivers T U {_ _} ready send request sent.

(** ** Examples *)

#[local] Instance sample_loop_listener : DataLoopListener unit := {|
  ll_onLoopStart u := u;
  ll_onLoopEnd u := u;
  ll_onLoopSend _ u := u;
  ll_onLoopRecv u := u;
|}.

Definition sample_env (results : list Z) : UvEnv :=
  MkUvEnv [] results [] 2 {[1 := O_buffer [Byte.x61; Byte.x62]]}.

(** a client whose loop runs; the caller's buffer is at address 1 *)
Definition sample_client {T} (thread : IoThread) (ready : bool) (results : list Z) (t : T) : DClient T unit :=
  MkDClient (Some H_client) (ConnectionDetails_newNet Stdlib.Strings.String.EmptyString 80 0 0) NETWORK_ORDER thread
    false ready 0 t tt (sample_env results).

Lemma sample_client_ok results : env_ok (sample_env results).
Proof. intros p Hp. cbn in *. by rewrite lookup_singleton_ne by lia. Qed.

(** the loop refuses the asynchronous request; and it cannot be woken up *)
Lemma failed_write_has_no_effect_witness :
  (exists s', dclient_write 1 2 0 None (sample_client IT_RUNNING true [-1] tt) = Done (E_TRANSPORT_ERROR, None, s') /\
    exists e, s' = k_set_env e (sample_client IT_RUNNING true [-1] tt) /\ uv_heap e = uv_heap (sample_env [-1])) /\
  dclient_write 1 2 0 None (sample_client IT_RUNNING true [0; -1] tt) = Undef UB_handle.
Proof.
  split.
  - destruct (@failed_write_has_no_effect unit unit 1 2 0 None [Byte.x61; Byte.x62] (sample_client IT_RUNNING true [-1] tt)
      (sample_client_ok _) eq_refl ltac:(done)) as [Hf _].
    destruct Hf as (rc & r & s' & Hs' & He); [by intros [? _]|].
    assert (Hrc : rc = E_TRANSPORT_ERROR /\ r = None) by (vm_compute in Hs'; by injection Hs' as <- <- _).
    destruct Hrc as [-> ->]. exists s'. split; [exact Hs'|]. by apply He.
  - apply (@failed_write_has_no_effect unit unit 1 2 0 None [Byte.x61; Byte.x62] (sample_client IT_RUNNING true [0; -1] tt)
      (sample_client_ok _) eq_refl ltac:(done)); done.
Defined.
