(* ===== verification/StreamClient.v ===== *)
(** * The stream clients (inc/transport/data_stream_client.h, src/transport/data_stream_client.cpp,
    inc/transport/tcp_client.h, src/transport/tcp_client.cpp, inc/transport/pipe_client.h,
    src/transport/pipe_client.cpp)

    A timer of the loop connects again while the client is not connected. What differs
    between TCP and pipes is an interface, with both as instances. *)

From Stdlib Require Import ZArith Lia String.
From stdpp Require Import gmap.
From coqutil Require Import Byte.
From S2P Require Import Prelude Errors Io Connection Segmented Assembler Client Transport DClient.
Open Scope Z_scope.

(** ** Definitions *)

(** [sc_streamHandle] is m_streamHandle, [None] for null *)
Record StreamClient (T : Type) := MkStreamClient {
  sc_streamHandle : option uv_handle;
  sc_reconnectTimeoutMillis : Z;
  sc_isConnected : bool;
  sc_lastConnectTimeMillis : Z;
  sc_derived : T;
}.

Arguments MkStreamClient {T}.
Arguments sc_streamHandle {T}.
Arguments sc_reconnectTimeoutMillis {T}.
Arguments sc_isConnected {T}.
Arguments sc_lastConnectTimeMillis {T}.
Arguments sc_derived {T}.

Definition StreamClient_new {T} (streamHandle : uv_handle) (reconnectTimeoutMillis : Z) (derived : T) : StreamClient T :=
  MkStreamClient (Some streamHandle) reconnectTimeoutMillis false 0 derived.

(** the virtual functions of DataStreamClient *)
Class StreamTransport (T U : Type) := {
  initializeStreamTransport : DClient (StreamClient T) U -> outcome (ErrorCode * DClient (StreamClient T) U);
  terminateStreamTransport : DClient (StreamClient T) U -> outcome (ErrorCode * DClient (StreamClient T) U);
  startStreamTransport : DClient (StreamClient T) U -> outcome (ErrorCode * DClient (StreamClient T) U);
  stopStreamTransport : DClient (StreamClient T) U -> outcome (ErrorCode * DClient (StreamClient T) U);
}.

Section Stream.
Context {T U : Type}.
Abbreviation client := (DClient (StreamClient T) U).
Implicit Types s : client.

Definition set_stream (f : StreamClient T -> StreamClient T) s : client :=
  k_set_transport (f (dk_transport s)) s.
Definition set_connected (b : bool) (t : StreamClient T) : StreamClient T :=
  MkStreamClient (sc_streamHandle t) (sc_reconnectTimeoutMillis t) b (sc_lastConnectTimeMillis t) (sc_derived t).
Definition set_lastConnect (now : Z) (t : StreamClient T) : StreamClient T :=
  MkStreamClient (sc_streamHandle t) (sc_reconnectTimeoutMillis t) (sc_isConnected t) now (sc_derived t).
Definition drop_streamHandle (t : StreamClient T) : StreamClient T :=
  MkStreamClient None (sc_reconnectTimeoutMillis t) (sc_isConnected t) (sc_lastConnectTimeMillis t) (sc_derived t).

Section Callbacks.
Context `{StreamTransport T U} `{DataListener U} `{DataLoopListener U}.

Definition sc_initializeTransport s : outcome (ErrorCode * client) :=
  let* '(rc, s) := initializeStreamTransport s in
  if decide (rc <> E_OK) then Done (rc, s) else
  let '(res, s) := k_uv (uv_timer_init CLIENT_LOOP) s in
  if res <? 0 then Done (E_TRANSPORT_ERROR, s) else Done (E_OK, s).

Definition sc_terminateTransport s : outcome (ErrorCode * client) := terminateStreamTransport s.

Definition sc_startTransport (now : Z) s : outcome (ErrorCode * client) :=
  let period := sc_reconnectTimeoutMillis (dk_transport s) in
  let '(res, s) := k_uv (uv_timer_start period period) s in
  if negb (res =? 0) then Done (E_TRANSPORT_ERROR, s) else
  startStreamTransport (set_stream (set_lastConnect now) s).

Definition sc_stopTransport s : outcome (ErrorCode * client) :=
  let '(res, s) := k_uv uv_timer_stop s in
  if negb (res =? 0) then Done (E_TRANSPORT_ERROR, s) else
  let s := match sc_streamHandle (dk_transport s) with
           | Some h => set_stream drop_streamHandle (k_do (uv_shutdown h) s)
           | None => s
           end in
  stopStreamTransport s.

(** uv_write of the data of the client buffer *)
Definition write_stream (clientBufferData : Z) s : outcome (Z * client) :=
  let* cbd := cbd_at clientBufferData (dk_env s) in
  let* data := buffer_at (cb_buf cbd) (dk_env s) in
  let* data := mem_read data 0 (cb_len cbd) in
  match sc_streamHandle (dk_transport s) with
  | None => Undef UB_null
  | Some h => Done (k_uv (uv_write h data) s)
  end.

Definition sc_writeTransport (clientBufferData : Z) s : outcome (ErrorCode * client) :=
  let '(writeReq, s) := k_alloc (O_write clientBufferData) s in
  match writeReq with
  | None => Done (E_NOMEM, s)
  | Some writeReq =>
    let* '(res, s) := write_stream clientBufferData s in
    if res <? 0 then let* s := k_free writeReq s in Done (E_TRANSPORT_ERROR, s) else Done (E_OK, s)
  end.

(** [req] is the request of the connect *)
Definition sc_onConnect (req status : Z) s : outcome client :=
  let '(status, s) :=
    if negb (status =? 0) then (status, s) else
    let '(status, s) := k_uv (uv_read_start H_client) s in
    if status <? 0 then (status, s) else (status, set_stream (set_connected true) s) in
  let s := setReady status s in
  let s := k_set_listener (snd (dl_onConnect (dk_connectionDetails s) status (dk_listener s))) s in
  k_free req s.

Definition sc_onConnectStatic (req status : Z) s : outcome client :=
  match uv_heap (dk_env s) !! req with
  | Some O_connect => sc_onConnect req status s
  | Some _ => Undef UB_uninit
  | None => Undef UB_freed
  end.

Definition sc_onReadStatic (nread : Z) (buf : option Z) s : outcome client := dclient_onRead nread buf false s.

Definition sc_onWriteStatic (req status : Z) s : outcome client :=
  match uv_heap (dk_env s) !! req with
  | Some (O_write clientBufferData) =>
    let* s := dclient_onWrite clientBufferData status s in k_free req s
  | Some _ => Undef UB_uninit
  | None => Undef UB_freed
  end.

(** a second path for writes, which nothing calls *)
Definition sc_onAsyncWrite (clientBufferData : Z) s : outcome client :=
  let '(writeReq, s) := k_alloc (O_write clientBufferData) s in
  match writeReq with
  | None => k_free clientBufferData s
  | Some writeReq =>
    let* '(res, s) := write_stream clientBufferData s in
    if res <? 0 then let* s := k_free writeReq s in k_free clientBufferData s else Done s
  end.

Definition sc_onAsyncWriteStatic (asyncReq : Z) s : outcome client :=
  match uv_heap (dk_env s) !! asyncReq with
  | Some (O_async (Some clientBufferData)) =>
    let* _ := cbd_at clientBufferData (dk_env s) in
    let* s := sc_onAsyncWrite clientBufferData s in k_freeAsync asyncReq s
  | Some _ => Undef UB_uninit
  | None => Undef UB_freed
  end.

(** one expiry of the timer; the clock is unsigned *)
Definition sc_onTimer (now : Z) s : outcome client :=
  if sc_isConnected (dk_transport s) then Done s else
  if sc_reconnectTimeoutMillis (dk_transport s) <=? u64 (now - sc_lastConnectTimeMillis (dk_transport s)) then
    let* '(_, s) := startStreamTransport s in
    Done (set_stream (set_lastConnect now) s)
  else Done s.

#[export] Instance stream_client : ClientTransport (StreamClient T) U := {|
  ct_initializeTransport := sc_initializeTransport;
  ct_terminateTransport := sc_terminateTransport;
  ct_startTransport := sc_startTransport;
  ct_stopTransport := sc_stopTransport;
  ct_writeTransport := sc_writeTransport;
|}.
End Callbacks.
End Stream.

(** *** TcpClient *)

Record TcpClient := MkTcpClient { tc_serverAddress : string; tc_port : Z }.

Definition TcpClient_new (serverAddress : string) (port reconnectTimeoutMillis : Z) : StreamClient TcpClient :=
  StreamClient_new H_client reconnectTimeoutMillis (MkTcpClient serverAddress port).

Section TcpClient.
Context {U : Type}.
Abbreviation client := (DClient (StreamClient TcpClient) U).
Implicit Types s : client.

Definition tc_initializeStreamTransport s : outcome (ErrorCode * client) :=
  let '(res, s) := k_uv (uv_tcp_init CLIENT_LOOP H_client) s in
  if res <? 0 then Done (E_TRANSPORT_ERROR, s) else
  let t := sc_derived (dk_transport s) in
  let s := k_set_handle (Some H_client) s in
  Done (E_OK, setConnectionDetails (setNetAddress (tc_serverAddress t) (tc_port t) (dk_connectionDetails s)) s).

(** the request is not freed when the address cannot be prepared *)
Definition tc_startStreamTransport s : outcome (ErrorCode * client) :=
  let '(connectReq, s) := k_alloc O_connect s in
  match connectReq with
  | None => Done (E_NOMEM, s)
  | Some connectReq =>
    let '(res, s) := k_uv uv_ip4_addr s in
    if res <? 0 then Done (E_TRANSPORT_ERROR, k_do (uv_close H_client) s) else
    let '(res, s) := k_uv (uv_tcp_connect H_client) s in
    if res <? 0 then
      let* s := k_free connectReq s in Done (E_TRANSPORT_ERROR, k_do (uv_close H_client) s)
    else Done (E_OK, s)
  end.

#[export] Instance tcp_client : StreamTransport TcpClient U := {|
  initializeStreamTransport := tc_initializeStreamTransport;
  terminateStreamTransport s := Done (E_OK, s);
  startStreamTransport := tc_startStreamTransport;
  stopStreamTransport s := Done (E_OK, s);
|}.
End TcpClient.

(** *** PipeClient *)

Record PipeClient := MkPipeClient { pc_pipeName : string }.

Definition PipeClient_new (pipeName : string) (reconnectTimeoutMillis : Z) : StreamClient PipeClient :=
  StreamClient_new H_client reconnectTimeoutMillis (MkPipeClient pipeName).

Section PipeClient.
Context {U : Type}.
Abbreviation client := (DClient (StreamClient PipeClient) U).
Implicit Types s : client.

Definition pc_initializeStreamTransport s : outcome (ErrorCode * client) :=
  let '(res, s) := k_uv (uv_pipe_init CLIENT_LOOP H_client) s in
  if res <? 0 then Done (E_TRANSPORT_ERROR, s) else
  let s := k_set_handle (Some H_client) s in
  Done (E_OK, setConnectionDetails (setPipeName (pc_pipeName (sc_derived (dk_transport s))) (dk_connectionDetails s)) s).

(** uv_pipe_connect has no result *)
Definition pc_startStreamTransport s : outcome (ErrorCode * client) :=
  let '(req, s) := k_alloc O_connect s in
  match req with
  | None => Done (E_NOMEM, s)
  | Some req => Done (E_OK, k_do (uv_pipe_connect H_client) s)
  end.

#[export] Instance pipe_client : StreamTransport PipeClient U := {|
  initializeStreamTransport := pc_initializeStreamTransport;
  terminateStreamTransport s := Done (E_OK, s);
  startStreamTransport := pc_startStreamTransport;
  stopStreamTransport s := Done (E_OK, s);
|}.
End PipeClient.

(** ** Writes *)

Section Writes.
Context {T U : Type} `{StreamTransport T U} `{DataListener U} `{DataLoopListener U}.
Abbreviation client := (DClient (StreamClient T) U).
Implicit Types s : client.

Section Accepted.
Context (b len flags : Z) (ud : option Z) (data : list Byte.byte) (s : client) (h : uv_handle).
Context (Hok : env_ok (dk_env s)) (Hb : buffer_at b (dk_env s) = Done data) (Hl : 0 <= len <= zlen data).
Context (Hh : sc_streamHandle (dk_transport s) = Some h).

#[local] Abbreviation byRef := (negb (Z.land flags COMMUTIL_MSG_WRITE_BY_REF =? 0)).
#[local] Abbreviation e1 := (written_env byRef b len flags ud data (dk_env s)).
#[local] Abbreviation p := (write_addr byRef (uv_next (dk_env s))).
#[local] Abbreviation cbd := (write_request byRef b (uv_next (dk_env s)) len flags ud).

(** the callback of the asynchronous request; [res] is the result of uv_write *)
Lemma async_write : let w := uv_next e1 in
  let res := default 0 (head (uv_results e1)) in
  dclient_onAsyncWriteStatic (p + 1) (k_set_env e1 s) = Done (k_set_listener (send_told ud s) (k_set_env
    (MkUvEnv [] (tail (uv_results e1)) (uv_calls e1 ++ [uv_write h (ztake len data); uv_close_async]) (w + 1)
      (<[p + 1 := O_async None]> (if res <? 0 then uv_heap e1 else <[w := O_write p]> (uv_heap e1)))) s)).
Proof.
  intros w res. destruct (written_objects b len flags ud data s Hok Hb) as (Hq & Hp & Hlt & Hw).
  destruct (written_buffer byRef b len flags ud data _ Hok Hb Hl) as (data' & Hd & Hl' & Ht).
  unfold dclient_onAsyncWriteStatic. cbn [dk_env k_set_env]. rewrite Hq. unfold cbd_at at 1. rewrite Hp. cbn [outcome_bind].
  cbn [ct_writeTransport stream_client]. unfold sc_writeTransport. rewrite k_alloc_eq by done. cbn [dk_env k_set_env].
  fold w. unfold write_stream, cbd_at. cbn [dk_env k_set_env uv_heap]. rewrite lookup_insert_ne by lia. rewrite Hp.
  cbn [outcome_bind]. unfold buffer_at in Hd |- *. cbn [uv_heap]. rewrite lookup_insert_ne by lia. rewrite Hd.
  cbn [outcome_bind]. rewrite mem_read_ok by (cbn [cb_len write_request]; lia). cbn [outcome_bind]. rewrite zdrop_0.
  cbn [dk_transport k_set_env]. rewrite Hh. cbn [outcome_bind]. rewrite k_uv_eq. cbn [dk_env k_set_env uv_results].
  fold res. unfold send_told. change (cb_len cbd) with len. rewrite Ht.
  assert (Hwn : uv_heap e1 !! w = None) by (apply (written_env_ok byRef b len flags ud data _ Hok); unfold w; lia).
  destruct (res <? 0).
  - rewrite (k_free_ok _ (O_write p)); [|cbn; by rewrite lookup_insert_eq]. cbn [outcome_bind].
    unfold k_do, uv_do, k_store. cbn [dk_env k_set_env set_uv_heap uv_heap uv_calls uv_allocs uv_results uv_next dk_hasLoopListener].
    rewrite delete_insert_id, <- app_assoc by done. destruct (dk_hasLoopListener s); [|done].
    unfold cbd_at. cbn [dk_env k_set_env uv_heap]. rewrite lookup_insert_ne by lia. by rewrite Hp.
  - cbn [outcome_bind].
    unfold k_do, uv_do, k_store. cbn [dk_env k_set_env set_uv_heap uv_heap uv_calls uv_allocs uv_results uv_next dk_hasLoopListener].
    rewrite <- app_assoc. destruct (dk_hasLoopListener s); [|done].
    unfold cbd_at. cbn [dk_env k_set_env uv_heap]. rewrite lookup_insert_ne by lia. rewrite lookup_insert_ne by lia. by rewrite Hp.
Qed.
End Accepted.

(** without a stream *)
Lemma async_write_null b len flags ud data s : env_ok (dk_env s) -> buffer_at b (dk_env s) = Done data ->
  0 <= len <= zlen data -> sc_streamHandle (dk_transport s) = None ->
  let byRef := negb (Z.land flags COMMUTIL_MSG_WRITE_BY_REF =? 0) in
  dclient_onAsyncWriteStatic (write_addr byRef (uv_next (dk_env s)) + 1)
    (k_set_env (written_env byRef b len flags ud data (dk_env s)) s) = Undef UB_null.
Proof.
  intros Hok Hb Hl Hh. cbv zeta. destruct (written_objects b len flags ud data s Hok Hb) as (Hq & Hp & Hlt & Hw).
  destruct (written_buffer (negb (Z.land flags COMMUTIL_MSG_WRITE_BY_REF =? 0)) b len flags ud data _ Hok Hb Hl) as (data' & Hd & Hl' & _).
  unfold dclient_onAsyncWriteStatic. cbn [dk_env k_set_env]. rewrite Hq. unfold cbd_at at 1. rewrite Hp. cbn [outcome_bind].
  cbn [ct_writeTransport stream_client]. unfold sc_writeTransport. rewrite k_alloc_eq by done. cbn [dk_env k_set_env].
  unfold write_stream, cbd_at. cbn [dk_env k_set_env uv_heap]. rewrite lookup_insert_ne by lia. rewrite Hp.
  cbn [outcome_bind]. unfold buffer_at in Hd |- *. cbn [uv_heap]. rewrite lookup_insert_ne by lia. rewrite Hd.
  cbn [outcome_bind]. rewrite mem_read_ok by (cbn [cb_len write_request]; lia). cbn [outcome_bind].
  cbn [dk_transport k_set_env]. by rewrite Hh.
Qed.

(** the stream of a client that is there *)
#[export] Instance stream_delivers : Delivers (StreamClient T) U (fun s => is_Some (sc_streamHandle (dk_transport s)))
  (fun s data => match sc_streamHandle (dk_transport s) with Some h => [uv_write h data] | None => [] end)
  O_write sc_onWriteStatic.
Proof.
  split.
  - intros p cbd data s [h Hh] [Ha Hr] Hok Hp Hd Hl. rewrite Hh. cbn [ct_writeTransport stream_client].
    unfold sc_writeTransport. rewrite k_alloc_eq by done. unfold write_stream, cbd_at. cbn [dk_env k_set_env uv_heap].
    assert (Hn : forall q o, uv_heap (dk_env s) !! q = Some o -> uv_next (dk_env s) <> q).
    { intros q o Hq <-. rewrite Hok in Hq; [done|lia]. }
    rewrite lookup_insert_ne by (by eapply Hn). rewrite Hp. cbn [outcome_bind]. unfold buffer_at in Hd |- *.
    destruct (uv_heap (dk_env s) !! cb_buf cbd) as [o|] eqn:Ho; [|done]. cbn [uv_heap].
    rewrite lookup_insert_ne by (by eapply Hn). rewrite Ho, Hd. cbn [outcome_bind].
    rewrite mem_read_ok, zdrop_0 by lia. cbn [outcome_bind dk_transport k_set_env]. rewrite Hh. cbn [outcome_bind].
    rewrite k_uv_eq. cbn [dk_env k_set_env uv_results]. by rewrite Hr.
  - done.
  - intros w p status s Hw. unfold sc_onWriteStatic. by rewrite Hw.
Qed.

(** a write that libuv refuses *)
Lemma refused_write b len flags ud data s h res : uv_allocs (dk_env s) = [] ->
  uv_results (dk_env s) = [0; 0; res] -> res < 0 -> env_ok (dk_env s) ->
  buffer_at b (dk_env s) = Done data -> 0 <= len <= zlen data -> sc_streamHandle (dk_transport s) = Some h ->
  let byRef := negb (Z.land flags COMMUTIL_MSG_WRITE_BY_REF =? 0) in
  let n := uv_next (dk_env s) in
  exists req s1 s2 s3, dclient_write b len flags ud s = Done (E_OK, Some req, s1) /\
    dclient_onAsyncWriteStatic req s1 = Done s2 /\ dclient_onCloseAsyncWriteReqStatic req s2 = Done s3 /\
    dk_listener s3 = send_told ud s /\
    uv_heap (dk_env s3) = <[write_addr byRef n := O_clientBufferData (write_request byRef b n len flags ud)]>
      (reply_copies byRef n len data (uv_heap (dk_env s))).
Proof.
  intros Ha Hr Hres Hok Hb Hl Hh byRef n.
  assert (Hn2 : next_two_ok (dk_env s)) by (unfold next_two_ok; by rewrite Ha, Hr).
  destruct (written_objects b len flags ud data s Hok Hb) as (Hq & Hp & Hlt & Hw). fold byRef n in Hq, Hp, Hlt, Hw.
  pose proof (async_write b len flags ud data s h Hok Hb Hl Hh) as Hasync. cbv zeta in Hasync. fold byRef n in Hasync.
  set (e := written_env byRef b len flags ud data (dk_env s)) in *. set (p := write_addr byRef n) in *.
  assert (He : uv_results e = [res]) by (cbn; by rewrite Hr). rewrite He in Hasync. cbn [head default from_option] in Hasync.
  destruct (Z.ltb_spec (Datatypes.id res) 0) as [_|Hge]; [|unfold Datatypes.id in Hge; lia]. set (s2 := k_set_listener _ _) in Hasync.
  eexists (p + 1), _, s2, _. split; [by apply write_accepted|]. split; [exact Hasync|]. split.
  { unfold dclient_onCloseAsyncWriteReqStatic. rewrite k_freeAsync_ok; [reflexivity|]. apply lookup_insert_eq. }
  split; [done|]. cbn [dk_env k_set_env k_set_listener s2 set_uv_heap uv_heap e written_env]. fold n p.
  rewrite insert_insert_eq. apply delete_insert_id. rewrite lookup_insert_ne by lia. unfold reply_copies, p, write_addr.
  destruct byRef; rewrite ?lookup_insert_ne by lia; apply Hok; lia.
Qed.
(** the results of the calls of libuv to come *)
Definition k_set_results (results : list Z) s : client :=
  k_set_env (MkUvEnv (uv_allocs (dk_env s)) results (uv_calls (dk_env s)) (uv_next (dk_env s)) (uv_heap (dk_env s))) s.

(** C10. While allocations and calls of libuv succeed, a write that is accepted is written
    once, with the data as it was given, and afterwards every object of its way is given
    back once, the caller's buffer only if it was handed over; the listeners are told of
    it, and a write that fails later ([status]) closes the connection. If libuv refuses
    the write when the loop issues it ([res]), the write, which was accepted, is lost:
    the listener of the data is not told, the listener of the loop hears of a send, and
    the buffer data of the write, with the copy of its data, are never given back. *)
Theorem write_delivered b len flags ud data s h hd status res : calm (dk_env s) -> env_ok (dk_env s) ->
  buffer_at b (dk_env s) = Done data -> 0 <= len <= zlen data ->
  sc_streamHandle (dk_transport s) = Some h -> dk_handle s = Some hd -> res < 0 ->
  let byRef := negb (Z.land flags COMMUTIL_MSG_WRITE_BY_REF =? 0) in
  let dispose := negb (Z.land flags COMMUTIL_MSG_WRITE_DISPOSE_BUFFER =? 0) in
  let n := uv_next (dk_env s) in
  (exists req w s1 s2 s3 s4, dclient_write b len flags ud s = Done (E_OK, Some req, s1) /\
    dclient_onAsyncWriteStatic req s1 = Done s2 /\
    uv_calls (dk_env s2) = uv_calls (dk_env s) ++
      [uv_async_init CLIENT_LOOP; uv_async_send; uv_write h (ztake len data); uv_close_async] /\
    sc_onWriteStatic w status s2 = Done s3 /\ dclient_onCloseAsyncWriteReqStatic req s3 = Done s4 /\
    uv_calls (dk_env s4) = uv_calls (dk_env s2) ++ (if status <? 0 then [uv_close hd] else []) /\
    uv_heap (dk_env s4) = (if byRef && dispose then delete b (uv_heap (dk_env s)) else uv_heap (dk_env s)) /\
    dk_listener s4 = write_told len status (k_set_listener (send_told ud s) s)) /\
  (exists req s1 s2 s3, dclient_write b len flags ud (k_set_results [0; 0; res] s) = Done (E_OK, Some req, s1) /\
    dclient_onAsyncWriteStatic req s1 = Done s2 /\ dclient_onCloseAsyncWriteReqStatic req s2 = Done s3 /\
    dk_listener s3 = send_told ud s /\
    uv_heap (dk_env s3) = <[write_addr byRef n := O_clientBufferData (write_request byRef b n len flags ud)]>
      (reply_copies byRef n len data (uv_heap (dk_env s)))).
Proof.
  intros Hc Hok Hb Hl Hh Hd Hres byRef dispose n. split.
  - assert (Hready : is_Some (sc_streamHandle (dk_transport s))) by (by exists h).
    pose proof (delivered (Hdel := stream_delivers) b len flags ud data s hd status Hc Hok Hready Hb Hl Hd) as Hdone.
    cbv beta in Hdone. rewrite Hh in Hdone. exact Hdone.
  - by apply (refused_write b len flags ud data (k_set_results [0; 0; res] s) h res (proj1 Hc)).
Qed.
End Writes.

(** ** Connecting *)

Section Connecting.
Context {T U : Type} `{StreamTransport T U} `{DataListener U} `{DataLoopListener U}.
Abbreviation client := (DClient (StreamClient T) U).
Implicit Types s : client.

(** what happens to a client that runs: the environment chooses the results to come, and
    the loop and the threads that write call it *)
Inductive sc_step : client -> client -> Prop :=
| step_choose allocs results s : sc_step s (k_set_env
    (MkUvEnv allocs results (uv_calls (dk_env s)) (uv_next (dk_env s)) (uv_heap (dk_env s))) s)
| step_connect req status s s' : sc_onConnectStatic req status s = Done s' -> sc_step s s'
| step_alloc size s : sc_step s (snd (dclient_onAllocBuffer size s))
| step_read nread buf s s' : sc_onReadStatic nread buf s = Done s' -> sc_step s s'
| step_closed s : sc_step s (dclient_onClose s)
| step_write b len flags ud rc req s s' : dclient_write b len flags ud s = Done (rc, req, s') -> sc_step s s'
| step_async req s s' : dclient_onAsyncWriteStatic req s = Done s' -> sc_step s s'
| step_async_closed req s s' : dclient_onCloseAsyncWriteReqStatic req s = Done s' -> sc_step s s'
| step_written req status s s' : sc_onWriteStatic req status s = Done s' -> sc_step s s'
| step_timer now s s' : sc_onTimer now s = Done s' -> sc_step s s'.

(** no attempt to connect, and a connection that is up stays marked so *)
Definition keeps s s' : Prop :=
  (sc_isConnected (dk_transport s) = true -> sc_isConnected (dk_transport s') = true) /\
  attempts (uv_calls (dk_env s')) = attempts (uv_calls (dk_env s)).

Lemma frame_keeps s s' : frame s s' -> keeps s s'.
Proof. intros (Ht & _ & Ha). split; [by rewrite Ht|done]. Qed.

Lemma frame_write_stream p s r s' : write_stream p s = Done (r, s') -> frame s s'.
Proof.
  unfold write_stream. intros (cbd & _ & (d1 & _ & (d2 & _ & Hw)%outcome_bind_inv)%outcome_bind_inv)%outcome_bind_inv.
  destruct (sc_streamHandle _) as [h|]; [|done]. destruct (k_uv _ s) as [r1 s1] eqn:Hu. injection Hw as <- <-.
  by apply frame_uv in Hu.
Qed.

#[export] Instance stream_write_frame : WriteFrame (StreamClient T) U.
Proof.
  intros p s rc s'. cbn [ct_writeTransport stream_client]. unfold sc_writeTransport.
  destruct (k_alloc _ s) as [[w|] s1] eqn:Ha; apply frame_alloc_eq in Ha; [|by intros [= <- <-]].
  intros ([res s2] & Hw%frame_write_stream & Hr)%outcome_bind_inv. destruct (res <? 0).
  - apply outcome_bind_inv in Hr as (s3 & Hf%frame_free & [= <- <-]). eauto using frame_trans.
  - injection Hr as <- <-. eauto using frame_trans.
Qed.

Lemma frame_onWriteStatic req status s s' : sc_onWriteStatic req status s = Done s' -> frame s s'.
Proof.
  unfold sc_onWriteStatic. destruct (_ !! req) as [[]|]; try done.
  intros (s1 & Hw%frame_onWrite & Hf%frame_free)%outcome_bind_inv. eauto using frame_trans.
Qed.

Lemma keeps_onConnect req status s s' : sc_onConnectStatic req status s = Done s' -> keeps s s'.
Proof.
  unfold sc_onConnectStatic. destruct (_ !! req) as [[]|]; try done. unfold sc_onConnect.
  destruct (negb (status =? 0)); [intros Hf%frame_free%frame_keeps; exact Hf|].
  destruct (k_uv _ s) as [res s1] eqn:Hu. apply frame_uv, frame_keeps in Hu as [Hu1 Hu2]; [|done].
  destruct (res <? 0); intros [Hf1 Hf2]%frame_free%frame_keeps; (split; [intros Hc|by rewrite Hf2, <- Hu2]); apply Hf1; auto.
Qed.

Lemma sc_onTimer_connected now s : sc_isConnected (dk_transport s) = true -> sc_onTimer now s = Done s.
Proof. intros Hc. unfold sc_onTimer. by rewrite Hc. Qed.

Lemma step_keeps s s' : sc_step s s' -> sc_isConnected (dk_transport s) = true -> keeps s s'.
Proof.
  intros Hs Hc.
  destruct Hs as [|? ? ? ? Hs|? s|? ? ? ? Hs| |? ? ? ? ? ? ? ? Hs|? ? ? Hs|? ? ? Hs|? ? ? ? Hs|? ? ? Hs].
  - done.
  - by apply keeps_onConnect in Hs.
  - apply frame_keeps, frame_alloc.
  - by apply frame_onRead, frame_keeps in Hs.
  - done.
  - by apply frame_write, frame_keeps in Hs.
  - by apply frame_async, frame_keeps in Hs.
  - by apply frame_freeAsync, frame_keeps in Hs.
  - by apply frame_onWriteStatic, frame_keeps in Hs.
  - rewrite sc_onTimer_connected in Hs by done. by injection Hs as <-.
Qed.

(** A client that was connected once never connects again, whatever happens to its
    connection afterwards: it stays marked as connected, no further attempt is made, and
    its timer does nothing. *)
Theorem lost_connection_stays_lost s s' : sc_isConnected (dk_transport s) = true -> rtc sc_step s s' ->
  sc_isConnected (dk_transport s') = true /\
  attempts (uv_calls (dk_env s')) = attempts (uv_calls (dk_env s)) /\
  forall now, sc_onTimer now s' = Done s'.
Proof.
  intros Hc Hrtc. assert (Hk : sc_isConnected (dk_transport s') = true /\
    attempts (uv_calls (dk_env s')) = attempts (uv_calls (dk_env s))).
  { induction Hrtc as [|s1 s2 s3 Hstep _ IH]; [done|]. apply step_keeps in Hstep as [Hc2 Ha2]; [|done].
    destruct (IH (Hc2 Hc)) as [? Ha3]. split; [done|congruence]. }
  destruct Hk as [Hc' Ha']. split; [done|]. split; [done|]. intros now. by apply sc_onTimer_connected.
Qed.
End Connecting.

(** ** Attempts to connect *)

(** what a derived class promises while every call succeeds: a start is one attempt to
    connect whose request waits in the loop, and the rest is about its handle only *)
Class Connects (T U : Type) `{StreamTransport T U} (connect : uv_call) : Prop := {
  connects_attempt : is_connect connect = true;
  connects_start s : calm (dk_env s) -> exists e, startStreamTransport s = Done (E_OK, k_set_env e s) /\
    calm e /\ attempts (uv_calls e) = attempts (uv_calls (dk_env s)) ++ [connect] /\
    uv_next e = uv_next (dk_env s) + 1 /\ uv_heap e = <[uv_next (dk_env s) := O_connect]> (uv_heap (dk_env s));
  connects_initialize s : calm (dk_env s) -> exists d e,
    initializeStreamTransport s = Done (E_OK, setConnectionDetails d (k_set_handle (Some H_client) (k_set_env e s))) /\
    calm e /\ uv_next e = uv_next (dk_env s) /\ uv_heap e = uv_heap (dk_env s);
  connects_stop s : stopStreamTransport s = Done (E_OK, s);
  connects_terminate s : terminateStreamTransport s = Done (E_OK, s);
}.

#[export] Instance tcp_connects U : Connects TcpClient U (uv_tcp_connect H_client).
Proof.
  split; try done.
  - intros s [Ha Hr]. cbn [startStreamTransport tcp_client]. unfold tc_startStreamTransport.
    rewrite k_alloc_eq, !k_uv_eq by done. cbn [dk_env k_set_env uv_results]. rewrite Hr. cbn.
    eexists. split; [reflexivity|]. cbn. split; [done|]. split; [|done].
    unfold attempts. by rewrite !List.filter_app, app_nil_r.
  - intros s [Ha Hr]. cbn [initializeStreamTransport tcp_client]. unfold tc_initializeStreamTransport.
    rewrite k_uv_eq, Hr. cbn. eexists _, _. split; [reflexivity|]. by rewrite Ha.
Qed.

#[export] Instance pipe_connects U : Connects PipeClient U (uv_pipe_connect H_client).
Proof.
  split; try done.
  - intros s [Ha Hr]. cbn [startStreamTransport pipe_client]. unfold pc_startStreamTransport.
    rewrite k_alloc_eq by done. eexists. split; [reflexivity|]. cbn. rewrite Hr. split; [done|]. split; [|done].
    unfold attempts. by rewrite List.filter_app.
  - intros s [Ha Hr]. cbn [initializeStreamTransport pipe_client]. unfold pc_initializeStreamTransport.
    rewrite k_uv_eq, Hr. cbn. eexists _, _. split; [reflexivity|]. by rewrite Ha.
Qed.

Section Attempts.
Context {T U : Type} (connect : uv_call) `{Connects T U connect}.
Abbreviation client := (DClient (StreamClient T) U).
Implicit Types s : client.





End Attempts.

(** ** The life of a client *)

Section Lifecycle.
Context {T U : Type} (connect : uv_call) `{Connects T U connect} `{DataListener U} `{DataLoopListener U}.
Abbreviation client := (DClient (StreamClient T) U).
Implicit Types s : client.

(** the thread of a started client that gets its connection *)
Lemma connection_up now s : calm (dk_env s) -> dk_ioThread s = IT_STARTED -> exists s1 s2,
  ioTask_begin now s = Done s1 /\ sc_onConnectStatic (uv_next (dk_env s)) 0 s1 = Done s2 /\
  dk_ioThread s2 = IT_RUNNING /\ dk_handle s2 = dk_handle s /\ calm (dk_env s2) /\
  dk_isReady s2 = true /\ dk_connectStatus s2 = 0 /\ sc_isConnected (dk_transport s2) = true /\
  sc_streamHandle (dk_transport s2) = sc_streamHandle (dk_transport s) /\
  uv_heap (dk_env s2) = delete (uv_next (dk_env s)) (uv_heap (dk_env s)) /\ uv_next (dk_env s2) = uv_next (dk_env s) + 1.
Proof.
  intros [Ha Hr] Ht. unfold ioTask_begin. cbn [ct_startTransport stream_client]. unfold sc_startTransport.
  rewrite k_uv_eq, Hr. cbn [head tail default from_option Z.eqb negb].
  set (s0 := set_stream (set_lastConnect now) _). destruct (connects_start s0) as (e & -> & Hc & _ & Hn & Hh); [done|].
  cbn [outcome_bind]. rewrite decide_False by (intros Hx; by apply Hx). cbv zeta.
  set (s1 := k_set_thread IT_RUNNING _).
  assert (He : dk_env s1 = e) by (unfold s1; cbn [dk_hasLoopListener k_set_env s0 set_stream k_set_transport]; by destruct (dk_hasLoopListener s)).
  assert (Hsame : dk_handle s1 = dk_handle s /\ sc_streamHandle (dk_transport s1) = sc_streamHandle (dk_transport s)).
  { unfold s1. cbn [dk_hasLoopListener k_set_env s0 set_stream k_set_transport]. by destruct (dk_hasLoopListener s). }
  destruct Hsame as [Hs1 Hs2]. assert (Hio : dk_ioThread s1 = IT_RUNNING) by done. exists s1. clearbody s1.
  eexists. split; [done|]. destruct Hc as [Hca Hcr]. split.
  { unfold sc_onConnectStatic. rewrite He, Hh. cbn [dk_env s0 set_stream k_set_transport k_set_env uv_next uv_heap].
    rewrite lookup_insert_eq. unfold sc_onConnect. cbn [Z.eqb negb]. rewrite k_uv_eq, He, Hcr.
    cbn [head tail default from_option Z.ltb Z.compare]. rewrite (k_free_ok _ O_connect); [reflexivity|].
    cbn. rewrite Hh. cbn. by rewrite lookup_insert_eq. }
  cbn. rewrite Hh, Hn, Hs1, Hs2, Hca. cbn. split; [done|]. do 6 (split; [done|]). split; [|done].
  by rewrite delete_insert_eq.
Qed.

(** what the thread of a connected client does when it is asked to stop *)
Lemma runs_until_stop now s e h : calm e -> dk_ioThread s = IT_RUNNING -> sc_streamHandle (dk_transport s) = Some h ->
  exists s', run_until_stop now (s, e) = Done (s', dk_env s') /\ calm (dk_env s') /\
    sc_streamHandle (dk_transport s') = None /\ uv_heap (dk_env s') = uv_heap e /\ uv_next (dk_env s') = uv_next e /\
    uv_calls (dk_env s') = uv_calls e ++ [uv_timer_stop; uv_shutdown h].
Proof.
  intros [Ha Hr] Ht Hh. unfold run_until_stop. cbn [fst snd dk_ioThread k_set_env]. rewrite Ht.
  rewrite decide_False by done. cbn [outcome_bind dk_ioThread k_set_env]. rewrite Ht, decide_True by done.
  unfold dclient_onStopTransportStatic. cbn [ct_stopTransport stream_client]. unfold sc_stopTransport.
  rewrite k_uv_eq. cbn [dk_env k_set_env]. rewrite Hr. cbn [head tail default from_option Z.eqb negb].
  cbn [dk_transport k_set_env]. rewrite Hh, connects_stop. cbn [outcome_bind]. unfold ioTask_end.
  eexists. split; [reflexivity|]. destruct (dk_hasLoopListener _); cbn; rewrite <- app_assoc, Ha; done.
Qed.

(** what [stop] leaves of a client that is connected *)
Lemma stopped now s h : calm (dk_env s) -> env_ok (dk_env s) -> dk_ioThread s = IT_RUNNING ->
  sc_streamHandle (dk_transport s) = Some h -> exists s', dclient_stop now s = Done (E_OK, s') /\
  dk_ioThread s' = IT_NONE /\ calm (dk_env s') /\ sc_streamHandle (dk_transport s') = None /\
  uv_heap (dk_env s') = uv_heap (dk_env s) /\ uv_next (dk_env s) <= uv_next (dk_env s') /\
  uv_shutdown h ∈ uv_calls (dk_env s').
Proof.
  intros Hc Hok Ht Hh. unfold dclient_stop. rewrite Ht, bool_decide_true by done.
  edestruct (runs_until_stop now s) as (s1 & Hrun & Hc1 & Hh1 & Hheap & Hn & Hcalls); [|done|done|].
  2:{ rewrite (stopTransportLoop_calm CLIENT_LOOP _ s (dk_env s) s1 (dk_env s1) Hc Hrun);
        [|rewrite Hheap; cbn; rewrite lookup_insert_eq; by eexists].
      cbn [outcome_bind]. rewrite decide_False by (intros Hx; by apply Hx). eexists. split; [reflexivity|].
      cbn. destruct Hc1 as [Hca Hcr]. rewrite Hn, Hheap, Hcalls. cbn. split; [done|]. split; [done|]. split; [done|].
      split; [apply delete_insert_id, Hok; lia|]. split; [lia|]. rewrite !elem_of_app, !elem_of_cons. tauto. }
  done.
Qed.

Lemma initialized u s : calm (dk_env s) -> exists s1, dclient_initialize u s = Done (E_OK, s1) /\
  dk_ioThread s1 = dk_ioThread s /\ dk_handle s1 = Some H_client /\ dk_listener s1 = u /\ calm (dk_env s1) /\
  dk_transport s1 = dk_transport s /\ uv_heap (dk_env s1) = uv_heap (dk_env s) /\
  uv_next (dk_env s1) = uv_next (dk_env s).
Proof.
  intros [Ha Hr]. unfold dclient_initialize. rewrite k_uv_eq, Hr. cbn [head tail default from_option Z.ltb Z.compare].
  set (s0 := k_set_env _ s). cbn [ct_initializeTransport stream_client]. unfold sc_initializeTransport.
  destruct (connects_initialize s0) as (d & e & -> & [Hca Hcr] & Hn & Hh); [by split|]. cbn [outcome_bind].
  rewrite decide_False by (intros Hx; by apply Hx). rewrite k_uv_eq.
  cbn [dk_env k_set_env k_set_handle setConnectionDetails]. rewrite Hcr. cbn [head tail default from_option Z.ltb Z.compare outcome_bind].
  rewrite decide_False by (intros Hx; by apply Hx). cbn [dk_handle k_set_env k_set_handle setConnectionDetails].
  eexists. split; [reflexivity|]. cbn. by rewrite Hca, Hn, Hh.
Qed.

(** a client from its initialization to its connection *)
Lemma started now u s : calm (dk_env s) -> env_ok (dk_env s) -> dk_ioThread s = IT_NONE -> exists s1 s2 s3 s4,
  dclient_initialize u s = Done (E_OK, s1) /\ dclient_start s1 = Done (E_OK, s2) /\
  ioTask_begin now s2 = Done s3 /\ sc_onConnectStatic (uv_next (dk_env s)) 0 s3 = Done s4 /\
  dclient_waitReady [] s4 = Done (0, s4) /\ sc_isConnected (dk_transport s4) = true /\
  dk_ioThread s4 = IT_RUNNING /\ dk_handle s4 = Some H_client /\ calm (dk_env s4) /\ env_ok (dk_env s4) /\
  sc_streamHandle (dk_transport s4) = sc_streamHandle (dk_transport s) /\
  uv_heap (dk_env s4) = uv_heap (dk_env s) /\ uv_next (dk_env s) <= uv_next (dk_env s4).
Proof.
  intros Hc Hok Ht. destruct (initialized u s Hc) as (s1 & H1' & Ht1 & Hh1 & _ & Hc1 & Hs1 & Hheap1 & Hn1).
  assert (H2' : dclient_start s1 = Done (E_OK, k_set_thread IT_STARTED s1)).
  { unfold dclient_start. by rewrite decide_True by congruence. }
  destruct (connection_up now (k_set_thread IT_STARTED s1) Hc1 eq_refl) as
    (s3 & s4 & H3' & H4' & Ht4 & Hh4 & Hc4 & Hr4 & Hst4 & Hcon4 & Hs4 & Hheap4 & Hn4).
  cbn in H4', Hh4, Hs4, Hheap4, Hn4. rewrite Hn1 in H4', Hheap4, Hn4.
  assert (Hheap : uv_heap (dk_env s4) = uv_heap (dk_env s)).
  { rewrite Hheap4, Hheap1. apply delete_id, Hok. lia. }
  exists s1, (k_set_thread IT_STARTED s1), s3, s4. split; [done|]. split; [done|]. split; [done|]. split; [done|].
  split; [cbn; by rewrite Hr4, Hst4|]. split; [done|]. split; [done|]. split; [congruence|]. split; [done|].
  split; [|split; [congruence|split; [done|lia]]]. intros q Hq. rewrite Hheap. apply Hok. lia.
Qed.

(** C11. The life of a stream client while every call succeeds: it is initialized, started,
    connected, ready with status zero, stopped with its thread joined and its stream shut
    down, and terminated; nothing it allocated on the way is left. *)
Theorem stream_client_lifecycle now u s h : calm (dk_env s) -> env_ok (dk_env s) -> dk_ioThread s = IT_NONE ->
  sc_streamHandle (dk_transport s) = Some h -> exists s1 s2 s3 s4 s5 s6,
  dclient_initialize u s = Done (E_OK, s1) /\ dclient_start s1 = Done (E_OK, s2) /\
  ioTask_begin now s2 = Done s3 /\ sc_onConnectStatic (uv_next (dk_env s)) 0 s3 = Done s4 /\
  dclient_waitReady [] s4 = Done (0, s4) /\ sc_isConnected (dk_transport s4) = true /\
  dclient_stop now s4 = Done (E_OK, s5) /\ dk_ioThread s5 = IT_NONE /\ uv_shutdown h ∈ uv_calls (dk_env s5) /\
  dclient_terminate s5 = Done (E_OK, s6) /\ uv_heap (dk_env s6) = uv_heap (dk_env s).
Proof.
  intros Hc Hok Ht Hh.
  destruct (started now u s Hc Hok Ht) as (s1 & s2 & s3 & s4 & H1' & H2' & H3' & H4' & Hw & Hcon & Ht4 & _ & Hc4 & Hok4 & Hs4 & Hh4 & _).
  destruct (stopped now s4 h) as (s5 & H5' & Ht5 & [Hca5 Hcr5] & _ & Hh5 & _ & Hcalls); try done; [congruence|].
  assert (H6' : exists s6, dclient_terminate s5 = Done (E_OK, s6) /\ uv_heap (dk_env s6) = uv_heap (dk_env s5)).
  { unfold dclient_terminate. cbn [ct_terminateTransport stream_client]. unfold sc_terminateTransport.
    rewrite connects_terminate. cbn [outcome_bind]. rewrite decide_False by (intros Hx; by apply Hx). rewrite k_uv_eq, Hcr5.
    cbn [head tail default from_option Z.ltb Z.compare]. eexists. by split. }
  destruct H6' as (s6 & H6' & Hh6). exists s1, s2, s3, s4, s5, s6. do 9 (split; [done|]). split; [done|congruence].
Qed.

(** C37. A stream client that was stopped can be initialized, started and connected again,
    and takes writes, but its stream stays null: the first write in the loop crashes. *)
Theorem restarted_client_crashes now u s h : calm (dk_env s) -> env_ok (dk_env s) -> dk_ioThread s = IT_RUNNING ->
  sc_streamHandle (dk_transport s) = Some h -> exists s0 s1 s2 s3 s4, dclient_stop now s = Done (E_OK, s0) /\
  dclient_initialize u s0 = Done (E_OK, s1) /\ dclient_start s1 = Done (E_OK, s2) /\
  ioTask_begin now s2 = Done s3 /\ sc_onConnectStatic (uv_next (dk_env s0)) 0 s3 = Done s4 /\
  dclient_waitReady [] s4 = Done (0, s4) /\
  forall b len flags ud data, buffer_at b (dk_env s4) = Done data -> 0 <= len <= zlen data ->
    exists req s5, dclient_write b len flags ud s4 = Done (E_OK, Some req, s5) /\
    dclient_onAsyncWriteStatic req s5 = Undef UB_null.
Proof.
  intros Hc Hok Ht Hh. destruct (stopped now s h Hc Hok Ht Hh) as (s0 & H0' & Ht0 & Hc0 & Hs0 & Hh0 & Hn0 & _).
  assert (Hok0 : env_ok (dk_env s0)) by (intros q Hq; rewrite Hh0; apply Hok; lia).
  destruct (started now u s0 Hc0 Hok0 Ht0) as (s1 & s2 & s3 & s4 & H1' & H2' & H3' & H4' & Hw & _ & _ & _ & [Ha4 Hr4] & Hok4 & Hs4 & _).
  exists s0, s1, s2, s3, s4. do 6 (split; [done|]). intros b len flags ud data Hb Hl.
  eexists _, _. split; [apply write_accepted; try done; unfold next_two_ok; by rewrite Ha4, Hr4|].
  apply async_write_null; try done. congruence.
Qed.
End Lifecycle.

(** ** Examples *)

#[local] Existing Instance Transport.sample_listener.
#[local] Existing Instance DClient.sample_loop_listener.

Definition sample_tcp (connected : bool) : StreamClient TcpClient :=
  set_connected connected (TcpClient_new EmptyString 80 1000).

(** a client that is connected; its caller's buffer is at address 1 *)
Definition sample_up (results : list Z) : DClient (StreamClient TcpClient) unit :=
  DClient.sample_client IT_RUNNING true results (sample_tcp true).

Lemma write_delivered_witness :
  (exists req w s1 s2 s3 s4,
    dclient_write 1 2 0 None (sample_up []) = Done (E_OK, Some req, s1) /\ dclient_onAsyncWriteStatic req s1 = Done s2 /\
    uv_calls (dk_env s2) = [uv_async_init CLIENT_LOOP; uv_async_send; uv_write H_client [Byte.x61; Byte.x62]; uv_close_async] /\
    sc_onWriteStatic w 0 s2 = Done s3 /\ dclient_onCloseAsyncWriteReqStatic req s3 = Done s4 /\
    uv_heap (dk_env s4) = uv_heap (DClient.sample_env [])) /\
  (exists req s1 s2 s3, dclient_write 1 2 0 None (sample_up [0; 0; -1]) = Done (E_OK, Some req, s1) /\
    dclient_onAsyncWriteStatic req s1 = Done s2 /\ dclient_onCloseAsyncWriteReqStatic req s2 = Done s3 /\
    uv_heap (dk_env s3) !! 3 = Some (O_clientBufferData (MkClientBufferData 2 2 true None))).
Proof.
  destruct (@write_delivered TcpClient unit tcp_client Transport.sample_listener DClient.sample_loop_listener 1 2 0 None
    [Byte.x61; Byte.x62] (sample_up []) H_client H_client 0 (-1)) as
    [(req & w & s1 & s2 & s3 & s4 & H1' & H2' & H3' & H4' & H5' & _ & H6' & _) (req' & t1 & t2 & t3 & H7' & H8' & H9' & _ & H10')];
    first [apply DClient.sample_client_ok|done|idtac].
  split.
  - exists req, w, s1, s2, s3, s4. split; [exact H1'|]. split; [exact H2'|]. split; [exact H3'|].
    split; [exact H4'|]. split; [exact H5'|exact H6'].
  - exists req', t1, t2, t3. split; [exact H7'|]. split; [exact H8'|]. split; [exact H9'|]. rewrite H10'. vm_compute. reflexivity.
Defined.

(** the server ends the connection *)
Lemma lost_connection_stays_lost_witness : exists s', sc_onReadStatic (-4095) None (sample_up []) = Done s' /\
  uv_calls (dk_env s') = [uv_close H_client] /\ sc_onTimer 1000000 (dclient_onClose s') = Done (dclient_onClose s').
Proof.
  eexists. split; [vm_compute; reflexivity|]. split; [vm_compute; reflexivity|].
  apply (@lost_connection_stays_lost TcpClient unit tcp_client Transport.sample_listener DClient.sample_loop_listener (sample_up [])).
  - done.
  - eapply rtc_l; [|apply rtc_once, step_closed]. eapply step_read with (nread := (-4095)) (buf := None). vm_compute. reflexivity.
Defined.


Lemma stream_client_lifecycle_witness : exists s1 s2 s3 s4 s5 s6,
  dclient_initialize tt (DClient.sample_client IT_NONE false [] (sample_tcp false)) = Done (E_OK, s1) /\
  dclient_start s1 = Done (E_OK, s2) /\ ioTask_begin 0 s2 = Done s3 /\ sc_onConnectStatic 2 0 s3 = Done s4 /\
  dclient_stop 0 s4 = Done (E_OK, s5) /\ dclient_terminate s5 = Done (E_OK, s6).
Proof.
  destruct (@stream_client_lifecycle TcpClient unit (uv_tcp_connect H_client) tcp_client (tcp_connects unit)
    Transport.sample_listener DClient.sample_loop_listener 0 tt
    (DClient.sample_client IT_NONE false [] (sample_tcp false)) H_client)
    as (s1 & s2 & s3 & s4 & s5 & s6 & H1' & H2' & H3' & H4' & _ & _ & H5' & _ & _ & H6' & _).
  - by split.
  - apply DClient.sample_client_ok.
  - done.
  - done.
  - exists s1, s2, s3, s4, s5, s6. split; [exact H1'|]. split; [exact H2'|]. split; [exact H3'|]. split; [exact H4'|].
    split; [exact H5'|exact H6'].
Defined.

Lemma restarted_client_crashes_witness : exists s4 req s5,
  dclient_waitReady [] s4 = Done (0, s4) /\ dclient_write 1 2 0 None s4 = Done (E_OK, Some req, s5) /\
  dclient_onAsyncWriteStatic req s5 = Undef UB_null.
Proof.
  destruct (@restarted_client_crashes PipeClient unit (uv_pipe_connect H_client) pipe_client (pipe_connects unit)
    Transport.sample_listener DClient.sample_loop_listener 0 tt
    (DClient.sample_client IT_RUNNING true [] (set_connected true (PipeClient_new EmptyString 1000))) H_client)
    as (s0 & s1 & s2 & s3 & s4 & H0' & H1' & H2' & H3' & H4' & Hw & Hcrash).
  - by split.
  - apply DClient.sample_client_ok.
  - done.
  - done.
  - destruct (Hcrash 1 2 0 None [Byte.x61; Byte.x62]) as (req & s5 & H5' & H6').
    + revert H0' H1' H2' H3' H4'. vm_compute. intros [= <-] [= <-] [= <-] [= <-] [= <-]. reflexivity.
    + vm_compute. split; discriminate.
    + exists s4, req, s5. split; [exact Hw|]. split; [exact H5'|exact H6'].
Defined.
