(* ===== verification/UdpClient.v ===== *)
(** * The UDP client (inc/transport/udp_client.h, src/transport/udp_client.cpp) *)

From Stdlib Require Import ZArith Lia String.
From stdpp Require Import gmap.
From coqutil Require Import Byte.
From S2P Require Import Prelude Errors Io Connection Segmented Assembler Client Transport DClient.
Open Scope Z_scope.

(** ** Definitions *)

Record UdpClient := MkUdpClient { uc_serverAddress : string; uc_port : Z }.

Section UdpClient.
Context {U : Type}.
Abbreviation client := (DClient UdpClient U).
Implicit Types s : client.

Definition uc_initializeTransport s : outcome (ErrorCode * client) :=
  let '(res, s) := k_uv (uv_udp_init CLIENT_LOOP) s in
  if res <? 0 then Done (E_TRANSPORT_ERROR, s) else
  let t := dk_transport s in
  let s := k_set_handle (Some H_client) s in
  Done (E_OK, setConnectionDetails (setNetAddress (uc_serverAddress t) (uc_port t) (dk_connectionDetails s)) s).

Definition uc_stopTransport s : outcome (ErrorCode * client) :=
  let '(res, s) := k_uv uv_udp_recv_stop s in
  if res <? 0 then Done (E_TRANSPORT_ERROR, s) else Done (E_OK, s).

Definition uc_writeTransport (clientBufferData : Z) s : outcome (ErrorCode * client) :=
  let '(res, s) := k_uv uv_ip4_addr s in
  if res <? 0 then Done (E_TRANSPORT_ERROR, s) else
  let '(sendReq, s) := k_alloc (O_udpSend clientBufferData) s in
  match sendReq with
  | None => Done (E_NOMEM, s)
  | Some sendReq =>
    let* cbd := cbd_at clientBufferData (dk_env s) in
    let* data := buffer_at (cb_buf cbd) (dk_env s) in
    let* data := mem_read data 0 (cb_len cbd) in
    let t := dk_transport s in
    let '(res, s) := k_uv (uv_udp_send (uc_serverAddress t) (uc_port t) data) s in
    if res <? 0 then let* s := k_free sendReq s in Done (E_TRANSPORT_ERROR, s)
    else let '(_, s) := k_uv uv_udp_getsockname s in Done (E_OK, s)
  end.

Section Callbacks.
Context `{DataListener U} `{DataLoopListener U}.

(** the connection of the notification is made up *)
Definition uc_startTransport (now : Z) s : outcome (ErrorCode * client) :=
  let '(res, s) := k_uv uv_ip4_addr s in
  if res <? 0 then Done (E_TRANSPORT_ERROR, k_do (uv_close H_client) s) else
  let '(res, s) := k_uv uv_udp_recv_start s in
  if res <? 0 then Done (E_TRANSPORT_ERROR, k_do (uv_close H_client) s) else
  let t := dk_transport s in
  let connectionDetails := ConnectionDetails_newNet (uc_serverAddress t) (uc_port t) 0 0 in
  Done (E_OK, k_set_listener (snd (dl_onConnect connectionDetails 0 (dk_listener s))) s).

Definition uc_onRecvStatic (nread : Z) (buf : option Z) s : outcome client := dclient_onRead nread buf true s.

Definition uc_onSendStatic (req status : Z) s : outcome client :=
  match uv_heap (dk_env s) !! req with
  | Some (O_udpSend clientBufferData) =>
    let* s := dclient_onWrite clientBufferData status s in k_free req s
  | Some _ => Undef UB_uninit
  | None => Undef UB_freed
  end.

#[export] Instance udp_client : ClientTransport UdpClient U := {|
  ct_initializeTransport := uc_initializeTransport;
  ct_terminateTransport s := Done (E_OK, s);
  ct_startTransport := uc_startTransport;
  ct_stopTransport := uc_stopTransport;
  ct_writeTransport := uc_writeTransport;
|}.
End Callbacks.
End UdpClient.

(** ** Datagrams *)

Section Datagrams.
Context {U : Type} `{DataListener U} `{DataLoopListener U}.
Abbreviation client := (DClient UdpClient U).
Implicit Types s : client.

#[export] Instance udp_delivers : Delivers UdpClient U (fun _ => True)
  (fun s data => [uv_ip4_addr; uv_udp_send (uc_serverAddress (dk_transport s)) (uc_port (dk_transport s)) data; uv_udp_getsockname])
  O_udpSend uc_onSendStatic.
Proof.
  split.
  - intros p cbd data s _ [Ha Hr] Hok Hp Hd Hl. cbn [ct_writeTransport udp_client]. unfold uc_writeTransport.
    rewrite k_uv_eq, Hr. cbn [head tail default from_option Z.ltb Z.compare]. rewrite k_alloc_eq by done.
    unfold cbd_at. cbn [dk_env k_set_env uv_heap uv_next uv_calls].
    assert (Hn : forall q o, uv_heap (dk_env s) !! q = Some o -> uv_next (dk_env s) <> q).
    { intros q o Hq <-. rewrite Hok in Hq; [done|lia]. }
    rewrite lookup_insert_ne by (by eapply Hn). rewrite Hp. cbn [outcome_bind]. unfold buffer_at in Hd |- *.
    destruct (uv_heap (dk_env s) !! cb_buf cbd) as [o|] eqn:Ho; [|done]. cbn [uv_heap].
    rewrite lookup_insert_ne by (by eapply Hn). rewrite Ho, Hd. cbn [outcome_bind].
    rewrite mem_read_ok, zdrop_0 by lia. cbn [outcome_bind]. rewrite !k_uv_eq. cbn. by rewrite <- !app_assoc.
  - done.
  - intros w p status s Hw. unfold uc_onSendStatic. by rewrite Hw.
Qed.

(** A write of a UDP client is sent as one datagram to its server, with the data as it
    was given, and afterwards every object of its way is given back once, the caller's
    buffer only if it was handed over. *)
Theorem datagram_delivered b len flags ud data s hd status : calm (dk_env s) -> env_ok (dk_env s) ->
  buffer_at b (dk_env s) = Done data -> 0 <= len <= zlen data -> dk_handle s = Some hd ->
  let byRef := negb (Z.land flags COMMUTIL_MSG_WRITE_BY_REF =? 0) in
  let dispose := negb (Z.land flags COMMUTIL_MSG_WRITE_DISPOSE_BUFFER =? 0) in
  exists req w s1 s2 s3 s4, dclient_write b len flags ud s = Done (E_OK, Some req, s1) /\
    dclient_onAsyncWriteStatic req s1 = Done s2 /\
    uv_calls (dk_env s2) = uv_calls (dk_env s) ++ [uv_async_init CLIENT_LOOP; uv_async_send; uv_ip4_addr;
      uv_udp_send (uc_serverAddress (dk_transport s)) (uc_port (dk_transport s)) (ztake len data);
      uv_udp_getsockname; uv_close_async] /\
    uc_onSendStatic w status s2 = Done s3 /\ dclient_onCloseAsyncWriteReqStatic req s3 = Done s4 /\
    uv_calls (dk_env s4) = uv_calls (dk_env s2) ++ (if status <? 0 then [uv_close hd] else []) /\
    uv_heap (dk_env s4) = (if byRef && dispose then delete b (uv_heap (dk_env s)) else uv_heap (dk_env s)) /\
    dk_listener s4 = write_told len status (k_set_listener (send_told ud s) s).
Proof.
  intros Hc Hok Hb Hl Hd byRef dispose.
  exact (delivered (Hdel := udp_delivers) b len flags ud data s hd status Hc Hok I Hb Hl Hd).
Qed.

#[export] Instance udp_write_frame : WriteFrame UdpClient U.
Proof.
  intros p s rc s'. cbn [ct_writeTransport udp_client]. unfold uc_writeTransport.
  destruct (k_uv uv_ip4_addr s) as [res s1] eqn:Hu. apply frame_uv in Hu; [|done].
  destruct (res <? 0); [by intros [= <- <-]|].
  destruct (k_alloc _ s1) as [[w|] s2] eqn:Ha; apply frame_alloc_eq in Ha; [|intros [= <- <-]; eauto using frame_trans].
  intros (cbd & _ & (d1 & _ & (d2 & _ & Hr)%outcome_bind_inv)%outcome_bind_inv)%outcome_bind_inv.
  destruct (k_uv (uv_udp_send _ _ _) s2) as [res3 s3] eqn:Hu3. apply frame_uv in Hu3; [|done]. destruct (res3 <? 0).
  - apply outcome_bind_inv in Hr as (s4 & Hf%frame_free & [= <- <-]). eauto 6 using frame_trans.
  - destruct (k_uv uv_udp_getsockname s3) as [res4 s4] eqn:Hu4. apply frame_uv in Hu4; [|done].
    injection Hr as <- <-. eauto 6 using frame_trans.
Qed.

(** what a program, its loop and the environment may do with a UDP client *)
Inductive uc_step : client -> client -> Prop :=
| u_choose allocs results s : uc_step s (k_set_env
    (MkUvEnv allocs results (uv_calls (dk_env s)) (uv_next (dk_env s)) (uv_heap (dk_env s))) s)
| u_initialize u rc s s' : dclient_initialize u s = Done (rc, s') -> uc_step s s'
| u_start rc s s' : dclient_start s = Done (rc, s') -> uc_step s s'
| u_ioTask now s s' : ioTask_begin now s = Done s' -> uc_step s s'
| u_alloc size s : uc_step s (snd (dclient_onAllocBuffer size s))
| u_receive nread buf s s' : uc_onRecvStatic nread buf s = Done s' -> uc_step s s'
| u_closed s : uc_step s (dclient_onClose s)
| u_write b len flags ud rc req s s' : dclient_write b len flags ud s = Done (rc, req, s') -> uc_step s s'
| u_async req s s' : dclient_onAsyncWriteStatic req s = Done s' -> uc_step s s'
| u_async_closed req s s' : dclient_onCloseAsyncWriteReqStatic req s = Done s' -> uc_step s s'
| u_sent req status s s' : uc_onSendStatic req status s = Done s' -> uc_step s s'
| u_stop now rc s s' : dclient_stop now s = Done (rc, s') -> uc_step s s'
| u_terminate rc s s' : dclient_terminate s = Done (rc, s') -> uc_step s s'.

Definition same_ready s s' : Prop := dk_isReady s' = dk_isReady s.

Lemma frame_ready s s' : frame s s' -> same_ready s s'.
Proof. by intros (_ & Hr & _). Qed.

Lemma ready_initialize u s rc s' : dclient_initialize u s = Done (rc, s') -> same_ready s s'.
Proof.
  unfold dclient_initialize. rewrite k_uv_eq. destruct (_ <? 0); [by intros [= <- <-]|].
  set (s0 := k_set_env _ s). intros ([rc1 s1] & Hi & Hr)%outcome_bind_inv.
  assert (H1' : same_ready s s1).
  { revert Hi. cbn [ct_initializeTransport udp_client]. unfold uc_initializeTransport. rewrite k_uv_eq.
    destruct (_ <? 0); by intros [= <- <-]. }
  case_decide; [by injection Hr as <- <-|]. destruct (dk_handle s1); [|done]. by injection Hr as <- <-.
Qed.

Lemma ready_ioTask now s s' : ioTask_begin now s = Done s' -> same_ready s s'.
Proof.
  unfold ioTask_begin. intros ([rc s1] & Hs & Hr)%outcome_bind_inv.
  assert (H1' : same_ready s s1).
  { revert Hs. cbn [ct_startTransport udp_client]. unfold uc_startTransport. rewrite k_uv_eq.
    destruct (_ <? 0); [by intros [= <- <-]|]. rewrite k_uv_eq. destruct (_ <? 0); by intros [= <- <-]. }
  case_decide; [by injection Hr as <-|]. injection Hr as <-. by destruct (dk_hasLoopListener s1).
Qed.

Lemma ready_stop now s rc s' : dclient_stop now s = Done (rc, s') -> same_ready s s'.
Proof.
  unfold dclient_stop. intros ([[[rc1 j] s1] e] & Hs & Hr)%outcome_bind_inv.
  apply (stopTransportLoop_inv (same_ready s)) in Hs; [case_decide; by injection Hr as <- <-| |done].
  intros [s2 e2] [s3 e3]. cbn [fst]. unfold run_until_stop. cbn [fst snd].
  intros (s4 & H4' & (s5 & H5' & [= <- <-])%outcome_bind_inv)%outcome_bind_inv H2'.
  assert (Hs4 : same_ready s s4).
  { destruct (decide (dk_ioThread (k_set_env e2 s2) = IT_STARTED)); [apply ready_ioTask in H4'; unfold same_ready in *; cbn in *; congruence|by injection H4' as <-]. }
  destruct (decide (dk_ioThread s4 = IT_RUNNING)); [|by injection H5' as <-]. apply outcome_bind_inv in H5' as (s6 & H6' & [= <-]).
  unfold dclient_onStopTransportStatic in H6'. apply outcome_bind_inv in H6' as ([rc7 s7] & H7' & [= <-]).
  revert H7'. cbn [ct_stopTransport udp_client]. unfold uc_stopTransport. rewrite k_uv_eq. unfold ioTask_end.
  destruct (_ <? 0); intros [= <- <-]; by destruct (dk_hasLoopListener _).
Qed.

Lemma uc_step_ready s s' : uc_step s s' -> same_ready s s'.
Proof.
  intros [|? ? ? ? Hs|? ? ? Hs|? ? ? Hs|? ?|? ? ? ? Hs|?|? ? ? ? ? ? ? ? Hs|? ? ? Hs|? ? ? Hs|? ? ? ? Hs|? ? ? ? Hs|? ? ? Hs].
  - done.
  - by apply ready_initialize in Hs.
  - revert Hs. unfold dclient_start. case_decide; [|done]. by intros [= <- <-].
  - by apply ready_ioTask in Hs.
  - apply frame_ready, frame_alloc.
  - by apply frame_onRead, frame_ready in Hs.
  - done.
  - by apply frame_write, frame_ready in Hs.
  - by apply frame_async, frame_ready in Hs.
  - by apply frame_freeAsync, frame_ready in Hs.
  - revert Hs. unfold uc_onSendStatic. destruct (_ !! _) as [[]|]; try done.
    intros (s1 & Hw%frame_onWrite%frame_ready & Hf%frame_free%frame_ready)%outcome_bind_inv. unfold same_ready in *. congruence.
  - by apply ready_stop in Hs.
  - revert Hs. unfold dclient_terminate. cbn [ct_terminateTransport udp_client outcome_bind].
    case_decide; [by intros [= <- <-]|]. rewrite k_uv_eq. destruct (_ <? 0); by intros [= <- <-].
Qed.

(** A UDP client never becomes ready, whatever is done with it and whatever happens to
    it: isReady says no for ever and a thread that waits for it waits for ever. *)
Theorem udp_client_never_ready s s' : dk_isReady s = false -> rtc uc_step s s' ->
  dclient_isReady s' = false /\ dclient_waitReady [] s' = Undef UB_hang.
Proof.
  intros Hr Hrtc. assert (Hr' : dk_isReady s' = false).
  { induction Hrtc as [|s1 s2 s3 Hstep _ IH]; [done|]. apply IH. apply uc_step_ready in Hstep. unfold same_ready in Hstep. congruence. }
  split; [done|]. cbn. by rewrite Hr'.
Qed.
End Datagrams.

(** ** Examples *)

#[local] Existing Instance Transport.sample_listener.
#[local] Existing Instance DClient.sample_loop_listener.

Definition sample_udp (thread : IoThread) : DClient UdpClient unit :=
  DClient.sample_client thread false [] (MkUdpClient EmptyString 80).

Lemma datagram_delivered_witness : exists req w s1 s2 s3 s4,
  dclient_write 1 2 0 None (sample_udp IT_RUNNING) = Done (E_OK, Some req, s1) /\
  dclient_onAsyncWriteStatic req s1 = Done s2 /\
  uv_udp_send EmptyString 80 [Byte.x61; Byte.x62] ∈ uv_calls (dk_env s2) /\
  uc_onSendStatic w 0 s2 = Done s3 /\ dclient_onCloseAsyncWriteReqStatic req s3 = Done s4 /\
  uv_heap (dk_env s4) = uv_heap (DClient.sample_env []).
Proof.
  destruct (@datagram_delivered unit Transport.sample_listener DClient.sample_loop_listener 1 2 0 None
    [Byte.x61; Byte.x62] (sample_udp IT_RUNNING) H_client 0)
    as (req & w & s1 & s2 & s3 & s4 & H1' & H2' & H3' & H4' & H5' & _ & H6' & _).
  - by split.
  - apply DClient.sample_client_ok.
  - vm_compute. reflexivity.
  - vm_compute. split; discriminate.
  - vm_compute. reflexivity.
  - exists req, w, s1, s2, s3, s4. split; [exact H1'|]. split; [exact H2'|]. split; [rewrite H3'; vm_compute; set_solver|].
    split; [exact H4'|]. split; [exact H5'|exact H6'].
Defined.

(** a client that was initialized and started waits *)
Lemma udp_client_never_ready_witness : exists s1 s2 s3,
  dclient_initialize tt (sample_udp IT_NONE) = Done (E_OK, s1) /\ dclient_start s1 = Done (E_OK, s2) /\
  ioTask_begin 0 s2 = Done s3 /\ dclient_waitReady [] s3 = Undef UB_hang.
Proof.
  eexists _, _, _. split; [vm_compute; reflexivity|]. split; [vm_compute; reflexivity|]. split; [vm_compute; reflexivity|].
  apply (@udp_client_never_ready unit Transport.sample_listener DClient.sample_loop_listener (sample_udp IT_NONE)).
  - done.
  - eapply rtc_l; [eapply (u_initialize tt E_OK); vm_compute; reflexivity|].
    eapply rtc_l; [eapply (u_start E_OK); vm_compute; reflexivity|].
    apply rtc_once. apply (u_ioTask 0). vm_compute. reflexivity.
Defined.
