(* ===== verification/ClientStack.v ===== *)
(** * The message client over a stream client

    The message client of the file Client works on the interface of a data client; here the
    stream clients over libuv are put behind it. Messages go all the way from sendMsg to the
    calls of uv_write. *)

From Stdlib Require Import ZArith Lia.
From stdpp Require Import gmap.
From coqutil Require Import Byte.
From S2P Require Import Prelude Errors StrSearch Io Serializable Segmented Msg Frame Connection Assembler RequestPool Client.
From S2P Require Import Multiplexer Server Service EndToEnd Transport DClient StreamClient.
Open Scope Z_scope.

(** ** Definitions *)

(** a data client and the asynchronous requests that its loop has not served, in the order in
    which libuv serves them; after undefined behaviour there is no state *)
Record StackClient (T U : Type) := MkStackClient {
  sk_state : outcome (DClient (StreamClient T) U);
  sk_pending : list Z;
}.

Arguments MkStackClient {T U}.
Arguments sk_state {T U}.
Arguments sk_pending {T U}.

(** the data of the writes that were issued *)
Definition written (cs : list uv_call) : list Byte.byte :=
  concat (map (fun c => match c with uv_write _ data => data | _ => [] end) cs).

Lemma written_app cs cs' : written (cs ++ cs') = written cs ++ written cs'.
Proof. unfold written. by rewrite map_app, concat_app. Qed.

Section Stack.
Context {T U : Type} `{StreamTransport T U} `{DataListener U} `{DataLoopListener U}.
Implicit Types s : DClient (StreamClient T) U.
Implicit Types d : StackClient T U.

(** an operation of the data client; without a state its code means nothing *)
Definition stack_call (f : DClient (StreamClient T) U -> outcome (ErrorCode * DClient (StreamClient T) U)) d
  : ErrorCode * StackClient T U :=
  match outcome_bind (sk_state d) f with
  | Done (rc, s) => (rc, MkStackClient (Done s) (sk_pending d))
  | Undef u => (E_SYSTEM_FAILURE, MkStackClient (Undef u) [])
  | NoFuel => (E_SYSTEM_FAILURE, MkStackClient NoFuel [])
  end.

(** the message client allocates the buffer, and frees it if the write fails *)
Definition stack_send (bytes : list Byte.byte) (flags : Z) (userData : option Z) s
  : outcome (ErrorCode * option Z * DClient (StreamClient T) U) :=
  let '(buffer, s) := k_alloc (O_buffer bytes) s in
  match buffer with
  | None => Done (E_NOMEM, None, s)
  | Some buffer =>
    let* '(rc, req, s) := dclient_write buffer (zlen bytes) flags userData s in
    if decide (rc <> E_OK) then let* s := k_free buffer s in Done (rc, None, s) else Done (rc, req, s)
  end.

Definition stack_write (bytes : list Byte.byte) (flags : Z) (userData : option Z) d : ErrorCode * StackClient T U :=
  match outcome_bind (sk_state d) (stack_send bytes flags userData) with
  | Done (rc, req, s) => (rc, MkStackClient (Done s) (sk_pending d ++ match req with Some r => [r] | None => [] end))
  | Undef u => (E_SYSTEM_FAILURE, MkStackClient (Undef u) [])
  | NoFuel => (E_SYSTEM_FAILURE, MkStackClient NoFuel [])
  end.

#[export] Instance stack_client : DataClient (StackClient T U) := {
  dc_initialize := stack_call (fun s => dclient_initialize (dk_listener s) s);
  dc_terminate := stack_call dclient_terminate;
  dc_start := stack_call dclient_start;
  dc_stop := stack_call (dclient_stop 0);
  dc_isReady d := match sk_state d with Done s => dclient_isReady s | _ => false end;
  dc_waitReady d := let* s := sk_state d in let* '(status, _) := dclient_waitReady [] s in Done status;
  dc_setDataLoopListener listener d :=
    MkStackClient (let* s := sk_state d in Done (setDataLoopListener (bool_decide (is_Some listener)) s)) (sk_pending d);
  dc_byteOrder d := match sk_state d with Done s => dk_byteOrder s | _ => HOST_ORDER end;
  dc_write := stack_write;
}.

(** the loop serves the pending requests *)
Fixpoint serve (reqs : list Z) s : outcome (DClient (StreamClient T) U) :=
  match reqs with
  | [] => Done s
  | req :: reqs => let* s := dclient_onAsyncWriteStatic req s in serve reqs s
  end.

(** what a request will write *)
Definition pending_bytes s (req : Z) : list Byte.byte :=
  match uv_heap (dk_env s) !! req with
  | Some (O_async (Some p)) =>
    match cbd_at p (dk_env s) with
    | Done cbd => match buffer_at (cb_buf cbd) (dk_env s) with Done data => ztake (cb_len cbd) data | _ => [] end
    | _ => []
    end
  | _ => []
  end.

(** what was written and what will be *)
Definition stack_wire d : list Byte.byte :=
  match sk_state d with
  | Done s => written (uv_calls (dk_env s)) ++ concat (map (pending_bytes s) (sk_pending d))
  | _ => []
  end.
End Stack.

(** ** Pending requests *)

Section Pending.
Context {T U : Type} `{StreamTransport T U} `{DataListener U} `{DataLoopListener U}.
Implicit Types s : DClient (StreamClient T) U.

(** a request with its objects *)
Definition pending_at s (req : Z) (data : list Byte.byte) : Prop :=
  exists p cbd buf, uv_heap (dk_env s) !! req = Some (O_async (Some p)) /\
    uv_heap (dk_env s) !! p = Some (O_clientBufferData cbd) /\ buffer_at (cb_buf cbd) (dk_env s) = Done buf /\
    0 <= cb_len cbd <= zlen buf /\ data = ztake (cb_len cbd) buf.

Lemma pending_at_bytes s req data : pending_at s req data -> pending_bytes s req = data.
Proof. intros (p & cbd & buf & Hr & Hp & Hb & _ & ->). unfold pending_bytes, cbd_at. by rewrite Hr, Hp, Hb. Qed.

(** what does not touch a request's objects *)
Lemma pending_frame s s' req data : pending_at s req data ->
  (forall q o, uv_heap (dk_env s) !! q = Some o -> (q = req \/ forall c, o <> O_async c) -> uv_heap (dk_env s') !! q = Some o) ->
  pending_at s' req data.
Proof.
  intros (p & cbd & buf & Hr & Hp & Hb & Hl & ->) Hframe. exists p, cbd, buf. unfold buffer_at in *.
  destruct (uv_heap (dk_env s) !! cb_buf cbd) as [o|] eqn:Ho; [|done].
  split; [apply Hframe; [done|by left]|]. split; [apply Hframe; [done|by right]|].
  rewrite (Hframe _ _ Ho); [done|]. right. intros c ->. done.
Qed.

Lemma env_below e p o : env_ok e -> uv_heap e !! p = Some o -> p < uv_next e.
Proof. intros Hok Hp. destruct (Z_lt_ge_dec p (uv_next e)); [done|]. by rewrite Hok in Hp by lia. Qed.

(** a connected client in a calm environment *)
Record connected (h : uv_handle) s : Prop := {
  cs_calm : calm (dk_env s);
  cs_env : env_ok (dk_env s);
  cs_stream : sc_streamHandle (dk_transport s) = Some h;
}.

(** the callback of a request issues its write *)
Lemma request_served h s req data : connected h s -> pending_at s req data ->
  exists s', dclient_onAsyncWriteStatic req s = Done s' /\ connected h s' /\ dk_byteOrder s' = dk_byteOrder s /\
    uv_calls (dk_env s') = uv_calls (dk_env s) ++ [uv_write h data; uv_close_async] /\
    forall r b, r <> req -> pending_at s r b -> pending_at s' r b.
Proof.
  intros [Hc Hok Hs] (p & cbd & buf & Hr & Hp & Hb & Hl & ->). set (w := uv_next (dk_env s)).
  assert (Hw : uv_heap (dk_env s) !! w = None) by (apply Hok, Z.le_refl).
  assert (Hready : is_Some (sc_streamHandle (dk_transport s))) by (by exists h).
  unfold dclient_onAsyncWriteStatic. rewrite Hr. unfold cbd_at at 1. rewrite Hp. cbn [outcome_bind].
  pose proof (delivers_write (Delivers := stream_delivers) p cbd buf s Hready Hc Hok Hp Hb Hl) as Hwrite.
  cbv beta in Hwrite. rewrite Hs in Hwrite. rewrite Hwrite. cbn [outcome_bind]. fold w.
  assert (Hne : p <> req) by (intros ->; by rewrite Hr in Hp).
  assert (Hpw : p <> w) by (intros ->; by rewrite Hw in Hp).
  set (s1 := k_do uv_close_async _).
  assert (Hs1 : connected h s1 /\ dk_byteOrder s1 = dk_byteOrder s /\
    uv_calls (dk_env s1) = uv_calls (dk_env s) ++ [uv_write h (ztake (cb_len cbd) buf); uv_close_async] /\
    uv_heap (dk_env s1) = <[req := O_async None]> (<[w := O_write p]> (uv_heap (dk_env s)))).
  { split; [split; [done| |done]|].
    - intros q Hq. cbn in Hq |- *. assert (Hrw : req < w) by (apply (env_below _ _ _ Hok Hr)).
      fold w. fold w in Hq. rewrite !lookup_insert_ne by lia. apply Hok. fold w. lia.
    - split; [done|]. split; [|done]. cbn. by rewrite <- app_assoc. }
  destruct Hs1 as (Hc1 & Ho1 & Hcalls1 & Hheap1).
  assert (Hpend : forall r b, r <> req -> pending_at s r b -> pending_at s1 r b).
  { intros r b Hrr Hpend. eapply pending_frame; [exact Hpend|]. intros q o Hq Hcase. rewrite Hheap1.
    rewrite !lookup_insert_ne; [done| |].
    - intros <-. by rewrite Hw in Hq.
    - intros <-. rewrite Hr in Hq. destruct Hcase as [->|Hcase]; [done|]. injection Hq as <-. by destruct (Hcase (Some p)). }
  destruct (dk_hasLoopListener s1).
  - unfold cbd_at. rewrite Hheap1, !lookup_insert_ne, Hp by done. cbn [outcome_bind]. eexists. split; [reflexivity|].
    destruct Hc1 as [? ? ?]. done.
  - exists s1. done.
Qed.

(** a write is accepted and its request waits behind the others *)
Lemma request_waits h s bytes flags ud : connected h s ->
  exists r s', stack_send bytes flags ud s = Done (E_OK, Some r, s') /\ connected h s' /\
    dk_byteOrder s' = dk_byteOrder s /\
    uv_calls (dk_env s') = uv_calls (dk_env s) ++ [uv_async_init CLIENT_LOOP; uv_async_send] /\
    pending_at s' r bytes /\ uv_heap (dk_env s) !! r = None /\
    forall r' b, pending_at s r' b -> pending_at s' r' b.
Proof.
  intros [[Ha Hr] Hok Hs]. set (n := uv_next (dk_env s)). unfold stack_send. rewrite k_alloc_eq by done. fold n.
  set (e1 := MkUvEnv _ _ _ _ _). assert (Hok1 : env_ok e1).
  { intros q Hq. cbn in Hq |- *. rewrite lookup_insert_ne by lia. apply Hok. fold n. lia. }
  assert (Hb1 : buffer_at n e1 = Done bytes) by (unfold buffer_at; cbn; by rewrite lookup_insert_eq).
  assert (Hl : 0 <= zlen bytes <= zlen bytes) by (split; [apply zlen_nonneg|apply Z.le_refl]).
  rewrite (write_accepted n (zlen bytes) flags ud bytes (k_set_env e1 s)); [|unfold next_two_ok; cbn; by rewrite Hr|exact Hok1|exact Hb1|exact Hl].
  cbn [outcome_bind]. rewrite decide_False by (intros Hx; by apply Hx).
  set (byRef := negb (Z.land flags COMMUTIL_MSG_WRITE_BY_REF =? 0)). cbn [dk_env k_set_env]. change (uv_next e1) with (n + 1).
  destruct (written_objects n (zlen bytes) flags ud bytes (k_set_env e1 s) Hok1 Hb1) as (Hq & Hp & Hlt & Hnext).
  destruct (written_buffer byRef n (zlen bytes) flags ud bytes e1 Hok1 Hb1 Hl) as (data' & Hd & Hl' & Ht).
  fold byRef in Hq, Hp, Hlt, Hnext. cbn [dk_env k_set_env] in Hq, Hp, Hlt, Hnext. change (uv_next e1) with (n + 1) in *.
  pose proof (written_env_ok byRef n (zlen bytes) flags ud bytes e1 Hok1) as Hok2.
  assert (Hn : n < write_addr byRef (n + 1)) by (unfold write_addr; destruct byRef; lia).
  eexists _, _. split; [reflexivity|]. cbn [dk_env k_set_env]. split; [|split; [done|split; [done|split; [|split]]]].
  - split; [unfold calm; cbn; by rewrite Hr|done|done].
  - exists (write_addr byRef (n + 1)), (write_request byRef n (n + 1) (zlen bytes) flags ud), data'.
    split; [done|]. split; [done|]. split; [done|]. cbn [cb_len write_request]. split; [split; [apply zlen_nonneg|done]|].
    rewrite Ht. symmetry. apply ztake_all, Z.le_refl.
  - apply Hok. fold n. lia.
  - intros r' b Hpend. eapply pending_frame; [exact Hpend|]. intros q o Ho _. pose proof (env_below _ _ _ Hok Ho) as Hqn. fold n in Hqn.
    cbn. unfold reply_copies. rewrite !lookup_insert_ne by lia. destruct byRef; cbn; rewrite ?lookup_insert_ne by lia; done.
Qed.
End Pending.

(** ** The wire *)

Section Wire.
Context {T U : Type} `{StreamTransport T U} `{DataListener U} `{DataLoopListener U}.
Implicit Types s : DClient (StreamClient T) U.

(** the requests [reqs] wait in a connected client *)
Record waiting (h : uv_handle) (reqs : list Z) s : Prop := {
  wt_connected : connected h s;
  wt_distinct : NoDup reqs;
  wt_pending : Forall (fun r => exists b, pending_at s r b) reqs;
}.

Lemma waiting_bytes h reqs s r : waiting h reqs s -> r ∈ reqs -> pending_at s r (pending_bytes s r).
Proof.
  intros [_ _ Hp] Hr. rewrite List.Forall_forall in Hp. destruct (Hp r) as [b Hb]; [by apply list_elem_of_In|].
  by rewrite (pending_at_bytes _ _ _ Hb).
Qed.

Lemma bytes_kept s s' reqs : (forall r, r ∈ reqs -> pending_at s' r (pending_bytes s r)) ->
  map (pending_bytes s') reqs = map (pending_bytes s) reqs.
Proof. intros Hp. apply map_ext_in. intros r Hr. apply pending_at_bytes, Hp. by apply list_elem_of_In. Qed.

Lemma stack_write_ok bytes flags ud h reqs s : waiting h reqs s ->
  exists r s', stack_write bytes flags ud (MkStackClient (Done s) reqs) = (E_OK, MkStackClient (Done s') (reqs ++ [r])) /\
    waiting h (reqs ++ [r]) s' /\ dk_byteOrder s' = dk_byteOrder s /\
    written (uv_calls (dk_env s')) = written (uv_calls (dk_env s)) /\
    concat (map (pending_bytes s') (reqs ++ [r])) = concat (map (pending_bytes s) reqs) ++ bytes.
Proof.
  intros Hw. pose proof Hw as [Hc Hnd Hp]. destruct (request_waits h s bytes flags ud Hc) as (r & s' & Hs & Hc' & Ho & Hcalls & Hr & Hfresh & Hold).
  exists r, s'. unfold stack_write. cbn [sk_state sk_pending outcome_bind]. rewrite Hs. split; [done|]. split; [split; [done| |]|].
  - apply list.NoDup_app. split; [done|]. split; [|apply NoDup_singleton]. intros x Hx ->%list_elem_of_singleton.
    destruct (waiting_bytes _ _ _ _ Hw Hx) as (p & cbd & buf & Hxr & _). by rewrite Hfresh in Hxr.
  - apply Forall_app. split; [|by repeat constructor; exists bytes]. eapply Forall_impl; [|exact Hp]. intros x [b Hb]. exists b. by apply Hold.
  - split; [done|]. split; [rewrite Hcalls, written_app; by rewrite app_nil_r|].
    rewrite map_app, concat_app. cbn [map concat]. rewrite app_nil_r, (pending_at_bytes _ _ _ Hr). f_equal. f_equal.
    apply bytes_kept. intros x Hx. by apply Hold, (waiting_bytes h reqs).
Qed.

#[export] Instance stack_wire_laws : Wire (StackClient T U).
Proof.
  refine {| wire_ok d := exists h s, sk_state d = Done s /\ waiting h (sk_pending d) s; wire := stack_wire |}.
  intros bytes flags ud [o reqs] d' (h & s & Ho & Hw) Hwrite. cbn [sk_state sk_pending] in Ho, Hw. subst o.
  destruct (stack_write_ok bytes flags ud h reqs s Hw) as (r & s' & Hs & Hw' & Hord & Hcalls & Hb).
  cbn [dc_write stack_client] in Hwrite. rewrite Hs in Hwrite. injection Hwrite as <-.
  split; [by exists h, s'|]. split; [|done]. unfold wire, stack_wire. cbn [sk_state sk_pending]. by rewrite Hcalls, Hb, app_assoc.
Defined.

Lemma serve_ok h reqs : forall s, waiting h reqs s ->
  exists s', serve reqs s = Done s' /\ connected h s' /\
    written (uv_calls (dk_env s')) = written (uv_calls (dk_env s)) ++ concat (map (pending_bytes s) reqs).
Proof.
  induction reqs as [|r reqs IH]; intros s Hw; pose proof Hw as [Hc Hnd Hp].
  { exists s. by rewrite app_nil_r. }
  apply list.NoDup_cons in Hnd as [Hr Hnd]. assert (Hr0 : r ∈ r :: reqs) by (apply elem_of_cons; by left).
  destruct (request_served h s r _ Hc (waiting_bytes _ _ _ _ Hw Hr0)) as (s1 & Hs & Hc1 & Ho & Hcalls & Hold).
  assert (Hothers : forall x, x ∈ reqs -> pending_at s1 x (pending_bytes s x)).
  { intros x Hx. apply Hold; [by intros ->|]. apply (waiting_bytes h (r :: reqs)); [done|]. apply elem_of_cons. by right. }
  destruct (IH s1) as (s' & Hs' & Hc' & Hw').
  { split; [done|done|]. apply List.Forall_forall. intros x Hx%list_elem_of_In. eexists. by apply Hothers. }
  exists s'. cbn [serve]. rewrite Hs. cbn [outcome_bind]. split; [done|]. split; [done|].
  rewrite Hw', Hcalls, written_app, (bytes_kept s s1 reqs Hothers), <- app_assoc. cbn [map concat]. f_equal. f_equal.
  unfold written. cbn [map concat]. by rewrite !app_nil_r.
Qed.
End Wire.

(** ** From sendMsg to the server *)

Section EndToEnd.
Context {T U : Type} `{StreamTransport T U} `{DataListener U} `{DataLoopListener U}.
Context {V : Type} `{MsgListener V} `{MsgRequestListener V}.
Context {DS L : Type} `{DataServer DS} `{Gzip} `{FrameListener ConnectionDetails L} `{MsgSessionFactory L} `{MsgSessionListener L}.

(** a connected client that has accepted messages serves its requests, and issues as writes
    what it has promised to the wire *)
Lemma sends_served alloc now flags msgs (c c' : MsgClient (StackClient T U) V) (dc : DClient (StreamClient T) U) h :
  Z.land flags COMMUTIL_REQUEST_FLAG_REUSE = 0 ->
  (forall n, 0 <= n -> exists buffer, alloc n = Some buffer /\ zlen buffer = n) ->
  pool_ok (mc_requestPool c) -> 0 <= p_nextRequestId (mc_requestPool c) < 2 ^ 64 ->
  mc_dataClient c = Some (MkStackClient (Done dc) []) -> connected h dc ->
  NoDup msgs -> Forall (fun a => exists m, mc_heap c !! a = Some m /\ good_msg m) msgs ->
  client_sends alloc now flags msgs c = Done (true, c') ->
  exists dc' reqs dc'', mc_dataClient c' = Some (MkStackClient (Done dc') reqs) /\ serve reqs dc' = Done dc'' /\
    wire (MkStackClient (Done dc') reqs) = written (uv_calls (dk_env dc'')).
Proof.
  intros Hf Ha Hok Hid Hd Hc Hnd Hms Hsend.
  assert (Hwok : wire_ok (MkStackClient (Done dc) [])) by (exists h, dc; split; [done|split; [done|constructor|constructor]]).
  destruct (sends_ok alloc now flags Hf Ha msgs c _ c' Hok Hid Hd Hwok Hnd Hms Hsend)
    as (d1 & ms1 & Hd1 & (h1 & dc' & Hst & Hw1) & _).
  destruct d1 as [o reqs]. cbn [sk_state sk_pending] in Hst, Hw1. subst o.
  destruct (serve_ok h1 reqs dc' Hw1) as (dc'' & Hs & _ & Hwritten). by exists dc', reqs, dc''.
Qed.

(** C2. The whole way, over a TCP or a pipe client: messages with a payload that were accepted by sendMsg
    wait in the loop of the client; when the loop has served its requests, the data of its calls of
    uv_write are bytes from which the server, if it receives them in order, in buffers that
    keep headers whole, and under any interleaving, gets these messages as events of the
    connection, in the order of the calls, each once, unchanged but for the request in
    their headers. *)
Theorem messages_cross_the_network alloc now flags msgs (c c' : MsgClient (StackClient T U) V) (dc : DClient (StreamClient T) U) h
    n k core (ds : DS) B fuel :
  let net := is_isNetworkOrder (SegmentedInputStream_new (dk_byteOrder dc)) in
  Z.land flags COMMUTIL_REQUEST_FLAG_REUSE = 0 ->
  (forall n, 0 <= n -> exists buffer, alloc n = Some buffer /\ zlen buffer = n) ->
  pool_ok (mc_requestPool c) -> 0 <= p_nextRequestId (mc_requestPool c) < 2 ^ 64 ->
  mc_dataClient c = Some (MkStackClient (Done dc) []) -> connected h dc -> written (uv_calls (dk_env dc)) = [] ->
  NoDup msgs -> Forall (fun a => exists m, mc_heap c !! a = Some m /\ good_msg m) msgs ->
  client_sends alloc now flags msgs c = Done (true, c') ->
  0 < k < 2 ^ 32 -> 0 <= n < 2 ^ 32 -> (2 * length msgs + 3 <= fuel)%nat ->
  exists dc' reqs dc'', mc_dataClient c' = Some (MkStackClient (Done dc') reqs) /\ serve reqs dc' = Done dc'' /\
  forall d es1 es2 s, 0 <= cd_connIndex d < n ->
    Forall (fun e => event_index e <> Some (cd_connIndex d)) es1 ->
    Forall (only_bytes d) es2 -> good_buffers d B es2 ->
    concat (map node_bytes (conn_buffers (cd_connIndex d) es2)) = written (uv_calls (dk_env dc'')) ->
    (forall bs1 bs2, conn_buffers (cd_connIndex d) es2 = bs1 ++ bs2 -> clean_cut net B (concat (map node_bytes bs1))) ->
    server_run fuel alloc_all (es1 ++ SE_connect d 0 :: es2) (server_ready (L := L) ds n k (dk_byteOrder dc) core) = Done s ->
    exists ms s', server_run fuel alloc_all (map SE_work (seqZ 0 k)) s = Done s' /\
      conn_evts (cd_connIndex d) (map snd (sy_handled (sv_system s'))) = ET_CONNECT d 0 :: map (ET_MSG d) ms /\
      Forall2 (sent_as c) msgs ms /\
      map (fun m => m_requestId (msg_header m)) ms = request_ids (p_nextRequestId (mc_requestPool c)) (length msgs).
Proof.
  intros net Hf Ha Hok Hid Hd Hc Hnone Hnd Hms Hsend Hk Hn Hfuel.
  destruct (sends_served alloc now flags msgs c c' dc h Hf Ha Hok Hid Hd Hc Hnd Hms Hsend)
    as (dc' & reqs & dc'' & Hd' & Hs & Hwire). exists dc', reqs, dc''. split; [done|]. split; [done|].
  intros d es1 es2 s Hi Hes1 Hes2 Hbs Hbytes Hcut Hrun.
  destruct (client_messages_ok alloc now flags msgs c c' (MkStackClient (Done dc) []) (MkStackClient (Done dc') reqs)
    n k (dk_byteOrder dc) core ds d B es1 es2 fuel s) as (ms & s' & Hrun' & Hev & Hsent & _); try done.
  - exists h, dc. split; [done|split; [done|constructor|constructor]].
  - cbn. by rewrite Hnone.
  - by rewrite Hbytes, Hwire.
  - by exists ms, s'.
Qed.
End EndToEnd.

(** ** Witness *)

#[local] Existing Instances Transport.sample_listener DClient.sample_loop_listener.
#[local] Existing Instances Client.sample_transport EndToEnd.sample_wire Client.sample_callbacks Client.sample_request_listener.
#[local] Existing Instances tag_gzip record_frames no_factory record_sessions sample_server.

(** the two messages of the file EndToEnd, over a TCP client *)
Definition over_tcp : MsgClient (StackClient TcpClient unit) (list Msg) :=
  MkMsgClient (<[100:=small_msg 5]> {[200:=small_msg 6]}) (Some (MkStackClient (Done (sample_up [])) []))
    (MkMsgAssembler None 0) (pool_initialize 2 (MsgRequestPool_new 11)) ConnectData_new true [].

Definition sent_over_tcp : MsgClient (StackClient TcpClient unit) (list Msg) :=
  snd (result_of (false, over_tcp) (client_sends sample_alloc 10 0 [100; 200] over_tcp)).

(** the bytes on the stream when the loop has served its requests *)
Definition served_bytes (d : option (StackClient TcpClient unit)) : option (list Byte.byte) :=
  match d with
  | Some (MkStackClient (Done s) reqs) =>
    match serve reqs s with Done s => Some (written (uv_calls (dk_env s))) | _ => None end
  | _ => None
  end.

Lemma sent_over_tcp_bytes : served_bytes (mc_dataClient sent_over_tcp) = Some (wire sent_transport).
Proof. vm_compute. reflexivity. Qed.

Lemma sends_over_tcp : client_sends sample_alloc 10 0 [100; 200] over_tcp = Done (true, sent_over_tcp).
Proof. apply result_of_accepted. vm_compute. reflexivity. Qed.

Lemma sample_connected : connected H_client (sample_up []).
Proof. split; [by split|apply DClient.sample_client_ok|reflexivity]. Qed.

Lemma messages_cross_the_network_witness :
  exists ms s', server_run 9 alloc_all (map SE_work (seqZ 0 2)) end_service = Done s' /\
    conn_evts 0 (map snd (sy_handled (sv_system s'))) =
      ET_CONNECT (sample_conn_at 0 7) 0 :: map (ET_MSG (sample_conn_at 0 7)) ms /\
    map (fun m => m_requestId (msg_header m)) ms = [11; 12].
Proof.
  destruct (@messages_cross_the_network TcpClient unit tcp_client Transport.sample_listener DClient.sample_loop_listener
    (list Msg) SampleServer (list server_call) tag_gzip record_frames no_factory record_sessions sample_alloc 10 0 [100; 200] over_tcp sent_over_tcp (sample_up []) H_client
    3 2 (core_initial 3 NETWORK_ORDER true []) (MkSampleServer E_OK [] 0) 100 9)
    as (dc' & reqs & dc'' & Hd & Hs & Hserver).
  - vm_compute. reflexivity.
  - intros n Hn. exists (replicate (Z.to_nat n) NUL). split; [reflexivity|]. by rewrite zlen_replicate; lia.
  - vm_compute. split; reflexivity.
  - vm_compute. split; [discriminate|reflexivity].
  - reflexivity.
  - apply sample_connected.
  - vm_compute. reflexivity.
  - apply (bool_decide_unpack _). vm_compute. exact I.
  - constructor; [exists (small_msg 5)|constructor; [exists (small_msg 6)|constructor]];
      (split; [vm_compute; reflexivity|apply small_msg_good; lia]).
  - exact sends_over_tcp.
  - lia.
  - lia.
  - cbn. lia.
  - pose proof sent_over_tcp_bytes as Hb. rewrite Hd in Hb. cbn [served_bytes] in Hb. rewrite Hs in Hb. apply (inj Some) in Hb.
    destruct (Hserver (sample_conn_at 0 7) sample_es1 wire_events end_service) as (ms & s' & Hrun & Hev & _ & Hids).
    + vm_compute. split; [discriminate|reflexivity].
    + repeat constructor; discriminate.
    + repeat constructor; discriminate.
    + repeat constructor; vm_compute; congruence.
    + rewrite Hb. vm_compute. reflexivity.
    + apply wire_cuts.
    + exact end_service_run.
    + exists ms, s'. split; [exact Hrun|]. split; [exact Hev|exact Hids].
Defined.
