(* ===== verification/ServerStack.v ===== *)
(** * The message server over a stream server

    The message server of the file Server works on the interface of a data server; here the
    stream servers over libuv are put behind it, and replies go all the way from replyMsg to
    the calls of uv_write on the socket of the connection. *)

From Stdlib Require Import ZArith Lia.
From stdpp Require Import gmap.
From coqutil Require Import Byte.
From S2P Require Import Tcp Pipe.
From S2P Require Import Prelude Errors StrSearch Io Serializable Segmented Msg Frame Connection Assembler RequestPool Client.
From S2P Require Import Multiplexer Server Service EndToEnd Reply Transport.
Open Scope Z_scope.

(** ** Definitions *)

(** a data server with its byte order, the asynchronous requests that its loop has not
    served, in the order in which libuv serves them, and the buffer that the message server
    has got from the allocator; after undefined behaviour there is no state *)
Record StackServer (T U : Type) := MkStackServer {
  ss_state : outcome (DServer T U);
  ss_byteOrder : ByteOrder;
  ss_pending : list Z;
  ss_buffer : option Z;
}.

Arguments MkStackServer {T U}.
Arguments ss_state {T U}.
Arguments ss_byteOrder {T U}.
Arguments ss_pending {T U}.
Arguments ss_buffer {T U}.

(** the data of the writes to one socket *)
Definition written_to (h : uv_handle) (cs : list uv_call) : list Byte.byte :=
  concat (map (fun c => match c with uv_write h' data => if decide (h' = h) then data else [] | _ => [] end) cs).

Lemma written_to_app h cs cs' : written_to h (cs ++ cs') = written_to h cs ++ written_to h cs'.
Proof. unfold written_to. by rewrite map_app, concat_app. Qed.

Section Stack.
Context {T U : Type} `{ServerTransport T U} `{DataListener U}.
Implicit Types s : DServer T U.
Implicit Types d : StackServer T U.

Definition ss_set (o : outcome (DServer T U)) d : StackServer T U :=
  MkStackServer o (ss_byteOrder d) (ss_pending d) (ss_buffer d).

(** what is left after undefined behaviour *)
Definition ss_broken (o : outcome (DServer T U)) d : StackServer T U := MkStackServer o (ss_byteOrder d) [] None.

(** an operation of the data server; without a state its code means nothing *)
Definition server_call (f : DServer T U -> outcome (ErrorCode * DServer T U)) d : ErrorCode * StackServer T U :=
  match outcome_bind (ss_state d) f with
  | Done (rc, s) => (rc, ss_set (Done s) d)
  | Undef u => (E_SYSTEM_FAILURE, ss_broken (Undef u) d)
  | NoFuel => (E_SYSTEM_FAILURE, ss_broken NoFuel d)
  end.

(** allocateRequestBuffer *)
Definition stack_buffer (n : Z) d : option (list Byte.byte) * StackServer T U :=
  match ss_state d with
  | Done s =>
    let zeros := replicate (Z.to_nat n) Byte.x00 in
    let '(p, s) := s_alloc (O_buffer zeros) s in
    ((fun _ => zeros) <$> p, MkStackServer (Done s) (ss_byteOrder d) (ss_pending d) p)
  | _ => (None, d)
  end.

(** freeRequestBuffer *)
Definition stack_freed d : StackServer T U :=
  match ss_buffer d with
  | Some p => MkStackServer (let* s := ss_state d in s_free p s) (ss_byteOrder d) (ss_pending d) None
  | None => d
  end.

(** the buffer holds the serialized message when the data server gets it *)
Definition stack_reply (details : ConnectionDetails) (bytes : list Byte.byte) (flags : Z) (buffer : option Z) s
  : outcome (ErrorCode * option Z * DServer T U) :=
  match buffer with
  | None => Undef UB_null
  | Some p =>
    let* _ := buffer_at p (dv_env s) in
    let s := set_env (set_uv_heap (<[p := O_buffer bytes]> (uv_heap (dv_env s))) (dv_env s)) s in
    dserver_replyMsg details p (zlen bytes) flags s
  end.

Definition stack_replyMsg (details : ConnectionDetails) (bytes : list Byte.byte) (flags : Z) d
  : ErrorCode * StackServer T U :=
  match outcome_bind (ss_state d) (stack_reply details bytes flags (ss_buffer d)) with
  | Done (rc, req, s) =>
    (rc, MkStackServer (Done s) (ss_byteOrder d)
           (ss_pending d ++ match req with Some r => [r] | None => [] end)
           (if decide (rc = E_OK) then None else ss_buffer d))
  | Undef u => (E_SYSTEM_FAILURE, ss_broken (Undef u) d)
  | NoFuel => (E_SYSTEM_FAILURE, ss_broken NoFuel d)
  end.

(** [initialize] keeps the listener that the server has *)
#[export] Instance stack_server : DataServer (StackServer T U) := {
  ds_initialize maxConnections _ := server_call (fun s => dserver_initialize (fun _ => true) (dv_listener s) maxConnections s);
  ds_terminate := server_call dserver_terminate;
  ds_start := server_call dserver_start;
  ds_stop := server_call dserver_stop;
  ds_byteOrder := ss_byteOrder;
  ds_buffer := stack_buffer;
  ds_freed := stack_freed;
  ds_replyMsg := stack_replyMsg;
}.

(** the loop serves the pending requests *)
Fixpoint serve_replies (reqs : list Z) s : outcome (DServer T U) :=
  match reqs with
  | [] => Done s
  | req :: reqs => let* s := onAsyncWriteStatic req s in serve_replies reqs s
  end.

(** what a request will write to the socket of connection [i] *)
Definition pending_reply (i : Z) s (req : Z) : list Byte.byte :=
  match uv_heap (dv_env s) !! req with
  | Some (O_async (Some p)) =>
    match sbd_at p (dv_env s) with
    | Done sbd =>
      if sb_connectionIndex sbd =? i then
        match buffer_at (sb_buf sbd) (dv_env s) with Done data => ztake (sb_len sbd) data | _ => [] end
      else []
    | _ => []
    end
  | _ => []
  end.

(** the socket of a connection *)
Definition socket_of (i : Z) s : option uv_handle :=
  match conn_at_index i s with Done c => cdt_connectionHandle c | _ => None end.

(** what was written to the socket of the connection and what will be *)
Definition stack_rwire (details : ConnectionDetails) d : list Byte.byte :=
  match ss_state d with
  | Done s =>
    match socket_of (cd_connIndex details) s with
    | Some h => written_to h (uv_calls (dv_env s)) ++ concat (map (pending_reply (cd_connIndex details) s) (ss_pending d))
    | None => []
    end
  | _ => []
  end.

(** ** Pending replies *)

(** a request with its objects, for connection [j] *)
Definition reply_at s (req j : Z) (data : list Byte.byte) : Prop :=
  exists p sbd buf, uv_heap (dv_env s) !! req = Some (O_async (Some p)) /\
    uv_heap (dv_env s) !! p = Some (O_serverBufferData sbd) /\ sb_connectionIndex sbd = j /\
    buffer_at (sb_buf sbd) (dv_env s) = Done buf /\ 0 <= sb_len sbd <= zlen buf /\ data = ztake (sb_len sbd) buf.

Lemma reply_at_bytes i s req j data : reply_at s req j data ->
  pending_reply i s req = if j =? i then data else [].
Proof.
  intros (p & sbd & buf & Hr & Hp & <- & Hb & _ & ->). unfold pending_reply, sbd_at. rewrite Hr, Hp.
  by destruct (_ =? _); [rewrite Hb|].
Qed.

(** what does not touch a request's objects *)
Lemma reply_frame s s' req j data : reply_at s req j data ->
  (forall q o, uv_heap (dv_env s) !! q = Some o -> (q = req \/ forall c, o <> O_async c) -> uv_heap (dv_env s') !! q = Some o) ->
  reply_at s' req j data.
Proof.
  intros (p & sbd & buf & Hr & Hp & Hj & Hb & Hl & ->) Hframe. exists p, sbd, buf. unfold buffer_at in *.
  destruct (uv_heap (dv_env s) !! sb_buf sbd) as [o|] eqn:Ho; [|done].
  split; [apply Hframe; [done|by left]|]. split; [apply Hframe; [done|by right]|]. split; [done|].
  rewrite (Hframe _ _ Ho); [done|]. right. intros c ->. done.
Qed.

(** the server runs, and connection [i] has the socket [h] for itself *)
Record serving (i : Z) (h : uv_handle) s : Prop := {
  sg_calm : calm (dv_env s);
  sg_env : env_ok (dv_env s);
  sg_running : dv_runState s = RS_RUNNING;
  sg_socket : socket_of i s = Some h;
  sg_apart j : j <> i -> socket_of j s <> Some h;
}.

(** the replies [reqs] wait for the loop; the buffer that was handed out is none of theirs *)
Record replies_wait (i : Z) (h : uv_handle) (reqs : list Z) (buffer : option Z) s : Prop := {
  rp_serving : serving i h s;
  rp_distinct : NoDup reqs;
  rp_pending : Forall (fun r => exists j b, reply_at s r j b /\ is_Some (socket_of j s)) reqs;
  rp_buffer p r q sbd : buffer = Some p -> r ∈ reqs -> uv_heap (dv_env s) !! r = Some (O_async (Some q)) ->
    uv_heap (dv_env s) !! q = Some (O_serverBufferData sbd) -> sb_buf sbd <> p;
}.

Lemma wait_lookup i h reqs b s r : replies_wait i h reqs b s -> r ∈ reqs ->
  exists j data, reply_at s r j data /\ is_Some (socket_of j s).
Proof. intros Hw Hr%list_elem_of_In. pose proof (rp_pending _ _ _ _ _ Hw) as Hp. rewrite List.Forall_forall in Hp. by apply Hp. Qed.

Lemma server_env_below e p o : env_ok e -> uv_heap e !! p = Some o -> p < uv_next e.
Proof. intros Hok Hp. destruct (Z_lt_ge_dec p (uv_next e)); [done|]. by rewrite Hok in Hp by lia. Qed.
End Stack.

Section Serving.
Context {T U : Type} {TR : ServerTransport T U} {DL : DataListener U}.
Context (Hstream : forall p (s : DServer T U), writeTransport p s = stream_writeTransport p s).
Implicit Types s : DServer T U.

Lemma conn_of_socket i s h : socket_of i s = Some h ->
  exists c, conn_at_index i s = Done c /\ cdt_connectionHandle c = Some h.
Proof. unfold socket_of. destruct (conn_at_index i s) as [c| |]; [|done..]. by exists c. Qed.

(** the callback of a request issues its write, to the socket of its connection *)
Lemma reply_served i h s req j data hj : serving i h s -> reply_at s req j data -> socket_of j s = Some hj ->
  exists s', onAsyncWriteStatic req s = Done s' /\ serving i h s' /\
    (forall k, socket_of k s' = socket_of k s) /\
    uv_calls (dv_env s') = uv_calls (dv_env s) ++ [uv_write hj data; uv_close_async] /\
    forall r k b, r <> req -> reply_at s r k b -> reply_at s' r k b.
Proof.
  intros [Hc Hok Hrun Hs Hap] (p & sbd & buf & Hr & Hp & <- & Hb & Hl & ->) Hj. set (w := uv_next (dv_env s)).
  assert (Hw : uv_heap (dv_env s) !! w = None) by (apply Hok, Z.le_refl).
  apply conn_of_socket in Hj as (c & Hi & Hh).
  assert (Hwr : w <> req) by (intros ->; by rewrite Hw in Hr).
  assert (Hwp : w <> p) by (intros ->; by rewrite Hw in Hp).
  assert (Hwb : w <> sb_buf sbd) by (intros Hx; unfold buffer_at in Hb; rewrite <- Hx, Hw in Hb; done).
  assert (Hwrite : writeTransport p s = Done (E_OK, set_env (MkUvEnv [] []
    (uv_calls (dv_env s) ++ [uv_write hj (ztake (sb_len sbd) buf)]) (w + 1)
    (<[w := O_write p]> (uv_heap (dv_env s)))) s)).
  { rewrite Hstream. unfold stream_writeTransport. rewrite s_alloc_calm by done. fold w.
    unfold sbd_at. cbn [dv_env set_env uv_heap]. rewrite lookup_insert_ne, Hp by done. cbn [outcome_bind].
    change (conn_at_index (sb_connectionIndex sbd) (set_env _ s)) with (conn_at_index (sb_connectionIndex sbd) s).
    rewrite Hi. cbn [outcome_bind]. unfold buffer_at in Hb |- *. cbn [uv_heap]. rewrite lookup_insert_ne by done.
    rewrite Hb. cbn [outcome_bind]. rewrite mem_read_ok, zdrop_0 by lia. cbn [outcome_bind]. rewrite Hh.
    by rewrite s_uv_calm. }
  unfold onAsyncWriteStatic. rewrite Hr. unfold sbd_at at 1. rewrite Hp. cbn [outcome_bind].
  rewrite Hwrite. cbn [outcome_bind]. set (s1 := s_do uv_close_async _). exists s1.
  assert (Hs1 : uv_heap (dv_env s1) = <[req := O_async None]> (<[w := O_write p]> (uv_heap (dv_env s)))) by done.
  assert (Hreqw : req < w) by (by eapply server_env_below).
  split; [done|]. split; [split|]; try done.
  - intros q Hq. rewrite Hs1. cbn in Hq. rewrite !lookup_insert_ne by lia. apply Hok. fold w. lia.
  - split; [done|]. split; [cbn; by rewrite <- app_assoc|]. intros r k b Hrr Hpend. eapply reply_frame; [exact Hpend|].
    intros q o Hq Hcase. rewrite Hs1. rewrite !lookup_insert_ne; [done| |].
    + intros <-. by rewrite Hw in Hq.
    + intros <-. rewrite Hr in Hq. destruct Hcase as [->|Hcase]; [done|]. injection Hq as <-. by destruct (Hcase (Some p)).
Qed.

Lemma pending_kept i s s' reqs : (forall r, r ∈ reqs -> exists j b, reply_at s r j b /\ reply_at s' r j b) ->
  map (pending_reply i s') reqs = map (pending_reply i s) reqs.
Proof.
  intros Hp. apply map_ext_in. intros r Hr%list_elem_of_In. destruct (Hp r Hr) as (j & b & Hb & Hb').
  by rewrite (reply_at_bytes _ _ _ _ _ Hb), (reply_at_bytes _ _ _ _ _ Hb').
Qed.

(** the loop writes what waits for the connection, in order, to its socket *)
Lemma serve_replies_ok i h reqs : forall s b, replies_wait i h reqs b s ->
  exists s', serve_replies reqs s = Done s' /\ serving i h s' /\
    written_to h (uv_calls (dv_env s')) =
      written_to h (uv_calls (dv_env s)) ++ concat (map (pending_reply i s) reqs).
Proof.
  induction reqs as [|r reqs IH]; intros s b Hw; pose proof Hw as [Hc Hnd Hp Hb].
  { exists s. by rewrite app_nil_r. }
  apply list.NoDup_cons in Hnd as [Hr Hnd]. assert (Hr0 : r ∈ r :: reqs) by (apply elem_of_cons; by left).
  destruct (wait_lookup _ _ _ _ _ r Hw Hr0) as (j & data & Hat & hj & Hj).
  destruct (reply_served i h s r j data hj Hc Hat Hj) as (s1 & Hs & Hc1 & Hsock & Hcalls & Hold).
  assert (Hothers : forall x, x ∈ reqs -> exists k dx, reply_at s x k dx /\ reply_at s1 x k dx /\ is_Some (socket_of k s)).
  { intros x Hx. destruct (wait_lookup _ _ _ _ _ x Hw) as (k & dx & Hdx & Hk); [apply elem_of_cons; by right|].
    exists k, dx. split; [done|]. split; [|done]. apply Hold; [by intros ->|done]. }
  destruct (IH s1 None) as (s' & Hs' & Hc' & Hw').
  { split; [done|done| |done]. apply List.Forall_forall. intros x Hx%list_elem_of_In.
    destruct (Hothers x Hx) as (k & dx & _ & Hdx & Hk). exists k, dx. split; [done|]. by rewrite Hsock. }
  exists s'. cbn [serve_replies]. rewrite Hs. cbn [outcome_bind]. split; [done|]. split; [done|].
  rewrite Hw', Hcalls, written_to_app, (pending_kept i s s1 reqs), <- app_assoc.
  2: { intros x Hx. destruct (Hothers x Hx) as (k & dx & Hdx & Hdx' & _). by exists k, dx. }
  cbn [map concat]. f_equal. f_equal. rewrite (reply_at_bytes _ _ _ _ _ Hat).
  unfold written_to. cbn [map concat]. rewrite !app_nil_r. destruct (Z.eqb_spec j i) as [->|Hne].
  - rewrite (sg_socket _ _ _ Hc) in Hj. injection Hj as <-. by rewrite decide_True.
  - rewrite decide_False; [done|]. intros ->. by apply (sg_apart _ _ _ Hc j Hne).
Qed.

(** the reply that replyMsg puts behind the others *)
Lemma reply_accepted_at details p bytes flags s h i : i = cd_connIndex details -> serving i h s ->
  buffer_at p (dv_env s) = Done bytes ->
  exists r s', dserver_replyMsg details p (zlen bytes) flags s = Done (E_OK, Some r, s') /\ serving i h s' /\
    (forall k, socket_of k s' = socket_of k s) /\
    uv_calls (dv_env s') = uv_calls (dv_env s) ++ [uv_async_init_at h; uv_async_send] /\
    reply_at s' r i bytes /\ uv_heap (dv_env s) !! r = None /\
    forall q o, uv_heap (dv_env s) !! q = Some o -> uv_heap (dv_env s') !! q = Some o.
Proof.
  intros -> Hsv Hb. pose proof Hsv as [Hc Hok Hrun Hs Hap]. destruct (conn_of_socket _ _ _ Hs) as (c & Hi & Hh).
  set (n := uv_next (dv_env s)).
  pose proof (replyMsg_accepted details p (zlen bytes) flags bytes s c h Hc Hok Hrun Hi Hh Hb
    (conj (zlen_nonneg _) (Z.le_refl _))) as Hacc. cbv zeta in Hacc. fold n in Hacc.
  set (byRef := negb (Z.land flags COMMUTIL_MSG_WRITE_BY_REF =? 0)) in *.
  set (q := if byRef then n else n + 1) in *.
  set (disp := negb (Z.land (if byRef then _ else _) _ =? 0)) in Hacc.
  set (s' := set_env _ s) in Hacc. exists (q + 1), s'. split; [exact Hacc|].
  assert (Hq : n <= q <= n + 1) by (unfold q; destruct byRef; lia).
  assert (Hpn : p < n).
  { unfold buffer_at in Hb. destruct (uv_heap (dv_env s) !! p) eqn:Hp; [|done]. by eapply server_env_below. }
  assert (Hold : forall x o, uv_heap (dv_env s) !! x = Some o -> uv_heap (dv_env s') !! x = Some o).
  { intros x o Hx. pose proof (server_env_below _ _ _ Hok Hx). fold n in H. cbn. unfold reply_copies.
    rewrite !lookup_insert_ne by lia. destruct byRef; [done|]. by rewrite lookup_insert_ne by lia. }
  split; [split; try done|split; [done|split; [done|split; [|split; [|exact Hold]]]]].
  - intros x Hx. cbn in Hx |- *. unfold reply_copies. rewrite !lookup_insert_ne by lia.
    destruct byRef; [apply Hok; fold n; lia|]. rewrite lookup_insert_ne by lia. apply Hok. fold n. lia.
  - exists q, (MkServerBufferData (cd_connIndex details) (if byRef then p else n) (zlen bytes) disp), bytes.
    cbn [sb_buf sb_len sb_connectionIndex]. split; [cbn; apply lookup_insert_eq|].
    split; [cbn; rewrite lookup_insert_ne by lia; apply lookup_insert_eq|]. split; [done|].
    split; [|split; [split; [apply zlen_nonneg|apply Z.le_refl]|symmetry; apply ztake_all, Z.le_refl]].
    unfold buffer_at in Hb |- *. cbn. unfold reply_copies, q. destruct byRef.
    + rewrite !lookup_insert_ne by lia. exact Hb.
    + rewrite !lookup_insert_ne, lookup_insert_eq by lia. by rewrite ztake_all by apply Z.le_refl.
  - apply Hok. fold n. lia.
Qed.
End Serving.

(** ** The wire of the replies *)

Section Wire.
Context {T U : Type} {TR : ServerTransport T U} {DL : DataListener U}.
Implicit Types s : DServer T U.
Implicit Types d : StackServer T U.

Lemma stack_rwire_eq details s order reqs b h : socket_of (cd_connIndex details) s = Some h ->
  stack_rwire details (MkStackServer (Done s) order reqs b) =
    written_to h (uv_calls (dv_env s)) ++ concat (map (pending_reply (cd_connIndex details) s) reqs).
Proof. intros Hs. unfold stack_rwire. cbn [ss_state ss_pending]. by rewrite Hs. Qed.

(** an environment that has grown serves the same replies *)
Lemma wait_grown i h reqs b b' s s' : replies_wait i h reqs b s -> serving i h s' ->
  (forall k, socket_of k s' = socket_of k s) ->
  (forall r j data, r ∈ reqs -> reply_at s r j data -> reply_at s' r j data) ->
  (forall p r q sbd, b' = Some p -> r ∈ reqs -> uv_heap (dv_env s') !! r = Some (O_async (Some q)) ->
     uv_heap (dv_env s') !! q = Some (O_serverBufferData sbd) -> sb_buf sbd <> p) ->
  replies_wait i h reqs b' s' /\ map (pending_reply i s') reqs = map (pending_reply i s) reqs.
Proof.
  intros Hw Hs Hsock Hold Hb'. split; [split|]; [done|apply Hw| |done|].
  - apply List.Forall_forall. intros r Hr%list_elem_of_In. destruct (wait_lookup _ _ _ _ _ r Hw Hr) as (j & data & Hat & Hj).
    exists j, data. rewrite Hsock. split; [by apply Hold|done].
  - apply pending_kept. intros r Hr. destruct (wait_lookup _ _ _ _ _ r Hw Hr) as (j & data & Hat & _).
    exists j, data. split; [done|]. by apply Hold.
Qed.

Lemma stack_buffer_ok details n d b d' h s : ss_state d = Done s ->
  replies_wait (cd_connIndex details) h (ss_pending d) (ss_buffer d) s -> 0 <= n -> stack_buffer n d = (b, d') ->
  exists s', ss_state d' = Done s' /\ replies_wait (cd_connIndex details) h (ss_pending d') (ss_buffer d') s' /\
    stack_rwire details d' = stack_rwire details d /\ ss_byteOrder d' = ss_byteOrder d /\
    (forall buffer, b = Some buffer -> zlen buffer = n).
Proof.
  destruct d as [o order reqs buf]. cbn [ss_state ss_pending ss_buffer ss_byteOrder]. intros -> Hw Hn Hrun.
  pose proof Hw as [[Hc Hok Hr Hs Hap] Hnd Hp Hb]. unfold stack_buffer in Hrun. cbn [ss_state] in Hrun.
  rewrite s_alloc_calm in Hrun by done. injection Hrun as <- <-. set (m := uv_next (dv_env s)).
  cbn [ss_state ss_pending ss_buffer ss_byteOrder]. set (s' := set_env _ s).
  assert (Hold : forall x o, uv_heap (dv_env s) !! x = Some o -> uv_heap (dv_env s') !! x = Some o).
  { intros x o Hx. pose proof (server_env_below _ _ _ Hok Hx) as Hlt. cbn. fold m in Hlt |- *. by rewrite lookup_insert_ne by lia. }
  destruct (wait_grown (cd_connIndex details) h reqs buf (Some m) s s' Hw) as [Hw' Hpend].
  - split; try done. intros q Hq. cbn in Hq |- *. fold m in Hq |- *. rewrite lookup_insert_ne by lia. apply Hok. fold m. lia.
  - done.
  - intros r j data _ Hat. eapply reply_frame; [exact Hat|]. intros q o Hq _. by apply Hold.
  - intros p r q sbd [= <-] Hin Hrq Hq. destruct (wait_lookup _ _ _ _ _ r Hw Hin) as (j & data & (p' & sbd' & bf & Hat1 & Hat2 & _ & Hat3 & _) & _).
    rewrite (Hold _ _ Hat1) in Hrq. injection Hrq as <-. rewrite (Hold _ _ Hat2) in Hq. injection Hq as <-.
    intros Heq. unfold buffer_at in Hat3. rewrite Heq in Hat3. by rewrite (Hok m) in Hat3 by (fold m; lia).
  - exists s'. split; [done|]. split; [exact Hw'|]. split; [|split; [done|]].
    + rewrite (stack_rwire_eq details s' order reqs _ h), (stack_rwire_eq details s order reqs _ h) by done. by rewrite Hpend.
    + intros buffer [= <-]. rewrite zlen_replicate. lia.
Qed.

Lemma stack_reply_ok details bytes flags d d' h s : ss_state d = Done s ->
  replies_wait (cd_connIndex details) h (ss_pending d) (ss_buffer d) s ->
  stack_replyMsg details bytes flags d = (E_OK, d') ->
  exists s', ss_state d' = Done s' /\ replies_wait (cd_connIndex details) h (ss_pending d') (ss_buffer d') s' /\
    stack_rwire details d' = stack_rwire details d ++ bytes /\ ss_byteOrder d' = ss_byteOrder d.
Proof.
  destruct d as [o order reqs [p|]]; cbn [ss_state ss_pending ss_buffer ss_byteOrder]; intros -> Hw Hrun; [|done].
  pose proof Hw as [[Hc Hok Hr Hs Hap] Hnd Hp Hb]. unfold stack_replyMsg, stack_reply in Hrun.
  cbn [ss_state ss_pending ss_buffer ss_byteOrder outcome_bind] in Hrun.
  destruct (buffer_at p (dv_env s)) as [old| |] eqn:Hbuf; [|done..]. cbn [outcome_bind] in Hrun.
  assert (Hpo : exists o, uv_heap (dv_env s) !! p = Some o /\ forall c, o <> O_async c).
  { unfold buffer_at in Hbuf. destruct (uv_heap (dv_env s) !! p) as [[]|]; try done. by eexists. }
  destruct Hpo as (o & Hpo & Hno). pose proof (server_env_below _ _ _ Hok Hpo) as Hpn.
  set (s1 := set_env _ s) in Hrun.
  assert (Hold1 : forall r j data, r ∈ reqs -> reply_at s r j data -> reply_at s1 r j data).
  { intros r j data Hin (q & sbd & bf & H1 & H2 & H3 & H4 & H5). exists q, sbd, bf. cbn. unfold buffer_at in Hbuf, H4 |- *. cbn.
    rewrite !lookup_insert_ne; [done|..].
    - intros Heq. by apply (Hb p r q sbd eq_refl Hin H1 H2).
    - intros ->. by rewrite H2 in Hbuf.
    - intros ->. by rewrite H1 in Hbuf. }
  assert (Hs1 : serving (cd_connIndex details) h s1).
  { split; try done. intros q Hq. cbn in Hq |- *. rewrite lookup_insert_ne by lia. by apply Hok. }
  assert (Hb1 : buffer_at p (dv_env s1) = Done bytes) by (unfold buffer_at; cbn; by rewrite lookup_insert_eq).
  destruct (reply_accepted_at details p bytes flags s1 h _ eq_refl Hs1 Hb1) as (r & s' & Hrep & Hs' & Hsock & Hcalls & Hat & Hfresh & Hold).
  rewrite Hrep in Hrun. injection Hrun as <-. cbn [ss_state ss_pending ss_buffer ss_byteOrder].
  assert (Hold2 : forall x j data, x ∈ reqs -> reply_at s x j data -> reply_at s' x j data).
  { intros x j data Hx Hpend. eapply reply_frame; [by apply (Hold1 x j data Hx)|]. intros q oq Hq _. by apply Hold. }
  destruct (wait_grown (cd_connIndex details) h reqs (Some p) None s s' Hw Hs') as [[_ _ Hp' _] Hpend];
    [exact Hsock|exact Hold2|by intros ? ? ? ? [=]|].
  exists s'. split; [done|]. split; [|split; [|done]].
  - split; [done| |apply Forall_app; split; [done|]|].
    + apply list.NoDup_app. split; [done|]. split; [|apply NoDup_singleton]. intros x Hx ->%list_elem_of_singleton.
      destruct (wait_lookup _ _ _ _ _ r Hw Hx) as (j & data & Hrx & _). apply Hold1 in Hrx as (q & sbd & bf & Hq & _); [|done].
      by rewrite Hfresh in Hq.
    + constructor; [|constructor]. exists (cd_connIndex details), bytes. split; [done|]. rewrite Hsock. by exists h.
    + by intros ? ? ? ? [=].
  - rewrite (stack_rwire_eq details s' order _ _ h) by apply (sg_socket _ _ _ Hs').
    rewrite (stack_rwire_eq details s order reqs _ h) by done.
    rewrite Hcalls, written_to_app, map_app, concat_app, Hpend. cbn [map concat].
    rewrite (reply_at_bytes _ _ _ _ _ Hat), Z.eqb_refl. change (uv_calls (dv_env s1)) with (uv_calls (dv_env s)).
    change (written_to h [uv_async_init_at h; uv_async_send]) with (@nil Byte.byte). by rewrite !app_nil_r, app_assoc.
Qed.

(** for the replies to one connection, whose socket is [h] *)
Definition stack_reply_wire (h : uv_handle) : ReplyWire (StackServer T U).
Proof.
  refine {| rwire_ok details d := exists s, ss_state d = Done s /\
              replies_wait (cd_connIndex details) h (ss_pending d) (ss_buffer d) s;
            rwire := stack_rwire |}.
  - intros details n d b d' (s & Hs & Hw) Hn Hrun.
    destruct (stack_buffer_ok details n d b d' h s Hs Hw Hn Hrun) as (s' & Hs' & Hw' & Hrest).
    split; [by exists s'|exact Hrest].
  - intros details bytes flags d d' (s & Hs & Hw) Hrun.
    destruct (stack_reply_ok details bytes flags d d' h s Hs Hw Hrun) as (s' & Hs' & Hw' & Hrest).
    split; [by exists s'|exact Hrest].
Defined.
End Wire.

(** ** From replyMsg to the waiting threads *)

(** the servers that write to the stream of a connection *)
Class StreamServer (T U : Type) {TR : ServerTransport T U} := {
  stream_writes p (s : DServer T U) : writeTransport p s = stream_writeTransport p s;
}.

#[export] Instance tcp_stream_server {U} `{DataListener U} : StreamServer Tcp.TcpServer U.
Proof. by split. Qed.

#[export] Instance pipe_stream_server {U} `{DataListener U} : StreamServer Pipe.PipeServer U.
Proof. by split. Qed.

Section RoundTrip.
Context {T W : Type} `{StreamServer T W} {DL : DataListener W}.
Context {DC U : Type} `{DataClient DC} `{MsgListener U} `{MsgRequestListener U}.
Context {L : Type}.

(** a server that serves a connection and has accepted replies serves its requests, and issues
    as writes to the socket of the connection what it has promised to the wire *)
Lemma replies_served (s s' : MsgServer (StackServer T W) L) (ds : DServer T W) h order details rs :
  sv_dataServer s = Some (MkStackServer (Done ds) order [] None) -> serving (cd_connIndex details) h ds ->
  Forall good_msg rs -> server_replies details rs s = Done (true, s') ->
  exists ds' reqs b ds'', sv_dataServer s' = Some (MkStackServer (Done ds') order reqs b) /\
    serve_replies reqs ds' = Done ds'' /\
    stack_rwire details (MkStackServer (Done ds') order reqs b) = written_to h (uv_calls (dv_env ds'')).
Proof.
  intros Hds Hserv Hrs Hrep. set (RW := stack_reply_wire (TR := TR) h). set (ds0 := MkStackServer (Done ds) order [] None).
  destruct (replies_ok (H0 := RW) details rs s ds0 s' Hds) as (d' & Hds' & (ds' & Hst' & Hw) & Ho' & _); [|done..|].
  { exists ds. split; [done|]. split; [done|constructor|constructor|by intros ? ? ? ? [=]]. }
  destruct d' as [o order' reqs b]. cbn in Ho'. subst order'. cbn [ss_state ss_pending ss_buffer] in Hst', Hw. subst o.
  destruct (serve_replies_ok stream_writes (cd_connIndex details) h reqs ds' b Hw) as (ds'' & Hs & _ & Hwritten).
  exists ds', reqs, b, ds''. split; [exact Hds'|]. split; [exact Hs|].
  by rewrite (stack_rwire_eq details ds' order reqs b h), <- Hwritten by apply (sg_socket _ _ _ (rp_serving _ _ _ _ _ Hw)).
Qed.

(** the promise of a server that has not replied yet *)
Lemma idle_promise (ds : DServer T W) h order details : serving (cd_connIndex details) h ds ->
  written_to h (uv_calls (dv_env ds)) = [] ->
  rwire_ok (ReplyWire := stack_reply_wire (TR := TR) h) details (MkStackServer (Done ds) order [] None) /\
  stack_rwire details (MkStackServer (Done ds) order [] None) = [].
Proof.
  intros Hserv Hnone. split.
  - exists ds. split; [done|]. split; [done|constructor|constructor|by intros ? ? ? ? [=]].
  - rewrite (stack_rwire_eq details ds order [] None h) by apply (sg_socket _ _ _ Hserv). by rewrite Hnone.
Qed.

(** C3. The way back, over a TCP or a pipe server: a client has sent messages, and the server
    has accepted replies, messages with a payload too, that name requests, each at most once and in any order. When the
    loop of the server has served its requests, the data of its calls of uv_write on the
    socket of the connection are bytes from which the client, if it receives them in order
    and in buffers that keep headers whole, gets each reply into the entry of the request
    that it names: the thread that waits for it returns with it, whatever its timeout, and
    the entry is vacant again. The requests that no reply names stay pending, and replies
    that name none leave nothing in the heap. *)
Theorem every_request_answered alloc now flags msgs (c c1 : MsgClient DC U) dc
    (s s' : MsgServer (StackServer T W) L) (ds : DServer T W) h order details rs fuel d B st :
  let net := bool_decide (order = NETWORK_ORDER) in
  Z.land flags COMMUTIL_REQUEST_FLAG_REUSE = 0 ->
  (forall n, 0 <= n -> exists buffer, alloc n = Some buffer /\ zlen buffer = n) ->
  pool_ok (mc_requestPool c) -> 0 <= p_nextRequestId (mc_requestPool c) < 2 ^ 64 ->
  mc_dataClient c = Some dc -> NoDup msgs ->
  Forall (fun a => exists m, mc_heap c !! a = Some m /\ good_msg m) msgs ->
  client_sends alloc now flags msgs c = Done (true, c1) ->
  sv_dataServer s = Some (MkStackServer (Done ds) order [] None) -> serving (cd_connIndex details) h ds ->
  written_to h (uv_calls (dv_env ds)) = [] -> Forall good_msg rs -> NoDup (map names rs) ->
  server_replies details rs s = Done (true, s') ->
  cd_connIndex d = 0 -> receives_on st c -> in_step net B st [] -> (2 * length rs + 3 <= fuel)%nat ->
  exists ds' reqs b ds'', sv_dataServer s' = Some (MkStackServer (Done ds') order reqs b) /\
    serve_replies reqs ds' = Done ds'' /\
  forall bs, Forall (fun b => node_ok b /\ 0 < bn_length b <= B /\ bn_length b < 2 ^ 31) bs ->
    concat (map node_bytes bs) = written_to h (uv_calls (dv_env ds'')) ->
    (forall bs1 bs2, bs = bs1 ++ bs2 -> clean_cut net B (concat (map node_bytes bs1))) ->
  exists c2, client_run fuel alloc_all (map (CV_bytes d) bs) c1 = Done c2 /\
  (forall a m r timeout, a ∈ msgs -> mc_heap c1 !! a = Some m -> r ∈ rs -> names r = names m ->
     exists p rsp, waitPendingResponse (MkMsgRequestData (m_requestId (msg_header m)) (m_requestIndex (msg_header m)))
         timeout [] None (mc_requestPool c2) = Done (E_OK, Some rsp, p) /\ mc_heap c2 !! rsp = Some r /\
       vacant_at p (m_requestIndex (msg_header m)) /\
       same_but (m_requestIndex (msg_header m)) (mc_requestPool c2) p) /\
  (forall a m, a ∈ msgs -> mc_heap c1 !! a = Some m -> (forall r, r ∈ rs -> names r <> names m) ->
     pending_at (mc_requestPool c2) (m_requestIndex (msg_header m)) (m_requestId (msg_header m))) /\
  (forall a r, mc_heap c2 !! a = Some r -> mc_heap c1 !! a = None ->
     r ∈ rs /\ exists i q, zget (p_requests (mc_requestPool c1)) i = Some q /\ response_for i q r).
Proof.
  intros net Hf Ha Hok Hid Hdc Hnd Hms Hsend Hds Hserv Hnone Hrs Hnames Hrep Hd Hc Hst Hfuel.
  destruct (replies_served s s' ds h order details rs Hds Hserv Hrs Hrep) as (ds' & reqs & b & ds'' & Hds' & Hs & Hwire).
  destruct (idle_promise ds h order details Hserv Hnone) as [Hwok Hw0].
  exists ds', reqs, b, ds''. split; [exact Hds'|]. split; [exact Hs|]. intros bs Hbs Hbytes Hcut.
  apply (requests_answered_ok (H3 := stack_reply_wire (TR := TR) h) alloc now flags msgs c c1 dc s s'
    (MkStackServer (Done ds) order [] None) (MkStackServer (Done ds') order reqs b)
    details rs fuel d net B st bs); try done.
  by rewrite Hbytes, <- Hwire.
Qed.
End RoundTrip.

(** ** Witness *)

#[local] Existing Instances Transport.sample_listener Client.sample_transport Client.sample_callbacks Client.sample_request_listener.

(** the client of the file EndToEnd, connected *)
Definition asking_client : MsgClient SampleTransport (list Msg) :=
  set_assembler (MkMsgAssembler (Some [stream_reset (MsgStream_new NETWORK_ORDER)]) 1) two_messages.

Definition asked_client : MsgClient SampleTransport (list Msg) :=
  snd (result_of (false, asking_client) (client_sends sample_alloc 10 0 [100; 200] asking_client)).

Lemma asked : client_sends sample_alloc 10 0 [100; 200] asking_client = Done (true, asked_client).
Proof. apply result_of_accepted. vm_compute. reflexivity. Qed.

(** a TCP server with one connection, and a message server over it *)
Definition serving_tcp : DServer Tcp.TcpServer unit :=
  MkDServer (Some [sample_conn (H_socket2 0)]) 1 6 Transport.RS_RUNNING true
    (Tcp.TcpServer_new Stdlib.Strings.String.EmptyString 80 10 1) tt UvEnv_new.

Definition answering_server : MsgServer (StackServer Tcp.TcpServer unit) unit :=
  MkMsgServer (Some (MkStackServer (Done serving_tcp) NETWORK_ORDER [] None)) (MkMsgAssembler None 0)
    (mux_started 1 1 (Done (core_initial 1 NETWORK_ORDER true tt))) [].

(** the answers to both requests, the second one first *)
Definition sample_answers : list Msg := [sent_message 12 0 (small_msg 8); sent_message 11 1 (small_msg 7)].

Definition answered_server : MsgServer (StackServer Tcp.TcpServer unit) unit :=
  snd (result_of (false, answering_server) (server_replies (sample_conn_at 0 7) sample_answers answering_server)).

Lemma answers_accepted :
  server_replies (sample_conn_at 0 7) sample_answers answering_server = Done (true, answered_server).
Proof. apply result_of_accepted. vm_compute. reflexivity. Qed.

(** what the loop writes to the socket *)
Definition answered_bytes (d : option (StackServer Tcp.TcpServer unit)) : option (list Byte.byte) :=
  match d with
  | Some (MkStackServer (Done s) _ reqs _) =>
    match serve_replies reqs s with Done s => Some (written_to (H_socket2 0) (uv_calls (dv_env s))) | _ => None end
  | _ => None
  end.

Lemma answered_server_bytes : answered_bytes (sv_dataServer answered_server) = Some (msgs_image true sample_answers).
Proof. vm_compute. reflexivity. Qed.

(** the first answer with 41 bytes of the second one, then the rest *)
Definition answer_buffers : list BufferNode :=
  [sample_node 1 (ztake (43 + 41) (msgs_image true sample_answers));
   sample_node 2 (zdrop (43 + 41) (msgs_image true sample_answers))].

Lemma answers_good : Forall good_msg sample_answers.
Proof. constructor; [apply sent_good; lia|]. constructor; [apply sent_good; lia|constructor]. Qed.

Lemma answer_cuts bs1 bs2 : answer_buffers = bs1 ++ bs2 -> clean_cut true 100 (concat (map node_bytes bs1)).
Proof.
  pose proof answers_good as Hg. unfold answer_buffers. intros Heq.
  apply Forall_cons_1 in Hg as [Hg1 Hg2]. destruct bs1 as [|b1 [|b2 [|b3 bs1]]]; cbn [app] in Heq; simplify_eq.
  - exists [], []. split_and!; [done|constructor|by left|reflexivity].
  - exists [sent_message 12 0 (small_msg 8)], (ztake 41 (msg_image (sent_message 11 1 (small_msg 7)) true)).
    split_and!; [vm_compute; reflexivity|by constructor| |vm_compute; reflexivity].
    right. exists (msg_header (sent_message 11 1 (small_msg 7))). split; [by apply (sent_good 11 1 7)|].
    split; [reflexivity|]. split; [|reflexivity]. exists (ztake 1 (le_split 3 7)). vm_compute. reflexivity.
  - exists sample_answers, []. split_and!; [vm_compute; reflexivity|by constructor|by left|reflexivity].
Qed.

Lemma answering_serves : serving 0 (H_socket2 0) serving_tcp.
Proof.
  split; [by split| |reflexivity|reflexivity|].
  - intros p Hp. apply lookup_empty.
  - intros j Hj. unfold socket_of, conn_at_index, mem_get. cbn [serving_tcp dv_connDataArray].
    destruct (zget [sample_conn (H_socket2 0)] j) as [c|] eqn:Hc; [|done].
    apply zget_Some_range in Hc. change (0 <= j < 1) in Hc. lia.
Qed.

Lemma every_request_answered_witness : exists c2,
  client_run 7 alloc_all (map (CV_bytes (sample_conn_at 0 7)) answer_buffers) asked_client = Done c2 /\
  (exists p rsp, waitPendingResponse (MkMsgRequestData 11 1) 50 [] None (mc_requestPool c2) = Done (E_OK, Some rsp, p) /\
     mc_heap c2 !! rsp = Some (sent_message 11 1 (small_msg 7)) /\ vacant_at p 1) /\
  (exists p rsp, waitPendingResponse (MkMsgRequestData 12 0) 50 [] None (mc_requestPool c2) = Done (E_OK, Some rsp, p) /\
     mc_heap c2 !! rsp = Some (sent_message 12 0 (small_msg 8)) /\ vacant_at p 0).
Proof.
  destruct (@every_request_answered Tcp.TcpServer unit Tcp.tcp_transport tcp_stream_server SampleTransport (list Msg)
    Client.sample_transport Client.sample_callbacks Client.sample_request_listener unit
    sample_alloc 10 0 [100; 200] asking_client asked_client (MkSampleTransport E_OK []) answering_server answered_server
    serving_tcp (H_socket2 0) NETWORK_ORDER (sample_conn_at 0 7) sample_answers 7 (sample_conn_at 0 7) 100
    (stream_reset (MsgStream_new NETWORK_ORDER))) as (ds' & reqs & b & ds'' & Hds' & Hs & Hclient).
  - vm_compute. reflexivity.
  - intros n Hn. exists (replicate (Z.to_nat n) NUL). split; [reflexivity|]. by rewrite zlen_replicate; lia.
  - vm_compute. split; reflexivity.
  - vm_compute. split; [discriminate|reflexivity].
  - vm_compute. reflexivity.
  - apply (bool_decide_unpack _). vm_compute. exact I.
  - constructor; [exists (small_msg 5)|constructor; [exists (small_msg 6)|constructor]];
      (split; [vm_compute; reflexivity|apply small_msg_good; lia]).
  - exact asked.
  - reflexivity.
  - exact answering_serves.
  - vm_compute. reflexivity.
  - exact answers_good.
  - apply (bool_decide_unpack _). vm_compute. exact I.
  - exact answers_accepted.
  - reflexivity.
  - reflexivity.
  - right. split; [done|]. exists (MsgStream_new NETWORK_ORDER). split_and!; reflexivity.
  - cbn. lia.
  - pose proof answered_server_bytes as Hb. rewrite Hds' in Hb. cbn [answered_bytes] in Hb. rewrite Hs in Hb. apply (inj Some) in Hb.
    destruct (Hclient answer_buffers) as (c2 & Hrun & Hresp & _).
    + repeat constructor; vm_compute; congruence.
    + rewrite Hb. vm_compute. reflexivity.
    + apply answer_cuts.
    + exists c2. split; [exact Hrun|]. split.
      * destruct (Hresp 100 (sent_message 11 1 (small_msg 5)) (sent_message 11 1 (small_msg 7)) 50) as (p & rsp & Hw & Hh & Hv & _).
        -- by left.
        -- vm_compute. reflexivity.
        -- right. by left.
        -- reflexivity.
        -- exists p, rsp. split; [exact Hw|]. split; [exact Hh|exact Hv].
      * destruct (Hresp 200 (sent_message 12 0 (small_msg 6)) (sent_message 12 0 (small_msg 8)) 50) as (p & rsp & Hw & Hh & Hv & _).
        -- right. by left.
        -- vm_compute. reflexivity.
        -- by left.
        -- reflexivity.
        -- exists p, rsp. split; [exact Hw|]. split; [exact Hh|exact Hv].
Defined.
