(* ===== verification/Conversation.v ===== *)
(** * Requests and their answers

    The files ClientStack and ServerStack put together: a program sends requests over a stream
    client, the server behind a stream server handles them and answers, and each of the
    threads that wait gets the answer to its own request. *)

From Stdlib Require Import ZArith Lia.
From stdpp Require Import gmap.
From coqutil Require Import Byte.
From S2P Require Import Tcp Pipe.
From S2P Require Import Prelude Errors StrSearch Io Serializable Segmented Msg Frame Connection Assembler RequestPool Client.
From S2P Require Import Multiplexer Server Service EndToEnd Reply Transport DClient StreamClient ClientStack ServerStack.
Open Scope Z_scope.

(** ** Definitions *)

(** the network has carried [bytes] in the buffers [bs]: in order, cut in any way that keeps
    headers whole *)
Definition carried (net : bool) (B : Z) (bytes : list Byte.byte) (bs : list BufferNode) : Prop :=
  concat (map node_bytes bs) = bytes /\
  Forall (fun b => node_ok b /\ 0 < bn_length b <= B /\ bn_length b < 2 ^ 31) bs /\
  forall bs1 bs2, bs = bs1 ++ bs2 -> clean_cut net B (concat (map node_bytes bs1)).

(** an answer is a message that names the request it was made for *)
Definition answers (answer : Msg -> Msg) : Prop :=
  forall m, good_msg m -> good_msg (answer m) /\ names (answer m) = names m.

(** the key of a request, with which its sender waits *)
Definition request_data (m : Msg) : MsgRequestData :=
  MkMsgRequestData (m_requestId (msg_header m)) (m_requestIndex (msg_header m)).

(** ** What the answers name *)

Lemma Forall2_same {A B} (R : A -> B -> Prop) l k k' : (forall a b b', R a b -> R a b' -> b = b') ->
  Forall2 R l k -> Forall2 R l k' -> k = k'.
Proof.
  intros Hfun Hk. revert k'. induction Hk as [|a b l k Hab Hk IH]; intros k' Hk'; inversion Hk' as [|? b' ? ? Hab' Hk2]; subst; [done|].
  f_equal; [by eapply Hfun|by apply IH].
Qed.

Lemma answers_names answer ms : answers answer -> Forall good_msg ms -> map names (map answer ms) = map names ms.
Proof.
  intros Ha Hms. rewrite map_map. apply map_ext_in. intros m Hm. rewrite List.Forall_forall in Hms. by apply Ha, Hms.
Qed.

Lemma answers_all_good answer ms rs : answers answer -> Forall good_msg ms -> rs ≡ₚ map answer ms -> Forall good_msg rs.
Proof.
  intros Ha Hms ->. apply List.Forall_forall. intros r (m & <- & Hm)%in_map_iff. rewrite List.Forall_forall in Hms. by apply Ha, Hms.
Qed.

Lemma answers_apart answer ms rs : answers answer -> Forall good_msg ms -> NoDup (map (fun m => fst (names m)) ms) ->
  rs ≡ₚ map answer ms -> NoDup (map names rs).
Proof.
  intros Ha Hms Hnd Hp. apply (fmap_Permutation names) in Hp. change (map names rs ≡ₚ map names (map answer ms)) in Hp.
  rewrite Hp, (answers_names answer ms Ha Hms). rewrite <- map_map in Hnd. by eapply NoDup_fmap_1.
Qed.

(** ** The conversation *)

Section Conversation.
Context {T U : Type} `{StreamTransport T U} `{DataListener U} `{DataLoopListener U}.
Context {V : Type} `{MsgListener V} `{MsgRequestListener V}.
Context {T2 W : Type} `{StreamServer T2 W}.
Context {L : Type} `{Gzip} `{FrameListener ConnectionDetails L} `{MsgSessionFactory L} `{MsgSessionListener L}.

(** C1. A whole conversation over TCP or pipes, from sendMsg to the return of the threads that
    wait. A client sends requests that have a payload; when the loops have served their asynchronous requests,
    what the one endpoint gave to uv_write is what the other one receives, cut in any way
    that keeps headers whole, and the server is called in any interleaving with other
    connections and with its workers. Then the workers handle the requests in the order
    in which they were sent. If the server answers each of them, in whatever order, each
    thread that waits for a request returns, whatever its timeout, with the answer to the
    message that it sent, and the entry of the request is vacant again. *)
Theorem conversation alloc now flags msgs (c c1 : MsgClient (StackClient T U) V) (dc : DClient (StreamClient T) U) hc st
    n k core (ds0 : StackServer T2 W) answer B fuel :
  let order := dk_byteOrder dc in
  let net := bool_decide (order = NETWORK_ORDER) in
  Z.land flags COMMUTIL_REQUEST_FLAG_REUSE = 0 ->
  (forall n, 0 <= n -> exists buffer, alloc n = Some buffer /\ zlen buffer = n) ->
  pool_ok (mc_requestPool c) -> 0 <= p_nextRequestId (mc_requestPool c) < 2 ^ 64 ->
  mc_dataClient c = Some (MkStackClient (Done dc) []) -> connected hc dc -> written (uv_calls (dk_env dc)) = [] ->
  receives_on st c -> in_step net B st [] ->
  NoDup msgs -> Forall (fun a => exists m, mc_heap c !! a = Some m /\ good_msg m) msgs ->
  client_sends alloc now flags msgs c = Done (true, c1) ->
  0 < k < 2 ^ 32 -> 0 <= n < 2 ^ 32 -> (2 * length msgs + 3 <= fuel)%nat -> answers answer ->
  exists dc1 reqs dc2, mc_dataClient c1 = Some (MkStackClient (Done dc1) reqs) /\ serve reqs dc1 = Done dc2 /\
  forall d es1 es2 s, 0 <= cd_connIndex d < n ->
    Forall (fun e => event_index e <> Some (cd_connIndex d)) es1 -> Forall (only_bytes d) es2 ->
    carried net B (written (uv_calls (dk_env dc2))) (conn_buffers (cd_connIndex d) es2) ->
    server_run fuel alloc_all (es1 ++ SE_connect d 0 :: es2) (server_ready (L := L) ds0 n k order core) = Done s ->
  exists ms s1, server_run fuel alloc_all (map SE_work (seqZ 0 k)) s = Done s1 /\
    conn_evts (cd_connIndex d) (map snd (sy_handled (sv_system s1))) = ET_CONNECT d 0 :: map (ET_MSG d) ms /\
    Forall2 (sent_as c) msgs ms /\
  forall rs ds h s2, rs ≡ₚ map answer ms -> serving (cd_connIndex d) h ds -> written_to h (uv_calls (dv_env ds)) = [] ->
    server_replies d rs (Server.set_dataServer (Some (MkStackServer (Done ds) order [] None)) s1) = Done (true, s2) ->
  exists ds1 reqs2 b ds2, sv_dataServer s2 = Some (MkStackServer (Done ds1) order reqs2 b) /\
    serve_replies reqs2 ds1 = Done ds2 /\
  forall dcl bs, cd_connIndex dcl = 0 -> carried net B (written_to h (uv_calls (dv_env ds2))) bs ->
  exists c2, client_run fuel alloc_all (map (CV_bytes dcl) bs) c1 = Done c2 /\
  forall a, a ∈ msgs -> exists m, mc_heap c1 !! a = Some m /\ m ∈ ms /\
  forall timeout, exists p rsp,
    waitPendingResponse (request_data m) timeout [] None (mc_requestPool c2) = Done (E_OK, Some rsp, p) /\
    mc_heap c2 !! rsp = Some (answer m) /\ vacant_at p (m_requestIndex (msg_header m)).
Proof.
  intros order net Hf Ha Hok Hid Hd Hc Hnone Hrec Hst Hnd Hms Hsend Hk Hn Hfuel Hans.
  destruct (sends_served alloc now flags msgs c c1 dc hc Hf Ha Hok Hid Hd Hc Hnd Hms Hsend)
    as (dc1 & reqs & dc2 & Hd1 & Hs1 & Hwire). exists dc1, reqs, dc2. split; [done|]. split; [done|].
  intros d es1 es2 s Hi Hes1 Hes2 (Hbytes & Hbs & Hcut) Hrun.
  destruct (client_messages_ok alloc now flags msgs c c1 (MkStackClient (Done dc) []) (MkStackClient (Done dc1) reqs)
    n k order core ds0 d B es1 es2 fuel s) as (ms & s1 & Hrun1 & Hev & [Hsent _] & Hheap & Hgood); try done.
  { exists hc, dc. split; [done|split; [done|constructor|constructor]]. }
  { cbn. by rewrite Hnone. }
  { by rewrite Hbytes, Hwire. }
  exists ms, s1. split; [done|]. split; [done|]. split; [done|].
  intros rs ds h s2 Hp Hserv Hidle Hrep.
  destruct (sends_pending alloc now flags Hf Ha msgs c _ c1 Hok Hid Hd Hnd Hms Hsend) as (ms' & Hheap' & _ & Hapart & _).
  assert (ms' = ms) as -> by (eapply Forall2_same; [|exact Hheap'|exact Hheap]; cbv beta; congruence).
  pose proof (answers_all_good answer ms rs Hans Hgood Hp) as Hrs. pose proof (answers_apart answer ms rs Hans Hgood Hapart Hp) as Hrnd.
  assert (Hlen : length rs = length msgs) by (by rewrite Hp, length_map, (Forall2_length Hheap)).
  set (s1' := Server.set_dataServer _ s1) in Hrep.
  destruct (replies_served s1' s2 ds h order d rs eq_refl Hserv Hrs Hrep) as (ds1 & reqs2 & b & ds2 & Hds1 & Hs2 & Hwire2).
  destruct (idle_promise ds h order d Hserv Hidle) as [Hwok Hw0].
  exists ds1, reqs2, b, ds2. split; [done|]. split; [done|]. intros dcl bs Hdcl (Hbytes2 & Hbs2 & Hcut2).
  edestruct (requests_answered_ok (H3 := stack_reply_wire h) alloc now flags msgs c c1 (MkStackClient (Done dc) [])
    s1' s2 (MkStackServer (Done ds) order [] None) (MkStackServer (Done ds1) order reqs2 b) d rs fuel dcl net B st bs)
    as (c2 & Hrun2 & Hgot & _); try done; [by rewrite Hbytes2, <- Hwire2|by rewrite Hlen|].
  exists c2. split; [done|]. intros a [i Hia]%list_elem_of_lookup.
  destruct (Forall2_lookup_l _ _ _ _ _ Hheap Hia) as (m & Him & Hm). apply list_elem_of_lookup_2 in Hia, Him.
  exists m. split; [done|]. split; [done|]. intros timeout.
  destruct (Hgot a m (answer m) timeout Hia Hm) as (p & rsp & Hwait & Hrsp & Hv & _).
  - rewrite Hp. by apply list_elem_of_fmap_2.
  - rewrite List.Forall_forall in Hgood. by apply Hans, Hgood, list_elem_of_In.
  - by exists p, rsp.
Qed.
End Conversation.

(** ** Witness *)

#[local] Existing Instances Transport.sample_listener DClient.sample_loop_listener.
#[local] Existing Instances Client.sample_callbacks Client.sample_request_listener.
#[local] Existing Instances tag_gzip record_frames no_factory record_sessions.
#[local] Existing Instances Client.sample_transport EndToEnd.sample_wire.

(** each request is answered by a message of three bytes *)
Definition sample_answer (m : Msg) : Msg :=
  sent_message (m_requestId (msg_header m)) (m_requestIndex (msg_header m)) (small_msg (u16 (m_msgId (msg_header m) + 2))).

Lemma sample_answer_ok : answers sample_answer.
Proof. intros m ((Hh & _) & _). split; [|done]. apply sent_good; [apply Hh|apply Hh|apply u16_range]. Qed.

(** the client of the file ClientStack, with a stream that waits for messages *)
Definition talking_client : MsgClient (StackClient TcpClient unit) (list Msg) :=
  set_assembler (MkMsgAssembler (Some [stream_reset (MsgStream_new NETWORK_ORDER)]) 1) over_tcp.

Definition talked_client : MsgClient (StackClient TcpClient unit) (list Msg) :=
  snd (result_of (false, talking_client) (client_sends sample_alloc 10 0 [100; 200] talking_client)).

Lemma talked : client_sends sample_alloc 10 0 [100; 200] talking_client = Done (true, talked_client).
Proof. apply result_of_accepted. vm_compute. reflexivity. Qed.

Lemma talked_bytes : served_bytes (mc_dataClient talked_client) = Some (wire sent_transport).
Proof. vm_compute. reflexivity. Qed.

(** the server behind the TCP server of the file ServerStack *)
Definition idle_tcp : StackServer Tcp.TcpServer unit := MkStackServer (Done serving_tcp) NETWORK_ORDER [] None.

Definition listening_server : MsgServer (StackServer Tcp.TcpServer unit) (list Server.server_call) :=
  server_ready idle_tcp 3 2 NETWORK_ORDER (core_initial 3 NETWORK_ORDER true []).

Definition asked_server : MsgServer (StackServer Tcp.TcpServer unit) (list Server.server_call) :=
  result_of listening_server (server_run 9 alloc_all (sample_es1 ++ SE_connect (sample_conn_at 0 7) 0 :: wire_events) listening_server).

Lemma asked_server_run :
  server_run 9 alloc_all (sample_es1 ++ SE_connect (sample_conn_at 0 7) 0 :: wire_events) listening_server = Done asked_server.
Proof. apply result_of_done. vm_compute. reflexivity. Qed.

(** the workers have run *)
Definition working_server : MsgServer (StackServer Tcp.TcpServer unit) (list Server.server_call) :=
  result_of asked_server (server_run 9 alloc_all (map SE_work (seqZ 0 2)) asked_server).

Lemma working_server_run : server_run 9 alloc_all (map SE_work (seqZ 0 2)) asked_server = Done working_server.
Proof. apply result_of_done. vm_compute. reflexivity. Qed.

Definition two_requests : list Msg := [sent_message 11 1 (small_msg 5); sent_message 12 0 (small_msg 6)].

Lemma events_messages d ms : forall ms', ET_CONNECT d 0 :: map (ET_MSG d) ms = ET_CONNECT d 0 :: map (ET_MSG d) ms' -> ms = ms'.
Proof.
  intros ms' Heq. apply (f_equal tail) in Heq. cbn [tail] in Heq. revert ms' Heq.
  induction ms as [|m ms IH]; intros [|m' ms'] Heq; try done. cbn [map] in Heq. injection Heq as -> Heq. by rewrite (IH ms').
Qed.

Lemma working_server_events : conn_evts 0 (map snd (sy_handled (sv_system working_server))) =
  ET_CONNECT (sample_conn_at 0 7) 0 :: map (ET_MSG (sample_conn_at 0 7)) two_requests.
Proof. vm_compute. reflexivity. Qed.

(** the answers of the file ServerStack *)
Definition replying_server : MsgServer (StackServer Tcp.TcpServer unit) (list Server.server_call) :=
  Server.set_dataServer (Some idle_tcp) working_server.

Definition replied_server : MsgServer (StackServer Tcp.TcpServer unit) (list Server.server_call) :=
  snd (result_of (false, replying_server) (server_replies (sample_conn_at 0 7) sample_answers replying_server)).

Lemma replied : server_replies (sample_conn_at 0 7) sample_answers replying_server = Done (true, replied_server).
Proof. apply result_of_accepted. vm_compute. reflexivity. Qed.

Lemma replied_bytes : answered_bytes (sv_dataServer replied_server) = Some (msgs_image true sample_answers).
Proof. vm_compute. reflexivity. Qed.

Lemma talked_heap : mc_heap talked_client !! 100 = Some (sent_message 11 1 (small_msg 5)) /\
  mc_heap talked_client !! 200 = Some (sent_message 12 0 (small_msg 6)).
Proof. split; vm_compute; reflexivity. Qed.

Lemma conversation_witness : exists c2,
  client_run 9 alloc_all (map (CV_bytes (sample_conn_at 0 7)) answer_buffers) talked_client = Done c2 /\
  (exists p rsp, waitPendingResponse (MkMsgRequestData 11 1) 50 [] None (mc_requestPool c2) = Done (E_OK, Some rsp, p) /\
     mc_heap c2 !! rsp = Some (sent_message 11 1 (small_msg 7)) /\ vacant_at p 1) /\
  (exists p rsp, waitPendingResponse (MkMsgRequestData 12 0) 50 [] None (mc_requestPool c2) = Done (E_OK, Some rsp, p) /\
     mc_heap c2 !! rsp = Some (sent_message 12 0 (small_msg 8)) /\ vacant_at p 0).
Proof.
  destruct (@conversation TcpClient unit tcp_client Transport.sample_listener DClient.sample_loop_listener
    (list Msg) Client.sample_callbacks Client.sample_request_listener
    Tcp.TcpServer unit Tcp.tcp_transport tcp_stream_server
    (list Server.server_call) tag_gzip record_frames no_factory record_sessions sample_alloc 10 0 [100; 200] talking_client talked_client
    (sample_up []) H_client (stream_reset (MsgStream_new NETWORK_ORDER)) 3 2 (core_initial 3 NETWORK_ORDER true [])
    idle_tcp sample_answer 100 9) as (dc1 & reqs & dc2 & Hd & Hs & Hserver).
  - vm_compute. reflexivity.
  - intros n Hn. exists (replicate (Z.to_nat n) NUL). split; [reflexivity|]. by rewrite zlen_replicate; lia.
  - vm_compute. split; reflexivity.
  - vm_compute. split; [discriminate|reflexivity].
  - reflexivity.
  - apply sample_connected.
  - vm_compute. reflexivity.
  - reflexivity.
  - right. split; [done|]. exists (MsgStream_new NETWORK_ORDER). split_and!; reflexivity.
  - apply (bool_decide_unpack _). vm_compute. exact I.
  - constructor; [exists (small_msg 5)|constructor; [exists (small_msg 6)|constructor]];
      (split; [vm_compute; reflexivity|apply small_msg_good; lia]).
  - exact talked.
  - lia.
  - lia.
  - cbn. lia.
  - exact sample_answer_ok.
  - pose proof talked_bytes as Hb. rewrite Hd in Hb. cbn [served_bytes] in Hb. rewrite Hs in Hb. apply (inj Some) in Hb.
    destruct (Hserver (sample_conn_at 0 7) sample_es1 wire_events asked_server) as (ms & s1 & Hrun & Hev & _ & Hreply).
    + vm_compute. split; [discriminate|reflexivity].
    + repeat constructor; discriminate.
    + repeat constructor; discriminate.
    + split; [rewrite Hb; vm_compute; reflexivity|]. split; [repeat constructor; vm_compute; congruence|]. apply wire_cuts.
    + exact asked_server_run.
    + rewrite working_server_run in Hrun. apply Done_inj in Hrun as <-.
      change (cd_connIndex (sample_conn_at 0 7)) with 0 in Hev. rewrite working_server_events in Hev.
      apply events_messages in Hev as <-.
      destruct (Hreply sample_answers serving_tcp (H_socket2 0) replied_server) as (ds1 & reqs2 & b & ds2 & Hds1 & Hs2 & Hclient).
      * exact (Permutation_swap (sent_message 11 1 (small_msg 7)) (sent_message 12 0 (small_msg 8)) []).
      * exact answering_serves.
      * vm_compute. reflexivity.
      * exact replied.
      * pose proof replied_bytes as Hb2. rewrite Hds1 in Hb2. cbn [answered_bytes] in Hb2. rewrite Hs2 in Hb2. apply (inj Some) in Hb2.
        destruct (Hclient (sample_conn_at 0 7) answer_buffers) as (c2 & Hrun2 & Hgot); [reflexivity| |].
        { split; [rewrite Hb2; vm_compute; reflexivity|]. split; [repeat constructor; vm_compute; congruence|]. apply answer_cuts. }
        exists c2. split; [exact Hrun2|]. destruct talked_heap as [Hh1 Hh2]. split.
        -- destruct (Hgot 100) as (m & Hm & _ & Hw); [by left|]. rewrite Hh1 in Hm. injection Hm as <-. exact (Hw 50).
        -- destruct (Hgot 200) as (m & Hm & _ & Hw); [right; by left|]. rewrite Hh2 in Hm. injection Hm as <-. exact (Hw 50).
Defined.
